(* ===== verification/_CoqProject ===== *)
-Q . S2P
Prelude.v
StdMap.v
DataBuffer.v
SchedErrors.v
Tlv.v
SchedUtils.v
Json.v
SoftbusSession.v
SoftbusCodec.v
SoftbusTransfer.v
SoftbusAdapter.v
SoftbusAdapterProps.v
CollabHeader.v
CollabChannel.v
CollabTransfer.v
MessageHeader.v
StreamData.v
ChannelManager.v
ChannelManagerProps.v
ChannelManagerLife.v
ContinueInfo.v
ContinueSession.v
ContinueCmd.v
ContinueOps.v
ContinueSpec.v
ContinueRefine.v
ContinueDemo.v
ContinueCmdProps.v
ContinueProps.v
ContinueLife.v
ContinueManager.v
ContinueManagerProps.v
CollabCmd.v
CollabSession.v
CollabOps.v
CollabStates.v
CollabSpec.v
CollabRefine.v
CollabProps.v
CollabKeeps.v
CollabManager.v
CollabManagerProps.v
CollabManagerLife.v
CollabHandshake.v
Permission.v
PermissionProps.v
AbilityConnection.v
AbilityConnectionProps.v
AbilityConnectionLife.v
MissionCondition.v
MissionSend.v
MissionSendProps.v
MissionOffer.v
MissionRecv.v
MissionRecvProps.v
MissionDock.v
SelectionService.v
SelectionProps.v
SelectionLife.v
IpcParcel.v
SelectionIpc.v
WantValue.v
WantText.v
WantTextProps.v
WantParcel.v
DistWant.v
DistWantProps.v
RemoteAbility.v
RemoteAbilityProps.v
OldContinue.v
OldContinueProps.v
Users.v
BundleInfo.v
BundleStore.v
BundleStoreProps.v
SchedWire.v
SchedIpc.v
SchedIpcProps.v
MissionSync.v
MissionSyncProps.v
