(* ===== verification/Prelude.v ===== *)
(** * Verification of the distributed scheduler framework (dmsfwk)

    The framework moves a running ability from one device to another
    (continuation) and lets abilities of two devices work together
    (collaboration). This library models both from the bytes of the transport to
    the state machines and managers that drive them, with the commands they
    exchange and the permissions they ask for, and the connections between
    applications that a collaboration opens.

    ** Parts of the program and where they are modelled

    - The transport of the scheduler service
      (services/dtbschedmgr/src/softbus_adapter/transport).
      - [DataBuffer]: dsched_data_buffer.cpp and its twin
        av_trans_data_buffer.cpp: an array with a range; copies that leave the
        array are the outcome [BufUB].
      - [Tlv]: type-length-value items shared by both packet formats.
      - [SoftbusSession]: dsched_softbus_session.cpp, the state of
        [DSchedSoftbusSession] (the message under assembly and the reference
        count) and all its methods: the 49-byte header, fragmentation,
        assembly.
      - [SoftbusCodec], [SoftbusTransfer]: the header as a codec; the receiver
        as a refinement of an abstract assembler ([astep]); whole transfers.
      - [SoftbusAdapter], [SoftbusAdapterProps]:
        dsched_transport_softbus_adapter.cpp, the tables of sessions and
        listeners ([StdMap]: a [std::map] with integer keys), connecting,
        disconnecting, callbacks of softbus.
    - The channels of collaboration (services/dtbcollabmgr/src/channel_manager).
      - [CollabHeader]: session_data_header.cpp, [Serialize] and [Deserialize].
      - [CollabChannel], [CollabTransfer]: data_sender_receiver.cpp; the receiver
        as a refinement of an abstract assembler ([cstep]).
      - [StreamData]: av_trans_stream_data.cpp, the description of a frame.
      - [ChannelManager], [ChannelManagerProps], [ChannelManagerLife]:
        channel_manager.cpp, the tables of channels, sockets and listeners, the
        events of softbus, the tasks and callbacks that wait; the invariant of
        the tables; what happens over several steps.
    - The connections of applications
      (services/dtbcollabmgr/src/ability_connection_manager).
      - [MessageHeader]: message_data_header.cpp.
      - [AbilityConnection], [AbilityConnectionProps], [AbilityConnectionLife]:
        ability_connection_session.cpp and ability_connection_manager.cpp
        composed with the channel manager.
    - A continuation (services/dtbschedmgr/src/continue).
      - [ContinueInfo]: the comparisons of dsched_continue.h and the search for
        the ability of the sink.
      - [ContinueCmd], [ContinueCmdProps]: dsched_continue_event.cpp, the commands
        as JSON ([Json]: the tree of cJSON; [SchedUtils]: Base64, parcels,
        integers as decimal texts).
      - [ContinueSession], [ContinueOps]: dsched_continue.cpp, the state of
        [DSchedContinue], its commands and events, its methods in a state
        monad, the eight states, the state machine, the processing of events.
      - [ContinueSpec], [ContinueRefine]: footprints of the methods, the abstract
        transition system ([trans]) and the refinement to it.
      - [ContinueProps], [ContinueLife]: order and termination,
        reports of the end, the checks before an ability is started.
      - [ContinueManager], [ContinueManagerProps]: dsched_continue_manager.cpp,
        the table of continuations ([StdMap] also has a [std::map] with a
        comparison of its own), the tasks of its event handler, timeouts, the limit of
        concurrent continuations, the callbacks of a quick start.
      - [ContinueDemo]: a concrete ability framework and surroundings.
    - A collaboration (services/dtbschedmgr/src/collab).
      - [CollabCmd]: dsched_collab_event.cpp, its commands.
      - [CollabSession], [CollabOps], [CollabStates]: dsched_collab.cpp, its
        states and state machine, with concrete surroundings.
      - [CollabSpec], [CollabRefine], [CollabProps], [CollabKeeps]: the abstract
        transition system ([ctrans]), the refinement to it, ends, checks and
        termination.
      - [CollabManager], [CollabManagerProps], [CollabManagerLife]:
        dsched_collab_manager.cpp, the table of sessions and the delayed tasks.
      - [CollabHandshake]: a source and the manager of its
        peer; a source and the transport below it.
    - [Permission], [PermissionProps]: distributed_sched_permission.cpp and the
      checks of the service that call it.
    - The offer of a mission to other devices (services/dtbschedmgr/src/mission).
      - [MissionCondition]: dms_continue_condition_manager.cpp, the
        missions of each user and the conditions for an offer.
      - [MissionSend], [MissionSendProps], [MissionOffer]: the sender of
        broadcasts with its strategies, tasks and screen locks, and the events
        that drive it.
      - [MissionRecv], [MissionRecvProps], [MissionDock]: the receiver with the
        listeners of the dock; a sender and a receiver together.
      - [Users]: multi_user_manager.cpp, the managers of all users and the
        change of the user; dms_continue_recommend_manager.cpp; the broadcast
        adapter softbus_adapter.cpp with its retries.
    - The selection of a device (services/dtbabilitymgr).
      - [SelectionService], [SelectionProps], [SelectionLife]:
        distributed_ability_manager_service.cpp, tokens, listeners, the panel.
      - [IpcParcel], [SelectionIpc]: the message parcel as an interface with
        laws; the proxy, the stub and the parcels of the service.
    - Wants that cross devices (services/dtbschedmgr/src/distributedWant).
      - [WantValue], [WantText], [WantTextProps]: the parameters, the text of
        nested parameters and its parser.
      - [WantParcel]: the message of the parameters.
      - [DistWant], [DistWantProps]: the want and its operation, its message and
        its JSON document.
    - The service itself (services/dtbschedmgr/src/distributed_sched_service.cpp).
      - [RemoteAbility], [RemoteAbilityProps]: connections and calls to abilities
        of other devices, with the deaths that distributed_sched_adapter.cpp hands on.
      - [OldContinue], [OldContinueProps]: continuations by mission, free
        installs and listeners of events, with distributed_sched_continuation.cpp,
        dms_callback_task.cpp and dsched_collaborate_callback_mgr.cpp.
    - The storage of bundles (services/dtbschedmgr/src/mission).
      - [BundleInfo]: distributed_bundle_info.cpp and json_util.h, the records of
        a bundle, their documents and their parcels.
      - [BundleStore], [BundleStoreProps]: distributed_bm_storage.cpp over the
        distributed database, with the callers in bundle_manager_internal.cpp and
        common_event_listener.cpp.
    - The interface of the service between processes and devices.
      - [SchedWire]: readers and writers of messages (parcel_helper.h), missions
        in messages (distributed_mission_info.cpp, mission_info_converter.cpp,
        snapshot_converter.cpp), the extra information of a caller, versions
        (dms_version_manager.cpp).
      - [SchedIpc]: distributed_sched_stub.cpp with its tables of codes,
        distributed_sched_proxy.cpp, and the clients of applications
        (distributed_client.cpp, dms_client.cpp, js_continuation_state_client.cpp).
      - [SchedIpcProps]: a calculus that relates what is written to what is read,
        and the theorems on calls.
    - The missions of other devices (services/dtbschedmgr/src/mission).
      - [MissionSync]: distributed_sched_mission_manager.cpp, the pictures
        (snapshot.cpp) and their database (distributed_data_storage.cpp), the
        listeners (mission_changed_notify.cpp, distributed_data_change_listener.cpp,
        distributed_mission_change_listener.cpp).
      - [MissionSyncProps]: its invariant, two devices that follow each other, the
        stored form of a picture.
    - [SchedErrors]: the result codes.

    A continuation or a collaboration sends its commands through the adapter,
    which fragments them through a session; the peer's adapter assembles them and
    hands them to the listeners of the service type, from where they become events.
    Each layer takes the one below as a parameter with the behaviour that the
    layer below is shown to have: [Env] has [ConnectDevice] and [SendData],
    [SendEnv] and [AdapterEnv] have the calls of softbus. The sessions of
    applications call the channel manager itself: one state holds both.

    ** Conventions

    Integers are [Z] with the conversions [u8], [u16], [u32], [u64] and [i32]
    wherever the C++ converts or can wrap around. Bytes are integers below 256.
    An access outside an array is a value of its own (the [..UB] outcomes, or
    [None] where the comment says so), so that its absence is a theorem. Calls of
    other services are recorded in order; what they answer is a function of the
    calls made before (continuations), of the number of the call (transport), or
    one answer for each step (adapter and manager).
    Logging and the threads of the services are not modelled. Each public method is
    one step, but where the code releases a lock between a check and the entry
    it guards and the claim depends on it: there the two are steps of their own
    ([connect_check] and [connect_attempt] of the connections of abilities,
    [lock_step] of the selection), and other threads may come between.

    ** What the theorems show

    - Transport: the header codec round trip and its bounds on arbitrary bytes;
      the receiver refines the abstract assembler on arbitrary packets; sending
      ends, and what softbus takes arrives exactly, once, at exactly the listeners of its
      type; reference counts are balanced, the last user closes the socket,
      failed connections leave nothing behind; the tables stay well formed.
    - Channels: the same for their header and receiver, and the two places where
      they copy more than there is; the tables stay consistent under every
      sequence of calls and events; a name leads a peer to its channel; bytes
      of the lengths that are cut without over-reading
      reach exactly the listeners of the peer; a channel that is deleted or has
      lost its last socket leaves nothing behind.
    - Connections of applications: sessions, channels and the tables of
      connecting sessions stay consistent under every interleaving; a pair that is
      connecting cannot connect again; a destroyed session has told its peer and
      given up everything; a message arrives as sent, with one zero
      more; a second call of Connect ends the first connection.
    - Commands: what can be sent is read back, but for the fields that the format
      does not carry; Base64 is inverted.
    - Continuation and collaboration: every event refines the transition system
      whatever the surroundings answer; the handlers come to rest; failures are
      reported and end the session; the callback of a continuation is called at
      most once; an ability is started only after all checks; the source mission is
      cleaned up only after success.
    - Managers: their tables stay well formed under every interleaving; a
      continuation that is accepted holds the place of its side until it ends; a session
      that ends or whose time is over is removed, and only this one; a request of
      a source opens a session on its peer; the counter of the limit drifts with
      the continuations that peers start; a source collaboration leaves a
      connection open.
    - Missions: an offer goes out and is withdrawn as the focus, the switch and the
      screen say, and reaches the dock of the other device; the tables of sender
      and receiver stay well formed; users do not disturb each other, and the
      change of the user withdraws the icon from the dock and takes over the listener
      that waited for it.
    - Selection: tokens and listeners stay consistent, and bounded by the limit and
      the registrations that run at a time; a call through
      proxy, message and stub is the call of the service; the devices chosen in the
      panel reach the application that asked.
    - Wants: a message is read back, each parameter in the form in which it
      arrives; the text of nested
      parameters is inverted where the parser takes it; one text on which the
      parser never ends.
    - The service: the count of connections of a user is exact, and limited but for the threads
      that passed the check at the same time; the
      death of a process and an offline device remove exactly what belongs to
      them, a state change finds its caller; every callback of a
      continuation by mission is told at most once, and it is told or still waits; a
      continuation between two devices completes or fails as its result says.
    - Bundles: each saved bundle of a device has a number of its own; the start of
      the service and the rebuilding end, and number what is installed, from a
      database in order; a number or a continue type that is unique resolves on the
      peer to the bundle that it stands for.
    - Interface: a call through proxy, message and stub is the call of the
      service with what the protocol carries, where the texts of the message can be
      parsed; the stub does nothing for a caller
      that may not call; a collaboration is asked for in the name of the calling
      process; missions come back as they were found.
    - Missions of other devices: the tables are consistent with the observers of
      deaths in every history, and no task is tried for ever; a device shows the
      missions that the other one told it last, a change reaches every listener; a
      stored picture is read back.
    - Permissions: the decision on a start equals its declarative conditions; a
      collaboration starts only what its caller may reach.

    ** Fuel

    [read_loop] (both headers) has one unit of fuel for each byte it may read and
    consumes at least four bytes a turn; [unpack_loop] and [send_loop] have one
    unit for each byte of the message and one more. The theorems on the parsers,
    on [UnPackSendData] and on the transfers show that the fuel is not used up.
    [drain] is given [measure s]: an end event weighs 1, every other event 2, a
    continuation that has not ended 1. The loop of [GenerateCollabToken] has one
    unit more than there are sessions, since each round makes another text. The
    parser of the texts of wants has a fuel of its own ([f] in [OnRemoteRequest]);
    the theorems on messages show that enough of it gives the result.

    ** Not modelled, and the plan

    The printer and parser of cJSON, the ability framework, the bundle manager,
    the access token and account services, the scene board and softbus are
    parameters, with their documented behaviour as hypotheses where a theorem
    needs it. The engines of streams, surfaces and codecs are glue around the media
    framework; the wants of the second format (distributedWantV2) repeat the first
    over classes of the ability framework, whose code is elsewhere. The storage of
    devices, the start-up of the service and its forms, the language bindings and
    the diagnosis are left out: wrappers of other services and reports. *)

From Stdlib Require Export ZArith Lia Bool.
From stdpp Require Export base list numbers option strings.

#[global] Open Scope Z_scope.

(** ** Machine integers

    A C++ unsigned integer of width [w] is a [Z] in [[0, 2^w)]; the
    conversions below are the language's modular conversions. *)

Definition u8 (x : Z) : Z := x mod 256.
Definition u16 (x : Z) : Z := x mod 65536.
Definition u32 (x : Z) : Z := x mod 4294967296.
Definition u64 (x : Z) : Z := x mod 18446744073709551616.

(** Conversion to [int32_t]. *)
Definition i32 (x : Z) : Z := (x + 2147483648) mod 4294967296 - 2147483648.

Definition is_i32 (x : Z) : Prop := -2147483648 <= x < 2147483648.

Definition is_u8 (x : Z) : Prop := 0 <= x < 256.
Definition is_u16 (x : Z) : Prop := 0 <= x < 65536.
Definition is_u32 (x : Z) : Prop := 0 <= x < 4294967296.

(** ** Automation *)

Create HintDb dms.
Create Rewrite HintDb dms.

(** [zb] turns the boolean comparisons of the code into propositions, both
    in the hypotheses and (by case analysis) in the goal. *)
Ltac zb_hyps :=
  repeat match goal with
  | H : (_ && _)%bool = true |- _ => apply andb_prop in H; destruct H
  | H : (_ || _)%bool = false |- _ => apply orb_false_elim in H; destruct H
  | H : negb _ = true |- _ => apply negb_true_iff in H
  | H : negb _ = false |- _ => apply negb_false_iff in H
  | H : (_ =? _) = true |- _ => apply Z.eqb_eq in H
  | H : (_ =? _) = false |- _ => apply Z.eqb_neq in H
  | H : (_ <? _) = true |- _ => apply Z.ltb_lt in H
  | H : (_ <? _) = false |- _ => apply Z.ltb_ge in H
  | H : (_ <=? _) = true |- _ => apply Z.leb_le in H
  | H : (_ <=? _) = false |- _ => apply Z.leb_gt in H
  end.

Ltac zb_case :=
  match goal with
  | |- context [?a =? ?b] => destruct (Z.eqb_spec a b)
  | |- context [?a <? ?b] => destruct (Z.ltb_spec a b)
  | |- context [?a <=? ?b] => destruct (Z.leb_spec a b)
  end; cbn [negb andb orb].

(** Decide one comparison of the goal by [lia]. *)
Ltac zb_true e := replace e with true by (symmetry; rewrite ?Z.eqb_eq, ?Z.ltb_lt, ?Z.leb_le; lia).
Ltac zb_false e := replace e with false by (symmetry; rewrite ?Z.eqb_neq, ?Z.ltb_ge, ?Z.leb_gt; lia).

Ltac zb_auto :=
  repeat match goal with
  | |- context [?a =? ?b] => first [zb_true (a =? b) | zb_false (a =? b)]
  | |- context [?a <? ?b] => first [zb_true (a <? b) | zb_false (a <? b)]
  | |- context [?a <=? ?b] => first [zb_true (a <=? b) | zb_false (a <=? b)]
  end; cbn [negb andb orb].

(** Linear arithmetic with division and modulo by constants. *)
Ltac zlia := unfold is_u8, is_u16, is_u32, u8, u16, u32, u64 in *;
  Z.div_mod_to_equations; lia.

Lemma u8_id x : is_u8 x -> u8 x = x.
Proof. intros; apply Z.mod_small; assumption. Qed.
Lemma u16_id x : is_u16 x -> u16 x = x.
Proof. intros; apply Z.mod_small; assumption. Qed.
Lemma u32_id x : is_u32 x -> u32 x = x.
Proof. intros; apply Z.mod_small; assumption. Qed.
Lemma i32_u32 x : is_i32 x -> i32 (u32 x) = x.
Proof. unfold is_i32, i32, u32. Z.div_mod_to_equations. lia. Qed.
Lemma u64_id x : 0 <= x < 18446744073709551616 -> u64 x = x.
Proof. intros; apply Z.mod_small; assumption. Qed.
#[export] Hint Rewrite u8_id u16_id u32_id u64_id using (unfold is_u8, is_u16, is_u32 in *; lia) : dms.

(** ** Byte arrays: length, slices and in-place writes *)

Definition len {A} (l : list A) : Z := Z.of_nat (length l).

(** [n] elements of [l] from position [off]. *)
Definition slice {A} (l : list A) (off n : Z) : list A :=
  take (Z.to_nat n) (drop (Z.to_nat off) l).

(** [l] with the elements from [off] on overwritten by [bs]. *)
Definition splice {A} (l : list A) (off : Z) (bs : list A) : list A :=
  take (Z.to_nat off) l ++ bs ++ drop (Z.to_nat off + length bs) l.

(** A zero-initialised array, [new uint8_t\[n\] {0}]. *)
Definition zeros (n : Z) : list Z := replicate (Z.to_nat n) 0.

Section ArrayLemmas.
Context {A : Type}.
Implicit Types l bs pre post : list A.

Lemma len_nonneg l : 0 <= len l.
Proof. unfold len; lia. Qed.

Lemma len_app l1 l2 : len (l1 ++ l2) = len l1 + len l2.
Proof. unfold len; rewrite length_app; lia. Qed.

Lemma len_cons (x : A) l : len (x :: l) = 1 + len l.
Proof. unfold len; cbn [length]; lia. Qed.

Lemma len_nil : len (@nil A) = 0.
Proof. reflexivity. Qed.

Lemma len_0_nil l : len l <= 0 -> l = [].
Proof. destruct l; [done|]. rewrite len_cons. pose proof (len_nonneg l); lia. Qed.

Lemma len_slice l off n :
  0 <= off -> 0 <= n -> off + n <= len l -> len (slice l off n) = n.
Proof. unfold len, slice. intros. rewrite length_take, length_drop. lia. Qed.

Lemma len_splice l off bs :
  0 <= off -> off + len bs <= len l -> len (splice l off bs) = len l.
Proof.
  unfold len, splice. intros. rewrite !length_app, length_take, length_drop. lia.
Qed.

Lemma slice_app_exact pre l post :
  slice (pre ++ l ++ post) (len pre) (len l) = l.
Proof.
  unfold slice, len. rewrite !Nat2Z.id, drop_app_length, take_app_length. done.
Qed.

Lemma slice_0 l n : slice l 0 n = take (Z.to_nat n) l.
Proof. done. Qed.

Lemma slice_all l : slice l 0 (len l) = l.
Proof. unfold slice, len. rewrite Nat2Z.id. cbn. apply take_ge; lia. Qed.

Lemma slice_app_r pre l n : slice (pre ++ l) (len pre) n = slice l 0 n.
Proof. unfold slice, len. rewrite Nat2Z.id, drop_app_length. done. Qed.

Lemma slice_0_app pre l : slice (pre ++ l) 0 (len pre) = pre.
Proof. unfold slice, len. rewrite Nat2Z.id. cbn. apply take_app_length. Qed.

(** Cutting [l] at [off] and [off + n]. *)
Lemma slice_split l off n :
  0 <= off -> 0 <= n -> off + n <= len l ->
  l = slice l 0 off ++ slice l off n ++ slice l (off + n) (len l - (off + n)).
Proof.
  unfold slice, len. intros. cbn [drop Z.to_nat].
  rewrite (take_ge (drop (Z.to_nat (off + n)) l)) by (rewrite length_drop; lia).
  rewrite Z2Nat.inj_add, <- drop_drop by lia.
  by rewrite take_drop, take_drop.
Qed.

Lemma slice_adjacent l off n m :
  0 <= off -> 0 <= n -> 0 <= m ->
  slice l off n ++ slice l (off + n) m = slice l off (n + m).
Proof.
  intros. unfold slice. rewrite !Z2Nat.inj_add by lia.
  rewrite <- drop_drop. set (d := drop (Z.to_nat off) l).
  rewrite <- (take_drop (Z.to_nat n) (take (Z.to_nat n + Z.to_nat m) d)).
  f_equal.
  - rewrite take_take. f_equal. lia.
  - rewrite skipn_firstn_comm. f_equal. lia.
Qed.

Lemma slice_Forall (P : A -> Prop) l off n : Forall P l -> Forall P (slice l off n).
Proof. intros. unfold slice. by apply Forall_take, Forall_drop. Qed.

Lemma splice_Forall (P : A -> Prop) l off bs :
  Forall P l -> Forall P bs -> Forall P (splice l off bs).
Proof.
  intros. unfold splice. rewrite !Forall_app. eauto using Forall_take, Forall_drop.
Qed.

Lemma splice_app pre old bs post :
  len old = len bs -> splice (pre ++ old ++ post) (len pre) bs = pre ++ bs ++ post.
Proof.
  unfold splice, len. intros H. rewrite Nat2Z.id, take_app_length.
  rewrite <- drop_drop, drop_app_length. replace (length bs) with (length old) by lia.
  by rewrite drop_app_length.
Qed.

Lemma splice_at pre bs rest :
  len bs <= len rest ->
  splice (pre ++ rest) (len pre) bs = pre ++ bs ++ drop (length bs) rest.
Proof.
  unfold splice, len. intros. rewrite Nat2Z.id, take_app_length.
  by rewrite <- drop_drop, drop_app_length.
Qed.

Lemma splice_tail pre bs rest :
  len bs = len rest -> splice (pre ++ rest) (len pre) bs = pre ++ bs.
Proof.
  intros H. rewrite splice_at by lia. rewrite drop_ge by (unfold len in H; lia).
  by rewrite app_nil_r.
Qed.

Lemma splice_all l bs : len bs = len l -> splice l 0 bs = bs.
Proof.
  unfold splice, len. intros. cbn. rewrite drop_ge by lia. apply app_nil_r.
Qed.
End ArrayLemmas.

Lemma len_zeros n : 0 <= n -> len (zeros n) = n.
Proof. unfold len, zeros. rewrite length_replicate. lia. Qed.

Lemma zeros_app n m : 0 <= n -> 0 <= m -> zeros (n + m) = zeros n ++ zeros m.
Proof. intros. unfold zeros. by rewrite Z2Nat.inj_add, replicate_add by lia. Qed.

Lemma drop_zeros n k : 0 <= k <= n -> drop (Z.to_nat k) (zeros n) = zeros (n - k).
Proof. intros. unfold zeros. rewrite drop_replicate. f_equal. lia. Qed.

#[export] Hint Rewrite @len_app @len_cons @len_nil : dms.
#[export] Hint Resolve len_nonneg : dms.

(** Arithmetic about array lengths. *)
Ltac lens :=
  autorewrite with dms in *; rewrite ?len_zeros by lia;
  repeat match goal with
  | |- context [len ?l] =>
      lazymatch goal with
      | _ : 0 <= len l |- _ => fail
      | _ => pose proof (len_nonneg l)
      end
  end; lia.

(** ** Little-endian integers

    [memcpy] of an integer object copies its object representation; the
    targets of the program (ARM, x86) are little-endian. *)

Fixpoint le_bytes (n : nat) (v : Z) : list Z :=
  match n with
  | O => []
  | S n' => v mod 256 :: le_bytes n' (v / 256)
  end.

Fixpoint le_val (l : list Z) : Z :=
  match l with
  | [] => 0
  | b :: l' => b + 256 * le_val l'
  end.

Lemma length_le_bytes n v : length (le_bytes n v) = n.
Proof. revert v; induction n; cbn; auto. Qed.

Lemma len_le_bytes n v : len (le_bytes n v) = Z.of_nat n.
Proof. unfold len. by rewrite length_le_bytes. Qed.
#[export] Hint Rewrite len_le_bytes length_le_bytes : dms.

Lemma le_val_bytes n v : 0 <= v < 256 ^ Z.of_nat n -> le_val (le_bytes n v) = v.
Proof.
  revert v; induction n as [|n IH]; intros v Hv.
  - cbn in *. lia.
  - rewrite Nat2Z.inj_succ, Z.pow_succ_r in Hv by lia.
    cbn [le_bytes le_val]. rewrite IH.
    + pose proof (Z.div_mod v 256). lia.
    + split; [apply Z.div_pos; lia | apply Z.div_lt_upper_bound; lia].
Qed.

Lemma le_bytes_range n v : Forall is_u8 (le_bytes n v).
Proof.
  revert v; induction n; intros; cbn; constructor; auto.
  apply Z.mod_pos_bound. lia.
Qed.

Lemma le_val_range l : Forall is_u8 l -> 0 <= le_val l < 256 ^ len l.
Proof.
  induction 1 as [|b l Hb _ IH]; [cbn; split; reflexivity || lia|].
  rewrite len_cons, Z.pow_add_r by (auto with dms; lia).
  cbn [le_val]. unfold is_u8 in Hb. change (256 ^ 1) with 256. lia.
Qed.

(** [(a << 8) | b] for a byte [b]. *)
Lemma lor_shiftl_8 a b : is_u8 b -> Z.lor (Z.shiftl a 8) b = a * 256 + b.
Proof.
  intros Hb. assert (Z.land (Z.shiftl a 8) b = 0) as Hz.
  { apply Z.bits_inj'; intros n Hn. rewrite Z.land_spec, Z.bits_0.
    destruct (Z.lt_ge_cases n 8).
    - by rewrite Z.shiftl_spec_low.
    - rewrite <- (Z.mod_small b (2 ^ 8)) by exact Hb.
      rewrite Z.mod_pow2_bits_high by lia. apply andb_false_r. }
  rewrite <- Z.lxor_lor, <- Z.add_nocarry_lxor by exact Hz.
  rewrite Z.shiftl_mul_pow2 by lia. done.
Qed.

(** The two bytes of a 16-bit value, as the code extracts them. *)
Lemma u16_high x : is_u16 x -> u8 (Z.shiftr x 8) = x / 256.
Proof. intros. rewrite Z.shiftr_div_pow2 by lia. change (2 ^ 8) with 256. zlia. Qed.

Lemma u16_low x : u8 (Z.land x 255) = x mod 256.
Proof.
  change 255 with (Z.ones 8). rewrite Z.land_ones by lia. change (2 ^ 8) with 256. zlia.
Qed.

Lemma u16_join x : is_u16 x ->
  u16 (Z.lor (Z.shiftl (u8 (Z.shiftr x 8)) 8) (u8 (Z.land x 255))) = x.
Proof.
  intros. rewrite u16_low, u16_high, lor_shiftl_8 by zlia. zlia.
Qed.

(** ** [memcpy_s]

    The bounds-checked copy of C11 Annex K (K.3.7.1.1): a null pointer, a
    [destMax] above [RSIZE_MAX] or a [count] above [destMax] is a
    constraint violation, reported by a non-zero result; otherwise [count]
    bytes are copied.  A pointer is an array ([None] for null) and an
    offset into it.  The standard does not say which non-zero value is
    returned.  The library that the product links against reports an error for a
    [destMax] of 0 as well, where the standard allows a copy of no bytes.  A copy that passes the checks and still leaves one of the two
    arrays is undefined behaviour, made visible as [MemUB]. *)

Definition RSIZE_MAX : Z := 9223372036854775807.

Inductive mem_result :=
  | MemOk (dst : list Z)
  | MemErr
  | MemUB.

Definition memcpy_s (dst : option (list Z)) (doff destMax : Z)
    (src : option (list Z)) (soff count : Z) : mem_result :=
  match dst, src with
  | Some d, Some s =>
      if (RSIZE_MAX <? destMax) || (destMax <? count) then MemErr
      else if (len d <? doff + count) || (len s <? soff + count) then MemUB
      else MemOk (splice d doff (slice s soff count))
  | _, _ => MemErr
  end.

Lemma memcpy_s_ok d doff destMax s soff count :
  0 <= doff -> 0 <= soff ->
  destMax <= RSIZE_MAX -> count <= destMax ->
  doff + count <= len d -> soff + count <= len s ->
  memcpy_s (Some d) doff destMax (Some s) soff count
  = MemOk (splice d doff (slice s soff count)).
Proof. intros. unfold memcpy_s. by zb_auto. Qed.

Lemma memcpy_s_too_long d doff destMax s soff count :
  destMax < count -> memcpy_s d doff destMax s soff count = MemErr.
Proof.
  intros. unfold memcpy_s. destruct d, s; try done.
  zb_true (destMax <? count). by rewrite orb_true_r.
Qed.
