(* ===== verification/StdMap.v ===== *)
(** [std::map] with integer keys: an association list in key order, because the
    code iterates over such maps and takes the first match. *)

From S2P Require Import Prelude.
From Stdlib Require Import Sorted.

Definition zmap (A : Type) : Type := list (Z * A).

Section ZMap.
Context {A : Type}.
Implicit Types (m : zmap A) (k : Z) (v : A).

Fixpoint zfind k m : option A :=
  match m with
  | [] => None
  | (k', v) :: m' => if k =? k' then Some v else zfind k m'
  end.

(** [m\[k\] = v]. *)
Fixpoint zset k v m : zmap A :=
  match m with
  | [] => [(k, v)]
  | (k', v') :: m' =>
      if k <? k' then (k, v) :: m
      else if k =? k' then (k, v) :: m'
      else (k', v') :: zset k v m'
  end.

(** [m.erase(k)]. *)
Fixpoint zerase k m : zmap A :=
  match m with
  | [] => []
  | (k', v') :: m' => if k =? k' then m' else (k', v') :: zerase k m'
  end.

(** The first entry in key order whose value satisfies [f]. *)
Fixpoint zfirst (f : A -> bool) m : option (Z * A) :=
  match m with
  | [] => None
  | (k, v) :: m' => if f v then Some (k, v) else zfirst f m'
  end.

Definition zkeys m : list Z := map fst m.
Definition zsorted m : Prop := StronglySorted Z.lt (zkeys m).

Lemma zsorted_cons k v m : zsorted ((k, v) :: m) <-> zsorted m /\ Forall (fun k' => k < k') (zkeys m).
Proof.
  unfold zsorted, zkeys. cbn. split; [intros H; by apply StronglySorted_inv in H|].
  intros [? ?]. by constructor.
Qed.

Lemma zfind_None_lt k m : Forall (fun k' => k < k') (zkeys m) -> zfind k m = None.
Proof.
  induction m as [|[k' v'] m IH]; [done|]. cbn. intros H. apply Forall_cons in H as [? ?].
  zb_case; [lia|auto].
Qed.

Lemma zfind_zset k k' v m : zfind k (zset k' v m) = if k =? k' then Some v else zfind k m.
Proof.
  induction m as [|[k0 v0] m IH]; [done|]. cbn [zset].
  destruct (Z.ltb_spec k' k0); [done|]. destruct (Z.eqb_spec k' k0) as [->|]; cbn [zfind].
  - by destruct (Z.eqb_spec k k0).
  - rewrite IH. destruct (Z.eqb_spec k k0), (Z.eqb_spec k k'); try done; lia.
Qed.

Lemma zfind_zerase k k' m : zsorted m -> zfind k (zerase k' m) = if k =? k' then None else zfind k m.
Proof.
  induction m as [|[k0 v0] m IH]; intros Hs; cbn [zerase zfind]; [by destruct (k =? k')|].
  apply zsorted_cons in Hs as [Hs Hk]. destruct (Z.eqb_spec k' k0) as [->|].
  - destruct (Z.eqb_spec k k0) as [->|]; [by apply zfind_None_lt|done].
  - cbn [zfind]. rewrite IH by done. destruct (Z.eqb_spec k k0), (Z.eqb_spec k k'); try done; lia.
Qed.

Lemma zkeys_zset_Forall (P : Z -> Prop) k v m : P k -> Forall P (zkeys m) -> Forall P (zkeys (zset k v m)).
Proof.
  induction m as [|[k0 v0] m IH]; cbn; intros Hk Hm; [by constructor|].
  apply Forall_cons in Hm as [? ?]. repeat zb_case; repeat constructor; auto.
Qed.

Lemma zkeys_zerase_Forall (P : Z -> Prop) k m : Forall P (zkeys m) -> Forall P (zkeys (zerase k m)).
Proof.
  induction m as [|[k0 v0] m IH]; cbn; intros Hm; [done|].
  apply Forall_cons in Hm as [? ?]. zb_case; [done|]. constructor; auto.
Qed.

Lemma zset_sorted k v m : zsorted m -> zsorted (zset k v m).
Proof.
  induction m as [|[k0 v0] m IH]; intros Hs; [by repeat constructor|]. cbn [zset].
  pose proof Hs as Hs0. apply zsorted_cons in Hs0 as [Hs' Hk].
  destruct (Z.ltb_spec k k0).
  - apply zsorted_cons. split; [done|]. cbn. constructor; [done|].
    eapply Forall_impl; [exact Hk|]. cbn. lia.
  - destruct (Z.eqb_spec k k0) as [->|]; apply zsorted_cons; split; auto.
    apply zkeys_zset_Forall; [lia|done].
Qed.

Lemma zerase_sorted k m : zsorted m -> zsorted (zerase k m).
Proof.
  induction m as [|[k0 v0] m IH]; intros Hs; [done|]. cbn [zerase].
  apply zsorted_cons in Hs as [Hs Hk]. zb_case; [done|].
  apply zsorted_cons. split; [auto|]. by apply zkeys_zerase_Forall.
Qed.

(** A predicate on all entries. *)
Definition zall (P : Z -> A -> Prop) m : Prop := Forall (fun e => P (fst e) (snd e)) m.

Lemma zall_zset P k v m : P k v -> zall P m -> zall P (zset k v m).
Proof.
  unfold zall. induction m as [|[k0 v0] m IH]; cbn [zset]; intros Hp Hm; [by constructor|].
  pose proof Hm as Hm0. apply Forall_cons in Hm0 as [? ?]. repeat zb_case; repeat constructor; auto.
Qed.

Lemma zall_zerase P k m : zall P m -> zall P (zerase k m).
Proof.
  unfold zall. induction m as [|[k0 v0] m IH]; cbn [zerase]; intros Hm; [done|].
  apply Forall_cons in Hm as [? ?]. zb_case; [done|]. constructor; auto.
Qed.

Lemma zall_find P k v m : zall P m -> zfind k m = Some v -> P k v.
Proof.
  unfold zall. induction m as [|[k0 v0] m IH]; cbn [zfind]; intros Hm Hf; [done|].
  apply Forall_cons in Hm as [? ?]. destruct (Z.eqb_spec k k0); [by simplify_eq|auto].
Qed.

Lemma zfirst_Some f k v m : zsorted m -> zfirst f m = Some (k, v) -> zfind k m = Some v /\ f v = true.
Proof.
  induction m as [|[k0 v0] m IH]; cbn [zfirst zfind]; intros Hs Hf; [done|].
  apply zsorted_cons in Hs as [Hs Hk]. destruct (f v0) eqn:E.
  - simplify_eq. by rewrite Z.eqb_refl.
  - destruct (IH Hs Hf) as [H ?]. split; [|done]. destruct (Z.eqb_spec k k0) as [->|]; [|done].
    by rewrite zfind_None_lt in H.
Qed.

Lemma zfirst_None f m : zfirst f m = None <-> Forall (fun e => f (snd e) = false) m.
Proof.
  induction m as [|[k v] m IH]; cbn; [by split|]. rewrite Forall_cons, <- IH. cbn.
  destruct (f v); [|tauto]. split; [done|]. by intros [].
Qed.

(** Replacing the first match by a value that still matches keeps it first. *)
Lemma zfirst_zset f k v v' m :
  zsorted m -> zfirst f m = Some (k, v) -> f v' = true -> zfirst f (zset k v' m) = Some (k, v').
Proof.
  induction m as [|[k0 v0] m IH]; cbn [zfirst zset]; intros Hs Hf Hv; [done|].
  apply zsorted_cons in Hs as [Hs Hk]. destruct (f v0) eqn:E.
  - simplify_eq. rewrite Z.ltb_irrefl, Z.eqb_refl. cbn. by rewrite Hv.
  - pose proof (zfirst_Some _ _ _ _ Hs Hf) as [Hin _].
    destruct (Z.ltb_spec k k0); [|destruct (Z.eqb_spec k k0) as [->|]].
    + rewrite zfind_None_lt in Hin; [done|]. eapply Forall_impl; [exact Hk|]. cbn. lia.
    + by rewrite zfind_None_lt in Hin.
    + cbn [zfirst]. rewrite E. auto.
Qed.

Lemma zset_zset k v v' m : zset k v (zset k v' m) = zset k v m.
Proof.
  induction m as [|[k0 v0] m IH]; cbn [zset]; [by rewrite Z.ltb_irrefl, Z.eqb_refl|].
  destruct (Z.ltb_spec k k0); cbn [zset]; [by rewrite Z.ltb_irrefl, Z.eqb_refl|].
  destruct (Z.eqb_spec k k0) as [->|]; cbn [zset]; [by rewrite Z.ltb_irrefl, Z.eqb_refl|].
  destruct (Z.ltb_spec k k0); [lia|]. destruct (Z.eqb_spec k k0); [done|]. by rewrite IH.
Qed.

Lemma zset_id k v m : zsorted m -> zfind k m = Some v -> zset k v m = m.
Proof.
  induction m as [|[k0 v0] m IH]; cbn [zfind zset]; intros Hs Hf; [done|].
  apply zsorted_cons in Hs as [Hs Hk]. destruct (Z.eqb_spec k k0) as [->|].
  - simplify_eq. by rewrite Z.ltb_irrefl.
  - destruct (Z.ltb_spec k k0); [|by rewrite IH].
    rewrite zfind_None_lt in Hf; [done|]. eapply Forall_impl; [exact Hk|]. cbn. lia.
Qed.

Lemma zerase_zset k v m : zsorted m -> zerase k (zset k v m) = zerase k m.
Proof.
  induction m as [|[k0 v0] m IH]; cbn [zset zerase]; intros Hs; [by rewrite Z.eqb_refl|].
  apply zsorted_cons in Hs as [Hs Hk].
  destruct (Z.ltb_spec k k0); cbn [zerase].
  - rewrite Z.eqb_refl. destruct (Z.eqb_spec k k0); [lia|]. f_equal.
    clear IH. induction m as [|[k1 v1] m IH]; [done|]. cbn in Hk. apply Forall_cons in Hk as [? ?].
    apply zsorted_cons in Hs as [? ?]. cbn. destruct (Z.eqb_spec k k1); [lia|]. by rewrite <- IH.
  - destruct (Z.eqb_spec k k0) as [->|]; cbn [zerase]; [by rewrite Z.eqb_refl|].
    destruct (Z.eqb_spec k k0); [done|]. by rewrite IH.
Qed.
End ZMap.

#[export] Hint Resolve zset_sorted zerase_sorted zall_zset zall_zerase : dms.

(** * A [std::map] with a comparison of its own: an association list in the order
    of the keys. Keys neither of which is smaller than the other are the same
    key for the map. *)

(** The comparison of a key type. *)
Class MapKey (K : Type) := key_lt : K -> K -> bool.

(** What [std::map] requires of it: a strict weak order. *)
Class MapKeyLaws (K : Type) `{MapKey K} : Prop := {
  key_irrefl : forall a, key_lt a a = false;
  key_trans : forall a b c, key_lt a b = true -> key_lt b c = true -> key_lt a c = true;
  key_split : forall a b c, key_lt a c = true -> key_lt a b = true \/ key_lt b c = true;
}.

Section Map.
Context {K V : Type} `{MapKey K}.
Implicit Types (k : K) (v : V) (m : list (K * V)).

Definition same_key (a b : K) : bool := negb (key_lt a b) && negb (key_lt b a).

Definition mentry k m : option (K * V) := List.find (fun e => same_key k (fst e)) m.
Definition mfind k m : option V := snd <$> mentry k m.

Fixpoint insert_sorted k v m : list (K * V) :=
  match m with
  | [] => [(k, v)]
  | (k', v') :: m' => if key_lt k k' then (k, v) :: m else (k', v') :: insert_sorted k v m'
  end.

(** [insert] and [emplace] keep the entry that is there. *)
Definition minsert k v m : list (K * V) :=
  match mfind k m with
  | Some _ => m
  | None => insert_sorted k v m
  end.

Definition merase k m : list (K * V) := List.filter (fun e => negb (same_key k (fst e))) m.

(** A change of the object an entry points to. *)
Definition mupdate k (f : V -> V) m : list (K * V) :=
  map (fun e => if same_key k (fst e) then (fst e, f (snd e)) else e) m.

(** [m\[k\] = v]. *)
Definition mset k v m : list (K * V) :=
  match mfind k m with
  | Some _ => mupdate k (fun _ => v) m
  | None => insert_sorted k v m
  end.

(** The first entry in the order of the keys that satisfies [p]. *)
Fixpoint mupdate_first (p : K * V -> bool) (f : V -> V) m : list (K * V) :=
  match m with
  | [] => []
  | e :: m' => if p e then (fst e, f (snd e)) :: m' else e :: mupdate_first p f m'
  end.

Definition msorted m : Prop := StronglySorted (fun x y => key_lt (fst x) (fst y) = true) m.
Definition mall (P : K -> V -> Prop) m : Prop := Forall (fun e => P (fst e) (snd e)) m.

Context `{!MapKeyLaws K}.

Lemma same_key_refl k : same_key k k = true.
Proof. unfold same_key. by rewrite key_irrefl. Qed.

Lemma same_key_sym a b : same_key a b = same_key b a.
Proof. unfold same_key. apply andb_comm. Qed.

Lemma same_key_spec a b : same_key a b = true <-> key_lt a b = false /\ key_lt b a = false.
Proof. unfold same_key. by rewrite andb_true_iff, !negb_true_iff. Qed.

Lemma same_key_trans a b c : same_key a b = true -> same_key b c = true -> same_key a c = true.
Proof.
  rewrite !same_key_spec. intros [H1 H2] [H3 H4].
  split; [destruct (key_lt a c) eqn:E|destruct (key_lt c a) eqn:E]; try done;
    destruct (key_split _ b _ E); congruence.
Qed.

Lemma same_key_eq a b c : same_key a b = true -> same_key a c = same_key b c.
Proof.
  intros Hab. destruct (same_key b c) eqn:E.
  - by apply (same_key_trans a b c).
  - destruct (same_key a c) eqn:E'; [|done]. rewrite same_key_sym in Hab.
    rewrite (same_key_trans b a c Hab E') in E. done.
Qed.

Lemma mfind_cons k e m : mfind k (e :: m) = if same_key k (fst e) then Some (snd e) else mfind k m.
Proof. unfold mfind, mentry. cbn. by destruct (same_key k (fst e)). Qed.

Lemma mfind_same k k' m : same_key k k' = true -> mfind k m = mfind k' m.
Proof.
  intros Hs. induction m as [|e m IH]; [done|]. rewrite !mfind_cons.
  by rewrite (same_key_eq k k' (fst e) Hs), IH.
Qed.

Lemma mfind_In k v m : mfind k m = Some v -> exists k', In (k', v) m /\ same_key k k' = true.
Proof.
  unfold mfind, mentry. destruct (List.find _ m) as [[k' v']|] eqn:E; [|done]. cbn. intros [= ->].
  apply find_some in E as [? ?]. by exists k'.
Qed.

Lemma mfind_insert_sorted k k0 v m :
  mfind k0 m = None -> mfind k (insert_sorted k0 v m) = if same_key k k0 then Some v else mfind k m.
Proof.
  induction m as [|[k' v'] m IH]; cbn [insert_sorted]; intros Hn; [by rewrite mfind_cons|].
  rewrite mfind_cons in Hn. cbn [fst snd] in Hn. destruct (same_key k0 k') eqn:E; [done|].
  destruct (key_lt k0 k'); rewrite !mfind_cons; cbn [fst snd]; [done|]. rewrite (IH Hn).
  destruct (same_key k k0) eqn:E0; [|done]. by rewrite (same_key_eq _ _ _ E0), E.
Qed.

Lemma mfind_minsert k k0 v m :
  mfind k (minsert k0 v m) =
    match mfind k0 m with
    | Some _ => mfind k m
    | None => if same_key k k0 then Some v else mfind k m
    end.
Proof. unfold minsert. destruct (mfind k0 m) eqn:E; [done|]. by apply mfind_insert_sorted. Qed.

Lemma mfind_merase k k0 m : mfind k (merase k0 m) = if same_key k k0 then None else mfind k m.
Proof.
  induction m as [|e m IH]; [by destruct (same_key k k0)|].
  change (merase k0 (e :: m)) with (if negb (same_key k0 (fst e)) then e :: merase k0 m else merase k0 m).
  destruct (same_key k0 (fst e)) eqn:E; cbn [negb]; rewrite ?mfind_cons, IH.
  - destruct (same_key k k0) eqn:E0; [done|]. destruct (same_key k (fst e)) eqn:E1; [|done].
      rewrite same_key_sym in E. rewrite (same_key_trans k (fst e) k0 E1 E) in E0. done.
  - destruct (same_key k k0) eqn:E0; [|done]. by rewrite (same_key_eq _ _ _ E0), E.
Qed.

Lemma mfind_mupdate k k0 f m :
  mfind k (mupdate k0 f m) = if same_key k k0 then f <$> mfind k m else mfind k m.
Proof.
  induction m as [|e m IH]; cbn [mupdate map]; [by destruct (same_key k k0)|].
  rewrite !mfind_cons. fold (mupdate k0 f m). rewrite IH.
  destruct (same_key k (fst e)) eqn:E1, (same_key k k0) eqn:E0.
  - rewrite (same_key_sym k k0) in E0. rewrite (same_key_trans _ _ _ E0 E1). cbn. by rewrite E1.
  - destruct (same_key k0 (fst e)) eqn:E2; cbn; rewrite ?E1; [|done].
    rewrite same_key_sym in E2. by rewrite (same_key_trans _ _ _ E1 E2) in E0.
  - rewrite (same_key_eq _ _ _ E0) in E1. rewrite E1. cbn. by rewrite (same_key_eq _ _ _ E0), E1.
  - destruct (same_key k0 (fst e)); cbn; by rewrite E1.
Qed.

(** ** The order of the keys *)

Lemma insert_sorted_Forall (P : K * V -> Prop) k v m : P (k, v) -> Forall P m -> Forall P (insert_sorted k v m).
Proof.
  induction m as [|[k' v'] m IH]; cbn; intros Hp Hm; [by constructor|].
  destruct (key_lt k k'); [by constructor|]. inversion Hm. constructor; auto.
Qed.

Lemma insert_sorted_sorted k v m : mfind k m = None -> msorted m -> msorted (insert_sorted k v m).
Proof.
  intros Hn Hs. induction Hs as [|[k' v'] m Hs IH Hf]; cbn [insert_sorted]; [repeat constructor|].
  rewrite mfind_cons in Hn. cbn [fst] in Hn. destruct (same_key k k') eqn:E; [done|].
  destruct (key_lt k k') eqn:E1.
  - constructor; [by constructor|]. constructor; [done|]. eapply Forall_impl; [exact Hf|].
    intros [k2 v2]; cbn. by apply key_trans.
  - constructor; [by apply IH|]. apply insert_sorted_Forall; [|done]. cbn.
    destruct (key_lt k' k) eqn:E2; [done|]. by rewrite (proj2 (same_key_spec k k')) in E.
Qed.

Lemma minsert_sorted k v m : msorted m -> msorted (minsert k v m).
Proof. unfold minsert. destruct (mfind k m) eqn:E; [done|]. by apply insert_sorted_sorted. Qed.

Lemma mfilter_sorted p m : msorted m -> msorted (List.filter p m).
Proof.
  induction 1 as [|e m Hs IH Hf]; [constructor|]. cbn. destruct (p e); [|done]. constructor; [done|].
  apply List.Forall_forall. intros x Hx. apply filter_In in Hx as [Hx _].
  rewrite List.Forall_forall in Hf. by apply Hf.
Qed.

Lemma merase_sorted k m : msorted m -> msorted (merase k m).
Proof. apply mfilter_sorted. Qed.

(** In a sorted table every entry is found. *)
Lemma mfind_sorted k v m : msorted m -> In (k, v) m -> mfind k m = Some v.
Proof.
  induction 1 as [|[k' v'] m Hs IH Hf]; [done|]. rewrite mfind_cons. cbn [fst snd]. intros [[= -> ->]|Hin].
  - by rewrite same_key_refl.
  - rewrite List.Forall_forall in Hf. specialize (Hf _ Hin). cbn in Hf.
    destruct (same_key k k') eqn:E; [|auto]. apply same_key_spec in E as [_ E]. congruence.
Qed.

Lemma keys_sorted m m' : map fst m' = map fst m -> msorted m -> msorted m'.
Proof.
  intros E Hs. revert m' E. induction Hs as [|e m Hs IH Hf]; intros [|e' m'] E; try done; [constructor|].
  cbn in E. injection E as E1 E2. constructor; [by apply IH|]. rewrite E1. clear IH Hs E1.
  revert m' E2. induction Hf as [|x m Hx Hf IH]; intros [|x' m'] E2; try done. cbn in E2. injection E2 as E1 E2.
  constructor; [by rewrite E1|by apply IH].
Qed.

Lemma mupdate_keys k f m : map fst (mupdate k f m) = map fst m.
Proof. unfold mupdate. rewrite map_map. apply map_ext. intros e. by destruct (same_key _ _). Qed.

Lemma mfind_mset k k0 v m : mfind k (mset k0 v m) = if same_key k k0 then Some v else mfind k m.
Proof.
  unfold mset. destruct (mfind k0 m) as [x|] eqn:E; [|by apply mfind_insert_sorted].
  rewrite mfind_mupdate. destruct (same_key k k0) eqn:Ek; [|done]. by rewrite (mfind_same k k0), E.
Qed.
Lemma mset_sorted k v m : msorted m -> msorted (mset k v m).
Proof.
  unfold mset. destruct (mfind k m) eqn:E; [|by apply insert_sorted_sorted]. apply keys_sorted, mupdate_keys.
Qed.

Lemma mupdate_first_keys p f m : map fst (mupdate_first p f m) = map fst m.
Proof. induction m as [|e m IH]; cbn; [done|]. destruct (p e); cbn; congruence. Qed.

(** ** Properties of all entries *)

Lemma mall_minsert P k v m : P k v -> mall P m -> mall P (minsert k v m).
Proof. unfold minsert, mall. destruct (mfind k m); [done|]. intros. by apply insert_sorted_Forall. Qed.

Lemma mall_merase P k m : mall P m -> mall P (merase k m).
Proof.
  unfold mall. rewrite !List.Forall_forall. intros Hm e He. apply filter_In in He as [He _]. by apply Hm.
Qed.

Lemma mall_mupdate (P : K -> V -> Prop) k f m :
  (forall k' v, P k' v -> P k' (f v)) -> mall P m -> mall P (mupdate k f m).
Proof.
  unfold mall, mupdate. intros Hf Hm. apply List.Forall_map. eapply Forall_impl; [exact Hm|].
  intros e He. cbn. destruct (same_key k (fst e)); cbn; auto.
Qed.

Lemma mall_mupdate_first (P : K -> V -> Prop) p f m :
  (forall k' v, P k' v -> P k' (f v)) -> mall P m -> mall P (mupdate_first p f m).
Proof.
  intros Hf. unfold mall. induction 1 as [|e m He Hm IH]; cbn; [constructor|].
  destruct (p e); constructor; cbn; auto.
Qed.

Lemma mall_find (P : K -> V -> Prop) k v m :
  mall P m -> mfind k m = Some v -> exists k', P k' v /\ same_key k k' = true.
Proof.
  intros Hm Hf. apply mfind_In in Hf as (k' & Hin & Hs). exists k'. split; [|done].
  unfold mall in Hm. rewrite List.Forall_forall in Hm. exact (Hm _ Hin).
Qed.
End Map.
