(* ===== verification/DataBuffer.v ===== *)
(** Byte buffers of the two transports: [DSchedDataBuffer]
    (services/dtbschedmgr/.../transport/dsched_data_buffer.cpp) and
    [AVTransDataBuffer] (services/dtbcollabmgr/.../av_trans_data_buffer.cpp).
    The two classes have the same members and methods; their size limits are
    two constants. *)

From S2P Require Import Prelude.

(** The members of a buffer.  [data_ = None] is the null pointer. *)
Record DataBuffer := mkDataBuffer {
  capacity_ : Z;
  rangeOffset_ : Z;
  rangeLength_ : Z;
  data_ : option (list Z);
}.

Section Operations.
Variable MAX_BUFFER_SIZE : Z.

(** The constructor: no storage for capacity 0 or from the limit on. *)
Definition buffer_new (capacity : Z) : DataBuffer :=
  if negb (capacity =? 0) && (capacity <? MAX_BUFFER_SIZE)
  then mkDataBuffer capacity 0 capacity (Some (zeros capacity))
  else mkDataBuffer 0 0 0 None.
End Operations.

Definition DSCHED_MAX_BUFFER_SIZE : Z := 80 * 1024 * 1024.
Definition AV_MAX_BUFFER_SIZE : Z := 80 * 1024 * 1024.

Definition DSchedDataBuffer_new : Z -> DataBuffer := buffer_new DSCHED_MAX_BUFFER_SIZE.
Definition AVTransDataBuffer_new : Z -> DataBuffer := buffer_new AV_MAX_BUFFER_SIZE.

Definition Size (b : DataBuffer) : Z := rangeLength_ b.
Definition Offset (b : DataBuffer) : Z := rangeOffset_ b.
Definition Capacity (b : DataBuffer) : Z := capacity_ b.

(** [Data()]: the array pointed into; the offset is [rangeOffset_]. *)
Definition Data (b : DataBuffer) : option (list Z) := data_ b.

(** [SetRange]: [offset + size] is computed in [size_t]. *)
Definition SetRange (offset size : Z) (b : DataBuffer) : Z * DataBuffer :=
  if negb (offset <=? capacity_ b) || negb (u64 (offset + size) <=? capacity_ b)
  then (-1, b)
  else (0, mkDataBuffer (capacity_ b) offset size (data_ b)).

Definition AVTransDataBuffer_SetRange : Z -> Z -> DataBuffer -> Z * DataBuffer := SetRange.

(** [memcpy_s] to [b->Data() + doff]; the buffer with the written contents. *)
Inductive buf_result :=
  | BufOk (b : DataBuffer)
  | BufErr
  | BufUB.

Definition buf_write (b : DataBuffer) (doff destMax : Z)
    (src : option (list Z)) (soff count : Z) : buf_result :=
  match memcpy_s (Data b) (rangeOffset_ b + doff) destMax src soff count with
  | MemOk d => BufOk (mkDataBuffer (capacity_ b) (rangeOffset_ b) (rangeLength_ b) (Some d))
  | MemErr => BufErr
  | MemUB => BufUB
  end.

(** The bytes the range exposes. *)
Definition contents (b : DataBuffer) : list Z :=
  match data_ b with
  | Some d => slice d (rangeOffset_ b) (rangeLength_ b)
  | None => []
  end.

(** ** Invariant *)

Definition buffer_wf (b : DataBuffer) : Prop :=
  0 <= rangeOffset_ b /\ 0 <= rangeLength_ b /\
  rangeOffset_ b + rangeLength_ b <= capacity_ b /\
  capacity_ b < DSCHED_MAX_BUFFER_SIZE /\
  match data_ b with
  | Some d => len d = capacity_ b
  | None => capacity_ b = 0
  end.

(** A buffer holding exactly the bytes [d], as the senders hand over. *)
Definition buffer_of (d : list Z) : DataBuffer := mkDataBuffer (len d) 0 (len d) (Some d).

Ltac buf_simpl :=
  cbn [buffer_of capacity_ rangeOffset_ rangeLength_ data_ Data Size].

Lemma buffer_new_small n :
  0 < n < DSCHED_MAX_BUFFER_SIZE ->
  DSchedDataBuffer_new n = buffer_of (zeros n).
Proof.
  intros. unfold DSchedDataBuffer_new, buffer_new, buffer_of. zb_auto. by rewrite len_zeros by lia.
Qed.

Lemma buffer_new_refused n :
  n = 0 \/ DSCHED_MAX_BUFFER_SIZE <= n ->
  DSchedDataBuffer_new n = mkDataBuffer 0 0 0 None.
Proof.
  intros H. unfold DSchedDataBuffer_new, buffer_new.
  destruct (Z.eqb_spec n 0); cbn [negb andb]; [done|].
  by zb_false (n <? DSCHED_MAX_BUFFER_SIZE).
Qed.

Lemma buffer_new_wf n : 0 <= n -> buffer_wf (DSchedDataBuffer_new n).
Proof.
  intros. unfold DSchedDataBuffer_new, buffer_new, buffer_wf.
  repeat zb_case; cbn; rewrite ?len_zeros by lia; unfold DSCHED_MAX_BUFFER_SIZE in *; lia.
Qed.

Lemma contents_buffer_of d : contents (buffer_of d) = d.
Proof. apply slice_all. Qed.

Lemma buffer_of_wf d : len d < DSCHED_MAX_BUFFER_SIZE -> buffer_wf (buffer_of d).
Proof. intros. unfold buffer_wf; cbn. pose proof (len_nonneg d). lia. Qed.
#[export] Hint Resolve buffer_new_wf buffer_of_wf : dms.

Lemma len_contents b : buffer_wf b -> len (contents b) = Size b.
Proof.
  destruct b as [c o l [d|]]; unfold buffer_wf, contents, Size; cbn -[len]; intros.
  - apply len_slice; lia.
  - rewrite len_nil. lia.
Qed.

(** A successful write into a buffer: the frame of the other bytes. *)
Lemma buf_write_ok b d doff destMax s soff count :
  data_ b = Some d -> 0 <= rangeOffset_ b + doff -> 0 <= soff ->
  destMax <= RSIZE_MAX -> count <= destMax ->
  rangeOffset_ b + doff + count <= len d -> soff + count <= len s ->
  buf_write b doff destMax (Some s) soff count
  = BufOk (mkDataBuffer (capacity_ b) (rangeOffset_ b) (rangeLength_ b)
             (Some (splice d (rangeOffset_ b + doff) (slice s soff count)))).
Proof. intros Hd **. unfold buf_write, Data. by rewrite Hd, memcpy_s_ok by lia. Qed.

(** Writing over a whole fresh buffer. *)
Lemma buf_write_fresh n s soff :
  0 < n < DSCHED_MAX_BUFFER_SIZE -> 0 <= soff -> soff + n <= len s ->
  buf_write (DSchedDataBuffer_new n) 0 n (Some s) soff n = BufOk (buffer_of (slice s soff n)).
Proof.
  intros. rewrite buffer_new_small by lia.
  erewrite buf_write_ok; cbn; try done; rewrite ?len_zeros;
    unfold DSCHED_MAX_BUFFER_SIZE, RSIZE_MAX in *; try lia.
  unfold buffer_of. rewrite len_slice by lia.
  by rewrite splice_all by (rewrite len_slice, len_zeros by lia; lia).
Qed.

(** ** Properties *)

(** [SetRange] keeps the buffer well formed when the [size_t] sum
    of its arguments does not wrap around, accepts exactly the ranges inside
    the capacity, and rejects every other range leaving the buffer as it was. *)
Theorem SetRange_spec b offset size :
  buffer_wf b -> 0 <= offset -> 0 <= size -> offset + size < 2 ^ 64 ->
  let '(ret, b') := SetRange offset size b in
  buffer_wf b' /\
  (ret = 0 <-> offset + size <= capacity_ b) /\
  (ret = 0 -> rangeOffset_ b' = offset /\ Size b' = size /\ data_ b' = data_ b) /\
  (ret <> 0 -> ret = -1 /\ b' = b).
Proof.
  intros Hwf Ho Hs Hsum. unfold SetRange. change (2 ^ 64) with 18446744073709551616 in Hsum.
  rewrite u64_id by lia. pose proof Hwf as (? & ? & ? & ? & ?).
  destruct (Z.leb_spec offset (capacity_ b)), (Z.leb_spec (offset + size) (capacity_ b));
    cbn [negb orb]; unfold buffer_wf; cbn; split_and!; try (assumption || lia || done).
Qed.

Lemma SetRange_spec_witness :
  let b := DSchedDataBuffer_new 16 in
  buffer_wf b /\ fst (SetRange 4 8 b) = 0 /\
  Size (snd (SetRange 4 8 b)) = 8 /\ fst (SetRange 4 13 b) = -1.
Proof.
  assert (buffer_wf (DSchedDataBuffer_new 16)) as Hwf by (apply buffer_new_wf; lia).
  pose proof (SetRange_spec (DSchedDataBuffer_new 16) 4 8 Hwf ltac:(lia) ltac:(lia) ltac:(lia)) as H.
  cbn in H. destruct H as (? & ? & H & ?). split; [exact Hwf|]. split; [done|]. split; [by apply H|done].
Defined.

(** Without that bound [SetRange] can be made to accept a
    range that leaves the array: the [size_t] sum wraps around. *)
Theorem SetRange_wraps :
  exists b offset size,
    buffer_wf b /\ 0 <= offset < 2 ^ 64 /\ 0 <= size < 2 ^ 64 /\
    fst (SetRange offset size b) = 0 /\
    ~ buffer_wf (snd (SetRange offset size b)).
Proof.
  exists (DSchedDataBuffer_new 16), 16, (2 ^ 64 - 8).
  split; [apply buffer_new_wf; lia|]. repeat split; try lia.
  intros (_ & _ & H & _). vm_compute in H. by apply H.
Qed.
