(* ===== verification/SchedErrors.v ===== *)
(** Result codes of the scheduler service (common/include/dtbschedmgr_log.h)
    that the modelled code returns or tests. *)

From S2P Require Import Prelude.

Definition ERR_OK : Z := 0.
Definition INVALID_PARAMETERS_ERR : Z := 29360128.
Definition INVALID_REMOTE_PARAMETERS_ERR : Z := 29360131.
Definition REMOTE_DEVICE_BIND_ABILITY_ERR : Z := 29360132.
Definition GET_LOCAL_DEVICE_ERR : Z := 29360144.
Definition NOTIFYCOMPLETECONTINUATION_FAILED : Z := 29360152.
Definition CONTINUE_ABILITY_TIMEOUT_ERR : Z := 29360153.
Definition SOFTBUS_SERVICE_ERR : Z := 29360170.
Definition NO_MISSION_INFO_FOR_MISSION_ID : Z := 29360221.
Definition OPERATION_DEVICE_NOT_INITIATOR_OR_TARGET : Z := 29360222.
Definition CONTINUE_ALREADY_IN_PROGRESS : Z := 29360223.
Definition CONTINUE_SEND_EVENT_FAILED : Z := 29360225.
Definition CONTINUE_STATE_MACHINE_INVALID_STATE : Z := 29360226.
Definition CONTINUE_SESSION_SHUTDOWN : Z := 29360227.
Definition CONTINUE_CALL_CONTINUE_ABILITY_FAILED : Z := 29360228.
Definition CONTINUE_CALL_START_ABILITY_FAILED : Z := 29360229.
Definition CONTINUE_SINK_ABILITY_TERMINATED : Z := 29360230.
Definition MISSION_NOT_CONTINUE_ACTIVE : Z := 29360233.
Definition DMS_GET_WINDOW_FAILED_FROM_SCB : Z := 29360238.
Definition CAN_NOT_FOUND_MODULE_ERR : Z := 29360239.

(** [DmsInterfaceSdkErr]: the codes reported to applications. *)
Definition ERR_DMS_WORK_ABNORMALLY : Z := 16300501.
Definition ERR_CONTINUE_ALREADY_IN_PROGRESS : Z := 16300506.
Definition ERR_BIND_REMOTE_HOTSPOT_ENABLE_STATE : Z := 16300508.
Definition ERR_BIND_REMOTE_IN_BUSY_LINK : Z := 16300509.

Definition INVALID_SESSION_ID : Z := -1.

(** The non-zero result of a failed [memcpy_s]; the C standard leaves its
    value open and no theorem depends on which one it is. *)
Definition MEMCPY_S_FAIL : Z := 34.

(** Collaboration. *)
Definition SEND_REQUEST_DEF_FAIL : Z := 29360163.
Definition COLLAB_SEND_EVENT_FAILED : Z := 29360330.
Definition FIND_REMOTE_DEVICEID_ERR : Z := 29360332.
Definition COLLAB_SESSION_SHUTDOWN : Z := 29360333.
Definition FIND_LOCAL_DEVICEID_ERR : Z := 29360334.
Definition GET_APPID_ERR : Z := 29360335.
Definition GET_BUNDLENAMELIST_ERR : Z := 29360336.
Definition GET_ACCOUNT_INFO_ERR : Z := 29360337.
Definition COLLAB_STATE_MACHINE_INVALID_STATE : Z := 29360339.
Definition COLLAB_ABILITY_TIMEOUT_ERR : Z := 29360340.
Definition COLLAB_ABILITY_REJECT_ERR : Z := 29360341.
Definition DMS_PERMISSION_DENIED : Z := 29360157.
Definition DMS_ACCOUNT_ACCESS_PERMISSION_DENIED : Z := 29360175.
Definition DMS_COMPONENT_ACCESS_PERMISSION_DENIED : Z := 29360176.
Definition CALL_PERMISSION_DENIED : Z := 29360201.
Definition DMS_BACKGROUND_PERMISSION_DENIED : Z := 29360219.
Definition DMS_START_CONTROL_PERMISSION_DENIED : Z := 29360220.
Definition MISSION_NOT_FOCUSED : Z := 29360234.
Definition BUNDLE_NOT_CONTINUABLE : Z := 29360235.
