(* ===== verification/Tlv.v ===== *)
(** Type-length-value items: the headers of the two transports
    (dsched_softbus_session.cpp and session_data_header.cpp) are sequences of
    items with a big-endian 16-bit type, a big-endian 16-bit length and a value
    in memory representation. *)

From S2P Require Import Prelude DataBuffer SchedErrors.

(** ** Data and primitive reads *)

Record TlvItem := mkTlv { type : Z; tlen : Z; value : Z }.

Inductive read_result (A : Type) :=
  | ReadOk (a : A)
  | ReadErr (ret : Z)
  | ReadUB.
Arguments ReadOk {A} a.
Arguments ReadErr {A} ret.
Arguments ReadUB {A}.

(** [U16Get]: big-endian; [None] when the two bytes are not in the packet. *)
Definition U16Get (ptr : list Z) : option Z :=
  match ptr with
  | b0 :: b1 :: _ => Some (u16 (Z.lor (Z.shiftl b0 8) b1))
  | _ => None
  end.

(** [memcpy_s(&field, sizeof(field), ptr, count)] on a [size]-byte field. *)
Definition read_field (size : nat) (old : Z) (ptr : list Z) (count : Z) : read_result Z :=
  match memcpy_s (Some (le_bytes size old)) 0 (Z.of_nat size) (Some ptr) 0 count with
  | MemOk d => ReadOk (le_val d)
  | MemErr => ReadErr MEMCPY_S_FAIL
  | MemUB => ReadUB
  end.

Definition read_map {A B} (f : A -> B) (r : read_result A) : read_result B :=
  match r with
  | ReadOk a => ReadOk (f a)
  | ReadErr e => ReadErr e
  | ReadUB => ReadUB
  end.

(** ** Wire format *)

Definition tlv_bytes (t : TlvItem) : list Z :=
  [u8 (Z.shiftr (type t) 8); u8 (Z.land (type t) 255);
   u8 (Z.shiftr (tlen t) 8); u8 (Z.land (tlen t) 255)]
  ++ le_bytes (Z.to_nat (tlen t)) (value t).

Definition items_bytes (ts : list TlvItem) : list Z := concat (map tlv_bytes ts).

Lemma take_le_bytes k n v : (k <= n)%nat -> take k (le_bytes n v) = le_bytes k v.
Proof.
  revert n v; induction k as [|k IH]; intros [|n] v Hk; cbn; try lia; try done.
  by rewrite IH by lia.
Qed.

Lemma len_tlv_bytes t : 0 <= tlen t -> len (tlv_bytes t) = 4 + tlen t.
Proof. intros. unfold tlv_bytes. autorewrite with dms. lia. Qed.

Lemma items_bytes_cons t ts : items_bytes (t :: ts) = tlv_bytes t ++ items_bytes ts.
Proof. done. Qed.

(** ** Reading *)

Lemma read_field_exact n old v rest :
  (n <= 4)%nat -> 0 <= v < 256 ^ Z.of_nat n ->
  read_field n old (le_bytes n v ++ rest) (Z.of_nat n) = ReadOk v.
Proof.
  intros Hn Hv. unfold read_field. pose proof (len_nonneg rest).
  rewrite memcpy_s_ok by (autorewrite with dms; unfold RSIZE_MAX; lia).
  replace (Z.of_nat n) with (len (le_bytes n v)) at 1 by (autorewrite with dms; lia).
  rewrite slice_0_app, splice_all by (autorewrite with dms; lia).
  by rewrite le_val_bytes.
Qed.

Definition read_safe {A} (P : A -> Prop) (r : read_result A) : Prop :=
  match r with
  | ReadOk a => P a
  | ReadErr _ => True
  | ReadUB => False
  end.

Lemma read_safe_map {A B} (P : A -> Prop) (Q : B -> Prop) (f : A -> B) r :
  read_safe P r -> (forall a, P a -> Q (f a)) -> read_safe Q (read_map f r).
Proof. destruct r; cbn; auto. Qed.

Lemma read_field_safe n old ptr count :
  (n <= 4)%nat -> Forall is_u8 ptr -> 0 <= count <= len ptr ->
  read_safe (fun v => 0 <= v < 256 ^ Z.of_nat n) (read_field n old ptr count).
Proof.
  intros Hn Hp Hc. unfold read_field.
  destruct (Z.lt_ge_cases (Z.of_nat n) count).
  { by rewrite memcpy_s_too_long by lia. }
  rewrite memcpy_s_ok by (autorewrite with dms; unfold RSIZE_MAX; lia). cbn [read_safe].
  set (d := splice _ _ _). replace (Z.of_nat n) with (len d).
  - apply le_val_range, splice_Forall; [apply le_bytes_range | by apply slice_Forall].
  - unfold d. rewrite len_splice, len_le_bytes; [done|lia|].
    rewrite len_slice, len_le_bytes by lia. lia.
Qed.

Lemma U16Get_safe ptr :
  Forall is_u8 ptr -> 2 <= len ptr -> exists x, U16Get ptr = Some x /\ is_u16 x.
Proof.
  intros Hp Hl. destruct ptr as [|b0 [|b1 ptr]]; [done..|]. eexists; split; [done|].
  apply Z.mod_pos_bound. lia.
Qed.

Lemma len_drop {A} (l : list A) k : 0 <= k <= len l -> len (drop (Z.to_nat k) l) = len l - k.
Proof. intros. unfold len. rewrite length_drop. unfold len in *. lia. Qed.
