(* ===== verification/SchedUtils.v ===== *)
(** The shared helpers of common/src/distributed_sched_utils.cpp: the Base64
    text in which parcels travel inside JSON commands, the conversions between
    parcels and that text, and the checks of the JSON a device announces.

    A [std::string] is a [string] where its characters are names, and the list of
    its bytes where it is binary; [str_bytes] and [bytes_str] convert. *)

From S2P Require Import Prelude SchedErrors.
From Stdlib Require Import Ascii.
#[local] Open Scope string_scope.
#[local] Open Scope list_scope.
#[local] Open Scope Z_scope.

(** ** Characters and bytes *)

Definition ascii_byte (c : ascii) : Z := Z.of_N (N_of_ascii c).
Definition byte_ascii (b : Z) : ascii := ascii_of_N (Z.to_N b).

Fixpoint str_bytes (s : string) : list Z :=
  match s with
  | EmptyString => []
  | String c s => ascii_byte c :: str_bytes s
  end.

Fixpoint bytes_str (bs : list Z) : string :=
  match bs with
  | [] => EmptyString
  | b :: bs => String (byte_ascii b) (bytes_str bs)
  end.

(** [std::string::c_str] read as a C string: up to the first zero byte. *)
Fixpoint c_str (s : string) : string :=
  match s with
  | EmptyString => EmptyString
  | String c s => if ascii_byte c =? 0 then EmptyString else String c (c_str s)
  end.

Fixpoint no_nul (s : string) : bool :=
  match s with
  | EmptyString => true
  | String c s => negb (ascii_byte c =? 0) && no_nul s
  end.

(** ** Base64 *)

Definition BASE_64_CHARS : string := "ABCDEFGHIJKLMNOPQRSTUVWXYZabcdefghijklmnopqrstuvwxyz0123456789+/".
Definition PAD : Z := 61.

(** [BASE_64_CHARS[i]]; the index is a six-bit number. *)
Definition base64_char (i : Z) : Z := nth (Z.to_nat i) (str_bytes BASE_64_CHARS) 0.

Fixpoint index_of (c : Z) (l : list Z) (i : Z) : option Z :=
  match l with
  | [] => None
  | x :: l => if x =? c then Some i else index_of c l (i + 1)
  end.

(** [BASE_64_CHARS.find(c)] as an [unsigned char]: [npos] becomes 255. *)
Definition base64_find (c : Z) : Z :=
  match index_of c (str_bytes BASE_64_CHARS) 0 with
  | Some i => i
  | None => 255
  end.

Definition isalnum (c : Z) : bool :=
  ((48 <=? c) && (c <=? 57)) || ((65 <=? c) && (c <=? 90)) || ((97 <=? c) && (c <=? 122)).

Definition IsBase64 (c : Z) : bool := isalnum c || (c =? 43) || (c =? 47).

(** Four six-bit numbers from the three bytes of [charArray3]. *)
Definition quad (a b c : Z) : list Z :=
  [u8 (Z.shiftr (Z.land a 252) 2);
   u8 (Z.shiftl (Z.land a 3) 4 + Z.shiftr (Z.land b 240) 4);
   u8 (Z.shiftl (Z.land b 15) 2 + Z.shiftr (Z.land c 192) 6);
   Z.land c 63].

(** The main loop of [Base64Encode]: the first [i] entries of [charArray3] and
    the text so far. *)
Fixpoint encode_loop (bs chunk ret : list Z) : list Z * list Z :=
  match bs with
  | [] => (chunk, ret)
  | b :: bs =>
      match chunk ++ [b] with
      | [x; y; z] => encode_loop bs [] (ret ++ map base64_char (quad x y z))
      | chunk' => encode_loop bs chunk' ret
      end
  end.

Definition Base64Encode (toEncode : list Z) : list Z :=
  if len toEncode =? 0 then []
  else
    let '(chunk, ret) := encode_loop toEncode [] [] in
    let i := length chunk in
    if (0 <? i)%nat then
      let arr := chunk ++ replicate (3 - i) 0 in
      ret ++ map base64_char (take (i + 1) (quad (nth 0 arr 0) (nth 1 arr 0) (nth 2 arr 0)))
      ++ replicate (3 - i) PAD
    else ret.

(** Three bytes from the four numbers of [charArray4]. *)
Definition triple (a b c d : Z) : list Z :=
  [u8 (Z.shiftl a 2 + Z.shiftr (Z.land b 48) 4);
   u8 (Z.shiftl (Z.land b 15) 4 + Z.shiftr (Z.land c 60) 2);
   u8 (Z.shiftl (Z.land c 3) 6 + d)].

(** The main loop of [Base64Decode]. *)
Fixpoint decode_loop (cs chunk ret : list Z) : list Z * list Z :=
  match cs with
  | [] => (chunk, ret)
  | c :: cs =>
      if negb (c =? PAD) && IsBase64 c then
        match chunk ++ [c] with
        | [w; x; y; z] =>
            decode_loop cs [] (ret ++ triple (base64_find w) (base64_find x) (base64_find y) (base64_find z))
        | chunk' => decode_loop cs chunk' ret
        end
      else (chunk, ret)
  end.

Definition Base64Decode (basicString : list Z) : list Z :=
  let '(chunk, ret) := decode_loop basicString [] [] in
  let i := length chunk in
  if (0 <? i)%nat then
    let arr := map base64_find (chunk ++ replicate (4 - i) 0) in
    ret ++ take (i - 1) (triple (nth 0 arr 0) (nth 1 arr 0) (nth 2 arr 0) (nth 3 arr 0))
  else ret.

(** ** Facts on bytes and strings *)

Lemma ascii_byte_range c : is_u8 (ascii_byte c).
Proof.
  unfold is_u8, ascii_byte. pose proof (N_ascii_bounded c) as Hb.
  pose proof (N2Z.is_nonneg (N_of_ascii c)). split; [lia|].
  apply N2Z.inj_lt in Hb. exact Hb.
Qed.

Lemma byte_ascii_byte c : byte_ascii (ascii_byte c) = c.
Proof. unfold byte_ascii, ascii_byte. rewrite N2Z.id. apply ascii_N_embedding. Qed.

Lemma ascii_byte_ascii b : is_u8 b -> ascii_byte (byte_ascii b) = b.
Proof.
  intros [H0 H1]. unfold byte_ascii, ascii_byte. rewrite N_ascii_embedding; [lia|].
  apply N2Z.inj_lt. rewrite Z2N.id; lia.
Qed.

Lemma bytes_str_bytes s : bytes_str (str_bytes s) = s.
Proof. induction s as [|c s IH]; simpl; [done|]. by rewrite byte_ascii_byte, IH. Qed.

Lemma str_bytes_str bs : Forall is_u8 bs -> str_bytes (bytes_str bs) = bs.
Proof. induction 1 as [|b bs Hb _ IH]; simpl; [done|]. by rewrite ascii_byte_ascii, IH. Qed.

Lemma str_bytes_range s : Forall is_u8 (str_bytes s).
Proof. induction s; simpl; constructor; [apply ascii_byte_range | done]. Qed.

Lemma c_str_no_nul s : no_nul s = true -> c_str s = s.
Proof.
  induction s as [|c s IH]; simpl; [done|].
  destruct (ascii_byte c =? 0); simpl; [done|]. intros H. by rewrite IH.
Qed.

Lemma no_nul_c_str s : no_nul (c_str s) = true.
Proof. induction s as [|c s IH]; simpl; [done|]. destruct (ascii_byte c =? 0) eqn:E; simpl; [done|]. by rewrite E. Qed.

Lemma c_str_idem s : c_str (c_str s) = c_str s.
Proof. apply c_str_no_nul, no_nul_c_str. Qed.

(** A statement on all numbers below a small bound is checked one by one. *)
Lemma below_check (n : nat) (P : Z -> bool) x :
  forallb P (map Z.of_nat (seq 0 n)) = true -> 0 <= x < Z.of_nat n -> P x = true.
Proof.
  intros H Hx. rewrite forallb_forall in H. apply H.
  apply in_map_iff. exists (Z.to_nat x). rewrite in_seq. lia.
Qed.

Ltac below n P :=
  intros Hx; pose proof (below_check n P _ ltac:(vm_compute; reflexivity) Hx) as Hcheck;
  cbv beta in Hcheck; first [by apply Z.eqb_eq in Hcheck | exact Hcheck].

Lemma base64_find_char i : 0 <= i < 64 -> base64_find (base64_char i) = i.
Proof. below 64%nat (fun i => base64_find (base64_char i) =? i). Qed.

Lemma base64_char_ok i : 0 <= i < 64 -> negb (base64_char i =? PAD) && IsBase64 (base64_char i) = true.
Proof. below 64%nat (fun i => negb (base64_char i =? PAD) && IsBase64 (base64_char i)). Qed.

Lemma base64_char_range i : 0 <= i < 64 -> is_u8 (base64_char i) /\ base64_char i <> 0.
Proof.
  intros Hi. assert (((1 <=? base64_char i) && (base64_char i <? 256)) = true) as H.
  { revert Hi. below 64%nat (fun i => (1 <=? base64_char i) && (base64_char i <? 256)). }
  apply andb_true_iff in H as [H1 H2]. zb_hyps. unfold is_u8. lia.
Qed.

(** ** The round trip of Base64 *)

Section Bits.
Context (a : Z) (Ha : is_u8 a).

Lemma high6 : Z.shiftr (Z.land a 252) 2 = a / 4.
Proof using Ha. revert Ha. below 256%nat (fun a => Z.shiftr (Z.land a 252) 2 =? a / 4). Qed.
Lemma low2 : Z.shiftl (Z.land a 3) 4 = a mod 4 * 16.
Proof using Ha. revert Ha. below 256%nat (fun a => Z.shiftl (Z.land a 3) 4 =? a mod 4 * 16). Qed.
Lemma high4 : Z.shiftr (Z.land a 240) 4 = a / 16.
Proof using Ha. revert Ha. below 256%nat (fun a => Z.shiftr (Z.land a 240) 4 =? a / 16). Qed.
Lemma low4 : Z.shiftl (Z.land a 15) 2 = a mod 16 * 4.
Proof using Ha. revert Ha. below 256%nat (fun a => Z.shiftl (Z.land a 15) 2 =? a mod 16 * 4). Qed.
Lemma high2 : Z.shiftr (Z.land a 192) 6 = a / 64.
Proof using Ha. revert Ha. below 256%nat (fun a => Z.shiftr (Z.land a 192) 6 =? a / 64). Qed.
Lemma low6 : Z.land a 63 = a mod 64.
Proof using Ha. revert Ha. below 256%nat (fun a => Z.land a 63 =? a mod 64). Qed.

(** The masks of the decoder on six-bit numbers, and on the 255 of [npos]. *)
Lemma mid2 : Z.shiftr (Z.land a 48) 4 = a / 16 mod 4.
Proof using Ha. revert Ha. below 256%nat (fun a => Z.shiftr (Z.land a 48) 4 =? a / 16 mod 4). Qed.
Lemma low4' : Z.shiftl (Z.land a 15) 4 = a mod 16 * 16.
Proof using Ha. revert Ha. below 256%nat (fun a => Z.shiftl (Z.land a 15) 4 =? a mod 16 * 16). Qed.
Lemma mid4 : Z.shiftr (Z.land a 60) 2 = a / 4 mod 16.
Proof using Ha. revert Ha. below 256%nat (fun a => Z.shiftr (Z.land a 60) 2 =? a / 4 mod 16). Qed.
Lemma low2' : Z.shiftl (Z.land a 3) 6 = a mod 4 * 64.
Proof using Ha. revert Ha. below 256%nat (fun a => Z.shiftl (Z.land a 3) 6 =? a mod 4 * 64). Qed.
End Bits.

Lemma shiftl_2 a : Z.shiftl a 2 = a * 4.
Proof. rewrite Z.shiftl_mul_pow2 by lia. lia. Qed.

Lemma quad_arith a b c : is_u8 a -> is_u8 b -> is_u8 c ->
  quad a b c = [a / 4; a mod 4 * 16 + b / 16; b mod 16 * 4 + c / 64; c mod 64].
Proof.
  intros Ha Hb Hc. unfold quad. rewrite high6, low2, high4, low4, high2, low6 by done.
  unfold is_u8, u8 in *. repeat f_equal; apply Z.mod_small; Z.to_euclidean_division_equations; lia.
Qed.

Lemma quad_range a b c : is_u8 a -> is_u8 b -> is_u8 c -> Forall (fun i => 0 <= i < 64) (quad a b c).
Proof.
  intros Ha Hb Hc. rewrite quad_arith by done. unfold is_u8 in *.
  repeat constructor; Z.to_euclidean_division_equations; lia.
Qed.

Lemma triple_arith a b c d : is_u8 a -> is_u8 b -> is_u8 c ->
  triple a b c d =
    [u8 (a * 4 + b / 16 mod 4); u8 (b mod 16 * 16 + c / 4 mod 16); u8 (c mod 4 * 64 + d)].
Proof. intros Ha Hb Hc. unfold triple. by rewrite shiftl_2, mid2, low4', mid4, low2' by done. Qed.

Lemma triple_quad a b c : is_u8 a -> is_u8 b -> is_u8 c ->
  match quad a b c with
  | [w; x; y; z] => triple w x y z = [a; b; c]
  | _ => False
  end.
Proof.
  intros Ha Hb Hc. rewrite quad_arith by done.
  rewrite triple_arith by (unfold is_u8 in *; Z.to_euclidean_division_equations; lia).
  unfold is_u8, u8 in *. repeat f_equal; Z.to_euclidean_division_equations; lia.
Qed.

Lemma list_ind3 {A} (P : list A -> Prop) :
  P [] -> (forall a, P [a]) -> (forall a b, P [a; b]) ->
  (forall a b c l, P l -> P (a :: b :: c :: l)) -> forall l, P l.
Proof.
  intros H0 H1 H2 H3 l. remember (length l) as n eqn:Hn. revert l Hn.
  induction (lt_wf n) as [n _ IH]. intros [|a [|b [|c l]]] ->; auto.
  apply H3. apply (IH (length l)); [simpl; lia | done].
Qed.

(** Characters of the alphabet are collected four at a time. *)
Lemma decode_loop_quad a b c rest ret : is_u8 a -> is_u8 b -> is_u8 c ->
  decode_loop (map base64_char (quad a b c) ++ rest) [] ret = decode_loop rest [] (ret ++ [a; b; c]).
Proof.
  intros Ha Hb Hc. pose proof (quad_range a b c Ha Hb Hc) as HF. pose proof (triple_quad a b c Ha Hb Hc) as HT.
  destruct (quad a b c) as [|w [|x [|y [|z [|]]]]]; try done.
  apply Forall_cons in HF as [Hw HF]. apply Forall_cons in HF as [Hx HF].
  apply Forall_cons in HF as [Hy HF]. apply Forall_cons in HF as [Hz _].
  cbn [map app decode_loop]. rewrite !base64_char_ok, !base64_find_char by done. by rewrite HT.
Qed.

(** What the loop of the encoder leaves: whole groups as text that decodes to
    them, and at most two bytes. *)
Lemma encode_loop_spec bs : Forall is_u8 bs -> forall ret, exists chunk whole text,
  encode_loop bs [] ret = (chunk, ret ++ text) /\ bs = whole ++ chunk /\ (length chunk < 3)%nat /\
  Forall (fun c => is_u8 c /\ c <> 0) text /\
  forall rest r, decode_loop (text ++ rest) [] r = decode_loop rest [] (r ++ whole).
Proof.
  induction bs as [|a|a b|a b c bs IH] using list_ind3; intros HF ret.
  - exists [], [], []. split_and!; simpl; try done; try lia; intros; by rewrite ?app_nil_r.
  - exists [a], [], []. split_and!; simpl; try done; try lia; intros; by rewrite ?app_nil_r.
  - exists [a; b], [], []. split_and!; simpl; try done; try lia; intros; by rewrite ?app_nil_r.
  - apply Forall_cons in HF as [Ha HF]. apply Forall_cons in HF as [Hb HF]. apply Forall_cons in HF as [Hc HF].
    destruct (IH HF (ret ++ map base64_char (quad a b c))) as (chunk & whole & text & He & -> & Hl & Ht & Hd).
    exists chunk, (a :: b :: c :: whole), (map base64_char (quad a b c) ++ text). split_and!; try done.
    + change (encode_loop (a :: b :: c :: whole ++ chunk) [] ret)
        with (encode_loop (whole ++ chunk) [] (ret ++ map base64_char (quad a b c))).
      by rewrite He, app_assoc.
    + apply Forall_app. split; [|done]. apply Forall_map.
      eapply Forall_impl; [apply (quad_range a b c Ha Hb Hc)|]. intros i Hi. by apply base64_char_range.
    + intros rest r. rewrite <- app_assoc, decode_loop_quad, Hd by done. by rewrite <- app_assoc.
Qed.

Lemma zero_u8 : is_u8 0.
Proof. unfold is_u8. lia. Qed.
#[local] Hint Resolve zero_u8 : core.

Lemma base64_find_nul : base64_find 0 = 255.
Proof. reflexivity. Qed.

(** The text of one or two bytes at the end. *)
Lemma decode_tail1 a ret : is_u8 a ->
  Base64Decode (map base64_char (take 2 (quad a 0 0)) ++ [PAD; PAD]) = [a] /\
  decode_loop (map base64_char (take 2 (quad a 0 0)) ++ [PAD; PAD]) [] ret
  = (map base64_char (take 2 (quad a 0 0)), ret).
Proof.
  intros Ha. rewrite quad_arith by done. cbn [take map app].
  set (w := a / 4). set (x := a mod 4 * 16 + 0 / 16).
  assert (0 <= w < 64 /\ 0 <= x < 64) as [Hw Hx].
  { unfold w, x, is_u8 in *. split; Z.to_euclidean_division_equations; lia. }
  unfold Base64Decode. cbn [decode_loop app]. rewrite !base64_char_ok by done.
  cbn [decode_loop app negb andb]. change (PAD =? PAD) with true. cbn [negb andb].
  split; [|done]. cbn [length Nat.ltb Nat.leb app replicate Nat.sub map nth take].
  rewrite !base64_find_char by done. rewrite !base64_find_nul.
  rewrite triple_arith by (unfold is_u8; lia). cbn [take].
  unfold w, x, u8, is_u8 in *. f_equal. Z.to_euclidean_division_equations; lia.
Qed.

Lemma decode_tail2 a b ret : is_u8 a -> is_u8 b ->
  Base64Decode (map base64_char (take 3 (quad a b 0)) ++ [PAD]) = [a; b] /\
  decode_loop (map base64_char (take 3 (quad a b 0)) ++ [PAD]) [] ret
  = (map base64_char (take 3 (quad a b 0)), ret).
Proof.
  intros Ha Hb. rewrite quad_arith by done. cbn [take map app].
  set (w := a / 4). set (x := a mod 4 * 16 + b / 16). set (y := b mod 16 * 4 + 0 / 64).
  assert (0 <= w < 64 /\ 0 <= x < 64 /\ 0 <= y < 64) as (Hw & Hx & Hy).
  { unfold w, x, y, is_u8 in *. split_and!; Z.to_euclidean_division_equations; lia. }
  unfold Base64Decode. cbn [decode_loop app]. rewrite !base64_char_ok by done.
  cbn [decode_loop app negb andb]. change (PAD =? PAD) with true. cbn [negb andb].
  split; [|done]. cbn [length Nat.ltb Nat.leb app replicate Nat.sub map nth take].
  rewrite !base64_find_char by done. rewrite !base64_find_nul.
  rewrite triple_arith by (unfold is_u8; lia). cbn [take].
  unfold w, x, y, u8, is_u8 in *. repeat f_equal; Z.to_euclidean_division_equations; lia.
Qed.

(** Decoding continues after whole groups as if it started there. *)
Lemma Base64Decode_app text whole rest :
  (forall r, decode_loop (text ++ rest) [] r = decode_loop rest [] (r ++ whole)) ->
  (forall r, decode_loop rest [] r = ((decode_loop rest [] []).1, r ++ (decode_loop rest [] []).2)) ->
  Base64Decode (text ++ rest) = whole ++ Base64Decode rest.
Proof.
  intros H1 H2. unfold Base64Decode. rewrite (H1 []). rewrite (H2 ([] ++ whole)).
  destruct (decode_loop rest [] []) as [chunk r]. simpl.
  destruct chunk; simpl; [done|]. by rewrite <- app_assoc.
Qed.

Lemma Base64Decode_Encode bs : Forall is_u8 bs -> Base64Decode (Base64Encode bs) = bs.
Proof.
  intros HF. unfold Base64Encode. destruct (Z.eqb_spec (len bs) 0) as [E|_].
  { rewrite (len_0_nil bs) by lia. reflexivity. }
  destruct (encode_loop_spec bs HF []) as (chunk & whole & text & -> & -> & Hl & _ & Hd). simpl.
  apply Forall_app in HF as [_ HC].
  assert (forall rest, (forall r, decode_loop rest [] r = ((decode_loop rest [] []).1, r ++ (decode_loop rest [] []).2)) ->
      Base64Decode (text ++ rest) = whole ++ Base64Decode rest) as Happ.
  { intros rest. by apply Base64Decode_app. }
  destruct chunk as [|a [|b [|]]]; simpl in Hl; try lia.
  - cbn [length Nat.ltb Nat.leb]. rewrite <- (app_nil_r text), Happ; [done|]. intros r. by rewrite app_nil_r.
  - apply Forall_cons in HC as [Ha _]. cbn [length Nat.ltb Nat.leb app replicate Nat.sub nth Nat.add].
    destruct (decode_tail1 a [] Ha) as [Ht _]. rewrite Happ; [by rewrite Ht|].
    intros r. rewrite (proj2 (decode_tail1 a [] Ha)), (proj2 (decode_tail1 a r Ha)). simpl. by rewrite app_nil_r.
  - apply Forall_cons in HC as [Ha HC]. apply Forall_cons in HC as [Hb _].
    cbn [length Nat.ltb Nat.leb app replicate Nat.sub nth Nat.add].
    destruct (decode_tail2 a b [] Ha Hb) as [Ht _]. rewrite Happ; [by rewrite Ht|].
    intros r. rewrite (proj2 (decode_tail2 a b [] Ha Hb)), (proj2 (decode_tail2 a b r Ha Hb)). simpl.
    by rewrite app_nil_r.
Qed.

(** What is encoded as Base64 decodes to the same bytes, whatever their
    number; the characters that stand for the missing bytes of the last group
    ([npos] converted to a byte) do not reach the result. *)
Theorem base64_roundtrip bs : Forall is_u8 bs -> Base64Decode (Base64Encode bs) = bs.
Proof. apply Base64Decode_Encode. Qed.

Lemma base64_roundtrip_witness :
  Base64Decode (Base64Encode [77; 97; 110; 1; 250; 255; 0]) = [77; 97; 110; 1; 250; 255; 0].
Proof. apply base64_roundtrip. repeat constructor; unfold is_u8; lia. Defined.

Lemma nth_u8 l i : Forall is_u8 l -> is_u8 (nth i l 0).
Proof.
  intros H. destruct (decide (i < length l)%nat) as [Hi|Hi].
  - rewrite List.Forall_forall in H. by apply H, nth_In.
  - rewrite nth_overflow by lia. apply zero_u8.
Qed.

(** Base64 text has no zero byte and is made of bytes, so it survives a C string. *)
Lemma base64_text bs : Forall is_u8 bs -> Forall (fun c => is_u8 c /\ c <> 0) (Base64Encode bs).
Proof.
  intros HF. unfold Base64Encode. destruct (len bs =? 0); [constructor|].
  destruct (encode_loop_spec bs HF []) as (chunk & whole & text & -> & -> & Hl & Ht & _). simpl.
  apply Forall_app in HF as [_ HC]. destruct (0 <? length chunk)%nat; [|done].
  apply Forall_app. split; [done|]. apply Forall_app. split.
  - assert (Forall is_u8 (chunk ++ replicate (3 - length chunk) 0)) as Harr.
    { apply Forall_app. split; [done|]. by apply Forall_replicate. }
    apply Forall_map, Forall_take. eapply Forall_impl; [apply quad_range|]; simpl.
    4: intros i Hi; by apply base64_char_range.
    all: by apply nth_u8.
  - apply Forall_replicate. unfold PAD, is_u8. lia.
Qed.

Lemma no_nul_bytes_str cs : Forall (fun c => is_u8 c /\ c <> 0) cs -> no_nul (bytes_str cs) = true.
Proof.
  induction 1 as [|c cs [Hu Hc] _ IH]; simpl; [done|].
  rewrite ascii_byte_ascii, IH, andb_true_r by done. by apply negb_true_iff, Z.eqb_neq.
Qed.

Lemma Base64Encode_no_nul bs : Forall is_u8 bs -> no_nul (bytes_str (Base64Encode bs)) = true.
Proof. intros H. by apply no_nul_bytes_str, base64_text. Qed.

Lemma Base64Encode_bytes bs : Forall is_u8 bs -> str_bytes (bytes_str (Base64Encode bs)) = Base64Encode bs.
Proof. intros H. apply str_bytes_str. eapply Forall_impl; [by apply base64_text|]. by intros c [? _]. Qed.

(** ** Parcels

    A parcel of the utilities library holds its bytes and a read cursor. Whether
    it can grow, how much it may hold at most, whether it has an array at all and
    whether its size can be set are answers of that library. *)

Record Parcel := mkParcel { parcel_data : list Z; parcel_cursor : Z }.
Definition Parcel_new : Parcel := mkParcel [] 0.

Class ParcelApi := {
  SetDataCapacity : Parcel -> Z -> bool;
  (** [GetData] is the null pointer after a capacity was set. *)
  GetData_null : Parcel -> Z -> bool;
  GetMaxCapacity : Z;
  SetDataSize : Parcel -> Z -> bool;
}.

Section Parcels.
Context {PA : ParcelApi}.

Definition ParcelToBase64Str (p : Parcel) : string := bytes_str (Base64Encode (parcel_data p)).

(** The bytes of the parcel are replaced and its read cursor is kept. [memcpy_s]
    refuses a null pointer, a zero maximum and more bytes than the maximum. [None]
    stands for [INVALID_PARAMETERS_ERR]. *)
Definition Base64StrToParcel (rawStr : string) (p : Parcel) : option Parcel :=
  let str := Base64Decode (str_bytes rawStr) in
  let parcelSize := len str in
  if negb (SetDataCapacity p parcelSize) then None
  else
    let ret := if GetData_null p parcelSize || (GetMaxCapacity <=? 0) || (GetMaxCapacity <? parcelSize)
               then MEMCPY_S_FAIL else ERR_OK in
    if negb (ret =? ERR_OK) || negb (SetDataSize p parcelSize) then None
    else Some (mkParcel str (parcel_cursor p)).

(** A parcel can take [n] bytes. *)
Definition parcel_fits (p : Parcel) (n : Z) : bool :=
  SetDataCapacity p n && negb (GetData_null p n) && (0 <? GetMaxCapacity) && (n <=? GetMaxCapacity)
  && SetDataSize p n.

Lemma Base64StrToParcel_roundtrip data q : Forall is_u8 data -> parcel_fits q (len data) = true ->
  Base64StrToParcel (bytes_str (Base64Encode data)) q = Some (mkParcel data (parcel_cursor q)).
Proof.
  unfold parcel_fits. rewrite !andb_true_iff, negb_true_iff. intros HF ((((H1 & H2) & H3) & H4) & H5). zb_hyps.
  unfold Base64StrToParcel. rewrite Base64Encode_bytes, Base64Decode_Encode, H1, H2, H5 by done.
  zb_false (GetMaxCapacity <=? 0). by zb_false (GetMaxCapacity <? len data).
Qed.
End Parcels.

(** ** Values in parcels

    [Marshalling] appends the bytes of a value, [Unmarshalling] reads a value from
    the bytes after the read cursor and says how many it took. *)

Class Parcelable (A : Type) := {
  Marshalling : A -> option (list Z);
  Unmarshalling : list Z -> option (A * Z);
}.

Class ParcelableLaws (A : Type) `{Parcelable A} : Prop := {
  marshalling_bytes x b : Marshalling x = Some b -> Forall is_u8 b;
  marshalling_read x b rest : Marshalling x = Some b -> Unmarshalling (b ++ rest) = Some (x, len b);
}.

Definition parcel_write `{Parcelable A} (x : A) (p : Parcel) : option Parcel :=
  b ← Marshalling x; Some (mkParcel (parcel_data p ++ b) (parcel_cursor p)).

Definition parcel_read `{Parcelable A} (p : Parcel) : option (A * Parcel) :=
  '(x, n) ← Unmarshalling (drop (Z.to_nat (parcel_cursor p)) (parcel_data p));
  Some (x, mkParcel (parcel_data p) (parcel_cursor p + n)).

Lemma parcel_read_written `{ParcelableLaws A} (x : A) b data rest :
  Marshalling x = Some b ->
  parcel_read (mkParcel (data ++ b ++ rest) (len data)) = Some (x, mkParcel (data ++ b ++ rest) (len data + len b)).
Proof.
  intros Hx. unfold parcel_read. simpl.
  replace (Z.to_nat (len data)) with (length data) by (unfold len; lia). rewrite drop_app_length.
  rewrite (marshalling_read x b rest) by done. reflexivity.
Qed.

(** * Decimal texts: the functions [std::to_string], [strtoull], [atoi] and [atoll] of the
    C++ library with the base 10. *)

#[local] Open Scope string_scope.
#[local] Open Scope list_scope.
#[local] Open Scope Z_scope.

Definition ULLONG_MAX : Z := 18446744073709551615.

Definition digit (d : Z) : ascii := byte_ascii (48 + d).

(** The digits of a number, at most as many as [fuel]. *)
Fixpoint digits (fuel : nat) (n : Z) (acc : string) : string :=
  match fuel with
  | O => acc
  | S fuel =>
      let acc := String (digit (n mod 10)) acc in
      if n <? 10 then acc else digits fuel (n / 10) acc
  end.
(** A 64-bit number has at most 20 digits. *)
Definition to_string (n : Z) : string := digits 20 n "".

Definition is_space (c : ascii) : bool := (ascii_byte c =? 32) || ((9 <=? ascii_byte c) && (ascii_byte c <=? 13)).
Definition is_digit (c : ascii) : bool := (48 <=? ascii_byte c) && (ascii_byte c <=? 57).

Fixpoint skip_spaces (s : string) : string :=
  match s with
  | String c s' => if is_space c then skip_spaces s' else s
  | EmptyString => s
  end.

Fixpoint read_digits (s : string) (n : Z) : Z :=
  match s with
  | String c s => if is_digit c then read_digits s (n * 10 + (ascii_byte c - 48)) else n
  | EmptyString => n
  end.

(** The sign and the digits at the start of a text, after spaces. *)
Definition read_number (s : string) : bool * Z :=
  match skip_spaces s with
  | String c s' =>
      if ascii_byte c =? 45 then (true, read_digits s' 0)
      else if ascii_byte c =? 43 then (false, read_digits s' 0)
      else (false, read_digits (skip_spaces s) 0)
  | EmptyString => (false, 0)
  end.
Definition signed (p : bool * Z) : Z := if fst p then - snd p else snd p.

Definition strtoull (s : string) : Z :=
  let '(negative, n) := read_number s in
  if ULLONG_MAX <? n then ULLONG_MAX else if negative : bool then u64 (- n) else n.
(** [None]: the number does not fit, which the C standard leaves undefined. *)
Definition atoi (s : string) : option Z :=
  let n := signed (read_number s) in
  if (-2147483648 <=? n) && (n <=? 2147483647) then Some n else None.
Definition atoll (s : string) : option Z :=
  let n := signed (read_number s) in
  if (-9223372036854775808 <=? n) && (n <=? 9223372036854775807) then Some n else None.
(** [std::to_string] of a signed number. *)
Definition signed_to_string (n : Z) : string := if n <? 0 then String "-" (to_string (- n)) else to_string n.

(** ** Reading what was written *)

Lemma ascii_digit d : 0 <= d < 10 -> ascii_byte (digit d) = 48 + d.
Proof.
  intros H. unfold digit, ascii_byte, byte_ascii. rewrite N_ascii_embedding; [lia|]. lia.
Qed.

Lemma read_digits_digits fuel n acc : 0 <= n < 10 ^ Z.of_nat fuel -> forall m,
  exists k, read_digits (digits fuel n acc) m = read_digits acc (m * 10 ^ k + n) /\ 0 <= k.
Proof.
  revert n acc. induction fuel as [|fuel IH]; intros n acc Hn m.
  - exists 0. split; [|lia]. simpl. f_equal. simpl in Hn. lia.
  - cbn [digits].
    assert (forall m, read_digits (String (digit (n mod 10)) acc) m = read_digits acc (m * 10 + n mod 10)) as Hd.
    { intros m'. cbn [read_digits]. unfold is_digit. rewrite ascii_digit by (apply Z.mod_pos_bound; lia).
      assert (0 <= n mod 10 < 10) by (apply Z.mod_pos_bound; lia).
      replace (48 <=? 48 + n mod 10) with true by (symmetry; apply Z.leb_le; lia).
      replace (48 + n mod 10 <=? 57) with true by (symmetry; apply Z.leb_le; lia). simpl. f_equal. lia. }
    destruct (Z.ltb_spec n 10).
    + exists 1. split; [|lia]. rewrite Hd, Z.mod_small by lia. f_equal; lia.
    + rewrite Nat2Z.inj_succ, Z.pow_succ_r in Hn by lia.
      destruct (IH (n / 10) (String (digit (n mod 10)) acc)) with (m := m) as (k & Hk & ?).
      { split; [apply Z.div_pos; lia|]. apply Z.div_lt_upper_bound; lia. }
      exists (k + 1). split; [|lia]. rewrite Hk, Hd. f_equal. rewrite Z.pow_add_r by lia.
      pose proof (Z.div_mod n 10). lia.
Qed.

Lemma digits_head fuel n acc : 0 <= n -> exists d s, digits (S fuel) n acc = String (digit d) s /\ 0 <= d < 10.
Proof.
  revert n acc. induction fuel as [|fuel IH]; intros n acc Hn.
  - cbn [digits]. destruct (n <? 10); exists (n mod 10), acc; (split; [done|]); apply Z.mod_pos_bound; lia.
  - cbn [digits]. destruct (n <? 10).
    + exists (n mod 10), acc. split; [done|]. apply Z.mod_pos_bound; lia.
    + apply (IH (n / 10)). apply Z.div_pos; lia.
Qed.

Lemma read_digits_to_string n : 0 <= n <= ULLONG_MAX -> read_digits (to_string n) 0 = n.
Proof.
  intros Hn. unfold to_string, ULLONG_MAX in *. destruct (read_digits_digits 20 n "" ltac:(simpl; lia) 0) as (k & -> & _). simpl. lia.
Qed.
Lemma read_to_string n : 0 <= n <= ULLONG_MAX -> read_number (to_string n) = (false, n).
Proof.
  intros Hn. pose proof (read_digits_to_string n Hn) as Hr. unfold read_number, to_string in *. destruct (digits_head 19 n "") as (d & s & E & Hd); [lia|].
  rewrite E in *. cbn [skip_spaces]. unfold is_space. rewrite !ascii_digit by done.
  zb_false (48 + d =? 32). zb_false (48 + d <=? 13). rewrite andb_false_r. cbn [orb]. rewrite !ascii_digit by done.
  zb_false (48 + d =? 45). zb_false (48 + d =? 43). by rewrite Hr.
Qed.
Lemma read_signed_to_string n : - ULLONG_MAX <= n <= ULLONG_MAX -> signed (read_number (signed_to_string n)) = n.
Proof.
  intros Hn. unfold signed_to_string. destruct (Z.ltb_spec n 0); [|by rewrite read_to_string by lia].
  unfold read_number. cbn [skip_spaces]. change (is_space "-") with false. cbv iota. change (ascii_byte "-" =? 45) with true. cbv iota.
  unfold signed. cbn [fst snd]. rewrite read_digits_to_string by lia. lia.
Qed.
Lemma strtoull_to_string n : 0 <= n <= ULLONG_MAX -> strtoull (to_string n) = n.
Proof. intros Hn. unfold strtoull. rewrite read_to_string by done. zb_case; lia. Qed.
Lemma atoi_signed n : is_i32 n -> atoi (signed_to_string n) = Some n.
Proof.
  unfold is_i32. intros Hn. unfold atoi. rewrite read_signed_to_string by (unfold ULLONG_MAX; lia).
  by replace ((-2147483648 <=? n) && (n <=? 2147483647)) with true by (symmetry; apply andb_true_intro; split; apply Z.leb_le; lia).
Qed.
Lemma atoi_to_string n : 0 <= n <= 2147483647 -> atoi (to_string n) = Some n.
Proof. intros Hn. rewrite <- (atoi_signed n) by (unfold is_i32; lia). unfold signed_to_string. destruct (Z.ltb_spec n 0); [lia|done]. Qed.
Lemma atoll_signed n : -9223372036854775808 <= n <= 9223372036854775807 -> atoll (signed_to_string n) = Some n.
Proof.
  intros Hn. unfold atoll. rewrite read_signed_to_string by (unfold ULLONG_MAX; lia).
  by replace ((-9223372036854775808 <=? n) && (n <=? 9223372036854775807)) with true by (symmetry; apply andb_true_intro; split; apply Z.leb_le; lia).
Qed.

Lemma digits_no_nul fuel n acc : no_nul acc = true -> 0 <= n -> no_nul (digits fuel n acc) = true.
Proof.
  revert n acc. induction fuel as [|fuel IH]; intros n acc Ha Hn; [done|]. cbn [digits].
  assert (no_nul (String (digit (n mod 10)) acc) = true).
  { cbn [no_nul]. rewrite ascii_digit by (apply Z.mod_pos_bound; lia). rewrite Ha.
    assert (0 <= n mod 10) by (apply Z.mod_pos_bound; lia).
    replace (48 + n mod 10 =? 0) with false by (symmetry; apply Z.eqb_neq; lia). done. }
  destruct (n <? 10); [done|]. apply IH; [done|]. apply Z.div_pos; lia.
Qed.
