(* ===== verification/Json.v ===== *)
(** JSON documents as the commands use them through cJSON.

    cJSON is not part of the repository: a document is the tree of RFC 8259, and
    [cJSON_Print] and [cJSON_Parse] are parameters ([CJson]) of which the commands
    need that parsing a printed document gives it back ([CJsonLaws]). Of a number
    the code reads only [valueint], so its integer part is kept. Allocation of a
    tree succeeds; printing may fail. *)

From S2P Require Import Prelude SchedUtils.
From stdpp Require Import countable.
#[local] Open Scope string_scope.
#[local] Open Scope list_scope.
#[local] Open Scope Z_scope.

#[local] Unset Elimination Schemes.
Inductive json :=
  | JNull
  | JBool (b : bool)
  | JNumber (n : Z)
  | JString (s : string)
  | JArray (items : list json)
  | JObject (members : list (string * json)).
#[local] Set Elimination Schemes.

Section JsonInd.
Context (P : json -> Prop).
Context (Hnull : P JNull) (Hbool : forall b, P (JBool b)) (Hnum : forall n, P (JNumber n))
  (Hstr : forall s, P (JString s)) (Harr : forall l, Forall P l -> P (JArray l))
  (Hobj : forall l, Forall (fun kv => P kv.2) l -> P (JObject l)).

Fixpoint json_ind' (j : json) : P j :=
  match j with
  | JNull => Hnull
  | JBool b => Hbool b
  | JNumber n => Hnum n
  | JString s => Hstr s
  | JArray l => Harr l ((fix go l : Forall P l :=
      match l with [] => Forall_nil_2 _ | x :: l => Forall_cons_2 _ _ _ (json_ind' x) (go l) end) l)
  | JObject l => Hobj l ((fix go l : Forall (fun kv : string * json => P kv.2) l :=
      match l with [] => Forall_nil_2 _ | kv :: l => Forall_cons_2 _ _ _ (json_ind' kv.2) (go l) end) l)
  end.
End JsonInd.

(** ** Building and reading *)

(** [cJSON_AddNumberToObject], [cJSON_AddStringToObject], [cJSON_AddBoolToObject]. *)
Definition num (key : string) (n : Z) : string * json := (key, JNumber n).
Definition str (key : string) (s : string) : string * json := (key, JString (c_str s)).
Definition bool_item (key : string) (b : bool) : string * json := (key, JBool b).
(** An array of strings. *)
Definition strs (key : string) (l : list string) : string * json := (key, JArray (map (fun s => JString (c_str s)) l)).

(** [cJSON_GetObjectItemCaseSensitive]: the first member with that name. *)
Fixpoint find_member (key : string) (l : list (string * json)) : option json :=
  match l with
  | [] => None
  | (k, v) :: l => if String.eqb key k then Some v else find_member key l
  end.
Definition GetObjectItem (root : json) (key : string) : option json :=
  match root with
  | JObject l => find_member key l
  | _ => None
  end.

(** [valueint] saturates. *)
Definition valueint (n : Z) : Z := Z.max (-2147483648) (Z.min n 2147483647).

Definition item_number (j : json) : option Z := match j with JNumber n => Some (valueint n) | _ => None end.
Definition item_string (j : json) : option string := match j with JString s => Some (c_str s) | _ => None end.
Definition item_bool (j : json) : option bool := match j with JBool b => Some b | _ => None end.

(** A member of a given kind; [None] when it is missing or of another kind. *)
Definition get_number (root : json) (key : string) : option Z := GetObjectItem root key ≫= item_number.
Definition get_string (root : json) (key : string) : option string := GetObjectItem root key ≫= item_string.
Definition get_bool (root : json) (key : string) : option bool := GetObjectItem root key ≫= item_bool.

(** [cJSON_ArrayForEach] over a member with a test that every item is a string:
    a missing member has no items; the members of an object are iterated too. *)
Definition get_strings (root : json) (key : string) : option (list string) :=
  match GetObjectItem root key with
  | Some (JArray l) => mapM item_string l
  | Some (JObject l) => mapM item_string (map snd l)
  | _ => Some []
  end.

(** [valuestring] is the null pointer unless the item is a string. *)
Definition is_string (j : json) : bool := match j with JString _ => true | _ => false end.
Definition valuestring (j : json) : option string := item_string j.

(** [json[key] = value] of nlohmann, on an object or on null. *)
Fixpoint insert_member (l : list (string * json)) (key : string) (v : json) : list (string * json) :=
  match l with
  | [] => [(key, v)]
  | (k, x) :: l => if String.eqb k key then (k, v) :: l else (k, x) :: insert_member l key v
  end.
Definition set_member (j : json) (key : string) (v : json) : json :=
  match j with
  | JObject l => JObject (insert_member l key v)
  | _ => JObject [(key, v)]
  end.

(** ** Printing and parsing *)

Class CJson := {
  cJSON_Print : json -> option string;
  cJSON_Parse : string -> option json;
  (** [nlohmann::json::dump]. *)
  json_dump : json -> string;
}.

Definition CJSON_NESTING_LIMIT : nat := 1000.

Fixpoint depth (j : json) : nat :=
  match j with
  | JArray l => S (foldr (fun x n => Nat.max (depth x) n) 0%nat l)
  | JObject l => S (foldr (fun kv n => Nat.max (depth kv.2) n) 0%nat l)
  | _ => 0%nat
  end.

(** Texts are C strings and numbers are exact in a [double]. *)
Fixpoint printable (j : json) : bool :=
  match j with
  | JNull | JBool _ => true
  | JNumber n => Z.abs n <? 9007199254740992
  | JString s => no_nul s
  | JArray l => forallb printable l
  | JObject l => forallb (fun kv => no_nul kv.1 && printable kv.2) l
  end.

Definition wf_json (j : json) : bool := printable j && (depth j <=? CJSON_NESTING_LIMIT)%nat.

Class CJsonLaws `{CJson} : Prop := {
  print_some j : wf_json j = true -> is_Some (cJSON_Print j);
  print_parse j s : wf_json j = true -> cJSON_Print j = Some s -> cJSON_Parse s = Some j;
  print_no_nul j s : cJSON_Print j = Some s -> no_nul s = true;
  dump_parse j : wf_json j = true -> cJSON_Parse (json_dump j) = Some j;
  dump_no_nul j : no_nul (json_dump j) = true;
}.

(** ** Reading what was written *)

Lemma valueint_id n : is_i32 n -> valueint n = n.
Proof. unfold is_i32, valueint. lia. Qed.

Lemma item_string_no_nul s : no_nul s = true -> item_string (JString (c_str s)) = Some s.
Proof. intros H. simpl. by rewrite c_str_idem, c_str_no_nul. Qed.

Lemma mapM_strs l : forallb no_nul l = true -> mapM item_string (map (fun s => JString (c_str s)) l) = Some l.
Proof.
  induction l as [|s l IH]; [done|]. cbn [forallb]. rewrite andb_true_iff. intros [Hs Hl].
  cbn [map mapM]. change (mapM item_string (JString (c_str s) :: map (fun s => JString (c_str s)) l))
    with (item_string (JString (c_str s)) ≫= fun y => mapM item_string (map (fun s => JString (c_str s)) l) ≫= fun k => Some (y :: k)).
  rewrite item_string_no_nul, IH by done. reflexivity.
Qed.

(** Writing a member and reading it. *)
Lemma get_number_num l key n : GetObjectItem (JObject l) key = Some (JNumber n) -> is_i32 n ->
  get_number (JObject l) key = Some n.
Proof. intros H Hn. unfold get_number. rewrite H. simpl. by rewrite valueint_id. Qed.

Lemma get_string_str l key s : GetObjectItem (JObject l) key = Some (JString (c_str s)) -> no_nul s = true ->
  get_string (JObject l) key = Some s.
Proof. intros H Hs. unfold get_string. rewrite H. by apply item_string_no_nul. Qed.

Lemma get_bool_item l key b : GetObjectItem (JObject l) key = Some (JBool b) -> get_bool (JObject l) key = Some b.
Proof. intros H. unfold get_bool. by rewrite H. Qed.

Lemma get_strings_strs l key ss :
  GetObjectItem (JObject l) key = Some (JArray (map (fun s => JString (c_str s)) ss)) ->
  forallb no_nul ss = true -> get_strings (JObject l) key = Some ss.
Proof. intros H Hs. unfold get_strings. rewrite H. by apply mapM_strs. Qed.

(** A C string assigned to a [std::string] never differs from it. *)
Lemma printable_str key s : no_nul key = true -> no_nul (str key s).1 && printable (str key s).2 = true.
Proof. intros H. simpl. by rewrite H, no_nul_c_str. Qed.

Lemma printable_strs key l : no_nul key = true -> no_nul (strs key l).1 && printable (strs key l).2 = true.
Proof.
  intros H. simpl. rewrite H. simpl. induction l as [|s l IH]; [done|]. simpl. by rewrite no_nul_c_str, IH.
Qed.

Lemma printable_num key n : no_nul key = true -> -2147483648 <= n < 4294967296 ->
  no_nul (num key n).1 && printable (num key n).2 = true.
Proof. intros H Hn. simpl. rewrite H. simpl. apply Z.ltb_lt. lia. Qed.

Lemma wf_object l :
  forallb (fun kv => no_nul kv.1 && printable kv.2) l = true ->
  forallb (fun kv => depth kv.2 <=? 1)%nat l = true -> wf_json (JObject l) = true.
Proof.
  intros Hp Hd. unfold wf_json. apply andb_true_iff. split; [exact Hp|].
  apply Nat.leb_le. cbn [depth]. unfold CJSON_NESTING_LIMIT.
  assert (foldr (fun kv n => Nat.max (depth (snd kv)) n) 0%nat l <= 1)%nat; [|lia].
  induction l as [|kv l IH]; [simpl; lia|]. simpl in *. apply andb_true_iff in Hp as [_ Hp].
  apply andb_true_iff in Hd as [H1 Hd]. apply Nat.leb_le in H1. specialize (IH Hp Hd). lia.
Qed.

Lemma depth_strs l : (depth (JArray (map (fun s => JString (c_str s)) l)) <=? 1)%nat = true.
Proof. apply Nat.leb_le. cbn [depth]. induction l; simpl in *; lia. Qed.

Lemma forallb_cons_2 {A} (f : A -> bool) x l : f x = true -> forallb f l = true -> forallb f (x :: l) = true.
Proof. simpl. by intros -> ->. Qed.

(** [json_members] proves that a document of members is well formed,
    [json_read] reads its members one after the other. *)
Ltac json_members :=
  apply wf_object;
  repeat (apply forallb_cons_2;
    [ first [ solve [apply printable_num; [reflexivity | unfold is_i32 in *; lia]]
            | solve [apply printable_str; reflexivity] | solve [apply printable_strs; reflexivity]
            | solve [apply depth_strs] | reflexivity ] |]);
  reflexivity.

Ltac json_read :=
  repeat first
    [ erewrite get_number_num; [|reflexivity|solve [eauto with dms]]
    | erewrite get_string_str; [|reflexivity|solve [eauto with dms]]
    | erewrite get_strings_strs; [|reflexivity|solve [eauto with dms]]
    | erewrite get_bool_item; [|reflexivity] ];
  cbn [mbind option_bind].

(** ** A printer and parser that satisfy the laws

    Documents are countable; the number of a document is written in binary. *)

Definition leaf : Type := unit + bool + Z + string.

Fixpoint to_tree (j : json) : gen_tree leaf :=
  match j with
  | JNull => GenLeaf (inl (inl (inl tt)))
  | JBool b => GenLeaf (inl (inl (inr b)))
  | JNumber n => GenLeaf (inl (inr n))
  | JString s => GenLeaf (inr s)
  | JArray l => GenNode 0 (map to_tree l)
  | JObject l => GenNode 1 (map (fun kv => GenNode 2 [GenLeaf (inr kv.1); to_tree kv.2]) l)
  end.

Fixpoint of_tree (t : gen_tree leaf) : json :=
  match t with
  | GenLeaf (inl (inl (inl _))) => JNull
  | GenLeaf (inl (inl (inr b))) => JBool b
  | GenLeaf (inl (inr n)) => JNumber n
  | GenLeaf (inr s) => JString s
  | GenNode 0 l => JArray (map of_tree l)
  | GenNode _ l =>
      JObject (map (fun t => match t with
                             | GenNode _ [GenLeaf (inr k); v] => (k, of_tree v)
                             | _ => (EmptyString, JNull)
                             end) l)
  end.

Lemma of_to_tree j : of_tree (to_tree j) = j.
Proof.
  induction j as [| | | |l IH|l IH] using json_ind'; try done; cbn [to_tree of_tree]; f_equal.
  - induction IH as [|x l Hx _ IHl]; [done|]. simpl. by rewrite Hx, IHl.
  - induction IH as [|[k v] l Hx _ IHl]; [done|]. simpl in *. by rewrite Hx, IHl.
Qed.

#[global] Instance json_eq_dec : EqDecision json.
Proof.
  intros j1 j2. destruct (decide (to_tree j1 = to_tree j2)) as [E|E]; [left|right].
  - by rewrite <- (of_to_tree j1), E, of_to_tree.
  - congruence.
Defined.

#[global] Instance json_countable : Countable json := inj_countable' to_tree of_tree of_to_tree.

Fixpoint pos_str (p : positive) : string :=
  match p with
  | xH => EmptyString
  | xO p => String (byte_ascii 48) (pos_str p)
  | xI p => String (byte_ascii 49) (pos_str p)
  end.

Fixpoint str_pos (s : string) : positive :=
  match s with
  | EmptyString => xH
  | String c s => if ascii_byte c =? 48 then xO (str_pos s) else xI (str_pos s)
  end.

Lemma str_pos_str p : str_pos (pos_str p) = p.
Proof. induction p as [p IH|p IH|]; simpl; [by rewrite IH | by rewrite IH | done]. Qed.

Lemma pos_str_no_nul p : no_nul (pos_str p) = true.
Proof. by induction p. Qed.

#[local] Instance BinaryJson : CJson := {
  cJSON_Print := fun j => Some (pos_str (encode j));
  cJSON_Parse := fun s => decode (str_pos s);
  json_dump := fun j => pos_str (encode j);
}.

#[local] Instance BinaryJsonLaws : CJsonLaws.
Proof.
  split.
  - intros j _. by eexists.
  - intros j s _ [= <-]. simpl. by rewrite str_pos_str, decode_encode.
  - intros j s [= <-]. apply pos_str_no_nul.
  - intros j _. simpl. by rewrite str_pos_str, decode_encode.
  - intros j. apply pos_str_no_nul.
Qed.
