(* ===== verification/SoftbusSession.v ===== *)
(** One softbus session of the scheduler:
    services/dtbschedmgr/src/softbus_adapter/transport/dsched_softbus_session.cpp.

    Sending cuts a buffer into packets, each with a 49-byte header of seven
    type-length-value items ([UnPackSendData]); receiving parses the header and
    reassembles the message ([PackRecvData]). *)

From S2P Require Import Prelude DataBuffer SchedErrors Tlv.

(** ** Data *)

Definition FRAG_NULL : Z := 0.
Definition FRAG_START : Z := 1.
Definition FRAG_MID : Z := 2.
Definition FRAG_END : Z := 3.
Definition FRAG_START_END : Z := 4.

Definition TLV_TYPE_VERSION : Z := 1001.
Definition TLV_TYPE_FRAG_FLAG : Z := 1002.
Definition TLV_TYPE_DATA_TYPE : Z := 1003.
Definition TLV_TYPE_SEQ_NUM : Z := 1004.
Definition TLV_TYPE_TOTAL_LEN : Z := 1005.
Definition TLV_TYPE_SUB_SEQ : Z := 1006.
Definition TLV_TYPE_DATA_LEN : Z := 1007.

Definition BINARY_DATA_MAX_TOTAL_LEN : Z := 100 * 1024 * 1024.
Definition BINARY_DATA_MAX_LEN : Z := 4 * 1024 * 1024.
Definition BINARY_DATA_PACKET_RESERVED_BUFFER : Z := 512.
Definition PROTOCOL_VERSION : Z := 1.
Definition HEADER_UINT8_NUM : Z := 1.
Definition HEADER_UINT16_NUM : Z := 2.
Definition HEADER_UINT32_NUM : Z := 4.
Definition HEADER_TLV_NUM : Z := 7.
Definition BINARY_HEADER_FRAG_LEN : Z := 49.
Definition HEADER_TYPE_BYTES : Z := 2.
Definition HEADER_LEN_BYTES : Z := 2.

Record SessionDataHeader := mkHeader {
  version : Z;
  fragFlag : Z;
  dataType : Z;
  seqNum : Z;
  totalLen : Z;
  subSeq : Z;
  dataLen : Z;
}.

(** The members of [DSchedSoftbusSession] that its methods use. *)
Record Session := mkSession {
  packBuffer_ : option DataBuffer;
  isWaiting_ : bool;
  nowSeq_ : Z;
  nowSubSeq_ : Z;
  offset_ : Z;
  totalLen_ : Z;
  sessionId_ : Z;
  myDeviceId_ : string;
  peerDeviceId_ : string;
  refCount_ : Z;
  isServer_ : bool;
}.

(** ** Life cycle *)

Definition ResetAssembleFrag (s : Session) : Session :=
  mkSession None false 0 0 0 0
    (sessionId_ s) (myDeviceId_ s) (peerDeviceId_ s) (refCount_ s) (isServer_ s).

Definition Session_new (sessionId : Z) (myDeviceId peerDeviceId : string) (isServer : bool) : Session :=
  mkSession None false 0 0 0 0 sessionId myDeviceId peerDeviceId 1 isServer.

Definition set_refCount (s : Session) (n : Z) : Session :=
  mkSession (packBuffer_ s) (isWaiting_ s) (nowSeq_ s) (nowSubSeq_ s) (offset_ s) (totalLen_ s)
    (sessionId_ s) (myDeviceId_ s) (peerDeviceId_ s) n (isServer_ s).

Definition OnConnect (s : Session) : Session := set_refCount s (refCount_ s + 1).

Definition OnDisconnect (s : Session) : bool * Session :=
  let s' := set_refCount s (refCount_ s - 1) in
  (refCount_ s' <=? 0, s').

(** ** Header writer *)

(** [WriteTlvToBuffer], writing at position [pos] of the packet.  The [destMax]
    of the copy is the source's expression [bufLen - 2 + 2]. *)
Definition WriteTlvToBuffer (t : TlvItem) (buffer : list Z) (pos bufLen : Z) : list Z :=
  let tlvLen := u32 (HEADER_TYPE_BYTES + HEADER_LEN_BYTES + tlen t) in
  if bufLen <? tlvLen then buffer
  else
    let b := splice buffer pos
               [u8 (Z.shiftr (type t) 8); u8 (Z.land (type t) 255);
                u8 (Z.shiftr (tlen t) 8); u8 (Z.land (tlen t) 255)] in
    match memcpy_s (Some b) (pos + 4) (bufLen - HEADER_TYPE_BYTES + HEADER_LEN_BYTES)
            (Some (le_bytes 4 (value t))) 0 (tlen t) with
    | MemOk b' => b'
    | _ => b
    end.

(** The items of a header in the order in which they are written. *)
Definition header_items (h : SessionDataHeader) : list TlvItem :=
  [mkTlv TLV_TYPE_VERSION 2 (version h);
   mkTlv TLV_TYPE_FRAG_FLAG 1 (fragFlag h);
   mkTlv TLV_TYPE_DATA_TYPE 4 (dataType h);
   mkTlv TLV_TYPE_SEQ_NUM 4 (seqNum h);
   mkTlv TLV_TYPE_TOTAL_LEN 4 (totalLen h);
   mkTlv TLV_TYPE_SUB_SEQ 2 (subSeq h);
   mkTlv TLV_TYPE_DATA_LEN 4 (dataLen h)].

(** One item after the other: [i] advances and [capacity] shrinks by the
    item's size. *)
Fixpoint write_items (ts : list TlvItem) (buffer : list Z) (i capacity : Z) : list Z :=
  match ts with
  | [] => buffer
  | t :: ts' =>
      let step := HEADER_TYPE_BYTES + HEADER_LEN_BYTES + tlen t in
      write_items ts' (WriteTlvToBuffer t buffer i capacity) (i + step) (capacity - step)
  end.

Definition MakeFragDataHeader (h : SessionDataHeader) (header : option (list Z)) (length : Z)
    : option (list Z) :=
  match header with
  | None => None
  | Some buffer =>
      let headerLen := (2 + 2) * HEADER_TLV_NUM + 1 * HEADER_UINT8_NUM
                       + 2 * HEADER_UINT16_NUM + 4 * HEADER_UINT32_NUM in
      if length <? headerLen then Some buffer
      else Some (write_items (header_items h) buffer 0 length)
  end.

(** ** Header reader *)

(** The [switch] of [ReadTlvToHeader]. *)
Definition read_item (h : SessionDataHeader) (ty : Z) (ptr : list Z) (n : Z)
    : read_result SessionDataHeader :=
  let 'mkHeader ve ff dt sn tl ss dl := h in
  if ty =? TLV_TYPE_VERSION then
    read_map (fun v => mkHeader v ff dt sn tl ss dl) (read_field 2 ve ptr n)
  else if ty =? TLV_TYPE_FRAG_FLAG then
    read_map (fun v => mkHeader ve v dt sn tl ss dl) (read_field 1 ff ptr n)
  else if ty =? TLV_TYPE_DATA_TYPE then
    read_map (fun v => mkHeader ve ff v sn tl ss dl) (read_field 4 dt ptr n)
  else if ty =? TLV_TYPE_SEQ_NUM then
    read_map (fun v => mkHeader ve ff dt v tl ss dl) (read_field 4 sn ptr n)
  else if ty =? TLV_TYPE_TOTAL_LEN then
    read_map (fun v => mkHeader ve ff dt sn v ss dl) (read_field 4 tl ptr n)
  else if ty =? TLV_TYPE_SUB_SEQ then
    read_map (fun v => mkHeader ve ff dt sn tl v dl) (read_field 2 ss ptr n)
  else if ty =? TLV_TYPE_DATA_LEN then
    read_map (fun v => mkHeader ve ff dt sn tl ss v) (read_field 4 dl ptr n)
  else ReadErr INVALID_PARAMETERS_ERR.

(** [ReadTlvToHeader]: the header and the item's size ([index]). *)
Definition ReadTlvToHeader (ptr : list Z) (h : SessionDataHeader) (byteLeft : Z)
    : read_result (SessionDataHeader * Z) :=
  if byteLeft <? HEADER_UINT16_NUM then ReadErr INVALID_PARAMETERS_ERR
  else match U16Get ptr with
  | None => ReadUB
  | Some ty =>
    let byteLeft := byteLeft - HEADER_UINT16_NUM in
    if byteLeft <? HEADER_UINT16_NUM then ReadErr INVALID_PARAMETERS_ERR
    else match U16Get (drop 2 ptr) with
    | None => ReadUB
    | Some n =>
      let byteLeft := byteLeft - HEADER_UINT16_NUM in
      if byteLeft <? n then ReadErr INVALID_PARAMETERS_ERR
      else read_map (fun h' => (h', u16 (2 + 2 + n))) (read_item h ty (drop 4 ptr) n)
    end
  end.

(** The loop of [GetFragDataHeader]; every item is at least four bytes long, so
    [BINARY_HEADER_FRAG_LEN] iterations are more than it can take. *)
Fixpoint read_loop (fuel : nat) (ptr : list Z) (h : SessionDataHeader) (i : Z)
    : option (read_result SessionDataHeader) :=
  match fuel with
  | O => None
  | S fuel' =>
      if i <? BINARY_HEADER_FRAG_LEN then
        match ReadTlvToHeader (drop (Z.to_nat i) ptr) h (u16 (BINARY_HEADER_FRAG_LEN - i)) with
        | ReadOk (h', index) => read_loop fuel' ptr h' (i + index)
        | ReadErr e => Some (ReadErr e)
        | ReadUB => Some ReadUB
        end
      else Some (ReadOk h)
  end.

(** [h] is the caller's uninitialised local header. *)
Definition GetFragDataHeader (ptr : list Z) (h : SessionDataHeader)
    : option (read_result SessionDataHeader) :=
  read_loop 50 ptr h 0.

(** ** Receiving *)

(** A processed packet: the new session and the message handed to
    [DSchedTransportSoftbusAdapter::OnDataReady], with its data type. *)
Inductive recv_outcome :=
  | Recv (s : Session) (ready : option (DataBuffer * Z))
  | RecvUB.

Definition AssembleNoFrag (s : Session) (buffer : DataBuffer) (h : SessionDataHeader) : recv_outcome :=
  if negb (dataLen h =? totalLen h) then Recv s None
  else
    let postData := DSchedDataBuffer_new (dataLen h) in
    if Size buffer <? BINARY_HEADER_FRAG_LEN then Recv s None
    else
      let dataSize := u32 (Size buffer - BINARY_HEADER_FRAG_LEN) in
      match buf_write postData 0 (Size postData) (Data buffer)
              (rangeOffset_ buffer + BINARY_HEADER_FRAG_LEN) dataSize with
      | BufOk post => Recv s (Some (post, dataType h))
      | BufErr => Recv s None
      | BufUB => RecvUB
      end.

Definition CheckUnPackBuffer (s : Session) (h : SessionDataHeader) : Z :=
  if negb (isWaiting_ s) then INVALID_PARAMETERS_ERR
  else if negb (nowSeq_ s =? seqNum h) then INVALID_PARAMETERS_ERR
  else if negb (u32 (nowSubSeq_ s + 1) =? subSeq h) then INVALID_PARAMETERS_ERR
  else if totalLen_ s <? u32 (dataLen h + offset_ s) then INVALID_PARAMETERS_ERR
  else ERR_OK.

(** The first branch of [AssembleFrag]: [FRAG_START] opens a new message. *)
Definition assemble_start (s : Session) (buffer : DataBuffer) (h : SessionDataHeader) : recv_outcome :=
  let pack := DSchedDataBuffer_new (totalLen h) in
  let opened off b := mkSession (Some b) true (seqNum h) (subSeq h) off (totalLen h)
    (sessionId_ s) (myDeviceId_ s) (peerDeviceId_ s) (refCount_ s) (isServer_ s) in
  if Size buffer <? BINARY_HEADER_FRAG_LEN then Recv (opened 0 pack) None
  else
    let dataSize := u32 (Size buffer - BINARY_HEADER_FRAG_LEN) in
    match buf_write pack 0 (Size pack) (Data buffer)
            (rangeOffset_ buffer + BINARY_HEADER_FRAG_LEN) dataSize with
    | BufOk pack' => Recv (opened (u32 (dataLen h)) pack') None
    | BufErr => Recv (ResetAssembleFrag (opened 0 pack)) None
    | BufUB => RecvUB
    end.

(** The second branch, [FRAG_MID] and [FRAG_END]: append to the message; the
    third, for [FRAG_END], hands it over. *)
Definition assemble_next (s : Session) (buffer : DataBuffer) (h : SessionDataHeader) : recv_outcome :=
  if negb (CheckUnPackBuffer s h =? ERR_OK) then Recv (ResetAssembleFrag s) None
  else match packBuffer_ s with
  | None => RecvUB
  | Some pack =>
      match buf_write pack (offset_ s) (u64 (Size pack - offset_ s)) (Data buffer)
              (rangeOffset_ buffer + BINARY_HEADER_FRAG_LEN)
              (u64 (Size buffer - BINARY_HEADER_FRAG_LEN)) with
      | BufErr => Recv (ResetAssembleFrag s) None
      | BufUB => RecvUB
      | BufOk pack' =>
          let s' := mkSession (Some pack') (isWaiting_ s) (nowSeq_ s) (subSeq h)
            (u32 (offset_ s + dataLen h)) (totalLen_ s)
            (sessionId_ s) (myDeviceId_ s) (peerDeviceId_ s) (refCount_ s) (isServer_ s) in
          if fragFlag h =? FRAG_END
          then Recv (ResetAssembleFrag s') (Some (pack', dataType h))
          else Recv s' None
      end
  end.

Definition AssembleFrag (s : Session) (buffer : DataBuffer) (h : SessionDataHeader) : recv_outcome :=
  if fragFlag h =? FRAG_START then assemble_start s buffer h
  else if (fragFlag h =? FRAG_MID) || (fragFlag h =? FRAG_END) then assemble_next s buffer h
  else Recv s None.

(** The length checks of [PackRecvData], on the parsed header. *)
Definition bad_lengths (buffer : DataBuffer) (h : SessionDataHeader) : bool :=
  negb (Size buffer =? u32 (dataLen h + BINARY_HEADER_FRAG_LEN))
  || (totalLen h <? dataLen h)
  || (BINARY_DATA_MAX_LEN <? dataLen h)
  || (BINARY_DATA_MAX_TOTAL_LEN <? totalLen h).

(** [garbage] is the uninitialised local [headerPara]. *)
Definition PackRecvData (garbage : SessionDataHeader) (s : Session) (buffer : DataBuffer) : recv_outcome :=
  if Size buffer <? BINARY_HEADER_FRAG_LEN then Recv s None
  else match Data buffer with
  | None => RecvUB
  | Some d =>
      match GetFragDataHeader (drop (Z.to_nat (rangeOffset_ buffer)) d) garbage with
      | None | Some ReadUB => RecvUB
      | Some (ReadErr _) => Recv s None
      | Some (ReadOk h) =>
          if bad_lengths buffer h then Recv s None
          else if fragFlag h =? FRAG_START_END then AssembleNoFrag s buffer h
          else AssembleFrag s buffer h
      end
  end.

Definition OnBytesReceived (garbage : SessionDataHeader) (s : Session) (buffer : option DataBuffer)
    : Z * recv_outcome :=
  match buffer with
  | None => (INVALID_PARAMETERS_ERR, Recv s None)
  | Some b => (ERR_OK, PackRecvData garbage s b)
  end.

(** ** Sending *)

(** What softbus answers during one [UnPackSendData]: the result and value of
    the [k]-th [GetSessionOption(..MAX_SENDBYTES_SIZE..)] and the result of the
    [k]-th [SendBytes]. *)
Record SendEnv := mkSendEnv {
  GetSessionOption : nat -> Z * Z;
  SendBytes : nat -> list Z -> Z;
}.

(** The result and the packets handed to [SendBytes]. *)
Inductive send_outcome :=
  | Sent (ret : Z) (packets : list (list Z))
  | SendUB
  | SendOutOfFuel.

Definition SetHeadParaDataLen (h : SessionDataHeader) (total offset maxSendSize : Z) : SessionDataHeader :=
  if maxSendSize <? u32 (total - offset)
  then mkHeader (version h) (fragFlag h) (dataType h) (seqNum h) (totalLen h) (subSeq h)
         (u32 (maxSendSize - BINARY_DATA_PACKET_RESERVED_BUFFER))
  else mkHeader (version h) FRAG_END (dataType h) (seqNum h) (totalLen h) (subSeq h)
         (u32 (total - offset)).

(** A fresh packet of [capacity] bytes: the header, then [dataLen h] bytes of
    [buffer] from [offset] on. *)
Definition make_packet (h : SessionDataHeader) (capacity : Z) (buffer : DataBuffer) (offset : Z) : buf_result :=
  let unpackData := DSchedDataBuffer_new capacity in
  let unpackData := mkDataBuffer (capacity_ unpackData) (rangeOffset_ unpackData) (rangeLength_ unpackData)
    (MakeFragDataHeader h (Data unpackData) BINARY_HEADER_FRAG_LEN) in
  buf_write unpackData BINARY_HEADER_FRAG_LEN (u64 (Size unpackData - BINARY_HEADER_FRAG_LEN))
    (Data buffer) (rangeOffset_ buffer + offset) (dataLen h).

Definition UnPackStartEndData (env : SendEnv) (buffer : DataBuffer) (dtype : Z) : send_outcome :=
  let h := mkHeader PROTOCOL_VERSION FRAG_START_END (u32 dtype) 0 (u32 (Size buffer)) 0 (u32 (Size buffer)) in
  let capacity := u64 (Size buffer + BINARY_HEADER_FRAG_LEN) in
  if Size (DSchedDataBuffer_new capacity) <? BINARY_HEADER_FRAG_LEN then Sent INVALID_SESSION_ID []
  else match make_packet h capacity buffer 0 with
  | BufOk p => Sent (SendBytes env 0%nat (contents p)) [contents p]
  | BufErr => Sent MEMCPY_S_FAIL []
  | BufUB => SendUB
  end.

(** The loop of [UnPackSendData]; [k] counts the packets sent so far.  Every
    iteration that continues has sent at least one byte. *)
Fixpoint unpack_loop (fuel : nat) (env : SendEnv) (k : nat) (buffer : DataBuffer)
    (h : SessionDataHeader) (total offset maxSendSize : Z) (acc : list (list Z)) : send_outcome :=
  match fuel with
  | O => SendOutOfFuel
  | S fuel' =>
    if total <=? offset then Sent ERR_OK acc
    else if maxSendSize <=? BINARY_DATA_PACKET_RESERVED_BUFFER then Sent SOFTBUS_SERVICE_ERR acc
    else
      let h := SetHeadParaDataLen h total offset maxSendSize in
      match make_packet h (u32 (dataLen h + BINARY_HEADER_FRAG_LEN)) buffer offset with
      | BufErr => Sent MEMCPY_S_FAIL acc
      | BufUB => SendUB
      | BufOk p =>
        let acc := acc ++ [contents p] in
        let ret := SendBytes env k (contents p) in
        if negb (ret =? ERR_OK) then Sent ret acc
        else
          let h := mkHeader (version h) FRAG_MID (dataType h) (seqNum h) (totalLen h)
                     (u16 (subSeq h + 1)) (dataLen h) in
          let '(ret, maxSendSize) := GetSessionOption env (S k) in
          if negb (ret =? ERR_OK) then Sent ret acc
          else unpack_loop fuel' env (S k) buffer h total (u32 (offset + dataLen h)) maxSendSize acc
      end
  end.

Definition UnPackSendData (env : SendEnv) (buffer : DataBuffer) (dtype : Z) : send_outcome :=
  let '(ret, maxSendSize) := GetSessionOption env 0%nat in
  if negb (ret =? ERR_OK) then Sent ret []
  else if Size buffer <=? maxSendSize then UnPackStartEndData env buffer dtype
  else
    let total := u32 (Size buffer) in
    let h := mkHeader PROTOCOL_VERSION FRAG_START (u32 dtype) 0 total 0 0 in
    unpack_loop (S (Z.to_nat total)) env 0%nat buffer h total 0 maxSendSize [].

(** [SendData]: the result of the transmission is not reported. *)
Definition SendData (env : SendEnv) (buffer : option DataBuffer) (dtype : Z) : Z * send_outcome :=
  match buffer with
  | None => (INVALID_PARAMETERS_ERR, Sent ERR_OK [])
  | Some b => (ERR_OK, UnPackSendData env b dtype)
  end.

(** The receiver of a sequence of packets: [OnBytes] copies each into a buffer
    of its own and passes it to the session. *)
Fixpoint receive_all (garbage : SessionDataHeader) (s : Session) (packets : list (list Z))
    : option (Session * list (DataBuffer * Z)) :=
  match packets with
  | [] => Some (s, [])
  | p :: ps =>
      match PackRecvData garbage s (buffer_of p) with
      | RecvUB => None
      | Recv s' ready =>
          match receive_all garbage s' ps with
          | None => None
          | Some (s'', out) => Some (s'', option_list ready ++ out)
          end
      end
  end.
