(* ===== verification/SoftbusCodec.v ===== *)
(** The packet header of the softbus session: the writer and the reader of
    [SoftbusSession] are inverse to each other, and the reader is safe on
    arbitrary packets. *)

From S2P Require Import Prelude DataBuffer SchedErrors Tlv SoftbusSession.

(** ** Specification of the wire format *)

Definition header_bytes (h : SessionDataHeader) : list Z := items_bytes (header_items h).

(** Every field fits its C++ type. *)
Definition header_wf (h : SessionDataHeader) : Prop :=
  is_u16 (version h) /\ is_u8 (fragFlag h) /\ is_u32 (dataType h) /\ is_u32 (seqNum h) /\
  is_u32 (totalLen h) /\ is_u16 (subSeq h) /\ is_u32 (dataLen h).

(** The size in bytes of the field a type code stands for. *)
Definition item_size (ty : Z) : option nat :=
  if ty =? TLV_TYPE_VERSION then Some 2%nat
  else if ty =? TLV_TYPE_FRAG_FLAG then Some 1%nat
  else if ty =? TLV_TYPE_DATA_TYPE then Some 4%nat
  else if ty =? TLV_TYPE_SEQ_NUM then Some 4%nat
  else if ty =? TLV_TYPE_TOTAL_LEN then Some 4%nat
  else if ty =? TLV_TYPE_SUB_SEQ then Some 2%nat
  else if ty =? TLV_TYPE_DATA_LEN then Some 4%nat
  else None.

Definition set_item (h : SessionDataHeader) (ty v : Z) : SessionDataHeader :=
  let 'mkHeader ve ff dt sn tl ss dl := h in
  if ty =? TLV_TYPE_VERSION then mkHeader v ff dt sn tl ss dl
  else if ty =? TLV_TYPE_FRAG_FLAG then mkHeader ve v dt sn tl ss dl
  else if ty =? TLV_TYPE_DATA_TYPE then mkHeader ve ff v sn tl ss dl
  else if ty =? TLV_TYPE_SEQ_NUM then mkHeader ve ff dt v tl ss dl
  else if ty =? TLV_TYPE_TOTAL_LEN then mkHeader ve ff dt sn v ss dl
  else if ty =? TLV_TYPE_SUB_SEQ then mkHeader ve ff dt sn tl v dl
  else mkHeader ve ff dt sn tl ss v.

(** An item the writer produces: a known type, the size of its field, a value
    of that size. *)
Definition item_wf (t : TlvItem) : Prop :=
  is_u16 (type t) /\
  exists n, item_size (type t) = Some n /\ tlen t = Z.of_nat n /\ (n <= 4)%nat /\
            0 <= value t < 256 ^ Z.of_nat n.

(** ** Writer *)

Lemma WriteTlv_at t pre rest bufLen :
  0 <= tlen t <= 4 -> 4 + tlen t <= len rest -> 4 + tlen t <= bufLen <= RSIZE_MAX ->
  WriteTlvToBuffer t (pre ++ rest) (len pre) bufLen
  = pre ++ tlv_bytes t ++ drop (length (tlv_bytes t)) rest.
Proof.
  intros Ht Hr Hb. unfold WriteTlvToBuffer, HEADER_TYPE_BYTES, HEADER_LEN_BYTES.
  rewrite u32_id by (unfold is_u32; lia). zb_auto.
  set (hd := [_; _; _; _]). assert (len hd = 4) as Hhd by done.
  rewrite splice_at, app_assoc by lia.
  replace (len pre + 4) with (len (pre ++ hd)) by lens.
  rewrite memcpy_s_ok by (autorewrite with dms; unfold len in *; rewrite ?length_drop; lia).
  rewrite slice_0, take_le_bytes by lia.
  rewrite splice_at by (autorewrite with dms; unfold len in *; rewrite ?length_drop; lia).
  rewrite <- app_assoc, drop_drop. unfold tlv_bytes. fold hd.
  by rewrite <- app_assoc, length_app.
Qed.

Lemma write_items_spec ts pre rest cap :
  Forall (fun t => 0 <= tlen t <= 4) ts ->
  len (items_bytes ts) <= len rest -> len (items_bytes ts) <= cap <= RSIZE_MAX ->
  write_items ts (pre ++ rest) (len pre) cap
  = pre ++ items_bytes ts ++ drop (length (items_bytes ts)) rest.
Proof.
  intros Hts. revert pre rest cap.
  induction Hts as [|t ts Ht _ IH]; intros pre rest cap Hr Hc; [done|].
  cbn [write_items]. rewrite items_bytes_cons, len_app, len_tlv_bytes in * by lia.
  pose proof (len_nonneg (items_bytes ts)).
  rewrite WriteTlv_at by lia. rewrite app_assoc.
  replace (len pre + _) with (len (pre ++ tlv_bytes t))
    by (rewrite len_app, len_tlv_bytes; unfold HEADER_TYPE_BYTES, HEADER_LEN_BYTES; lia).
  pose proof (len_tlv_bytes t ltac:(lia)) as Hl.
  rewrite IH by (unfold len, HEADER_TYPE_BYTES, HEADER_LEN_BYTES in *; rewrite ?length_drop; lia).
  by rewrite <- !app_assoc, drop_drop, length_app.
Qed.

Lemma len_header_bytes h : len (header_bytes h) = 49.
Proof. done. Qed.

Lemma MakeFragDataHeader_spec h buf :
  49 <= len buf ->
  MakeFragDataHeader h (Some buf) 49 = Some (header_bytes h ++ drop 49 buf).
Proof.
  intros. cbn [MakeFragDataHeader]. f_equal.
  change (49 <? _) with false. cbv iota.
  assert (Forall (fun t => 0 <= tlen t <= 4) (header_items h)) as Hts by (by repeat constructor).
  refine (write_items_spec (header_items h) [] buf 49 Hts _ _);
    fold (header_bytes h); rewrite len_header_bytes; unfold RSIZE_MAX; lia.
Qed.

(** ** Reader *)

Lemma read_item_exact h ty n v rest :
  item_size ty = Some n -> 0 <= v < 256 ^ Z.of_nat n ->
  read_item h ty (le_bytes n v ++ rest) (Z.of_nat n) = ReadOk (set_item h ty v).
Proof.
  intros Hs Hv. destruct h; unfold read_item, item_size, set_item in *.
  repeat case_match; simplify_eq; by rewrite read_field_exact by lia.
Qed.

(** One item read off the front of the packet. *)
Lemma ReadTlv_exact h t rest byteLeft :
  item_wf t -> 4 + tlen t <= byteLeft ->
  ReadTlvToHeader (tlv_bytes t ++ rest) h byteLeft
  = ReadOk (set_item h (type t) (value t), 4 + tlen t).
Proof.
  intros (Hty & n & Hs & Hl & Hn & Hv) Hb.
  unfold ReadTlvToHeader, HEADER_UINT16_NUM. zb_auto.
  unfold tlv_bytes, U16Get. cbn [app skipn]. rewrite !u16_join by zlia. zb_auto.
  rewrite drop_0, Hl, Nat2Z.id, read_item_exact by done. cbn [read_map].
  by rewrite u16_id by zlia.
Qed.

Definition set_items (ts : list TlvItem) (h : SessionDataHeader) : SessionDataHeader :=
  fold_left (fun h t => set_item h (type t) (value t)) ts h.

Lemma read_loop_items ts pre rest h fuel :
  Forall item_wf ts -> len pre + len (items_bytes ts) = 49 -> (length ts < fuel)%nat ->
  read_loop fuel (pre ++ items_bytes ts ++ rest) h (len pre) = Some (ReadOk (set_items ts h)).
Proof.
  intros Hts. revert pre h fuel. induction Hts as [|t ts Ht _ IH]; intros pre h fuel Hp Hf.
  - change (len (items_bytes [])) with 0 in Hp. destruct fuel as [|fuel]; [cbn in Hf; lia|].
    cbn [read_loop]. unfold BINARY_HEADER_FRAG_LEN. by zb_auto.
  - destruct fuel as [|fuel]; [cbn in Hf; lia|]. cbn [read_loop].
    pose proof Ht as (_ & n & _ & Hl & _). pose proof (len_nonneg pre).
    pose proof (len_nonneg (items_bytes ts)).
    rewrite items_bytes_cons, len_app, len_tlv_bytes in Hp by lia.
    unfold BINARY_HEADER_FRAG_LEN. zb_auto.
    replace (Z.to_nat (len pre)) with (length pre) by (unfold len; lia).
    rewrite drop_app_length, items_bytes_cons, <- app_assoc.
    rewrite ReadTlv_exact by (done || rewrite u16_id by zlia; lia).
    rewrite app_assoc. replace (len pre + (4 + tlen t)) with (len (pre ++ tlv_bytes t))
      by (rewrite len_app, len_tlv_bytes; lia).
    rewrite IH; [done| |cbn in Hf; lia]. rewrite len_app, len_tlv_bytes; lia.
Qed.

Lemma item_wf_intro ty n v :
  item_size ty = Some n -> is_u16 ty -> (n <= 4)%nat -> 0 <= v < 256 ^ Z.of_nat n ->
  item_wf (mkTlv ty (Z.of_nat n) v).
Proof. intros. split; [done|]. by exists n. Qed.

Lemma header_items_wf h : header_wf h -> Forall item_wf (header_items h).
Proof.
  intros (? & ? & ? & ? & ? & ? & ?). unfold header_items.
  repeat apply List.Forall_cons; try apply List.Forall_nil;
    [apply (item_wf_intro _ 2) | apply (item_wf_intro _ 1) | apply (item_wf_intro _ 4)
    | apply (item_wf_intro _ 4) | apply (item_wf_intro _ 4) | apply (item_wf_intro _ 2)
    | apply (item_wf_intro _ 4)]; by try lia.
Qed.

Lemma GetFragDataHeader_exact h g rest :
  header_wf h -> GetFragDataHeader (header_bytes h ++ rest) g = Some (ReadOk h).
Proof.
  intros Hh. unfold GetFragDataHeader.
  refine (eq_trans (read_loop_items (header_items h) [] rest g 50 (header_items_wf h Hh) _ _) _).
  - done.
  - cbn; lia.
  - by destruct h, g.
Qed.

(** ** The reader on arbitrary packets *)

Lemma read_item_safe h ty ptr count :
  header_wf h -> Forall is_u8 ptr -> 0 <= count <= len ptr ->
  read_safe header_wf (read_item h ty ptr count).
Proof.
  intros Hh Hp Hc. destruct h. unfold header_wf in *; cbn in Hh. unfold read_item.
  repeat case_match; try done;
    (eapply read_safe_map; [apply read_field_safe; [lia|done|done]|]);
    cbn; unfold is_u8, is_u16, is_u32 in *; intros; split_and!; lia.
Qed.

Lemma ReadTlv_safe ptr h byteLeft :
  header_wf h -> Forall is_u8 ptr -> byteLeft <= len ptr -> byteLeft <= 49 ->
  read_safe (fun r => header_wf (fst r) /\ 4 <= snd r <= byteLeft) (ReadTlvToHeader ptr h byteLeft).
Proof.
  intros Hh Hp Hb Hs. unfold ReadTlvToHeader, HEADER_UINT16_NUM.
  destruct (Z.ltb_spec byteLeft 2); [done|].
  destruct (U16Get_safe ptr) as (ty & -> & Hty); [done|lia|].
  destruct (Z.ltb_spec (byteLeft - 2) 2); [done|].
  destruct (U16Get_safe (drop 2 ptr)) as (n & -> & Hn).
  { by apply Forall_drop. } { change 2%nat with (Z.to_nat 2). rewrite len_drop by lia. lia. }
  destruct (Z.ltb_spec (byteLeft - 2 - 2) n); [done|]. unfold is_u16 in Hn.
  eapply read_safe_map.
  - apply read_item_safe; [done|by apply Forall_drop|].
    change 4%nat with (Z.to_nat 4). rewrite len_drop by lia. lia.
  - cbn. intros h' Hh'. split; [done|]. rewrite u16_id by zlia. lia.
Qed.

Lemma read_loop_safe fuel ptr h i :
  header_wf h -> Forall is_u8 ptr -> 49 <= len ptr -> 0 <= i <= 49 -> 49 - i < Z.of_nat fuel ->
  exists r, read_loop fuel ptr h i = Some r /\ read_safe header_wf r.
Proof.
  revert h i; induction fuel as [|fuel IH]; intros h i Hh Hp Hl Hi Hf; [lia|].
  cbn [read_loop]. unfold BINARY_HEADER_FRAG_LEN.
  destruct (Z.ltb_spec i 49); [|by eexists].
  rewrite u16_id by zlia.
  pose proof (ReadTlv_safe (drop (Z.to_nat i) ptr) h (49 - i) Hh) as Hr.
  destruct (ReadTlvToHeader _ _ _) as [[h' index]| |]; cbn in Hr.
  - destruct Hr as [Hh' Hidx]; [by apply Forall_drop|rewrite len_drop; lia|lia|].
    apply IH; auto; lia.
  - by eexists.
  - destruct Hr; [by apply Forall_drop|rewrite len_drop; lia|lia].
Qed.

(** The reader always ends, stays inside the packet, and what it accepts is a
    header whose fields fit their types. *)
Lemma GetFragDataHeader_safe ptr h :
  header_wf h -> Forall is_u8 ptr -> 49 <= len ptr ->
  exists r, GetFragDataHeader ptr h = Some r /\ read_safe header_wf r.
Proof. intros. apply read_loop_safe; auto; lia. Qed.

(** ** Properties *)

(** The 49-byte packet header round trip: whatever the receiver's
    uninitialised header contained and whatever follows the header in the
    packet, parsing what [MakeFragDataHeader] wrote gives back every field. *)
Theorem frag_header_roundtrip h garbage buf rest :
  header_wf h -> 49 <= len buf ->
  exists bytes, MakeFragDataHeader h (Some buf) BINARY_HEADER_FRAG_LEN = Some bytes /\
    len bytes = len buf /\
    GetFragDataHeader (take 49 bytes ++ rest) garbage = Some (ReadOk h).
Proof.
  intros Hh Hb. exists (header_bytes h ++ drop 49 buf). split_and!.
  - by apply MakeFragDataHeader_spec.
  - rewrite len_app, len_header_bytes. change 49%nat with (Z.to_nat 49). rewrite len_drop; lia.
  - rewrite (take_app_length' (header_bytes h)) by done. by apply GetFragDataHeader_exact.
Qed.

Lemma frag_header_roundtrip_witness :
  header_wf (mkHeader 1 1 0 0 1000 0 488) /\
  exists bytes, MakeFragDataHeader (mkHeader 1 1 0 0 1000 0 488) (Some (zeros 60)) 49 = Some bytes /\
    len bytes = 60 /\
    GetFragDataHeader (take 49 bytes ++ [1; 2; 3]) (mkHeader 9 9 9 9 9 9 9)
    = Some (ReadOk (mkHeader 1 1 0 0 1000 0 488)).
Proof.
  assert (header_wf (mkHeader 1 1 0 0 1000 0 488)) as Hw by (unfold header_wf; cbn; zlia).
  split; [exact Hw|].
  exact (frag_header_roundtrip (mkHeader 1 1 0 0 1000 0 488) (mkHeader 9 9 9 9 9 9 9) (zeros 60)
           [1; 2; 3] Hw ltac:(vm_compute; discriminate)).
Defined.

(** On any packet of at least 49 bytes the header parser ends
    (within its fuel), never reads outside the packet, and accepts only headers
    whose fields fit their C++ types, whatever its uninitialised local held. *)
Theorem frag_header_parse_safe ptr garbage :
  header_wf garbage -> Forall is_u8 ptr -> 49 <= len ptr ->
  (exists h, GetFragDataHeader ptr garbage = Some (ReadOk h) /\ header_wf h) \/
  (exists ret, GetFragDataHeader ptr garbage = Some (ReadErr ret)).
Proof.
  intros Hg Hp Hl. destruct (GetFragDataHeader_safe ptr garbage Hg Hp Hl) as ([h|e|] & -> & Hr);
    cbn in Hr; eauto; done.
Qed.

Lemma frag_header_parse_safe_witness :
  (exists h, GetFragDataHeader (zeros 49) (mkHeader 0 0 0 0 0 0 0) = Some (ReadOk h) /\ header_wf h) \/
  (exists ret, GetFragDataHeader (zeros 49) (mkHeader 0 0 0 0 0 0 0) = Some (ReadErr ret)).
Proof.
  apply (frag_header_parse_safe (zeros 49) (mkHeader 0 0 0 0 0 0 0)).
  - unfold header_wf; cbn; zlia.
  - unfold zeros. apply Forall_replicate. zlia.
  - vm_compute; discriminate.
Defined.
