(* ===== verification/SoftbusTransfer.v ===== *)
(** Message transfer over a softbus session: what [UnPackSendData] cuts into
    packets, [PackRecvData] puts together again; the receiver refines an
    abstract assembler on every packet a peer may send. *)

From S2P Require Import Prelude DataBuffer SchedErrors Tlv SoftbusSession SoftbusCodec.

(** ** Packets *)

Definition packet (h : SessionDataHeader) (payload : list Z) : list Z := header_bytes h ++ payload.

Lemma len_packet h p : len (packet h p) = 49 + len p.
Proof. unfold packet. by rewrite len_app, len_header_bytes. Qed.

Lemma make_packet_spec h d offset :
  0 <= offset -> 0 <= dataLen h -> offset + dataLen h <= len d ->
  49 + dataLen h < DSCHED_MAX_BUFFER_SIZE ->
  make_packet h (49 + dataLen h) (buffer_of d) offset
  = BufOk (buffer_of (packet h (slice d offset (dataLen h)))).
Proof.
  intros Ho Hd Hl Hm. unfold make_packet. rewrite buffer_new_small by lia.
  unfold Size, BINARY_HEADER_FRAG_LEN, Data. buf_simpl. rewrite len_zeros by lia.
  rewrite MakeFragDataHeader_spec by (rewrite len_zeros; lia).
  change 49%nat with (Z.to_nat 49). rewrite drop_zeros by lia.
  replace (49 + dataLen h - 49) with (dataLen h) by lia.
  unfold DSCHED_MAX_BUFFER_SIZE in *. rewrite u64_id by lia.
  erewrite buf_write_ok; buf_simpl; try reflexivity;
    rewrite ?len_app, ?len_header_bytes, ?len_zeros; unfold RSIZE_MAX in *; try lia.
  f_equal. unfold buffer_of, packet. rewrite !len_app, len_header_bytes, len_slice by lia.
  do 2 f_equal. rewrite Z.add_0_l, <- (len_header_bytes h).
  apply splice_tail. rewrite len_slice, len_zeros; lia.
Qed.

(** The checks a received packet passes when its header describes it. *)
Definition describes (h : SessionDataHeader) (payload : list Z) : Prop :=
  header_wf h /\ len payload = dataLen h /\ dataLen h <= totalLen h /\
  dataLen h <= BINARY_DATA_MAX_LEN /\ totalLen h <= BINARY_DATA_MAX_TOTAL_LEN.

Lemma PackRecvData_accepts g s hd h p :
  len hd = 49 -> GetFragDataHeader (hd ++ p) g = Some (ReadOk h) -> describes h p ->
  PackRecvData g s (buffer_of (hd ++ p))
  = if fragFlag h =? FRAG_START_END then AssembleNoFrag s (buffer_of (hd ++ p)) h
    else AssembleFrag s (buffer_of (hd ++ p)) h.
Proof.
  intros Hhd Hg (Hw & Hp & Ht & Hm & Hx). unfold PackRecvData, bad_lengths, Size, BINARY_HEADER_FRAG_LEN, Data.
  pose proof (len_nonneg p). buf_simpl. rewrite len_app, Hhd. zb_auto.
  change (Z.to_nat 0) with 0%nat. rewrite drop_0, Hg.
  unfold BINARY_DATA_MAX_LEN, BINARY_DATA_MAX_TOTAL_LEN in *. rewrite u32_id by zlia.
  by zb_auto.
Qed.

(** ** The state of a message under assembly *)

(** [acc] has been received of message [seq], up to fragment [sub]; the rest of
    the [total] bytes is still zero. *)
Record assembling (s : Session) (seq sub total : Z) (acc : list Z) : Prop := {
  asm_waiting : isWaiting_ s = true;
  asm_seq : nowSeq_ s = seq;
  asm_sub : nowSubSeq_ s = sub;
  asm_offset : offset_ s = len acc;
  asm_total : totalLen_ s = total;
  asm_pack : packBuffer_ s = Some (buffer_of (acc ++ zeros (total - len acc)));
  asm_le : len acc <= total < DSCHED_MAX_BUFFER_SIZE;
  asm_u16 : is_u16 sub;
}.

Ltac sess_simpl :=
  cbn [packBuffer_ isWaiting_ nowSeq_ nowSubSeq_ offset_ totalLen_ sessionId_ myDeviceId_
       peerDeviceId_ refCount_ isServer_].

Definition same_identity (s s' : Session) : Prop :=
  sessionId_ s' = sessionId_ s /\ peerDeviceId_ s' = peerDeviceId_ s /\ refCount_ s' = refCount_ s /\
  myDeviceId_ s' = myDeviceId_ s /\ isServer_ s' = isServer_ s.

Lemma same_identity_refl s : same_identity s s.
Proof. done. Qed.
Lemma same_identity_trans s1 s2 s3 : same_identity s1 s2 -> same_identity s2 s3 -> same_identity s1 s3.
Proof. unfold same_identity. intuition congruence. Qed.
#[local] Hint Resolve same_identity_refl : dms.

Section Assemble.
Variables (s : Session) (hd : list Z) (h : SessionDataHeader) (p : list Z).
Hypothesis Hhd : len hd = 49.
Hypothesis Hh : describes h p.

Lemma assemble_start_spec :
  0 < totalLen h < DSCHED_MAX_BUFFER_SIZE ->
  exists s', assemble_start s (buffer_of (hd ++ p)) h = Recv s' None /\
    assembling s' (seqNum h) (subSeq h) (totalLen h) p /\ same_identity s s'.
Proof.
  intros H0. destruct Hh as (Hw & Hp & Ht & Hm & Hx).
  unfold assemble_start, BINARY_HEADER_FRAG_LEN, Size, Data.
  buf_simpl. pose proof (len_nonneg p). rewrite len_app, Hhd. zb_auto.
  unfold BINARY_DATA_MAX_LEN, BINARY_DATA_MAX_TOTAL_LEN, DSCHED_MAX_BUFFER_SIZE in *.
  rewrite !u32_id by zlia. rewrite buffer_new_small by (unfold DSCHED_MAX_BUFFER_SIZE; lia). buf_simpl.
  erewrite buf_write_ok; buf_simpl; try reflexivity;
    rewrite ?len_app, ?len_zeros; unfold RSIZE_MAX; try lia.
  eexists. split; [done|]. split; [|done].
  constructor; sess_simpl; try done; unfold DSCHED_MAX_BUFFER_SIZE; try lia; [|apply Hw].
  unfold buffer_of. rewrite !len_app, !len_zeros by lia. repeat f_equal; try lia.
  rewrite !Z.add_0_l, <- Hhd, slice_app_r.
  replace (len hd + len p - len hd) with (len p) by lia.
  rewrite slice_all. refine (eq_trans (splice_at [] p (zeros (totalLen h)) _) _);
    [rewrite len_zeros; lia|].
  cbn [app]. f_equal. replace (length p) with (Z.to_nat (len p)) by (unfold len; lia).
  apply drop_zeros. lia.
Qed.

(** A message the receiver has no buffer for is dropped. *)
Lemma assemble_start_refused :
  totalLen h = 0 \/ DSCHED_MAX_BUFFER_SIZE <= totalLen h ->
  exists s', assemble_start s (buffer_of (hd ++ p)) h = Recv s' None /\
    isWaiting_ s' = false /\ same_identity s s'.
Proof.
  intros H0. destruct Hh as (Hw & Hp & Ht & Hm & Hx).
  unfold assemble_start, BINARY_HEADER_FRAG_LEN, Size.
  buf_simpl. pose proof (len_nonneg p). rewrite len_app, Hhd. zb_auto.
  rewrite buffer_new_refused by done. unfold buf_write, Data. buf_simpl.
  eexists. split; [done|]. by split.
Qed.

Lemma CheckUnPackBuffer_spec seq sub total acc :
  assembling s seq sub total acc ->
  CheckUnPackBuffer s h =
    if (seq =? seqNum h) && (sub + 1 =? subSeq h) && (len acc + dataLen h <=? total)
    then ERR_OK else INVALID_PARAMETERS_ERR.
Proof.
  intros []. destruct Hh as (Hw & Hp & Ht & Hm & Hx). unfold CheckUnPackBuffer.
  rewrite asm_waiting0, asm_seq0, asm_sub0, asm_total0, asm_offset0. cbn [negb].
  pose proof (len_nonneg acc). destruct Hw as (_ & _ & _ & _ & _ & _ & Hd).
  unfold BINARY_DATA_MAX_LEN, DSCHED_MAX_BUFFER_SIZE in *. rewrite !u32_id by zlia.
  repeat zb_case; try done; lia.
Qed.

Lemma assemble_next_ok seq sub total acc :
  assembling s seq sub total acc ->
  seq = seqNum h -> sub + 1 = subSeq h -> len acc + dataLen h <= total ->
  exists s', assembling s' seq (subSeq h) total (acc ++ p) /\ same_identity s s' /\
    assemble_next s (buffer_of (hd ++ p)) h =
      if fragFlag h =? FRAG_END
      then Recv (ResetAssembleFrag s')
             (Some (buffer_of ((acc ++ p) ++ zeros (total - len (acc ++ p))), dataType h))
      else Recv s' None.
Proof.
  intros Ha E1 E2 E3. unfold assemble_next. rewrite (CheckUnPackBuffer_spec _ _ _ _ Ha).
  destruct Hh as (Hw & Hp & Ht & Hm & Hx). zb_auto. change (ERR_OK =? ERR_OK) with true. cbn [negb].
  destruct Ha. rewrite asm_pack0, asm_offset0. pose proof (len_nonneg acc). pose proof (len_nonneg p).
  unfold BINARY_HEADER_FRAG_LEN, Size, Data. buf_simpl.
  unfold DSCHED_MAX_BUFFER_SIZE in *. rewrite !len_app, !len_zeros, Hhd, !u64_id by lia.
  erewrite buf_write_ok; buf_simpl; try reflexivity;
    rewrite ?len_app, ?len_zeros; unfold RSIZE_MAX; try lia.
  assert (splice (acc ++ zeros (total - len acc)) (0 + len acc) (slice (hd ++ p) (0 + 49) (49 + len p - 49))
          = (acc ++ p) ++ zeros (total - len (acc ++ p))) as Hs.
  { rewrite !Z.add_0_l, <- Hhd, slice_app_r. replace (len hd + len p - len hd) with (len p) by lia.
    rewrite slice_all, splice_at by (rewrite len_zeros; lia). rewrite <- app_assoc.
    do 2 f_equal. replace (length p) with (Z.to_nat (len p)) by (unfold len; lia).
    rewrite drop_zeros by lia. f_equal. rewrite len_app. lia. }
  rewrite Hs, u32_id by zlia. set (s' := mkSession _ _ _ _ _ _ _ _ _ _ _). exists s'. split; [|split; [done|]].
  - constructor; unfold s'; sess_simpl; try done; rewrite ?len_app; unfold DSCHED_MAX_BUFFER_SIZE;
      try lia; [|apply Hw].
    unfold buffer_of. rewrite !len_app, len_zeros by lia.
    by replace (len acc + (total - len acc)) with (len acc + len p + (total - (len acc + len p))) by lia.
  - unfold buffer_of. rewrite !len_app, len_zeros by lia.
    replace (len acc + (total - len acc)) with (len acc + len p + (total - (len acc + len p))) by lia.
    done.
Qed.

Lemma assemble_next_reject seq sub total acc :
  assembling s seq sub total acc ->
  ~ (seq = seqNum h /\ sub + 1 = subSeq h /\ len acc + dataLen h <= total) ->
  assemble_next s (buffer_of (hd ++ p)) h = Recv (ResetAssembleFrag s) None.
Proof.
  intros Ha E. unfold assemble_next. rewrite (CheckUnPackBuffer_spec _ _ _ _ Ha).
  destruct (_ && _) eqn:Eb; [|done]. zb_hyps. exfalso. apply E. lia.
Qed.
End Assemble.

(** ** Abstract assembler

    What a session promises to its listeners, without buffers: fragments of one
    message are appended in order; the last one delivers the message, padded
    with zero bytes up to the announced length; a fragment that does not
    continue the message under assembly drops it. *)

Inductive astate :=
  | Idle
  | Assembling (seq sub total : Z) (acc : list Z).

Definition deliverable (total : Z) : bool := (0 <? total) && (total <? DSCHED_MAX_BUFFER_SIZE).

Definition continues (h : SessionDataHeader) (seq sub total : Z) (acc : list Z) : bool :=
  (seq =? seqNum h) && (sub + 1 =? subSeq h) && (len acc + dataLen h <=? total).

Definition astep (a : astate) (h : SessionDataHeader) (p : list Z) : astate * option (list Z * Z) :=
  if fragFlag h =? FRAG_START_END then
    (a, if (dataLen h =? totalLen h) && deliverable (dataLen h) then Some (p, dataType h) else None)
  else if fragFlag h =? FRAG_START then
    (if deliverable (totalLen h) then Assembling (seqNum h) (subSeq h) (totalLen h) p else Idle, None)
  else if (fragFlag h =? FRAG_MID) || (fragFlag h =? FRAG_END) then
    match a with
    | Assembling seq sub total acc =>
        if continues h seq sub total acc then
          if fragFlag h =? FRAG_END
          then (Idle, Some ((acc ++ p) ++ zeros (total - len (acc ++ p)), dataType h))
          else (Assembling seq (subSeq h) total (acc ++ p), None)
        else (Idle, None)
    | Idle => (Idle, None)
    end
  else (a, None).

(** The packets the session looks at, with the header it parses off them. *)
Definition accepted (g : SessionDataHeader) (pkt : list Z) : option (SessionDataHeader * list Z) :=
  if len pkt <? BINARY_HEADER_FRAG_LEN then None
  else match GetFragDataHeader pkt g with
  | Some (ReadOk h) => if bad_lengths (buffer_of pkt) h then None else Some (h, drop 49 pkt)
  | _ => None
  end.

Definition arecv (g : SessionDataHeader) (a : astate) (pkt : list Z) : astate * option (list Z * Z) :=
  match accepted g pkt with
  | Some (h, p) => astep a h p
  | None => (a, None)
  end.

Definition refines (s : Session) (a : astate) : Prop :=
  match a with
  | Idle => isWaiting_ s = false
  | Assembling seq sub total acc => assembling s seq sub total acc
  end.

Definition delivered (ready : option (DataBuffer * Z)) : option (list Z * Z) :=
  match ready with
  | Some (b, ty) => Some (contents b, ty)
  | None => None
  end.

Lemma AssembleNoFrag_spec s hd h p :
  len hd = 49 -> describes h p ->
  AssembleNoFrag s (buffer_of (hd ++ p)) h
  = Recv s (if (dataLen h =? totalLen h) && deliverable (dataLen h)
            then Some (buffer_of p, dataType h) else None).
Proof.
  intros Hhd (Hw & Hp & Ht & Hm & Hx). unfold AssembleNoFrag, BINARY_HEADER_FRAG_LEN, Size, Data.
  buf_simpl. pose proof (len_nonneg p). rewrite len_app, Hhd.
  destruct (Z.eqb_spec (dataLen h) (totalLen h)); cbn [negb andb]; [|done].
  zb_auto. unfold BINARY_DATA_MAX_LEN, DSCHED_MAX_BUFFER_SIZE in *. rewrite u32_id by zlia.
  unfold deliverable, DSCHED_MAX_BUFFER_SIZE. destruct (Z.ltb_spec 0 (dataLen h)); cbn [andb].
  - zb_auto. replace (49 + len p - 49) with (dataLen h) by lia.
    rewrite buffer_new_small by (unfold DSCHED_MAX_BUFFER_SIZE; lia). buf_simpl.
    rewrite len_zeros by lia. rewrite <- buffer_new_small by (unfold DSCHED_MAX_BUFFER_SIZE; lia).
    rewrite buf_write_fresh by (rewrite ?len_app; unfold DSCHED_MAX_BUFFER_SIZE; lia).
    by rewrite Z.add_0_l, <- Hhd, slice_app_r, <- Hp, slice_all.
  - by rewrite buffer_new_refused by lia.
Qed.

Lemma not_bad_lengths pkt h :
  header_wf h -> 49 <= len pkt -> bad_lengths (buffer_of pkt) h = false -> describes h (drop 49 pkt).
Proof.
  intros Hw Hl. unfold bad_lengths, Size, BINARY_HEADER_FRAG_LEN. buf_simpl. intros Hb. zb_hyps.
  pose proof Hw as (_ & _ & _ & _ & _ & _ & Hd).
  unfold describes, BINARY_DATA_MAX_LEN, BINARY_DATA_MAX_TOTAL_LEN in *.
  change 49%nat with (Z.to_nat 49). rewrite len_drop by lia. rewrite u32_id in * by zlia.
  repeat (split; [done || lia|]). lia.
Qed.

(** A packet that passed the checks makes the step of the abstract assembler. *)
Lemma assemble_refines g s a hd h p :
  len hd = 49 -> GetFragDataHeader (hd ++ p) g = Some (ReadOk h) -> describes h p -> refines s a ->
  exists s' ready, PackRecvData g s (buffer_of (hd ++ p)) = Recv s' ready /\
    refines s' (fst (astep a h p)) /\ delivered ready = snd (astep a h p) /\ same_identity s s'.
Proof.
  intros Hhd Hg Hh Ha. rewrite (PackRecvData_accepts g s hd h p) by done. unfold astep, AssembleFrag.
  destruct (fragFlag h =? FRAG_START_END).
  { rewrite AssembleNoFrag_spec by done. eexists s, _. split_and!; try done. cbn [snd].
    destruct (_ && _); [|done]. cbn [delivered]. by rewrite contents_buffer_of. }
  destruct (fragFlag h =? FRAG_START).
  { unfold deliverable. destruct (_ && _) eqn:Ed; zb_hyps.
    - destruct (assemble_start_spec s hd h p) as (s' & -> & ? & ?); [done..|lia|]. by exists s', None.
    - destruct (assemble_start_refused s hd h p) as (s' & -> & ? & ?); [done..| |by exists s', None].
      destruct Hh as ((_ & _ & _ & _ & Ht & _) & _). apply andb_false_iff in Ed. unfold is_u32 in Ht.
      destruct Ed; zb_hyps; lia. }
  destruct (_ || _); [|by exists s, None].
  destruct a as [|seq sub total acc]; cbn [refines] in Ha.
  { exists (ResetAssembleFrag s), None. unfold assemble_next, CheckUnPackBuffer. by rewrite Ha. }
  destruct (continues h seq sub total acc) eqn:Ec; unfold continues in Ec.
  - zb_hyps. destruct (assemble_next_ok s hd h p Hhd Hh seq sub total acc Ha) as (s' & ? & ? & ->); [done..|].
    destruct (fragFlag h =? FRAG_END); eexists _, _; (split; [done|]); cbn [fst snd refines delivered].
    + by rewrite contents_buffer_of.
    + by split_and!.
  - rewrite (assemble_next_reject s hd h p Hh seq sub total acc Ha);
      [by exists (ResetAssembleFrag s), None|].
    intros (E1 & E2 & E3). apply andb_false_iff in Ec as [Ec|Ec]; [apply andb_false_iff in Ec as [Ec|Ec]|];
      zb_hyps; lia.
Qed.

Lemma PackRecvData_refines g s a pkt :
  refines s a -> header_wf g -> Forall is_u8 pkt ->
  exists s' ready, PackRecvData g s (buffer_of pkt) = Recv s' ready /\
    refines s' (fst (arecv g a pkt)) /\ delivered ready = snd (arecv g a pkt) /\ same_identity s s'.
Proof.
  intros Ha Hg Hp. unfold arecv, accepted.
  destruct (Z.ltb_spec (len pkt) BINARY_HEADER_FRAG_LEN) as [Hl|Hl].
  { exists s, None. unfold PackRecvData, Size. buf_simpl. by zb_true (len pkt <? BINARY_HEADER_FRAG_LEN). }
  unfold BINARY_HEADER_FRAG_LEN in Hl.
  destruct (GetFragDataHeader_safe pkt g Hg Hp Hl) as (r & Hr & Hs). rewrite Hr.
  assert (PackRecvData g s (buffer_of pkt)
    = match r with ReadOk h => if bad_lengths (buffer_of pkt) h then Recv s None else
        PackRecvData g s (buffer_of pkt) | ReadErr _ => Recv s None | ReadUB => RecvUB end) as E.
  { unfold PackRecvData, Size, Data, BINARY_HEADER_FRAG_LEN. buf_simpl. zb_false (len pkt <? 49).
    change (Z.to_nat 0) with 0%nat. rewrite drop_0, Hr. by destruct r; [destruct (bad_lengths _ _)|..]. }
  destruct r as [h|e|]; cbn in Hs; [|by rewrite E; exists s, None|done].
  destruct (bad_lengths (buffer_of pkt) h) eqn:Eb; [by rewrite E; exists s, None|].
  pose proof (not_bad_lengths pkt h Hs Hl Eb) as Hd.
  pose proof (assemble_refines g s a (take 49 pkt) h (drop 49 pkt)) as Hx. rewrite take_drop in Hx.
  apply Hx; try done. unfold len in *. rewrite length_take. lia.
Qed.

(** ** Properties: the receiver *)

(** C1: the session refines the abstract assembler: on every packet, of
    whatever bytes, it neither reads nor writes outside its buffers, makes the
    abstract step, delivers exactly the message the abstract assembler delivers
    and keeps its identity and reference count. *)
Theorem receiver_refines_assembler g s a pkt :
  refines s a -> header_wf g -> Forall is_u8 pkt ->
  exists s' ready, PackRecvData g s (buffer_of pkt) = Recv s' ready /\
    refines s' (fst (arecv g a pkt)) /\ delivered ready = snd (arecv g a pkt) /\ same_identity s s'.
Proof. apply PackRecvData_refines. Qed.

Lemma receiver_refines_assembler_witness :
  exists s' ready,
    PackRecvData (mkHeader 0 0 0 0 0 0 0) (Session_new 1 "" "" true)
      (buffer_of (packet (mkHeader 1 4 7 0 3 0 3) [5; 6; 7])) = Recv s' ready /\
    delivered ready = Some ([5; 6; 7], 7).
Proof.
  destruct (receiver_refines_assembler (mkHeader 0 0 0 0 0 0 0) (Session_new 1 "" "" true) Idle
              (packet (mkHeader 1 4 7 0 3 0 3) [5; 6; 7])) as (s' & ready & H & _ & Hd & _).
  - reflexivity.
  - unfold header_wf; cbn; zlia.
  - vm_compute. repeat constructor; discriminate.
  - exists s', ready. split; [exact H|]. rewrite Hd. vm_compute. reflexivity.
Defined.

(** ** Sender and receiver together *)

(** The maximum that softbus announces for the session stays between [m] and what the
    receiver takes, and softbus accepts a packet of this maximum with a header on top.
    (The sender compares the message, without the header, with the maximum, so the last
    packet of a message can be longer than the maximum by the 49 bytes of its header; see
    [packet_exceeds_session_max].) *)
Record env_ok (env : SendEnv) (m : Z) : Prop := {
  env_option : forall k, fst (GetSessionOption env k) = ERR_OK;
  env_max : forall k, m <= snd (GetSessionOption env k) <= BINARY_DATA_MAX_LEN;
  env_send : forall k p, len p <= snd (GetSessionOption env k) + BINARY_HEADER_FRAG_LEN -> SendBytes env k p = ERR_OK;
}.

Lemma receive_step g s h p ps s' ready s'' out :
  describes h p ->
  (if fragFlag h =? FRAG_START_END then AssembleNoFrag s (buffer_of (packet h p)) h
   else AssembleFrag s (buffer_of (packet h p)) h) = Recv s' ready ->
  receive_all g s' ps = Some (s'', out) ->
  receive_all g s (packet h p :: ps) = Some (s'', option_list ready ++ out).
Proof.
  unfold packet. intros Hd Ha Hs. cbn [receive_all].
  rewrite (PackRecvData_accepts g s (header_bytes h) h p), Ha, Hs; try done.
  apply GetFragDataHeader_exact, Hd.
Qed.

(** The sizes of the packets that [OnBytes] takes. *)
Definition packet_size (p : list Z) : Prop := 0 < len p < DSCHED_MAX_BUFFER_SIZE.

Lemma packet_size_ok h p : len p <= BINARY_DATA_MAX_LEN -> packet_size (packet h p).
Proof.
  intros. unfold packet_size. rewrite len_packet. pose proof (len_nonneg p).
  unfold BINARY_DATA_MAX_LEN, DSCHED_MAX_BUFFER_SIZE in *. lia.
Qed.

Section Transfer.
Variables (env : SendEnv) (m : Z) (d : list Z) (dt : Z) (g : SessionDataHeader).
Hypothesis Henv : env_ok env m.
Hypothesis Hm : BINARY_DATA_PACKET_RESERVED_BUFFER < m.
Hypothesis Hd : 0 < len d < DSCHED_MAX_BUFFER_SIZE.
Hypothesis Hdt : is_u32 dt.
(** The fragment number is a 16-bit field. *)
Hypothesis Hfrag : len d <= 65536 * (m - BINARY_DATA_PACKET_RESERVED_BUFFER).

Definition frag_header (flag k n : Z) : SessionDataHeader := mkHeader 1 flag dt 0 (len d) k n.

(** The loop of the sender before fragment [k], [o] bytes sent, and the
    receiver's session. *)
Definition in_step (s : Session) (k : nat) (o mx flag : Z) : Prop :=
  Z.of_nat k * (m - BINARY_DATA_PACKET_RESERVED_BUFFER) <= o < len d /\ (m <= mx <= BINARY_DATA_MAX_LEN /\ mx = snd (GetSessionOption env k)) /\
  ((k = 0%nat /\ o = 0 /\ flag = FRAG_START /\ mx < len d) \/
   ((0 < k)%nat /\ flag = FRAG_MID /\ assembling s 0 (Z.of_nat k - 1) (len d) (slice d 0 o))).

Lemma frag_describes flag k o n :
  is_u8 flag -> is_u16 k -> 0 <= o -> 0 < n <= BINARY_DATA_MAX_LEN -> o + n <= len d ->
  describes (frag_header flag k n) (slice d o n).
Proof.
  intros. unfold describes, header_wf, frag_header; cbn.
  rewrite len_slice by lia. unfold BINARY_DATA_MAX_LEN, BINARY_DATA_MAX_TOTAL_LEN, DSCHED_MAX_BUFFER_SIZE in *.
  split_and!; try done; zlia.
Qed.

(** A fragment that is not the last one. *)
Lemma frag_received s k o mx flag n :
  in_step s k o mx flag -> 0 < n -> o + n < len d -> n <= BINARY_DATA_MAX_LEN -> is_u16 (Z.of_nat k) ->
  exists s', AssembleFrag s (buffer_of (packet (frag_header flag (Z.of_nat k) n) (slice d o n)))
               (frag_header flag (Z.of_nat k) n) = Recv s' None /\
    assembling s' 0 (Z.of_nat k) (len d) (slice d 0 (o + n)).
Proof.
  intros (Hk & [Hmx _] & [(-> & -> & -> & Hlt)|(Hk0 & -> & Ha)]) Hn Ho Hx Hu; unfold AssembleFrag, packet; cbn [fragFlag frag_header].
  - change (FRAG_START =? FRAG_START) with true. cbv iota.
    destruct (assemble_start_spec s (header_bytes (frag_header FRAG_START 0 n)) (frag_header FRAG_START 0 n) (slice d 0 n))
      as (s' & E & Ha & _); [done|apply frag_describes; try done; lia|cbn; lia|].
    by exists s'.
  - change (FRAG_MID =? FRAG_START) with false. change (_ || _) with true. cbv iota.
    assert (0 <= o) by (unfold BINARY_DATA_PACKET_RESERVED_BUFFER in *; nia).
    pose proof (len_slice d 0 o ltac:(lia) ltac:(lia) ltac:(lia)) as Hl.
    destruct (assemble_next_ok s (header_bytes (frag_header FRAG_MID (Z.of_nat k) n))
                (frag_header FRAG_MID (Z.of_nat k) n) (slice d o n) eq_refl
                (frag_describes FRAG_MID (Z.of_nat k) o n ltac:(done) Hu ltac:(lia) ltac:(lia) ltac:(lia))
                _ _ _ _ Ha) as (s' & Ha' & _ & E); [done|cbn; lia|cbn; lia|].
    exists s'. split; [exact E|]. by rewrite <- (slice_adjacent d 0 o n) by lia.
Qed.

(** The last fragment delivers the message. *)
Lemma last_received s k o mx flag n :
  in_step s k o mx flag -> (0 < k)%nat -> 0 < n -> o + n = len d -> n <= BINARY_DATA_MAX_LEN ->
  is_u16 (Z.of_nat k) ->
  exists s', AssembleFrag s (buffer_of (packet (frag_header FRAG_END (Z.of_nat k) n) (slice d o n)))
               (frag_header FRAG_END (Z.of_nat k) n) = Recv s' (Some (buffer_of d, dt)) /\
    isWaiting_ s' = false.
Proof.
  intros (Hk & [Hmx _] & [(-> & _)|(Hk0 & -> & Ha)]) Hk1 Hn Ho Hx Hu; [lia|].
  unfold AssembleFrag, packet; cbn [fragFlag frag_header].
  change (FRAG_END =? FRAG_START) with false. change (_ || _) with true. cbv iota.
  assert (0 <= o) by (unfold BINARY_DATA_PACKET_RESERVED_BUFFER in *; nia).
  pose proof (len_slice d 0 o ltac:(lia) ltac:(lia) ltac:(lia)) as Hl.
  destruct (assemble_next_ok s (header_bytes (frag_header FRAG_END (Z.of_nat k) n))
              (frag_header FRAG_END (Z.of_nat k) n) (slice d o n) eq_refl
              (frag_describes FRAG_END (Z.of_nat k) o n ltac:(done) Hu ltac:(lia) ltac:(lia) ltac:(lia))
              _ _ _ _ Ha) as (s' & Ha' & _ & E); [done|cbn; lia|cbn; lia|].
  exists (ResetAssembleFrag s'). split; [|done]. rewrite E. cbn [fragFlag frag_header].
  change (FRAG_END =? FRAG_END) with true. cbv iota. do 3 f_equal.
  pose proof (slice_adjacent d 0 o n ltac:(lia) ltac:(lia) ltac:(lia)) as Hs.
  rewrite Z.add_0_l in Hs. cbn [Z.add] in Hs.
  rewrite Hs, Ho, slice_all, Z.sub_diag. change (zeros 0) with (@nil Z). by rewrite app_nil_r.
Qed.

Lemma SetHeadParaDataLen_spec flag k n0 o mx :
  0 <= o <= len d -> m <= mx <= BINARY_DATA_MAX_LEN ->
  SetHeadParaDataLen (frag_header flag k n0) (len d) o mx
  = if mx <? len d - o then frag_header flag k (mx - BINARY_DATA_PACKET_RESERVED_BUFFER)
    else frag_header FRAG_END k (len d - o).
Proof.
  intros. unfold SetHeadParaDataLen, BINARY_DATA_MAX_LEN, BINARY_DATA_PACKET_RESERVED_BUFFER, DSCHED_MAX_BUFFER_SIZE in *.
  rewrite !u32_id by zlia. by destruct (_ <? _).
Qed.

(** The packet of one iteration of the loop. *)
Lemma loop_packet flag k o n :
  0 <= o -> 0 < n <= BINARY_DATA_MAX_LEN -> o + n <= len d ->
  make_packet (frag_header flag k n) (u32 (n + BINARY_HEADER_FRAG_LEN)) (buffer_of d) o
  = BufOk (buffer_of (packet (frag_header flag k n) (slice d o n))).
Proof.
  intros. unfold BINARY_HEADER_FRAG_LEN, BINARY_DATA_MAX_LEN in *. rewrite u32_id, Z.add_comm by zlia.
  apply (make_packet_spec (frag_header flag k n)); cbn; unfold DSCHED_MAX_BUFFER_SIZE in *; lia.
Qed.

Lemma frag_number s k o mx flag : in_step s k o mx flag -> is_u16 (Z.of_nat k).
Proof.
  intros (Hk & _). unfold BINARY_DATA_PACKET_RESERVED_BUFFER, is_u16 in *. nia.
Qed.

Lemma in_step_next s k o mx mx' flag s' :
  in_step s k o mx flag -> m <= mx' <= BINARY_DATA_MAX_LEN -> mx' = snd (GetSessionOption env (S k)) ->
  o + (mx - BINARY_DATA_PACKET_RESERVED_BUFFER) < len d ->
  assembling s' 0 (Z.of_nat k) (len d) (slice d 0 (o + (mx - BINARY_DATA_PACKET_RESERVED_BUFFER))) ->
  in_step s' (S k) (o + (mx - BINARY_DATA_PACKET_RESERVED_BUFFER)) mx' FRAG_MID.
Proof.
  intros (Hk & [Hmx _] & _) Hmx' Hg Ho Ha. split; [rewrite Nat2Z.inj_succ, Z.mul_succ_l; lia|].
  split; [done|]. right. replace (Z.of_nat (S k) - 1) with (Z.of_nat k) by lia. by split; [lia|].
Qed.

Lemma unpack_loop_transfer fuel : forall s k o mx flag n0 acc,
  in_step s k o mx flag -> len d - o < Z.of_nat fuel ->
  exists pkts, unpack_loop fuel env k (buffer_of d) (frag_header flag (Z.of_nat k) n0) (len d) o mx acc
               = Sent ERR_OK (acc ++ pkts) /\
    Forall packet_size pkts /\
    exists s', receive_all g s pkts = Some (s', [(buffer_of d, dt)]) /\ isWaiting_ s' = false.
Proof.
  induction fuel as [|fuel IH]; intros s k o mx flag n0 acc Hi Hf; [destruct Hi; lia|].
  pose proof (frag_number _ _ _ _ _ Hi) as Hu. pose proof Hi as (Hk & [Hmx Hgk] & Hst).
  assert (0 <= o) by (unfold BINARY_DATA_PACKET_RESERVED_BUFFER in *; nia).
  cbn [unpack_loop]. rewrite SetHeadParaDataLen_spec by lia.
  zb_false (len d <=? o). zb_false (mx <=? BINARY_DATA_PACKET_RESERVED_BUFFER).
  pose proof (env_option _ _ Henv (S k)) as Eo. pose proof (env_max _ _ Henv (S k)) as Em.
  destruct (GetSessionOption env (S k)) as [e mx'] eqn:Eg; cbn [fst snd] in Eo, Em. subst e.
  assert (forall h p, len p <= mx -> SendBytes env k (packet h p) = ERR_OK) as Hsend.
  { intros h p Hp. apply (env_send _ _ Henv). rewrite len_packet, <- Hgk. unfold BINARY_HEADER_FRAG_LEN. lia. }
  destruct (Z.ltb_spec mx (len d - o)) as [Hlt|Hge];
    cbn [version fragFlag dataType seqNum totalLen subSeq dataLen frag_header].
  - set (n := mx - BINARY_DATA_PACKET_RESERVED_BUFFER) in *.
    assert (0 < n <= BINARY_DATA_MAX_LEN /\ o + n < len d /\ n <= mx)
      by (unfold n, BINARY_DATA_PACKET_RESERVED_BUFFER, BINARY_DATA_MAX_LEN in *; lia).
    rewrite loop_packet, contents_buffer_of, Hsend by (try rewrite len_slice; lia). cbn [negb Z.eqb ERR_OK].
    destruct (frag_received s k o mx flag n Hi) as (s' & E & Ha); [lia..|done|].
    assert (in_step s' (S k) (o + n) mx' FRAG_MID) as Hi'.
    { apply (in_step_next s k o mx mx' flag s'); try done; [by rewrite Eg|lia]. }
    destruct (IH s' (S k) (o + n) mx' FRAG_MID n (acc ++ [packet (frag_header flag (Z.of_nat k) n) (slice d o n)]) Hi')
      as (pkts & Ep & Hz & s'' & Hr & Hw); [lia|].
    exists (packet (frag_header flag (Z.of_nat k) n) (slice d o n) :: pkts). split; [|split].
    + rewrite u32_id by (unfold is_u32, DSCHED_MAX_BUFFER_SIZE in *; lia).
      pose proof (frag_number _ _ _ _ _ Hi') as Hu'. rewrite u16_id by (unfold is_u16 in *; lia).
      replace (Z.of_nat k + 1) with (Z.of_nat (S k)) by lia. rewrite <- app_assoc in Ep. exact Ep.
    + constructor; [|done]. apply packet_size_ok. rewrite len_slice by lia. lia.
    + assert (is_u8 flag /\ (flag =? FRAG_START_END) = false) as [Hf8 Hne]
        by (destruct Hst as [(_ & _ & -> & _)|(_ & -> & _)]; done).
      exists s''. split; [|done].
      apply (receive_step g s _ _ pkts s' None s'' [(buffer_of d, dt)]); [|cbn; by rewrite Hne|exact Hr].
      by apply frag_describes; try lia.
  - assert (0 < len d - o <= BINARY_DATA_MAX_LEN /\ (0 < k)%nat) by lia.
    rewrite loop_packet, contents_buffer_of, Hsend by (try rewrite len_slice; lia). cbn [negb Z.eqb ERR_OK].
    destruct (last_received s k o mx flag (len d - o) Hi) as (s' & E & Ha); [lia..|done|].
    destruct fuel as [|fuel]; [lia|]. cbn [unpack_loop].
    rewrite u32_id by (unfold is_u32, DSCHED_MAX_BUFFER_SIZE in *; lia). zb_auto.
    eexists [_]. split; [done|].
    split; [constructor; [apply packet_size_ok; rewrite len_slice by lia; lia|done]|].
    exists s'. split; [|done].
    apply (receive_step g s _ _ [] s' (Some (buffer_of d, dt)) s' []); [|exact E|done].
    by apply frag_describes; try lia.
Qed.
End Transfer.

(** A message that fits goes out as one packet. *)
Definition single_header (d : list Z) (dtype : Z) : SessionDataHeader :=
  frag_header d (u32 dtype) FRAG_START_END 0 (len d).

Lemma single_packet env d dtype :
  len d + 49 < DSCHED_MAX_BUFFER_SIZE ->
  UnPackStartEndData env (buffer_of d) dtype
  = Sent (SendBytes env 0%nat (packet (single_header d dtype) d)) [packet (single_header d dtype) d].
Proof.
  intros Hd. pose proof (len_nonneg d). unfold DSCHED_MAX_BUFFER_SIZE in *.
  unfold UnPackStartEndData, Size, BINARY_HEADER_FRAG_LEN. buf_simpl.
  rewrite (u32_id (len d)), u64_id, Z.add_comm by zlia.
  rewrite buffer_new_small by (unfold DSCHED_MAX_BUFFER_SIZE; lia). buf_simpl. rewrite len_zeros by lia. zb_auto.
  change (mkHeader _ _ _ _ _ _ _) with (single_header d dtype).
  change (49 + len d) with (49 + dataLen (single_header d dtype)).
  rewrite make_packet_spec by (cbn; unfold DSCHED_MAX_BUFFER_SIZE; lia).
  rewrite contents_buffer_of. cbn [dataLen single_header frag_header]. by rewrite slice_all.
Qed.

Lemma SendData_received env m d dtype g s :
  env_ok env m -> BINARY_DATA_PACKET_RESERVED_BUFFER < m ->
  0 < len d < DSCHED_MAX_BUFFER_SIZE ->
  len d <= 65536 * (m - BINARY_DATA_PACKET_RESERVED_BUFFER) ->
  exists pkts s', SendData env (Some (buffer_of d)) dtype = (ERR_OK, Sent ERR_OK pkts) /\
    receive_all g s pkts = Some (s', [(buffer_of d, u32 dtype)]) /\
    Forall packet_size pkts /\ (isWaiting_ s' = false \/ s' = s).
Proof.
  intros Henv Hm Hd Hfrag. cbn [SendData]. unfold UnPackSendData.
  pose proof (env_option _ _ Henv 0%nat) as Eo. pose proof (env_max _ _ Henv 0%nat) as Em.
  destruct (GetSessionOption env 0%nat) as [e mx] eqn:Eg; cbn [fst snd] in Eo, Em. subst e.
  change (negb (ERR_OK =? ERR_OK)) with false. cbv iota. unfold Size. buf_simpl.
  assert (is_u32 (u32 dtype)) as Hdt by (apply Z.mod_pos_bound; lia).
  pose proof Hd as [_ Hd']. unfold DSCHED_MAX_BUFFER_SIZE, BINARY_DATA_MAX_LEN in Hd', Em.
  destruct (Z.leb_spec (len d) mx).
  - assert (describes (single_header d dtype) d) as Hh.
    { pose proof (frag_describes d (u32 dtype) Hd Hdt FRAG_START_END 0 0 (len d)) as Hx.
      rewrite slice_all in Hx. apply Hx; try done; unfold BINARY_DATA_MAX_LEN; lia. }
    rewrite single_packet, (env_send _ _ Henv) by first [unfold DSCHED_MAX_BUFFER_SIZE; lia | rewrite len_packet, Eg; unfold BINARY_HEADER_FRAG_LEN; cbn [snd]; lia].
    exists [packet (single_header d dtype) d], s. split; [done|].
    split; [|split; [constructor; [apply packet_size_ok; unfold BINARY_DATA_MAX_LEN; lia|done]|by right]].
    refine (receive_step g s _ d [] s (Some (buffer_of d, u32 dtype)) s [] Hh _ eq_refl).
    change (_ =? FRAG_START_END) with true. cbv iota. unfold packet.
    rewrite AssembleNoFrag_spec by done. cbn [dataLen totalLen dataType single_header frag_header].
    unfold deliverable, DSCHED_MAX_BUFFER_SIZE. by zb_auto.
  - rewrite (u32_id (len d)) by zlia. change (mkHeader _ _ _ _ _ _ _) with (frag_header d (u32 dtype) FRAG_START (Z.of_nat 0) 0).
    destruct (unpack_loop_transfer env m d (u32 dtype) g Henv Hm Hd Hdt Hfrag (S (Z.to_nat (len d)))
                s 0%nat 0 mx FRAG_START 0 []) as (pkts & -> & ? & s' & ? & ?).
    + split; [lia|]. split; [split; [unfold BINARY_DATA_MAX_LEN; lia|by rewrite Eg]|]. by left.
    + lia.
    + exists pkts, s'. auto.
Qed.

(** ** Properties: end-to-end transfer *)


Definition const_env (mx : Z) : SendEnv := mkSendEnv (fun _ => (ERR_OK, mx)) (fun _ _ => ERR_OK).

Lemma const_env_ok mx : mx <= BINARY_DATA_MAX_LEN -> env_ok (const_env mx) mx.
Proof. intros. constructor; intros; cbn; try done; lia. Qed.


(** The sender compares the message, not the packet, with the
    session's maximum: a message of exactly the maximum size is sent as one
    packet that is longer than the session accepts by the 49 bytes of the
    header. *)
Theorem packet_exceeds_session_max mx d dtype :
  0 < mx -> len d = mx -> mx + 49 < DSCHED_MAX_BUFFER_SIZE ->
  exists p, UnPackSendData (const_env mx) (buffer_of d) dtype = Sent ERR_OK [p] /\ len p = mx + 49.
Proof.
  intros Hm Hl Hx. unfold UnPackSendData, Size. cbn [const_env GetSessionOption]. buf_simpl.
  change (negb (ERR_OK =? ERR_OK)) with false. cbv iota. rewrite Hl, Z.leb_refl.
  rewrite single_packet by lia. eexists. split; [done|]. rewrite len_packet. lia.
Qed.

Lemma packet_exceeds_session_max_witness :
  exists p, UnPackSendData (const_env 600) (buffer_of (zeros 600)) 0 = Sent ERR_OK [p] /\ len p = 649.
Proof. apply (packet_exceeds_session_max 600 (zeros 600) 0); reflexivity. Defined.

(** ** The sender always ends *)

(** The sender ended with a result and the packets it has sent. *)
Definition send_safe (r : send_outcome) : Prop := exists ret pkts, r = Sent ret pkts.

Lemma make_packet_safe h cap d o :
  0 <= o -> 0 <= dataLen h -> o + dataLen h <= len d -> cap = u32 (dataLen h + 49) ->
  dataLen h + 49 < 2 ^ 32 ->
  make_packet h cap (buffer_of d) o <> BufUB.
Proof.
  intros Ho Hd Hl -> Hu. change (2 ^ 32) with 4294967296 in Hu. rewrite u32_id, Z.add_comm by zlia.
  destruct (Z.lt_ge_cases (49 + dataLen h) DSCHED_MAX_BUFFER_SIZE).
  - by rewrite make_packet_spec by lia.
  - unfold make_packet. by rewrite buffer_new_refused by lia.
Qed.

Lemma SetHeadParaDataLen_bounds h total o mx :
  0 <= o < total -> total < DSCHED_MAX_BUFFER_SIZE -> is_u32 mx -> BINARY_DATA_PACKET_RESERVED_BUFFER < mx ->
  0 < dataLen (SetHeadParaDataLen h total o mx) <= total - o.
Proof.
  intros. unfold SetHeadParaDataLen, BINARY_DATA_PACKET_RESERVED_BUFFER, DSCHED_MAX_BUFFER_SIZE in *.
  rewrite (u32_id (total - o)) by zlia. destruct (Z.ltb_spec mx (total - o)); cbn [dataLen]; [|lia].
  rewrite u32_id by zlia. lia.
Qed.

Lemma unpack_loop_safe env d :
  len d < DSCHED_MAX_BUFFER_SIZE -> (forall k, is_u32 (snd (GetSessionOption env k))) ->
  forall fuel k h o mx acc, 0 <= o <= len d -> is_u32 mx -> len d - o < Z.of_nat fuel ->
  send_safe (unpack_loop fuel env k (buffer_of d) h (len d) o mx acc).
Proof.
  intros Hd He. induction fuel as [|fuel IH]; intros k h o mx acc Ho Hmx Hf; [lia|].
  cbn [unpack_loop]. destruct (Z.leb_spec (len d) o); [by eexists _, _|].
  destruct (Z.leb_spec mx BINARY_DATA_PACKET_RESERVED_BUFFER); [by eexists _, _|].
  pose proof (SetHeadParaDataLen_bounds h (len d) o mx ltac:(lia) Hd Hmx ltac:(lia)) as Hb.
  set (h' := SetHeadParaDataLen _ _ _ _) in *. unfold DSCHED_MAX_BUFFER_SIZE in Hd.
  destruct (make_packet _ _ _ _) as [p| |] eqn:Ep.
  - destruct (_ =? ERR_OK); cbn [negb]; [|by eexists _, _].
    pose proof (He (S k)) as Hk. destruct (GetSessionOption env (S k)) as [ret mx'].
    destruct (ret =? ERR_OK); cbn [negb]; [|by eexists _, _].
    cbn [dataLen]. rewrite u32_id by zlia. apply IH; [lia|exact Hk|lia].
  - by eexists _, _.
  - exfalso. revert Ep. apply make_packet_safe; try done; lia.
Qed.

(** The sender ends, and never copies outside its buffers, on every
    message below the buffer limit and whatever softbus answers: every size it
    may report, every failure of [GetSessionOption] and [SendBytes]. *)
Theorem send_terminates env d dtype :
  len d < DSCHED_MAX_BUFFER_SIZE -> (forall k, is_u32 (snd (GetSessionOption env k))) ->
  send_safe (UnPackSendData env (buffer_of d) dtype).
Proof.
  intros Hd He. unfold UnPackSendData, Size. buf_simpl. pose proof (len_nonneg d).
  pose proof (He 0%nat) as Hk. destruct (GetSessionOption env 0) as [ret mx].
  destruct (ret =? ERR_OK); cbn [negb]; [|by eexists _, _].
  destruct (Z.leb_spec (len d) mx).
  - destruct (Z.lt_ge_cases (len d + 49) DSCHED_MAX_BUFFER_SIZE); [rewrite single_packet by lia; by eexists _, _|].
    unfold UnPackStartEndData, Size, BINARY_HEADER_FRAG_LEN. buf_simpl. unfold DSCHED_MAX_BUFFER_SIZE in *.
    rewrite u64_id by lia. rewrite buffer_new_refused by (unfold DSCHED_MAX_BUFFER_SIZE; lia). by eexists _, _.
  - rewrite (u32_id (len d)) by (unfold DSCHED_MAX_BUFFER_SIZE in *; zlia).
    apply unpack_loop_safe; try done; lia.
Qed.

Lemma send_terminates_witness :
  exists ret pkts,
    UnPackSendData (mkSendEnv (fun k => (0, if Nat.eqb k 1 then 100 else 600)) (fun _ _ => 0))
      (buffer_of (zeros 2000)) 0 = Sent ret pkts.
Proof.
  apply (send_terminates _ (zeros 2000) 0); [reflexivity|].
  intros k. cbn. destruct (Nat.eqb k 1); split; try reflexivity; discriminate.
Defined.

(** A last fragment that arrives before the announced length has
    been filled still delivers the message: the missing bytes are zeros. *)
Theorem short_message_delivered g s seq sub total acc h p :
  assembling s seq sub total acc -> describes h p ->
  fragFlag h = FRAG_END -> seqNum h = seq -> subSeq h = sub + 1 -> len acc + len p <= total ->
  exists s', PackRecvData g s (buffer_of (packet h p))
    = Recv s' (Some (buffer_of ((acc ++ p) ++ zeros (total - len (acc ++ p))), dataType h)) /\
    isWaiting_ s' = false.
Proof.
  intros Ha Hh Hf Hs Hu Hl. unfold packet.
  rewrite (PackRecvData_accepts g s (header_bytes h) h p), Hf by (try done; apply GetFragDataHeader_exact, Hh).
  unfold AssembleFrag. rewrite Hf.
  change (FRAG_END =? FRAG_START_END) with false. change (FRAG_END =? FRAG_START) with false.
  change (_ || _) with true. cbv iota. pose proof Hh as (_ & Hp & _).
  destruct (assemble_next_ok s (header_bytes h) h p eq_refl Hh seq sub total acc Ha)
    as (s' & _ & _ & ->); [lia..|]. rewrite Hf. change (FRAG_END =? FRAG_END) with true.
  by exists (ResetAssembleFrag s').
Qed.

Lemma short_message_delivered_witness :
  let s := mkSession (Some (buffer_of ([1; 2] ++ zeros 8))) true 0 0 2 10 1 "" "" 1 true in
  exists s', PackRecvData (mkHeader 9 9 9 9 9 9 9) s (buffer_of (packet (mkHeader 1 3 0 0 10 1 1) [3]))
    = Recv s' (Some (buffer_of [1; 2; 3; 0; 0; 0; 0; 0; 0; 0], 0)) /\ isWaiting_ s' = false.
Proof.
  set (s := mkSession _ _ _ _ _ _ _ _ _ _ _). cbv zeta.
  refine (short_message_delivered (mkHeader 9 9 9 9 9 9 9) s 0 0 10 [1; 2] (mkHeader 1 3 0 0 10 1 1) [3] _ _ _ _ _ _);
    try reflexivity.
  - constructor; try reflexivity; split; try reflexivity; discriminate.
  - unfold describes, header_wf. cbn. split_and!; try reflexivity; try discriminate; zlia.
  - discriminate.
Defined.
