(* ===== verification/SoftbusAdapter.v ===== *)
(** The softbus adapter of the scheduler, a singleton that owns the sessions and
    the data listeners:
    services/dtbschedmgr/src/softbus_adapter/transport/dsched_transport_softbus_adapter.cpp.

    [sessions_] and [listeners_] are ordered maps; a listener is the identity of
    the [IDataListener] object.  What the adapter does to other components is
    recorded in [calls_], oldest first.  The two preprocessor switches of the
    file are members of the environment. *)

From S2P Require Import Prelude DataBuffer SchedErrors Tlv SoftbusSession SoftbusCodec SoftbusTransfer StdMap.

(** ** Data *)

Definition SERVICE_TYPE_INVALID : Z := -1.
Definition SERVICE_TYPE_CONTINUE : Z := 0.
Definition SERVICE_TYPE_COLLAB : Z := 1.
Definition DSCHED_MAX_RECV_DATA_LEN : Z := 104857600.

Inductive ServiceState := SCM_IDLE | SCM_PREPARE | SCM_CONNECTED.

(** Calls to softbus, the all-connect manager, the two service managers and the
    listeners. *)
Inductive AdapterCall :=
  | CSocketServer
  | CSocket (peer : string)
  | CListen (socket : Z)
  | CBind (socket : Z)
  | CShutdown (socket : Z)
  | CSetFirstCallerTokenID (token : Z)
  | CInitAllConnect
  | CUninitAllConnect
  | CApplyAdvanceResource (peer : string)
  | CPublish (peer : string) (st : ServiceState)
  | CContinueDecision (peer : string)
  | CCollabDecision (peer : string)
  | CListenerShutdown (listener : Z) (sessionId : Z) (isSelfcalled : bool)
  | CListenerData (listener : Z) (sessionId : Z) (data : DataBuffer).

(** The answers during one operation. *)
Record AdapterEnv := mkAdapterEnv {
  DMSFWK_ALL_CONNECT_MGR : bool;
  COLLAB_ALL_CONNECT_DECISIONS : bool;
  IsWifiActive : bool;
  Socket : Z;
  Listen : Z;
  Bind : Z;
  InitAllConnectManager : Z;
  ApplyAdvanceResource : Z;
  LocalDeviceId : option string;
}.

Record Adapter := mkAdapter {
  sessions_ : zmap Session;
  listeners_ : zmap (list Z);
  serverSocket_ : Z;
  callingTokenId_ : Z;
  isAllConnectExist_ : bool;
  calls_ : list AdapterCall;
}.

Definition set_sessions (a : Adapter) (m : zmap Session) : Adapter :=
  mkAdapter m (listeners_ a) (serverSocket_ a) (callingTokenId_ a) (isAllConnectExist_ a) (calls_ a).
Definition set_listeners (a : Adapter) (m : zmap (list Z)) : Adapter :=
  mkAdapter (sessions_ a) m (serverSocket_ a) (callingTokenId_ a) (isAllConnectExist_ a) (calls_ a).
Definition set_serverSocket (a : Adapter) (s : Z) : Adapter :=
  mkAdapter (sessions_ a) (listeners_ a) s (callingTokenId_ a) (isAllConnectExist_ a) (calls_ a).
Definition SetCallingTokenId (a : Adapter) (t : Z) : Adapter :=
  mkAdapter (sessions_ a) (listeners_ a) (serverSocket_ a) t (isAllConnectExist_ a) (calls_ a).
Definition set_allConnectExist (a : Adapter) (b : bool) : Adapter :=
  mkAdapter (sessions_ a) (listeners_ a) (serverSocket_ a) (callingTokenId_ a) b (calls_ a).
Definition emit (a : Adapter) (cs : list AdapterCall) : Adapter :=
  mkAdapter (sessions_ a) (listeners_ a) (serverSocket_ a) (callingTokenId_ a) (isAllConnectExist_ a)
    (calls_ a ++ cs).

Definition Adapter_new : Adapter := mkAdapter [] [] 0 0 true [].

(** The search by device: [peerDeviceId == iter->second->GetPeerDeviceId()]. *)
Definition of_peer (peer : string) (s : Session) : bool := String.eqb peer (peerDeviceId_ s).
Definition find_peer (peer : string) (a : Adapter) : option (Z * Session) :=
  zfirst (of_peer peer) (sessions_ a).

(** ** Operations *)

Definition IsNeedAllConnect (env : AdapterEnv) (a : Adapter) (type : Z) : bool :=
  if negb (COLLAB_ALL_CONNECT_DECISIONS env)
     && ((type =? SERVICE_TYPE_COLLAB) || (type =? SERVICE_TYPE_INVALID))
  then false
  else isAllConnectExist_ a && IsWifiActive env.

Definition NotifyConnectDecision (env : AdapterEnv) (a : Adapter) (peer : string) (type : Z) : Adapter :=
  if negb (IsNeedAllConnect env a type) then a
  else if type =? SERVICE_TYPE_CONTINUE then emit a [CContinueDecision peer]
  else if type =? SERVICE_TYPE_COLLAB then emit a [CCollabDecision peer]
  else a.

Definition DecisionByAllConnect (env : AdapterEnv) (a : Adapter) (peer : string) (type : Z) : Z * Adapter :=
  if DMSFWK_ALL_CONNECT_MGR env then
    let a := emit a [CApplyAdvanceResource peer] in
    let ret := ApplyAdvanceResource env in
    if negb (ret =? ERR_OK) then (ret, NotifyConnectDecision env a peer type)
    else (ERR_OK, emit (NotifyConnectDecision env a peer type) [CPublish peer SCM_PREPARE])
  else (ERR_OK, a).

Definition publish (env : AdapterEnv) (a : Adapter) (peer : string) (st : ServiceState) : Adapter :=
  if DMSFWK_ALL_CONNECT_MGR env then emit a [CPublish peer st] else a.

Definition ShutdownSession (env : AdapterEnv) (a : Adapter) (peer : string) (sessionId : Z) : Adapter :=
  publish env (emit a [CShutdown sessionId]) peer SCM_IDLE.

Definition CreateSessionRecord (env : AdapterEnv) (a : Adapter) (sessionId : Z) (peer : string)
    (isServer : bool) (type : Z) : Z * Adapter :=
  match LocalDeviceId env with
  | None => (GET_LOCAL_DEVICE_ERR, ShutdownSession env a peer sessionId)
  | Some localDeviceId =>
      let a := set_sessions a (zset sessionId (Session_new sessionId localDeviceId peer isServer) (sessions_ a)) in
      if DMSFWK_ALL_CONNECT_MGR env && IsNeedAllConnect env a type
      then (ERR_OK, emit a [CPublish peer SCM_CONNECTED])
      else (ERR_OK, a)
  end.

(** The result, the [sessionId] out parameter and the adapter. *)
Definition AddNewPeerSession (env : AdapterEnv) (a : Adapter) (peer : string) (type : Z) : Z * Z * Adapter :=
  let sessionId := Socket env in
  let a := emit a [CSocket peer] in
  if sessionId <=? 0 then (REMOTE_DEVICE_BIND_ABILITY_ERR, sessionId, publish env a peer SCM_IDLE)
  else
    let a := SetCallingTokenId (emit a [CSetFirstCallerTokenID (callingTokenId_ a)]) 0 in
    let a := emit a [CBind sessionId] in
    let '(ret, a) := if negb (Bind env =? ERR_OK) then (Bind env, a)
                     else CreateSessionRecord env a sessionId peer false type in
    if negb (ret =? ERR_OK) then (ret, INVALID_SESSION_ID, ShutdownSession env a peer sessionId)
    else (ret, sessionId, a).

Definition ConnectDevice (env : AdapterEnv) (a : Adapter) (peer : string) (sessionId : Z) (type : Z)
    : Z * Z * Adapter :=
  match find_peer peer a with
  | Some (id, s) =>
      let a := set_sessions a (zset id (OnConnect s) (sessions_ a)) in
      (ERR_OK, id, if DMSFWK_ALL_CONNECT_MGR env then NotifyConnectDecision env a peer type else a)
  | None =>
      if IsNeedAllConnect env a type then
        let '(ret, a) := DecisionByAllConnect env a peer type in
        if negb (ret =? ERR_OK) then (ret, sessionId, a) else AddNewPeerSession env a peer type
      else AddNewPeerSession env a peer type
  end.

Definition NotifyListenersSessionShutdown (a : Adapter) (sessionId : Z) (isSelfcalled : bool) : Adapter :=
  emit a (map (fun l => CListenerShutdown l sessionId isSelfcalled) (concat (map snd (listeners_ a)))).

Definition DisconnectDevice (env : AdapterEnv) (a : Adapter) (peer : string) : Adapter :=
  match find_peer peer a with
  | None => a
  | Some (sessionId, s) =>
      if sessionId =? 0 then a
      else
        let '(unused, s') := OnDisconnect s in
        let a := set_sessions a (zset sessionId s' (sessions_ a)) in
        if unused then
          let a := ShutdownSession env a peer sessionId in
          let a := set_sessions a (zerase sessionId (sessions_ a)) in
          NotifyListenersSessionShutdown a sessionId true
        else a
  end.

Definition GetSessionIdByDeviceId (a : Adapter) (peer : string) : option Z :=
  match find_peer peer a with
  | Some (id, _) => Some id
  | None => None
  end.

Definition OnBind (env : AdapterEnv) (a : Adapter) (sessionId : Z) (peer : string) : Adapter :=
  snd (CreateSessionRecord env a sessionId peer true SERVICE_TYPE_INVALID).

Definition OnShutdown (env : AdapterEnv) (a : Adapter) (sessionId : Z) (isSelfcalled : bool) : Adapter :=
  match zfind sessionId (sessions_ a) with
  | None => a
  | Some s =>
      let a := ShutdownSession env a (peerDeviceId_ s) sessionId in
      let a := set_sessions a (zerase sessionId (sessions_ a)) in
      NotifyListenersSessionShutdown a sessionId isSelfcalled
  end.

Definition InitChannel (env : AdapterEnv) (a : Adapter) : Z * Adapter :=
  let a := if DMSFWK_ALL_CONNECT_MGR env then
             let a := emit a [CInitAllConnect] in
             if negb (InitAllConnectManager env =? ERR_OK) then set_allConnectExist a false else a
           else a in
  let a := set_serverSocket (emit a [CSocketServer]) (Socket env) in
  if serverSocket_ a <=? 0 then (serverSocket_ a, a)
  else
    let a := emit a [CListen (serverSocket_ a)] in
    if negb (Listen env =? ERR_OK) then (Listen env, a) else (ERR_OK, a).

Definition ReleaseChannel (env : AdapterEnv) (a : Adapter) : Z * Adapter :=
  let a := fold_left (fun a e => ShutdownSession env a (peerDeviceId_ (snd e)) (fst e)) (sessions_ a) a in
  let a := set_sessions a [] in
  let a := set_serverSocket (emit a [CShutdown (serverSocket_ a)]) 0 in
  (ERR_OK, if DMSFWK_ALL_CONNECT_MGR env then emit a [CUninitAllConnect] else a).

(** The packets go to [SendBytes(sessionId, ..)]. *)
Definition Adapter_SendData (env : SendEnv) (a : Adapter) (sessionId dataType : Z)
    (buffer : option DataBuffer) : Z * send_outcome :=
  match zfind sessionId (sessions_ a) with
  | None => (INVALID_SESSION_ID, Sent ERR_OK [])
  | Some _ => SendData env buffer dataType
  end.

(** [listeners_] has [int32_t] keys, the data type of a packet is a [uint32_t]. *)
Definition OnDataReady (a : Adapter) (sessionId : Z) (buffer : DataBuffer) (dataType : Z) : Adapter :=
  match zfind (i32 dataType) (listeners_ a) with
  | None => a
  | Some objs => emit a (map (fun l => CListenerData l sessionId buffer) objs)
  end.

(** [None]: undefined behaviour in the session. *)
Definition Adapter_OnBytes (garbage : SessionDataHeader) (a : Adapter) (sessionId : Z)
    (data : option (list Z)) (dataLen : Z) : option Adapter :=
  match data with
  | None => Some a
  | Some _ =>
    if (dataLen =? 0) || (DSCHED_MAX_RECV_DATA_LEN <? dataLen) then Some a
    else match zfind sessionId (sessions_ a) with
    | None => Some a
    | Some s =>
        let buffer := DSchedDataBuffer_new dataLen in
        match buf_write buffer 0 (Capacity buffer) data 0 dataLen with
        | BufErr => Some a
        | BufUB => None
        | BufOk b =>
            match snd (OnBytesReceived garbage s (Some b)) with
            | RecvUB => None
            | Recv s' ready =>
                let a := set_sessions a (zset sessionId s' (sessions_ a)) in
                Some match ready with
                     | None => a
                     | Some (buf, ty) => OnDataReady a sessionId buf ty
                     end
            end
        end
    end
  end.

(** [None] is the null listener. *)
Definition RegisterListener (a : Adapter) (serviceType : Z) (listener : option Z) : Adapter :=
  match listener with
  | None => a
  | Some l =>
      match zfind serviceType (listeners_ a) with
      | None => set_listeners a (zset serviceType [l] (listeners_ a))
      | Some ls =>
          if existsb (Z.eqb l) ls then a
          else set_listeners a (zset serviceType (ls ++ [l]) (listeners_ a))
      end
  end.

Fixpoint remove_first (l : Z) (ls : list Z) : option (list Z) :=
  match ls with
  | [] => None
  | x :: ls' => if x =? l then Some ls'
                else match remove_first l ls' with
                     | Some r => Some (x :: r)
                     | None => None
                     end
  end.

Definition UnregisterListener (a : Adapter) (serviceType : Z) (listener : option Z) : Adapter :=
  match listener with
  | None => a
  | Some l =>
      match zfind serviceType (listeners_ a) with
      | None => a
      | Some ls =>
          match remove_first l ls with
          | None => a
          | Some [] => set_listeners a (zerase serviceType (listeners_ a))
          | Some ls' => set_listeners a (zset serviceType ls' (listeners_ a))
          end
      end
  end.
