(* ===== verification/SoftbusAdapterProps.v ===== *)
(** Invariants and contracts of the softbus adapter. *)

From S2P Require Import Prelude DataBuffer SchedErrors Tlv SoftbusSession SoftbusCodec SoftbusTransfer StdMap SoftbusAdapter.
From stdpp Require Import relations.
#[local] Open Scope Z_scope.

(** ** Invariant *)

Definition session_ok (k : Z) (s : Session) : Prop :=
  sessionId_ s = k /\ 1 <= refCount_ s /\ exists x, refines s x.

Definition listeners_ok (ls : list Z) : Prop := ls <> [] /\ NoDup ls.

Definition adapter_wf (a : Adapter) : Prop :=
  zsorted (sessions_ a) /\ zsorted (listeners_ a) /\
  zall session_ok (sessions_ a) /\ zall (fun _ => listeners_ok) (listeners_ a).

(** Operations that leave the two maps alone. *)
Definition same_maps (a a' : Adapter) : Prop :=
  sessions_ a' = sessions_ a /\ listeners_ a' = listeners_ a.

Lemma same_maps_wf a a' : same_maps a a' -> adapter_wf a -> adapter_wf a'.
Proof. intros [E1 E2]. unfold adapter_wf. by rewrite E1, E2. Qed.

Ltac adapter_cases := repeat (case_match; simplify_eq/=); try done.

Lemma NotifyConnectDecision_maps env a peer ty : same_maps a (NotifyConnectDecision env a peer ty).
Proof. unfold NotifyConnectDecision. adapter_cases. Qed.

Lemma DecisionByAllConnect_maps env a peer ty : same_maps a (snd (DecisionByAllConnect env a peer ty)).
Proof.
  unfold DecisionByAllConnect. adapter_cases;
    exact (NotifyConnectDecision_maps env (emit a [CApplyAdvanceResource peer]) peer ty).
Qed.

Lemma ShutdownSession_maps env a peer id : same_maps a (ShutdownSession env a peer id).
Proof. unfold ShutdownSession, publish. adapter_cases. Qed.

Lemma publish_maps env a peer st : same_maps a (publish env a peer st).
Proof. unfold publish. adapter_cases. Qed.
#[local] Hint Resolve NotifyConnectDecision_maps DecisionByAllConnect_maps ShutdownSession_maps publish_maps
  : dms.

Lemma wf_set_sessions a m :
  adapter_wf a -> zsorted m -> zall session_ok m -> adapter_wf (set_sessions a m).
Proof. intros (? & ? & ? & ?) ? ?. by unfold adapter_wf. Qed.

Lemma wf_set_listeners a m :
  adapter_wf a -> zsorted m -> zall (fun _ => listeners_ok) m -> adapter_wf (set_listeners a m).
Proof. intros (? & ? & ? & ?) ? ?. by unfold adapter_wf. Qed.

Lemma wf_zset_session a k s : adapter_wf a -> session_ok k s -> adapter_wf (set_sessions a (zset k s (sessions_ a))).
Proof. intros Ha Hs. pose proof Ha as (? & ? & ? & ?). apply wf_set_sessions; auto with dms. Qed.

Lemma wf_zerase_session a k : adapter_wf a -> adapter_wf (set_sessions a (zerase k (sessions_ a))).
Proof. intros Ha. pose proof Ha as (? & ? & ? & ?). apply wf_set_sessions; auto with dms. Qed.

Lemma find_peer_ok a peer k s :
  adapter_wf a -> find_peer peer a = Some (k, s) ->
  zfind k (sessions_ a) = Some s /\ peerDeviceId_ s = peer /\ session_ok k s.
Proof.
  intros (Hs & _ & Hok & _) Hf. apply zfirst_Some in Hf as [Hf Hp]; [|done].
  split; [done|]. split; [symmetry; by apply String.eqb_eq|]. exact (zall_find _ _ _ _ Hok Hf).
Qed.

Lemma CreateSessionRecord_wf env a id peer srv ty :
  adapter_wf a -> adapter_wf (snd (CreateSessionRecord env a id peer srv ty)).
Proof.
  intros Ha. unfold CreateSessionRecord. destruct (LocalDeviceId env) as [l|].
  - assert (adapter_wf (set_sessions a (zset id (Session_new id l peer srv) (sessions_ a)))).
    { apply wf_zset_session; [done|]. split; [done|]. split; [cbn; lia|]. by exists Idle. }
    by destruct (_ && _).
  - eapply same_maps_wf; [apply ShutdownSession_maps|done].
Qed.

Lemma AddNewPeerSession_wf env a peer ty : adapter_wf a -> adapter_wf (snd (AddNewPeerSession env a peer ty)).
Proof.
  intros Ha. unfold AddNewPeerSession. destruct (Socket env <=? 0).
  { eapply same_maps_wf; [apply publish_maps|exact Ha]. }
  set (a1 := emit _ [CBind _]). assert (adapter_wf a1) by exact Ha. clearbody a1.
  destruct (negb (Bind env =? ERR_OK)).
  - destruct (negb _); cbn [snd]; [|done]. eapply same_maps_wf; [apply ShutdownSession_maps|done].
  - pose proof (CreateSessionRecord_wf env a1 (Socket env) peer false ty ltac:(done)) as Hc.
    destruct (CreateSessionRecord _ _ _ _ _ _) as [ret a2]. cbn in Hc.
    destruct (negb _); cbn [snd]; [|done]. eapply same_maps_wf; [apply ShutdownSession_maps|done].
Qed.

Lemma ConnectDevice_wf env a peer sid ty : adapter_wf a -> adapter_wf (snd (ConnectDevice env a peer sid ty)).
Proof.
  intros Ha. unfold ConnectDevice. destruct (find_peer peer a) as [[k s]|] eqn:Hf.
  - apply find_peer_ok in Hf as (? & ? & Hid & Href & x & Hx); [|done].
    assert (adapter_wf (set_sessions a (zset k (OnConnect s) (sessions_ a)))).
    { apply wf_zset_session; [done|]. split; [done|]. split; [cbn; lia|]. exists x.
      destruct x; [done|]. destruct Hx; by constructor. }
    cbn [snd]. destruct (DMSFWK_ALL_CONNECT_MGR env); [|done].
    eapply same_maps_wf; [apply NotifyConnectDecision_maps|done].
  - destruct (IsNeedAllConnect env a ty); [|by apply AddNewPeerSession_wf].
    pose proof (same_maps_wf _ _ (DecisionByAllConnect_maps env a peer ty) Ha) as Hd.
    destruct (DecisionByAllConnect env a peer ty) as [ret a']. cbn in Hd.
    destruct (negb _); [done|]. by apply AddNewPeerSession_wf.
Qed.

Lemma DisconnectDevice_wf env a peer : adapter_wf a -> adapter_wf (DisconnectDevice env a peer).
Proof.
  intros Ha. unfold DisconnectDevice. destruct (find_peer peer a) as [[k s]|] eqn:Hf; [|done].
  apply find_peer_ok in Hf as (Hk & ? & Hid & Href & x & Hx); [|done].
  destruct (k =? 0); [done|]. unfold OnDisconnect. cbn [refCount_ set_refCount].
  destruct (Z.leb_spec (refCount_ s - 1) 0).
  - set (a1 := set_sessions a _). assert (zall (fun _ => listeners_ok) (listeners_ a1) /\ zsorted (listeners_ a1)).
    { by destruct Ha as (? & ? & ? & ?). }
    destruct (ShutdownSession_maps env a1 peer k) as [E1 E2].
    unfold adapter_wf, NotifyListenersSessionShutdown, set_sessions, emit. cbn [sessions_ listeners_].
    rewrite E1, E2. destruct Ha as (Hs & Hl & Hok & Hlok). cbn [sessions_ set_sessions a1].
    rewrite zerase_zset by done. auto with dms.
  - apply wf_zset_session; [done|]. split; [done|]. split; [cbn; lia|]. exists x.
    destruct x; [done|]. destruct Hx; by constructor.
Qed.

Lemma OnShutdown_wf env a id self : adapter_wf a -> adapter_wf (OnShutdown env a id self).
Proof.
  intros Ha. unfold OnShutdown. destruct (zfind id (sessions_ a)) as [s|]; [|done].
  pose proof (same_maps_wf _ _ (ShutdownSession_maps env a (peerDeviceId_ s) id) Ha) as Hs.
  exact (wf_zerase_session _ id Hs).
Qed.

Lemma ReleaseChannel_wf env a : adapter_wf a -> adapter_wf (snd (ReleaseChannel env a)).
Proof.
  intros Ha. unfold ReleaseChannel.
  assert (forall m a0, listeners_ a0 = listeners_ a -> listeners_ (fold_left
    (fun a e => ShutdownSession env a (peerDeviceId_ (snd e)) (fst e)) m a0) = listeners_ a) as Hl.
  { induction m as [|e m IH]; cbn; [done|]. intros a0 E. apply IH.
    by rewrite (proj2 (ShutdownSession_maps _ _ _ _)). }
  pose proof (Hl (sessions_ a) a eq_refl) as E. destruct Ha as (? & ? & ? & ?).
  unfold adapter_wf. cbn [snd]. destruct (DMSFWK_ALL_CONNECT_MGR env); cbn; rewrite E;
    (split; [constructor|]); (split; [done|]); (split; [constructor|done]).
Qed.

Lemma InitChannel_wf env a : adapter_wf a -> adapter_wf (snd (InitChannel env a)).
Proof. intros Ha. unfold InitChannel. adapter_cases. Qed.

Lemma existsb_eqb l ls : existsb (Z.eqb l) ls = true <-> In l ls.
Proof.
  rewrite existsb_exists. split.
  - intros (x & Hx & E). apply Z.eqb_eq in E. by subst.
  - intros Hl. exists l. by rewrite Z.eqb_refl.
Qed.

Lemma remove_first_spec l ls :
  match remove_first l ls with
  | None => ~ In l ls
  | Some r => exists l1 l2, ls = l1 ++ l :: l2 /\ r = l1 ++ l2
  end.
Proof.
  induction ls as [|x ls IH]; cbn; [tauto|]. destruct (Z.eqb_spec x l) as [->|Hne].
  - by exists [], ls.
  - destruct (remove_first l ls) as [r|].
    + destruct IH as (l1 & l2 & -> & ->). by exists (x :: l1), l2.
    + intros [?|?]; done.
Qed.

Lemma RegisterListener_wf a ty l : adapter_wf a -> adapter_wf (RegisterListener a ty l).
Proof.
  intros Ha. pose proof Ha as (? & ? & ? & Hl). destruct l as [l|]; [|done]. cbn [RegisterListener].
  destruct (zfind ty (listeners_ a)) as [ls|] eqn:E.
  - pose proof (zall_find _ _ _ _ Hl E) as [Hne Hnd]. destruct (existsb _ _) eqn:Ex; [done|].
    apply wf_set_listeners; auto with dms. apply zall_zset; [|done]. split; [by destruct ls|].
    apply NoDup_app. split; [done|]. split; [|apply NoDup_singleton].
    intros x Hx Hx'. apply list_elem_of_singleton in Hx' as ->.
    apply list_elem_of_In, existsb_eqb in Hx. congruence.
  - apply wf_set_listeners; auto with dms. apply zall_zset; [|done].
    split; [done|]. apply NoDup_singleton.
Qed.

Lemma UnregisterListener_wf a ty l : adapter_wf a -> adapter_wf (UnregisterListener a ty l).
Proof.
  intros Ha. pose proof Ha as (? & ? & ? & Hl). destruct l as [l|]; [|done]. cbn [UnregisterListener].
  destruct (zfind ty (listeners_ a)) as [ls|] eqn:E; [|done].
  pose proof (zall_find _ _ _ _ Hl E) as [_ Hnd]. pose proof (remove_first_spec l ls) as Hr.
  destruct (remove_first l ls) as [[|x r]|]; [| |done].
  - apply wf_set_listeners; auto with dms.
  - apply wf_set_listeners; auto with dms. apply zall_zset; [|done]. split; [done|].
    destruct Hr as (l1 & l2 & -> & ->). apply NoDup_app in Hnd as (? & Hd & [? ?]%NoDup_cons).
    apply NoDup_app. split_and!; try done. intros y Hy Hy'. apply (Hd y Hy). by constructor.
Qed.

(** ** Receiving through the adapter *)

(** The copy [OnBytes] makes of a packet. *)
Lemma OnBytes_copy data :
  0 < len data < DSCHED_MAX_BUFFER_SIZE ->
  let b := DSchedDataBuffer_new (len data) in
  buf_write b 0 (Capacity b) (Some data) 0 (len data) = BufOk (buffer_of data).
Proof.
  intros Hl b. unfold b. replace (Capacity _) with (len data).
  - rewrite buf_write_fresh by lia. by rewrite slice_all.
  - rewrite buffer_new_small by lia. unfold Capacity. buf_simpl. by rewrite len_zeros by lia.
Qed.

Lemma OnBytes_session g a id s data :
  zfind id (sessions_ a) = Some s -> 0 < len data < DSCHED_MAX_BUFFER_SIZE ->
  Adapter_OnBytes g a id (Some data) (len data) =
    match PackRecvData g s (buffer_of data) with
    | RecvUB => None
    | Recv s' ready =>
        let a := set_sessions a (zset id s' (sessions_ a)) in
        Some match ready with Some (buf, ty) => OnDataReady a id buf ty | None => a end
    end.
Proof.
  intros Hs Hl. unfold Adapter_OnBytes, DSCHED_MAX_RECV_DATA_LEN, DSCHED_MAX_BUFFER_SIZE in *.
  zb_auto. rewrite Hs, (OnBytes_copy data) by done. cbn [OnBytesReceived snd].
  destruct (PackRecvData _ _ _) as [s' [[b t]|]|]; reflexivity.
Qed.

Lemma OnDataReady_maps a id b ty : same_maps a (OnDataReady a id b ty).
Proof. unfold OnDataReady. by destruct (zfind _ _). Qed.

Lemma OnBytes_wf g a id data :
  adapter_wf a -> header_wf g -> Forall is_u8 data ->
  exists a', Adapter_OnBytes g a id (Some data) (len data) = Some a' /\ adapter_wf a'.
Proof.
  intros Ha Hg Hd. pose proof (len_nonneg data).
  destruct (zfind id (sessions_ a)) as [s|] eqn:Hs.
  2: { exists a. split; [|done]. unfold Adapter_OnBytes. by rewrite Hs; case_match. }
  destruct (Z.eq_dec (len data) 0) as [E|E].
  { exists a. split; [|done]. unfold Adapter_OnBytes. by rewrite E. }
  destruct (Z.lt_ge_cases (len data) DSCHED_MAX_BUFFER_SIZE).
  - rewrite (OnBytes_session g a id s) by (done || lia).
    pose proof Ha as (_ & _ & Hok & _). pose proof (zall_find _ _ _ _ Hok Hs) as (Hid & Href & x & Hx).
    destruct (PackRecvData_refines g s x data) as (s' & ready & -> & Hx' & _ & Hi & _ & Hr & _); [done..|].
    assert (adapter_wf (set_sessions a (zset id s' (sessions_ a)))) as Hw.
    { apply wf_zset_session; [done|]. split; [congruence|]. split; [lia|]. by eexists. }
    cbv zeta. destruct ready as [[b ty]|]; eexists; (split; [done|]); [|done].
    eapply same_maps_wf; [apply OnDataReady_maps|exact Hw].
  - exists a. split; [|done]. unfold Adapter_OnBytes. case_match; [done|]. rewrite Hs.
    by rewrite buffer_new_refused by lia.
Qed.

(** ** Reachable adapters *)

(** One call of a public method, with whatever its environment answers. *)
Inductive adapter_step (a : Adapter) : Adapter -> Prop :=
  | step_init env : adapter_step a (snd (InitChannel env a))
  | step_release env : adapter_step a (snd (ReleaseChannel env a))
  | step_connect env peer sid ty : adapter_step a (snd (ConnectDevice env a peer sid ty))
  | step_disconnect env peer : adapter_step a (DisconnectDevice env a peer)
  | step_bind env id peer : adapter_step a (OnBind env a id peer)
  | step_shutdown env id self : adapter_step a (OnShutdown env a id self)
  | step_token t : adapter_step a (SetCallingTokenId a t)
  | step_register ty l : adapter_step a (RegisterListener a ty l)
  | step_unregister ty l : adapter_step a (UnregisterListener a ty l)
  | step_bytes g id data a' : header_wf g -> Forall is_u8 data ->
      Adapter_OnBytes g a id (Some data) (len data) = Some a' -> adapter_step a a'.

Lemma adapter_step_wf a a' : adapter_step a a' -> adapter_wf a -> adapter_wf a'.
Proof.
  intros H Ha. destruct H as [| | | | | | | | |g id data a' Hg Hd E].
  - by apply InitChannel_wf.
  - by apply ReleaseChannel_wf.
  - by apply ConnectDevice_wf.
  - by apply DisconnectDevice_wf.
  - by apply CreateSessionRecord_wf.
  - by apply OnShutdown_wf.
  - exact Ha.
  - by apply RegisterListener_wf.
  - by apply UnregisterListener_wf.
  - destruct (OnBytes_wf g a id data Ha Hg Hd) as (a'' & E' & Hw). congruence.
Qed.

Lemma adapter_reachable_wf a : rtc adapter_step Adapter_new a -> adapter_wf a.
Proof.
  intros H. assert (adapter_wf Adapter_new) as H0 by (repeat constructor).
  induction H as [|x y z Hxy _ IH]; [done|]. eauto using adapter_step_wf.
Qed.

(** ** Properties: the invariant *)

(** In every state that calls of the public methods can lead to,
    each session is stored under its own id with at least one user and a
    consistent message under assembly, and no type has an empty or a repeating
    list of listeners; bytes of whatever content from softbus are handled
    without an access outside a buffer. *)
Theorem adapter_invariant a :
  rtc adapter_step Adapter_new a ->
  adapter_wf a /\
  forall g id data, header_wf g -> Forall is_u8 data ->
    exists a', Adapter_OnBytes g a id (Some data) (len data) = Some a' /\ adapter_wf a'.
Proof. intros H. apply adapter_reachable_wf in H as Ha. split; [done|]. intros. by apply OnBytes_wf. Qed.

Definition env0 : AdapterEnv := mkAdapterEnv true false true 7 0 0 0 0 (Some "local"%string).

(** Connected to one peer, with two listeners of the continuation service. *)
Definition adapter1 : Adapter :=
  RegisterListener (RegisterListener
    (snd (ConnectDevice env0 Adapter_new "peer" 0 SERVICE_TYPE_CONTINUE)) 0 (Some 11)) 0 (Some 12).

Lemma adapter1_reachable : rtc adapter_step Adapter_new adapter1.
Proof.
  eapply rtc_l; [apply (step_connect _ env0 "peer" 0 SERVICE_TYPE_CONTINUE)|].
  eapply rtc_l; [apply (step_register _ 0 (Some 11))|]. apply rtc_once, (step_register _ 0 (Some 12)).
Qed.

Lemma adapter_invariant_witness :
  map fst (sessions_ adapter1) = [7] /\ listeners_ adapter1 = [(0, [11; 12])] /\ adapter_wf adapter1.
Proof. split; [reflexivity|]. split; [reflexivity|]. apply (adapter_invariant adapter1 adapter1_reachable). Defined.

(** ** Properties: connecting and disconnecting *)

Lemma find_peer_OnConnect env a peer k s sid ty :
  adapter_wf a -> find_peer peer a = Some (k, s) ->
  let a' := snd (ConnectDevice env a peer sid ty) in
  find_peer peer a' = Some (k, OnConnect s) /\
  sessions_ a' = zset k (OnConnect s) (sessions_ a) /\ listeners_ a' = listeners_ a.
Proof.
  intros Ha Hf. pose proof (find_peer_ok _ _ _ _ Ha Hf) as (_ & Hp & _). destruct Ha as (Hs & _).
  unfold ConnectDevice. rewrite Hf. cbn [snd]. cbv zeta.
  set (a1 := set_sessions a _).
  assert (find_peer peer a1 = Some (k, OnConnect s)) as Hf1.
  { apply (zfirst_zset _ k s); try done. by apply String.eqb_eq. }
  destruct (DMSFWK_ALL_CONNECT_MGR env); [|done].
  destruct (NotifyConnectDecision_maps env a1 peer ty) as [E1 E2].
  unfold find_peer. by rewrite E1, E2.
Qed.

Lemma DisconnectDevice_shared env a peer k s :
  adapter_wf a -> find_peer peer a = Some (k, s) -> k <> 0 -> 1 < refCount_ s ->
  DisconnectDevice env a peer
  = set_sessions a (zset k (set_refCount s (refCount_ s - 1)) (sessions_ a)).
Proof.
  intros Ha Hf Hk Hr. unfold DisconnectDevice. rewrite Hf. zb_false (k =? 0).
  unfold OnDisconnect. cbn [refCount_ set_refCount]. by zb_false (refCount_ s - 1 <=? 0).
Qed.

(** [n] users come, then [n] users leave. *)
Fixpoint connects (n : nat) (env : AdapterEnv) (peer : string) (ty : Z) (a : Adapter) : Adapter :=
  match n with O => a | S n' => connects n' env peer ty (snd (ConnectDevice env a peer 0 ty)) end.
Fixpoint disconnects (n : nat) (env : AdapterEnv) (peer : string) (a : Adapter) : Adapter :=
  match n with O => a | S n' => DisconnectDevice env (disconnects n' env peer a) peer end.

Lemma connects_sessions n env peer ty : forall a k s,
  adapter_wf a -> find_peer peer a = Some (k, s) ->
  let a' := connects n env peer ty a in
  adapter_wf a' /\ find_peer peer a' = Some (k, set_refCount s (refCount_ s + Z.of_nat n)) /\
  sessions_ a' = zset k (set_refCount s (refCount_ s + Z.of_nat n)) (sessions_ a) /\
  listeners_ a' = listeners_ a.
Proof.
  induction n as [|n IH]; intros a k s Ha Hf; cbn [connects].
  - assert (set_refCount s (refCount_ s + Z.of_nat 0) = s) as -> by (rewrite Z.add_0_r; by destruct s).
    pose proof (find_peer_ok _ _ _ _ Ha Hf) as (Hk & _). pose proof Ha as (Hs & _).
    by rewrite zset_id.
  - pose proof (find_peer_OnConnect env a peer k s 0 ty Ha Hf) as (Hf' & Es & El).
    destruct (IH _ k (OnConnect s) (ConnectDevice_wf env a peer 0 ty Ha) Hf') as (Hw & Hp & E1 & E2).
    rewrite E1, E2, Es, El, Hp, zset_zset. unfold OnConnect. cbn [refCount_ set_refCount].
    replace (refCount_ s + 1 + Z.of_nat n) with (refCount_ s + Z.of_nat (S n)) by lia. done.
Qed.

Lemma disconnects_sessions n env peer a k s :
  adapter_wf a -> find_peer peer a = Some (k, s) -> k <> 0 -> Z.of_nat n < refCount_ s ->
  let a' := disconnects n env peer a in
  adapter_wf a' /\ find_peer peer a' = Some (k, set_refCount s (refCount_ s - Z.of_nat n)) /\
  a' = set_sessions a (zset k (set_refCount s (refCount_ s - Z.of_nat n)) (sessions_ a)).
Proof.
  intros Ha Hf Hk. pose proof (find_peer_ok _ _ _ _ Ha Hf) as (Hz & Hp & _). pose proof Ha as (Hs & _).
  induction n as [|n IH]; intros Hn; cbn [disconnects].
  - assert (set_refCount s (refCount_ s - Z.of_nat 0) = s) as -> by (rewrite Z.sub_0_r; by destruct s).
    rewrite zset_id by done. by destruct a.
  - destruct IH as (Hw & Hf' & E); [lia|]. split; [by apply DisconnectDevice_wf|].
    rewrite (DisconnectDevice_shared env _ peer k _ Hw Hf' Hk) by (cbn [refCount_ set_refCount]; lia).
    rewrite E. cbn [sessions_ set_sessions refCount_ set_refCount]. rewrite zset_zset.
    replace (refCount_ s - Z.of_nat n - 1) with (refCount_ s - Z.of_nat (S n)) by lia.
    split; [|done]. apply (zfirst_zset _ k s); try done. by apply String.eqb_eq.
Qed.

(** Connecting to a peer that already has a session shares it, and
    reference counting is balanced: after [n] more users have connected and
    disconnected again the sessions and the listeners are what they were. *)
Theorem connect_disconnect_balanced n env ty a peer k s :
  adapter_wf a -> find_peer peer a = Some (k, s) -> k <> 0 ->
  let a' := disconnects n env peer (connects n env peer ty a) in
  sessions_ a' = sessions_ a /\ listeners_ a' = listeners_ a.
Proof.
  intros Ha Hf Hk. pose proof (find_peer_ok _ _ _ _ Ha Hf) as (Hz & _ & _ & Hr & _).
  pose proof (connects_sessions n env peer ty a k s Ha Hf) as (Hw & Hf' & Es & El).
  destruct (disconnects_sessions n env peer _ k _ Hw Hf' Hk) as (_ & _ & E); [cbn; lia|].
  cbv zeta. rewrite E. cbn [sessions_ listeners_ set_sessions refCount_ set_refCount]. split; [|done].
  rewrite Es, zset_zset. replace (refCount_ s + Z.of_nat n - Z.of_nat n) with (refCount_ s) by lia.
  destruct Ha as (Hs & _). rewrite <- (zset_id k s (sessions_ a)) at 2 by done. by destruct s.
Qed.

Lemma connect_disconnect_balanced_witness :
  sessions_ (disconnects 3 env0 "peer" (connects 3 env0 "peer" 0 adapter1)) = sessions_ adapter1.
Proof.
  refine (proj1 (connect_disconnect_balanced 3 env0 0 adapter1 "peer" 7 _ _ _ _)).
  - apply adapter_reachable_wf, adapter1_reachable.
  - reflexivity.
  - discriminate.
Defined.

(** The calls that close a socket. *)
Definition shutdown_calls (env : AdapterEnv) (peer : string) (id : Z) : list AdapterCall :=
  CShutdown id :: if DMSFWK_ALL_CONNECT_MGR env then [CPublish peer SCM_IDLE] else [].

Lemma ShutdownSession_calls env a peer id :
  calls_ (ShutdownSession env a peer id) = calls_ a ++ shutdown_calls env peer id.
Proof.
  unfold ShutdownSession, publish, shutdown_calls. destruct (DMSFWK_ALL_CONNECT_MGR env); cbn; [|done].
  by rewrite <- app_assoc.
Qed.

Definition all_listeners (a : Adapter) : list Z := concat (map snd (listeners_ a)).

(** When the last user of a session disconnects, its socket is shut
    down exactly once, the record is removed while every other session stays, and
    every registered listener is told once that the program itself closed it. *)
Theorem last_disconnect_closes env a peer k s :
  adapter_wf a -> find_peer peer a = Some (k, s) -> k <> 0 -> refCount_ s = 1 ->
  let a' := DisconnectDevice env a peer in
  (forall id, zfind id (sessions_ a') = if id =? k then None else zfind id (sessions_ a)) /\
  calls_ a' = calls_ a ++ shutdown_calls env peer k
              ++ map (fun l => CListenerShutdown l k true) (all_listeners a).
Proof.
  intros Ha Hf Hk Hr. destruct Ha as (Hs & _). unfold DisconnectDevice. rewrite Hf. zb_false (k =? 0).
  unfold OnDisconnect. cbn [refCount_ set_refCount]. zb_true (refCount_ s - 1 <=? 0). cbv zeta.
  set (a1 := set_sessions a _). destruct (ShutdownSession_maps env a1 peer k) as [E1 E2]. split.
  - intros id. cbn [sessions_ set_sessions NotifyListenersSessionShutdown emit]. rewrite E1.
    cbn [sessions_ set_sessions a1]. rewrite zerase_zset by done. by apply zfind_zerase.
  - unfold NotifyListenersSessionShutdown, all_listeners. cbn [calls_ listeners_ emit set_sessions].
    by rewrite ShutdownSession_calls, E2, <- app_assoc.
Qed.

Lemma last_disconnect_closes_witness :
  sessions_ (DisconnectDevice env0 adapter1 "peer") = [] /\
  calls_ (DisconnectDevice env0 adapter1 "peer") = calls_ adapter1 ++
    [CShutdown 7; CPublish "peer" SCM_IDLE; CListenerShutdown 11 7 true; CListenerShutdown 12 7 true].
Proof.
  split; [reflexivity|].
  refine (proj2 (last_disconnect_closes env0 adapter1 "peer" 7 (Session_new 7 "local" "peer" false) _ _ _ _)).
  - apply adapter_reachable_wf, adapter1_reachable.
  - reflexivity.
  - discriminate.
  - reflexivity.
Defined.

(** ** Properties: a new peer *)

(** The elements of a concrete list of calls. *)
Ltac in_list H := cbn [In app] in H; repeat (destruct H as [H|H]; [try done|]); try done.

(** Every socket that was bound is shut down. *)
Definition closed (cs : list AdapterCall) : Prop := forall id, In (CBind id) cs -> In (CShutdown id) cs.
Definition only_binds (i : Z) (cs : list AdapterCall) : Prop := forall id, In (CBind id) cs -> id = i.

Lemma closed_by env peer id cs : only_binds id cs -> closed (cs ++ shutdown_calls env peer id).
Proof.
  intros H i Hi. apply in_app_iff in Hi as [Hi|Hi]; apply in_or_app.
  - apply H in Hi as ->. right. by left.
  - unfold shutdown_calls in Hi. destruct Hi as [|Hi]; [done|].
    by destruct (DMSFWK_ALL_CONNECT_MGR env); cbn in Hi; [destruct Hi|].
Qed.

Lemma shutdown_calls_no_bind env peer id i : only_binds i (shutdown_calls env peer id).
Proof.
  intros j Hi. unfold shutdown_calls in Hi. destruct Hi as [|Hi]; [done|].
  by destruct (DMSFWK_ALL_CONNECT_MGR env); cbn in Hi; [destruct Hi|].
Qed.

Lemma only_binds_app i cs cs' : only_binds i cs -> only_binds i cs' -> only_binds i (cs ++ cs').
Proof. intros H H' j Hj. apply in_app_iff in Hj as [|]; auto. Qed.

(** A failed attempt: nothing is recorded, and what was opened is closed. *)
Definition undone (a a' : Adapter) : Prop :=
  sessions_ a' = sessions_ a /\ exists cs, calls_ a' = calls_ a ++ cs /\ closed cs.

Lemma undone_after_calls a a1 a' cs :
  same_maps a a1 -> calls_ a1 = calls_ a ++ cs -> (forall id, ~ In (CBind id) cs) -> undone a1 a' -> undone a a'.
Proof.
  intros [E1 _] Ec Hn [Es (cs' & Ec' & Hc)]. split; [congruence|]. exists (cs ++ cs').
  split; [by rewrite Ec', Ec, app_assoc|]. intros id Hi. apply in_or_app.
  apply in_app_iff in Hi as [Hi|Hi]; [by apply Hn in Hi|right; auto].
Qed.

(** A session with one user recorded under the id [sid]. *)
Definition recorded (env : AdapterEnv) (peer : string) (sid : Z) (a a' : Adapter) : Prop :=
  exists local, LocalDeviceId env = Some local /\
    sessions_ a' = zset sid (Session_new sid local peer false) (sessions_ a).

Lemma ShutdownSession_undone env a a1 peer id cs :
  same_maps a a1 -> calls_ a1 = calls_ a ++ cs -> only_binds id cs ->
  listeners_ (ShutdownSession env a1 peer id) = listeners_ a /\ undone a (ShutdownSession env a1 peer id).
Proof.
  intros [E1 E2] Ec Hb. destruct (ShutdownSession_maps env a1 peer id) as [G1 G2].
  split; [congruence|]. split; [congruence|]. exists (cs ++ shutdown_calls env peer id).
  split; [by rewrite ShutdownSession_calls, Ec, app_assoc|by apply closed_by].
Qed.

Lemma AddNewPeerSession_result env a peer ty :
  let '(ret, sid, a') := AddNewPeerSession env a peer ty in
  listeners_ a' = listeners_ a /\
  (ret = ERR_OK /\ 0 < sid /\ recorded env peer sid a a' \/ ret <> ERR_OK /\ sid <= 0 /\ undone a a').
Proof.
  unfold AddNewPeerSession. destruct (Z.leb_spec (Socket env) 0).
  { destruct (publish_maps env (emit a [CSocket peer]) peer SCM_IDLE) as [E1 E2]. split; [done|]. right.
    split; [done|]. split; [done|]. split; [done|]. unfold publish.
    destruct (DMSFWK_ALL_CONNECT_MGR env); cbn [calls_ emit]; rewrite <- ?app_assoc; eexists; (split; [done|]);
      intros id Hi; in_list Hi. }
  set (a1 := emit _ [CBind _]). set (cs := [CSocket peer; CSetFirstCallerTokenID (callingTokenId_ a); CBind (Socket env)]).
  assert (same_maps a a1) as Hm by done.
  assert (calls_ a1 = calls_ a ++ cs) as Ec by (cbn; by rewrite <- !app_assoc).
  assert (only_binds (Socket env) cs) as Hb.
  { intros id Hi. in_list Hi. congruence. }
  clearbody a1 cs. destruct (Z.eqb_spec (Bind env) ERR_OK) as [Eb|Eb]; cbn [negb].
  - unfold CreateSessionRecord. destruct (LocalDeviceId env) as [local|] eqn:El.
    + destruct Hm as [E1 E2]. unfold recorded.
      destruct (_ && _); change (negb (ERR_OK =? ERR_OK)) with false; cbv iota;
        cbn [listeners_ sessions_ emit set_sessions]; rewrite E1, E2; (split; [done|]); left; eauto.
    + change (negb (_ =? ERR_OK)) with true. cbv iota.
      pose proof (ShutdownSession_maps env a1 peer (Socket env)) as [F1 F2]. destruct Hm as [E1 E2].
      destruct (ShutdownSession_undone env a (ShutdownSession env a1 peer (Socket env)) peer (Socket env)
        (cs ++ shutdown_calls env peer (Socket env))) as [Hl Hu].
      * split; congruence.
      * by rewrite ShutdownSession_calls, Ec, app_assoc.
      * apply only_binds_app; [done|apply shutdown_calls_no_bind].
      * split; [done|]. right. split; [done|]. split; [done|exact Hu].
  - rewrite (proj2 (Z.eqb_neq _ _) Eb). cbn [negb].
    destruct (ShutdownSession_undone env a a1 peer (Socket env) cs Hm Ec Hb) as [Hl Hu].
    split; [done|]. right. split; [done|]. split; [done|exact Hu].
Qed.

Lemma DecisionByAllConnect_calls env a peer ty :
  exists cs, calls_ (snd (DecisionByAllConnect env a peer ty)) = calls_ a ++ cs /\
    forall id, ~ In (CBind id) cs.
Proof.
  unfold DecisionByAllConnect, NotifyConnectDecision.
  repeat case_match; cbn [snd calls_ emit]; rewrite <- ?app_assoc; try (eexists; split; [done|]);
    try (exists []; rewrite app_nil_r; split; [done|]); intros id Hi; in_list Hi.
Qed.

(** Connecting to a peer without a session either succeeds, and
    then exactly one session with one user is recorded under the id that is
    returned, or fails with a non-zero result, and then the sessions are
    unchanged and every socket bound on the way has been shut down again. *)
Theorem connect_new_peer env a peer sid0 ty :
  find_peer peer a = None ->
  let '(ret, sid, a') := ConnectDevice env a peer sid0 ty in
  listeners_ a' = listeners_ a /\
  (ret = ERR_OK /\ 0 < sid /\ recorded env peer sid a a' \/ ret <> ERR_OK /\ undone a a').
Proof.
  intros Hf. unfold ConnectDevice. rewrite Hf. destruct (IsNeedAllConnect env a ty).
  - destruct (DecisionByAllConnect_calls env a peer ty) as (cs & Ec & Hn).
    pose proof (DecisionByAllConnect_maps env a peer ty) as Hm.
    destruct (DecisionByAllConnect env a peer ty) as [ret a1]. cbn [snd] in *.
    destruct (Z.eqb_spec ret ERR_OK); cbn [negb].
    + pose proof (AddNewPeerSession_result env a1 peer ty) as H.
      destruct (AddNewPeerSession env a1 peer ty) as [[ret' sid] a']. destruct H as [Hl H], Hm as [E1 E2].
      split; [congruence|]. unfold recorded in *. rewrite E1 in H. destruct H as [H|(? & _ & Hu)]; [by left|right].
      split; [done|]. by apply (undone_after_calls a a1 a' cs).
    + destruct Hm as [E1 E2]. split; [done|]. right. split; [done|]. split; [done|]. exists cs.
      split; [done|]. by intros id Hi%Hn.
  - pose proof (AddNewPeerSession_result env a peer ty) as H.
    destruct (AddNewPeerSession env a peer ty) as [[ret' sid] a']. tauto.
Qed.

Lemma connect_new_peer_witness :
  find_peer "other" adapter1 = None /\
  let '(ret, _, a') := ConnectDevice (mkAdapterEnv true false true 9 0 5 0 0 None) adapter1 "other" 0 0 in
  ret = 5 /\ (ret = ERR_OK \/ undone adapter1 a').
Proof.
  split; [reflexivity|].
  pose proof (connect_new_peer (mkAdapterEnv true false true 9 0 5 0 0 None) adapter1 "other" 0 0 eq_refl) as H.
  destruct (ConnectDevice _ _ _ _ _) as [[ret sid] a'] eqn:E. vm_compute in E.
  injection E as <- <- <-. split; [reflexivity|]. destruct H as [_ [[H _]|[_ H]]]; [by left|by right].
Defined.

(** ** Properties: listeners *)

(** The listeners of a service type. *)
Definition listeners_of (a : Adapter) (ty : Z) : list Z := default [] (zfind ty (listeners_ a)).

Lemma remove_first_snoc l ls : ~ In l ls -> remove_first l (ls ++ [l]) = Some ls.
Proof.
  induction ls as [|x ls IH]; cbn; intros Hn; [by rewrite Z.eqb_refl|].
  destruct (Z.eqb_spec x l); [subst; tauto|]. rewrite IH by tauto. done.
Qed.

Lemma zerase_zset_new {A} k (v : A) (m : zmap A) : zsorted m -> zfind k m = None -> zerase k (zset k v m) = m.
Proof.
  intros Hs Hf. rewrite zerase_zset by done. induction m as [|[k0 v0] m IH]; [done|].
  cbn in *. apply zsorted_cons in Hs as [Hs _]. destruct (k =? k0); [done|]. by rewrite IH.
Qed.

(** Registering a listener makes it receive the messages of its
    type, once per message however often it registers, after the listeners that
    were there; unregistering it restores the listeners as they were. *)
Theorem register_unregister a ty l :
  adapter_wf a -> ~ In l (listeners_of a ty) ->
  let a1 := RegisterListener a ty (Some l) in
  listeners_of a1 ty = listeners_of a ty ++ [l] /\
  RegisterListener a1 ty (Some l) = a1 /\
  UnregisterListener a1 ty (Some l) = a /\
  forall id buf dt, i32 dt = ty ->
    calls_ (OnDataReady a1 id buf dt)
    = calls_ a ++ map (fun x => CListenerData x id buf) (listeners_of a ty ++ [l]).
Proof.
  intros (_ & Hs & _ & Hl) Hn. unfold listeners_of, UnregisterListener, OnDataReady in *. cbv zeta.
  cbn [RegisterListener]. destruct (zfind ty (listeners_ a)) as [ls|] eqn:E; cbn in Hn |- *.
  - destruct (existsb (Z.eqb l) ls) eqn:Ex; [by apply existsb_eqb in Ex|].
    cbn [listeners_ set_listeners calls_]. rewrite !zfind_zset, Z.eqb_refl.
    assert (existsb (Z.eqb l) (ls ++ [l]) = true) as -> by (apply existsb_eqb, in_or_app; right; by left).
    split_and!; try done.
    + rewrite remove_first_snoc by done. destruct (zall_find _ _ _ _ Hl E) as [Hne _].
      destruct ls as [|x ls]; [done|]. unfold set_listeners. cbn. rewrite zset_zset, zset_id by done. by destruct a.
    + intros id buf dt ->. rewrite zfind_zset, Z.eqb_refl. done.
  - cbn [listeners_ set_listeners calls_]. rewrite !zfind_zset, Z.eqb_refl. cbn. rewrite Z.eqb_refl. cbn.
    split_and!; try done.
    + unfold set_listeners. cbn. rewrite zerase_zset_new by done. by destruct a.
    + intros id buf dt ->. by rewrite zfind_zset, Z.eqb_refl.
Qed.

Lemma register_unregister_witness :
  UnregisterListener (RegisterListener adapter1 1 (Some 11)) 1 (Some 11) = adapter1 /\
  listeners_of (RegisterListener adapter1 0 (Some 13)) 0 = [11; 12; 13].
Proof.
  assert (adapter_wf adapter1) as H by apply adapter_reachable_wf, adapter1_reachable. split.
  - refine (proj1 (proj2 (proj2 (register_unregister adapter1 1 11 H _)))). intros [].
  - refine (proj1 (register_unregister adapter1 0 13 H _)). intros [|[|[]]]; discriminate.
Defined.

(** ** Properties: a message from device to device *)

(** The packets of a session arriving one after the other. *)
Fixpoint OnBytes_all (g : SessionDataHeader) (a : Adapter) (id : Z) (pkts : list (list Z)) : option Adapter :=
  match pkts with
  | [] => Some a
  | p :: ps => match Adapter_OnBytes g a id (Some p) (len p) with
               | Some a' => OnBytes_all g a' id ps
               | None => None
               end
  end.

Definition deliver_all (a : Adapter) (id : Z) (out : list (DataBuffer * Z)) : Adapter :=
  fold_left (fun a m => OnDataReady a id (fst m) (snd m)) out a.

Lemma OnDataReady_set_sessions a m id b t :
  OnDataReady (set_sessions a m) id b t = set_sessions (OnDataReady a id b t) m.
Proof. unfold OnDataReady. cbn. by destruct (zfind _ _). Qed.

Lemma deliver_all_set_sessions a m id out :
  deliver_all (set_sessions a m) id out = set_sessions (deliver_all a id out) m.
Proof. revert a. unfold deliver_all. induction out as [|[b t] out IH]; intros a; cbn [fold_left]; [done|]. by rewrite OnDataReady_set_sessions, IH. Qed.

Lemma set_sessions_twice a m m' : set_sessions (set_sessions a m) m' = set_sessions a m'.
Proof. done. Qed.

(** The adapter forwards the packets of a session to it, and its messages to
    the listeners. *)
Lemma OnBytes_all_session g id : forall pkts a s s' out,
  zsorted (sessions_ a) -> zfind id (sessions_ a) = Some s -> Forall packet_size pkts ->
  receive_all g s pkts = Some (s', out) ->
  OnBytes_all g a id pkts = Some (set_sessions (deliver_all a id out) (zset id s' (sessions_ a))).
Proof.
  induction pkts as [|p ps IH]; intros a s s' out Hs Hf Hp Hr; cbn [receive_all OnBytes_all] in *.
  - simplify_eq. cbn. rewrite zset_id by done. by destruct a.
  - apply Forall_cons in Hp as [Hp Hps]. rewrite (OnBytes_session g a id s p Hf Hp).
    destruct (PackRecvData g s (buffer_of p)) as [s1 ready|]; [|done].
    destruct (receive_all g s1 ps) as [[s2 out2]|] eqn:E; [|done]. simplify_eq. cbv zeta.
    assert (forall a1, sessions_ a1 = zset id s1 (sessions_ a) ->
      OnBytes_all g a1 id ps = Some (set_sessions (deliver_all a1 id out2) (zset id s' (sessions_ a)))) as Hn.
    { intros a1 E1. rewrite (IH a1 s1 s' out2); rewrite ?E1; auto with dms; [by rewrite zset_zset|].
      by rewrite zfind_zset, Z.eqb_refl. }
    destruct ready as [[b t]|].
    + rewrite Hn by by rewrite OnDataReady_set_sessions. cbn [option_list app].
      by rewrite OnDataReady_set_sessions, deliver_all_set_sessions, set_sessions_twice.
    + rewrite Hn by done. cbn [option_list app]. by rewrite deliver_all_set_sessions, set_sessions_twice.
Qed.


