(* ===== verification/CollabHeader.v ===== *)
(** The packet header of the collaboration channel:
    services/dtbcollabmgr/src/channel_manager/session_data_header.cpp.
    Eight items, 57 bytes; the value sizes are those of the fields. *)

From S2P Require Import Prelude DataBuffer SchedErrors Tlv.

(** ** Data *)

Definition TLV_TYPE_VERSION : Z := 1001.
Definition TLV_TYPE_FRAG_FLAG : Z := 1002.
Definition TLV_TYPE_DATA_TYPE : Z := 1003.
Definition TLV_TYPE_SEQ_NUM : Z := 1004.
Definition TLV_TYPE_TOTAL_LEN : Z := 1005.
Definition TLV_TYPE_SUB_SEQ : Z := 1006.
Definition TLV_TYPE_PAYLOAD_LEN : Z := 1007.
Definition TLV_TYPE_PACKET_LEN : Z := 1008.

Definition PROTOCOL_VERSION : Z := 1.
Definition HEADER_LEN : Z := 2 * 2 * 8 + 2 * 2 + 4 * 5 + 1 * 1.
Definition BASE_HEADER_LEN : Z := 2 * 2 * 8 + 2 * 2 + 4 * 5 + 1 * 1.
Definition BINARY_DATA_MAX_TOTAL_LEN : Z := 100 * 1024 * 1024.
Definition BINARY_PAYLOAD_MAX_LEN : Z := 4 * 1024 * 1024.
Definition HEADER_LEN_VERSION_MAP : list (Z * Z) := [(PROTOCOL_VERSION, HEADER_LEN)].

(** Result codes of the collaboration service
    (common/include/dtbcollabmgr_log.h). *)
Definition DMS_SERVICE_ERR_OFFSET : Z := 29425664.
Definition WRITE_TLV_ITEM_TO_BUFFER_FAILED : Z := DMS_SERVICE_ERR_OFFSET + 23.
Definition READ_TLV_ITEM_FROM_BUFFER_FAILED : Z := DMS_SERVICE_ERR_OFFSET + 24.

(** [class SessionDataHeader] of this component. *)
Record DataHeader := mkDataHeader {
  version_ : Z;
  fragFlag_ : Z;
  dataType_ : Z;
  seqNum_ : Z;
  totalLen_ : Z;
  packetLen_ : Z;
  payloadLen_ : Z;
  subSeq_ : Z;
}.

(** ** Writer *)

(** The four bytes of type and length are stored without a check; [None]: one of
    the stores or the copy leaves the array. *)
Definition WriteTlvItemToBuffer (t : TlvItem) (buffer : list Z) (pos bufLen : Z) : option (Z * list Z) :=
  if len buffer <? pos + 4 then None
  else
    let b := splice buffer pos
               [u8 (Z.shiftr (type t) 8); u8 (Z.land (type t) 255);
                u8 (Z.shiftr (tlen t) 8); u8 (Z.land (tlen t) 255)] in
    match memcpy_s (Some b) (pos + 4) (u64 (bufLen - 4)) (Some (le_bytes 4 (value t))) 0 (tlen t) with
    | MemOk b' => Some (ERR_OK, b')
    | MemErr => Some (WRITE_TLV_ITEM_TO_BUFFER_FAILED, b)
    | MemUB => None
    end.

(** The items in the order in which [Serialize] writes them. *)
Definition header_items (h : DataHeader) : list TlvItem :=
  [mkTlv TLV_TYPE_VERSION 2 (version_ h);
   mkTlv TLV_TYPE_FRAG_FLAG 1 (fragFlag_ h);
   mkTlv TLV_TYPE_DATA_TYPE 4 (dataType_ h);
   mkTlv TLV_TYPE_SEQ_NUM 4 (seqNum_ h);
   mkTlv TLV_TYPE_TOTAL_LEN 4 (totalLen_ h);
   mkTlv TLV_TYPE_PACKET_LEN 4 (packetLen_ h);
   mkTlv TLV_TYPE_PAYLOAD_LEN 4 (payloadLen_ h);
   mkTlv TLV_TYPE_SUB_SEQ 2 (subSeq_ h)].

(** [WriteVersion] and its siblings: the result of the write is not looked at;
    the position moves by the size of the item. *)
Fixpoint write_items (ts : list TlvItem) (buffer : list Z) (pos bufLen : Z) : option (list Z) :=
  match ts with
  | [] => Some buffer
  | t :: ts' =>
      match WriteTlvItemToBuffer t buffer pos bufLen with
      | None => None
      | Some (_, b) => write_items ts' b (pos + (4 + tlen t)) (u32 (bufLen - (4 + tlen t)))
      end
  end.

Definition Serialize (h : DataHeader) : option DataBuffer :=
  let buffer := AVTransDataBuffer_new HEADER_LEN in
  match Data buffer with
  | None => None
  | Some d =>
      match write_items (header_items h) d 0 HEADER_LEN with
      | None => None
      | Some d' => Some (mkDataBuffer (capacity_ buffer) (rangeOffset_ buffer) (rangeLength_ buffer) (Some d'))
      end
  end.

(** ** Reader *)

(** The [Read..FromBuffer] functions: a failed copy has one result code. *)
Definition read_header_field (size : nat) (old : Z) (ptr : list Z) (n : Z) : read_result Z :=
  match read_field size old ptr n with
  | ReadErr _ => ReadErr READ_TLV_ITEM_FROM_BUFFER_FAILED
  | r => r
  end.

(** The [switch] of [ReadTlvItemFromBuffer]. *)
Definition read_item (h : DataHeader) (ty : Z) (ptr : list Z) (n : Z) : read_result DataHeader :=
  let 'mkDataHeader ve ff dt sn tl pk pl ss := h in
  if ty =? TLV_TYPE_VERSION then
    read_map (fun v => mkDataHeader v ff dt sn tl pk pl ss) (read_header_field 2 ve ptr n)
  else if ty =? TLV_TYPE_FRAG_FLAG then
    read_map (fun v => mkDataHeader ve v dt sn tl pk pl ss) (read_header_field 1 ff ptr n)
  else if ty =? TLV_TYPE_DATA_TYPE then
    read_map (fun v => mkDataHeader ve ff v sn tl pk pl ss) (read_header_field 4 dt ptr n)
  else if ty =? TLV_TYPE_SEQ_NUM then
    read_map (fun v => mkDataHeader ve ff dt v tl pk pl ss) (read_header_field 4 sn ptr n)
  else if ty =? TLV_TYPE_TOTAL_LEN then
    read_map (fun v => mkDataHeader ve ff dt sn v pk pl ss) (read_header_field 4 tl ptr n)
  else if ty =? TLV_TYPE_SUB_SEQ then
    read_map (fun v => mkDataHeader ve ff dt sn tl pk pl v) (read_header_field 2 ss ptr n)
  else if ty =? TLV_TYPE_PAYLOAD_LEN then
    read_map (fun v => mkDataHeader ve ff dt sn tl pk v ss) (read_header_field 4 pl ptr n)
  else if ty =? TLV_TYPE_PACKET_LEN then
    read_map (fun v => mkDataHeader ve ff dt sn tl v pl ss) (read_header_field 4 pk ptr n)
  else ReadErr READ_TLV_ITEM_FROM_BUFFER_FAILED.

(** [ptr] is the packet from [header] on, [left] is [end - header]; the header
    and [tlvItem.len]. *)
Definition ReadTlvItemFromBuffer (ptr : list Z) (h : DataHeader) (left : Z) : read_result (DataHeader * Z) :=
  match U16Get ptr, U16Get (drop 2 ptr) with
  | Some ty, Some n =>
      if left <? 4 + n then ReadErr READ_TLV_ITEM_FROM_BUFFER_FAILED
      else read_map (fun h' => (h', n)) (read_item h ty (drop 4 ptr) n)
  | _, _ => ReadUB
  end.

Inductive parse_result :=
  | Parsed (h : DataHeader)
  | Nullopt
  | ParseUB
  | ParseOutOfFuel.

(** The loop of [Deserialize]; every item takes at least four bytes. *)
Fixpoint read_loop (fuel : nat) (ptr : list Z) (h : DataHeader) (current : Z) : parse_result :=
  match fuel with
  | O => ParseOutOfFuel
  | S fuel' =>
      if current + 4 <? BASE_HEADER_LEN then
        match ReadTlvItemFromBuffer (drop (Z.to_nat current) ptr) h (BASE_HEADER_LEN - current) with
        | ReadOk (h', n) => read_loop fuel' ptr h' (current + 4 + n)
        | ReadErr _ => Nullopt
        | ReadUB => ParseUB
        end
      else Parsed h
  end.

(** The header length of a version; an unknown one has that of the highest. *)
Fixpoint header_len (m : list (Z * Z)) (version : Z) (highest : Z) : Z :=
  match m with
  | [] => highest
  | (v, l) :: m' => if v =? version then l else header_len m' version l
  end.

(** The checks after the loop. *)
Definition check_header (h : DataHeader) : parse_result :=
  if (BINARY_PAYLOAD_MAX_LEN <? payloadLen_ h) || (BINARY_DATA_MAX_TOTAL_LEN <? packetLen_ h) then Nullopt
  else if totalLen_ h <? packetLen_ h then Nullopt
  else
    let headerLen := header_len HEADER_LEN_VERSION_MAP (version_ h) 0 in
    if packetLen_ h <? u32 (payloadLen_ h + headerLen) then Nullopt
    else Parsed h.

(** [garbage] is the default-initialised local; only [version_] has a default. *)
Definition Deserialize (garbage : DataHeader) (buffer : option (list Z)) (bufLen : Z) : parse_result :=
  match buffer with
  | None => Nullopt
  | Some ptr =>
      if bufLen <? HEADER_LEN then Nullopt
      else
        let h := mkDataHeader PROTOCOL_VERSION (fragFlag_ garbage) (dataType_ garbage) (seqNum_ garbage)
                   (totalLen_ garbage) (packetLen_ garbage) (payloadLen_ garbage) (subSeq_ garbage) in
        match read_loop 58 ptr h 0 with
        | Parsed h' => check_header h'
        | r => r
        end
  end.

(** ** The writer writes the wire format *)

Definition header_bytes (h : DataHeader) : list Z := items_bytes (header_items h).

Lemma len_channel_header h : len (header_bytes h) = 57.
Proof. done. Qed.

Lemma WriteTlvItem_at t pre rest bufLen :
  0 <= tlen t <= 4 -> 4 + tlen t <= len rest -> 4 + tlen t <= bufLen <= 57 ->
  WriteTlvItemToBuffer t (pre ++ rest) (len pre) bufLen
  = Some (ERR_OK, pre ++ tlv_bytes t ++ drop (length (tlv_bytes t)) rest).
Proof.
  intros Ht Hr Hb. unfold WriteTlvItemToBuffer. rewrite len_app. zb_auto.
  set (hd := [_; _; _; _]). assert (len hd = 4) as Hhd by done.
  rewrite splice_at, app_assoc by lia. rewrite u64_id by lia.
  replace (len pre + 4) with (len (pre ++ hd)) by lens.
  rewrite memcpy_s_ok by (autorewrite with dms; unfold len, RSIZE_MAX in *; rewrite ?length_drop; lia).
  rewrite slice_0, take_le_bytes by lia.
  rewrite splice_at by (autorewrite with dms; unfold len in *; rewrite ?length_drop; lia).
  rewrite <- app_assoc, drop_drop. unfold tlv_bytes. fold hd.
  by rewrite <- app_assoc, length_app.
Qed.

Lemma channel_items_written ts pre rest cap :
  Forall (fun t => 0 <= tlen t <= 4) ts ->
  len (items_bytes ts) <= len rest -> len (items_bytes ts) <= cap <= 57 ->
  write_items ts (pre ++ rest) (len pre) cap
  = Some (pre ++ items_bytes ts ++ drop (length (items_bytes ts)) rest).
Proof.
  intros Hts. revert pre rest cap.
  induction Hts as [|t ts Ht _ IH]; intros pre rest cap Hr Hc; [done|].
  cbn [write_items]. rewrite items_bytes_cons, len_app, len_tlv_bytes in * by lia.
  pose proof (len_nonneg (items_bytes ts)).
  rewrite WriteTlvItem_at by lia. rewrite app_assoc.
  replace (len pre + _) with (len (pre ++ tlv_bytes t)) by (rewrite len_app, len_tlv_bytes; lia).
  pose proof (len_tlv_bytes t ltac:(lia)) as Hl. rewrite u32_id by zlia.
  rewrite IH by (unfold len in *; rewrite ?length_drop; lia).
  by rewrite <- !app_assoc, drop_drop, length_app.
Qed.

Lemma Serialize_spec h : Serialize h = Some (buffer_of (header_bytes h)).
Proof.
  unfold Serialize. change (AVTransDataBuffer_new HEADER_LEN) with (buffer_of (zeros 57)).
  cbn [Data data_ buffer_of].
  assert (Forall (fun t => 0 <= tlen t <= 4) (header_items h)) as Hts by (by repeat constructor).
  pose proof (channel_items_written (header_items h) [] (zeros 57) 57 Hts) as H. cbn [app] in H.
  change HEADER_LEN with 57. change (len (@nil Z)) with 0 in H.
  rewrite H by (fold (header_bytes h); rewrite len_channel_header; done). done.
Qed.

(** ** The reader on what the writer wrote *)

(** Every field fits its C++ type. *)
Definition header_wf (h : DataHeader) : Prop :=
  is_u16 (version_ h) /\ is_u8 (fragFlag_ h) /\ is_u32 (dataType_ h) /\ is_u32 (seqNum_ h) /\
  is_u32 (totalLen_ h) /\ is_u32 (packetLen_ h) /\ is_u32 (payloadLen_ h) /\ is_u16 (subSeq_ h).

Definition item_size (ty : Z) : option nat :=
  if ty =? TLV_TYPE_VERSION then Some 2%nat
  else if ty =? TLV_TYPE_FRAG_FLAG then Some 1%nat
  else if ty =? TLV_TYPE_DATA_TYPE then Some 4%nat
  else if ty =? TLV_TYPE_SEQ_NUM then Some 4%nat
  else if ty =? TLV_TYPE_TOTAL_LEN then Some 4%nat
  else if ty =? TLV_TYPE_SUB_SEQ then Some 2%nat
  else if ty =? TLV_TYPE_PAYLOAD_LEN then Some 4%nat
  else if ty =? TLV_TYPE_PACKET_LEN then Some 4%nat
  else None.

Definition set_item (h : DataHeader) (ty v : Z) : DataHeader :=
  let 'mkDataHeader ve ff dt sn tl pk pl ss := h in
  if ty =? TLV_TYPE_VERSION then mkDataHeader v ff dt sn tl pk pl ss
  else if ty =? TLV_TYPE_FRAG_FLAG then mkDataHeader ve v dt sn tl pk pl ss
  else if ty =? TLV_TYPE_DATA_TYPE then mkDataHeader ve ff v sn tl pk pl ss
  else if ty =? TLV_TYPE_SEQ_NUM then mkDataHeader ve ff dt v tl pk pl ss
  else if ty =? TLV_TYPE_TOTAL_LEN then mkDataHeader ve ff dt sn v pk pl ss
  else if ty =? TLV_TYPE_SUB_SEQ then mkDataHeader ve ff dt sn tl pk pl v
  else if ty =? TLV_TYPE_PAYLOAD_LEN then mkDataHeader ve ff dt sn tl pk v ss
  else mkDataHeader ve ff dt sn tl v pl ss.

Definition item_wf (t : TlvItem) : Prop :=
  is_u16 (type t) /\
  exists n, item_size (type t) = Some n /\ tlen t = Z.of_nat n /\ (1 <= n <= 4)%nat /\
            0 <= value t < 256 ^ Z.of_nat n.

Lemma channel_item_exact h ty n v rest :
  item_size ty = Some n -> 0 <= v < 256 ^ Z.of_nat n ->
  read_item h ty (le_bytes n v ++ rest) (Z.of_nat n) = ReadOk (set_item h ty v).
Proof.
  intros Hs Hv. destruct h; unfold read_item, read_header_field, item_size, set_item in *.
  repeat case_match; simplify_eq; cbn [read_map]; rewrite ?read_field_exact in * by lia; by simplify_eq.
Qed.

Lemma ReadTlvItem_exact h t rest left :
  item_wf t -> 4 + tlen t <= left ->
  ReadTlvItemFromBuffer (tlv_bytes t ++ rest) h left = ReadOk (set_item h (type t) (value t), tlen t).
Proof.
  intros (Hty & n & Hs & Hl & Hn & Hv) Hb. unfold ReadTlvItemFromBuffer, tlv_bytes, U16Get.
  cbn [app skipn]. rewrite !u16_join by zlia. zb_auto.
  by rewrite drop_0, Hl, Nat2Z.id, channel_item_exact.
Qed.

Definition set_items (ts : list TlvItem) (h : DataHeader) : DataHeader :=
  fold_left (fun h t => set_item h (type t) (value t)) ts h.

Lemma channel_loop_items ts pre rest h fuel :
  Forall item_wf ts -> len pre + len (items_bytes ts) = 57 -> (length ts < fuel)%nat ->
  read_loop fuel (pre ++ items_bytes ts ++ rest) h (len pre) = Parsed (set_items ts h).
Proof.
  intros Hts. revert pre h fuel. change BASE_HEADER_LEN with 57.
  induction Hts as [|t ts Ht _ IH]; intros pre h fuel Hp Hf; (destruct fuel as [|fuel]; [cbn in Hf; lia|]);
    cbn [read_loop]; change BASE_HEADER_LEN with 57.
  - change (len (items_bytes [])) with 0 in Hp. by zb_auto.
  - pose proof Ht as (_ & n & _ & Hl & ? & _). pose proof (len_nonneg pre).
    pose proof (len_nonneg (items_bytes ts)).
    rewrite items_bytes_cons, len_app, len_tlv_bytes in Hp by lia. zb_auto.
    replace (Z.to_nat (len pre)) with (length pre) by (unfold len; lia).
    rewrite drop_app_length, items_bytes_cons, <- app_assoc.
    rewrite ReadTlvItem_exact by (done || lia).
    rewrite app_assoc. replace (len pre + 4 + tlen t) with (len (pre ++ tlv_bytes t))
      by (rewrite len_app, len_tlv_bytes; lia).
    rewrite IH; [done| |cbn in Hf; lia]. rewrite len_app, len_tlv_bytes; lia.
Qed.

Lemma channel_item_wf_intro ty n v :
  item_size ty = Some n -> is_u16 ty -> (1 <= n <= 4)%nat -> 0 <= v < 256 ^ Z.of_nat n ->
  item_wf (mkTlv ty (Z.of_nat n) v).
Proof. intros. split; [done|]. by exists n. Qed.

Lemma channel_items_wf h : header_wf h -> Forall item_wf (header_items h).
Proof.
  intros (? & ? & ? & ? & ? & ? & ? & ?). unfold header_items.
  repeat apply List.Forall_cons; try apply List.Forall_nil;
    [apply (channel_item_wf_intro _ 2) | apply (channel_item_wf_intro _ 1) | apply (channel_item_wf_intro _ 4)
    | apply (channel_item_wf_intro _ 4) | apply (channel_item_wf_intro _ 4) | apply (channel_item_wf_intro _ 4)
    | apply (channel_item_wf_intro _ 4) | apply (channel_item_wf_intro _ 2)]; by try lia.
Qed.

(** What the checks after the loop accept. *)
Definition accepted (h : DataHeader) : Prop :=
  payloadLen_ h <= BINARY_PAYLOAD_MAX_LEN /\ packetLen_ h <= BINARY_DATA_MAX_TOTAL_LEN /\
  payloadLen_ h + HEADER_LEN <= packetLen_ h <= totalLen_ h.

Lemma header_len_any v : header_len HEADER_LEN_VERSION_MAP v 0 = HEADER_LEN.
Proof. cbn. by destruct v as [|[]|]. Qed.

Lemma check_header_accepts h : header_wf h -> accepted h -> check_header h = Parsed h.
Proof.
  intros (_ & _ & _ & _ & _ & _ & Hp & _) (? & ? & ? & ?). unfold check_header. rewrite header_len_any.
  change HEADER_LEN with 57 in *. unfold BINARY_PAYLOAD_MAX_LEN in *. rewrite u32_id by zlia.
  by zb_auto.
Qed.

Lemma check_header_cases h : header_wf h ->
  check_header h = Nullopt \/ (check_header h = Parsed h /\ accepted h).
Proof.
  intros (_ & _ & _ & _ & _ & _ & Hp & _). unfold check_header. rewrite header_len_any. unfold accepted.
  change HEADER_LEN with 57. destruct (_ || _) eqn:E; [by left|]. zb_hyps.
  unfold BINARY_PAYLOAD_MAX_LEN in *. rewrite u32_id by zlia. zb_case; [by left|]. zb_case; [by left|].
  right. split; [done|]. lia.
Qed.

Lemma Deserialize_exact g h rest n :
  header_wf h -> accepted h -> 57 <= n -> Deserialize g (Some (header_bytes h ++ rest)) n = Parsed h.
Proof.
  intros Hh Ha Hn. cbn [Deserialize]. change HEADER_LEN with 57. zb_false (n <? 57).
  set (g' := mkDataHeader _ _ _ _ _ _ _ _).
  replace (read_loop 58 (header_bytes h ++ rest) g' 0) with (Parsed h); [by apply check_header_accepts|].
  symmetry. refine (eq_trans (channel_loop_items (header_items h) [] rest g' 58 (channel_items_wf h Hh) eq_refl _) _).
  - cbn; lia.
  - by destruct h.
Qed.

(** ** The reader on arbitrary packets *)

Lemma read_header_field_safe n old ptr count :
  (n <= 4)%nat -> Forall is_u8 ptr -> 0 <= count <= len ptr ->
  read_safe (fun v => 0 <= v < 256 ^ Z.of_nat n) (read_header_field n old ptr count).
Proof.
  intros Hn Hp Hc. pose proof (read_field_safe n old ptr count Hn Hp Hc) as H.
  unfold read_header_field. by destruct (read_field _ _ _ _).
Qed.

Lemma channel_item_safe h ty ptr count :
  header_wf h -> Forall is_u8 ptr -> 0 <= count <= len ptr ->
  read_safe header_wf (read_item h ty ptr count).
Proof.
  intros Hh Hp Hc. destruct h. unfold header_wf in *; cbn in Hh. unfold read_item.
  repeat case_match; try done;
    (eapply read_safe_map; [apply read_header_field_safe; [lia|done|done]|]);
    cbn; unfold is_u8, is_u16, is_u32 in *; intros; split_and!; lia.
Qed.

Lemma ReadTlvItem_safe ptr h left :
  header_wf h -> Forall is_u8 ptr -> 4 < left <= len ptr ->
  read_safe (fun r => header_wf (fst r) /\ 0 <= snd r <= left - 4) (ReadTlvItemFromBuffer ptr h left).
Proof.
  intros Hh Hp Hb. unfold ReadTlvItemFromBuffer.
  destruct (U16Get_safe ptr) as (ty & -> & Hty); [done|lia|].
  destruct (U16Get_safe (drop 2 ptr)) as (n & -> & Hn).
  { by apply Forall_drop. } { change 2%nat with (Z.to_nat 2). rewrite len_drop by lia. lia. }
  destruct (Z.ltb_spec left (4 + n)); [done|]. unfold is_u16 in Hn.
  eapply read_safe_map.
  - apply channel_item_safe; [done|by apply Forall_drop|].
    change 4%nat with (Z.to_nat 4). rewrite len_drop by lia. lia.
  - cbn. intros h' Hh'. split; [done|]. lia.
Qed.

Definition parse_safe (P : DataHeader -> Prop) (r : parse_result) : Prop :=
  match r with
  | Parsed h => P h
  | Nullopt => True
  | ParseUB | ParseOutOfFuel => False
  end.

Lemma channel_loop_safe fuel ptr h i :
  header_wf h -> Forall is_u8 ptr -> 57 <= len ptr -> 0 <= i <= 57 -> 57 - i < Z.of_nat fuel ->
  parse_safe header_wf (read_loop fuel ptr h i).
Proof.
  revert h i; induction fuel as [|fuel IH]; intros h i Hh Hp Hl Hi Hf; [lia|].
  cbn [read_loop]. change BASE_HEADER_LEN with 57. destruct (Z.ltb_spec (i + 4) 57); [|done].
  pose proof (ReadTlvItem_safe (drop (Z.to_nat i) ptr) h (57 - i) Hh) as Hr.
  rewrite len_drop in Hr by lia.
  specialize (Hr ltac:(by apply Forall_drop) ltac:(lia)).
  destruct (ReadTlvItemFromBuffer _ _ _) as [[h' n]| |]; cbn in Hr; [|done|done].
  destruct Hr as [Hh' ?]. apply IH; auto; lia.
Qed.

Lemma Deserialize_safe g ptr :
  header_wf g -> Forall is_u8 ptr ->
  parse_safe (fun h => header_wf h /\ accepted h /\ 57 <= len ptr) (Deserialize g (Some ptr) (len ptr)).
Proof.
  intros Hg Hp. cbn [Deserialize]. change HEADER_LEN with 57. destruct (Z.ltb_spec (len ptr) 57); [done|].
  set (g' := mkDataHeader _ _ _ _ _ _ _ _). assert (header_wf g') as Hg'.
  { unfold g'. destruct Hg as (_ & Hg). by split. }
  pose proof (channel_loop_safe 58 ptr g' 0 Hg' Hp ltac:(lia) ltac:(lia) ltac:(lia)) as Hr.
  destruct (read_loop 58 ptr g' 0) as [h| | |]; cbn in Hr; try done.
  destruct (check_header_cases h Hr) as [->|[-> ?]]; done.
Qed.

(** ** Properties *)

(** The header of the collaboration channel round trip: every header
    whose lengths are consistent is recovered field by field from what
    [Serialize] wrote, whatever follows it in the packet and whatever the
    receiver's default-initialised header held. *)
Theorem collab_header_roundtrip h g rest :
  header_wf h -> accepted h ->
  exists b, Serialize h = Some b /\ len (contents b) = HEADER_LEN /\
    Deserialize g (Some (contents b ++ rest)) (len (contents b ++ rest)) = Parsed h.
Proof.
  intros Hh Ha. exists (buffer_of (header_bytes h)). rewrite contents_buffer_of.
  split; [apply Serialize_spec|]. split; [done|]. apply Deserialize_exact; try done.
  rewrite len_app, len_channel_header. pose proof (len_nonneg rest). lia.
Qed.

Lemma collab_header_roundtrip_witness :
  exists b, Serialize (mkDataHeader 1 4 1 0 67 67 10 0) = Some b /\ len (contents b) = 57 /\
    Deserialize (mkDataHeader 9 9 9 9 9 9 9 9) (Some (contents b ++ zeros 10)) (len (contents b ++ zeros 10))
    = Parsed (mkDataHeader 1 4 1 0 67 67 10 0).
Proof.
  apply (collab_header_roundtrip (mkDataHeader 1 4 1 0 67 67 10 0) (mkDataHeader 9 9 9 9 9 9 9 9) (zeros 10)).
  - unfold header_wf; cbn; zlia.
  - repeat split; vm_compute; discriminate.
Defined.

(** On a packet of whatever length and bytes the header parser ends,
    never reads outside the packet, and accepts only headers whose fields fit
    their C++ types and whose lengths are consistent: the payload and the header
    fit the packet length, which is at most the total length; the payload is at
    most 4 MiB and the packet at most 100 MiB. *)
Theorem collab_header_parse_safe g ptr :
  header_wf g -> Forall is_u8 ptr ->
  Deserialize g (Some ptr) (len ptr) = Nullopt \/
  exists h, Deserialize g (Some ptr) (len ptr) = Parsed h /\ header_wf h /\ accepted h /\ HEADER_LEN <= len ptr.
Proof.
  intros Hg Hp. pose proof (Deserialize_safe g ptr Hg Hp) as H.
  destruct (Deserialize _ _ _) as [h| | |]; cbn in H; try done; [right|by left].
  exists h. split; [done|]. exact H.
Qed.

Lemma collab_header_parse_safe_witness :
  Deserialize (mkDataHeader 0 0 0 0 0 0 0 0) (Some (zeros 60)) 60 = Nullopt \/
  exists h, Deserialize (mkDataHeader 0 0 0 0 0 0 0 0) (Some (zeros 60)) 60 = Parsed h /\
    header_wf h /\ accepted h /\ HEADER_LEN <= 60.
Proof.
  apply (collab_header_parse_safe (mkDataHeader 0 0 0 0 0 0 0 0) (zeros 60)).
  - unfold header_wf; cbn; zlia.
  - unfold zeros. apply Forall_replicate. zlia.
Defined.
