(* ===== verification/CollabChannel.v ===== *)
(** Byte transfer over a collaboration channel:
    services/dtbcollabmgr/src/channel_manager/data_sender_receiver.cpp, and the
    receive path of its caller, [ChannelManager::ProcessRecvData]. *)

From S2P Require Import Prelude DataBuffer SchedErrors Tlv CollabHeader.

(** ** Data *)

Definition FRAG_START : Z := 1.
Definition FRAG_MID : Z := 2.
Definition FRAG_END : Z := 3.
Definition FRAG_START_END : Z := 4.

Definition BYTES : Z := 1.
Definition MAX_SEND_MESSAGE_SIZE : Z := 4 * 1024.

Definition GET_SESSION_OPTION_FAILED : Z := DMS_SERVICE_ERR_OFFSET + 25.
Definition WRITE_SESSION_HEADER_FAILED : Z := DMS_SERVICE_ERR_OFFSET + 26.
Definition WRITE_SEND_DATA_BUFFER_FAILED : Z := DMS_SERVICE_ERR_OFFSET + 27.
Definition SEND_DATA_BY_SOFTBUS_FAILED : Z := DMS_SERVICE_ERR_OFFSET + 28.
Definition DATA_SIZE_EXCEED_LIMIT : Z := DMS_SERVICE_ERR_OFFSET + 29.
Definition INVALID_SESSION_HEADER_FLAG_TYPE : Z := DMS_SERVICE_ERR_OFFSET + 31.
Definition INVALID_SESSION_HEADER_TOTAL_LEN : Z := DMS_SERVICE_ERR_OFFSET + 32.
Definition INVALID_SESSION_HEADER_SEQ_NUM : Z := DMS_SERVICE_ERR_OFFSET + 33.
Definition INVALID_SESSION_HEADER_SUB_SEQ : Z := DMS_SERVICE_ERR_OFFSET + 34.
Definition WRITE_PAYLOAD_TO_BUFFER_FAILED : Z := DMS_SERVICE_ERR_OFFSET + 35.
Definition FLAG_TYPE_NOT_MATCH_BUFFER_STATE : Z := DMS_SERVICE_ERR_OFFSET + 36.

(** The receiving members of [DataSenderReceiver].  [currentPos] is the distance
    from [packBuffer_->Data()]; 0 stands for the null pointer when there is no
    buffer. *)
Record Receiver := mkReceiver {
  isWaiting_ : bool;
  nowSeqNum_ : Z;
  nowSubSeq_ : Z;
  nowTotalLen_ : Z;
  packBuffer_ : option DataBuffer;
  currentPos : Z;
}.

Definition Receiver_new : Receiver := mkReceiver false 0 0 0 None 0.

(** ** Receiving *)

Definition ResetFlag (r : Receiver) : Receiver := mkReceiver false 0 0 0 None 0.

Definition isDataReady (r : Receiver) : bool :=
  negb (isWaiting_ r) && match packBuffer_ r with Some _ => true | None => false end.

(** The result code and the receiver; [RecvUB]: a read or write outside the
    arrays. *)
Inductive recv_result :=
  | RecvRet (ret : Z) (r : Receiver)
  | RecvUB.

Definition CheckRecvSessionHeader (r : Receiver) (h : DataHeader) : Z :=
  if negb (nowSeqNum_ r =? seqNum_ h) then INVALID_SESSION_HEADER_SEQ_NUM
  else if (nowSubSeq_ r =? 0) && (subSeq_ h =? 0) then ERR_OK
  else if negb (u32 (nowSubSeq_ r + 1) =? subSeq_ h) then INVALID_SESSION_HEADER_SUB_SEQ
  else ERR_OK.

(** The payload is taken at [packetLen_ - payloadLen_] in the packet. *)
Definition WriteRecvBytesDataToBuffer (r : Receiver) (data : list Z) (h : DataHeader) : recv_result :=
  let dataHeader := u32 (packetLen_ h - payloadLen_ h) in
  let write (b : DataBuffer) (pos : Z) :=
    let st b' p := mkReceiver (isWaiting_ r) (nowSeqNum_ r) (nowSubSeq_ r) (nowTotalLen_ r) (Some b') p in
    match buf_write b pos (u64 (Size b - pos)) (Some data) dataHeader (payloadLen_ h) with
    | BufOk b' => RecvRet ERR_OK (st b' (pos + payloadLen_ h))
    | BufErr => RecvRet WRITE_PAYLOAD_TO_BUFFER_FAILED (st b pos)
    | BufUB => RecvUB
    end in
  match packBuffer_ r with
  | None => write (AVTransDataBuffer_new (totalLen_ h)) 0
  | Some b =>
      if negb (Size b =? totalLen_ h) then RecvRet INVALID_SESSION_HEADER_TOTAL_LEN r
      else write b (currentPos r)
  end.

Definition has_buffer (r : Receiver) : bool :=
  match packBuffer_ r with Some _ => true | None => false end.

Definition ProcessAllPacketRecv (r : Receiver) (data : list Z) (h : DataHeader) : recv_result :=
  if has_buffer r || isWaiting_ r then RecvRet FLAG_TYPE_NOT_MATCH_BUFFER_STATE (ResetFlag r)
  else match WriteRecvBytesDataToBuffer r data h with
  | RecvUB => RecvUB
  | RecvRet ret r' =>
      if negb (ret =? ERR_OK) then RecvRet WRITE_PAYLOAD_TO_BUFFER_FAILED (ResetFlag r')
      else RecvRet ERR_OK r'
  end.

Definition ProcessStartPacketRecv (r : Receiver) (data : list Z) (h : DataHeader) : recv_result :=
  if has_buffer r || isWaiting_ r then RecvRet FLAG_TYPE_NOT_MATCH_BUFFER_STATE (ResetFlag r)
  else match WriteRecvBytesDataToBuffer r data h with
  | RecvUB => RecvUB
  | RecvRet ret r' =>
      if negb (ret =? ERR_OK) then RecvRet ret (ResetFlag r')
      else RecvRet ERR_OK
             (mkReceiver true (seqNum_ h) (subSeq_ h) (nowTotalLen_ r') (packBuffer_ r') (currentPos r'))
  end.

Definition ProcessMidPacketRecv (r : Receiver) (data : list Z) (h : DataHeader) : recv_result :=
  if negb (has_buffer r) || negb (isWaiting_ r) then RecvRet FLAG_TYPE_NOT_MATCH_BUFFER_STATE (ResetFlag r)
  else match WriteRecvBytesDataToBuffer r data h with
  | RecvUB => RecvUB
  | RecvRet ret r' =>
      if negb (ret =? ERR_OK) then RecvRet ret (ResetFlag r')
      else RecvRet ERR_OK
             (mkReceiver (isWaiting_ r') (seqNum_ h) (subSeq_ h) (nowTotalLen_ r') (packBuffer_ r') (currentPos r'))
  end.

Definition ProcessEndPacketRecv (r : Receiver) (data : list Z) (h : DataHeader) : recv_result :=
  if negb (has_buffer r) || negb (isWaiting_ r) then RecvRet FLAG_TYPE_NOT_MATCH_BUFFER_STATE (ResetFlag r)
  else match WriteRecvBytesDataToBuffer r data h with
  | RecvUB => RecvUB
  | RecvRet ret r' =>
      if negb (ret =? ERR_OK) then RecvRet ret (ResetFlag r')
      else RecvRet ret
             (mkReceiver false (nowSeqNum_ r') (nowSubSeq_ r') (nowTotalLen_ r') (packBuffer_ r') (currentPos r'))
  end.

(** The [switch] of [PackRecvPacketData]. *)
Definition process_packet (r : Receiver) (data : list Z) (h : DataHeader) : recv_result :=
  if fragFlag_ h =? FRAG_START_END then ProcessAllPacketRecv r data h
  else if fragFlag_ h =? FRAG_START then ProcessStartPacketRecv r data h
  else if fragFlag_ h =? FRAG_MID then ProcessMidPacketRecv r data h
  else if fragFlag_ h =? FRAG_END then ProcessEndPacketRecv r data h
  else RecvRet INVALID_SESSION_HEADER_FLAG_TYPE r.

(** [header] and [dataLen] are one packet of softbus: [dataLen = len data]. *)
Definition PackRecvPacketData (garbage : DataHeader) (r : Receiver) (data : list Z) : recv_result :=
  match Deserialize garbage (Some data) (len data) with
  | Nullopt => RecvRet WRITE_SESSION_HEADER_FAILED r
  | ParseUB | ParseOutOfFuel => RecvUB
  | Parsed h =>
      let ret := CheckRecvSessionHeader r h in
      if negb (ret =? ERR_OK) then RecvRet ret r else process_packet r data h
  end.

Definition GetPacketedData (r : Receiver) : option DataBuffer * Receiver :=
  if isDataReady r then
    match packBuffer_ r with
    | Some b => (Some (snd (AVTransDataBuffer_SetRange 0 (currentPos r) b)), ResetFlag r)
    | None => (None, r)
    end
  else (None, r).

(** [ChannelManager::ProcessRecvData]: the packet, then the message if it is
    complete; an error is reported to the channel's listeners. *)
Inductive recv_event :=
  | EvBytes (b : DataBuffer)
  | EvError (ret : Z).

Definition ProcessRecvData (garbage : DataHeader) (r : Receiver) (data : list Z)
    : option (list recv_event * Receiver) :=
  match PackRecvPacketData garbage r data with
  | RecvUB => None
  | RecvRet ret r' =>
      if negb (ret =? ERR_OK) then Some ([EvError ret], r')
      else match GetPacketedData r' with
           | (Some b, r'') => Some ([EvBytes b], r'')
           | (None, r'') => Some ([], r'')
           end
  end.

Fixpoint ProcessRecvData_all (garbage : DataHeader) (r : Receiver) (pkts : list (list Z))
    : option (list recv_event * Receiver) :=
  match pkts with
  | [] => Some ([], r)
  | p :: ps =>
      match ProcessRecvData garbage r p with
      | None => None
      | Some (ev, r') =>
          match ProcessRecvData_all garbage r' ps with
          | None => None
          | Some (evs, r'') => Some (ev ++ evs, r'')
          end
      end
  end.

(** ** Sending *)

(** The [k]-th answers of softbus during one send. *)
Record ChannelEnv := mkChannelEnv {
  GetSessionOption : nat -> Z * Z;
  SendBytes : nat -> Z;
}.

Inductive send_result :=
  | Sent (ret : Z) (packets : list (list Z))
  | SendUB
  | SendOutOfFuel.

(** One packet: [Sent ret] with the bytes handed to [SendBytes], if it was called. *)
Definition DoSendPacket (env : ChannelEnv) (k : nat) (h : DataHeader) (data : option (list Z)) (off dataLen : Z)
    : send_result :=
  match Serialize h with
  | None => SendUB
  | Some headerBuffer =>
      let sendBuffer := AVTransDataBuffer_new (u32 (HEADER_LEN + dataLen)) in
      match buf_write sendBuffer 0 (Size sendBuffer) (Data headerBuffer) (rangeOffset_ headerBuffer) HEADER_LEN with
      | BufErr => Sent WRITE_SESSION_HEADER_FAILED []
      | BufUB => SendUB
      | BufOk sendBuffer =>
          match buf_write sendBuffer HEADER_LEN (u64 (Size sendBuffer - HEADER_LEN)) data off dataLen with
          | BufErr => Sent WRITE_SEND_DATA_BUFFER_FAILED []
          | BufUB => SendUB
          | BufOk sendBuffer =>
              let ret := SendBytes env k in
              Sent (if negb (ret =? ERR_OK) then SEND_DATA_BY_SOFTBUS_FAILED else ret) [contents sendBuffer]
          end
      end
  end.

Definition SendAllPackets (env : ChannelEnv) (sendData : DataBuffer) (dataType : Z) : send_result :=
  let totalLen := u32 (Size sendData + HEADER_LEN) in
  let packetLen := u32 (Size sendData + HEADER_LEN) in
  let payloadLen := u32 (packetLen - HEADER_LEN) in
  let h := mkDataHeader PROTOCOL_VERSION FRAG_START_END (u32 dataType) 0 totalLen packetLen payloadLen 0 in
  DoSendPacket env 0 h (Data sendData) (rangeOffset_ sendData) payloadLen.

(** The [while] loop of [SendUnpackData].  [payloadLen] is the length computed
    before the loop; the header takes the current maximum. *)
Fixpoint send_loop (fuel : nat) (env : ChannelEnv) (k : nat) (sendData : DataBuffer) (h : DataHeader)
    (current payloadLen : Z) (acc : list (list Z)) : send_result :=
  match fuel with
  | O => SendOutOfFuel
  | S fuel' =>
    if Size sendData <=? current then Sent ERR_OK acc
    else
      let '(ret, maxSendSize) := GetSessionOption env k in
      if negb (ret =? ERR_OK) then Sent GET_SESSION_OPTION_FAILED acc
      else
        let h := mkDataHeader (version_ h)
                   (if payloadLen <? Size sendData - current then FRAG_MID else FRAG_END)
                   (dataType_ h) (seqNum_ h) (totalLen_ h) maxSendSize (u32 (maxSendSize - HEADER_LEN))
                   (u16 (subSeq_ h + 1)) in
        match DoSendPacket env k h (Data sendData) (rangeOffset_ sendData + current) payloadLen with
        | Sent ret p =>
            if negb (ret =? ERR_OK) then Sent ret (acc ++ p)
            else send_loop fuel' env (S k) sendData h (current + payloadLen) payloadLen (acc ++ p)
        | r => r
        end
  end.

Definition SendUnpackData (env : ChannelEnv) (sendData : DataBuffer) (dataType : Z) : send_result :=
  let '(ret, maxSendSize) := GetSessionOption env 0 in
  if negb (ret =? ERR_OK) then Sent GET_SESSION_OPTION_FAILED []
  else if Size sendData + HEADER_LEN <=? maxSendSize then SendAllPackets env sendData dataType
  else
    let totalLen := u32 (Size sendData) in
    let packetLen := maxSendSize in
    let payloadLen := u32 (packetLen - HEADER_LEN) in
    let h := mkDataHeader PROTOCOL_VERSION FRAG_START (u32 dataType) 0 totalLen packetLen payloadLen 0 in
    match DoSendPacket env 0 h (Data sendData) (rangeOffset_ sendData) payloadLen with
    | Sent ret p =>
        if negb (ret =? ERR_OK) then Sent ret p
        else send_loop (S (Z.to_nat (Size sendData))) env 1 sendData h payloadLen payloadLen p
    | r => r
    end.

Definition SendBytesData (env : ChannelEnv) (sendData : DataBuffer) : send_result :=
  SendUnpackData env sendData BYTES.

(** [sendMessage] answers for softbus; [None]: the message is not handed over. *)
Definition SendMessageData (sendMessage : list Z -> Z) (sendData : DataBuffer) : Z * option (list Z) :=
  if MAX_SEND_MESSAGE_SIZE <? Size sendData then (DATA_SIZE_EXCEED_LIMIT, None)
  else (sendMessage (contents sendData), Some (contents sendData)).
