(* ===== verification/CollabTransfer.v ===== *)
(** Byte transfer over a collaboration channel: the receiver refines an abstract
    assembler on packets that are as long as their header says, what the sender
    cuts into whole packets arrives unchanged, and the two places where sender
    and receiver read past the end of an array. *)

From S2P Require Import Prelude DataBuffer SchedErrors Tlv CollabHeader CollabChannel.

(** ** Abstract assembler *)

Inductive cstate :=
  | CIdle
  | CAssembling (sub total : Z) (acc : list Z).

Inductive cevent :=
  | CBytes (d : list Z)
  | CError (ret : Z).

Definition now_sub (c : cstate) : Z := match c with CIdle => 0 | CAssembling sub _ _ => sub end.

Definition in_order (c : cstate) (h : DataHeader) : bool :=
  ((now_sub c =? 0) && (subSeq_ h =? 0)) || (now_sub c + 1 =? subSeq_ h).

(** A fragment [p] appended to what has been received. *)
Definition cappend (c : cstate) (h : DataHeader) (p : list Z) : cevent + list Z :=
  match c with
  | CIdle => inl (CError FLAG_TYPE_NOT_MATCH_BUFFER_STATE)
  | CAssembling _ total acc =>
      if negb (total =? totalLen_ h) then inl (CError INVALID_SESSION_HEADER_TOTAL_LEN)
      else if total <? len acc + len p then inl (CError WRITE_PAYLOAD_TO_BUFFER_FAILED)
      else inr (acc ++ p)
  end.

(** A first or only fragment [p]. *)
Definition copen (c : cstate) (h : DataHeader) (p : list Z) : cevent + list Z :=
  match c with
  | CAssembling _ _ _ => inl (CError FLAG_TYPE_NOT_MATCH_BUFFER_STATE)
  | CIdle =>
      if totalLen_ h <? DSCHED_MAX_BUFFER_SIZE then inr p
      else inl (CError WRITE_PAYLOAD_TO_BUFFER_FAILED)
  end.

Definition cstep (c : cstate) (h : DataHeader) (p : list Z) : cstate * list cevent :=
  let keep (e : cevent + list Z) :=
    match e with
    | inl err => (CIdle, [err])
    | inr acc => (CAssembling (subSeq_ h) (totalLen_ h) acc, [])
    end in
  let deliver (e : cevent + list Z) :=
    match e with
    | inl err => (CIdle, [err])
    | inr acc => (CIdle, [CBytes acc])
    end in
  if negb (seqNum_ h =? 0) then (c, [CError INVALID_SESSION_HEADER_SEQ_NUM])
  else if negb (in_order c h) then (c, [CError INVALID_SESSION_HEADER_SUB_SEQ])
  else if fragFlag_ h =? FRAG_START_END then deliver (copen c h p)
  else if fragFlag_ h =? FRAG_START then keep (copen c h p)
  else if fragFlag_ h =? FRAG_MID then keep (cappend c h p)
  else if fragFlag_ h =? FRAG_END then deliver (cappend c h p)
  else (c, [CError INVALID_SESSION_HEADER_FLAG_TYPE]).

(** The payload of a packet whose header has been parsed. *)
Definition payload (data : list Z) (h : DataHeader) : list Z :=
  slice data (packetLen_ h - payloadLen_ h) (payloadLen_ h).

Definition crecv (g : DataHeader) (c : cstate) (data : list Z) : cstate * list cevent :=
  match Deserialize g (Some data) (len data) with
  | Parsed h => cstep c h (payload data h)
  | _ => (c, [CError WRITE_SESSION_HEADER_FAILED])
  end.

(** ** The receiver and the abstract assembler *)

Definition pack_of (total : Z) (acc : list Z) : DataBuffer := buffer_of (acc ++ zeros (total - len acc)).

Definition refines (r : Receiver) (c : cstate) : Prop :=
  match c with
  | CIdle => r = mkReceiver false 0 0 (nowTotalLen_ r) None (currentPos r)
  | CAssembling sub total acc =>
      r = mkReceiver true 0 sub (nowTotalLen_ r) (Some (pack_of total acc)) (len acc) /\
      len acc <= total < DSCHED_MAX_BUFFER_SIZE /\ is_u16 sub
  end.

Definition cev (e : recv_event) : cevent :=
  match e with
  | EvBytes b => CBytes (contents b)
  | EvError ret => CError ret
  end.

Lemma AV_new n : AVTransDataBuffer_new n = DSchedDataBuffer_new n.
Proof. done. Qed.

Lemma Size_pack total acc : len acc <= total -> Size (pack_of total acc) = total.
Proof. intros. unfold pack_of, Size. buf_simpl. rewrite len_app, len_zeros by lia. lia. Qed.

Lemma pack_append total acc data soff n :
  len acc <= total < DSCHED_MAX_BUFFER_SIZE -> 0 <= soff -> 0 <= n -> soff + n <= len data ->
  buf_write (pack_of total acc) (len acc) (u64 (Size (pack_of total acc) - len acc)) (Some data) soff n
  = if total <? len acc + n then BufErr else BufOk (pack_of total (acc ++ slice data soff n)).
Proof.
  intros Ha Hs Hn Hd. rewrite Size_pack by lia. pose proof (len_nonneg acc).
  unfold DSCHED_MAX_BUFFER_SIZE in *. rewrite u64_id by lia. destruct (Z.ltb_spec total (len acc + n)).
  - unfold buf_write. by rewrite memcpy_s_too_long by lia.
  - unfold pack_of. erewrite buf_write_ok; buf_simpl; try reflexivity;
      rewrite ?len_app, ?len_zeros; unfold RSIZE_MAX; try lia.
    unfold buffer_of. rewrite !len_app, !len_slice, !len_zeros by lia.
    replace (len acc + n + (total - (len acc + n))) with (len acc + (total - len acc)) by lia.
    do 3 f_equal. rewrite Z.add_0_l, splice_at by (rewrite len_slice, len_zeros; lia).
    rewrite <- app_assoc. do 2 f_equal.
    replace (length (slice data soff n)) with (Z.to_nat n) by (pose proof (len_slice data soff n); unfold len in *; lia).
    rewrite drop_zeros by lia. f_equal. lia.
Qed.

(** The received bytes, without the unused rest of the buffer. *)
Lemma SetRange_pack total acc :
  len acc <= total < DSCHED_MAX_BUFFER_SIZE ->
  contents (snd (AVTransDataBuffer_SetRange 0 (len acc) (pack_of total acc))) = acc.
Proof.
  intros Ha. unfold AVTransDataBuffer_SetRange, SetRange, pack_of. buf_simpl. pose proof (len_nonneg acc).
  unfold DSCHED_MAX_BUFFER_SIZE in *. rewrite len_app, len_zeros, u64_id by lia. zb_auto.
  cbn [snd]. unfold contents. buf_simpl. apply slice_0_app.
Qed.

Section Packet.
Variables (r : Receiver) (data : list Z) (h : DataHeader).
Hypothesis Hw : header_wf h.
Hypothesis Ha : accepted h.
Hypothesis Hlen : packetLen_ h <= len data.

Lemma payload_bounds :
  u32 (packetLen_ h - payloadLen_ h) = packetLen_ h - payloadLen_ h /\
  0 <= packetLen_ h - payloadLen_ h /\ 0 <= payloadLen_ h /\ len (payload data h) = payloadLen_ h.
Proof.
  destruct Hw as (_ & _ & _ & _ & _ & Hk & Hp & _), Ha as (? & ? & ? & ?). change HEADER_LEN with 57 in *.
  unfold is_u32, payload in *. rewrite u32_id, len_slice by zlia. lia.
Qed.

Lemma write_first :
  packBuffer_ r = None ->
  WriteRecvBytesDataToBuffer r data h
  = if totalLen_ h <? DSCHED_MAX_BUFFER_SIZE
    then RecvRet ERR_OK (mkReceiver (isWaiting_ r) (nowSeqNum_ r) (nowSubSeq_ r) (nowTotalLen_ r)
           (Some (pack_of (totalLen_ h) (payload data h))) (len (payload data h)))
    else RecvRet WRITE_PAYLOAD_TO_BUFFER_FAILED (mkReceiver (isWaiting_ r) (nowSeqNum_ r) (nowSubSeq_ r)
           (nowTotalLen_ r) (Some (mkDataBuffer 0 0 0 None)) 0).
Proof.
  intros Hb. destruct payload_bounds as (Eu & ? & ? & El), Ha as (? & ? & ? & ?). change HEADER_LEN with 57 in *.
  unfold WriteRecvBytesDataToBuffer. rewrite Hb, Eu, AV_new. cbv zeta.
  destruct (Z.ltb_spec (totalLen_ h) DSCHED_MAX_BUFFER_SIZE).
  - rewrite buffer_new_small by lia.
    pose proof (pack_append (totalLen_ h) [] data (packetLen_ h - payloadLen_ h) (payloadLen_ h)) as Hp.
    change (len []) with 0 in Hp. unfold pack_of at 1 2 in Hp. cbn [app] in Hp.
    change (len []) with 0 in Hp. rewrite Z.sub_0_r in Hp. rewrite Hp by lia.
    zb_false (totalLen_ h <? 0 + payloadLen_ h). rewrite El. done.
  - rewrite buffer_new_refused by lia. done.
Qed.

Lemma write_more total acc :
  packBuffer_ r = Some (pack_of total acc) -> currentPos r = len acc ->
  len acc <= total < DSCHED_MAX_BUFFER_SIZE ->
  WriteRecvBytesDataToBuffer r data h
  = if negb (total =? totalLen_ h) then RecvRet INVALID_SESSION_HEADER_TOTAL_LEN r
    else if total <? len acc + len (payload data h) then RecvRet WRITE_PAYLOAD_TO_BUFFER_FAILED
      (mkReceiver (isWaiting_ r) (nowSeqNum_ r) (nowSubSeq_ r) (nowTotalLen_ r) (Some (pack_of total acc)) (len acc))
    else RecvRet ERR_OK (mkReceiver (isWaiting_ r) (nowSeqNum_ r) (nowSubSeq_ r) (nowTotalLen_ r)
           (Some (pack_of total (acc ++ payload data h))) (len (acc ++ payload data h))).
Proof.
  intros Hb Hp Hl. destruct payload_bounds as (Eu & ? & ? & El), Ha as (? & ? & ? & ?).
  unfold WriteRecvBytesDataToBuffer. rewrite Hb, Eu, Hp, Size_pack by lia.
  destruct (total =? totalLen_ h); cbn [negb]; [|done]. cbv zeta.
  pose proof (pack_append total acc data (packetLen_ h - payloadLen_ h) (payloadLen_ h)) as Hk.
  rewrite Size_pack in Hk by lia. rewrite Hk by lia. rewrite len_app, El.
  by destruct (total <? _).
Qed.
End Packet.

(** The second half of [ProcessRecvData]. *)
Definition finish (x : recv_result) : option (list recv_event * Receiver) :=
  match x with
  | RecvUB => None
  | RecvRet ret r' =>
      if negb (ret =? ERR_OK) then Some ([EvError ret], r')
      else match GetPacketedData r' with
           | (Some b, r'') => Some ([EvBytes b], r'')
           | (None, r'') => Some ([], r'')
           end
  end.

(** The step [x] of the receiver is the step [y] of the assembler. *)
Definition simulates (x : option (list recv_event * Receiver)) (y : cstate * list cevent) : Prop :=
  exists ev r', x = Some (ev, r') /\ refines r' (fst y) /\ map cev ev = snd y.

Lemma finish_error ret r c : ret <> ERR_OK -> refines r c -> simulates (finish (RecvRet ret r)) (c, [CError ret]).
Proof.
  intros Hr Hc. unfold finish. rewrite (proj2 (Z.eqb_neq _ _) Hr). cbn [negb].
  by exists [EvError ret], r.
Qed.

Lemma finish_reset ret r : ret <> ERR_OK -> simulates (finish (RecvRet ret (ResetFlag r))) (CIdle, [CError ret]).
Proof. intros. by apply finish_error. Qed.

Lemma finish_waiting r sub total acc :
  refines r (CAssembling sub total acc) -> simulates (finish (RecvRet ERR_OK r)) (CAssembling sub total acc, []).
Proof. intros H. exists [], r. split; [|done]. destruct H as [-> _]. done. Qed.

Lemma finish_ready r total acc :
  isWaiting_ r = false -> packBuffer_ r = Some (pack_of total acc) -> currentPos r = len acc ->
  len acc <= total < DSCHED_MAX_BUFFER_SIZE ->
  simulates (finish (RecvRet ERR_OK r)) (CIdle, [CBytes acc]).
Proof.
  intros Hw Hb Hp Hl. unfold finish, GetPacketedData, isDataReady. change (ERR_OK =? ERR_OK) with true.
  rewrite Hw, Hb, Hp. cbn [negb andb]. eexists _, _. split; [done|]. split; [done|].
  cbn [map cev]. by rewrite SetRange_pack.
Qed.
#[local] Hint Resolve finish_error finish_reset finish_waiting finish_ready : dms.

Lemma check_in_order r c h :
  refines r c -> header_wf h ->
  CheckRecvSessionHeader r h =
    if negb (seqNum_ h =? 0) then INVALID_SESSION_HEADER_SEQ_NUM
    else if negb (in_order c h) then INVALID_SESSION_HEADER_SUB_SEQ else ERR_OK.
Proof.
  intros Hc (_ & _ & _ & _ & _ & _ & _ & Hs). unfold CheckRecvSessionHeader, in_order.
  assert (nowSeqNum_ r = 0 /\ nowSubSeq_ r = now_sub c /\ is_u16 (now_sub c)) as (-> & -> & Hu).
  { destruct c as [|sub total acc]; cbn in Hc; [rewrite Hc; done|]. by destruct Hc as (-> & _ & ?). }
  rewrite (Z.eqb_sym 0), u32_id by zlia. destruct (seqNum_ h =? 0); cbn [negb]; [|done].
  by destruct (_ && _), (now_sub c + 1 =? subSeq_ h).
Qed.

Lemma payload_fits data h : header_wf h -> accepted h -> packetLen_ h <= len data ->
  len (payload data h) <= totalLen_ h.
Proof.
  intros Hw Ha Hl. destruct (payload_bounds data h Hw Ha Hl) as (_ & _ & _ & ->).
  destruct Ha as (_ & _ & ? & ?). change HEADER_LEN with 57 in *. lia.
Qed.

Definition delivers (e : cevent + list Z) : cstate * list cevent :=
  match e with
  | inl err => (CIdle, [err])
  | inr acc => (CIdle, [CBytes acc])
  end.
Definition keeps (h : DataHeader) (e : cevent + list Z) : cstate * list cevent :=
  match e with
  | inl err => (CIdle, [err])
  | inr acc => (CAssembling (subSeq_ h) (totalLen_ h) acc, [])
  end.

Section Step.
Variables (r : Receiver) (c : cstate) (data : list Z) (h : DataHeader).
Hypothesis Hc : refines r c.
Hypothesis Hw : header_wf h.
Hypothesis Ha : accepted h.
Hypothesis Hlen : packetLen_ h <= len data.

Lemma all_refines : simulates (finish (ProcessAllPacketRecv r data h)) (delivers (copen c h (payload data h))).
Proof.
  pose proof (payload_fits data h Hw Ha Hlen). unfold ProcessAllPacketRecv, copen, has_buffer.
  destruct c as [|sub total acc]; cbn in Hc.
  - pose proof (write_first r data h Hw Ha Hlen) as W. rewrite Hc in *. cbn in *. rewrite W by done.
    destruct (Z.ltb_spec (totalLen_ h) DSCHED_MAX_BUFFER_SIZE); cbn [delivers].
    + by apply (finish_ready _ (totalLen_ h)).
    + by apply finish_reset.
  - destruct Hc as [-> _]. by apply finish_reset.
Qed.

Lemma start_refines :
  seqNum_ h = 0 -> simulates (finish (ProcessStartPacketRecv r data h)) (keeps h (copen c h (payload data h))).
Proof.
  intros Hs. pose proof (payload_fits data h Hw Ha Hlen). unfold ProcessStartPacketRecv, copen, has_buffer.
  destruct c as [|sub total acc]; cbn in Hc.
  - pose proof (write_first r data h Hw Ha Hlen) as W. rewrite Hc in *. cbn in *. rewrite W by done.
    destruct (Z.ltb_spec (totalLen_ h) DSCHED_MAX_BUFFER_SIZE); cbn [keeps].
    + apply finish_waiting. cbn. rewrite Hs. split; [done|]. split; [lia|apply Hw].
    + by apply finish_reset.
  - destruct Hc as [-> _]. by apply finish_reset.
Qed.

Lemma mid_refines :
  seqNum_ h = 0 -> simulates (finish (ProcessMidPacketRecv r data h)) (keeps h (cappend c h (payload data h))).
Proof.
  intros Hs. unfold ProcessMidPacketRecv, cappend, has_buffer. destruct c as [|sub total acc]; cbn in Hc.
  - rewrite Hc. by apply finish_reset.
  - destruct Hc as (Er & Hl & Hu). pose proof (write_more r data h Hw Ha Hlen total acc) as W.
    rewrite Er in *. cbn in *. rewrite W by done.
    destruct (Z.eqb_spec total (totalLen_ h)) as [E|]; cbn [negb]; [|by apply finish_reset].
    destruct (Z.ltb_spec total (len acc + len (payload data h))); [by apply finish_reset|].
    cbn [keeps]. rewrite <- E. apply finish_waiting. cbn. rewrite Hs, len_app.
    split; [done|]. split; [lia|apply Hw].
Qed.

Lemma end_refines : simulates (finish (ProcessEndPacketRecv r data h)) (delivers (cappend c h (payload data h))).
Proof.
  unfold ProcessEndPacketRecv, cappend, has_buffer. destruct c as [|sub total acc]; cbn in Hc.
  - rewrite Hc. by apply finish_reset.
  - destruct Hc as (Er & Hl & Hu). pose proof (write_more r data h Hw Ha Hlen total acc) as W.
    rewrite Er in *. cbn in *. rewrite W by done.
    destruct (Z.eqb_spec total (totalLen_ h)) as [E|]; cbn [negb]; [|by apply finish_reset].
    destruct (Z.ltb_spec total (len acc + len (payload data h))); [by apply finish_reset|].
    cbn [delivers]. apply (finish_ready _ total); try done. rewrite len_app. lia.
Qed.
End Step.

Lemma parsed_refines g r c data h :
  refines r c -> Deserialize g (Some data) (len data) = Parsed h ->
  header_wf h -> accepted h -> packetLen_ h <= len data ->
  simulates (ProcessRecvData g r data) (cstep c h (payload data h)).
Proof.
  intros Hc E Hw Ha Hlen. change (ProcessRecvData g r data) with (finish (PackRecvPacketData g r data)).
  unfold PackRecvPacketData. rewrite E, (check_in_order r c h Hc Hw). unfold cstep, process_packet. cbv zeta.
  destruct (Z.eqb_spec (seqNum_ h) 0) as [Es|]; cbn [negb]; [|by apply finish_error].
  destruct (in_order c h); cbn [negb]; [|by apply finish_error].
  change (negb (ERR_OK =? ERR_OK)) with false. cbv iota.
  destruct (fragFlag_ h =? FRAG_START_END); [by apply all_refines|].
  destruct (fragFlag_ h =? FRAG_START); [by apply start_refines|].
  destruct (fragFlag_ h =? FRAG_MID); [by apply mid_refines|].
  destruct (fragFlag_ h =? FRAG_END); [by apply end_refines|]. by apply finish_error.
Qed.

(** ** Properties: the receiver *)

(** C33: on every packet that is at least as long as its header claims,
    whatever its bytes, the receiver of a channel stays inside its arrays and
    makes the step of the abstract assembler: a message is delivered when its
    last fragment arrives and consists of exactly the fragments' payloads in
    order; a fragment out of order or with another total length, an overflow of
    the announced length or a wrong flag is reported as the error the assembler
    names, and the latter three drop the message. *)
Theorem channel_receiver_refines g r c data :
  refines r c -> header_wf g -> Forall is_u8 data ->
  (forall h, Deserialize g (Some data) (len data) = Parsed h -> packetLen_ h <= len data) ->
  simulates (ProcessRecvData g r data) (crecv g c data).
Proof.
  intros Hc Hg Hd Hlen. pose proof (Deserialize_safe g data Hg Hd) as Hs. unfold crecv.
  destruct (Deserialize g (Some data) (len data)) as [h| | |] eqn:E; cbn in Hs; try done.
  - destruct Hs as (Hw & Ha & _). apply (parsed_refines g r c data h); auto.
  - change (ProcessRecvData g r data) with (finish (PackRecvPacketData g r data)).
    unfold PackRecvPacketData. rewrite E. by apply finish_error.
Qed.

Definition garbage0 : DataHeader := mkDataHeader 9 9 9 9 9 9 9 9.

Lemma channel_receiver_refines_witness :
  simulates (ProcessRecvData garbage0 Receiver_new (header_bytes (mkDataHeader 1 4 1 0 60 60 3 0) ++ [5; 6; 7]))
    (CIdle, [CBytes [5; 6; 7]]).
Proof.
  refine (channel_receiver_refines garbage0 Receiver_new CIdle
    (header_bytes (mkDataHeader 1 4 1 0 60 60 3 0) ++ [5; 6; 7]) _ _ _ _).
  - reflexivity.
  - unfold header_wf; cbn; zlia.
  - vm_compute. repeat constructor; discriminate.
  - intros h E. vm_compute in E. injection E as <-. vm_compute. discriminate.
Defined.

(** A packet: the header and what follows it. *)
Definition packet (h : DataHeader) (p : list Z) : list Z := header_bytes h ++ p.

(** The receiver does not compare the packet length of the header
    with the length of the packet: an idle receiver that gets a packet shorter
    than its header claims copies from beyond the end of the packet. *)
Theorem short_packet_overread g p h :
  header_wf h -> accepted h -> fragFlag_ h = FRAG_START_END -> seqNum_ h = 0 -> subSeq_ h = 0 ->
  totalLen_ h < DSCHED_MAX_BUFFER_SIZE -> HEADER_LEN + len p < packetLen_ h ->
  ProcessRecvData g Receiver_new (packet h p) = None.
Proof.
  unfold packet.
  intros Hw Ha Hf Hs Hu Ht Hp. pose proof (len_nonneg p). change HEADER_LEN with 57 in *.
  unfold ProcessRecvData, PackRecvPacketData.
  rewrite Deserialize_exact by (try done; rewrite len_app, len_channel_header; lia).
  unfold CheckRecvSessionHeader, process_packet. rewrite Hf, Hs, Hu.
  change (FRAG_START_END =? FRAG_START_END) with true. cbn [negb Z.eqb andb nowSeqNum_ nowSubSeq_ Receiver_new].
  change (ERR_OK =? ERR_OK) with true. cbn [negb]. unfold ProcessAllPacketRecv, WriteRecvBytesDataToBuffer. cbn [has_buffer isWaiting_ packBuffer_ orb].
  destruct Ha as (? & ? & ? & ?), Hw as (_ & _ & _ & _ & _ & Hk & Hl & _). change HEADER_LEN with 57 in *.
  rewrite AV_new, u32_id, buffer_new_small by zlia. unfold buf_write, memcpy_s, Size, Data. buf_simpl.
  unfold DSCHED_MAX_BUFFER_SIZE, RSIZE_MAX, is_u32 in *.
  rewrite len_zeros, u64_id, len_app, len_channel_header by lia. by zb_auto.
Qed.

Lemma short_packet_overread_witness :
  ProcessRecvData garbage0 Receiver_new (packet (mkDataHeader 1 4 1 0 1057 1057 1000 0) []) = None.
Proof.
  apply (short_packet_overread garbage0 [] (mkDataHeader 1 4 1 0 1057 1057 1000 0)); try reflexivity.
  - unfold header_wf; cbn; zlia.
  - repeat split; vm_compute; discriminate.
Defined.

(** ** Sender and receiver together *)

Lemma DoSendPacket_split env k h d off n :
  0 <= off -> 0 <= n -> 57 + n < DSCHED_MAX_BUFFER_SIZE ->
  DoSendPacket env k h (Some d) off n =
    if len d <? off + n then SendUB
    else Sent (if negb (SendBytes env k =? ERR_OK) then SEND_DATA_BY_SOFTBUS_FAILED else SendBytes env k)
           [packet h (slice d off n)].
Proof.
  intros Ho Hn Hx. unfold DoSendPacket. rewrite Serialize_spec, AV_new. change HEADER_LEN with 57.
  unfold DSCHED_MAX_BUFFER_SIZE in *.
  rewrite u32_id, buffer_new_small by (unfold DSCHED_MAX_BUFFER_SIZE; zlia).
  unfold Size, Data. buf_simpl. rewrite len_zeros by lia.
  erewrite buf_write_ok; buf_simpl; try reflexivity; rewrite ?len_zeros, ?len_channel_header; unfold RSIZE_MAX; try lia.
  rewrite <- (len_channel_header h) at 1. rewrite slice_all, zeros_app by lia.
  change (0 + 0) with (len (@nil Z)). change (zeros 57 ++ zeros n) with ([] ++ (zeros 57 ++ zeros n)).
  rewrite (splice_app [] (zeros 57) (header_bytes h)) by done. cbn [app].
  unfold buf_write, memcpy_s, Data. buf_simpl. rewrite u64_id by lia. unfold RSIZE_MAX.
  rewrite len_app, len_channel_header, len_zeros by lia.
  destruct (Z.ltb_spec (len d) (off + n)); zb_auto; [done|].
  do 2 f_equal. unfold contents. buf_simpl. unfold packet. rewrite Z.add_0_l, <- (len_channel_header h).
  rewrite splice_tail by (rewrite len_slice, len_zeros; lia). f_equal.
  rewrite <- (len_slice d off n) at 2 by lia. rewrite <- len_app. by apply slice_all.
Qed.

(** A packet whose header describes it. *)
Definition describes (h : DataHeader) (p : list Z) : Prop :=
  header_wf h /\ accepted h /\ packetLen_ h = 57 + payloadLen_ h /\ len p = payloadLen_ h.

Lemma packet_step g r c h p :
  refines r c -> describes h p -> simulates (ProcessRecvData g r (packet h p)) (cstep c h p).
Proof.
  intros Hc (Hw & Ha & Hk & Hp). unfold packet.
  assert (payload (header_bytes h ++ p) h = p) as Hy.
  { unfold payload. rewrite Hk, <- Hp. replace (57 + len p - len p) with (len (header_bytes h)) by (rewrite len_channel_header; lia).
    rewrite slice_app_r. apply slice_all. }
  rewrite <- Hy at 2. pose proof (len_nonneg p). apply parsed_refines; try done.
  - apply Deserialize_exact; try done. rewrite len_app, len_channel_header. lia.
  - rewrite len_app, len_channel_header. lia.
Qed.

Lemma simulates_cons g r p ps c' ev1 y :
  simulates (ProcessRecvData g r p) (c', ev1) ->
  (forall r', refines r' c' -> simulates (ProcessRecvData_all g r' ps) y) ->
  simulates (ProcessRecvData_all g r (p :: ps)) (fst y, ev1 ++ snd y).
Proof.
  intros (ev & r' & E & Hr & Hm) Hn. cbn [ProcessRecvData_all]. rewrite E.
  destruct (Hn r' Hr) as (evs & r'' & -> & Hr'' & Hm'). exists (ev ++ evs), r''.
  split; [done|]. split; [done|]. rewrite map_app. cbn in *. by rewrite Hm, Hm'.
Qed.

(** Softbus accepts every packet and reports one maximum. *)
Definition steady (env : ChannelEnv) (mx : Z) : Prop :=
  (forall k, GetSessionOption env k = (ERR_OK, mx)) /\ (forall k, SendBytes env k = ERR_OK).

Definition steady_env (mx : Z) : ChannelEnv := mkChannelEnv (fun _ => (ERR_OK, mx)) (fun _ => ERR_OK).

Lemma steady_env_ok mx : steady (steady_env mx) mx.
Proof. done. Qed.

Lemma DoSendPacket_steady env mx k h d off n :
  steady env mx -> 0 <= off -> 0 <= n -> 57 + n < DSCHED_MAX_BUFFER_SIZE -> off + n <= len d ->
  DoSendPacket env k h (Some d) off n = Sent ERR_OK [packet h (slice d off n)].
Proof.
  intros [_ Hs] **. rewrite DoSendPacket_split, Hs by lia. by zb_false (len d <? off + n).
Qed.

(** ** Properties: transfer *)

Lemma one_packet env mx g r d :
  steady env mx -> refines r CIdle -> len d + HEADER_LEN <= mx -> len d <= BINARY_PAYLOAD_MAX_LEN ->
  exists pkts, SendBytesData env (buffer_of d) = Sent ERR_OK pkts /\
    simulates (ProcessRecvData_all g r pkts) (CIdle, [CBytes d]).
Proof.
  intros He Hr Hm Hl. pose proof (len_nonneg d). unfold SendBytesData, SendUnpackData.
  rewrite (proj1 He). change HEADER_LEN with 57 in *. change (ERR_OK =? ERR_OK) with true.
  unfold Size, SendAllPackets, BINARY_PAYLOAD_MAX_LEN in *. cbn [negb]. buf_simpl. zb_true (len d + 57 <=? mx).
  change (rangeLength_ (buffer_of d)) with (len d). change HEADER_LEN with 57.
  rewrite (u32_id (len d + 57)), (u32_id (len d + 57 - 57)) by zlia. rewrite Z.add_simpl_r.
  set (h := mkDataHeader _ _ _ _ _ _ _ _). unfold Size. buf_simpl.
  rewrite (DoSendPacket_steady env mx) by (try done; unfold DSCHED_MAX_BUFFER_SIZE; lia).
  rewrite slice_all. eexists. split; [done|].
  assert (describes h d) as Hd.
  { unfold describes, header_wf, accepted, h, BINARY_PAYLOAD_MAX_LEN, BINARY_DATA_MAX_TOTAL_LEN, BYTES; cbn.
    change HEADER_LEN with 57. split_and!; try done; zlia. }
  apply (simulates_cons g r _ [] CIdle [CBytes d] (CIdle, [])).
  - pose proof (packet_step g r CIdle h d Hr Hd) as Hp. unfold cstep in Hp. cbn in Hp.
    unfold DSCHED_MAX_BUFFER_SIZE in Hp. zb_hyps. by rewrite (proj2 (Z.ltb_lt _ _)) in Hp by lia.
  - intros r' Hr'. by exists [], r'.
Qed.

(** A message of at most 4 MiB that fits one packet with its header
    is sent as one packet, and an idle receiver of the packet delivers exactly
    the message and is idle again. *)
Theorem single_packet_transfer env mx g r d :
  steady env mx -> refines r CIdle -> len d + HEADER_LEN <= mx -> len d <= BINARY_PAYLOAD_MAX_LEN ->
  exists pkts, SendBytesData env (buffer_of d) = Sent ERR_OK pkts /\
    simulates (ProcessRecvData_all g r pkts) (CIdle, [CBytes d]).
Proof. apply one_packet. Qed.

Lemma single_packet_transfer_witness :
  exists pkts, SendBytesData (steady_env 1024) (buffer_of (zeros 300)) = Sent ERR_OK pkts /\
    simulates (ProcessRecvData_all garbage0 Receiver_new pkts) (CIdle, [CBytes (zeros 300)]).
Proof.
  apply (single_packet_transfer (steady_env 1024) 1024 garbage0 Receiver_new (zeros 300));
    try reflexivity; try (vm_compute; discriminate). apply steady_env_ok.
Defined.

Section Fragments.
Variables (env : ChannelEnv) (g : DataHeader) (d : list Z) (n q : Z).
Hypothesis He : steady env (n + 57).
Hypothesis Hn : 0 < n <= BINARY_PAYLOAD_MAX_LEN.
Hypothesis Hd : n + 57 <= len d < DSCHED_MAX_BUFFER_SIZE.

Definition frag (flag k : Z) : DataHeader := mkDataHeader 1 flag BYTES 0 (len d) (n + 57) n k.

(** One turn of the loop: fragment [k], which either is inside the data or reads
    past its end. *)
Lemma send_loop_turn fuel k flag acc :
  0 < Z.of_nat k < 65536 ->
  send_loop (S fuel) env k (buffer_of d) (frag flag (Z.of_nat k - 1)) (Z.of_nat k * n) n acc =
    if len d <=? Z.of_nat k * n then Sent ERR_OK acc
    else
      let h := frag (if n <? len d - Z.of_nat k * n then FRAG_MID else FRAG_END) (Z.of_nat k) in
      if len d <? Z.of_nat k * n + n then SendUB
      else send_loop fuel env (S k) (buffer_of d) h (Z.of_nat (S k) * n) n
             (acc ++ [packet h (slice d (Z.of_nat k * n) n)]).
Proof.
  intros Hk. cbn [send_loop]. unfold Size. buf_simpl. destruct (len d <=? Z.of_nat k * n); [done|].
  rewrite (proj1 He). change (negb (ERR_OK =? ERR_OK)) with false. cbv iota. change HEADER_LEN with 57.
  unfold BINARY_PAYLOAD_MAX_LEN, DSCHED_MAX_BUFFER_SIZE in *.
  rewrite Z.add_simpl_r, u32_id by zlia. cbn [subSeq_ version_ dataType_ seqNum_ totalLen_ frag].
  rewrite Z.sub_add, u16_id by zlia. cbv zeta.
  set (h := frag (if n <? len d - Z.of_nat k * n then FRAG_MID else FRAG_END) (Z.of_nat k)).
  rewrite (DoSendPacket_split env k h) by (unfold DSCHED_MAX_BUFFER_SIZE; nia).
  rewrite Z.add_0_l. destruct (len d <? _); [done|]. rewrite (proj2 He).
  change (negb (ERR_OK =? ERR_OK)) with false. cbv iota. change (negb (ERR_OK =? ERR_OK)) with false. cbv iota.
  by replace (Z.of_nat k * n + n) with (Z.of_nat (S k) * n) by lia.
Qed.

Lemma send_start :
  SendBytesData env (buffer_of d) =
    send_loop (S (Z.to_nat (len d))) env 1 (buffer_of d) (frag FRAG_START 0) n n
      [packet (frag FRAG_START 0) (slice d 0 n)].
Proof.
  unfold SendBytesData, SendUnpackData. rewrite (proj1 He). change (negb (ERR_OK =? ERR_OK)) with false. cbv iota.
  unfold Size. buf_simpl. change HEADER_LEN with 57. zb_false (len d + 57 <=? n + 57).
  unfold BINARY_PAYLOAD_MAX_LEN, DSCHED_MAX_BUFFER_SIZE in *.
  rewrite Z.add_simpl_r, (u32_id n), (u32_id (len d)) by zlia.
  change (mkDataHeader _ _ _ _ _ _ _ _) with (frag FRAG_START 0).
  rewrite (DoSendPacket_steady env (n + 57)) by (try done; unfold DSCHED_MAX_BUFFER_SIZE; lia). done.
Qed.

Lemma channel_frag_describes flag k :
  is_u8 flag -> 0 <= k < 65536 -> (k + 1) * n <= len d -> describes (frag flag k) (slice d (k * n) n).
Proof.
  intros Hf Hk Hl. unfold describes, header_wf, accepted, frag, BYTES; cbn. change HEADER_LEN with 57.
  unfold BINARY_PAYLOAD_MAX_LEN, BINARY_DATA_MAX_TOTAL_LEN, DSCHED_MAX_BUFFER_SIZE in *.
  rewrite len_slice by lia. split_and!; try done; zlia.
Qed.

Section Whole.
Hypothesis Hq : len d = q * n.
Hypothesis Hmax : q <= 65536.

(** [k] fragments have arrived. *)
Definition after (k : nat) : cstate := CAssembling (Z.of_nat k - 1) (len d) (slice d 0 (Z.of_nat k * n)).

Lemma slice_step k : slice d 0 (Z.of_nat k * n) ++ slice d (Z.of_nat k * n) n = slice d 0 (Z.of_nat (S k) * n).
Proof.
  pose proof (slice_adjacent d 0 (Z.of_nat k * n) n ltac:(lia) ltac:(lia) ltac:(lia)) as H.
  rewrite Z.add_0_l in H. rewrite H. f_equal. lia.
Qed.

Lemma len_after k : Z.of_nat k <= q -> len (slice d 0 (Z.of_nat k * n)) = Z.of_nat k * n.
Proof. intros. apply len_slice; nia. Qed.

Lemma mid_step k : (0 < k)%nat -> Z.of_nat k + 1 <= q ->
  forall flag, flag = FRAG_MID \/ flag = FRAG_END ->
  cstep (after k) (frag flag (Z.of_nat k)) (slice d (Z.of_nat k * n) n) =
    if flag =? FRAG_END then (CIdle, [CBytes (slice d 0 (Z.of_nat (S k) * n))]) else (after (S k), []).
Proof.
  intros Hk Hkq flag Hf. pose proof (len_after k ltac:(lia)) as Hl.
  unfold cstep, in_order, cappend, after, now_sub. cbn [seqNum_ subSeq_ fragFlag_ totalLen_ frag].
  rewrite Hl, len_slice by nia. rewrite (Z.eqb_refl (len d)). cbn [negb Z.eqb].
  zb_true (Z.of_nat k - 1 + 1 =? Z.of_nat k). rewrite orb_true_r. cbn [negb].
  assert (Z.of_nat k * n + n <= len d) by nia.
  zb_false (len d <? Z.of_nat k * n + n). rewrite slice_step.
  replace (Z.of_nat (S k) - 1) with (Z.of_nat k) by lia. by destruct Hf as [-> | ->].
Qed.

Lemma send_loop_whole fuel : forall k flag acc,
  (0 < k)%nat -> Z.of_nat k <= q -> len d - Z.of_nat k * n < Z.of_nat fuel ->
  exists pkts,
    send_loop fuel env k (buffer_of d) (frag flag (Z.of_nat k - 1)) (Z.of_nat k * n) n acc = Sent ERR_OK (acc ++ pkts) /\
    (Z.of_nat k < q -> forall r, refines r (after k) ->
      simulates (ProcessRecvData_all g r pkts) (CIdle, [CBytes d])) /\ (Z.of_nat k = q -> pkts = []).
Proof.
  induction fuel as [|fuel IH]; intros k flag acc Hk Hkq Hf; [nia|].
  destruct (Z.eq_dec (Z.of_nat k) q) as [E|E].
  { exists []. rewrite app_nil_r. split; [|split; [lia|done]]. cbn [send_loop]. unfold Size. buf_simpl.
    rewrite E, <- Hq. by rewrite Z.leb_refl. }
  assert (Z.of_nat k * n + n <= len d) by nia.
  rewrite send_loop_turn by lia. zb_false (len d <=? Z.of_nat k * n). cbv zeta.
  zb_false (len d <? Z.of_nat k * n + n).
  set (fl := if n <? len d - Z.of_nat k * n then FRAG_MID else FRAG_END).
  set (p := packet (frag fl (Z.of_nat k)) (slice d (Z.of_nat k * n) n)).
  destruct (IH (S k) fl (acc ++ [p])) as (pkts & Es & Hsim & Hend); [lia|lia|nia|].
  replace (Z.of_nat (S k) - 1) with (Z.of_nat k) in Es by lia.
  exists (p :: pkts). split; [by rewrite Es, <- app_assoc|]. split; [|lia]. intros _ r Hr.
  assert (fl = FRAG_MID \/ fl = FRAG_END) as Hfl by (unfold fl; destruct (n <? _); auto).
  assert (describes (frag fl (Z.of_nat k)) (slice d (Z.of_nat k * n) n)) as Hdesc.
  { apply channel_frag_describes; [by destruct Hfl as [-> | ->]|lia|nia]. }
  pose proof (packet_step g r _ _ _ Hr Hdesc) as Hp. rewrite mid_step in Hp by (done || lia). fold p in Hp.
  clearbody p. unfold fl in Hp. destruct (Z.ltb_spec n (len d - Z.of_nat k * n)).
  - change (FRAG_MID =? FRAG_END) with false in Hp. cbv iota in Hp.
    apply (simulates_cons g r p pkts _ [] (CIdle, [CBytes d]) Hp). intros r'. apply Hsim. nia.
  - change (FRAG_END =? FRAG_END) with true in Hp. cbv iota in Hp.
    assert (Z.of_nat (S k) = q) as Eq by nia. rewrite (Hend Eq), Eq, <- Hq, slice_all in *.
    apply (simulates_cons g r p [] CIdle [CBytes d] (CIdle, []) Hp). intros r' Hr'. by exists [], r'.
Qed.

Lemma whole_fragments r : refines r CIdle ->
  exists pkts, SendBytesData env (buffer_of d) = Sent ERR_OK pkts /\
    simulates (ProcessRecvData_all g r pkts) (CIdle, [CBytes d]).
Proof.
  intros Hr. rewrite send_start. set (p := packet (frag FRAG_START 0) (slice d 0 n)).
  destruct (send_loop_whole (S (Z.to_nat (len d))) 1 FRAG_START [p]) as (pkts & Es & Hsim & _); [lia|nia|lia|].
  change (Z.of_nat 1 - 1) with 0 in Es. replace (Z.of_nat 1 * n) with n in Es by lia. rewrite Es.
  exists (p :: pkts). split; [done|].
  pose proof (packet_step g r CIdle _ _ Hr (channel_frag_describes FRAG_START 0 ltac:(done) ltac:(lia) ltac:(lia))) as Hp.
  rewrite Z.mul_0_l in Hp. unfold cstep, copen in Hp. cbn in Hp. rewrite (proj2 (Z.ltb_lt _ _)) in Hp by lia.
  apply (simulates_cons g r p pkts _ [] (CIdle, [CBytes d]) Hp). intros r' Hr'. apply Hsim; [nia|].
  unfold after. by replace (Z.of_nat 1 * n) with n by lia.
Qed.
End Whole.

Lemma send_loop_tail fuel : forall k flag acc,
  len d mod n <> 0 -> len d / n < 65536 -> (0 < k)%nat -> Z.of_nat k * n < len d -> len d - Z.of_nat k * n < Z.of_nat fuel ->
  send_loop fuel env k (buffer_of d) (frag flag (Z.of_nat k - 1)) (Z.of_nat k * n) n acc = SendUB.
Proof.
  induction fuel as [|fuel IH]; intros k flag acc Hm Hb Hk Hl Hf; [lia|].
  assert (Z.of_nat k <= len d / n) by (apply Z.div_le_lower_bound; lia).
  rewrite send_loop_turn by lia. zb_false (len d <=? Z.of_nat k * n). cbv zeta.
  destruct (Z.ltb_spec (len d) (Z.of_nat k * n + n)); [done|].
  assert (Z.of_nat k * n + n <> len d).
  { intros E. apply Hm. replace (len d) with ((Z.of_nat k + 1) * n) by lia. apply Z.mod_mul. lia. }
  pose proof (IH (S k) (if n <? len d - Z.of_nat k * n then FRAG_MID else FRAG_END)
    (acc ++ [packet (frag (if n <? len d - Z.of_nat k * n then FRAG_MID else FRAG_END) (Z.of_nat k))
       (slice d (Z.of_nat k * n) n)]) Hm Hb) as Hi.
  replace (Z.of_nat (S k) - 1) with (Z.of_nat k) in Hi by lia. apply Hi; lia.
Qed.

Lemma tail_fragment : len d mod n <> 0 -> len d / n < 65536 -> SendBytesData env (buffer_of d) = SendUB.
Proof.
  intros Hm Hb. rewrite send_start.
  pose proof (send_loop_tail (S (Z.to_nat (len d))) 1 FRAG_START [packet (frag FRAG_START 0) (slice d 0 n)] Hm Hb) as H.
  change (Z.of_nat 1 - 1) with 0 in H. replace (Z.of_nat 1 * n) with n in H by lia. apply H; lia.
Qed.
End Fragments.

(** A longer message whose length is a multiple of the payload of a
    packet ([n], the maximum less the header; at most 65536 fragments) is sent
    without error, and an idle receiver of the packets in order delivers exactly
    this message, once, and is idle again. *)
Theorem fragmented_transfer env g r d n q :
  steady env (n + HEADER_LEN) -> refines r CIdle -> 0 < n <= BINARY_PAYLOAD_MAX_LEN ->
  n + HEADER_LEN <= len d < DSCHED_MAX_BUFFER_SIZE -> len d = q * n -> q <= 65536 ->
  exists pkts, SendBytesData env (buffer_of d) = Sent ERR_OK pkts /\
    simulates (ProcessRecvData_all g r pkts) (CIdle, [CBytes d]).
Proof. intros. by apply (whole_fragments env g d n q). Qed.

Lemma fragmented_transfer_witness :
  exists pkts, SendBytesData (steady_env 157) (buffer_of (zeros 300)) = Sent ERR_OK pkts /\
    simulates (ProcessRecvData_all garbage0 Receiver_new pkts) (CIdle, [CBytes (zeros 300)]).
Proof.
  apply (fragmented_transfer (steady_env 157) garbage0 Receiver_new (zeros 300) 100 3);
    try reflexivity; try (split; vm_compute; reflexivity || discriminate); try (vm_compute; discriminate).
Defined.

(** The last fragment is copied with the length of a full one: every
    longer message whose length is not a multiple of the payload of a packet
    makes the sender read past the end of the message. *)
Theorem last_fragment_overread env d n :
  steady env (n + HEADER_LEN) -> 0 < n <= BINARY_PAYLOAD_MAX_LEN ->
  n + HEADER_LEN <= len d < DSCHED_MAX_BUFFER_SIZE -> len d mod n <> 0 -> len d / n < 65536 ->
  SendBytesData env (buffer_of d) = SendUB.
Proof. intros. by apply (tail_fragment env d n). Qed.

Lemma last_fragment_overread_witness : SendBytesData (steady_env 157) (buffer_of (zeros 301)) = SendUB.
Proof.
  apply (last_fragment_overread (steady_env 157) (zeros 301) 100);
    try reflexivity; try (split; vm_compute; reflexivity || discriminate); try (vm_compute; discriminate).
Defined.
