(* ===== verification/MessageHeader.v ===== *)
(** The header of a message between two applications:
    services/dtbcollabmgr/src/ability_connection_manager/message_data_header.cpp.
    Three items, 22 bytes; reading and writing items is the code of the packet header
    of the channel (CollabHeader). *)

From S2P Require Import Prelude DataBuffer SchedErrors Tlv CollabHeader.

Module Message.

Definition TLV_TYPE_VERSION : Z := 1001.
Definition TLV_TYPE_DATA_TYPE : Z := 1002.
Definition TLV_TYPE_TOTAL_LEN : Z := 1003.
Definition HEADER_LEN : Z := 2 * 2 * 3 + 2 * 1 + 4 * 2.
Definition BASE_HEADER_LEN : Z := 2 * 2 * 3 + 2 * 1 + 4 * 2.

Record MessageDataHeader := mkMessageHeader { version_ : Z; dataType_ : Z; totalLen_ : Z }.

(** ** Writer *)

Definition Msg_WriteTlvItemToBuffer : TlvItem -> list Z -> Z -> Z -> option (Z * list Z) := WriteTlvItemToBuffer.

(** [WriteVersion], [WriteDataType] and [WriteTotalLen]. *)
Definition header_items (h : MessageDataHeader) : list TlvItem :=
  [mkTlv TLV_TYPE_VERSION 2 (version_ h); mkTlv TLV_TYPE_DATA_TYPE 4 (dataType_ h);
   mkTlv TLV_TYPE_TOTAL_LEN 4 (totalLen_ h)].

Definition Serialize (h : MessageDataHeader) : option DataBuffer :=
  let buffer := AVTransDataBuffer_new HEADER_LEN in
  match Data buffer with
  | None => None
  | Some d =>
      match write_items (header_items h) d 0 HEADER_LEN with
      | None => None
      | Some d' => Some (mkDataBuffer (capacity_ buffer) (rangeOffset_ buffer) (rangeLength_ buffer) (Some d'))
      end
  end.

(** ** Reader *)

(** The [switch] of [ReadTlvItemFromBuffer]. *)
Definition read_item (h : MessageDataHeader) (ty : Z) (ptr : list Z) (n : Z) : read_result MessageDataHeader :=
  let 'mkMessageHeader ve dt tl := h in
  if ty =? TLV_TYPE_VERSION then read_map (fun v => mkMessageHeader v dt tl) (read_header_field 2 ve ptr n)
  else if ty =? TLV_TYPE_DATA_TYPE then read_map (fun v => mkMessageHeader ve v tl) (read_header_field 4 dt ptr n)
  else if ty =? TLV_TYPE_TOTAL_LEN then read_map (fun v => mkMessageHeader ve dt v) (read_header_field 4 tl ptr n)
  else ReadErr READ_TLV_ITEM_FROM_BUFFER_FAILED.

Definition ReadTlvItemFromBuffer (ptr : list Z) (h : MessageDataHeader) (left : Z) : read_result (MessageDataHeader * Z) :=
  match U16Get ptr, U16Get (drop 2 ptr) with
  | Some ty, Some n =>
      if left <? 4 + n then ReadErr READ_TLV_ITEM_FROM_BUFFER_FAILED
      else read_map (fun h' => (h', n)) (read_item h ty (drop 4 ptr) n)
  | _, _ => ReadUB
  end.

Inductive parse_result := Parsed (h : MessageDataHeader) | Nullopt | ParseUB | ParseOutOfFuel.

(** The loop of [Deserialize]; every item takes at least four bytes. *)
Fixpoint read_loop (fuel : nat) (ptr : list Z) (h : MessageDataHeader) (current : Z) : parse_result :=
  match fuel with
  | O => ParseOutOfFuel
  | S fuel' =>
      if current + 4 <? BASE_HEADER_LEN then
        match ReadTlvItemFromBuffer (drop (Z.to_nat current) ptr) h (BASE_HEADER_LEN - current) with
        | ReadOk (h', n) => read_loop fuel' ptr h' (current + 4 + n)
        | ReadErr _ => Nullopt
        | ReadUB => ParseUB
        end
      else Parsed h
  end.

(** [garbage]: the fields without a default. *)
Definition Deserialize (garbage : MessageDataHeader) (buffer : option (list Z)) (bufLen : Z) : parse_result :=
  match buffer with
  | None => Nullopt
  | Some ptr =>
      if bufLen <? HEADER_LEN then Nullopt
      else read_loop 6 ptr (mkMessageHeader PROTOCOL_VERSION (dataType_ garbage) (totalLen_ garbage)) 0
  end.

(** ** Writing and reading *)

Definition header_bytes (h : MessageDataHeader) : list Z := items_bytes (header_items h).
Definition header_wf (h : MessageDataHeader) : Prop := is_u16 (version_ h) /\ is_u32 (dataType_ h) /\ is_u32 (totalLen_ h).

Lemma len_message_header h : len (header_bytes h) = 22.
Proof. done. Qed.

Lemma message_Serialize_spec h : Serialize h = Some (buffer_of (header_bytes h)).
Proof.
  unfold Serialize. change (AVTransDataBuffer_new HEADER_LEN) with (buffer_of (zeros 22)). cbn [Data data_ buffer_of].
  assert (Forall (fun t => 0 <= tlen t <= 4) (header_items h)) as Hts by (by repeat constructor).
  pose proof (channel_items_written (header_items h) [] (zeros 22) 22 Hts) as H. cbn [app] in H.
  change HEADER_LEN with 22. change (len (@nil Z)) with 0 in H.
  rewrite H by (fold (header_bytes h); rewrite len_message_header; done). done.
Qed.

(** One item of the expected size. *)
Lemma read_message_field n old v rest : (n <= 4)%nat -> 0 <= v < 256 ^ Z.of_nat n ->
  read_header_field n old (le_bytes n v ++ rest) (Z.of_nat n) = ReadOk v.
Proof. intros Hn Hv. unfold read_header_field. by rewrite read_field_exact. Qed.

Lemma read_item_cases h p n :
  read_item h 1001 p n = read_map (fun v => mkMessageHeader v (dataType_ h) (totalLen_ h)) (read_header_field 2 (version_ h) p n) /\
  read_item h 1002 p n = read_map (fun v => mkMessageHeader (version_ h) v (totalLen_ h)) (read_header_field 4 (dataType_ h) p n) /\
  read_item h 1003 p n = read_map (fun v => mkMessageHeader (version_ h) (dataType_ h) v) (read_header_field 4 (totalLen_ h) p n).
Proof. by destruct h. Qed.

Lemma read_message_item h ty n v rest left f :
  is_u16 ty -> (n <= 4)%nat -> 0 <= v < 256 ^ Z.of_nat n -> 4 + Z.of_nat n <= left ->
  read_item h ty (le_bytes n v ++ rest) (Z.of_nat n) = ReadOk (f v) ->
  ReadTlvItemFromBuffer (tlv_bytes (mkTlv ty (Z.of_nat n) v) ++ rest) h left = ReadOk (f v, Z.of_nat n).
Proof.
  intros Hty Hn Hv Hl Hr. unfold ReadTlvItemFromBuffer, tlv_bytes, U16Get. cbn [app skipn tlen type value].
  rewrite !u16_join by (unfold is_u16 in *; lia). zb_auto. by rewrite drop_0, Nat2Z.id, Hr.
Qed.

Lemma Deserialize_message g h rest : header_wf h ->
  Deserialize g (Some (header_bytes h ++ rest)) (len (header_bytes h ++ rest)) = Parsed h.
Proof.
  intros (Hv & Hd & Ht). unfold Deserialize. pose proof (len_nonneg rest).
  rewrite len_app, len_message_header. change HEADER_LEN with 22. zb_false (22 + len rest <? 22).
  destruct h as [ve dt tl]; cbn [version_ dataType_ totalLen_] in *.
  set (h0 := mkMessageHeader PROTOCOL_VERSION _ _).
  assert (header_bytes (mkMessageHeader ve dt tl) ++ rest =
    tlv_bytes (mkTlv 1001 (Z.of_nat 2) ve) ++ tlv_bytes (mkTlv 1002 (Z.of_nat 4) dt) ++ tlv_bytes (mkTlv 1003 (Z.of_nat 4) tl) ++ rest) as ->.
  { done. }
  cbn [read_loop]. change (0 + 4 <? BASE_HEADER_LEN) with true. cbv iota. change (Z.to_nat 0) with 0%nat. rewrite drop_0.
  rewrite (read_message_item h0 1001 2 ve _ _ (fun v => mkMessageHeader v (dataType_ h0) (totalLen_ h0)));
    [|done|lia|exact Hv|done|by rewrite (proj1 (read_item_cases _ _ _)), read_message_field by (lia || exact Hv)].
  change (0 + 4 + Z.of_nat 2 + 4 <? BASE_HEADER_LEN) with true. cbv iota.
  change (Z.to_nat (0 + 4 + Z.of_nat 2)) with (length (tlv_bytes (mkTlv 1001 (Z.of_nat 2) ve))). rewrite drop_app_length.
  rewrite (read_message_item _ 1002 4 dt _ _ (fun v => mkMessageHeader ve v (totalLen_ h0)));
    [|done|lia|exact Hd|done|by rewrite (proj1 (proj2 (read_item_cases _ _ _))), read_message_field by (lia || exact Hd)].
  change (0 + 4 + Z.of_nat 2 + 4 + Z.of_nat 4 + 4 <? BASE_HEADER_LEN) with true. cbv iota.
  change (Z.to_nat (0 + 4 + Z.of_nat 2 + 4 + Z.of_nat 4))
    with (length (tlv_bytes (mkTlv 1001 (Z.of_nat 2) ve) ++ tlv_bytes (mkTlv 1002 (Z.of_nat 4) dt))).
  rewrite (app_assoc (tlv_bytes (mkTlv 1001 (Z.of_nat 2) ve))), drop_app_length.
  rewrite (read_message_item _ 1003 4 tl _ _ (fun v => mkMessageHeader ve dt v));
    [|done|lia|exact Ht|done|by rewrite (proj2 (proj2 (read_item_cases _ _ _))), read_message_field by (lia || exact Ht)].
  done.
Qed.

(** ** Any bytes *)

Lemma msg_item_safe h ty ptr n : header_wf h -> Forall is_u8 ptr -> 0 <= n <= len ptr -> read_safe header_wf (read_item h ty ptr n).
Proof.
  intros (Hv & Hd & Ht) Hp Hn. destruct h as [ve dt tl]; cbn [version_ dataType_ totalLen_] in *. unfold read_item.
  assert (forall k old, (k <= 4)%nat -> read_safe (fun v => 0 <= v < 256 ^ Z.of_nat k) (read_header_field k old ptr n)) as Hf.
  { intros k old Hk. unfold read_header_field. pose proof (read_field_safe k old ptr n Hk Hp Hn). by destruct (read_field k old ptr n). }
  repeat case_match; try done; (eapply read_safe_map; [apply Hf; lia|]); intros v Hv'; by repeat split; try apply Hv'; try apply Hv; try apply Hd; try apply Ht.
Qed.

Lemma msg_loop_safe fuel : forall ptr h current, header_wf h -> Forall is_u8 ptr -> 22 <= len ptr -> 0 <= current <= 22 ->
  22 - current < 4 * Z.of_nat fuel ->
  match read_loop fuel ptr h current with Parsed h' => header_wf h' | Nullopt => True | _ => False end.
Proof.
  induction fuel as [|fuel IH]; intros ptr h current Hh Hp Hl Hc Hf; [lia|]. cbn [read_loop]. change BASE_HEADER_LEN with 22.
  destruct (Z.ltb_spec (current + 4) 22) as [Hlt|]; [|done].
  set (p := drop (Z.to_nat current) ptr). assert (len p = len ptr - current) as Hlp by (apply len_drop; lia).
  assert (Forall is_u8 p) as Hpp by (by apply Forall_drop).
  unfold ReadTlvItemFromBuffer.
  destruct (U16Get_safe p Hpp ltac:(lia)) as (ty & -> & _).
  destruct (U16Get_safe (drop 2 p)) as (n & -> & Hn); [by apply Forall_drop|change (drop 2 p) with (drop (Z.to_nat 2) p); rewrite len_drop; lia|].
  destruct (Z.ltb_spec (22 - current) (4 + n)); [done|]. destruct Hn as [Hn _].
  pose proof (msg_item_safe h ty (drop 4 p) n Hh) as Hs.
  assert (len (drop 4 p) = len p - 4) as Hl4 by (change (drop 4 p) with (drop (Z.to_nat 4) p); rewrite len_drop; lia).
  specialize (Hs ltac:(by apply Forall_drop) ltac:(lia)).
  destruct (read_item h ty (drop 4 p) n) as [h'|e|]; cbn [read_map] in *; [|done|done].
  apply IH; try done; lia.
Qed.

(** The parser of the header of a message ends on every buffer of bytes,
    reads inside it and yields fields that fit their types; what the writer wrote is
    read back whatever follows it. *)
Theorem message_header_codec g buffer :
  is_u32 (dataType_ g) -> is_u32 (totalLen_ g) -> Forall is_u8 buffer ->
  match Deserialize g (Some buffer) (len buffer) with Parsed h => header_wf h | Nullopt => True | _ => False end /\
  (forall h, header_wf h -> exists b, Serialize h = Some b /\ len (contents b) = HEADER_LEN /\
     Deserialize g (Some (contents b ++ buffer)) (len (contents b ++ buffer)) = Parsed h).
Proof.
  intros Hd Ht Hb. split.
  - unfold Deserialize. change HEADER_LEN with 22. destruct (Z.ltb_spec (len buffer) 22); [done|].
    apply msg_loop_safe; try done; lia.
  - intros h Hh. exists (buffer_of (header_bytes h)). split; [apply message_Serialize_spec|].
    assert (contents (buffer_of (header_bytes h)) = header_bytes h) as -> by (unfold contents; buf_simpl; apply slice_all).
    split; [done|]. by apply Deserialize_message.
Qed.

Definition garbage0 : MessageDataHeader := mkMessageHeader 1 0 0.

Lemma message_header_codec_witness :
  exists b, Serialize (mkMessageHeader 1 9 300) = Some b /\ len (contents b) = HEADER_LEN /\
    Deserialize garbage0 (Some (contents b ++ [7])) (len (contents b ++ [7])) = Parsed (mkMessageHeader 1 9 300).
Proof.
  refine (proj2 (message_header_codec garbage0 [7] _ _ _) (mkMessageHeader 1 9 300) _);
    unfold header_wf, is_u32, is_u16; cbn; try lia. repeat constructor; lia.
Defined.
End Message.
