(* ===== verification/StreamData.v ===== *)
(** A frame of a video stream and the JSON text that travels beside it:
    services/dtbcollabmgr/src/channel_manager/av_trans_stream_data.cpp.

    Times are 64-bit numbers and travel as decimal texts. *)

From S2P Require Import Prelude DataBuffer SchedErrors SchedUtils Json CollabHeader CollabChannel.
From Stdlib Require Import Ascii.
#[local] Open Scope string_scope.
#[local] Open Scope list_scope.
#[local] Open Scope Z_scope.

(** ** Data *)

Definition NULL_POINTER_ERROR : Z := DMS_SERVICE_ERR_OFFSET + 1.
Definition PARSE_AV_TRANS_STREAM_EXT_FAILED : Z := DMS_SERVICE_ERR_OFFSET + 37.

Definition AVCODEC_BUFFER_FLAG_NONE : Z := 0.
Definition AVCODEC_BUFFER_FLAG_CODEC_DATA : Z := 4.
Definition AVCODEC_BUFFER_FLAG_PIXEL_MAP : Z := 5.
Definition AVCODEC_BUFFER_FLAG_SURFACE_PARAM : Z := 6.

Record SurfaceParam := mkSurfaceParam { rotate : Z; filp : Z }.
Record PixelMapPackOption := mkPixelMapPackOption { quality : Z; width : Z; height : Z }.

(** The enumerations keep their 32-bit numbers: a cast of a received number need
    not be one of the names. *)
Record AVTransStreamDataExt := mkStreamExt {
  flag_ : Z;
  index_ : Z;
  pts_ : Z;
  startEncodeT_ : Z;
  finishEncodeT_ : Z;
  sendEncodeT_ : Z;
  pixelMapOption_ : PixelMapPackOption;
  surfaceParam_ : SurfaceParam;
}.
Definition StreamExt_default : AVTransStreamDataExt :=
  mkStreamExt AVCODEC_BUFFER_FLAG_CODEC_DATA 0 0 0 0 0 (mkPixelMapPackOption 100 0 0) (mkSurfaceParam 0 0).

Record AVTransStreamData := mkStreamData { StreamData : DataBuffer; GetStreamDataExt : AVTransStreamDataExt }.

(** ** Writing *)

Definition WriteExtPixelMapPackOptionToJson (e : AVTransStreamDataExt) : string * json :=
  ("pixel_map", JObject [num "quality" (quality (pixelMapOption_ e)); num "width" (width (pixelMapOption_ e));
                         num "height" (height (pixelMapOption_ e))]).
Definition WriteExtSurfaceParamToJson (e : AVTransStreamDataExt) : string * json :=
  ("surface_param", JObject [num "rotate" (rotate (surfaceParam_ e)); num "filp" (filp (surfaceParam_ e))]).

Definition SerializeStreamDataExt (e : AVTransStreamDataExt) : json :=
  JObject
    ([num "flag" (flag_ e); num "index" (index_ e)]
     ++ if flag_ e =? AVCODEC_BUFFER_FLAG_PIXEL_MAP then [WriteExtPixelMapPackOptionToJson e]
        else if flag_ e =? AVCODEC_BUFFER_FLAG_SURFACE_PARAM then [WriteExtSurfaceParamToJson e]
        else [str "pts" (to_string (pts_ e)); str "startEncodeT" (to_string (startEncodeT_ e));
              str "finishEncodeT" (to_string (finishEncodeT_ e)); str "sendEncodeT" (to_string (sendEncodeT_ e))]).

(** ** Reading *)

(** A member that is missing or of another kind leaves the field as it is. *)
Definition read_u32 (root : json) (key : string) (old : Z) : Z :=
  match get_number root key with Some n => u32 n | None => old end.
Definition read_time (root : json) (key : string) (old : Z) : Z :=
  match get_string root key with Some s => strtoull s | None => old end.
(** [cJSON_GetNumberValue] does not saturate; the cast of a number outside the type
    is taken as the one of the integers. *)
Definition read_value (root : json) (key : string) (cast : Z -> Z) (old : Z) : Z :=
  match GetObjectItem root key with Some (JNumber n) => cast n | _ => old end.

Definition ReadExtPixelMapPackOptionToJson (o : PixelMapPackOption) (root : json) : PixelMapPackOption :=
  match GetObjectItem root "pixel_map" with
  | Some j => mkPixelMapPackOption (read_value j "quality" u8 (quality o)) (read_value j "width" u32 (width o))
                (read_value j "height" u32 (height o))
  | None => o
  end.
Definition ReadExtSurfaceParamToJson (p : SurfaceParam) (root : json) : SurfaceParam :=
  match GetObjectItem root "surface_param" with
  | Some (JObject l) => mkSurfaceParam (read_u32 (JObject l) "rotate" (rotate p)) (read_u32 (JObject l) "filp" (filp p))
  | _ => p
  end.

Definition DeserializeExtFromJson (e : AVTransStreamDataExt) (root : json) : AVTransStreamDataExt :=
  let flag := read_u32 root "flag" (flag_ e) in
  let index := read_u32 root "index" (index_ e) in
  if flag =? AVCODEC_BUFFER_FLAG_PIXEL_MAP then
    mkStreamExt flag index (pts_ e) (startEncodeT_ e) (finishEncodeT_ e) (sendEncodeT_ e)
      (ReadExtPixelMapPackOptionToJson (pixelMapOption_ e) root) (surfaceParam_ e)
  else if flag =? AVCODEC_BUFFER_FLAG_SURFACE_PARAM then
    mkStreamExt flag index (pts_ e) (startEncodeT_ e) (finishEncodeT_ e) (sendEncodeT_ e)
      (pixelMapOption_ e) (ReadExtSurfaceParamToJson (surfaceParam_ e) root)
  else
    mkStreamExt flag index (read_time root "pts" (pts_ e)) (read_time root "startEncodeT" (startEncodeT_ e))
      (read_time root "finishEncodeT" (finishEncodeT_ e)) (read_time root "sendEncodeT" (sendEncodeT_ e))
      (pixelMapOption_ e) (surfaceParam_ e).

Section Codec.
Context {CJ : CJson}.

(** [None]: the null pointer. *)
Definition DeserializeStreamDataExt (e : AVTransStreamDataExt) (data : option string) : Z * AVTransStreamDataExt :=
  match data with
  | None => (NULL_POINTER_ERROR, e)
  | Some data =>
      match cJSON_Parse (c_str data) with
      | None => (PARSE_AV_TRANS_STREAM_EXT_FAILED, e)
      | Some root => (ERR_OK, DeserializeExtFromJson e root)
      end
  end.
End Codec.

(** ** Round trip *)

(** The fields that travel with the flag; the others keep their defaults. *)
Definition sent_ext (e : AVTransStreamDataExt) : AVTransStreamDataExt :=
  let d := StreamExt_default in
  if flag_ e =? AVCODEC_BUFFER_FLAG_PIXEL_MAP then
    mkStreamExt (flag_ e) (index_ e) (pts_ d) (startEncodeT_ d) (finishEncodeT_ d) (sendEncodeT_ d)
      (pixelMapOption_ e) (surfaceParam_ d)
  else if flag_ e =? AVCODEC_BUFFER_FLAG_SURFACE_PARAM then
    mkStreamExt (flag_ e) (index_ e) (pts_ d) (startEncodeT_ d) (finishEncodeT_ d) (sendEncodeT_ d)
      (pixelMapOption_ d) (surfaceParam_ e)
  else mkStreamExt (flag_ e) (index_ e) (pts_ e) (startEncodeT_ e) (finishEncodeT_ e) (sendEncodeT_ e)
         (pixelMapOption_ d) (surfaceParam_ d).

Definition is_u31 (x : Z) : Prop := 0 <= x < 2147483648.
Definition is_time (x : Z) : Prop := 0 <= x <= ULLONG_MAX.

(** The values of the types, except that an index from 2^31 on does not survive. *)
Definition wf_ext (e : AVTransStreamDataExt) : Prop :=
  is_u31 (flag_ e) /\ is_u31 (index_ e) /\ is_time (pts_ e) /\ is_time (startEncodeT_ e) /\ is_time (finishEncodeT_ e) /\
  is_time (sendEncodeT_ e) /\ is_u8 (quality (pixelMapOption_ e)) /\ is_u32 (width (pixelMapOption_ e)) /\
  is_u32 (height (pixelMapOption_ e)) /\ is_u31 (rotate (surfaceParam_ e)) /\ is_u31 (filp (surfaceParam_ e)).

Lemma read_u32_num l key n : GetObjectItem (JObject l) key = Some (JNumber n) -> is_u31 n ->
  forall old, read_u32 (JObject l) key old = n.
Proof.
  intros H Hn old. unfold read_u32. rewrite (get_number_num _ _ n H) by (unfold is_i32, is_u31 in *; lia).
  apply u32_id. unfold is_u32, is_u31 in *. lia.
Qed.

Lemma read_time_str l key n : GetObjectItem (JObject l) key = Some (JString (c_str (to_string n))) -> is_time n ->
  forall old, read_time (JObject l) key old = n.
Proof.
  intros H Hn old. unfold read_time.
  rewrite (get_string_str _ _ (to_string n) H) by (apply digits_no_nul; [done | unfold is_time in Hn; lia]).
  by apply strtoull_to_string.
Qed.

Lemma deserialize_serialize e : wf_ext e ->
  DeserializeExtFromJson StreamExt_default (SerializeStreamDataExt e) = sent_ext e.
Proof.
  intros (Hf & Hi & Hp & Hs & Hfi & Hse & Hq & Hw & Hh & Hr & Hfl). unfold DeserializeExtFromJson, SerializeStreamDataExt.
  set (l := _ ++ _). rewrite (read_u32_num l "flag" (flag_ e) eq_refl Hf), (read_u32_num l "index" (index_ e) eq_refl Hi).
  subst l. unfold sent_ext.
  destruct (flag_ e =? AVCODEC_BUFFER_FLAG_PIXEL_MAP).
  { f_equal. unfold ReadExtPixelMapPackOptionToJson, read_value. simpl.
    rewrite (u8_id _ Hq), (u32_id _ Hw), (u32_id _ Hh). by destruct (pixelMapOption_ e). }
  destruct (flag_ e =? AVCODEC_BUFFER_FLAG_SURFACE_PARAM).
  { f_equal. unfold ReadExtSurfaceParamToJson. cbn -[read_u32].
    rewrite (read_u32_num [num "rotate" _; num "filp" _] "rotate" _ eq_refl Hr),
      (read_u32_num [num "rotate" _; num "filp" _] "filp" _ eq_refl Hfl). by destruct (surfaceParam_ e). }
  f_equal; apply read_time_str; done.
Qed.

Lemma serialize_wf e : wf_ext e -> wf_json (SerializeStreamDataExt e) = true.
Proof.
  intros (Hf & Hi & _ & _ & _ & _ & Hq & Hw & Hh & Hr & Hfl). unfold SerializeStreamDataExt, is_u31, is_u32, is_u8 in *.
  destruct (flag_ e =? AVCODEC_BUFFER_FLAG_PIXEL_MAP); [|destruct (flag_ e =? AVCODEC_BUFFER_FLAG_SURFACE_PARAM); [|cbn [app]; json_members]].
  all: unfold wf_json; cbn; rewrite ?andb_true_r, ?andb_true_iff, ?Z.ltb_lt; repeat split; lia.
Qed.

(** The extra information of a frame that was sent as text is read
    back: with its flag, its index and the fields that belong to the flag. *)
Theorem stream_ext_roundtrip {CJ : CJson} {CJL : CJsonLaws} e : wf_ext e ->
  exists text, cJSON_Print (SerializeStreamDataExt e) = Some text /\
    DeserializeStreamDataExt StreamExt_default (Some text) = (ERR_OK, sent_ext e).
Proof.
  intros He. destruct (print_some _ (serialize_wf e He)) as [text Ht]. exists text. split; [done|].
  unfold DeserializeStreamDataExt. rewrite c_str_no_nul by (by eapply print_no_nul).
  rewrite (print_parse _ _ (serialize_wf e He) Ht). by rewrite deserialize_serialize.
Qed.

#[local] Existing Instances BinaryJson BinaryJsonLaws.
Lemma stream_ext_roundtrip_witness :
  let e := mkStreamExt 2 7 123456789012 1 2 18446744073709551615 (mkPixelMapPackOption 1 2 3) (mkSurfaceParam 1 2) in
  exists text, cJSON_Print (SerializeStreamDataExt e) = Some text /\
    DeserializeStreamDataExt StreamExt_default (Some text) = (ERR_OK, sent_ext e).
Proof.
  intros e. apply (stream_ext_roundtrip e).
  unfold wf_ext, is_u31, is_time, is_u8, is_u32, ULLONG_MAX, e. simpl. lia.
Defined.
