(* ===== verification/ChannelManager.v ===== *)
(** The channels of a collaboration and the sockets they use:
    services/dtbcollabmgr/src/channel_manager/channel_manager.cpp, with what it
    needs of data_sender_receiver.cpp and softbus_file_adapter_{common,inner}.cpp.

    A method is one step. The event handler holds the tasks that were posted, the
    callback handler the calls of listeners; either may run any waiting entry next,
    because the priorities of a handler reorder them. [std::async] binds the sockets of
    a channel one after the other; the futures are waited for either way. Softbus and
    the life of the listeners, which are held weakly, are parameters. *)

From S2P Require Import Prelude DataBuffer SchedErrors SchedUtils Json CollabHeader CollabChannel StreamData.
From Stdlib Require Import Ascii.
From stdpp Require Import gmap sorting.
#[local] Open Scope string_scope.
#[local] Open Scope list_scope.
#[local] Open Scope Z_scope.

(** ** Constants *)

Definition CREATE_SOCKET_FAILED : Z := DMS_SERVICE_ERR_OFFSET + 2.
Definition LISTEN_SOCKET_FAILED : Z := DMS_SERVICE_ERR_OFFSET + 3.
Definition BIND_SOCKET_FAILED : Z := DMS_SERVICE_ERR_OFFSET + 4.
Definition NULL_EVENT_HANDLER : Z := DMS_SERVICE_ERR_OFFSET + 5.
Definition POST_TASK_FAILED : Z := DMS_SERVICE_ERR_OFFSET + 6.
Definition NO_SUCH_CHANNEL : Z := DMS_SERVICE_ERR_OFFSET + 9.
Definition CHANNEL_NUM_EXCEED_LIMIT : Z := DMS_SERVICE_ERR_OFFSET + 10.
Definition CREATE_SERVER_CHANNEL_FAILED : Z := DMS_SERVICE_ERR_OFFSET + 11.
Definition CREATE_CLIENT_CHANNEL_FAILED : Z := DMS_SERVICE_ERR_OFFSET + 12.
Definition INVALID_CHANNEL_ID : Z := DMS_SERVICE_ERR_OFFSET + 13.
Definition INVALID_CHANNEL_NAME : Z := DMS_SERVICE_ERR_OFFSET + 15.
Definition INVALID_LISTENER : Z := DMS_SERVICE_ERR_OFFSET + 16.
Definition INVALID_SOCKET_ID : Z := DMS_SERVICE_ERR_OFFSET + 17.
Definition NO_CONNECTED_SOCKET_ID : Z := DMS_SERVICE_ERR_OFFSET + 19.
Definition CONNECT_CHANNEL_FAILED : Z := DMS_SERVICE_ERR_OFFSET + 20.
Definition RECV_DATA_EMPTY : Z := DMS_SERVICE_ERR_OFFSET + 21.
Definition COPY_DATA_TO_BUFFER_FAILED : Z := DMS_SERVICE_ERR_OFFSET + 22.
Definition ERR_JSON_GENERATION_FAILED : Z := DMS_SERVICE_ERR_OFFSET + 51.
Definition REGISTER_FILE_SCHEMA_FAILED : Z := DMS_SERVICE_ERR_OFFSET + 52.
Definition COLLAB_INVALID_PARAMETERS : Z := DMS_SERVICE_ERR_OFFSET.

Definition CHANNEL_ID_GAP : Z := 1000.
Definition MESSAGE_START_ID : Z := 1001.
Definition BYTES_START_ID : Z := MESSAGE_START_ID + CHANNEL_ID_GAP.
Definition STREAM_START_ID : Z := BYTES_START_ID + CHANNEL_ID_GAP.
Definition FILE_START_ID : Z := STREAM_START_ID + CHANNEL_ID_GAP.
Definition MAX_CHANNEL_NAME_LENGTH : Z := 64.
Definition CHANNEL_NAME_PREFIX_LENGTH : nat := 64.
Definition SESSION_NAME_PREFIX : string := "ohos.dtbcollab.dms".
Definition SPLIT_FLAG : ascii := "_"%char.

(** ** Data *)

Inductive ChannelStatus := CONNECTED | UNCONNECTED.
Inductive ChannelDataType := MESSAGE | BYTES_DATA | VIDEO_STREAM | FILE.
#[global] Instance ChannelStatus_eq_dec : EqDecision ChannelStatus.
Proof. solve_decision. Defined.
#[global] Instance ChannelDataType_eq_dec : EqDecision ChannelDataType.
Proof. solve_decision. Defined.
(** The number of a type and the letter it has in the name of a socket. *)
Definition type_number (t : ChannelDataType) : Z :=
  match t with MESSAGE => 0 | BYTES_DATA => 1 | VIDEO_STREAM => 2 | FILE => 3 end.
Definition type_prefix (t : ChannelDataType) : string :=
  match t with MESSAGE => "M" | BYTES_DATA => "B" | VIDEO_STREAM => "V" | FILE => "F" end.
Definition type_fast (t : ChannelDataType) : bool :=
  match t with MESSAGE | BYTES_DATA => false | VIDEO_STREAM | FILE => true end.

Record ChannelPeerInfo := mkChannelPeerInfo { peerName : string; networkId : string }.

(** A sender and receiver is the state of its receiving side; its socket is its key. *)
Record ChannelInfo := mkChannelInfo {
  channelId : Z;
  status : ChannelStatus;
  dataType : ChannelDataType;
  channelName : string;
  peerInfo : ChannelPeerInfo;
  clientSockets : list Z;
  dataSenderReceivers : gmap Z Receiver;
}.

(** The events of softbus on files, and what listeners are told about them. *)
Inductive FileEventType :=
  | FILE_EVENT_SEND_PROCESS | FILE_EVENT_SEND_FINISH | FILE_EVENT_SEND_ERROR
  | FILE_EVENT_RECV_START | FILE_EVENT_RECV_PROCESS | FILE_EVENT_RECV_FINISH | FILE_EVENT_RECV_ERROR
  | FILE_EVENT_RECV_UPDATE_PATH | FILE_EVENT_BUTT | FILE_EVENT_OTHER.
#[global] Instance FileEventType_eq_dec : EqDecision FileEventType.
Proof. solve_decision. Defined.
(** The array of an event has as many names as the event counts. *)
Record FileEvent := mkFileEvent {
  fe_type : FileEventType;
  fe_files : list string;
  fe_bytesProcessed : Z;
  fe_bytesTotal : Z;
  fe_rate : Z;
  fe_errorCode : Z;
}.

Inductive ChannelFileEvent := SEND_PROCESS | SEND_FINISH | SEND_ERROR | RECV_START | RECV_PROCESS | RECV_FINISH | RECV_ERROR.
Record FileProgress := mkFileProgress { bytesProcessed : Z; bytesTotal : Z; rate : option Z }.
Record FileInfo := mkFileInfo {
  eventType : ChannelFileEvent;
  fileList : list string;
  fileCnt : Z;
  sendInfo : option FileProgress;
  recvInfo : option FileProgress;
  errorInfo : option Z;
}.

(** Calls of a listener. *)
Inductive ListenerCall :=
  | OnConnect
  | OnDisConnect
  | OnError (errorCode : Z)
  | OnBytes (buffer : DataBuffer)
  | OnMessage (buffer : DataBuffer)
  | OnStream (stream : AVTransStreamData)
  | OnSendFile (info : FileInfo)
  | OnRecvFile (info : FileInfo).
Record Callback := mkCallback { cb_listener : Z; cb_channel : Z; cb_call : ListenerCall }.

Inductive Task :=
  | TaskUpdateChannel (socketId channelId : Z)
  | TaskSendBytes (channelId : Z) (data : DataBuffer)
  | TaskSendMessage (channelId : Z) (data : DataBuffer)
  | TaskSendStream (channelId : Z) (data : AVTransStreamData)
  | TaskSendFile (channelId : Z) (sFiles dFiles : list string).

(** Calls of softbus. *)
Inductive MCall :=
  | MSocket (name peerName peerNetworkId : string) (dataType : option ChannelDataType)
  | MListen (socket : Z)
  | MBindSocket (socket : Z) (fast : bool)
  | MRegisterFileSchema (socket : Z)
  | MShutdown (socket : Z)
  | MSendBytes (socket : Z) (packets : list (list Z))
  | MSendMessage (socket : Z) (bytes : list Z)
  | MSendStream (socket : Z) (bytes : list Z) (ext : string)
  | MSendFile (socket : Z) (sFiles dFiles : list string)
  | MDeliver (c : Callback).

Record CM := mkCM {
  serverSocketId_ : Z;
  ownerName_ : string;
  channelIdMap_ : gmap string (list Z);
  channelInfoMap_ : gmap Z ChannelInfo;
  fileChannelId_ : Z;
  socketChannelMap_ : gmap Z Z;
  socketStatusMap_ : gmap Z ChannelStatus;
  listenersMap_ : gmap Z (list Z);
  nextIds_ : ChannelDataType -> Z;
  eventHandler_ : bool;
  callbackEventHandler_ : bool;
  tasks_ : list Task;
  callbacks_ : list Callback;
  mcalls_ : list MCall;
}.

Definition start_id (t : ChannelDataType) : Z :=
  match t with
  | MESSAGE => MESSAGE_START_ID
  | BYTES_DATA => BYTES_START_ID
  | VIDEO_STREAM => STREAM_START_ID
  | FILE => FILE_START_ID
  end.

Definition ChannelManager_new : CM := mkCM (-1) "" ∅ ∅ 0 ∅ ∅ ∅ start_id false false [] [] [].

(** The answers of softbus after the calls so far; [m_expired]: the object of a
    listener is gone. *)
Record MEnv := mkMEnv {
  SOFTBUS_FILE_INNER : bool;
  m_Socket : list MCall -> string -> string -> string -> Z;
  m_Listen : list MCall -> Z -> Z;
  m_Bind : list MCall -> Z -> Z;
  m_RegisterFileSchema : list MCall -> Z -> Z;
  m_channel : list MCall -> Z -> ChannelEnv;
  m_SendMessage : list MCall -> Z -> list Z -> Z;
  m_SendStream : list MCall -> Z -> list Z -> string -> Z;
  m_SendFile : list MCall -> Z -> list string -> list string -> Z;
  m_PostTask : list MCall -> bool;
  m_PostCallback : list MCall -> bool;
  m_expired : list MCall -> Z -> bool;
  m_garbage : DataHeader;
}.

(** ** The monad: a step changes the manager or ends the program *)

Inductive Crash :=
  (** A method of the null sender and receiver. *)
  | NullSender
  (** A read or write outside the arrays of a sender or receiver. *)
  | DataOverrun
  (** [std::out_of_range], which nobody catches. *)
  | OutOfRange.

Definition MM (A : Type) : Type := CM -> ((A * CM) + Crash)%type.
#[global] Instance MM_ret : MRet MM := fun _ a s => inl (a, s).
#[global] Instance MM_bind : MBind MM := fun _ _ f m s => match m s with inl (a, s') => f a s' | inr c => inr c end.
Definition mget : MM CM := fun s => inl (s, s).
Definition mmod (f : CM -> CM) : MM unit := fun s => inl (tt, f s).
Definition mcrash {A} (c : Crash) : MM A := fun _ => inr c.

Definition set_calls (l : list MCall) (m : CM) : CM :=
  mkCM (serverSocketId_ m) (ownerName_ m) (channelIdMap_ m) (channelInfoMap_ m) (fileChannelId_ m) (socketChannelMap_ m)
    (socketStatusMap_ m) (listenersMap_ m) (nextIds_ m) (eventHandler_ m) (callbackEventHandler_ m) (tasks_ m) (callbacks_ m) l.
Definition set_server (socket : Z) (m : CM) : CM :=
  mkCM socket (ownerName_ m) (channelIdMap_ m) (channelInfoMap_ m) (fileChannelId_ m) (socketChannelMap_ m)
    (socketStatusMap_ m) (listenersMap_ m) (nextIds_ m) (eventHandler_ m) (callbackEventHandler_ m) (tasks_ m) (callbacks_ m) (mcalls_ m).
Definition set_owner (name : string) (m : CM) : CM :=
  mkCM (serverSocketId_ m) name (channelIdMap_ m) (channelInfoMap_ m) (fileChannelId_ m) (socketChannelMap_ m)
    (socketStatusMap_ m) (listenersMap_ m) (nextIds_ m) (eventHandler_ m) (callbackEventHandler_ m) (tasks_ m) (callbacks_ m) (mcalls_ m).
Definition set_channels (ids : gmap string (list Z)) (infos : gmap Z ChannelInfo) (m : CM) : CM :=
  mkCM (serverSocketId_ m) (ownerName_ m) ids infos (fileChannelId_ m) (socketChannelMap_ m)
    (socketStatusMap_ m) (listenersMap_ m) (nextIds_ m) (eventHandler_ m) (callbackEventHandler_ m) (tasks_ m) (callbacks_ m) (mcalls_ m).
Definition set_fileChannel (id : Z) (m : CM) : CM :=
  mkCM (serverSocketId_ m) (ownerName_ m) (channelIdMap_ m) (channelInfoMap_ m) id (socketChannelMap_ m)
    (socketStatusMap_ m) (listenersMap_ m) (nextIds_ m) (eventHandler_ m) (callbackEventHandler_ m) (tasks_ m) (callbacks_ m) (mcalls_ m).
Definition set_sockets (channels : gmap Z Z) (statuses : gmap Z ChannelStatus) (m : CM) : CM :=
  mkCM (serverSocketId_ m) (ownerName_ m) (channelIdMap_ m) (channelInfoMap_ m) (fileChannelId_ m) channels
    statuses (listenersMap_ m) (nextIds_ m) (eventHandler_ m) (callbackEventHandler_ m) (tasks_ m) (callbacks_ m) (mcalls_ m).
Definition set_listeners (l : gmap Z (list Z)) (m : CM) : CM :=
  mkCM (serverSocketId_ m) (ownerName_ m) (channelIdMap_ m) (channelInfoMap_ m) (fileChannelId_ m) (socketChannelMap_ m)
    (socketStatusMap_ m) l (nextIds_ m) (eventHandler_ m) (callbackEventHandler_ m) (tasks_ m) (callbacks_ m) (mcalls_ m).
Definition set_nextIds (n : ChannelDataType -> Z) (m : CM) : CM :=
  mkCM (serverSocketId_ m) (ownerName_ m) (channelIdMap_ m) (channelInfoMap_ m) (fileChannelId_ m) (socketChannelMap_ m)
    (socketStatusMap_ m) (listenersMap_ m) n (eventHandler_ m) (callbackEventHandler_ m) (tasks_ m) (callbacks_ m) (mcalls_ m).
Definition set_handlers (b : bool) (m : CM) : CM :=
  mkCM (serverSocketId_ m) (ownerName_ m) (channelIdMap_ m) (channelInfoMap_ m) (fileChannelId_ m) (socketChannelMap_ m)
    (socketStatusMap_ m) (listenersMap_ m) (nextIds_ m) b b (tasks_ m) (callbacks_ m) (mcalls_ m).
Definition set_tasks (l : list Task) (m : CM) : CM :=
  mkCM (serverSocketId_ m) (ownerName_ m) (channelIdMap_ m) (channelInfoMap_ m) (fileChannelId_ m) (socketChannelMap_ m)
    (socketStatusMap_ m) (listenersMap_ m) (nextIds_ m) (eventHandler_ m) (callbackEventHandler_ m) l (callbacks_ m) (mcalls_ m).
Definition set_callbacks (l : list Callback) (m : CM) : CM :=
  mkCM (serverSocketId_ m) (ownerName_ m) (channelIdMap_ m) (channelInfoMap_ m) (fileChannelId_ m) (socketChannelMap_ m)
    (socketStatusMap_ m) (listenersMap_ m) (nextIds_ m) (eventHandler_ m) (callbackEventHandler_ m) (tasks_ m) l (mcalls_ m).

(** A call of softbus: its answer depends on the calls before it. *)
Definition mcall (c : MCall) : MM unit := mmod (fun m => set_calls (mcalls_ m ++ [c]) m).
Definition mask {A} (c : MCall) (answer : list MCall -> A) : MM A :=
  m ← mget; _ ← mcall c; mret (answer (mcalls_ m)).

Section Operations.
Context {CJ : CJson}.
Variable env : MEnv.

(** ** Tasks and callbacks *)

Definition PostTask (t : Task) : MM Z :=
  m ← mget;
  if negb (eventHandler_ m) then mret NULL_EVENT_HANDLER
  else if m_PostTask env (mcalls_ m) then _ ← mmod (set_tasks (tasks_ m ++ [t])); mret ERR_OK
  else mret POST_TASK_FAILED.

Definition PostCallbackTask (c : Callback) : MM Z :=
  m ← mget;
  if negb (callbackEventHandler_ m) then mret NULL_EVENT_HANDLER
  else if m_PostCallback env (mcalls_ m) then _ ← mmod (set_callbacks (callbacks_ m ++ [c])); mret ERR_OK
  else mret POST_TASK_FAILED.

Fixpoint post_all (cs : list Callback) : MM unit :=
  match cs with
  | [] => mret tt
  | c :: cs => _ ← PostCallbackTask c; post_all cs
  end.

(** The listeners that are still alive. *)
Definition live (m : CM) (ls : list Z) : list Z := List.filter (fun l => negb (m_expired env (mcalls_ m) l)) ls.

Definition NotifyListeners (channel : Z) (call : ListenerCall) : MM unit :=
  m ← mget;
  match listenersMap_ m !! channel with
  | None | Some [] => mret tt
  | Some listeners => post_all (map (fun l => mkCallback l channel call) (live m listeners))
  end.

Definition DoErrorCallback (channel errorCode : Z) : MM unit := NotifyListeners channel (OnError errorCode).
Definition DoConnectCallback (channel : Z) : MM unit := NotifyListeners channel OnConnect.
Definition DoDisConnectCallback (channel : Z) : MM unit := NotifyListeners channel OnDisConnect.

(** ** Identities *)

Definition isValidChannelId (channel : Z) : bool :=
  (CHANNEL_ID_GAP <? channel) && (channel <=? FILE_START_ID + CHANNEL_ID_GAP).

Definition GenerateNextId (t : ChannelDataType) : MM Z :=
  m ← mget;
  let channel := nextIds_ m t in
  if CHANNEL_ID_GAP <=? channel - CHANNEL_ID_GAP * (type_number t + 1) then mret CHANNEL_NUM_EXCEED_LIMIT
  else
    _ ← mmod (set_nextIds (fun t' => if decide (t' = t) then channel + 1 else nextIds_ m t'));
    mret channel.

Definition CreateBaseChannel (name : string) (t : ChannelDataType) (peer : ChannelPeerInfo) : MM (option ChannelInfo) :=
  channel ← GenerateNextId t;
  if negb (isValidChannelId channel) then mret None
  else mret (Some (mkChannelInfo channel UNCONNECTED t name peer [] ∅)).

(** [channelIdMap_\[name\].push_back(id)] and [channelInfoMap_.emplace(id, info)]. *)
Definition add_channel (info : ChannelInfo) (m : CM) : CM :=
  set_channels (<[channelName info := default [] (channelIdMap_ m !! channelName info) ++ [channelId info]]> (channelIdMap_ m))
    (match channelInfoMap_ m !! channelId info with
     | Some _ => channelInfoMap_ m
     | None => <[channelId info := info]> (channelInfoMap_ m)
     end) m.

Definition CreateServerChannel (name : string) (t : ChannelDataType) (peer : ChannelPeerInfo) : MM Z :=
  info ← CreateBaseChannel name t peer;
  match info with
  | None => mret CREATE_SERVER_CHANNEL_FAILED
  | Some info =>
      _ ← mmod (add_channel info);
      _ ← mmod (set_fileChannel (channelId info));
      mret (channelId info)
  end.

(** The name of the socket carries the owner, the type and the name of the channel. *)
Definition socket_name (owner : string) (t : ChannelDataType) (name : string) : string :=
  SESSION_NAME_PREFIX +:+ owner +:+ String SPLIT_FLAG (type_prefix t +:+ String SPLIT_FLAG name).

Definition CreateClientSocket (name peer peerNetworkId : string) (t : ChannelDataType) : MM Z :=
  if MAX_CHANNEL_NAME_LENGTH <? Z.of_nat (String.length name) then mret (- INVALID_CHANNEL_NAME)
  else
    m ← mget;
    let self := socket_name (ownerName_ m) t name in
    let peerSocketName := SESSION_NAME_PREFIX +:+ peer in
    mask (MSocket self peerSocketName peerNetworkId (Some t)) (fun h => m_Socket env h self peerSocketName peerNetworkId).

(** [emplace] keeps an entry that is there. *)
Definition emplace {A} (k : Z) (v : A) (m : gmap Z A) : gmap Z A :=
  match m !! k with Some _ => m | None => <[k := v]> m end.

(** [RegisterSocket] of a new client channel. *)
Definition RegisterClientSocket (info : ChannelInfo) (t : ChannelDataType) : MM Z :=
  clientSocketId ← CreateClientSocket (channelName info) (peerName (peerInfo info)) (networkId (peerInfo info)) t;
  if clientSocketId <=? 0 then mret CREATE_SOCKET_FAILED
  else
    _ ← mmod (fun m => set_sockets (emplace clientSocketId (channelId info) (socketChannelMap_ m))
                         (emplace clientSocketId UNCONNECTED (socketStatusMap_ m)) m);
    _ ← mmod (add_channel
          (mkChannelInfo (channelId info) (status info) (dataType info) (channelName info) (peerInfo info)
             (clientSockets info ++ [clientSocketId]) (<[clientSocketId := Receiver_new]> (dataSenderReceivers info))));
    mret ERR_OK.

Definition CreateClientChannel (name : string) (t : ChannelDataType) (peer : ChannelPeerInfo) : MM Z :=
  info ← CreateBaseChannel name t peer;
  match info with
  | None => mret CREATE_CLIENT_CHANNEL_FAILED
  | Some info =>
      ret ← RegisterClientSocket info t;
      mret (if ret =? ERR_OK then channelId info else ret)
  end.

(** ** Deleting *)

Definition ClearRegisterChannel (channel : Z) : MM unit :=
  mmod (fun m =>
    let name := match channelInfoMap_ m !! channel with Some info => channelName info | None => "" end in
    set_channels
      (match channelIdMap_ m !! name with
       | Some ids => <[name := List.filter (fun id => negb (id =? channel)) ids]> (channelIdMap_ m)
       | None => channelIdMap_ m
       end)
      (delete channel (channelInfoMap_ m)) m).

Definition ClearRegisterListener (channel : Z) : MM unit :=
  mmod (fun m => set_listeners (delete channel (listenersMap_ m)) m).

(** The sockets of a channel in the order of the map. *)
Definition sockets_of (channel : Z) (m : CM) : list Z :=
  merge_sort Z.le (map fst (map_to_list (filter (fun e => e.2 = channel) (socketChannelMap_ m)))).

Definition delete_all {A} (ks : list Z) (m : gmap Z A) : gmap Z A := foldr delete m ks.

Fixpoint shutdown_all (sockets : list Z) : MM unit :=
  match sockets with
  | [] => mret tt
  | s :: sockets => _ ← mcall (MShutdown s); shutdown_all sockets
  end.

Definition ClearRegisterSocket (channel : Z) : MM unit :=
  m ← mget;
  let socketIds := sockets_of channel m in
  _ ← mmod (set_sockets (delete_all socketIds (socketChannelMap_ m)) (delete_all socketIds (socketStatusMap_ m)));
  shutdown_all socketIds.

Definition DeleteChannel (channel : Z) : MM Z :=
  if negb (isValidChannelId channel) then mret INVALID_CHANNEL_ID
  else
    _ ← ClearRegisterListener channel;
    _ ← ClearRegisterChannel channel;
    _ ← ClearRegisterSocket channel;
    mret channel.

(** ** Listeners *)

(** [None]: the null pointer. *)
Definition RegisterChannelListener (channel : Z) (listener : option Z) : MM Z :=
  match listener with
  | None => mret INVALID_LISTENER
  | Some l =>
      m ← mget;
      match listenersMap_ m !! channel with
      | None => _ ← mmod (set_listeners (<[channel := [l]]> (listenersMap_ m))); mret ERR_OK
      | Some ls =>
          let ls := live m ls in
          _ ← mmod (set_listeners (<[channel := if existsb (Z.eqb l) ls then ls else ls ++ [l]]> (listenersMap_ m)));
          mret ERR_OK
      end
  end.

(** ** Status *)

Definition socket_status (m : CM) (socket : Z) : ChannelStatus := default CONNECTED (socketStatusMap_ m !! socket).
Definition GetSocketStatus (socket : Z) : MM ChannelStatus := m ← mget; mret (socket_status m socket).

Definition GetChannelStatus (channel : Z) : MM ChannelStatus :=
  m ← mget;
  mret (match channelInfoMap_ m !! channel with Some info => status info | None => UNCONNECTED end).

Definition with_status (s : ChannelStatus) (i : ChannelInfo) : ChannelInfo :=
  mkChannelInfo (channelId i) s (dataType i) (channelName i) (peerInfo i) (clientSockets i) (dataSenderReceivers i).
Definition with_receivers (r : gmap Z Receiver) (i : ChannelInfo) : ChannelInfo :=
  mkChannelInfo (channelId i) (status i) (dataType i) (channelName i) (peerInfo i) (clientSockets i) r.
Definition put_channel (channel : Z) (i : ChannelInfo) (m : CM) : CM :=
  set_channels (channelIdMap_ m) (<[channel := i]> (channelInfoMap_ m)) m.

Definition SetChannelStatus (channel : Z) (s : ChannelStatus) : MM Z :=
  m ← mget;
  match channelInfoMap_ m !! channel with
  | None => mret INVALID_CHANNEL_ID
  | Some info => _ ← mmod (put_channel channel (with_status s info)); mret ERR_OK
  end.

Definition connected (m : CM) (socket : Z) : bool := bool_decide (socket_status m socket = CONNECTED).

Definition UpdateChannelStatus (channel : Z) : MM Z :=
  m ← mget;
  match channelInfoMap_ m !! channel with
  | None => mret INVALID_CHANNEL_ID
  | Some info =>
      let newStatus := if existsb (connected m) (clientSockets info) then CONNECTED else UNCONNECTED in
      if negb (bool_decide (newStatus = status info)) then SetChannelStatus channel newStatus else mret ERR_OK
  end.

Definition SetSocketStatus (socket : Z) (s : ChannelStatus) : MM Z :=
  m ← mget;
  match socketStatusMap_ m !! socket with
  | None => mret INVALID_SOCKET_ID
  | Some _ =>
      _ ← mmod (set_sockets (socketChannelMap_ m) (<[socket := s]> (socketStatusMap_ m)));
      match socketChannelMap_ m !! socket with
      | None => mret INVALID_SOCKET_ID
      | Some channel => UpdateChannelStatus channel
      end
  end.

(** ** Connecting *)

(** [SoftbusFileAdpater::SetFileSchema] of the two builds. *)
Definition SetFileSchema (socket : Z) : MM Z :=
  if SOFTBUS_FILE_INNER env then
    ret ← mask (MRegisterFileSchema socket) (fun h => m_RegisterFileSchema env h socket);
    mret (if negb (ret =? 0) then - REGISTER_FILE_SCHEMA_FAILED else ERR_OK)
  else mret ERR_OK.

Definition BindSocket (socket : Z) (t : ChannelDataType) : MM Z :=
  ret ← mask (MBindSocket socket (type_fast t)) (fun h => m_Bind env h socket);
  if negb (ret =? ERR_OK) then mret BIND_SOCKET_FAILED
  else
    ret ← (if decide (t = FILE) then SetFileSchema socket else mret ret);
    if negb (ret =? ERR_OK) then mret REGISTER_FILE_SCHEMA_FAILED
    else _ ← SetSocketStatus socket CONNECTED; mret ret.

(** The results of the tasks that were started. *)
Fixpoint bind_all (sockets : list Z) (t : ChannelDataType) : MM (list Z) :=
  match sockets with
  | [] => mret []
  | s :: sockets => ret ← BindSocket s t; rets ← bind_all sockets t; mret (ret :: rets)
  end.

Definition DoBindSockets (socketIds : list Z) (t : ChannelDataType) : MM Z :=
  m ← mget;
  match List.filter (fun s => negb (connected m s)) socketIds with
  | [] => mret ERR_OK
  | sockets =>
      rets ← bind_all sockets t;
      mret (if existsb (Z.eqb ERR_OK) rets then ERR_OK else CONNECT_CHANNEL_FAILED)
  end.

Definition ConnectChannel (channel : Z) : MM Z :=
  m ← mget;
  match channelInfoMap_ m !! channel with
  | None => mret INVALID_CHANNEL_ID
  | Some info =>
      match clientSockets info with
      | [] => mret INVALID_CHANNEL_ID
      | socketIds => DoBindSockets socketIds (dataType info)
      end
  end.

(** ** A peer connects *)

Fixpoint sdrop (n : nat) (s : string) : string :=
  match n, s with
  | S n, String _ s => sdrop n s
  | _, _ => s
  end.
(** The text after the first separator. *)
Fixpoint after_split (s : string) : option string :=
  match s with
  | EmptyString => None
  | String c s => if Ascii.eqb c SPLIT_FLAG then Some s else after_split s
  end.

Definition GetChannelNameFromSocket (socketName : string) : option string :=
  after_split (sdrop CHANNEL_NAME_PREFIX_LENGTH socketName).

Definition GetChannelDataTypeFromName (name : string) : option ChannelDataType :=
  let prefix := String.substring 0 1 name in
  List.find (fun t => String.eqb prefix (type_prefix t)) [MESSAGE; BYTES_DATA; VIDEO_STREAM; FILE].

(** The first identity whose channel is missing ends the search. *)
Fixpoint find_type (infos : gmap Z ChannelInfo) (ids : list Z) (t : ChannelDataType) : Z :=
  match ids with
  | [] => NO_SUCH_CHANNEL
  | id :: ids =>
      match infos !! id with
      | None => INVALID_CHANNEL_ID
      | Some info => if decide (dataType info = t) then channelId info else find_type infos ids t
      end
  end.

Definition GetChannelIdByName (name : string) (t : ChannelDataType) : MM Z :=
  m ← mget;
  mret (match channelIdMap_ m !! name with
        | None => INVALID_CHANNEL_NAME
        | Some ids => find_type (channelInfoMap_ m) ids t
        end).

(** [substr(namePrefix)] throws when the text is shorter. *)
Definition Manager_OnSocketConnected (socket : Z) (peerSocketName : string) : MM unit :=
  if socket <=? 0 then mret tt
  else match GetChannelNameFromSocket peerSocketName with
  | None => mret tt
  | Some name =>
      match GetChannelDataTypeFromName name with
      | None => mret tt
      | Some t =>
          if (String.length name <? 2)%nat then mcrash OutOfRange
          else
            channel ← GetChannelIdByName (sdrop 2 name) t;
            if negb (isValidChannelId channel) then mret tt
            else _ ← PostTask (TaskUpdateChannel socket channel); mret tt
      end
  end.

(** [RegisterSocket] of a socket that a peer has bound. *)
Definition RegisterSocket (socket channel : Z) : MM Z :=
  m ← mget;
  match channelInfoMap_ m !! channel with
  | None => mret INVALID_CHANNEL_ID
  | Some info =>
      _ ← mmod (put_channel channel
            (mkChannelInfo (channelId info) (status info) (dataType info) (channelName info) (peerInfo info)
               (clientSockets info ++ [socket]) (<[socket := Receiver_new]> (dataSenderReceivers info))));
      _ ← mmod (fun m => set_sockets (<[socket := channel]> (socketChannelMap_ m))
                           (<[socket := CONNECTED]> (socketStatusMap_ m)) m);
      if decide (dataType info = FILE) then
        ret ← SetFileSchema socket;
        mret (if negb (ret =? ERR_OK) then REGISTER_FILE_SCHEMA_FAILED else ERR_OK)
      else mret ERR_OK
  end.

Definition UpdateChannel (socket channel : Z) : MM Z :=
  ret ← RegisterSocket socket channel;
  if negb (ret =? ERR_OK) then _ ← DoErrorCallback channel ret; mret ret
  else
    ret ← SetSocketStatus socket CONNECTED;
    if negb (ret =? ERR_OK) then _ ← DoErrorCallback channel ret; mret ret
    else _ ← DoConnectCallback channel; mret ret.

Definition GetChannelId (m : CM) (socket : Z) : Z := default INVALID_SOCKET_ID (socketChannelMap_ m !! socket).

(** [CHECK_SOCKET_ID] and [CHECK_CHANNEL_ID]. *)
Definition on_channel (socket : Z) (f : Z -> MM unit) : MM unit :=
  if socket <=? 0 then mret tt
  else m ← mget; let channel := GetChannelId m socket in
       if negb (isValidChannelId channel) then mret tt else f channel.

Definition OnSocketError (socket errorCode : Z) : MM unit :=
  on_channel socket (fun channel => DoErrorCallback channel errorCode).

Definition OnSocketClosed (socket : Z) : MM unit :=
  on_channel socket (fun channel =>
    ret ← SetSocketStatus socket UNCONNECTED;
    if negb (ret =? ERR_OK) then DoErrorCallback channel ret
    else
      s ← GetChannelStatus channel;
      if decide (s = UNCONNECTED) then _ ← DoDisConnectCallback channel; _ ← DeleteChannel channel; mret tt
      else mret tt).

(** ** Sending *)

Definition GetValidSocket (channel : Z) : MM Z :=
  m ← mget;
  mret (match channelInfoMap_ m !! channel with
        | None => -1
        | Some info =>
            if decide (status info = UNCONNECTED) then -1
            else default (-1) (List.find (connected m) (clientSockets info))
        end).

(** [send] is the method of the sender and receiver of the socket. *)
Definition DoSendData (channel : Z) (send : Z -> MM Z) : MM Z :=
  socket ← GetValidSocket channel;
  if socket <=? 0 then mret NO_CONNECTED_SOCKET_ID
  else
    m ← mget;
    match channelInfoMap_ m !! channel with
    | None => _ ← DoErrorCallback channel INVALID_CHANNEL_ID; mret INVALID_CHANNEL_ID
    | Some info =>
        match dataSenderReceivers info !! socket with
        | None => _ ← DoErrorCallback channel INVALID_SOCKET_ID; mret INVALID_SOCKET_ID
        | Some _ =>
            ret ← send socket;
            if negb (ret =? ERR_OK) then _ ← DoErrorCallback channel ret; mret ret else mret ERR_OK
        end
    end.

Definition sender_SendBytesData (data : DataBuffer) (socket : Z) : MM Z :=
  m ← mget;
  match SendBytesData (m_channel env (mcalls_ m) socket) data with
  | Sent ret packets => _ ← mcall (MSendBytes socket packets); mret ret
  | SendUB | SendOutOfFuel => mcrash DataOverrun
  end.
Definition sender_SendMessageData (data : DataBuffer) (socket : Z) : MM Z :=
  m ← mget;
  let '(ret, sent) := SendMessageData (m_SendMessage env (mcalls_ m) socket) data in
  match sent with
  | Some bytes => _ ← mcall (MSendMessage socket bytes); mret ret
  | None => mret ret
  end.
(** The time stamp of the frame is left out. *)
Definition SendStreamData (data : AVTransStreamData) (socket : Z) : MM Z :=
  match cJSON_Print (SerializeStreamDataExt (GetStreamDataExt data)) with
  | None => mret ERR_JSON_GENERATION_FAILED
  | Some text =>
      let bytes := contents (StreamData.StreamData data) in
      ret ← mask (MSendStream socket bytes text) (fun h => m_SendStream env h socket bytes text);
      mret (if negb (ret =? 0) then ret else ERR_OK)
  end.
(** Softbus reads as many names of both arrays as there are source files. *)
Definition SendFileData (sFiles dFiles : list string) (socket : Z) : MM Z :=
  if (length dFiles <? length sFiles)%nat then mcrash DataOverrun
  else mask (MSendFile socket sFiles dFiles) (fun h => m_SendFile env h socket sFiles dFiles).

Definition DoSendBytes (channel : Z) (data : DataBuffer) : MM Z := DoSendData channel (sender_SendBytesData data).
Definition DoSendMessage (channel : Z) (data : DataBuffer) : MM Z := DoSendData channel (sender_SendMessageData data).
Definition DoSendStream (channel : Z) (data : AVTransStreamData) : MM Z := DoSendData channel (SendStreamData data).
Definition DoSendFile (channel : Z) (sFiles dFiles : list string) : MM Z := DoSendData channel (SendFileData sFiles dFiles).

(** [None]: the null pointer. *)
Definition Manager_SendBytes (channel : Z) (data : option DataBuffer) : MM Z :=
  match data with
  | Some data => if negb (isValidChannelId channel) then mret INVALID_CHANNEL_ID else PostTask (TaskSendBytes channel data)
  | None => mret INVALID_CHANNEL_ID
  end.
Definition Manager_SendMessage (channel : Z) (data : option DataBuffer) : MM Z :=
  match data with
  | Some data => if negb (isValidChannelId channel) then mret INVALID_CHANNEL_ID else PostTask (TaskSendMessage channel data)
  | None => mret INVALID_CHANNEL_ID
  end.
Definition Manager_SendStream (channel : Z) (data : option AVTransStreamData) : MM Z :=
  match (if isValidChannelId channel then data else None) with
  | None => _ ← DoErrorCallback channel INVALID_CHANNEL_ID; mret INVALID_CHANNEL_ID
  | Some data =>
      ret ← PostTask (TaskSendStream channel data);
      mret (if negb (ret =? ERR_OK) then POST_TASK_FAILED else ERR_OK)
  end.
(** Lists of different lengths are logged only. *)
Definition Manager_SendFile (channel : Z) (sFiles dFiles : list string) : MM Z :=
  match isValidChannelId channel, sFiles, dFiles with
  | true, _ :: _, _ :: _ => PostTask (TaskSendFile channel sFiles dFiles)
  | _, _, _ => mret COLLAB_INVALID_PARAMETERS
  end.

(** ** Receiving *)

Definition put_receiver (channel socket : Z) (r : Receiver) : MM unit :=
  mmod (fun m => match channelInfoMap_ m !! channel with
                 | Some info => put_channel channel (with_receivers (<[socket := r]> (dataSenderReceivers info)) info) m
                 | None => m
                 end).

Definition Manager_ProcessRecvData (channel socket : Z) (data : list Z) : MM (option DataBuffer) :=
  m ← mget;
  match channelInfoMap_ m !! channel with
  | None => _ ← DoErrorCallback channel INVALID_CHANNEL_ID; mret None
  | Some info =>
      match dataSenderReceivers info !! socket with
      | None => mcrash NullSender
      | Some r =>
          match PackRecvPacketData (m_garbage env) r data with
          | RecvUB => mcrash DataOverrun
          | RecvRet ret r =>
              if negb (ret =? ERR_OK) then
                _ ← put_receiver channel socket r; _ ← DoErrorCallback channel ret; mret None
              else
                let '(packed, r) := GetPacketedData r in
                _ ← put_receiver channel socket r; mret packed
          end
      end
  end.

Definition OnBytesReceived (socket : Z) (data : option (list Z)) : MM unit :=
  on_channel socket (fun channel =>
    match data with
    | None => OnSocketError socket RECV_DATA_EMPTY
    | Some data =>
        packed ← Manager_ProcessRecvData channel socket data;
        match packed with
        | None => mret tt
        | Some b => NotifyListeners channel (OnBytes b)
        end
    end).

(** A new buffer with a copy of the data; [None]: the copy failed. *)
Definition copy_received (data : option (list Z)) (dataLen : Z) : MM (option DataBuffer) :=
  let buffer := AVTransDataBuffer_new dataLen in
  match buf_write buffer 0 (DataBuffer.Size buffer) data 0 dataLen with
  | BufOk b => mret (Some b)
  | BufErr => mret None
  | BufUB => mcrash DataOverrun
  end.

Definition OnMessageReceived (socket : Z) (data : option (list Z)) : MM unit :=
  on_channel socket (fun channel =>
    match data with
    | None => OnSocketError socket RECV_DATA_EMPTY
    | Some data =>
        buffer ← copy_received (Some data) (len data);
        match buffer with
        | None => DoErrorCallback channel COPY_DATA_TO_BUFFER_FAILED
        | Some b => NotifyListeners channel (OnMessage b)
        end
    end).

(** The frame and the text beside it; [None]: a null pointer. *)
Definition OnStreamReceived (socket : Z) (data : option (option (list Z))) (ext : option (option string)) : MM unit :=
  on_channel socket (fun channel =>
    match data, ext with
    | Some data, Some ext =>
        buffer ← copy_received data (len (default [] data));
        match buffer with
        | None => DoErrorCallback channel COPY_DATA_TO_BUFFER_FAILED
        | Some b =>
            let '(ret, e) := DeserializeStreamDataExt StreamExt_default ext in
            if negb (ret =? ERR_OK) then DoErrorCallback channel PARSE_AV_TRANS_STREAM_EXT_FAILED
            else NotifyListeners channel (OnStream (mkStreamData b e))
        end
    | _, _ => OnSocketError socket RECV_DATA_EMPTY
    end).

(** ** Files *)

Definition DealFileSendEvent (channel : Z) (e : FileEvent) : MM unit :=
  let processing := bool_decide (fe_type e = FILE_EVENT_SEND_PROCESS) in
  NotifyListeners channel (OnSendFile
    (mkFileInfo (if processing then SEND_PROCESS else SEND_FINISH) (fe_files e) (len (fe_files e))
       (Some (mkFileProgress (fe_bytesProcessed e) (fe_bytesTotal e) (if processing then Some (fe_rate e) else None)))
       None None)).

Definition DealFileRecvEvent (channel : Z) (e : FileEvent) : MM unit :=
  let processing := bool_decide (fe_type e = FILE_EVENT_RECV_PROCESS) in
  NotifyListeners channel (OnRecvFile
    (mkFileInfo (if bool_decide (fe_type e = FILE_EVENT_RECV_START) then RECV_START
                 else if processing then RECV_PROCESS else RECV_FINISH) (fe_files e) (len (fe_files e)) None
       (Some (mkFileProgress (fe_bytesProcessed e) (fe_bytesTotal e) (if processing then Some (fe_rate e) else None)))
       None)).

Definition DealFileErrorEvent (channel : Z) (e : FileEvent) : MM unit :=
  let sending := bool_decide (fe_type e = FILE_EVENT_SEND_ERROR) in
  let info := mkFileInfo (if sending then SEND_ERROR else RECV_ERROR) (fe_files e) (len (fe_files e)) None None
                (Some (fe_errorCode e)) in
  NotifyListeners channel (if sending then OnSendFile info else OnRecvFile info).

(** Setting the function that tells the path changes the event only. *)
Definition DispatchProcessFileEvent (channel : Z) (e : FileEvent) : MM unit :=
  match fe_type e with
  | FILE_EVENT_SEND_PROCESS | FILE_EVENT_SEND_FINISH => DealFileSendEvent channel e
  | FILE_EVENT_RECV_START | FILE_EVENT_RECV_PROCESS | FILE_EVENT_RECV_FINISH => DealFileRecvEvent channel e
  | FILE_EVENT_BUTT | FILE_EVENT_SEND_ERROR | FILE_EVENT_RECV_ERROR => DealFileErrorEvent channel e
  | FILE_EVENT_RECV_UPDATE_PATH | FILE_EVENT_OTHER => mret tt
  end.

Definition OnFileEventReceived (socket : Z) (e : option FileEvent) : MM unit :=
  if socket <=? 0 then mret tt
  else match e with
  | None => mret tt
  | Some e =>
      if decide (fe_type e = FILE_EVENT_RECV_UPDATE_PATH) then
        m ← mget; DispatchProcessFileEvent (i32 (fileChannelId_ m)) e
      else on_channel socket (fun channel => DispatchProcessFileEvent channel e)
  end.

(** The listener that is asked for the path, and the channel it is asked about. *)
Definition GetRecvPathFromUser (m : CM) : option (Z * Z) :=
  let channel := i32 (fileChannelId_ m) in
  match listenersMap_ m !! channel with
  | None => None
  | Some listeners => (fun l => (l, channel)) <$> head (live m listeners)
  end.

(** ** The manager *)

Definition CreateServerSocket : MM Z :=
  m ← mget;
  let name := SESSION_NAME_PREFIX +:+ ownerName_ m in
  mask (MSocket name "" "" None) (fun h => m_Socket env h name "" "").

Definition Manager_Init (owner : string) : MM Z :=
  m ← mget;
  if eventHandler_ m && callbackEventHandler_ m then mret ERR_OK
  else
    _ ← mmod (fun m => set_handlers true (set_owner owner m));
    m ← mget;
    if 0 <? serverSocketId_ m then mret ERR_OK
    else
      socketServerId ← CreateServerSocket;
      if socketServerId <=? 0 then mret CREATE_SOCKET_FAILED
      else
        ret ← mask (MListen socketServerId) (fun h => m_Listen env h socketServerId);
        if negb (ret =? ERR_OK) then mret LISTEN_SOCKET_FAILED
        else _ ← mmod (set_server socketServerId); mret ERR_OK.

Definition Manager_Reset : MM unit := mmod (fun m => set_nextIds start_id (set_owner "" (set_server (-1) m))).

Fixpoint delete_channels (ids : list Z) : MM unit :=
  match ids with
  | [] => mret tt
  | id :: ids => _ ← DeleteChannel id; delete_channels ids
  end.

(** The runners are stopped: what waits is dropped. *)
Definition DeInit : MM unit :=
  _ ← mmod (fun m => set_callbacks [] (set_tasks [] (set_handlers false m)));
  m ← mget;
  let channelIds : gset Z := list_to_set (map_to_list (channelIdMap_ m) ≫= snd) in
  _ ← delete_channels (elements channelIds);
  m ← mget;
  _ ← mcall (MShutdown (serverSocketId_ m));
  Manager_Reset.

(** ** Steps *)

Definition run_task (t : Task) : MM Z :=
  match t with
  | TaskUpdateChannel socket channel => UpdateChannel socket channel
  | TaskSendBytes channel data => DoSendBytes channel data
  | TaskSendMessage channel data => DoSendMessage channel data
  | TaskSendStream channel data => DoSendStream channel data
  | TaskSendFile channel sFiles dFiles => DoSendFile channel sFiles dFiles
  end.

(** The [n]-th waiting entry runs next. *)
Definition RunTask (n : nat) : MM unit :=
  m ← mget;
  match tasks_ m !! n with
  | None => mret tt
  | Some t => _ ← mmod (set_tasks (delete n (tasks_ m))); _ ← run_task t; mret tt
  end.
Definition RunCallback (n : nat) : MM unit :=
  m ← mget;
  match callbacks_ m !! n with
  | None => mret tt
  | Some c => _ ← mmod (set_callbacks (delete n (callbacks_ m))); mcall (MDeliver c)
  end.

Inductive Op :=
  | OpInit (owner : string)
  | OpDeInit
  | OpCreateServerChannel (name : string) (t : ChannelDataType) (peer : ChannelPeerInfo)
  | OpCreateClientChannel (name : string) (t : ChannelDataType) (peer : ChannelPeerInfo)
  | OpDeleteChannel (channel : Z)
  | OpRegisterListener (channel : Z) (listener : option Z)
  | OpConnectChannel (channel : Z)
  | OpSendBytes (channel : Z) (data : option DataBuffer)
  | OpSendMessage (channel : Z) (data : option DataBuffer)
  | OpSendStream (channel : Z) (data : option AVTransStreamData)
  | OpSendFile (channel : Z) (sFiles dFiles : list string)
  | OpSocketError (socket errorCode : Z)
  | OpSocketConnected (socket : Z) (peerSocketName : string)
  | OpSocketClosed (socket : Z)
  | OpBytesReceived (socket : Z) (data : option (list Z))
  | OpMessageReceived (socket : Z) (data : option (list Z))
  | OpStreamReceived (socket : Z) (data : option (option (list Z))) (ext : option (option string))
  | OpFileEvent (socket : Z) (e : option FileEvent)
  | OpRunTask (n : nat)
  | OpRunCallback (n : nat).

Definition run_op (o : Op) : MM unit :=
  match o with
  | OpInit owner => _ ← Manager_Init owner; mret tt
  | OpDeInit => DeInit
  | OpCreateServerChannel name t peer => _ ← CreateServerChannel name t peer; mret tt
  | OpCreateClientChannel name t peer => _ ← CreateClientChannel name t peer; mret tt
  | OpDeleteChannel channel => _ ← DeleteChannel channel; mret tt
  | OpRegisterListener channel l => _ ← RegisterChannelListener channel l; mret tt
  | OpConnectChannel channel => _ ← ConnectChannel channel; mret tt
  | OpSendBytes channel data => _ ← Manager_SendBytes channel data; mret tt
  | OpSendMessage channel data => _ ← Manager_SendMessage channel data; mret tt
  | OpSendStream channel data => _ ← Manager_SendStream channel data; mret tt
  | OpSendFile channel s d => _ ← Manager_SendFile channel s d; mret tt
  | OpSocketError socket e => OnSocketError socket e
  | OpSocketConnected socket name => Manager_OnSocketConnected socket name
  | OpSocketClosed socket => OnSocketClosed socket
  | OpBytesReceived socket data => OnBytesReceived socket data
  | OpMessageReceived socket data => OnMessageReceived socket data
  | OpStreamReceived socket data ext => OnStreamReceived socket data ext
  | OpFileEvent socket e => OnFileEventReceived socket e
  | OpRunTask n => RunTask n
  | OpRunCallback n => RunCallback n
  end.

Fixpoint run_ops (os : list Op) : MM unit :=
  match os with
  | [] => mret tt
  | o :: os => _ ← run_op o; run_ops os
  end.
End Operations.
