(* ===== verification/ChannelManagerProps.v ===== *)
(** The tables of the channel manager stay consistent under every sequence of calls,
    tasks and events of softbus; creating, connecting and deleting channels do what
    they promise. *)

From Stdlib Require Import Ascii.
From stdpp Require Import gmap sorting.
From S2P Require Import Prelude DataBuffer SchedErrors SchedUtils Json CollabHeader CollabChannel StreamData ChannelManager.
#[local] Open Scope string_scope.
#[local] Open Scope list_scope.
#[local] Open Scope Z_scope.

(** ** Programs of the manager *)

(** From a state with [P] the program ends with [Q], or ends the process, but never
    by a call of the null sender and receiver. *)
Definition triple {A} (P : CM -> Prop) (p : MM A) (Q : A -> CM -> Prop) : Prop :=
  forall m, P m -> match p m with inl (a, m') => Q a m' | inr c => c <> NullSender end.

Lemma triple_ret {A} (P : CM -> Prop) (a : A) (Q : A -> CM -> Prop) : (forall m, P m -> Q a m) -> triple P (mret a) Q.
Proof. intros H m Hm. exact (H m Hm). Qed.

Lemma triple_bind {A B} P (p : MM A) (f : A -> MM B) R Q :
  triple P p R -> (forall a, triple (R a) (f a) Q) -> triple P (p ≫= f) Q.
Proof.
  intros Hp Hf m Hm. specialize (Hp m Hm). unfold mbind, MM_bind. destruct (p m) as [[a m']|c]; [|done].
  exact (Hf a m' Hp).
Qed.

Lemma triple_get {A} (P : CM -> Prop) (f : CM -> MM A) Q :
  (forall m, P m -> triple (fun m' => m' = m) (f m) Q) -> triple P (mget ≫= f) Q.
Proof. intros H m Hm. exact (H m Hm m eq_refl). Qed.

Lemma triple_mod (P : CM -> Prop) f (Q : unit -> CM -> Prop) : (forall m, P m -> Q tt (f m)) -> triple P (mmod f) Q.
Proof. intros H m Hm. exact (H m Hm). Qed.

(** A change of a known state. *)
Lemma triple_step {A} m f (k : unit -> MM A) Q :
  triple (fun m' => m' = f m) (k tt) Q -> triple (fun m' => m' = m) (mmod f ≫= k) Q.
Proof. intros H ? ->. exact (H (f m) eq_refl). Qed.

Lemma triple_crash {A} P c (Q : A -> CM -> Prop) : c <> NullSender -> triple P (mcrash c) Q.
Proof. intros H m Hm. exact H. Qed.

Lemma triple_pre {A} (P P' : CM -> Prop) (p : MM A) Q : (forall m, P m -> P' m) -> triple P' p Q -> triple P p Q.
Proof. intros H Hp m Hm. apply Hp, H, Hm. Qed.

Lemma triple_post {A} (P : CM -> Prop) (p : MM A) (Q Q' : A -> CM -> Prop) :
  triple P p Q -> (forall a m, Q a m -> Q' a m) -> triple P p Q'.
Proof. intros Hp H m Hm. specialize (Hp m Hm). destruct (p m) as [[a m']|c]; [auto|done]. Qed.

(** ** The tables *)

(** An identity of a channel is in the range of its type and below the next one, the
    name of the channel leads to it, and its sockets are those with a sender. A name
    leads to channels of that name only, and a socket to a channel that has it. *)
Record cm_wf (m : CM) : Prop := {
  wf_next : forall t, start_id t <= nextIds_ m t <= start_id t + 999;
  wf_info : forall c i, channelInfoMap_ m !! c = Some i ->
    channelId i = c /\ start_id (dataType i) <= c < nextIds_ m (dataType i) /\
    c ∈ default [] (channelIdMap_ m !! channelName i) /\
    (forall s, s ∈ clientSockets i <-> is_Some (dataSenderReceivers i !! s));
  wf_ids : forall n ids, channelIdMap_ m !! n = Some ids ->
    NoDup ids /\ forall c, c ∈ ids -> exists i, channelInfoMap_ m !! c = Some i /\ channelName i = n;
  wf_sockets : forall s c, socketChannelMap_ m !! s = Some c ->
    exists i, channelInfoMap_ m !! c = Some i /\ is_Some (dataSenderReceivers i !! s);
  wf_status : forall s, is_Some (socketStatusMap_ m !! s) <-> is_Some (socketChannelMap_ m !! s);
}.

Definition same_tables (m m' : CM) : Prop :=
  nextIds_ m' = nextIds_ m /\ channelInfoMap_ m' = channelInfoMap_ m /\ channelIdMap_ m' = channelIdMap_ m /\
  socketChannelMap_ m' = socketChannelMap_ m /\ socketStatusMap_ m' = socketStatusMap_ m.

Lemma cm_wf_same m m' : same_tables m m' -> cm_wf m -> cm_wf m'.
Proof. intros (E1 & E2 & E3 & E4 & E5) []. by constructor; rewrite ?E1, ?E2, ?E3, ?E4, ?E5. Qed.

Lemma wf_new : cm_wf ChannelManager_new.
Proof.
  constructor; simpl.
  - intros []; vm_compute; split; congruence.
  - intros c i H. by rewrite lookup_empty in H.
  - intros n ids H. by rewrite lookup_empty in H.
  - intros s c H. by rewrite lookup_empty in H.
  - intros s. rewrite !lookup_empty. by split; intros [? ?].
Qed.

(** The ranges of the types do not meet. *)
Lemma type_of_id t t' c : start_id t <= c < start_id t + 999 -> start_id t' <= c < start_id t' + 999 -> t = t'.
Proof. destruct t, t'; try done; cbv [start_id MESSAGE_START_ID BYTES_START_ID STREAM_START_ID FILE_START_ID CHANNEL_ID_GAP]; lia. Qed.

Lemma id_valid t c : start_id t <= c < start_id t + 999 -> isValidChannelId c = true.
Proof.
  unfold isValidChannelId. rewrite andb_true_iff, Z.ltb_lt, Z.leb_le.
  destruct t; cbv [start_id MESSAGE_START_ID BYTES_START_ID STREAM_START_ID FILE_START_ID CHANNEL_ID_GAP]; lia.
Qed.

Lemma info_valid m c i : cm_wf m -> channelInfoMap_ m !! c = Some i -> isValidChannelId c = true.
Proof.
  intros Hm Hi. destruct (wf_info m Hm c i Hi) as (_ & Hr & _). pose proof (wf_next m Hm (dataType i)).
  apply (id_valid (dataType i)). lia.
Qed.

Lemma next_fresh m t : cm_wf m -> nextIds_ m t < start_id t + 999 -> channelInfoMap_ m !! nextIds_ m t = None.
Proof.
  intros Hm Hl. destruct (channelInfoMap_ m !! nextIds_ m t) as [i|] eqn:E; [|done]. exfalso.
  destruct (wf_info m Hm _ i E) as (_ & Hr & _). pose proof (wf_next m Hm t). pose proof (wf_next m Hm (dataType i)).
  assert (t = dataType i) as -> by (apply (type_of_id _ _ (nextIds_ m t)); lia). lia.
Qed.

(** ** Programs that leave the tables alone *)

Definition keeps {A} (p : MM A) : Prop := triple cm_wf p (fun _ => cm_wf).

Lemma chan_keeps_ret {A} (a : A) : keeps (mret a).
Proof. by apply triple_ret. Qed.
Lemma chan_keeps_bind {A B} (p : MM A) (f : A -> MM B) : keeps p -> (forall a, keeps (f a)) -> keeps (p ≫= f).
Proof. intros Hp Hf. by eapply triple_bind. Qed.
Lemma keeps_crash {A} c : c <> NullSender -> keeps (@mcrash A c).
Proof. apply triple_crash. Qed.
Lemma keeps_mod f : (forall m, same_tables m (f m)) -> keeps (mmod f).
Proof. intros H. apply triple_mod. intros m Hm. by eapply cm_wf_same. Qed.
Lemma keeps_at {A} (f : CM -> MM A) : (forall m, cm_wf m -> triple (fun m' => m' = m) (f m) (fun _ => cm_wf)) -> keeps (mget ≫= f).
Proof. apply triple_get. Qed.
(** What was read may be forgotten. *)
Lemma keeps_read {A} (f : CM -> MM A) : (forall m, keeps (f m)) -> keeps (mget ≫= f).
Proof. intros H. apply triple_get. intros m Hm. eapply triple_pre; [|apply H]. by intros ? ->. Qed.
Lemma keeps_from {A} (p : MM A) m : cm_wf m -> keeps p -> triple (fun m' => m' = m) p (fun _ => cm_wf).
Proof. intros Hm Hp. eapply triple_pre; [|exact Hp]. by intros ? ->. Qed.

Lemma keeps_then {A B} P (p : MM A) (f : A -> MM B) :
  triple P p (fun _ => cm_wf) -> (forall a, keeps (f a)) -> triple P (p ≫= f) (fun _ => cm_wf).
Proof. intros Hp Hf. by eapply triple_bind. Qed.

Lemma keeps_mcall c : keeps (mcall c).
Proof. by apply keeps_mod. Qed.
Lemma keeps_mask {A} c (f : list MCall -> A) : keeps (mask c f).
Proof. apply keeps_read. intros m. apply chan_keeps_bind; [apply keeps_mcall|]. intros _. apply chan_keeps_ret. Qed.

Create HintDb keeps.
#[export] Hint Resolve chan_keeps_ret keeps_mcall keeps_mask : keeps.

(** [keeps_tac] walks through a program whose steps keep the tables. *)
Ltac keeps_tac :=
  repeat lazymatch goal with
  | |- forall _, keeps _ => intros ?
  | |- keeps (mret _) => apply chan_keeps_ret
  | |- keeps (mget ≫= _) => apply keeps_read
  | |- keeps (_ ≫= _) => apply chan_keeps_bind
  | |- keeps (mmod _) => apply keeps_mod; done
  | |- keeps (mcrash _) => apply keeps_crash; done
  | |- keeps (match ?x with _ => _ end) => destruct x
  | |- keeps _ => solve [auto with keeps]
  end.

Section Props.
Context {CJ : CJson}.
Variable env : MEnv.

Lemma keeps_PostTask t : keeps (PostTask env t).
Proof. unfold PostTask. keeps_tac. Qed.
Lemma keeps_PostCallback c : keeps (PostCallbackTask env c).
Proof. unfold PostCallbackTask. keeps_tac. Qed.
#[local] Hint Resolve keeps_PostTask keeps_PostCallback : keeps.

Lemma keeps_post_all cs : keeps (post_all env cs).
Proof. induction cs; simpl; keeps_tac. Qed.
#[local] Hint Resolve keeps_post_all : keeps.

Lemma keeps_Notify c call : keeps (NotifyListeners env c call).
Proof. unfold NotifyListeners. keeps_tac. Qed.
#[local] Hint Resolve keeps_Notify : keeps.

Lemma keeps_Error c e : keeps (DoErrorCallback env c e).
Proof. apply keeps_Notify. Qed.
#[local] Hint Resolve keeps_Error : keeps.

Lemma keeps_SetFileSchema s : keeps (SetFileSchema env s).
Proof. unfold SetFileSchema. keeps_tac. Qed.

Lemma keeps_Register c l : keeps (RegisterChannelListener env c l).
Proof. unfold RegisterChannelListener. keeps_tac. Qed.

Lemma keeps_CreateClientSocket n p i t : keeps (CreateClientSocket env n p i t).
Proof. unfold CreateClientSocket. keeps_tac. Qed.

Lemma keeps_Init owner : keeps (Manager_Init env owner).
Proof. unfold Manager_Init, CreateServerSocket. keeps_tac. Qed.
#[local] Hint Resolve keeps_SetFileSchema keeps_Register keeps_CreateClientSocket keeps_Init : keeps.

Lemma keeps_SendBytesData d s : keeps (sender_SendBytesData env d s).
Proof. unfold sender_SendBytesData. keeps_tac. Qed.
Lemma keeps_SendMessageData d s : keeps (sender_SendMessageData env d s).
Proof. unfold sender_SendMessageData. keeps_tac. Qed.
Lemma keeps_SendStreamData d s : keeps (SendStreamData env d s).
Proof. unfold SendStreamData. keeps_tac. Qed.
Lemma keeps_SendFileData a b s : keeps (SendFileData env a b s).
Proof. unfold SendFileData. keeps_tac. Qed.

Lemma keeps_DoSendData c send : (forall s, keeps (send s)) -> keeps (DoSendData env c send).
Proof. intros H. unfold DoSendData, GetValidSocket. keeps_tac. Qed.

Lemma keeps_Deliver n : keeps (RunCallback n).
Proof. unfold RunCallback. keeps_tac. Qed.

(** ** Status *)

(** A channel that changes its status, its receivers or gains a socket with a sender
    stays under its identity and name. *)
Definition grows (i i' : ChannelInfo) : Prop :=
  channelId i' = channelId i /\ dataType i' = dataType i /\ channelName i' = channelName i /\
  (forall s, s ∈ clientSockets i' <-> is_Some (dataSenderReceivers i' !! s)) /\
  (forall s, is_Some (dataSenderReceivers i !! s) -> is_Some (dataSenderReceivers i' !! s)).

Lemma put_channel_wf m c i i' : cm_wf m -> channelInfoMap_ m !! c = Some i -> grows i i' -> cm_wf (put_channel c i' m).
Proof.
  intros Hm Hi (G1 & G2 & G3 & G4 & G5). constructor; simpl.
  - apply (wf_next m Hm).
  - intros c0 i0. rewrite lookup_insert_Some. intros [[<- <-]|[Hne H]]; [|by apply (wf_info m Hm)].
    destruct (wf_info m Hm c i Hi) as (? & ? & ? & _). by rewrite G1, G2, G3.
  - intros n ids Hn. destruct (wf_ids m Hm n ids Hn) as [Hd Hids]. split; [done|]. intros c0 Hc0.
    destruct (Hids c0 Hc0) as (i0 & H0 & Hn0). destruct (decide (c = c0)) as [<-|Hne].
    + rewrite Hi in H0. injection H0 as <-. exists i'. rewrite lookup_insert_eq. by rewrite G3.
    + exists i0. by rewrite lookup_insert_ne.
  - intros s c0 Hs. destruct (wf_sockets m Hm s c0 Hs) as (i0 & H0 & Hr). destruct (decide (c = c0)) as [<-|Hne].
    + rewrite Hi in H0. injection H0 as <-. exists i'. rewrite lookup_insert_eq. auto.
    + exists i0. by rewrite lookup_insert_ne.
  - apply (wf_status m Hm).
Qed.

Lemma grows_status m c i s : cm_wf m -> channelInfoMap_ m !! c = Some i -> grows i (with_status s i).
Proof. intros Hm Hi. destruct (wf_info m Hm c i Hi) as (_ & _ & _ & H). by repeat split; try apply H. Qed.

Lemma grows_receiver m c i s r : cm_wf m -> channelInfoMap_ m !! c = Some i -> is_Some (dataSenderReceivers i !! s) ->
  grows i (with_receivers (<[s := r]> (dataSenderReceivers i)) i).
Proof.
  intros Hm Hi Hs. destruct (wf_info m Hm c i Hi) as (_ & _ & _ & H). repeat split; simpl.
  - intros Hin. apply H in Hin. destruct (decide (s = s0)) as [<-|]; [rewrite lookup_insert_eq; eauto|].
    by rewrite lookup_insert_ne.
  - intros Hin. apply H. destruct (decide (s = s0)) as [<-|]; [done|]. by rewrite lookup_insert_ne in Hin.
  - intros s' Hin. destruct (decide (s = s')) as [<-|]; [rewrite lookup_insert_eq; eauto|].
    by rewrite lookup_insert_ne.
Qed.

Lemma grows_socket m c i s r : cm_wf m -> channelInfoMap_ m !! c = Some i ->
  grows i (mkChannelInfo (channelId i) (status i) (dataType i) (channelName i) (peerInfo i)
             (clientSockets i ++ [s]) (<[s := r]> (dataSenderReceivers i))).
Proof.
  intros Hm Hi. destruct (wf_info m Hm c i Hi) as (_ & _ & _ & H). repeat split; simpl.
  - rewrite elem_of_app, list_elem_of_singleton. destruct (decide (s = s0)) as [<-|Hne].
    + rewrite lookup_insert_eq. eauto.
    + rewrite lookup_insert_ne by done. intros [Hin| ->]; [by apply H|done].
  - rewrite elem_of_app, list_elem_of_singleton. destruct (decide (s = s0)) as [<-|Hne]; [by right|].
    rewrite lookup_insert_ne by done. intros Hin. left. by apply H.
  - intros s' Hin. destruct (decide (s = s')) as [<-|]; [rewrite lookup_insert_eq; eauto|].
    by rewrite lookup_insert_ne.
Qed.

Lemma keeps_SetChannelStatus c s : keeps (SetChannelStatus c s).
Proof.
  apply keeps_at. intros m Hm. destruct (channelInfoMap_ m !! c) as [i|] eqn:Hi; [|by apply keeps_from, chan_keeps_ret].
  apply keeps_then; [|intros _; apply chan_keeps_ret]. apply triple_mod. intros ? ->.
  eapply put_channel_wf; [done..|]. by eapply grows_status.
Qed.
#[local] Hint Resolve keeps_SetChannelStatus : keeps.

Lemma keeps_UpdateChannelStatus c : keeps (UpdateChannelStatus c).
Proof. unfold UpdateChannelStatus. keeps_tac. Qed.
#[local] Hint Resolve keeps_UpdateChannelStatus : keeps.

Lemma set_status_wf m s st : cm_wf m -> is_Some (socketStatusMap_ m !! s) ->
  cm_wf (set_sockets (socketChannelMap_ m) (<[s := st]> (socketStatusMap_ m)) m).
Proof.
  intros Hm Hs. constructor; simpl; try apply Hm. intros s'. rewrite <- (wf_status m Hm s').
  destruct (decide (s = s')) as [<-|]; [|by rewrite lookup_insert_ne].
  rewrite lookup_insert_eq. split; [done|eauto].
Qed.

Lemma keeps_SetSocketStatus s st : keeps (SetSocketStatus s st).
Proof.
  apply keeps_at. intros m Hm. destruct (socketStatusMap_ m !! s) as [x|] eqn:Hs; [|by apply keeps_from, chan_keeps_ret].
  apply keeps_then; [|intros _; destruct (socketChannelMap_ m !! s); [apply keeps_UpdateChannelStatus|apply chan_keeps_ret]].
  apply triple_mod. intros ? ->. by apply set_status_wf.
Qed.
#[local] Hint Resolve keeps_SetSocketStatus : keeps.

(** ** Connecting *)

Lemma keeps_BindSocket s t : keeps (BindSocket env s t).
Proof. unfold BindSocket. keeps_tac; apply keeps_SetFileSchema. Qed.
#[local] Hint Resolve keeps_BindSocket : keeps.

Lemma keeps_bind_all ss t : keeps (bind_all env ss t).
Proof. induction ss; simpl; keeps_tac. Qed.
#[local] Hint Resolve keeps_bind_all : keeps.

Lemma keeps_ConnectChannel c : keeps (ConnectChannel env c).
Proof. unfold ConnectChannel, DoBindSockets. keeps_tac. Qed.

Lemma register_wf m s c i r : cm_wf m -> channelInfoMap_ m !! c = Some i ->
  let m1 := put_channel c (mkChannelInfo (channelId i) (status i) (dataType i) (channelName i) (peerInfo i)
                             (clientSockets i ++ [s]) (<[s := r]> (dataSenderReceivers i))) m in
  cm_wf (set_sockets (<[s := c]> (socketChannelMap_ m1)) (<[s := CONNECTED]> (socketStatusMap_ m1)) m1).
Proof.
  intros Hm Hi m1. assert (cm_wf m1) as Hm1 by (eapply put_channel_wf; [done..|by eapply grows_socket]).
  constructor; simpl; try apply Hm1.
  - intros s' c'. rewrite lookup_insert_Some. intros [[<- <-]|[Hne H]]; [|by apply (wf_sockets m1 Hm1)].
    eexists. rewrite lookup_insert_eq. split; [done|]. simpl.
    rewrite lookup_insert_eq. eauto.
  - intros s'. destruct (decide (s = s')) as [<-|].
    + rewrite !lookup_insert_eq. split; eauto.
    + rewrite !lookup_insert_ne by done. apply (wf_status m Hm).
Qed.

Lemma keeps_RegisterSocket s c : keeps (RegisterSocket env s c).
Proof.
  apply keeps_at. intros m Hm. destruct (channelInfoMap_ m !! c) as [i|] eqn:Hi; [|by apply keeps_from, chan_keeps_ret].
  apply triple_step.
  apply keeps_then; [|intros _; keeps_tac; apply keeps_SetFileSchema].
  apply triple_mod. intros ? ->. by apply register_wf.
Qed.
#[local] Hint Resolve keeps_ConnectChannel keeps_RegisterSocket : keeps.

Lemma keeps_UpdateChannel s c : keeps (UpdateChannel env s c).
Proof. unfold UpdateChannel, DoConnectCallback. keeps_tac. Qed.

(** ** Receiving *)

Lemma keeps_on_channel s f :
  (forall m c, cm_wf m -> socketChannelMap_ m !! s = Some c -> triple (fun m' => m' = m) (f c) (fun _ => cm_wf)) ->
  keeps (on_channel s f).
Proof.
  intros H. unfold on_channel. destruct (s <=? 0); [apply chan_keeps_ret|]. apply keeps_at. intros m Hm. cbn zeta.
  destruct (isValidChannelId (GetChannelId m s)) eqn:Hv; cbn [negb]; [|by apply keeps_from, chan_keeps_ret].
  apply H; [done|]. unfold GetChannelId in *. destruct (socketChannelMap_ m !! s) as [c|]; [done|]. by vm_compute in Hv.
Qed.

Lemma keeps_on_channel' s f : (forall c, keeps (f c)) -> keeps (on_channel s f).
Proof. intros H. apply keeps_on_channel. intros m c Hm _. by apply keeps_from. Qed.

Lemma keeps_SocketError s e : keeps (OnSocketError env s e).
Proof. apply keeps_on_channel'. intros c. apply keeps_Error. Qed.
#[local] Hint Resolve keeps_UpdateChannel keeps_SocketError : keeps.

Lemma put_receiver_wf m c i s r : cm_wf m -> channelInfoMap_ m !! c = Some i -> is_Some (dataSenderReceivers i !! s) ->
  triple (fun m' => m' = m) (put_receiver c s r) (fun _ => cm_wf).
Proof.
  intros Hm Hi Hs. apply triple_mod. intros ? ->. rewrite Hi. eapply put_channel_wf; [done..|]. by eapply grows_receiver.
Qed.

(** The sender and receiver of a known socket exists. *)
Lemma keeps_ProcessRecvData m c s data : cm_wf m -> socketChannelMap_ m !! s = Some c ->
  triple (fun m' => m' = m) (Manager_ProcessRecvData env c s data) (fun _ => cm_wf).
Proof.
  intros Hm Hs. destruct (wf_sockets m Hm s c Hs) as (i & Hi & [r Hr]). unfold Manager_ProcessRecvData.
  apply triple_get. intros ? ->. rewrite Hi, Hr.
  destruct (PackRecvPacketData (m_garbage env) r data) as [ret r'|]; [|by apply triple_crash].
  destruct (negb (ret =? ERR_OK)); [|destruct (GetPacketedData r') as [b r'']];
    (apply keeps_then; [by eapply put_receiver_wf|]); intros _; keeps_tac.
Qed.

Lemma keeps_BytesReceived s data : keeps (OnBytesReceived env s data).
Proof.
  apply keeps_on_channel. intros m c Hm Hs. destruct data as [data|]; [|by apply keeps_from, keeps_SocketError].
  apply keeps_then; [by apply keeps_ProcessRecvData|]. keeps_tac.
Qed.

Lemma keeps_copy d n : keeps (copy_received d n).
Proof. unfold copy_received. keeps_tac. Qed.
#[local] Hint Resolve keeps_copy : keeps.

Lemma keeps_MessageReceived s data : keeps (OnMessageReceived env s data).
Proof. apply keeps_on_channel'. keeps_tac. Qed.
Lemma keeps_StreamReceived s data ext : keeps (OnStreamReceived env s data ext).
Proof. apply keeps_on_channel'. keeps_tac. Qed.

Lemma keeps_Dispatch c e : keeps (DispatchProcessFileEvent env c e).
Proof. unfold DispatchProcessFileEvent. destruct (fe_type e); try apply keeps_Notify; apply chan_keeps_ret. Qed.
#[local] Hint Resolve keeps_Dispatch keeps_BytesReceived keeps_MessageReceived keeps_StreamReceived : keeps.

Lemma keeps_FileEvent s e : keeps (OnFileEventReceived env s e).
Proof. unfold OnFileEventReceived. keeps_tac. apply keeps_on_channel'. keeps_tac. Qed.
#[local] Hint Resolve keeps_FileEvent : keeps.

(** ** Creating *)

(** The next identity of a type is taken. *)
Definition take_id (t : ChannelDataType) (m : CM) : CM :=
  set_nextIds (fun t' => if decide (t' = t) then nextIds_ m t + 1 else nextIds_ m t') m.

Lemma CreateBaseChannel_run name t peer m : cm_wf m ->
  CreateBaseChannel name t peer m =
    if nextIds_ m t =? start_id t + 999 then inl (None, m)
    else inl (Some (mkChannelInfo (nextIds_ m t) UNCONNECTED t name peer [] ∅), take_id t m).
Proof.
  intros Hm. unfold CreateBaseChannel, GenerateNextId, mbind, MM_bind, mget, mret, MM_ret, mmod.
  pose proof (wf_next m Hm t) as Hn.
  replace (CHANNEL_ID_GAP <=? nextIds_ m t - CHANNEL_ID_GAP * (type_number t + 1)) with (nextIds_ m t =? start_id t + 999).
  2: { apply eq_bool_prop_intro. rewrite !Is_true_true, Z.eqb_eq, Z.leb_le.
       destruct t; cbv [start_id type_number MESSAGE_START_ID BYTES_START_ID STREAM_START_ID FILE_START_ID CHANNEL_ID_GAP] in *; lia. }
  destruct (Z.eqb_spec (nextIds_ m t) (start_id t + 999)) as [E|E]; [by vm_compute|].
  rewrite (id_valid t) by lia. done.
Qed.

(** A new channel with its sockets, under the next identity of its type. *)
Lemma add_channel_wf m t i : cm_wf m -> nextIds_ m t < start_id t + 999 ->
  channelId i = nextIds_ m t -> dataType i = t ->
  (forall s, s ∈ clientSockets i <-> is_Some (dataSenderReceivers i !! s)) ->
  cm_wf (add_channel i (take_id t m)) /\ channelInfoMap_ (add_channel i (take_id t m)) = <[channelId i := i]> (channelInfoMap_ m).
Proof.
  intros Hm Hl Eid Et Hs. pose proof (next_fresh m t Hm Hl) as Hf.
  assert (channelInfoMap_ (add_channel i (take_id t m)) = <[channelId i := i]> (channelInfoMap_ m)) as Em.
  { unfold add_channel. simpl. by rewrite Eid, Hf. }
  split; [|done]. constructor.
  - intros t'. simpl. pose proof (wf_next m Hm t'). destruct (decide (t' = t)) as [->|]; [lia|done].
  - intros c i0. rewrite Em, lookup_insert_Some. intros [[<- <-]|[Hne H]]; simpl.
    + rewrite decide_True by done. pose proof (wf_next m Hm t). rewrite Et, Eid.
      split; [done|]. split; [lia|]. split; [|done]. rewrite lookup_insert_eq. simpl. set_solver.
    + destruct (wf_info m Hm c i0 H) as (E1 & E2 & E3 & E4). split; [done|]. split.
      { destruct (decide (dataType i0 = t)) as [E|]; [rewrite E in E2 |- *; lia | lia]. }
      split; [|done]. destruct (decide (channelName i = channelName i0)) as [E|Hne'].
      * rewrite E, lookup_insert_eq. simpl. set_solver.
      * by rewrite lookup_insert_ne.
  - intros n ids. rewrite Em. simpl. rewrite lookup_insert_Some. intros [[<- <-]|[Hne H]].
    + assert (NoDup (default [] (channelIdMap_ m !! channelName i)) /\ forall c, c ∈ default [] (channelIdMap_ m !! channelName i) ->
        exists i0, channelInfoMap_ m !! c = Some i0 /\ channelName i0 = channelName i) as [Hd Hids].
      { destruct (channelIdMap_ m !! channelName i) as [ids|] eqn:E; [by apply (wf_ids m Hm)|]. split; [constructor|]. simpl. set_solver. }
      split.
      * apply NoDup_app. split; [done|]. split; [|by apply NoDup_singleton].
        intros c Hc. rewrite list_elem_of_singleton. intros ->. destruct (Hids _ Hc) as (i0 & H0 & _).
        rewrite Eid, Hf in H0. done.
      * intros c. rewrite elem_of_app, list_elem_of_singleton. intros [Hc| ->].
        -- destruct (Hids c Hc) as (i0 & H0 & En0). exists i0. split; [|done]. rewrite lookup_insert_ne; [done|].
           intros <-. rewrite Eid, Hf in H0. done.
        -- exists i. by rewrite lookup_insert_eq.
    + destruct (wf_ids m Hm n ids H) as [Hd Hids]. split; [done|]. intros c Hc. destruct (Hids c Hc) as (i0 & H0 & En0).
      exists i0. split; [|done]. rewrite lookup_insert_ne; [done|]. intros <-. rewrite Eid, Hf in H0. done.
  - intros s c H. rewrite Em. simpl in H. destruct (wf_sockets m Hm s c H) as (i0 & H0 & Hr). exists i0.
    split; [|done]. rewrite lookup_insert_ne; [done|]. intros <-. rewrite Eid, Hf in H0. done.
  - apply (wf_status m Hm).
Qed.

Lemma CreateServerChannel_run name t peer m : cm_wf m -> nextIds_ m t < start_id t + 999 ->
  let i := mkChannelInfo (nextIds_ m t) UNCONNECTED t name peer [] ∅ in
  CreateServerChannel name t peer m = inl (nextIds_ m t, set_fileChannel (nextIds_ m t) (add_channel i (take_id t m))).
Proof.
  intros Hm Hl i. unfold CreateServerChannel. unfold mbind at 1, MM_bind at 1. rewrite CreateBaseChannel_run by done.
  by zb_false (nextIds_ m t =? start_id t + 999).
Qed.

Lemma keeps_CreateServerChannel name t peer : keeps (CreateServerChannel name t peer).
Proof.
  intros m Hm. destruct (Z.eqb_spec (nextIds_ m t) (start_id t + 999)) as [E|E].
  - unfold CreateServerChannel. unfold mbind at 1, MM_bind at 1. rewrite CreateBaseChannel_run by done.
    by rewrite E, Z.eqb_refl.
  - pose proof (wf_next m Hm t). rewrite CreateServerChannel_run by (done || lia).
    set (i := mkChannelInfo (nextIds_ m t) UNCONNECTED t name peer [] ∅).
    destruct (add_channel_wf m t i Hm) as [Hw _]; [lia|done..| |].
    + simpl. intros s. rewrite lookup_empty. split; [set_solver|by intros [? ?]].
    + eapply cm_wf_same; [|exact Hw]. by repeat split.
Qed.

Lemma emplace_wf m s c i st : cm_wf m -> channelInfoMap_ m !! c = Some i -> is_Some (dataSenderReceivers i !! s) ->
  cm_wf (set_sockets (emplace s c (socketChannelMap_ m)) (emplace s st (socketStatusMap_ m)) m).
Proof.
  intros Hm Hi Hr. unfold emplace. pose proof (wf_status m Hm s) as Hst.
  destruct (socketChannelMap_ m !! s) as [c0|] eqn:Ec, (socketStatusMap_ m !! s) as [st0|] eqn:Es.
  - eapply cm_wf_same; [|exact Hm]. by repeat split.
  - destruct Hst as [_ [? Hst]]; eauto. done.
  - destruct Hst as [[? Hst] _]; eauto. done.
  - constructor; simpl; try apply Hm.
    + intros s' c'. rewrite lookup_insert_Some. intros [[<- <-]|[Hne H]]; [eauto|by apply (wf_sockets m Hm)].
    + intros s'. destruct (decide (s = s')) as [<-|].
      * rewrite !lookup_insert_eq. split; eauto.
      * rewrite !lookup_insert_ne by done. apply (wf_status m Hm).
Qed.

(** The channel of a client with its first socket. *)
Definition client_channel (c : Z) (t : ChannelDataType) (name : string) (peer : ChannelPeerInfo) (s : Z) : ChannelInfo :=
  mkChannelInfo c UNCONNECTED t name peer [s] (<[s := Receiver_new]> ∅).

Lemma client_channel_sockets c t name peer s s' :
  s' ∈ clientSockets (client_channel c t name peer s) <-> is_Some (dataSenderReceivers (client_channel c t name peer s) !! s').
Proof.
  simpl. rewrite list_elem_of_singleton. destruct (decide (s = s')) as [<-|].
  - rewrite lookup_insert_eq. split; eauto.
  - rewrite lookup_insert_ne by done. rewrite lookup_empty. split; [intros ->; done|by intros [? ?]].
Qed.

Lemma client_wf m t name peer s : cm_wf m -> nextIds_ m t < start_id t + 999 ->
  let i := client_channel (nextIds_ m t) t name peer s in
  let m1 := take_id t m in
  cm_wf (add_channel i (set_sockets (emplace s (channelId i) (socketChannelMap_ m1)) (emplace s UNCONNECTED (socketStatusMap_ m1)) m1)).
Proof.
  intros Hm Hl i m1.
  destruct (add_channel_wf m t i Hm Hl eq_refl eq_refl (client_channel_sockets _ _ _ _ _)) as [Hw Hi].
  eapply cm_wf_same; [|eapply (emplace_wf _ s (channelId i) i UNCONNECTED Hw)]; [by repeat split| |].
  - rewrite Hi. by rewrite lookup_insert_eq.
  - apply client_channel_sockets. simpl. set_solver.
Qed.

Lemma CreateClientSocket_same n p a t m :
  triple (fun m' => m' = m) (CreateClientSocket env n p a t) (fun _ m' => same_tables m m').
Proof.
  intros ? ->. unfold CreateClientSocket. destruct (_ <? _); by repeat split.
Qed.

Lemma keeps_CreateClientChannel name t peer : keeps (CreateClientChannel env name t peer).
Proof.
  intros m Hm. unfold CreateClientChannel. unfold mbind at 1, MM_bind at 1. rewrite CreateBaseChannel_run by done.
  destruct (Z.eqb_spec (nextIds_ m t) (start_id t + 999)) as [E|E]; [done|].
  pose proof (wf_next m Hm t) as Hn. cbn [channelName peerInfo].
  assert (cm_wf (take_id t m)) as Ht.
  { constructor; simpl; try apply Hm.
    - intros t'. pose proof (wf_next m Hm t'). destruct (decide (t' = t)) as [->|]; [lia|done].
    - intros c i Hi. destruct (wf_info m Hm c i Hi) as (? & ? & ?). split; [done|]. split; [|done].
      destruct (decide (dataType i = t)) as [Et|]; [rewrite Et in *; lia | lia]. }
  match goal with |- match ?p ?m0 with _ => _ end => enough (triple (fun m' => m' = m0) p (fun _ => cm_wf)) as H by (by apply H) end.
  unfold RegisterClientSocket. cbn [channelName peerInfo channelId clientSockets dataSenderReceivers app status dataType].
  apply keeps_then; [|intros; apply chan_keeps_ret].
  eapply triple_bind; [apply CreateClientSocket_same|]. intros s. cbn beta.
  destruct (s <=? 0); [apply triple_ret; intros m' Hs; by eapply cm_wf_same|].
  intros m' Hs. unfold mbind, MM_bind, mmod, mret, MM_ret.
  eapply cm_wf_same; [|apply (client_wf m t name peer s Hm)]; [|lia].
  destruct Hs as (E1 & E2 & E3 & E4 & E5). unfold same_tables. simpl in *. by rewrite E1, E2, E3, E4, E5.
Qed.
#[local] Hint Resolve keeps_CreateServerChannel keeps_CreateClientChannel : keeps.

(** ** Deleting *)

Lemma shutdown_all_run ss m : shutdown_all ss m = inl (tt, set_calls (mcalls_ m ++ map MShutdown ss) m).
Proof.
  revert m. induction ss as [|s ss IH]; intros m; simpl.
  - rewrite app_nil_r. by destruct m.
  - unfold mbind, MM_bind, mcall, mmod. rewrite IH. simpl. by rewrite <- app_assoc.
Qed.

(** What is left without a channel. *)
Definition without (c : Z) (m : CM) : CM :=
  let name := match channelInfoMap_ m !! c with Some info => channelName info | None => "" end in
  set_calls (mcalls_ m ++ map MShutdown (sockets_of c m))
    (set_sockets (delete_all (sockets_of c m) (socketChannelMap_ m)) (delete_all (sockets_of c m) (socketStatusMap_ m))
      (set_channels
         (match channelIdMap_ m !! name with
          | Some ids => <[name := List.filter (fun id => negb (id =? c)) ids]> (channelIdMap_ m)
          | None => channelIdMap_ m
          end) (delete c (channelInfoMap_ m))
         (set_listeners (delete c (listenersMap_ m)) m))).

Lemma DeleteChannel_run c m : isValidChannelId c = true -> DeleteChannel c m = inl (c, without c m).
Proof.
  intros Hv. unfold DeleteChannel. rewrite Hv. cbn [negb].
  unfold ClearRegisterListener, ClearRegisterChannel, ClearRegisterSocket.
  unfold mbind, MM_bind, mmod, mget. cbn beta iota. rewrite shutdown_all_run. reflexivity.
Qed.

Lemma elem_of_sockets_of c m s : s ∈ sockets_of c m <-> socketChannelMap_ m !! s = Some c.
Proof.
  unfold sockets_of. rewrite merge_sort_Permutation, list_elem_of_fmap. split.
  - intros ([s' c'] & -> & H). apply elem_of_map_to_list in H. rewrite map_lookup_filter_Some in H. simpl in *. by destruct H as [? ->].
  - intros H. exists (s, c). split; [done|]. apply elem_of_map_to_list. by rewrite map_lookup_filter_Some.
Qed.

Lemma NoDup_sockets_of c m : NoDup (sockets_of c m).
Proof. unfold sockets_of. rewrite merge_sort_Permutation. apply NoDup_fst_map_to_list. Qed.

Lemma lookup_delete_all {A} ks (mp : gmap Z A) k : delete_all ks mp !! k = if decide (k ∈ ks) then None else mp !! k.
Proof.
  unfold delete_all. induction ks as [|k' ks IH]; cbn [foldr]; [by rewrite decide_False by set_solver|].
  destruct (decide (k' = k)) as [->|Hne].
  - rewrite lookup_delete_eq. by rewrite decide_True by set_solver.
  - rewrite lookup_delete_ne, IH by done. destruct (decide (k ∈ ks)).
    + by rewrite decide_True by set_solver.
    + by rewrite decide_False by set_solver.
Qed.

Lemma without_sockets c m s :
  socketChannelMap_ (without c m) !! s = match socketChannelMap_ m !! s with Some c' => if c' =? c then None else Some c' | None => None end.
Proof.
  unfold without. simpl. rewrite lookup_delete_all. destruct (decide (s ∈ sockets_of c m)) as [H|H]; rewrite elem_of_sockets_of in H.
  - by rewrite H, Z.eqb_refl.
  - destruct (socketChannelMap_ m !! s) as [c'|]; [|done]. destruct (Z.eqb_spec c' c) as [->|]; done.
Qed.

Lemma without_status c m s :
  socketStatusMap_ (without c m) !! s = if decide (socketChannelMap_ m !! s = Some c) then None else socketStatusMap_ m !! s.
Proof.
  unfold without. simpl. rewrite lookup_delete_all. destruct (decide (s ∈ sockets_of c m)) as [H|H]; rewrite elem_of_sockets_of in H.
  - by rewrite decide_True.
  - by rewrite decide_False.
Qed.

Lemma elem_of_remove c c' (l : list Z) : c ∈ List.filter (fun id => negb (id =? c')) l <-> c ∈ l /\ c <> c'.
Proof. rewrite !list_elem_of_In, filter_In, negb_true_iff, Z.eqb_neq. done. Qed.

(** The identities of a name, without the channel. *)
Lemma without_ids c m n : cm_wf m ->
  channelIdMap_ (without c m) !! n = (fun ids => List.filter (fun id => negb (id =? c)) ids) <$> channelIdMap_ m !! n.
Proof.
  intros Hm. unfold without. simpl.
  assert (forall n ids, channelIdMap_ m !! n = Some ids -> (forall i, channelInfoMap_ m !! c = Some i -> channelName i <> n) ->
    List.filter (fun id => negb (id =? c)) ids = ids) as Hother.
  { intros n' ids Hn Hi. destruct (wf_ids m Hm n' ids Hn) as [_ Hids]. clear Hn.
    induction ids as [|id ids IH]; [done|]. simpl. destruct (Z.eqb_spec id c) as [->|Hne].
    - destruct (Hids c) as (i & H & Hn); [set_solver|]. by destruct (Hi i H).
    - simpl. f_equal. apply IH. intros c0 H0. apply Hids. set_solver. }
  destruct (channelInfoMap_ m !! c) as [i|] eqn:Hi.
  - destruct (decide (channelName i = n)) as [<-|Hne].
    + destruct (channelIdMap_ m !! channelName i) as [ids|] eqn:Hn; [|by rewrite Hn]. by rewrite lookup_insert_eq.
    + assert (channelIdMap_ m !! n = (fun ids => List.filter (fun id => negb (id =? c)) ids) <$> channelIdMap_ m !! n) as E.
      { destruct (channelIdMap_ m !! n) as [ids|] eqn:Hn; [|done]. simpl. f_equal. symmetry. apply (Hother n); [done|].
        by intros ? [= <-]. }
      destruct (channelIdMap_ m !! channelName i); [by rewrite lookup_insert_ne|done].
  - assert (forall n, channelIdMap_ m !! n = (fun ids => List.filter (fun id => negb (id =? c)) ids) <$> channelIdMap_ m !! n) as E.
    { intros n'. destruct (channelIdMap_ m !! n') as [ids|] eqn:Hn; [|done]. simpl. f_equal. symmetry. by apply (Hother n'). }
    destruct (channelIdMap_ m !! "") as [ids|] eqn:Hn; [|apply E].
    destruct (decide ("" = n)) as [<-|Hne]; [by rewrite lookup_insert_eq, Hn|by rewrite lookup_insert_ne].
Qed.

Lemma without_wf c m : cm_wf m -> cm_wf (without c m).
Proof.
  intros Hm. constructor.
  - apply (wf_next m Hm).
  - intros c0 i H. simpl in H. apply lookup_delete_Some in H as [Hne H].
    destruct (wf_info m Hm c0 i H) as (H1 & H2 & H3 & H4). split; [done|]. split; [done|]. split; [|done].
    rewrite without_ids by done. destruct (channelIdMap_ m !! channelName i) as [ids|]; [|done]. simpl in *.
    apply elem_of_remove. split; [done|congruence].
  - intros n ids. rewrite without_ids by done. destruct (channelIdMap_ m !! n) as [ids0|] eqn:Hn; [|done]. simpl. intros [= <-].
    destruct (wf_ids m Hm n ids0 Hn) as [Hd Hids]. split.
    + apply NoDup_ListNoDup, List.NoDup_filter, NoDup_ListNoDup, Hd.
    + intros c0. rewrite elem_of_remove. intros [Hin Hne]. destruct (Hids c0 Hin) as (i & Hi & En). exists i. simpl.
      by rewrite lookup_delete_ne by congruence.
  - intros s c0. rewrite without_sockets. destruct (socketChannelMap_ m !! s) as [c1|] eqn:E; [|done].
    destruct (Z.eqb_spec c1 c) as [->|Hne]; [done|]. intros [= <-]. destruct (wf_sockets m Hm s c1 E) as (i & Hi & Hr).
    exists i. simpl. by rewrite lookup_delete_ne by congruence.
  - intros s. rewrite without_sockets, without_status.
    pose proof (wf_status m Hm s) as Hs. destruct (socketChannelMap_ m !! s) as [c1|]; [|by rewrite decide_False].
    destruct (Z.eqb_spec c1 c) as [->|Hne]; [by rewrite decide_True; [split; intros [? ?]|]|].
    rewrite decide_False by congruence. done.
Qed.

Lemma keeps_DeleteChannel c : keeps (DeleteChannel c).
Proof.
  intros m Hm. destruct (isValidChannelId c) eqn:Hv.
  - rewrite DeleteChannel_run by done. by apply without_wf.
  - unfold DeleteChannel. by rewrite Hv.
Qed.
#[local] Hint Resolve keeps_DeleteChannel : keeps.

(** Deleting at least every channel leaves none. *)
Lemma delete_channels_spec ids :
  triple (fun m => cm_wf m /\ forall c, is_Some (channelInfoMap_ m !! c) -> c ∈ ids)
    (delete_channels ids) (fun _ m => cm_wf m /\ channelInfoMap_ m = ∅).
Proof.
  induction ids as [|c ids IH]; cbn [delete_channels].
  - apply triple_ret. intros m [Hm H]. split; [done|]. apply map_empty. intros c.
    destruct (channelInfoMap_ m !! c) eqn:E; [|done]. specialize (H c (mk_is_Some _ _ E)). set_solver.
  - refine (triple_bind _ _ _ _ _ _ (fun _ => IH)). intros m [Hm H]. destruct (isValidChannelId c) eqn:Hv.
    + rewrite DeleteChannel_run by done. split; [by apply without_wf|]. intros c' [i Hi]. simpl in Hi.
      apply lookup_delete_Some in Hi as [Hne Hi]. specialize (H c' (mk_is_Some _ _ Hi)). set_solver.
    + unfold DeleteChannel. rewrite Hv. split; [done|]. intros c' Hi. pose proof (H c' Hi) as Hin.
      apply elem_of_cons in Hin as [->|Hin]; [|done]. destruct Hi as [i Hi]. by rewrite (info_valid m c i Hm Hi) in Hv.
Qed.

Lemma all_ids m c : cm_wf m -> is_Some (channelInfoMap_ m !! c) ->
  c ∈ elements (list_to_set (map_to_list (channelIdMap_ m) ≫= snd) : gset Z).
Proof.
  intros Hm [i Hi]. destruct (wf_info m Hm c i Hi) as (_ & _ & H & _).
  rewrite elem_of_elements, elem_of_list_to_set, list_elem_of_bind.
  destruct (channelIdMap_ m !! channelName i) as [ids|] eqn:E; [|by apply not_elem_of_nil in H].
  exists (channelName i, ids). split; [done|]. by apply elem_of_map_to_list.
Qed.

Lemma reset_wf m : cm_wf m -> channelInfoMap_ m = ∅ -> cm_wf (set_nextIds start_id (set_owner "" (set_server (-1) m))).
Proof.
  intros Hm He. constructor; simpl; try apply Hm.
  - intros t. lia.
  - intros c i H. rewrite He, lookup_empty in H. done.
Qed.

Lemma keeps_DeInit : keeps DeInit.
Proof.
  unfold DeInit. apply chan_keeps_bind; [by apply keeps_mod|]. intros _. apply keeps_at. intros m Hm.
  apply (triple_bind _ _ _ (fun _ m => cm_wf m /\ channelInfoMap_ m = ∅)).
  - eapply triple_pre; [|apply delete_channels_spec]. intros ? ->. split; [done|]. intros c. by apply all_ids.
  - intros _. intros m' [Hm' He]. unfold mbind, MM_bind, mget, mcall, mmod, Manager_Reset.
    eapply cm_wf_same; [|apply (reset_wf m' Hm' He)]. by repeat split.
Qed.

(** ** All steps *)

Lemma keeps_SocketConnected s name : keeps (Manager_OnSocketConnected env s name).
Proof. unfold Manager_OnSocketConnected, GetChannelIdByName. keeps_tac. Qed.

Lemma keeps_SocketClosed s : keeps (OnSocketClosed env s).
Proof. apply keeps_on_channel'. unfold GetChannelStatus, DoDisConnectCallback. keeps_tac. Qed.

Lemma keeps_RunTask n : keeps (RunTask env n).
Proof.
  unfold RunTask. keeps_tac. unfold run_task, DoSendBytes, DoSendMessage, DoSendStream, DoSendFile.
  destruct t; try apply keeps_DoSendData; try apply keeps_UpdateChannel; intros.
  - apply keeps_SendBytesData.
  - apply keeps_SendMessageData.
  - apply keeps_SendStreamData.
  - apply keeps_SendFileData.
Qed.
#[local] Hint Resolve keeps_SocketConnected keeps_SocketClosed keeps_RunTask keeps_DeInit keeps_Deliver : keeps.

Lemma keeps_op o : keeps (run_op env o).
Proof.
  destruct o; simpl; unfold Manager_SendBytes, Manager_SendMessage, Manager_SendStream, Manager_SendFile; keeps_tac.
Qed.

Lemma keeps_ops os : keeps (run_ops env os).
Proof. induction os as [|o os IH]; simpl; [apply chan_keeps_ret|]. apply chan_keeps_bind; [apply keeps_op|]. by intros _. Qed.

(** C19: under every sequence of calls, tasks and events of softbus the tables
    of the manager stay consistent: identities are unique and in the range of their
    type, names lead exactly to the channels of that name, sockets to channels that
    have them; and no packet is ever handed to a sender and receiver that does not
    exist. *)
Theorem channel_tables_invariant os :
  match run_ops env os ChannelManager_new with
  | inl (_, m) => cm_wf m
  | inr c => c <> NullSender
  end.
Proof. apply keeps_ops, wf_new. Qed.

(** Deleting a channel removes it from every table, its name included,
    shuts down each of its sockets exactly once and touches nothing of the other
    channels. *)
Theorem delete_channel_complete c m : cm_wf m -> isValidChannelId c = true ->
  exists m', DeleteChannel c m = inl (c, m') /\
    channelInfoMap_ m' !! c = None /\ listenersMap_ m' !! c = None /\
    (forall n, c ∉ default [] (channelIdMap_ m' !! n)) /\
    (forall s, socketChannelMap_ m' !! s <> Some c) /\
    (exists ss, mcalls_ m' = mcalls_ m ++ map MShutdown ss /\ NoDup ss /\
       forall s, s ∈ ss <-> socketChannelMap_ m !! s = Some c) /\
    (forall c', c' <> c -> channelInfoMap_ m' !! c' = channelInfoMap_ m !! c' /\ listenersMap_ m' !! c' = listenersMap_ m !! c' /\
       forall s, socketChannelMap_ m !! s = Some c' ->
         socketChannelMap_ m' !! s = Some c' /\ socketStatusMap_ m' !! s = socketStatusMap_ m !! s).
Proof.
  intros Hm Hv. exists (without c m). split; [by apply DeleteChannel_run|].
  split; [apply lookup_delete_eq|]. split; [apply lookup_delete_eq|]. split.
  { intros n. rewrite without_ids by done. destruct (channelIdMap_ m !! n) as [ids|]; simpl; [|apply not_elem_of_nil].
    rewrite elem_of_remove. by intros [_ ?]. }
  split.
  { intros s. rewrite without_sockets. destruct (socketChannelMap_ m !! s) as [c'|]; [|done].
    destruct (Z.eqb_spec c' c); [done|congruence]. }
  split; [exists (sockets_of c m); split; [done|]; split; [apply NoDup_sockets_of|apply elem_of_sockets_of]|].
  intros c' Hne. split; [by apply lookup_delete_ne|]. split; [by apply lookup_delete_ne|].
  intros s Hs. rewrite without_sockets, without_status, Hs. rewrite decide_False by congruence.
  destruct (Z.eqb_spec c' c); [done|]. done.
Qed.
End Props.

(** A manager with one server channel. *)
Definition one_channel : CM :=
  match CreateServerChannel "one" FILE (mkChannelPeerInfo "" "") ChannelManager_new with
  | inl (_, m) => m
  | inr _ => ChannelManager_new
  end.

Lemma one_channel_wf : cm_wf one_channel.
Proof. exact (keeps_CreateServerChannel "one" FILE (mkChannelPeerInfo "" "") ChannelManager_new wf_new). Qed.

Lemma delete_channel_complete_witness :
  exists m', DeleteChannel 4001 one_channel = inl (4001, m') /\ channelInfoMap_ m' !! 4001 = None.
Proof.
  destruct (delete_channel_complete 4001 one_channel one_channel_wf eq_refl) as (m' & E & H & _). by exists m'.
Defined.
