(* ===== verification/ChannelManagerLife.v ===== *)
(** What the channel manager does over several steps: a peer finds the channel it
    names, data travels from a channel to the listeners of its peer, a channel is given
    up when its last socket closes; and what can go wrong. *)

From Stdlib Require Import Ascii.
From stdpp Require Import gmap sorting.
From S2P Require Import Prelude DataBuffer SchedErrors SchedUtils Json CollabHeader CollabChannel CollabTransfer StreamData ChannelManager ChannelManagerProps.
#[local] Open Scope string_scope.
#[local] Open Scope list_scope.
#[local] Open Scope Z_scope.

(** ** Names of sockets *)

Fixpoint no_split (s : string) : bool :=
  match s with
  | EmptyString => true
  | String c s => negb (Ascii.eqb c SPLIT_FLAG) && no_split s
  end.

Lemma after_split_app s t : no_split s = true -> after_split (s +:+ String SPLIT_FLAG t) = Some t.
Proof.
  induction s as [|c s IH]; [done|]. cbn [no_split]. rewrite andb_true_iff, negb_true_iff. intros [Hc Hs].
  change (after_split (String c (s +:+ String SPLIT_FLAG t)) = Some t). cbn [after_split]. rewrite Hc. by apply IH.
Qed.

Lemma sdrop_app s t n : (n <= String.length s)%nat -> sdrop n (s +:+ t) = sdrop n s +:+ t.
Proof.
  revert n. induction s as [|c s IH]; intros [|n] Hn; try done; [simpl in Hn; lia|].
  change (sdrop n (s +:+ t) = sdrop n s +:+ t). apply IH. simpl in Hn. lia.
Qed.

Lemma no_split_sdrop n s : no_split s = true -> no_split (sdrop n s) = true.
Proof.
  revert n. induction s as [|c s IH]; intros [|n] H; try done. simpl in *. apply andb_true_iff in H as [_ H]. by apply IH.
Qed.

Lemma sapp_assoc (s t u : string) : s +:+ t +:+ u = (s +:+ t) +:+ u.
Proof. induction s as [|c s IH]; [done|]. change (String c (s +:+ t +:+ u) = String c ((s +:+ t) +:+ u)). by rewrite IH. Qed.

Lemma length_append s t : String.length (s +:+ t) = (String.length s + String.length t)%nat.
Proof. induction s as [|c s IH]; [done|]. change (S (String.length (s +:+ t)) = S (String.length s + String.length t)). by rewrite IH. Qed.

Lemma GetChannelName_socket_name owner t name : no_split owner = true -> (46 <= String.length owner)%nat ->
  GetChannelNameFromSocket (socket_name owner t name) = Some (type_prefix t +:+ String SPLIT_FLAG name).
Proof.
  intros Ho Hl. unfold GetChannelNameFromSocket, socket_name.
  rewrite sapp_assoc. set (p := SESSION_NAME_PREFIX +:+ owner).
  assert (CHANNEL_NAME_PREFIX_LENGTH <= String.length p)%nat as Hp.
  { unfold p. rewrite length_append. unfold CHANNEL_NAME_PREFIX_LENGTH, SESSION_NAME_PREFIX. simpl. lia. }
  rewrite sdrop_app by done. apply after_split_app, no_split_sdrop. unfold p.
  clear -Ho. unfold SESSION_NAME_PREFIX. simpl. exact Ho.
Qed.

Lemma type_of_prefix t rest : GetChannelDataTypeFromName (type_prefix t +:+ rest) = Some t.
Proof. by destruct t, rest. Qed.

Section Life.
Context {CJ : CJson}.
Variable env : MEnv.

(** The channel of that name and type that was created first. *)
Definition serves (m : CM) (name : string) (t : ChannelDataType) (c : Z) : Prop :=
  exists i ids ids', channelInfoMap_ m !! c = Some i /\ dataType i = t /\
    channelIdMap_ m !! name = Some (ids ++ c :: ids') /\
    forall c' i', c' ∈ ids -> channelInfoMap_ m !! c' = Some i' -> dataType i' <> t.

Lemma find_type_serves m name t c : cm_wf m -> serves m name t c ->
  GetChannelIdByName name t m = inl (c, m).
Proof.
  intros Hm (i & ids & ids' & Hi & Ht & Hn & Hf). unfold GetChannelIdByName, mbind, MM_bind, mget, mret, MM_ret. rewrite Hn.
  do 2 f_equal. destruct (wf_ids m Hm name _ Hn) as [_ Hids].
  destruct (wf_info m Hm c i Hi) as (Hc & _). clear Hn. induction ids as [|c' ids IH]; simpl.
  - by rewrite Hi, decide_True.
  - destruct (Hids c') as (i' & Hi' & _); [set_solver|]. rewrite Hi', decide_False by (apply (Hf c' i'); set_solver).
    apply IH; intros; [eapply Hf|apply Hids]; set_solver.
Qed.

(** A peer whose owner name has no separator and at least 46 characters
    (the names are 64 hexadecimal digits) binds a socket named after a channel: the
    manager that serves a channel of this name and type takes the socket for exactly
    this channel. *)
Theorem peer_finds_channel owner t name c s m :
  cm_wf m -> no_split owner = true -> (46 <= String.length owner)%nat -> serves m name t c -> 0 < s ->
  Manager_OnSocketConnected env s (socket_name owner t name) m
  = match PostTask env (TaskUpdateChannel s c) m with inl (_, m') => inl (tt, m') | inr x => inr x end.
Proof.
  intros Hm Ho Hl Hs Hpos. unfold Manager_OnSocketConnected. zb_false (s <=? 0).
  rewrite GetChannelName_socket_name, type_of_prefix by done.
  replace (String.length (type_prefix t +:+ String SPLIT_FLAG name) <? 2)%nat with false by (by destruct t).
  unfold mbind at 1, MM_bind at 1.
  replace (sdrop 2 (type_prefix t +:+ String SPLIT_FLAG name)) with name by (by destruct t).
  rewrite (find_type_serves m name t c) by done. destruct Hs as (i & _ & _ & Hi & _).
  by rewrite (info_valid m c i Hm Hi).
Qed.

(** A peer whose socket name ends after the letter of a type ends the
    process: [substr] throws. *)
Theorem short_socket_name_throws owner t s m :
  no_split owner = true -> (46 <= String.length owner)%nat -> 0 < s ->
  Manager_OnSocketConnected env s (SESSION_NAME_PREFIX +:+ owner +:+ String SPLIT_FLAG (type_prefix t)) m = inr OutOfRange.
Proof.
  intros Ho Hl Hpos. unfold Manager_OnSocketConnected. zb_false (s <=? 0).
  assert (GetChannelNameFromSocket (SESSION_NAME_PREFIX +:+ owner +:+ String SPLIT_FLAG (type_prefix t)) = Some (type_prefix t)) as ->.
  { unfold GetChannelNameFromSocket. rewrite sapp_assoc. rewrite sdrop_app.
    - apply after_split_app, no_split_sdrop. unfold SESSION_NAME_PREFIX. simpl. exact Ho.
    - rewrite length_append. unfold CHANNEL_NAME_PREFIX_LENGTH, SESSION_NAME_PREFIX. simpl. lia. }
  by destruct t.
Qed.

(** ** Callbacks *)

(** The callback handler takes every call. *)
Definition listening (m : CM) : Prop := callbackEventHandler_ m = true /\ m_PostCallback env (mcalls_ m) = true.

Lemma post_all_run cs m : listening m -> post_all env cs m = inl (tt, set_callbacks (callbacks_ m ++ cs) m).
Proof.
  revert m. induction cs as [|c cs IH]; intros m [Hh Hp]; simpl.
  - rewrite app_nil_r. by destruct m.
  - unfold mbind, MM_bind, PostCallbackTask, mbind, MM_bind, mget, mmod, mret, MM_ret. rewrite Hh, Hp. cbn [negb].
    rewrite IH by done. simpl. by rewrite <- app_assoc.
Qed.

(** Every live listener of a channel is called once, in the order of registration. *)
Definition told (m : CM) (c : Z) (call : ListenerCall) : list Callback :=
  map (fun l => mkCallback l c call) (live env m (default [] (listenersMap_ m !! c))).

Lemma Notify_run c call m : listening m ->
  NotifyListeners env c call m = inl (tt, set_callbacks (callbacks_ m ++ told m c call) m).
Proof.
  intros Hl. unfold NotifyListeners, told, mbind, MM_bind, mget.
  destruct (listenersMap_ m !! c) as [[|l ls]|]; cbn [default].
  - cbn. rewrite app_nil_r. by destruct m.
  - by apply post_all_run.
  - cbn. rewrite app_nil_r. by destruct m.
Qed.

(** ** A socket closes *)

Definition marked (m : CM) (s : Z) (st : ChannelStatus) : CM :=
  set_sockets (socketChannelMap_ m) (<[s := st]> (socketStatusMap_ m)) m.
Definition status_of (m : CM) (i : ChannelInfo) : ChannelStatus :=
  if existsb (connected m) (clientSockets i) then CONNECTED else UNCONNECTED.

Lemma with_status_id i : with_status (status i) i = i.
Proof. by destruct i. Qed.

Lemma SetSocketStatus_run s st c i m : cm_wf m -> socketChannelMap_ m !! s = Some c -> channelInfoMap_ m !! c = Some i ->
  SetSocketStatus s st m = inl (ERR_OK, put_channel c (with_status (status_of (marked m s st) i) i) (marked m s st)).
Proof.
  intros Hm Hs Hi. destruct (proj2 (wf_status m Hm s) (mk_is_Some _ _ Hs)) as [st0 H0].
  unfold SetSocketStatus, mbind, MM_bind, mget. rewrite H0. unfold mmod. rewrite Hs.
  unfold UpdateChannelStatus, mbind, MM_bind, mget. cbn [channelInfoMap_ set_sockets]. rewrite Hi.
  fold (marked m s st). fold (status_of (marked m s st) i).
  case_bool_decide as E; cbn [negb].
  - rewrite E, with_status_id. unfold put_channel. cbn. rewrite insert_id by done. by destruct m.
  - unfold SetChannelStatus, mbind, MM_bind, mget, mmod, mret, MM_ret. cbn [channelInfoMap_ marked set_sockets]. by rewrite Hi.
Qed.

Lemma status_of_closed m s i : status_of (marked m s UNCONNECTED) i = UNCONNECTED <->
  forall s', s' ∈ clientSockets i -> s' <> s -> socket_status m s' = UNCONNECTED.
Proof.
  unfold status_of.
  assert (forall s', connected (marked m s UNCONNECTED) s' = true <-> s' <> s /\ socket_status m s' = CONNECTED) as Hc.
  { intros s'. unfold connected, socket_status, marked. rewrite bool_decide_eq_true. cbn.
    destruct (decide (s = s')) as [<-|]; [rewrite lookup_insert_eq; cbn; intuition congruence|].
    rewrite lookup_insert_ne by done. intuition congruence. }
  destruct (existsb _ _) eqn:E.
  - apply existsb_exists in E as (s' & Hin & H). apply Hc in H as [Hne H]. split; [done|]. intros Hall.
    rewrite (Hall s') in H; [done| |done]. by apply list_elem_of_In.
  - split; [|done]. intros _ s' Hin Hne. destruct (socket_status m s') eqn:Es; [|done].
    assert (existsb (connected (marked m s UNCONNECTED)) (clientSockets i) = true); [|congruence].
    apply existsb_exists. exists s'. split; [by apply list_elem_of_In|]. by apply Hc.
Qed.

Lemma OnSocketClosed_run s c i m : cm_wf m -> listening m -> 0 < s -> socketChannelMap_ m !! s = Some c ->
  channelInfoMap_ m !! c = Some i ->
  let st := status_of (marked m s UNCONNECTED) i in
  let m1 := put_channel c (with_status st i) (marked m s UNCONNECTED) in
  OnSocketClosed env s m =
    inl (tt, if decide (st = UNCONNECTED) then without c (set_callbacks (callbacks_ m ++ told m c OnDisConnect) m1) else m1).
Proof.
  intros Hm Hl Hp Hs Hi st m1. unfold OnSocketClosed, on_channel. zb_false (s <=? 0).
  unfold mbind at 1, MM_bind at 1, mget at 1. cbv beta iota zeta.
  assert (GetChannelId m s = c) as -> by (unfold GetChannelId; by rewrite Hs).
  pose proof (info_valid m c i Hm Hi) as Hv. rewrite Hv. cbn [negb].
  unfold mbind at 1, MM_bind at 1. rewrite (SetSocketStatus_run s UNCONNECTED c i) by done. fold st. fold m1.
  cbn [Z.eqb ERR_OK negb]. unfold GetChannelStatus, mbind, MM_bind, mget, mret, MM_ret.
  assert (channelInfoMap_ m1 !! c = Some (with_status st i)) as -> by (unfold m1; cbn; by rewrite lookup_insert_eq).
  cbn [status with_status]. destruct (decide (st = UNCONNECTED)); [|done].
  unfold DoDisConnectCallback. rewrite Notify_run by done. rewrite DeleteChannel_run by done. done.
Qed.

(** When a socket of a channel closes and another one is connected, the
    channel stays connected and nobody is told; when it was the last one, every live
    listener is told once, the channel is removed and all its sockets are shut down. *)
Theorem socket_closed_effect s c i m : cm_wf m -> listening m -> 0 < s -> socketChannelMap_ m !! s = Some c ->
  channelInfoMap_ m !! c = Some i ->
  exists m', OnSocketClosed env s m = inl (tt, m') /\
    (forall s', s' ∈ clientSockets i -> s' <> s -> socket_status m s' = CONNECTED ->
       (exists i', channelInfoMap_ m' !! c = Some i' /\ status i' = CONNECTED /\ clientSockets i' = clientSockets i) /\
       callbacks_ m' = callbacks_ m /\ mcalls_ m' = mcalls_ m) /\
    ((forall s', s' ∈ clientSockets i -> s' <> s -> socket_status m s' = UNCONNECTED) ->
       channelInfoMap_ m' !! c = None /\ callbacks_ m' = callbacks_ m ++ told m c OnDisConnect /\
       forall s', socketChannelMap_ m !! s' = Some c -> MShutdown s' ∈ mcalls_ m').
Proof.
  intros Hm Hl Hp Hs Hi. eexists. split; [by apply (OnSocketClosed_run s c i)|].
  rewrite <- status_of_closed. destruct (decide (status_of (marked m s UNCONNECTED) i = UNCONNECTED)) as [E|E]; split.
  - intros s' Hin Hne Hc. rewrite (proj1 (status_of_closed m s i) E s' Hin Hne) in Hc. done.
  - intros _. split; [apply lookup_delete_eq|]. split; [done|]. intros s' Hs'. unfold without. cbn [mcalls_ set_calls].
    rewrite elem_of_app, list_elem_of_fmap. right. exists s'. split; [done|]. by apply elem_of_sockets_of.
  - intros s' Hin Hne Hc. split; [|done]. eexists. cbn. rewrite lookup_insert_eq. split; [done|]. split; [|done].
    cbn. by destruct (status_of (marked m s UNCONNECTED) i).
  - intros E'. by destruct E.
Qed.

(** ** Bytes from a channel to the listeners of its peer *)

Definition call_of (e : recv_event) : ListenerCall :=
  match e with EvBytes b => OnBytes b | EvError ret => OnError ret end.

(** The socket belongs to the channel, with this receiver. *)
Definition attached (m : CM) (s c : Z) (r : Receiver) : Prop :=
  0 < s /\ isValidChannelId c = true /\ socketChannelMap_ m !! s = Some c /\
  exists i, channelInfoMap_ m !! c = Some i /\ dataSenderReceivers i !! s = Some r.

(** The same listeners, and nothing was asked from softbus. *)
Definition undisturbed (m m' : CM) : Prop :=
  listenersMap_ m' = listenersMap_ m /\ mcalls_ m' = mcalls_ m /\ callbackEventHandler_ m' = callbackEventHandler_ m.

Lemma put_receiver_run c s r i m : channelInfoMap_ m !! c = Some i ->
  put_receiver c s r m = inl (tt, put_channel c (with_receivers (<[s := r]> (dataSenderReceivers i)) i) m).
Proof. intros Hi. unfold put_receiver, mmod. by rewrite Hi. Qed.

Lemma on_channel_run s c f m : 0 < s -> isValidChannelId c = true -> socketChannelMap_ m !! s = Some c ->
  on_channel s f m = f c m.
Proof.
  intros Hp Hv Hs. unfold on_channel. zb_false (s <=? 0). unfold mbind, MM_bind, mget. cbv beta zeta.
  assert (GetChannelId m s = c) as -> by (unfold GetChannelId; by rewrite Hs). by rewrite Hv.
Qed.

Lemma receive_packet s c r r' p evs m : listening m -> attached m s c r ->
  ProcessRecvData (m_garbage env) r p = Some (evs, r') ->
  exists m', OnBytesReceived env s (Some p) m = inl (tt, m') /\ attached m' s c r' /\ undisturbed m m' /\
    callbacks_ m' = callbacks_ m ++ (evs ≫= fun e => told m c (call_of e)).
Proof.
  intros Hl (Hp & Hv & Hs & i & Hi & Hr) E. unfold OnBytesReceived. rewrite (on_channel_run s c) by done.
  unfold Manager_ProcessRecvData. unfold mbind, MM_bind, mget. rewrite Hi, Hr.
  unfold ProcessRecvData in E. destruct (PackRecvPacketData (m_garbage env) r p) as [ret r1|]; [|done].
  assert (forall r2, let m1 := put_channel c (with_receivers (<[s := r2]> (dataSenderReceivers i)) i) m in
    attached m1 s c r2 /\ undisturbed m m1) as Hput.
  { intros r2 m1. split; [|done]. split; [done|]. split; [done|]. split; [done|]. eexists. cbn.
    rewrite lookup_insert_eq. split; [done|]. cbn. by rewrite lookup_insert_eq. }
  destruct (negb (ret =? ERR_OK)).
  - injection E as <- <-. rewrite (put_receiver_run c s r1 i) by done. unfold DoErrorCallback. rewrite Notify_run by done.
    destruct (Hput r1) as [Ha Hu]. eexists. split; [done|]. split; [exact Ha|]. split; [exact Hu|]. cbn. by rewrite app_nil_r.
  - destruct (GetPacketedData r1) as [[b|] r2]; injection E as <- <-; rewrite (put_receiver_run c s r2 i) by done;
      destruct (Hput r2) as [Ha Hu].
    + unfold mret, MM_ret. rewrite Notify_run by done. eexists. split; [done|]. split; [exact Ha|]. split; [exact Hu|].
      cbn. by rewrite app_nil_r.
    + eexists. split; [done|]. split; [exact Ha|]. split; [exact Hu|]. cbn. by rewrite app_nil_r.
Qed.

Lemma told_undisturbed m m' c call : undisturbed m m' -> told m' c call = told m c call.
Proof. intros (E1 & E2 & _). unfold told, live. by rewrite E1, E2. Qed.

Lemma receive_packets s c ps : forall r r' evs m, listening m -> attached m s c r ->
  ProcessRecvData_all (m_garbage env) r ps = Some (evs, r') ->
  exists m', run_ops env (map (fun p => OpBytesReceived s (Some p)) ps) m = inl (tt, m') /\ attached m' s c r' /\
    undisturbed m m' /\ callbacks_ m' = callbacks_ m ++ (evs ≫= fun e => told m c (call_of e)).
Proof.
  induction ps as [|p ps IH]; intros r r' evs m Hl Ha E.
  - injection E as <- <-. exists m. cbn. rewrite app_nil_r. by repeat split; try apply Ha.
  - cbn [ProcessRecvData_all] in E. destruct (ProcessRecvData (m_garbage env) r p) as [[ev r1]|] eqn:E1; [|done].
    destruct (ProcessRecvData_all (m_garbage env) r1 ps) as [[evs1 r2]|] eqn:E2; [|done]. injection E as <- <-.
    destruct (receive_packet s c r r1 p ev m Hl Ha E1) as (m1 & R1 & A1 & U1 & C1).
    destruct (IH r1 r2 evs1 m1) as (m2 & R2 & A2 & U2 & C2); [|done..|].
    { destruct U1 as (_ & U1 & U1'), Hl as [H1 H2]. split; [by rewrite U1' | by rewrite U1]. }
    exists m2. split; [cbn [map run_ops run_op]; unfold mbind, MM_bind; by rewrite R1|]. split; [done|].
    split; [destruct U1 as (?&?&?), U2 as (?&?&?); repeat split; congruence|].
    rewrite C2, C1, <- app_assoc, bind_app. do 2 f_equal. apply list_bind_ext; [|done].
    intros e. by apply told_undisturbed.
Qed.
End Life.

(** ** From end to end *)

(** A message that fits a packet, or whose length is a multiple of the payload of
    one. *)
Definition sendable (mx : Z) (d : list Z) : Prop :=
  (len d + HEADER_LEN <= mx /\ len d <= BINARY_PAYLOAD_MAX_LEN) \/
  (exists n q, mx = n + HEADER_LEN /\ 0 < n <= BINARY_PAYLOAD_MAX_LEN /\ n + HEADER_LEN <= len d < DSCHED_MAX_BUFFER_SIZE /\
     len d = q * n /\ q <= 65536).

Lemma sendable_transfer cenv mx g r d : steady cenv mx -> refines r CIdle -> sendable mx d ->
  exists pkts, SendBytesData cenv (buffer_of d) = Sent ERR_OK pkts /\
    simulates (ProcessRecvData_all g r pkts) (CIdle, [CBytes d]).
Proof.
  intros He Hr [[H1 H2]|(n & q & -> & H1 & H2 & H3 & H4)].
  - by apply (one_packet cenv mx).
  - by apply (whole_fragments cenv g d n q).
Qed.

(** The channel is connected, and this is its first connected socket. *)
Definition sends_through (m : CM) (c s : Z) : Prop :=
  0 < s /\ exists i, channelInfoMap_ m !! c = Some i /\ status i = CONNECTED /\
    List.find (connected m) (clientSockets i) = Some s /\ is_Some (dataSenderReceivers i !! s).

Section EndToEnd.
Context {CJ : CJson}.

Lemma DoSendBytes_run env m c s d pkts : sends_through m c s ->
  SendBytesData (m_channel env (mcalls_ m) s) d = Sent ERR_OK pkts ->
  DoSendBytes env c d m = inl (ERR_OK, set_calls (mcalls_ m ++ [MSendBytes s pkts]) m).
Proof.
  intros (Hp & i & Hi & Hst & Hf & [r Hr]) E. unfold DoSendBytes, DoSendData, GetValidSocket, mbind, MM_bind, mget, mret, MM_ret.
  rewrite Hi, Hst. rewrite decide_False by done. rewrite Hf. cbn [default from_option]. unfold id. zb_false (s <=? 0). cbv beta iota. rewrite ?Hi, Hr.
  unfold sender_SendBytesData, mbind, MM_bind, mget. by rewrite E.
Qed.

(** C7: a channel is connected, softbus announces one size of packets and takes them, and
    the number of the bytes fits: they go into one packet, or their number is a multiple
    of the payload of a packet ([sendable]; for other numbers the last packet is
    made of bytes beyond the end of the buffer). Then bytes sent through the channel leave
    by its socket, and the manager of the peer, whose channel is attached and idle and
    whose handler of callbacks takes calls, hands them over when it receives these
    packets in order: every live listener of its channel is called once, with exactly
    the bytes. *)
Theorem channel_bytes_delivered senv renv ms mr c s mx c' s' r d :
  sends_through ms c s -> steady (m_channel senv (mcalls_ ms) s) mx -> sendable mx d ->
  listening renv mr -> attached mr s' c' r -> refines r CIdle ->
  exists pkts ms' mr' b,
    DoSendBytes senv c (buffer_of d) ms = inl (ERR_OK, ms') /\ mcalls_ ms' = mcalls_ ms ++ [MSendBytes s pkts] /\
    run_ops renv (map (fun p => OpBytesReceived s' (Some p)) pkts) mr = inl (tt, mr') /\
    contents b = d /\ callbacks_ mr' = callbacks_ mr ++ told renv mr c' (OnBytes b) /\
    exists r', attached mr' s' c' r' /\ refines r' CIdle.
Proof.
  intros Hs He Hd Hl Ha Hr.
  destruct (sendable_transfer _ mx (m_garbage renv) r d He Hr Hd) as (pkts & E & ev & r' & Er & Hr' & Hm).
  destruct ev as [|[b|e] [|]]; try done. injection Hm as Hb.
  destruct (receive_packets renv s' c' pkts r r' [EvBytes b] mr Hl Ha Er) as (mr' & R & A & _ & C).
  exists pkts, (set_calls (mcalls_ ms ++ [MSendBytes s pkts]) ms), mr', b.
  split; [by apply DoSendBytes_run|]. split; [done|]. split; [done|]. split; [done|]. split; [|eauto].
  rewrite C. cbn. by rewrite app_nil_r.
Qed.
End EndToEnd.

(** ** What goes wrong *)

(** An initialisation that failed is reported as done the next time, without a
    server socket. *)
Theorem failed_init_accepted env owner owner' m ret m' :
  serverSocketId_ m <= 0 -> Manager_Init env owner m = inl (ret, m') -> ret <> ERR_OK ->
  Manager_Init env owner' m' = inl (ERR_OK, m') /\ serverSocketId_ m' <= 0.
Proof.
  intros Hs. unfold Manager_Init, mbind, MM_bind, mget, mret, MM_ret, mmod.
  destruct (eventHandler_ m && callbackEventHandler_ m); [by intros [= <- <-]|].
  cbn [serverSocketId_ set_handlers set_owner]. zb_false (0 <? serverSocketId_ m).
  unfold CreateServerSocket, mask, mcall, mbind, MM_bind, mget, mret, MM_ret, mmod.
  match goal with |- context [if ?s <=? 0 then _ else _] => destruct (s <=? 0) end.
  - intros [= <- <-] _. by cbn.
  - match goal with |- context [if negb (?s =? ERR_OK) then _ else _] => destruct (negb (s =? ERR_OK)) end.
    + intros [= <- <-] _. by cbn.
    + by intros [= <- <-].
Qed.

(** The channel that is asked for the path of received files is the server channel
    that was created last, of whatever type. *)
Theorem recv_path_channel env name t peer m : cm_wf m -> nextIds_ m t < start_id t + 999 ->
  exists c m', CreateServerChannel name t peer m = inl (c, m') /\
    GetRecvPathFromUser env m' = (fun l => (l, c)) <$> head (live env m (default [] (listenersMap_ m !! c))).
Proof.
  intros Hm Hl. rewrite CreateServerChannel_run by done. do 2 eexists. split; [done|].
  unfold GetRecvPathFromUser. cbn. pose proof (wf_next m Hm t) as Hn.
  assert (i32 (nextIds_ m t) = nextIds_ m t) as E.
  { unfold i32. rewrite Z.mod_small; [lia|].
    destruct t; cbv [start_id MESSAGE_START_ID BYTES_START_ID STREAM_START_ID FILE_START_ID CHANNEL_ID_GAP] in *; lia. }
  rewrite E. destruct (listenersMap_ m !! nextIds_ m t); [|done]. unfold live. done.
Qed.

(** Fewer targets than files are accepted, and the task that sends them reads past
    the array of the targets. *)
Theorem file_lists_unchecked {CJ : CJson} env c s sFiles dFiles m :
  sends_through m c s -> (length dFiles < length sFiles)%nat ->
  run_task env (TaskSendFile c sFiles dFiles) m = inr DataOverrun.
Proof.
  intros (Hp & i & Hi & Hst & Hf & [r Hr]) Hl. cbn [run_task].
  unfold DoSendFile, DoSendData, GetValidSocket, mbind, MM_bind, mget, mret, MM_ret.
  rewrite Hi, Hst. rewrite decide_False by done. rewrite Hf. cbn [default from_option]. unfold id. zb_false (s <=? 0).
  cbv beta iota. rewrite ?Hi, Hr. unfold SendFileData. by rewrite (proj2 (Nat.ltb_lt _ _) Hl).
Qed.

(** ** A concrete softbus

    Sockets are numbered by the calls; every call succeeds, packets carry 100 bytes. *)
Definition demo_menv : MEnv := {|
  SOFTBUS_FILE_INNER := true;
  m_Socket := fun h _ _ _ => 100 + Z.of_nat (length h);
  m_Listen := fun _ _ => 0;
  m_Bind := fun _ _ => 0;
  m_RegisterFileSchema := fun _ _ => 0;
  m_channel := fun _ _ => steady_env 157;
  m_SendMessage := fun _ _ _ => 0;
  m_SendStream := fun _ _ _ _ => 0;
  m_SendFile := fun _ _ _ _ => 0;
  m_PostTask := fun _ => true;
  m_PostCallback := fun _ => true;
  m_expired := fun _ _ => false;
  m_garbage := garbage0;
|}.
#[local] Existing Instance BinaryJson.

Definition demo_owner : string := "0123456789abcdef0123456789abcdef0123456789abcdef0123456789abcdef".
Definition demo_peer : ChannelPeerInfo := mkChannelPeerInfo demo_owner "B".

(** Two channels; two peers connect to the first one, the socket 5 of one of them is
    closed, and softbus gives its number to a peer of the second channel. *)
Definition reuse_ops : list Op :=
  [OpInit demo_owner; OpCreateServerChannel "one" MESSAGE demo_peer; OpCreateServerChannel "two" MESSAGE demo_peer;
   OpSocketConnected 5 (socket_name demo_owner MESSAGE "one"); OpRunTask 0;
   OpSocketConnected 6 (socket_name demo_owner MESSAGE "one"); OpRunTask 0;
   OpSocketClosed 5;
   OpSocketConnected 5 (socket_name demo_owner MESSAGE "two"); OpRunTask 0].

(** A closed socket stays a socket of its channel as long as another one
    is connected; when softbus reuses its number for another channel, messages of the
    first channel go to the peer of the second. *)
Theorem reused_socket_misroutes :
  exists m m', run_ops demo_menv reuse_ops ChannelManager_new = inl (tt, m) /\
    socketChannelMap_ m !! 5 = Some 1002 /\ channelName <$> channelInfoMap_ m !! 1001 = Some "one" /\
    run_ops demo_menv [OpSendMessage 1001 (Some (buffer_of [7])); OpRunTask 0] m = inl (tt, m') /\
    last (mcalls_ m') = Some (MSendMessage 5 [7]).
Proof.
  destruct (run_ops demo_menv reuse_ops ChannelManager_new) as [[[] m]|] eqn:E; [|by vm_compute in E].
  destruct (run_ops demo_menv [OpSendMessage 1001 (Some (buffer_of [7])); OpRunTask 0] m) as [[[] m']|] eqn:E'.
  2: { vm_compute in E. injection E as <-. by vm_compute in E'. }
  exists m, m'. vm_compute in E. injection E as <-. vm_compute in E'. injection E' as <-. by vm_compute.
Qed.

(** The state after some steps. *)
Definition reach (os : list Op) : CM :=
  match run_ops demo_menv os ChannelManager_new with inl (_, m) => m | inr _ => ChannelManager_new end.

Lemma reach_wf os : cm_wf (reach os).
Proof.
  unfold reach. pose proof (keeps_ops demo_menv os ChannelManager_new wf_new) as H.
  destruct (run_ops demo_menv os ChannelManager_new) as [[[] m]|]; [done|apply wf_new].
Qed.

(** A server channel 2001 for bytes with the listener 9 and the socket 5 of a peer. *)
Definition demo_serving : list Op :=
  [OpInit demo_owner; OpCreateServerChannel "one" BYTES_DATA demo_peer; OpRegisterListener 2001 (Some 9)].
Definition demo_connected : list Op :=
  demo_serving ++ [OpSocketConnected 5 (socket_name demo_owner BYTES_DATA "one"); OpRunTask 0].

Lemma peer_finds_channel_witness :
  Manager_OnSocketConnected demo_menv 5 (socket_name demo_owner BYTES_DATA "one") (reach demo_serving)
  = match PostTask demo_menv (TaskUpdateChannel 5 2001) (reach demo_serving) with inl (_, m') => inl (tt, m') | inr x => inr x end.
Proof.
  apply (peer_finds_channel demo_menv demo_owner BYTES_DATA "one" 2001 5 (reach demo_serving)).
  - apply reach_wf.
  - reflexivity.
  - vm_compute. lia.
  - eexists _, [], []. split; [vm_compute; reflexivity|]. split; [reflexivity|]. split; [vm_compute; reflexivity|].
    intros c' i' Hc. inversion Hc.
  - lia.
Defined.

Lemma short_socket_name_throws_witness :
  Manager_OnSocketConnected demo_menv 5 (SESSION_NAME_PREFIX +:+ demo_owner +:+ "_M") (reach demo_serving) = inr OutOfRange.
Proof. apply (short_socket_name_throws demo_menv demo_owner MESSAGE 5 (reach demo_serving)); [reflexivity | vm_compute; lia | lia]. Defined.

Lemma demo_listening os : callbackEventHandler_ (reach os) = true -> listening demo_menv (reach os).
Proof. by split. Qed.

(** Its only socket closes. *)
Lemma socket_closed_effect_witness :
  exists m', OnSocketClosed demo_menv 5 (reach demo_connected) = inl (tt, m') /\ channelInfoMap_ m' !! 2001 = None.
Proof.
  destruct (channelInfoMap_ (reach demo_connected) !! 2001) as [i|] eqn:Ei; [|vm_compute in Ei; discriminate].
  destruct (socket_closed_effect demo_menv 5 2001 i (reach demo_connected) (reach_wf _)
    (demo_listening demo_connected ltac:(vm_compute; reflexivity)) ltac:(lia) ltac:(vm_compute; reflexivity) Ei) as (m' & E & _ & H).
  exists m'. split; [exact E|]. apply H. vm_compute in Ei. injection Ei as <-. intros s' Hin Hne. cbn in Hin.
  apply list_elem_of_singleton in Hin. destruct (Hne Hin).
Defined.

(** A client of the channel sends 200 bytes. *)
Definition demo_client : list Op :=
  [OpInit demo_owner; OpCreateClientChannel "one" BYTES_DATA demo_peer; OpConnectChannel 2001].

Lemma channel_bytes_delivered_witness :
  exists pkts ms' mr' b,
    DoSendBytes demo_menv 2001 (buffer_of (zeros 200)) (reach demo_client) = inl (ERR_OK, ms') /\
    mcalls_ ms' = mcalls_ (reach demo_client) ++ [MSendBytes 102 pkts] /\
    run_ops demo_menv (map (fun p => OpBytesReceived 5 (Some p)) pkts) (reach demo_connected) = inl (tt, mr') /\
    contents b = zeros 200 /\
    callbacks_ mr' = callbacks_ (reach demo_connected) ++ told demo_menv (reach demo_connected) 2001 (OnBytes b) /\
    exists r', attached mr' 5 2001 r' /\ refines r' CIdle.
Proof.
  apply (channel_bytes_delivered demo_menv demo_menv (reach demo_client) (reach demo_connected) 2001 102 157 2001 5 Receiver_new (zeros 200)).
  - split; [lia|]. eexists. split; [vm_compute; reflexivity|]. vm_compute. eauto.
  - apply steady_env_ok.
  - right. exists 100, 2. unfold HEADER_LEN, BINARY_PAYLOAD_MAX_LEN, DSCHED_MAX_BUFFER_SIZE. vm_compute. intuition discriminate.
  - apply demo_listening. vm_compute. reflexivity.
  - split; [lia|]. split; [reflexivity|]. split; [vm_compute; reflexivity|]. eexists. split; vm_compute; reflexivity.
  - reflexivity.
Defined.

Lemma failed_init_accepted_witness :
  let env := mkMEnv true (fun _ _ _ _ => -1) (m_Listen demo_menv) (m_Bind demo_menv) (m_RegisterFileSchema demo_menv) (m_channel demo_menv)
    (m_SendMessage demo_menv) (m_SendStream demo_menv) (m_SendFile demo_menv) (m_PostTask demo_menv) (m_PostCallback demo_menv)
    (m_expired demo_menv) garbage0 in
  exists m', Manager_Init env "o" ChannelManager_new = inl (CREATE_SOCKET_FAILED, m') /\
    Manager_Init env "o" m' = inl (ERR_OK, m') /\ serverSocketId_ m' <= 0.
Proof.
  intros env. eexists. split; [vm_compute; reflexivity|].
  refine (failed_init_accepted env "o" "o" ChannelManager_new CREATE_SOCKET_FAILED _ _ _ _); [vm_compute; discriminate | vm_compute; reflexivity | vm_compute; discriminate].
Defined.
