(* ===== verification/ContinueInfo.v ===== *)
(** Identities and names of a continuation: the comparison operators of
    services/dtbschedmgr/include/continue/dsched_continue.h, and the functions of
    dsched_continue.cpp that choose the ability to start from the continue types
    of the installed abilities. *)

From S2P Require Import Prelude StdMap.
From Stdlib Require Import String.

(** ** Strings

    [operator<] of [std::string] compares the characters as unsigned bytes. *)

Definition str_lt (a b : string) : bool := String.ltb a b.

Lemma str_lt_compare a b : str_lt a b = true <-> String.compare a b = Lt.
Proof. unfold str_lt, String.ltb. by destruct (String.compare a b). Qed.

Lemma str_compare_refl a : String.compare a a = Eq.
Proof. induction a as [|c a IH]; [done|]. cbn. unfold Ascii.compare. by rewrite N.compare_refl. Qed.

Lemma str_lt_irrefl a : str_lt a a = false.
Proof. unfold str_lt, String.ltb. by rewrite str_compare_refl. Qed.

Lemma str_lt_trans a b c : str_lt a b = true -> str_lt b c = true -> str_lt a c = true.
Proof.
  rewrite !str_lt_compare. revert b c.
  induction a as [|x a IH]; intros [|y b] [|z c]; cbn; try done.
  unfold Ascii.compare. intros H1 H2.
  destruct (N.compare_spec (Ascii.N_of_ascii x) (Ascii.N_of_ascii y)) as [E1|L1|L1],
           (N.compare_spec (Ascii.N_of_ascii y) (Ascii.N_of_ascii z)) as [E2|L2|L2]; try done.
  - rewrite E1, E2, N.compare_refl. by apply (IH b).
  - rewrite E1. by rewrite (proj2 (N.compare_lt_iff _ _)).
  - rewrite <- E2. by rewrite (proj2 (N.compare_lt_iff _ _)).
  - by rewrite (proj2 (N.compare_lt_iff _ _)) by lia.
Qed.

Lemma str_lt_total a b : str_lt a b = false -> str_lt b a = false -> a = b.
Proof.
  unfold str_lt, String.ltb. rewrite (String.compare_antisym b a). intros H1 H2.
  destruct (String.compare a b) eqn:E; try done. by apply String.compare_eq_iff.
Qed.
#[local] Hint Resolve str_lt_irrefl : dms.

(** ** [DSchedContinueInfo] *)

Record ContinueInfo := mkContinueInfo {
  sourceDeviceId_ : string;
  sourceBundleName_ : string;
  sinkDeviceId_ : string;
  sinkBundleName_ : string;
  continueType_ : string;
  sinkAbilityName_ : string;
  missionId_ : Z;
  continueSessionId_ : string;
  sinkMissionId_ : Z;
}.

Definition ContinueInfo_default : ContinueInfo := mkContinueInfo "" "" "" "" "" "" 0 "" 0.

Definition ContinueInfo_byType (sourceDeviceId sourceBundleName sinkDeviceId sinkBundleName continueType : string)
    : ContinueInfo :=
  mkContinueInfo sourceDeviceId sourceBundleName sinkDeviceId sinkBundleName continueType "" 0 "" 0.

Definition ContinueInfo_byMission (sourceDeviceId sinkDeviceId : string) (missionId : Z) : ContinueInfo :=
  mkContinueInfo sourceDeviceId "" sinkDeviceId "" "" "" missionId "" 0.

(** Both operators compare the concatenation of four fields. *)
Definition compareInfo (i : ContinueInfo) : string :=
  sourceDeviceId_ i +:+ sourceBundleName_ i +:+ sinkDeviceId_ i +:+ sinkBundleName_ i.

Definition ContinueInfo_eqb (i j : ContinueInfo) : bool := String.eqb (compareInfo i) (compareInfo j).
Definition ContinueInfo_ltb (i j : ContinueInfo) : bool := str_lt (compareInfo i) (compareInfo j).

(** ** [StateCallbackInfo] *)

Record StateCallbackInfo := mkStateCallbackInfo {
  missionId : Z;
  bundleName : string;
  moduleName : string;
  abilityName : string;
}.

Definition StateCallbackInfo_eqb (l r : StateCallbackInfo) : bool :=
  (missionId l =? missionId r) && String.eqb (bundleName l) (bundleName r)
  && String.eqb (moduleName l) (moduleName r) && String.eqb (abilityName l) (abilityName r).

Definition StateCallbackInfo_ltb (l r : StateCallbackInfo) : bool :=
  if missionId l <? missionId r then true
  else if missionId r <? missionId l then false
  else if str_lt (bundleName l) (bundleName r) then true
  else if str_lt (bundleName r) (bundleName l) then false
  else if str_lt (moduleName l) (moduleName r) then true
  else if str_lt (moduleName r) (moduleName l) then false
  else str_lt (abilityName l) (abilityName r).

(** ** Continue types *)

Definition QUICK_START_CONFIGURATION : string := "_ContinueQuickStart".

(** [s.rfind(t)], searching from position [i] down; [None] is [npos]. *)
Fixpoint rfind_from (t s : string) (i : nat) : option nat :=
  if String.eqb (String.substring i (String.length t) s) t then Some i
  else match i with
       | O => None
       | S i' => rfind_from t s i'
       end.
Definition rfind (t s : string) : option nat := rfind_from t s (String.length s - String.length t).

(** [CheckQuickStartConfiguration], on the session's continue type. *)
Definition CheckQuickStartConfiguration (continueType : string) : bool :=
  if (String.length continueType <? String.length QUICK_START_CONFIGURATION)%nat then false
  else match rfind QUICK_START_CONFIGURATION continueType with
       | Some i => (i =? String.length continueType - String.length QUICK_START_CONFIGURATION)%nat
       | None => false
       end.

(** [continueType.substr(0, continueType.rfind(..))]. *)
Definition strip_marker (continueType : string) : string :=
  match rfind QUICK_START_CONFIGURATION continueType with
  | Some i => String.substring 0 i continueType
  | None => continueType
  end.

Definition ContinueTypeFormat (continueType : string) : string :=
  if (String.length QUICK_START_CONFIGURATION <=? String.length continueType)%nat
     && match rfind QUICK_START_CONFIGURATION continueType with
        | Some i => (i =? String.length continueType - String.length QUICK_START_CONFIGURATION)%nat
        | None => false
        end
  then strip_marker continueType
  else continueType.

(** ** The ability that continues *)

Record DmsAbilityInfo := mkDmsAbilityInfo {
  ability_abilityName : string;
  ability_continueType : list string;
  ability_moduleName : string;
  ability_continueBundleName : list string;
}.

(** The inner loop: some continue type of the ability is the wanted one. *)
Fixpoint type_matches (srcContinueType : string) (types : list string) : bool :=
  match types with
  | [] => false
  | t :: ts => if negb (String.eqb (ContinueTypeFormat t) srcContinueType)
               then type_matches srcContinueType ts else true
  end.

(** The outer loop, which stops at the first match in the source's module. *)
Fixpoint FindSinkContinueAbilityInfo (srcModuleName srcContinueType : string) (infos result : list DmsAbilityInfo)
    : list DmsAbilityInfo :=
  match infos with
  | [] => result
  | a :: infos' =>
      if type_matches srcContinueType (ability_continueType a) then
        if String.eqb srcModuleName (ability_moduleName a) then [a]
        else FindSinkContinueAbilityInfo srcModuleName srcContinueType infos' (result ++ [a])
      else FindSinkContinueAbilityInfo srcModuleName srcContinueType infos' result
  end.

(** ** Proofs *)

Lemma substring_all s : String.substring 0 (String.length s) s = s.
Proof. induction s as [|c s IH]; [done|]. cbn. by rewrite IH. Qed.

Lemma substring_app_l p t : String.substring 0 (String.length p) (p +:+ t) = p.
Proof. induction p as [|c p IH]; [by destruct t|]. change (String c p +:+ t)%string with (String c (p +:+ t)).
  cbn [String.length String.substring]. by rewrite IH.
Qed.

Lemma substring_app_r p t : String.substring (String.length p) (String.length t) (p +:+ t) = t.
Proof. induction p as [|c p IH]; [apply substring_all|]. exact IH. Qed.

Lemma length_app_str p t : String.length (p +:+ t) = (String.length p + String.length t)%nat.
Proof. induction p as [|c p IH]; [done|]. change (String c p +:+ t)%string with (String c (p +:+ t)).
  cbn [String.length]. by rewrite IH.
Qed.

Lemma substring_split s i : (i <= String.length s)%nat ->
  s = String.substring 0 i s +:+ String.substring i (String.length s - i) s.
Proof.
  revert i. induction s as [|c s IH]; intros [|i] Hi; cbn in *; try done; try lia.
  - by rewrite substring_all.
  - change (String c s = String c (String.substring 0 i s +:+ String.substring i (String.length s - i) s)).
    f_equal. apply IH. lia.
Qed.

(** [rfind] finds an occurrence at the end. *)
Lemma rfind_end t p : rfind t (p +:+ t) = Some (String.length p).
Proof.
  unfold rfind. rewrite length_app_str. replace (_ - _)%nat with (String.length p) by lia.
  destruct (String.length p) eqn:E; unfold rfind_from; fold rfind_from; rewrite <- E, substring_app_r, String.eqb_refl; done.
Qed.

Lemma rfind_from_max t s i : match rfind_from t s i with Some j => (j <= i)%nat | None => True end.
Proof.
  induction i as [|i IH]; cbn [rfind_from]; destruct (String.eqb _ _); try done; try lia.
  destruct (rfind_from t s i); [lia|done].
Qed.

Lemma rfind_sound t s j : rfind t s = Some j -> String.substring j (String.length t) s = t.
Proof.
  unfold rfind. generalize (String.length s - String.length t)%nat as i.
  induction i as [|i IH]; cbn [rfind_from]; destruct (String.eqb _ t) eqn:E; intros H; simplify_eq;
    try by apply String.eqb_eq. by apply IH.
Qed.

Lemma quick_start_suffix t :
  CheckQuickStartConfiguration t = true <-> exists p, t = p +:+ QUICK_START_CONFIGURATION.
Proof.
  unfold CheckQuickStartConfiguration. set (q := QUICK_START_CONFIGURATION). split.
  - destruct (Nat.ltb_spec (String.length t) (String.length q)); [done|].
    destruct (rfind q t) as [j|] eqn:E; [|done]. intros Hj%Nat.eqb_eq. apply rfind_sound in E.
    exists (String.substring 0 j t). rewrite <- E at 1.
    replace (String.length q) with (String.length t - j)%nat by lia. apply substring_split. lia.
  - intros [p ->]. rewrite rfind_end, length_app_str.
    destruct (Nat.ltb_spec (String.length p + String.length q) (String.length q)); [lia|].
    apply Nat.eqb_eq. lia.
Qed.

Lemma ContinueTypeFormat_suffix p : ContinueTypeFormat (p +:+ QUICK_START_CONFIGURATION) = p.
Proof.
  unfold ContinueTypeFormat, strip_marker. rewrite rfind_end, length_app_str.
  rewrite (proj2 (Nat.leb_le _ _)) by lia. rewrite (proj2 (Nat.eqb_eq _ _)) by lia. apply substring_app_l.
Qed.

Lemma ContinueTypeFormat_check t :
  ContinueTypeFormat t = if CheckQuickStartConfiguration t then strip_marker t else t.
Proof.
  unfold ContinueTypeFormat, CheckQuickStartConfiguration.
  destruct (Nat.ltb_spec (String.length t) (String.length QUICK_START_CONFIGURATION)).
  - by rewrite (proj2 (Nat.leb_gt _ _)) by lia.
  - by rewrite (proj2 (Nat.leb_le _ _)) by lia.
Qed.

Lemma type_matches_spec ty ts : type_matches ty ts = true <-> exists t, In t ts /\ ContinueTypeFormat t = ty.
Proof.
  induction ts as [|t ts IH]; cbn; [split; [done|by intros (? & [] & _)]|].
  destruct (String.eqb_spec (ContinueTypeFormat t) ty) as [E|E]; cbn.
  - split; [|done]. intros _. exists t. auto.
  - rewrite IH. split; [intros (x & ? & ?); exists x; auto|]. intros (x & [->|?] & ?); [done|by exists x].
Qed.

(** The abilities of a type, and the wanted one among them. *)
Definition matching (ty : string) (a : DmsAbilityInfo) : bool := type_matches ty (ability_continueType a).
Definition same_module (m : string) (a : DmsAbilityInfo) : bool := String.eqb m (ability_moduleName a).

Lemma FindSink_acc m ty infos result :
  FindSinkContinueAbilityInfo m ty infos result
  = match List.find (fun a => matching ty a && same_module m a) infos with
    | Some a => [a]
    | None => result ++ List.filter (matching ty) infos
    end.
Proof.
  revert result. induction infos as [|a infos IH]; intros result; cbn; [by rewrite app_nil_r|].
  unfold matching, same_module at 1. destruct (type_matches ty (ability_continueType a)); cbn; [|apply IH].
  destruct (String.eqb m (ability_moduleName a)); [done|]. rewrite IH.
  destruct (List.find _ infos); [done|]. by rewrite <- app_assoc.
Qed.

(** Strict total orders as boolean functions, and their lexicographic product. *)
Record strict_total {A} (f : A -> A -> bool) : Prop := {
  st_irrefl : forall x, f x x = false;
  st_trans : forall x y z, f x y = true -> f y z = true -> f x z = true;
  st_total : forall x y, f x y = false -> f y x = false -> x = y;
}.

Definition lex {A B} (f : A -> A -> bool) (g : B -> B -> bool) (x y : A * B) : bool :=
  if f (fst x) (fst y) then true else if f (fst y) (fst x) then false else g (snd x) (snd y).

Lemma st_asym {A} (f : A -> A -> bool) x y : strict_total f -> f x y = true -> f y x = false.
Proof.
  intros Hf H. destruct (f y x) eqn:E; [|done]. by rewrite <- (st_irrefl f Hf x), (st_trans f Hf x y x).
Qed.

Lemma lex_strict_total {A B} (f : A -> A -> bool) (g : B -> B -> bool) :
  strict_total f -> strict_total g -> strict_total (lex f g).
Proof.
  intros Hf Hg. constructor.
  - intros [a b]. unfold lex. cbn. by rewrite (st_irrefl f Hf), (st_irrefl g Hg).
  - intros [a b] [a' b'] [a'' b'']. unfold lex. cbn. intros H1 H2.
    destruct (f a a') eqn:E1.
    + destruct (f a' a'') eqn:E2; [by rewrite (st_trans f Hf a a' a'')|].
      destruct (f a'' a') eqn:E3; [done|]. rewrite <- (st_total f Hf a' a'' E2 E3). by rewrite E1.
    + destruct (f a' a) eqn:E2; [done|]. rewrite (st_total f Hf a a' E1 E2).
      destruct (f a' a''); [done|]. destruct (f a'' a'); [done|]. by apply (st_trans g Hg b b' b'').
  - intros [a b] [a' b']. unfold lex. cbn. intros H1 H2.
    destruct (f a a') eqn:E1; [done|]. destruct (f a' a) eqn:E2; [done|].
    by rewrite (st_total f Hf a a' E1 E2), (st_total g Hg b b' H1 H2).
Qed.

Lemma Z_strict_total : strict_total Z.ltb.
Proof.
  constructor.
  - apply Z.ltb_irrefl.
  - intros x y z. rewrite !Z.ltb_lt. lia.
  - intros x y. rewrite !Z.ltb_ge. lia.
Qed.

Lemma str_strict_total : strict_total str_lt.
Proof. constructor; [apply str_lt_irrefl|apply str_lt_trans|apply str_lt_total]. Qed.

Definition callback_key (c : StateCallbackInfo) : Z * (string * (string * string)) :=
  (missionId c, (bundleName c, (moduleName c, abilityName c))).

Lemma total_key_laws {K T} (key : K -> T) (f : T -> T -> bool) `{MapKey K} :
  strict_total f -> (forall a b : K, key_lt a b = f (key a) (key b)) -> MapKeyLaws K.
Proof.
  intros Hf He. split; intros *; rewrite ?He.
  - apply (st_irrefl f Hf).
  - apply (st_trans f Hf).
  - intros Hac. destruct (f (key a) (key b)) eqn:E1; [by left|]. right.
    destruct (f (key b) (key a)) eqn:E2; [by apply (st_trans f Hf _ (key a))|].
    by rewrite <- (st_total f Hf _ _ E1 E2).
Qed.

(** A [std::map] with string keys. *)
#[global] Instance string_key : MapKey string := str_lt.
#[global] Instance string_laws : MapKeyLaws string.
Proof. by apply (total_key_laws (fun s => s) str_lt str_strict_total). Qed.

Lemma same_string a b : same_key a b = String.eqb a b.
Proof.
  apply eq_true_iff_eq. rewrite same_key_spec, String.eqb_eq. unfold key_lt, string_key. split.
  - intros [H1 H2]. by apply str_lt_total.
  - intros ->. by rewrite str_lt_irrefl.
Qed.

Lemma callback_key_strict_total : strict_total (lex Z.ltb (lex str_lt (lex str_lt str_lt))).
Proof. auto using lex_strict_total, Z_strict_total, str_strict_total. Qed.

Lemma StateCallbackInfo_ltb_lex a b :
  StateCallbackInfo_ltb a b = lex Z.ltb (lex str_lt (lex str_lt str_lt)) (callback_key a) (callback_key b).
Proof. done. Qed.

Lemma StateCallbackInfo_eqb_eq a b : StateCallbackInfo_eqb a b = true <-> a = b.
Proof.
  destruct a, b. unfold StateCallbackInfo_eqb. cbn.
  rewrite !andb_true_iff, Z.eqb_eq, !String.eqb_eq. split; [by intros [[[-> ->] ->] ->]|by intros [=]].
Qed.

(** ** Properties *)

(** The quick-start marker is recognised exactly at the end of a continue
    type, and formatting a type removes that marker, once, and nothing else. *)
Theorem quick_start_marker t :
  (CheckQuickStartConfiguration t = true <-> exists p, t = p +:+ QUICK_START_CONFIGURATION) /\
  (forall p, t = p +:+ QUICK_START_CONFIGURATION -> ContinueTypeFormat t = p) /\
  (CheckQuickStartConfiguration t = false -> ContinueTypeFormat t = t).
Proof.
  split; [apply quick_start_suffix|]. split.
  - intros p ->. apply ContinueTypeFormat_suffix.
  - intros H. by rewrite ContinueTypeFormat_check, H.
Qed.

(** The ability search returns the first ability of the source's
    module that has the continue type, alone, if there is one; otherwise every
    ability that has the type, in order; so it finds none exactly when no ability
    has the type. *)
Theorem find_sink_ability m ty infos :
  FindSinkContinueAbilityInfo m ty infos []
  = match List.find (fun a => matching ty a && same_module m a) infos with
    | Some a => [a]
    | None => List.filter (matching ty) infos
    end /\
  (FindSinkContinueAbilityInfo m ty infos [] = [] <->
   forall a, In a infos -> ~ exists t, In t (ability_continueType a) /\ ContinueTypeFormat t = ty).
Proof.
  rewrite FindSink_acc. split; [done|]. destruct (List.find _ infos) as [a|] eqn:E.
  - split; [done|]. intros H. apply List.find_some in E as [Hin Ha]. apply andb_prop in Ha as [Ha _].
    exfalso. apply (H a Hin). by apply type_matches_spec.
  - cbn [app]. split.
    + intros H a Hin Hx. apply type_matches_spec in Hx.
      assert (In a (List.filter (matching ty) infos)) as Hf by (apply List.filter_In; auto). by rewrite H in Hf.
    + intros H. destruct (List.filter (matching ty) infos) as [|a l] eqn:F; [done|].
      assert (In a (a :: l)) as Hin by by left. rewrite <- F in Hin. apply List.filter_In in Hin as [Hin Ha].
      exfalso. apply (H a Hin). by apply type_matches_spec.
Qed.

(** The order of state callback keys is a strict total order that
    agrees with their equality: irreflexive, transitive, and two keys neither of
    which is smaller are equal in all four fields, which is what the map of state
    callbacks needs. *)
Theorem state_callback_order a b c :
  StateCallbackInfo_ltb a a = false /\
  (StateCallbackInfo_ltb a b = true -> StateCallbackInfo_ltb b c = true -> StateCallbackInfo_ltb a c = true) /\
  (StateCallbackInfo_eqb a b = true <-> StateCallbackInfo_ltb a b = false /\ StateCallbackInfo_ltb b a = false) /\
  (StateCallbackInfo_eqb a b = true <-> a = b).
Proof.
  rewrite !StateCallbackInfo_ltb_lex, StateCallbackInfo_eqb_eq.
  pose proof callback_key_strict_total as H. split; [apply (st_irrefl _ H)|]. split; [apply (st_trans _ H)|].
  split; [|done]. split.
  - intros ->. by rewrite (st_irrefl _ H).
  - intros [H1 H2]. pose proof (st_total _ H _ _ H1 H2) as E. destruct a, b. by unfold callback_key in E; simplify_eq/=.
Qed.

(** [operator==] of continuation identities compares concatenations, so
    it does not separate the fields: two continuations between different devices
    of different bundles can be equal, although their order is consistent with
    this equality. *)
Theorem continue_info_ambiguous :
  (exists i j, ContinueInfo_eqb i j = true /\ sourceDeviceId_ i <> sourceDeviceId_ j /\
     sourceBundleName_ i <> sourceBundleName_ j) /\
  (forall i j, ContinueInfo_eqb i j = true <-> ContinueInfo_ltb i j = false /\ ContinueInfo_ltb j i = false).
Proof.
  split.
  - exists (ContinueInfo_byType "dev1" "a.app" "dev2" "app" "t"), (ContinueInfo_byType "dev1a" ".app" "dev2" "app" "t").
    split; [reflexivity|]. split; discriminate.
  - intros i j. unfold ContinueInfo_eqb, ContinueInfo_ltb. rewrite String.eqb_eq. split.
    + intros ->. by rewrite str_lt_irrefl.
    + intros [H1 H2]. by apply str_lt_total.
Qed.
