(* ===== verification/ContinueSession.v ===== *)
(** One continuation of an ability between two devices:
    services/dtbschedmgr/src/continue/dsched_continue.cpp, the state
    [DSchedContinue] keeps, the commands it exchanges with its peer and the
    events it processes.

    The methods run in a state monad over [DSchedContinue]. Calls of other
    services are recorded in [calls_], oldest first; the answer to a call is a
    function of the calls made before it, so that one environment stands for
    every behaviour of the surroundings over time. The want is a class of the
    ability framework and a parameter ([WantApi]). *)

From S2P Require Import Prelude DataBuffer SchedErrors Json ContinueInfo.
From stdpp Require Import pretty.
#[local] Open Scope string_scope.
#[local] Open Scope Z_scope.

(** ** Parameters: the ability framework *)

Class WantApi := {
  Want : Type;
  WantParams : Type;
  DistributedWantParams : Type;
  Want_new : Want;
  SetElementName2 : Want -> string -> string -> Want;
  SetElementName3 : Want -> string -> string -> string -> Want;
  SetElementName4 : Want -> string -> string -> string -> string -> Want;
  SetParamString : Want -> string -> string -> Want;
  SetParamInt : Want -> string -> Z -> Want;
  SetParamBool : Want -> string -> bool -> Want;
  RemoveParam : Want -> string -> Want;
  SetFlags : Want -> Z -> Want;
  SetBundle : Want -> string -> Want;
  GetFlags : Want -> Z;
  GetBundle : Want -> string;
  GetModuleName : Want -> string;
  GetElementDeviceID : Want -> string;
  GetElementBundleName : Want -> string;
  GetElementAbilityName : Want -> string;
  GetStringParam : Want -> string -> string;
  GetBoolParam : Want -> string -> bool -> bool;
  (** [IBoolean::Query] of a parameter; [None] when it is not a boolean. *)
  QueryBoolean : Want -> string -> option bool;
  FLAG_ABILITY_CONTINUATION : Z;
  FLAG_ABILITY_PREPARE_CONTINUATION : Z;
  PARAM_APP_CLONE_INDEX_KEY : string;
  PARAM_MODULE_NAME : string;
}.

(** ** Constants *)

Definition VERSION_CODE_KEY : string := "version".
Definition SUPPORT_CONTINUE_PAGE_STACK_KEY : string := "ohos.extra.param.key.supportContinuePageStack".
Definition SUPPORT_CONTINUE_SOURCE_EXIT_KEY : string := "ohos.extra.param.key.supportContinueSourceExit".
Definition SUPPORT_CONTINUE_MODULE_NAME_UPDATE_KEY : string :=
  "ohos.extra.param.key.supportContinueModuleNameUpdate".
Definition DMSDURATION_SAVETIME : string := "ohos.dschedule.SaveDataTime".
Definition DMS_PERSISTENT_ID : string := "ohos.dms.persistentId".
Definition DMS_CONTINUE_SESSION_ID : string := "ohos.dms.continueSessionId".
Definition QUICK_START_SUCCESS_MESSAGE : string := "quickstart success.".
Definition QUICK_START_FAILED_MESSAGE : string := "quickstart failed. error code: ".
Definition DSCHED_CONTINUE_PROTOCOL_VERSION : Z := 1.
Definition MAX_MODULENAME_LEN : Z := 2048.
Definition DEFAULT_REQUEST_CODE : Z := -1.
Definition DMS_VERSION : Z := 5.
Definition GET_ABILITY_STATE_RETRY_TIMES : nat := 40.
Definition QUICK_START_SUCCESS : Z := 0.
Definition QUICK_START_FAILED : Z := 1.
Definition SERVICE_TYPE_CONTINUE : Z := 0.
Definition INVALID_ACCOUNT_ID : Z := -1.
Definition ERROR_PEER_THREE_VAP_CONFLICT : Z := -200000 - 6604.

Definition CONTINUE_SOURCE : Z := 0.
Definition CONTINUE_SINK : Z := 1.
Definition CONTINUE_PULL : Z := 0.
Definition CONTINUE_PUSH : Z := 1.

Definition DSCHED_CONTINUE_CMD_START : Z := 1.
Definition DSCHED_CONTINUE_CMD_DATA : Z := 2.
Definition DSCHED_CONTINUE_CMD_REPLY : Z := 3.
Definition DSCHED_CONTINUE_CMD_END : Z := 4.

Definition DMS_UNKNOW : Z := -1.
Definition DMS_CONTINUE : Z := 0.
Definition DMS_DSCHED_EVENT_INIT : Z := 0.
Definition DMS_DSCHED_EVENT_START : Z := 1.
Definition DMS_DSCHED_EVENT_STOP : Z := 3.
Definition DMS_DSCHED_EVENT_FINISH : Z := 4.

(** [DSchedContinueStateType]. *)
Inductive StateType :=
  | SOURCE_START_STATE | ABILITY_STATE | SOURCE_WAIT_END_STATE | SOURCE_END_STATE
  | SINK_START_STATE | DATA_STATE | SINK_WAIT_END_STATE | SINK_END_STATE.

#[global] Instance StateType_eq_dec : EqDecision StateType.
Proof. solve_decision. Defined.

(** [EventNotify]: what the service tells its event listeners. *)
Record EventNotify := mkEventNotify {
  eventResult_ : Z;
  srcNetworkId_ : string;
  dstNetworkId_ : string;
  srcBundleName_ : string;
  srcModuleName_ : string;
  srcAbilityName_ : string;
  destBundleName_ : string;
  destModuleName_ : string;
  destAbilityName_ : string;
  developerId_ : string;
  dSchedEventType_ : Z;
  state_ : Z;
}.

Definition EventNotify_default : EventNotify :=
  mkEventNotify (-1) "" "" "" "" "" "" "" "" "" DMS_UNKNOW DMS_DSCHED_EVENT_INIT.

Record ContinueEventInfo := mkContinueEventInfo {
  info_networkId : string;
  info_bundleName : string;
  info_moduleName : string;
  info_abilityName : string;
  info_developerId : string;
}.

(** [DSchedContinueCmdBase]. *)
Record CmdBase := mkCmdBase {
  cmd_version : Z;
  cmd_serviceType : Z;
  cmd_subServiceType : Z;
  cmd_command : Z;
  cmd_srcDeviceId : string;
  cmd_srcBundleName : string;
  cmd_dstDeviceId : string;
  cmd_dstBundleName : string;
  cmd_continueType : string;
  cmd_continueByType : Z;
  cmd_sourceMissionId : Z;
  cmd_dmsVersion : Z;
}.

Definition CALLER_TYPE_NONE : Z := 0.

Definition DMS_VERSION_ID : string := "dmsVersion".

Record CallerInfo := mkCallerInfo {
  caller_uid : Z;
  caller_pid : Z;
  caller_callerType : Z;
  caller_sourceDeviceId : string;
  caller_duid : Z;
  caller_callerAppId : string;
  caller_bundleNames : list string;
  caller_dmsVersion : Z;
  caller_accessToken : Z;
  caller_extraInfoJson : json;
}.

Definition SAME_ACCOUNT_TYPE : Z := 0.
Definition DIFF_ACCOUNT_TYPE : Z := 1.

(** [IDistributedSched::AccountInfo]. *)
Record AccountInfo := mkAccountInfo {
  account_accountType : Z;
  account_groupIdList : list string;
  account_activeAccountId : string;
  account_userId : Z;
}.

Definition AccountInfo_default : AccountInfo := mkAccountInfo DIFF_ACCOUNT_TYPE [] "" (-1).

Record ReplyCmd := mkReplyCmd {
  reply_base : CmdBase;
  reply_replyCmd : Z;
  reply_appVersion : Z;
  reply_result : Z;
  reply_reason : string;
}.

Record EndCmd := mkEndCmd { end_base : CmdBase; end_result : Z }.

Section Session.
Context {W : WantApi}.

Record StartCmd := mkStartCmd {
  start_base : CmdBase;
  start_direction : Z;
  start_appVersion : Z;
  start_wantParams : DistributedWantParams;
}.

(** [abilityInfo_] is always the converted default. *)
Record DataCmd := mkDataCmd {
  data_base : CmdBase;
  data_srcDeveloperId : string;
  data_want : Want;
  data_requestCode : Z;
  data_callerInfo : CallerInfo;
  data_accountInfo : AccountInfo;
}.

Inductive Cmd :=
  | CmdStart (c : StartCmd)
  | CmdData (c : DataCmd)
  | CmdReply (c : ReplyCmd)
  | CmdEnd (c : EndCmd).

Definition cmd_base (c : Cmd) : CmdBase :=
  match c with
  | CmdStart c => start_base c
  | CmdData c => data_base c
  | CmdReply c => reply_base c
  | CmdEnd c => end_base c
  end.

Record ContinueAbilityData := mkContinueAbilityData {
  ability_want : Want;
  ability_callerUid : Z;
  ability_accessToken : Z;
}.

(** The inner events with their data; [EvData None] is a null command. *)
Inductive Event :=
  | EvReqPull (wantParams : WantParams)
  | EvReqPush (wantParams : WantParams)
  | EvAbility (appVersion : Z)
  | EvSendData (data : ContinueAbilityData)
  | EvData (cmd : option DataCmd)
  | EvComplete (result : Z)
  | EvEnd (result : Z).

(** What the continuation does to its surroundings. *)
Inductive Call :=
  | CQuery (name : string)
  | CNote (name : string)
  | CConnectDevice (peer : string)
  | CDisconnectDevice (peer : string)
  | CSendData (sessionId : Z) (buffer : DataBuffer)
  | CContinueAbility (deviceId : string) (missionId appVersion : Z)
  | CStartAbility (want : Want) (requestCode accountId : Z)
  | CCleanMission (missionId : Z)
  | CCallback (code : Z)
  | CSchedEvent (result : Z) (data : EventNotify)
  | COnContinueEnd (info : ContinueInfo)
  | CQuickStartState (info : StateCallbackInfo) (state : Z) (message : string).

(** The answers of the surroundings, each a function of the calls before it. *)
Record Env := mkEnv {
  SUPPORT_DISTRIBUTED_MISSION_MANAGER : bool;
  (** Softbus error codes of a peer whose hotspot is on, or which is busy. *)
  softbus_hotspot_errs : list Z;
  softbus_busy_errs : list Z;
  EventRunner_Create : list Call -> bool;
  SendEvent : list Call -> Event -> bool;
  (** [event->GetSharedObject<DistributedWantParams>()] of an event that was
      posted with [WantParams]. *)
  GetSharedWantParams : WantParams -> option DistributedWantParams;
  ConnectDevice : list Call -> string -> Z -> Z * Z;
  SendData : list Call -> Z -> DataBuffer -> Z;
  Marshal : Cmd -> Z * list Z;
  UnmarshalData : list Z -> Z * DataCmd;
  UnmarshalReply : list Z -> Z * ReplyCmd;
  UnmarshalEnd : list Z -> Z * EndCmd;
  IsSceneBoardEnabled : list Call -> bool;
  GetContinueSessionId : list Call -> string;
  GetPersistentId : list Call -> Z * Z;
  GetPersistentIdOf : list Call -> string -> Z * Z;
  GetAbilityName : list Call -> string -> string -> string -> string;
  (** Result, version code and the names of the abilities. *)
  GetLocalBundleInfo : list Call -> string -> Z * Z * list string;
  GetLocalBundleInfoV9 : list Call -> string -> Z * Z;
  GetMissionIdByBundleName : list Call -> Z -> string -> Z -> Z * Z;
  CheckBundleContinueConfig : list Call -> string -> bool;
  (** Result, bundle of the mission and whether its state is active. *)
  GetMissionInfo : list Call -> Z -> Z * (string * bool);
  ContinueAbility : list Call -> string -> Z -> Z -> Z;
  GetCallerAppIdFromBms : list Call -> Z -> option string;
  GetBundleNameListFromBms : list Call -> Z -> option (list string);
  GetAccountInfo : list Call -> string -> CallerInfo -> Z * AccountInfo;
  GetAppProvisionInfo4CurrentUser : list Call -> string -> string;
  GetSaveDataDuration : list Call -> string;
  GetLocalDeviceId : list Call -> option string;
  GetDistributedBundleInfo : list Call -> string -> string -> option (list DmsAbilityInfo);
  IsSameDeveloperId : list Call -> string -> string -> bool;
  CheckTargetPermission : list Call -> DataCmd -> Z;
  CheckTargetPermission4DiffBundle : list Call -> DataCmd -> Z;
  GetAbilityStateByPersistentId : list Call -> Z -> Z * bool;
  AbilityManagerConnect : list Call -> Z;
  AbilityManagerStartAbility : list Call -> Want -> Z;
  WriteInterfaceToken : list Call -> bool;
  WriteInt32 : list Call -> bool;
  NotifyQuickStartState : list Call -> StateCallbackInfo -> Z -> Z;
  GetContinueEventInfo : list Call -> string -> string -> string -> ContinueEventInfo;
}.

(** ** State

    [stateMachine_] is the current state of the state machine, [None] before
    [Init]; [queue_] are the events the handler has accepted and not yet
    processed; [callback_] says whether the callback object is there. *)
Record DContinue := mkDContinue {
  stateMachine_ : option StateType;
  eventHandler_ : bool;
  queue_ : list Event;
  version_ : Z;
  subServiceType_ : Z;
  continueByType_ : Z;
  direction_ : Z;
  continueInfo_ : ContinueInfo;
  isSourceExit_ : bool;
  softbusSessionId_ : Z;
  callback_ : bool;
  eventData_ : EventNotify;
  accountId_ : Z;
  calls_ : list Call;
}.

(** ** The monad *)

Definition M (A : Type) : Type := DContinue -> A * DContinue.
#[global] Instance M_ret : MRet M := fun _ a s => (a, s).
#[global] Instance M_bind : MBind M := fun _ _ f m s => let '(a, s') := m s in f a s'.

Definition get : M DContinue := fun s => (s, s).
Definition modify (f : DContinue -> DContinue) : M unit := fun s => (tt, f s).

Definition set_stateMachine (st : StateType) (s : DContinue) : DContinue :=
  mkDContinue (Some st) (eventHandler_ s) (queue_ s) (version_ s) (subServiceType_ s) (continueByType_ s)
    (direction_ s) (continueInfo_ s) (isSourceExit_ s) (softbusSessionId_ s) (callback_ s) (eventData_ s)
    (accountId_ s) (calls_ s).
Definition set_eventHandler (b : bool) (s : DContinue) : DContinue :=
  mkDContinue (stateMachine_ s) b (queue_ s) (version_ s) (subServiceType_ s) (continueByType_ s)
    (direction_ s) (continueInfo_ s) (isSourceExit_ s) (softbusSessionId_ s) (callback_ s) (eventData_ s)
    (accountId_ s) (calls_ s).
Definition set_queue (q : list Event) (s : DContinue) : DContinue :=
  mkDContinue (stateMachine_ s) (eventHandler_ s) q (version_ s) (subServiceType_ s) (continueByType_ s)
    (direction_ s) (continueInfo_ s) (isSourceExit_ s) (softbusSessionId_ s) (callback_ s) (eventData_ s)
    (accountId_ s) (calls_ s).
Definition set_continueInfo (f : ContinueInfo -> ContinueInfo) (s : DContinue) : DContinue :=
  mkDContinue (stateMachine_ s) (eventHandler_ s) (queue_ s) (version_ s) (subServiceType_ s) (continueByType_ s)
    (direction_ s) (f (continueInfo_ s)) (isSourceExit_ s) (softbusSessionId_ s) (callback_ s) (eventData_ s)
    (accountId_ s) (calls_ s).
Definition set_isSourceExit (b : bool) (s : DContinue) : DContinue :=
  mkDContinue (stateMachine_ s) (eventHandler_ s) (queue_ s) (version_ s) (subServiceType_ s) (continueByType_ s)
    (direction_ s) (continueInfo_ s) b (softbusSessionId_ s) (callback_ s) (eventData_ s)
    (accountId_ s) (calls_ s).
Definition set_softbusSessionId (id : Z) (s : DContinue) : DContinue :=
  mkDContinue (stateMachine_ s) (eventHandler_ s) (queue_ s) (version_ s) (subServiceType_ s) (continueByType_ s)
    (direction_ s) (continueInfo_ s) (isSourceExit_ s) id (callback_ s) (eventData_ s)
    (accountId_ s) (calls_ s).
Definition set_callback (b : bool) (s : DContinue) : DContinue :=
  mkDContinue (stateMachine_ s) (eventHandler_ s) (queue_ s) (version_ s) (subServiceType_ s) (continueByType_ s)
    (direction_ s) (continueInfo_ s) (isSourceExit_ s) (softbusSessionId_ s) b (eventData_ s)
    (accountId_ s) (calls_ s).
Definition set_eventData (d : EventNotify) (s : DContinue) : DContinue :=
  mkDContinue (stateMachine_ s) (eventHandler_ s) (queue_ s) (version_ s) (subServiceType_ s) (continueByType_ s)
    (direction_ s) (continueInfo_ s) (isSourceExit_ s) (softbusSessionId_ s) (callback_ s) d
    (accountId_ s) (calls_ s).
Definition set_accountId (a : Z) (s : DContinue) : DContinue :=
  mkDContinue (stateMachine_ s) (eventHandler_ s) (queue_ s) (version_ s) (subServiceType_ s) (continueByType_ s)
    (direction_ s) (continueInfo_ s) (isSourceExit_ s) (softbusSessionId_ s) (callback_ s) (eventData_ s)
    a (calls_ s).
Definition log (c : Call) (s : DContinue) : DContinue :=
  mkDContinue (stateMachine_ s) (eventHandler_ s) (queue_ s) (version_ s) (subServiceType_ s) (continueByType_ s)
    (direction_ s) (continueInfo_ s) (isSourceExit_ s) (softbusSessionId_ s) (callback_ s) (eventData_ s)
    (accountId_ s) (calls_ s ++ [c]).

(** A call without an answer, and one with. *)
Definition call (c : Call) : M unit := modify (log c).
Definition ask {A} (c : Call) (answer : list Call -> A) : M A := fun s => (answer (calls_ s), log c s).

Definition set_sinkAbilityName (n : string) (i : ContinueInfo) : ContinueInfo :=
  mkContinueInfo (sourceDeviceId_ i) (sourceBundleName_ i) (sinkDeviceId_ i) (sinkBundleName_ i) (continueType_ i)
    n (missionId_ i) (continueSessionId_ i) (sinkMissionId_ i).
Definition set_missionId (m : Z) (i : ContinueInfo) : ContinueInfo :=
  mkContinueInfo (sourceDeviceId_ i) (sourceBundleName_ i) (sinkDeviceId_ i) (sinkBundleName_ i) (continueType_ i)
    (sinkAbilityName_ i) m (continueSessionId_ i) (sinkMissionId_ i).
Definition set_continueSessionId (c : string) (i : ContinueInfo) : ContinueInfo :=
  mkContinueInfo (sourceDeviceId_ i) (sourceBundleName_ i) (sinkDeviceId_ i) (sinkBundleName_ i) (continueType_ i)
    (sinkAbilityName_ i) (missionId_ i) c (sinkMissionId_ i).
Definition set_sinkMissionId (m : Z) (i : ContinueInfo) : ContinueInfo :=
  mkContinueInfo (sourceDeviceId_ i) (sourceBundleName_ i) (sinkDeviceId_ i) (sinkBundleName_ i) (continueType_ i)
    (sinkAbilityName_ i) (missionId_ i) (continueSessionId_ i) m.
Definition set_bundles (b : string) (i : ContinueInfo) : ContinueInfo :=
  mkContinueInfo (sourceDeviceId_ i) b (sinkDeviceId_ i) b (continueType_ i)
    (sinkAbilityName_ i) (missionId_ i) (continueSessionId_ i) (sinkMissionId_ i).
End Session.
