(* ===== verification/ContinueCmd.v ===== *)
(** The commands of a continuation as JSON:
    services/dtbschedmgr/src/continue/dsched_continue_event.cpp.

    A command is a JSON object whose member [BaseCmd] is the text of another JSON
    object; wants travel as Base64 text of a parcel. [None] stands for
    [INVALID_PARAMETERS_ERR]: a command that fails to be read is dropped by its
    callers. How the ability framework writes its classes into a parcel is a
    parameter ([Parcelable]). *)

From S2P Require Import Prelude SchedErrors SchedUtils Json ContinueInfo ContinueSession.
#[local] Open Scope string_scope.
#[local] Open Scope list_scope.
#[local] Open Scope Z_scope.

Definition EXTRO_INFO_JSON_KEY_ACCESS_TOKEN : string := "accessTokenID".
Definition EXTRO_INFO_JSON_KEY_ACCOUNT_ID : string := "accountId".
Definition EXTRO_INFO_JSON_KEY_USERID_ID : string := "userId".

(** [CompatibleAbilityInfo]: the bytes of the default one, and whether bytes can
    be read as one. *)
Class AbilityInfoWire := {
  abilityInfo_bytes : option (list Z);
  abilityInfo_read : list Z -> bool;
}.

Definition CallerInfo_default : CallerInfo :=
  mkCallerInfo (-1) (-1) CALLER_TYPE_NONE "" (-1) "" [] (-1) 0 JNull.

Section Codec.
Context {W : WantApi} {CJ : CJson} {PA : ParcelApi} {PW : Parcelable Want} {PD : Parcelable DistributedWantParams}
  {AW : AbilityInfoWire}.

(** ** Writing *)

(** [DSchedContinueCmdBase::Marshal]; the developer identities are members of
    the base class. *)
Definition MarshalBase (srcDeveloperId dstDeveloperId : string) (b : CmdBase) : option string :=
  cJSON_Print (JObject
    [num "Version" (cmd_version b);
     num "ServiceType" (cmd_serviceType b);
     num "SubServiceType" (cmd_subServiceType b);
     num "Command" (cmd_command b);
     str "SrcDeviceId" (cmd_srcDeviceId b);
     str "SrcBundleName" (cmd_srcBundleName b);
     str "SrcDeveloperId" srcDeveloperId;
     str "DstDeviceId" (cmd_dstDeviceId b);
     str "DstBundleName" (cmd_dstBundleName b);
     str "DstDeveloperId" dstDeveloperId;
     str "ContinueType" (cmd_continueType b);
     num "ContinueByType" (cmd_continueByType b);
     num "SourceMissionId" (cmd_sourceMissionId b);
     num "DmsVersion" (cmd_dmsVersion b)]).

Definition MarshalStart (c : StartCmd) : option string :=
  base ← MarshalBase "" "" (start_base c);
  parcel ← parcel_write (start_wantParams c) Parcel_new;
  cJSON_Print (JObject
    [str "BaseCmd" base;
     num "Direction" (start_direction c);
     num "AppVersion" (start_appVersion c);
     str "WantParams" (ParcelToBase64Str parcel)]).

Definition MarshalCallerInfo (c : CallerInfo) : option string :=
  cJSON_Print (JObject
    [num "Uid" (caller_uid c);
     num "Pid" (caller_pid c);
     num "CallerType" (caller_callerType c);
     str "SourceDeviceId" (caller_sourceDeviceId c);
     num "Duid" (caller_duid c);
     str "CallerAppId" (caller_callerAppId c);
     strs "BundleNames" (caller_bundleNames c);
     str "ExtraInfo" (json_dump (caller_extraInfoJson c))]).

Definition MarshalAccountInfo (a : AccountInfo) : option string :=
  cJSON_Print (JObject
    [num "AccountType" (account_accountType a);
     strs "GroupIdList" (account_groupIdList a);
     str EXTRO_INFO_JSON_KEY_ACCOUNT_ID (account_activeAccountId a);
     num EXTRO_INFO_JSON_KEY_USERID_ID (account_userId a)]).

(** The members that [MarshalInner] adds. *)
Definition MarshalInner (c : DataCmd) : option (list (string * json)) :=
  wantParcel ← parcel_write (data_want c) Parcel_new;
  abilityInfo ← abilityInfo_bytes;
  callerInfo ← MarshalCallerInfo (data_callerInfo c);
  accountInfo ← MarshalAccountInfo (data_accountInfo c);
  Some [str "Want" (ParcelToBase64Str wantParcel);
        str "AbilityInfo" (ParcelToBase64Str (mkParcel abilityInfo 0));
        num "RequestCode" (data_requestCode c);
        str "CallerInfo" callerInfo;
        str "AccountInfo" accountInfo].

Definition MarshalData (c : DataCmd) : option string :=
  base ← MarshalBase (data_srcDeveloperId c) "" (data_base c);
  inner ← MarshalInner c;
  cJSON_Print (JObject (str "BaseCmd" base :: inner)).

Definition MarshalReply (c : ReplyCmd) : option string :=
  base ← MarshalBase "" "" (reply_base c);
  cJSON_Print (JObject
    [str "BaseCmd" base;
     num "ReplyCmd" (reply_replyCmd c);
     num "AppVersion" (reply_appVersion c);
     num "Result" (reply_result c);
     str "Reason" (reply_reason c)]).

Definition MarshalEnd (c : EndCmd) : option string :=
  base ← MarshalBase "" "" (end_base c);
  cJSON_Print (JObject [str "BaseCmd" base; num "Result" (end_result c)]).

(** ** Reading *)

(** A member that is not required: anything else becomes the empty string. *)
Definition get_string_or_empty (root : json) (key : string) : string := default "" (get_string root key).

(** The command number is not read back. *)
Definition UnmarshalBase (jsonStr : string) : option (CmdBase * (string * string)) :=
  root ← cJSON_Parse (c_str jsonStr);
  version ← get_number root "Version";
  serviceType ← get_number root "ServiceType";
  subServiceType ← get_number root "SubServiceType";
  continueByType ← get_number root "ContinueByType";
  sourceMissionId ← get_number root "SourceMissionId";
  dmsVersion ← get_number root "DmsVersion";
  srcDeviceId ← get_string root "SrcDeviceId";
  srcBundleName ← get_string root "SrcBundleName";
  dstDeviceId ← get_string root "DstDeviceId";
  dstBundleName ← get_string root "DstBundleName";
  continueType ← get_string root "ContinueType";
  Some (mkCmdBase version serviceType subServiceType 0 srcDeviceId srcBundleName dstDeviceId dstBundleName
          continueType continueByType sourceMissionId dmsVersion,
        (get_string_or_empty root "SrcDeveloperId", get_string_or_empty root "DstDeveloperId")).

Definition UnmarshalStart (jsonStr : string) : option StartCmd :=
  root ← cJSON_Parse (c_str jsonStr);
  baseCmd ← get_string root "BaseCmd";
  '(base, _) ← UnmarshalBase baseCmd;
  direction ← get_number root "Direction";
  appVersion ← get_number root "AppVersion";
  wantParams ← get_string root "WantParams";
  parcel ← Base64StrToParcel wantParams Parcel_new;
  '(wp, _) ← parcel_read parcel;
  Some (mkStartCmd base direction appVersion wp).

(** The names, the access token and the version of the extra information. The
    version is taken from an item that is not a string and yet has a string. *)
Definition UnmarshalCallerInfoExtra (jsonStr : string) (c : CallerInfo) : option CallerInfo :=
  root ← cJSON_Parse (c_str jsonStr);
  bundleNames ← get_strings root "BundleNames";
  extraInfo ← get_string root "ExtraInfo";
  extra ← cJSON_Parse extraInfo;
  let accessToken := match get_number extra EXTRO_INFO_JSON_KEY_ACCESS_TOKEN with
                     | Some n => u32 n
                     | None => caller_accessToken c
                     end in
  let extraInfoJson := match GetObjectItem extra DMS_VERSION_ID with
                       | Some item =>
                           match valuestring item with
                           | Some v => if negb (is_string item)
                                       then set_member (caller_extraInfoJson c) DMS_VERSION_ID (JString v)
                                       else caller_extraInfoJson c
                           | None => caller_extraInfoJson c
                           end
                       | None => caller_extraInfoJson c
                       end in
  Some (mkCallerInfo (caller_uid c) (caller_pid c) (caller_callerType c) (caller_sourceDeviceId c) (caller_duid c)
          (caller_callerAppId c) bundleNames (caller_dmsVersion c) accessToken extraInfoJson).

Definition UnmarshalCallerInfo (jsonStr : string) : option CallerInfo :=
  root ← cJSON_Parse (c_str jsonStr);
  sourceDeviceId ← get_string root "SourceDeviceId";
  callerAppId ← get_string root "CallerAppId";
  uid ← get_number root "Uid";
  pid ← get_number root "Pid";
  callerType ← get_number root "CallerType";
  duid ← get_number root "Duid";
  UnmarshalCallerInfoExtra jsonStr
    (mkCallerInfo uid pid callerType sourceDeviceId duid callerAppId
       (caller_bundleNames CallerInfo_default) (caller_dmsVersion CallerInfo_default)
       (caller_accessToken CallerInfo_default) (caller_extraInfoJson CallerInfo_default)).

(** The groups are looked up under another name than the one they are written
    under. *)
Definition UnmarshalAccountInfo (jsonStr : string) : option AccountInfo :=
  root ← cJSON_Parse (c_str jsonStr);
  accountType ← get_number root "AccountType";
  groupIdList ← get_strings root "groupIdList";
  Some (mkAccountInfo accountType groupIdList
          (default (account_activeAccountId AccountInfo_default) (get_string root EXTRO_INFO_JSON_KEY_ACCOUNT_ID))
          (default (account_userId AccountInfo_default) (get_number root EXTRO_INFO_JSON_KEY_USERID_ID))).

Definition UnmarshalWantParcel (root : json) : option Want :=
  wantStr ← get_string root "Want";
  parcel ← Base64StrToParcel wantStr Parcel_new;
  '(want, _) ← parcel_read parcel;
  Some want.

Definition UnmarshalParcel (jsonStr : string) : option Want :=
  root ← cJSON_Parse (c_str jsonStr);
  want ← UnmarshalWantParcel root;
  abilityInfoStr ← get_string root "AbilityInfo";
  parcel ← Base64StrToParcel abilityInfoStr Parcel_new;
  if abilityInfo_read (parcel_data parcel) then Some want else None.

Definition UnmarshalData (jsonStr : string) : option DataCmd :=
  root ← cJSON_Parse (c_str jsonStr);
  baseCmd ← get_string root "BaseCmd";
  '(base, (srcDeveloperId, _)) ← UnmarshalBase baseCmd;
  want ← UnmarshalParcel jsonStr;
  requestCode ← get_number root "RequestCode";
  callerInfoStr ← get_string root "CallerInfo";
  callerInfo ← UnmarshalCallerInfo callerInfoStr;
  accountInfoStr ← get_string root "AccountInfo";
  accountInfo ← UnmarshalAccountInfo accountInfoStr;
  Some (mkDataCmd base srcDeveloperId want requestCode callerInfo accountInfo).

Definition UnmarshalReply (jsonStr : string) : option ReplyCmd :=
  root ← cJSON_Parse (c_str jsonStr);
  baseCmd ← get_string root "BaseCmd";
  '(base, _) ← UnmarshalBase baseCmd;
  replyCmd ← get_number root "ReplyCmd";
  appVersion ← get_number root "AppVersion";
  result ← get_number root "Result";
  reason ← get_string root "Reason";
  Some (mkReplyCmd base replyCmd appVersion result reason).

Definition UnmarshalEnd (jsonStr : string) : option EndCmd :=
  root ← cJSON_Parse (c_str jsonStr);
  baseCmd ← get_string root "BaseCmd";
  '(base, _) ← UnmarshalBase baseCmd;
  result ← get_number root "Result";
  Some (mkEndCmd base result).

(** The virtual [Marshal], and reading a command of the same kind. *)
Definition MarshalCmd (c : Cmd) : option string :=
  match c with
  | CmdStart c => MarshalStart c
  | CmdData c => MarshalData c
  | CmdReply c => MarshalReply c
  | CmdEnd c => MarshalEnd c
  end.

Definition UnmarshalLike (c : Cmd) (jsonStr : string) : option Cmd :=
  match c with
  | CmdStart _ => CmdStart <$> UnmarshalStart jsonStr
  | CmdData _ => CmdData <$> UnmarshalData jsonStr
  | CmdReply _ => CmdReply <$> UnmarshalReply jsonStr
  | CmdEnd _ => CmdEnd <$> UnmarshalEnd jsonStr
  end.
End Codec.
