(* ===== verification/ContinueOps.v ===== *)
(** The methods of [DSchedContinue]
    (services/dtbschedmgr/src/continue/dsched_continue.cpp) that post events and
    carry out the steps of a continuation. *)

From S2P Require Import Prelude DataBuffer SchedErrors Json ContinueInfo ContinueSession.
From stdpp Require Import pretty.
#[local] Open Scope string_scope.
#[local] Open Scope Z_scope.

Section Ops.
Context {W : WantApi}.
Variable env : Env.

Definition no_call : M unit := mret tt.

(** ** Constructors and initialisation *)

Definition SetEventData : M unit :=
  s ← get;
  let i := continueInfo_ s in
  src ← ask (CQuery "GetContinueEventInfo")
          (fun h => GetContinueEventInfo env h (sourceDeviceId_ i) (sourceBundleName_ i) (continueType_ i));
  dst ← ask (CQuery "GetContinueEventInfo")
          (fun h => GetContinueEventInfo env h (sinkDeviceId_ i) (sinkBundleName_ i) (continueType_ i));
  modify (set_eventData (mkEventNotify 0 (info_networkId src) (info_networkId dst)
    (info_bundleName src) (info_moduleName src) (info_abilityName src)
    (info_bundleName dst) (info_moduleName dst) (info_abilityName dst)
    (info_developerId src) DMS_CONTINUE DMS_DSCHED_EVENT_START)).

Definition NotifyDSchedEventResult (result : Z) : M unit :=
  s ← get;
  call (CSchedEvent (if result =? ERR_OK then ERR_OK else NOTIFYCOMPLETECONTINUATION_FAILED) (eventData_ s)).

(** The two constructors; [callback] says whether a callback object was given. *)
Definition DSchedContinue_new (subServiceType direction : Z) (callback : bool) (info : ContinueInfo) (accountId : Z)
    : DContinue :=
  let s := mkDContinue None false [] DSCHED_CONTINUE_PROTOCOL_VERSION subServiceType
             (if String.eqb (continueType_ info) "" then 0 else 1) direction info true INVALID_SESSION_ID callback
             EventNotify_default accountId [] in
  snd ((_ ← SetEventData; NotifyDSchedEventResult ERR_OK) s).

Definition DSchedContinue_default : DContinue :=
  mkDContinue None false [] 0 0 0 0 ContinueInfo_default true INVALID_SESSION_ID false EventNotify_default
    INVALID_ACCOUNT_ID [].

Definition DSchedContinue_fromStartCmd (startCmd : option StartCmd) (sessionId accountId : Z) : DContinue :=
  match startCmd with
  | None => DSchedContinue_default
  | Some c =>
      let b := start_base c in
      let info := mkContinueInfo (cmd_srcDeviceId b) (cmd_srcBundleName b) (cmd_dstDeviceId b) (cmd_dstBundleName b)
                    (cmd_continueType b) "" (cmd_sourceMissionId b) "" 0 in
      let s := mkDContinue None false [] DSCHED_CONTINUE_PROTOCOL_VERSION (cmd_subServiceType b) (cmd_continueByType b)
                 (if start_direction c =? CONTINUE_SOURCE then CONTINUE_SINK else CONTINUE_SOURCE) info true sessionId
                 false EventNotify_default INVALID_ACCOUNT_ID [] in
      snd ((_ ← SetEventData;
            _ ← NotifyDSchedEventResult ERR_OK;
            if String.eqb (sourceBundleName_ info) "" && String.eqb (sinkBundleName_ info) ""
               && negb (missionId_ info =? 0)
            then
              '(ret, (bundle, _)) ← ask (CQuery "GetMissionInfo") (fun h => GetMissionInfo env h (missionId_ info));
              if negb (ret =? ERR_OK) then mret tt
              else _ ← modify (set_continueInfo (set_bundles bundle)); modify (set_accountId accountId)
            else modify (set_accountId accountId)) s)
  end.

Definition UpdateState (st : StateType) : M unit :=
  s ← get;
  match stateMachine_ s with
  | None => mret tt
  | Some _ => modify (set_stateMachine st)
  end.

(** [Init] creates the state machine and waits for the event handler; [None]: no
    event runner could be created and it waits for ever. *)
Definition Init : M (option Z) :=
  s ← get;
  if eventHandler_ s then mret (Some ERR_OK)
  else
    _ ← modify (set_stateMachine (if direction_ s =? CONTINUE_SOURCE then SOURCE_START_STATE else SINK_START_STATE));
    created ← ask (CQuery "EventRunner::Create") (EventRunner_Create env);
    if created : bool then _ ← modify (set_eventHandler true); mret (Some ERR_OK) else mret None.

(** ** Posting events *)

(** The common part of the [Post..Task] methods. *)
Definition post (e : Event) : M Z :=
  s ← get;
  if negb (eventHandler_ s) then mret INVALID_PARAMETERS_ERR
  else
    sent ← ask (CQuery "SendEvent") (fun h => SendEvent env h e);
    if negb sent then mret CONTINUE_SEND_EVENT_FAILED
    else s ← get; _ ← modify (set_queue (queue_ s ++ [e])); mret ERR_OK.

Definition PostStartTask (wantParams : WantParams) : M Z :=
  s ← get;
  post (if subServiceType_ s =? CONTINUE_PULL then EvReqPull wantParams else EvReqPush wantParams).
Definition OnContinueMission (wantParams : WantParams) : M Z := PostStartTask wantParams.

Definition PostCotinueAbilityTask (appVersion : Z) : M Z := post (EvAbility appVersion).
Definition OnStartCmd (appVersion : Z) : M Z := PostCotinueAbilityTask appVersion.

Definition PostReplyTask (cmd : option ReplyCmd) : M Z :=
  match cmd with
  | None => mret INVALID_PARAMETERS_ERR
  | Some c =>
      if reply_replyCmd c =? DSCHED_CONTINUE_CMD_START then post (EvAbility (reply_appVersion c))
      else if reply_replyCmd c =? DSCHED_CONTINUE_CMD_END then post (EvEnd (reply_result c))
      else mret ERR_OK
  end.
Definition OnReplyCmd (cmd : option ReplyCmd) : M Z := PostReplyTask cmd.

Definition PostContinueSendTask (want : Want) (callerUid status accessToken : Z) : M Z :=
  if negb (status =? ERR_OK) then post (EvEnd status)
  else post (EvSendData (mkContinueAbilityData want callerUid accessToken)).
Definition OnStartContinuation (want : Want) (callerUid status accessToken : Z) : M Z :=
  PostContinueSendTask want callerUid status accessToken.

Definition PostContinueDataTask (cmd : option DataCmd) : M Z := post (EvData cmd).
Definition OnContinueDataCmd (cmd : option DataCmd) : M Z := PostContinueDataTask cmd.

Definition PostNotifyCompleteTask (result : Z) : M Z := post (EvComplete result).

Definition OnNotifyComplete (missionId : Z) (isSuccess : bool) : M Z :=
  if negb isSuccess then _ ← PostNotifyCompleteTask CONTINUE_CALL_START_ABILITY_FAILED; mret ERR_OK
  else if missionId <=? 0 then _ ← PostNotifyCompleteTask INVALID_PARAMETERS_ERR; mret ERR_OK
  else _ ← PostNotifyCompleteTask ERR_OK; mret ERR_OK.

Definition OnContinueEndCmd (cmd : option EndCmd) : M Z :=
  match cmd with
  | None => mret INVALID_PARAMETERS_ERR
  | Some c => PostNotifyCompleteTask (end_result c)
  end.

Definition PostContinueEndTask (result : Z) : M Z := post (EvEnd result).
Definition OnContinueEnd (result : Z) : M Z := PostContinueEndTask result.

(** ** Commands to the peer *)

Definition pack_base (s : DContinue) (command : Z) : CmdBase :=
  let i := continueInfo_ s in
  mkCmdBase (version_ s) SERVICE_TYPE_CONTINUE (subServiceType_ s) command
    (sourceDeviceId_ i) (sourceBundleName_ i) (sinkDeviceId_ i) (sinkBundleName_ i) (continueType_ i)
    (continueByType_ s) (missionId_ i) DMS_VERSION.

(** The result and the command; a null [wantParams] is refused. *)
Definition PackStartCmd (wantParams : option DistributedWantParams) : M (Z * option StartCmd) :=
  match wantParams with
  | None => mret (INVALID_PARAMETERS_ERR, None)
  | Some wp =>
      s ← get;
      let b := pack_base s DSCHED_CONTINUE_CMD_START in
      if (subServiceType_ s =? CONTINUE_PULL) && (missionId_ (continueInfo_ s) =? 0) then
        '(ret, versionCode) ← ask (CQuery "GetLocalBundleInfoV9")
            (fun h => GetLocalBundleInfoV9 env h (sinkBundleName_ (continueInfo_ s)));
        if negb (ret =? ERR_OK) then mret (ret, None)
        else mret (ERR_OK, Some (mkStartCmd b (direction_ s) (i32 versionCode) wp))
      else mret (ERR_OK, Some (mkStartCmd b (direction_ s) 0 wp))
  end.

Definition PackDataCmd (want : Want) (callerInfo : CallerInfo) (accountInfo : AccountInfo) : M DataCmd :=
  s ← get;
  dev ← ask (CQuery "GetAppProvisionInfo4CurrentUser")
          (fun h => GetAppProvisionInfo4CurrentUser env h (sourceBundleName_ (continueInfo_ s)));
  mret (mkDataCmd (pack_base s DSCHED_CONTINUE_CMD_DATA) dev want DEFAULT_REQUEST_CODE callerInfo accountInfo).

Definition PackReplyCmd (replyCmd appVersion result : Z) (reason : string) : M ReplyCmd :=
  s ← get;
  mret (mkReplyCmd (pack_base s DSCHED_CONTINUE_CMD_REPLY) replyCmd appVersion result reason).

Definition PackEndCmd (result : Z) : M EndCmd :=
  s ← get; mret (mkEndCmd (pack_base s DSCHED_CONTINUE_CMD_END) result).

(** The command is marshalled and copied into a buffer with one more byte. *)
Definition SendCommand (cmd : Cmd) : M Z :=
  let '(ret, json) := Marshal env cmd in
  if negb (ret =? ERR_OK) then mret ret
  else
    let buffer := DSchedDataBuffer_new (u64 (len json + 1)) in
    match buf_write buffer 0 (Capacity buffer) (Some json) 0 (len json) with
    | BufOk buffer =>
        s ← get;
        ask (CSendData (softbusSessionId_ s) buffer) (fun h => SendData env h (softbusSessionId_ s) buffer)
    | _ => mret MEMCPY_S_FAIL
    end.

(** ** Starting an ability *)

(** The continue type without the quick-start marker, then with it. *)
Definition GetAbilityNameByContinueType : M string :=
  s ← get;
  let i := continueInfo_ s in
  let ty := if CheckQuickStartConfiguration (continueType_ i) then strip_marker (continueType_ i)
            else continueType_ i in
  name ← ask (CQuery "GetAbilityName") (fun h => GetAbilityName env h (sinkDeviceId_ i) (sinkBundleName_ i) ty);
  if negb (String.eqb name "") then mret name
  else ask (CQuery "GetAbilityName")
         (fun h => GetAbilityName env h (sinkDeviceId_ i) (sinkBundleName_ i) (ty +:+ QUICK_START_CONFIGURATION)).

Definition QuerySinkAbilityName : M string :=
  name ← GetAbilityNameByContinueType;
  if negb (String.eqb name "") then mret name
  else
    s ← get;
    '(ret, _, abilities) ← ask (CQuery "GetLocalBundleInfo")
        (fun h => GetLocalBundleInfo env h (sinkBundleName_ (continueInfo_ s)));
    if negb (ret =? ERR_OK) then mret name
    else match abilities with
         | [a] => mret a
         | _ => mret name
         end.

Definition StartAbility (want : Want) (requestCode : Z) : M Z :=
  let want := SetParamInt want PARAM_APP_CLONE_INDEX_KEY 0 in
  ret ← ask (CQuery "AbilityManagerClient::Connect") (AbilityManagerConnect env);
  if negb (ret =? ERR_OK) then mret ret
  else
    _ ← modify (set_continueInfo (set_sinkAbilityName (GetElementAbilityName want)));
    _ ← call (CNote "ClickIconDmsStartAbility");
    s ← get;
    ask (CStartAbility want DEFAULT_REQUEST_CODE (accountId_ s)) (fun h => AbilityManagerStartAbility env h want).

Definition QuickStartAbility : M Z :=
  enabled ← ask (CQuery "IsSceneBoardEnabled") (IsSceneBoardEnabled env);
  if negb enabled then mret INVALID_PARAMETERS_ERR
  else
    abilityName ← QuerySinkAbilityName;
    if String.eqb abilityName "" then mret INVALID_PARAMETERS_ERR
    else
      _ ← call (CNote "UpdateContinueSessionId");
      id ← ask (CQuery "GetContinueSessionId") (GetContinueSessionId env);
      _ ← modify (set_continueInfo (set_continueSessionId id));
      s ← get;
      let want := SetElementName2 Want_new (sinkBundleName_ (continueInfo_ s)) abilityName in
      let want := SetParamString want DMS_CONTINUE_SESSION_ID id in
      let want := SetFlags want FLAG_ABILITY_PREPARE_CONTINUATION in
      StartAbility want DEFAULT_REQUEST_CODE.

Definition peerDeviceId (s : DContinue) : string :=
  if direction_ s =? CONTINUE_SOURCE then sinkDeviceId_ (continueInfo_ s) else sourceDeviceId_ (continueInfo_ s).

(** ** The steps of a continuation *)

Definition DurationDumperStart : M unit := call (CNote "DurationDumperStart").

Definition ExecuteContinueReq (wantParams : option DistributedWantParams) : M Z :=
  _ ← DurationDumperStart;
  s ← get;
  let peer := peerDeviceId s in
  _ ← call (CNote "ClickIconDmsContinue");
  _ ← call (CNote "TriggerDmsContinue");
  _ ← (if (subServiceType_ s =? CONTINUE_PULL) && CheckQuickStartConfiguration (continueType_ (continueInfo_ s))
       then _ ← QuickStartAbility; mret tt else mret tt);
  s ← get;
  '(ret, id) ← ask (CConnectDevice peer) (fun h => ConnectDevice env h peer (softbusSessionId_ s));
  _ ← modify (set_softbusSessionId id);
  if negb (ret =? ERR_OK) then mret ret
  else
    '(ret, cmd) ← PackStartCmd wantParams;
    match cmd with
    | None => mret ret
    | Some cmd =>
        ret ← SendCommand (CmdStart cmd);
        if negb (ret =? ERR_OK) then mret ret
        else if direction_ s =? CONTINUE_SINK then
          _ ← UpdateState DATA_STATE;
          _ ← call (CNote "SetDurationEnd");
          mret ERR_OK
        else mret ERR_OK
    end.

(** The method of [DSchedContinue]; the question to the condition manager. *)
Definition GetMissionIdByBundleName_ : M Z :=
  s ← get;
  if SUPPORT_DISTRIBUTED_MISSION_MANAGER env && (missionId_ (continueInfo_ s) =? 0) then
    '(ret, mission) ← ask (CQuery "GetMissionIdByBundleName")
        (fun h => GetMissionIdByBundleName env h (accountId_ s) (sourceBundleName_ (continueInfo_ s))
                    (missionId_ (continueInfo_ s)));
    _ ← modify (set_continueInfo (set_missionId mission));
    mret ret
  else mret ERR_OK.

Definition CheckContinueAbilityPermission : M Z :=
  s ← get;
  allowed ← ask (CQuery "CheckBundleContinueConfig")
              (fun h => CheckBundleContinueConfig env h (sourceBundleName_ (continueInfo_ s)));
  if negb allowed then mret REMOTE_DEVICE_BIND_ABILITY_ERR
  else
    '(ret, (_, active)) ← ask (CQuery "GetMissionInfo") (fun h => GetMissionInfo env h (missionId_ (continueInfo_ s)));
    if negb (ret =? ERR_OK) then mret NO_MISSION_INFO_FOR_MISSION_ID
    else if negb active then mret MISSION_NOT_CONTINUE_ACTIVE
    else mret ERR_OK.

Definition ExecuteContinueAbility (appVersion : Z) : M Z :=
  _ ← call (CNote "SaveDataDmsContinue");
  result ← GetMissionIdByBundleName_;
  if negb (result =? ERR_OK) then mret result
  else
    result ← CheckContinueAbilityPermission;
    if negb (result =? ERR_OK) then mret result
    else
      _ ← call (CNote "SetDurationEnd");
      s ← get;
      let i := continueInfo_ s in
      result ← ask (CContinueAbility (sinkDeviceId_ i) (missionId_ i) appVersion)
                 (fun h => ContinueAbility env h (sinkDeviceId_ i) (missionId_ i) appVersion);
      if negb (result =? ERR_OK) then mret CONTINUE_CALL_CONTINUE_ABILITY_FAILED
      else _ ← UpdateState ABILITY_STATE; mret result.

Definition ExecuteContinueReply : M Z :=
  s ← get;
  '(ret, versionCode) ← ask (CQuery "GetLocalBundleInfoV9")
      (fun h => GetLocalBundleInfoV9 env h (sourceBundleName_ (continueInfo_ s)));
  if negb (ret =? ERR_OK) then mret INVALID_PARAMETERS_ERR
  else
    cmd ← PackReplyCmd DSCHED_CONTINUE_CMD_START (i32 versionCode) ERR_OK "ExecuteContinueReply";
    ret ← SendCommand (CmdReply cmd);
    if negb (ret =? ERR_OK) then mret ret
    else _ ← UpdateState DATA_STATE; mret ERR_OK.

Definition SetCleanMissionFlag (want : Want) : M unit :=
  match QueryBoolean want SUPPORT_CONTINUE_SOURCE_EXIT_KEY with
  | Some b => modify (set_isSourceExit b)
  | None => mret tt
  end.

(** The result and the want. *)
Definition SetWantForContinuation (newWant : Want) : M (Z * Want) :=
  s ← get;
  let want := SetParamInt newWant "sessionId" (missionId_ (continueInfo_ s)) in
  let want := SetParamString want "deviceId" (sourceDeviceId_ (continueInfo_ s)) in
  '(ret, versionCode, _) ← ask (CQuery "GetLocalBundleInfo") (fun h => GetLocalBundleInfo env h (GetBundle want));
  if negb (ret =? ERR_OK) then mret (INVALID_PARAMETERS_ERR, want)
  else
    let want := SetParamInt want VERSION_CODE_KEY (i32 versionCode) in
    let isPageStackContinue := GetBoolParam want SUPPORT_CONTINUE_PAGE_STACK_KEY true in
    let moduleName := GetStringParam want SUPPORT_CONTINUE_MODULE_NAME_UPDATE_KEY in
    let want :=
      if negb isPageStackContinue && negb (String.eqb moduleName "")
         && (Z.of_nat (String.length moduleName) <=? MAX_MODULENAME_LEN)
      then SetElementName4 want (GetElementDeviceID want) (GetElementBundleName want) (GetElementAbilityName want)
             moduleName
      else want in
    saveDataTime ← ask (CQuery "GetSaveDataDuration") (GetSaveDataDuration env);
    let want := SetParamString want DMSDURATION_SAVETIME saveDataTime in
    _ ← (if subServiceType_ s =? CONTINUE_PUSH then call (CNote "SetContinueTimeNames") else mret tt);
    mret (ERR_OK, want).

Definition ExecuteContinueSend (data : ContinueAbilityData) : M Z :=
  _ ← call (CNote "DurationDumperBeforeStartRemoteAbility");
  _ ← SetCleanMissionFlag (ability_want data);
  let newWant := ability_want data in
  if Z.land (GetFlags newWant) FLAG_ABILITY_CONTINUATION =? 0 then mret INVALID_REMOTE_PARAMETERS_ERR
  else
    '(ret, newWant) ← SetWantForContinuation newWant;
    if negb (ret =? ERR_OK) then mret INVALID_PARAMETERS_ERR
    else
      s ← get;
      appId ← ask (CQuery "GetCallerAppIdFromBms") (fun h => GetCallerAppIdFromBms env h (ability_callerUid data));
      match appId with
      | None => mret INVALID_PARAMETERS_ERR
      | Some appId =>
          names ← ask (CQuery "GetBundleNameListFromBms")
                    (fun h => GetBundleNameListFromBms env h (ability_callerUid data));
          match names with
          | None => mret INVALID_PARAMETERS_ERR
          | Some names =>
              let callerInfo := mkCallerInfo (ability_callerUid data) (-1) CALLER_TYPE_NONE
                                  (sourceDeviceId_ (continueInfo_ s)) (-1) appId names (-1)
                                  (ability_accessToken data) (set_member JNull DMS_VERSION_ID (JNumber DMS_VERSION)) in
              '(ret, accountInfo) ← ask (CQuery "GetAccountInfo")
                  (fun h => GetAccountInfo env h (sinkDeviceId_ (continueInfo_ s)) callerInfo);
              if negb (ret =? ERR_OK) then mret ret
              else
                cmd ← PackDataCmd newWant callerInfo accountInfo;
                ret ← SendCommand (CmdData cmd);
                _ ← call (CNote "SaveDataDmsRemoteWant");
                if negb (ret =? ERR_OK) then mret ret
                else
                  _ ← call (CNote "SetDurationEnd");
                  _ ← UpdateState SOURCE_WAIT_END_STATE;
                  mret ERR_OK
          end
      end.

(** The module and ability to start on the sink; the result and the command with
    its want updated. *)
Definition UpdateElementInfo (cmd : DataCmd) : M (Z * DataCmd) :=
  let srcModuleName :=
    if String.eqb (GetModuleName (data_want cmd)) "" then GetStringParam (data_want cmd) PARAM_MODULE_NAME
    else GetModuleName (data_want cmd) in
  let srcContinueType := ContinueTypeFormat (cmd_continueType (data_base cmd)) in
  let dst := cmd_dstBundleName (data_base cmd) in
  localDeviceId ← ask (CQuery "GetLocalDeviceId") (GetLocalDeviceId env);
  match localDeviceId with
  | None => mret (CAN_NOT_FOUND_MODULE_ERR, cmd)
  | Some l =>
      infos ← ask (CQuery "GetDistributedBundleInfo") (fun h => GetDistributedBundleInfo env h l dst);
      match infos with
      | None => mret (CAN_NOT_FOUND_MODULE_ERR, cmd)
      | Some infos =>
          match FindSinkContinueAbilityInfo srcModuleName srcContinueType infos [] with
          | [] => mret (CAN_NOT_FOUND_MODULE_ERR, cmd)
          | a :: _ =>
              let want := SetElementName4 (data_want cmd) (GetElementDeviceID (data_want cmd)) dst
                            (ability_abilityName a) (ability_moduleName a) in
              mret (ERR_OK, mkDataCmd (data_base cmd) (data_srcDeveloperId cmd) want (data_requestCode cmd)
                              (data_callerInfo cmd) (data_accountInfo cmd))
          end
      end
  end.

Definition CheckDeviceIdFromRemote (s : DContinue) (localDevId destDevId srcDevId : string) : bool :=
  if String.eqb localDevId "" || String.eqb destDevId "" || String.eqb srcDevId "" then false
  else if negb (String.eqb localDevId destDevId) then false
  else if String.eqb srcDevId destDevId || String.eqb srcDevId localDevId then false
  else if negb (String.eqb srcDevId (sourceDeviceId_ (continueInfo_ s))) then false
  else true.

Definition CheckStartPermission (cmd : DataCmd) : M Z :=
  if String.eqb (cmd_srcBundleName (data_base cmd)) (cmd_dstBundleName (data_base cmd)) then
    ask (CQuery "CheckTargetPermission") (fun h => CheckTargetPermission env h cmd)
  else
    same ← ask (CQuery "IsSameDeveloperId")
             (fun h => IsSameDeveloperId env h (cmd_dstBundleName (data_base cmd)) (data_srcDeveloperId cmd));
    if negb same then mret INVALID_PARAMETERS_ERR
    else ask (CQuery "CheckTargetPermission4DiffBundle") (fun h => CheckTargetPermission4DiffBundle env h cmd).

Definition UpdateWantForContinueType (want : Want) : M Want :=
  let srcAbilityName := GetElementAbilityName want in
  sink ← GetAbilityNameByContinueType;
  if negb (String.eqb sink "") && negb (String.eqb sink srcAbilityName) then
    let want := SetElementName3 want (GetElementDeviceID want) (GetElementBundleName want) sink in
    let want := RemoveParam want SUPPORT_CONTINUE_PAGE_STACK_KEY in
    let want := SetParamBool want SUPPORT_CONTINUE_PAGE_STACK_KEY false in
    _ ← call (CNote "SetDstAbilityName");
    mret want
  else mret want.

Definition DurationDumperBeforeStartAbility : M unit := call (CNote "DurationDumperBeforeStartAbility").

(** The loop of [WaitAbilityStateInitial], [retry] turns left. *)
Fixpoint wait_loop (retry : nat) (persistentId : Z) : M bool :=
  match retry with
  | O => mret false
  | S retry' =>
      '(err, state) ← ask (CQuery "GetAbilityStateByPersistentId")
          (fun h => GetAbilityStateByPersistentId env h persistentId);
      if (err =? ERR_OK) && state then mret state
      else _ ← call (CNote "sleep"); wait_loop retry' persistentId
  end.
Definition WaitAbilityStateInitial (persistentId : Z) : M bool :=
  wait_loop GET_ABILITY_STATE_RETRY_TIMES persistentId.

(** The want with the persistent id of the window, or the result of the early
    return. *)
Definition bind_window (want : Want) : M (Z + Want) :=
  s ← get;
  id ← (if subServiceType_ s =? CONTINUE_PULL
        then ask (CQuery "GetContinueSessionId") (GetContinueSessionId env) else mret ""%string);
  if (subServiceType_ s =? CONTINUE_PULL) && negb (String.eqb id "") then
    '(ret, persistentId) ← ask (CQuery "GetPersistentId") (GetPersistentId env);
    if negb (ret =? ERR_OK) then r ← OnContinueEnd DMS_GET_WINDOW_FAILED_FROM_SCB; mret (inl r)
    else
      _ ← WaitAbilityStateInitial persistentId;
      let want := SetParamInt want DMS_PERSISTENT_ID persistentId in
      '(ret, persistentId) ← ask (CQuery "GetPersistentId") (GetPersistentId env);
      if negb (ret =? ERR_OK) then r ← OnContinueEnd DMS_GET_WINDOW_FAILED_FROM_SCB; mret (inl r)
      else _ ← modify (set_continueInfo (set_sinkMissionId persistentId)); mret (inr want)
  else mret (inr want).

Definition ExecuteContinueData (cmd : option DataCmd) : M Z :=
  match cmd with
  | None => mret INVALID_PARAMETERS_ERR
  | Some cmd =>
      '(_, cmd) ← UpdateElementInfo cmd;
      _ ← DurationDumperBeforeStartAbility;
      let deviceId := GetElementDeviceID (data_want cmd) in
      localDeviceId ← ask (CQuery "GetLocalDeviceId") (GetLocalDeviceId env);
      s ← get;
      match localDeviceId with
      | None => mret INVALID_REMOTE_PARAMETERS_ERR
      | Some l =>
          if negb (CheckDeviceIdFromRemote s l deviceId (caller_sourceDeviceId (data_callerInfo cmd)))
          then mret INVALID_REMOTE_PARAMETERS_ERR
          else
            ret ← CheckStartPermission cmd;
            if negb (ret =? ERR_OK) then mret ret
            else
              want ← UpdateWantForContinueType (data_want cmd);
              w ← bind_window want;
              match w with
              | inl r => mret r
              | inr want =>
                  ret ← StartAbility want (data_requestCode cmd);
                  if ret =? ERR_OK then _ ← UpdateState SINK_WAIT_END_STATE; mret ret else mret ret
              end
      end
  end.

Definition ExecuteNotifyComplete (result : Z) : M Z :=
  _ ← call (CNote "SetDurationEnd");
  s ← get;
  if direction_ s =? CONTINUE_SINK then
    cmd ← PackEndCmd result;
    ret ← SendCommand (CmdEnd cmd);
    if negb (ret =? ERR_OK) then mret ret
    else _ ← UpdateState SINK_END_STATE; mret ERR_OK
  else
    cmd ← PackReplyCmd DSCHED_CONTINUE_CMD_END 0 result "ExecuteNotifyComplete";
    ret ← SendCommand (CmdReply cmd);
    if negb (ret =? ERR_OK) then mret ret
    else
      _ ← UpdateState SOURCE_END_STATE;
      _ ← PostContinueEndTask result;
      mret ERR_OK.

(** The table; of two entries for a code the first one counts. The softbus codes
    are parameters of the surroundings. *)
Definition DMS_CONVERT_TO_SDK_ERR_MAP (result : Z) : option Z :=
  if existsb (Z.eqb result) (softbus_hotspot_errs env) || (result =? ERROR_PEER_THREE_VAP_CONFLICT)
  then Some ERR_BIND_REMOTE_HOTSPOT_ENABLE_STATE
  else if existsb (Z.eqb result) (softbus_busy_errs env) then Some ERR_BIND_REMOTE_IN_BUSY_LINK
  else if result =? CONTINUE_ALREADY_IN_PROGRESS then Some ERR_CONTINUE_ALREADY_IN_PROGRESS
  else None.

Definition ConvertToDmsSdkErr (result : Z) : Z :=
  if result =? ERR_OK then result
  else match DMS_CONVERT_TO_SDK_ERR_MAP result with
       | Some code => code
       | None => ERR_DMS_WORK_ABNORMALLY
       end.

Definition NotifyContinuationCallbackResult (result : Z) : M unit :=
  s ← get;
  if negb (callback_ s) then mret tt
  else
    token ← ask (CQuery "WriteInterfaceToken") (WriteInterfaceToken env);
    if negb token then mret tt
    else
      written ← ask (CQuery "WriteInt32") (WriteInt32 env);
      if negb written then mret tt
      else _ ← call (CCallback (ConvertToDmsSdkErr result)); modify (set_callback false).

(** The side that connected is the one that disconnects. *)
Definition initiator (s : DContinue) : bool :=
  ((subServiceType_ s =? CONTINUE_PULL) && (direction_ s =? CONTINUE_SINK))
  || ((subServiceType_ s =? CONTINUE_PUSH) && (direction_ s =? CONTINUE_SOURCE)).

Definition DurationDumperComplete (result : Z) : M unit :=
  s ← get;
  if negb (result =? ERR_OK) then mret tt
  else if initiator s then call (CNote "DurationDumperComplete") else mret tt.

Definition set_event_state (st : Z) (d : EventNotify) : EventNotify :=
  mkEventNotify (eventResult_ d) (srcNetworkId_ d) (dstNetworkId_ d) (srcBundleName_ d) (srcModuleName_ d)
    (srcAbilityName_ d) (destBundleName_ d) (destModuleName_ d) (destAbilityName_ d) (developerId_ d)
    (dSchedEventType_ d) st.

Definition ExecuteContinueEnd (result : Z) : M Z :=
  s ← get;
  _ ← (if initiator s then call (CDisconnectDevice (peerDeviceId s)) else mret tt);
  _ ← modify (fun s => set_eventData (set_event_state
         (if negb (result =? ERR_OK) then DMS_DSCHED_EVENT_STOP else DMS_DSCHED_EVENT_FINISH) (eventData_ s)) s);
  _ ← (if (result =? ERR_OK) && (direction_ s =? CONTINUE_SOURCE) && isSourceExit_ s
       then call (CCleanMission (missionId_ (continueInfo_ s))) else mret tt);
  _ ← (if direction_ s =? CONTINUE_SINK then call (CNote "ClickIconDmsRecvOver") else mret tt);
  _ ← NotifyContinuationCallbackResult result;
  _ ← NotifyDSchedEventResult result;
  _ ← DurationDumperComplete result;
  _ ← call (CNote "PublishContinueEvent");
  _ ← call (COnContinueEnd (continueInfo_ s));
  mret ERR_OK.

Definition ExecuteContinueError (result : Z) : M Z :=
  cmd ← PackEndCmd result;
  _ ← SendCommand (CmdEnd cmd);
  s ← get;
  _ ← UpdateState (if direction_ s =? CONTINUE_SOURCE then SOURCE_END_STATE else SINK_END_STATE);
  _ ← OnContinueEnd result;
  mret ERR_OK.

(** The mission the quick-start callback is for. *)
Definition quick_start_mission : M (Z + Z) :=
  s ← get;
  if negb (sinkMissionId_ (continueInfo_ s) =? 0) then mret (inr (sinkMissionId_ (continueInfo_ s)))
  else
    '(ret, id) ← ask (CQuery "GetPersistentId") (fun h => GetPersistentIdOf env h (continueSessionId_ (continueInfo_ s)));
    if negb (ret =? ERR_OK) then mret (inl ret) else mret (inr id).

Definition notify_quick_start (mission state : Z) (message : string) : M Z :=
  s ← get;
  let info := mkStateCallbackInfo mission (sinkBundleName_ (continueInfo_ s)) (destModuleName_ (eventData_ s))
                (sinkAbilityName_ (continueInfo_ s)) in
  ask (CQuickStartState info state message) (fun h => NotifyQuickStartState env h info state).

Definition ExecuteQuickStartSuccess : M Z :=
  m ← quick_start_mission;
  match m with
  | inl ret => mret ret
  | inr mission => notify_quick_start mission QUICK_START_SUCCESS QUICK_START_SUCCESS_MESSAGE
  end.

Definition ExecuteQuickStartFailed (result : Z) : M Z :=
  m ← quick_start_mission;
  match m with
  | inl ret => mret ret
  | inr mission => notify_quick_start mission QUICK_START_FAILED (QUICK_START_FAILED_MESSAGE +:+ pretty result)
  end.

(** ** Data from the peer *)

(** The command is the bytes of the whole buffer, which starts at its offset 0
    when it comes from the transport. *)
Definition OnDataRecv (command : Z) (dataBuffer : option DataBuffer) : M unit :=
  match dataBuffer with
  | None => mret tt
  | Some b =>
      let json := match Data b with Some d => slice d (rangeOffset_ b) (Capacity b) | None => [] end in
      if command =? DSCHED_CONTINUE_CMD_DATA then
        let '(ret, c) := UnmarshalData env json in
        if negb (ret =? ERR_OK) then mret tt
        else
          let c := mkDataCmd (data_base c) (data_srcDeveloperId c)
                     (SetBundle (data_want c) (cmd_dstBundleName (data_base c)))
                     (data_requestCode c) (data_callerInfo c) (data_accountInfo c) in
          _ ← OnContinueDataCmd (Some c); mret tt
      else if command =? DSCHED_CONTINUE_CMD_REPLY then
        let '(ret, c) := UnmarshalReply env json in
        if negb (ret =? ERR_OK) then mret tt else _ ← OnReplyCmd (Some c); mret tt
      else if command =? DSCHED_CONTINUE_CMD_END then
        let '(ret, c) := UnmarshalEnd env json in
        if negb (ret =? ERR_OK) then mret tt else _ ← OnContinueEndCmd (Some c); mret tt
      else mret tt
  end.
End Ops.

(** * The state machine of a continuation: the eight states under
    services/dtbschedmgr/src/continue/state/, [DSchedContinueStateMachine] and the
    processing of events ([DSchedContinue::ProcessEvent],
    dsched_continue_event_handler.cpp).

    Each state has a table from event types to handlers; an event that is not in
    the table is an error of the state machine. *)

Section States.
Context {W : WantApi}.
Variable env : Env.

(** ** Source side *)

Definition SourceStartState_Execute (e : Event) : M Z :=
  match e with
  | EvReqPush wp => ExecuteContinueReq env (GetSharedWantParams env wp)
  | EvAbility v => ExecuteContinueAbility env v
  | EvComplete r => ExecuteContinueEnd env r
  | EvEnd r => ExecuteContinueError env r
  | _ => mret CONTINUE_STATE_MACHINE_INVALID_STATE
  end.

Definition AbilityState_Execute (e : Event) : M Z :=
  match e with
  | EvSendData d => ExecuteContinueSend env d
  | EvComplete r => ExecuteContinueEnd env r
  | EvEnd r => ExecuteContinueError env r
  | _ => mret CONTINUE_STATE_MACHINE_INVALID_STATE
  end.

Definition WaitEndState_Execute (e : Event) : M Z :=
  match e with
  | EvComplete r => ExecuteNotifyComplete env r
  | EvEnd r => ExecuteContinueError env r
  | _ => mret CONTINUE_STATE_MACHINE_INVALID_STATE
  end.

Definition EndState_Execute (e : Event) : M Z :=
  match e with
  | EvEnd r => ExecuteContinueEnd env r
  | _ => mret CONTINUE_STATE_MACHINE_INVALID_STATE
  end.

(** ** Sink side *)

Definition SinkStartState_Execute (e : Event) : M Z :=
  match e with
  | EvReqPull wp => ExecuteContinueReq env (GetSharedWantParams env wp)
  | EvAbility _ => ExecuteContinueReply env
  | EvComplete r => ret ← ExecuteContinueEnd env r; _ ← ExecuteQuickStartFailed env r; mret ret
  | EvEnd r => ret ← ExecuteContinueError env r; _ ← ExecuteQuickStartFailed env r; mret ret
  | _ => mret CONTINUE_STATE_MACHINE_INVALID_STATE
  end.

Definition DataState_Execute (e : Event) : M Z :=
  match e with
  | EvData cmd => ret ← ExecuteContinueData env cmd; _ ← ExecuteQuickStartSuccess env; mret ret
  | EvComplete r => ret ← ExecuteContinueEnd env r; _ ← ExecuteQuickStartFailed env r; mret ret
  | EvEnd r => ret ← ExecuteContinueError env r; _ ← ExecuteQuickStartFailed env r; mret ret
  | _ => mret CONTINUE_STATE_MACHINE_INVALID_STATE
  end.

Definition SinkWaitEndState_Execute (e : Event) : M Z :=
  match e with
  | EvComplete r => ExecuteNotifyComplete env r
  | EvEnd r => ExecuteContinueError env r
  | _ => mret CONTINUE_STATE_MACHINE_INVALID_STATE
  end.

Definition SinkEndState_Execute (e : Event) : M Z :=
  match e with
  | EvEnd r => ExecuteContinueEnd env r
  | _ => mret CONTINUE_STATE_MACHINE_INVALID_STATE
  end.

(** ** The state machine *)

(** [CreateState] and the virtual call of [Execute]. *)
Definition state_Execute (st : StateType) : Event -> M Z :=
  match st with
  | SOURCE_START_STATE => SourceStartState_Execute
  | ABILITY_STATE => AbilityState_Execute
  | SOURCE_WAIT_END_STATE => WaitEndState_Execute
  | SOURCE_END_STATE => EndState_Execute
  | SINK_START_STATE => SinkStartState_Execute
  | DATA_STATE => DataState_Execute
  | SINK_WAIT_END_STATE => SinkWaitEndState_Execute
  | SINK_END_STATE => SinkEndState_Execute
  end.

(** A failed event ends the continuation with the result of the failure. *)
Definition ProcessEvent (e : Event) : M unit :=
  s ← get;
  match stateMachine_ s with
  | None => mret tt
  | Some st =>
      ret ← state_Execute st e;
      if negb (ret =? ERR_OK) then _ ← OnContinueEnd env ret; mret tt else mret tt
  end.

(** The event handler takes the first event of its queue. *)
Definition handle_next : M bool :=
  s ← get;
  match queue_ s with
  | [] => mret false
  | e :: q => _ ← modify (set_queue q); _ ← ProcessEvent e; mret true
  end.

(** The handler until its queue is empty; [None]: [fuel] was not enough. *)
Fixpoint drain (fuel : nat) (s : DContinue) : option DContinue :=
  match fuel with
  | O => match queue_ s with [] => Some s | _ => None end
  | S fuel' => match queue_ s with
               | [] => Some s
               | _ => drain fuel' (snd (handle_next s))
               end
  end.
End States.
