(* ===== verification/ContinueSpec.v ===== *)
(** What the steps of a continuation may change: a footprint of each operation,
    the abstract transition system of the continuation, and the refinement of the
    event processing to it. *)

From S2P Require Import Prelude DataBuffer SchedErrors ContinueInfo ContinueSession ContinueOps.

(** ** Footprints *)

(** The part of a session that decides how events are processed. *)
Record Core := mkCore {
  c_state : option StateType;
  c_handler : bool;
  c_sub : Z;
  c_dir : Z;
  c_callback : bool;
  c_source : string;
  c_sourceBundle : string;
  c_sink : string;
  c_sinkBundle : string;
}.

Definition set_state (c : Core) (st : option StateType) : Core :=
  mkCore st (c_handler c) (c_sub c) (c_dir c) (c_callback c) (c_source c) (c_sourceBundle c) (c_sink c) (c_sinkBundle c).

(** [UpdateState] on the state. *)
Definition moved (st : option StateType) (st' : StateType) : option StateType :=
  match st with
  | None => None
  | Some _ => Some st'
  end.

Section Footprints.
Context {W : WantApi}.
Variable env : Env.

Definition core (s : DContinue) : Core :=
  mkCore (stateMachine_ s) (eventHandler_ s) (subServiceType_ s) (direction_ s) (callback_ s)
    (sourceDeviceId_ (continueInfo_ s)) (sourceBundleName_ (continueInfo_ s))
    (sinkDeviceId_ (continueInfo_ s)) (sinkBundleName_ (continueInfo_ s)).

(** Calls that report the end of the continuation or act on it. *)
Definition final_call (c : Call) : bool :=
  match c with
  | CDisconnectDevice _ | CCleanMission _ | CCallback _ | CSchedEvent _ _ | COnContinueEnd _ => true
  | _ => false
  end.

Definition extends (s s' : DContinue) (cs : list Call) : Prop := calls_ s' = calls_ s ++ cs.

(** From [s] to [s'] the state becomes [st], the events [es] are posted, and
    nothing final is called. *)
Definition effect (s s' : DContinue) (st : option StateType) (es : list Event) : Prop :=
  core s' = set_state (core s) st /\ queue_ s' = queue_ s ++ es /\
  exists cs, extends s s' cs /\ forallb (fun c => negb (final_call c)) cs = true.

Definition quiet (s s' : DContinue) : Prop := effect s s' (stateMachine_ s) [].

Lemma effect_trans s s1 s2 st1 st2 es1 es2 :
  effect s s1 st1 es1 -> effect s1 s2 st2 es2 -> effect s s2 st2 (es1 ++ es2).
Proof.
  intros (C1 & Q1 & cs1 & E1 & F1) (C2 & Q2 & cs2 & E2 & F2). split; [by rewrite C2, C1|].
  split; [by rewrite Q2, Q1, app_assoc|]. exists (cs1 ++ cs2). unfold extends in *.
  split; [by rewrite E2, E1, app_assoc|]. by rewrite forallb_app, F1, F2.
Qed.

Lemma quiet_refl s : quiet s s.
Proof. split; [done|]. split; [by rewrite app_nil_r|]. exists []. split; [symmetry; apply app_nil_r|done]. Qed.

Lemma quiet_core s s' : quiet s s' -> core s' = core s.
Proof. intros (-> & _). done. Qed.

Lemma quiet_state s s' : quiet s s' -> stateMachine_ s' = stateMachine_ s.
Proof. intros H%quiet_core. exact (f_equal c_state H). Qed.

Lemma quiet_effect s s1 s2 st es : quiet s s1 -> effect s1 s2 st es -> effect s s2 st es.
Proof. intros H1 H2. exact (effect_trans _ _ _ _ _ [] es H1 H2). Qed.

Lemma effect_quiet s s1 s2 st es : effect s s1 st es -> quiet s1 s2 -> effect s s2 st es.
Proof.
  intros H1 H2. pose proof H1 as (C1 & _). unfold quiet in H2.
  rewrite (f_equal c_state C1 : stateMachine_ s1 = st) in H2.
  pose proof (effect_trans _ _ _ _ _ es [] H1 H2) as H. by rewrite app_nil_r in H.
Qed.

Lemma quiet_trans s1 s2 s3 : quiet s1 s2 -> quiet s2 s3 -> quiet s1 s3.
Proof. intros H1 H2. exact (effect_quiet _ _ _ _ _ H1 H2). Qed.

#[local] Instance quiet_preorder : PreOrder quiet.
Proof. split; [exact quiet_refl|exact quiet_trans]. Qed.

(** Programs that only make quiet changes. *)
Definition keeps {A} (m : M A) : Prop := forall s, quiet s (snd (m s)).

Lemma keeps_ret {A} (a : A) : keeps (mret a).
Proof. intros s. apply quiet_refl. Qed.

Lemma keeps_get : keeps get.
Proof. intros s. apply quiet_refl. Qed.

Lemma keeps_bind {A B} (m : M A) (f : A -> M B) : keeps m -> (forall a, keeps (f a)) -> keeps (m ≫= f).
Proof.
  intros Hm Hf s. unfold mbind, M_bind. pose proof (Hm s) as H1. destruct (m s) as [a s']. cbn in H1.
  etransitivity; [exact H1|apply Hf].
Qed.

Lemma keeps_log c s : final_call c = false -> quiet s (log c s).
Proof.
  intros H. split; [done|]. split; [by rewrite app_nil_r|]. exists [c]. split; [done|]. cbn. by rewrite H.
Qed.

Lemma keeps_call c : final_call c = false -> keeps (call c).
Proof. intros H s. by apply keeps_log. Qed.

Lemma keeps_ask {A} c (f : list Call -> A) : final_call c = false -> keeps (ask c f).
Proof. intros H s. by apply keeps_log. Qed.

Lemma keeps_modify f :
  (forall s, core (f s) = core s /\ queue_ (f s) = queue_ s /\ calls_ (f s) = calls_ s) -> keeps (modify f).
Proof.
  intros H s. destruct (H s) as (C & Q & E). unfold modify. cbn [snd]. split; [by rewrite C|]. split; [by rewrite app_nil_r|].
  exists []. split; [|done]. unfold extends. by rewrite app_nil_r.
Qed.

(** Proves [keeps] by following the program. *)
Ltac keeps :=
  repeat first
    [ apply keeps_bind; [|intros ?]
    | apply keeps_ret
    | apply keeps_get
    | apply keeps_call; reflexivity
    | apply keeps_ask; reflexivity
    | apply keeps_modify; intros ?; by split_and!
    | match goal with
      | |- keeps (match ?x with _ => _ end) => destruct x
      | |- keeps (if ?x then _ else _) => destruct x
      end
    | solve [eauto with keeps] ].

Create HintDb keeps.

Lemma SetEventData_keeps : keeps (SetEventData env).
Proof. unfold SetEventData. keeps. Qed.

Lemma PackStartCmd_keeps wp : keeps (PackStartCmd env wp).
Proof. unfold PackStartCmd. keeps. Qed.
Lemma PackDataCmd_keeps w c a : keeps (PackDataCmd env w c a).
Proof. unfold PackDataCmd. keeps. Qed.
Lemma PackReplyCmd_keeps r v x m : keeps (PackReplyCmd r v x m).
Proof. unfold PackReplyCmd. keeps. Qed.
Lemma PackEndCmd_keeps r : keeps (PackEndCmd r).
Proof. unfold PackEndCmd. keeps. Qed.
Lemma SendCommand_keeps c : keeps (SendCommand env c).
Proof. unfold SendCommand. keeps. Qed.
Hint Resolve PackStartCmd_keeps PackDataCmd_keeps PackReplyCmd_keeps PackEndCmd_keeps SendCommand_keeps : keeps.

Lemma GetAbilityNameByContinueType_keeps : keeps (GetAbilityNameByContinueType env).
Proof. unfold GetAbilityNameByContinueType. keeps. Qed.
Hint Resolve GetAbilityNameByContinueType_keeps : keeps.
Lemma QuerySinkAbilityName_keeps : keeps (QuerySinkAbilityName env).
Proof. unfold QuerySinkAbilityName. keeps. Qed.
Lemma StartAbility_keeps w r : keeps (StartAbility env w r).
Proof. unfold StartAbility. keeps. Qed.
Hint Resolve QuerySinkAbilityName_keeps StartAbility_keeps : keeps.
Lemma QuickStartAbility_keeps : keeps (QuickStartAbility env).
Proof. unfold QuickStartAbility. keeps. Qed.
Lemma GetMissionIdByBundleName_keeps : keeps (GetMissionIdByBundleName_ env).
Proof. unfold GetMissionIdByBundleName_. keeps. Qed.
Lemma CheckContinueAbilityPermission_keeps : keeps (CheckContinueAbilityPermission env).
Proof. unfold CheckContinueAbilityPermission. keeps. Qed.
Lemma SetCleanMissionFlag_keeps w : keeps (SetCleanMissionFlag w).
Proof. unfold SetCleanMissionFlag. keeps. Qed.
Lemma SetWantForContinuation_keeps w : keeps (SetWantForContinuation env w).
Proof. unfold SetWantForContinuation. keeps. Qed.
Lemma UpdateElementInfo_keeps c : keeps (UpdateElementInfo env c).
Proof. unfold UpdateElementInfo. keeps. Qed.
Lemma CheckStartPermission_keeps c : keeps (CheckStartPermission env c).
Proof. unfold CheckStartPermission. keeps. Qed.
Lemma UpdateWantForContinueType_keeps w : keeps (UpdateWantForContinueType env w).
Proof. unfold UpdateWantForContinueType. keeps. Qed.
Lemma WaitAbilityStateInitial_keeps p : keeps (WaitAbilityStateInitial env p).
Proof.
  unfold WaitAbilityStateInitial. generalize GET_ABILITY_STATE_RETRY_TIMES as n.
  induction n as [|n IH]; cbn [wait_loop]; keeps.
Qed.
Lemma quick_start_mission_keeps : keeps (quick_start_mission env).
Proof. unfold quick_start_mission. keeps. Qed.
Lemma notify_quick_start_keeps m st msg : keeps (notify_quick_start env m st msg).
Proof. unfold notify_quick_start. keeps. Qed.
Hint Resolve quick_start_mission_keeps notify_quick_start_keeps : keeps.
Lemma ExecuteQuickStartSuccess_keeps : keeps (ExecuteQuickStartSuccess env).
Proof. unfold ExecuteQuickStartSuccess. keeps. Qed.
Lemma ExecuteQuickStartFailed_keeps r : keeps (ExecuteQuickStartFailed env r).
Proof. unfold ExecuteQuickStartFailed. keeps. Qed.
Hint Resolve QuickStartAbility_keeps GetMissionIdByBundleName_keeps CheckContinueAbilityPermission_keeps
  SetCleanMissionFlag_keeps SetWantForContinuation_keeps UpdateElementInfo_keeps CheckStartPermission_keeps
  UpdateWantForContinueType_keeps WaitAbilityStateInitial_keeps ExecuteQuickStartSuccess_keeps
  ExecuteQuickStartFailed_keeps : keeps.

(** ** Specifications of the steps

    [spec m P]: from a session with core [c], [m] returns [r], leaves the state
    [st] and posts [es] such that [P c r st es], and makes no final call. *)

Definition spec {A} (m : M A) (P : Core -> A -> option StateType -> list Event -> Prop) : Prop :=
  forall s, exists st es, effect s (snd (m s)) st es /\ P (core s) (fst (m s)) st es.

Lemma spec_ret {A} (r : A) P : (forall c, P c r (c_state c) []) -> spec (mret r) P.
Proof. intros H s. exists (stateMachine_ s), []. split; [apply quiet_refl|apply (H (core s))]. Qed.

Lemma spec_bind {A B} (m : M A) (f : A -> M B) P : keeps m -> (forall a, spec (f a) P) -> spec (m ≫= f) P.
Proof.
  intros Hm Hf s. unfold mbind, M_bind. pose proof (Hm s) as H1. destruct (m s) as [a s1]. cbn in H1.
  destruct (Hf a s1) as (st & es & He & HP). exists st, es. split; [by apply (quiet_effect _ s1)|].
  by rewrite <- (quiet_core _ _ H1).
Qed.

(** A program that reads the session first. *)
Lemma spec_get {B} (f : DContinue -> M B) P :
  (forall s0, spec (f s0) (fun c r st es => c = core s0 -> P c r st es)) -> spec (get ≫= f) P.
Proof. intros H s. destruct (H s s) as (st & es & He & HP). exists st, es. split; [exact He|by apply HP]. Qed.

Lemma spec_weaken {A} (m : M A) (P Q : Core -> A -> option StateType -> list Event -> Prop) :
  spec m P -> (forall c r st es, P c r st es -> Q c r st es) -> spec m Q.
Proof. intros H HPQ s. destruct (H s) as (st & es & He & HP). eauto. Qed.

Lemma spec_bind_post {A B} (Q : A -> Prop) (m : M A) (f : A -> M B) P :
  keeps m -> (forall s, Q (fst (m s))) -> (forall a, Q a -> spec (f a) P) -> spec (m ≫= f) P.
Proof.
  intros Hm HQ Hf s. unfold mbind, M_bind. pose proof (Hm s) as H1. pose proof (HQ s) as H2.
  destruct (m s) as [a s1]. cbn in H1, H2.
  destruct (Hf a H2 s1) as (st & es & He & HP). exists st, es. split; [by apply (quiet_effect _ s1)|].
  by rewrite <- (quiet_core _ _ H1).
Qed.

Lemma UpdateState_effect st' s :
  effect s (snd (UpdateState st' s)) (moved (stateMachine_ s) st') [].
Proof.
  unfold UpdateState, mbind, M_bind, mret, M_ret, get. cbn.
  destruct (stateMachine_ s) as [st|] eqn:E; cbn.
  - split; [done|]. split; [by rewrite app_nil_r|]. exists []. split; [symmetry; apply app_nil_r|done].
  - rewrite <- E. apply quiet_refl.
Qed.

(** One program after the other. *)
Lemma spec_seq {A B} (m : M A) (f : A -> M B) P1 (P2 : A -> _) (P : Core -> B -> option StateType -> list Event -> Prop) :
  spec m P1 -> (forall a, spec (f a) (P2 a)) ->
  (forall c a st1 es1 r st2 es2, P1 c a st1 es1 -> P2 a (set_state c st1) r st2 es2 -> P c r st2 (es1 ++ es2)) ->
  spec (m ≫= f) P.
Proof.
  intros Hm Hf HP s. destruct (Hm s) as (st1 & es1 & He1 & H1). unfold mbind, M_bind.
  destruct (m s) as [a s1]. cbn in He1, H1. destruct (Hf a s1) as (st2 & es2 & He2 & H2).
  exists st2, (es1 ++ es2). split; [by apply (effect_trans _ s1 _ st1)|].
  apply (HP _ a st1); [done|]. destruct He1 as (E & _). by rewrite E in H2.
Qed.

(** A move to another state and what follows it. *)
Lemma spec_move {A} st' (k : M A) (P Q : Core -> A -> option StateType -> list Event -> Prop) :
  spec k P -> (forall c r st es, P (set_state c (moved (c_state c) st')) r st es -> Q c r st es) ->
  spec (_ ← UpdateState st'; k) Q.
Proof.
  intros Hk HPQ s. pose proof (UpdateState_effect st' s) as H1. unfold mbind, M_bind.
  destruct (UpdateState st' s) as [[] s1]. cbn in H1. destruct (Hk s1) as (st & es & He & HP).
  exists st, es. split; [exact (effect_trans _ _ _ _ _ [] es H1 He)|].
  apply HPQ. destruct H1 as (E & _). rewrite E in HP. exact HP.
Qed.

Definition returns {A} (r0 : A) (c : Core) (r : A) (st : option StateType) (es : list Event) : Prop :=
  r = r0 /\ st = c_state c /\ es = [].

Lemma spec_update {A} st' (r : A) P :
  (forall c, P c r (moved (c_state c) st') []) -> spec (_ ← UpdateState st'; mret r) P.
Proof.
  intros H. apply (spec_move _ _ (returns r)); [by apply spec_ret|]. intros c r' st es (-> & -> & ->). apply H.
Qed.

(** Result of the [k]-th continuation: a quiet tail. *)
Lemma spec_then_keeps {A} (m : M Z) (k : M A) P : spec m P -> keeps k -> spec (r ← m; _ ← k; mret r) P.
Proof.
  intros Hm Hk s. destruct (Hm s) as (st & es & He & HP). unfold mbind, M_bind, mret, M_ret.
  destruct (m s) as [r s1]. cbn in He, HP. pose proof (Hk s1) as H2. destruct (k s1) as [a s2]. cbn in *.
  exists st, es. split; [by apply (effect_quiet _ s1)|done].
Qed.

(** Softbus' event handler takes every event. *)
Definition accepts : Prop := forall h e, SendEvent env h e = true.

(** [e] has been posted, unless it was refused. *)
Definition posted (c : Core) (e : Event) (es : list Event) : Prop :=
  es = [e] \/ es = [] /\ ~ (c_handler c = true /\ accepts).

Definition post_result (e : Event) (c : Core) (r : Z) (st : option StateType) (es : list Event) : Prop :=
  st = c_state c /\ posted c e es /\ (r = ERR_OK <-> es = [e]).

Lemma post_spec e : spec (post env e) (post_result e).
Proof.
  intros s. unfold post, mbind, M_bind, mret, M_ret, get, ask, modify. cbn.
  destruct (eventHandler_ s) eqn:Eh; cbn.
  - destruct (SendEvent env (calls_ s) e) eqn:Es; cbn.
    + exists (stateMachine_ s), [e]. split; [|split; [done|split; [by left|done]]].
      split; [done|]. split; [done|]. by exists [CQuery "SendEvent"].
    + exists (stateMachine_ s), []. split; [by apply keeps_log|]. split; [done|]. split; [|done].
      right. split; [done|]. intros [_ Ha]. by rewrite Ha in Es.
  - exists (stateMachine_ s), []. split; [apply quiet_refl|]. split; [done|]. split; [|done].
    right. split; [done|]. unfold core. cbn. rewrite Eh. by intros [? _].
Qed.

(** The result of a step that either fails and changes nothing or succeeds and
    moves to [st']. *)
Definition fails_or_moves (st' : Core -> option StateType) (c : Core) (r : Z) (st : option StateType) (es : list Event)
    : Prop :=
  es = [] /\ (r <> ERR_OK /\ st = c_state c \/ r = ERR_OK /\ st = st' c).

Lemma fails r st' : r <> ERR_OK -> spec (mret r) (fails_or_moves st').
Proof. intros. apply spec_ret. intros c. split; [done|]. by left. Qed.

Lemma eqb_fails r st' : (r =? ERR_OK) = false -> spec (mret r) (fails_or_moves st').
Proof. intros H%Z.eqb_neq. by apply fails. Qed.

(** Follows a program up to its last steps. *)
Ltac steps :=
  repeat first
    [ apply spec_bind; [solve [keeps]|intros ?]
    | apply fails; discriminate
    | apply eqb_fails; assumption
    | match goal with
      | |- spec (if negb ?x then _ else _) _ => destruct x eqn:?; cbn [negb]
      | |- spec (match ?x with _ => _ end) _ => destruct x eqn:?; cbn [negb]
      | |- spec (if ?x then _ else _) _ => destruct x eqn:?; cbn [negb]
      end ].

Lemma ExecuteContinueAbility_spec v :
  spec (ExecuteContinueAbility env v) (fails_or_moves (fun c => moved (c_state c) ABILITY_STATE)).
Proof.
  unfold ExecuteContinueAbility. steps. apply spec_update. intros c. split; [done|]. right. split; [|done].
  by apply Z.eqb_eq.
Qed.

Definition req_target (c : Core) : option StateType :=
  if c_dir c =? CONTINUE_SINK then moved (c_state c) DATA_STATE else c_state c.

Lemma PackStartCmd_result wp s :
  snd (fst (PackStartCmd env wp s)) = None -> fst (fst (PackStartCmd env wp s)) <> ERR_OK.
Proof.
  destruct wp as [wp|]; [|done]. unfold PackStartCmd, mbind, M_bind, mret, M_ret, get, ask. cbn.
  destruct (_ && _); [|done]. destruct (GetLocalBundleInfoV9 _ _ _) as [ret v]. cbn.
  destruct (Z.eqb_spec ret ERR_OK); done.
Qed.

Lemma ExecuteContinueReq_spec wp : spec (ExecuteContinueReq env wp) (fails_or_moves req_target).
Proof.
  unfold ExecuteContinueReq. do 5 (apply spec_bind; [solve [keeps]|intros ?]). apply spec_get. intros s0.
  apply (spec_weaken _ (fails_or_moves (fun c =>
    if direction_ s0 =? CONTINUE_SINK then moved (c_state c) DATA_STATE else c_state c))).
  2: { by intros c r st es H ->. }
  do 1 (apply spec_bind; [solve [keeps]|intros [ret id]]). apply spec_bind; [solve [keeps]|intros _].
  destruct (ret =? ERR_OK) eqn:E; cbn [negb]; [|by apply eqb_fails].
  apply (spec_bind_post (fun x => snd x = None -> fst x <> ERR_OK)); [solve [keeps]|apply PackStartCmd_result|].
  intros [ret' [cmd|]] HQ; [|by apply fails, HQ]. steps.
  - apply (spec_move _ _ (returns ERR_OK)).
    + apply spec_bind; [solve [keeps]|intros _]. by apply spec_ret.
    + intros c r st es (-> & -> & ->). split; [done|]. by right.
  - apply spec_ret. intros c. split; [done|]. by right.
Qed.

Lemma ExecuteContinueReply_spec :
  spec (ExecuteContinueReply env) (fails_or_moves (fun c => moved (c_state c) DATA_STATE)).
Proof.
  unfold ExecuteContinueReply. steps. apply spec_update. intros c. split; [done|]. by right.
Qed.

Lemma ExecuteContinueSend_spec d :
  spec (ExecuteContinueSend env d) (fails_or_moves (fun c => moved (c_state c) SOURCE_WAIT_END_STATE)).
Proof.
  unfold ExecuteContinueSend. steps. apply spec_update. intros c. split; [done|]. by right.
Qed.

(** [ExecuteContinueData] may also end the continuation because there is no
    window. *)
Definition data_result (c : Core) (r : Z) (st : option StateType) (es : list Event) : Prop :=
  fails_or_moves (fun c => moved (c_state c) SINK_WAIT_END_STATE) c r st es \/
  post_result (EvEnd DMS_GET_WINDOW_FAILED_FROM_SCB) c r st es.

Definition window_result (c : Core) (w : Z + Want) (st : option StateType) (es : list Event) : Prop :=
  match w with
  | inl r => post_result (EvEnd DMS_GET_WINDOW_FAILED_FROM_SCB) c r st es
  | inr _ => st = c_state c /\ es = []
  end.

Lemma bind_window_spec want : spec (bind_window env want) window_result.
Proof.
  assert (spec (r ← OnContinueEnd env DMS_GET_WINDOW_FAILED_FROM_SCB; mret (inl r)) window_result) as Hend.
  { apply (spec_seq _ _ _ (fun a => returns (inl a)) _ (post_spec _)); [intros; by apply spec_ret|].
    intros c a st1 es1 r st2 es2 H (-> & -> & ->). by rewrite app_nil_r. }
  unfold bind_window. apply spec_bind; [solve [keeps]|intros s]. apply spec_bind; [solve [keeps]|intros id].
  destruct (_ && _); [|by apply spec_ret]. apply spec_bind; [solve [keeps]|intros [ret p]].
  destruct (ret =? ERR_OK); cbn [negb]; [|exact Hend].
  apply spec_bind; [solve [keeps]|intros ?]. apply spec_bind; [solve [keeps]|intros [ret' p']].
  destruct (ret' =? ERR_OK); cbn [negb]; [|exact Hend].
  apply spec_bind; [solve [keeps]|intros ?]. by apply spec_ret.
Qed.

Lemma ExecuteContinueData_spec cmd : spec (ExecuteContinueData env cmd) data_result.
Proof.
  assert (forall r, r <> ERR_OK -> spec (mret r) data_result) as Hfail.
  { intros r Hr. apply (spec_weaken _ _ _ (fails r (fun c => moved (c_state c) SINK_WAIT_END_STATE) Hr)). by left. }
  unfold ExecuteContinueData. destruct cmd as [cmd|]; [|by apply Hfail].
  apply spec_bind; [solve [keeps]|intros [? cmd']].
  do 3 (apply spec_bind; [solve [keeps]|intros ?]).
  case_match; [|by apply Hfail].
  destruct (CheckDeviceIdFromRemote _ _ _ _); cbn [negb]; [|by apply Hfail].
  apply spec_bind; [solve [keeps]|intros ret]. destruct (Z.eqb_spec ret ERR_OK); cbn [negb]; [|by apply Hfail].
  apply spec_bind; [solve [keeps]|intros want].
  apply (spec_seq _ _ _ (fun w => match w with
    | inl r => returns r
    | inr _ => fails_or_moves (fun c => moved (c_state c) SINK_WAIT_END_STATE) end) _ (bind_window_spec want)).
  - intros [r|want']; [by apply spec_ret|]. apply spec_bind; [solve [keeps]|intros ret'].
    destruct (ret' =? ERR_OK) eqn:E; [|by apply eqb_fails].
    apply spec_update. intros c. split; [done|]. right. by apply Z.eqb_eq in E.
  - intros c [r|want'] st1 es1 r' st2 es2 H1 H2.
    + destruct H2 as (-> & -> & ->). right. by rewrite app_nil_r.
    + left. destruct H1 as [-> ->]. destruct c. exact H2.
Qed.

(** ** The ends of a continuation *)

Definition complete_result (result : Z) (c : Core) (r : Z) (st : option StateType) (es : list Event) : Prop :=
  if c_dir c =? CONTINUE_SINK then fails_or_moves (fun c => moved (c_state c) SINK_END_STATE) c r st es
  else r <> ERR_OK /\ st = c_state c /\ es = [] \/
       r = ERR_OK /\ st = moved (c_state c) SOURCE_END_STATE /\ posted c (EvEnd result) es.

Lemma ExecuteNotifyComplete_spec result : spec (ExecuteNotifyComplete env result) (complete_result result).
Proof.
  unfold ExecuteNotifyComplete. apply spec_bind; [solve [keeps]|intros _]. apply spec_get. intros s0.
  destruct (direction_ s0 =? CONTINUE_SINK) eqn:Ed.
  - apply (spec_weaken _ (fails_or_moves (fun c => moved (c_state c) SINK_END_STATE))).
    + steps. apply spec_update. intros c. split; [done|]. by right.
    + intros c r st es H ->. unfold complete_result. cbn [core c_dir]. by rewrite Ed.
  - apply (spec_weaken _ (fun c r st es => r <> ERR_OK /\ st = c_state c /\ es = [] \/
       r = ERR_OK /\ st = moved (c_state c) SOURCE_END_STATE /\ posted c (EvEnd result) es)).
    2: { intros c r st es H ->. unfold complete_result. cbn [core c_dir]. by rewrite Ed. }
    apply spec_bind; [solve [keeps]|intros cmd]. apply spec_bind; [solve [keeps]|intros ret].
    destruct (Z.eqb_spec ret ERR_OK); cbn [negb]; [|apply spec_ret; intros c; by left].
    apply (spec_move _ _ (fun c r st es => r = ERR_OK /\ st = c_state c /\ posted c (EvEnd result) es)).
    + apply (spec_seq _ _ _ (fun _ => returns ERR_OK) _ (post_spec (EvEnd result))); [intros; by apply spec_ret|].
      intros c a st1 es1 r st2 es2 (-> & Hp & _) (-> & -> & ->). by rewrite app_nil_r.
    + intros c r st es (-> & -> & Hp). by right.
Qed.

Definition error_result (result : Z) (c : Core) (r : Z) (st : option StateType) (es : list Event) : Prop :=
  r = ERR_OK /\
  st = moved (c_state c) (if c_dir c =? CONTINUE_SOURCE then SOURCE_END_STATE else SINK_END_STATE) /\
  posted c (EvEnd result) es.

Lemma ExecuteContinueError_spec result : spec (ExecuteContinueError env result) (error_result result).
Proof.
  unfold ExecuteContinueError. apply spec_bind; [solve [keeps]|intros cmd].
  apply spec_bind; [solve [keeps]|intros ?]. apply spec_get. intros s0.
  apply (spec_move _ _ (fun c r st es => r = ERR_OK /\ st = c_state c /\ posted c (EvEnd result) es)).
  - apply (spec_seq _ _ _ (fun _ => returns ERR_OK) _ (post_spec (EvEnd result))); [intros; by apply spec_ret|].
    intros c a' st1 es1 r st2 es2 (-> & Hp & _) (-> & -> & ->). by rewrite app_nil_r.
  - intros c r st es (-> & -> & Hp) ->. by split_and!.
Qed.
End Footprints.
