(* ===== verification/ContinueRefine.v ===== *)
(** The abstract transition system of a continuation and the refinement of the
    event processing ([ProcessEvent]) to it. *)

From S2P Require Import Prelude DataBuffer SchedErrors ContinueInfo ContinueSession ContinueOps ContinueSpec.

Section EndEffect.
Context {W : WantApi}.
Variable env : Env.

(** ** What [ExecuteContinueEnd] does *)

(** The parcel of the callback can be written. *)
Definition parcels_written : Prop := (forall h, WriteInterfaceToken env h = true) /\ (forall h, WriteInt32 env h = true).

Definition end_event (result : Z) (s : DContinue) : EventNotify :=
  set_event_state (if negb (result =? ERR_OK) then DMS_DSCHED_EVENT_STOP else DMS_DSCHED_EVENT_FINISH) (eventData_ s).

(** The final calls of an end with [result]; [told]: the callback was reached. *)
Definition end_calls (result : Z) (told : bool) (s : DContinue) : list Call :=
  (if initiator s then [CDisconnectDevice (peerDeviceId s)] else [])
  ++ (if (result =? ERR_OK) && (direction_ s =? CONTINUE_SOURCE) && isSourceExit_ s
      then [CCleanMission (missionId_ (continueInfo_ s))] else [])
  ++ (if told then [CCallback (ConvertToDmsSdkErr env result)] else [])
  ++ [CSchedEvent (if result =? ERR_OK then ERR_OK else NOTIFYCOMPLETECONTINUATION_FAILED) (end_event result s);
      COnContinueEnd (continueInfo_ s)].

Definition set_callback_of (c : Core) (b : bool) : Core :=
  mkCore (c_state c) (c_handler c) (c_sub c) (c_dir c) b (c_source c) (c_sourceBundle c) (c_sink c) (c_sinkBundle c).

(** From [s] to [s'] the continuation has been ended with [result]. *)
Definition ended (result : Z) (s s' : DContinue) : Prop :=
  queue_ s' = queue_ s /\
  exists told, core s' = set_callback_of (core s) (callback_ s && negb told) /\
    (told = true -> callback_ s = true) /\ (parcels_written -> callback_ s = true -> told = true) /\
    exists cs, extends s s' cs /\ List.filter final_call cs = end_calls result told s.

Lemma NotifyCallback_effect result s :
  exists told cs, NotifyContinuationCallbackResult env result s
    = (tt, mkDContinue (stateMachine_ s) (eventHandler_ s) (queue_ s) (version_ s) (subServiceType_ s)
        (continueByType_ s) (direction_ s) (continueInfo_ s) (isSourceExit_ s) (softbusSessionId_ s)
        (callback_ s && negb told) (eventData_ s) (accountId_ s) (calls_ s ++ cs)) /\
    (told = true -> callback_ s = true) /\ (parcels_written -> callback_ s = true -> told = true) /\
    List.filter final_call cs = if told then [CCallback (ConvertToDmsSdkErr env result)] else [].
Proof.
  unfold NotifyContinuationCallbackResult, mbind, M_bind, mret, M_ret, get, ask, call, modify.
  destruct (callback_ s) eqn:Ec; cbn.
  - destruct (WriteInterfaceToken env (calls_ s)) eqn:E1; cbn.
    + destruct (WriteInt32 env (calls_ s ++ [CQuery "WriteInterfaceToken"])) eqn:E2; cbn.
      * exists true, [CQuery "WriteInterfaceToken"; CQuery "WriteInt32"; CCallback (ConvertToDmsSdkErr env result)].
        unfold set_callback, log. cbn. rewrite <- !app_assoc. by split_and!.
      * exists false, [CQuery "WriteInterfaceToken"; CQuery "WriteInt32"]. unfold log. cbn.
        rewrite <- !app_assoc, Ec. split_and!; try done. intros [_ Hp]. by rewrite Hp in E2.
    + exists false, [CQuery "WriteInterfaceToken"]. unfold log. rewrite Ec. cbn.
      split_and!; try done. intros [Hp _]. by rewrite Hp in E1.
  - exists false, []. rewrite app_nil_r. split_and!; try done. rewrite <- Ec. by destruct s.
Qed.

(** A run of calls. *)
Definition log_all (cs : list Call) (s : DContinue) : DContinue :=
  mkDContinue (stateMachine_ s) (eventHandler_ s) (queue_ s) (version_ s) (subServiceType_ s) (continueByType_ s)
    (direction_ s) (continueInfo_ s) (isSourceExit_ s) (softbusSessionId_ s) (callback_ s) (eventData_ s)
    (accountId_ s) (calls_ s ++ cs).

Lemma bind_run {A B} (m : M A) (f : A -> M B) s a s' : m s = (a, s') -> (m ≫= f) s = f a s'.
Proof. intros E. unfold mbind, M_bind. by rewrite E. Qed.

Lemma call_if (b : bool) c s : (if b then call c else mret tt) s = (tt, log_all (if b then [c] else []) s).
Proof. destruct b; [done|]. unfold log_all. rewrite app_nil_r. by destruct s. Qed.

Definition told_calls (told : bool) (result : Z) : list Call :=
  if told then [CCallback (ConvertToDmsSdkErr env result)] else [].

Lemma ExecuteContinueEnd_ended result s :
  fst (ExecuteContinueEnd env result s) = ERR_OK /\ ended result s (snd (ExecuteContinueEnd env result s)).
Proof.
  unfold ExecuteContinueEnd. rewrite (bind_run get _ s s s eq_refl).
  rewrite (bind_run _ _ _ _ _ (call_if (initiator s) _ s)). set (s1 := log_all _ s).
  set (s2 := set_eventData (end_event result s) s1). rewrite (bind_run _ _ s1 tt s2 eq_refl).
  rewrite (bind_run _ _ _ _ _ (call_if _ _ s2)). set (s3 := log_all _ s2).
  rewrite (bind_run _ _ _ _ _ (call_if _ _ s3)). set (s4 := log_all _ s3).
  destruct (NotifyCallback_effect result s4) as (told & cs & E & H1 & H2 & H3).
  rewrite (bind_run _ _ _ _ _ E). clear E. set (s5 := mkDContinue _ _ _ _ _ _ _ _ _ _ _ _ _ _).
  set (ev := CSchedEvent (if result =? ERR_OK then ERR_OK else NOTIFYCOMPLETECONTINUATION_FAILED) (end_event result s)).
  rewrite (bind_run (NotifyDSchedEventResult result) _ s5 tt (log ev s5) eq_refl).
  set (s6 := log ev s5).
  assert (exists b, DurationDumperComplete result s6 = (tt, log_all (if b : bool then [CNote "DurationDumperComplete"] else []) s6))
    as [b Eb].
  { unfold DurationDumperComplete. rewrite (bind_run get _ s6 s6 s6 eq_refl).
    destruct (negb (result =? ERR_OK)); [exists false|exists (initiator s6)]; [exact (call_if false (CNote "DurationDumperComplete") s6)|].
    apply call_if. }
  rewrite (bind_run _ _ _ _ _ Eb). set (s7 := log_all _ s6).
  rewrite (bind_run _ _ s7 tt (log (CNote "PublishContinueEvent") s7) eq_refl). set (s8 := log _ s7).
  rewrite (bind_run _ _ s8 tt (log (COnContinueEnd (continueInfo_ s)) s8) eq_refl). cbn [fst snd mret M_ret].
  change (callback_ s4) with (callback_ s) in *.
  split; [done|]. split; [done|]. exists told. split; [done|]. split; [done|]. split; [done|].
  exists ((if initiator s then [CDisconnectDevice (peerDeviceId s)] else [])
    ++ (if (result =? ERR_OK) && (direction_ s =? CONTINUE_SOURCE) && isSourceExit_ s
        then [CCleanMission (missionId_ (continueInfo_ s))] else [])
    ++ (if direction_ s =? CONTINUE_SINK then [CNote "ClickIconDmsRecvOver"] else []) ++ cs ++ [ev]
    ++ (if b then [CNote "DurationDumperComplete"] else [])
    ++ [CNote "PublishContinueEvent"; COnContinueEnd (continueInfo_ s)]).
  split; [unfold extends, s8, s7, s6, s5, s4, s3, s2, s1; cbn; by rewrite <- !app_assoc|].
  unfold end_calls. rewrite !List.filter_app, H3. f_equal; [by destruct (initiator s)|].
  f_equal; [by destruct (_ && _)|].
  by destruct (direction_ s =? CONTINUE_SINK), told, b.
Qed.

(** ** The abstract transition system *)

Definition is_source (st : StateType) : bool :=
  match st with
  | SOURCE_START_STATE | ABILITY_STATE | SOURCE_WAIT_END_STATE | SOURCE_END_STATE => true
  | _ => false
  end.

Definition is_end (st : StateType) : bool :=
  match st with
  | SOURCE_END_STATE | SINK_END_STATE => true
  | _ => false
  end.

(** The state belongs to the direction of the session. *)
Definition on_side (dir : Z) (st : StateType) : Prop :=
  dir = CONTINUE_SOURCE /\ is_source st = true \/ dir = CONTINUE_SINK /\ is_source st = false.

Definition end_state (dir : Z) : StateType := if dir =? CONTINUE_SOURCE then SOURCE_END_STATE else SINK_END_STATE.

(** The events that carry a continuation forward, and where to. *)
Definition advance (st : StateType) (e : Event) : option StateType :=
  match st, e with
  | SOURCE_START_STATE, EvReqPush _ => Some SOURCE_START_STATE
  | SOURCE_START_STATE, EvAbility _ => Some ABILITY_STATE
  | ABILITY_STATE, EvSendData _ => Some SOURCE_WAIT_END_STATE
  | SOURCE_WAIT_END_STATE, EvComplete _ => Some SOURCE_END_STATE
  | SINK_START_STATE, EvReqPull _ => Some DATA_STATE
  | SINK_START_STATE, EvAbility _ => Some DATA_STATE
  | DATA_STATE, EvData _ => Some SINK_WAIT_END_STATE
  | SINK_WAIT_END_STATE, EvComplete _ => Some SINK_END_STATE
  | _, _ => None
  end.

(** The peer reports the end before this side was waiting for it. *)
Definition ends_early (st : StateType) : bool :=
  match st with
  | SOURCE_START_STATE | ABILITY_STATE | SINK_START_STATE | DATA_STATE => true
  | _ => false
  end.

Definition handled (st : StateType) (e : Event) : bool :=
  match e with
  | EvEnd _ => true
  | EvComplete _ => negb (is_end st)
  | _ => match advance st e with Some _ => true | None => false end
  end.

(** [trans c st e r st' es x]: in state [st] the event [e] has the result [r],
    leads to [st'], posts [es], and ends the continuation if [x] is a result. *)
Inductive trans (c : Core) : StateType -> Event -> Z -> StateType -> list Event -> option Z -> Prop :=
  | T_reject st e : handled st e = false ->
      trans c st e CONTINUE_STATE_MACHINE_INVALID_STATE st [] None
  | T_fail st e st' r : advance st e = Some st' -> r <> ERR_OK -> trans c st e r st [] None
  | T_advance st e st' : advance st e = Some st' -> st <> SOURCE_WAIT_END_STATE -> trans c st e ERR_OK st' [] None
  | T_source_done x es : posted env c (EvEnd x) es ->
      trans c SOURCE_WAIT_END_STATE (EvComplete x) ERR_OK SOURCE_END_STATE es None
  | T_no_window d r es : posted env c (EvEnd DMS_GET_WINDOW_FAILED_FROM_SCB) es ->
      (r = ERR_OK <-> es = [EvEnd DMS_GET_WINDOW_FAILED_FROM_SCB]) ->
      trans c DATA_STATE (EvData d) r DATA_STATE es None
  | T_error st x es : is_end st = false -> posted env c (EvEnd x) es ->
      trans c st (EvEnd x) ERR_OK (end_state (c_dir c)) es None
  | T_early st x : ends_early st = true -> trans c st (EvComplete x) ERR_OK st [] (Some x)
  | T_end st x : is_end st = true -> trans c st (EvEnd x) ERR_OK st [] (Some x).

(** The concrete step of the abstract one. *)
Definition realises (s s' : DContinue) (st' : StateType) (es : list Event) (x : option Z) : Prop :=
  match x with
  | None => effect s s' (Some st') es
  | Some result => es = [] /\ stateMachine_ s = Some st' /\ exists s1, ended result s s1 /\ quiet s1 s'
  end.

Definition refines_trans (s : DContinue) (st : StateType) (e : Event) (m : M Z) : Prop :=
  exists st' es x, trans (core s) st e (fst (m s)) st' es x /\ realises s (snd (m s)) st' es x.

Section Exec.
Variables (s : DContinue) (st : StateType).
Hypothesis Hst : stateMachine_ s = Some st.

Lemma core_state : c_state (core s) = Some st.
Proof. exact Hst. Qed.

Lemma refines_reject e : handled st e = false -> refines_trans s st e (mret CONTINUE_STATE_MACHINE_INVALID_STATE).
Proof.
  intros H. exists st, [], None. split; [by apply T_reject|]. unfold realises. rewrite <- Hst. apply quiet_refl.
Qed.

Lemma refines_advance e st' t m :
  spec m (fails_or_moves t) -> t (core s) = Some st' -> advance st e = Some st' -> st <> SOURCE_WAIT_END_STATE ->
  refines_trans s st e m.
Proof.
  intros Hm Ht Ha Hn. destruct (Hm s) as (st1 & es & He & -> & H). destruct H as [[Hr ->]|[Hr ->]].
  - exists st, [], None. split; [by apply (T_fail _ _ _ st')|]. by rewrite core_state in He.
  - exists st', [], None. rewrite Hr. split; [by apply T_advance|]. by rewrite Ht in He.
Qed.

Lemma refines_error x m : spec m (error_result env x) -> is_end st = false -> refines_trans s st (EvEnd x) m.
Proof.
  intros Hm He. destruct (Hm s) as (st1 & es & Heff & Hr & -> & Hp). rewrite core_state in Heff.
  exists (end_state (c_dir (core s))), es, None. rewrite Hr. split; [by apply T_error|exact Heff].
Qed.

Lemma refines_ended e x :
  (e = EvComplete x /\ ends_early st = true) \/ (e = EvEnd x /\ is_end st = true) ->
  forall A (k : M A), keeps k -> refines_trans s st e (r ← ExecuteContinueEnd env x; _ ← k; mret r).
Proof.
  intros He A k Hk. destruct (ExecuteContinueEnd_ended x s) as [Hr Hend]. unfold refines_trans.
  unfold mbind, M_bind, mret, M_ret. destruct (ExecuteContinueEnd env x s) as [r s1]. cbn in Hr, Hend. subst r.
  pose proof (Hk s1) as Hq. destruct (k s1) as [a s2]. cbn in *. exists st, [], (Some x).
  split; [destruct He as [[-> ?]|[-> ?]]; [by apply T_early|by apply T_end]|].
  split; [done|]. split; [done|]. by exists s1.
Qed.

Lemma refines_end_only e x :
  (e = EvComplete x /\ ends_early st = true) \/ (e = EvEnd x /\ is_end st = true) ->
  refines_trans s st e (ExecuteContinueEnd env x).
Proof.
  intros He. pose proof (refines_ended e x He _ _ (keeps_ret tt)) as H. unfold refines_trans in *.
  unfold mbind, M_bind, mret, M_ret in H. by destruct (ExecuteContinueEnd env x s).
Qed.

Lemma refines_data d m : st = DATA_STATE -> spec m (data_result env) -> refines_trans s st (EvData d) m.
Proof.
  intros Ed Hm. destruct (Hm s) as (st1 & es & He & [[-> H]|(-> & Hp & Hr)]).
  - destruct H as [[Hr ->]|[Hr ->]].
    + exists st, [], None. split; [apply (T_fail _ _ _ SINK_WAIT_END_STATE); [by rewrite Ed|done]|].
      by rewrite core_state in He.
    + exists SINK_WAIT_END_STATE, [], None. rewrite Hr. rewrite core_state in He.
      split; [apply T_advance; by rewrite Ed|exact He].
  - exists st, es, None. rewrite core_state in He. split; [|exact He]. rewrite Ed. by apply T_no_window.
Qed.

Lemma refines_complete_sink x m :
  spec m (complete_result env x) -> direction_ s = CONTINUE_SINK -> st = SINK_WAIT_END_STATE ->
  refines_trans s st (EvComplete x) m.
Proof.
  intros Hm Hd Es. destruct (Hm s) as (st1 & es & He & H). unfold complete_result in H.
  rewrite (Hd : c_dir (core s) = CONTINUE_SINK) in H. destruct H as [-> [[Hr ->]|[Hr ->]]]; rewrite core_state in He.
  - exists st, [], None. split; [|exact He]. apply (T_fail _ _ _ SINK_END_STATE); [by rewrite Es|done].
  - exists SINK_END_STATE, [], None. rewrite Hr. split; [apply T_advance; by rewrite Es|exact He].
Qed.

Lemma refines_complete_source x m :
  spec m (complete_result env x) -> direction_ s = CONTINUE_SOURCE -> st = SOURCE_WAIT_END_STATE ->
  refines_trans s st (EvComplete x) m.
Proof.
  intros Hm Hd Es. destruct (Hm s) as (st1 & es & He & H). unfold complete_result in H.
  rewrite (Hd : c_dir (core s) = CONTINUE_SOURCE) in H.
  destruct H as [(Hr & -> & ->)|(Hr & -> & Hp)]; rewrite core_state in He.
  - exists st, [], None. split; [|exact He]. apply (T_fail _ _ _ SOURCE_END_STATE); [by rewrite Es|done].
  - exists SOURCE_END_STATE, es, None. rewrite Hr. split; [rewrite Es; by apply T_source_done|exact He].
Qed.
End Exec.

Lemma side_source dir st : on_side dir st -> is_source st = true -> dir = CONTINUE_SOURCE.
Proof. by intros [[-> _]|[_ ->]]. Qed.
Lemma side_sink dir st : on_side dir st -> is_source st = false -> dir = CONTINUE_SINK.
Proof. by intros [[_ ->]|[-> _]]. Qed.

Lemma req_target_source s : direction_ s = CONTINUE_SOURCE -> req_target (core s) = stateMachine_ s.
Proof. intros H. unfold req_target. by rewrite (H : c_dir (core s) = CONTINUE_SOURCE). Qed.
Lemma req_target_sink s st :
  direction_ s = CONTINUE_SINK -> stateMachine_ s = Some st -> req_target (core s) = Some DATA_STATE.
Proof.
  intros H Hs. unfold req_target. rewrite (H : c_dir (core s) = CONTINUE_SINK).
  by rewrite (Hs : c_state (core s) = Some st).
Qed.

Lemma moved_Some s st st' : stateMachine_ s = Some st -> moved (c_state (core s)) st' = Some st'.
Proof. intros H. by rewrite (H : c_state (core s) = Some st). Qed.

Create HintDb cont.
Hint Resolve refines_reject refines_error refines_end_only refines_ended refines_data refines_complete_sink
  refines_complete_source ExecuteContinueError_spec ExecuteNotifyComplete_spec ExecuteContinueData_spec
  ExecuteQuickStartFailed_keeps ExecuteQuickStartSuccess_keeps spec_then_keeps moved_Some side_source side_sink : cont.

Lemma source_refines s st e :
  stateMachine_ s = Some st -> on_side (direction_ s) st -> is_source st = true ->
  refines_trans s st e (state_Execute env st e).
Proof.
  intros Hst Hs Hsrc. pose proof (side_source _ _ Hs Hsrc) as Hd.
  destruct st; try done; destruct e; cbn [state_Execute SourceStartState_Execute AbilityState_Execute
    WaitEndState_Execute EndState_Execute]; eauto 6 with cont.
  - eapply refines_advance; [done|apply ExecuteContinueReq_spec|by rewrite req_target_source|done|done].
  - eapply refines_advance; [done|apply ExecuteContinueAbility_spec|by eapply moved_Some|done|done].
  - eapply refines_advance; [done|apply ExecuteContinueSend_spec|by eapply moved_Some|done|done].
Qed.

Lemma sink_refines s st e :
  stateMachine_ s = Some st -> on_side (direction_ s) st -> is_source st = false ->
  refines_trans s st e (state_Execute env st e).
Proof.
  intros Hst Hs Hsrc. pose proof (side_sink _ _ Hs Hsrc) as Hd.
  destruct st; try done; destruct e; cbn [state_Execute SinkStartState_Execute DataState_Execute
    SinkWaitEndState_Execute SinkEndState_Execute]; eauto 8 with cont.
  - eapply refines_advance; [done|apply ExecuteContinueReq_spec|by eapply req_target_sink|done|done].
  - eapply refines_advance; [done|apply ExecuteContinueReply_spec|by eapply moved_Some|done|done].
Qed.

Lemma Execute_refines s st e :
  stateMachine_ s = Some st -> on_side (direction_ s) st -> refines_trans s st e (state_Execute env st e).
Proof. intros Hst Hs. destruct (is_source st) eqn:E; [by apply source_refines|by apply sink_refines]. Qed.
End EndEffect.
