(* ===== verification/ContinueDemo.v ===== *)
(** A concrete ability framework and surroundings: wants are records, every
    question is answered favourably. The hypotheses of the theorems on
    continuations hold here. *)

From S2P Require Import Prelude DataBuffer SchedErrors Json ContinueInfo ContinueSession ContinueOps.
#[local] Open Scope string_scope.
#[local] Open Scope Z_scope.

Record DemoWant := mkDemoWant {
  w_device : string;
  w_bundle : string;
  w_ability : string;
  w_module : string;
  w_flags : Z;
  w_strings : list (string * string);
  w_bools : list (string * bool);
  w_ints : list (string * Z);
}.

Definition assoc {A} (k : string) (l : list (string * A)) (d : A) : A :=
  match List.find (fun p => String.eqb k (fst p)) l with Some p => snd p | None => d end.

#[global] Instance DemoWantApi : WantApi := {
  Want := DemoWant;
  WantParams := unit;
  DistributedWantParams := unit;
  Want_new := mkDemoWant "" "" "" "" 0 [] [] [];
  SetElementName2 w b a := mkDemoWant (w_device w) b a (w_module w) (w_flags w) (w_strings w) (w_bools w) (w_ints w);
  SetElementName3 w d b a := mkDemoWant d b a (w_module w) (w_flags w) (w_strings w) (w_bools w) (w_ints w);
  SetElementName4 w d b a m := mkDemoWant d b a m (w_flags w) (w_strings w) (w_bools w) (w_ints w);
  SetParamString w k v :=
    mkDemoWant (w_device w) (w_bundle w) (w_ability w) (w_module w) (w_flags w) ((k, v) :: w_strings w) (w_bools w) (w_ints w);
  SetParamInt w k v :=
    mkDemoWant (w_device w) (w_bundle w) (w_ability w) (w_module w) (w_flags w) (w_strings w) (w_bools w)
      ((k, v) :: w_ints w);
  SetParamBool w k v :=
    mkDemoWant (w_device w) (w_bundle w) (w_ability w) (w_module w) (w_flags w) (w_strings w) ((k, v) :: w_bools w) (w_ints w);
  RemoveParam w k :=
    mkDemoWant (w_device w) (w_bundle w) (w_ability w) (w_module w) (w_flags w)
      (List.filter (fun p => negb (String.eqb k (fst p))) (w_strings w))
      (List.filter (fun p => negb (String.eqb k (fst p))) (w_bools w))
      (List.filter (fun p => negb (String.eqb k (fst p))) (w_ints w));
  SetFlags w f := mkDemoWant (w_device w) (w_bundle w) (w_ability w) (w_module w) f (w_strings w) (w_bools w) (w_ints w);
  SetBundle w b := mkDemoWant (w_device w) b (w_ability w) (w_module w) (w_flags w) (w_strings w) (w_bools w) (w_ints w);
  GetFlags := w_flags;
  GetBundle := w_bundle;
  GetModuleName := w_module;
  GetElementDeviceID := w_device;
  GetElementBundleName := w_bundle;
  GetElementAbilityName := w_ability;
  GetStringParam w k := assoc k (w_strings w) "";
  GetBoolParam w k d := assoc k (w_bools w) d;
  QueryBoolean w k := assoc k (List.map (fun p => (fst p, Some (snd p))) (w_bools w)) None;
  FLAG_ABILITY_CONTINUATION := 8;
  FLAG_ABILITY_PREPARE_CONTINUATION := 1024;
  PARAM_APP_CLONE_INDEX_KEY := "ohos.extra.param.key.appCloneIndex";
  PARAM_MODULE_NAME := "moduleName";
}.

Definition demo_base : CmdBase := mkCmdBase 1 0 0 0 "A" "app" "B" "app" "type" 1 7 5.
Definition demo_caller : CallerInfo := mkCallerInfo 100 (-1) CALLER_TYPE_NONE "A" (-1) "app" ["app"] (-1) 1 (JObject [num "dmsVersion" 5]).
Definition demo_want : Want := mkDemoWant "B" "app" "Main" "entry" 8 [] [] [].
Definition demo_data : DataCmd := mkDataCmd demo_base "dev" demo_want (-1) demo_caller AccountInfo_default.
Definition demo_reply : ReplyCmd := mkReplyCmd demo_base DSCHED_CONTINUE_CMD_START 1 0 "".
Definition demo_end : EndCmd := mkEndCmd demo_base 0.

(** The device of the session is ["B"], the sink. *)
Definition demo_env : Env := {|
  SUPPORT_DISTRIBUTED_MISSION_MANAGER := true;
  softbus_hotspot_errs := [-1];
  softbus_busy_errs := [-2];
  EventRunner_Create := fun _ => true;
  SendEvent := fun _ _ => true;
  GetSharedWantParams := fun wp => Some wp;
  ConnectDevice := fun _ _ _ => (0, 5);
  SendData := fun _ _ _ => 0;
  Marshal := fun _ => (0, [123; 125]);
  UnmarshalData := fun _ => (0, demo_data);
  UnmarshalReply := fun _ => (0, demo_reply);
  UnmarshalEnd := fun _ => (0, demo_end);
  IsSceneBoardEnabled := fun _ => true;
  GetContinueSessionId := fun _ => "id";
  GetPersistentId := fun _ => (0, 12);
  GetPersistentIdOf := fun _ _ => (0, 12);
  GetAbilityName := fun _ _ _ _ => "Main";
  GetLocalBundleInfo := fun _ _ => (0, 1, ["Main"]);
  GetLocalBundleInfoV9 := fun _ _ => (0, 1);
  GetMissionIdByBundleName := fun _ _ _ _ => (0, 7);
  CheckBundleContinueConfig := fun _ _ => true;
  GetMissionInfo := fun _ _ => (0, ("app", true));
  ContinueAbility := fun _ _ _ _ => 0;
  GetCallerAppIdFromBms := fun _ _ => Some "app";
  GetBundleNameListFromBms := fun _ _ => Some ["app"];
  GetAccountInfo := fun _ _ _ => (0, AccountInfo_default);
  GetAppProvisionInfo4CurrentUser := fun _ _ => "dev";
  GetSaveDataDuration := fun _ => "10";
  GetLocalDeviceId := fun _ => Some "B";
  GetDistributedBundleInfo := fun _ _ _ => Some [mkDmsAbilityInfo "Main" ["type"] "entry" []];
  IsSameDeveloperId := fun _ _ _ => true;
  CheckTargetPermission := fun _ _ => 0;
  CheckTargetPermission4DiffBundle := fun _ _ => 0;
  GetAbilityStateByPersistentId := fun _ _ => (0, true);
  AbilityManagerConnect := fun _ => 0;
  AbilityManagerStartAbility := fun _ _ => 0;
  WriteInterfaceToken := fun _ => true;
  WriteInt32 := fun _ => true;
  NotifyQuickStartState := fun _ _ _ => 0;
  GetContinueEventInfo := fun _ d b t => mkContinueEventInfo d b "entry" "Main" "dev";
|}.

(** A session with the given direction, state and queue. *)
Definition demo_session (direction : Z) (st : StateType) (q : list Event) : DContinue :=
  mkDContinue (Some st) true q 1 CONTINUE_PULL 1 direction
    (mkContinueInfo "A" "app" "B" "app" "type" "Main" 7 "" 0) true 5 true EventNotify_default 100 [].
