(* ===== verification/ContinueCmdProps.v ===== *)
(** What the commands of a continuation keep on the wire: round trips of
    [ContinueCmd]. *)

From S2P Require Import Prelude SchedErrors SchedUtils Json ContinueInfo ContinueSession ContinueCmd ContinueOps ContinueDemo.
#[local] Open Scope string_scope.
#[local] Open Scope list_scope.
#[local] Open Scope Z_scope.

(** ** What a command keeps on the wire *)

Definition i32b (n : Z) : bool := (-2147483648 <=? n) && (n <? 2147483648).

Lemma i32b_spec n : i32b n = true <-> is_i32 n.
Proof. unfold i32b, is_i32. rewrite andb_true_iff, Z.leb_le, Z.ltb_lt. lia. Qed.

(** Numbers are 32-bit integers and texts are C strings. *)
Definition wf_base (b : CmdBase) : bool :=
  forallb i32b [cmd_version b; cmd_serviceType b; cmd_subServiceType b; cmd_command b; cmd_continueByType b;
                cmd_sourceMissionId b; cmd_dmsVersion b]
  && forallb no_nul [cmd_srcDeviceId b; cmd_srcBundleName b; cmd_dstDeviceId b; cmd_dstBundleName b;
                     cmd_continueType b].

Definition wf_caller (c : CallerInfo) : bool :=
  forallb i32b [caller_uid c; caller_pid c; caller_callerType c; caller_duid c]
  && forallb no_nul (caller_sourceDeviceId c :: caller_callerAppId c :: caller_bundleNames c)
  && wf_json (caller_extraInfoJson c).

Definition wf_account (a : AccountInfo) : bool :=
  forallb i32b [account_accountType a; account_userId a]
  && forallb no_nul (account_activeAccountId a :: account_groupIdList a).

(** The base without its command number. *)
Definition wire_base (b : CmdBase) : CmdBase :=
  mkCmdBase (cmd_version b) (cmd_serviceType b) (cmd_subServiceType b) 0 (cmd_srcDeviceId b) (cmd_srcBundleName b)
    (cmd_dstDeviceId b) (cmd_dstBundleName b) (cmd_continueType b) (cmd_continueByType b) (cmd_sourceMissionId b)
    (cmd_dmsVersion b).

(** The caller with the access token of the extra information only, without the
    extra information and without the version. *)
Definition wire_caller (c : CallerInfo) : CallerInfo :=
  mkCallerInfo (caller_uid c) (caller_pid c) (caller_callerType c) (caller_sourceDeviceId c) (caller_duid c)
    (caller_callerAppId c) (caller_bundleNames c) (-1)
    (match get_number (caller_extraInfoJson c) EXTRO_INFO_JSON_KEY_ACCESS_TOKEN with Some n => u32 n | None => 0 end)
    JNull.

(** The account without its groups. *)
Definition wire_account (a : AccountInfo) : AccountInfo :=
  mkAccountInfo (account_accountType a) [] (account_activeAccountId a) (account_userId a).

(** [wf_split] takes apart a well-formedness test. *)
Ltac wf_split H :=
  cbn [forallb] in H; rewrite ?andb_true_iff, ?i32b_spec in H; destruct_and? H.

Section CodecProps.
Context {W : WantApi} {CJ : CJson} {CJL : CJsonLaws} {PA : ParcelApi}
  {PW : Parcelable Want} {PD : Parcelable DistributedWantParams} {AW : AbilityInfoWire}.

(** Printing a well-formed document and reading the text back. *)
Lemma print_wf j : wf_json j = true ->
  exists s, cJSON_Print j = Some s /\ no_nul s = true /\ cJSON_Parse (c_str s) = Some j.
Proof.
  intros H. destruct (print_some j H) as [s Hs]. exists s. split; [done|].
  assert (no_nul s = true) as Hn by (eapply print_no_nul, Hs). split; [done|].
  rewrite c_str_no_nul by done. by apply print_parse.
Qed.

Lemma base_roundtrip dev dev' b : wf_base b = true -> no_nul dev = true -> no_nul dev' = true ->
  exists s, MarshalBase dev dev' b = Some s /\ no_nul s = true /\
    UnmarshalBase s = Some (wire_base b, (dev, dev')).
Proof.
  unfold wf_base. intros H Hd Hd'. wf_split H. unfold MarshalBase.
  edestruct print_wf as (s & -> & Hs & Hp); [|exists s; split; [done|split; [done|]]].
  - json_members.
  - unfold UnmarshalBase. rewrite Hp. cbn [mbind option_bind]. json_read.
    unfold get_string_or_empty. json_read. reflexivity.
Qed.

Lemma caller_roundtrip c : wf_caller c = true ->
  exists s, MarshalCallerInfo c = Some s /\ no_nul s = true /\ UnmarshalCallerInfo s = Some (wire_caller c).
Proof.
  unfold wf_caller. rewrite !andb_true_iff. intros ((Hn & Ht) & He). wf_split Hn. cbn [forallb] in Ht.
  rewrite !andb_true_iff in Ht. destruct Ht as (Ht1 & Ht2 & Ht3). unfold MarshalCallerInfo.
  edestruct print_wf as (s & -> & Hs & Hp); [|exists s; split; [done|split; [done|]]].
  - json_members.
  - unfold UnmarshalCallerInfo. rewrite Hp. cbn [mbind option_bind]. json_read.
    unfold UnmarshalCallerInfoExtra. rewrite Hp. cbn [mbind option_bind]. json_read.
    erewrite get_string_str; [|reflexivity|apply dump_no_nul]. cbn [mbind option_bind].
    rewrite dump_parse by done. cbn [mbind option_bind]. unfold wire_caller. do 2 f_equal; try done.
    destruct (GetObjectItem (caller_extraInfoJson c) DMS_VERSION_ID) as [[]|]; done.
Qed.

Lemma account_roundtrip a : wf_account a = true ->
  exists s, MarshalAccountInfo a = Some s /\ no_nul s = true /\ UnmarshalAccountInfo s = Some (wire_account a).
Proof.
  unfold wf_account. rewrite !andb_true_iff. intros (Hn & Ht). wf_split Hn. cbn [forallb] in Ht.
  rewrite !andb_true_iff in Ht. destruct Ht as (Ht1 & Ht2). unfold MarshalAccountInfo.
  edestruct print_wf as (s & -> & Hs & Hp); [|exists s; split; [done|split; [done|]]].
  - json_members.
  - unfold UnmarshalAccountInfo. rewrite Hp. cbn [mbind option_bind]. json_read. reflexivity.
Qed.

(** A value in a fresh parcel, as Base64 text in a member and back: the class writes bytes
    that the parcel takes, and its own reader takes them. *)
Definition fits {A} `{Parcelable A} (x : A) : bool :=
  match Marshalling x with
  | Some b => forallb (fun x => (0 <=? x) && (x <? 256)) b && parcel_fits Parcel_new (len b) && bool_decide (is_Some (Unmarshalling (A := A) b))
  | None => false
  end.
(** What the reader of the class makes of the bytes that its writer makes. Nothing is
    assumed about it: the classes of wants lose parameters here. *)
Definition reread {A} `{Parcelable A} (x : A) : A := default x (b ← Marshalling x; '(y, _) ← Unmarshalling b; Some y).

Lemma byte_list b : forallb (fun x => (0 <=? x) && (x <? 256)) b = true -> Forall is_u8 b.
Proof.
  intros H. apply List.Forall_forall. rewrite forallb_forall in H. intros x Hx. specialize (H x Hx).
  apply andb_true_iff in H as [? ?]. zb_hyps. unfold is_u8. lia.
Qed.

Lemma parcel_member_roundtrip {A} `{Parcelable A} (x : A) : fits x = true ->
  exists p, parcel_write x Parcel_new = Some p /\ no_nul (ParcelToBase64Str p) = true /\
    (q ← Base64StrToParcel (ParcelToBase64Str p) Parcel_new; '(y, _) ← parcel_read q; Some y) = Some (reread x).
Proof.
  unfold fits, reread. destruct (Marshalling x) as [b|] eqn:Hx; [|done]. rewrite !andb_true_iff, bool_decide_eq_true. intros ((Hb%byte_list & Hf) & [[y n] Hy]).
  exists (mkParcel b 0). unfold parcel_write, ParcelToBase64Str. rewrite Hx. simpl. split_and!; try done.
  - by apply Base64Encode_no_nul.
  - rewrite Base64StrToParcel_roundtrip by done. simpl. unfold parcel_read. simpl. by rewrite drop_0, Hy.
Qed.

(** A command that can be sent. *)
Definition wf_cmd (c : Cmd) : bool :=
  match c with
  | CmdStart c => wf_base (start_base c) && forallb i32b [start_direction c; start_appVersion c]
                  && fits (start_wantParams c)
  | CmdData c => wf_base (data_base c) && no_nul (data_srcDeveloperId c) && i32b (data_requestCode c)
                 && wf_caller (data_callerInfo c) && wf_account (data_accountInfo c) && fits (data_want c)
                 && match abilityInfo_bytes with
                    | Some b => forallb (fun x => (0 <=? x) && (x <? 256)) b && parcel_fits Parcel_new (len b)
                                && abilityInfo_read b
                    | None => false
                    end
  | CmdReply c => wf_base (reply_base c) && forallb i32b [reply_replyCmd c; reply_appVersion c; reply_result c]
                  && no_nul (reply_reason c)
  | CmdEnd c => wf_base (end_base c) && i32b (end_result c)
  end.

(** What the peer gets. *)
Definition wire (c : Cmd) : Cmd :=
  match c with
  | CmdStart c => CmdStart (mkStartCmd (wire_base (start_base c)) (start_direction c) (start_appVersion c)
                              (reread (start_wantParams c)))
  | CmdData c => CmdData (mkDataCmd (wire_base (data_base c)) (data_srcDeveloperId c) (reread (data_want c))
                            (data_requestCode c) (wire_caller (data_callerInfo c)) (wire_account (data_accountInfo c)))
  | CmdReply c => CmdReply (mkReplyCmd (wire_base (reply_base c)) (reply_replyCmd c) (reply_appVersion c)
                              (reply_result c) (reply_reason c))
  | CmdEnd c => CmdEnd (mkEndCmd (wire_base (end_base c)) (end_result c))
  end.


Lemma start_roundtrip c : wf_cmd (CmdStart c) = true -> exists s, MarshalCmd (CmdStart c) = Some s /\
  no_nul s = true /\ UnmarshalLike (CmdStart c) s = Some (wire (CmdStart c)).
Proof.
  cbn [wf_cmd]. rewrite !andb_true_iff. intros ((Hb & Hn) & Hf). wf_split Hn.
  destruct (base_roundtrip "" "" _ Hb) as (sb & Hmb & Hsb & Hub); [done..|].
  destruct (parcel_member_roundtrip _ Hf) as (p & Hw & Hp & Hr).
  cbn [MarshalCmd UnmarshalLike wire]. unfold MarshalStart. rewrite Hmb, Hw. cbn [mbind option_bind].
  edestruct print_wf as (s & -> & Hs & Hps); [|exists s; split; [done|split; [done|]]].
  - json_members.
  - unfold UnmarshalStart. rewrite Hps. cbn [mbind option_bind]. json_read. rewrite Hub. cbn [mbind option_bind].
    json_read. destruct (Base64StrToParcel (ParcelToBase64Str p) Parcel_new) as [q|]; [|done].
    cbn [mbind option_bind] in *. destruct (parcel_read q) as [[y ?]|]; [|done]. cbn [mbind option_bind] in *.
    by injection Hr as ->.
Qed.

Lemma reply_roundtrip c : wf_cmd (CmdReply c) = true -> exists s, MarshalCmd (CmdReply c) = Some s /\
  no_nul s = true /\ UnmarshalLike (CmdReply c) s = Some (wire (CmdReply c)).
Proof.
  cbn [wf_cmd]. rewrite !andb_true_iff. intros ((Hb & Hn) & Hf). wf_split Hn.
  destruct (base_roundtrip "" "" _ Hb) as (sb & Hmb & Hsb & Hub); [done..|].
  cbn [MarshalCmd UnmarshalLike wire]. unfold MarshalReply. rewrite Hmb. cbn [mbind option_bind].
  edestruct print_wf as (s & -> & Hs & Hps); [|exists s; split; [done|split; [done|]]].
  - json_members.
  - unfold UnmarshalReply. rewrite Hps. cbn [mbind option_bind]. json_read. rewrite Hub. cbn [mbind option_bind].
    json_read. reflexivity.
Qed.

Lemma end_roundtrip c : wf_cmd (CmdEnd c) = true -> exists s, MarshalCmd (CmdEnd c) = Some s /\
  no_nul s = true /\ UnmarshalLike (CmdEnd c) s = Some (wire (CmdEnd c)).
Proof.
  cbn [wf_cmd]. rewrite !andb_true_iff, i32b_spec. intros (Hb & Hn).
  destruct (base_roundtrip "" "" _ Hb) as (sb & Hmb & Hsb & Hub); [done..|].
  cbn [MarshalCmd UnmarshalLike wire]. unfold MarshalEnd. rewrite Hmb. cbn [mbind option_bind].
  edestruct print_wf as (s & -> & Hs & Hps); [|exists s; split; [done|split; [done|]]].
  - json_members.
  - unfold UnmarshalEnd. rewrite Hps. cbn [mbind option_bind]. json_read. rewrite Hub. cbn [mbind option_bind].
    json_read. reflexivity.
Qed.

Lemma data_roundtrip c : wf_cmd (CmdData c) = true -> exists s, MarshalCmd (CmdData c) = Some s /\
  no_nul s = true /\ UnmarshalLike (CmdData c) s = Some (wire (CmdData c)).
Proof.
  cbn [wf_cmd]. destruct abilityInfo_bytes as [ab|] eqn:Eab; [|rewrite !andb_false_r; done].
  rewrite !andb_true_iff, i32b_spec. intros ((((((Hb & Hd) & Hn) & Hc) & Ha) & Hf) & (Hab & Hfit) & Hread).
  pose proof (byte_list ab Hab) as Hu.
  destruct (base_roundtrip (data_srcDeveloperId c) "" _ Hb) as (sb & Hmb & Hsb & Hub); [done..|].
  destruct (parcel_member_roundtrip _ Hf) as (p & Hw & Hp & Hr).
  destruct (caller_roundtrip _ Hc) as (sc & Hmc & Hsc & Huc).
  destruct (account_roundtrip _ Ha) as (sa & Hma & Hsa & Hua).
  cbn [MarshalCmd UnmarshalLike wire]. unfold MarshalData, MarshalInner. rewrite Hmb, Hw, Eab, Hmc, Hma.
  cbn [mbind option_bind].
  edestruct print_wf as (s & -> & Hs & Hps); [|exists s; split; [done|split; [done|]]].
  - json_members.
  - assert (no_nul (ParcelToBase64Str (mkParcel ab 0)) = true) as Hna by (by apply Base64Encode_no_nul).
    unfold UnmarshalData, UnmarshalParcel, UnmarshalWantParcel. rewrite Hps. cbn [mbind option_bind].
    json_read. rewrite Hub. cbn [mbind option_bind]. json_read.
    destruct (Base64StrToParcel (ParcelToBase64Str p) Parcel_new) as [q|]; [|done].
    cbn [mbind option_bind] in *. destruct (parcel_read q) as [[y ?]|]; [|done]. cbn [mbind option_bind] in *.
    injection Hr as ->. json_read. unfold ParcelToBase64Str. cbn [parcel_data].
    rewrite Base64StrToParcel_roundtrip by done. cbn [mbind option_bind parcel_data]. rewrite Hread.
    cbn [mbind option_bind]. json_read. rewrite Huc. cbn [mbind option_bind]. json_read. rewrite Hua. reflexivity.
Qed.

(** C22: every command of a continuation that can be sent is marshalled, and the peer that
    unmarshals the text gets the command back with these changes ([wire]): the command number
    of the base is 0; of the extra information of the caller only the access token arrives,
    and not the version; the account arrives without its groups; and the want or the
    parameters are what the reader of their class makes of the bytes of its writer
    ([reread]), whatever that is: the text is transparent for them. *)
Theorem continue_command_roundtrip c : wf_cmd c = true ->
  exists s, MarshalCmd c = Some s /\ no_nul s = true /\ UnmarshalLike c s = Some (wire c).
Proof. destruct c; [apply start_roundtrip | apply data_roundtrip | apply reply_roundtrip | apply end_roundtrip]. Qed.

(** The groups of the account that the source sends never arrive: they
    are written as GroupIdList and looked up as groupIdList, so the sink sees an
    account without groups, whatever the source put in. *)
Theorem account_groups_lost a : wf_account a = true ->
  exists s, MarshalAccountInfo a = Some s /\
    exists a', UnmarshalAccountInfo s = Some a' /\ account_groupIdList a' = [] /\
      account_accountType a' = account_accountType a /\ account_userId a' = account_userId a.
Proof.
  intros H. destruct (account_roundtrip a H) as (s & Hm & _ & Hu). exists s. split; [done|].
  exists (wire_account a). by rewrite Hu.
Qed.
End CodecProps.

(** ** A concrete wire *)

(** A parcel holds at most 200 kilobytes. *)
#[global] Instance DemoParcel : ParcelApi := {
  SetDataCapacity _ n := n <=? 204800;
  GetData_null _ n := n =? 0;
  GetMaxCapacity := 204800;
  SetDataSize _ n := n <=? 204800;
}.

(** A type with one value of interest, written as four bytes. *)
Definition tag : list Z := [1; 2; 3; 4].
Definition one_value {A} `{EqDecision A} (x0 : A) : Parcelable A := {|
  Marshalling x := if decide (x = x0) then Some tag else None;
  Unmarshalling b := if decide (take 4 b = tag) then Some (x0, 4) else None;
|}.

Lemma one_value_laws {A} `{EqDecision A} (x0 : A) : @ParcelableLaws A (one_value x0).
Proof.
  split; simpl; intros x b; [|intros rest]; case_decide as E; try done; intros [= <-].
  - repeat constructor; unfold is_u8; lia.
  - by rewrite E.
Qed.

#[local] Instance DemoWant_eq_dec : EqDecision DemoWant.
Proof. solve_decision. Defined.
#[local] Instance Want_eq_dec : EqDecision Want := DemoWant_eq_dec.
#[local] Instance DWP_eq_dec : EqDecision DistributedWantParams := unit_eq_dec.
#[local] Instance DemoWantWire : Parcelable Want := one_value (demo_want : Want).
#[local] Instance DemoParamsWire : Parcelable DistributedWantParams := one_value (tt : DistributedWantParams).
#[local] Instance DemoAbilityWire : AbilityInfoWire := {
  abilityInfo_bytes := Some tag;
  abilityInfo_read b := bool_decide (b = tag);
}.
#[local] Existing Instances BinaryJson BinaryJsonLaws.

Lemma continue_command_roundtrip_witness :
  exists s, MarshalCmd (CmdData demo_data) = Some s /\ no_nul s = true /\
    UnmarshalLike (CmdData demo_data) s = Some (wire (CmdData demo_data)).
Proof. apply (continue_command_roundtrip (CmdData demo_data)). vm_compute. reflexivity. Defined.

Definition demo_account : AccountInfo := mkAccountInfo SAME_ACCOUNT_TYPE ["group"] "id" 100.

Lemma account_groups_lost_witness :
  exists s, MarshalAccountInfo demo_account = Some s /\
    exists a', UnmarshalAccountInfo s = Some a' /\ account_groupIdList a' = [] /\
      account_accountType a' = account_accountType demo_account /\ account_userId a' = account_userId demo_account.
Proof. apply (account_groups_lost demo_account). vm_compute. reflexivity. Defined.

