(* ===== verification/ContinueProps.v ===== *)
(** Properties of a continuation: refinement of the transition system, order of
    its states, termination of the event processing, reports of its end. *)

From S2P Require Import Prelude DataBuffer SchedErrors ContinueInfo ContinueSession ContinueOps ContinueSpec ContinueRefine ContinueDemo.
From stdpp Require Import relations.
#[local] Open Scope Z_scope.

Section Props.
Context {W : WantApi}.
Variable env : Env.

(** ** One event *)

(** The abstract step of an event with the event that reports its failure. *)
Definition pstep (c : Core) (st : StateType) (e : Event) (st' : StateType) (es : list Event) (x : option Z) : Prop :=
  exists r es1 es2, trans env c st e r st' es1 x /\ es = es1 ++ es2 /\
    (r = ERR_OK /\ es2 = [] \/ r <> ERR_OK /\ posted env c (EvEnd r) es2).

Lemma realises_state s s' st' es x : realises env s s' st' es x -> stateMachine_ s' = Some st'.
Proof.
  destruct x as [x|]; cbn.
  - intros (_ & Hs & s1 & (_ & told & C & _) & Hq). rewrite (quiet_state _ _ Hq).
    by rewrite (f_equal c_state C : stateMachine_ s1 = stateMachine_ s).
  - intros (C & _). exact (f_equal c_state C).
Qed.

Lemma realises_post s s1 s2 st' es1 es2 x :
  realises env s s1 st' es1 x -> effect s1 s2 (stateMachine_ s1) es2 -> (x = None \/ es2 = []) ->
  realises env s s2 st' (es1 ++ es2) x.
Proof.
  intros H1 H2 Hx. pose proof (realises_state _ _ _ _ _ H1) as Hst. destruct x as [x|]; cbn in *.
  - destruct Hx as [Hx| ->]; [done|]. destruct H1 as (-> & Hs & s0 & He & Hq). split; [done|]. split; [done|].
    exists s0. split; [done|]. exact (quiet_trans _ _ _ Hq H2).
  - rewrite Hst in H2. by apply (effect_trans _ s1 _ (Some st')).
Qed.

Lemma realises_core s s' st' es x :
  realises env s s' st' es x ->
  eventHandler_ s' = eventHandler_ s /\ direction_ s' = direction_ s /\ queue_ s' = queue_ s ++ es /\
  subServiceType_ s' = subServiceType_ s.
Proof.
  destruct x as [x|]; cbn.
  - intros (-> & Hs & s1 & (Q & told & C & _) & (C' & Q' & _)). rewrite app_nil_r in *.
    pose proof (f_equal c_handler C). pose proof (f_equal c_dir C). pose proof (f_equal c_sub C).
    pose proof (f_equal c_handler C'). pose proof (f_equal c_dir C'). pose proof (f_equal c_sub C').
    cbn in *. split_and!; congruence.
  - intros (C & Q & _). pose proof (f_equal c_handler C). pose proof (f_equal c_dir C). pose proof (f_equal c_sub C).
    by split_and!.
Qed.

(** A failed event does not end the continuation itself. *)
Lemma failed_not_ended c st e r st' es x : trans env c st e r st' es x -> r <> ERR_OK -> x = None /\ st' = st.
Proof. destruct 1; intros; done. Qed.

Lemma ProcessEvent_refines s st e :
  stateMachine_ s = Some st -> on_side (direction_ s) st ->
  exists st' es x, pstep (core s) st e st' es x /\ realises env s (snd (ProcessEvent env e s)) st' es x.
Proof.
  intros Hst Hs. destruct (Execute_refines env s st e Hst Hs) as (st' & es1 & x & Ht & Hr).
  unfold ProcessEvent. rewrite (bind_run get _ s s s eq_refl), Hst. unfold mbind, M_bind.
  destruct (state_Execute env st e s) as [r s1]. cbn [fst snd] in Ht, Hr.
  destruct (Z.eqb_spec r ERR_OK) as [->|Hne]; cbn [negb].
  - exists st', (es1 ++ []), x. split; [by exists ERR_OK, es1, []; auto|]. by rewrite app_nil_r.
  - destruct (post_spec env (EvEnd r) s1) as (st2 & es2 & He & -> & Hp & _).
    unfold OnContinueEnd, PostContinueEndTask. destruct (post env (EvEnd r) s1) as [r2 s2]. cbn [snd fst] in He.
    pose proof (realises_core _ _ _ _ _ Hr) as (Hh & _). destruct (failed_not_ended _ _ _ _ _ _ _ Ht Hne) as [-> ->].
    exists st, (es1 ++ es2), None. split.
    + exists r, es1, es2. split; [done|]. split; [done|]. right. split; [done|].
      unfold posted in *. by rewrite (Hh : c_handler (core s1) = c_handler (core s)) in Hp.
    + apply (realises_post s s1 s2); [done| |by left]. exact He.
Qed.

(** C2: the event processing of a continuation refines the abstract
    transition system: whatever the surroundings answer, an event in a state of
    the session's own side has one of the results, next states and posted events
    that the transition system names; it ends the continuation exactly when the
    transition system does, and a failed event is followed by an end event with
    the result of the failure. *)
Theorem continuation_refines s st e :
  stateMachine_ s = Some st -> on_side (direction_ s) st ->
  exists st' es x, pstep (core s) st e st' es x /\ realises env s (snd (ProcessEvent env e s)) st' es x.
Proof. apply ProcessEvent_refines. Qed.

(** ** Order of the states *)

Definition rank (st : StateType) : Z :=
  match st with
  | SOURCE_START_STATE | SINK_START_STATE => 0
  | ABILITY_STATE | DATA_STATE => 1
  | SOURCE_WAIT_END_STATE | SINK_WAIT_END_STATE => 2
  | SOURCE_END_STATE | SINK_END_STATE => 3
  end.

Lemma advance_order st e st' : advance st e = Some st' ->
  rank st <= rank st' /\ is_source st' = is_source st /\ is_end st = false.
Proof. destruct st, e; cbn; intros; simplify_eq; cbn; split_and!; lia || done. Qed.

Lemma trans_order c st e r st' es x :
  trans env c st e r st' es x -> on_side (c_dir c) st ->
  on_side (c_dir c) st' /\ rank st <= rank st' /\ (is_end st = true -> st' = st).
Proof.
  destruct 1 as [? ? ?|? ? ? ? Ha ?|? ? ? Ha ?|? ? ?|? ? ? ? ?|st x es He ?|? ? ?|? ? ?]; intros Hs;
    try (split; [done|]; split; [lia|done]).
  - destruct (advance_order _ _ _ Ha) as (? & E & ?). unfold on_side in *. rewrite E.
    split; [done|]. split; [done|]. congruence.
  - split; [by destruct Hs as [[? _]|[_ ?]]; [left|]|]. split; [cbn; lia|done].
  - split; [|split; [|congruence]].
    + unfold end_state. destruct Hs as [[-> _]|[-> _]]; [by left|by right].
    + destruct (end_state _) eqn:E; destruct st; cbn; try lia; unfold end_state in E; by case_match.
Qed.

Definition live (s : DContinue) : Prop := exists st, stateMachine_ s = Some st /\ on_side (direction_ s) st.

(** A continuation never leaves its side (source or sink), never goes
    back to an earlier phase (start, ability or data, waiting for the end, ended),
    and once it has ended it stays ended, whatever events arrive and whatever the
    surroundings answer. *)
Theorem continuation_order s st e :
  stateMachine_ s = Some st -> on_side (direction_ s) st ->
  exists st', stateMachine_ (snd (ProcessEvent env e s)) = Some st' /\
    on_side (direction_ (snd (ProcessEvent env e s))) st' /\ rank st <= rank st' /\
    (is_end st = true -> st' = st).
Proof.
  intros Hst Hs. destruct (ProcessEvent_refines s st e Hst Hs) as (st' & es & x & (r & es1 & es2 & Ht & _) & Hr).
  exists st'. split; [by eapply realises_state|]. apply realises_core in Hr as (_ & -> & _).
  by apply trans_order in Ht.
Qed.

(** ** Termination *)

Definition weight (e : Event) : nat := match e with EvEnd _ => 1 | _ => 2 end.
Definition weights (es : list Event) : nat := sum_list_with weight es.
Definition pending (st : StateType) : nat := if is_end st then 0 else 1.
Definition measure (s : DContinue) : nat :=
  weights (queue_ s) + match stateMachine_ s with Some st => pending st | None => 0 end.

Lemma posted_weight c x es : posted env c (EvEnd x) es -> (weights es <= 1)%nat.
Proof. intros [-> |[-> _]]; cbn; lia. Qed.

Lemma pending_le st : (pending st <= 1)%nat.
Proof. unfold pending. destruct (is_end st); lia. Qed.

Lemma advance_weight st e st' : advance st e = Some st' -> weight e = 2%nat /\ pending st = 1%nat.
Proof. destruct st, e; cbn; intros; by simplify_eq. Qed.

Lemma pstep_weight c st e st' es x :
  pstep c st e st' es x -> (weights es + pending st' < weight e + pending st)%nat.
Proof.
  intros (r & es1 & es2 & Ht & -> & H2).
  assert (weights es2 <= 1 /\ (r = ERR_OK -> es2 = []))%nat as [Hw He2].
  { destruct H2 as [[_ ->]|[Hr Hp]]; [cbn; split; [lia|done]|]. split; [by eapply posted_weight|done]. }
  unfold weights. rewrite sum_list_with_app. fold (weights es1) (weights es2). pose proof (pending_le st').
  destruct Ht as [st e Hh|st e st' r Ha ?|st e st' Ha ?|? ? Hp|d r es Hp Hr|st y es ? Hp|st y ?|st y ?]; cbn [weights sum_list_with].
  - assert (weight e = 2%nat) by (destruct e; done). lia.
  - destruct (advance_weight _ _ _ Ha). lia.
  - destruct (advance_weight _ _ _ Ha). rewrite He2 by done. cbn. lia.
  - apply posted_weight in Hp. rewrite He2 by done. cbn in *. lia.
  - assert (weights es + weights es2 <= 1)%nat.
    { destruct (decide (r = ERR_OK)) as [E|E].
      - rewrite (He2 E). apply posted_weight in Hp. cbn. lia.
      - assert (es = []) as -> by (destruct Hp as [Hp|[Hp _]]; [by apply Hr in Hp|done]). cbn. lia. }
    cbn in *. lia.
  - apply posted_weight in Hp. rewrite He2 by done. unfold pending at 2. rewrite H0.
    unfold end_state. case_match; cbn in *; lia.
  - rewrite He2 by done. cbn. lia.
  - rewrite He2 by done. unfold pending. rewrite H0. cbn. lia.
Qed.

Lemma ProcessEvent_measure s st e :
  stateMachine_ s = Some st -> on_side (direction_ s) st ->
  let s' := snd (ProcessEvent env e s) in live s' /\ (measure s' < weight e + measure s)%nat.
Proof.
  intros Hst Hs s'. destruct (ProcessEvent_refines s st e Hst Hs) as (st' & es & x & Hp & Hr). fold s' in Hr.
  pose proof (realises_state _ _ _ _ _ Hr) as Hst'. pose proof (realises_core _ _ _ _ _ Hr) as (_ & Hd & Hq & _).
  pose proof (pstep_weight _ _ _ _ _ _ Hp) as Hw. destruct Hp as (r & es1 & es2 & Ht & _).
  destruct (trans_order _ _ _ _ _ _ _ Ht Hs) as (Hs' & _). split.
  - exists st'. split; [done|]. by rewrite Hd.
  - unfold measure, weights in *. rewrite Hst', Hst, Hq, sum_list_with_app. lia.
Qed.

Lemma handle_next_run s e q :
  queue_ s = e :: q -> snd (handle_next env s) = snd (ProcessEvent env e (set_queue q s)).
Proof.
  intros Hq. unfold handle_next. rewrite (bind_run get _ s s s eq_refl), Hq.
  rewrite (bind_run (modify (set_queue q)) _ s tt (set_queue q s) eq_refl).
  unfold mbind, M_bind. by destruct (ProcessEvent env e (set_queue q s)) as [[] s'].
Qed.

Lemma handle_next_measure s e q :
  live s -> queue_ s = e :: q -> live (snd (handle_next env s)) /\ (measure (snd (handle_next env s)) < measure s)%nat.
Proof.
  intros (st & Hst & Hs) Hq. rewrite (handle_next_run s e q Hq).
  destruct (ProcessEvent_measure (set_queue q s) st e Hst Hs) as [H1 H2]. split; [done|].
  unfold measure in H2 at 2. unfold measure at 2. rewrite Hq, Hst. cbn in H2. rewrite Hst in H2.
  unfold weights in *. cbn. lia.
Qed.

(** Every run of the handler from a live session ends with an empty queue. *)
Lemma drain_total fuel s :
  live s -> (measure s <= fuel)%nat -> exists s', drain env fuel s = Some s' /\ queue_ s' = [] /\ live s'.
Proof.
  revert s. induction fuel as [|fuel IH]; intros s Hl Hm; cbn [drain]; destruct (queue_ s) as [|e q] eqn:Hq; eauto.
  - unfold measure in Hm. rewrite Hq in Hm. cbn in Hm. destruct e; cbn in Hm; lia.
  - destruct (handle_next_measure s e q Hl Hq). apply IH; [done|lia].
Qed.

(** C17: the event handler empties its queue in at most [measure s]
    steps, twice the number of waiting events plus one, although the processing
    of an event may post further events: failures and ends cannot chase each
    other for ever, whatever the surroundings answer. *)
Theorem handler_terminates s :
  live s ->
  (measure s <= 2 * length (queue_ s) + 1)%nat /\
  exists s', drain env (measure s) s = Some s' /\ queue_ s' = [] /\ live s'.
Proof.
  intros Hl. split; [|by apply drain_total]. unfold measure, weights.
  assert (forall q, sum_list_with weight q <= 2 * length q)%nat as H
    by (induction q as [|[] q IH]; cbn in *; lia).
  specialize (H (queue_ s)). destruct (stateMachine_ s) as [st|]; [pose proof (pending_le st)|]; lia.
Qed.
End Props.

(** ** Witnesses *)

Lemma continuation_refines_witness :
  exists st' es x,
    pstep demo_env (core (demo_session CONTINUE_SINK DATA_STATE [])) DATA_STATE (EvData (Some demo_data)) st' es x /\
    realises demo_env (demo_session CONTINUE_SINK DATA_STATE [])
      (snd (ProcessEvent demo_env (EvData (Some demo_data)) (demo_session CONTINUE_SINK DATA_STATE []))) st' es x.
Proof. apply (continuation_refines demo_env _ DATA_STATE); [reflexivity|by right]. Defined.

Lemma continuation_order_witness :
  exists st', stateMachine_ (snd (ProcessEvent demo_env (EvAbility 1) (demo_session CONTINUE_SOURCE SOURCE_START_STATE [])))
      = Some st' /\
    on_side (direction_ (snd (ProcessEvent demo_env (EvAbility 1) (demo_session CONTINUE_SOURCE SOURCE_START_STATE [])))) st' /\
    rank SOURCE_START_STATE <= rank st' /\ (is_end SOURCE_START_STATE = true -> st' = SOURCE_START_STATE).
Proof. apply (continuation_order demo_env _ SOURCE_START_STATE); [reflexivity|by left]. Defined.

Lemma handler_terminates_witness :
  (measure (demo_session CONTINUE_SINK SINK_START_STATE [EvReqPull tt; EvData (Some demo_data); EvComplete 0]) <= 7)%nat /\
  exists s', drain demo_env
      (measure (demo_session CONTINUE_SINK SINK_START_STATE [EvReqPull tt; EvData (Some demo_data); EvComplete 0]))
      (demo_session CONTINUE_SINK SINK_START_STATE [EvReqPull tt; EvData (Some demo_data); EvComplete 0]) = Some s' /\
    queue_ s' = [] /\ live s'.
Proof. apply (handler_terminates demo_env). exists SINK_START_STATE. split; [reflexivity|by right]. Defined.
