(* ===== verification/ContinueLife.v ===== *)
(** The life of a continuation: everything its owner, its peer and its event
    handler can do to it, and what it reports about its end. *)

From S2P Require Import Prelude DataBuffer SchedErrors ContinueInfo ContinueSession ContinueOps ContinueSpec ContinueRefine ContinueDemo ContinueProps.
From stdpp Require Import relations.
#[local] Open Scope Z_scope.

Section Life.
Context {W : WantApi}.
Variable env : Env.

(** ** Reports of the end *)

(** In the calls [cs] the continuation is reported to its manager. *)
Definition reported (cs : list Call) : Prop := exists i, In (COnContinueEnd i) cs.
(** In the calls [cs] the callback is reached. *)
Definition called_back (cs : list Call) : Prop := exists code, In (CCallback code) cs.

Lemma ended_reports result s s' :
  ended env result s s' ->
  exists cs, extends s s' cs /\ reported cs /\ (parcels_written env -> callback_ s = true -> called_back cs).
Proof.
  intros (_ & told & _ & _ & Hp & cs & Hc & Hf). exists cs. split; [done|]. split.
  - exists (continueInfo_ s). apply (proj1 (filter_In final_call _ cs)). rewrite Hf. unfold end_calls.
    rewrite !in_app_iff. do 3 right. right. by left.
  - intros Hw Hcb. exists (ConvertToDmsSdkErr env result). apply (proj1 (filter_In final_call _ cs)). rewrite Hf.
    unfold end_calls. rewrite !in_app_iff, (Hp Hw Hcb). right. right. left. by left.
Qed.

Lemma effect_extends s s' st es : effect s s' st es -> exists cs, extends s s' cs.
Proof. intros (_ & _ & cs & H & _). by exists cs. Qed.

Lemma realises_extends s s' st' es x : realises env s s' st' es x -> exists cs, extends s s' cs.
Proof.
  destruct x as [x|]; cbn; [|apply effect_extends].
  intros (_ & _ & s1 & (_ & told & _ & _ & _ & cs & Hc & _) & Hq). apply effect_extends in Hq as [cs' Hc'].
  exists (cs ++ cs'). unfold extends in *. by rewrite Hc', Hc, app_assoc.
Qed.

Lemma handle_next_extends s e q :
  live s -> queue_ s = e :: q -> exists cs, extends s (snd (handle_next env s)) cs.
Proof.
  intros (st & Hst & Hs) Hq. rewrite (handle_next_run env s e q Hq).
  destruct (ProcessEvent_refines env (set_queue q s) st e Hst Hs) as (st' & es & x & _ & Hr).
  by apply realises_extends in Hr.
Qed.

Lemma drain_extends fuel s s' : live s -> drain env fuel s = Some s' -> exists cs, extends s s' cs.
Proof.
  revert s. induction fuel as [|fuel IH]; intros s Hl H; cbn [drain] in H; destruct (queue_ s) as [|e q] eqn:Hq; simplify_eq.
  - exists []. symmetry; apply app_nil_r.
  - exists []. symmetry; apply app_nil_r.
  - destruct (handle_next_measure env s e q Hl Hq) as [Hl' _].
    destruct (handle_next_extends s e q Hl Hq) as [cs1 H1]. destruct (IH _ Hl' H) as [cs2 H2].
    exists (cs1 ++ cs2). unfold extends in *. by rewrite H2, H1, app_assoc.
Qed.

(** The reports of an end in [cs], for a session that had the callback [cb]. *)
Definition end_reports (cb : bool) (cs : list Call) : Prop :=
  reported cs /\ (parcels_written env -> cb = true -> called_back cs).

Lemma reports_app_l cb cs cs' : end_reports cb cs -> end_reports cb (cs ++ cs').
Proof.
  intros [[i Hi] Hc]. split; [exists i; apply in_or_app; by left|].
  intros Hw Hcb. destruct (Hc Hw Hcb) as [c ?]. exists c. apply in_or_app. by left.
Qed.
Lemma reports_app_r cb cs cs' : end_reports cb cs' -> end_reports cb (cs ++ cs').
Proof.
  intros [[i Hi] Hc]. split; [exists i; apply in_or_app; by right|].
  intros Hw Hcb. destruct (Hc Hw Hcb) as [c ?]. exists c. apply in_or_app. by right.
Qed.

Lemma posted_accepted c e es : c_handler c = true -> accepts env -> posted env c e es -> es = [e].
Proof. intros Hh Ha [H|[_ H]]; [done|by destruct H]. Qed.

(** One step either reports the end or leaves the callback alone and keeps or
    makes an end event. *)
Lemma step_towards_end s e q r :
  live s -> eventHandler_ s = true -> accepts env -> queue_ s = e :: q -> In (EvEnd r) (e :: q) ->
  let s' := snd (handle_next env s) in
  eventHandler_ s' = true /\
  ((exists cs, extends s s' cs /\ end_reports (callback_ s) cs) \/
   (callback_ s' = callback_ s /\ exists r', In (EvEnd r') (queue_ s'))).
Proof.
  intros (st & Hst & Hs) Hh Ha Hq Hin. rewrite (handle_next_run env s e q Hq). set (s0 := set_queue q s).
  destruct (ProcessEvent_refines env s0 st e Hst Hs) as (st' & es & x & Hp & Hr).
  set (s' := snd (ProcessEvent env e s0)) in *. cbv zeta.
  pose proof (realises_core env _ _ _ _ _ Hr) as (Hh' & _ & Hq' & _). split; [by rewrite Hh'|].
  destruct x as [x|].
  - left. destruct Hr as (_ & _ & s1 & He & Hqt). destruct (ended_reports _ _ _ He) as (cs & Hc & H1 & H2).
    destruct (effect_extends _ _ _ _ Hqt) as [cs' Hc']. exists (cs ++ cs').
    split; [unfold extends in *; by rewrite Hc', Hc, app_assoc|]. apply reports_app_l. by split.
  - right. split; [destruct Hr as (C & _); exact (f_equal c_callback C)|]. rewrite Hq'.
    destruct Hin as [->|Hin]; [|exists r; apply in_or_app; by left].
    destruct Hp as (r1 & es1 & es2 & Ht & -> & _). inversion Ht; subst.
    + done.
    + match goal with H : advance ?a _ = _ |- _ => by destruct a end.
    + match goal with H : advance ?a _ = _ |- _ => by destruct a end.
    + exists r. rewrite (posted_accepted (core s0) (EvEnd r) es1 Hh Ha ltac:(assumption)).
      rewrite !in_app_iff. right. left. by left.
Qed.

Lemma end_event_reported fuel s r :
  live s -> eventHandler_ s = true -> accepts env -> In (EvEnd r) (queue_ s) -> (measure s <= fuel)%nat ->
  exists s' cs, drain env fuel s = Some s' /\ extends s s' cs /\ end_reports (callback_ s) cs.
Proof.
  revert s r. induction fuel as [|fuel IH]; intros s r Hl Hh Ha Hin Hm; destruct (queue_ s) as [|e q] eqn:Hq; try done.
  - unfold measure in Hm. rewrite Hq in Hm. destruct e; cbn in Hm; lia.
  - destruct (handle_next_measure env s e q Hl Hq) as [Hl' Hm'].
    destruct (step_towards_end s e q r Hl Hh Ha Hq Hin) as [Hh' H]. cbn [drain]. rewrite Hq.
    set (s1 := snd (handle_next env s)) in *. destruct H as [(cs & Hc & Hrep)|(Hcb & r' & Hin')].
    + destruct (drain_total env fuel s1 Hl' ltac:(lia)) as (s' & Hd & _).
      destruct (drain_extends _ _ _ Hl' Hd) as [cs' Hc']. exists s', (cs ++ cs'). split; [done|].
      split; [unfold extends in *; by rewrite Hc', Hc, app_assoc|]. by apply reports_app_l.
    + destruct (IH s1 r' Hl' Hh' Ha Hin' ltac:(lia)) as (s' & cs' & Hd & Hc' & Hrep).
      destruct (handle_next_extends s e q Hl Hq) as [cs Hc]. fold s1 in Hc. exists s', (cs ++ cs'). split; [done|].
      split; [unfold extends in *; by rewrite Hc', Hc, app_assoc|]. apply reports_app_r. by rewrite <- Hcb.
Qed.

(** C13: once an end event waits in the queue of a live continuation, the
    handler reaches the end: it reports the continuation to its manager
    ([OnContinueEnd], which releases it), and the callback, if there is one, is
    called, provided that the event handler takes events and the parcel of the
    callback can be written. *)
Theorem end_is_reported s r :
  live s -> eventHandler_ s = true -> accepts env -> In (EvEnd r) (queue_ s) ->
  exists s' cs, drain env (measure s) s = Some s' /\ extends s s' cs /\ reported cs /\
    (parcels_written env -> callback_ s = true -> called_back cs).
Proof. intros Hl Hh Ha Hin. exact (end_event_reported _ s r Hl Hh Ha Hin (le_n _)). Qed.

(** C14: no failure is lost: if the handler of the next event fails, in
    whatever state, with whatever error, the end of the continuation is reported
    before the handler rests. *)
Theorem failure_is_reported s st e q :
  stateMachine_ s = Some st -> on_side (direction_ s) st -> eventHandler_ s = true -> accepts env ->
  queue_ s = e :: q -> fst (state_Execute env st e (set_queue q s)) <> ERR_OK ->
  exists s' cs, drain env (measure s) s = Some s' /\ extends s s' cs /\ reported cs /\
    (parcels_written env -> callback_ s = true -> called_back cs).
Proof.
  intros Hst Hs Hh Ha Hq Hfail. assert (live s) as Hl by (by exists st).
  destruct (handle_next_measure env s e q Hl Hq) as [Hl' Hm]. pose proof (handle_next_run env s e q Hq) as Hrun.
  set (s0 := set_queue q s) in *. destruct (Execute_refines env s0 st e Hst Hs) as (st' & es1 & x & Ht & Hr).
  unfold ProcessEvent in Hrun. rewrite (bind_run get _ s0 s0 s0 eq_refl), (Hst : stateMachine_ s0 = Some st) in Hrun.
  unfold mbind, M_bind in Hrun. destruct (state_Execute env st e s0) as [r s1]. cbn [fst snd] in *.
  rewrite (proj2 (Z.eqb_neq r ERR_OK) Hfail) in Hrun. cbn [negb] in Hrun.
  destruct (failed_not_ended env _ _ _ _ _ _ _ Ht Hfail) as [-> ->].
  destruct (post_spec env (EvEnd r) s1) as (st2 & es2 & He & -> & Hp & _).
  unfold OnContinueEnd, PostContinueEndTask in Hrun. destruct (post env (EvEnd r) s1) as [r2 s2]. cbn [snd fst mret M_ret] in *.
  pose proof (realises_core env _ _ _ _ _ Hr) as (Hh1 & _ & _). pose proof Hr as (C1 & _). pose proof He as (C2 & Q2 & _).
  rewrite (posted_accepted (core s1) _ _ (eq_trans Hh1 Hh) Ha Hp) in Q2.
  destruct (measure s) as [|n] eqn:En; [lia|]. cbn [drain]. rewrite Hq. rewrite Hrun in *.
  assert (callback_ s2 = callback_ s) as Hcb.
  { transitivity (callback_ s1); [exact (f_equal c_callback C2)|exact (f_equal c_callback C1)]. }
  destruct (end_event_reported n s2 r) as (s' & cs' & Hd & Hc' & Hrep); [done| |done| |lia|].
  - transitivity (eventHandler_ s1); [exact (f_equal c_handler C2)|exact (eq_trans Hh1 Hh)].
  - rewrite Q2. apply in_or_app. right. by left.
  - destruct (handle_next_extends s e q Hl Hq) as [cs Hc]. rewrite Hrun in Hc. exists s', (cs ++ cs'). split; [done|].
    split; [unfold extends in *; by rewrite Hc', Hc, app_assoc|]. apply reports_app_r. by rewrite <- Hcb.
Qed.

(** ** What can happen to a continuation *)

(** The calls of the manager, of the ability framework, of the peer's data and of
    the event handler. *)
Inductive life_step (s : DContinue) : DContinue -> Prop :=
  | L_Init : life_step s (snd (Init env s))
  | L_OnContinueMission wp : life_step s (snd (OnContinueMission env wp s))
  | L_OnStartCmd v : life_step s (snd (OnStartCmd env v s))
  | L_OnStartContinuation w uid status token : life_step s (snd (OnStartContinuation env w uid status token s))
  | L_OnNotifyComplete mission ok : life_step s (snd (OnNotifyComplete env mission ok s))
  | L_OnContinueEnd r : life_step s (snd (OnContinueEnd env r s))
  | L_OnDataRecv cmd b : life_step s (snd (OnDataRecv env cmd b s))
  | L_handle : life_step s (snd (handle_next env s)).

(** An operation that posts events and does nothing else. *)
Definition posts {A} (m : M A) : Prop := spec m (fun c _ st _ => st = c_state c).

Lemma posts_post e : posts (post env e).
Proof. apply (spec_weaken _ _ _ (post_spec env e)). by intros c r st es [-> _]. Qed.
Lemma posts_ret {A} (a : A) : posts (mret a).
Proof. by apply spec_ret. Qed.
Lemma posts_then {A B} (m : M A) (b : B) : posts m -> posts (_ ← m; mret b).
Proof.
  intros Hm. apply (spec_seq _ _ _ (fun _ c _ st _ => st = c_state c) _ Hm); [intros; apply posts_ret|].
  by intros c a st1 es1 r st2 es2 -> ->.
Qed.
Lemma posts_get {B} (f : DContinue -> M B) : (forall s, posts (f s)) -> posts (get ≫= f).
Proof. intros H s. apply (H s s). Qed.

Ltac posts :=
  repeat lazymatch goal with
    | |- posts (post _ _) => apply posts_post
    | |- posts (mret _) => apply posts_ret
    | |- posts (mbind _ get) => apply posts_get; intros ?
    | |- posts (mbind _ _) => apply posts_then
    | |- posts (match ?x with _ => _ end) => destruct x
    end.

Lemma OnDataRecv_posts cmd b : posts (OnDataRecv env cmd b).
Proof.
  unfold OnDataRecv, OnContinueDataCmd, PostContinueDataTask, OnReplyCmd, PostReplyTask, OnContinueEndCmd,
    PostNotifyCompleteTask. posts.
Qed.

Lemma life_step_cases s s' :
  life_step s s' -> (exists es, effect s s' (stateMachine_ s) es) \/ s' = snd (Init env s) \/ s' = snd (handle_next env s).
Proof.
  assert (forall A (m : M A), posts m -> exists es, effect s (snd (m s)) (stateMachine_ s) es) as H.
  { intros A m Hm. destruct (Hm s) as (st & es & He & ->). by exists es. }
  intros []; [by right; left|left; apply H..|by right; right].
  - unfold OnContinueMission, PostStartTask. posts.
  - unfold OnStartCmd, PostCotinueAbilityTask. posts.
  - unfold OnStartContinuation, PostContinueSendTask. posts.
  - unfold OnNotifyComplete, PostNotifyCompleteTask. posts.
  - unfold OnContinueEnd, PostContinueEndTask. posts.
  - apply OnDataRecv_posts.
Qed.

(** ** The callback *)

Definition is_callback (c : Call) : bool := match c with CCallback _ => true | _ => false end.
Definition callbacks (cs : list Call) : nat := length (List.filter is_callback cs).
(** The callbacks made and the one that can still be made. *)
Definition budget (s : DContinue) : nat := callbacks (calls_ s) + Nat.b2n (callback_ s).

Lemma callbacks_app cs cs' : callbacks (cs ++ cs') = (callbacks cs + callbacks cs')%nat.
Proof. unfold callbacks. by rewrite List.filter_app, length_app. Qed.

Lemma callbacks_final cs : callbacks (List.filter final_call cs) = callbacks cs.
Proof. unfold callbacks. induction cs as [|[] cs IH]; cbn; congruence. Qed.

Lemma effect_budget s s' st es : effect s s' st es -> budget s' = budget s.
Proof.
  intros (C & _ & cs & Hc & Hf). unfold budget. rewrite (f_equal c_callback C : callback_ s' = callback_ s).
  rewrite Hc, callbacks_app. assert (callbacks cs = 0%nat) as ->; [|lia].
  clear Hc. induction cs as [|[] cs IH]; cbn in *; auto; done.
Qed.

Lemma ended_budget result s s' : ended env result s s' -> budget s' = budget s.
Proof.
  intros (_ & told & C & Ht & _ & cs & Hc & Hf). unfold budget.
  rewrite (f_equal c_callback C : callback_ s' = callback_ s && negb told), Hc, callbacks_app.
  rewrite <- (callbacks_final cs), Hf. unfold end_calls. rewrite !callbacks_app.
  assert (callbacks (if initiator s then [CDisconnectDevice (peerDeviceId s)] else []) = 0%nat) as -> by by case_match.
  assert (callbacks (if (result =? ERR_OK) && (direction_ s =? CONTINUE_SOURCE) && isSourceExit_ s
    then [CCleanMission (missionId_ (continueInfo_ s))] else []) = 0%nat) as -> by by case_match.
  destruct told; [rewrite Ht by done|]; destruct (callback_ s); cbn; lia.
Qed.

Lemma realises_budget s s' st' es x : realises env s s' st' es x -> budget s' = budget s.
Proof.
  destruct x; cbn; [|apply effect_budget]. intros (_ & _ & s1 & He & Hq).
  rewrite (effect_budget _ _ _ _ Hq). by apply ended_budget in He.
Qed.

(** The sessions whose direction is one of the two and whose state, if any, is on
    that side. *)
Definition sided (s : DContinue) : Prop :=
  (direction_ s = CONTINUE_SOURCE \/ direction_ s = CONTINUE_SINK) /\
  forall st, stateMachine_ s = Some st -> on_side (direction_ s) st.

Lemma Init_sided s : sided s -> sided (snd (Init env s)) /\ budget (snd (Init env s)) = budget s.
Proof.
  intros [Hd Hs]. unfold Init. rewrite (bind_run get _ s s s eq_refl). destruct (eventHandler_ s); [done|].
  unfold mbind, M_bind, modify, ask, mret, M_ret. cbn [fst snd].
  destruct (EventRunner_Create _ _); cbn -[callbacks budget]; (split; [split; [done|]|unfold budget; cbn -[callbacks]; rewrite callbacks_app; cbn; lia]);
    intros st [= <-]; unfold on_side; cbn; by destruct Hd as [-> | ->]; [left|right].
Qed.

Lemma handle_sided s : sided s -> sided (snd (handle_next env s)) /\ budget (snd (handle_next env s)) = budget s.
Proof.
  intros [Hd Hs]. destruct (queue_ s) as [|e q] eqn:Hq.
  - unfold handle_next. by rewrite (bind_run get _ s s s eq_refl), Hq.
  - rewrite (handle_next_run env s e q Hq). set (s0 := set_queue q s).
    destruct (stateMachine_ s) as [st|] eqn:Hst.
    + destruct (ProcessEvent_refines env s0 st e Hst (Hs st eq_refl)) as (st' & es & x & (r & es1 & es2 & Ht & _) & Hr).
      split; [|exact (realises_budget _ _ _ _ _ Hr)]. pose proof (realises_state env _ _ _ _ _ Hr) as Hst'.
      apply realises_core in Hr as (_ & Hd' & _). unfold sided. rewrite Hd', Hst'. split; [done|].
      intros ? [= <-]. by apply (trans_order env) in Ht as [? _]; [|exact (Hs st eq_refl)].
    + unfold ProcessEvent. rewrite (bind_run get _ s0 s0 s0 eq_refl), (Hst : stateMachine_ s0 = None). split; [|done].
      split; [done|]. intros st Hst'. cbn in Hst'. congruence.
Qed.

Lemma life_step_sided s s' : life_step s s' -> sided s -> sided s' /\ budget s' = budget s.
Proof.
  intros H Hs. destruct (life_step_cases s s' H) as [[es He]|[-> | ->]]; [|by apply Init_sided|by apply handle_sided].
  split; [|by apply effect_budget in He]. destruct He as (C & _), Hs as [Hd Hs]. unfold sided.
  rewrite (f_equal c_dir C : direction_ s' = direction_ s), (f_equal c_state C : stateMachine_ s' = stateMachine_ s). done.
Qed.

Lemma life_sided s s' : rtc life_step s s' -> sided s -> sided s' /\ budget s' = budget s.
Proof.
  induction 1 as [s|s s1 s' H _ IH]; [done|]. intros Hs. destruct (life_step_sided _ _ H Hs) as [Hs1 Hb].
  destruct (IH Hs1) as [? Hb']. by rewrite Hb', Hb.
Qed.

(** C16: over the whole life of a continuation that was created with a
    callback the callback is called at most once, and it is forgotten exactly
    when it has been called; without a callback nothing is called. *)
Theorem callback_at_most_once sub dir cb info accountId s :
  dir = CONTINUE_SOURCE \/ dir = CONTINUE_SINK ->
  rtc life_step (DSchedContinue_new env sub dir cb info accountId) s ->
  (callbacks (calls_ s) + Nat.b2n (callback_ s) = Nat.b2n cb)%nat.
Proof.
  intros Hd Hl. destruct (life_sided _ _ Hl) as [_ Hb]; [by split|]. exact Hb.
Qed.

(** ** The mission of the source *)

(** In the calls [cs] the mission [m] is cleaned up. *)
Definition cleans (m : Z) (cs : list Call) : Prop := In (CCleanMission m) cs.

Lemma quiet_no_clean s s' st es cs m : effect s s' st es -> extends s s' cs -> ~ In (CCleanMission m) cs.
Proof.
  intros (_ & _ & cs' & Hc & Hf) Hc' Hin. unfold extends in *. rewrite Hc in Hc'. apply app_inv_head in Hc' as ->.
  rewrite List.forallb_forall in Hf. by apply Hf in Hin.
Qed.

(** The mission of the source application is cleaned up only when the
    continuation ends successfully on the source device, the application has not
    asked to stay ([isSourceExit_]), and it is the mission being continued. *)
Theorem mission_cleaned_only_on_success s st e cs m :
  stateMachine_ s = Some st -> on_side (direction_ s) st ->
  extends s (snd (ProcessEvent env e s)) cs -> cleans m cs ->
  (e = EvEnd ERR_OK \/ e = EvComplete ERR_OK) /\ direction_ s = CONTINUE_SOURCE /\ isSourceExit_ s = true /\
  m = missionId_ (continueInfo_ s).
Proof.
  unfold cleans. intros Hst Hs Hc Hin.
  destruct (ProcessEvent_refines env s st e Hst Hs) as (st' & es & x & Hp & Hr).
  destruct x as [x|]; [|by destruct (quiet_no_clean _ _ _ _ _ m Hr Hc)].
  destruct Hr as (_ & _ & s1 & (_ & told & _ & _ & _ & cs1 & Hc1 & Hf) & Hq). destruct (effect_extends _ _ _ _ Hq) as [cs2 Hc2].
  assert (cs = cs1 ++ cs2) as ->.
  { unfold extends in *. rewrite Hc2, Hc1, <- app_assoc in Hc. by apply app_inv_head in Hc. }
  apply in_app_or in Hin as [Hin|Hin]; [|by destruct (quiet_no_clean _ _ _ _ _ m Hq Hc2)].
  assert (In (CCleanMission m) (end_calls env x told s)) as Hi by (rewrite <- Hf; by apply filter_In).
  unfold end_calls in Hi. rewrite !in_app_iff in Hi.
  destruct Hi as [Hi|[Hi|[Hi|Hi]]]; [by destruct (initiator s), Hi| |by destruct told, Hi|by destruct Hi as [?|[?|?]]].
  destruct (_ && _) eqn:E in Hi; [|done]. destruct Hi as [[= <-]|[]]. zb_hyps. subst x. split_and!; try done.
  destruct Hp as (r & es1 & es2 & Ht & _). inversion Ht; subst; auto.
Qed.
End Life.

(** ** Witnesses *)

Definition life_demo : DContinue := demo_session CONTINUE_SOURCE SOURCE_WAIT_END_STATE [EvComplete 0; EvEnd 5].

Lemma end_is_reported_witness :
  exists s' cs, drain demo_env (measure life_demo) life_demo = Some s' /\ extends life_demo s' cs /\ reported cs /\
    (parcels_written demo_env -> callback_ life_demo = true -> called_back cs).
Proof.
  apply (end_is_reported demo_env life_demo 5).
  - exists SOURCE_WAIT_END_STATE. split; [reflexivity|by left].
  - reflexivity.
  - intros h e. reflexivity.
  - right. by left.
Defined.

Definition fail_demo : DContinue := demo_session CONTINUE_SINK DATA_STATE [EvData None].

Lemma failure_is_reported_witness :
  exists s' cs, drain demo_env (measure fail_demo) fail_demo = Some s' /\ extends fail_demo s' cs /\ reported cs /\
    (parcels_written demo_env -> callback_ fail_demo = true -> called_back cs).
Proof.
  apply (failure_is_reported demo_env fail_demo DATA_STATE (EvData None) []); try reflexivity.
  - by right.
  - intros h e. reflexivity.
  - vm_compute. discriminate.
Defined.

Definition new_demo : DContinue :=
  DSchedContinue_new demo_env CONTINUE_PUSH CONTINUE_SOURCE true
    (mkContinueInfo "A" "app" "B" "app" "type" "" 7 "" 0) 100.

Lemma callback_at_most_once_witness :
  let s := snd (handle_next demo_env (snd (OnContinueMission demo_env tt (snd (Init demo_env new_demo))))) in
  (callbacks (calls_ s) + Nat.b2n (callback_ s) = 1)%nat.
Proof.
  cbv zeta. apply (callback_at_most_once demo_env CONTINUE_PUSH CONTINUE_SOURCE true
    (mkContinueInfo "A" "app" "B" "app" "type" "" 7 "" 0) 100); [by left|].
  eapply rtc_l; [apply L_Init|]. eapply rtc_l; [apply (L_OnContinueMission demo_env _ tt)|].
  eapply rtc_l; [apply L_handle|]. apply rtc_refl.
Defined.

Lemma mission_cleaned_only_on_success_witness :
  (@EvEnd DemoWantApi 0 = EvEnd ERR_OK \/ @EvEnd DemoWantApi 0 = EvComplete ERR_OK) /\ CONTINUE_SOURCE = CONTINUE_SOURCE /\
  true = true /\ 7 = 7.
Proof.
  apply (mission_cleaned_only_on_success demo_env (demo_session CONTINUE_SOURCE SOURCE_END_STATE []) SOURCE_END_STATE
    (EvEnd 0) (calls_ (snd (ProcessEvent demo_env (EvEnd 0) (demo_session CONTINUE_SOURCE SOURCE_END_STATE [])))) 7).
  - reflexivity.
  - by left.
  - reflexivity.
  - vm_compute. tauto.
Defined.

(** * The check before an ability is started on the sink device: what has been
    verified whenever the data of a continuation starts an ability. *)

#[local] Open Scope Z_scope.

Section Start.
Context {W : WantApi}.
Variable env : Env.

Definition is_start (c : Call) : bool := match c with CStartAbility _ _ _ => true | _ => false end.
(** The number of abilities the session has asked to start. *)
Definition starts (s : DContinue) : nat := length (List.filter is_start (calls_ s)).

(** Programs that start no ability. *)
Definition idle {A} (m : M A) : Prop := forall s, starts (snd (m s)) = starts s.

Lemma starts_log c s : is_start c = false -> starts (log c s) = starts s.
Proof. intros H. unfold starts, log. cbn. rewrite List.filter_app, length_app. cbn. rewrite H. cbn. lia. Qed.

Lemma idle_ret {A} (a : A) : idle (mret a).
Proof. by intros s. Qed.
Lemma idle_get : idle get.
Proof. by intros s. Qed.
Lemma idle_bind {A B} (m : M A) (f : A -> M B) : idle m -> (forall a, idle (f a)) -> idle (m ≫= f).
Proof.
  intros Hm Hf s. unfold mbind, M_bind. pose proof (Hm s) as H. destruct (m s) as [a s1]. cbn in H.
  by rewrite Hf.
Qed.
Lemma idle_call c : is_start c = false -> idle (call c).
Proof. intros H s. by apply starts_log. Qed.
Lemma idle_ask {A} c (f : list Call -> A) : is_start c = false -> idle (ask c f).
Proof. intros H s. by apply starts_log. Qed.
Lemma idle_modify f : (forall s, calls_ (f s) = calls_ s) -> idle (modify f).
Proof. intros H s. unfold starts, modify. cbn. by rewrite H. Qed.

Ltac idle :=
  repeat first
    [ apply idle_bind; [|intros ?]
    | apply idle_ret
    | apply idle_get
    | apply idle_call; reflexivity
    | apply idle_ask; reflexivity
    | apply idle_modify; intros ?; reflexivity
    | match goal with |- idle (match ?x with _ => _ end) => destruct x end
    | solve [eauto with idle] ].

Create HintDb idle.
Lemma UpdateElementInfo_idle c : idle (UpdateElementInfo env c).
Proof. unfold UpdateElementInfo. idle. Qed.
Lemma CheckStartPermission_idle c : idle (CheckStartPermission env c).
Proof. unfold CheckStartPermission. idle. Qed.

(** ** What the checks establish *)

Definition same_request (cmd cmd' : DataCmd) : Prop :=
  data_base cmd' = data_base cmd /\ data_callerInfo cmd' = data_callerInfo cmd /\
  data_srcDeveloperId cmd' = data_srcDeveloperId cmd.

Lemma UpdateElementInfo_request cmd s : same_request cmd (snd (fst (UpdateElementInfo env cmd s))).
Proof.
  unfold UpdateElementInfo, mbind, M_bind, mret, M_ret, ask. cbn [fst snd].
  destruct (GetLocalDeviceId env _); [|done]. destruct (GetDistributedBundleInfo env _ _ _); [|done].
  by destruct (FindSinkContinueAbilityInfo _ _ _ _).
Qed.

(** The permission check, with the calls [h] made before it. *)
Definition permitted (h : list Call) (cmd : DataCmd) : Prop :=
  if String.eqb (cmd_srcBundleName (data_base cmd)) (cmd_dstBundleName (data_base cmd))
  then CheckTargetPermission env h cmd = ERR_OK
  else IsSameDeveloperId env h (cmd_dstBundleName (data_base cmd)) (data_srcDeveloperId cmd) = true /\
       CheckTargetPermission4DiffBundle env (h ++ [CQuery "IsSameDeveloperId"]) cmd = ERR_OK.

Lemma CheckStartPermission_permitted cmd s :
  fst (CheckStartPermission env cmd s) = ERR_OK -> permitted (calls_ s) cmd.
Proof.
  unfold CheckStartPermission, permitted, mbind, M_bind, mret, M_ret, ask.
  destruct (String.eqb _ _); [done|]. destruct (IsSameDeveloperId env _ _ _); cbn; [done|].
  intros H. discriminate.
Qed.

Lemma CheckDeviceIdFromRemote_sound s l d src :
  CheckDeviceIdFromRemote s l d src = true ->
  l <> ""%string /\ d = l /\ src = sourceDeviceId_ (continueInfo_ s) /\ src <> l.
Proof.
  unfold CheckDeviceIdFromRemote. destruct (String.eqb_spec l ""); [done|].
  destruct (String.eqb_spec d ""), (String.eqb_spec src ""), (String.eqb_spec l d); try done. subst d.
  destruct (String.eqb_spec src l); [done|]. by destruct (String.eqb_spec src (sourceDeviceId_ (continueInfo_ s))).
Qed.

Definition later (h h' : list Call) : Prop := exists cs, h' = h ++ cs.

Lemma quiet_later s s' : quiet s s' -> later (calls_ s) (calls_ s').
Proof. intros (_ & _ & cs & H & _). by exists cs. Qed.

Lemma quiet_source s s' : quiet s s' -> sourceDeviceId_ (continueInfo_ s') = sourceDeviceId_ (continueInfo_ s).
Proof. intros H%quiet_core. exact (f_equal c_source H). Qed.

(** C8: the data of a continuation starts an ability on this device only
    after every check: the local device is known, the want is addressed to it, the
    caller's device is the source of this continuation and not the local device,
    and the permission check for the requested bundle (with the developer check
    first, when the bundles differ) has succeeded. *)
Theorem ability_started_only_if_checked s cmd :
  (starts s < starts (snd (ExecuteContinueData env (Some cmd) s)))%nat ->
  exists h1 h2 cmd' l,
    later (calls_ s) h1 /\ later h1 h2 /\ same_request cmd cmd' /\
    GetLocalDeviceId env h1 = Some l /\ l <> ""%string /\
    GetElementDeviceID (data_want cmd') = l /\
    caller_sourceDeviceId (data_callerInfo cmd) = sourceDeviceId_ (continueInfo_ s) /\
    caller_sourceDeviceId (data_callerInfo cmd) <> l /\
    permitted h2 cmd'.
Proof.
  unfold ExecuteContinueData. pose proof (UpdateElementInfo_idle cmd s) as I1.
  pose proof (UpdateElementInfo_keeps env cmd s) as K1. pose proof (UpdateElementInfo_request cmd s) as R1.
  destruct (UpdateElementInfo env cmd s) as [[r0 cmd'] s1] eqn:E1. cbn [fst snd] in I1, K1, R1.
  rewrite (bind_run _ _ _ _ _ E1). unfold DurationDumperBeforeStartAbility.
  set (s2 := log (CNote "DurationDumperBeforeStartAbility") s1). rewrite (bind_run (call _) _ s1 tt s2 eq_refl).
  set (s3 := log (CQuery "GetLocalDeviceId") s2).
  rewrite (bind_run (ask _ _) _ s2 (GetLocalDeviceId env (calls_ s2)) s3 eq_refl), (bind_run get _ s3 s3 s3 eq_refl).
  assert (starts s3 = starts s) as I3 by (unfold s3, s2; by rewrite !starts_log, I1).
  assert (quiet s s2) as K2 by (apply (quiet_trans _ _ _ K1); by apply keeps_log).
  destruct (GetLocalDeviceId env (calls_ s2)) as [l|] eqn:El; [|rewrite idle_ret; lia].
  destruct (CheckDeviceIdFromRemote _ _ _ _) eqn:Ed; cbn [negb]; [|rewrite idle_ret; lia].
  apply CheckDeviceIdFromRemote_sound in Ed as (Hl & Hd & Hsrc & Hne).
  pose proof (CheckStartPermission_permitted cmd' s3) as HP. pose proof (CheckStartPermission_idle cmd' s3) as I4.
  destruct (CheckStartPermission env cmd' s3) as [ret s4] eqn:E4. cbn [fst snd] in HP, I4.
  rewrite (bind_run _ _ _ _ _ E4). destruct (Z.eqb_spec ret ERR_OK) as [->|]; cbn [negb]; [|rewrite idle_ret; lia].
  intros _. destruct R1 as (Hb & Hc & Hv). rewrite Hc in Hsrc, Hne.
  exists (calls_ s2), (calls_ s3), cmd', l. split; [exact (quiet_later _ _ K2)|].
  split; [by exists [CQuery "GetLocalDeviceId"]|]. split; [done|]. split; [done|]. split; [done|]. split; [done|].
  split; [|split; [done|exact (HP eq_refl)]]. rewrite Hsrc. exact (quiet_source _ _ K2).
Qed.
End Start.

Lemma ability_started_only_if_checked_witness :
  exists h1 h2 cmd' l,
    later [] h1 /\ later h1 h2 /\ same_request demo_data cmd' /\
    GetLocalDeviceId demo_env h1 = Some l /\ l <> ""%string /\
    GetElementDeviceID (data_want cmd') = l /\ "A"%string = "A"%string /\ "A"%string <> l /\ permitted demo_env h2 cmd'.
Proof.
  apply (ability_started_only_if_checked demo_env (demo_session CONTINUE_SINK DATA_STATE []) demo_data).
  vm_compute. lia.
Defined.
