(* ===== verification/ContinueManager.v ===== *)
(** The manager of continuations:
    services/dtbschedmgr/src/continue/dsched_continue_manager.cpp.

    The manager keeps a table of continuations, posts the requests it gets as
    tasks of its own event handler, limits the number of concurrent
    continuations, ends those that take too long and keeps the callbacks for the
    state of a quick start. One step takes one [MEnv], the answers of the other
    services during that step; the continuations themselves run in [Env].
    [None] as a result means that the event thread waits for ever, which it does
    when the event runner of a new continuation cannot be created. *)

From S2P Require Import Prelude StdMap DataBuffer SchedErrors ContinueInfo ContinueSession ContinueOps.
From stdpp Require Import pretty.
#[local] Open Scope string_scope.
#[local] Open Scope Z_scope.

(** ** Keys of the tables *)

#[global] Instance ContinueInfo_key : MapKey ContinueInfo := ContinueInfo_ltb.
#[global] Instance StateCallbackInfo_key : MapKey StateCallbackInfo := StateCallbackInfo_ltb.

(** ** Constants *)

Definition MAX_CONCURRENT_SINK : Z := 1.
Definition MAX_CONCURRENT_SOURCE : Z := 1.
Definition CONTINUE_TIMEOUT : Z := 10000.
Definition INT32_MIN_ID_LEN : nat := 6.
Definition INT32_SHORT_ID_LEN : nat := 20.
Definition INT32_PLAINTEXT_LEN : nat := 4.

(** [GetAnonymStr]: the ends of an identifier. *)
Definition GetAnonymStr (value : string) : string :=
  let strLen := String.length value in
  if (strLen <? INT32_MIN_ID_LEN)%nat then "******"
  else if (strLen <=? INT32_SHORT_ID_LEN)%nat then
    String.substring 0 1 value +:+ "******" +:+ String.substring (strLen - 1) 1 value
  else
    String.substring 0 INT32_PLAINTEXT_LEN value +:+ "******"
    +:+ String.substring (strLen - INT32_PLAINTEXT_LEN) INT32_PLAINTEXT_LEN value.

(** [ToStringIgnoreMissionId]: the name of the timeout task. *)
Definition ToStringIgnoreMissionId (i : ContinueInfo) : string :=
  "SrcDevId: " +:+ GetAnonymStr (sourceDeviceId_ i) +:+ " " +:+ "SrcBundle: " +:+ sourceBundleName_ i +:+ " "
  +:+ "DstDevId: " +:+ GetAnonymStr (sinkDeviceId_ i) +:+ " " +:+ "DstBundle: " +:+ sinkBundleName_ i +:+ " "
  +:+ "ContiType: " +:+ continueType_ i.

(** [StateCallbackData]; remote objects are numbers, [None] is the null object. *)
Record StateCallbackData := mkStateCallbackData {
  cb_remoteObject : option Z;
  cb_diedListener : bool;
  cb_state : Z;
  cb_message : string;
}.

(** [MissionStatus], the fields that are read. *)
Record MissionStatus := mkMissionStatus {
  status_bundleName : string;
  status_abilityName : string;
  status_launchFlag : Z;
}.

Section Manager.
Context {W : WantApi}.

(** The tasks of the event handler. A callback is a boolean: is it there? *)
Inductive Task :=
  | TContinueMission (srcDeviceId dstDeviceId : string) (missionId : Z) (callback : bool) (wantParams : WantParams)
  | TContinueInfo (info : ContinueInfo) (callback : bool) (wantParams : WantParams)
  | TStartContinuation (want : Want) (missionId callerUid status accessToken : Z)
  | TNotifyComplete (deviceId : string) (missionId : Z) (isSuccess : bool) (callerBundleName : string)
  | TContinueEnd (info : ContinueInfo)
  | TDataRecv (sessionId : Z) (buffer : option DataBuffer)
  | TShutdown (sessionId : Z)
  | TTimeout (info : ContinueInfo).

(** What the manager does to its surroundings. *)
Inductive ManagerCall :=
  | MInitChannel
  | MRegisterListener
  | MUnregisterListener
  | MAddDeathRecipient (callback : Z)
  | MStateCallback (callback : Z) (state : Z) (message : string)
  | MClearContinueSessionId
  | MSaveDataDmsRemoteWant.

(** The answers during one step. *)
Record MEnv := mkMEnv {
  DMSFWK_ALL_CONNECT_MGR : bool;
  HAS_MISSION_MANAGER : bool;
  m_GetLocalDeviceId : option string;
  m_GetDeviceInfoById : string -> bool;
  m_GetForegroundUser : Z;
  m_GetMissionIdByBundleName : Z -> string -> Z;
  (** The bundle of a mission. *)
  m_GetMissionInfo : Z -> option string;
  m_GetMissionStatus : Z -> Z -> option MissionStatus;
  (** The abilities of a bundle on a device. *)
  m_GetDistributedBundleInfo : string -> string -> option (list DmsAbilityInfo);
  (** The decision that arrives from the all-connect manager while it is awaited. *)
  m_decision : option bool;
  (** The entry Command of the entry BaseCmd of a JSON text. *)
  m_ParseCommand : list Z -> option Z;
  m_UnmarshalStart : list Z -> Z * StartCmd;
  m_WriteInterfaceToken : bool;
  m_WriteInt32 : bool;
  m_WriteString : bool;
}.

(** [ERR_FLATTEN_OBJECT] is a constant of the utilities library. *)
Variable ERR_FLATTEN_OBJECT : Z.

Record Manager := mkManager {
  hasInit_ : bool;
  handler_ : bool;
  tasks_ : list Task;
  timers_ : list (string * ContinueInfo);
  continues_ : list (ContinueInfo * DContinue);
  cntSink_ : Z;
  cntSource_ : Z;
  stateCallbackCache_ : list (StateCallbackInfo * StateCallbackData);
  peerConnectDecision_ : list (string * bool);
  mcalls_ : list ManagerCall;
}.

Definition Manager_new : Manager := mkManager false false [] [] [] 0 0 [] [] [].

Definition set_tasks (ts : list Task) (m : Manager) : Manager :=
  mkManager (hasInit_ m) (handler_ m) ts (timers_ m) (continues_ m) (cntSink_ m) (cntSource_ m)
    (stateCallbackCache_ m) (peerConnectDecision_ m) (mcalls_ m).
Definition set_timers (ts : list (string * ContinueInfo)) (m : Manager) : Manager :=
  mkManager (hasInit_ m) (handler_ m) (tasks_ m) ts (continues_ m) (cntSink_ m) (cntSource_ m)
    (stateCallbackCache_ m) (peerConnectDecision_ m) (mcalls_ m).
Definition set_continues (cs : list (ContinueInfo * DContinue)) (m : Manager) : Manager :=
  mkManager (hasInit_ m) (handler_ m) (tasks_ m) (timers_ m) cs (cntSink_ m) (cntSource_ m)
    (stateCallbackCache_ m) (peerConnectDecision_ m) (mcalls_ m).
Definition set_counts (sink source : Z) (m : Manager) : Manager :=
  mkManager (hasInit_ m) (handler_ m) (tasks_ m) (timers_ m) (continues_ m) sink source
    (stateCallbackCache_ m) (peerConnectDecision_ m) (mcalls_ m).
Definition set_cache (c : list (StateCallbackInfo * StateCallbackData)) (m : Manager) : Manager :=
  mkManager (hasInit_ m) (handler_ m) (tasks_ m) (timers_ m) (continues_ m) (cntSink_ m) (cntSource_ m)
    c (peerConnectDecision_ m) (mcalls_ m).
Definition set_decisions (d : list (string * bool)) (m : Manager) : Manager :=
  mkManager (hasInit_ m) (handler_ m) (tasks_ m) (timers_ m) (continues_ m) (cntSink_ m) (cntSource_ m)
    (stateCallbackCache_ m) d (mcalls_ m).
Definition mcall (c : ManagerCall) (m : Manager) : Manager :=
  mkManager (hasInit_ m) (handler_ m) (tasks_ m) (timers_ m) (continues_ m) (cntSink_ m) (cntSource_ m)
    (stateCallbackCache_ m) (peerConnectDecision_ m) (mcalls_ m ++ [c]).

(** ** Start and end of the manager *)

Definition Manager_Init (m : Manager) : Manager :=
  if hasInit_ m then m
  else if handler_ m then
    mkManager true true (tasks_ m) (timers_ m) (continues_ m) (cntSink_ m) (cntSource_ m)
      (stateCallbackCache_ m) (peerConnectDecision_ m) (mcalls_ m)
  else
    mkManager true true [] [] (continues_ m) (cntSink_ m) (cntSource_ m)
      (stateCallbackCache_ m) (peerConnectDecision_ m) (mcalls_ m ++ [MInitChannel; MRegisterListener]).

Definition Manager_UnInit (m : Manager) : Manager :=
  if negb (hasInit_ m) then m
  else mkManager false false [] [] [] 0 0 (stateCallbackCache_ m) (peerConnectDecision_ m)
         (mcalls_ m ++ [MUnregisterListener]).

Definition post_task (t : Task) (m : Manager) : Manager := set_tasks (tasks_ m ++ [t]) m.

(** The result of the methods that post a task. *)
Definition try_post (t : Task) (m : Manager) : Z * Manager :=
  if negb (handler_ m) then (INVALID_PARAMETERS_ERR, m) else (ERR_OK, post_task t m).

Definition NotifyAllConnectDecision (env : MEnv) (peerDeviceId : string) (isSupport : bool) (m : Manager) : Manager :=
  if DMSFWK_ALL_CONNECT_MGR env
  then set_decisions (mupdate peerDeviceId (fun _ => isSupport) (minsert peerDeviceId isSupport (peerConnectDecision_ m))) m
  else m.

(** ** Requests *)

(** The checks both [ContinueMission] begin with. *)
Definition check_devices (env : MEnv) (srcDeviceId dstDeviceId : string) (callback : bool) : Z :=
  if String.eqb srcDeviceId "" || String.eqb dstDeviceId "" || negb callback then INVALID_PARAMETERS_ERR
  else match m_GetLocalDeviceId env with
       | None => INVALID_PARAMETERS_ERR
       | Some l =>
           if negb (String.eqb l srcDeviceId) && negb (String.eqb l dstDeviceId)
           then OPERATION_DEVICE_NOT_INITIATOR_OR_TARGET
           else if negb (m_GetDeviceInfoById env (if String.eqb l srcDeviceId then dstDeviceId else srcDeviceId))
           then INVALID_REMOTE_PARAMETERS_ERR
           else ERR_OK
       end.

Definition ContinueMission (env : MEnv) (srcDeviceId dstDeviceId : string) (missionId : Z) (callback : bool)
    (wantParams : WantParams) (m : Manager) : Z * Manager :=
  let ret := check_devices env srcDeviceId dstDeviceId callback in
  if negb (ret =? ERR_OK) then (ret, m)
  else try_post (TContinueMission srcDeviceId dstDeviceId missionId callback wantParams) m.

Definition ContinueMission_info (env : MEnv) (info : ContinueInfo) (callback : bool) (wantParams : WantParams)
    (m : Manager) : Z * Manager :=
  let ret := check_devices env (sourceDeviceId_ info) (sinkDeviceId_ info) callback in
  if negb (ret =? ERR_OK) then (ret, m)
  else if HAS_MISSION_MANAGER env
          && match m_GetLocalDeviceId env with
             | Some l => String.eqb l (sourceDeviceId_ info)
             | None => false
             end
          && negb (m_GetMissionIdByBundleName env (m_GetForegroundUser env) (sinkBundleName_ info) =? ERR_OK)
  then (INVALID_PARAMETERS_ERR, m)
  else try_post (TContinueInfo info callback wantParams) m.

Definition CheckContinuationLimit (env : MEnv) (m : Manager) (srcDeviceId dstDeviceId : string) : Z * Z :=
  match m_GetLocalDeviceId env with
  | None => (GET_LOCAL_DEVICE_ERR, CONTINUE_SINK)
  | Some l =>
      if String.eqb dstDeviceId l then
        if MAX_CONCURRENT_SINK <=? cntSink_ m then (CONTINUE_ALREADY_IN_PROGRESS, CONTINUE_SINK)
        else if negb (m_GetDeviceInfoById env srcDeviceId) then (INVALID_PARAMETERS_ERR, CONTINUE_SINK)
        else (ERR_OK, CONTINUE_SINK)
      else if String.eqb srcDeviceId l then
        if MAX_CONCURRENT_SOURCE <=? cntSource_ m then (CONTINUE_ALREADY_IN_PROGRESS, CONTINUE_SINK)
        else if negb (m_GetDeviceInfoById env dstDeviceId) then (INVALID_PARAMETERS_ERR, CONTINUE_SINK)
        else (ERR_OK, CONTINUE_SOURCE)
      else (OPERATION_DEVICE_NOT_INITIATOR_OR_TARGET, CONTINUE_SINK)
  end.

(** The first continue bundle of the first ability with the type. *)
Fixpoint first_bundle (continueType : string) (infos : list DmsAbilityInfo) : option string :=
  match infos with
  | [] => None
  | a :: infos' =>
      if existsb (String.eqb continueType) (ability_continueType a) then
        match ability_continueBundleName a with
        | b :: _ => Some b
        | [] => first_bundle continueType infos'
        end
      else first_bundle continueType infos'
  end.

Definition GetFirstBundleName (env : MEnv) (info : ContinueInfo) (bundleName deviceId : string) : option string :=
  match m_GetDistributedBundleInfo env deviceId bundleName with
  | None => None
  | Some infos => first_bundle (continueType_ info) infos
  end.

(** ** Timeouts *)

Definition SetTimeOut (info : ContinueInfo) (timeout : Z) (m : Manager) : Manager :=
  if negb (handler_ m) then m
  else if 0 <? timeout then set_timers (timers_ m ++ [(ToStringIgnoreMissionId info, info)]) m
  else post_task (TTimeout info) m.

Definition RemoveTimeout (info : ContinueInfo) (m : Manager) : Manager :=
  if negb (handler_ m) then m
  else set_timers (List.filter (fun t => negb (String.eqb (fst t) (ToStringIgnoreMissionId info))) (timers_ m)) m.

Definition peer_of (direction : Z) (info : ContinueInfo) : string :=
  if direction =? CONTINUE_SOURCE then sinkDeviceId_ info else sourceDeviceId_ info.

Definition WaitAllConnectDecision (env : MEnv) (direction : Z) (info : ContinueInfo) (timeout : Z) (m : Manager)
    : Manager :=
  if DMSFWK_ALL_CONNECT_MGR env then
    let peer := peer_of direction info in
    let m := match m_decision env with Some b => NotifyAllConnectDecision env peer b m | None => m end in
    match mfind peer (peerConnectDecision_ m) with
    | None => SetTimeOut info 0 m
    | Some decision =>
        let m := set_decisions (merase peer (peerConnectDecision_ m)) m in
        if negb decision then SetTimeOut info 0 m else SetTimeOut info timeout m
    end
  else SetTimeOut info timeout m.

(** ** The tasks *)

Definition set_sourceBundle (b : string) (i : ContinueInfo) : ContinueInfo :=
  mkContinueInfo (sourceDeviceId_ i) b (sinkDeviceId_ i) (sinkBundleName_ i) (continueType_ i)
    (sinkAbilityName_ i) (missionId_ i) (continueSessionId_ i) (sinkMissionId_ i).

(** [Init] of a new continuation, then [f]; [None] when [Init] does not return. *)
Definition init_then {A} (senv : Env) (s : DContinue) (f : M A) : option DContinue :=
  match Init senv s with
  | (Some _, s') => Some (snd (f s'))
  | (None, _) => None
  end.

Definition HandleContinueMissionWithBundleName (env : MEnv) (senv : Env) (info : ContinueInfo) (callback : bool)
    (wantParams : WantParams) (m : Manager) : option Manager :=
  let '(ret, direction) := CheckContinuationLimit env m (sourceDeviceId_ info) (sinkDeviceId_ info) in
  if negb (ret =? ERR_OK) then Some m
  else
    let subType := if direction =? CONTINUE_SOURCE then CONTINUE_PUSH else CONTINUE_PULL in
    let m := if direction =? CONTINUE_SOURCE then set_counts (cntSink_ m) (i32 (cntSource_ m + 1)) m
             else set_counts (i32 (cntSink_ m + 1)) (cntSource_ m) m in
    let info :=
      if negb (direction =? CONTINUE_SOURCE) && String.eqb (sourceBundleName_ info) "" then
        match GetFirstBundleName env info (sinkBundleName_ info) (sinkDeviceId_ info) with
        | Some b => set_sourceBundle b info
        | None => info
        end
      else info in
    match mfind info (continues_ m) with
    | Some _ => Some m
    | None =>
        let s := DSchedContinue_new senv subType direction callback info (m_GetForegroundUser env) in
        match init_then senv s (OnContinueMission senv wantParams) with
        | None => None
        | Some s =>
            let m := set_continues (minsert info s (continues_ m)) m in
            let m := if DMSFWK_ALL_CONNECT_MGR env
                     then set_decisions (merase (peer_of direction info) (peerConnectDecision_ m)) m else m in
            Some (WaitAllConnectDecision env direction info CONTINUE_TIMEOUT m)
        end
    end.

Definition HandleContinueMission (env : MEnv) (senv : Env) (srcDeviceId dstDeviceId : string) (missionId : Z)
    (callback : bool) (wantParams : WantParams) (m : Manager) : option Manager :=
  if String.eqb srcDeviceId "" || String.eqb dstDeviceId "" || negb callback then Some m
  else match m_GetLocalDeviceId env with
       | None => Some m
       | Some l =>
           let info := ContinueInfo_byMission srcDeviceId dstDeviceId missionId in
           let info := match m_GetMissionInfo env missionId with
                       | Some b => if String.eqb srcDeviceId l then set_bundles b info else info
                       | None => info
                       end in
           HandleContinueMissionWithBundleName env senv info callback wantParams m
       end.

Definition HandleContinueMission_info (env : MEnv) (senv : Env) (info : ContinueInfo) (callback : bool)
    (wantParams : WantParams) (m : Manager) : option Manager :=
  let srcBundleName := if String.eqb (sourceBundleName_ info) "" then sinkBundleName_ info
                       else sourceBundleName_ info in
  if String.eqb (sourceDeviceId_ info) "" || String.eqb (sinkDeviceId_ info) "" || negb callback then Some m
  else HandleContinueMissionWithBundleName env senv
         (ContinueInfo_byType (sourceDeviceId_ info) srcBundleName (sinkDeviceId_ info) (sinkBundleName_ info)
            (continueType_ info)) callback wantParams m.

(** The entry [GetDSchedContinueByWant] looks for. *)
Definition of_want (local : string) (want : Want) (e : ContinueInfo * DContinue) : bool :=
  let i := continueInfo_ (snd e) in
  String.eqb local (sourceDeviceId_ i) && String.eqb (GetElementBundleName want) (sourceBundleName_ i)
  && String.eqb (GetElementDeviceID want) (sinkDeviceId_ i).

Definition GetDSchedContinueByWant (env : MEnv) (want : Want) (m : Manager) : option (ContinueInfo * DContinue) :=
  match m_GetLocalDeviceId env with
  | None => None
  | Some l => List.find (of_want l want) (continues_ m)
  end.

Definition StartContinuation (env : MEnv) (want : Want) (missionId callerUid status accessToken : Z) (m : Manager)
    : Z * Manager :=
  if negb (m_GetDeviceInfoById env (GetElementDeviceID want)) then (INVALID_REMOTE_PARAMETERS_ERR, m)
  else match GetDSchedContinueByWant env want m with
       | None => (INVALID_REMOTE_PARAMETERS_ERR, m)
       | Some _ => try_post (TStartContinuation want missionId callerUid status accessToken) m
       end.

(** An operation on the first continuation that [p] holds of. *)
Definition on_first {A} (p : ContinueInfo * DContinue -> bool) (f : M A) (m : Manager) : Manager :=
  set_continues (mupdate_first p (fun s => snd (f s)) (continues_ m)) m.

Definition HandleStartContinuation (env : MEnv) (senv : Env) (want : Want) (missionId callerUid status accessToken : Z)
    (m : Manager) : Manager :=
  match m_GetLocalDeviceId env, GetDSchedContinueByWant env want m with
  | Some l, Some _ => on_first (of_want l want) (OnStartContinuation senv want callerUid status accessToken) m
  | _, _ => mcall MSaveDataDmsRemoteWant m
  end.

Definition NotifyCompleteContinuation (deviceId : string) (sessionId : Z) (isSuccess : bool) (callerBundleName : string)
    (m : Manager) : Z * Manager :=
  try_post (TNotifyComplete deviceId sessionId isSuccess callerBundleName) m.

(** The entry [GetDSchedContinueByDevId] looks for. *)
Definition of_source (deviceId : string) (e : ContinueInfo * DContinue) : bool :=
  String.eqb deviceId (sourceDeviceId_ (continueInfo_ (snd e))).

Definition HandleNotifyCompleteContinuation (senv : Env) (deviceId : string) (missionId : Z) (isSuccess : bool)
    (callerBundleName : string) (m : Manager) : Manager :=
  match List.find (of_source deviceId) (continues_ m) with
  | None => m
  | Some (_, s) =>
      if negb (String.eqb (sinkBundleName_ (continueInfo_ s)) callerBundleName) then m
      else on_first (of_source deviceId) (OnNotifyComplete senv missionId isSuccess) m
  end.

Definition NotifyTerminateContinuation (env : MEnv) (senv : Env) (missionId : Z) (m : Manager) : Manager :=
  match m_GetMissionStatus env (m_GetForegroundUser env) missionId with
  | None => m
  | Some status =>
      if negb (Z.land (status_launchFlag status) FLAG_ABILITY_CONTINUATION =? FLAG_ABILITY_CONTINUATION)
         && negb (Z.land (status_launchFlag status) FLAG_ABILITY_PREPARE_CONTINUATION
                  =? FLAG_ABILITY_PREPARE_CONTINUATION)
      then m
      else on_first (fun e => String.eqb (status_bundleName status) (sinkBundleName_ (continueInfo_ (snd e)))
                              && String.eqb (status_abilityName status) (sinkAbilityName_ (continueInfo_ (snd e))))
             (OnContinueEnd senv CONTINUE_SINK_ABILITY_TERMINATED) m
  end.

Definition Manager_OnContinueEnd (info : ContinueInfo) (m : Manager) : Z * Manager := try_post (TContinueEnd info) m.

Definition HandleContinueEnd (env : MEnv) (info : ContinueInfo) (m : Manager) : Manager :=
  match mfind info (continues_ m) with
  | None => m
  | Some _ =>
      let m := RemoveTimeout info m in
      let m := set_continues (merase info (continues_ m)) m in
      let m := mcall MClearContinueSessionId m in
      match m_GetLocalDeviceId env with
      | None => m
      | Some l =>
          if String.eqb (sinkDeviceId_ info) l then set_counts (i32 (cntSink_ m - 1)) (cntSource_ m) m
          else if String.eqb (sourceDeviceId_ info) l then set_counts (cntSink_ m) (i32 (cntSource_ m - 1)) m
          else m
      end
  end.

(** ** Data from the peer *)

Definition Manager_OnDataRecv (sessionId : Z) (buffer : option DataBuffer) (m : Manager) : Manager :=
  snd (try_post (TDataRecv sessionId buffer) m).

Definition of_session (sessionId : Z) (e : ContinueInfo * DContinue) : bool :=
  sessionId =? softbusSessionId_ (snd e).

Definition NotifyContinueDataRecv (env : MEnv) (senv : Env) (sessionId command : Z) (json : list Z) (buffer : DataBuffer)
    (m : Manager) : option Manager :=
  if existsb (of_session sessionId) (continues_ m)
  then Some (on_first (of_session sessionId) (OnDataRecv senv command (Some buffer)) m)
  else if command =? DSCHED_CONTINUE_CMD_START then
    let '(ret, startCmd) := m_UnmarshalStart env json in
    if negb (ret =? ERR_OK) then Some m
    else
      let '(ret, _) := CheckContinuationLimit env m (cmd_srcDeviceId (start_base startCmd))
                         (cmd_dstDeviceId (start_base startCmd)) in
      if negb (ret =? ERR_OK) then Some (mcall MSaveDataDmsRemoteWant m)
      else
        let s := DSchedContinue_fromStartCmd senv (Some startCmd) sessionId (m_GetForegroundUser env) in
        match init_then senv s (OnStartCmd senv (start_appVersion startCmd)) with
        | None => None
        | Some s => Some (set_continues (minsert (continueInfo_ s) s (continues_ m)) m)
        end
  else Some m.

Definition HandleDataRecv (env : MEnv) (senv : Env) (sessionId : Z) (buffer : option DataBuffer) (m : Manager)
    : option Manager :=
  match buffer with
  | None => Some m
  | Some b =>
      let json := match Data b with Some d => slice d (rangeOffset_ b) (Capacity b) | None => [] end in
      match m_ParseCommand env json with
      | None => Some m
      | Some command => NotifyContinueDataRecv env senv sessionId command json b m
      end
  end.

Definition Manager_GetContinueInfo (m : Manager) : option (string * string) :=
  match continues_ m with
  | [] => None
  | (_, s) :: _ => Some (sourceDeviceId_ (continueInfo_ s), sinkDeviceId_ (continueInfo_ s))
  end.

Definition Manager_OnShutdown (sessionId : Z) (isSelfCalled : bool) (m : Manager) : Manager :=
  if isSelfCalled then m else snd (try_post (TShutdown sessionId) m).

(** The task of [OnShutdown]: every continuation of the session ends. *)
Definition handle_shutdown (senv : Env) (sessionId : Z) (m : Manager) : Manager :=
  set_continues (map (fun e => if of_session sessionId e
                               then (fst e, snd (OnContinueEnd senv CONTINUE_SESSION_SHUTDOWN (snd e))) else e)
                   (continues_ m)) m.

(** The task of [SetTimeOut]. *)
Definition handle_timeout (senv : Env) (info : ContinueInfo) (m : Manager) : Manager :=
  set_continues (mupdate info (fun s => snd (OnContinueEnd senv CONTINUE_ABILITY_TIMEOUT_ERR s)) (continues_ m)) m.

(** ** Callbacks for the state of a quick start *)

Definition FindStateCallbackData (k : StateCallbackInfo) (m : Manager) : option StateCallbackData :=
  mfind k (stateCallbackCache_ m).
Definition AddStateCallbackData (k : StateCallbackInfo) (d : StateCallbackData) (m : Manager) : Manager :=
  set_cache (minsert k d (stateCallbackCache_ m)) m.
Definition RemoveStateCallbackData (k : StateCallbackInfo) (m : Manager) : Manager :=
  set_cache (merase k (stateCallbackCache_ m)) m.

(** [FindStateCallbackData] returns a copy: what is written to it does not reach
    the cache, and [AddStateCallbackData] keeps an entry that is there. *)
Definition Manager_NotifyQuickStartState (env : MEnv) (k : StateCallbackInfo) (state : Z) (message : string)
    (m : Manager) : Z * Manager :=
  match FindStateCallbackData k m with
  | None => (ERR_OK, AddStateCallbackData k (mkStateCallbackData None false state message) m)
  | Some d =>
      match cb_remoteObject d with
      | None => (ERR_OK, AddStateCallbackData k (mkStateCallbackData None (cb_diedListener d) state message) m)
      | Some cb =>
          if negb (m_WriteInterfaceToken env) then (ERR_FLATTEN_OBJECT, m)
          else if negb (m_WriteInt32 env) then (ERR_FLATTEN_OBJECT, m)
          else if negb (m_WriteString env) then (ERR_FLATTEN_OBJECT, m)
          else (ERR_OK, mcall (MStateCallback cb state message) m)
      end
  end.

Definition ContinueStateCallbackRegister (env : MEnv) (k : StateCallbackInfo) (callback : Z) (m : Manager) : Z * Manager :=
  match FindStateCallbackData k m with
  | None =>
      (ERR_OK, AddStateCallbackData k (mkStateCallbackData (Some callback) true (-1) "")
                 (mcall (MAddDeathRecipient callback) m))
  | Some d =>
      if negb (cb_state d =? -1) then Manager_NotifyQuickStartState env k (cb_state d) (cb_message d) m
      else (ERR_OK, m)
  end.

Definition ContinueStateCallbackUnRegister (k : StateCallbackInfo) (m : Manager) : Z * Manager :=
  (ERR_OK, RemoveStateCallbackData k m).

(** ** The event handler *)

Definition run_task (env : MEnv) (senv : Env) (t : Task) (m : Manager) : option Manager :=
  match t with
  | TContinueMission src dst mission cb wp => HandleContinueMission env senv src dst mission cb wp m
  | TContinueInfo info cb wp => HandleContinueMission_info env senv info cb wp m
  | TStartContinuation want mission uid status token =>
      Some (HandleStartContinuation env senv want mission uid status token m)
  | TNotifyComplete dev mission ok bundle => Some (HandleNotifyCompleteContinuation senv dev mission ok bundle m)
  | TContinueEnd info => Some (HandleContinueEnd env info m)
  | TDataRecv sid buffer => HandleDataRecv env senv sid buffer m
  | TShutdown sid => Some (handle_shutdown senv sid m)
  | TTimeout info => Some (handle_timeout senv info m)
  end.

Definition run_next_task (env : MEnv) (senv : Env) (m : Manager) : option Manager :=
  match tasks_ m with
  | [] => Some m
  | t :: ts => run_task env senv t (set_tasks ts m)
  end.

Definition fire_timer (senv : Env) (m : Manager) : Manager :=
  match timers_ m with
  | [] => m
  | (_, info) :: ts => handle_timeout senv info (set_timers ts m)
  end.

(** The calls a continuation made on its manager. *)
Fixpoint apply_calls (env : MEnv) (cs : list Call) (m : Manager) : Manager :=
  match cs with
  | [] => m
  | COnContinueEnd info :: cs' => apply_calls env cs' (snd (Manager_OnContinueEnd info m))
  | CQuickStartState k state message :: cs' =>
      apply_calls env cs' (snd (Manager_NotifyQuickStartState env k state message m))
  | _ :: cs' => apply_calls env cs' m
  end.

(** The event handler of the continuation [k] processes its next event. *)
Definition session_step (env : MEnv) (senv : Env) (k : ContinueInfo) (m : Manager) : Manager :=
  match mfind k (continues_ m) with
  | None => m
  | Some s =>
      let s' := snd (handle_next senv s) in
      apply_calls env (drop (length (calls_ s)) (calls_ s')) (set_continues (mupdate k (fun _ => s') (continues_ m)) m)
  end.
End Manager.
