(* ===== verification/ContinueManagerProps.v ===== *)
(** Properties of the manager of continuations: its tables stay well formed, a
    continuation that ends is released, the limit of concurrent continuations,
    the callbacks for the state of a quick start. *)

From S2P Require Import Prelude StdMap DataBuffer SchedErrors ContinueInfo ContinueSession ContinueOps ContinueSpec ContinueRefine ContinueProps ContinueLife ContinueManager ContinueDemo.
From stdpp Require Import relations.
#[local] Open Scope Z_scope.

(** ** The keys are ordered *)

#[global] Instance ContinueInfo_laws : MapKeyLaws ContinueInfo.
Proof. by apply (total_key_laws compareInfo str_lt str_strict_total). Qed.
#[global] Instance StateCallbackInfo_laws : MapKeyLaws StateCallbackInfo.
Proof. by apply (total_key_laws callback_key _ callback_key_strict_total). Qed.

Lemma same_info a b : same_key a b = true <-> compareInfo a = compareInfo b.
Proof.
  rewrite same_key_spec. unfold key_lt, ContinueInfo_key, ContinueInfo_ltb. split.
  - intros [H1 H2]. by apply (st_total _ str_strict_total).
  - intros ->. by rewrite (st_irrefl _ str_strict_total).
Qed.

Section ManagerProps.
Context {W : WantApi}.
Variable ERR_FLATTEN_OBJECT : Z.

(** ** What continuations keep *)

(** A session under the key [k]. *)
Definition entry_ok (k : ContinueInfo) (s : DContinue) : Prop :=
  compareInfo k = compareInfo (continueInfo_ s) /\ sided s.

Lemma core_identity s s' :
  c_source (core s') = c_source (core s) -> c_sourceBundle (core s') = c_sourceBundle (core s) ->
  c_sink (core s') = c_sink (core s) -> c_sinkBundle (core s') = c_sinkBundle (core s) ->
  compareInfo (continueInfo_ s') = compareInfo (continueInfo_ s).
Proof. unfold core, compareInfo. cbn. by intros -> -> -> ->. Qed.

Lemma effect_identity s s' st es : effect s s' st es -> compareInfo (continueInfo_ s') = compareInfo (continueInfo_ s).
Proof. intros (C & _). apply core_identity; by rewrite C. Qed.

Lemma ended_identity env r s s' : ended env r s s' -> compareInfo (continueInfo_ s') = compareInfo (continueInfo_ s).
Proof. intros (_ & told & C & _). apply core_identity; by rewrite C. Qed.

Lemma realises_identity env s s' st' es x :
  realises env s s' st' es x -> compareInfo (continueInfo_ s') = compareInfo (continueInfo_ s).
Proof.
  destruct x; cbn; [|apply effect_identity]. intros (_ & _ & s1 & He & Hq).
  by rewrite (effect_identity _ _ _ _ Hq), (ended_identity _ _ _ _ He).
Qed.

Lemma handle_identity env s :
  sided s -> compareInfo (continueInfo_ (snd (handle_next env s))) = compareInfo (continueInfo_ s).
Proof.
  intros [_ Hs]. destruct (queue_ s) as [|e q] eqn:Hq.
  - unfold handle_next. by rewrite (bind_run get _ s s s eq_refl), Hq.
  - rewrite (handle_next_run env s e q Hq). set (s0 := set_queue q s). destruct (stateMachine_ s) as [st|] eqn:Hst.
    + destruct (ProcessEvent_refines env s0 st e Hst (Hs st eq_refl)) as (st' & es & x & _ & Hr).
      by rewrite (realises_identity _ _ _ _ _ _ Hr).
    + unfold ProcessEvent. by rewrite (bind_run get _ s0 s0 s0 eq_refl), (Hst : stateMachine_ s0 = None).
Qed.

Lemma Init_identity env s : compareInfo (continueInfo_ (snd (Init env s))) = compareInfo (continueInfo_ s).
Proof.
  unfold Init. rewrite (bind_run get _ s s s eq_refl). destruct (eventHandler_ s); [done|].
  unfold mbind, M_bind, modify, ask, mret, M_ret. by destruct (EventRunner_Create _ _).
Qed.

Lemma life_identity env s s' :
  life_step env s s' -> sided s -> compareInfo (continueInfo_ s') = compareInfo (continueInfo_ s).
Proof.
  intros H Hs. destruct (life_step_cases env s s' H) as [[es He]|[-> | ->]].
  - by apply effect_identity in He.
  - apply Init_identity.
  - by apply handle_identity.
Qed.

Lemma life_entry env k s s' : life_step env s s' -> entry_ok k s -> entry_ok k s'.
Proof.
  intros H [Hk Hs]. split; [by rewrite (life_identity env s s' H Hs)|]. by apply (life_step_sided env s s').
Qed.

(** ** The invariant *)

Definition manager_wf (m : Manager) : Prop :=
  msorted (continues_ m) /\ mall entry_ok (continues_ m) /\ msorted (stateCallbackCache_ m).

(** The tables that the invariant is about. *)
Definition same_tables (m m' : Manager) : Prop :=
  continues_ m' = continues_ m /\ stateCallbackCache_ m' = stateCallbackCache_ m.

Lemma same_tables_wf m m' : same_tables m m' -> manager_wf m -> manager_wf m'.
Proof. unfold manager_wf. by intros [-> ->]. Qed.

Lemma wf_continues m cs :
  manager_wf m -> msorted cs -> mall entry_ok cs -> manager_wf (set_continues cs m).
Proof. intros (_ & _ & Hc) Hs Ha. by split_and!. Qed.

Lemma on_first_wf {A} p (f : M A) m :
  (forall s, exists env, life_step env s (snd (f s))) -> manager_wf m -> manager_wf (on_first p f m).
Proof.
  intros Hf Hm. pose proof Hm as (Hs & Ha & _). apply wf_continues; [done|..].
  - eapply keys_sorted; [apply mupdate_first_keys|done].
  - apply mall_mupdate_first; [|done]. intros k s Hk. destruct (Hf s) as [env Hl]. by eapply life_entry.
Qed.

Lemma try_post_tables t m : same_tables m (snd (try_post t m)).
Proof. unfold try_post. by destruct (handler_ m). Qed.

Lemma SetTimeOut_tables info t m : same_tables m (SetTimeOut info t m).
Proof. unfold SetTimeOut. destruct (handler_ m); [|done]. cbn [negb]. by destruct (0 <? t). Qed.

Lemma RemoveTimeout_tables info m : same_tables m (RemoveTimeout info m).
Proof. unfold RemoveTimeout. by destruct (handler_ m). Qed.

Lemma NotifyAllConnectDecision_tables env p b m : same_tables m (NotifyAllConnectDecision env p b m).
Proof. unfold NotifyAllConnectDecision. by destruct (DMSFWK_ALL_CONNECT_MGR env). Qed.

Lemma same_tables_trans m1 m2 m3 : same_tables m1 m2 -> same_tables m2 m3 -> same_tables m1 m3.
Proof. unfold same_tables. intros [E1 E2] [E3 E4]. by rewrite E3, E4. Qed.

Lemma WaitAllConnectDecision_tables env d info t m : same_tables m (WaitAllConnectDecision env d info t m).
Proof.
  unfold WaitAllConnectDecision. destruct (DMSFWK_ALL_CONNECT_MGR env); [|apply SetTimeOut_tables].
  set (m1 := match m_decision env with Some b => _ | None => m end).
  assert (same_tables m m1) as H1.
  { unfold m1. destruct (m_decision env); [apply NotifyAllConnectDecision_tables|done]. }
  clearbody m1. apply (same_tables_trans m m1); [done|].
  destruct (mfind _ (peerConnectDecision_ m1)) as [b|]; [|apply SetTimeOut_tables].
  set (m2 := set_decisions _ m1). apply (same_tables_trans m1 m2); [done|].
  destruct b; cbn [negb]; apply SetTimeOut_tables.
Qed.

Lemma HandleContinueEnd_tables env info m :
  continues_ (HandleContinueEnd env info m) = merase info (continues_ m) \/ HandleContinueEnd env info m = m.
Proof.
  unfold HandleContinueEnd. destruct (mfind info (continues_ m)); [left|by right].
  assert (continues_ (RemoveTimeout info m) = continues_ m) as E by apply RemoveTimeout_tables.
  destruct (m_GetLocalDeviceId env) as [l|]; [|by cbn; rewrite E].
  destruct (String.eqb _ l); [by cbn; rewrite E|]. by destruct (String.eqb _ l); cbn; rewrite E.
Qed.

Lemma HandleContinueEnd_cache env info m :
  stateCallbackCache_ (HandleContinueEnd env info m) = stateCallbackCache_ m.
Proof.
  unfold HandleContinueEnd. destruct (mfind info (continues_ m)); [|done].
  assert (stateCallbackCache_ (RemoveTimeout info m) = stateCallbackCache_ m) as E by apply RemoveTimeout_tables.
  destruct (m_GetLocalDeviceId env) as [l|]; [|done].
  destruct (String.eqb _ l); [done|]. by destruct (String.eqb _ l).
Qed.

Lemma init_then_entry {A} senv s (f : M A) s' k :
  init_then senv s f = Some s' -> (forall x, life_step senv x (snd (f x))) -> entry_ok k s -> entry_ok k s'.
Proof.
  unfold init_then. intros H Hf Hk. destruct (Init senv s) as [[r|] s1] eqn:E; [|done]. simplify_eq.
  pose proof (life_entry _ _ _ _ (L_Init senv s) Hk) as H1. rewrite E in H1.
  exact (life_entry _ _ _ _ (Hf s1) H1).
Qed.

Lemma new_entry senv sub dir cb info acc :
  dir = CONTINUE_SOURCE \/ dir = CONTINUE_SINK ->
  entry_ok info (DSchedContinue_new senv sub dir cb info acc).
Proof. intros Hd. by split. Qed.

Lemma fromStartCmd_facts senv c sid acc :
  let s := DSchedContinue_fromStartCmd senv (Some c) sid acc in
  (direction_ s = CONTINUE_SOURCE \/ direction_ s = CONTINUE_SINK) /\ stateMachine_ s = None /\
  eventHandler_ s = false /\ sinkDeviceId_ (continueInfo_ s) = cmd_dstDeviceId (start_base c).
Proof.
  unfold DSchedContinue_fromStartCmd. cbv zeta. set (s0 := mkDContinue _ _ _ _ _ _ _ _ _ _ _ _ _ _).
  pose (s1 := snd (SetEventData senv s0)). rewrite (bind_run (SetEventData senv) _ s0 tt s1 eq_refl).
  pose (s2 := snd (NotifyDSchedEventResult ERR_OK s1)).
  rewrite (bind_run (NotifyDSchedEventResult ERR_OK) _ s1 tt s2 eq_refl).
  assert ((direction_ s2 = CONTINUE_SOURCE \/ direction_ s2 = CONTINUE_SINK) /\ stateMachine_ s2 = None /\
    eventHandler_ s2 = false /\ sinkDeviceId_ (continueInfo_ s2) = cmd_dstDeviceId (start_base c)) as H.
  { split; [|done]. change (direction_ s2) with (direction_ s0). cbn. destruct (_ =? _); auto. }
  clearbody s2. destruct (_ && _); [|exact H].
  unfold mbind, M_bind, ask. destruct (GetMissionInfo _ _ _) as [ret [b a]]. destruct (ret =? ERR_OK); exact H.
Qed.

Lemma fromStartCmd_sided senv c sid acc : sided (DSchedContinue_fromStartCmd senv (Some c) sid acc).
Proof.
  destruct (fromStartCmd_facts senv c sid acc) as (Hd & Hn & _). split; [done|]. by rewrite Hn.
Qed.

Lemma CheckContinuationLimit_direction env m src dst :
  snd (CheckContinuationLimit env m src dst) = CONTINUE_SOURCE \/ snd (CheckContinuationLimit env m src dst) = CONTINUE_SINK.
Proof.
  unfold CheckContinuationLimit. destruct (m_GetLocalDeviceId env); [|by right].
  repeat case_match; auto.
Qed.

Lemma HandleContinueMissionWithBundleName_wf env senv info cb wp m m' :
  HandleContinueMissionWithBundleName env senv info cb wp m = Some m' -> manager_wf m -> manager_wf m'.
Proof.
  unfold HandleContinueMissionWithBundleName. pose proof (CheckContinuationLimit_direction env m
    (sourceDeviceId_ info) (sinkDeviceId_ info)) as Hd.
  destruct (CheckContinuationLimit _ _ _ _) as [ret d]. cbn [snd] in Hd.
  destruct (negb (ret =? ERR_OK)); [by intros [= ->]|]. set (m1 := if d =? CONTINUE_SOURCE then _ else _).
  set (i := if _ && _ then _ else info). intros H Hm.
  assert (manager_wf m1) as H1 by (unfold m1; by destruct (d =? CONTINUE_SOURCE)). clearbody m1 i.
  destruct (mfind i (continues_ m1)); [by injection H as <-|].
  destruct (init_then _ _ _) as [s|] eqn:Es; [|done]. injection H as <-.
  eapply same_tables_wf; [apply WaitAllConnectDecision_tables|].
  assert (entry_ok i s) as He.
  { eapply init_then_entry; [exact Es|intros x; apply L_OnContinueMission|]. by apply new_entry. }
  assert (manager_wf (set_continues (minsert i s (continues_ m1)) m1)) as H2.
  { destruct H1 as (Hs & Ha & Hc). apply wf_continues; [done| |]; [by apply minsert_sorted|by apply mall_minsert]. }
  destruct (DMSFWK_ALL_CONNECT_MGR env); [|exact H2]. by eapply same_tables_wf; [|exact H2].
Qed.

Lemma NotifyContinueDataRecv_wf env senv sid cmd json buf m m' :
  NotifyContinueDataRecv env senv sid cmd json buf m = Some m' -> manager_wf m -> manager_wf m'.
Proof.
  unfold NotifyContinueDataRecv. destruct (existsb _ _).
  { intros [= <-]. apply on_first_wf. intros s. exists senv. exact (L_OnDataRecv senv s cmd (Some buf)). }
  destruct (cmd =? DSCHED_CONTINUE_CMD_START); [|by intros [= <-]].
  destruct (m_UnmarshalStart env json) as [ret c]. destruct (negb (ret =? ERR_OK)); [by intros [= <-]|].
  destruct (CheckContinuationLimit _ _ _ _) as [ret' d]. destruct (negb (ret' =? ERR_OK)); [by intros [= <-]|].
  destruct (init_then _ _ _) as [s|] eqn:Es; [|done]. intros [= <-] (Hs & Ha & Hc).
  assert (entry_ok (continueInfo_ s) s) as He.
  { split; [done|]. eapply (init_then_entry _ _ _ _ (continueInfo_ _)); [exact Es|intros x; apply L_OnStartCmd|].
    split; [reflexivity|]. apply fromStartCmd_sided. }
  apply wf_continues; [done| |]; [by apply minsert_sorted|by apply mall_minsert].
Qed.

Lemma AddStateCallbackData_wf k d m : manager_wf m -> manager_wf (AddStateCallbackData k d m).
Proof. intros (Hs & Ha & Hc). split_and!; [done..|]. by apply minsert_sorted. Qed.

Lemma Manager_NotifyQuickStartState_wf env k st msg m :
  manager_wf m -> manager_wf (snd (Manager_NotifyQuickStartState ERR_FLATTEN_OBJECT env k st msg m)).
Proof.
  intros Hm. unfold Manager_NotifyQuickStartState. destruct (FindStateCallbackData k m) as [d|];
    [|by apply AddStateCallbackData_wf].
  destruct (cb_remoteObject d); [|by apply AddStateCallbackData_wf]. by repeat (case_match; [done|]).
Qed.

Lemma ContinueStateCallbackRegister_wf env k cb m :
  manager_wf m -> manager_wf (snd (ContinueStateCallbackRegister ERR_FLATTEN_OBJECT env k cb m)).
Proof.
  intros Hm. unfold ContinueStateCallbackRegister. destruct (FindStateCallbackData k m) as [d|].
  - destruct (negb _); [|done]. by apply Manager_NotifyQuickStartState_wf.
  - cbn [snd]. apply AddStateCallbackData_wf. by eapply same_tables_wf; [|exact Hm].
Qed.

Lemma apply_calls_wf env cs m : manager_wf m -> manager_wf (apply_calls ERR_FLATTEN_OBJECT env cs m).
Proof.
  revert m. induction cs as [|c cs IH]; intros m Hm; [done|]. destruct c; cbn [apply_calls]; auto; apply IH.
  - eapply same_tables_wf; [apply try_post_tables|done].
  - by apply Manager_NotifyQuickStartState_wf.
Qed.

Lemma mupdate_wf k f m :
  (forall s, exists env, life_step env s (f s)) -> manager_wf m -> manager_wf (set_continues (mupdate k f (continues_ m)) m).
Proof.
  intros Hf Hm. pose proof Hm as (Hs & Ha & _). apply wf_continues; [done|..].
  - eapply keys_sorted; [apply mupdate_keys|done].
  - apply mall_mupdate; [|done]. intros k' s Hk. destruct (Hf s) as [env Hl]. by eapply life_entry.
Qed.

Lemma session_step_wf env senv k m : manager_wf m -> manager_wf (session_step ERR_FLATTEN_OBJECT env senv k m).
Proof.
  intros Hm. unfold session_step. destruct (mfind k (continues_ m)) as [s|] eqn:E; [|done].
  apply apply_calls_wf. pose proof Hm as (Hs & Ha & _). apply wf_continues; [done|..].
  - eapply keys_sorted; [apply mupdate_keys|done].
  - apply List.Forall_map. apply List.Forall_forall. intros [k' v] Hin. cbn.
    unfold mall in Ha. rewrite List.Forall_forall in Ha. pose proof (Ha _ Hin) as Hv. cbn in Hv.
    destruct (same_key k k') eqn:E1; [|done]. cbn. destruct (mfind_In _ _ _ E) as (k2 & Hin2 & E2).
    destruct (Ha _ Hin2) as [Hk2 Hs2]. cbn in Hk2, Hs2. apply same_info in E1, E2.
    eapply life_entry; [apply (L_handle senv s)|]. split; [congruence|done].
Qed.

Lemma handle_shutdown_wf senv sid m : manager_wf m -> manager_wf (handle_shutdown senv sid m).
Proof.
  intros Hm. pose proof Hm as (Hs & Ha & _). apply wf_continues; [done|..].
  - eapply keys_sorted; [|exact Hs]. rewrite map_map. apply map_ext. intros e. by destruct (of_session sid e).
  - apply List.Forall_map. eapply Forall_impl; [exact Ha|]. intros e He. cbn. destruct (of_session sid e); [|done].
    cbn. eapply life_entry; [apply (L_OnContinueEnd senv)|done].
Qed.

Lemma run_task_wf env senv t m m' : run_task env senv t m = Some m' -> manager_wf m -> manager_wf m'.
Proof.
  destruct t; cbn [run_task].
  - unfold HandleContinueMission. destruct (_ || _); [by intros [= <-]|].
    destruct (m_GetLocalDeviceId env); [|by intros [= <-]]. apply HandleContinueMissionWithBundleName_wf.
  - unfold HandleContinueMission_info. destruct (_ || _); [by intros [= <-]|].
    apply HandleContinueMissionWithBundleName_wf.
  - intros [= <-]. unfold HandleStartContinuation. destruct (m_GetLocalDeviceId env); [|done].
    destruct (GetDSchedContinueByWant _ _ _); [|done]. apply on_first_wf. intros s0. exists senv. exact (L_OnStartContinuation senv s0 _ _ _ _).
  - intros [= <-]. unfold HandleNotifyCompleteContinuation. destruct (List.find _ _) as [[k s]|]; [|done].
    destruct (negb _); [done|]. apply on_first_wf. intros s0. exists senv. exact (L_OnNotifyComplete senv s0 _ _).
  - intros [= <-] Hm. destruct Hm as (Hs & Ha & Hc). split_and!.
    + destruct (HandleContinueEnd_tables env info m) as [-> | ->]; [by apply merase_sorted|done].
    + destruct (HandleContinueEnd_tables env info m) as [-> | ->]; [by apply mall_merase|done].
    + by rewrite HandleContinueEnd_cache.
  - unfold HandleDataRecv. destruct buffer as [b|]; [|by intros [= <-]].
    destruct (m_ParseCommand _ _); [|by intros [= <-]]. apply NotifyContinueDataRecv_wf.
  - intros [= <-]. apply handle_shutdown_wf.
  - intros [= <-]. apply mupdate_wf. intros s. exists senv. exact (L_OnContinueEnd senv s _).
Qed.

(** Everything that can happen to the manager: calls of the service, of softbus
    and of the all-connect manager, tasks and timeouts of its event handler, and
    steps of its continuations. *)
Inductive manager_step (m : Manager) : Manager -> Prop :=
  | S_Init : manager_step m (Manager_Init m)
  | S_UnInit : manager_step m (Manager_UnInit m)
  | S_Decision env peer b : manager_step m (NotifyAllConnectDecision env peer b m)
  | S_Mission env src dst mission cb wp : manager_step m (snd (ContinueMission env src dst mission cb wp m))
  | S_Info env info cb wp : manager_step m (snd (ContinueMission_info env info cb wp m))
  | S_Start env want mission uid status token : manager_step m (snd (StartContinuation env want mission uid status token m))
  | S_Complete dev mission ok bundle : manager_step m (snd (NotifyCompleteContinuation dev mission ok bundle m))
  | S_Terminate env senv mission : manager_step m (NotifyTerminateContinuation env senv mission m)
  | S_Data sid buffer : manager_step m (Manager_OnDataRecv sid buffer m)
  | S_Shutdown sid self : manager_step m (Manager_OnShutdown sid self m)
  | S_Register env k cb : manager_step m (snd (ContinueStateCallbackRegister ERR_FLATTEN_OBJECT env k cb m))
  | S_UnRegister k : manager_step m (snd (ContinueStateCallbackUnRegister k m))
  | S_Task env senv m' : run_next_task env senv m = Some m' -> manager_step m m'
  | S_Timer senv : manager_step m (fire_timer senv m)
  | S_Session env senv k : manager_step m (session_step ERR_FLATTEN_OBJECT env senv k m).

Lemma manager_step_wf m m' : manager_step m m' -> manager_wf m -> manager_wf m'.
Proof.
  intros H Hm. destruct H as [| | | | | | | | | | | |env senv m' H|senv|].
  - unfold Manager_Init. destruct (hasInit_ m); [done|]. by destruct (handler_ m).
  - unfold Manager_UnInit. destruct (negb _); [done|]. destruct Hm as (_ & _ & Hc).
    split; [constructor|split; [constructor|done]].
  - eapply same_tables_wf; [apply NotifyAllConnectDecision_tables|done].
  - unfold ContinueMission. destruct (negb _); [done|]. eapply same_tables_wf; [apply try_post_tables|done].
  - unfold ContinueMission_info. destruct (negb _); [done|]. destruct (_ && _); [done|].
    eapply same_tables_wf; [apply try_post_tables|done].
  - unfold StartContinuation. destruct (negb _); [done|]. destruct (GetDSchedContinueByWant _ _ _); [|done].
    eapply same_tables_wf; [apply try_post_tables|done].
  - eapply same_tables_wf; [apply try_post_tables|done].
  - unfold NotifyTerminateContinuation. destruct (m_GetMissionStatus _ _ _); [|done]. destruct (_ && _); [done|].
    apply on_first_wf; [|done]. intros s. exists senv. exact (L_OnContinueEnd senv s _).
  - eapply same_tables_wf; [apply try_post_tables|done].
  - unfold Manager_OnShutdown. destruct self; [done|]. eapply same_tables_wf; [apply try_post_tables|done].
  - by apply ContinueStateCallbackRegister_wf.
  - destruct Hm as (Hs & Ha & Hc). split_and!; [done..|]. by apply merase_sorted.
  - unfold run_next_task in H. destruct (tasks_ m); [by injection H as <-|]. eapply run_task_wf; [exact H|].
    by eapply same_tables_wf; [|exact Hm].
  - unfold fire_timer. destruct (timers_ m) as [|[n i] ts]; [done|]. apply mupdate_wf; [|done].
    intros s. exists senv. exact (L_OnContinueEnd senv s _).
  - by apply session_step_wf.
Qed.

Lemma manager_reachable_wf m m' : rtc manager_step m m' -> manager_wf m -> manager_wf m'.
Proof. induction 1; [done|]. eauto using manager_step_wf. Qed.

Lemma Manager_new_wf : manager_wf Manager_new.
Proof. split; [constructor|split; constructor]. Qed.

(** However requests, data of peers, decisions, timeouts and the steps of
    the continuations interleave, the table of continuations stays ordered without
    repeated keys, each continuation stays under the identity it reports its end
    with and in a state of its own side, and the cache of callbacks stays ordered. *)
Theorem manager_invariant m :
  rtc manager_step Manager_new m -> manager_wf m.
Proof. intros H. exact (manager_reachable_wf _ _ H Manager_new_wf). Qed.

(** ** A continuation that ends is released *)

(** The end that a step of a continuation reports is its own. *)
Lemma handle_next_reports env s e q cs i :
  live s -> queue_ s = e :: q -> extends s (snd (handle_next env s)) cs -> In (COnContinueEnd i) cs ->
  i = continueInfo_ s.
Proof.
  intros (st & Hst & Hs) Hq. rewrite (handle_next_run env s e q Hq). set (s0 := set_queue q s).
  destruct (ProcessEvent_refines env s0 st e Hst Hs) as (st' & es & x & _ & Hr).
  set (s' := snd (ProcessEvent env e s0)) in *. intros Hc Hin.
  assert (forall s1 s2 st1 es1 cs1, effect s1 s2 st1 es1 -> extends s1 s2 cs1 -> ~ In (COnContinueEnd i) cs1) as Hq1.
  { intros s1 s2 st1 es1 cs1 (_ & _ & cs2 & Hc2 & Hf) Hc1 Hi. unfold extends in *. rewrite Hc2 in Hc1.
    apply app_inv_head in Hc1 as ->. rewrite List.forallb_forall in Hf. by apply Hf in Hi. }
  destruct x as [x|]; [|by destruct (Hq1 s0 s' _ _ cs Hr)].
  destruct Hr as (_ & _ & s1 & (_ & told & _ & _ & _ & cs1 & Hc1 & Hf) & Hqt).
  destruct (effect_extends _ _ _ _ Hqt) as [cs2 Hc2].
  assert (cs = cs1 ++ cs2) as ->.
  { unfold extends in *. rewrite Hc2, Hc1, <- app_assoc in Hc. by apply app_inv_head in Hc. }
  apply in_app_or in Hin as [Hin|Hin]; [|by destruct (Hq1 _ _ _ _ _ Hqt Hc2)].
  assert (In (COnContinueEnd i) (end_calls env x told s0)) as Hi by (rewrite <- Hf; by apply filter_In).
  unfold end_calls in Hi. rewrite !in_app_iff in Hi.
  destruct Hi as [Hi|[Hi|[Hi|Hi]]]; [by destruct (initiator s0), Hi|by destruct (_ && _), Hi|by destruct told, Hi|].
  destruct Hi as [?|[[= <-]|[]]]; done.
Qed.

Lemma apply_calls_continues env cs m : continues_ (apply_calls ERR_FLATTEN_OBJECT env cs m) = continues_ m.
Proof.
  revert m. induction cs as [|c cs IH]; intros m; [done|]. destruct c; cbn [apply_calls]; rewrite IH; try done.
  - apply try_post_tables.
  - unfold Manager_NotifyQuickStartState. destruct (FindStateCallbackData _ _) as [d|]; [|done].
    destruct (cb_remoteObject d); [|done]. by repeat (case_match; [done|]).
Qed.

Lemma NotifyQuickStartState_tasks env k st msg m :
  tasks_ (snd (Manager_NotifyQuickStartState ERR_FLATTEN_OBJECT env k st msg m)) = tasks_ m /\
  handler_ (snd (Manager_NotifyQuickStartState ERR_FLATTEN_OBJECT env k st msg m)) = handler_ m.
Proof.
  unfold Manager_NotifyQuickStartState. destruct (FindStateCallbackData _ _) as [d|]; [|done].
  destruct (cb_remoteObject d); [|done]. by repeat (case_match; [done|]).
Qed.

(** Tasks are only added, and each reported end becomes a task. *)
Lemma apply_calls_tasks env cs m :
  handler_ m = true ->
  let m' := apply_calls ERR_FLATTEN_OBJECT env cs m in
  handler_ m' = true /\ (forall t, In t (tasks_ m) -> In t (tasks_ m')) /\
  (forall i, In (COnContinueEnd i) cs -> In (TContinueEnd i) (tasks_ m')).
Proof.
  cbv zeta. revert m. induction cs as [|c cs IH]; intros m Hh; [done|].
  assert (forall m1, handler_ m1 = true -> (forall t, In t (tasks_ m) -> In t (tasks_ m1)) ->
    apply_calls ERR_FLATTEN_OBJECT env (c :: cs) m = apply_calls ERR_FLATTEN_OBJECT env cs m1 ->
    (forall i, c = COnContinueEnd i -> In (TContinueEnd i) (tasks_ m1)) ->
    handler_ (apply_calls ERR_FLATTEN_OBJECT env (c :: cs) m) = true /\
    (forall t, In t (tasks_ m) -> In t (tasks_ (apply_calls ERR_FLATTEN_OBJECT env (c :: cs) m))) /\
    (forall i, In (COnContinueEnd i) (c :: cs) -> In (TContinueEnd i) (tasks_ (apply_calls ERR_FLATTEN_OBJECT env (c :: cs) m))))
    as Hstep.
  { intros m1 Hh1 Hin1 E Hc. rewrite E. destruct (IH m1 Hh1) as (H1 & H2 & H3). split; [done|]. split; [auto|].
    intros i [Hi|Hi]; auto. }
  destruct c; try (apply (Hstep m); done).
  - apply (Hstep (post_task (TContinueEnd info) m)); [done| | |].
    + intros t Ht. apply in_or_app. by left.
    + cbn. unfold Manager_OnContinueEnd, try_post. by rewrite Hh.
    + intros i [= ->]. apply in_or_app. right. by left.
  - destruct (NotifyQuickStartState_tasks env info state message m) as [E1 E2].
    eapply (Hstep (snd (Manager_NotifyQuickStartState ERR_FLATTEN_OBJECT env info state message m)));
      rewrite ?E1, ?E2; done.
Qed.

Lemma drop_extends s s' cs : extends s s' cs -> drop (length (calls_ s)) (calls_ s') = cs.
Proof. intros ->. by rewrite drop_app_length. Qed.

Lemma session_step_spec env senv k m s e q :
  mfind k (continues_ m) = Some s -> live s -> queue_ s = e :: q -> handler_ m = true ->
  let s' := snd (handle_next senv s) in
  let m' := session_step ERR_FLATTEN_OBJECT env senv k m in
  exists cs, extends s s' cs /\ handler_ m' = true /\
    (forall k', mfind k' (continues_ m') = if same_key k' k then Some s' else mfind k' (continues_ m)) /\
    (forall t, In t (tasks_ m) -> In t (tasks_ m')) /\
    (forall i, In (COnContinueEnd i) cs -> In (TContinueEnd i) (tasks_ m')).
Proof.
  intros Hf Hl Hq Hh. cbv zeta. destruct (handle_next_extends senv s e q Hl Hq) as [cs Hc]. exists cs. split; [done|].
  unfold session_step. rewrite Hf, (drop_extends _ _ _ Hc).
  set (m1 := set_continues _ m). destruct (apply_calls_tasks env cs m1 Hh) as (H1 & H2 & H3).
  split; [done|]. split; [|done]. intros k'. rewrite apply_calls_continues. cbn [continues_ m1 set_continues].
  rewrite mfind_mupdate. destruct (same_key k' k) eqn:E; [|done]. by rewrite (mfind_same _ _ _ E), Hf.
Qed.

(** The steps of a continuation with an end event until the end is reported. *)
Lemma session_reports env senv k fuel m s r :
  mfind k (continues_ m) = Some s -> live s -> eventHandler_ s = true -> accepts senv -> In (EvEnd r) (queue_ s) ->
  handler_ m = true -> (measure s <= fuel)%nat ->
  exists n i, let m' := Nat.iter n (session_step ERR_FLATTEN_OBJECT env senv k) m in
    In (TContinueEnd i) (tasks_ m') /\ compareInfo i = compareInfo (continueInfo_ s) /\ mfind k (continues_ m') <> None /\
    (forall k', same_key k' k = false -> mfind k' (continues_ m') = mfind k' (continues_ m)).
Proof.
  revert m s r. induction fuel as [|fuel IH]; intros m s r Hf Hl Hh Ha Hin Hm Hfuel;
    destruct (queue_ s) as [|e q] eqn:Hq; try done.
  { unfold measure in Hfuel. rewrite Hq in Hfuel. destruct e; cbn in Hfuel; lia. }
  destruct (handle_next_measure senv s e q Hl Hq) as [Hl' Hm'].
  destruct (step_towards_end senv s e q r Hl Hh Ha Hq Hin) as [Hh' H].
  destruct (session_step_spec env senv k m s e q Hf Hl Hq Hm) as (cs & Hc & H1 & H2 & H3 & H4).
  set (s' := snd (handle_next senv s)) in *. set (m' := session_step ERR_FLATTEN_OBJECT env senv k m) in *.
  pose proof (H2 k) as Hk. rewrite same_key_refl in Hk.
  assert (forall k', same_key k' k = false -> mfind k' (continues_ m') = mfind k' (continues_ m)) as Ho.
  { intros k' E. by rewrite H2, E. }
  destruct H as [(cs' & Hc' & [i Hi] & _)|(_ & r' & Hin')].
  - exists 1%nat, i. cbn. fold m'. assert (cs' = cs) as -> by (eapply app_inv_head; unfold extends in *; by rewrite <- Hc').
    pose proof (handle_next_reports senv s e q cs i Hl Hq Hc Hi) as Ei. split; [by apply H4|].
    split; [by rewrite Ei|].
    split; [by rewrite Hk|done].
  - destruct (IH m' s' r' Hk Hl' Hh' Ha Hin' H1 ltac:(lia)) as (n & i & Ht & Hi & Hs & Hall).
    exists (S n), i. cbv zeta in *. rewrite Nat.iter_succ_r. fold m'. split; [done|]. split; [|split; [done|]].
    + rewrite Hi. apply handle_identity. destruct Hl as (st & Hst & Hs'). split; [|by rewrite Hst; intros ? [= <-]].
      destruct Hs' as [[-> _]|[-> _]]; auto.
    + intros k' E. by rewrite (Hall k' E), (Ho k' E).
Qed.

(** Once an end event waits in the queue of a continuation of the
    table, the continuation's own steps report its end to the manager, and the
    task this posts removes exactly this continuation from the table; all others
    stay. *)
Theorem ended_continuation_released env senv k m s r :
  manager_wf m -> handler_ m = true -> mfind k (continues_ m) = Some s -> live s -> eventHandler_ s = true ->
  accepts senv -> In (EvEnd r) (queue_ s) ->
  exists n i, let m1 := Nat.iter n (session_step ERR_FLATTEN_OBJECT env senv k) m in
    In (TContinueEnd i) (tasks_ m1) /\
    let m2 := HandleContinueEnd env i m1 in
    mfind k (continues_ m2) = None /\
    forall k', same_key k' k = false -> mfind k' (continues_ m2) = mfind k' (continues_ m).
Proof.
  intros (_ & Hall & _) Hh Hf Hl He Ha Hin.
  destruct (session_reports env senv k _ m s r Hf Hl He Ha Hin Hh (le_n _)) as (n & i & Ht & Hi & Hs & Ho).
  exists n, i. cbv zeta in *. set (m1 := Nat.iter n _ m) in *. split; [done|].
  destruct (mall_find _ _ _ _ Hall Hf) as (k1 & [Hk1 _] & E1). apply same_info in E1.
  assert (same_key k i = true) as Ek by (apply same_info; congruence).
  destruct (HandleContinueEnd_tables env i m1) as [E|E].
  - rewrite E. split; [by rewrite mfind_merase, Ek|]. intros k' Ek'. rewrite mfind_merase, <- (Ho k' Ek').
    rewrite same_key_sym. rewrite same_key_sym in Ek. rewrite (same_key_eq i k k' Ek), same_key_sym. by rewrite Ek'.
  - exfalso. unfold HandleContinueEnd in E. rewrite <- (mfind_same k i _ Ek) in E.
    destruct (mfind k (continues_ m1)) eqn:Em; [|done]. apply (f_equal mcalls_) in E.
    assert (length (mcalls_ m1) <> length (mcalls_ m1 ++ [MClearContinueSessionId])) as Hlen by (rewrite length_app; cbn; lia).
    apply Hlen. rewrite <- E at 1. unfold RemoveTimeout. clear.
    destruct (m_GetLocalDeviceId env) as [l|]; [|by destruct (handler_ m1)].
    destruct (String.eqb _ l); [by destruct (handler_ m1)|]. by destruct (String.eqb _ l), (handler_ m1).
Qed.

(** ** The limit of concurrent continuations *)

(** The continuations of one side that are counted. *)
Definition running (sink : bool) (m : Manager) : Z := if sink then cntSink_ m else cntSource_ m.
(** The identity under which a request is entered on the device [l]: a pull without the
    bundle of the source takes the first bundle that can continue there. *)
Definition request_key (env : MEnv) (l : string) (info : ContinueInfo) : ContinueInfo :=
  if String.eqb (sinkDeviceId_ info) l && String.eqb (sourceBundleName_ info) "" then
    match GetFirstBundleName env info (sinkBundleName_ info) (sinkDeviceId_ info) with Some b => set_sourceBundle b info | None => info end
  else info.
Lemma request_key_devices env l info : sinkDeviceId_ (request_key env l info) = sinkDeviceId_ info /\ sourceDeviceId_ (request_key env l info) = sourceDeviceId_ info.
Proof. unfold request_key. destruct (_ && _); [|done]. by destruct (GetFirstBundleName _ _ _ _). Qed.
(** The end of the continuation after its time is planned, or comes at once. *)
Definition end_planned (i : ContinueInfo) (m : Manager) : Prop := In (ToStringIgnoreMissionId i, i) (timers_ m) \/ In (TTimeout i) (tasks_ m).
Lemma SetTimeOut_facts i t m : handler_ m = true ->
  let m' := SetTimeOut i t m in end_planned i m' /\ continues_ m' = continues_ m /\ cntSink_ m' = cntSink_ m /\ cntSource_ m' = cntSource_ m /\ handler_ m' = true.
Proof.
  intros Hh. cbv zeta. unfold SetTimeOut, end_planned. rewrite Hh. cbn [negb]. destruct (0 <? t); cbn; (split; [|done]); [left|right]; apply in_or_app; right; by left.
Qed.
Lemma Wait_facts env d i t m : handler_ m = true ->
  let m' := WaitAllConnectDecision env d i t m in end_planned i m' /\ continues_ m' = continues_ m /\ cntSink_ m' = cntSink_ m /\ cntSource_ m' = cntSource_ m /\ handler_ m' = true.
Proof.
  intros Hh. cbv zeta. unfold WaitAllConnectDecision. destruct (DMSFWK_ALL_CONNECT_MGR env); [|by apply SetTimeOut_facts]. cbv zeta.
  set (m1 := match m_decision env with Some b => _ | None => m end).
  assert (continues_ m1 = continues_ m /\ cntSink_ m1 = cntSink_ m /\ cntSource_ m1 = cntSource_ m /\ handler_ m1 = true) as (<- & <- & <- & H1).
  { unfold m1, NotifyAllConnectDecision. destruct (m_decision env); [|done]. by destruct (DMSFWK_ALL_CONNECT_MGR env). }
  destruct (mfind (peer_of d i) (peerConnectDecision_ m1)) as [b|]; [|by apply SetTimeOut_facts].
  destruct (negb b); by apply (SetTimeOut_facts i _ (set_decisions _ m1)).
Qed.
(** A request that is not refused. *)
Lemma request_accepted env senv info cb wp m m1 l :
  m_GetLocalDeviceId env = Some l -> handler_ m = true -> fst (CheckContinuationLimit env m (sourceDeviceId_ info) (sinkDeviceId_ info)) = ERR_OK ->
  mfind (request_key env l info) (continues_ m) = None -> HandleContinueMissionWithBundleName env senv info cb wp m = Some m1 ->
  let sink := String.eqb (sinkDeviceId_ info) l in
  exists s, running sink m < 1 /\ (sink = false -> String.eqb (sourceDeviceId_ info) l = true) /\
    continues_ m1 = minsert (request_key env l info) s (continues_ m) /\ end_planned (request_key env l info) m1 /\ handler_ m1 = true /\
    running sink m1 = i32 (running sink m + 1) /\ running (negb sink) m1 = running (negb sink) m.
Proof.
  intros Hl Hh Hc Hn H. cbv zeta. unfold HandleContinueMissionWithBundleName in H. pose proof Hc as Hc'. unfold CheckContinuationLimit in Hc', H. rewrite Hl in Hc', H.
  assert (K : forall m0 d s, handler_ m0 = true -> continues_ m0 = continues_ m ->
    let m2 := set_continues (minsert (request_key env l info) s (continues_ m0)) m0 in
    let m3 := if DMSFWK_ALL_CONNECT_MGR env then set_decisions (merase (peer_of d (request_key env l info)) (peerConnectDecision_ m2)) m2 else m2 in
    let m4 := WaitAllConnectDecision env d (request_key env l info) CONTINUE_TIMEOUT m3 in
    continues_ m4 = minsert (request_key env l info) s (continues_ m) /\ end_planned (request_key env l info) m4 /\ handler_ m4 = true /\ cntSink_ m4 = cntSink_ m0 /\ cntSource_ m4 = cntSource_ m0).
  { intros m0 d s Hh0 Hc0 m2 m3 m4. assert (handler_ m3 = true /\ continues_ m3 = continues_ m2 /\ cntSink_ m3 = cntSink_ m0 /\ cntSource_ m3 = cntSource_ m0) as (A1 & A2 & A3 & A4)
      by (unfold m3; by destruct (DMSFWK_ALL_CONNECT_MGR env)). destruct (Wait_facts env d (request_key env l info) CONTINUE_TIMEOUT m3 A1) as (B1 & B2 & B3 & B4 & B5). fold m4 in B1, B2, B3, B4, B5.
    rewrite B2, B3, B4, A2, A3, A4. cbn. by rewrite Hc0. }
  destruct (String.eqb (sinkDeviceId_ info) l) eqn:Es.
  - destruct (Z.leb_spec MAX_CONCURRENT_SINK (cntSink_ m)); [discriminate|]. destruct (negb (m_GetDeviceInfoById env (sourceDeviceId_ info))); [discriminate|].
    cbn [Z.eqb CONTINUE_SINK CONTINUE_SOURCE ERR_OK negb andb] in H. cbv zeta in H.
    assert ((if String.eqb (sourceBundleName_ info) "" then match GetFirstBundleName env info (sinkBundleName_ info) (sinkDeviceId_ info) with Some b => set_sourceBundle b info | None => info end else info)
      = request_key env l info) as Ek by (unfold request_key; by rewrite Es). rewrite Ek in H. cbn [continues_ set_counts] in H. rewrite Hn in H.
    destruct (init_then _ _ _) as [s|]; [|done]. apply (inj Some) in H. subst m1. exists s.
    match goal with |- context [WaitAllConnectDecision env ?d _ _ _] => destruct (K (set_counts (i32 (cntSink_ m + 1)) (cntSource_ m) m) d s Hh eq_refl) as (K1 & K2 & K3 & K4 & K5) end.
    unfold MAX_CONCURRENT_SINK in *. cbn [running negb]. by split_and!.
  - destruct (String.eqb (sourceDeviceId_ info) l) eqn:Er; [|discriminate]. destruct (Z.leb_spec MAX_CONCURRENT_SOURCE (cntSource_ m)); [discriminate|].
    destruct (negb (m_GetDeviceInfoById env (sinkDeviceId_ info))); [discriminate|]. cbn [Z.eqb CONTINUE_SINK CONTINUE_SOURCE ERR_OK negb andb] in H. cbv zeta in H.
    assert (request_key env l info = info) as Ek by (unfold request_key; by rewrite Es). rewrite Ek in *. cbn [continues_ set_counts] in H. rewrite Hn in H.
    destruct (init_then _ _ _) as [s|]; [|done]. apply (inj Some) in H. subst m1. exists s.
    match goal with |- context [WaitAllConnectDecision env ?d _ _ _] => destruct (K (set_counts (cntSink_ m) (i32 (cntSource_ m + 1)) m) d s Hh eq_refl) as (K1 & K2 & K3 & K4 & K5) end.
    unfold MAX_CONCURRENT_SOURCE in *. cbn [running negb]. by split_and!.
Qed.
(** At the limit a request changes nothing. *)
Lemma request_refused env senv info cb wp m l :
  m_GetLocalDeviceId env = Some l -> (String.eqb (sinkDeviceId_ info) l = false -> String.eqb (sourceDeviceId_ info) l = true) -> 1 <= running (String.eqb (sinkDeviceId_ info) l) m ->
  HandleContinueMissionWithBundleName env senv info cb wp m = Some m.
Proof.
  intros Hl Hs Hr. unfold HandleContinueMissionWithBundleName, CheckContinuationLimit. rewrite Hl. destruct (String.eqb (sinkDeviceId_ info) l).
  - cbn in Hr. unfold MAX_CONCURRENT_SINK. by rewrite (proj2 (Z.leb_le _ _) Hr).
  - rewrite (Hs eq_refl). cbn in Hr. unfold MAX_CONCURRENT_SOURCE. by rewrite (proj2 (Z.leb_le _ _) Hr).
Qed.


Lemma init_then_sink senv s {A} (f : M A) :
  eventHandler_ s = false -> (forall h, EventRunner_Create senv h = true) -> posts f ->
  exists s', init_then senv s f = Some s' /\ sinkDeviceId_ (continueInfo_ s') = sinkDeviceId_ (continueInfo_ s).
Proof.
  intros Hh Hc Hf. unfold init_then, Init. rewrite (bind_run get _ s s s eq_refl), Hh.
  unfold mbind, M_bind, modify, ask, mret, M_ret. cbn [fst snd]. rewrite Hc. eexists. split; [done|].
  match goal with |- context [snd (f ?x)] => destruct (Hf x) as (st & es & (C & _) & _) end.
  exact (f_equal c_sink C).
Qed.

Lemma OnStartCmd_posts senv v : posts (OnStartCmd senv v).
Proof. apply posts_post. Qed.

(** The end of the continuation [k] leaves the counter of the sink side of [m1] one
    below that of [m]. *)
Definition sink_drifts (env : MEnv) (k : ContinueInfo) (m m1 : Manager) : Prop :=
  cntSink_ (HandleContinueEnd env k m1) = i32 (cntSink_ m - 1).

(** A continuation that a peer starts on this device as the sink is
    checked against the limit but not counted, although its end is: after it the
    counter of the sink side is one lower than before it came. *)
Theorem peer_continuation_uncounted env senv sid json buf m l c :
  existsb (of_session sid) (continues_ m) = false ->
  m_UnmarshalStart env json = (ERR_OK, c) -> cmd_dstDeviceId (start_base c) = l ->
  m_GetLocalDeviceId env = Some l -> m_GetDeviceInfoById env (cmd_srcDeviceId (start_base c)) = true ->
  cntSink_ m < MAX_CONCURRENT_SINK -> (forall h, EventRunner_Create senv h = true) ->
  exists m1 k, NotifyContinueDataRecv env senv sid DSCHED_CONTINUE_CMD_START json buf m = Some m1 /\
    cntSink_ m1 = cntSink_ m /\ cntSource_ m1 = cntSource_ m /\ mfind k (continues_ m1) <> None /\
    sink_drifts env k m m1.
Proof.
  intros Hs Hu Hd Hl Hi Hc Hr. unfold NotifyContinueDataRecv. rewrite Hs, Hu. change (DSCHED_CONTINUE_CMD_START =? _) with true.
  change (negb (ERR_OK =? ERR_OK)) with false. cbv iota. unfold CheckContinuationLimit. rewrite Hl, Hd, String.eqb_refl, Hi.
  rewrite (proj2 (Z.leb_gt _ _) Hc). cbn [negb]. change (negb (ERR_OK =? ERR_OK)) with false. cbv iota.
  destruct (fromStartCmd_facts senv c sid (m_GetForegroundUser env)) as (_ & _ & Hh & Hk).
  destruct (init_then_sink senv _ (OnStartCmd senv (start_appVersion c)) Hh Hr (OnStartCmd_posts _ _)) as (s & -> & Hsink).
  eexists _, (continueInfo_ s). split; [done|]. split; [done|]. split; [done|].
  assert (mfind (continueInfo_ s) (minsert (continueInfo_ s) s (continues_ m)) <> None) as Hf.
  { rewrite mfind_minsert, same_key_refl. by destruct (mfind (continueInfo_ s) (continues_ m)) eqn:E; rewrite ?E. }
  split; [done|]. unfold sink_drifts, HandleContinueEnd. cbn [continues_ set_continues].
  destruct (mfind _ (minsert _ _ _)); [|done]. rewrite Hl, Hsink, Hk, Hd, String.eqb_refl. unfold RemoveTimeout.
  cbn [handler_ set_continues]. by destruct (handler_ m).
Qed.

(** ** Callbacks for the state of a quick start *)

Definition parcel_ok (env : MEnv) : Prop :=
  m_WriteInterfaceToken env = true /\ m_WriteInt32 env = true /\ m_WriteString env = true.

(** A state that is notified after the callback for its ability was
    registered reaches exactly this callback, and after the callback was removed
    none. *)
Theorem state_callback_delivered env k cb state message m :
  FindStateCallbackData k m = None -> parcel_ok env ->
  let m1 := snd (ContinueStateCallbackRegister ERR_FLATTEN_OBJECT env k cb m) in
  Manager_NotifyQuickStartState ERR_FLATTEN_OBJECT env k state message m1
    = (ERR_OK, mcall (MStateCallback cb state message) m1) /\
  mcalls_ (snd (Manager_NotifyQuickStartState ERR_FLATTEN_OBJECT env k state message
    (snd (ContinueStateCallbackUnRegister k m1)))) = mcalls_ m1.
Proof.
  intros Hn (H1 & H2 & H3). cbv zeta. unfold ContinueStateCallbackRegister. rewrite Hn. cbn [snd].
  set (m1 := AddStateCallbackData _ _ _). split.
  - unfold Manager_NotifyQuickStartState, FindStateCallbackData. cbn [m1 AddStateCallbackData set_cache stateCallbackCache_ mcall].
    rewrite mfind_minsert, same_key_refl. unfold FindStateCallbackData in Hn. rewrite Hn. cbn [cb_remoteObject].
    by rewrite H1, H2, H3.
  - unfold ContinueStateCallbackUnRegister, Manager_NotifyQuickStartState, FindStateCallbackData. cbn [snd].
    unfold RemoveStateCallbackData. cbn [set_cache stateCallbackCache_]. by rewrite mfind_merase, same_key_refl.
Qed.

(** Registrations and notifications for one ability. *)
Inductive callback_op :=
  | OpRegister (callback : Z)
  | OpNotify (state : Z) (message : string).

Definition callback_run (env : MEnv) (k : StateCallbackInfo) (o : callback_op) (m : Manager) : Manager :=
  match o with
  | OpRegister cb => snd (ContinueStateCallbackRegister ERR_FLATTEN_OBJECT env k cb m)
  | OpNotify st msg => snd (Manager_NotifyQuickStartState ERR_FLATTEN_OBJECT env k st msg m)
  end.

Lemma null_callback_notify env k state message m d :
  FindStateCallbackData k m = Some d -> cb_remoteObject d = None ->
  let m' := snd (Manager_NotifyQuickStartState ERR_FLATTEN_OBJECT env k state message m) in
  FindStateCallbackData k m' = Some d /\ mcalls_ m' = mcalls_ m.
Proof.
  intros Hf Hd. unfold Manager_NotifyQuickStartState. rewrite Hf, Hd. cbn [snd]. split; [|done].
  unfold FindStateCallbackData, AddStateCallbackData in *. cbn [set_cache stateCallbackCache_]. by rewrite mfind_minsert, Hf.
Qed.

Lemma null_callback_run env k o m d :
  FindStateCallbackData k m = Some d -> cb_remoteObject d = None ->
  FindStateCallbackData k (callback_run env k o m) = Some d /\ mcalls_ (callback_run env k o m) = mcalls_ m.
Proof.
  intros Hf Hd. destruct o as [cb|st msg]; cbn [callback_run]; [|by apply null_callback_notify].
  unfold ContinueStateCallbackRegister. rewrite Hf. destruct (negb _); [|done]. by apply null_callback_notify.
Qed.

(** A state that is notified before the callback is registered is never
    delivered: the registration and every later registration or notification for
    this ability, until it is unregistered, calls nothing, because all of them work
    on copies of the cached entry. *)
Theorem early_state_never_delivered env k state message m ops :
  FindStateCallbackData k m = None ->
  mcalls_ (fold_left (fun m o => callback_run env k o m) ops
    (snd (Manager_NotifyQuickStartState ERR_FLATTEN_OBJECT env k state message m))) = mcalls_ m.
Proof.
  intros Hn. set (d := mkStateCallbackData None false state message).
  set (m1 := snd (Manager_NotifyQuickStartState _ _ _ _ _ _)).
  assert (FindStateCallbackData k m1 = Some d /\ mcalls_ m1 = mcalls_ m) as [Hf Hm].
  { unfold m1, Manager_NotifyQuickStartState. rewrite Hn. cbn [snd]. split; [|done].
    unfold FindStateCallbackData, AddStateCallbackData in *. cbn [set_cache stateCallbackCache_]. by rewrite mfind_minsert, same_key_refl, Hn. }
  rewrite <- Hm. clearbody m1. clear Hn Hm. revert m1 Hf. induction ops as [|o ops IH]; intros m1 Hf; [done|]. cbn.
  destruct (null_callback_run env k o m1 d Hf eq_refl) as [Hf' Hm]. by rewrite (IH _ Hf').
Qed.
End ManagerProps.

(** ** Witnesses *)

Definition demo_start : StartCmd := mkStartCmd demo_base CONTINUE_SOURCE 1 tt.

Definition demo_menv : MEnv := {|
  DMSFWK_ALL_CONNECT_MGR := true;
  HAS_MISSION_MANAGER := true;
  m_GetLocalDeviceId := Some "B"%string;
  m_GetDeviceInfoById := fun _ => true;
  m_GetForegroundUser := 100;
  m_GetMissionIdByBundleName := fun _ _ => 0;
  m_GetMissionInfo := fun _ => Some "app"%string;
  m_GetMissionStatus := fun _ _ => None;
  m_GetDistributedBundleInfo := fun _ _ => None;
  m_decision := Some true;
  m_ParseCommand := fun _ => Some DSCHED_CONTINUE_CMD_START;
  m_UnmarshalStart := fun _ => (0, demo_start);
  m_WriteInterfaceToken := true;
  m_WriteInt32 := true;
  m_WriteString := true;
|}.

Definition demo_info : ContinueInfo := ContinueInfo_byType "A" "app" "B" "app" "type".

(** A request for a pull has been handled. *)
Definition demo_manager : Manager :=
  match run_next_task demo_menv demo_env (snd (ContinueMission_info demo_menv demo_info true tt (Manager_Init Manager_new))) with
  | Some m => m
  | None => Manager_new
  end.

Lemma demo_manager_reachable : rtc (manager_step 1) Manager_new demo_manager.
Proof.
  eapply rtc_l; [apply S_Init|]. eapply rtc_l; [apply (S_Info _ _ demo_menv demo_info true tt)|].
  eapply rtc_l; [|apply rtc_refl]. apply (S_Task _ _ demo_menv demo_env). unfold demo_manager.
  destruct (run_next_task _ _ _) eqn:E; [reflexivity|]. vm_compute in E. discriminate.
Qed.

Lemma manager_invariant_witness : manager_wf demo_manager /\ length (continues_ demo_manager) = 1%nat.
Proof. split; [apply (manager_invariant 1), demo_manager_reachable|vm_compute; reflexivity]. Defined.


(** The same manager after its continuation has been told to end. *)
Definition ending_manager : Manager := fire_timer demo_env demo_manager.
Definition ending_session : DContinue :=
  match mfind demo_info (continues_ ending_manager) with Some s => s | None => DSchedContinue_default end.

Lemma ended_continuation_released_witness :
  exists n i, let m1 := Nat.iter n (session_step 1 demo_menv demo_env demo_info) ending_manager in
    In (TContinueEnd i) (tasks_ m1) /\
    let m2 := HandleContinueEnd demo_menv i m1 in
    mfind demo_info (continues_ m2) = None /\
    forall k', same_key k' demo_info = false -> mfind k' (continues_ m2) = mfind k' (continues_ ending_manager).
Proof.
  apply (ended_continuation_released 1 demo_menv demo_env demo_info ending_manager ending_session CONTINUE_ABILITY_TIMEOUT_ERR).
  - eapply (manager_reachable_wf 1); [|apply Manager_new_wf]. eapply rtc_r; [apply demo_manager_reachable|].
    apply (S_Timer 1 _ demo_env).
  - vm_compute. reflexivity.
  - vm_compute. reflexivity.
  - exists SINK_START_STATE. split; [vm_compute; reflexivity|]. right. by vm_compute.
  - vm_compute. reflexivity.
  - intros h e. reflexivity.
  - vm_compute. tauto.
Defined.

Lemma peer_continuation_uncounted_witness :
  exists m1 k, NotifyContinueDataRecv demo_menv demo_env 3 DSCHED_CONTINUE_CMD_START [] (buffer_of [1]) (Manager_Init Manager_new)
      = Some m1 /\
    cntSink_ m1 = 0 /\ cntSource_ m1 = 0 /\ mfind k (continues_ m1) <> None /\
    cntSink_ (HandleContinueEnd demo_menv k m1) = i32 (0 - 1).
Proof.
  apply (peer_continuation_uncounted demo_menv demo_env 3 [] (buffer_of [1]) (Manager_Init Manager_new) "B" demo_start);
    try reflexivity.
Defined.

Definition demo_key : StateCallbackInfo := mkStateCallbackInfo 7 "app" "entry" "Main".

Lemma state_callback_delivered_witness :
  let m1 := snd (ContinueStateCallbackRegister 1 demo_menv demo_key 4 (@Manager_new DemoWantApi)) in
  Manager_NotifyQuickStartState 1 demo_menv demo_key 0 "ok" m1 = (ERR_OK, mcall (MStateCallback 4 0 "ok") m1) /\
  mcalls_ (snd (Manager_NotifyQuickStartState 1 demo_menv demo_key 0 "ok" (snd (ContinueStateCallbackUnRegister demo_key m1))))
    = mcalls_ m1.
Proof. apply (state_callback_delivered 1 demo_menv demo_key 4 0 "ok" Manager_new); [reflexivity|by split_and!]. Defined.

Lemma early_state_never_delivered_witness :
  mcalls_ (fold_left (fun m o => callback_run 1 demo_menv demo_key o m) [OpRegister 4; OpNotify 0 "again"]
    (snd (Manager_NotifyQuickStartState 1 demo_menv demo_key 0 "ok" Manager_new))) = [].
Proof. apply (early_state_never_delivered 1 demo_menv demo_key 0 "ok" Manager_new); reflexivity. Defined.
