(* ===== verification/CollabCmd.v ===== *)
(** The commands of a collaboration as JSON:
    services/dtbschedmgr/src/collab/dsched_collab_event.cpp.

    As for continuations ([ContinueCmd]) a command is a JSON object with the text
    of its base class as member [BaseCmd]; the caller and the account are written
    and read by the same statements. The two sets of parameters of a start command
    share one parcel on both sides. *)

From S2P Require Import Prelude SchedErrors SchedUtils Json ContinueInfo ContinueSession ContinueCmd ContinueOps ContinueDemo ContinueCmdProps.
#[local] Open Scope string_scope.
#[local] Open Scope list_scope.
#[local] Open Scope Z_scope.

(** ** Commands *)

Definition MIN_CMD : Z := 0.
Definition SINK_GET_VERSION_CMD : Z := 1.
Definition SOURCE_GET_VERSION_CMD : Z := 2.
Definition SINK_START_CMD : Z := 3.
Definition NOTIFY_RESULT_CMD : Z := 4.
Definition DISCONNECT_CMD : Z := 5.

(** [BaseCmd]; its own [appVersion_] is hidden by the one of [SinkStartCmd]. *)
Record BaseCmd := mkBaseCmd {
  base_needSendBigData : bool;
  base_needSendStream : bool;
  base_needRecvStream : bool;
  base_collabVersion : Z;
  base_dmsVersion : Z;
  base_command : Z;
  base_srcCollabSessionId : Z;
  base_collabToken : string;
  base_srcDeviceId : string;
  base_srcBundleName : string;
  base_srcAbilityName : string;
  base_srcModuleName : string;
  base_srcServerId : string;
  base_sinkDeviceId : string;
  base_sinkBundleName : string;
  base_sinkAbilityName : string;
  base_sinkModuleName : string;
  base_sinkServerId : string;
}.

Definition BaseCmd_default : BaseCmd :=
  mkBaseCmd false false false (-1) (-1) (-1) (-1) "" "" "" "" "" "" "" "" "" "" "".

Record GetSinkCollabVersionCmd := mkGetSinkCollabVersionCmd {
  version_base : BaseCmd;
  version_srcPid : Z;
  version_srcUid : Z;
  version_srcAccessToken : Z;
  version_sinkCollabVersion : Z;
}.

Record NotifyResultCmd := mkNotifyResultCmd {
  notify_base : BaseCmd;
  notify_result : Z;
  notify_sinkCollabSessionId : Z;
  notify_sinkPid : Z;
  notify_sinkAccessToken : Z;
  notify_sinkUserId : Z;
  notify_sinkAccountId : Z;
  notify_sinkSocketName : string;
  notify_abilityRejectReason : string;
}.

Section Codec.
Context {W : WantApi}.

Record SinkStartCmd := mkSinkStartCmd {
  sink_base : BaseCmd;
  sink_srcPid : Z;
  sink_srcUid : Z;
  sink_srcAccessToken : Z;
  sink_appVersion : Z;
  sink_callerInfo : CallerInfo;
  sink_accountInfo : AccountInfo;
  sink_startParams : WantParams;
  sink_messageParams : WantParams;
}.

Inductive CollabCmd :=
  | CmdGetVersion (c : GetSinkCollabVersionCmd)
  | CmdSinkStart (c : SinkStartCmd)
  | CmdNotifyResult (c : NotifyResultCmd)
  | CmdDisconnect (b : BaseCmd).

Context {CJ : CJson} {PA : ParcelApi} {PP : Parcelable WantParams}.

(** ** Writing *)

Definition MarshalBaseCmd (b : BaseCmd) : option string :=
  cJSON_Print (JObject
    [num "Command" (base_command b);
     num "CollabVersion" (base_collabVersion b);
     num "DmsVersion" (base_dmsVersion b);
     num "CollabSessionId" (base_srcCollabSessionId b);
     str "CollabToken" (base_collabToken b);
     str "SrcDeviceId" (base_srcDeviceId b);
     str "SrcBundleName" (base_srcBundleName b);
     str "SrcAbilityName" (base_srcAbilityName b);
     str "SrcModuleName" (base_srcModuleName b);
     str "SrcServiceId" (base_srcServerId b);
     str "SinkDeviceId" (base_sinkDeviceId b);
     str "SinkBundleName" (base_sinkBundleName b);
     str "SinkAbilityName" (base_sinkAbilityName b);
     str "SinkModuleName" (base_sinkModuleName b);
     str "SinkServiceId" (base_sinkServerId b);
     bool_item "NeedSendBigData" (base_needSendBigData b);
     bool_item "NeedSendStream_" (base_needSendStream b);
     bool_item "NeedRecvStream" (base_needRecvStream b)]).

Definition MarshalGetVersion (c : GetSinkCollabVersionCmd) : option string :=
  base ← MarshalBaseCmd (version_base c);
  cJSON_Print (JObject
    [str "BaseCmd" base;
     num "SrcPid" (version_srcPid c);
     num "SrcUid" (version_srcUid c);
     num "SrcAccessToken" (version_srcAccessToken c);
     num "SinkCollabVersion" (version_sinkCollabVersion c)]).

(** [MarshalCallerInfo] and [MarshalAccountInfo] have the statements of the
    commands of continuations. *)
Definition SinkStart_MarshalCallerInfo : CallerInfo -> option string := MarshalCallerInfo.
Definition SinkStart_MarshalAccountInfo : AccountInfo -> option string := MarshalAccountInfo.

(** The second text has the bytes of both sets of parameters. *)
Definition MarshalSinkStart (c : SinkStartCmd) : option string :=
  base ← MarshalBaseCmd (sink_base c);
  parcel ← parcel_write (sink_startParams c) Parcel_new;
  let startParams := ParcelToBase64Str parcel in
  parcel ← parcel_write (sink_messageParams c) parcel;
  let wantParams := ParcelToBase64Str parcel in
  callerInfo ← SinkStart_MarshalCallerInfo (sink_callerInfo c);
  accountInfo ← SinkStart_MarshalAccountInfo (sink_accountInfo c);
  cJSON_Print (JObject
    [str "BaseCmd" base;
     num "AppVersion" (sink_appVersion c);
     num "SrcPid" (sink_srcPid c);
     num "SrcUid" (sink_srcUid c);
     num "SrcAccessToken" (sink_srcAccessToken c);
     str "StartParams" startParams;
     str "WantParams" wantParams;
     str "CallerInfo" callerInfo;
     str "AccountInfo" accountInfo]).

Definition MarshalNotifyResult (c : NotifyResultCmd) : option string :=
  base ← MarshalBaseCmd (notify_base c);
  cJSON_Print (JObject
    [str "BaseCmd" base;
     num "SinkCollabSessionId" (notify_sinkCollabSessionId c);
     num "Result" (notify_result c);
     str "SinkSocketName" (notify_sinkSocketName c);
     str "AbilityRejectReason" (notify_abilityRejectReason c);
     num "SinkPid" (notify_sinkPid c);
     num "SinkUserId" (notify_sinkUserId c);
     num "SinkAccessToken" (notify_sinkAccessToken c);
     num "SinkAccountId" (notify_sinkAccountId c)]).

Definition MarshalDisconnect (b : BaseCmd) : option string :=
  base ← MarshalBaseCmd b;
  cJSON_Print (JObject [str "BaseCmd" base]).

Definition MarshalCollab (c : CollabCmd) : option string :=
  match c with
  | CmdGetVersion c => MarshalGetVersion c
  | CmdSinkStart c => MarshalSinkStart c
  | CmdNotifyResult c => MarshalNotifyResult c
  | CmdDisconnect b => MarshalDisconnect b
  end.

(** ** Reading *)

Definition UnmarshalBaseCmd (jsonStr : string) : option BaseCmd :=
  root ← cJSON_Parse (c_str jsonStr);
  command ← get_number root "Command";
  collabVersion ← get_number root "CollabVersion";
  dmsVersion ← get_number root "DmsVersion";
  srcCollabSessionId ← get_number root "CollabSessionId";
  collabToken ← get_string root "CollabToken";
  srcDeviceId ← get_string root "SrcDeviceId";
  srcBundleName ← get_string root "SrcBundleName";
  srcAbilityName ← get_string root "SrcAbilityName";
  srcModuleName ← get_string root "SrcModuleName";
  srcServerId ← get_string root "SrcServiceId";
  sinkDeviceId ← get_string root "SinkDeviceId";
  sinkBundleName ← get_string root "SinkBundleName";
  sinkAbilityName ← get_string root "SinkAbilityName";
  sinkModuleName ← get_string root "SinkModuleName";
  sinkServerId ← get_string root "SinkServiceId";
  needSendBigData ← get_bool root "NeedSendBigData";
  needSendStream ← get_bool root "NeedSendStream_";
  needRecvStream ← get_bool root "NeedRecvStream";
  Some (mkBaseCmd needSendBigData needSendStream needRecvStream collabVersion dmsVersion command
          srcCollabSessionId collabToken srcDeviceId srcBundleName srcAbilityName srcModuleName srcServerId
          sinkDeviceId sinkBundleName sinkAbilityName sinkModuleName sinkServerId).

Definition UnmarshalGetVersion (jsonStr : string) : option GetSinkCollabVersionCmd :=
  root ← cJSON_Parse (c_str jsonStr);
  baseCmd ← get_string root "BaseCmd";
  base ← UnmarshalBaseCmd baseCmd;
  srcPid ← get_number root "SrcPid";
  srcUid ← get_number root "SrcUid";
  srcAccessToken ← get_number root "SrcAccessToken";
  sinkCollabVersion ← get_number root "SinkCollabVersion";
  Some (mkGetSinkCollabVersionCmd base srcPid srcUid srcAccessToken sinkCollabVersion).

(** One parcel, whose bytes are replaced and whose cursor goes on. *)
Definition UnmarshalOptParams (root : json) : option (WantParams * WantParams) :=
  startParamsStr ← get_string root "StartParams";
  parcel ← Base64StrToParcel startParamsStr Parcel_new;
  '(startParams, parcel) ← parcel_read parcel;
  wantParamsStr ← get_string root "WantParams";
  parcel ← Base64StrToParcel wantParamsStr parcel;
  '(messageParams, _) ← parcel_read parcel;
  Some (startParams, messageParams).

Definition SinkStart_UnmarshalCallerInfoExtra : string -> CallerInfo -> option CallerInfo := UnmarshalCallerInfoExtra.
Definition SinkStart_UnmarshalCallerInfo : string -> option CallerInfo := UnmarshalCallerInfo.
Definition SinkStart_UnmarshalAccountInfo : string -> option AccountInfo := UnmarshalAccountInfo.

Definition UnmarshalPartParcel (root : json) : option (WantParams * WantParams * (CallerInfo * AccountInfo)) :=
  params ← UnmarshalOptParams root;
  callerInfoStr ← get_string root "CallerInfo";
  callerInfo ← SinkStart_UnmarshalCallerInfo callerInfoStr;
  accountInfoStr ← get_string root "AccountInfo";
  accountInfo ← SinkStart_UnmarshalAccountInfo accountInfoStr;
  Some (params, (callerInfo, accountInfo)).

Definition UnmarshalSinkStart (jsonStr : string) : option SinkStartCmd :=
  root ← cJSON_Parse (c_str jsonStr);
  baseCmd ← get_string root "BaseCmd";
  base ← UnmarshalBaseCmd baseCmd;
  appVersion ← get_number root "AppVersion";
  srcPid ← get_number root "SrcPid";
  srcUid ← get_number root "SrcUid";
  srcAccessToken ← get_number root "SrcAccessToken";
  '(startParams, messageParams, (callerInfo, accountInfo)) ← UnmarshalPartParcel root;
  Some (mkSinkStartCmd base srcPid srcUid srcAccessToken appVersion callerInfo accountInfo startParams messageParams).

(** The identity of the sink is optional: reading stops at the first member that
    is missing and keeps what it has. *)
Definition UnmarshalSinkInfo (root : json) (c : NotifyResultCmd) : NotifyResultCmd :=
  let set pid user token account :=
    mkNotifyResultCmd (notify_base c) (notify_result c) (notify_sinkCollabSessionId c) pid token user account
      (notify_sinkSocketName c) (notify_abilityRejectReason c) in
  match get_number root "SinkPid" with
  | None => c
  | Some pid =>
      match get_number root "SinkUserId" with
      | None => set pid (notify_sinkUserId c) (notify_sinkAccessToken c) (notify_sinkAccountId c)
      | Some user =>
          match get_number root "SinkAccessToken" with
          | None => set pid user (notify_sinkAccessToken c) (notify_sinkAccountId c)
          | Some token =>
              match get_number root "SinkAccountId" with
              | None => set pid user token (notify_sinkAccountId c)
              | Some account => set pid user token account
              end
          end
      end
  end.

Definition UnmarshalNotifyResult (jsonStr : string) : option NotifyResultCmd :=
  root ← cJSON_Parse (c_str jsonStr);
  baseCmd ← get_string root "BaseCmd";
  base ← UnmarshalBaseCmd baseCmd;
  sinkCollabSessionId ← get_number root "SinkCollabSessionId";
  result ← get_number root "Result";
  sinkSocketName ← get_string root "SinkSocketName";
  let abilityRejectReason := default "" (get_string root "AbilityRejectReason") in
  Some (UnmarshalSinkInfo root
          (mkNotifyResultCmd base result sinkCollabSessionId (-1) (-1) (-1) (-1) sinkSocketName abilityRejectReason)).

Definition UnmarshalDisconnect (jsonStr : string) : option BaseCmd :=
  root ← cJSON_Parse (c_str jsonStr);
  baseCmd ← get_string root "BaseCmd";
  UnmarshalBaseCmd baseCmd.

Definition UnmarshalCollabLike (c : CollabCmd) (jsonStr : string) : option CollabCmd :=
  match c with
  | CmdGetVersion _ => CmdGetVersion <$> UnmarshalGetVersion jsonStr
  | CmdSinkStart _ => CmdSinkStart <$> UnmarshalSinkStart jsonStr
  | CmdNotifyResult _ => CmdNotifyResult <$> UnmarshalNotifyResult jsonStr
  | CmdDisconnect _ => CmdDisconnect <$> UnmarshalDisconnect jsonStr
  end.
End Codec.

(** * What the commands of a collaboration keep on the wire: round trips of
    [CollabCmd]. *)

#[local] Open Scope string_scope.
#[local] Open Scope list_scope.
#[local] Open Scope Z_scope.

Definition wf_base_cmd (b : BaseCmd) : bool :=
  forallb i32b [base_collabVersion b; base_dmsVersion b; base_command b; base_srcCollabSessionId b]
  && forallb no_nul
       [base_collabToken b; base_srcDeviceId b; base_srcBundleName b; base_srcAbilityName b; base_srcModuleName b;
        base_srcServerId b; base_sinkDeviceId b; base_sinkBundleName b; base_sinkAbilityName b;
        base_sinkModuleName b; base_sinkServerId b].

Section CodecProps.
Context {W : WantApi} {CJ : CJson} {CJL : CJsonLaws} {PA : ParcelApi}
  {PP : Parcelable WantParams} {PPL : ParcelableLaws WantParams}.

(** Two sets of parameters fit into one parcel, alone and together. *)
Definition params_fit (x y : WantParams) : bool :=
  match Marshalling x, Marshalling y with
  | Some a, Some b => parcel_fits Parcel_new (len a) && parcel_fits (mkParcel a (len a)) (len (a ++ b))
  | _, _ => false
  end.

Definition wf_collab (c : CollabCmd) : bool :=
  match c with
  | CmdGetVersion c =>
      wf_base_cmd (version_base c)
      && forallb i32b [version_srcPid c; version_srcUid c; version_srcAccessToken c; version_sinkCollabVersion c]
  | CmdSinkStart c =>
      wf_base_cmd (sink_base c)
      && forallb i32b [sink_srcPid c; sink_srcUid c; sink_srcAccessToken c; sink_appVersion c]
      && wf_caller (sink_callerInfo c) && wf_account (sink_accountInfo c)
      && params_fit (sink_startParams c) (sink_messageParams c)
  | CmdNotifyResult c =>
      wf_base_cmd (notify_base c)
      && forallb i32b [notify_result c; notify_sinkCollabSessionId c; notify_sinkPid c; notify_sinkAccessToken c;
                       notify_sinkUserId c; notify_sinkAccountId c]
      && forallb no_nul [notify_sinkSocketName c; notify_abilityRejectReason c]
  | CmdDisconnect b => wf_base_cmd b
  end.

(** What the peer gets: everything but the extra information of the caller and
    the groups of the account. *)
Definition wire_collab (c : CollabCmd) : CollabCmd :=
  match c with
  | CmdSinkStart c =>
      CmdSinkStart (mkSinkStartCmd (sink_base c) (sink_srcPid c) (sink_srcUid c) (sink_srcAccessToken c)
                      (sink_appVersion c) (wire_caller (sink_callerInfo c)) (wire_account (sink_accountInfo c))
                      (sink_startParams c) (sink_messageParams c))
  | c => c
  end.

Lemma base_cmd_roundtrip b : wf_base_cmd b = true ->
  exists s, MarshalBaseCmd b = Some s /\ no_nul s = true /\ UnmarshalBaseCmd s = Some b.
Proof.
  unfold wf_base_cmd. intros H. wf_split H. unfold MarshalBaseCmd.
  edestruct print_wf as (s & -> & Hs & Hp); [|exists s; split; [done|split; [done|]]].
  - json_members.
  - unfold UnmarshalBaseCmd. rewrite Hp. cbn [mbind option_bind]. json_read. by destruct b.
Qed.

Lemma get_version_roundtrip c : wf_collab (CmdGetVersion c) = true -> exists s,
  MarshalCollab (CmdGetVersion c) = Some s /\ no_nul s = true /\
  UnmarshalCollabLike (CmdGetVersion c) s = Some (CmdGetVersion c).
Proof.
  cbn [wf_collab]. rewrite andb_true_iff. intros [Hb Hn]. wf_split Hn.
  destruct (base_cmd_roundtrip _ Hb) as (sb & Hmb & Hsb & Hub).
  cbn [MarshalCollab UnmarshalCollabLike]. unfold MarshalGetVersion. rewrite Hmb. cbn [mbind option_bind].
  edestruct print_wf as (s & -> & Hs & Hp); [|exists s; split; [done|split; [done|]]].
  - json_members.
  - unfold UnmarshalGetVersion. rewrite Hp. cbn [mbind option_bind]. json_read. rewrite Hub.
    cbn [mbind option_bind]. json_read. by destruct c.
Qed.

Lemma notify_result_roundtrip c : wf_collab (CmdNotifyResult c) = true -> exists s,
  MarshalCollab (CmdNotifyResult c) = Some s /\ no_nul s = true /\
  UnmarshalCollabLike (CmdNotifyResult c) s = Some (CmdNotifyResult c).
Proof.
  cbn [wf_collab]. rewrite !andb_true_iff. intros [[Hb Hn] Ht]. wf_split Hn. wf_split Ht.
  destruct (base_cmd_roundtrip _ Hb) as (sb & Hmb & Hsb & Hub).
  cbn [MarshalCollab UnmarshalCollabLike]. unfold MarshalNotifyResult. rewrite Hmb. cbn [mbind option_bind].
  edestruct print_wf as (s & -> & Hs & Hp); [|exists s; split; [done|split; [done|]]].
  - json_members.
  - unfold UnmarshalNotifyResult. rewrite Hp. cbn [mbind option_bind]. json_read. rewrite Hub.
    cbn [mbind option_bind]. json_read. unfold UnmarshalSinkInfo. json_read. by destruct c.
Qed.

Lemma disconnect_roundtrip b : wf_collab (CmdDisconnect b) = true -> exists s,
  MarshalCollab (CmdDisconnect b) = Some s /\ no_nul s = true /\
  UnmarshalCollabLike (CmdDisconnect b) s = Some (CmdDisconnect b).
Proof.
  cbn [wf_collab]. intros Hb. destruct (base_cmd_roundtrip _ Hb) as (sb & Hmb & Hsb & Hub).
  cbn [MarshalCollab UnmarshalCollabLike]. unfold MarshalDisconnect. rewrite Hmb. cbn [mbind option_bind].
  edestruct print_wf as (s & -> & Hs & Hp); [|exists s; split; [done|split; [done|]]].
  - json_members.
  - unfold UnmarshalDisconnect. rewrite Hp. cbn [mbind option_bind]. json_read. by rewrite Hub.
Qed.

(** The parcel of the two sets of parameters: the reader goes on where it stopped
    although the bytes were replaced. *)
Lemma params_roundtrip x y : params_fit x y = true ->
  exists p q, parcel_write x Parcel_new = Some p /\ parcel_write y p = Some q /\
    no_nul (ParcelToBase64Str p) = true /\ no_nul (ParcelToBase64Str q) = true /\
    forall root, get_string root "StartParams" = Some (ParcelToBase64Str p) ->
      get_string root "WantParams" = Some (ParcelToBase64Str q) -> UnmarshalOptParams root = Some (x, y).
Proof.
  unfold params_fit. destruct (Marshalling x) as [a|] eqn:Hx; [|done].
  destruct (Marshalling y) as [b|] eqn:Hy; [|done]. rewrite andb_true_iff. intros [Hfa Hfb].
  assert (Forall is_u8 a) as Ha by (by eapply marshalling_bytes).
  assert (Forall is_u8 b) as Hb by (by eapply marshalling_bytes).
  assert (Forall is_u8 (a ++ b)) as Hab by (by apply Forall_app).
  exists (mkParcel a 0), (mkParcel (a ++ b) 0). unfold parcel_write, ParcelToBase64Str. rewrite Hx, Hy. simpl.
  split_and!; try done; try by apply Base64Encode_no_nul.
  intros root H1 H2. unfold UnmarshalOptParams. rewrite H1. cbn [mbind option_bind].
  rewrite Base64StrToParcel_roundtrip by done. cbn [mbind option_bind parcel_cursor].
  pose proof (parcel_read_written x a [] [] Hx) as Hr. rewrite len_nil in Hr. simpl in Hr. rewrite app_nil_r in Hr.
  change (parcel_cursor Parcel_new) with 0. rewrite Hr. cbn [mbind option_bind]. rewrite H2. cbn [mbind option_bind].
  replace (0 + len a) with (len a) by lia.
  rewrite Base64StrToParcel_roundtrip by done. cbn [mbind option_bind parcel_cursor].
  pose proof (parcel_read_written y b a [] Hy) as Hr2. rewrite app_nil_r in Hr2. by rewrite Hr2.
Qed.

Lemma sink_start_roundtrip c : wf_collab (CmdSinkStart c) = true -> exists s,
  MarshalCollab (CmdSinkStart c) = Some s /\ no_nul s = true /\
  UnmarshalCollabLike (CmdSinkStart c) s = Some (wire_collab (CmdSinkStart c)).
Proof.
  cbn [wf_collab]. rewrite !andb_true_iff. intros [[[[Hb Hn] Hc] Ha] Hf]. wf_split Hn.
  destruct (base_cmd_roundtrip _ Hb) as (sb & Hmb & Hsb & Hub).
  destruct (params_roundtrip _ _ Hf) as (p & q & Hp & Hq & Hnp & Hnq & Hr).
  destruct (caller_roundtrip _ Hc) as (sc & Hmc & Hsc & Huc).
  destruct (account_roundtrip _ Ha) as (sa & Hma & Hsa & Hua).
  cbn [MarshalCollab UnmarshalCollabLike wire_collab].
  unfold MarshalSinkStart, SinkStart_MarshalCallerInfo, SinkStart_MarshalAccountInfo.
  rewrite Hmb. cbn [mbind option_bind]. rewrite Hp. cbn [mbind option_bind]. rewrite Hq. cbn [mbind option_bind].
  rewrite Hmc. cbn [mbind option_bind]. rewrite Hma. cbn [mbind option_bind].
  edestruct print_wf as (s & -> & Hs & Hps); [|exists s; split; [done|split; [done|]]].
  - json_members.
  - unfold UnmarshalSinkStart, UnmarshalPartParcel, SinkStart_UnmarshalCallerInfo, SinkStart_UnmarshalAccountInfo.
    rewrite Hps. cbn [mbind option_bind]. json_read. rewrite Hub. cbn [mbind option_bind]. json_read.
    rewrite Hr by (by apply get_string_str). cbn [mbind option_bind].
    json_read. rewrite Huc. cbn [mbind option_bind]. json_read. rewrite Hua. reflexivity.
Qed.

(** Every command of a collaboration that can be sent is
    marshalled, and the peer gets it back up to [wire_collab]; both sets of
    parameters of a start command are read correctly although the second text
    repeats the first set and one parcel serves for both. *)
Theorem collab_command_roundtrip c : wf_collab c = true ->
  exists s, MarshalCollab c = Some s /\ no_nul s = true /\ UnmarshalCollabLike c s = Some (wire_collab c).
Proof.
  destruct c; [apply get_version_roundtrip | apply sink_start_roundtrip | apply notify_result_roundtrip
              | apply disconnect_roundtrip].
Qed.
End CodecProps.

#[global] Instance WP_eq_dec : EqDecision WantParams := unit_eq_dec.
#[global] Instance DemoWantParamsWire : Parcelable WantParams := one_value (tt : WantParams).
#[global] Instance DemoWantParamsWireLaws : ParcelableLaws WantParams := one_value_laws _.
#[local] Existing Instances BinaryJson BinaryJsonLaws DemoParcel.

Definition demo_sink_start : SinkStartCmd :=
  mkSinkStartCmd
    (mkBaseCmd true false true 1 5 SINK_START_CMD 7 "token" "A" "app" "Main" "entry" "srv" "B" "app" "Main" "entry" "srv")
    100 200 300 1 demo_caller demo_account (tt : WantParams) (tt : WantParams).

Lemma collab_command_roundtrip_witness :
  exists s, MarshalCollab (CmdSinkStart demo_sink_start) = Some s /\ no_nul s = true /\
    UnmarshalCollabLike (CmdSinkStart demo_sink_start) s = Some (wire_collab (CmdSinkStart demo_sink_start)).
Proof. apply (collab_command_roundtrip (CmdSinkStart demo_sink_start)). vm_compute. reflexivity. Defined.
