(* ===== verification/CollabSession.v ===== *)
(** One collaboration of two abilities:
    services/dtbschedmgr/src/collab/dsched_collab.cpp and dsched_collab.h, the
    state [DSchedCollab] keeps, its events and what it does to its surroundings.

    The methods run in a state monad over the session, the tokens of the
    manager's table and the manager's named tasks, because a session removes
    itself from that table. Calls of other services are recorded oldest first;
    what they answer is a function of the calls before. A request to a null
    callback object is recorded as one. *)

From S2P Require Import Prelude DataBuffer SchedErrors SchedUtils Json ContinueInfo ContinueSession ContinueCmd CollabCmd.
#[local] Open Scope string_scope.
#[local] Open Scope list_scope.
#[local] Open Scope Z_scope.

(** ** Constants *)

Definition DSCHED_COLLAB_PROTOCOL_VERSION : Z := 1.
Definition NOTIFY_COLLAB_PREPARE_RESULT : Z := 0.
Definition NOTIFY_COLLAB_DISCONNECT : Z := 1.
Definition NOTIFY_WIFI_OPEN : Z := 2.
Definition NOTIFY_PEER_COLLAB_VERSION : Z := 3.
Definition KEY_START_OPTION : string := "ohos.collabrate.key.start.option".
Definition VALUE_START_OPTION_BACKGROUND : string := "ohos.collabrate.value.background".
Definition COLLAB_SOURCE : Z := 0.
Definition COLLAB_SINK : Z := 1.

Inductive CollabStateType :=
  | SOURCE_GET_PEER_VERSION_STATE | COLLAB_SOURCE_START_STATE | SOURCE_WAIT_RESULT_STATE | COLLAB_SOURCE_WAIT_END_STATE
  | SINK_GET_VERSION_STATE | COLLAB_SINK_START_STATE | SINK_CONNECT_STATE | COLLAB_SINK_WAIT_END_STATE.

#[global] Instance CollabStateType_eq_dec : EqDecision CollabStateType.
Proof. solve_decision. Defined.

(** The inner events with their data. *)
Inductive CEvent :=
  | SOURCE_GET_PEER_VERSION_EVENT
  | SOURCE_GET_VERSION_EVENT
  | SOURCE_START_EVENT
  | NOTIFY_RESULT_EVENT (result : Z)
  | GET_SINK_VERSION_EVENT
  | START_ABILITY_EVENT
  | NOTIFY_PREPARE_RESULT_EVENT (result : Z)
  | ERR_END_EVENT (result : Z)
  | END_EVENT
  | ABILITY_REJECT_EVENT (reason : string).

#[global] Instance CEvent_eq_dec : EqDecision CEvent.
Proof. solve_decision. Defined.

(** ** Parameters: the parameters of a want *)

Class CollabWantApi `{WantApi} := {
  WantParams_new : WantParams;
  Params_SetString : WantParams -> string -> string -> WantParams;
  Params_SetBool : WantParams -> string -> bool -> WantParams;
  Params_SetParams : WantParams -> string -> WantParams -> WantParams;
  (** [IString::Query] of a parameter. *)
  Params_QueryString : WantParams -> string -> option string;
  Want_AddFlags : Want -> Z -> Want;
  Want_SetParams : Want -> WantParams -> Want;
  FLAG_ABILITY_ON_COLLABORATE : Z;
}.

(** ** Data of a collaboration *)

Record CollabMessage := mkCollabMessage {
  msg_pid : Z;
  msg_uid : Z;
  msg_accessToken : Z;
  msg_deviceId : string;
  msg_bundleName : string;
  msg_abilityName : string;
  msg_moduleName : string;
  msg_serverId : string;
  msg_socketName : string;
}.
Definition CollabMessage_default : CollabMessage := mkCollabMessage (-1) (-1) (-1) "" "" "" "" "" "".

Section Session.
Context {W : WantApi} {CW : CollabWantApi}.

Record ConnectOpt := mkConnectOpt {
  opt_needSendBigData : bool;
  opt_needSendStream : bool;
  opt_needRecvStream : bool;
  opt_startParams : WantParams;
  opt_messageParams : WantParams;
}.
Definition ConnectOpt_default : ConnectOpt := mkConnectOpt false false false WantParams_new WantParams_new.

(** Callback objects are numbers, [None] is the null object. *)
Record DSchedCollabInfo := mkCollabInfo {
  srcCollabSessionId_ : Z;
  sinkCollabSessionId_ : Z;
  sinkUserId_ : Z;
  srcCollabVersion_ : Z;
  sinkCollabVersion_ : Z;
  srcAppVersion_ : Z;
  collabDirection_ : Z;
  collabToken_ : string;
  srcUdid_ : string;
  sinkUdid_ : string;
  sinkAccountId_ : Z;
  callerInfo_ : CallerInfo;
  srcAccountInfo_ : AccountInfo;
  srcInfo_ : CollabMessage;
  sinkInfo_ : CollabMessage;
  srcOpt_ : ConnectOpt;
  srcClientCB_ : option Z;
  sinkClientCB_ : option Z;
}.

(** [sinkAccountId_] has no initialiser; [account] is what it holds then. *)
Definition DSchedCollabInfo_default (account : Z) : DSchedCollabInfo :=
  mkCollabInfo (-1) (-1) (-1) 0 0 0 COLLAB_SOURCE "" "" "" account CallerInfo_default AccountInfo_default
    CollabMessage_default CollabMessage_default ConnectOpt_default None None.

(** [collab_machine_] says whether the state machine was created, [collab_state_] is
    its current state. *)
Record DCollab := mkDCollab {
  collab_machine_ : bool;
  collab_state_ : option CollabStateType;
  collab_handler_ : bool;
  collab_queue_ : list CEvent;
  collabInfo_ : DSchedCollabInfo;
  collab_softbus_ : Z;
  appStateObserver_ : bool;
}.

(** What a collaboration does to its surroundings. *)
Inductive CCall :=
  | KQuery (name : string)
  | KConnectDevice (peer : string)
  | KDisconnectDevice (peer : string)
  | KSendCommand (cmd : CollabCmd)
  | KSendData (sessionId : Z) (buffer : DataBuffer)
  | KCheckPermission (want : Want)
  | KStartAbilityByCall (want : Want)
  | KSendRequest (callback : option Z) (code : Z) (sessionId : Z) (result : Z)
  | KRegisterObserver (bundleName : string)
  | KUnregisterObserver
  | KPrivilegeShutdown (accessToken pid : Z) (deviceId : string)
  | KDestroyed (onOwnThread : bool) (token : string)
  | KManager (name : string).

(** Tasks of the manager's handler that wait for a time and have a name. *)
Inductive NamedTask :=
  | TaskTimeout (token : string)
  | TaskRelease (bundleName : string) (pid : Z).

(** The answers of the surroundings. *)
Record CEnv := mkCEnv {
  OS_ACCOUNT_PART : bool;
  k_EventRunner_Create : list CCall -> bool;
  k_SendEvent : list CCall -> CEvent -> bool;
  k_ConnectDevice : list CCall -> string -> Z -> Z * Z;
  k_SendData : list CCall -> Z -> DataBuffer -> Z;
  k_GetLocalBundleInfoV9 : list CCall -> string -> Z * Z;
  k_GetCallerAppIdFromBms : list CCall -> Z -> option string;
  k_GetBundleNameListFromBms : list CCall -> Z -> option (list string);
  k_GetAccountInfo : list CCall -> string -> CallerInfo -> Z * AccountInfo;
  k_CheckCollabStartPermission : list CCall -> Want -> CallerInfo -> AccountInfo -> Z;
  k_AbilityManagerConnect : list CCall -> Z;
  k_StartAbilityByCall : list CCall -> Want -> Z;
  k_GetSecure : list CCall -> bool;
  k_IsLocked : list CCall -> bool;
  k_GetUdidByNetworkId : list CCall -> string -> string;
  k_QueryActiveOsAccountIds : list CCall -> Z * list Z;
  k_WriteInterfaceToken : list CCall -> bool;
  k_WriteInt32 : list CCall -> Z -> bool;
  k_WriteString : list CCall -> string -> bool;
  k_SendRequest : list CCall -> Z -> Z;
  k_GetAppManager : list CCall -> bool;
  k_RegisterObserver : list CCall -> string -> Z;
  k_UnregisterObserver : list CCall -> Z;
  (** [ERR_FLATTEN_OBJECT] and [ERR_NULL_OBJECT] are constants of the utilities
      library, errors. *)
  K_ERR_FLATTEN_OBJECT : Z;
  K_ERR_NULL_OBJECT : Z;
}.

(** ** The monad *)

Record KState := mkKState {
  self : DCollab;
  tokens_ : list string;
  named_ : list (string * NamedTask);
  kcalls_ : list CCall;
}.

Definition KM (A : Type) : Type := KState -> A * KState.
#[global] Instance KM_ret : MRet KM := fun _ a s => (a, s).
#[global] Instance KM_bind : MBind KM := fun _ _ f m s => let '(a, s') := m s in f a s'.

Definition kself : KM DCollab := fun s => (self s, s).
Definition kinfo : KM DSchedCollabInfo := fun s => (collabInfo_ (self s), s).
Definition kupdate (f : DCollab -> DCollab) : KM unit :=
  fun s => (tt, mkKState (f (self s)) (tokens_ s) (named_ s) (kcalls_ s)).
Definition kcall (c : CCall) : KM unit :=
  fun s => (tt, mkKState (self s) (tokens_ s) (named_ s) (kcalls_ s ++ [c])).
Definition kask {A} (c : CCall) (answer : list CCall -> A) : KM A :=
  fun s => (answer (kcalls_ s), mkKState (self s) (tokens_ s) (named_ s) (kcalls_ s ++ [c])).

(** ** Updates of a session *)

Definition set_collab_state (st : CollabStateType) (d : DCollab) : DCollab :=
  mkDCollab (collab_machine_ d) (Some st) (collab_handler_ d) (collab_queue_ d) (collabInfo_ d) (collab_softbus_ d)
    (appStateObserver_ d).
Definition set_collab_machine (d : DCollab) : DCollab :=
  mkDCollab true (collab_state_ d) (collab_handler_ d) (collab_queue_ d) (collabInfo_ d) (collab_softbus_ d)
    (appStateObserver_ d).
Definition set_collab_handler (b : bool) (d : DCollab) : DCollab :=
  mkDCollab (collab_machine_ d) (collab_state_ d) b (collab_queue_ d) (collabInfo_ d) (collab_softbus_ d)
    (appStateObserver_ d).
Definition set_collab_queue (q : list CEvent) (d : DCollab) : DCollab :=
  mkDCollab (collab_machine_ d) (collab_state_ d) (collab_handler_ d) q (collabInfo_ d) (collab_softbus_ d)
    (appStateObserver_ d).
Definition set_collab_info (f : DSchedCollabInfo -> DSchedCollabInfo) (d : DCollab) : DCollab :=
  mkDCollab (collab_machine_ d) (collab_state_ d) (collab_handler_ d) (collab_queue_ d) (f (collabInfo_ d))
    (collab_softbus_ d) (appStateObserver_ d).
Definition set_collab_softbus (id : Z) (d : DCollab) : DCollab :=
  mkDCollab (collab_machine_ d) (collab_state_ d) (collab_handler_ d) (collab_queue_ d) (collabInfo_ d) id
    (appStateObserver_ d).
Definition set_collab_observer (b : bool) (d : DCollab) : DCollab :=
  mkDCollab (collab_machine_ d) (collab_state_ d) (collab_handler_ d) (collab_queue_ d) (collabInfo_ d)
    (collab_softbus_ d) b.

(** ** Updates of the data *)

Definition set_msg_socket (n : string) (m : CollabMessage) : CollabMessage :=
  mkCollabMessage (msg_pid m) (msg_uid m) (msg_accessToken m) (msg_deviceId m) (msg_bundleName m) (msg_abilityName m)
    (msg_moduleName m) (msg_serverId m) n.
Definition set_msg_ids (pid uid accessToken : Z) (m : CollabMessage) : CollabMessage :=
  mkCollabMessage pid uid accessToken (msg_deviceId m) (msg_bundleName m) (msg_abilityName m)
    (msg_moduleName m) (msg_serverId m) (msg_socketName m).

(** The data of the sink side, the identities of the devices and the account of
    the sink. *)
Definition set_sink (sessionId user account : Z) (sink : CollabMessage) (cb : option Z) (i : DSchedCollabInfo)
    : DSchedCollabInfo :=
  mkCollabInfo (srcCollabSessionId_ i) sessionId user (srcCollabVersion_ i) (sinkCollabVersion_ i)
    (srcAppVersion_ i) (collabDirection_ i) (collabToken_ i) (srcUdid_ i) (sinkUdid_ i) account (callerInfo_ i)
    (srcAccountInfo_ i) (srcInfo_ i) sink (srcOpt_ i) (srcClientCB_ i) cb.
Definition set_udids (src sink : string) (i : DSchedCollabInfo) : DSchedCollabInfo :=
  mkCollabInfo (srcCollabSessionId_ i) (sinkCollabSessionId_ i) (sinkUserId_ i) (srcCollabVersion_ i)
    (sinkCollabVersion_ i) (srcAppVersion_ i) (collabDirection_ i) (collabToken_ i) src sink (sinkAccountId_ i)
    (callerInfo_ i) (srcAccountInfo_ i) (srcInfo_ i) (sinkInfo_ i) (srcOpt_ i) (srcClientCB_ i) (sinkClientCB_ i).
Definition set_caller (caller : CallerInfo) (account : AccountInfo) (i : DSchedCollabInfo) : DSchedCollabInfo :=
  mkCollabInfo (srcCollabSessionId_ i) (sinkCollabSessionId_ i) (sinkUserId_ i) (srcCollabVersion_ i)
    (sinkCollabVersion_ i) (srcAppVersion_ i) (collabDirection_ i) (collabToken_ i) (srcUdid_ i) (sinkUdid_ i)
    (sinkAccountId_ i) caller account (srcInfo_ i) (sinkInfo_ i) (srcOpt_ i) (srcClientCB_ i) (sinkClientCB_ i).
Definition set_sinkVersion (v : Z) (i : DSchedCollabInfo) : DSchedCollabInfo :=
  mkCollabInfo (srcCollabSessionId_ i) (sinkCollabSessionId_ i) (sinkUserId_ i) (srcCollabVersion_ i)
    v (srcAppVersion_ i) (collabDirection_ i) (collabToken_ i) (srcUdid_ i) (sinkUdid_ i) (sinkAccountId_ i)
    (callerInfo_ i) (srcAccountInfo_ i) (srcInfo_ i) (sinkInfo_ i) (srcOpt_ i) (srcClientCB_ i) (sinkClientCB_ i).
Definition set_sinkUser (u : Z) (i : DSchedCollabInfo) : DSchedCollabInfo :=
  set_sink (sinkCollabSessionId_ i) u (sinkAccountId_ i) (sinkInfo_ i) (sinkClientCB_ i) i.

(** [DSchedCollab(collabToken, info)]. *)
Definition DSchedCollab_new (collabToken : string) (i : DSchedCollabInfo) : DCollab :=
  mkDCollab false None false []
    (mkCollabInfo (srcCollabSessionId_ i) (sinkCollabSessionId_ i) (sinkUserId_ i) DSCHED_COLLAB_PROTOCOL_VERSION
       (sinkCollabVersion_ i) (srcAppVersion_ i) (collabDirection_ i) collabToken (srcUdid_ i) (sinkUdid_ i)
       (sinkAccountId_ i) (callerInfo_ i) (srcAccountInfo_ i) (srcInfo_ i) (sinkInfo_ i) (srcOpt_ i)
       (srcClientCB_ i) (sinkClientCB_ i))
    INVALID_SESSION_ID false.

(** [DSchedCollab(startCmd, softbusSessionId)]; [account] is the uninitialised
    [sinkAccountId_]. *)
Definition DSchedCollab_fromCmd (startCmd : GetSinkCollabVersionCmd) (softbusSessionId account : Z) : DCollab :=
  let b := version_base startCmd in
  mkDCollab false None false []
    (mkCollabInfo (base_srcCollabSessionId b) (-1) (-1) 0 0 0 COLLAB_SINK (base_collabToken b) "" "" account
       CallerInfo_default AccountInfo_default
       (set_msg_ids (version_srcPid startCmd) (version_srcUid startCmd) (version_srcAccessToken startCmd)
          CollabMessage_default)
       CollabMessage_default ConnectOpt_default None None)
    softbusSessionId false.
End Session.
