(* ===== verification/CollabOps.v ===== *)
(** The methods of [DSchedCollab] (services/dtbschedmgr/src/collab/dsched_collab.cpp):
    posting events, commands to the peer, the steps of a collaboration, its end. *)

From S2P Require Import Prelude DataBuffer SchedErrors SchedUtils Json ContinueInfo ContinueSession ContinueCmd CollabCmd CollabSession.
#[local] Open Scope string_scope.
#[local] Open Scope list_scope.
#[local] Open Scope Z_scope.

Section Ops.
Context {W : WantApi} {CW : CollabWantApi} {CJ : CJson} {PA : ParcelApi} {PP : Parcelable WantParams}.
Variable env : CEnv.

(** ** State and data *)

Definition UpdateState (st : CollabStateType) : KM unit :=
  d ← kself; if collab_machine_ d then kupdate (set_collab_state st) else mret tt.

(** [Init] creates the state machine and waits for the handler of the event
    thread; [None]: no event runner, it waits for ever. *)
Definition Init : KM (option Z) :=
  d ← kself;
  if collab_handler_ d then mret (Some ERR_OK)
  else
    _ ← kupdate set_collab_machine;
    created ← kask (KQuery "EventRunner::Create") (k_EventRunner_Create env);
    if created : bool then _ ← kupdate (set_collab_handler true); mret (Some ERR_OK) else mret None.

Definition SetSrcCollabInfo (info : DSchedCollabInfo) : KM unit :=
  kupdate (set_collab_info (fun old =>
    mkCollabInfo (srcCollabSessionId_ info) (sinkCollabSessionId_ info) (sinkUserId_ info) (srcCollabVersion_ info)
      (sinkCollabVersion_ info) (srcAppVersion_ info) (collabDirection_ info) (collabToken_ info) (srcUdid_ info)
      (sinkUdid_ info) (sinkAccountId_ info) (callerInfo_ info) (srcAccountInfo_ info) (srcInfo_ info)
      (sinkInfo_ info) (srcOpt_ info) (srcClientCB_ old) (sinkClientCB_ info))).

(** The data of the start command, then the active account. *)
Definition from_sink_start (c : SinkStartCmd) (i : DSchedCollabInfo) : DSchedCollabInfo :=
  let b := sink_base c in
  let src := srcInfo_ i in
  let sink := sinkInfo_ i in
  mkCollabInfo (srcCollabSessionId_ i) (sinkCollabSessionId_ i) (sinkUserId_ i) (base_collabVersion b)
    (sinkCollabVersion_ i) (sink_appVersion c) (collabDirection_ i) (collabToken_ i) (srcUdid_ i) (sinkUdid_ i)
    (sinkAccountId_ i) (sink_callerInfo c) (sink_accountInfo c)
    (mkCollabMessage (sink_srcPid c) (sink_srcUid c) (sink_srcAccessToken c) (base_srcDeviceId b)
       (base_srcBundleName b) (base_srcAbilityName b) (base_srcModuleName b) (base_srcServerId b) (msg_socketName src))
    (mkCollabMessage (msg_pid sink) (msg_uid sink) (msg_accessToken sink) (base_sinkDeviceId b)
       (base_sinkBundleName b) (base_sinkAbilityName b) (msg_moduleName sink) (msg_serverId sink) (msg_socketName sink))
    (mkConnectOpt (base_needSendBigData b) (base_needSendStream b) (base_needRecvStream b) (sink_startParams c)
       (sink_messageParams c))
    (srcClientCB_ i) (sinkClientCB_ i).

Definition SetSinkCollabInfo (c : SinkStartCmd) : KM unit :=
  _ ← kupdate (set_collab_info (from_sink_start c));
  if OS_ACCOUNT_PART env then
    '(ret, ids) ← kask (KQuery "QueryActiveOsAccountIds") (k_QueryActiveOsAccountIds env);
    match ids with
    | id :: _ => if ret =? ERR_OK then kupdate (set_collab_info (set_sinkUser id)) else mret tt
    | [] => mret tt
    end
  else mret tt.

(** ** Posting events *)

(** The common part of the [Post..Task] methods. *)
Definition post (e : CEvent) : KM Z :=
  d ← kself;
  if negb (collab_handler_ d) then mret INVALID_PARAMETERS_ERR
  else
    sent ← kask (KQuery "SendEvent") (fun h => k_SendEvent env h e);
    if negb sent then mret COLLAB_SEND_EVENT_FAILED
    else _ ← kupdate (fun d => set_collab_queue (collab_queue_ d ++ [e]) d); mret ERR_OK.

Definition PostSrcGetPeerVersionTask : KM Z := post SOURCE_GET_PEER_VERSION_EVENT.
Definition PostSrcGetVersionTask : KM Z := post SOURCE_GET_VERSION_EVENT.
Definition PostSrcStartTask : KM Z := post SOURCE_START_EVENT.
Definition PostSinkGetVersionTask : KM Z := post GET_SINK_VERSION_EVENT.
Definition PostSinkStartTask : KM Z := post START_ABILITY_EVENT.
Definition PostErrEndTask (result : Z) : KM Z := post (ERR_END_EVENT result).
Definition PostAbilityRejectTask (reason : string) : KM Z := post (ABILITY_REJECT_EVENT reason).
Definition PostEndTask : KM Z := post END_EVENT.

Definition PostSinkPrepareResultTask (result collabSessionId : Z) (socketName : string) (clientCB : option Z) : KM Z :=
  d ← kself;
  if negb (collab_handler_ d) then mret INVALID_PARAMETERS_ERR
  else
    _ ← kupdate (set_collab_info (fun i =>
          set_sink collabSessionId (sinkUserId_ i) (sinkAccountId_ i) (set_msg_socket socketName (sinkInfo_ i))
            clientCB i));
    post (NOTIFY_PREPARE_RESULT_EVENT result).

Definition GetUdid (deviceId : string) : KM string :=
  kask (KQuery "GetUdidByNetworkId") (fun h => k_GetUdidByNetworkId env h deviceId).

(** A rejection is posted as such; a result brings the data of the sink. *)
Definition PostSrcResultTask (cmd : NotifyResultCmd) : KM Z :=
  d ← kself;
  if negb (collab_handler_ d) then mret INVALID_PARAMETERS_ERR
  else if negb (String.eqb (notify_abilityRejectReason cmd) "") then
    post (ABILITY_REJECT_EVENT (notify_abilityRejectReason cmd))
  else
    _ ← kupdate (set_collab_info (fun i =>
          set_sink (notify_sinkCollabSessionId cmd) (notify_sinkUserId cmd) (notify_sinkAccountId cmd)
            (set_msg_ids (notify_sinkPid cmd) (msg_uid (sinkInfo_ i)) (notify_sinkAccessToken cmd)
               (set_msg_socket (notify_sinkSocketName cmd) (sinkInfo_ i)))
            (sinkClientCB_ i) i));
    i ← kinfo;
    sink ← GetUdid (msg_deviceId (sinkInfo_ i));
    src ← GetUdid (msg_deviceId (srcInfo_ i));
    _ ← kupdate (set_collab_info (set_udids src sink));
    post (NOTIFY_RESULT_EVENT (notify_result cmd)).

(** ** Commands to the peer *)

Definition pack_base (i : DSchedCollabInfo) (command : Z) : BaseCmd :=
  mkBaseCmd false false false (-1) (-1) command (-1) (collabToken_ i) "" "" "" "" "" "" "" "" "" "".

Definition PackGetPeerVersionCmd (i : DSchedCollabInfo) : GetSinkCollabVersionCmd :=
  mkGetSinkCollabVersionCmd
    (mkBaseCmd false false false (-1) (-1) SINK_GET_VERSION_CMD (srcCollabSessionId_ i) (collabToken_ i)
       (msg_deviceId (srcInfo_ i)) "" "" "" "" (msg_deviceId (sinkInfo_ i)) "" "" "" "")
    (-1) (-1) (-1) (-1).

Definition PackSinkCollabVersionCmd (i : DSchedCollabInfo) : GetSinkCollabVersionCmd :=
  mkGetSinkCollabVersionCmd
    (mkBaseCmd false false false (-1) (-1) SOURCE_GET_VERSION_CMD (-1) (collabToken_ i)
       (msg_deviceId (srcInfo_ i)) "" "" "" "" (msg_deviceId (sinkInfo_ i)) "" "" "" "")
    (-1) (-1) (-1) DSCHED_COLLAB_PROTOCOL_VERSION.

Definition PackNotifyResultCmd (i : DSchedCollabInfo) (result : Z) (reason : string) : NotifyResultCmd :=
  mkNotifyResultCmd (pack_base i NOTIFY_RESULT_CMD) result (sinkCollabSessionId_ i) (msg_pid (sinkInfo_ i))
    (msg_accessToken (sinkInfo_ i)) (sinkUserId_ i) (sinkAccountId_ i) (msg_socketName (sinkInfo_ i)) reason.

Definition PackDisconnectCmd (i : DSchedCollabInfo) : BaseCmd := pack_base i DISCONNECT_CMD.

(** The caller and its account, asked from the bundle manager and the device
    manager; what was packed is kept in the session. *)
Definition PackPartCmd (c : SinkStartCmd) : KM (Z * SinkStartCmd) :=
  '(ret, versionCode) ← kask (KQuery "GetLocalBundleInfoV9")
     (fun h => k_GetLocalBundleInfoV9 env h (base_srcBundleName (sink_base c)));
  if negb (ret =? ERR_OK) then mret (ret, c)
  else
    i ← kinfo;
    let uid := msg_uid (srcInfo_ i) in
    appId ← kask (KQuery "GetCallerAppIdFromBms") (fun h => k_GetCallerAppIdFromBms env h uid);
    match appId with
    | None => mret (GET_APPID_ERR, c)
    | Some appId =>
        names ← kask (KQuery "GetBundleNameListFromBms") (fun h => k_GetBundleNameListFromBms env h uid);
        match names with
        | None => mret (GET_BUNDLENAMELIST_ERR, c)
        | Some names =>
            let caller := mkCallerInfo uid (-1) CALLER_TYPE_NONE (msg_deviceId (srcInfo_ i)) (-1) appId names (-1)
                            (u32 (msg_accessToken (srcInfo_ i)))
                            (set_member JNull DMS_VERSION_ID (JNumber DMS_VERSION)) in
            '(ret, account) ← kask (KQuery "GetAccountInfo")
               (fun h => k_GetAccountInfo env h (msg_deviceId (sinkInfo_ i)) caller);
            if negb (ret =? ERR_OK) then mret (GET_ACCOUNT_INFO_ERR, c)
            else
              _ ← kupdate (set_collab_info (set_caller caller account));
              mret (ERR_OK, mkSinkStartCmd (sink_base c) (sink_srcPid c) (sink_srcUid c) (sink_srcAccessToken c)
                              (i32 versionCode) caller account (sink_startParams c) (sink_messageParams c))
        end
    end.

Definition PackStartCmd : KM (Z * SinkStartCmd) :=
  i ← kinfo;
  let src := srcInfo_ i in
  let sink := sinkInfo_ i in
  let opt := srcOpt_ i in
  PackPartCmd
    (mkSinkStartCmd
       (mkBaseCmd (opt_needSendBigData opt) (opt_needSendStream opt) (opt_needRecvStream opt) (srcCollabVersion_ i)
          DMS_VERSION SINK_START_CMD (srcCollabSessionId_ i) (collabToken_ i)
          (msg_deviceId src) (msg_bundleName src) (msg_abilityName src) (msg_moduleName src) (msg_serverId src)
          (msg_deviceId sink) (msg_bundleName sink) (msg_abilityName sink) (msg_moduleName sink) (msg_serverId sink))
       (msg_pid src) (msg_uid src) (msg_accessToken src) (-1) CallerInfo_default AccountInfo_default
       (opt_startParams opt) (opt_messageParams opt)).

(** The command is marshalled and copied into a buffer with one more byte. *)
Definition SendCommand (cmd : CollabCmd) : KM Z :=
  _ ← kcall (KSendCommand cmd);
  match MarshalCollab cmd with
  | None => mret INVALID_PARAMETERS_ERR
  | Some text =>
      let json := str_bytes text in
      let buffer := DSchedDataBuffer_new (u64 (len json + 1)) in
      match buf_write buffer 0 (Capacity buffer) (Some json) 0 (len json) with
      | BufOk buffer =>
          d ← kself;
          kask (KSendData (collab_softbus_ d) buffer) (fun h => k_SendData env h (collab_softbus_ d) buffer)
      | _ => mret MEMCPY_S_FAIL
      end
  end.

(** ** Requests to the client *)

(** A parcel with the interface token, numbers and texts; [Some error] when one
    of them cannot be written. *)
Definition write_token (failure : Z) : KM (option Z) :=
  ok ← kask (KQuery "WriteInterfaceToken") (k_WriteInterfaceToken env);
  mret (if ok : bool then None else Some failure).

Fixpoint write_ints (ns : list Z) : KM (option Z) :=
  match ns with
  | [] => mret None
  | n :: ns =>
      ok ← kask (KQuery "WriteInt32") (fun h => k_WriteInt32 env h n);
      if ok : bool then write_ints ns else mret (Some (K_ERR_FLATTEN_OBJECT env))
  end.

Fixpoint write_strings (ss : list string) : KM (option Z) :=
  match ss with
  | [] => mret None
  | s :: ss =>
      ok ← kask (KQuery "WriteString") (fun h => k_WriteString env h s);
      if ok : bool then write_strings ss else mret (Some (K_ERR_FLATTEN_OBJECT env))
  end.

Definition or_else (m : KM (option Z)) (k : KM Z) : KM Z :=
  r ← m; match r with Some e => mret e | None => k end.

Definition SendRequest (callback : option Z) (code sessionId result : Z) : KM Z :=
  kask (KSendRequest callback code sessionId result) (fun h => k_SendRequest env h code).

(** The source does not test the callback: a call through a null pointer, which ends the
    process, is the call [KSendRequest None] of the log. *)
Definition SrcPeerVersionNotify : KM Z :=
  i ← kinfo;
  or_else (write_token INVALID_PARAMETERS_ERR)
    (or_else (write_ints [srcCollabSessionId_ i; sinkCollabVersion_ i])
       (SendRequest (srcClientCB_ i) NOTIFY_PEER_COLLAB_VERSION (srcCollabSessionId_ i) (sinkCollabVersion_ i))).

Definition ExeSrcClientNotify (result : Z) (reason : string) : KM Z :=
  i ← kinfo;
  match srcClientCB_ i with
  | None => mret INVALID_PARAMETERS_ERR
  | Some cb =>
      or_else (write_token INVALID_PARAMETERS_ERR)
        (or_else (write_ints [srcCollabSessionId_ i; result])
           (or_else (write_strings [msg_socketName (sinkInfo_ i); collabToken_ i; reason])
              (SendRequest (Some cb) NOTIFY_COLLAB_PREPARE_RESULT (srcCollabSessionId_ i) result)))
  end.

(** The identifier and the callback object of this side. *)
Definition own_client (i : DSchedCollabInfo) : option (Z * Z) :=
  if collabDirection_ i =? COLLAB_SOURCE
  then match srcClientCB_ i with None => None | Some cb => Some (srcCollabSessionId_ i, cb) end
  else match sinkClientCB_ i with None => None | Some cb => Some (sinkCollabSessionId_ i, cb) end.

Definition notify_own_client (code : Z) : KM Z :=
  i ← kinfo;
  match own_client i with
  | None => mret (K_ERR_NULL_OBJECT env)
  | Some (sessionId, cb) =>
      or_else (write_token SEND_REQUEST_DEF_FAIL)
        (or_else (write_ints [sessionId])
           (ret ← SendRequest (Some cb) code sessionId 0;
            mret (if negb (ret =? ERR_OK) then SEND_REQUEST_DEF_FAIL else ERR_OK)))
  end.

Definition ExeClientDisconnectNotify : KM Z := notify_own_client NOTIFY_COLLAB_DISCONNECT.
Definition NotifyWifiOpen : KM Z := notify_own_client NOTIFY_WIFI_OPEN.

(** ** The end of a session *)

(** [DSchedCollabManager::CleanUpSession]: the timeout is removed and the session
    leaves the table. *)
Definition Manager_CleanUpSession (token : string) : KM Z :=
  fun s =>
    if String.eqb token "" || negb (bool_decide (token ∈ tokens_ s)) then (INVALID_PARAMETERS_ERR, s)
    else (ERR_OK, mkKState (self s) (List.filter (fun t => negb (String.eqb t token)) (tokens_ s))
                    (List.filter (fun p => negb (String.eqb p.1 token)) (named_ s)) (kcalls_ s)).

Definition CleanUpSession : KM Z :=
  i ← kinfo;
  _ ← (if collabDirection_ i =? COLLAB_SOURCE then kcall (KDisconnectDevice (msg_deviceId (sinkInfo_ i)))
       else mret tt);
  _ ← ExeClientDisconnectNotify;
  Manager_CleanUpSession (collabToken_ i).

(** ** Observation of the application *)

Definition RegisterAbilityLifecycleObserver (bundleName : string) : KM bool :=
  app ← kask (KQuery "GetAppManager") (k_GetAppManager env);
  if negb app then mret false
  else
    _ ← kupdate (set_collab_observer true);
    ret ← kask (KRegisterObserver bundleName) (fun h => k_RegisterObserver env h bundleName);
    mret (ret =? ERR_OK).

Definition UnregisterAbilityLifecycleObserver : KM unit :=
  d ← kself;
  if negb (appStateObserver_ d) then mret tt
  else
    app ← kask (KQuery "GetAppManager") (k_GetAppManager env);
    if negb app then mret tt
    else _ ← kask KUnregisterObserver (k_UnregisterObserver env); mret tt.

(** The destructor: the observer is withdrawn and the event thread is joined.
    [onOwnThread] says whether it is the event thread that runs it. *)
Definition DSchedCollab_destroy (onOwnThread : bool) : KM unit :=
  _ ← UnregisterAbilityLifecycleObserver;
  i ← kinfo;
  _ ← kcall (KDestroyed onOwnThread (collabToken_ i));
  kupdate (set_collab_handler false).

(** ** The source side *)

Definition ConnectDevice : KM Z :=
  i ← kinfo;
  d ← kself;
  let peer := msg_deviceId (sinkInfo_ i) in
  '(ret, id) ← kask (KConnectDevice peer) (fun h => k_ConnectDevice env h peer (collab_softbus_ d));
  _ ← kupdate (set_collab_softbus id);
  mret ret.

Definition ExeSrcGetPeerVersion : KM Z :=
  ret ← ConnectDevice;
  if negb (ret =? ERR_OK) then mret ret
  else
    i ← kinfo;
    SendCommand (CmdGetVersion (PackGetPeerVersionCmd i)).

Definition ExeSrcGetVersion : KM Z :=
  ret ← SrcPeerVersionNotify;
  if negb (ret =? ERR_OK) then PostErrEndTask ret else mret ERR_OK.

Definition ExeSrcStart : KM Z :=
  ret ← ConnectDevice;
  if negb (ret =? ERR_OK) then mret ret
  else
    '(ret, cmd) ← PackStartCmd;
    if negb (ret =? ERR_OK) then mret ret
    else
      ret ← SendCommand (CmdSinkStart cmd);
      if negb (ret =? ERR_OK) then mret ret
      else
        _ ← UpdateState SOURCE_WAIT_RESULT_STATE;
        i ← kinfo;
        _ ← RegisterAbilityLifecycleObserver (msg_bundleName (srcInfo_ i));
        mret ERR_OK.

(** A rejection ends the session; a failed notification is posted with the result
    of the sink. *)
Definition ExeSrcCollabResult (result : Z) (reason : string) : KM Z :=
  if negb (result =? ERR_OK) && negb (result =? COLLAB_ABILITY_REJECT_ERR) then PostErrEndTask result
  else
    ret ← ExeSrcClientNotify result reason;
    if negb (String.eqb reason "") then CleanUpSession
    else if negb (ret =? ERR_OK) then PostErrEndTask result
    else _ ← UpdateState COLLAB_SOURCE_WAIT_END_STATE; mret ERR_OK.

Definition ExeSrcGetPeerVersionError (result : Z) : KM Z :=
  _ ← ExeSrcClientNotify result ""; _ ← CleanUpSession; mret ERR_OK.

Definition ExeSrcStartError (result : Z) : KM Z :=
  _ ← ExeSrcClientNotify result ""; _ ← CleanUpSession; mret ERR_OK.

Definition notify_peer (result : Z) (reason : string) : KM Z :=
  i ← kinfo; SendCommand (CmdNotifyResult (PackNotifyResultCmd i result reason)).

Definition ExeSrcWaitResultError (result : Z) : KM Z :=
  _ ← notify_peer result ""; _ ← ExeSrcClientNotify result ""; _ ← CleanUpSession; mret ERR_OK.

(** ** The sink side *)

Definition ExeSinkGetVersion : KM Z :=
  i ← kinfo;
  _ ← SendCommand (CmdGetVersion (PackSinkCollabVersionCmd i));
  _ ← UpdateState COLLAB_SINK_START_STATE;
  mret ERR_OK.

Definition IsStartForeground (i : DSchedCollabInfo) : bool :=
  match Params_QueryString (opt_startParams (srcOpt_ i)) KEY_START_OPTION with
  | Some startOpt => if String.eqb startOpt VALUE_START_OPTION_BACKGROUND then false else true
  | None => true
  end.

Definition SetScreenLockParameters (params : WantParams) : KM WantParams :=
  secure ← kask (KQuery "GetSecure") (k_GetSecure env);
  locked ← kask (KQuery "IsLocked") (k_IsLocked env);
  mret (Params_SetBool (Params_SetBool params "isSecureMode" secure) "isFromScreenLock" locked).

Definition GenerateCollabWant : KM Want :=
  i ← kinfo;
  let src := srcInfo_ i in
  let sink := sinkInfo_ i in
  let want := Want_AddFlags Want_new FLAG_ABILITY_ON_COLLABORATE in
  let want := SetParamString want "deviceId" (msg_deviceId sink) in
  let want := SetElementName3 want (msg_deviceId sink) (msg_bundleName sink) (msg_abilityName sink) in
  let peer := Params_SetString WantParams_new "deviceId" (msg_deviceId src) in
  let peer := Params_SetString peer "bundleName" (msg_bundleName src) in
  let peer := Params_SetString peer "moduleName" (msg_moduleName src) in
  let peer := Params_SetString peer "abilityName" (msg_abilityName src) in
  let peer := Params_SetString peer "serverId" (msg_serverId src) in
  let opt := Params_SetBool WantParams_new "needSendData" (opt_needSendBigData (srcOpt_ i)) in
  let opt := Params_SetBool opt "needSendStream" (opt_needSendStream (srcOpt_ i)) in
  let opt := Params_SetBool opt "needReceiveStream" (opt_needRecvStream (srcOpt_ i)) in
  let opt := Params_SetParams opt "parameters" (opt_messageParams (srcOpt_ i)) in
  let collab := Params_SetParams WantParams_new "PeerInfo" peer in
  let collab := Params_SetParams collab "ConnectOption" opt in
  let collab := Params_SetString collab "ohos.dms.collabToken" (collabToken_ i) in
  params ← SetScreenLockParameters WantParams_new;
  let params := Params_SetParams params "ohos.extra.param.key.supportCollaborateIndex" collab in
  let params := Params_SetBool params "ohos.aafwk.param.callAbilityToForeground" (IsStartForeground i) in
  mret (Want_SetParams want params).

(** The permission is checked before the ability is started. The want is the one that
    was checked: of its parameters the check takes the two off that carry the version
    and the background state of a caller, which are left in it here. *)
Definition ExeStartAbility : KM Z :=
  want ← GenerateCollabWant;
  i ← kinfo;
  ret ← kask (KCheckPermission want)
          (fun h => k_CheckCollabStartPermission env h want (callerInfo_ i) (srcAccountInfo_ i));
  if negb (ret =? ERR_OK) then mret ret
  else
    ret ← kask (KQuery "AbilityManagerClient::Connect") (k_AbilityManagerConnect env);
    if negb (ret =? ERR_OK) then mret ret
    else
      ret ← kask (KStartAbilityByCall want) (fun h => k_StartAbilityByCall env h want);
      if negb (ret =? ERR_OK) then PostErrEndTask ret
      else
        _ ← UpdateState SINK_CONNECT_STATE;
        i ← kinfo;
        _ ← RegisterAbilityLifecycleObserver (msg_bundleName (sinkInfo_ i));
        mret ERR_OK.

Definition SaveSinkAbilityData (sinkPid sinkUid sinkAccessTokenId : Z) : KM Z :=
  _ ← kupdate (set_collab_info (fun i =>
        set_sink (sinkCollabSessionId_ i) (sinkUserId_ i) (sinkAccountId_ i)
          (set_msg_ids sinkPid sinkUid sinkAccessTokenId (sinkInfo_ i)) (sinkClientCB_ i) i));
  mret ERR_OK.

Definition ExeAbilityRejectError (reason : string) : KM Z :=
  _ ← notify_peer COLLAB_ABILITY_REJECT_ERR reason; _ ← CleanUpSession; mret ERR_OK.

Definition ExeSinkPrepareResult (result : Z) : KM Z :=
  if negb (result =? ERR_OK) && negb (result =? COLLAB_ABILITY_REJECT_ERR) then PostErrEndTask result
  else
    ret ← notify_peer result "";
    if negb (ret =? ERR_OK) then mret ret
    else
      _ ← UpdateState COLLAB_SINK_WAIT_END_STATE;
      i ← kinfo;
      src ← GetUdid (msg_deviceId (srcInfo_ i));
      sink ← GetUdid (msg_deviceId (sinkInfo_ i));
      _ ← kupdate (set_collab_info (set_udids src sink));
      mret ERR_OK.

Definition ExeSinkError (result : Z) : KM Z :=
  _ ← notify_peer result ""; _ ← CleanUpSession; mret ERR_OK.
Definition ExeSinkGetVersionError (result : Z) : KM Z :=
  _ ← notify_peer result ""; _ ← CleanUpSession; mret ERR_OK.
Definition ExeSinkStartError (result : Z) : KM Z :=
  _ ← notify_peer result ""; _ ← CleanUpSession; mret ERR_OK.
Definition ExeSinkConnectError (result : Z) : KM Z :=
  _ ← notify_peer result ""; _ ← CleanUpSession; mret ERR_OK.

Definition ExeDisconnect : KM Z :=
  i ← kinfo;
  _ ← SendCommand (CmdDisconnect (PackDisconnectCmd i));
  _ ← CleanUpSession;
  mret ERR_OK.

(** ** Data from the peer *)

(** The text of a buffer of the transport. *)
Definition buffer_text (b : DataBuffer) : string :=
  bytes_str (match Data b with Some d => slice d (rangeOffset_ b) (Capacity b) | None => [] end).

Definition OnDataRecv (command : Z) (dataBuffer : option DataBuffer) : KM unit :=
  match dataBuffer with
  | None => mret tt
  | Some b =>
      let jsonStr := buffer_text b in
      if command =? SOURCE_GET_VERSION_CMD then
        match UnmarshalGetVersion jsonStr with
        | None => _ ← PostErrEndTask INVALID_PARAMETERS_ERR; mret tt
        | Some c =>
            _ ← kupdate (set_collab_info (set_sinkVersion (version_sinkCollabVersion c)));
            _ ← PostSrcGetVersionTask; mret tt
        end
      else if command =? SINK_START_CMD then
        match UnmarshalSinkStart jsonStr with
        | None => _ ← PostErrEndTask INVALID_PARAMETERS_ERR; mret tt
        | Some c => _ ← SetSinkCollabInfo c; _ ← PostSinkStartTask; mret tt
        end
      else if command =? NOTIFY_RESULT_CMD then
        match UnmarshalNotifyResult jsonStr with
        | None => _ ← PostErrEndTask INVALID_PARAMETERS_ERR; mret tt
        | Some c => _ ← PostSrcResultTask c; mret tt
        end
      else if command =? DISCONNECT_CMD then _ ← CleanUpSession; mret tt
      else mret tt
  end.
End Ops.
