(* ===== verification/CollabStates.v ===== *)
(** The state machine of a collaboration: the eight states under
    services/dtbschedmgr/src/collab/state/, [DSchedCollabStateMachine] and the
    processing of events ([DSchedCollab::ProcessEvent],
    dsched_collab_event_handler.cpp). *)

From S2P Require Import Prelude DataBuffer SchedErrors SchedUtils Json ContinueInfo ContinueSession ContinueCmd ContinueDemo ContinueCmdProps CollabCmd CollabSession CollabOps.
#[local] Open Scope string_scope.
#[local] Open Scope list_scope.
#[local] Open Scope Z_scope.

Section States.
Context {W : WantApi} {CW : CollabWantApi} {CJ : CJson} {PA : ParcelApi} {PP : Parcelable WantParams}.
Variable env : CEnv.

(** ** Source side *)

Definition SrcGetPeerVersionState_Execute (e : CEvent) : KM Z :=
  match e with
  | SOURCE_GET_PEER_VERSION_EVENT => ExeSrcGetPeerVersion env
  | SOURCE_GET_VERSION_EVENT => ExeSrcGetVersion env
  | ERR_END_EVENT r => ExeSrcGetPeerVersionError env r
  | _ => mret COLLAB_STATE_MACHINE_INVALID_STATE
  end.

Definition SrcStartState_Execute (e : CEvent) : KM Z :=
  match e with
  | SOURCE_START_EVENT => ExeSrcStart env
  | ERR_END_EVENT r => ExeSrcStartError env r
  | _ => mret COLLAB_STATE_MACHINE_INVALID_STATE
  end.

Definition SrcWaitResultState_Execute (e : CEvent) : KM Z :=
  match e with
  | NOTIFY_RESULT_EVENT r => ExeSrcCollabResult env r ""
  | ABILITY_REJECT_EVENT reason => ExeSrcCollabResult env COLLAB_ABILITY_REJECT_ERR reason
  | ERR_END_EVENT r => ExeSrcWaitResultError env r
  | _ => mret COLLAB_STATE_MACHINE_INVALID_STATE
  end.

Definition SrcWaitEndState_Execute (e : CEvent) : KM Z :=
  match e with
  | ERR_END_EVENT _ | END_EVENT => ExeDisconnect env
  | _ => mret COLLAB_STATE_MACHINE_INVALID_STATE
  end.

(** ** Sink side *)

Definition SinkGetVersionState_Execute (e : CEvent) : KM Z :=
  match e with
  | GET_SINK_VERSION_EVENT => ExeSinkGetVersion env
  | ERR_END_EVENT r => ExeSinkGetVersionError env r
  | _ => mret COLLAB_STATE_MACHINE_INVALID_STATE
  end.

Definition SinkStartState_Execute (e : CEvent) : KM Z :=
  match e with
  | START_ABILITY_EVENT => ExeStartAbility env
  | ERR_END_EVENT r => ExeSinkStartError env r
  | _ => mret COLLAB_STATE_MACHINE_INVALID_STATE
  end.

Definition SinkConnectState_Execute (e : CEvent) : KM Z :=
  match e with
  | NOTIFY_PREPARE_RESULT_EVENT r => ExeSinkPrepareResult env r
  | ABILITY_REJECT_EVENT reason => ExeAbilityRejectError env reason
  | ERR_END_EVENT r => ExeSinkConnectError env r
  | _ => mret COLLAB_STATE_MACHINE_INVALID_STATE
  end.

Definition SinkWaitEndState_Execute (e : CEvent) : KM Z :=
  match e with
  | ERR_END_EVENT _ | END_EVENT => ExeDisconnect env
  | _ => mret COLLAB_STATE_MACHINE_INVALID_STATE
  end.

(** ** The state machine *)

(** [CreateState] and the virtual call of [Execute]. *)
Definition state_Execute (st : CollabStateType) : CEvent -> KM Z :=
  match st with
  | SOURCE_GET_PEER_VERSION_STATE => SrcGetPeerVersionState_Execute
  | COLLAB_SOURCE_START_STATE => SrcStartState_Execute
  | SOURCE_WAIT_RESULT_STATE => SrcWaitResultState_Execute
  | COLLAB_SOURCE_WAIT_END_STATE => SrcWaitEndState_Execute
  | SINK_GET_VERSION_STATE => SinkGetVersionState_Execute
  | COLLAB_SINK_START_STATE => SinkStartState_Execute
  | SINK_CONNECT_STATE => SinkConnectState_Execute
  | COLLAB_SINK_WAIT_END_STATE => SinkWaitEndState_Execute
  end.

Definition Machine_Execute (e : CEvent) : KM Z :=
  d ← kself;
  match collab_state_ d with
  | None => mret INVALID_PARAMETERS_ERR
  | Some st => state_Execute st e
  end.

(** A failed event posts the end with the result of the failure. *)
Definition ProcessEvent (e : CEvent) : KM unit :=
  d ← kself;
  if negb (collab_machine_ d) then mret tt
  else
    ret ← Machine_Execute e;
    if negb (ret =? ERR_OK) then _ ← PostErrEndTask env ret; mret tt else mret tt.

(** A session that is in nobody's table any more is destroyed. *)
Definition release (onOwnThread : bool) : KM unit :=
  fun s =>
    if bool_decide (collabToken_ (collabInfo_ (self s)) ∈ tokens_ s) then (tt, s)
    else DSchedCollab_destroy env onOwnThread s.

(** [DSchedCollabEventHandler::ProcessEvent] on the first event of the queue. The
    handler holds the session while it processes the event; when the event took the
    session out of the manager's table, releasing it runs the destructor on this
    thread, the one the destructor joins. *)
Definition handle_next : KM bool :=
  d ← kself;
  match collab_queue_ d with
  | [] => mret false
  | e :: q =>
      if negb (collab_handler_ d) then mret false
      else
        _ ← kupdate (set_collab_queue q);
        _ ← ProcessEvent e;
        _ ← release true;
        mret true
  end.

(** The handler until it has nothing to do; [None]: [fuel] was not enough. *)
Definition idle (s : KState) : bool :=
  negb (collab_handler_ (self s)) || match collab_queue_ (self s) with [] => true | _ => false end.

Fixpoint drain (fuel : nat) (s : KState) : option KState :=
  if idle s then Some s
  else match fuel with
       | O => None
       | S fuel => drain fuel (snd (handle_next s))
       end.
End States.

(** * Concrete surroundings of a collaboration: every question is answered
    favourably. The hypotheses of the theorems on collaborations hold here. *)

#[local] Open Scope string_scope.
#[local] Open Scope list_scope.
#[local] Open Scope Z_scope.

#[global] Instance DemoCollabWant : CollabWantApi := {
  WantParams_new := tt;
  Params_SetString _ _ _ := tt;
  Params_SetBool _ _ _ := tt;
  Params_SetParams _ _ _ := tt;
  Params_QueryString _ _ := None;
  Want_AddFlags w f := SetFlags w (Z.lor (GetFlags w) f);
  Want_SetParams w _ := w;
  FLAG_ABILITY_ON_COLLABORATE := 8192;
}.
#[global] Existing Instances BinaryJson BinaryJsonLaws DemoParcel DemoWantParamsWire DemoWantParamsWireLaws.

(** The device is ["A"]; connections get the session 5. *)
Definition demo_cenv : CEnv := {|
  OS_ACCOUNT_PART := true;
  k_EventRunner_Create := fun _ => true;
  k_SendEvent := fun _ _ => true;
  k_ConnectDevice := fun _ _ _ => (0, 5);
  k_SendData := fun _ _ _ => 0;
  k_GetLocalBundleInfoV9 := fun _ _ => (0, 1);
  k_GetCallerAppIdFromBms := fun _ _ => Some "app";
  k_GetBundleNameListFromBms := fun _ _ => Some ["app"];
  k_GetAccountInfo := fun _ _ _ => (0, AccountInfo_default);
  k_CheckCollabStartPermission := fun _ _ _ _ => 0;
  k_AbilityManagerConnect := fun _ => 0;
  k_StartAbilityByCall := fun _ _ => 0;
  k_GetSecure := fun _ => true;
  k_IsLocked := fun _ => false;
  k_GetUdidByNetworkId := fun _ d => "udid" +:+ d;
  k_QueryActiveOsAccountIds := fun _ => (0, [100]);
  k_WriteInterfaceToken := fun _ => true;
  k_WriteInt32 := fun _ _ => true;
  k_WriteString := fun _ _ => true;
  k_SendRequest := fun _ _ => 0;
  k_GetAppManager := fun _ => true;
  k_RegisterObserver := fun _ _ => 0;
  k_UnregisterObserver := fun _ => 0;
  K_ERR_FLATTEN_OBJECT := 5;
  K_ERR_NULL_OBJECT := 7;
|}.

Definition demo_collab_info (direction : Z) : DSchedCollabInfo :=
  mkCollabInfo 7 8 100 1 1 1 direction "token" "" "" 0 demo_caller AccountInfo_default
    (mkCollabMessage 10 20 30 "A" "app" "Main" "entry" "srv" "")
    (mkCollabMessage 11 21 31 "B" "app" "Main" "entry" "srv" "") ConnectOpt_default (Some 1) (Some 2).

(** A session with the given direction, state and queue, in a table with another. *)
Definition demo_kstate (direction : Z) (st : CollabStateType) (q : list CEvent) : KState :=
  mkKState (mkDCollab true (Some st) true q (demo_collab_info direction) 5 true) ["other"; "token"]
    [("other", TaskTimeout "other"); ("token", TaskTimeout "token")] [].

(** A collaboration that is started and rejected ends with both queues empty. *)
Example demo_rejected :
  option_map (fun s => (tokens_ s, collab_handler_ (self s)))
    (drain demo_cenv 4 (demo_kstate COLLAB_SOURCE COLLAB_SOURCE_START_STATE
                          [SOURCE_START_EVENT; ABILITY_REJECT_EVENT "no"]))
  = Some (["other"], false).
Proof. vm_compute. reflexivity. Qed.
