(* ===== verification/CollabSpec.v ===== *)
(** What the methods of a collaboration do to its core: the state, the queue, the
    manager's table and the manager's named tasks. Everything else they do is
    recorded as calls that are harmless: they neither connect nor disconnect nor
    start an ability nor destroy a session, and no request goes to a null
    object. *)

From S2P Require Import Prelude DataBuffer SchedErrors SchedUtils Json ContinueInfo ContinueSession ContinueCmd CollabCmd CollabSession CollabOps CollabStates.
#[local] Open Scope string_scope.
#[local] Open Scope list_scope.
#[local] Open Scope Z_scope.

Section Spec.
Context {W : WantApi} {CW : CollabWantApi} {CJ : CJson} {PA : ParcelApi} {PP : Parcelable WantParams}.
Variable env : CEnv.

Record Core := mkCore {
  c_machine : bool;
  c_state : option CollabStateType;
  c_handler : bool;
  c_queue : list CEvent;
  c_token : string;
  c_direction : Z;
  c_srcCB : option Z;
  c_srcSession : Z;
  c_peer : string;
  c_tokens : list string;
  c_named : list (string * NamedTask);
}.

Definition core (s : KState) : Core :=
  let d := self s in
  mkCore (collab_machine_ d) (collab_state_ d) (collab_handler_ d) (collab_queue_ d) (collabToken_ (collabInfo_ d))
    (collabDirection_ (collabInfo_ d)) (srcClientCB_ (collabInfo_ d))
    (srcCollabSessionId_ (collabInfo_ d)) (msg_deviceId (sinkInfo_ (collabInfo_ d))) (tokens_ s) (named_ s).

Definition core_state (st : CollabStateType) (c : Core) : Core :=
  if c_machine c then
    mkCore (c_machine c) (Some st) (c_handler c) (c_queue c) (c_token c) (c_direction c) (c_srcCB c) (c_srcSession c) (c_peer c) (c_tokens c)
      (c_named c)
  else c.

Definition core_queue (q : list CEvent) (c : Core) : Core :=
  mkCore (c_machine c) (c_state c) (c_handler c) q (c_token c) (c_direction c) (c_srcCB c) (c_srcSession c) (c_peer c) (c_tokens c) (c_named c).

Definition core_post (e : CEvent) (c : Core) : Core := core_queue (c_queue c ++ [e]) c.

(** The session is in the manager's table. *)
Definition registered (c : Core) : bool := negb (String.eqb (c_token c) "") && bool_decide (c_token c ∈ c_tokens c).

Definition core_clean (c : Core) : Core :=
  if registered c then
    mkCore (c_machine c) (c_state c) (c_handler c) (c_queue c) (c_token c) (c_direction c) (c_srcCB c) (c_srcSession c) (c_peer c)
      (List.filter (fun t => negb (String.eqb t (c_token c))) (c_tokens c))
      (List.filter (fun p => negb (String.eqb p.1 (c_token c))) (c_named c))
  else c.

Definition harmless (c : CCall) : bool :=
  match c with
  | KConnectDevice _ | KDisconnectDevice _ | KCheckPermission _ | KStartAbilityByCall _ | KDestroyed _ _
  | KSendRequest None _ _ _ => false
  | _ => true
  end.

(** The calls between two states. *)
Definition logged (P : CCall -> bool) (s s' : KState) : Prop :=
  exists l, kcalls_ s' = kcalls_ s ++ l /\ forallb P l = true.

Lemma logged_refl P s : logged P s s.
Proof. exists []. by rewrite app_nil_r. Qed.

Lemma logged_trans P s1 s2 s3 : logged P s1 s2 -> logged P s2 s3 -> logged P s1 s3.
Proof.
  intros (l1 & H1 & F1) (l2 & H2 & F2). exists (l1 ++ l2).
  rewrite H2, H1, app_assoc. split; [done|]. by rewrite forallb_app, F1, F2.
Qed.

(** ** Methods that leave the core alone *)

Definition quiet {A} (m : KM A) : Prop :=
  forall s, core (snd (m s)) = core s /\ logged harmless s (snd (m s)).

Lemma kbind_run {A B} (m : KM A) (f : A -> KM B) s : (m ≫= f) s = f (fst (m s)) (snd (m s)).
Proof. unfold mbind, KM_bind. by destruct (m s). Qed.

Lemma quiet_ret {A} (a : A) : quiet (mret a : KM A).
Proof. intros s. split; [done | apply logged_refl]. Qed.

Lemma quiet_bind {A B} (m : KM A) (f : A -> KM B) : quiet m -> (forall a, quiet (f a)) -> quiet (m ≫= f).
Proof.
  intros Hm Hf s. rewrite kbind_run. destruct (Hm s) as [H1 L1].
  destruct (Hf (fst (m s)) (snd (m s))) as [H2 L2]. split; [congruence | by eapply logged_trans].
Qed.

Lemma quiet_self : quiet kself.
Proof. intros s. split; [done | apply logged_refl]. Qed.

Lemma quiet_info : quiet kinfo.
Proof. intros s. split; [done | apply logged_refl]. Qed.

Lemma quiet_call c : harmless c = true -> quiet (kcall c).
Proof. intros H s. split; [done|]. exists [c]. simpl. by rewrite H. Qed.

Lemma quiet_ask {A} c (f : list CCall -> A) : harmless c = true -> quiet (kask c f).
Proof. intros H s. split; [done|]. exists [c]. simpl. by rewrite H. Qed.

(** Updates outside the core. *)
Lemma quiet_update f :
  (forall s, core (mkKState (f (self s)) (tokens_ s) (named_ s) (kcalls_ s)) = core s) -> quiet (kupdate f).
Proof. intros H s. split; [apply H|]. exists []. simpl. by rewrite app_nil_r. Qed.
End Spec.

(** [quiet_tac] walks through a method. *)
Ltac quiet_tac :=
  repeat lazymatch goal with
  | |- quiet (mret _) => apply quiet_ret
  | |- quiet (mbind _ _) => apply quiet_bind; [|intros ?]
  | |- quiet kself => apply quiet_self
  | |- quiet kinfo => apply quiet_info
  | |- quiet (kcall _) => apply quiet_call; reflexivity
  | |- quiet (kask _ _) => apply quiet_ask; reflexivity
  | |- quiet (kupdate _) => apply quiet_update; reflexivity
  | |- quiet (match ?x with _ => _ end) => destruct x
  | |- quiet (let '_ := ?x in _) => destruct x
  | |- quiet _ => fail
  end; try done.

Section QuietMethods.
Context {W : WantApi} {CW : CollabWantApi} {CJ : CJson} {PA : ParcelApi} {PP : Parcelable WantParams}.
Variable env : CEnv.

Lemma quiet_write_ints ns : quiet (write_ints env ns).
Proof. induction ns as [|n ns IH]; simpl; quiet_tac. Qed.

Lemma quiet_write_strings ss : quiet (write_strings env ss).
Proof. induction ss as [|n ss IH]; simpl; quiet_tac. Qed.

Lemma quiet_or_else m k : quiet m -> quiet k -> quiet (or_else m k).
Proof. intros Hm Hk. unfold or_else. apply quiet_bind; [done|]. intros [e|]; [apply quiet_ret | done]. Qed.

Lemma quiet_write_token e : quiet (write_token env e).
Proof. unfold write_token. quiet_tac. Qed.

Lemma quiet_SendRequest cb code id r : quiet (SendRequest env (Some cb) code id r).
Proof. unfold SendRequest. quiet_tac. Qed.

Lemma quiet_ExeSrcClientNotify r reason : quiet (ExeSrcClientNotify env r reason).
Proof.
  unfold ExeSrcClientNotify. apply quiet_bind; [apply quiet_info|]. intros i. destruct (srcClientCB_ i); [|apply quiet_ret].
  repeat (apply quiet_or_else; [first [apply quiet_write_token | apply quiet_write_ints | apply quiet_write_strings]|]).
  apply quiet_SendRequest.
Qed.

Lemma quiet_notify_own_client code : quiet (notify_own_client env code).
Proof.
  unfold notify_own_client. apply quiet_bind; [apply quiet_info|]. intros i. destruct (own_client i) as [[id cb]|]; [|apply quiet_ret].
  repeat (apply quiet_or_else; [first [apply quiet_write_token | apply quiet_write_ints]|]).
  apply quiet_bind; [apply quiet_SendRequest | intros; apply quiet_ret].
Qed.

Lemma quiet_SendCommand cmd : quiet (SendCommand env cmd).
Proof.
  unfold SendCommand. apply quiet_bind; [by apply quiet_call|]. intros _.
  destruct (MarshalCollab cmd) as [text|]; [|apply quiet_ret].
  destruct (buf_write _ _ _ _ _ _); quiet_tac.
Qed.

Lemma quiet_notify_peer r reason : quiet (notify_peer env r reason).
Proof. unfold notify_peer. apply quiet_bind; [apply quiet_info|]. intros i. apply quiet_SendCommand. Qed.

Lemma quiet_GetUdid dev : quiet (GetUdid env dev).
Proof. unfold GetUdid. quiet_tac. Qed.

Lemma quiet_Register b : quiet (RegisterAbilityLifecycleObserver env b).
Proof. unfold RegisterAbilityLifecycleObserver. quiet_tac. Qed.

Lemma quiet_Unregister : quiet (UnregisterAbilityLifecycleObserver env).
Proof. unfold UnregisterAbilityLifecycleObserver. quiet_tac. Qed.

Lemma quiet_PackStartCmd : quiet (PackStartCmd env).
Proof. unfold PackStartCmd, PackPartCmd. quiet_tac. Qed.

Lemma quiet_GenerateCollabWant : quiet (GenerateCollabWant env).
Proof. unfold GenerateCollabWant, SetScreenLockParameters. quiet_tac. Qed.

Lemma quiet_SaveSinkAbilityData p u t : quiet (SaveSinkAbilityData p u t).
Proof. unfold SaveSinkAbilityData. quiet_tac. Qed.
End QuietMethods.

(** ** Methods that change the core *)

Section CoreMethods.
Context {W : WantApi} {CW : CollabWantApi} {CJ : CJson} {PA : ParcelApi} {PP : Parcelable WantParams}.
Variable env : CEnv.

(** A method changes the core by [F], given its result. *)
Definition effect {A} (m : KM A) (F : Core -> A -> Core -> Prop) : Prop :=
  forall s, F (core s) (fst (m s)) (core (snd (m s))).

Lemma keffect_quiet {A} (m : KM A) : quiet m -> effect m (fun c _ c' => c' = c).
Proof. intros H s. apply H. Qed.

Lemma effect_bind {A B} (m : KM A) (f : A -> KM B) F G H :
  effect m F -> (forall a, effect (f a) (G a)) ->
  (forall c a c1 b c2, F c a c1 -> G a c1 b c2 -> H c b c2) -> effect (m ≫= f) H.
Proof.
  intros Hm Hf Hc s. rewrite kbind_run. eapply Hc; [apply Hm | apply Hf].
Qed.

Lemma effect_after {A B} (m : KM A) (f : A -> KM B) F : quiet m -> (forall a, effect (f a) F) -> effect (m ≫= f) F.
Proof. intros Hm Hf. eapply effect_bind; [by apply keffect_quiet | exact Hf |]. intros c a c1 b c2 ->. done. Qed.

Lemma effect_weaken {A} (m : KM A) (F G : Core -> A -> Core -> Prop) :
  effect m F -> (forall c a c', F c a c' -> G c a c') -> effect m G.
Proof. intros Hm HFG s. apply HFG, Hm. Qed.

Lemma effect_UpdateState st : effect (UpdateState st) (fun c _ c' => c' = core_state st c).
Proof.
  intros s. unfold UpdateState. rewrite kbind_run. unfold core_state, core. simpl.
  by destruct (collab_machine_ (self s)) eqn:E; simpl; rewrite ?E.
Qed.

(** The event handler is not there or does not take the event. *)
Definition refused (e : CEvent) (c : Core) : Prop := c_handler c = false \/ exists calls, k_SendEvent env calls e = false.
(** Posting succeeds or leaves the queue; it leaves it only if the event is refused. *)
Definition posts (e : CEvent) (c : Core) (r : Z) (c' : Core) : Prop :=
  (r = ERR_OK /\ c' = core_post e c) \/ (r <> ERR_OK /\ c' = c /\ refused e c).

Lemma effect_post e : effect (post env e) (posts e).
Proof.
  intros s. unfold post. rewrite kbind_run. simpl. destruct (collab_handler_ (self s)) eqn:Eh; simpl.
  - rewrite kbind_run. simpl. destruct (k_SendEvent env (kcalls_ s) e) eqn:Es; simpl.
    + left; split; reflexivity.
    + right. split; [discriminate|]. split; [reflexivity|]. right. by exists (kcalls_ s).
  - right. split; [discriminate|]. split; [reflexivity|]. by left.
Qed.

Lemma logged_post e s : logged harmless s (snd (post env e s)).
Proof.
  unfold post. rewrite kbind_run. simpl. destruct (collab_handler_ (self s)); simpl; [|apply logged_refl].
  rewrite kbind_run. simpl. by destruct (k_SendEvent env (kcalls_ s) e); simpl; exists [KQuery "SendEvent"].
Qed.

(** The end of a session, which also disconnects. *)
Definition cleaning (c : CCall) : bool := match c with KDisconnectDevice _ => true | _ => harmless c end.

Lemma harmless_cleaning c : harmless c = true -> cleaning c = true.
Proof. by destruct c. Qed.

Lemma logged_weaken (P Q : CCall -> bool) s s' : (forall c, P c = true -> Q c = true) -> logged P s s' -> logged Q s s'.
Proof.
  intros HPQ (l & H & F). exists l. split; [done|]. rewrite forallb_forall in *. auto.
Qed.

Lemma CleanUpSession_core s :
  core (snd (CleanUpSession env s)) = core_clean (core s) /\
  fst (CleanUpSession env s) = (if registered (core s) then ERR_OK else INVALID_PARAMETERS_ERR) /\
  exists l, kcalls_ (snd (CleanUpSession env s)) = kcalls_ s
      ++ (if c_direction (core s) =? COLLAB_SOURCE
          then [KDisconnectDevice (c_peer (core s))] else []) ++ l /\
    forallb harmless l = true.
Proof.
  unfold CleanUpSession. rewrite kbind_run. cbn [kinfo fst snd]. rewrite kbind_run.
  set (m0 := if collabDirection_ _ =? COLLAB_SOURCE then _ else _).
  assert (core (snd (m0 s)) = core s /\ kcalls_ (snd (m0 s)) = kcalls_ s
     ++ (if c_direction (core s) =? COLLAB_SOURCE
         then [KDisconnectDevice (c_peer (core s))] else [])) as [H0 L0].
  { unfold m0. change (c_direction (core s)) with (collabDirection_ (collabInfo_ (self s))).
    destruct (_ =? COLLAB_SOURCE); simpl; [done | by rewrite app_nil_r]. }
  generalize dependent (snd (m0 s)). clear m0. intros s1 H0 L0. rewrite kbind_run.
  destruct (quiet_notify_own_client env NOTIFY_COLLAB_DISCONNECT s1) as [H1 (l & L1 & F1)].
  unfold ExeClientDisconnectNotify. generalize dependent (snd (notify_own_client env NOTIFY_COLLAB_DISCONNECT s1)).
  intros s2 H1 L1. assert (core s2 = core s) as H2 by congruence. unfold Manager_CleanUpSession, registered, core_clean.
  change (collabToken_ (collabInfo_ (self s))) with (c_token (core s)). rewrite <- H2.
  unfold registered. change (tokens_ s2) with (c_tokens (core s2)).
  assert (kcalls_ s2 = kcalls_ s ++ (if c_direction (core s2) =? COLLAB_SOURCE
         then [KDisconnectDevice (c_peer (core s2))] else []) ++ l) as L2.
  { rewrite H2. by rewrite L1, L0, app_assoc. }
  destruct (String.eqb (c_token (core s2)) ""), (bool_decide (c_token (core s2) ∈ c_tokens (core s2))); simpl;
    (split; [reflexivity | split; [reflexivity | exists l; split; [exact L2 | done]]]).
Qed.

Lemma CleanUpSession_logged s : logged cleaning s (snd (CleanUpSession env s)).
Proof.
  destruct (CleanUpSession_core s) as (_ & _ & l & Hl & F). eexists. split; [exact Hl|].
  rewrite forallb_app. apply andb_true_iff. split; [by destruct (_ =? _)|].
  rewrite forallb_forall in *. auto using harmless_cleaning.
Qed.

(** ** The transition system *)

(** The state after an event that succeeds. *)
Definition next (st : CollabStateType) (e : CEvent) : option CollabStateType :=
  match st, e with
  | SOURCE_GET_PEER_VERSION_STATE, (SOURCE_GET_PEER_VERSION_EVENT | SOURCE_GET_VERSION_EVENT) =>
      Some SOURCE_GET_PEER_VERSION_STATE
  | COLLAB_SOURCE_START_STATE, SOURCE_START_EVENT => Some SOURCE_WAIT_RESULT_STATE
  | SOURCE_WAIT_RESULT_STATE, NOTIFY_RESULT_EVENT r =>
      if (r =? ERR_OK) || (r =? COLLAB_ABILITY_REJECT_ERR) then Some COLLAB_SOURCE_WAIT_END_STATE else None
  | SOURCE_WAIT_RESULT_STATE, ABILITY_REJECT_EVENT "" => Some COLLAB_SOURCE_WAIT_END_STATE
  | SINK_GET_VERSION_STATE, GET_SINK_VERSION_EVENT => Some COLLAB_SINK_START_STATE
  | COLLAB_SINK_START_STATE, START_ABILITY_EVENT => Some SINK_CONNECT_STATE
  | SINK_CONNECT_STATE, NOTIFY_PREPARE_RESULT_EVENT r =>
      if (r =? ERR_OK) || (r =? COLLAB_ABILITY_REJECT_ERR) then Some COLLAB_SINK_WAIT_END_STATE else None
  | _, _ => None
  end.

(** The events that end a session. *)
Definition finishes (st : CollabStateType) (e : CEvent) : bool :=
  match st, e with
  | _, ERR_END_EVENT _ => true
  | (COLLAB_SOURCE_WAIT_END_STATE | COLLAB_SINK_WAIT_END_STATE), END_EVENT => true
  | SOURCE_WAIT_RESULT_STATE, ABILITY_REJECT_EVENT reason => negb (String.eqb reason "")
  | SINK_CONNECT_STATE, ABILITY_REJECT_EVENT _ => true
  | _, _ => false
  end.

(** The end of the session with an error is posted, unless it is refused. *)
Definition ends_with (r : Z) (c c' : Core) : Prop :=
  c' = core_post (ERR_END_EVENT r) c \/ (refused (ERR_END_EVENT r) c /\ c' = c).

(** An event advances the session to its next state, ends it, or fails: then the
    end is posted with an error, and only an event handler that refuses that event
    leaves the session as it is. *)
Inductive ctrans (st : CollabStateType) (e : CEvent) (c : Core) : Core -> Prop :=
  | ct_progress st' : next st e = Some st' -> ctrans st e c (core_state st' c)
  | ct_finish : finishes st e = true -> ctrans st e c (core_clean c)
  | ct_fail r c' : finishes st e = false -> ends_with r c c' -> ctrans st e c c'.

(** What the method of an event does before [ProcessEvent] looks at its result. *)
Inductive exec (st : CollabStateType) (e : CEvent) (c : Core) : Z -> Core -> Prop :=
  | ex_progress st' : next st e = Some st' -> exec st e c ERR_OK (core_state st' c)
  | ex_finish : finishes st e = true -> exec st e c ERR_OK (core_clean c)
  | ex_posted r : finishes st e = false -> exec st e c ERR_OK (core_post (ERR_END_EVENT r) c)
  | ex_failed r : r <> ERR_OK -> finishes st e = false -> exec st e c r c.
End CoreMethods.
