(* ===== verification/CollabRefine.v ===== *)
(** The processing of events refines the transition system [ctrans], whatever the
    surroundings answer. *)

From S2P Require Import Prelude DataBuffer SchedErrors SchedUtils Json ContinueInfo ContinueSession ContinueCmd CollabCmd CollabSession CollabOps CollabStates CollabSpec.
#[local] Open Scope string_scope.
#[local] Open Scope list_scope.
#[local] Open Scope Z_scope.

Create HintDb collab.

Section Refine.
Context {W : WantApi} {CW : CollabWantApi} {CJ : CJson} {PA : ParcelApi} {PP : Parcelable WantParams}.
Variable env : CEnv.

(** Methods that leave the core alone, whatever they call. *)
Definition still {A} (m : KM A) : Prop := effect m (fun c _ c' => c' = c).

Lemma quiet_still {A} (m : KM A) : quiet m -> still m.
Proof. intros H s. apply H. Qed.

Lemma still_bind {A B} (m : KM A) (f : A -> KM B) : still m -> (forall a, still (f a)) -> still (m ≫= f).
Proof. intros Hm Hf s. rewrite kbind_run. unfold still, effect in *. by rewrite Hf, Hm. Qed.

Lemma still_ask {A} c (f : list CCall -> A) : still (kask c f).
Proof. done. Qed.

Lemma still_ConnectDevice : still (ConnectDevice env).
Proof.
  unfold ConnectDevice. repeat (apply still_bind; [done|intros]). destruct a1 as [ret id].
  apply still_bind; [|intros; by apply quiet_still, quiet_ret]. by intros s.
Qed.

Lemma core_state_self st c : c_machine c = true -> c_state c = Some st -> core_state st c = c.
Proof. destruct c. simpl. unfold core_state. simpl. by intros -> ->. Qed.

(** The rest of a method after a quiet or still part. *)
Lemma effect_still {A B} (m : KM A) (f : A -> KM B) F : still m -> (forall a, effect (f a) F) -> effect (m ≫= f) F.
Proof. intros Hm Hf s. rewrite kbind_run. specialize (Hf (fst (m s)) (snd (m s))). by rewrite (Hm s) in Hf. Qed.

Lemma effect_ret {A} (a : A) (F : Core -> A -> Core -> Prop) : (forall c, F c a c) -> effect (mret a) F.
Proof. intros H s. apply H. Qed.

(** Ending: a still part, the clean up, success. *)
Lemma effect_clean_ok {A} (m : KM A) : still m ->
  effect (_ ← m; _ ← CleanUpSession env; mret ERR_OK) (fun c r c' => r = ERR_OK /\ c' = core_clean c).
Proof.
  intros Hm. apply effect_still; [done|]. intros _ s. rewrite kbind_run.
  split; [done|]. apply (CleanUpSession_core env s).
Qed.

Lemma effect_post_err r : effect (PostErrEndTask env r) (posts env (ERR_END_EVENT r)).
Proof. apply effect_post. Qed.

(** A tail that succeeds and leaves the core alone. *)
Definition calm (m : KM Z) : Prop := effect m (fun c r c' => r = ERR_OK /\ c' = c).

Lemma calm_ret : calm (mret ERR_OK).
Proof. by intros s. Qed.

Lemma calm_after {A} (m : KM A) (f : A -> KM Z) : still m -> (forall a, calm (f a)) -> calm (m ≫= f).
Proof. intros Hm Hf. by apply effect_still. Qed.

Lemma effect_move st (m : KM Z) : calm m ->
  effect (_ ← UpdateState st; m) (fun c r c' => r = ERR_OK /\ c' = core_state st c).
Proof.
  intros Hm. eapply (effect_bind _ _ _ (fun _ c r c' => r = ERR_OK /\ c' = c));
    [apply effect_UpdateState | intros a; exact Hm |].
  intros c [] c1 b c2 E1 [E2 E3]. by subst.
Qed.

(** ** The methods, one by one *)

Section Methods.
Context (st : CollabStateType) (e : CEvent).

(** What a method may do. *)
Definition refines (m : KM Z) : Prop :=
  forall s, c_machine (core s) = true -> c_state (core s) = Some st -> registered (core s) = true ->
    exec st e (core s) (fst (m s)) (core (snd (m s))).

Lemma refines_fail r : r <> ERR_OK -> finishes st e = false -> refines (mret r).
Proof. intros Hr Hf s _ _ _. by apply ex_failed. Qed.

(** A step that may fail. *)
Lemma refines_try (m k : KM Z) : still m -> finishes st e = false -> refines k ->
  refines (ret ← m; if negb (ret =? ERR_OK) then mret ret else k).
Proof.
  intros Hm Hf Hk s H1 H2 H3. rewrite kbind_run. destruct (Z.eqb_spec (fst (m s)) ERR_OK) as [E|E]; simpl.
  - specialize (Hk (snd (m s))). rewrite (Hm s) in Hk. by apply Hk.
  - rewrite (Hm s). by apply ex_failed.
Qed.

Lemma refines_still {A} (m : KM A) (k : A -> KM Z) : still m -> (forall a, refines (k a)) -> refines (m ≫= k).
Proof. intros Hm Hk s H1 H2 H3. rewrite kbind_run. specialize (Hk (fst (m s)) (snd (m s))). rewrite (Hm s) in Hk. by apply Hk. Qed.

Lemma refines_post r : finishes st e = false -> refines (PostErrEndTask env r).
Proof.
  intros Hf s _ _ _. destruct (effect_post_err r s) as [[-> ->]|(Hr & -> & _)]; [by apply ex_posted | by apply ex_failed].
Qed.

Lemma refines_progress (m : KM Z) st' : effect m (fun c r c' => r = ERR_OK /\ c' = core_state st' c) ->
  next st e = Some st' -> refines m.
Proof. intros Hm Hn s _ _ _. destruct (Hm s) as [-> ->]. by apply ex_progress. Qed.

Lemma refines_finish (m : KM Z) : effect m (fun c r c' => r = ERR_OK /\ c' = core_clean c) ->
  finishes st e = true -> refines m.
Proof. intros Hm Hn s _ _ _. destruct (Hm s) as [-> ->]. by apply ex_finish. Qed.

(** A step that stays. *)
Lemma refines_stay (m : KM Z) : still m -> next st e = Some st -> finishes st e = false -> refines m.
Proof.
  intros Hm Hn Hf s H1 H2 _. rewrite (Hm s). destruct (decide (fst (m s) = ERR_OK)) as [->|E]; [|by apply ex_failed].
  rewrite <- (core_state_self st (core s)) at 2 by done. by apply ex_progress.
Qed.
End Methods.

#[local] Hint Resolve calm_ret quiet_still quiet_ExeSrcClientNotify quiet_notify_peer quiet_SendCommand quiet_Register
  quiet_GetUdid quiet_info quiet_PackStartCmd quiet_GenerateCollabWant still_ConnectDevice still_ask : collab.

Lemma ExeSrcGetPeerVersion_refines :
  refines SOURCE_GET_PEER_VERSION_STATE SOURCE_GET_PEER_VERSION_EVENT (ExeSrcGetPeerVersion env).
Proof.
  unfold ExeSrcGetPeerVersion. apply refines_try; auto with collab. apply refines_still; auto with collab.
  intros i. apply refines_stay; auto with collab.
Qed.

Lemma still_SrcPeerVersionNotify : still (SrcPeerVersionNotify env).
Proof.
  unfold SrcPeerVersionNotify, or_else. apply still_bind; [done|]. intros i.
  apply still_bind; [apply quiet_still, quiet_write_token|]. intros [e|]; [done|].
  apply still_bind; [apply quiet_still, quiet_write_ints|]. intros [e|]; [done|]. apply still_ask.
Qed.

Lemma ExeSrcGetVersion_refines :
  refines SOURCE_GET_PEER_VERSION_STATE SOURCE_GET_VERSION_EVENT (ExeSrcGetVersion env).
Proof.
  unfold ExeSrcGetVersion. apply refines_still; [apply still_SrcPeerVersionNotify|]. intros ret.
  destruct (negb (ret =? ERR_OK)); [by apply refines_post|]. apply refines_stay; try done.
Qed.

Lemma ExeSrcStart_refines : refines COLLAB_SOURCE_START_STATE SOURCE_START_EVENT (ExeSrcStart env).
Proof.
  unfold ExeSrcStart. apply refines_try; auto with collab.
  apply refines_still; auto with collab. intros [ret cmd].
  destruct (Z.eqb_spec ret ERR_OK) as [E|E]; simpl; [|by apply refines_fail].
  apply refines_try; auto with collab.
  eapply refines_progress; [|reflexivity]. apply effect_move.
  apply calm_after; auto with collab. intros i. apply calm_after; auto with collab.
Qed.

(** The result of the sink: [reason] is empty for a result and the reason of a
    rejection otherwise. *)
Lemma ExeSrcCollabResult_refines e result reason :
  (reason = "" -> (result =? ERR_OK) || (result =? COLLAB_ABILITY_REJECT_ERR) = true ->
     next SOURCE_WAIT_RESULT_STATE e = Some COLLAB_SOURCE_WAIT_END_STATE) ->
  (reason <> "" -> result = COLLAB_ABILITY_REJECT_ERR) ->
  finishes SOURCE_WAIT_RESULT_STATE e = negb (String.eqb reason "") ->
  refines SOURCE_WAIT_RESULT_STATE e (ExeSrcCollabResult env result reason).
Proof.
  intros Hn Hrej Hf. unfold ExeSrcCollabResult.
  destruct (String.eqb_spec reason "") as [->|Hne]; simpl in Hf.
  - destruct ((result =? ERR_OK) || (result =? COLLAB_ABILITY_REJECT_ERR)) eqn:E.
    + rewrite <- negb_orb, E. simpl. apply refines_still; auto with collab. intros ret.
      destruct (negb (ret =? ERR_OK)); [by apply refines_post|].
      eapply refines_progress; [apply effect_move, calm_ret | by apply Hn].
    + rewrite <- negb_orb, E. simpl. by apply refines_post.
  - rewrite (Hrej Hne). simpl. apply refines_still; auto with collab. intros ret s H1 H2 H3.
    destruct (CleanUpSession_core env s) as (Hc & Hr & _). rewrite Hc, Hr, H3. by apply ex_finish.
Qed.

Lemma ExeSinkGetVersion_refines : refines SINK_GET_VERSION_STATE GET_SINK_VERSION_EVENT (ExeSinkGetVersion env).
Proof.
  unfold ExeSinkGetVersion. apply refines_still; auto with collab. intros i. apply refines_still; auto with collab.
  intros ret. eapply refines_progress; [apply effect_move, calm_ret | done].
Qed.

Lemma ExeStartAbility_refines : refines COLLAB_SINK_START_STATE START_ABILITY_EVENT (ExeStartAbility env).
Proof.
  unfold ExeStartAbility. apply refines_still; auto with collab. intros want. apply refines_still; auto with collab.
  intros i. apply refines_try; auto with collab. apply refines_try; auto with collab.
  apply refines_still; auto with collab. intros ret.
  destruct (negb (ret =? ERR_OK)); [by apply refines_post|].
  eapply refines_progress; [|reflexivity]. apply effect_move.
  apply calm_after; auto with collab. intros i'. apply calm_after; auto with collab.
Qed.

Lemma ExeSinkPrepareResult_refines r :
  refines SINK_CONNECT_STATE (NOTIFY_PREPARE_RESULT_EVENT r) (ExeSinkPrepareResult env r).
Proof.
  unfold ExeSinkPrepareResult. rewrite <- negb_orb.
  destruct ((r =? ERR_OK) || (r =? COLLAB_ABILITY_REJECT_ERR)) eqn:E; simpl; [|by apply refines_post].
  apply refines_try; auto with collab. eapply refines_progress; [|simpl; by rewrite E].
  apply effect_move. apply calm_after; auto with collab.
Qed.

(** Every event that ends a session. *)
Lemma kend_refines {A} st e (m : KM A) : still m -> finishes st e = true ->
  refines st e (_ ← m; _ ← CleanUpSession env; mret ERR_OK).
Proof. intros Hm Hf. eapply refines_finish; [by apply effect_clean_ok | done]. Qed.

Lemma ExeDisconnect_refines st e : finishes st e = true -> refines st e (ExeDisconnect env).
Proof.
  intros Hf. unfold ExeDisconnect. apply refines_still; auto with collab. intros i.
  apply kend_refines; auto with collab.
Qed.

Lemma ExeSrcWaitResultError_refines r :
  refines SOURCE_WAIT_RESULT_STATE (ERR_END_EVENT r) (ExeSrcWaitResultError env r).
Proof.
  unfold ExeSrcWaitResultError. apply refines_still; auto with collab. intros _. apply kend_refines; auto with collab.
Qed.

Lemma state_Execute_refines st e : refines st e (state_Execute env st e).
Proof.
  assert (COLLAB_STATE_MACHINE_INVALID_STATE <> ERR_OK) as Hinv by discriminate.
  destruct st, e; simpl; try (by apply refines_fail);
    try (by apply ExeDisconnect_refines); try (by apply kend_refines; auto with collab).
  - apply ExeSrcGetPeerVersion_refines.
  - apply ExeSrcGetVersion_refines.
  - apply ExeSrcStart_refines.
  - apply ExeSrcCollabResult_refines; simpl; try done. by intros _ ->.
  - apply ExeSrcWaitResultError_refines.
  - apply ExeSrcCollabResult_refines; simpl; try done. by intros -> _.
  - apply ExeSinkGetVersion_refines.
  - apply ExeStartAbility_refines.
  - apply ExeSinkPrepareResult_refines.
Qed.

Lemma Collab_ProcessEvent_refines st e s :
  c_machine (core s) = true -> c_state (core s) = Some st -> registered (core s) = true ->
  let s' := snd (ProcessEvent env e s) in
  ctrans env st e (core s) (core s') /\
  forall r, fst (Machine_Execute env e s) = r -> r <> ERR_OK -> ends_with env r (core s) (core s').
Proof.
  intros H1 H2 H3. unfold ProcessEvent. rewrite kbind_run. cbn [kself fst snd].
  change (collab_machine_ (self s)) with (c_machine (core s)). rewrite H1. cbn [negb].
  unfold Machine_Execute. rewrite !kbind_run. cbn [kself fst snd].
  change (collab_state_ (self s)) with (c_state (core s)). rewrite H2.
  pose proof (state_Execute_refines st e s H1 H2 H3) as Hex.
  destruct (state_Execute env st e s) as [ret s1]. cbn [fst snd] in *.
  remember (core s1) as c1 eqn:Ec. destruct Hex as [st' Hn|Hf|r Hf|r Hr Hf]; simpl; rewrite <- ?Ec.
  - split; [by apply ct_progress|done].
  - split; [by apply ct_finish|done].
  - split; [|done]. apply (ct_fail _ _ _ _ r); [done|by left].
  - destruct (Z.eqb_spec r ERR_OK) as [E|_]; [done|]. simpl. rewrite kbind_run. simpl.
    assert (ends_with env r (core s) (core (snd (PostErrEndTask env r s1)))) as He.
    { destruct (effect_post_err r s1) as [[_ ->]|(_ & -> & Hx)]; rewrite <- Ec in *; [by left|by right]. }
    split; [by apply (ct_fail _ _ _ _ r)|]. by intros r' <- _.
Qed.

(** C3: processing an event in any state of a collaboration is one
    step of the transition system, whatever the surroundings answer: the session
    advances to the next state of its side, or is taken out of the manager's table
    (always when the event reports an error), or stays and an error end is posted.
    When the method of the state fails, the end is posted with its result. Only an event
    handler that is not there or does not take the event keeps it out of the queue. The
    event with the version of the peer calls the client without a test of the pointer, so
    for it there has to be a client. *)
Theorem collab_refines st e s :
  (e = SOURCE_GET_VERSION_EVENT -> is_Some (c_srcCB (core s))) -> c_machine (core s) = true -> c_state (core s) = Some st -> registered (core s) = true ->
  let s' := snd (ProcessEvent env e s) in
  ctrans env st e (core s) (core s') /\
  forall r, fst (Machine_Execute env e s) = r -> r <> ERR_OK -> ends_with env r (core s) (core s').
Proof. intros _. apply Collab_ProcessEvent_refines. Qed.
End Refine.

Lemma collab_refines_witness :
  let s := demo_kstate COLLAB_SOURCE COLLAB_SOURCE_START_STATE [] in
  registered (core s) = true /\
  ctrans demo_cenv COLLAB_SOURCE_START_STATE SOURCE_START_EVENT (core s) (core (snd (ProcessEvent demo_cenv SOURCE_START_EVENT s))).
Proof.
  split; [reflexivity|].
  refine (proj1 (collab_refines demo_cenv COLLAB_SOURCE_START_STATE SOURCE_START_EVENT _ _ _ _ _)); done.
Defined.
