(* ===== verification/CollabProps.v ===== *)
(** Properties of a collaboration session: it ends and lets go of everything when
    an error is reported, its handler comes to rest, no ability is started without
    permission, no request goes to a null object. *)

From S2P Require Import Prelude DataBuffer SchedErrors SchedUtils Json ContinueInfo ContinueSession ContinueCmd CollabCmd CollabSession CollabOps CollabStates CollabSpec CollabRefine.
#[local] Open Scope string_scope.
#[local] Open Scope list_scope.
#[local] Open Scope Z_scope.

Create HintDb quiet.

Section Emits.
Context {W : WantApi} {CW : CollabWantApi} {CJ : CJson} {PA : ParcelApi} {PP : Parcelable WantParams}.
Variable env : CEnv.

(** A method only makes calls of a kind. *)
Definition emits {A} (P : CCall -> bool) (m : KM A) : Prop := forall s, logged P s (snd (m s)).

Context (P : CCall -> bool).

Lemma emits_quiet {A} (m : KM A) : (forall c, harmless c = true -> P c = true) -> quiet m -> emits P m.
Proof. intros HP H s. eapply logged_weaken; [exact HP | apply H]. Qed.

Lemma emits_ret {A} (a : A) : emits P (mret a).
Proof. intros s. apply logged_refl. Qed.

Lemma emits_bind {A B} (m : KM A) (f : A -> KM B) : emits P m -> (forall a, emits P (f a)) -> emits P (m ≫= f).
Proof. intros Hm Hf s. rewrite kbind_run. eapply logged_trans; [apply Hm | apply Hf]. Qed.

Lemma emits_ask {A} c (f : list CCall -> A) : P c = true -> emits P (kask c f).
Proof. intros H s. exists [c]. simpl. by rewrite H. Qed.

Lemma emits_update f : emits P (kupdate f).
Proof. intros s. exists []. simpl. by rewrite app_nil_r. Qed.

Lemma emits_UpdateState st : emits P (UpdateState st).
Proof.
  unfold UpdateState. apply emits_bind; [intros s; apply logged_refl|]. intros d.
  destruct (collab_machine_ d); [apply emits_update | apply emits_ret].
Qed.

Lemma emits_post e : (forall c, harmless c = true -> P c = true) -> emits P (post env e).
Proof. intros HP s. eapply logged_weaken; [exact HP | apply logged_post]. Qed.

Lemma emits_CleanUp : (forall c, cleaning c = true -> P c = true) -> emits P (CleanUpSession env).
Proof. intros HP s. eapply logged_weaken; [exact HP | apply CleanUpSession_logged]. Qed.

Lemma emits_Connect : P (KConnectDevice "") = true -> (forall p, P (KConnectDevice p) = P (KConnectDevice "")) ->
  emits P (ConnectDevice env).
Proof.
  intros H1 H2. unfold ConnectDevice. apply emits_bind; [intros s; apply logged_refl|]. intros i.
  apply emits_bind; [intros s; apply logged_refl|]. intros d. apply emits_bind; [apply emits_ask; by rewrite H2|].
  intros [ret id]. apply emits_bind; [apply emits_update|]. intros _. apply emits_ret.
Qed.
End Emits.

(** [emits_tac] walks through a method; [HP] and [HC] say that the calls of quiet
    methods and of the clean up are of the kind. *)
Ltac emits_tac HP HC :=
  repeat lazymatch goal with
  | |- emits _ (mret _) => apply emits_ret
  | |- emits _ (PostErrEndTask _ _) => apply emits_post; exact HP
  | |- emits _ (CleanUpSession _) => apply emits_CleanUp; exact HC
  | |- emits _ (UpdateState _) => apply emits_UpdateState
  | |- emits _ (ConnectDevice _) => apply emits_Connect; done
  | |- emits _ (ExeSrcClientNotify _ _ _) => apply emits_quiet; [exact HP | apply quiet_ExeSrcClientNotify]
  | |- emits _ (notify_peer _ _ _) => apply emits_quiet; [exact HP | apply quiet_notify_peer]
  | |- emits _ (SendCommand _ _) => apply emits_quiet; [exact HP | apply quiet_SendCommand]
  | |- emits _ (PackStartCmd _) => apply emits_quiet; [exact HP | apply quiet_PackStartCmd]
  | |- emits _ (GenerateCollabWant _) => apply emits_quiet; [exact HP | apply quiet_GenerateCollabWant]
  | |- emits _ (RegisterAbilityLifecycleObserver _ _) => apply emits_quiet; [exact HP | apply quiet_Register]
  | |- emits _ (GetUdid _ _) => apply emits_quiet; [exact HP | apply quiet_GetUdid]
  | |- emits _ kinfo => apply emits_quiet; [exact HP | apply quiet_info]
  | |- emits _ (kupdate _) => apply emits_update
  | |- emits _ (kask _ _) => apply emits_ask; done
  | |- emits _ (mbind _ _) => apply emits_bind; [|intros ?]
  | |- emits _ (match ?x with _ => _ end) => destruct x
  | |- emits _ (if ?x then _ else _) => destruct x
  | |- emits _ _ => fail
  end.

Section Props.
Context {W : WantApi} {CW : CollabWantApi} {CJ : CJson} {PA : ParcelApi} {PP : Parcelable WantParams}.
Variable env : CEnv.

(** ** The permission before the start *)

(** Every start of an ability directly follows a successful check of the
    permission for the same want. *)
Definition starts_checked (l : list CCall) : Prop :=
  forall pre want post, l = pre ++ KStartAbilityByCall want :: post ->
    exists pre' caller account, pre = pre' ++ [KCheckPermission want; KQuery "AbilityManagerClient::Connect"] /\
      k_CheckCollabStartPermission env pre' want caller account = ERR_OK.

Definition no_start (c : CCall) : bool := match c with KStartAbilityByCall _ => false | _ => true end.

Lemma harmless_no_start c : harmless c = true -> no_start c = true.
Proof. by destruct c. Qed.
Lemma cleaning_no_start c : cleaning c = true -> no_start c = true.
Proof. by destruct c. Qed.

Lemma starts_checked_app l l' : starts_checked l -> forallb no_start l' = true -> starts_checked (l ++ l').
Proof.
  intros Hl Hl' pre want post E. apply app_eq_inv in E as [(k & -> & E)|(k & -> & E)].
  - destruct k as [|c k]; simpl in E.
    + subst l'. simpl in Hl'. done.
    + injection E as <- ->. apply (Hl pre want k). done.
  - subst l'. rewrite forallb_app in Hl'. simpl in Hl'. by rewrite andb_false_r in Hl'.
Qed.

Lemma starts_checked_logged s s' : logged no_start s s' -> starts_checked (kcalls_ s) -> starts_checked (kcalls_ s').
Proof. intros (l & -> & H) Hs. by apply starts_checked_app. Qed.

Lemma emits_no_start_Execute st e : (st, e) <> (COLLAB_SINK_START_STATE, START_ABILITY_EVENT) ->
  emits no_start (state_Execute env st e).
Proof.
  intros Hne.
  destruct st, e; simpl; try (by apply emits_ret);
    try (unfold ExeSrcGetPeerVersion, ExeSrcStart, ExeSrcGetPeerVersionError, ExeSrcStartError, ExeSrcCollabResult,
           ExeSrcWaitResultError, ExeDisconnect, ExeSinkGetVersion, ExeSinkGetVersionError, ExeSinkStartError,
           ExeSinkPrepareResult, ExeAbilityRejectError, ExeSinkConnectError;
         emits_tac harmless_no_start cleaning_no_start; fail).
  all: try done.
  unfold ExeSrcGetVersion, SrcPeerVersionNotify, or_else.
  apply emits_bind; [|intros ret; emits_tac harmless_no_start cleaning_no_start].
  apply emits_bind; [emits_tac harmless_no_start cleaning_no_start|]. intros i.
  apply emits_bind; [apply emits_quiet; [exact harmless_no_start | apply quiet_write_token]|]. intros [?|]; [apply emits_ret|].
  apply emits_bind; [apply emits_quiet; [exact harmless_no_start | apply quiet_write_ints]|]. intros [?|]; [apply emits_ret|].
  by apply emits_ask.
Qed.

Lemma ExeStartAbility_checked s : starts_checked (kcalls_ s) -> starts_checked (kcalls_ (snd (ExeStartAbility env s))).
Proof.
  intros Hs. unfold ExeStartAbility. rewrite kbind_run.
  destruct (quiet_GenerateCollabWant env s) as [_ (l & Hl & Fl)].
  assert (starts_checked (kcalls_ (snd (GenerateCollabWant env s)))) as Hs1.
  { rewrite Hl. apply starts_checked_app; [done|]. rewrite forallb_forall in *. auto using harmless_no_start. }
  generalize dependent (snd (GenerateCollabWant env s)). generalize (fst (GenerateCollabWant env s)).
  intros want s1 Hl Hs1. rewrite kbind_run. cbn [kinfo fst snd]. rewrite kbind_run. cbn [kask fst snd].
  set (i := collabInfo_ (self s1)).
  destruct (Z.eqb_spec (k_CheckCollabStartPermission env (kcalls_ s1) want (callerInfo_ i) (srcAccountInfo_ i)) ERR_OK)
    as [Hperm|_]; cbn [negb].
  2: { apply starts_checked_app; done. }
  rewrite kbind_run. cbn [kask fst snd kcalls_].
  destruct (k_AbilityManagerConnect env (kcalls_ s1 ++ [KCheckPermission want]) =? ERR_OK); cbn [negb].
  2: { rewrite <- app_assoc. apply starts_checked_app; done. }
  rewrite kbind_run. cbn [kask fst snd kcalls_].
  set (l3 := ((kcalls_ s1 ++ [KCheckPermission want]) ++ [KQuery "AbilityManagerClient::Connect"])
             ++ [KStartAbilityByCall want]).
  assert (starts_checked l3) as H3.
  { intros pre w post E. unfold l3 in E. destruct post as [|c post] using rev_ind.
    - apply app_inj_tail in E as [<- [= ->]]. exists (kcalls_ s1), (callerInfo_ i), (srcAccountInfo_ i).
      by rewrite <- app_assoc.
    - clear IHpost. rewrite app_comm_cons, app_assoc in E. apply app_inj_tail in E as [E _].
      assert (starts_checked ((kcalls_ s1 ++ [KCheckPermission want]) ++ [KQuery "AbilityManagerClient::Connect"])) as H2.
      { by do 2 (apply starts_checked_app; [|done]). }
      by apply (H2 pre w post). }
  match goal with |- starts_checked (kcalls_ (snd (?m ?st))) => assert (logged no_start st (snd (m st))) as Hlog end.
  { match goal with |- logged _ ?st (snd (?m ?st)) => enough (emits no_start m) as H by apply H end.
    emits_tac harmless_no_start cleaning_no_start. }
  eapply starts_checked_logged; [exact Hlog | exact H3].
Qed.

(** Whatever events a collaboration processes, an ability is started
    only directly after the permission was checked for the same want and granted. *)
Theorem collab_start_checked e s : starts_checked (kcalls_ s) -> starts_checked (kcalls_ (snd (ProcessEvent env e s))).
Proof.
  intros Hs. unfold ProcessEvent. rewrite kbind_run. cbn [kself fst snd].
  destruct (negb (collab_machine_ (self s))); [done|]. rewrite kbind_run.
  assert (starts_checked (kcalls_ (snd (Machine_Execute env e s)))) as H1.
  { unfold Machine_Execute. rewrite kbind_run. cbn [kself fst snd]. destruct (collab_state_ (self s)) as [st|]; [|done].
    destruct (decide (st = COLLAB_SINK_START_STATE /\ e = START_ABILITY_EVENT)) as [[-> ->]|Hne].
    - by apply ExeStartAbility_checked.
    - eapply starts_checked_logged; [|exact Hs]. apply emits_no_start_Execute. intros [= -> ->]. tauto. }
  destruct (negb _); [|done]. rewrite kbind_run. eapply starts_checked_logged; [|exact H1].
  eapply logged_weaken; [exact harmless_no_start | apply logged_post].
Qed.

(** ** The end of a session *)

Definition is_disconnect (c : CCall) : bool := match c with KDisconnectDevice _ => true | _ => false end.
Definition is_connect (c : CCall) : bool := match c with KConnectDevice _ => true | _ => false end.

(** Number of calls of a kind. *)
Definition count (P : CCall -> bool) (l : list CCall) : nat := length (List.filter P l).

Lemma count_app P l l' : count P (l ++ l') = (count P l + count P l')%nat.
Proof. unfold count. by rewrite List.filter_app, length_app. Qed.

Lemma count_none P l : (forall c, harmless c = true -> P c = false) -> forallb harmless l = true -> count P l = 0%nat.
Proof.
  intros HP. induction l as [|c l IH]; [done|]. simpl. rewrite andb_true_iff. intros [Hc Hl].
  unfold count in *. simpl. by rewrite (HP c Hc), IH.
Qed.

(** Calls of an end: quiet ones, the disconnection of a source, quiet ones. *)
Definition end_calls (s s' : KState) : Prop :=
  exists l1 l2, kcalls_ s' = kcalls_ s ++ l1
      ++ (if c_direction (core s) =? COLLAB_SOURCE then [KDisconnectDevice (c_peer (core s))] else []) ++ l2 /\
    forallb harmless l1 = true /\ forallb harmless l2 = true.

Lemma clean_calls {A} (m : KM A) s : quiet m -> end_calls s (snd ((_ ← m; _ ← CleanUpSession env; mret ERR_OK) s)).
Proof.
  intros Hm. rewrite kbind_run. destruct (Hm s) as [Hc (l1 & L1 & F1)]. rewrite kbind_run. cbn [snd mret KM_ret].
  destruct (CleanUpSession_core env (snd (m s))) as (_ & _ & l2 & L2 & F2).
  exists l1, l2. split; [|done]. rewrite L2, L1, Hc, <- app_assoc. reflexivity.
Qed.

Lemma quiet_then {A B} (m : KM A) (m' : KM B) : quiet m -> quiet m' -> quiet (_ ← m; m').
Proof. intros Hm Hm'. apply quiet_bind; [done|]. done. Qed.

#[local] Hint Resolve quiet_ExeSrcClientNotify quiet_notify_peer quiet_SendCommand quiet_then : quiet.

Lemma end_calls_after {A} (m : KM A) (k : A -> KM Z) s :
  quiet m -> (forall a s, end_calls s (snd (k a s))) -> end_calls s (snd ((m ≫= k) s)).
Proof.
  intros Hm Hk. rewrite kbind_run. destruct (Hm s) as [Hc (l0 & L0 & F0)].
  destruct (Hk (fst (m s)) (snd (m s))) as (l1 & l2 & Hl & F1 & F2). rewrite Hc in Hl.
  exists (l0 ++ l1), l2. rewrite Hl, L0, <- !app_assoc. split; [done|]. by rewrite forallb_app, F0, F1.
Qed.

Lemma error_calls st r s : c_machine (core s) = true -> c_state (core s) = Some st ->
  end_calls s (snd (ProcessEvent env (ERR_END_EVENT r) s)).
Proof.
  intros H1 H2. unfold ProcessEvent, Machine_Execute. rewrite kbind_run. cbn [kself fst snd].
  change (collab_machine_ (self s)) with (c_machine (core s)). rewrite H1. cbn [negb]. rewrite !kbind_run. cbn [kself fst snd].
  change (collab_state_ (self s)) with (c_state (core s)). rewrite H2.
  assert (fst (state_Execute env st (ERR_END_EVENT r) s) = ERR_OK /\
          end_calls s (snd (state_Execute env st (ERR_END_EVENT r) s))) as [-> He]; [|exact He].
  destruct st; simpl; unfold ExeSrcGetPeerVersionError, ExeSrcStartError, ExeSrcWaitResultError, ExeDisconnect,
    ExeSinkGetVersionError, ExeSinkStartError, ExeSinkConnectError; (split; [by rewrite !kbind_run|]);
    try (by apply clean_calls; auto with quiet).
  apply end_calls_after; [auto with quiet|]. intros _ s'. apply clean_calls; auto with quiet.
Qed.

(** C15: an error ends a collaboration from every state: the session leaves
    the table of the manager and nobody else does, its timeout is gone, the queue is
    left as it was, and a source lets go of the connection to its peer once while a
    sink leaves it alone. *)
Theorem collab_error_ends st r s :
  c_machine (core s) = true -> c_state (core s) = Some st -> registered (core s) = true ->
  let s' := snd (ProcessEvent env (ERR_END_EVENT r) s) in
  let token := c_token (core s) in
  ~ (token ∈ tokens_ s') /\ (forall t, t <> token -> t ∈ tokens_ s' <-> t ∈ tokens_ s) /\
  Forall (fun p => p.1 <> token) (named_ s') /\ c_queue (core s') = c_queue (core s) /\
  count is_disconnect (kcalls_ s')
  = (count is_disconnect (kcalls_ s) + if (c_direction (core s) =? COLLAB_SOURCE)%Z then 1 else 0)%nat.
Proof.
  intros H1 H2 H3 s' token.
  assert (core s' = core_clean (core s)) as Hc.
  { pose proof (Collab_ProcessEvent_refines env st (ERR_END_EVENT r) s H1 H2 H3) as [Ht _]. fold s' in Ht.
    remember (core s') as c' eqn:Ec. destruct Ht as [st' Hn|Hf|r' c' Hf _]; destruct st; done. }
  unfold core_clean in Hc. rewrite H3 in Hc.
  assert (tokens_ s' = List.filter (fun t => negb (String.eqb t token)) (tokens_ s)) as Ht.
  { change (tokens_ s') with (c_tokens (core s')). by rewrite Hc. }
  assert (named_ s' = List.filter (fun p => negb (String.eqb p.1 token)) (named_ s)) as Hn.
  { change (named_ s') with (c_named (core s')). by rewrite Hc. }
  rewrite Ht, Hn. split_and!.
  - rewrite list_elem_of_In, filter_In. intros [_ H]. by rewrite String.eqb_refl in H.
  - intros t Hne. rewrite !list_elem_of_In, filter_In.
    split; [tauto|]. intros H. split; [done|]. by apply negb_true_iff, String.eqb_neq.
  - apply List.Forall_forall. intros p. rewrite filter_In. intros [_ H]. by apply negb_true_iff, String.eqb_neq in H.
  - by rewrite Hc.
  - destruct (error_calls st r s H1 H2) as (l1 & l2 & Hl & F1 & F2). fold s' in Hl.
    assert (forall c, harmless c = true -> is_disconnect c = false) as Hnd by (by intros []).
    rewrite Hl, !count_app, (count_none _ l1), (count_none _ l2) by done.
    destruct (c_direction (core s) =? COLLAB_SOURCE); simpl; lia.
Qed.

(** ** The handler *)

(** A session that can process events. *)
Definition live (c : Core) : Prop := c_machine c = true /\ is_Some (c_state c) /\ registered c = true.

Definition weight (e : CEvent) : nat := match e with ERR_END_EVENT _ => 1 | _ => 2 end.
Definition queue_weight (q : list CEvent) : nat := list_sum (map weight q).
Definition measure (s : KState) : nat := queue_weight (collab_queue_ (self s)).

Lemma queue_weight_app q q' : queue_weight (q ++ q') = (queue_weight q + queue_weight q')%nat.
Proof. unfold queue_weight. by rewrite map_app, list_sum_app. Qed.

(** What one turn of the handler does: the session goes on with a lighter queue
    that has lost only its first event, or it is destroyed by its own thread. *)
Lemma handle_next_step s e q : live (core s) -> c_handler (core s) = true -> c_queue (core s) = e :: q ->
  let s' := snd (handle_next env s) in
  (live (core s') /\ c_handler (core s') = true /\ c_token (core s') = c_token (core s) /\
     finishes (default SOURCE_GET_PEER_VERSION_STATE (c_state (core s))) e = false /\
     exists p, c_queue (core s') = q ++ p /\ (queue_weight p < weight e)%nat) \/
  (c_handler (core s') = false /\ registered (core s') = false /\ c_token (core s') = c_token (core s) /\
     In (KDestroyed true (c_token (core s))) (kcalls_ s')).
Proof.
  intros (Hm & [st Hst] & Hr) Hh Hq s'. unfold s'. clear s'.
  set (s1 := mkKState (set_collab_queue q (self s)) (tokens_ s) (named_ s) (kcalls_ s)).
  assert (core s1 = core_queue q (core s)) as Hc1 by done.
  assert (registered (core s1) = true) as Hr1 by done.
  pose proof (Collab_ProcessEvent_refines env st e s1 Hm Hst Hr1) as [Ht _].
  assert (snd (handle_next env s) = snd (release env true (snd (ProcessEvent env e s1)))) as ->.
  { unfold handle_next. rewrite kbind_run. cbn [kself fst snd].
    change (collab_queue_ (self s)) with (c_queue (core s)). rewrite Hq.
    change (collab_handler_ (self s)) with (c_handler (core s)). rewrite Hh. cbn [negb].
    rewrite !kbind_run. cbn [snd kupdate mret KM_ret]. reflexivity. }
  generalize dependent (snd (ProcessEvent env e s1)). intros s2 Ht. unfold release.
  change (collabToken_ (collabInfo_ (self s2))) with (c_token (core s2)). change (tokens_ s2) with (c_tokens (core s2)).
  assert (c_token (core s2) = c_token (core s) /\ c_machine (core s2) = true /\ c_handler (core s2) = true /\
    is_Some (c_state (core s2)) /\
    (if finishes st e then c_tokens (core s2) = List.filter (fun t => negb (String.eqb t (c_token (core s)))) (c_tokens (core s))
     else c_tokens (core s2) = c_tokens (core s) /\
       exists p, c_queue (core s2) = q ++ p /\ (queue_weight p < weight e)%nat)) as (T1 & T2 & T3 & T4 & T5).
  { remember (core s2) as c2 eqn:E2. destruct Ht as [st' Hn|Hf|r c' Hf [->|[_ ->]]]; rewrite Hc1 in *.
    - assert (finishes st e = false) as -> by (destruct st, e; try done; by destruct reason).
      unfold core_state. cbn [c_machine core_queue]. rewrite Hm. cbn [c_token c_machine c_handler c_state c_tokens c_queue].
      split_and!; try done. exists []. rewrite app_nil_r. split; [done|]. unfold queue_weight. destruct e; simpl; lia.
    - rewrite Hf. unfold core_clean. rewrite Hr1. cbn. split_and!; done.
    - rewrite Hf. cbn. split_and!; try done. exists [ERR_END_EVENT r]. split; [done|].
      destruct st, e; simpl in *; try done; unfold queue_weight; simpl; lia.
    - rewrite Hf. cbn. split_and!; try done. exists []. rewrite app_nil_r. split; [done|].
      unfold queue_weight. destruct e; simpl; lia. }
  rewrite Hst. cbn [default]. rewrite T1. unfold registered in Hr. apply andb_true_iff in Hr as [Hne Hin].
  apply bool_decide_eq_true in Hin. destruct (finishes st e) eqn:Ef.
  - right. rewrite T5. rewrite bool_decide_false.
    2: { rewrite list_elem_of_In, filter_In. intros [_ H]. by rewrite String.eqb_refl in H. }
    unfold DSchedCollab_destroy. rewrite kbind_run.
    destruct (quiet_Unregister env s2) as [Hu _]. generalize dependent (snd (UnregisterAbilityLifecycleObserver env s2)).
    intros s3 Hu. rewrite !kbind_run. cbn [kinfo kcall kupdate fst snd].
    assert (c_token (core s3) = c_token (core s) /\ c_tokens (core s3) = c_tokens (core s2)) as [U1 U2] by (by rewrite Hu).
    split_and!; [done | | exact U1 | ].
    + unfold registered. cbn. change (collabToken_ (collabInfo_ (self s3))) with (c_token (core s3)).
      change (tokens_ s3) with (c_tokens (core s3)). rewrite U1, U2, T5, bool_decide_false; [by rewrite andb_false_r|].
      rewrite list_elem_of_In, filter_In. intros [_ H]. by rewrite String.eqb_refl in H.
    + rewrite <- U1. cbn. apply in_or_app. right. by left.
  - left. destruct T5 as [T5 T6]. rewrite T5, bool_decide_true by done. cbn [snd].
    split_and!; try done. unfold live. split_and!; try done. unfold registered. rewrite T1, T5, Hne. by rewrite bool_decide_true.
Qed.

Lemma idle_core s : idle s = negb (c_handler (core s)) || match c_queue (core s) with [] => true | _ => false end.
Proof. reflexivity. Qed.

Lemma drain_idle n s : idle s = true -> drain env n s = Some s.
Proof. intros H. by destruct n; simpl; rewrite H. Qed.

Lemma drain_step n s : idle s = false -> drain env (S n) s = drain env n (snd (handle_next env s)).
Proof. intros H. simpl. by rewrite H. Qed.

(** The handler with enough fuel, and what it leaves of a session. *)
Lemma drain_spec n s : live (core s) -> (measure s <= n)%nat ->
  exists s', drain env n s = Some s' /\
    ((live (core s') /\ c_queue (core s') = [] \/ c_handler (core s) = false) \/
     registered (core s') = false /\ In (KDestroyed true (c_token (core s))) (kcalls_ s')) /\
    (c_handler (core s) = true -> (exists r, In (ERR_END_EVENT r) (c_queue (core s))) ->
     registered (core s') = false /\ In (KDestroyed true (c_token (core s))) (kcalls_ s')).
Proof.
  revert s. induction n as [n IH] using lt_wf_ind. intros s Hl Hm.
  destruct (c_handler (core s)) eqn:Hh.
  2: { exists s. rewrite drain_idle by (by rewrite idle_core, Hh). split_and!; [done | left; by right | done]. }
  destruct (c_queue (core s)) as [|e q] eqn:Hq.
  { exists s. rewrite drain_idle by (by rewrite idle_core, Hh, Hq). split_and!; [done | left; by left | by intros _ [r []]]. }
  assert (measure s = queue_weight (e :: q)) as Hms by (unfold measure; change (collab_queue_ (self s)) with (c_queue (core s)); by rewrite Hq).
  assert (0 < weight e)%nat as Hw by (destruct e; simpl; lia).
  assert (queue_weight (e :: q) = weight e + queue_weight q)%nat as Hqw by done.
  destruct n as [|n]; [lia|]. rewrite drain_step by (by rewrite idle_core, Hh, Hq).
  destruct (handle_next_step s e q Hl Hh Hq) as [(Hl' & Hh' & Ht' & Hf & p & Hp & Hpw)|(Hh' & Hr' & Ht' & Hd)].
  - destruct (IH n ltac:(lia) (snd (handle_next env s)) Hl') as (s' & Hd' & Hend & Herr).
    { unfold measure. change (collab_queue_ (self (snd (handle_next env s)))) with (c_queue (core (snd (handle_next env s)))).
      rewrite Hp, queue_weight_app. lia. }
    exists s'. rewrite Ht' in *. rewrite Hh' in *. split_and!; [done | | ].
    + destruct Hend as [[H|H]|H]; [left; by left | done | by right].
    + intros _ [r Hr]. apply Herr; [done|]. exists r. rewrite Hp. apply in_or_app. left.
      destruct Hr as [->|Hr]; [|done]. by destruct (default _ _) in Hf.
  - exists (snd (handle_next env s)). rewrite drain_idle by (by rewrite idle_core, Hh'). split_and!; [done | by right | done].
Qed.

(** The handler of a collaboration comes to rest: with one unit of
    fuel for each waiting error and two for each other event it has processed all
    events or the session was destroyed. *)
Theorem collab_handler_terminates s : live (core s) ->
  exists s', drain env (measure s) s = Some s' /\
    (c_queue (core s') = [] \/ registered (core s') = false \/ c_handler (core s) = false).
Proof.
  intros Hl. destruct (drain_spec (measure s) s Hl (le_n _)) as (s' & Hd & [[[_ H]|H]|[H _]] & _);
    exists s'; tauto.
Qed.

(** A collaboration whose handler has accepted an error ends: its
    session leaves the table and is destroyed, and the destructor runs on the
    session's own event thread, which it then joins. *)
Theorem collab_failure_destroys s r : live (core s) -> c_handler (core s) = true ->
  In (ERR_END_EVENT r) (c_queue (core s)) ->
  exists s', drain env (measure s) s = Some s' /\ registered (core s') = false /\
    In (KDestroyed true (c_token (core s))) (kcalls_ s').
Proof.
  intros Hl Hh Hin. destruct (drain_spec (measure s) s Hl (le_n _)) as (s' & Hd & _ & He).
  exists s'. split; [done|]. apply He; [done|]. by exists r.
Qed.

(** ** Reports of an error *)

(** Parcels can be written. *)
Definition parcels_ok : Prop :=
  (forall h, k_WriteInterfaceToken env h = true) /\ (forall h n, k_WriteInt32 env h n = true) /\
  (forall h t, k_WriteString env h t = true).

Definition in_calls (c : CCall) (s : KState) : Prop := In c (kcalls_ s).

Lemma in_calls_logged P c s s' : logged P s s' -> in_calls c s -> in_calls c s'.
Proof. intros (l & H & _) Hc. unfold in_calls. rewrite H. apply in_or_app. by left. Qed.

Lemma write_ints_ok ns s : parcels_ok -> fst (write_ints env ns s) = None.
Proof.
  intros (_ & H & _). revert s. induction ns as [|n ns IH]; intros s; [done|]. simpl. rewrite kbind_run. simpl.
  rewrite H. apply IH.
Qed.

Lemma write_strings_ok ss s : parcels_ok -> fst (write_strings env ss s) = None.
Proof.
  intros (_ & _ & H). revert s. induction ss as [|n ss IH]; intros s; [done|]. simpl. rewrite kbind_run. simpl.
  rewrite H. apply IH.
Qed.

Lemma or_else_ok m k s : fst (m s) = None -> or_else m k s = k (snd (m s)).
Proof. intros H. unfold or_else. by rewrite kbind_run, H. Qed.

Lemma client_told r reason s cb : parcels_ok -> c_srcCB (core s) = Some cb ->
  in_calls (KSendRequest (Some cb) NOTIFY_COLLAB_PREPARE_RESULT (c_srcSession (core s)) r)
    (snd (ExeSrcClientNotify env r reason s)).
Proof.
  intros Hok Hcb. unfold ExeSrcClientNotify. rewrite kbind_run. cbn [kinfo fst snd].
  change (srcClientCB_ (collabInfo_ (self s))) with (c_srcCB (core s)). rewrite Hcb.
  rewrite or_else_ok by (unfold write_token; rewrite kbind_run; simpl; by destruct Hok as [-> _]).
  rewrite or_else_ok by (by apply write_ints_ok). rewrite or_else_ok by (by apply write_strings_ok).
  unfold SendRequest, in_calls. cbn [kask snd kcalls_]. apply in_or_app. right. by left.
Qed.

Lemma peer_told cmd s : in_calls (KSendCommand cmd) (snd (SendCommand env cmd s)).
Proof.
  assert (in_calls (KSendCommand cmd) (snd (kcall (KSendCommand cmd) s))) as H.
  { unfold in_calls. simpl. apply in_or_app. right. by left. }
  unfold SendCommand. rewrite kbind_run. generalize dependent (snd (kcall (KSendCommand cmd) s)). intros s1 H.
  destruct (MarshalCollab cmd) as [text|]; [|done]. destruct (buf_write _ _ _ _ _ _); try done.
  rewrite kbind_run. simpl. unfold in_calls in *. apply in_or_app. by left.
Qed.

(** Who is told about an error in a state. *)
Definition told (st : CollabStateType) (r : Z) (s s' : KState) : Prop :=
  let i := collabInfo_ (self s) in
  let client := forall cb, c_srcCB (core s) = Some cb ->
    in_calls (KSendRequest (Some cb) NOTIFY_COLLAB_PREPARE_RESULT (c_srcSession (core s)) r) s' in
  let peer := in_calls (KSendCommand (CmdNotifyResult (PackNotifyResultCmd i r ""))) s' in
  match st with
  | SOURCE_GET_PEER_VERSION_STATE | COLLAB_SOURCE_START_STATE => client
  | SOURCE_WAIT_RESULT_STATE => client /\ peer
  | SINK_GET_VERSION_STATE | COLLAB_SINK_START_STATE | SINK_CONNECT_STATE => peer
  | COLLAB_SOURCE_WAIT_END_STATE | COLLAB_SINK_WAIT_END_STATE =>
      in_calls (KSendCommand (CmdDisconnect (PackDisconnectCmd i))) s'
  end.

Lemma told_clean {A} (m : KM A) c s : in_calls c (snd (m s)) ->
  in_calls c (snd ((_ ← m; _ ← CleanUpSession env; mret ERR_OK) s)).
Proof. intros H. rewrite !kbind_run. simpl. eapply in_calls_logged; [apply CleanUpSession_logged | exact H]. Qed.

Lemma state_Execute_told st r s : parcels_ok -> told st r s (snd (state_Execute env st (ERR_END_EVENT r) s)).
Proof.
  intros Hok.
  destruct st; cbn [state_Execute told SrcGetPeerVersionState_Execute SrcStartState_Execute SrcWaitResultState_Execute
    SrcWaitEndState_Execute SinkGetVersionState_Execute SinkStartState_Execute SinkConnectState_Execute SinkWaitEndState_Execute].
  - intros cb Hcb. apply told_clean. by apply client_told.
  - intros cb Hcb. apply told_clean. by apply client_told.
  - unfold ExeSrcWaitResultError. rewrite kbind_run. destruct (quiet_notify_peer env r "" s) as [Hc _]. split.
    + intros cb Hcb. apply told_clean. rewrite <- Hc. apply client_told; [done|]. by rewrite Hc.
    + apply told_clean. eapply in_calls_logged; [apply quiet_ExeSrcClientNotify|].
      unfold notify_peer. rewrite kbind_run. apply peer_told.
  - unfold ExeDisconnect. rewrite kbind_run. apply (told_clean (SendCommand env _)), peer_told.
  - apply told_clean. unfold notify_peer. rewrite kbind_run. apply peer_told.
  - apply told_clean. unfold notify_peer. rewrite kbind_run. apply peer_told.
  - apply told_clean. unfold notify_peer. rewrite kbind_run. apply peer_told.
  - unfold ExeDisconnect. rewrite kbind_run. apply (told_clean (SendCommand env _)), peer_told.
Qed.

(** An error is reported before the session goes: to the client of a
    source that has not finished its start, to the peer as a result command by a
    sink and by a source that waits for the result, as a disconnection by both when
    the collaboration was established. *)
Theorem collab_error_told st r s : parcels_ok -> c_machine (core s) = true -> c_state (core s) = Some st ->
  told st r s (snd (ProcessEvent env (ERR_END_EVENT r) s)).
Proof.
  intros Hok Hm Hst. pose proof (state_Execute_told st r s Hok) as Ht.
  unfold ProcessEvent, Machine_Execute. rewrite kbind_run. cbn [kself fst snd].
  change (collab_machine_ (self s)) with (c_machine (core s)). rewrite Hm. cbn [negb]. rewrite !kbind_run. cbn [kself fst snd].
  change (collab_state_ (self s)) with (c_state (core s)). rewrite Hst.
  destruct (negb _); [|exact Ht]. rewrite kbind_run. cbn [snd mret KM_ret].
  pose proof (logged_post env (ERR_END_EVENT (fst (state_Execute env st (ERR_END_EVENT r) s)))
    (snd (state_Execute env st (ERR_END_EVENT r) s))) as Hlog.
  destruct st; simpl in *; try (intros cb Hcb; eapply in_calls_logged; [exact Hlog | by apply Ht]);
    try (by eapply in_calls_logged).
  destruct Ht as [Ht1 Ht2]. split; [intros cb Hcb; eapply in_calls_logged; [exact Hlog | by apply Ht1]
                                   | by eapply in_calls_logged].
Qed.
End Props.

(** ** The theorems at concrete collaborations *)

Lemma collab_start_checked_witness :
  starts_checked demo_cenv (kcalls_ (snd (ProcessEvent demo_cenv START_ABILITY_EVENT
    (demo_kstate COLLAB_SINK COLLAB_SINK_START_STATE [])))).
Proof.
  apply (collab_start_checked demo_cenv START_ABILITY_EVENT (demo_kstate COLLAB_SINK COLLAB_SINK_START_STATE [])).
  intros pre w post E. by destruct pre.
Defined.

Lemma collab_error_ends_witness :
  let s := demo_kstate COLLAB_SOURCE SOURCE_WAIT_RESULT_STATE [] in
  ~ ("token" ∈ tokens_ (snd (ProcessEvent demo_cenv (ERR_END_EVENT 9) s))).
Proof.
  intros s. apply (collab_error_ends demo_cenv SOURCE_WAIT_RESULT_STATE 9 s); reflexivity.
Defined.

Lemma demo_live direction st q : live (core (demo_kstate direction st q)).
Proof. split_and!; [reflexivity | by exists st | reflexivity]. Qed.

Lemma collab_handler_terminates_witness :
  let s := demo_kstate COLLAB_SOURCE COLLAB_SOURCE_START_STATE [SOURCE_START_EVENT; NOTIFY_RESULT_EVENT 0; END_EVENT] in
  exists s', drain demo_cenv (measure s) s = Some s' /\
    (c_queue (core s') = [] \/ registered (core s') = false \/ c_handler (core s) = false).
Proof. intros s. apply (collab_handler_terminates demo_cenv s). apply demo_live. Defined.

Lemma collab_failure_destroys_witness :
  let s := demo_kstate COLLAB_SINK SINK_CONNECT_STATE [NOTIFY_PREPARE_RESULT_EVENT 0; ERR_END_EVENT 3] in
  exists s', drain demo_cenv (measure s) s = Some s' /\ registered (core s') = false /\
    In (KDestroyed true "token") (kcalls_ s').
Proof.
  intros s. apply (collab_failure_destroys demo_cenv s 3); [apply demo_live | reflexivity | right; by left].
Defined.

Lemma collab_error_told_witness :
  let s := demo_kstate COLLAB_SOURCE SOURCE_WAIT_RESULT_STATE [] in
  told SOURCE_WAIT_RESULT_STATE 9 s (snd (ProcessEvent demo_cenv (ERR_END_EVENT 9) s)).
Proof.
  intros s. apply (collab_error_told demo_cenv SOURCE_WAIT_RESULT_STATE 9 s); [split_and!|..]; reflexivity.
Defined.
