(* ===== verification/CollabKeeps.v ===== *)
(** What every method of a collaboration keeps, whatever its state and whatever the
    surroundings answer: the identity of the session, its machine and its handler,
    the client callback, and the manager's table apart from the session itself. *)

From S2P Require Import Prelude DataBuffer SchedErrors SchedUtils Json ContinueInfo ContinueSession ContinueCmd CollabCmd CollabSession CollabOps CollabStates CollabSpec CollabRefine CollabProps.
#[local] Open Scope string_scope.
#[local] Open Scope list_scope.
#[local] Open Scope Z_scope.

Section Null.
Context {W : WantApi}.
Definition is_null_request (c : CCall) : bool := match c with KSendRequest None _ _ _ => true | _ => false end.
Definition no_null (c : CCall) : bool := negb (is_null_request c).

Lemma harmless_no_null c : harmless c = true -> no_null c = true.
Proof. by destruct c as [| | | | | | |[]| | | | |]. Qed.
Lemma cleaning_no_null c : cleaning c = true -> no_null c = true.
Proof. by destruct c as [| | | | | | |[]| | | | |]. Qed.

End Null.

(** The token of the session was taken out of the table, or nothing was. *)
Definition table_shrinks (c c' : Core) : Prop :=
  (c_tokens c' = c_tokens c /\ c_named c' = c_named c) \/
  (c_token c <> "" /\ c_tokens c' = List.filter (fun t => negb (String.eqb t (c_token c))) (c_tokens c) /\
   c_named c' = List.filter (fun p => negb (String.eqb p.1 (c_token c))) (c_named c)).

Record keeps (c c' : Core) : Prop := {
  k_token : c_token c' = c_token c;
  k_machine : c_machine c' = c_machine c;
  k_handler : c_handler c' = c_handler c;
  k_srcCB : c_srcCB c' = c_srcCB c;
  k_state : c_state c' = c_state c \/ exists st, c_state c' = Some st /\ st <> SOURCE_GET_PEER_VERSION_STATE;
  k_table : table_shrinks c c';
}.

Lemma filter_filter_same {A} (f : A -> bool) l : List.filter f (List.filter f l) = List.filter f l.
Proof. induction l as [|x l IH]; simpl; [done|]. destruct (f x) eqn:E; simpl; rewrite ?E, IH; done. Qed.

Lemma table_shrinks_trans c c1 c2 : c_token c1 = c_token c -> table_shrinks c c1 -> table_shrinks c1 c2 -> table_shrinks c c2.
Proof.
  intros Ht H1 H2. unfold table_shrinks in *. rewrite Ht in H2.
  destruct H1 as [[E1 F1]|(N1 & E1 & F1)]; rewrite E1, F1 in H2; [done|]. right.
  destruct H2 as [[-> ->]|(N2 & -> & ->)]; rewrite ?filter_filter_same; done.
Qed.

Lemma keeps_refl c : keeps c c.
Proof. constructor; try done; by left. Qed.

Lemma keeps_trans c c1 c2 : keeps c c1 -> keeps c1 c2 -> keeps c c2.
Proof.
  intros [] []. constructor; try congruence.
  - destruct k_state1 as [->|H]; [done | by right].
  - by eapply table_shrinks_trans.
Qed.

Section Keeps.
Context {W : WantApi} {CW : CollabWantApi} {CJ : CJson} {PA : ParcelApi} {PP : Parcelable WantParams}.
Variable env : CEnv.

Definition keeping {A} (m : KM A) : Prop := effect m (fun c _ c' => keeps c c').

Lemma keeping_still {A} (m : KM A) : still m -> keeping m.
Proof. intros H s. rewrite (H s). apply keeps_refl. Qed.

Lemma keeping_quiet {A} (m : KM A) : quiet m -> keeping m.
Proof. intros H. by apply keeping_still, quiet_still. Qed.

Lemma keeping_ret {A} (a : A) : keeping (mret a).
Proof. intros s. apply keeps_refl. Qed.

Lemma keeping_bind {A B} (m : KM A) (f : A -> KM B) : keeping m -> (forall a, keeping (f a)) -> keeping (m ≫= f).
Proof. intros Hm Hf. intros s. rewrite kbind_run. eapply keeps_trans; [apply Hm | apply Hf]. Qed.

Lemma keeping_post e : keeping (post env e).
Proof. intros s. destruct (effect_post env e s) as [[_ ->]|(_ & -> & _)]; [|apply keeps_refl]. constructor; try done; by left. Qed.

Lemma keeping_UpdateState st : st <> SOURCE_GET_PEER_VERSION_STATE -> keeping (UpdateState st).
Proof.
  intros Hne s. rewrite (effect_UpdateState st s). unfold core_state. destruct (c_machine (core s)) eqn:E; [|apply keeps_refl].
  constructor; try done; [right; by exists st | by left].
Qed.

Lemma core_clean_keeps c : keeps c (core_clean c).
Proof.
  unfold core_clean. destruct (registered c) eqn:E; [|apply keeps_refl].
  constructor; try done; [by left|]. right. unfold registered in E. apply andb_true_iff in E as [E _].
  apply negb_true_iff, String.eqb_neq in E. done.
Qed.

Lemma keeping_CleanUp : keeping (CleanUpSession env).
Proof. intros s. destruct (CleanUpSession_core env s) as [-> _]. apply core_clean_keeps. Qed.
End Keeps.

Create HintDb keeping.
#[export] Hint Resolve keeping_ret keeping_post keeping_CleanUp : keeping.
#[export] Hint Extern 1 (keeping (UpdateState _)) => apply keeping_UpdateState; discriminate : keeping.
#[export] Hint Extern 1 (keeping (ConnectDevice _)) => apply keeping_still, still_ConnectDevice : keeping.
#[export] Hint Extern 2 (keeping _) =>
  apply keeping_quiet; first [apply quiet_ExeSrcClientNotify | apply quiet_notify_peer | apply quiet_SendCommand
    | apply quiet_PackStartCmd | apply quiet_GenerateCollabWant | apply quiet_Register | apply quiet_GetUdid
    | apply quiet_info | apply quiet_self | apply quiet_SaveSinkAbilityData
    | apply quiet_notify_own_client | apply quiet_Unregister
    | apply quiet_update; reflexivity | apply quiet_ask; reflexivity] : keeping.

(** [keeping_tac] walks through a method. *)
Ltac keeping_tac :=
  repeat first
  [ solve [auto with keeping]
  | lazymatch goal with
    | |- keeping (mbind _ _) => apply keeping_bind; [|intros ?]
    | |- keeping (match ?x with _ => _ end) => destruct x
    | |- keeping (if ?x then _ else _) => destruct x
    | |- keeping (kask _ _) => apply keeping_still, still_ask
    end ].

Section Methods.
Context {W : WantApi} {CW : CollabWantApi} {CJ : CJson} {PA : ParcelApi} {PP : Parcelable WantParams}.
Variable env : CEnv.

Lemma still_PeerVersionNotify : still (SrcPeerVersionNotify env).
Proof.
  unfold SrcPeerVersionNotify, or_else.
  apply still_bind; [apply quiet_still, quiet_info|]. intros i.
  apply still_bind; [apply quiet_still, quiet_write_token|]. intros [?|]; [by apply quiet_still, quiet_ret|].
  apply still_bind; [apply quiet_still, quiet_write_ints|]. intros [?|]; [by apply quiet_still, quiet_ret|].
  apply still_ask.
Qed.

Lemma state_Execute_keeping st e : keeping (state_Execute env st e).
Proof.
  destruct st, e; simpl; auto with keeping;
    unfold ExeSrcGetPeerVersion, ExeSrcGetVersion, ExeSrcStart, ExeSrcGetPeerVersionError, ExeSrcStartError, ExeSrcCollabResult,
      ExeSrcWaitResultError, ExeDisconnect, ExeSinkGetVersion, ExeSinkGetVersionError, ExeSinkStartError, ExeStartAbility,
      ExeSinkPrepareResult, ExeAbilityRejectError, ExeSinkConnectError, PostErrEndTask;
    try (by keeping_tac).
  apply keeping_bind; [apply keeping_still, still_PeerVersionNotify|]. intros a. keeping_tac.
Qed.

Lemma ProcessEvent_keeping e : keeping (ProcessEvent env e).
Proof.
  unfold ProcessEvent, Machine_Execute, PostErrEndTask. apply keeping_bind; [auto with keeping|]. intros d.
  destruct (negb (collab_machine_ d)); [auto with keeping|].
  apply keeping_bind; [|intros; keeping_tac]. apply keeping_bind; [auto with keeping|]. intros d'.
  destruct (collab_state_ d'); [apply state_Execute_keeping | auto with keeping].
Qed.

(** The data of the start command change no part that is kept. *)
Lemma SetSinkCollabInfo_keeping c : keeping (SetSinkCollabInfo env c).
Proof.
  unfold SetSinkCollabInfo. apply keeping_bind; [intros s; constructor; try done; by left|]. intros _. keeping_tac.
Qed.
#[local] Hint Resolve SetSinkCollabInfo_keeping : keeping.

Lemma SetSinkCollabInfo_no_null c : emits no_null (SetSinkCollabInfo env c).
Proof.
  unfold SetSinkCollabInfo. apply emits_bind; [apply emits_update|]. intros _. destruct (OS_ACCOUNT_PART env); [|apply emits_ret].
  apply emits_bind; [by apply emits_ask|]. intros [ret ids]. destruct ids; [apply emits_ret|].
  destruct (_ =? _); [apply emits_update | apply emits_ret].
Qed.

Lemma OnDataRecv_keeping command b : keeping (OnDataRecv env command b).
Proof.
  unfold OnDataRecv, PostErrEndTask, PostSrcGetVersionTask, PostSinkStartTask, PostSrcResultTask.
  destruct b; [|auto with keeping]. keeping_tac.
Qed.

Lemma NotifyWifiOpen_keeping : keeping (NotifyWifiOpen env).
Proof. unfold NotifyWifiOpen. auto with keeping. Qed.

Lemma PostSinkPrepareResult_keeping r sid n cb : keeping (PostSinkPrepareResultTask env r sid n cb).
Proof. unfold PostSinkPrepareResultTask. keeping_tac. Qed.

(** ** No request to a null object *)

(** A session that asks for the version of its peer has a client. *)
Definition has_client (c : Core) : Prop := c_state c = Some SOURCE_GET_PEER_VERSION_STATE -> c_srcCB c <> None.

Lemma keeps_has_client c c' : keeps c c' -> has_client c -> has_client c'.
Proof.
  intros [] H. unfold has_client in *. rewrite k_srcCB0. destruct k_state0 as [->|(st & -> & Hne)]; [done|]. congruence.
Qed.

Lemma no_null_Execute st e : (st, e) <> (SOURCE_GET_PEER_VERSION_STATE, SOURCE_GET_VERSION_EVENT) ->
  emits no_null (state_Execute env st e).
Proof.
  intros Hne.
  destruct st, e; simpl; try (by apply emits_ret);
    try (unfold ExeSrcGetPeerVersion, ExeSrcStart, ExeSrcGetPeerVersionError, ExeSrcStartError, ExeSrcCollabResult,
           ExeSrcWaitResultError, ExeDisconnect, ExeSinkGetVersion, ExeSinkGetVersionError, ExeSinkStartError, ExeStartAbility,
           ExeSinkPrepareResult, ExeAbilityRejectError, ExeSinkConnectError;
         emits_tac harmless_no_null cleaning_no_null; fail).
  all: done.
Qed.

Lemma no_null_GetVersion s : c_srcCB (core s) <> None -> logged no_null s (snd (ExeSrcGetVersion env s)).
Proof.
  intros Hcb. unfold ExeSrcGetVersion. rewrite kbind_run.
  eapply logged_trans; [|match goal with |- logged _ _ (snd (?m _)) =>
    enough (emits no_null m) as He by apply He; emits_tac harmless_no_null cleaning_no_null end].
  unfold SrcPeerVersionNotify. rewrite kbind_run. cbn [kinfo fst snd].
  change (srcClientCB_ (collabInfo_ (self s))) with (c_srcCB (core s)). destruct (c_srcCB (core s)) as [cb|]; [|done].
  eapply logged_weaken; [apply harmless_no_null|].
  apply (quiet_or_else (write_token env _)); [apply quiet_write_token|].
  apply quiet_or_else; [apply quiet_write_ints | apply quiet_SendRequest].
Qed.

Lemma ProcessEvent_no_null e s : has_client (core s) -> logged no_null s (snd (ProcessEvent env e s)).
Proof.
  intros Hc. unfold ProcessEvent. rewrite kbind_run. cbn [kself fst snd].
  destruct (negb (collab_machine_ (self s))); [apply logged_refl|]. rewrite kbind_run.
  eapply logged_trans; [|match goal with |- logged _ _ (snd (?m _)) =>
    enough (emits no_null m) as He by apply He; emits_tac harmless_no_null cleaning_no_null end].
  unfold Machine_Execute. rewrite kbind_run. cbn [kself fst snd].
  destruct (collab_state_ (self s)) as [st|] eqn:Est; [|apply logged_refl].
  destruct (decide ((st, e) = (SOURCE_GET_PEER_VERSION_STATE, SOURCE_GET_VERSION_EVENT))) as [E|E].
  - injection E as -> ->. apply no_null_GetVersion, Hc, Est.
  - by apply no_null_Execute.
Qed.

Lemma OnDataRecv_no_null command b : emits no_null (OnDataRecv env command b).
Proof.
  assert (forall e, emits no_null (post env e)) as Hp by (intros e; apply emits_post, harmless_no_null).
  assert (forall A (m : KM A), quiet m -> emits no_null m) as Hq by (intros A m; apply emits_quiet, harmless_no_null).
  unfold OnDataRecv, PostSrcGetVersionTask, PostSinkStartTask. destruct b as [b|]; [|apply emits_ret].
  repeat match goal with |- emits _ (if ?x then _ else _) => destruct x end;
    try (match goal with |- emits _ (match ?x with _ => _ end) => destruct x end);
    repeat (lazymatch goal with |- emits _ (mbind _ _) => apply emits_bind; [|intros ?] end);
    try apply emits_ret; try apply emits_update; try apply Hp; try (apply emits_CleanUp, cleaning_no_null);
    try apply SetSinkCollabInfo_no_null.
  unfold PostSrcResultTask. apply emits_bind; [apply Hq, quiet_self|]. intros d.
  repeat match goal with |- emits _ (if ?x then _ else _) => destruct x end; try apply emits_ret; try apply Hp.
  repeat (lazymatch goal with |- emits _ (mbind _ _) => idtac end; apply emits_bind; [first [apply emits_update | apply Hq, quiet_GetUdid | apply Hq, quiet_info]|intros ?]). apply Hp.
Qed.

(** ** The destructor *)

Lemma destroy_core b s :
  let s' := snd (DSchedCollab_destroy env b s) in
  core s' = mkCore (c_machine (core s)) (c_state (core s)) false (c_queue (core s)) (c_token (core s)) (c_direction (core s))
              (c_srcCB (core s)) (c_srcSession (core s)) (c_peer (core s)) (c_tokens (core s)) (c_named (core s)) /\
  logged no_null s s'.
Proof.
  cbv zeta. unfold DSchedCollab_destroy. rewrite kbind_run. destruct (quiet_Unregister env s) as [Hc Hl].
  generalize dependent (snd (UnregisterAbilityLifecycleObserver env s)). intros s1 Hc Hl.
  rewrite !kbind_run. cbn [kinfo kcall kupdate fst snd]. rewrite <- Hc. split; [done|].
  eapply logged_trans; [eapply logged_weaken; [apply harmless_no_null | exact Hl]|].
  by exists [KDestroyed b (collabToken_ (collabInfo_ (self s1)))].
Qed.

(** A turn of the handler: the session goes on, or it has left the table. *)
Lemma handle_next_keeps s : has_client (core s) -> c_token (core s) ∈ c_tokens (core s) ->
  let s' := snd (handle_next env s) in
  logged no_null s s' /\ c_token (core s') = c_token (core s) /\ table_shrinks (core s) (core s') /\
  (c_token (core s) ∈ c_tokens (core s') -> keeps (core s) (core s')).
Proof.
  intros Hc Hin. cbv zeta. unfold handle_next. rewrite kbind_run. cbn [kself fst snd].
  assert (logged no_null s s /\ c_token (core s) = c_token (core s) /\ table_shrinks (core s) (core s) /\
    (c_token (core s) ∈ c_tokens (core s) -> keeps (core s) (core s))) as Hsame.
  { split_and!; [apply logged_refl | done | by left | intros _; apply keeps_refl]. }
  destruct (collab_queue_ (self s)) as [|e q]; [exact Hsame|]. destruct (negb (collab_handler_ (self s))); [exact Hsame|].
  rewrite !kbind_run. cbn [snd kupdate mret KM_ret].
  set (s1 := mkKState (set_collab_queue q (self s)) (tokens_ s) (named_ s) (kcalls_ s)).
  assert (keeps (core s) (core s1)) as K1 by (constructor; try done; by left).
  pose proof (ProcessEvent_keeping e s1) as K2. cbv beta in K2.
  pose proof (ProcessEvent_no_null e s1 (keeps_has_client _ _ K1 Hc)) as L2.
  assert (logged no_null s s1) as L1 by (by exists []; cbn; rewrite app_nil_r).
  generalize dependent (snd (ProcessEvent env e s1)). intros s2 K2 L2.
  pose proof (keeps_trans _ _ _ K1 K2) as K. pose proof (logged_trans _ _ _ _ L1 L2) as L.
  unfold release. change (collabToken_ (collabInfo_ (self s2))) with (c_token (core s2)).
  change (tokens_ s2) with (c_tokens (core s2)). rewrite (k_token _ _ K). case_bool_decide as Hd; cbn [snd].
  - split_and!; [done | apply K | apply K | done].
  - destruct (destroy_core true s2) as [Ed Ld]. split_and!.
    + by eapply logged_trans.
    + rewrite Ed. apply K.
    + destruct (k_table _ _ K) as [[H1 H2]|H]; [left | right]; rewrite Ed; done.
    + rewrite Ed. done.
Qed.
End Methods.
