(* ===== verification/CollabManager.v ===== *)
(** The manager of collaborations:
    services/dtbschedmgr/src/collab/dsched_collab_manager.cpp.

    The manager keeps the table of collaborations by token, posts the requests it
    gets as tasks of its event handler, and ends collaborations that take too long
    or whose application goes. A handler of the manager and the processing of one
    event by a session's thread are single steps. One step takes one [CMEnv], the
    answers of the services the manager asks itself; the sessions run in [CEnv]. *)

From S2P Require Import Prelude StdMap DataBuffer SchedErrors SchedUtils Json ContinueInfo ContinueSession ContinueCmd CollabCmd CollabSession CollabOps CollabStates.
From stdpp Require Import pretty.
#[local] Open Scope string_scope.
#[local] Open Scope list_scope.
#[local] Open Scope Z_scope.

Definition NO_NEED_TO_CHECK_ID : Z := -1.
Definition RANDOM_STRING_LENGTH : nat := 20.
Definition COLLAB_TIMEOUT : Z := 20000.
Definition BACKGROUND_TIMEOUT : Z := 5000.

(** [CollabInfo] of the softbus relation checker; [tokenId] is 64 bits wide. *)
Record RelationInfo := mkRelationInfo {
  rel_deviceId : string;
  rel_pid : Z;
  rel_tokenId : Z;
  rel_userId : Z;
}.

(** The answers during one step. *)
Record CMEnv := mkCMEnv {
  cm_DMSFWK_ALL_CONNECT_MGR : bool;
  cm_COLLAB_ALL_CONNECT_DECISIONS : bool;
  cm_RegisterRelationChecker : Z;
  cm_GetLocalDeviceId : option string;
  cm_GetDeviceInfoById : string -> bool;
  cm_CheckNetworkIdByBundleName : string -> string -> bool;
  (** [IsNeedAllConnect] of the adapter. *)
  cm_IsNeedAllConnect : bool;
  (** The decision that arrives from the all-connect manager while it is awaited. *)
  cm_decision : option bool;
  (** What an uninitialised [sinkAccountId_] holds. *)
  cm_account : Z;
}.

Section Manager.
Context {W : WantApi} {CW : CollabWantApi} {CJ : CJson} {PA : ParcelApi} {PP : Parcelable WantParams}.
Variable env : CEnv.

(** The tasks of the event handler that are posted without a delay. *)
Inductive CTask :=
  | CTGetSinkCollabVersion (info : DSchedCollabInfo)
  | CTPrepareResult (collabToken : string) (result collabSessionId : Z) (socketName : string) (clientCB : option Z)
  | CTCloseSessions (bundleName : string) (pid : Z)
  | CTDataRecv (softbusSessionId : Z) (dataBuffer : option DataBuffer)
  | CTShutdown (socket : Z)
  | CTTimeout (collabToken : string).

Record CManager := mkCManager {
  cm_handler : bool;
  cm_tasks : list CTask;
  cm_named : list (string * NamedTask);
  collabs_ : list (string * DCollab);
  cm_decisions : list (string * bool);
  cm_calls : list CCall;
}.

Definition CManager_new : CManager := mkCManager false [] [] [] [] [].

(** What a handler does: it returns, waits for ever (the event runner of a new
    session cannot be created), or uses a null session. *)
Inductive Outcome := Returns (m : CManager) | Waits | NullDereference.

Definition set_cm_tasks (ts : list CTask) (m : CManager) : CManager :=
  mkCManager (cm_handler m) ts (cm_named m) (collabs_ m) (cm_decisions m) (cm_calls m).
Definition set_cm_named (ns : list (string * NamedTask)) (m : CManager) : CManager :=
  mkCManager (cm_handler m) (cm_tasks m) ns (collabs_ m) (cm_decisions m) (cm_calls m).
Definition set_cm_decisions (ds : list (string * bool)) (m : CManager) : CManager :=
  mkCManager (cm_handler m) (cm_tasks m) (cm_named m) (collabs_ m) ds (cm_calls m).
Definition cm_call (c : CCall) (m : CManager) : CManager :=
  mkCManager (cm_handler m) (cm_tasks m) (cm_named m) (collabs_ m) (cm_decisions m) (cm_calls m ++ [c]).
Definition cm_post (t : CTask) (m : CManager) : CManager := set_cm_tasks (cm_tasks m ++ [t]) m.
Definition cm_try_post (t : CTask) (m : CManager) : Z * CManager :=
  if negb (cm_handler m) then (INVALID_PARAMETERS_ERR, m) else (ERR_OK, cm_post t m).

(** ** Methods of the sessions of the table *)

Definition kstate_of (d : DCollab) (m : CManager) : KState :=
  mkKState d (map fst (collabs_ m)) (cm_named m) (cm_calls m).

(** The session with that token is still in the table. *)
Definition kept (s : KState) (token : string) : bool := bool_decide (token ∈ tokens_ s).

(** The table after a method of the session at [key]. *)
Definition put_session (key : string) (s : KState) (m : CManager) : CManager :=
  mkCManager (cm_handler m) (cm_tasks m) (named_ s)
    (mupdate key (fun _ => self s) (List.filter (fun e => kept s e.1) (collabs_ m)))
    (cm_decisions m) (kcalls_ s).

(** A method of the session at [key] called by the manager; a session that leaves
    the table is destroyed by the calling thread. *)
Definition call_session {A} (key : string) (d : DCollab) (f : KM A) (m : CManager) : A * CManager :=
  let '(a, s) := f (kstate_of d m) in
  (a, put_session key (snd (release env false s)) m).

Definition with_session {A} (key : string) (f : KM A) (m : CManager) : CManager :=
  match mfind key (collabs_ m) with
  | None => m
  | Some d => snd (call_session key d f m)
  end.

(** The event thread of the session at [key] processes its next event. *)
Definition session_step (key : string) (m : CManager) : CManager :=
  match mfind key (collabs_ m) with
  | None => m
  | Some d => put_session key (snd (handle_next env (kstate_of d m))) m
  end.

Definition GetDSchedCollabByTokenId (tokenId : string) (m : CManager) : option DCollab :=
  if String.eqb tokenId "" then None else mfind tokenId (collabs_ m).

(** ** Start and end *)

Definition Manager_Init (menv : CMEnv) (m : CManager) : CManager :=
  if cm_handler m then m
  else
    let m := cm_call (KManager "RegisterListener") (cm_call (KManager "InitChannel") m) in
    if negb (cm_RegisterRelationChecker menv =? ERR_OK) then m
    else mkCManager true [] [] (collabs_ m) (cm_decisions m) (cm_calls m).

(** The sessions of the table are destroyed in its order. *)
Fixpoint destroy_all (entries : list (string * DCollab)) (calls : list CCall) : list CCall :=
  match entries with
  | [] => calls
  | (_, d) :: entries => destroy_all entries (kcalls_ (snd (DSchedCollab_destroy env false (mkKState d [] [] calls))))
  end.

Definition Manager_UnInit (m : CManager) : CManager :=
  let m := cm_call (KManager "ReleaseChannel") (cm_call (KManager "UnregisterListener") m) in
  let calls := destroy_all (collabs_ m) (cm_calls m) in
  if cm_handler m then mkCManager false [] [] [] (cm_decisions m) calls
  else mkCManager false (cm_tasks m) (cm_named m) [] (cm_decisions m) calls.

(** ** Timeouts *)

Definition SetTimeOut (collabToken : string) (timeout : Z) (m : CManager) : CManager :=
  if negb (cm_handler m) then m
  else if 0 <? timeout then set_cm_named (cm_named m ++ [(collabToken, TaskTimeout collabToken)]) m
  else cm_post (CTTimeout collabToken) m.

Definition remove_task (name : string) (ns : list (string * NamedTask)) : list (string * NamedTask) :=
  List.filter (fun p => negb (String.eqb p.1 name)) ns.

Definition RemoveTimeout (collabToken : string) (m : CManager) : CManager :=
  if negb (cm_handler m) then m else set_cm_named (remove_task collabToken (cm_named m)) m.

Definition HandleTimeout (collabToken : string) (m : CManager) : CManager :=
  with_session collabToken (PostErrEndTask env COLLAB_ABILITY_TIMEOUT_ERR) m.

(** ** Decisions of the all-connect manager *)

Definition NotifyAllConnectDecision (menv : CMEnv) (peerDeviceId : string) (isSupport : bool) (m : CManager) : CManager :=
  if cm_DMSFWK_ALL_CONNECT_MGR menv
  then set_cm_decisions (mupdate peerDeviceId (fun _ => isSupport) (minsert peerDeviceId isSupport (cm_decisions m))) m
  else m.

(** The session waited for is given as what to do on a refusal. *)
Definition WaitAllConnectDecision (menv : CMEnv) (peerDeviceId : string) (m : CManager) : bool * CManager :=
  if cm_DMSFWK_ALL_CONNECT_MGR menv then
    let m := match cm_decision menv with Some b => NotifyAllConnectDecision menv peerDeviceId b m | None => m end in
    match mfind peerDeviceId (cm_decisions m) with
    | None => (false, m)
    | Some decision => (decision, set_cm_decisions (merase peerDeviceId (cm_decisions m)) m)
    end
  else (true, m).

(** ** New collaborations *)

(** A new session is initialised, put into its first state and into the table, and
    its first event is posted. [insert] keeps a session that has the token already;
    the new one lives until the end of the handler then. *)
Definition new_session (collabToken : string) (d : DCollab) (st : CollabStateType) (m : CManager)
    : option (DCollab * CManager) :=
  let '(ret, s) := Init env (kstate_of d m) in
  match ret with
  | None => None
  | Some _ =>
      let s := snd (UpdateState st s) in
      Some (self s, mkCManager (cm_handler m) (cm_tasks m) (named_ s) (minsert collabToken (self s) (collabs_ m))
                      (cm_decisions m) (kcalls_ s))
  end.

(** A method of a new session: [inserted] says whether it is the one in the table. *)
Definition on_new {A} (inserted : bool) (collabToken : string) (d : DCollab) (f : KM A) (m : CManager)
    : DCollab * CManager :=
  let s := snd (f (kstate_of d m)) in
  (self s, mkCManager (cm_handler m) (cm_tasks m) (named_ s)
             (if inserted then mupdate collabToken (fun _ => self s) (collabs_ m) else collabs_ m)
             (cm_decisions m) (kcalls_ s)).

(** The end of the handler, where a session that is not in the table goes. *)
Definition drop_new (inserted : bool) (d : DCollab) (m : CManager) : CManager :=
  if inserted then m
  else let s := snd (DSchedCollab_destroy env false (kstate_of d m)) in
       mkCManager (cm_handler m) (cm_tasks m) (named_ s) (collabs_ m) (cm_decisions m) (kcalls_ s).

Definition is_new (collabToken : string) (m : CManager) : bool :=
  match mfind collabToken (collabs_ m) with None => true | Some _ => false end.

Definition HandleGetSinkCollabVersion (menv : CMEnv) (info : DSchedCollabInfo) (m : CManager) : Outcome :=
  let collabToken := collabToken_ info in
  let inserted := is_new collabToken m in
  match new_session collabToken (DSchedCollab_new collabToken info) SOURCE_GET_PEER_VERSION_STATE m with
  | None => Waits
  | Some (d, m) =>
      let '(d, m) := on_new inserted collabToken d (PostSrcGetPeerVersionTask env) m in
      let m := SetTimeOut collabToken COLLAB_TIMEOUT m in
      if negb (cm_COLLAB_ALL_CONNECT_DECISIONS menv) || negb (cm_IsNeedAllConnect menv)
      then Returns (drop_new inserted d m)
      else
        let sinkDeviceId := msg_deviceId (sinkInfo_ info) in
        let m := set_cm_decisions (merase sinkDeviceId (cm_decisions m)) m in
        let '(go, m) := WaitAllConnectDecision menv sinkDeviceId m in
        if go : bool then Returns (drop_new inserted d m)
        else
          let '(d, m) := on_new inserted collabToken d (PostErrEndTask env COLLAB_ABILITY_TIMEOUT_ERR) m in
          Returns (drop_new inserted d m)
  end.

Definition set_src_device (id : string) (i : DSchedCollabInfo) : DSchedCollabInfo :=
  let src := srcInfo_ i in
  mkCollabInfo (srcCollabSessionId_ i) (sinkCollabSessionId_ i) (sinkUserId_ i) (srcCollabVersion_ i)
    (sinkCollabVersion_ i) (srcAppVersion_ i) (collabDirection_ i) (collabToken_ i) (srcUdid_ i) (sinkUdid_ i)
    (sinkAccountId_ i) (callerInfo_ i) (srcAccountInfo_ i)
    (mkCollabMessage (msg_pid src) (msg_uid src) (msg_accessToken src) id (msg_bundleName src) (msg_abilityName src)
       (msg_moduleName src) (msg_serverId src) (msg_socketName src))
    (sinkInfo_ i) (srcOpt_ i) (srcClientCB_ i) (sinkClientCB_ i).

Definition GetSinkCollabVersion (menv : CMEnv) (info : DSchedCollabInfo) (m : CManager) : Z * CManager :=
  if (srcCollabSessionId_ info <? 0) || String.eqb (msg_deviceId (sinkInfo_ info)) ""
     || bool_decide (srcClientCB_ info = None)
  then (INVALID_PARAMETERS_ERR, m)
  else match cm_GetLocalDeviceId menv with
       | None => (FIND_LOCAL_DEVICEID_ERR, m)
       | Some l => cm_try_post (CTGetSinkCollabVersion (set_src_device l info)) m
       end.

Definition names_given (i : DSchedCollabInfo) : bool :=
  forallb (fun n => negb (String.eqb n ""))
    [msg_bundleName (srcInfo_ i); msg_bundleName (sinkInfo_ i); msg_moduleName (srcInfo_ i);
     msg_moduleName (sinkInfo_ i); msg_abilityName (srcInfo_ i); msg_abilityName (sinkInfo_ i)].

Definition start_source : KM Z := _ ← UpdateState COLLAB_SOURCE_START_STATE; PostSrcStartTask env.

Definition CollabMission (menv : CMEnv) (info : DSchedCollabInfo) (m : CManager) : Z * CManager :=
  if negb (names_given info) then (INVALID_PARAMETERS_ERR, m)
  else match cm_GetLocalDeviceId menv with
       | None => (FIND_LOCAL_DEVICEID_ERR, m)
       | Some l =>
           let info := set_src_device l info in
           let sink := sinkInfo_ info in
           if negb (cm_GetDeviceInfoById menv (msg_deviceId sink))
              && negb (cm_CheckNetworkIdByBundleName menv (msg_bundleName sink) (msg_deviceId sink))
           then (FIND_REMOTE_DEVICEID_ERR, m)
           else match GetDSchedCollabByTokenId (collabToken_ info) m with
                | None => (INVALID_PARAMETERS_ERR, m)
                | Some d =>
                    (ERR_OK, snd (call_session (collabToken_ info) d (_ ← SetSrcCollabInfo info; start_source) m))
                end
       end.

(** A missing session is used all the same. *)
Definition HandleCollabMission (info : DSchedCollabInfo) (m : CManager) : Outcome :=
  match GetDSchedCollabByTokenId (collabToken_ info) m with
  | None => NullDereference
  | Some d => Returns (snd (call_session (collabToken_ info) d start_source m))
  end.

Definition IsSessionExists (info : DSchedCollabInfo) (m : CManager) : bool :=
  existsb (fun e => let i := collabInfo_ e.2 in
    (msg_pid (srcInfo_ i) =? msg_pid (srcInfo_ info)) && (srcCollabSessionId_ i =? srcCollabSessionId_ info))
    (collabs_ m).

(** ** Tokens *)

Definition characters : string := "ABCDEFGHIJKLMNOPQRSTUVWXYZabcdefghijklmnopqrstuvwxyz1234567890".

(** The first [n] characters are drawn anew; [dis] gives the draws, numbered. *)
Fixpoint overwrite (dis : nat -> nat) (at_ n : nat) (value : string) : string :=
  match n, value with
  | S n, String _ rest =>
      String (default Ascii.zero (String.get (dis at_) characters)) (overwrite dis (S at_) n rest)
  | _, _ => value
  end.

Fixpoint blank (n : nat) : string := match n with O => "" | S n => String Ascii.zero (blank n) end.

(** Each round puts the device in front of what the last one drew; [None]: [fuel]
    was not enough. *)
Fixpoint generate (dis : nat -> nat) (srcDeviceId : string) (m : CManager) (fuel round : nat) (randomValue : string)
    : option string :=
  match fuel with
  | O => None
  | S fuel =>
      let randomValue := srcDeviceId +:+ overwrite dis (round * RANDOM_STRING_LENGTH) RANDOM_STRING_LENGTH randomValue in
      if is_new randomValue m then Some randomValue else generate dis srcDeviceId m fuel (S round) randomValue
  end.

Definition GenerateCollabToken (dis : nat -> nat) (srcDeviceId : string) (m : CManager) : option string :=
  generate dis srcDeviceId m (S (length (collabs_ m))) 0 (blank RANDOM_STRING_LENGTH).

(** ** Results of the sink *)

Definition NotifyStartAbilityResult (collabToken : string) (result sinkPid sinkUid sinkAccessTokenId : Z)
    (m : CManager) : Z * CManager :=
  match GetDSchedCollabByTokenId collabToken m with
  | None => (INVALID_PARAMETERS_ERR, m)
  | Some d =>
      if negb (result =? ERR_OK) then call_session collabToken d (PostErrEndTask env result) m
      else (ERR_OK, snd (call_session collabToken d (SaveSinkAbilityData sinkPid sinkUid sinkAccessTokenId) m))
  end.

Definition NotifySinkPrepareResult (collabToken : string) (result collabSessionId : Z) (socketName : string)
    (clientCB : option Z) (m : CManager) : Z * CManager :=
  cm_try_post (CTPrepareResult collabToken result collabSessionId socketName clientCB) m.

Definition HandleCollabPrepareResult (collabToken : string) (result collabSessionId : Z) (socketName : string)
    (clientCB : option Z) (m : CManager) : CManager :=
  match GetDSchedCollabByTokenId collabToken m with
  | None => m
  | Some d =>
      RemoveTimeout collabToken
        (snd (call_session collabToken d (PostSinkPrepareResultTask env result collabSessionId socketName clientCB) m))
  end.

Definition NotifySinkRejectReason (collabToken reason : string) (m : CManager) : Z * CManager :=
  match GetDSchedCollabByTokenId collabToken m with
  | None => (INVALID_PARAMETERS_ERR, m)
  | Some d => call_session collabToken d (PostAbilityRejectTask env reason) m
  end.

Definition NotifySessionClose (collabToken : string) (m : CManager) : Z * CManager :=
  match GetDSchedCollabByTokenId collabToken m with
  | None => (INVALID_PARAMETERS_ERR, m)
  | Some d => (ERR_OK, snd (call_session collabToken d (PostEndTask env) m))
  end.

(** ** Applications that go *)

Definition NotifyAbilityDied (bundleName : string) (pid : Z) (m : CManager) : Z * CManager :=
  cm_try_post (CTCloseSessions bundleName pid) m.

(** Both tests look at the bundle of the source. *)
Definition of_source (bundleName : string) (pid : Z) (d : DCollab) : bool :=
  String.eqb bundleName (msg_bundleName (srcInfo_ (collabInfo_ d))) && (pid =? msg_pid (srcInfo_ (collabInfo_ d))).
Definition of_sink (bundleName : string) (pid : Z) (d : DCollab) : bool :=
  String.eqb bundleName (msg_bundleName (srcInfo_ (collabInfo_ d))) && (pid =? msg_pid (sinkInfo_ (collabInfo_ d))).

(** Only the first collaboration of the application is ended. *)
Definition HandleCloseSessions (bundleName : string) (pid : Z) (m : CManager) : Z * CManager :=
  match List.find (fun e => of_source bundleName pid e.2 || of_sink bundleName pid e.2) (collabs_ m) with
  | None => (ERR_OK, m)
  | Some (key, d) => call_session key d (PostEndTask env) m
  end.

Definition release_task_name (bundleName : string) (pid : Z) : string := bundleName +:+ pretty pid.

Definition ReleaseAbilityLink (bundleName : string) (pid : Z) (m : CManager) : Z * CManager :=
  if negb (cm_handler m) then (INVALID_PARAMETERS_ERR, m)
  else (ERR_OK, set_cm_named (cm_named m ++ [(release_task_name bundleName pid, TaskRelease bundleName pid)]) m).

Definition CancleReleaseAbilityLink (bundleName : string) (pid : Z) (m : CManager) : Z * CManager :=
  if negb (cm_handler m) then (INVALID_PARAMETERS_ERR, m)
  else (ERR_OK, set_cm_named (remove_task (release_task_name bundleName pid) (cm_named m)) m).

(** One collaboration of the loop of [HandleReleaseAbilityLink]. *)
Definition release_one (bundleName : string) (pid : Z) (e : string * DCollab) (m : CManager) : CManager :=
  let '(key, d) := e in
  let m := if of_source bundleName pid d
           then with_session key (PostEndTask env)
                  (cm_call (KPrivilegeShutdown (u64 (msg_accessToken (srcInfo_ (collabInfo_ d)))) pid
                              (c_str (msg_deviceId (sinkInfo_ (collabInfo_ d))))) m)
           else m in
  if of_sink bundleName pid d then with_session key (PostEndTask env) m else m.

(** A loop over the table. *)
Definition for_each (f : string * DCollab -> CManager -> CManager) (m : CManager) : CManager :=
  fold_left (fun m e => f e m) (collabs_ m) m.

Definition HandleReleaseAbilityLink (bundleName : string) (pid : Z) (m : CManager) : CManager :=
  for_each (release_one bundleName pid) m.

(** A delayed task of the handler. *)
Definition run_named (t : NamedTask) (m : CManager) : CManager :=
  match t with
  | TaskTimeout token => HandleTimeout token m
  | TaskRelease bundleName pid => HandleReleaseAbilityLink bundleName pid m
  end.

(** The time of the [n]th delayed task has come. *)
Definition fire (n : nat) (m : CManager) : CManager :=
  match cm_named m !! n with
  | None => m
  | Some (_, t) => run_named t (set_cm_named (delete n (cm_named m)) m)
  end.

Definition Manager_NotifyWifiOpen (m : CManager) : CManager :=
  for_each (fun e => with_session e.1 (NotifyWifiOpen env)) m.

(** ** Data from the softbus *)

Definition Manager_OnDataRecv (softbusSessionId : Z) (dataBuffer : option DataBuffer) (m : CManager) : CManager :=
  snd (cm_try_post (CTDataRecv softbusSessionId dataBuffer) m).

(** The first collaboration of that session with that token gets the data; the
    request for the version starts a new one. *)
Definition NotifyDataRecv (menv : CMEnv) (softbusSessionId command : Z) (jsonStr : string)
    (dataBuffer : DataBuffer) (collabToken : string) (m : CManager) : Outcome :=
  match List.find (fun e => (softbusSessionId =? collab_softbus_ e.2)
                            && String.eqb collabToken (collabToken_ (collabInfo_ e.2))) (collabs_ m) with
  | Some (key, d) =>
      let m := snd (call_session key d (OnDataRecv env command (Some dataBuffer)) m) in
      Returns (if command =? NOTIFY_RESULT_CMD then RemoveTimeout key m else m)
  | None =>
      if command =? SINK_GET_VERSION_CMD then
        match UnmarshalGetVersion jsonStr with
        | None => Returns m
        | Some getVersionCmd =>
            match cm_GetLocalDeviceId menv with
            | None => Returns m
            | Some localDevId =>
                if negb (String.eqb (base_sinkDeviceId (version_base getVersionCmd)) localDevId) then Returns m
                else
                  let token := base_collabToken (version_base getVersionCmd) in
                  let inserted := is_new token m in
                  match new_session token (DSchedCollab_fromCmd getVersionCmd softbusSessionId (cm_account menv))
                          SINK_GET_VERSION_STATE m with
                  | None => Waits
                  | Some (d, m) =>
                      let '(d, m) := on_new inserted token d (PostSinkGetVersionTask env) m in
                      Returns (drop_new inserted d (SetTimeOut token COLLAB_TIMEOUT m))
                  end
            end
        end
      else Returns m
  end.

(** The command and the token of a message. *)
Definition parse_message (jsonStr : string) : option (Z * string) :=
  root ← cJSON_Parse (c_str jsonStr);
  baseCmd ← get_string root "BaseCmd";
  cmdValue ← cJSON_Parse (c_str baseCmd);
  command ← get_number cmdValue "Command";
  collabToken ← get_string cmdValue "CollabToken";
  Some (command, collabToken).

Definition HandleDataRecv (menv : CMEnv) (softbusSessionId : Z) (dataBuffer : option DataBuffer) (m : CManager) : Outcome :=
  match dataBuffer with
  | None => Returns m
  | Some b =>
      let jsonStr := buffer_text b in
      match parse_message jsonStr with
      | None => Returns m
      | Some (command, collabToken) => NotifyDataRecv menv softbusSessionId command jsonStr b collabToken m
      end
  end.

Definition OnShutdown (socket : Z) (isSelfCalled : bool) (m : CManager) : CManager :=
  if isSelfCalled then m else snd (cm_try_post (CTShutdown socket) m).

Definition HandleShutdown (socket : Z) (m : CManager) : CManager :=
  for_each (fun e m => if socket =? collab_softbus_ e.2
                       then with_session e.1 (PostErrEndTask env COLLAB_SESSION_SHUTDOWN) m else m) m.

(** ** The event handler *)

Definition run_task (menv : CMEnv) (t : CTask) (m : CManager) : Outcome :=
  match t with
  | CTGetSinkCollabVersion info => HandleGetSinkCollabVersion menv info m
  | CTPrepareResult token result sid socketName cb => Returns (HandleCollabPrepareResult token result sid socketName cb m)
  | CTCloseSessions bundleName pid => Returns (snd (HandleCloseSessions bundleName pid m))
  | CTDataRecv id buffer => HandleDataRecv menv id buffer m
  | CTShutdown socket => Returns (HandleShutdown socket m)
  | CTTimeout token => Returns (HandleTimeout token m)
  end.

Definition run_next (menv : CMEnv) (m : CManager) : Outcome :=
  match cm_tasks m with
  | [] => Returns m
  | t :: ts => run_task menv t (set_cm_tasks ts m)
  end.

(** ** The relation of two applications *)

Definition CheckSrcCollabRelation (sourceInfo : RelationInfo) (i : DSchedCollabInfo) : Z :=
  if String.eqb (rel_deviceId sourceInfo) (srcUdid_ i) && (rel_pid sourceInfo =? msg_pid (srcInfo_ i))
     && (i32 (rel_tokenId sourceInfo) =? msg_accessToken (srcInfo_ i))
     && (rel_userId sourceInfo =? account_userId (srcAccountInfo_ i))
  then ERR_OK else INVALID_PARAMETERS_ERR.

Definition CheckSinkCollabRelation (sinkInfo : RelationInfo) (i : DSchedCollabInfo) : Z :=
  if String.eqb (rel_deviceId sinkInfo) (sinkUdid_ i) && (rel_pid sinkInfo =? msg_pid (sinkInfo_ i))
     && (i32 (rel_tokenId sinkInfo) =? msg_accessToken (sinkInfo_ i))
     && (rel_userId sinkInfo =? sinkUserId_ i)
  then ERR_OK else INVALID_PARAMETERS_ERR.

Definition CheckCollabRelation (sourceInfo sinkInfo : RelationInfo) (m : CManager) : Z :=
  if existsb (fun e =>
       (CheckSrcCollabRelation sourceInfo (collabInfo_ e.2) =? ERR_OK)
       && ((rel_pid sinkInfo =? NO_NEED_TO_CHECK_ID)
           || (CheckSinkCollabRelation sinkInfo (collabInfo_ e.2) =? ERR_OK))) (collabs_ m)
  then ERR_OK else INVALID_PARAMETERS_ERR.

(** A null pointer is [None]. *)
Definition CheckSynergisticRelation (sourceInfo sinkInfo : option RelationInfo) (m : CManager) : Z :=
  match sourceInfo, sinkInfo with
  | Some source, Some sink => CheckCollabRelation source sink m
  | _, _ => INVALID_PARAMETERS_ERR
  end.
End Manager.
