(* ===== verification/CollabManagerProps.v ===== *)
(** Properties of the manager of collaborations: the table is well formed in every
    reachable state, requests never go to a null object, a session changes nobody
    else's entry, and a collaboration whose time is over leaves the table. *)

From S2P Require Import Prelude StdMap DataBuffer SchedErrors SchedUtils Json ContinueInfo ContinueSession ContinueCmd ContinueDemo CollabCmd CollabSession CollabOps CollabStates CollabSpec CollabRefine CollabProps CollabKeeps CollabManager.
From stdpp Require Import relations.
#[local] Open Scope string_scope.
#[local] Open Scope list_scope.
#[local] Open Scope Z_scope.

Section ManagerProps.
Context {W : WantApi} {CW : CollabWantApi} {CJ : CJson} {PA : ParcelApi} {PP : Parcelable WantParams}.
Variable env : CEnv.

(** ** The invariant *)

Definition session_ok (k : string) (d : DCollab) : Prop :=
  collabToken_ (collabInfo_ d) = k /\ collab_machine_ d = true /\ is_Some (collab_state_ d) /\ collab_handler_ d = true /\
  (collab_state_ d = Some SOURCE_GET_PEER_VERSION_STATE -> srcClientCB_ (collabInfo_ d) <> None).

Definition task_ok (t : CTask) : Prop :=
  match t with CTGetSinkCollabVersion info => srcClientCB_ info <> None | _ => True end.

Definition named_ok (p : string * NamedTask) : Prop :=
  match p.2 with TaskTimeout token => p.1 = token | TaskRelease b pid => p.1 = release_task_name b pid end.

Record cm_inv (m : CManager) : Prop := {
  inv_sorted : msorted (collabs_ m);
  inv_sessions : mall session_ok (collabs_ m);
  inv_tasks : Forall task_ok (cm_tasks m);
  inv_named : Forall named_ok (cm_named m);
  inv_calls : forallb no_null (cm_calls m) = true;
  inv_off : cm_handler m = false -> cm_tasks m = [] /\ cm_named m = [] /\ collabs_ m = [];
}.

(** ** Methods of a session of the table *)

Lemma find_session_ok m key d : cm_inv m -> mfind key (collabs_ m) = Some d -> session_ok key d.
Proof.
  intros Hm Hf. destruct (mall_find _ _ _ _ (inv_sessions m Hm) Hf) as (k' & Hok & Hs).
  rewrite same_string, String.eqb_eq in Hs. by subst k'.
Qed.

Lemma In_find m key d : cm_inv m -> In (key, d) (collabs_ m) -> mfind key (collabs_ m) = Some d.
Proof. intros Hm. apply mfind_sorted, Hm. Qed.

Lemma find_handler m key d : cm_inv m -> mfind key (collabs_ m) = Some d -> cm_handler m = true.
Proof.
  intros Hm Hf. destruct (cm_handler m) eqn:E; [done|]. destruct (inv_off m Hm E) as (_ & _ & H). by rewrite H in Hf.
Qed.

Lemma session_key_in m key d : mfind key (collabs_ m) = Some d -> key ∈ map fst (collabs_ m).
Proof.
  intros Hf. apply mfind_In in Hf as (k' & Hin & Hs). rewrite same_string, String.eqb_eq in Hs. subst k'.
  apply list_elem_of_In, in_map_iff. by exists (key, d).
Qed.

Lemma session_ok_core key s : session_ok key (self s) ->
  c_token (core s) = key /\ c_machine (core s) = true /\ is_Some (c_state (core s)) /\ c_handler (core s) = true /\
  has_client (core s).
Proof. intros H. exact H. Qed.

Lemma keeps_session_ok key s s' : keeps (core s) (core s') -> session_ok key (self s) -> session_ok key (self s').
Proof.
  intros K (H1 & H2 & H3 & H4 & H5). pose proof (keeps_has_client _ _ K H5) as H5'.
  destruct K as [K1 K2 K3 K4 K5 _].
  split_and!; [exact (eq_trans K1 H1) | exact (eq_trans K2 H2) | | exact (eq_trans K3 H4) | exact H5'].
  destruct K5 as [E|(st & E & _)]; [|by exists st]. change (is_Some (c_state (core s'))). by rewrite E.
Qed.

Lemma mall_put key s m : (key ∈ tokens_ s -> session_ok key (self s)) -> mall session_ok (collabs_ m) ->
  mall session_ok (collabs_ (put_session key s m)).
Proof.
  intros Hk Hm. unfold mall, put_session, mupdate in *. cbn. rewrite List.Forall_forall in *. intros e.
  rewrite in_map_iff. intros (e0 & <- & He0). apply filter_In in He0 as [He0 Ht]. apply bool_decide_eq_true in Ht.
  rewrite same_string. destruct (String.eqb_spec key e0.1) as [->|_]; [cbn; auto | auto].
Qed.

Lemma table_named s s' : table_shrinks (core s) (core s') -> Forall named_ok (named_ s) -> Forall named_ok (named_ s').
Proof.
  intros [[_ E]|(_ & _ & E)] H; change (c_named (core s')) with (named_ s') in E; rewrite E; [done|].
  rewrite List.Forall_forall in *. intros p Hp. apply filter_In in Hp as [Hp _]. by apply H.
Qed.

Lemma logged_calls s s' : logged no_null s s' -> forallb no_null (kcalls_ s) = true -> forallb no_null (kcalls_ s') = true.
Proof. intros (l & -> & F) H. by rewrite forallb_app, F, H. Qed.

(** The table after a method of the session at [key]. *)
Lemma put_session_inv key d m s' : cm_inv m -> mfind key (collabs_ m) = Some d ->
  table_shrinks (core (kstate_of d m)) (core s') -> logged no_null (kstate_of d m) s' ->
  (key ∈ tokens_ s' -> session_ok key (self s')) -> cm_inv (put_session key s' m).
Proof.
  intros Hm Hf Ht Hl Hs. constructor; cbn.
  - eapply keys_sorted; [apply mupdate_keys|]. apply mfilter_sorted, Hm.
  - apply mall_put; [done | apply Hm].
  - apply Hm.
  - eapply table_named; [exact Ht | apply Hm].
  - eapply logged_calls; [exact Hl | apply Hm].
  - intros E. rewrite (find_handler _ _ _ Hm Hf) in E. done.
Qed.

(** Methods that keep a session in order. *)
Definition orderly {A} (f : KM A) : Prop :=
  keeping f /\ forall s, has_client (core s) -> logged no_null s (snd (f s)).

Lemma orderly_emits {A} (f : KM A) : keeping f -> emits no_null f -> orderly f.
Proof. intros H1 H2. split; [done|]. intros s _. apply H2. Qed.

Lemma orderly_quiet {A} (f : KM A) : quiet f -> orderly f.
Proof. intros H. apply orderly_emits; [by apply keeping_quiet | apply emits_quiet; [apply harmless_no_null | done]]. Qed.

Lemma orderly_post e : orderly (post env e).
Proof. apply orderly_emits; [apply keeping_post | apply emits_post, harmless_no_null]. Qed.

Lemma orderly_bind {A B} (m : KM A) (f : A -> KM B) : orderly m -> (forall a, orderly (f a)) -> orderly (m ≫= f).
Proof.
  intros [K1 L1] Hf. split.
  - apply keeping_bind; [done|]. intros a. apply Hf.
  - intros s Hs. rewrite kbind_run. eapply logged_trans; [by apply L1|]. apply Hf.
    eapply keeps_has_client; [apply K1 | done].
Qed.

Lemma release_inv b s : 
  let s' := snd (release env b s) in
  c_tokens (core s') = c_tokens (core s) /\ c_named (core s') = c_named (core s) /\ logged no_null s s' /\
  (c_token (core s) ∈ c_tokens (core s) -> s' = s).
Proof.
  cbv zeta. unfold release. change (collabToken_ (collabInfo_ (self s))) with (c_token (core s)).
  change (tokens_ s) with (c_tokens (core s)). case_bool_decide as H; cbn [snd].
  - split_and!; [done | done | apply logged_refl | done].
  - destruct (destroy_core env b s) as [E L]. by rewrite E.
Qed.

Lemma call_session_inv_at {A} key d (f : KM A) m : cm_inv m -> mfind key (collabs_ m) = Some d ->
  keeps (core (kstate_of d m)) (core (snd (f (kstate_of d m)))) ->
  logged no_null (kstate_of d m) (snd (f (kstate_of d m))) ->
  cm_inv (snd (call_session env key d f m)).
Proof.
  intros Hm Hf Hk Hl. unfold call_session. pose proof (find_session_ok _ _ _ Hm Hf) as Hok.
  destruct (f (kstate_of d m)) as [a s]. cbn [fst snd] in *.
  destruct (session_ok_core key (kstate_of d m) Hok) as (Ht & _).
  destruct (release_inv false s) as (E1 & E2 & L & E3). eapply put_session_inv; [done | exact Hf | | |].
  - destruct (k_table _ _ Hk) as [[H1 H2]|H]; [left | right]; rewrite E1, E2; done.
  - by eapply logged_trans.
  - intros Hin. change (tokens_ (snd (release env false s))) with (c_tokens (core (snd (release env false s)))) in Hin.
    rewrite E1 in Hin. rewrite E3; [by eapply keeps_session_ok|]. by rewrite (k_token _ _ Hk), Ht.
Qed.

Lemma call_session_inv {A} key d (f : KM A) m : cm_inv m -> mfind key (collabs_ m) = Some d -> orderly f ->
  cm_inv (snd (call_session env key d f m)).
Proof.
  intros Hm Hf [Hk Hl]. apply call_session_inv_at; [done | done | apply Hk | apply Hl].
  apply (session_ok_core key (kstate_of d m)), (find_session_ok _ _ _ Hm Hf).
Qed.

Lemma with_session_inv {A} key (f : KM A) m : cm_inv m -> orderly f -> cm_inv (with_session env key f m).
Proof.
  intros Hm Hf. unfold with_session. destruct (mfind key (collabs_ m)) as [d|] eqn:E; [|done]. by apply call_session_inv.
Qed.

Lemma session_step_inv key m : cm_inv m -> cm_inv (session_step env key m).
Proof.
  intros Hm. unfold session_step. destruct (mfind key (collabs_ m)) as [d|] eqn:Hf; [|done].
  pose proof (find_session_ok _ _ _ Hm Hf) as Hok.
  destruct (session_ok_core key (kstate_of d m) Hok) as (Ht & _ & _ & _ & Hc).
  destruct (handle_next_keeps env (kstate_of d m) Hc) as (L & T & S & K).
  { rewrite Ht. by eapply session_key_in. }
  eapply put_session_inv; [done | exact Hf | done | done |]. intros Hin. rewrite Ht in K. by eapply keeps_session_ok; [apply K|].
Qed.

(** ** New sessions *)

(** A session as its constructor leaves it. *)
Definition fresh (k : string) (d : DCollab) : Prop :=
  collabToken_ (collabInfo_ d) = k /\ collab_handler_ d = false.

(** What [new_session] gives: the session in the first state; it is in the table
    when it was inserted. *)
Lemma new_session_inv token d st m d' m' : cm_inv m -> cm_handler m = true -> fresh token d ->
  (st = SOURCE_GET_PEER_VERSION_STATE -> srcClientCB_ (collabInfo_ d) <> None) ->
  new_session env token d st m = Some (d', m') ->
  cm_inv m' /\ cm_handler m' = true /\ session_ok token d' /\
  (is_new token m = true -> mfind token (collabs_ m') = Some d').
Proof.
  intros Hm Hh [Ht Hd] Hcb. unfold new_session, Init. rewrite kbind_run. cbn [kself fst snd self kstate_of]. rewrite Hd.
  rewrite !kbind_run. cbn [kask kupdate fst snd]. destruct (k_EventRunner_Create env _); [|done].
  rewrite kbind_run. cbn [kupdate fst snd mret KM_ret]. unfold UpdateState. rewrite kbind_run. cbn [kself fst snd]. simpl.
  intros [= <- <-].
  match goal with |- cm_inv (mkCManager _ _ _ (minsert _ ?x _) _ _) /\ _ => set (d' := x) end.
  assert (session_ok token d') as Hok by (split_and!; [exact Ht | done | by exists st | done | intros [= E]; by apply Hcb]).
  split_and!; [|done | exact Hok |].
  - constructor; cbn; try apply Hm.
    + apply minsert_sorted, Hm.
    + apply mall_minsert; [done | apply Hm].
    + rewrite forallb_app. by rewrite (inv_calls m Hm).
    + by rewrite Hh.
  - unfold is_new. cbn [collabs_]. rewrite mfind_minsert. destruct (mfind token (collabs_ m)); [done|]. by rewrite same_key_refl.
Qed.

(** Everything that holds of the manager and of the new session while the handler
    that made it goes on. *)
Definition while_new (inserted : bool) (token : string) (x : DCollab * CManager) : Prop :=
  let '(d, m) := x in
  cm_inv m /\ cm_handler m = true /\ session_ok token d /\ (inserted = true -> mfind token (collabs_ m) = Some d).

Lemma on_new_inv {A} inserted token d (f : KM A) m : orderly f ->
  while_new inserted token (d, m) -> while_new inserted token (on_new inserted token d f m).
Proof.
  intros [Hk Hl] (Hm & Hh & Hok & Hin). unfold on_new.
  specialize (Hk (kstate_of d m)). specialize (Hl (kstate_of d m)). cbv beta in Hk.
  assert (has_client (core (kstate_of d m))) as Hc by (apply (session_ok_core token (kstate_of d m) Hok)).
  specialize (Hl Hc). generalize dependent (snd (f (kstate_of d m))). intros s Hk Hl.
  assert (session_ok token (self s)) as Hok' by (by eapply keeps_session_ok).
  split_and!; [|done | done |].
  - constructor; cbn; try apply Hm.
    + destruct inserted; [|apply Hm]. eapply keys_sorted; [apply mupdate_keys | apply Hm].
    + destruct inserted; [|apply Hm]. specialize (Hin eq_refl). pose proof (inv_sessions m Hm) as Hs.
      unfold mall, mupdate in *. rewrite List.Forall_forall in *. intros e. rewrite in_map_iff.
      intros (e0 & <- & He0). rewrite same_string. destruct (String.eqb_spec token e0.1) as [<-|_]; [done | auto].
    + eapply table_named; [apply (k_table _ _ Hk) | apply Hm].
    + eapply logged_calls; [exact Hl | apply Hm].
    + by rewrite Hh.
  - intros ->. cbn [collabs_]. rewrite mfind_mupdate, same_key_refl. by rewrite (Hin eq_refl).
Qed.

Lemma drop_new_inv inserted token d m : while_new inserted token (d, m) -> cm_inv (drop_new env inserted d m).
Proof.
  intros (Hm & Hh & Hok & Hin). unfold drop_new. destruct inserted; [done|].
  destruct (destroy_core env false (kstate_of d m)) as [E L].
  generalize dependent (snd (DSchedCollab_destroy env false (kstate_of d m))). intros s E L.
  constructor; cbn; try apply Hm.
  - change (named_ s) with (c_named (core s)). rewrite E. apply Hm.
  - eapply logged_calls; [exact L | apply Hm].
  - by rewrite Hh.
Qed.

Lemma while_new_map inserted token d m m' : while_new inserted token (d, m) -> cm_inv m' ->
  cm_handler m' = cm_handler m -> collabs_ m' = collabs_ m -> while_new inserted token (d, m').
Proof. intros (Hm & Hh & Hok & Hin) Hm' E1 E2. split_and!; [done | congruence | done | by rewrite E2]. Qed.

(** ** The other updates *)

Lemma set_named_inv ns m : cm_inv m -> cm_handler m = true -> Forall named_ok ns -> cm_inv (set_cm_named ns m).
Proof. intros Hm Hh Hn. constructor; cbn; try apply Hm; [done | by rewrite Hh]. Qed.

Lemma remove_task_ok name ns : Forall named_ok ns -> Forall named_ok (remove_task name ns).
Proof.
  rewrite !List.Forall_forall. intros H p Hp. apply filter_In in Hp as [Hp _]. by apply H.
Qed.

Lemma set_decisions_inv ds m : cm_inv m -> cm_inv (set_cm_decisions ds m).
Proof. intros Hm. constructor; apply Hm. Qed.

Lemma cm_call_inv c m : no_null c = true -> cm_inv m -> cm_inv (cm_call c m).
Proof. intros Hc Hm. constructor; cbn; try apply Hm. rewrite forallb_app, (inv_calls m Hm). simpl. by rewrite Hc. Qed.

Lemma try_post_inv t m : task_ok t -> cm_inv m -> cm_inv (snd (cm_try_post t m)).
Proof.
  intros Ht Hm. unfold cm_try_post. destruct (cm_handler m) eqn:Hh; [|done]. cbn.
  constructor; cbn; try apply Hm; [|by rewrite Hh]. apply Forall_app; split; [apply Hm | by repeat constructor].
Qed.

Lemma SetTimeOut_inv token m : cm_inv m -> cm_handler m = true -> cm_inv (SetTimeOut token COLLAB_TIMEOUT m).
Proof.
  intros Hm Hh. unfold SetTimeOut. rewrite Hh. apply set_named_inv; [done | done|].
  apply Forall_app; split; [apply Hm | by repeat constructor].
Qed.

Lemma SetTimeOut_same token m : cm_handler (SetTimeOut token COLLAB_TIMEOUT m) = cm_handler m /\
  collabs_ (SetTimeOut token COLLAB_TIMEOUT m) = collabs_ m.
Proof. unfold SetTimeOut. by destruct (negb (cm_handler m)). Qed.

Lemma RemoveTimeout_inv token m : cm_inv m -> cm_inv (RemoveTimeout token m).
Proof.
  intros Hm. unfold RemoveTimeout. destruct (cm_handler m) eqn:Hh; [|done]. apply set_named_inv; [done | done|].
  apply remove_task_ok, Hm.
Qed.

Lemma WaitAllConnectDecision_same menv peer m :
  let m' := snd (WaitAllConnectDecision menv peer m) in
  exists ds, m' = set_cm_decisions ds m.
Proof.
  cbv zeta. unfold WaitAllConnectDecision, NotifyAllConnectDecision.
  assert (m = set_cm_decisions (cm_decisions m) m) as Hsame by (by destruct m).
  destruct (cm_DMSFWK_ALL_CONNECT_MGR menv); [|by eexists].
  destruct (cm_decision menv) as [b|]; destruct (mfind _ _); simpl; eexists; try done; exact Hsame.
Qed.

(** ** The requests and handlers *)

Lemma Manager_Init_inv menv m : cm_inv m -> cm_inv (Manager_Init menv m).
Proof.
  intros Hm. unfold Manager_Init. destruct (cm_handler m) eqn:Hh; [done|]. destruct (inv_off m Hm Hh) as (E1 & E2 & E3).
  destruct (negb _); [by apply cm_call_inv, cm_call_inv|].
  constructor; cbn; try apply Hm; try done. rewrite !forallb_app, (inv_calls m Hm). done.
Qed.

Lemma destroy_all_calls es l : forallb no_null l = true -> forallb no_null (destroy_all env es l) = true.
Proof.
  revert l. induction es as [|[k d] es IH]; intros l Hl; [done|]. cbn [destroy_all]. apply IH.
  destruct (destroy_core env false (mkKState d [] [] l)) as [_ L]. by eapply logged_calls.
Qed.

Lemma Manager_UnInit_inv m : cm_inv m -> cm_inv (Manager_UnInit env m).
Proof.
  intros Hm. unfold Manager_UnInit. cbv zeta. cbn [cm_handler cm_call cm_tasks cm_named].
  assert (forallb no_null (destroy_all env (collabs_ m)
    (cm_calls (cm_call (KManager "ReleaseChannel") (cm_call (KManager "UnregisterListener") m)))) = true) as Hc.
  { apply destroy_all_calls. cbn. rewrite !forallb_app, (inv_calls m Hm). done. }
  destruct (cm_handler m) eqn:Hh; [|destruct (inv_off m Hm Hh) as (E1 & E2 & _)];
    (constructor; cbn; rewrite ?E1, ?E2; try done; constructor).
Qed.

Lemma HandleGetSinkCollabVersion_inv menv info m m' : cm_inv m -> cm_handler m = true -> srcClientCB_ info <> None ->
  HandleGetSinkCollabVersion env menv info m = Returns m' -> cm_inv m'.
Proof.
  intros Hm Hh Hcb. unfold HandleGetSinkCollabVersion.
  destruct (new_session _ _ _ _ _) as [[d m1]|] eqn:Hn; [|done].
  apply new_session_inv in Hn; [|done | done | done | done].
  assert (while_new (is_new (collabToken_ info) m) (collabToken_ info) (d, m1)) as H1 by exact Hn. clear Hn.
  apply (on_new_inv _ _ _ (PostSrcGetPeerVersionTask env)) in H1; [|apply orderly_post].
  destruct (on_new _ _ _ _ _) as [d2 m2]. 
  assert (while_new (is_new (collabToken_ info) m) (collabToken_ info) (d2, SetTimeOut (collabToken_ info) COLLAB_TIMEOUT m2)) as H3.
  { eapply while_new_map; [exact H1 | apply SetTimeOut_inv; apply H1 | apply SetTimeOut_same | apply SetTimeOut_same]. }
  destruct (negb _ || negb _); [intros [= <-]; by eapply drop_new_inv|].
  generalize dependent (SetTimeOut (collabToken_ info) COLLAB_TIMEOUT m2). intros m3 H3.
  set (m4 := set_cm_decisions _ m3).
  destruct (WaitAllConnectDecision_same menv (msg_deviceId (sinkInfo_ info)) m4) as [ds Hds].
  destruct (WaitAllConnectDecision menv _ m4) as [go m5]. cbn [snd] in Hds. subst m5.
  assert (while_new (is_new (collabToken_ info) m) (collabToken_ info) (d2, set_cm_decisions ds m4)) as H5.
  { eapply while_new_map; [exact H3 | by apply set_decisions_inv, set_decisions_inv, H3 | done | done]. }
  destruct go; [intros [= <-]; by eapply drop_new_inv|].
  apply (on_new_inv _ _ _ (PostErrEndTask env COLLAB_ABILITY_TIMEOUT_ERR)) in H5; [|apply orderly_post].
  destruct (on_new _ _ _ _ _) as [d6 m6]. intros [= <-]. by eapply drop_new_inv.
Qed.

Lemma NotifyDataRecv_inv menv id command js b token m m' : cm_inv m -> cm_handler m = true ->
  NotifyDataRecv env menv id command js b token m = Returns m' -> cm_inv m'.
Proof.
  intros Hm Hh. unfold NotifyDataRecv. destruct (List.find _ _) as [[key d]|] eqn:Hf.
  - apply find_some in Hf as [Hin _]. apply In_find in Hin; [|done].
    assert (cm_inv (snd (call_session env key d (OnDataRecv env command (Some b)) m))) as H1.
    { apply call_session_inv; [done | done|]. apply orderly_emits; [apply OnDataRecv_keeping | apply OnDataRecv_no_null]. }
    destruct (command =? NOTIFY_RESULT_CMD); intros E; injection E as <-; [apply RemoveTimeout_inv|]; exact H1.
  - destruct (command =? SINK_GET_VERSION_CMD); [|by intros [= <-]]. destruct (UnmarshalGetVersion js) as [c|]; [|by intros [= <-]].
    destruct (cm_GetLocalDeviceId menv); [|by intros [= <-]]. destruct (negb _); [by intros [= <-]|].
    destruct (new_session _ _ _ _ _) as [[d m1]|] eqn:Hn; [|done].
    apply new_session_inv in Hn; [|done | done | done | done].
    set (t := base_collabToken (version_base c)) in *.
    assert (while_new (is_new t m) t (d, m1)) as H1 by exact Hn. clear Hn.
    apply (on_new_inv _ _ _ (PostSinkGetVersionTask env)) in H1; [|apply orderly_post].
    destruct (on_new _ _ _ _ _) as [d2 m2]. intros [= <-]. eapply drop_new_inv, while_new_map;
      [exact H1 | apply SetTimeOut_inv; apply H1 | apply SetTimeOut_same | apply SetTimeOut_same].
Qed.

Lemma for_each_inv f m : (forall e m, cm_inv m -> cm_inv (f e m)) -> cm_inv m -> cm_inv (for_each f m).
Proof.
  intros Hf. unfold for_each. generalize (collabs_ m) as es. intros es. revert m.
  induction es as [|e es IH]; intros m Hm; [done|]. apply IH, Hf, Hm.
Qed.

Lemma release_one_inv b pid e m : cm_inv m -> cm_inv (release_one env b pid e m).
Proof.
  intros Hm. unfold release_one. destruct e as [key d].
  assert (forall m, cm_inv m -> cm_inv (with_session env key (PostEndTask env) m)) as Hp.
  { intros m0 Hm0. apply with_session_inv; [done | apply orderly_post]. }
  destruct (of_sink b pid d), (of_source b pid d); auto using cm_call_inv.
Qed.

Lemma fire_inv n m : cm_inv m -> cm_inv (fire env n m).
Proof.
  intros Hm. unfold fire. destruct (cm_named m !! n) as [[name t]|] eqn:E; [|done].
  assert (cm_inv (set_cm_named (delete n (cm_named m)) m)) as H1.
  { apply set_named_inv; [done | |].
    - destruct (cm_handler m) eqn:Hh; [done|]. destruct (inv_off m Hm Hh) as (_ & E2 & _). by rewrite E2 in E.
    - apply Forall_delete, Hm. }
  destruct t; cbn [run_named].
  - apply with_session_inv; [done | apply orderly_post].
  - apply for_each_inv; [|done]. intros. by apply release_one_inv.
Qed.

Lemma orderly_start : orderly (start_source env).
Proof.
  unfold start_source. apply orderly_bind; [|intros _; apply orderly_post].
  apply orderly_emits; [by apply keeping_UpdateState | apply emits_UpdateState].
Qed.

Lemma by_token token m d : GetDSchedCollabByTokenId token m = Some d -> mfind token (collabs_ m) = Some d.
Proof. unfold GetDSchedCollabByTokenId. by destruct (String.eqb token ""). Qed.

Lemma CollabMission_inv menv info m : cm_inv m -> cm_inv (snd (CollabMission env menv info m)).
Proof.
  intros Hm. unfold CollabMission. destruct (negb (names_given info)); [done|].
  destruct (cm_GetLocalDeviceId menv) as [l|]; [|done]. cbv zeta. destruct (negb _ && negb _); [done|].
  set (i := set_src_device l info). destruct (GetDSchedCollabByTokenId _ m) as [d|] eqn:Hf; [|done]. cbn [snd].
  apply by_token in Hf. pose proof (find_session_ok _ _ _ Hm Hf) as Hok.
  destruct (session_ok_core _ (kstate_of d m) Hok) as (Ht & _ & _ & _ & Hc).
  apply call_session_inv_at; [done | exact Hf | |].
  - rewrite kbind_run. eapply keeps_trans; [|apply orderly_start].
    constructor; try done; by left.
  - rewrite kbind_run. eapply logged_trans; [|apply orderly_start; exact Hc].
    exists []. cbn. by rewrite app_nil_r.
Qed.

Lemma run_task_inv menv t m m' : cm_inv m -> cm_handler m = true -> task_ok t -> run_task env menv t m = Returns m' -> cm_inv m'.
Proof.
  intros Hm Hh Ht. destruct t; cbn [run_task].
  - by apply HandleGetSinkCollabVersion_inv.
  - intros [= <-]. unfold HandleCollabPrepareResult. destruct (GetDSchedCollabByTokenId _ m) as [d|] eqn:Hf; [|done].
    apply RemoveTimeout_inv, call_session_inv; [done | by apply by_token|].
    apply orderly_emits; [apply PostSinkPrepareResult_keeping|]. unfold PostSinkPrepareResultTask.
    apply emits_bind; [apply emits_quiet; [apply harmless_no_null | apply quiet_self]|]. intros d0.
    destruct (negb _); [apply emits_ret|]. apply emits_bind; [apply emits_update|]. intros _. apply emits_post, harmless_no_null.
  - intros [= <-]. unfold HandleCloseSessions. destruct (List.find _ _) as [[key d]|] eqn:Hf; [|done].
    apply find_some in Hf as [Hin _]. apply call_session_inv; [done | by apply In_find | apply orderly_post].
  - unfold HandleDataRecv. destruct dataBuffer as [b|]; [|by intros [= <-]].
    destruct (parse_message _) as [[command token]|]; [|by intros [= <-]]. by apply NotifyDataRecv_inv.
  - intros [= <-]. unfold HandleShutdown. apply for_each_inv; [|done]. intros e m0 Hm0.
    destruct (_ =? _); [|done]. apply with_session_inv; [done | apply orderly_post].
  - intros [= <-]. apply with_session_inv; [done | apply orderly_post].
Qed.

Lemma run_next_inv menv m m' : cm_inv m -> run_next env menv m = Returns m' -> cm_inv m'.
Proof.
  intros Hm. unfold run_next. destruct (cm_tasks m) as [|t ts] eqn:E; [by intros [= <-]|].
  assert (cm_handler m = true) as Hh.
  { destruct (cm_handler m) eqn:Hh; [done|]. destruct (inv_off m Hm Hh) as (H & _). congruence. }
  pose proof (inv_tasks m Hm) as Ht. rewrite E in Ht. apply Forall_cons in Ht as [Ht Hts].
  apply run_task_inv; [|done | done]. constructor; cbn; try apply Hm; [done | by rewrite Hh].
Qed.

(** ** Reachable states *)

(** The requests the manager gets, the tasks of its handler, its delayed tasks and
    the events of the sessions, in any order and with any answers. *)
Inductive cm_step (m : CManager) : CManager -> Prop :=
  | CS_Init menv : cm_step m (Manager_Init menv m)
  | CS_UnInit : cm_step m (Manager_UnInit env m)
  | CS_GetSinkCollabVersion menv info : cm_step m (snd (GetSinkCollabVersion menv info m))
  | CS_CollabMission menv info : cm_step m (snd (CollabMission env menv info m))
  | CS_AllConnectDecision menv peer b : cm_step m (NotifyAllConnectDecision menv peer b m)
  | CS_StartAbilityResult token r pid uid tid : cm_step m (snd (NotifyStartAbilityResult env token r pid uid tid m))
  | CS_SinkPrepareResult token r sid n cb : cm_step m (snd (NotifySinkPrepareResult token r sid n cb m))
  | CS_SinkRejectReason token reason : cm_step m (snd (NotifySinkRejectReason env token reason m))
  | CS_SessionClose token : cm_step m (snd (NotifySessionClose env token m))
  | CS_AbilityDied b pid : cm_step m (snd (NotifyAbilityDied b pid m))
  | CS_ReleaseAbilityLink b pid : cm_step m (snd (ReleaseAbilityLink b pid m))
  | CS_CancleReleaseAbilityLink b pid : cm_step m (snd (CancleReleaseAbilityLink b pid m))
  | CS_WifiOpen : cm_step m (Manager_NotifyWifiOpen env m)
  | CS_DataRecv id b : cm_step m (Manager_OnDataRecv id b m)
  | CS_Shutdown socket own : cm_step m (OnShutdown socket own m)
  | CS_Task menv m' : run_next env menv m = Returns m' -> cm_step m m'
  | CS_Fire n : cm_step m (fire env n m)
  | CS_Session key : cm_step m (session_step env key m).

Definition cm_reachable : CManager -> Prop := rtc cm_step CManager_new.

Lemma cm_step_inv m m' : cm_inv m -> cm_step m m' -> cm_inv m'.
Proof.
  intros Hm Hs. destruct Hs.
  - by apply Manager_Init_inv.
  - by apply Manager_UnInit_inv.
  - unfold GetSinkCollabVersion. destruct (_ || _ || _) eqn:E; [done|]. destruct (cm_GetLocalDeviceId menv); [|done].
    apply orb_false_iff in E as [_ E]. apply bool_decide_eq_false in E. by apply try_post_inv.
  - by apply CollabMission_inv.
  - unfold NotifyAllConnectDecision. destruct (cm_DMSFWK_ALL_CONNECT_MGR menv); [by apply set_decisions_inv | done].
  - unfold NotifyStartAbilityResult. destruct (GetDSchedCollabByTokenId _ m) as [d|] eqn:Hf; [|done]. apply by_token in Hf.
    destruct (negb _); cbn [snd]; apply call_session_inv; try done; [apply orderly_post | apply orderly_quiet, quiet_SaveSinkAbilityData].
  - by apply try_post_inv.
  - unfold NotifySinkRejectReason. destruct (GetDSchedCollabByTokenId _ m) as [d|] eqn:Hf; [|done].
    apply call_session_inv; [done | by apply by_token | apply orderly_post].
  - unfold NotifySessionClose. destruct (GetDSchedCollabByTokenId _ m) as [d|] eqn:Hf; [|done].
    apply call_session_inv; [done | by apply by_token | apply orderly_post].
  - by apply try_post_inv.
  - unfold ReleaseAbilityLink. destruct (cm_handler m) eqn:Hh; [|done]. cbn. apply set_named_inv; [done | done|].
    apply Forall_app; split; [apply Hm | by repeat constructor].
  - unfold CancleReleaseAbilityLink. destruct (cm_handler m) eqn:Hh; [|done]. cbn. apply set_named_inv; [done | done|].
    apply remove_task_ok, Hm.
  - unfold Manager_NotifyWifiOpen. apply for_each_inv; [|done]. intros e m0 Hm0. apply with_session_inv; [done|].
    apply orderly_quiet, quiet_notify_own_client.
  - by apply try_post_inv.
  - unfold OnShutdown. destruct own; [done|]. by apply try_post_inv.
  - by eapply run_next_inv.
  - by apply fire_inv.
  - by apply session_step_inv.
Qed.

Lemma cm_new_inv : cm_inv CManager_new.
Proof. constructor; cbn; try done; constructor. Qed.

Lemma reachable_inv m : cm_reachable m -> cm_inv m.
Proof.
  unfold cm_reachable. intros H. revert m H. apply rtc_ind_r; [apply cm_new_inv|].
  intros m m' _ Hs Hm. by eapply cm_step_inv.
Qed.
End ManagerProps.

(** ** A concrete manager *)

Definition demo_cmenv (device : string) : CMEnv :=
  mkCMEnv true false 0 (Some device) (fun _ => true) (fun _ _ => true) false None 0.

Definition demo_source_info : DSchedCollabInfo :=
  mkCollabInfo 7 (-1) (-1) 0 0 0 COLLAB_SOURCE "token" "" "" 0 CallerInfo_default AccountInfo_default
    (mkCollabMessage 10 20 30 "A" "app" "Main" "entry" "srv" "")
    (mkCollabMessage (-1) (-1) (-1) "B" "app" "Main" "entry" "srv" "") ConnectOpt_default (Some 1) None.

(** The manager of a source with one collaboration that has just begun. *)
Definition demo_asked : CManager :=
  snd (GetSinkCollabVersion (demo_cmenv "A") demo_source_info (Manager_Init (demo_cmenv "A") CManager_new)).
Definition demo_busy : CManager :=
  match run_next demo_cenv (demo_cmenv "A") demo_asked with Returns m => m | _ => demo_asked end.

Lemma demo_busy_reachable : cm_reachable demo_cenv demo_busy.
Proof.
  assert (cm_reachable demo_cenv demo_asked) as H.
  { apply (rtc_l _ _ (Manager_Init (demo_cmenv "A") CManager_new)); [apply CS_Init|]. apply rtc_once.
    unfold demo_asked. apply CS_GetSinkCollabVersion. }
  eapply rtc_r; [exact H|]. apply (CS_Task _ _ (demo_cmenv "A")). vm_compute. reflexivity.
Qed.
