(* ===== verification/CollabManagerLife.v ===== *)
(** What the manager of collaborations guarantees: the theorems on reachable
    states, on sessions that end, on new collaborations and on tokens. *)

From S2P Require Import Prelude StdMap DataBuffer SchedErrors SchedUtils Json ContinueInfo ContinueSession ContinueCmd ContinueDemo CollabCmd CollabSession CollabOps CollabStates CollabSpec CollabRefine CollabProps CollabKeeps CollabManager CollabManagerProps.
From stdpp Require Import relations.
#[local] Open Scope string_scope.
#[local] Open Scope list_scope.
#[local] Open Scope Z_scope.

Section Life.
Context {W : WantApi} {CW : CollabWantApi} {CJ : CJson} {PA : ParcelApi} {PP : Parcelable WantParams}.
Variable env : CEnv.

(** In every reachable state of the manager the table is in the order
    of its keys, each session is filed under its own token and can process events,
    every delayed task has the name it is removed by, and a manager without a
    handler has neither sessions nor tasks. *)
Theorem collab_table_invariant m : cm_reachable env m ->
  msorted (collabs_ m) /\ mall session_ok (collabs_ m) /\ Forall named_ok (cm_named m) /\
  (cm_handler m = false -> cm_tasks m = [] /\ cm_named m = [] /\ collabs_ m = []).
Proof. intros H. destruct (reachable_inv env m H). done. Qed.

(** No request is ever sent to a null callback object, although the
    notification of the peer's version does not test the object. *)
Theorem collab_no_null_request m code id r : cm_reachable env m -> ~ In (KSendRequest None code id r) (cm_calls m).
Proof.
  intros H Hin. pose proof (inv_calls m (reachable_inv env m H)) as Hc. rewrite forallb_forall in Hc. by apply Hc in Hin.
Qed.

(** ** Sessions and the table *)

Lemma mfind_filter k (p : string -> bool) (m : list (string * DCollab)) : p k = true ->
  mfind k (List.filter (fun e => p e.1) m) = mfind k m.
Proof.
  intros Hp. induction m as [|e m IH]; [done|]. rewrite mfind_cons, same_string. cbn [List.filter].
  destruct (String.eqb_spec k e.1) as [->|Hne].
  - rewrite Hp, mfind_cons, same_string, String.eqb_refl. done.
  - destruct (p e.1); [|done]. rewrite mfind_cons, same_string. by destruct (String.eqb_spec k e.1).
Qed.

Lemma mfind_filter_out k (p : string -> bool) (m : list (string * DCollab)) : p k = false ->
  mfind k (List.filter (fun e => p e.1) m) = None.
Proof.
  intros Hp. destruct (mfind k _) as [d|] eqn:E; [|done]. apply mfind_In in E as (k' & Hin & Hs).
  rewrite same_string, String.eqb_eq in Hs. subst k'. apply filter_In in Hin as [_ H]. cbn in H. congruence.
Qed.

Lemma find_put k key s m : mfind k (collabs_ (put_session key s m)) =
  if kept s k then (if String.eqb k key then (fun _ => self s) <$> mfind k (collabs_ m) else mfind k (collabs_ m))
  else None.
Proof.
  unfold put_session. cbn [collabs_]. rewrite mfind_mupdate, same_string. destruct (kept s k) eqn:H.
  - by rewrite (mfind_filter k (kept s)).
  - rewrite (mfind_filter_out k (kept s)) by done. by destruct (String.eqb k key).
Qed.

Lemma kept_spec s k : kept s k = true <-> k ∈ c_tokens (core s).
Proof. apply bool_decide_eq_true. Qed.

Lemma kept_false s k : kept s k = false <-> ~ (k ∈ c_tokens (core s)).
Proof. apply bool_decide_eq_false. Qed.

(** A session takes at most itself out of the table. *)
Lemma shrinks_others c c' k : table_shrinks c c' -> k <> c_token c -> k ∈ c_tokens c' <-> k ∈ c_tokens c.
Proof.
  intros [[-> _]|(_ & -> & _)] Hk; [done|]. rewrite !list_elem_of_In, filter_In, negb_true_iff, String.eqb_neq. tauto.
Qed.

Lemma session_step_others key k m : cm_inv m -> k <> key ->
  mfind k (collabs_ (session_step env key m)) = mfind k (collabs_ m).
Proof.
  intros Hm Hk. unfold session_step. destruct (mfind key (collabs_ m)) as [d|] eqn:Hf; [|done].
  pose proof (find_session_ok _ _ _ Hm Hf) as Hok.
  destruct (session_ok_core key (kstate_of d m) Hok) as (Ht & _ & _ & _ & Hc).
  destruct (handle_next_keeps env (kstate_of d m) Hc) as (_ & _ & S & _).
  { rewrite Ht. by eapply session_key_in. }
  rewrite find_put. destruct (String.eqb_spec k key); [done|].
  pose proof (shrinks_others _ _ k S ltac:(by rewrite Ht)) as Hiff. destruct (kept _ k) eqn:Hin; [done|].
  apply kept_false in Hin. destruct (mfind k (collabs_ m)) as [d'|] eqn:Hk'; [|done]. destruct Hin. apply Hiff. by eapply session_key_in.
Qed.

(** When a session processes an event, whatever it does, no other
    session of the table changes and no delayed task with another name is lost. *)
Theorem collab_isolation m key : cm_reachable env m ->
  (forall k, k <> key -> mfind k (collabs_ (session_step env key m)) = mfind k (collabs_ m)) /\
  (forall p, p.1 <> key -> In p (cm_named (session_step env key m)) <-> In p (cm_named m)).
Proof.
  intros Hr. pose proof (reachable_inv env m Hr) as Hm. split; [intros; by apply session_step_others|].
  intros p Hp. unfold session_step. destruct (mfind key (collabs_ m)) as [d|] eqn:Hf; [|done].
  pose proof (find_session_ok _ _ _ Hm Hf) as Hok.
  destruct (session_ok_core key (kstate_of d m) Hok) as (Ht & _ & _ & _ & Hc).
  destruct (handle_next_keeps env (kstate_of d m) Hc) as (_ & _ & S & _).
  { rewrite Ht. by eapply session_key_in. }
  cbn [cm_named put_session]. destruct S as [[_ E]|(_ & _ & E)]; change (c_named (core ?x)) with (named_ x) in E; rewrite E; [done|].
  rewrite filter_In, Ht, negb_true_iff, String.eqb_neq. tauto.
Qed.

(** ** A session with an error in its queue leaves the table *)

Fixpoint session_steps (n : nat) (key : string) (m : CManager) : CManager :=
  match n with O => m | S n => session_steps n key (session_step env key m) end.

Lemma session_steps_gone n key m : mfind key (collabs_ m) = None -> session_steps n key m = m.
Proof. intros H. induction n as [|n IH]; [done|]. cbn. unfold session_step. by rewrite H. Qed.

Lemma session_live key d m : cm_inv m -> key <> "" -> mfind key (collabs_ m) = Some d -> live (core (kstate_of d m)).
Proof.
  intros Hm Hne Hf. destruct (session_ok_core key (kstate_of d m) (find_session_ok _ _ _ Hm Hf)) as (Ht & H1 & H2 & _).
  split_and!; [done | done|]. unfold registered. rewrite Ht. apply andb_true_iff. split.
  - by apply negb_true_iff, String.eqb_neq.
  - apply bool_decide_eq_true. by eapply session_key_in.
Qed.

Lemma error_leaves n key d m r : cm_inv m -> key <> "" -> mfind key (collabs_ m) = Some d ->
  In (ERR_END_EVENT r) (collab_queue_ d) -> (queue_weight (collab_queue_ d) <= n)%nat ->
  mfind key (collabs_ (session_steps n key m)) = None /\
  (forall k, k <> key -> mfind k (collabs_ (session_steps n key m)) = mfind k (collabs_ m)).
Proof.
  revert m d. induction n as [|n IH]; intros m d Hm Hne Hf Hin Hn.
  { destruct (collab_queue_ d) as [|e q]; [done|]. unfold queue_weight in Hn. simpl in Hn. by destruct e; simpl in Hn; lia. }
  cbn [session_steps]. pose proof (session_step_others key) as Ho.
  destruct (collab_queue_ d) as [|e q] eqn:Hq; [done|].
  pose proof (session_live key d m Hm Hne Hf) as Hl. pose proof (find_session_ok _ _ _ Hm Hf) as Hok.
  destruct (session_ok_core key (kstate_of d m) Hok) as (Ht & _ & _ & Hh & _).
  destruct (handle_next_step env (kstate_of d m) e q Hl Hh Hq) as [(Hl' & Hh' & Ht' & Hfin & p & Hp & Hw)|(_ & Hr & Ht' & _)].
  - assert (mfind key (collabs_ (session_step env key m)) = Some (self (snd (handle_next env (kstate_of d m))))) as Hf'.
    { unfold session_step. rewrite Hf, find_put, String.eqb_refl, Hf. rewrite (proj2 (kept_spec _ _)); [done|].
      destruct Hl' as (_ & _ & Hr). unfold registered in Hr. apply andb_true_iff in Hr as [_ Hr].
      apply bool_decide_eq_true in Hr. by rewrite Ht', Ht in Hr. }
    destruct (IH (session_step env key m) _ (session_step_inv env key m Hm) Hne Hf') as [IH1 IH2].
    + change (collab_queue_ (self ?x)) with (c_queue (core x)). rewrite Hp. apply in_or_app. left.
      destruct Hin as [->|Hin]; [|done]. by destruct (default _ _) in Hfin.
    + change (collab_queue_ (self ?x)) with (c_queue (core x)). rewrite Hp, queue_weight_app.
      assert (queue_weight (e :: q) = weight e + queue_weight q)%nat by done. lia.
    + split; [done|]. intros k Hk. rewrite IH2, Ho; done.
  - assert (mfind key (collabs_ (session_step env key m)) = None) as Hgone.
    { unfold session_step. rewrite Hf, find_put, (proj2 (kept_false _ _)); [done|]. unfold registered in Hr.
      rewrite Ht', Ht in Hr. apply andb_false_iff in Hr as [Hr|Hr].
      - by apply negb_false_iff, String.eqb_eq in Hr.
      - by apply bool_decide_eq_false in Hr. }
    rewrite session_steps_gone by done. split; [done|]. intros k Hk. by apply Ho.
Qed.

(** Posting an error to a session of the table. *)
Lemma post_error_find key d m r : cm_inv m -> mfind key (collabs_ m) = Some d -> (forall h e, k_SendEvent env h e = true) ->
  let m' := snd (call_session env key d (PostErrEndTask env r) m) in
  mfind key (collabs_ m') = Some (set_collab_queue (collab_queue_ d ++ [ERR_END_EVENT r]) d) /\
  (forall k, k <> key -> mfind k (collabs_ m') = mfind k (collabs_ m)).
Proof.
  intros Hm Hf Hs. cbv zeta. pose proof (find_session_ok _ _ _ Hm Hf) as (Ht & _ & _ & Hh & _).
  pose proof (session_key_in _ _ _ Hf) as Hin. unfold call_session, PostErrEndTask, post.
  rewrite kbind_run. cbn [kself fst snd]. cbn [kstate_of self]. rewrite Hh. cbn [negb]. rewrite kbind_run.
  cbn [kask fst snd]. rewrite Hs. cbn [negb]. rewrite kbind_run. cbn [kupdate snd mret KM_ret self kstate_of].
  unfold release. cbn [self tokens_]. simpl collabToken_. rewrite Ht, bool_decide_true by done. cbn [snd]. split.
  - rewrite find_put, (proj2 (kept_spec _ _)) by done. by rewrite String.eqb_refl, Hf.
  - intros k Hk. rewrite find_put. destruct (kept _ k) eqn:Hkin.
    + by destruct (String.eqb_spec k key).
    + apply kept_false in Hkin. destruct (mfind k (collabs_ m)) eqn:E; [|done]. destruct Hkin. by eapply session_key_in.
Qed.

(** When the time of a collaboration is over and its handler takes
    the event, its session leaves the table: its thread needs one event more than
    twice the number of those that were waiting at most. The other sessions stay as
    they are. *)
Theorem collab_timeout_removes m n name token d :
  cm_reachable env m -> cm_named m !! n = Some (name, TaskTimeout token) -> token <> "" ->
  mfind token (collabs_ m) = Some d -> (forall h e, k_SendEvent env h e = true) ->
  let m' := session_steps (S (queue_weight (collab_queue_ d))) token (fire env n m) in
  mfind token (collabs_ m') = None /\ (forall k, k <> token -> mfind k (collabs_ m') = mfind k (collabs_ m)).
Proof.
  intros Hr Hn Hne Hf Hs. cbv zeta. pose proof (fire_inv env n m (reachable_inv env m Hr)) as Hm'.
  unfold fire in *. rewrite Hn in *. cbn [run_named] in *. unfold HandleTimeout, with_session in *.
  set (m1 := set_cm_named (delete n (cm_named m)) m) in *. change (collabs_ m1) with (collabs_ m) in *. rewrite Hf in *.
  assert (cm_inv m1) as Hm1.
  { pose proof (reachable_inv env m Hr) as Hm. apply set_named_inv; [done | by eapply find_handler | apply Forall_delete, Hm]. }
  destruct (post_error_find token d m1 COLLAB_ABILITY_TIMEOUT_ERR Hm1 Hf Hs) as [Hp Ho].
  eapply error_leaves in Hp as [H1 H2]; [split; [exact H1 | intros k Hk; rewrite H2 by done; by apply Ho] | done | done | |].
  - cbn. apply in_or_app. right. by left.
  - cbn [collab_queue_ set_collab_queue]. rewrite queue_weight_app. unfold queue_weight at 2. simpl. lia.
Qed.

(** ** Tokens *)

Lemma str_length_app a b : String.length (a +:+ b) = (String.length a + String.length b)%nat.
Proof. induction a as [|c a IH]; simpl; [done | by rewrite IH]. Qed.

Lemma length_overwrite dis at_ n v : String.length (overwrite dis at_ n v) = String.length v.
Proof. revert at_ v. induction n as [|n IH]; intros at_ [|c v]; simpl; congruence. Qed.

Lemma is_new_false token m : is_new token m = false -> token ∈ map fst (collabs_ m).
Proof.
  unfold is_new. destruct (mfind token (collabs_ m)) as [d|] eqn:E; [|done]. intros _. by eapply session_key_in.
Qed.

(** Every round the candidate is longer, so it can meet each key once only. *)
Lemma generate_spec dis src m fuel round value (seen : list string) :
  src <> "" -> NoDup seen -> (forall t, t ∈ seen -> t ∈ map fst (collabs_ m) /\ (String.length t <= String.length value)%nat) ->
  (length (collabs_ m) < fuel + length seen)%nat ->
  exists token rest, generate dis src m fuel round value = Some token /\ is_new token m = true /\ token = src +:+ rest.
Proof.
  intros Hsrc. revert round value seen. induction fuel as [|fuel IH]; intros round value seen Hnd Hseen Hf.
  - exfalso. assert (length seen <= length (map fst (collabs_ m)))%nat as H.
    { apply NoDup_ListNoDup in Hnd. apply (NoDup_incl_length Hnd). intros t Ht. apply list_elem_of_In, Hseen.
      by apply list_elem_of_In. }
    rewrite length_map in H. lia.
  - cbn [generate]. set (v := src +:+ _). destruct (is_new v m) eqn:E; [by eexists _, _|].
    assert (String.length value < String.length v)%nat as Hlen.
    { unfold v. rewrite str_length_app, length_overwrite. destruct src; [done|]. simpl. lia. }
    apply (IH (S round) v (v :: seen)).
    + constructor; [|done]. intros Hin. destruct (Hseen v Hin). lia.
    + intros t. rewrite elem_of_cons. intros [->|Ht]; [split; [by apply is_new_false | lia]|].
      destruct (Hseen t Ht). split; [done | lia].
    + simpl. lia.
Qed.

(** The generation of a token ends whatever the random numbers are,
    even if they repeat for ever: the loop makes one round more at most than there
    are collaborations, and its result begins with the device and is not the token
    of a collaboration in progress. *)
Theorem GenerateCollabToken_terminates dis srcDeviceId m : srcDeviceId <> "" ->
  exists token rest, GenerateCollabToken dis srcDeviceId m = Some token /\
    mfind token (collabs_ m) = None /\ token = srcDeviceId +:+ rest.
Proof.
  intros Hs. unfold GenerateCollabToken.
  destruct (generate_spec dis srcDeviceId m (S (length (collabs_ m))) 0 (blank RANDOM_STRING_LENGTH) []) as (t & rest & H1 & H2 & H3).
  - done.
  - constructor.
  - intros t Ht. by apply not_elem_of_nil in Ht.
  - simpl. lia.
  - exists t, rest. split_and!; try done. revert H2. unfold is_new. by destruct (mfind t (collabs_ m)).
Qed.

(** ** The relation checker *)

(** What softbus is told: a collaboration in progress has this source, and this
    sink unless any will do. Tokens of 64 bits are compared as 32 bits. *)
Definition related (source sink : RelationInfo) (i : DSchedCollabInfo) : Prop :=
  rel_deviceId source = srcUdid_ i /\ rel_pid source = msg_pid (srcInfo_ i) /\
  i32 (rel_tokenId source) = msg_accessToken (srcInfo_ i) /\ rel_userId source = account_userId (srcAccountInfo_ i) /\
  (rel_pid sink = NO_NEED_TO_CHECK_ID \/
   rel_deviceId sink = sinkUdid_ i /\ rel_pid sink = msg_pid (sinkInfo_ i) /\
   i32 (rel_tokenId sink) = msg_accessToken (sinkInfo_ i) /\ rel_userId sink = sinkUserId_ i).

Lemma CheckSrc_spec r i : CheckSrcCollabRelation r i = ERR_OK <->
  rel_deviceId r = srcUdid_ i /\ rel_pid r = msg_pid (srcInfo_ i) /\
  i32 (rel_tokenId r) = msg_accessToken (srcInfo_ i) /\ rel_userId r = account_userId (srcAccountInfo_ i).
Proof.
  unfold CheckSrcCollabRelation. destruct (_ && _) eqn:E.
  - rewrite !andb_true_iff, String.eqb_eq, !Z.eqb_eq in E. tauto.
  - rewrite !andb_false_iff, String.eqb_neq, !Z.eqb_neq in E. split; [discriminate | tauto].
Qed.

Lemma CheckSink_spec r i : CheckSinkCollabRelation r i = ERR_OK <->
  rel_deviceId r = sinkUdid_ i /\ rel_pid r = msg_pid (sinkInfo_ i) /\
  i32 (rel_tokenId r) = msg_accessToken (sinkInfo_ i) /\ rel_userId r = sinkUserId_ i.
Proof.
  unfold CheckSinkCollabRelation. destruct (_ && _) eqn:E.
  - rewrite !andb_true_iff, String.eqb_eq, !Z.eqb_eq in E. tauto.
  - rewrite !andb_false_iff, String.eqb_neq, !Z.eqb_neq in E. split; [discriminate | tauto].
Qed.

(** Softbus is told that two applications collaborate exactly when a
    session of the table relates them. *)
Theorem CheckCollabRelation_spec source sink m :
  CheckSynergisticRelation (Some source) (Some sink) m = ERR_OK <->
  exists token d, In (token, d) (collabs_ m) /\ related source sink (collabInfo_ d).
Proof.
  cbn [CheckSynergisticRelation]. unfold CheckCollabRelation. destruct (existsb _ _) eqn:E.
  - split; [|done]. intros _. apply existsb_exists in E as ([token d] & Hin & E). exists token, d. split; [done|].
    rewrite andb_true_iff, orb_true_iff, !Z.eqb_eq, CheckSrc_spec, CheckSink_spec in E. unfold related. tauto.
  - split; [discriminate|]. intros (token & d & Hin & Hr). exfalso. apply not_true_iff_false in E. apply E.
    apply existsb_exists. exists (token, d). split; [done|].
    rewrite andb_true_iff, orb_true_iff, !Z.eqb_eq, CheckSrc_spec, CheckSink_spec. unfold related in Hr. tauto.
Qed.
End Life.

(** ** The theorems at a concrete manager *)

Lemma collab_table_invariant_witness :
  length (collabs_ demo_busy) = 1%nat /\ msorted (collabs_ demo_busy) /\ mall session_ok (collabs_ demo_busy).
Proof.
  destruct (collab_table_invariant demo_cenv demo_busy) as (H1 & H2 & _); [apply demo_busy_reachable|].
  split; [vm_compute; reflexivity | by split].
Defined.

Lemma collab_no_null_request_witness : ~ In (KSendRequest None NOTIFY_PEER_COLLAB_VERSION 7 0) (cm_calls demo_busy).
Proof. exact (collab_no_null_request demo_cenv demo_busy _ _ _ demo_busy_reachable). Defined.

Lemma collab_isolation_witness :
  mfind "other" (collabs_ (session_step demo_cenv "token" demo_busy)) = mfind "other" (collabs_ demo_busy).
Proof. apply (proj1 (collab_isolation demo_cenv demo_busy "token" demo_busy_reachable)). discriminate. Defined.

Lemma collab_timeout_removes_witness :
  mfind "token" (collabs_ (session_steps demo_cenv 3 "token" (fire demo_cenv 0 demo_busy))) = None.
Proof.
  assert (exists d, mfind "token" (collabs_ demo_busy) = Some d /\ queue_weight (collab_queue_ d) = 2%nat) as (d & E & Hw)
    by (eexists; split; [vm_compute; reflexivity | reflexivity]).
  assert (cm_named demo_busy !! 0%nat = Some ("token", TaskTimeout "token")) as Hn by (vm_compute; reflexivity).
  pose proof (proj1 (collab_timeout_removes demo_cenv demo_busy 0 "token" "token" d demo_busy_reachable Hn
    ltac:(discriminate) E (fun _ _ => eq_refl))) as H.
  cbv beta in H. rewrite Hw in H. exact H.
Defined.

Lemma GenerateCollabToken_terminates_witness :
  exists token rest, GenerateCollabToken (fun _ => 0%nat) "A" demo_busy = Some token /\
    mfind token (collabs_ demo_busy) = None /\ token = "A" +:+ rest.
Proof. exact (GenerateCollabToken_terminates (fun _ => 0%nat) "A" demo_busy ltac:(discriminate)). Defined.
