(* ===== verification/CollabHandshake.v ===== *)
(** The first exchange of a collaboration: the request for the version of the peer,
    from the session of the source through the transport to a new session in the
    table of the sink. *)

From S2P Require Import Prelude StdMap DataBuffer SchedErrors SchedUtils Json SoftbusSession SoftbusAdapter SoftbusAdapterProps ContinueInfo ContinueSession ContinueCmd ContinueDemo ContinueCmdProps CollabCmd CollabSession CollabOps CollabStates CollabSpec CollabRefine CollabProps CollabKeeps CollabManager CollabManagerProps CollabManagerLife.
From stdpp Require Import relations.
#[local] Open Scope string_scope.
#[local] Open Scope list_scope.
#[local] Open Scope Z_scope.

(** ** The buffer of a command *)

(** What [SendCommand] hands to the transport: the text and a zero byte. *)
Definition command_buffer (text : string) : DataBuffer := buffer_of (str_bytes text ++ [0]).

Lemma send_buffer text : len (str_bytes text) + 1 < DSCHED_MAX_BUFFER_SIZE ->
  let n := u64 (len (str_bytes text) + 1) in
  buf_write (DSchedDataBuffer_new n) 0 (Capacity (DSchedDataBuffer_new n)) (Some (str_bytes text)) 0 (len (str_bytes text))
  = BufOk (command_buffer text).
Proof.
  intros Hlen n. pose proof (len_nonneg (str_bytes text)) as H0. unfold n. unfold DSCHED_MAX_BUFFER_SIZE in Hlen.
  rewrite u64_id by lia. rewrite buffer_new_small by (unfold DSCHED_MAX_BUFFER_SIZE; lia).
  erewrite buf_write_ok; cbn; try done; rewrite ?len_zeros by lia; unfold RSIZE_MAX; try lia.
  unfold command_buffer, buffer_of. rewrite slice_all. rewrite len_app. change (len [0]) with 1.
  f_equal. f_equal. f_equal.
  pose proof (splice_app [] (zeros (len (str_bytes text))) (str_bytes text) (zeros 1)) as Hs.
  rewrite zeros_app by lia. apply Hs. by rewrite len_zeros.
Qed.

Lemma c_str_nul s : no_nul s = true -> c_str (bytes_str (str_bytes s ++ [0])) = s.
Proof.
  induction s as [|c s IH]; [done|]. simpl. rewrite andb_true_iff, negb_true_iff. intros [Hc Hs].
  by rewrite byte_ascii_byte, Hc, IH.
Qed.

Lemma command_buffer_text text : no_nul text = true -> c_str (buffer_text (command_buffer text)) = text.
Proof.
  intros H. unfold buffer_text, command_buffer. cbn [Data data_ buffer_of rangeOffset_ Capacity capacity_].
  rewrite slice_all. by apply c_str_nul.
Qed.

Section Handshake.
Context {W : WantApi} {CW : CollabWantApi} {CJ : CJson} {CJL : CJsonLaws} {PA : ParcelApi} {PP : Parcelable WantParams}.

(** ** Reading the command and the token of a message *)

Definition base_of (c : CollabCmd) : BaseCmd :=
  match c with
  | CmdGetVersion c => version_base c
  | CmdSinkStart c => sink_base c
  | CmdNotifyResult c => notify_base c
  | CmdDisconnect b => b
  end.

Lemma parse_base js b sb l s : wf_base_cmd b = true -> MarshalBaseCmd b = Some sb ->
  wf_json (JObject (str "BaseCmd" sb :: l)) = true -> cJSON_Print (JObject (str "BaseCmd" sb :: l)) = Some s ->
  c_str js = s -> parse_message js = Some (base_command b, base_collabToken b).
Proof.
  intros Hb Hm Hwf Hp Hjs. unfold parse_message. rewrite Hjs, (print_parse _ _ Hwf Hp). cbn [mbind option_bind].
  destruct (base_cmd_roundtrip b Hb) as (sb' & Hm' & Hn & _). rewrite Hm in Hm'. injection Hm' as <-.
  erewrite get_string_str; [|reflexivity | done]. cbn [mbind option_bind]. rewrite c_str_no_nul by done.
  unfold wf_base_cmd in Hb. wf_split Hb. unfold MarshalBaseCmd in Hm.
  erewrite print_parse; [|..|exact Hm]; [|json_members]. cbn [mbind option_bind]. by json_read.
Qed.

Context {PPL : ParcelableLaws WantParams}.

(** The manager finds the command and the token of whatever was marshalled. *)
Lemma message_parsed c s js : wf_collab c = true -> MarshalCollab c = Some s -> c_str js = s ->
  parse_message js = Some (base_command (base_of c), base_collabToken (base_of c)).
Proof.
  destruct c as [c|c|c|b]; cbn [wf_collab MarshalCollab base_of]; rewrite ?andb_true_iff.
  - intros [Hb Hn]. wf_split Hn. destruct (base_cmd_roundtrip _ Hb) as (sb & Hmb & _). unfold MarshalGetVersion.
    rewrite Hmb. cbn [mbind option_bind]. intros Hp. eapply parse_base; [done | done | | exact Hp]. json_members.
  - intros [[[[Hb Hn] Hc] Ha] Hf]. wf_split Hn. destruct (base_cmd_roundtrip _ Hb) as (sb & Hmb & _).
    unfold MarshalSinkStart. rewrite Hmb. cbn [mbind option_bind].
    destruct (parcel_write _ Parcel_new) as [p|]; [|done]. cbn [mbind option_bind].
    destruct (parcel_write _ p) as [q|]; [|done]. cbn [mbind option_bind].
    destruct (SinkStart_MarshalCallerInfo _) as [sc|]; [|done]. cbn [mbind option_bind].
    destruct (SinkStart_MarshalAccountInfo _) as [sa|]; [|done]. cbn [mbind option_bind].
    intros Hp. eapply parse_base; [done | done | | exact Hp]. json_members.
  - intros [[Hb Hn] Ht]. wf_split Hn. wf_split Ht. destruct (base_cmd_roundtrip _ Hb) as (sb & Hmb & _).
    unfold MarshalNotifyResult. rewrite Hmb. cbn [mbind option_bind].
    intros Hp. eapply parse_base; [done | done | | exact Hp]. json_members.
  - intros Hb. destruct (base_cmd_roundtrip _ Hb) as (sb & Hmb & _). unfold MarshalDisconnect.
    rewrite Hmb. cbn [mbind option_bind]. intros Hp. eapply parse_base; [done | done | | exact Hp]. json_members.
Qed.

(** ** Sending *)

Lemma SendCommand_sends env cmd text s : MarshalCollab cmd = Some text -> len (str_bytes text) + 1 < DSCHED_MAX_BUFFER_SIZE ->
  In (KSendData (collab_softbus_ (self s)) (command_buffer text)) (kcalls_ (snd (SendCommand env cmd s))).
Proof.
  intros Hm Hl. unfold SendCommand. rewrite kbind_run, Hm. cbv zeta. rewrite send_buffer by done.
  rewrite kbind_run. cbn [kself kcall kask fst snd self kcalls_]. apply in_or_app. right. by left.
Qed.

(** The data of a source that can be sent. *)
Definition sendable (i : DSchedCollabInfo) : bool :=
  i32b (srcCollabSessionId_ i)
  && forallb no_nul [collabToken_ i; msg_deviceId (srcInfo_ i); msg_deviceId (sinkInfo_ i)].

Lemma sendable_wf i : sendable i = true -> wf_collab (CmdGetVersion (PackGetPeerVersionCmd i)) = true.
Proof.
  unfold sendable. rewrite andb_true_iff. cbn [forallb]. rewrite !andb_true_iff. intros (H1 & H2 & H3 & H4 & _).
  cbn [wf_collab PackGetPeerVersionCmd version_base version_srcPid version_srcUid version_srcAccessToken version_sinkCollabVersion].
  rewrite andb_true_r. unfold wf_base_cmd. cbn. by rewrite H1, H2, H3, H4.
Qed.

(** The source connects and sends the request. *)
Lemma request_sent env s text : c_machine (core s) = true -> c_state (core s) = Some SOURCE_GET_PEER_VERSION_STATE ->
  (forall h p id, fst (k_ConnectDevice env h p id) = ERR_OK) ->
  MarshalCollab (CmdGetVersion (PackGetPeerVersionCmd (collabInfo_ (self s)))) = Some text ->
  len (str_bytes text) + 1 < DSCHED_MAX_BUFFER_SIZE ->
  exists id, In (KSendData id (command_buffer text)) (kcalls_ (snd (ProcessEvent env SOURCE_GET_PEER_VERSION_EVENT s))).
Proof.
  intros Hm Hst Hc Ht Hl. unfold ProcessEvent, Machine_Execute. rewrite kbind_run. cbn [kself fst snd].
  change (collab_machine_ (self s)) with (c_machine (core s)). rewrite Hm. cbn [negb]. rewrite kbind_run.
  rewrite kbind_run. cbn [kself fst snd]. change (collab_state_ (self s)) with (c_state (core s)). rewrite Hst.
  cbn [state_Execute SrcGetPeerVersionState_Execute].
  assert (exists id, In (KSendData id (command_buffer text)) (kcalls_ (snd (ExeSrcGetPeerVersion env s)))) as [id Hid].
  { unfold ExeSrcGetPeerVersion. rewrite kbind_run. unfold ConnectDevice at 1. rewrite !kbind_run.
    cbn [kinfo kself kask fst snd]. specialize (Hc (kcalls_ s) (msg_deviceId (sinkInfo_ (collabInfo_ (self s)))) (collab_softbus_ (self s))).
    destruct (k_ConnectDevice env _ _ _) as [ret id] eqn:E. cbn [fst] in Hc. subst ret. rewrite kbind_run.
    cbn [fst snd mret KM_ret kupdate]. rewrite Z.eqb_refl. cbn [negb]. rewrite kbind_run. cbn [kinfo fst snd].
    unfold ConnectDevice. rewrite !kbind_run. cbn [kinfo kself kask fst snd]. rewrite E. rewrite kbind_run. cbn [kupdate snd fst mret KM_ret self].
    eexists. apply SendCommand_sends; [exact Ht | done]. }
  exists id. destruct (negb _); [|exact Hid]. rewrite kbind_run. cbn [snd mret KM_ret].
  destruct (logged_post env (ERR_END_EVENT (fst (ExeSrcGetPeerVersion env s))) (snd (ExeSrcGetPeerVersion env s))) as (l & El & _).
  unfold PostErrEndTask. rewrite El. apply in_or_app. by left.
Qed.

(** ** Receiving *)

Lemma no_such_session m id token : cm_inv m -> mfind token (collabs_ m) = None ->
  List.find (fun e => (id =? collab_softbus_ e.2) && String.eqb token (collabToken_ (collabInfo_ e.2))) (collabs_ m) = None.
Proof.
  intros Hm Hn. destruct (List.find _ _) as [[k d]|] eqn:E; [|done]. apply find_some in E as [Hin E]. cbn [snd] in E.
  apply andb_true_iff in E as [_ E]. apply String.eqb_eq in E. apply In_find in Hin; [|done].
  destruct (find_session_ok _ _ _ Hm Hin) as [Ht _]. congruence.
Qed.

Lemma Unmarshal_c_str js : UnmarshalGetVersion js = UnmarshalGetVersion (c_str js).
Proof. unfold UnmarshalGetVersion. by rewrite c_str_idem. Qed.

(** A new session with its event runner, and its first event. *)
Lemma new_session_run env token d st m : collab_handler_ d = false -> (forall h, k_EventRunner_Create env h = true) ->
  let d' := set_collab_state st (set_collab_handler true (set_collab_machine d)) in
  new_session env token d st m
  = Some (d', mkCManager (cm_handler m) (cm_tasks m) (cm_named m) (minsert token d' (collabs_ m)) (cm_decisions m)
                (cm_calls m ++ [KQuery "EventRunner::Create"])).
Proof.
  intros Hd Hrun. unfold new_session, Init. rewrite kbind_run. cbn [kself fst snd kstate_of self]. rewrite Hd.
  rewrite !kbind_run. cbn [kask kupdate fst snd]. rewrite Hrun. reflexivity.
Qed.

Lemma on_new_post env inserted token d e m : collab_handler_ d = true -> (forall h e, k_SendEvent env h e = true) ->
  let d' := set_collab_queue (collab_queue_ d ++ [e]) d in
  on_new inserted token d (post env e) m
  = (d', mkCManager (cm_handler m) (cm_tasks m) (cm_named m)
           (if inserted then mupdate token (fun _ => d') (collabs_ m) else collabs_ m) (cm_decisions m)
           (cm_calls m ++ [KQuery "SendEvent"])).
Proof.
  intros Hd Hs. unfold on_new, post. rewrite kbind_run. cbn [kself fst snd kstate_of self]. rewrite Hd. cbn [negb].
  rewrite kbind_run. cbn [kask fst snd]. rewrite Hs. reflexivity.
Qed.

(** A new session of the sink. *)
Definition opened (i : DSchedCollabInfo) (id : Z) (d : DCollab) : Prop :=
  collab_state_ d = Some SINK_GET_VERSION_STATE /\ collab_queue_ d = [GET_SINK_VERSION_EVENT] /\ collab_softbus_ d = id /\
  collabDirection_ (collabInfo_ d) = COLLAB_SINK /\ srcCollabSessionId_ (collabInfo_ d) = srcCollabSessionId_ i.

Lemma request_opens env menv i text id m :
  cm_inv m -> cm_handler m = true -> sendable i = true ->
  MarshalCollab (CmdGetVersion (PackGetPeerVersionCmd i)) = Some text ->
  mfind (collabToken_ i) (collabs_ m) = None -> cm_GetLocalDeviceId menv = Some (msg_deviceId (sinkInfo_ i)) ->
  (forall h, k_EventRunner_Create env h = true) -> (forall h e, k_SendEvent env h e = true) ->
  exists m' d, HandleDataRecv env menv id (Some (command_buffer text)) m = Returns m' /\
    mfind (collabToken_ i) (collabs_ m') = Some d /\ opened i id d /\
    In (collabToken_ i, TaskTimeout (collabToken_ i)) (cm_named m') /\
    (forall k, k <> collabToken_ i -> mfind k (collabs_ m') = mfind k (collabs_ m)).
Proof.
  intros Hm Hh Hs Ht Hnew Hloc Hrun Hsend. pose proof (sendable_wf i Hs) as Hwf.
  destruct (get_version_roundtrip _ Hwf) as (text' & Ht' & Hnul & Hun). rewrite Ht in Ht'. injection Ht' as <-.
  unfold HandleDataRecv. rewrite (message_parsed _ text) by (by try apply command_buffer_text).
  cbn [base_of PackGetPeerVersionCmd version_base base_command base_collabToken].
  unfold NotifyDataRecv. rewrite no_such_session by done.
  change (SINK_GET_VERSION_CMD =? SINK_GET_VERSION_CMD) with true. cbv iota.
  rewrite Unmarshal_c_str, command_buffer_text by done. cbn [UnmarshalCollabLike] in Hun.
  destruct (UnmarshalGetVersion text) as [c|]; [|done]. cbn in Hun. injection Hun as ->.
  rewrite Hloc. cbn [PackGetPeerVersionCmd version_base base_sinkDeviceId base_collabToken]. rewrite String.eqb_refl. cbn [negb].
  unfold is_new. rewrite Hnew, new_session_run by done. unfold PostSinkGetVersionTask. cbv zeta.
  rewrite on_new_post by done. cbv zeta. unfold drop_new, SetTimeOut. cbn [cm_handler]. rewrite Hh. cbn [negb].
  change (0 <? COLLAB_TIMEOUT) with true. cbv iota.
  eexists _, _. split; [reflexivity|]. cbn [collabs_ set_cm_named cm_named]. split_and!.
  - rewrite mfind_mupdate, same_key_refl, mfind_minsert, Hnew, same_key_refl. reflexivity.
  - by split_and!.
  - apply in_or_app. right. by left.
  - intros k Hk. rewrite mfind_mupdate, mfind_minsert, Hnew, same_string. by destruct (String.eqb_spec k (collabToken_ i)).
Qed.

(** The request for the version that a source sends when it begins a
    collaboration, handed by the transport to the manager of the device it names,
    opens a session there: it is filed under the token of the source, bound to the
    connection the request came on, has its first event and a timeout, and the
    other sessions are as they were. *)
Theorem version_request_opens_sink env s env' menv m id text :
  let i := collabInfo_ (self s) in
  c_machine (core s) = true -> c_state (core s) = Some SOURCE_GET_PEER_VERSION_STATE ->
  (forall h p id, fst (k_ConnectDevice env h p id) = ERR_OK) -> sendable i = true ->
  MarshalCollab (CmdGetVersion (PackGetPeerVersionCmd i)) = Some text ->
  len (str_bytes text) + 1 < DSCHED_MAX_BUFFER_SIZE ->
  cm_reachable env' m -> cm_handler m = true -> mfind (collabToken_ i) (collabs_ m) = None ->
  cm_GetLocalDeviceId menv = Some (msg_deviceId (sinkInfo_ i)) ->
  (forall h, k_EventRunner_Create env' h = true) -> (forall h e, k_SendEvent env' h e = true) ->
  exists src buffer m' d,
    In (KSendData src buffer) (kcalls_ (snd (ProcessEvent env SOURCE_GET_PEER_VERSION_EVENT s))) /\
    HandleDataRecv env' menv id (Some buffer) m = Returns m' /\
    mfind (collabToken_ i) (collabs_ m') = Some d /\ opened i id d /\
    In (collabToken_ i, TaskTimeout (collabToken_ i)) (cm_named m') /\
    (forall k, k <> collabToken_ i -> mfind k (collabs_ m') = mfind k (collabs_ m)).
Proof.
  intros i H1 H2 H3 H4 H5 H6 H7 H8 H9 H10 H11 H12.
  destruct (request_sent env s text H1 H2 H3 H5 H6) as [src Hsrc].
  destruct (request_opens env' menv i text id m (reachable_inv env' m H7) H8 H4 H5 H9 H10 H11 H12) as (m' & d & Hr).
  exists src, (command_buffer text), m', d. by split.
Qed.
End Handshake.

(** ** A concrete exchange *)

Definition demo_sink_manager : CManager := Manager_Init (demo_cmenv "B") CManager_new.

Definition demo_source_state : KState :=
  mkKState (mkDCollab true (Some SOURCE_GET_PEER_VERSION_STATE) true [] demo_source_info (-1) false) ["token"] [] [].

Lemma version_request_opens_sink_witness :
  exists src buffer m' d,
    In (KSendData src buffer) (kcalls_ (snd (ProcessEvent demo_cenv SOURCE_GET_PEER_VERSION_EVENT demo_source_state))) /\
    HandleDataRecv demo_cenv (demo_cmenv "B") 9 (Some buffer) demo_sink_manager = Returns m' /\
    mfind "token" (collabs_ m') = Some d /\ opened demo_source_info 9 d.
Proof.
  destruct (get_version_roundtrip (PackGetPeerVersionCmd demo_source_info)) as (text & Ht & _); [vm_compute; reflexivity|].
  assert (match MarshalCollab (CmdGetVersion (PackGetPeerVersionCmd demo_source_info)) with
          | Some t => len (str_bytes t) + 1 <? DSCHED_MAX_BUFFER_SIZE | None => true end = true) as Hl
    by (vm_compute; reflexivity).
  rewrite Ht in Hl. apply Z.ltb_lt in Hl.
  destruct (version_request_opens_sink demo_cenv demo_source_state demo_cenv (demo_cmenv "B") demo_sink_manager 9 text)
    as (src & buffer & m' & d & H1 & H2 & H3 & H4 & _);
    [reflexivity | reflexivity | reflexivity | reflexivity | exact Ht | exact Hl | | reflexivity | reflexivity
    | reflexivity | reflexivity | reflexivity |].
  - eapply rtc_l; [apply (CS_Init _ _ (demo_cmenv "B")) | apply rtc_refl].
  - exists src, buffer, m', d. exact (conj H1 (conj H2 (conj H3 H4))).
Defined.

(** * What a collaboration does to the connections of the softbus adapter: the calls
    of a session replayed on [SoftbusAdapter]. *)

#[local] Open Scope string_scope.
#[local] Open Scope list_scope.
#[local] Open Scope Z_scope.

Section Links.
Context {W : WantApi} {CW : CollabWantApi} {CJ : CJson} {PA : ParcelApi} {PP : Parcelable WantParams}.

Definition is_link (c : CCall) : bool := match c with KConnectDevice _ | KDisconnectDevice _ => true | _ => false end.
Definition links (l : list CCall) : list CCall := List.filter is_link l.

Lemma links_app l l' : links (l ++ l') = links l ++ links l'.
Proof. apply List.filter_app. Qed.

Lemma links_harmless l : forallb harmless l = true -> links l = [].
Proof.
  induction l as [|c l IH]; [done|]. cbn [forallb]. rewrite andb_true_iff. intros [Hc Hl]. unfold links in *. cbn.
  rewrite IH by done. by destruct c.
Qed.

Lemma links_logged s s' : logged harmless s s' -> links (kcalls_ s') = links (kcalls_ s).
Proof. intros (l & -> & F). by rewrite links_app, (links_harmless l), app_nil_r. Qed.

Variable env : CEnv.

Definition peer_of_session (s : KState) : string := msg_deviceId (sinkInfo_ (collabInfo_ (self s))).

(** A method that begins with a connection and goes on quietly. *)
Definition links_once (m : KM Z) : Prop :=
  forall s, links (kcalls_ (snd (m s))) = links (kcalls_ s) ++ [KConnectDevice (peer_of_session s)].

Lemma connect_links s : links (kcalls_ (snd (ConnectDevice env s))) = links (kcalls_ s) ++ [KConnectDevice (peer_of_session s)].
Proof.
  unfold ConnectDevice. rewrite !kbind_run. cbn [kinfo kself kask fst snd].
  destruct (k_ConnectDevice env _ _ _) as [ret id]. rewrite kbind_run. cbn. by rewrite links_app.
Qed.

(** Methods that make no connection calls. *)
Definition unlinked {A} (m : KM A) : Prop := forall s, links (kcalls_ (snd (m s))) = links (kcalls_ s).

Lemma unlinked_quiet {A} (m : KM A) : quiet m -> unlinked m.
Proof. intros H s. apply links_logged, H. Qed.

Lemma unlinked_bind {A B} (m : KM A) (f : A -> KM B) : unlinked m -> (forall a, unlinked (f a)) -> unlinked (m ≫= f).
Proof. intros Hm Hf s. rewrite kbind_run. by rewrite Hf, Hm. Qed.

Lemma unlinked_post e : unlinked (post env e).
Proof. intros s. apply links_logged, logged_post. Qed.

Lemma unlinked_UpdateState st : unlinked (UpdateState st).
Proof. intros s. unfold UpdateState. rewrite kbind_run. cbn [kself fst snd]. by destruct (collab_machine_ _). Qed.

Lemma connect_then (f : Z -> KM Z) : (forall a, unlinked (f a)) -> links_once (ret ← ConnectDevice env; f ret).
Proof. intros Hf s. rewrite kbind_run, Hf. apply connect_links. Qed.

Lemma GetPeerVersion_links : links_once (ExeSrcGetPeerVersion env).
Proof.
  apply connect_then. intros ret. destruct (negb _); [by apply unlinked_quiet, quiet_ret|].
  apply unlinked_quiet, quiet_bind; [apply quiet_info|]. intros. apply quiet_SendCommand.
Qed.

Lemma Start_links : links_once (ExeSrcStart env).
Proof.
  apply connect_then. intros ret. destruct (negb _); [by apply unlinked_quiet, quiet_ret|].
  apply unlinked_bind; [apply unlinked_quiet, quiet_PackStartCmd|]. intros [ret' cmd].
  destruct (negb _); [by apply unlinked_quiet, quiet_ret|].
  apply unlinked_bind; [apply unlinked_quiet, quiet_SendCommand|]. intros a.
  destruct (negb _); [by apply unlinked_quiet, quiet_ret|].
  apply unlinked_bind; [apply unlinked_UpdateState|]. intros _.
  apply unlinked_quiet, quiet_bind; [apply quiet_info|]. intros i. apply quiet_bind; [apply quiet_Register|]. intros. apply quiet_ret.
Qed.

Lemma Process_links st e s : c_machine (core s) = true -> c_state (core s) = Some st -> links_once (state_Execute env st e) ->
  links (kcalls_ (snd (ProcessEvent env e s))) = links (kcalls_ s) ++ [KConnectDevice (peer_of_session s)].
Proof.
  intros H1 H2 Hl. unfold ProcessEvent, Machine_Execute. rewrite kbind_run. cbn [kself fst snd].
  change (collab_machine_ (self s)) with (c_machine (core s)). rewrite H1. cbn [negb]. rewrite !kbind_run. cbn [kself fst snd].
  change (collab_state_ (self s)) with (c_state (core s)). rewrite H2.
  destruct (negb _); [|apply Hl]. rewrite kbind_run. cbn [snd mret KM_ret]. unfold PostErrEndTask.
  rewrite unlinked_post. apply Hl.
Qed.

(** A source from its first event to its end, the start requested with [info]. *)
Definition source_run (info : DSchedCollabInfo) (r : Z) (s : KState) : KState :=
  let s := snd (ProcessEvent env SOURCE_GET_PEER_VERSION_EVENT s) in
  let s := snd ((_ ← SetSrcCollabInfo info; UpdateState COLLAB_SOURCE_START_STATE) s) in
  let s := snd (ProcessEvent env SOURCE_START_EVENT s) in
  snd (ProcessEvent env (ERR_END_EVENT r) s).
End Links.

(** ** The adapter *)

Section Replay.
Context {W : WantApi}.

(** The calls as the adapter gets them. *)
Definition replay_one (aenv : AdapterEnv) (a : Adapter) (c : CCall) : Adapter :=
  match c with
  | KConnectDevice peer => snd (SoftbusAdapter.ConnectDevice aenv a peer 0 SERVICE_TYPE_COLLAB)
  | KDisconnectDevice peer => DisconnectDevice aenv a peer
  | _ => a
  end.
Definition replay (aenv : AdapterEnv) (l : list CCall) (a : Adapter) : Adapter := fold_left (replay_one aenv) l a.

Lemma replay_keeps_one aenv a peer k s : adapter_wf a -> find_peer peer a = Some (k, s) -> k <> 0 ->
  find_peer peer (replay aenv [KConnectDevice peer; KConnectDevice peer; KDisconnectDevice peer] a)
  = Some (k, set_refCount s (refCount_ s + 1)).
Proof.
  intros Ha Hf Hk. cbn [replay fold_left replay_one].
  pose proof (connects_sessions 2 aenv peer SERVICE_TYPE_COLLAB a k s Ha Hf) as (Hw & Hf' & _). cbn [connects] in *.
  pose proof (find_peer_ok _ _ _ _ Ha Hf) as (_ & _ & _ & Hr & _).
  destruct (disconnects_sessions 1 aenv peer _ k _ Hw Hf' Hk) as (_ & H & _); [cbn [refCount_ set_refCount]; lia|].
  cbn [disconnects] in H. rewrite H. do 2 f_equal. cbn [refCount_ set_refCount].
  replace (refCount_ s + Z.of_nat 2 - Z.of_nat 1) with (refCount_ s + 1) by lia. done.
Qed.
End Replay.

Section Connection.
Context {W : WantApi} {CW : CollabWantApi} {CJ : CJson} {PA : ParcelApi} {PP : Parcelable WantParams}.
Variable env : CEnv.

(** An event that does not end the session leaves it in the table. *)
Lemma event_core st e s : c_machine (core s) = true -> c_state (core s) = Some st -> registered (core s) = true ->
  finishes st e = false ->
  let c := core (snd (ProcessEvent env e s)) in
  c_machine c = true /\ is_Some (c_state c) /\ registered c = true /\ c_token c = c_token (core s) /\
  c_direction c = c_direction (core s) /\ c_peer c = c_peer (core s).
Proof.
  intros H1 H2 H3 Hf. cbv zeta. pose proof (Collab_ProcessEvent_refines env st e s H1 H2 H3) as [Ht _].
  remember (core (snd (ProcessEvent env e s))) as c eqn:Ec. clear Ec. destruct Ht as [st' Hn|Hf'|r c' Hf' [->|[_ ->]]].
  - unfold core_state. rewrite H1. by split_and!.
  - congruence.
  - split_and!; try done; by exists st.
  - split_and!; try done; by exists st.
Qed.

(** A source that is started and ends has connected to its peer twice
    and disconnected once, so the adapter keeps the connection open: it counts one
    user more than before. *)
Theorem collab_connection_left info r s :
  c_machine (core s) = true -> c_state (core s) = Some SOURCE_GET_PEER_VERSION_STATE -> registered (core s) = true ->
  collabToken_ info = c_token (core s) -> msg_deviceId (sinkInfo_ info) = c_peer (core s) ->
  collabDirection_ info = COLLAB_SOURCE ->
  let peer := c_peer (core s) in
  let calls := links (kcalls_ (source_run env info r s)) in
  calls = links (kcalls_ s) ++ [KConnectDevice peer; KConnectDevice peer; KDisconnectDevice peer] /\
  forall aenv a k x, adapter_wf a -> find_peer peer a = Some (k, x) -> k <> 0 ->
    find_peer peer (replay aenv [KConnectDevice peer; KConnectDevice peer; KDisconnectDevice peer] a)
    = Some (k, set_refCount x (refCount_ x + 1)).
Proof.
  intros H1 H2 H3 Ht Hp Hd peer calls. split; [|intros; by apply replay_keeps_one].
  unfold calls, source_run.
  pose proof (Process_links env _ SOURCE_GET_PEER_VERSION_EVENT s H1 H2 (GetPeerVersion_links env)) as L1.
  destruct (event_core _ SOURCE_GET_PEER_VERSION_EVENT s H1 H2 H3 eq_refl) as (M1 & S1 & R1 & T1 & _ & P1).
  generalize dependent (snd (ProcessEvent env SOURCE_GET_PEER_VERSION_EVENT s)). intros s1 L1 M1 S1 R1 T1 P1.
  set (s2 := snd ((_ ← SetSrcCollabInfo info; UpdateState COLLAB_SOURCE_START_STATE) s1)).
  assert (c_machine (core s2) = true /\ c_state (core s2) = Some COLLAB_SOURCE_START_STATE /\
    registered (core s2) = true /\ c_peer (core s2) = peer /\ c_direction (core s2) = COLLAB_SOURCE /\
    kcalls_ s2 = kcalls_ s1) as (M2 & S2 & R2 & P2 & D2 & C2).
  { unfold s2. rewrite kbind_run. unfold UpdateState. rewrite kbind_run. cbn [kself fst snd].
    change (collab_machine_ (self (snd (SetSrcCollabInfo info s1)))) with (c_machine (core s1)). rewrite M1.
    split_and!; try done. unfold registered. cbn. rewrite Ht, <- T1. exact R1. }
  generalize dependent s2. intros s2 M2 S2 R2 P2 D2 C2.
  pose proof (Process_links env _ SOURCE_START_EVENT s2 M2 S2 (Start_links env)) as L3.
  destruct (event_core _ SOURCE_START_EVENT s2 M2 S2 R2 eq_refl) as (M3 & [st S3] & _ & _ & D3 & P3).
  generalize dependent (snd (ProcessEvent env SOURCE_START_EVENT s2)). intros s3 L3 M3 S3 D3 P3.
  destruct (error_calls env st r s3 M3 S3) as (l1 & l2 & Hl & F1 & F2).
  rewrite Hl, D3, D2, P3, P2. change (COLLAB_SOURCE =? COLLAB_SOURCE) with true. cbv iota.
  rewrite !links_app, (links_harmless l1), (links_harmless l2), L3, C2, L1 by done.
  unfold peer_of_session. change (msg_deviceId (sinkInfo_ (collabInfo_ (self s)))) with peer.
  change (msg_deviceId (sinkInfo_ (collabInfo_ (self s2)))) with (c_peer (core s2)). rewrite P2.
  cbn [links List.filter is_link app]. rewrite <- !app_assoc. reflexivity.
Qed.
End Connection.

(** An adapter with one connection: the collaboration leaves its mark. *)
Lemma collab_connection_left_witness :
  let s := demo_kstate COLLAB_SOURCE SOURCE_GET_PEER_VERSION_STATE [] in
  links (kcalls_ (source_run demo_cenv (demo_collab_info COLLAB_SOURCE) 9 s))
  = [KConnectDevice "B"; KConnectDevice "B"; KDisconnectDevice "B"] /\
  find_peer "peer" (replay env0 [KConnectDevice "peer"; KConnectDevice "peer"; KDisconnectDevice "peer"] adapter1)
  = option_map (fun p => (p.1, set_refCount p.2 2)) (find_peer "peer" adapter1).
Proof.
  intros s.
  destruct (collab_connection_left demo_cenv (demo_collab_info COLLAB_SOURCE) 9 s) as [H _];
    [reflexivity | reflexivity | reflexivity | reflexivity | reflexivity | reflexivity |].
  split; [exact H | reflexivity].
Defined.
