(* ===== verification/Permission.v ===== *)
(** Whether a peer may start an ability, send a result or get a caller:
    services/dtbschedmgr/src/distributed_sched_permission.cpp and the three methods
    of [DistributedSchedService] that ask it.

    The answers of the device manager, the access token service, the account
    service, the bundle manager and hichain are parameters. Some checks remove
    parameters from the want they are given, so the want is part of their result. *)

From S2P Require Import Prelude SchedErrors SchedUtils Json ContinueInfo ContinueSession.
#[local] Open Scope string_scope.
#[local] Open Scope list_scope.
#[local] Open Scope Z_scope.

(** ** Constants *)

Definition FOUNDATION_PROCESS_NAME : string := "foundation".
Definition DMS_API_VERSION : string := "dmsApiVersion".
Definition DMS_IS_CALLER_BACKGROUND : string := "dmsIsCallerBackGround".
Definition DMS_MISSION_ID : string := "dmsMissionId".
Definition PARAMS_URI : string := "ability.verify.uri".
Definition PARAMS_STREAM : string := "ability.params.stream".
Definition PERMISSION_START_ABILIIES_FROM_BACKGROUND : string := "ohos.permission.START_ABILIIES_FROM_BACKGROUND".
Definition PERMISSION_START_ABILITIES_FROM_BACKGROUND : string := "ohos.permission.START_ABILITIES_FROM_BACKGROUND".
Definition PERMISSION_START_INVISIBLE_ABILITY : string := "ohos.permission.START_INVISIBLE_ABILITY".
Definition DISTRIBUTED_FILES_PATH : string := "/data/storage/el2/distributedfiles/".
Definition BUNDLE_NAME_SCENEBOARD : string := "com.ohos.sceneboard".
Definition DEFAULT_DMS_API_VERSION : Z := 9.
Definition DEFAULT_DMS_MISSION_ID : Z := -1.
Definition FA_MODULE_ALLOW_MIN_API_VERSION : Z := 8.
Definition DEFAULT_DEVICE_SECURITY_LEVEL : Z := -1.
Definition START_PERMISSION : Z := 0.
Definition CALL_PERMISSION : Z := 1.
Definition SEND_RESULT_PERMISSION : Z := 2.

(** ** Data *)

(** The kinds of an ability the checks tell apart. *)
Inductive AbilityType := ABILITY_SERVICE | ABILITY_EXTENSION | ABILITY_OTHER.
#[global] Instance AbilityType_eq_dec : EqDecision AbilityType.
Proof. solve_decision. Defined.

(** The fields of [AppExecFwk::AbilityInfo] that are read. *)
Record AbilityInfo := mkAbilityInfo {
  info_bundleName : string;
  info_type : AbilityType;
  info_visible : bool;
  info_isStageBasedModel : bool;
  info_associatedWakeUp : bool;
}.

Record GroupInfo := mkGroupInfo {
  groupName : string;
  groupId : string;
  groupOwner : string;
  groupType : Z;
  groupVisibility : Z;
}.
Definition GroupInfo_default : GroupInfo := mkGroupInfo "" "" "" 0 0.

(** The question to the device manager. *)
Record DmAccessCaller := mkDmAccessCaller {
  dm_accountId : string;
  dm_pkgName : string;
  dm_networkId : string;
  dm_userId : Z;
  dm_tokenId : Z;
}.
Record DmAccessCallee := mkDmAccessCallee { dm_callee_networkId : string; dm_peerId : string }.

Class PermWantApi `{WantApi} := {
  Want_GetIntParam : Want -> string -> Z -> Z;
  Want_GetStringArrayParam : Want -> string -> list string;
  Want_GetUri : Want -> string;
  Want_SetStringArrayParam : Want -> string -> list string -> Want;
  FLAG_AUTH_READ_URI_PERMISSION : Z;
  FLAG_AUTH_WRITE_URI_PERMISSION : Z;
}.

Section Permission.
Context {W : WantApi} {PW : PermWantApi}.

Record PEnv := mkPEnv {
  DMSFWK_SAME_ACCOUNT : bool;
  p_OS_ACCOUNT_PART : bool;
  p_GetUdidByNetworkId : string -> string;
  p_GetLocalDeviceId : option string;
  p_CheckIsSameAccount : DmAccessCaller -> DmAccessCallee -> bool;
  p_CheckAccessControl : DmAccessCaller -> DmAccessCallee -> bool;
  (** [CheckAccessToGroup] and [GetRelatedGroups] of hichain. *)
  p_CheckAccessToGroup : string -> string -> bool;
  p_GetRelatedGroups : string -> string -> option string;
  p_GetAppIdByBundleName : string -> option string;
  p_QueryAbilityInfo : Want -> option AbilityInfo;
  p_QueryExtensionAbilityInfo : Want -> option AbilityInfo;
  p_QueryActiveOsAccountIds : Z * list Z;
  p_GetOhosAccountInfo : Z * string;
  p_GetCallingTokenID : Z;
  p_GetNativeTokenInfo : Z -> Z * string;
  p_GetApplicationInfo : string -> Z -> option Z;
  p_AllocLocalTokenID : string -> Z -> Z;
  p_VerifyAccessToken : Z -> string -> Z;
  p_PERMISSION_DENIED : Z;
  (** The security level of a device, when the security service can tell it. *)
  p_DEVICE_ID_MAX_LEN : Z;
  p_DeviceSecurityLevel : string -> option Z;
  (** The access token of the bundle a URI belongs to. *)
  p_HasBundleManager : bool;
  p_GetBundleInfo : string -> Z -> option Z;
  p_UriPath : string -> string;
  p_UriAuthority : string -> string;
  (** [nlohmann::json::parse]; the names and kinds of groups of hichain. *)
  p_json_parse : string -> option json;
  FIELD_GROUP_NAME : string;
  FIELD_GROUP_ID : string;
  FIELD_GROUP_OWNER : string;
  FIELD_GROUP_TYPE : string;
  FIELD_GROUP_VISIBILITY : string;
  IDENTICAL_ACCOUNT_GROUP : Z;
  PEER_TO_PEER_GROUP : Z;
  P_ERR_NULL_OBJECT : Z;
}.

Variable env : PEnv.

(** ** Applications and tokens *)

(** [BundleManagerInternal::IsSameAppId]. *)
Definition IsSameAppId (callerAppId targetBundleName : string) : bool :=
  if String.eqb targetBundleName "" || String.eqb callerAppId "" then false
  else match p_GetAppIdByBundleName env targetBundleName with
       | None => false
       | Some calleeAppId => String.eqb callerAppId calleeAppId
       end.

Definition VerifyPermission (accessToken : Z) (permissionName : string) : bool :=
  negb (p_VerifyAccessToken env accessToken permissionName =? p_PERMISSION_DENIED env).

Definition CheckPermission (accessToken : Z) (permissionName : string) : Z :=
  if VerifyPermission accessToken permissionName then ERR_OK else DMS_PERMISSION_DENIED.
Definition CheckPermissionAll (accessToken : Z) (permissionName : string) : Z :=
  if VerifyPermission accessToken permissionName then ERR_OK else DMS_PERMISSION_DENIED.

Definition IsFoundationCall : bool :=
  let '(result, processName) := p_GetNativeTokenInfo env (p_GetCallingTokenID env) in
  (result =? ERR_OK) && String.eqb processName FOUNDATION_PROCESS_NAME.

(** The first active account; 0 without accounts. *)
Definition active_account : option Z :=
  if p_OS_ACCOUNT_PART env then
    match p_QueryActiveOsAccountIds env with
    | (ret, id :: _) => if ret =? ERR_OK then Some id else None
    | (_, []) => None
    end
  else Some 0.

Definition IsSceneBoardCall : bool :=
  match active_account with
  | None => false
  | Some activeAccountId =>
      match p_GetApplicationInfo env BUNDLE_NAME_SCENEBOARD activeAccountId with
      | None => false
      | Some accessTokenId => p_GetCallingTokenID env =? accessTokenId
      end
  end.

(** ** Accounts *)

Definition access_caller (accountInfo : AccountInfo) (callerInfo : CallerInfo) (pkgName : string) : DmAccessCaller :=
  mkDmAccessCaller (account_activeAccountId accountInfo) pkgName (caller_sourceDeviceId callerInfo)
    (account_userId accountInfo) (caller_accessToken callerInfo).

Definition CheckAccountAccessPermission (callerInfo : CallerInfo) (accountInfo : AccountInfo)
    (targetBundleName : string) (isNewCollab : bool) : bool :=
  let udid := p_GetUdidByNetworkId env (caller_sourceDeviceId callerInfo) in
  match p_GetLocalDeviceId env with
  | None => false
  | Some dstNetworkId =>
      let dmSrcCaller := access_caller accountInfo callerInfo targetBundleName in
      let dmDstCallee := mkDmAccessCallee dstNetworkId "" in
      let by_group :=
        if p_CheckAccessToGroup env udid targetBundleName then true
        else p_CheckAccessControl env dmSrcCaller dmDstCallee in
      if DMSFWK_SAME_ACCOUNT env then
        if p_CheckIsSameAccount env dmSrcCaller dmDstCallee then true
        else if isNewCollab && negb (IsSameAppId (caller_callerAppId callerInfo) targetBundleName) then false
        else by_group
      else by_group
  end.

Definition GetOsAccountData (a : AccountInfo) : option AccountInfo :=
  if p_OS_ACCOUNT_PART env then
    match p_QueryActiveOsAccountIds env with
    | (ret, id :: _) =>
        if ret =? ERR_OK then
          let '(ret, uid) := p_GetOhosAccountInfo env in
          if negb (ret =? 0) || String.eqb uid "" then None
          else Some (mkAccountInfo (account_accountType a) (account_groupIdList a) uid id)
        else None
    | (_, []) => None
    end
  else Some a.

(** The loops over the bundles of the caller. *)
Definition CheckDstSameAccount (dstNetworkId : string) (a : AccountInfo) (callerInfo : CallerInfo) : bool :=
  if DMSFWK_SAME_ACCOUNT env
  then existsb (fun b => p_CheckIsSameAccount env (access_caller a callerInfo b) (mkDmAccessCallee dstNetworkId ""))
         (caller_bundleNames callerInfo)
  else false.
Definition CheckAclList (dstNetworkId : string) (a : AccountInfo) (callerInfo : CallerInfo) : bool :=
  existsb (fun b => p_CheckAccessControl env (access_caller a callerInfo b) (mkDmAccessCallee dstNetworkId ""))
    (caller_bundleNames callerInfo).

(** [from_json]: the fields that are there, until one has the wrong type. *)
Definition read_string (j : json) (key : string) (st : bool * string) : bool * string :=
  if st.1 then st
  else match GetObjectItem j key with
       | None => st
       | Some (JString s) => (false, s)
       | Some _ => (true, st.2)
       end.
Definition read_number (j : json) (key : string) (failed : bool) (old : Z) : bool * Z :=
  if failed then (failed, old)
  else match GetObjectItem j key with
       | None => (failed, old)
       | Some (JNumber n) => (false, i32 n)
       | Some _ => (true, old)
       end.
Definition from_json (j : json) : GroupInfo :=
  let '(e, name) := read_string j (FIELD_GROUP_NAME env) (false, "") in
  let '(e, id) := read_string j (FIELD_GROUP_ID env) (e, "") in
  let '(e, owner) := read_string j (FIELD_GROUP_OWNER env) (e, "") in
  let '(e, type) := read_number j (FIELD_GROUP_TYPE env) e 0 in
  let '(_, visibility) := read_number j (FIELD_GROUP_VISIBILITY env) e 0 in
  mkGroupInfo name id owner type visibility.

(** [None]: the text does not parse or has no groups. A document that is not an
    array makes the library throw; it counts as no groups. *)
Definition ParseGroupInfos (returnGroupStr : string) : option (list GroupInfo) :=
  match p_json_parse env returnGroupStr with
  | Some (JArray (j :: l)) => Some (map from_json (j :: l))
  | _ => None
  end.

Definition of_type (g : GroupInfo) (type : Z) : bool := groupType g =? type.

Definition add_group (a : AccountInfo) (g : GroupInfo) : AccountInfo :=
  if negb (of_type g (IDENTICAL_ACCOUNT_GROUP env)) && negb (of_type g (PEER_TO_PEER_GROUP env)) then a
  else mkAccountInfo (if of_type g (IDENTICAL_ACCOUNT_GROUP env) then SAME_ACCOUNT_TYPE else account_accountType a)
         (account_groupIdList a ++ [groupId g]) (account_activeAccountId a) (account_userId a).

Definition add_groups (udid : string) (a : AccountInfo) (bundleName : string) : AccountInfo :=
  match p_GetRelatedGroups env udid bundleName with
  | None => a
  | Some returnGroups =>
      match ParseGroupInfos returnGroups with
      | None => a
      | Some groupInfos => fold_left add_group groupInfos a
      end
  end.

Definition GetRelatedGroups (udid : string) (bundleNames : list string) (a : AccountInfo) : bool * AccountInfo :=
  let a := fold_left (add_groups udid) bundleNames a in
  (match account_groupIdList a with [] => false | _ => true end, a).

Definition GetAccountInfo (remoteNetworkId : string) (callerInfo : CallerInfo) (a : AccountInfo) : Z * AccountInfo :=
  if String.eqb remoteNetworkId "" then (P_ERR_NULL_OBJECT env, a)
  else
    let udid := p_GetUdidByNetworkId env remoteNetworkId in
    if String.eqb udid "" then (P_ERR_NULL_OBJECT env, a)
    else match GetOsAccountData a with
         | None => (INVALID_PARAMETERS_ERR, a)
         | Some a =>
             if DMSFWK_SAME_ACCOUNT env && CheckDstSameAccount remoteNetworkId a callerInfo then (ERR_OK, a)
             else
               let '(found, a) := GetRelatedGroups udid (caller_bundleNames callerInfo) a in
               if found : bool then (ERR_OK, a)
               else if CheckAclList remoteNetworkId a callerInfo then (ERR_OK, a)
               else (INVALID_PARAMETERS_ERR, a)
         end.

(** ** The target *)

(** The identity of a device does not fit its field, or the service cannot tell
    its level. *)
Definition GetDeviceSecurityLevel (udid : string) : Z :=
  if p_DEVICE_ID_MAX_LEN env <? len (str_bytes udid) then DEFAULT_DEVICE_SECURITY_LEVEL
  else default DEFAULT_DEVICE_SECURITY_LEVEL (p_DeviceSecurityLevel env udid).

Definition CheckDeviceSecurityLevel (srcDeviceId dstDeviceId : string) : bool :=
  let srcUdid := p_GetUdidByNetworkId env srcDeviceId in
  let dstUdid := p_GetUdidByNetworkId env dstDeviceId in
  if String.eqb srcUdid "" then false
  else if String.eqb dstUdid "" then false
  else
    let src := GetDeviceSecurityLevel srcUdid in
    let dst := GetDeviceSecurityLevel dstUdid in
    negb ((src =? DEFAULT_DEVICE_SECURITY_LEVEL) || (src <? dst)).

Definition CheckTargetAbilityVisible (targetAbility : AbilityInfo) (callerInfo : CallerInfo) : bool :=
  if info_visible targetAbility then true
  else
    let dAccessToken := p_AllocLocalTokenID env (caller_sourceDeviceId callerInfo) (caller_accessToken callerInfo) in
    if dAccessToken =? 0 then false
    else CheckPermissionAll dAccessToken PERMISSION_START_INVISIBLE_ABILITY =? ERR_OK.

Definition CheckMinApiVersion (targetAbility : AbilityInfo) (apiVersion : Z) : bool :=
  negb (info_isStageBasedModel targetAbility) && bool_decide (info_type targetAbility = ABILITY_SERVICE)
  && (apiVersion <=? FA_MODULE_ALLOW_MIN_API_VERSION).

(** [extraInfoJson.empty()] or no member [dmsVersion]. *)
Definition low_version (extraInfoJson : json) : bool :=
  match GetObjectItem extraInfoJson DMS_VERSION_ID with None => true | Some _ => false end.

Definition CheckBackgroundPermission (targetAbility : AbilityInfo) (callerInfo : CallerInfo) (want : Want)
    (needCheckApiVersion : bool) : bool * Want :=
  if low_version (caller_extraInfoJson callerInfo) then (true, want)
  else
    let isCallerBackGround := GetBoolParam want DMS_IS_CALLER_BACKGROUND true in
    let want := RemoveParam want DMS_IS_CALLER_BACKGROUND in
    if negb isCallerBackGround then (true, want)
    else
      let apiVersion := Want_GetIntParam want DMS_API_VERSION DEFAULT_DMS_API_VERSION in
      let want := RemoveParam want DMS_API_VERSION in
      if needCheckApiVersion && CheckMinApiVersion targetAbility apiVersion then (true, want)
      else
        let dAccessToken := p_AllocLocalTokenID env (caller_sourceDeviceId callerInfo) (caller_accessToken callerInfo) in
        if dAccessToken =? 0 then (false, want)
        else ((CheckPermission dAccessToken PERMISSION_START_ABILITIES_FROM_BACKGROUND =? ERR_OK)
              || (CheckPermission dAccessToken PERMISSION_START_ABILIIES_FROM_BACKGROUND =? ERR_OK), want).

Definition CheckComponentAccessPermission (targetAbility : AbilityInfo) : bool := info_visible targetAbility.

Definition CheckMigrateStartCtrlPer (targetAbility : AbilityInfo) (callerInfo : CallerInfo) (isSameBundle : bool) : bool :=
  if negb isSameBundle then true else IsSameAppId (caller_callerAppId callerInfo) (info_bundleName targetAbility).

(** [CheckCollaborateStartCtrlPer] and [CheckCollabStartControlPermission] have the
    same statements. *)
Definition start_control (targetAbility : AbilityInfo) (callerInfo : CallerInfo) (want : Want) : bool * Want :=
  let '(background, want) := CheckBackgroundPermission targetAbility callerInfo want true in
  if negb background then (false, want)
  else if negb (info_visible targetAbility)
          && negb (CheckDeviceSecurityLevel (caller_sourceDeviceId callerInfo) (GetElementDeviceID want))
  then (false, want)
  else if IsSameAppId (caller_callerAppId callerInfo) (info_bundleName targetAbility) then (true, want)
  else if negb (CheckTargetAbilityVisible targetAbility callerInfo) then (false, want)
  else if negb (info_isStageBasedModel targetAbility) && bool_decide (info_type targetAbility = ABILITY_SERVICE)
          && negb (info_associatedWakeUp targetAbility)
  then (false, want)
  else (true, want).
Definition CheckCollaborateStartCtrlPer := start_control.
Definition CheckCollabStartControlPermission := start_control.

Definition CheckStartControlPermission (targetAbility : AbilityInfo) (callerInfo : CallerInfo) (want : Want)
    (isSameBundle : bool) : bool * Want :=
  if negb (Z.land (GetFlags want) FLAG_ABILITY_CONTINUATION =? 0)
  then (CheckMigrateStartCtrlPer targetAbility callerInfo isSameBundle, want)
  else CheckCollaborateStartCtrlPer targetAbility callerInfo want.

(** ** The checks *)

Definition CheckSendResultPermission (want : Want) (callerInfo : CallerInfo) (accountInfo : AccountInfo)
    (targetAbility : AbilityInfo) : Z * Want :=
  if negb (CheckAccountAccessPermission callerInfo accountInfo (info_bundleName targetAbility) false)
  then (DMS_ACCOUNT_ACCESS_PERMISSION_DENIED, want)
  else if negb (CheckComponentAccessPermission targetAbility) then (DMS_COMPONENT_ACCESS_PERMISSION_DENIED, want)
  else (ERR_OK, want).

Definition CheckStartPermission (want : Want) (callerInfo : CallerInfo) (accountInfo : AccountInfo)
    (targetAbility : AbilityInfo) (isSameBundle : bool) : Z * Want :=
  if negb (CheckAccountAccessPermission callerInfo accountInfo (info_bundleName targetAbility) false)
  then (DMS_ACCOUNT_ACCESS_PERMISSION_DENIED, want)
  else let '(ok, want) := CheckStartControlPermission targetAbility callerInfo want isSameBundle in
       (if negb ok then DMS_START_CONTROL_PERMISSION_DENIED else ERR_OK, want).

Definition CheckCollabStartPermission (want : Want) (callerInfo : CallerInfo) (accountInfo : AccountInfo)
    (targetAbility : AbilityInfo) : Z * Want :=
  if negb (CheckAccountAccessPermission callerInfo accountInfo (info_bundleName targetAbility) true)
  then (DMS_ACCOUNT_ACCESS_PERMISSION_DENIED, want)
  else let '(ok, want) := CheckCollabStartControlPermission targetAbility callerInfo want in
       (if negb ok then DMS_START_CONTROL_PERMISSION_DENIED else ERR_OK, want).

Definition CheckGetCallerPermission (want : Want) (callerInfo : CallerInfo) (accountInfo : AccountInfo)
    (targetAbility : AbilityInfo) : Z * Want :=
  if negb (CheckAccountAccessPermission callerInfo accountInfo (info_bundleName targetAbility) false)
  then (DMS_ACCOUNT_ACCESS_PERMISSION_DENIED, want)
  else if negb (IsSameAppId (caller_callerAppId callerInfo) (info_bundleName targetAbility))
  then (CALL_PERMISSION_DENIED, want)
  else
    let '(background, want) := CheckBackgroundPermission targetAbility callerInfo want false in
    if negb background then (DMS_BACKGROUND_PERMISSION_DENIED, want)
    else if negb (info_visible targetAbility)
            && negb (CheckDeviceSecurityLevel (caller_sourceDeviceId callerInfo) (GetElementDeviceID want))
    then (CALL_PERMISSION_DENIED, want)
    else (ERR_OK, want).

Definition GetTargetAbility (want : Want) (needQueryExtension : bool) : option AbilityInfo :=
  match p_QueryAbilityInfo env want with
  | Some targetAbility =>
      if negb (Want_GetIntParam want DMS_MISSION_ID DEFAULT_DMS_MISSION_ID =? DEFAULT_DMS_MISSION_ID)
         && (bool_decide (info_type targetAbility = ABILITY_SERVICE)
             || bool_decide (info_type targetAbility = ABILITY_EXTENSION))
      then None else Some targetAbility
  | None => if needQueryExtension then p_QueryExtensionAbilityInfo env want else None
  end.

(** ** The service *)

Definition check_target (isSameBundle : bool) (want : Want) (callerInfo : CallerInfo) (accountInfo : AccountInfo)
    (flag : Z) (needQueryExtension : bool) : Z * Want :=
  match GetTargetAbility want needQueryExtension with
  | None => (INVALID_PARAMETERS_ERR, want)
  | Some targetAbility =>
      if flag =? START_PERMISSION then CheckStartPermission want callerInfo accountInfo targetAbility isSameBundle
      else if flag =? CALL_PERMISSION then CheckGetCallerPermission want callerInfo accountInfo targetAbility
      else if flag =? SEND_RESULT_PERMISSION then CheckSendResultPermission want callerInfo accountInfo targetAbility
      else (DMS_PERMISSION_DENIED, want)
  end.
Definition CheckTargetPermission := check_target true.
Definition CheckTargetPermission4DiffBundle := check_target false.

Definition Service_CheckCollabStartPermission (want : Want) (callerInfo : CallerInfo) (accountInfo : AccountInfo)
    (needQueryExtension : bool) : Z * Want :=
  match GetTargetAbility want needQueryExtension with
  | None => (INVALID_PARAMETERS_ERR, want)
  | Some targetAbility => CheckCollabStartPermission want callerInfo accountInfo targetAbility
  end.

(** ** Files of a want *)

Definition IsDistributedFile (path : string) : bool := String.prefix DISTRIBUTED_FILES_PATH path.

(** The loop over the URIs; [None]: no active account, the want is left alone. *)
Fixpoint mark_uris (accessToken : Z) (uris marked : list string) : option (list string) :=
  match uris with
  | [] => Some marked
  | str :: uris =>
      if negb (IsDistributedFile (p_UriPath env str)) then mark_uris accessToken uris marked
      else match active_account with
           | None => None
           | Some activeAccountId =>
               match p_GetBundleInfo env (p_UriAuthority env str) activeAccountId with
               | None => mark_uris accessToken uris marked
               | Some tokenId =>
                   mark_uris accessToken uris (if tokenId =? accessToken then marked ++ [str] else marked)
               end
           end
  end.

Definition MarkUriPermission (want : Want) (accessToken : Z) : Want :=
  if Z.land (GetFlags want) (Z.lor FLAG_AUTH_READ_URI_PERMISSION FLAG_AUTH_WRITE_URI_PERMISSION) =? 0 then want
  else if negb (p_HasBundleManager env) then want
  else match mark_uris accessToken (Want_GetStringArrayParam want PARAMS_STREAM ++ [Want_GetUri want]) [] with
       | None => want
       | Some uriVecPermission => Want_SetStringArrayParam want PARAMS_URI uriVecPermission
       end.
End Permission.
