(* ===== verification/PermissionProps.v ===== *)
(** What the permission checks decide, and what they decide for a collaboration
    that a peer has started.

    The checks are compared with predicates on the caller, the account and the
    target. [collab_start_authorised] composes them with the collaboration: its
    environment asks the permission service. *)

From S2P Require Import Prelude SchedErrors SchedUtils Json ContinueInfo ContinueSession ContinueCmd ContinueDemo ContinueCmdProps CollabCmd CollabSession CollabOps CollabStates CollabSpec CollabProps Permission.
#[local] Open Scope string_scope.
#[local] Open Scope list_scope.
#[local] Open Scope Z_scope.

Section Spec.
Context {W : WantApi} {PW : PermWantApi}.
Variable env : PEnv.

(** ** What is required *)

Definition same_app (caller : CallerInfo) (bundle : string) : Prop :=
  bundle <> "" /\ caller_callerAppId caller <> "" /\
  p_GetAppIdByBundleName env bundle = Some (caller_callerAppId caller).

(** The two devices belong to one account, or to one group, or the access control
    list lets the caller pass; a collaboration between accounts needs one application. *)
Definition account_access (caller : CallerInfo) (account : AccountInfo) (bundle : string) (isNewCollab : bool) : Prop :=
  exists local, p_GetLocalDeviceId env = Some local /\
    let src := access_caller account caller bundle in
    let dst := mkDmAccessCallee local "" in
    let trusted := p_CheckAccessToGroup env (p_GetUdidByNetworkId env (caller_sourceDeviceId caller)) bundle = true \/
                   p_CheckAccessControl env src dst = true in
    if DMSFWK_SAME_ACCOUNT env
    then p_CheckIsSameAccount env src dst = true \/ ((isNewCollab = true -> same_app caller bundle) /\ trusted)
    else trusted.

(** The local token of the caller has a permission. *)
Definition caller_has (caller : CallerInfo) (permission : string) : Prop :=
  let token := p_AllocLocalTokenID env (caller_sourceDeviceId caller) (caller_accessToken caller) in
  token <> 0 /\ p_VerifyAccessToken env token permission <> p_PERMISSION_DENIED env.

(** A caller that tells its version and says that it is in the background. *)
Definition background_allowed (target : AbilityInfo) (caller : CallerInfo) (want : Want) (needCheckApiVersion : bool) : Prop :=
  low_version (caller_extraInfoJson caller) = true \/
  GetBoolParam want DMS_IS_CALLER_BACKGROUND true = false \/
  (needCheckApiVersion = true /\ info_isStageBasedModel target = false /\ info_type target = ABILITY_SERVICE /\
   Want_GetIntParam (RemoveParam want DMS_IS_CALLER_BACKGROUND) DMS_API_VERSION DEFAULT_DMS_API_VERSION
     <= FA_MODULE_ALLOW_MIN_API_VERSION) \/
  caller_has caller PERMISSION_START_ABILITIES_FROM_BACKGROUND \/
  caller_has caller PERMISSION_START_ABILIIES_FROM_BACKGROUND.

(** The source is known and at least as secure as the sink. *)
Definition secure_enough (src dst : string) : Prop :=
  let srcUdid := p_GetUdidByNetworkId env src in
  let dstUdid := p_GetUdidByNetworkId env dst in
  srcUdid <> "" /\ dstUdid <> "" /\ GetDeviceSecurityLevel env srcUdid <> DEFAULT_DEVICE_SECURITY_LEVEL /\
  GetDeviceSecurityLevel env dstUdid <= GetDeviceSecurityLevel env srcUdid.

(** A target that is not visible needs a secure source; a target of another
    application must be reachable and, for a service of the FA model, wakeable. *)
Definition reachable (target : AbilityInfo) (caller : CallerInfo) (device : string) : Prop :=
  (info_visible target = false -> secure_enough (caller_sourceDeviceId caller) device) /\
  (same_app caller (info_bundleName target) \/
   ((info_visible target = true \/ caller_has caller PERMISSION_START_INVISIBLE_ABILITY) /\
    (info_isStageBasedModel target = false -> info_type target = ABILITY_SERVICE -> info_associatedWakeUp target = true))).

(** The want the checks leave behind. *)
Definition asked_want (target : AbilityInfo) (caller : CallerInfo) (want : Want) : Want :=
  (CheckBackgroundPermission env target caller want true).2.

Definition collab_allowed (want : Want) (caller : CallerInfo) (account : AccountInfo) (target : AbilityInfo) : Prop :=
  account_access caller account (info_bundleName target) true /\
  background_allowed target caller want true /\
  reachable target caller (GetElementDeviceID (asked_want target caller want)).

Definition start_allowed (want : Want) (caller : CallerInfo) (account : AccountInfo) (target : AbilityInfo)
    (isSameBundle : bool) : Prop :=
  account_access caller account (info_bundleName target) false /\
  if Z.land (GetFlags want) FLAG_ABILITY_CONTINUATION =? 0
  then background_allowed target caller want true /\
       reachable target caller (GetElementDeviceID (asked_want target caller want))
  else isSameBundle = true -> same_app caller (info_bundleName target).

(** ** The checks against the requirements *)

Lemma reflect_iff' (b : bool) (P : Prop) : (b = true <-> P) -> reflect P b.
Proof. intros H. destruct b; constructor; rewrite <- H; done. Qed.

Lemma exists_some {A} (x : A) (P : A -> Prop) : (exists y, Some x = Some y /\ P y) <-> P x.
Proof. split; [intros (y & [= ->] & H); exact H | intros H; exists x; done]. Qed.

Lemma IsSameAppId_spec caller bundle : reflect (same_app caller bundle) (IsSameAppId env (caller_callerAppId caller) bundle).
Proof.
  apply reflect_iff'. unfold IsSameAppId, same_app.
  destruct (String.eqb_spec bundle "") as [->|Hb]; [split; [done|]; intros [? _]; congruence|].
  destruct (String.eqb_spec (caller_callerAppId caller) "") as [->|Hc]; [split; [done|]; intros (_ & ? & _); congruence|].
  simpl. destruct (p_GetAppIdByBundleName env bundle) as [a|]; [|by split; [|intros (_ & _ & ?)]].
  rewrite String.eqb_eq. split; [intros <-; done | intros (_ & _ & E); by injection E].
Qed.

Lemma CheckAccountAccess_spec caller account bundle isNewCollab :
  reflect (account_access caller account bundle isNewCollab) (CheckAccountAccessPermission env caller account bundle isNewCollab).
Proof.
  apply reflect_iff'. unfold CheckAccountAccessPermission, account_access.
  destruct (p_GetLocalDeviceId env) as [local|]; [|by split; [|intros (? & ? & _)]]. rewrite exists_some. cbn zeta.
  destruct (p_CheckAccessToGroup env _ _), (p_CheckAccessControl env _ _), (DMSFWK_SAME_ACCOUNT env);
    try (intuition congruence);
    destruct (p_CheckIsSameAccount env _ _); try (intuition congruence);
    destruct (IsSameAppId_spec caller bundle), isNewCollab; simpl; intuition congruence.
Qed.

Lemma CheckPermission_ok token permission :
  (CheckPermission env token permission =? ERR_OK) = negb (p_VerifyAccessToken env token permission =? p_PERMISSION_DENIED env).
Proof. unfold CheckPermission, VerifyPermission. by destruct (p_VerifyAccessToken env token permission =? _). Qed.

Lemma CheckDeviceSecurityLevel_spec src dst : reflect (secure_enough src dst) (CheckDeviceSecurityLevel env src dst).
Proof.
  apply reflect_iff'. unfold CheckDeviceSecurityLevel, secure_enough.
  destruct (String.eqb_spec (p_GetUdidByNetworkId env src) ""); [intuition congruence|].
  destruct (String.eqb_spec (p_GetUdidByNetworkId env dst) ""); [intuition congruence|].
  rewrite negb_true_iff, orb_false_iff, Z.eqb_neq, Z.ltb_ge. tauto.
Qed.

Lemma caller_has_spec caller permission :
  let token := p_AllocLocalTokenID env (caller_sourceDeviceId caller) (caller_accessToken caller) in
  reflect (caller_has caller permission) (negb (token =? 0) && (CheckPermission env token permission =? ERR_OK)).
Proof.
  intros token. apply reflect_iff'. rewrite CheckPermission_ok, andb_true_iff, !negb_true_iff, !Z.eqb_neq. done.
Qed.

Lemma CheckTargetAbilityVisible_spec target caller :
  reflect (info_visible target = true \/ caller_has caller PERMISSION_START_INVISIBLE_ABILITY)
    (CheckTargetAbilityVisible env target caller).
Proof.
  unfold CheckTargetAbilityVisible. destruct (info_visible target); [constructor; tauto|].
  pose proof (caller_has_spec caller PERMISSION_START_INVISIBLE_ABILITY) as H. cbn zeta in *.
  change (CheckPermissionAll env) with (CheckPermission env).
  destruct (p_AllocLocalTokenID env _ _ =? 0); inversion H as [? E|? E]; simpl in E;
    [constructor; intuition congruence | constructor; tauto | constructor; intuition congruence].
Qed.

Lemma CheckMinApiVersion_spec target apiVersion :
  CheckMinApiVersion target apiVersion = true <->
  info_isStageBasedModel target = false /\ info_type target = ABILITY_SERVICE /\ apiVersion <= FA_MODULE_ALLOW_MIN_API_VERSION.
Proof. unfold CheckMinApiVersion. rewrite !andb_true_iff, negb_true_iff, bool_decide_eq_true, Z.leb_le. tauto. Qed.

Lemma CheckBackground_spec target caller want b :
  reflect (background_allowed target caller want b) (CheckBackgroundPermission env target caller want b).1.
Proof.
  apply reflect_iff'. unfold CheckBackgroundPermission, background_allowed.
  destruct (low_version _); [tauto|].
  destruct (GetBoolParam want _ true); cbn [negb fst]; [|tauto].
  rewrite <- CheckMinApiVersion_spec.
  destruct (CheckMinApiVersion target _), b; cbn [andb fst]; try tauto.
  all: pose proof (caller_has_spec caller PERMISSION_START_ABILITIES_FROM_BACKGROUND) as H1;
    pose proof (caller_has_spec caller PERMISSION_START_ABILIIES_FROM_BACKGROUND) as H2; cbn zeta in *;
    destruct (p_AllocLocalTokenID env _ _ =? 0); cbn [negb andb fst] in *;
    destruct H1, H2; simpl; intuition congruence.
Qed.

Lemma start_control_spec target caller want :
  reflect (background_allowed target caller want true /\
           reachable target caller (GetElementDeviceID (asked_want target caller want)))
    (start_control env target caller want).1.
Proof.
  apply reflect_iff'. unfold start_control, asked_want, reachable.
  pose proof (CheckBackground_spec target caller want true) as HB.
  destruct (CheckBackgroundPermission env target caller want true) as [b want']. cbn [fst snd] in *.
  destruct HB; cbn [negb]; [|cbn [fst]; intuition congruence].
  destruct (CheckDeviceSecurityLevel_spec (caller_sourceDeviceId caller) (GetElementDeviceID want')),
    (IsSameAppId_spec caller (info_bundleName target)), (CheckTargetAbilityVisible_spec target caller),
    (info_visible target), (info_isStageBasedModel target), (info_associatedWakeUp target);
    cbn [negb andb fst]; try (intuition congruence);
    case_bool_decide; cbn [negb andb fst]; intuition congruence.
Qed.

Lemma start_control_want target caller want : (start_control env target caller want).2 = asked_want target caller want.
Proof.
  unfold start_control, asked_want. destruct (CheckBackgroundPermission env target caller want true) as [[] want']; [|done].
  cbn [negb]. by repeat case_match.
Qed.

Lemma collab_start_decision want caller account target :
  (CheckCollabStartPermission env want caller account target).1 = ERR_OK <-> collab_allowed want caller account target.
Proof.
  unfold CheckCollabStartPermission, CheckCollabStartControlPermission, collab_allowed.
  destruct (CheckAccountAccess_spec caller account (info_bundleName target) true); cbn [negb]; [|split; [done|tauto]].
  pose proof (start_control_spec target caller want) as H. destruct (start_control env target caller want) as [b w].
  cbn [fst snd] in *. destruct H; cbn [negb]; intuition done.
Qed.

(** C9: the check of a start grants it exactly when the devices trust each
    other and, for a migration, the application is the same, or, for any other start,
    the caller may act from the background and the target is reachable; a refusal has
    the code of the part that failed. *)
Theorem start_permission_decision want caller account target isSameBundle :
  let r := (CheckStartPermission env want caller account target isSameBundle).1 in
  (r = ERR_OK <-> start_allowed want caller account target isSameBundle) /\
  (r = DMS_ACCOUNT_ACCESS_PERMISSION_DENIED <-> ~ account_access caller account (info_bundleName target) false) /\
  r ∈ [ERR_OK; DMS_ACCOUNT_ACCESS_PERMISSION_DENIED; DMS_START_CONTROL_PERMISSION_DENIED].
Proof.
  cbn zeta. rewrite !elem_of_cons, elem_of_nil.
  unfold CheckStartPermission, CheckStartControlPermission, CheckCollaborateStartCtrlPer, CheckMigrateStartCtrlPer, start_allowed.
  destruct (CheckAccountAccess_spec caller account (info_bundleName target) false); cbn [negb fst]; [|intuition done].
  destruct (Z.land (GetFlags want) FLAG_ABILITY_CONTINUATION =? 0); cbn [negb].
  - pose proof (start_control_spec target caller want) as H. destruct (start_control env target caller want) as [b w].
    cbn [fst snd] in *. destruct H; cbn [negb]; intuition done.
  - destruct isSameBundle; cbn [negb fst]; [|intuition done].
    destruct (IsSameAppId_spec caller (info_bundleName target)); cbn [negb fst]; intuition done.
Qed.

(** ** Callers that arrive by the wire *)

Lemma unmarshal_extra_lost {CJ : CJson} text c c' :
  caller_extraInfoJson c = JNull -> UnmarshalCallerInfoExtra text c = Some c' -> caller_extraInfoJson c' = JNull.
Proof.
  intros Hc. unfold UnmarshalCallerInfoExtra. intros E.
  repeat match type of E with
  | (?x ≫= _) = Some _ => let y := fresh in destruct x as [y|]; cbn [mbind option_bind] in E; [|done]
  end.
  injection E as <-. cbn [caller_extraInfoJson].
  repeat match goal with |- context [match ?x with Some _ => _ | None => _ end] => destruct x as [[]|] eqn:?; simpl; try done end.
Qed.

Lemma unmarshalled_low_version {CJ : CJson} text c :
  UnmarshalCallerInfo text = Some c -> low_version (caller_extraInfoJson c) = true.
Proof.
  unfold UnmarshalCallerInfo. intros E.
  repeat match type of E with
  | (?x ≫= _) = Some _ => let y := fresh in destruct x as [y|]; cbn [mbind option_bind] in E; [|done]
  end.
  apply unmarshal_extra_lost in E; [|done]. by rewrite E.
Qed.

Lemma wire_background {CJ : CJson} text caller target want b :
  UnmarshalCallerInfo text = Some caller -> CheckBackgroundPermission env target caller want b = (true, want).
Proof. intros E. unfold CheckBackgroundPermission. by rewrite (unmarshalled_low_version _ _ E). Qed.

(** For a caller that was read from a command of a peer, whatever its
    text, the start of a collaboration is granted without asking whether the caller
    may act from the background: only the accounts and the reach of the target
    decide, and the want stays as it is. *)
Theorem peer_background_unchecked {CJ : CJson} text caller account target want :
  UnmarshalCallerInfo text = Some caller ->
  let r := CheckCollabStartPermission env want caller account target in
  (r.1 = ERR_OK <-> account_access caller account (info_bundleName target) true /\
                    reachable target caller (GetElementDeviceID want)) /\ r.2 = want.
Proof.
  intros E. cbn zeta. split.
  - rewrite collab_start_decision. unfold collab_allowed, background_allowed, asked_want.
    rewrite (wire_background _ _ target want true E), (unmarshalled_low_version _ _ E). cbn [snd]. tauto.
  - unfold CheckCollabStartPermission. destruct (negb _); [done|].
    pose proof (start_control_want target caller want) as Hw. unfold asked_want in Hw.
    rewrite (wire_background _ _ target want true E) in Hw. unfold CheckCollabStartControlPermission.
    by destruct (start_control env target caller want).
Qed.

(** ** Files *)

Lemma mark_uris_spec token uris marked l :
  mark_uris env token uris marked = Some l ->
  exists added, l = marked ++ added /\ sublist added uris /\
    forall u, u ∈ added -> IsDistributedFile (p_UriPath env u) = true /\
      exists account, active_account env = Some account /\ p_GetBundleInfo env (p_UriAuthority env u) account = Some token.
Proof.
  revert marked. induction uris as [|u uris IH]; intros marked; simpl.
  { intros [= <-]. exists []. rewrite app_nil_r. split; [done|]. split; [constructor|]. intros u Hu. inversion Hu. }
  assert (forall m, mark_uris env token uris m = Some l -> m = marked -> exists added, l = marked ++ added /\ sublist added (u :: uris) /\
    forall u, u ∈ added -> IsDistributedFile (p_UriPath env u) = true /\
      exists account, active_account env = Some account /\ p_GetBundleInfo env (p_UriAuthority env u) account = Some token) as Hskip.
  { intros m E ->. destruct (IH _ E) as (added & -> & Hs & Ha). exists added. split; [done|]. split; [by constructor|done]. }
  destruct (IsDistributedFile (p_UriPath env u)) eqn:D; cbn [negb]; [|by eauto].
  destruct (active_account env) as [account|] eqn:A; [|done].
  destruct (p_GetBundleInfo env (p_UriAuthority env u) account) as [t|] eqn:B; [|by eauto].
  destruct (Z.eqb_spec t token) as [->|]; [|by eauto].
  intros E. destruct (IH _ E) as (added & -> & Hs & Ha). exists (u :: added). rewrite <- app_assoc.
  split; [done|]. split; [by constructor|]. intros v Hv. rewrite elem_of_cons in Hv.
  destruct Hv as [->|Hv]; [|by auto]. eauto.
Qed.

(** Marking the files of a want changes nothing or records, in their
    order, files among its streams and its own URI; every recorded file is a
    distributed one and belongs to the bundle with the token of the caller. *)
Theorem marked_uris_owned want token :
  MarkUriPermission env want token = want \/
  exists marked, MarkUriPermission env want token = Want_SetStringArrayParam want PARAMS_URI marked /\
    sublist marked (Want_GetStringArrayParam want PARAMS_STREAM ++ [Want_GetUri want]) /\
    forall u, u ∈ marked -> IsDistributedFile (p_UriPath env u) = true /\
      exists account, active_account env = Some account /\ p_GetBundleInfo env (p_UriAuthority env u) account = Some token.
Proof.
  unfold MarkUriPermission. destruct (_ =? 0); [by left|]. destruct (negb _); [by left|].
  destruct (mark_uris env token _ []) as [l|] eqn:E; [|by left]. right.
  apply mark_uris_spec in E as (added & -> & Hs & Ha). by exists added.
Qed.
End Spec.

(** ** The start of a collaboration *)

Section Collab.
Context {W : WantApi} {CW : CollabWantApi} {PW : PermWantApi} {CJ : CJson} {PA : ParcelApi} {PP : Parcelable WantParams}.
Variable penv : PEnv.
Variable env : CEnv.

(** The session passes [START_PERMISSION] where the service expects
    [needQueryExtension]. *)
Definition query_extension : bool := negb (START_PERMISSION =? 0).

Definition asks_permissions : Prop := forall h want caller account,
  k_CheckCollabStartPermission env h want caller account
  = (Service_CheckCollabStartPermission penv want caller account query_extension).1.

Definition authorised (want : Want) (caller : CallerInfo) (account : AccountInfo) : Prop :=
  exists target, GetTargetAbility penv want query_extension = Some target /\
    collab_allowed penv want caller account target.

Lemma Service_decision want caller account :
  (Service_CheckCollabStartPermission penv want caller account query_extension).1 = ERR_OK <->
  authorised want caller account.
Proof.
  unfold Service_CheckCollabStartPermission, authorised.
  destruct (GetTargetAbility penv want query_extension) as [target|]; [|split; [done | by intros (? & ? & _)]].
  rewrite collab_start_decision, exists_some. tauto.
Qed.

Lemma GenerateCollabWant_self s : self (snd (GenerateCollabWant env s)) = self s.
Proof. reflexivity. Qed.

Lemma logged_old P s s' c : logged P s s' -> P c = false -> In c (kcalls_ s') -> In c (kcalls_ s).
Proof.
  intros (l & -> & H) Hc. rewrite in_app_iff. intros [Hi|Hi]; [done|].
  rewrite forallb_forall in H. rewrite (H _ Hi) in Hc. done.
Qed.

Lemma ExeStartAbility_start s want :
  In (KStartAbilityByCall want) (kcalls_ (snd (ExeStartAbility env s))) ->
  In (KStartAbilityByCall want) (kcalls_ s) \/
  exists h, k_CheckCollabStartPermission env h want (callerInfo_ (collabInfo_ (self s))) (srcAccountInfo_ (collabInfo_ (self s))) = ERR_OK.
Proof.
  unfold ExeStartAbility. rewrite kbind_run.
  pose proof (GenerateCollabWant_self s) as Hself.
  destruct (quiet_GenerateCollabWant env s) as [_ Hl].
  assert (In (KStartAbilityByCall want) (kcalls_ (snd (GenerateCollabWant env s))) -> In (KStartAbilityByCall want) (kcalls_ s))
    as Hold by (by apply (logged_old harmless)).
  destruct (GenerateCollabWant env s) as [w s1]. cbn [fst snd] in *. clear Hl.
  rewrite kbind_run. cbn [kinfo fst snd]. rewrite Hself. rewrite kbind_run. cbn [kask fst snd].
  destruct (Z.eqb_spec (k_CheckCollabStartPermission env (kcalls_ s1) w (callerInfo_ (collabInfo_ (self s)))
    (srcAccountInfo_ (collabInfo_ (self s)))) ERR_OK) as [Hperm|_]; cbn [negb].
  2: { cbn [mret KM_ret snd kcalls_]. rewrite in_app_iff. intros [Hi|[[=]|[]]]; auto. }
  rewrite kbind_run. cbn [kask fst snd kcalls_].
  destruct (_ =? ERR_OK); cbn [negb].
  2: { cbn [mret KM_ret snd kcalls_]. rewrite !in_app_iff. simpl. intros [[Hi|[[=]|[]]]|[[=]|[]]]; auto. }
  rewrite kbind_run. cbn [kask fst snd kcalls_]. intros Hin. 
  match type of Hin with In _ (kcalls_ (snd (?m ?st))) => assert (logged no_start st (snd (m st))) as Hlog end.
  { match goal with |- logged _ ?st (snd (?m ?st)) => enough (emits no_start m) as H by apply H end.
    emits_tac harmless_no_start cleaning_no_start. }
  apply (logged_old _ _ _ _ Hlog) in Hin; [|done]. cbn [kcalls_] in Hin. rewrite !in_app_iff in Hin. simpl in Hin.
  destruct Hin as [[[Hi|[[=]|[]]]|[[=]|[]]]|[[= ->]|[]]]; eauto.
Qed.

(** C10: a collaboration whose questions the permission service answers
    starts an ability, whatever event it processes, only for a target that exists and
    that the caller of this session may reach from the account of this session. *)
Theorem collab_start_authorised e s want :
  asks_permissions ->
  In (KStartAbilityByCall want) (kcalls_ (snd (ProcessEvent env e s))) ->
  In (KStartAbilityByCall want) (kcalls_ s) \/
  authorised want (callerInfo_ (collabInfo_ (self s))) (srcAccountInfo_ (collabInfo_ (self s))).
Proof.
  intros Hask. unfold ProcessEvent. rewrite kbind_run. cbn [kself fst snd].
  destruct (negb (collab_machine_ (self s))); [by left|]. rewrite kbind_run. intros Hin.
  assert (In (KStartAbilityByCall want) (kcalls_ (snd (Machine_Execute env e s)))) as H1.
  { destruct (negb _) in Hin; [|done]. rewrite kbind_run in Hin. eapply logged_old; [| |exact Hin]; [apply logged_post|done]. }
  clear Hin. unfold Machine_Execute in H1. rewrite kbind_run in H1. cbn [kself fst snd] in H1.
  destruct (collab_state_ (self s)) as [st|]; [|by left].
  destruct (decide (st = COLLAB_SINK_START_STATE /\ e = START_ABILITY_EVENT)) as [[-> ->]|Hne].
  - apply ExeStartAbility_start in H1 as [?|[h Hh]]; [by left|right]. rewrite Hask in Hh. by apply Service_decision.
  - left. eapply logged_old; [| |exact H1]; [apply emits_no_start_Execute; intros [= -> ->]; tauto | done].
Qed.
End Collab.

(** ** A concrete permission service *)

#[global] Instance DemoPermWant : PermWantApi := {
  Want_GetIntParam w k d := assoc k (w_ints w) d;
  Want_GetStringArrayParam w k := [GetStringParam w k];
  Want_GetUri w := GetStringParam w "uri";
  Want_SetStringArrayParam w k l := SetParamString w k (String.concat "," l);
  FLAG_AUTH_READ_URI_PERMISSION := 1;
  FLAG_AUTH_WRITE_URI_PERMISSION := 2;
}.

(** Accounts differ, the devices are in one group; every bundle has the application
    identity ["app"]; its abilities are visible. *)
Definition demo_target : AbilityInfo := mkAbilityInfo "app" ABILITY_OTHER true true false.
Definition demo_penv : PEnv := {|
  DMSFWK_SAME_ACCOUNT := true;
  p_OS_ACCOUNT_PART := true;
  p_GetUdidByNetworkId := fun d => "udid" +:+ d;
  p_GetLocalDeviceId := Some "B";
  p_CheckIsSameAccount := fun _ _ => false;
  p_CheckAccessControl := fun _ _ => false;
  p_CheckAccessToGroup := fun _ _ => true;
  p_GetRelatedGroups := fun _ _ => None;
  p_GetAppIdByBundleName := fun _ => Some "app";
  p_QueryAbilityInfo := fun _ => Some demo_target;
  p_QueryExtensionAbilityInfo := fun _ => None;
  p_QueryActiveOsAccountIds := (0, [100]);
  p_GetOhosAccountInfo := (0, "account");
  p_GetCallingTokenID := 1;
  p_GetNativeTokenInfo := fun _ => (0, "foundation");
  p_GetApplicationInfo := fun _ _ => Some 2;
  p_AllocLocalTokenID := fun _ _ => 0;
  p_VerifyAccessToken := fun _ _ => -1;
  p_PERMISSION_DENIED := -1;
  p_DEVICE_ID_MAX_LEN := 64;
  p_DeviceSecurityLevel := fun _ => Some 3;
  p_HasBundleManager := true;
  p_GetBundleInfo := fun _ _ => Some 30;
  p_UriPath := fun u => u;
  p_UriAuthority := fun _ => "app";
  p_json_parse := fun _ => None;
  FIELD_GROUP_NAME := "groupName";
  FIELD_GROUP_ID := "groupId";
  FIELD_GROUP_OWNER := "groupOwner";
  FIELD_GROUP_TYPE := "groupType";
  FIELD_GROUP_VISIBILITY := "groupVisibility";
  IDENTICAL_ACCOUNT_GROUP := 1;
  PEER_TO_PEER_GROUP := 256;
  P_ERR_NULL_OBJECT := 7;
|}.

Definition demo_asking : CEnv := {|
  OS_ACCOUNT_PART := OS_ACCOUNT_PART demo_cenv;
  k_EventRunner_Create := k_EventRunner_Create demo_cenv;
  k_SendEvent := k_SendEvent demo_cenv;
  k_ConnectDevice := k_ConnectDevice demo_cenv;
  k_SendData := k_SendData demo_cenv;
  k_GetLocalBundleInfoV9 := k_GetLocalBundleInfoV9 demo_cenv;
  k_GetCallerAppIdFromBms := k_GetCallerAppIdFromBms demo_cenv;
  k_GetBundleNameListFromBms := k_GetBundleNameListFromBms demo_cenv;
  k_GetAccountInfo := k_GetAccountInfo demo_cenv;
  k_CheckCollabStartPermission := fun _ want caller account =>
    (Service_CheckCollabStartPermission demo_penv want caller account query_extension).1;
  k_AbilityManagerConnect := k_AbilityManagerConnect demo_cenv;
  k_StartAbilityByCall := k_StartAbilityByCall demo_cenv;
  k_GetSecure := k_GetSecure demo_cenv;
  k_IsLocked := k_IsLocked demo_cenv;
  k_GetUdidByNetworkId := k_GetUdidByNetworkId demo_cenv;
  k_QueryActiveOsAccountIds := k_QueryActiveOsAccountIds demo_cenv;
  k_WriteInterfaceToken := k_WriteInterfaceToken demo_cenv;
  k_WriteInt32 := k_WriteInt32 demo_cenv;
  k_WriteString := k_WriteString demo_cenv;
  k_SendRequest := k_SendRequest demo_cenv;
  k_GetAppManager := k_GetAppManager demo_cenv;
  k_RegisterObserver := k_RegisterObserver demo_cenv;
  k_UnregisterObserver := k_UnregisterObserver demo_cenv;
  K_ERR_FLATTEN_OBJECT := K_ERR_FLATTEN_OBJECT demo_cenv;
  K_ERR_NULL_OBJECT := K_ERR_NULL_OBJECT demo_cenv;
|}.

(** A visible target of the same application is started without any permission of
    the caller; sent with its version, the same caller in the background is refused. *)
Example demo_background :
  (CheckCollabStartPermission demo_penv demo_want (wire_caller demo_caller) AccountInfo_default demo_target).1 = ERR_OK /\
  (CheckCollabStartPermission demo_penv demo_want demo_caller AccountInfo_default demo_target).1
    = DMS_START_CONTROL_PERMISSION_DENIED.
Proof. by vm_compute. Qed.

Lemma peer_background_unchecked_witness :
  exists text, UnmarshalCallerInfo text = Some (wire_caller demo_caller) /\
    (CheckCollabStartPermission demo_penv demo_want (wire_caller demo_caller) AccountInfo_default demo_target).2 = demo_want.
Proof.
  exists (default "" (MarshalCallerInfo demo_caller)).
  assert (UnmarshalCallerInfo (default "" (MarshalCallerInfo demo_caller)) = Some (wire_caller demo_caller)) as E
    by (vm_compute; reflexivity).
  split; [exact E|].
  exact (proj2 (peer_background_unchecked demo_penv _ _ AccountInfo_default demo_target demo_want E)).
Defined.

(** A sink whose caller came with a command of the peer. *)
Definition demo_sink : KState :=
  snd (kupdate (set_collab_info (set_caller (wire_caller demo_caller) AccountInfo_default))
         (demo_kstate COLLAB_SINK COLLAB_SINK_START_STATE [])).

Lemma collab_start_authorised_witness :
  let want := (GenerateCollabWant demo_asking demo_sink).1 in
  In (KStartAbilityByCall want) (kcalls_ demo_sink) \/
  authorised demo_penv want (wire_caller demo_caller) AccountInfo_default.
Proof.
  intros want. refine (collab_start_authorised demo_penv demo_asking START_ABILITY_EVENT demo_sink want _ _).
  - intros h w c a. reflexivity.
  - vm_compute. tauto.
Defined.
