(* ===== verification/AbilityConnection.v ===== *)
(** Connections between the abilities of two devices, on the side of the application:
    services/dtbcollabmgr/src/ability_connection_manager/ability_connection_manager.cpp
    and ability_connection_session.cpp.

    The sessions, the tables of sessions that connect and the channel manager of the
    process (ChannelManager) are one state. The service of the device, which the class
    [DistributedClient] calls, the hashes behind names and tokens, the engines of
    streams and the objects of the application are parameters or recorded calls. A
    method is one step; the tasks of a session and detached threads wait in lists. *)

From Stdlib Require Import Ascii.
From stdpp Require Import gmap.
From S2P Require Import Prelude StdMap DataBuffer SchedErrors SchedUtils Json ContinueInfo CollabHeader CollabChannel StreamData ChannelManager MessageHeader.
#[local] Open Scope string_scope.
#[local] Open Scope list_scope.
#[local] Open Scope Z_scope.

(** ** Data *)

Definition ONLY_SUPPORT_ONE_STREAM : Z := DMS_SERVICE_ERR_OFFSET + 44.
Definition STREAM_CHANNEL_NOT_EXITS : Z := DMS_SERVICE_ERR_OFFSET + 47.
Definition CONNECT_MESSAGE_CHANNEL_FAILED : Z := DMS_SERVICE_ERR_OFFSET + 48.
Definition CONNECT_DATA_CHANNEL_FAILED : Z := DMS_SERVICE_ERR_OFFSET + 49.
Definition FAILED_TO_CREATE_MESSAGE_CHANNEL : Z := DMS_SERVICE_ERR_OFFSET + 55.
Definition FAILED_TO_CREATE_DATA_CHANNEL : Z := DMS_SERVICE_ERR_OFFSET + 56.
Definition FAILED_TO_CREATE_STREAM_CHANNEL : Z := DMS_SERVICE_ERR_OFFSET + 57.
Definition FAILED_TO_CREATE_SEND_FILE_CHANNEL : Z := DMS_SERVICE_ERR_OFFSET + 58.
Definition FAILED_TO_CREATE_RECEIVE_FILE_CHANNEL : Z := DMS_SERVICE_ERR_OFFSET + 59.
Definition CONNECT_STREAM_CHANNEL_FAILED : Z := DMS_SERVICE_ERR_OFFSET + 60.
Definition CONNECT_SEND_FILE_CHANNEL_FAILED : Z := DMS_SERVICE_ERR_OFFSET + 61.
Definition SAME_SESSION_IS_CONNECTING : Z := DMS_SERVICE_ERR_OFFSET + 62.
Definition INVALID_SESSION_ID : Z := DMS_SERVICE_ERR_OFFSET + 63.
(** What [memcpy_s] returns for an empty target. *)
Definition ERANGE : Z := 34.

Definition EVENT_CONNECT : string := "connect".
Definition EVENT_DISCONNECT : string := "disconnect".
Definition EVENT_RECEIVE_MESSAGE : string := "receiveMessage".
Definition EVENT_RECEIVE_DATA : string := "receiveData".

Inductive SessionStatus := S_UNCONNECTED | S_CONNECTING | S_CONNECTED.
#[global] Instance SessionStatus_eq_dec : EqDecision SessionStatus.
Proof. solve_decision. Defined.

(** [TransChannelType]; the order is that of the map of channels. *)
Inductive TransChannelType := T_MESSAGE | T_DATA | T_STREAM_BYTES | T_STREAM | T_SEND_FILE | T_RECEIVE_FILE.
#[global] Instance TransChannelType_eq_dec : EqDecision TransChannelType.
Proof. solve_decision. Defined.
Definition trans_number (t : TransChannelType) : Z :=
  match t with T_MESSAGE => 0 | T_DATA => 1 | T_STREAM_BYTES => 2 | T_STREAM => 3 | T_SEND_FILE => 4 | T_RECEIVE_FILE => 5 end.

Inductive Direction := DIRECTION_UNKNOWN | COLLABRATE_SOURCE | COLLABRATE_SINK.
#[global] Instance Direction_eq_dec : EqDecision Direction.
Proof. solve_decision. Defined.

Inductive MessageType :=
  | M_NORMAL | M_WIFI_OPEN | M_UPDATE_RECV_ENGINE_CHANNEL | M_UPDATE_SENDER_ENGINE_CHANNEL | M_RECEIVE_STREAM_START
  | M_STREAM_ENCODING | M_CONNECT_FILE_CHANNEL | M_FILE_CHANNEL_CONNECT_SUCCESS | M_FILE_CHANNEL_CONNECT_FAILED
  | M_SESSION_CONNECT_SUCCESS.
Definition message_number (t : MessageType) : Z :=
  match t with
  | M_NORMAL => 0 | M_WIFI_OPEN => 1 | M_UPDATE_RECV_ENGINE_CHANNEL => 2 | M_UPDATE_SENDER_ENGINE_CHANNEL => 3
  | M_RECEIVE_STREAM_START => 4 | M_STREAM_ENCODING => 5 | M_CONNECT_FILE_CHANNEL => 6
  | M_FILE_CHANNEL_CONNECT_SUCCESS => 7 | M_FILE_CHANNEL_CONNECT_FAILED => 8 | M_SESSION_CONNECT_SUCCESS => 9
  end.

Record PeerInfo := mkPeerInfo {
  pi_deviceId : string;
  pi_bundleName : string;
  pi_moduleName : string;
  pi_abilityName : string;
  pi_serverId : string;
}.
(** The text both operators compare. *)
Definition peer_text (p : PeerInfo) : string :=
  pi_deviceId p +:+ pi_bundleName p +:+ pi_moduleName p +:+ pi_abilityName p +:+ pi_serverId p.
Definition PeerInfo_eqb (p q : PeerInfo) : bool := String.eqb (peer_text p) (peer_text q).
Definition PeerInfo_ltb (p q : PeerInfo) : bool := str_lt (peer_text p) (peer_text q).

Record SessionInfo := mkSessionInfo { serverId_ : string; localInfo_ : PeerInfo; peerInfo_ : PeerInfo }.
Definition SessionInfo_ltb (a b : SessionInfo) : bool :=
  if negb (String.eqb (serverId_ a) (serverId_ b)) then str_lt (serverId_ a) (serverId_ b)
  else if PeerInfo_eqb (localInfo_ a) (localInfo_ b) then PeerInfo_ltb (peerInfo_ a) (peerInfo_ b)
  else PeerInfo_ltb (localInfo_ a) (localInfo_ b).
#[global] Instance SessionInfo_key : MapKey SessionInfo := SessionInfo_ltb.

Record ConnectOption := mkConnectOption {
  needSendData : bool;
  needSendStream : bool;
  needReceiveStream : bool;
  needSendFile : bool;
  needReceiveFile : bool;
}.
Definition HasFileTransfer (o : ConnectOption) : bool := needSendFile o || needReceiveFile o.

Record ConnectResult := mkConnectResult { isConnected : bool; cr_reason : string }.

Record TransChannelInfo := mkTransChannel {
  tc_channelId : Z;
  tc_channelType : ChannelDataType;
  tc_transType : TransChannelType;
  tc_isConnected : bool;
}.

(** The result and the callback when the task was posted. *)
Record SessionTask := mkSessionTask { st_result : ConnectResult; st_callback : option Z }.

(** An application's object is a number. [sn_threads]: the channels that a detached
    thread is about to connect. *)
Record Session := mkSession {
  sn_token : string;
  sn_localSocketName : string;
  sn_peerSocketName : string;
  sn_channelName : string;
  sn_info : SessionInfo;
  sn_option : ConnectOption;
  sn_direction : Direction;
  sn_channels : zmap TransChannelInfo;
  sn_status : SessionStatus;
  sn_callback : option Z;
  sn_handler : bool;
  sn_tasks : list SessionTask;
  sn_threads : list Z;
  sn_listeners : gmap string Z;
  sn_sender : bool;
  sn_recv : bool;
  sn_sessionListener : option Z;
}.

(** Calls of the application, of the service and of the engines. *)
Inductive ACall :=
  | AConnectCallback (callback : Z) (result : ConnectResult)
  | AEvent (listener : Z) (event : string) (session : Z) (msg : string)
  | AOnConnect (listener session : Z)
  | AOnDisConnect (listener session : Z)
  | AOnMessage (listener session : Z) (msg : string)
  | AOnData (listener session : Z) (data : DataBuffer)
  | AEventData (listener session : Z) (data : DataBuffer)
  | AOnSendFile (listener session : Z) (info : FileInfo)
  | AOnRecvFile (listener session : Z) (info : FileInfo)
  | AGetPeerVersion (session : Z) (device token : string)
  | ACollabMission (session : Z) (token : string)
  | ANotifyClose (token : string)
  | ANotifyPrepareResult (token : string) (result session : Z)
  | ANotifyReject (token reason : string)
  | AEngine (session : Z) (what : string) (channel : Z).

Record AEnv := mkAEnv {
  a_channels : MEnv;
  (** [GetServerSocketName], [GetChannelName] and [CreateDmsServerToken]. *)
  a_socketName : Z -> Z -> string -> string;
  a_channelName : string -> string;
  a_token : list ACall -> Z -> string;
  a_pid : Z;
  a_GetPeerVersion : list ACall -> Z -> Z;
  a_CollabMission : list ACall -> Z -> Z;
  a_NotifyPrepareResult : list ACall -> Z;
  a_NotifyReject : list ACall -> Z;
  a_SendPixelMap : list ACall -> Z;
  a_garbage : Message.MessageDataHeader;
}.

Record ACM := mkACM {
  sessionMap_ : gmap Z Session;
  nextSessionId_ : Z;
  nextStreamId_ : Z;
  streamMap_ : gmap Z Z;
  clientSessionMap_ : list (SessionInfo * Z);
  serverSessionMap_ : list (SessionInfo * Z);
  channels_ : CM;
  acalls_ : list ACall;
}.
Definition ACM_new : ACM := mkACM ∅ 100 1000 ∅ [] [] ChannelManager_new [].

(** ** The monad *)

Definition AM (A : Type) : Type := ACM -> ((A * ACM) + Crash)%type.
#[global] Instance AM_ret : MRet AM := fun _ a s => inl (a, s).
#[global] Instance AM_bind : MBind AM := fun _ _ f m s => match m s with inl (a, s') => f a s' | inr c => inr c end.
Definition aget : AM ACM := fun s => inl (s, s).
Definition amod (f : ACM -> ACM) : AM unit := fun s => inl (tt, f s).

Definition set_sessions (x : gmap Z Session) (s : ACM) : ACM :=
  mkACM x (nextSessionId_ s) (nextStreamId_ s) (streamMap_ s) (clientSessionMap_ s) (serverSessionMap_ s) (channels_ s) (acalls_ s).
Definition set_nextSession (x : Z) (s : ACM) : ACM :=
  mkACM (sessionMap_ s) x (nextStreamId_ s) (streamMap_ s) (clientSessionMap_ s) (serverSessionMap_ s) (channels_ s) (acalls_ s).
Definition set_streams (n : Z) (x : gmap Z Z) (s : ACM) : ACM :=
  mkACM (sessionMap_ s) (nextSessionId_ s) n x (clientSessionMap_ s) (serverSessionMap_ s) (channels_ s) (acalls_ s).
Definition set_connecting (c v : list (SessionInfo * Z)) (s : ACM) : ACM :=
  mkACM (sessionMap_ s) (nextSessionId_ s) (nextStreamId_ s) (streamMap_ s) c v (channels_ s) (acalls_ s).
Definition set_cm (x : CM) (s : ACM) : ACM :=
  mkACM (sessionMap_ s) (nextSessionId_ s) (nextStreamId_ s) (streamMap_ s) (clientSessionMap_ s) (serverSessionMap_ s) x (acalls_ s).
Definition add_call (c : ACall) (s : ACM) : ACM :=
  mkACM (sessionMap_ s) (nextSessionId_ s) (nextStreamId_ s) (streamMap_ s) (clientSessionMap_ s) (serverSessionMap_ s) (channels_ s)
    (acalls_ s ++ [c]).

Definition acall (c : ACall) : AM unit := amod (add_call c).
Definition aask {A} (c : ACall) (f : list ACall -> A) : AM A := s ← aget; _ ← acall c; mret (f (acalls_ s)).
(** A call of the channel manager of the process. *)
Definition chan {A} (p : MM A) : AM A :=
  fun s => match p (channels_ s) with inl (a, m) => inl (a, set_cm m s) | inr c => inr c end.

Definition no_peer : PeerInfo := mkPeerInfo "" "" "" "" "".
Definition Session_new (socketName : string) (info : SessionInfo) (opt : ConnectOption) : Session :=
  mkSession "" socketName "" "" info opt DIRECTION_UNKNOWN [] S_UNCONNECTED None false [] [] ∅ false false None.
Definition no_session : Session :=
  Session_new "" (mkSessionInfo "" no_peer no_peer) (mkConnectOption false false false false false).

(** The object whose method runs. *)
Definition self (id : Z) : AM Session := s ← aget; mret (default no_session (sessionMap_ s !! id)).
Definition upd (id : Z) (f : Session -> Session) : AM unit := amod (fun s => set_sessions (alter f id (sessionMap_ s)) s).

(** Setters of a session. *)
Definition with_token (x : string) (s : Session) : Session :=
  mkSession x (sn_localSocketName s) (sn_peerSocketName s) (sn_channelName s) (sn_info s) (sn_option s) (sn_direction s) (sn_channels s)
    (sn_status s) (sn_callback s) (sn_handler s) (sn_tasks s) (sn_threads s) (sn_listeners s) (sn_sender s) (sn_recv s) (sn_sessionListener s).
Definition with_peerSocket (x : string) (s : Session) : Session :=
  mkSession (sn_token s) (sn_localSocketName s) x (sn_channelName s) (sn_info s) (sn_option s) (sn_direction s) (sn_channels s)
    (sn_status s) (sn_callback s) (sn_handler s) (sn_tasks s) (sn_threads s) (sn_listeners s) (sn_sender s) (sn_recv s) (sn_sessionListener s).
Definition with_channelName (x : string) (s : Session) : Session :=
  mkSession (sn_token s) (sn_localSocketName s) (sn_peerSocketName s) x (sn_info s) (sn_option s) (sn_direction s) (sn_channels s)
    (sn_status s) (sn_callback s) (sn_handler s) (sn_tasks s) (sn_threads s) (sn_listeners s) (sn_sender s) (sn_recv s) (sn_sessionListener s).
Definition with_direction (x : Direction) (s : Session) : Session :=
  mkSession (sn_token s) (sn_localSocketName s) (sn_peerSocketName s) (sn_channelName s) (sn_info s) (sn_option s) x (sn_channels s)
    (sn_status s) (sn_callback s) (sn_handler s) (sn_tasks s) (sn_threads s) (sn_listeners s) (sn_sender s) (sn_recv s) (sn_sessionListener s).
Definition with_channels (x : zmap TransChannelInfo) (s : Session) : Session :=
  mkSession (sn_token s) (sn_localSocketName s) (sn_peerSocketName s) (sn_channelName s) (sn_info s) (sn_option s) (sn_direction s) x
    (sn_status s) (sn_callback s) (sn_handler s) (sn_tasks s) (sn_threads s) (sn_listeners s) (sn_sender s) (sn_recv s) (sn_sessionListener s).
Definition with_sn_status (x : SessionStatus) (s : Session) : Session :=
  mkSession (sn_token s) (sn_localSocketName s) (sn_peerSocketName s) (sn_channelName s) (sn_info s) (sn_option s) (sn_direction s) (sn_channels s)
    x (sn_callback s) (sn_handler s) (sn_tasks s) (sn_threads s) (sn_listeners s) (sn_sender s) (sn_recv s) (sn_sessionListener s).
Definition with_callback (x : option Z) (s : Session) : Session :=
  mkSession (sn_token s) (sn_localSocketName s) (sn_peerSocketName s) (sn_channelName s) (sn_info s) (sn_option s) (sn_direction s) (sn_channels s)
    (sn_status s) x (sn_handler s) (sn_tasks s) (sn_threads s) (sn_listeners s) (sn_sender s) (sn_recv s) (sn_sessionListener s).
Definition with_tasks (h : bool) (x : list SessionTask) (t : list Z) (s : Session) : Session :=
  mkSession (sn_token s) (sn_localSocketName s) (sn_peerSocketName s) (sn_channelName s) (sn_info s) (sn_option s) (sn_direction s) (sn_channels s)
    (sn_status s) (sn_callback s) h x t (sn_listeners s) (sn_sender s) (sn_recv s) (sn_sessionListener s).
Definition with_listeners (x : gmap string Z) (l : option Z) (s : Session) : Session :=
  mkSession (sn_token s) (sn_localSocketName s) (sn_peerSocketName s) (sn_channelName s) (sn_info s) (sn_option s) (sn_direction s) (sn_channels s)
    (sn_status s) (sn_callback s) (sn_handler s) (sn_tasks s) (sn_threads s) x (sn_sender s) (sn_recv s) l.
Definition with_engines (a b : bool) (s : Session) : Session :=
  mkSession (sn_token s) (sn_localSocketName s) (sn_peerSocketName s) (sn_channelName s) (sn_info s) (sn_option s) (sn_direction s) (sn_channels s)
    (sn_status s) (sn_callback s) (sn_handler s) (sn_tasks s) (sn_threads s) (sn_listeners s) a b (sn_sessionListener s).

Section Methods.
Context {CJ : CJson}.
Variable env : AEnv.

(** ** The tables of sessions that connect *)

Definition count_key (k : SessionInfo) (m : list (SessionInfo * Z)) : bool := match mfind k m with Some _ => true | None => false end.
(** [m\[k\] = v]. *)
Definition massign (k : SessionInfo) (v : Z) (m : list (SessionInfo * Z)) : list (SessionInfo * Z) :=
  match mfind k m with Some _ => mupdate k (fun _ => v) m | None => insert_sorted k v m end.

Definition GetAbilityConnectionSession (s : ACM) (id : Z) : option Session :=
  if id <=? 0 then None else sessionMap_ s !! id.

Definition GetSessionToken (s : ACM) (id : Z) : string :=
  match GetAbilityConnectionSession s id with Some x => sn_token x | None => "" end.

Definition UpdateClientSession (info : SessionInfo) (id : Z) : AM Z :=
  s ← aget;
  if count_key info (clientSessionMap_ s) || count_key info (serverSessionMap_ s) then mret SAME_SESSION_IS_CONNECTING
  else _ ← amod (set_connecting (massign info id (clientSessionMap_ s)) (serverSessionMap_ s)); mret ERR_OK.

Definition UpdateServerSession (info : SessionInfo) (id : Z) : AM Z :=
  s ← aget;
  if count_key info (serverSessionMap_ s) then mret SAME_SESSION_IS_CONNECTING
  else match mfind info (clientSessionMap_ s) with
       | Some client =>
           if str_lt (GetSessionToken s client) (GetSessionToken s id) then mret SAME_SESSION_IS_CONNECTING
           else _ ← amod (set_connecting (clientSessionMap_ s) (massign info id (serverSessionMap_ s))); mret ERR_OK
       | None => _ ← amod (set_connecting (clientSessionMap_ s) (massign info id (serverSessionMap_ s))); mret ERR_OK
       end.

Definition holds (info : SessionInfo) (id : Z) (m : list (SessionInfo * Z)) : bool :=
  match mfind info m with Some x => x =? id | None => false end.

Definition DeleteConnectSession (info : SessionInfo) (id : Z) : AM unit :=
  amod (fun s =>
    if holds info id (clientSessionMap_ s) then set_connecting (merase info (clientSessionMap_ s)) (serverSessionMap_ s) s
    else if holds info id (serverSessionMap_ s) then set_connecting (clientSessionMap_ s) (merase info (serverSessionMap_ s)) s
    else s).

(** ** The end of a session *)

Definition Session_DestroyStream (id : Z) : AM unit := upd id (with_engines false false).

Fixpoint delete_trans (l : list TransChannelInfo) : AM unit :=
  match l with
  | [] => mret tt
  | t :: l => _ ← chan (DeleteChannel (tc_channelId t)); delete_trans l
  end.

Definition Release (id : Z) : AM unit :=
  s ← self id;
  if decide (sn_status s = S_UNCONNECTED) then mret tt
  else
    _ ← upd id (with_sn_status S_UNCONNECTED);
    _ ← DeleteConnectSession (sn_info s) id;
    _ ← Session_DestroyStream id;
    _ ← delete_trans (map snd (sn_channels s));
    upd id (with_channels []).

(** ** Callbacks of the application *)

Definition ExeuteConnectCallback (id : Z) (result : ConnectResult) : AM unit :=
  upd id (fun s => if sn_handler s then with_tasks true (sn_tasks s ++ [mkSessionTask result (sn_callback s)]) (sn_threads s) s else s).

(** The task. *)
Definition run_connect_callback (id : Z) (t : SessionTask) : AM unit :=
  match st_callback t with
  | None => mret tt
  | Some cb =>
      _ ← acall (AConnectCallback cb (st_result t));
      if isConnected (st_result t) then mret tt else Release id
  end.

Definition ExeuteEventCallback (id : Z) (event msg : string) : AM unit :=
  s ← self id;
  match sn_listeners s !! event with
  | None => mret tt
  | Some l => acall (AEvent l event id msg)
  end.

Definition NotifyClose (id : Z) : AM unit := s ← self id; acall (ANotifyClose (sn_token s)).

Definition NotifyAppConnectResult (id : Z) (connected : bool) (reason : string) : AM unit :=
  _ ← (if connected then upd id (with_sn_status S_CONNECTED) else _ ← Release id; NotifyClose id);
  ExeuteConnectCallback id (mkConnectResult connected reason).

(** ** Messages *)

Definition GetTransChannelInfo (s : Session) (t : TransChannelType) : option TransChannelInfo := zfind (trans_number t) (sn_channels s).

(** The text with its final zero, the header, and both in one buffer. *)
Definition message_buffer (msg : string) (t : MessageType) : AM (Z + DataBuffer) :=
  let bytes := str_bytes msg in
  let sendData := AVTransDataBuffer_new (u64 (len bytes + 1)) in
  match buf_write sendData 0 (Capacity sendData) (Some bytes) 0 (len bytes) with
  | BufUB => fun _ => inr DataOverrun
  | BufErr => mret (inl ERANGE)
  | BufOk sendData =>
      let totalLen := u32 (DataBuffer.Size sendData + Message.HEADER_LEN) in
      let header := Message.mkMessageHeader PROTOCOL_VERSION (message_number t) totalLen in
      match Message.Serialize header with
      | None => fun _ => inr DataOverrun
      | Some headerBuffer =>
          let sendBuffer := AVTransDataBuffer_new totalLen in
          match buf_write sendBuffer 0 (DataBuffer.Size sendBuffer) (Data headerBuffer) (rangeOffset_ headerBuffer) Message.HEADER_LEN with
          | BufUB => fun _ => inr DataOverrun
          | BufErr => mret (inl WRITE_SESSION_HEADER_FAILED)
          | BufOk sendBuffer =>
              match buf_write sendBuffer Message.HEADER_LEN (u64 (DataBuffer.Size sendBuffer - Message.HEADER_LEN)) (Data sendData)
                      (rangeOffset_ sendData) (DataBuffer.Size sendData) with
              | BufUB => fun _ => inr DataOverrun
              | BufErr => mret (inl WRITE_SEND_DATA_BUFFER_FAILED)
              | BufOk sendBuffer => mret (inr sendBuffer)
              end
          end
      end
  end.

Definition Session_SendMessage (id : Z) (msg : string) (t : MessageType) : AM Z :=
  b ← message_buffer msg t;
  match b with
  | inl ret => mret ret
  | inr sendBuffer =>
      s ← self id;
      match GetTransChannelInfo s T_MESSAGE with
      | None => mret COLLAB_INVALID_PARAMETERS
      | Some info => chan (Manager_SendMessage (a_channels env) (tc_channelId info) (Some sendBuffer))
      end
  end.

Definition Session_SendData (id : Z) (buffer : option DataBuffer) : AM Z :=
  s ← self id;
  match GetTransChannelInfo s T_DATA with
  | None => mret COLLAB_INVALID_PARAMETERS
  | Some info => chan (Manager_SendBytes (a_channels env) (tc_channelId info) buffer)
  end.

Definition Session_SendFile (id : Z) (sFiles dFiles : list string) : AM Z :=
  s ← self id;
  match GetTransChannelInfo s T_SEND_FILE with
  | None => mret COLLAB_INVALID_PARAMETERS
  | Some info => chan (Manager_SendFile (a_channels env) (tc_channelId info) sFiles dFiles)
  end.

(** ** Channels *)

(** [emplace]: a channel of that kind that is there stays. *)
Definition zemplace (k : Z) (v : TransChannelInfo) (m : zmap TransChannelInfo) : zmap TransChannelInfo :=
  match zfind k m with Some _ => m | None => zset k v m end.

(** The listener of the channels of a session has the number of the session. *)
Definition CreateChannel (id : Z) (name : string) (t : ChannelDataType) (tt' : TransChannelType) (isClient : bool) : AM Z :=
  s ← self id;
  let peer := mkChannelPeerInfo (sn_peerSocketName s) (pi_deviceId (peerInfo_ (sn_info s))) in
  channel ← chan (if isClient then CreateClientChannel (a_channels env) name t peer else CreateServerChannel name t peer);
  if negb (isValidChannelId channel) then mret COLLAB_INVALID_PARAMETERS
  else
    ret ← chan (RegisterChannelListener (a_channels env) channel (Some id));
    if negb (ret =? ERR_OK) then mret COLLAB_INVALID_PARAMETERS
    else
      _ ← upd id (fun s => with_channels (zemplace (trans_number tt') (mkTransChannel channel t tt' false) (sn_channels s)) s);
      mret ERR_OK.

Definition CreateStreamChannel (id : Z) (name : string) (isClient : bool) : AM Z :=
  let name := name +:+ "stream" in
  ret ← CreateChannel id name BYTES_DATA T_STREAM_BYTES isClient;
  if negb (ret =? ERR_OK) then mret COLLAB_INVALID_PARAMETERS
  else
    ret ← CreateChannel id name VIDEO_STREAM T_STREAM isClient;
    mret (if negb (ret =? ERR_OK) then COLLAB_INVALID_PARAMETERS else ERR_OK).

(** The text that is hashed into the name of the channels. *)
Definition channel_text (s : Session) : string :=
  let l := localInfo_ (sn_info s) in
  let p := peerInfo_ (sn_info s) in
  if decide (sn_direction s = COLLABRATE_SOURCE)
  then pi_moduleName l +:+ pi_abilityName l +:+ pi_moduleName p +:+ pi_abilityName p
  else pi_moduleName p +:+ pi_abilityName p +:+ pi_moduleName l +:+ pi_abilityName l.

(** [if (cond && f() != ERR_OK) return err;] *)
Definition step_if (cond : bool) (p : AM Z) (err : Z) (k : AM Z) : AM Z :=
  if cond then ret ← p; if negb (ret =? ERR_OK) then mret err else k else k.

Definition InitChannels (id : Z) : AM Z :=
  s ← self id;
  let name := a_channelName env (channel_text s) in
  _ ← upd id (with_channelName name);
  let client := bool_decide (sn_direction s = COLLABRATE_SOURCE) in
  let o := sn_option s in
  step_if true (CreateChannel id name MESSAGE T_MESSAGE client) FAILED_TO_CREATE_MESSAGE_CHANNEL (
  step_if (needSendData o) (CreateChannel id name BYTES_DATA T_DATA client) FAILED_TO_CREATE_DATA_CHANNEL (
  step_if (needSendStream o || needReceiveStream o) (CreateStreamChannel id name client) FAILED_TO_CREATE_STREAM_CHANNEL (
  step_if (needSendFile o && client) (CreateChannel id name FILE T_SEND_FILE true) FAILED_TO_CREATE_SEND_FILE_CHANNEL (
  step_if (needReceiveFile o) (CreateChannel id name FILE T_RECEIVE_FILE false) FAILED_TO_CREATE_RECEIVE_FILE_CHANNEL (
  mret ERR_OK))))).

Definition UpdateTransChannelStatus (id channel : Z) (connected : bool) : AM unit :=
  upd id (fun s => with_channels
    (map (fun e => if tc_channelId e.2 =? channel
                   then (e.1, mkTransChannel (tc_channelId e.2) (tc_channelType e.2) (tc_transType e.2) connected) else e) (sn_channels s)) s).

Definition ConnectTransChannel (id : Z) (t : TransChannelType) : AM Z :=
  s ← self id;
  match GetTransChannelInfo s t with
  | None => mret STREAM_CHANNEL_NOT_EXITS
  | Some info =>
      ret ← chan (ConnectChannel (a_channels env) (tc_channelId info));
      if negb (ret =? ERR_OK) then mret ret
      else _ ← UpdateTransChannelStatus id (tc_channelId info) true; mret ERR_OK
  end.

(** The thread that connects the channel of a source runs later. *)
Definition ConnectStreamChannel (id : Z) : AM Z :=
  s ← self id;
  if negb (needSendStream (sn_option s)) && negb (needReceiveStream (sn_option s)) then mret ERR_OK
  else match GetTransChannelInfo s T_STREAM with
  | None => mret COLLAB_INVALID_PARAMETERS
  | Some info =>
      if tc_isConnected info then mret ERR_OK
      else if decide (sn_direction s <> COLLABRATE_SOURCE) then _ ← Session_SendMessage id "WIFI_OPEN" M_WIFI_OPEN; mret ERR_OK
      else _ ← upd id (fun s => with_tasks (sn_handler s) (sn_tasks s) (sn_threads s ++ [tc_channelId info]) s); mret ERR_OK
  end.

Definition UpdateRecvEngineTransChannel (id : Z) : AM unit :=
  s ← self id;
  if negb (sn_recv s) then mret tt
  else match GetTransChannelInfo s T_STREAM with
  | None => mret tt
  | Some info =>
      _ ← acall (AEngine id "SetChannelListener" (tc_channelId info));
      _ ← Session_SendMessage id "updateSenderEngineTransChannel" M_UPDATE_SENDER_ENGINE_CHANNEL; mret tt
  end.

Definition UpdateSenderEngineTransChannel (id : Z) : AM unit :=
  s ← self id;
  if negb (sn_sender s) then mret tt
  else match GetTransChannelInfo s T_STREAM with
  | None => mret tt
  | Some info => acall (AEngine id "SetTransChannel" (tc_channelId info))
  end.

Definition DoConnectStreamChannel (id channel : Z) : AM Z :=
  ret ← chan (ConnectChannel (a_channels env) channel);
  if negb (ret =? ERR_OK) then mret ret
  else
    _ ← UpdateTransChannelStatus id channel true;
    s ← self id;
    if negb (sn_recv s) then
      _ ← Session_SendMessage id "updateRecvEngineTransChannel" M_UPDATE_RECV_ENGINE_CHANNEL; mret ERR_OK
    else _ ← UpdateRecvEngineTransChannel id; mret ERR_OK.

Definition ConnectChannels (id : Z) : AM Z :=
  s ← self id;
  let o := sn_option s in
  step_if true (ConnectTransChannel id T_MESSAGE) CONNECT_MESSAGE_CHANNEL_FAILED (
  step_if (needSendData o) (ConnectTransChannel id T_DATA) CONNECT_DATA_CHANNEL_FAILED (
  step_if (needSendStream o || needReceiveStream o)
    (ret ← ConnectTransChannel id T_STREAM_BYTES;
     if negb (ret =? ERR_OK) then mret ret else _ ← ConnectStreamChannel id; mret ERR_OK) CONNECT_STREAM_CHANNEL_FAILED (
  step_if (needSendFile o) (ConnectTransChannel id T_SEND_FILE) CONNECT_SEND_FILE_CHANNEL_FAILED (
  mret ERR_OK)))).

(** ** Connecting *)

Definition Session_Connect (id : Z) (callback : Z) : AM Z :=
  _ ← upd id (with_direction COLLABRATE_SOURCE);
  s0 ← aget;
  _ ← upd id (with_token (a_token env (acalls_ s0) id));
  s ← self id;
  ret ← UpdateClientSession (sn_info s) id;
  if negb (ret =? ERR_OK) then _ ← ExeuteConnectCallback id (mkConnectResult false ""); mret ret
  else
    s ← self id;
    if decide (sn_status s <> S_UNCONNECTED) then mret COLLAB_INVALID_PARAMETERS
    else
      _ ← upd id (fun s => with_callback (Some callback) (with_sn_status S_CONNECTING s));
      ret ← aask (AGetPeerVersion id (pi_deviceId (peerInfo_ (sn_info s))) (sn_token s)) (fun h => a_GetPeerVersion env h id);
      _ ← (if negb (ret =? ERR_OK) then ExeuteConnectCallback id (mkConnectResult false "") else mret tt);
      mret ret.

Definition HandlePeerVersion (id : Z) : AM Z :=
  s ← self id;
  ret ← aask (ACollabMission id (sn_token s)) (fun h => a_CollabMission env h id);
  _ ← (if negb (ret =? ERR_OK) then ExeuteConnectCallback id (mkConnectResult false "") else mret tt);
  mret ret.

Definition NotifyPeerSessionConnected (id : Z) : AM unit :=
  s ← self id;
  if negb (HasFileTransfer (sn_option s)) then mret tt
  else _ ← Session_SendMessage id "SESSION_CONNECT_SUCCESS" M_SESSION_CONNECT_SUCCESS; mret tt.

Definition RequestReceiveFileChannelConnection (id : Z) : AM Z :=
  s ← self id;
  ret ← Session_SendMessage id (sn_localSocketName s) M_CONNECT_FILE_CHANNEL;
  _ ← (if negb (ret =? ERR_OK) then NotifyAppConnectResult id false "" else mret tt);
  mret ret.

Definition HandleCollabResult (id result : Z) (peerSocketName token reason : string) : AM Z :=
  _ ← upd id (fun s => with_peerSocket peerSocketName (with_token token s));
  if negb (result =? ERR_OK) then _ ← NotifyAppConnectResult id false reason; mret COLLAB_INVALID_PARAMETERS
  else
    ret ← (ret ← InitChannels id; if negb (ret =? ERR_OK) then mret ret else ConnectChannels id);
    if negb (ret =? ERR_OK) then _ ← NotifyAppConnectResult id false ""; mret COLLAB_INVALID_PARAMETERS
    else
      s ← self id;
      if needReceiveFile (sn_option s) then RequestReceiveFileChannelConnection id
      else
        _ ← NotifyPeerSessionConnected id;
        _ ← NotifyAppConnectResult id true "";
        mret ERR_OK.

Definition Session_AcceptConnect (id : Z) (token : string) : AM Z :=
  _ ← upd id (with_token token);
  s ← self id;
  ret ← UpdateServerSession (sn_info s) id;
  if negb (ret =? ERR_OK) then
    _ ← aask (ANotifyPrepareResult token ret id) (a_NotifyPrepareResult env); mret COLLAB_INVALID_PARAMETERS
  else
    s ← self id;
    if decide (sn_status s <> S_UNCONNECTED) then mret COLLAB_INVALID_PARAMETERS
    else
      _ ← upd id (fun s => with_direction COLLABRATE_SINK (with_sn_status S_CONNECTING s));
      ret ← InitChannels id;
      if negb (ret =? ERR_OK) then
        _ ← aask (ANotifyPrepareResult token ret id) (a_NotifyPrepareResult env);
        _ ← Release id; mret ret
      else
        ret ← aask (ANotifyPrepareResult token ERR_OK id) (a_NotifyPrepareResult env);
        _ ← (if negb (ret =? ERR_OK) then Release id else mret tt);
        mret ERR_OK.

Definition Session_Disconnect (id : Z) : AM Z := _ ← Release id; _ ← NotifyClose id; mret ERR_OK.

Definition HandleDisconnect (id : Z) : AM Z :=
  s ← self id;
  if decide (sn_status s = S_UNCONNECTED) then mret ERR_OK
  else _ ← ExeuteEventCallback id EVENT_DISCONNECT ""; _ ← Release id; mret ERR_OK.

(** ** Events of the channels *)

Definition IsVaildChannel (s : Session) (channel : Z) : bool := existsb (fun e => tc_channelId e.2 =? channel) (sn_channels s).

Definition HandleSessionConnect (id : Z) : AM unit :=
  s ← self id;
  if decide (sn_status s = S_CONNECTED) then mret tt
  else
    _ ← upd id (with_sn_status S_CONNECTED);
    match sn_sessionListener s with
    | Some l => acall (AOnConnect l id)
    | None => ExeuteEventCallback id EVENT_CONNECT ""
    end.

Definition IsAllChannelConnected (s : Session) : bool :=
  forallb (fun e => tc_isConnected e.2 || bool_decide (tc_transType e.2 = T_STREAM)) (sn_channels s).

Definition OnChannelConnect (id channel : Z) : AM unit :=
  s ← self id;
  if negb (IsVaildChannel s channel) then mret tt
  else
    _ ← UpdateTransChannelStatus id channel true;
    s ← self id;
    if IsAllChannelConnected s && negb (HasFileTransfer (sn_option s)) then HandleSessionConnect id else mret tt.

Definition OnChannelClosed (id channel : Z) : AM unit :=
  s ← self id;
  if negb (IsVaildChannel s channel) then mret tt
  else if decide (sn_status s <> S_CONNECTED) then mret tt
  else
    _ ← Session_Disconnect id;
    s ← self id;
    match sn_sessionListener s with
    | Some l => acall (AOnDisConnect l id)
    | None => ExeuteEventCallback id EVENT_DISCONNECT ""
    end.

Definition ExeuteMessageEventCallback (id : Z) (msg : string) : AM unit :=
  s ← self id;
  match sn_sessionListener s with
  | Some l => acall (AOnMessage l id msg)
  | None => ExeuteEventCallback id EVENT_RECEIVE_MESSAGE msg
  end.

Definition ConnectFileChannel (id : Z) (peerSocketName : string) : AM unit :=
  _ ← upd id (with_peerSocket peerSocketName);
  s ← self id;
  ret ← CreateChannel id (sn_channelName s) FILE T_SEND_FILE true;
  if negb (ret =? ERR_OK) then mret tt
  else
    ret ← ConnectTransChannel id T_SEND_FILE;
    if negb (ret =? ERR_OK) then
      _ ← Session_SendMessage id "FILE_CHANNEL_CONNECT_FAILED" M_FILE_CHANNEL_CONNECT_FAILED; mret tt
    else
      _ ← Session_SendMessage id "FILE_CHANNEL_CONNECT_SUCCESS" M_FILE_CHANNEL_CONNECT_SUCCESS;
      HandleSessionConnect id.

(** [messageHandlerMap_]. *)
Definition handle_message (id : Z) (ty : Z) (msg : string) : AM unit :=
  if ty =? message_number M_NORMAL then ExeuteMessageEventCallback id msg
  else if ty =? message_number M_WIFI_OPEN then _ ← ConnectStreamChannel id; mret tt
  else if ty =? message_number M_UPDATE_RECV_ENGINE_CHANNEL then UpdateRecvEngineTransChannel id
  else if ty =? message_number M_UPDATE_SENDER_ENGINE_CHANNEL then UpdateSenderEngineTransChannel id
  else if ty =? message_number M_CONNECT_FILE_CHANNEL then ConnectFileChannel id msg
  else if ty =? message_number M_FILE_CHANNEL_CONNECT_SUCCESS then NotifyAppConnectResult id true ""
  else if ty =? message_number M_FILE_CHANNEL_CONNECT_FAILED then NotifyAppConnectResult id false ""
  else if ty =? message_number M_SESSION_CONNECT_SUCCESS then HandleSessionConnect id
  else mret tt.

(** The text is what follows the header, its final zero included. *)
Definition Session_OnMessageReceived (id channel : Z) (b : DataBuffer) : AM unit :=
  s ← self id;
  if negb (IsVaildChannel s channel) then mret tt
  else
    let data := contents b in
    match Message.Deserialize (a_garbage env) (Some data) (DataBuffer.Size b) with
    | Message.Nullopt => mret tt
    | Message.ParseUB | Message.ParseOutOfFuel => fun _ => inr DataOverrun
    | Message.Parsed h =>
        handle_message id (Message.dataType_ h) (bytes_str (drop (Z.to_nat Message.HEADER_LEN) data))
    end.

Definition Session_OnBytesReceived (id channel : Z) (b : DataBuffer) : AM unit :=
  s ← self id;
  if negb (IsVaildChannel s channel) then mret tt
  else if match GetTransChannelInfo s T_STREAM_BYTES with Some info => tc_channelId info =? channel | None => false end then mret tt
  else match sn_sessionListener s with
  | Some l => acall (AOnData l id b)
  | None =>
      match sn_listeners s !! EVENT_RECEIVE_DATA with
      | Some l => acall (AEventData l id b)
      | None => mret tt
      end
  end.

Definition Session_OnFile (id channel : Z) (f : Z -> ACall) : AM unit :=
  s ← self id;
  if negb (IsVaildChannel s channel) then mret tt
  else match sn_sessionListener s with Some l => acall (f l) | None => mret tt end.

(** [CollabChannelListener]: nothing for streams and errors. *)
Definition listener_call (id channel : Z) (c : ListenerCall) : AM unit :=
  match c with
  | OnConnect => OnChannelConnect id channel
  | OnDisConnect => OnChannelClosed id channel
  | OnMessage b => Session_OnMessageReceived id channel b
  | OnBytes b => Session_OnBytesReceived id channel b
  | OnSendFile info => Session_OnFile id channel (fun l => AOnSendFile l id info)
  | OnRecvFile info => Session_OnFile id channel (fun l => AOnRecvFile l id info)
  | OnStream _ | OnError _ => mret tt
  end.

(** ** The manager *)

Definition IsVaildPeerInfo (p : PeerInfo) : bool :=
  forallb (fun s => negb (String.eqb s "")) [pi_deviceId p; pi_bundleName p; pi_moduleName p; pi_abilityName p; pi_serverId p].
Definition IsVaildConnectOption (o : ConnectOption) : bool := negb (needSendStream o && needReceiveStream o).

(** The result and the identity of the session. *)
Definition CreateSession (serverId bundle module ability : string) (uid : Z) (peer : PeerInfo) (opt : ConnectOption) : AM (Z * Z) :=
  if negb (IsVaildPeerInfo peer) then mret (COLLAB_INVALID_PARAMETERS, -1)
  else if negb (IsVaildConnectOption opt) then mret (COLLAB_INVALID_PARAMETERS, -1)
  else
    let localInfo := mkPeerInfo "" bundle module ability (pi_serverId peer) in
    let socketName := a_socketName env (a_pid env) uid bundle in
    ret ← chan (Manager_Init (a_channels env) socketName);
    if negb (ret =? ERR_OK) then mret (COLLAB_INVALID_PARAMETERS, -1)
    else
      s ← aget;
      let id := nextSessionId_ s in
      let sn := with_tasks true [] [] (Session_new socketName (mkSessionInfo serverId localInfo peer) opt) in
      _ ← amod (set_nextSession (id + 1));
      _ ← amod (fun s => set_sessions (match sessionMap_ s !! id with Some _ => sessionMap_ s | None => <[id := sn]> (sessionMap_ s) end) s);
      mret (ERR_OK, id).

Definition on_session (id : Z) (err : Z) (p : AM Z) : AM Z :=
  s ← aget;
  match GetAbilityConnectionSession s id with
  | None => mret err
  | Some _ => p
  end.

Definition DestroySession (id : Z) : AM Z :=
  on_session id COLLAB_INVALID_PARAMETERS (
    _ ← Session_Disconnect id;
    _ ← amod (fun s => set_sessions (delete id (sessionMap_ s)) s);
    mret ERR_OK).

Definition ConnectSession (id callback : Z) : AM Z := on_session id INVALID_SESSION_ID (Session_Connect id callback).
Definition DisconnectSession (id : Z) : AM Z := on_session id COLLAB_INVALID_PARAMETERS (Session_Disconnect id).
Definition AcceptConnect (id : Z) (token : string) : AM Z := on_session id COLLAB_INVALID_PARAMETERS (Session_AcceptConnect id token).
Definition Reject (token reason : string) : AM Z := aask (ANotifyReject token reason) (a_NotifyReject env).
Definition NotifyCollabResult (id result : Z) (peer token reason : string) : AM Z :=
  on_session id COLLAB_INVALID_PARAMETERS (HandleCollabResult id result peer token reason).
Definition NotifyDisconnect (id : Z) : AM Z := on_session id COLLAB_INVALID_PARAMETERS (HandleDisconnect id).
Definition NotifyPeerVersion (id : Z) : AM Z := on_session id COLLAB_INVALID_PARAMETERS (HandlePeerVersion id).
Definition NotifyWifiOpen (id : Z) : AM Z := on_session id COLLAB_INVALID_PARAMETERS (ConnectStreamChannel id).
Definition App_SendMessage (id : Z) (msg : string) : AM Z :=
  on_session id COLLAB_INVALID_PARAMETERS (Session_SendMessage id msg M_NORMAL).
Definition App_SendData (id : Z) (b : option DataBuffer) : AM Z := on_session id COLLAB_INVALID_PARAMETERS (Session_SendData id b).
Definition App_SendFile (id : Z) (sFiles dFiles : list string) : AM Z :=
  on_session id COLLAB_INVALID_PARAMETERS (Session_SendFile id sFiles dFiles).
Definition App_SendImage (id : Z) : AM Z :=
  on_session id COLLAB_INVALID_PARAMETERS (
    s ← self id;
    if negb (sn_sender s) then mret COLLAB_INVALID_PARAMETERS else aask (AEngine id "SendPixelMap" 0) (a_SendPixelMap env)).

(** [source]: the role of the stream; the identity of the stream. *)
Definition App_CreateStream (id : Z) (source : bool) : AM (Z * Z) :=
  s ← aget;
  match GetAbilityConnectionSession s id with
  | None => mret (COLLAB_INVALID_PARAMETERS, 0)
  | Some sn =>
      let wanted := if source then needSendStream (sn_option sn) else needReceiveStream (sn_option sn) in
      let present := if source then sn_sender sn else sn_recv sn in
      if negb wanted then mret (COLLAB_INVALID_PARAMETERS, 0)
      else if present then mret (ONLY_SUPPORT_ONE_STREAM, 0)
      else
        _ ← upd id (if source then with_engines true (sn_recv sn) else with_engines (sn_sender sn) true);
        let stream := nextStreamId_ s in
        _ ← amod (fun s => set_streams (stream + 1) (<[stream := id]> (streamMap_ s)) s);
        mret (ERR_OK, stream)
  end.

(** [streamMap_\[streamId\]] adds an entry with 0 for an unknown stream. *)
Definition App_DestroyStream (stream : Z) : AM Z :=
  s ← aget;
  let id := default 0 (streamMap_ s !! stream) in
  _ ← amod (set_streams (nextStreamId_ s) (<[stream := id]> (streamMap_ s)));
  on_session id COLLAB_INVALID_PARAMETERS (
    _ ← Session_DestroyStream id;
    _ ← amod (fun s => set_streams (nextStreamId_ s) (delete stream (streamMap_ s)) s);
    mret ERR_OK).

Definition RegisterEventCallback (id : Z) (event : string) (l : Z) : AM Z :=
  on_session id COLLAB_INVALID_PARAMETERS (
    _ ← upd id (fun s => with_listeners (<[event := l]> (sn_listeners s)) (sn_sessionListener s) s); mret ERR_OK).
Definition UnregisterEventCallback (id : Z) (event : string) : AM Z :=
  on_session id COLLAB_INVALID_PARAMETERS (
    _ ← upd id (fun s => with_listeners (delete event (sn_listeners s)) (sn_sessionListener s) s); mret ERR_OK).
Definition RegisterSessionListener (id : Z) (l : option Z) : AM Z :=
  on_session id COLLAB_INVALID_PARAMETERS (
    match l with
    | None => mret INVALID_LISTENER
    | Some l => _ ← upd id (fun s => with_listeners (sn_listeners s) (Some l) s); mret ERR_OK
    end).
Definition UnregisterSessionListener (id : Z) : AM Z :=
  on_session id COLLAB_INVALID_PARAMETERS (
    _ ← upd id (fun s => with_listeners (sn_listeners s) None s); mret ERR_OK).

(** ** Steps *)

Inductive AOp :=
  | ACreateSession (serverId bundle module ability : string) (uid : Z) (peer : PeerInfo) (opt : ConnectOption)
  | ADestroySession (id : Z)
  | AConnectSession (id callback : Z)
  | ADisconnectSession (id : Z)
  | AAcceptConnect (id : Z) (token : string)
  | AReject (token reason : string)
  | ANotifyCollabResult (id result : Z) (peer token reason : string)
  | ANotifyDisconnect (id : Z)
  | ANotifyPeerVersion (id : Z)
  | ANotifyWifiOpen (id : Z)
  | ASendMessage (id : Z) (msg : string)
  | ASendData (id : Z) (b : option DataBuffer)
  | ASendFile (id : Z) (sFiles dFiles : list string)
  | ASendImage (id : Z)
  | ACreateStream (id : Z) (source : bool)
  | ADestroyStream (stream : Z)
  | ARegister (id : Z) (event : string) (l : Z)
  | AUnregister (id : Z) (event : string)
  | ARegisterListener (id : Z) (l : option Z)
  | AUnregisterListener (id : Z)
  (** A step of the channel manager other than its callbacks; a callback; a task of
      a session; a detached thread. *)
  | AChannel (o : Op)
  | ADeliver (n : nat)
  | ARunTask (id : Z) (n : nat)
  | ARunThread (id : Z) (n : nat).

Definition deliver (n : nat) : AM unit :=
  s ← aget;
  match callbacks_ (channels_ s) !! n with
  | None => mret tt
  | Some c =>
      _ ← chan (RunCallback n);
      match sessionMap_ s !! cb_listener c with
      | None => mret tt
      | Some _ => listener_call (cb_listener c) (cb_channel c) (cb_call c)
      end
  end.

Definition run_session_task (id : Z) (n : nat) : AM unit :=
  s ← self id;
  match sn_tasks s !! n with
  | None => mret tt
  | Some t =>
      _ ← upd id (fun s => with_tasks (sn_handler s) (delete n (sn_tasks s)) (sn_threads s) s);
      run_connect_callback id t
  end.

Definition run_thread (id : Z) (n : nat) : AM unit :=
  s ← self id;
  match sn_threads s !! n with
  | None => mret tt
  | Some channel =>
      _ ← upd id (fun s => with_tasks (sn_handler s) (sn_tasks s) (delete n (sn_threads s)) s);
      _ ← DoConnectStreamChannel id channel; mret tt
  end.

Definition done {A} (p : AM A) : AM unit := _ ← p; mret tt.

Definition run_aop (o : AOp) : AM unit :=
  match o with
  | ACreateSession a b c d u p o => done (CreateSession a b c d u p o)
  | ADestroySession id => done (DestroySession id)
  | AConnectSession id cb => done (ConnectSession id cb)
  | ADisconnectSession id => done (DisconnectSession id)
  | AAcceptConnect id t => done (AcceptConnect id t)
  | AReject t r => done (Reject t r)
  | ANotifyCollabResult id r p t re => done (NotifyCollabResult id r p t re)
  | ANotifyDisconnect id => done (NotifyDisconnect id)
  | ANotifyPeerVersion id => done (NotifyPeerVersion id)
  | ANotifyWifiOpen id => done (NotifyWifiOpen id)
  | ASendMessage id m => done (App_SendMessage id m)
  | ASendData id b => done (App_SendData id b)
  | ASendFile id a b => done (App_SendFile id a b)
  | ASendImage id => done (App_SendImage id)
  | ACreateStream id r => done (App_CreateStream id r)
  | ADestroyStream st => done (App_DestroyStream st)
  | ARegister id e l => done (RegisterEventCallback id e l)
  | AUnregister id e => done (UnregisterEventCallback id e)
  | ARegisterListener id l => done (RegisterSessionListener id l)
  | AUnregisterListener id => done (UnregisterSessionListener id)
  | AChannel o => match o with OpRunCallback _ => mret tt | _ => chan (run_op (a_channels env) o) end
  | ADeliver n => deliver n
  | ARunTask id n => run_session_task id n
  | ARunThread id n => run_thread id n
  end.

Fixpoint run_aops (os : list AOp) : AM unit :=
  match os with
  | [] => mret tt
  | o :: os => _ ← run_aop o; run_aops os
  end.
End Methods.
