(* ===== verification/AbilityConnectionLife.v ===== *)
(** What sessions of abilities do over several steps: release, messages from one
    application to the other, and connections that meet. *)

From Stdlib Require Import Ascii.
From stdpp Require Import gmap.
From S2P Require Import Prelude StdMap DataBuffer SchedErrors SchedUtils Json ContinueInfo CollabHeader CollabChannel CollabTransfer StreamData ChannelManager ChannelManagerProps ChannelManagerLife MessageHeader AbilityConnection AbilityConnectionProps.
#[local] Open Scope string_scope.
#[local] Open Scope list_scope.
#[local] Open Scope Z_scope.

(** ** Release *)

Lemma upd_run id f sn s : sessionMap_ s !! id = Some sn -> upd id f s = inl (tt, set_sessions (<[id := f sn]> (sessionMap_ s)) s).
Proof.
  intros H. unfold upd, amod. do 3 f_equal. apply map_eq. intros i. destruct (decide (i = id)) as [->|Hne].
  - by rewrite lookup_alter_eq, lookup_insert_eq, H.
  - by rewrite lookup_alter_ne, lookup_insert_ne.
Qed.

Lemma self_run id sn s : sessionMap_ s !! id = Some sn -> self id s = inl (sn, s).
Proof. intros H. unfold self, aget, mbind, AM_bind, mret, AM_ret. by rewrite H. Qed.

(** The manager of channels without some of them. *)
Definition without_all (ids : list Z) (m : CM) : CM := foldl (fun m c => without c m) m ids.

Definition ids_of (l : zmap TransChannelInfo) : list Z := map (fun e => tc_channelId e.2) l.

Lemma delete_trans_run (l : zmap TransChannelInfo) : forall s, channels_ok l ->
  delete_trans (map snd l) s = inl (tt, set_cm (without_all (ids_of l) (channels_ s)) s).
Proof.
  intros s [_ H]. revert s. induction l as [|e l IH]; intros s; [by destruct s|]. apply Forall_cons in H as [[_ Hv] H].
  cbn [map delete_trans]. unfold mbind, AM_bind, chan. rewrite DeleteChannel_run by done. by rewrite IH.
Qed.

Lemma without_all_cons c ids m : without_all (c :: ids) m = without_all ids (without c m).
Proof. done. Qed.

Lemma without_all_wf ids m : cm_wf m -> cm_wf (without_all ids m).
Proof. revert m. induction ids as [|c ids IH]; intros m Hm; [done|]. by apply IH, without_wf. Qed.

(** Nothing is left of the channels, nothing else is touched. *)
Lemma without_all_lookup ids : forall m c,
  channelInfoMap_ (without_all ids m) !! c = (if decide (c ∈ ids) then None else channelInfoMap_ m !! c) /\
  listenersMap_ (without_all ids m) !! c = (if decide (c ∈ ids) then None else listenersMap_ m !! c).
Proof.
  induction ids as [|c0 ids IH]; intros m c; [by rewrite !decide_False by set_solver|].
  rewrite without_all_cons. destruct (IH (without c0 m) c) as [-> ->]. cbn [channelInfoMap_ listenersMap_ without set_calls set_sockets set_channels set_listeners].
  destruct (decide (c ∈ ids)); [by rewrite !decide_True by set_solver|]. destruct (decide (c = c0)) as [->|Hne].
  - rewrite !decide_True by set_solver. by rewrite !lookup_delete_eq.
  - rewrite !decide_False by set_solver. by rewrite !lookup_delete_ne by done.
Qed.

Lemma without_all_calls ids : forall m, exists ss, mcalls_ (without_all ids m) = mcalls_ m ++ map MShutdown ss /\
  forall s c, c ∈ ids -> socketChannelMap_ m !! s = Some c -> s ∈ ss.
Proof.
  induction ids as [|c0 ids IH]; intros m; [exists []; rewrite app_nil_r; set_solver|].
  destruct (IH (without c0 m)) as (ss & E & H). exists (sockets_of c0 m ++ ss). split.
  - unfold without_all in *. cbn [foldl]. rewrite E. cbn. by rewrite map_app, <- app_assoc.
  - intros s c Hc Hs. rewrite elem_of_app. destruct (decide (c = c0)) as [->|Hne]; [left; by apply elem_of_sockets_of|].
    right. apply (H s c); [set_solver|]. rewrite without_sockets, Hs. by destruct (Z.eqb_spec c c0).
Qed.

Definition released (sn : Session) : Session := with_channels [] (with_engines false false (with_sn_status S_UNCONNECTED sn)).

(** The two tables after [DeleteConnectSession]. *)
Definition drop_entry (info : SessionInfo) (id : Z) (c v : list (SessionInfo * Z)) : list (SessionInfo * Z) * list (SessionInfo * Z) :=
  if holds info id c then (merase info c, v) else if holds info id v then (c, merase info v) else (c, v).

Lemma DeleteConnect_run info id s : DeleteConnectSession info id s =
  let '(c, v) := drop_entry info id (clientSessionMap_ s) (serverSessionMap_ s) in inl (tt, set_connecting c v s).
Proof. unfold DeleteConnectSession, amod, drop_entry. destruct s; cbn. by repeat case_match. Qed.

Definition released_state (id : Z) (sn : Session) (s : ACM) : ACM :=
  let '(c, v) := drop_entry (sn_info sn) id (clientSessionMap_ s) (serverSessionMap_ s) in
  mkACM (<[id := released sn]> (sessionMap_ s)) (nextSessionId_ s) (nextStreamId_ s) (streamMap_ s) c v
    (without_all (ids_of (sn_channels sn)) (channels_ s)) (acalls_ s).

Lemma Release_run id sn s : acm_wf s -> sessionMap_ s !! id = Some sn -> sn_status sn <> S_UNCONNECTED ->
  Release id s = inl (tt, released_state id sn s).
Proof.
  intros Hw Hs Hst. destruct (awf_sessions s Hw id sn Hs) as [_ Hc]. unfold Release, released_state. unfold mbind at 1, AM_bind at 1.
  rewrite (self_run id sn) by done. rewrite decide_False by done. unfold mbind at 1, AM_bind at 1. rewrite (upd_run id _ sn) by done.
  unfold mbind at 1, AM_bind at 1. rewrite DeleteConnect_run. cbn [clientSessionMap_ serverSessionMap_ set_sessions].
  destruct (drop_entry _ _ _ _) as [c v]. unfold mbind at 1, AM_bind at 1, Session_DestroyStream.
  rewrite (upd_run id _ (with_sn_status S_UNCONNECTED sn)) by apply lookup_insert_eq.
  unfold mbind at 1, AM_bind at 1. rewrite delete_trans_run by done.
  rewrite (upd_run id _ (with_engines false false (with_sn_status S_UNCONNECTED sn))) by (cbn; apply lookup_insert_eq).
  cbn. by rewrite !insert_insert_eq.
Qed.

Lemma Release_again id sn s : sessionMap_ s !! id = Some sn -> sn_status sn = S_UNCONNECTED -> Release id s = inl (tt, s).
Proof.
  intros Hs Hst. unfold Release. unfold mbind at 1, AM_bind at 1. rewrite (self_run id sn) by done. by rewrite decide_True.
Qed.

(** The client table no longer has the session under its own key. *)
Lemma drop_entry_client info id c v : mfind info (drop_entry info id c v).1 <> Some id.
Proof.
  unfold drop_entry, holds. destruct (mfind info c) as [x|] eqn:E; [|destruct (mfind info v) as [y|]; [destruct (y =? id)|]; cbn [fst]; congruence].
  destruct (Z.eqb_spec x id) as [->|Hne].
  - cbn [fst]. by rewrite mfind_merase, same_key_refl.
  - destruct (mfind info v) as [y|]; [destruct (y =? id)|]; cbn [fst]; congruence.
Qed.

(** Releasing a session that connects or is connected gives up all it
    has: its channels leave the channel manager with their listeners and each of their
    sockets is shut down, its engines and its entry among the connecting clients are
    gone, no other channel or session is touched, the application is told nothing, and
    releasing again does nothing. *)
Theorem release_complete id sn s :
  acm_wf s -> sessionMap_ s !! id = Some sn -> sn_status sn <> S_UNCONNECTED ->
  exists s' sn', Release id s = inl (tt, s') /\ acm_wf s' /\
    sessionMap_ s' = <[id := sn']> (sessionMap_ s) /\
    sn_status sn' = S_UNCONNECTED /\ sn_channels sn' = [] /\ sn_sender sn' = false /\ sn_recv sn' = false /\
    (forall c, channelInfoMap_ (channels_ s') !! c =
       if decide (c ∈ ids_of (sn_channels sn)) then None else channelInfoMap_ (channels_ s) !! c) /\
    (forall c, listenersMap_ (channels_ s') !! c =
       if decide (c ∈ ids_of (sn_channels sn)) then None else listenersMap_ (channels_ s) !! c) /\
    (forall k c, c ∈ ids_of (sn_channels sn) -> socketChannelMap_ (channels_ s) !! k = Some c -> MShutdown k ∈ mcalls_ (channels_ s')) /\
    mfind (sn_info sn) (clientSessionMap_ s') <> Some id /\
    acalls_ s' = acalls_ s /\ Release id s' = inl (tt, s').
Proof.
  intros Hw Hs Hst. pose proof (Release_run id sn s Hw Hs Hst) as Hr. exists (released_state id sn s), (released sn).
  split; [done|]. split; [pose proof (akeeps_Release id s Hw) as Hk; by rewrite Hr in Hk|].
  assert (sessionMap_ (released_state id sn s) = <[id := released sn]> (sessionMap_ s)) as Em.
  { unfold released_state. by destruct (drop_entry _ _ _ _). }
  assert (channels_ (released_state id sn s) = without_all (ids_of (sn_channels sn)) (channels_ s)) as Ec.
  { unfold released_state. by destruct (drop_entry _ _ _ _). }
  split; [done|]. do 4 (split; [done|]). rewrite Ec. split; [intros c; apply without_all_lookup|]. split; [intros c; apply without_all_lookup|].
  split.
  { intros k c Hc Hk. destruct (without_all_calls (ids_of (sn_channels sn)) (channels_ s)) as (ss & -> & H).
    rewrite elem_of_app, list_elem_of_fmap. right. exists k. split; [done|]. by apply (H k c). }
  split.
  { pose proof (drop_entry_client (sn_info sn) id (clientSessionMap_ s) (serverSessionMap_ s)).
    unfold released_state. by destruct (drop_entry _ _ _ _). }
  split; [unfold released_state; by destruct (drop_entry _ _ _ _)|].
  apply (Release_again id (released sn)); [|done]. rewrite Em. apply lookup_insert_eq.
Qed.

(** ** The life of a session *)

(** The client table gives up the session first, then the server table; nothing else
    changes in them. *)
Lemma drop_entry_server info id c v : holds info id c = false -> mfind info (drop_entry info id c v).2 <> Some id.
Proof.
  intros Hc. unfold drop_entry. rewrite Hc. unfold holds. destruct (mfind info v) as [y|] eqn:E; [|cbn [snd]; by rewrite E].
  destruct (Z.eqb_spec y id) as [->|Hne]; cbn [snd]; [by rewrite mfind_merase, same_key_refl|congruence].
Qed.
Lemma drop_entry_others info id c v k : same_key k info = false ->
  mfind k (drop_entry info id c v).1 = mfind k c /\ mfind k (drop_entry info id c v).2 = mfind k v.
Proof. intros Hk. unfold drop_entry. destruct (holds info id c), (holds info id v); cbn [fst snd]; by rewrite ?mfind_merase, ?Hk. Qed.

Lemma Destroy_run id sn s : acm_wf s -> sessionMap_ s !! id = Some sn -> sn_status sn <> S_UNCONNECTED ->
  DestroySession id s = inl (ERR_OK, set_sessions (delete id (sessionMap_ s)) (add_call (ANotifyClose (sn_token sn)) (released_state id sn s))).
Proof.
  intros Hw Hs Hst. destruct (awf_sessions s Hw id sn Hs) as [Hid _].
  assert (sessionMap_ (released_state id sn s) = <[id := released sn]> (sessionMap_ s)) as Em.
  { unfold released_state. by destruct (drop_entry _ _ _ _). }
  unfold DestroySession, on_session, Session_Disconnect, NotifyClose, GetAbilityConnectionSession. unfold mbind, AM_bind, aget. zb_false (id <=? 0). rewrite Hs.
  rewrite (Release_run id sn s Hw Hs Hst), (self_run id (released sn)) by (rewrite Em; apply lookup_insert_eq).
  unfold acall, amod, mret, AM_ret. do 3 f_equal. cbn. by rewrite Em, delete_insert_eq.
Qed.

Section Life.
Context {CJ : CJson}.
Variable env : AEnv.

Lemma Connect_refused id cb sn s : sessionMap_ s !! id = Some sn ->
  count_key (sn_info sn) (clientSessionMap_ s) || count_key (sn_info sn) (serverSessionMap_ s) = true ->
  exists s', Session_Connect env id cb s = inl (SAME_SESSION_IS_CONNECTING, s') /\
    clientSessionMap_ s' = clientSessionMap_ s /\ serverSessionMap_ s' = serverSessionMap_ s /\ channels_ s' = channels_ s.
Proof.
  intros Hs Hc. unfold Session_Connect. unfold mbind at 1, AM_bind at 1. rewrite (upd_run id _ sn) by done.
  unfold mbind at 1, AM_bind at 1, aget. unfold mbind at 1, AM_bind at 1.
  rewrite (upd_run id _ (with_direction COLLABRATE_SOURCE sn)) by apply lookup_insert_eq. cbn [sessionMap_ set_sessions].
  unfold mbind at 1, AM_bind at 1. rewrite insert_insert_eq.
  set (sn0 := with_token _ _). rewrite (self_run id sn0) by apply lookup_insert_eq.
  unfold mbind at 1, AM_bind at 1, UpdateClientSession. unfold mbind at 1, AM_bind at 1, aget. cbn [clientSessionMap_ serverSessionMap_ set_sessions].
  change (sn_info sn0) with (sn_info sn). rewrite Hc. unfold mret, AM_ret. change (negb (SAME_SESSION_IS_CONNECTING =? ERR_OK)) with true. cbv iota.
  unfold mbind, AM_bind, ExeuteConnectCallback. rewrite (upd_run id _ sn0) by apply lookup_insert_eq. eexists. split; [reflexivity|]. by repeat split.
Qed.

End Life.

(** ** Messages *)

Definition NUL : string := String zero EmptyString.

Lemma bytes_str_app a b : bytes_str (a ++ b) = bytes_str a +:+ bytes_str b.
Proof. induction a as [|x a IH]; [done|]. cbn [app bytes_str]. by rewrite IH. Qed.

Definition header_of (t : MessageType) (n : Z) : Message.MessageDataHeader :=
  Message.mkMessageHeader PROTOCOL_VERSION (message_number t) n.

(** The bytes of a message: the header, the text and a final zero. *)
Definition message_bytes (msg : string) (t : MessageType) : list Z :=
  Message.header_bytes (header_of t (len (str_bytes msg) + 23)) ++ str_bytes msg ++ [0].

Lemma pack_full d : pack_of (len d) d = buffer_of d.
Proof. unfold pack_of. by rewrite Z.sub_diag, app_nil_r. Qed.

Lemma pack_new n : 0 < n < DSCHED_MAX_BUFFER_SIZE -> AVTransDataBuffer_new n = pack_of n [].
Proof. intros Hn. rewrite AV_new, buffer_new_small by done. unfold pack_of. cbn. by rewrite Z.sub_0_r. Qed.

Lemma Capacity_pack total acc : len acc <= total -> Capacity (pack_of total acc) = total.
Proof. intros. unfold pack_of, Capacity. buf_simpl. rewrite len_app, len_zeros by lia. lia. Qed.

(** Writing all of some bytes behind what the buffer has. *)
Lemma pack_write total acc src off destMax count pos :
  len acc <= total < DSCHED_MAX_BUFFER_SIZE -> len acc + len src <= total -> pos = len acc -> off = 0 -> count = len src ->
  destMax = total - len acc ->
  buf_write (pack_of total acc) pos destMax (Some src) off count = BufOk (pack_of total (acc ++ src)).
Proof.
  intros Ht Hl -> -> -> ->. pose proof (len_nonneg acc). pose proof (len_nonneg src).
  pose proof (pack_append total acc src 0 (len src) Ht ltac:(lia) ltac:(lia) ltac:(lia)) as Hpa.
  rewrite Size_pack in Hpa by lia. unfold DSCHED_MAX_BUFFER_SIZE in *. rewrite u64_id in Hpa by lia. rewrite Hpa.
  zb_false (total <? len acc + len src). by rewrite slice_all.
Qed.

Lemma message_buffer_run msg t s : len (str_bytes msg) + 23 < DSCHED_MAX_BUFFER_SIZE ->
  message_buffer msg t s = inl (inr (buffer_of (message_bytes msg t)), s).
Proof.
  intros Hn. pose proof (len_nonneg (str_bytes msg)) as Hp. unfold message_buffer. set (bytes := str_bytes msg) in *. cbn zeta.
  unfold DSCHED_MAX_BUFFER_SIZE in *. rewrite u64_id by lia. rewrite pack_new by (unfold DSCHED_MAX_BUFFER_SIZE; lia).
  rewrite pack_write; try done; unfold DSCHED_MAX_BUFFER_SIZE; cbn [app]; rewrite ?Capacity_pack; change (len (@nil Z)) with 0; try lia.
  assert (pack_of (len bytes + 1) bytes = buffer_of (bytes ++ [0])) as ->.
  { rewrite <- pack_full. unfold pack_of. rewrite len_app. change (len [0]) with 1. rewrite <- app_assoc. do 2 f_equal.
    by replace (len bytes + 1 - len bytes) with 1 by lia; replace (len bytes + 1 - (len bytes + 1)) with 0 by lia. }
  assert (u32 (DataBuffer.Size (buffer_of (bytes ++ [0])) + Message.HEADER_LEN) = len bytes + 23) as ->.
  { unfold DataBuffer.Size. buf_simpl. rewrite len_app. change (len [0]) with 1. change Message.HEADER_LEN with 22. rewrite u32_id; zlia. }
  rewrite Message.message_Serialize_spec. fold (header_of t (len bytes + 23)). set (h := Message.header_bytes (header_of t (len bytes + 23))).
  assert (len h = 22) as Hh by apply Message.len_message_header.
  rewrite pack_new by (unfold DSCHED_MAX_BUFFER_SIZE; lia). change (Data (buffer_of h)) with (Some h). change (rangeOffset_ (buffer_of h)) with 0.
  rewrite pack_write; try done; unfold DSCHED_MAX_BUFFER_SIZE; cbn [app]; rewrite ?Size_pack, ?Hh; change (len (@nil Z)) with 0; try lia.
  change Message.HEADER_LEN with 22. change (Data (buffer_of (bytes ++ [0]))) with (Some (bytes ++ [0])).
  change (rangeOffset_ (buffer_of (bytes ++ [0]))) with 0.
  rewrite u64_id by lia.
  rewrite pack_write; try done; rewrite ?len_app, ?Hh; change (len [0]) with 1; unfold DSCHED_MAX_BUFFER_SIZE; try lia.
  unfold message_bytes. fold bytes. fold h. rewrite <- pack_full. rewrite !len_app, Hh. change (len [0]) with 1.
  by replace (22 + (len bytes + 1)) with (len bytes + 23) by lia.
Qed.

Lemma copy_received_run data m : 0 < len data < DSCHED_MAX_BUFFER_SIZE ->
  copy_received (Some data) (len data) m = inl (Some (buffer_of data), m).
Proof.
  intros Hd. unfold copy_received. rewrite pack_new by done. rewrite pack_write; rewrite ?Size_pack; change (len (@nil Z)) with 0; try lia.
  cbn [app]. by rewrite pack_full.
Qed.

Section Sessions.
Context {CJ : CJson}.
Variable env : AEnv.

Lemma message_received_run renv k c data m : listening renv m -> 0 < k -> isValidChannelId c = true -> socketChannelMap_ m !! k = Some c ->
  0 < len data < DSCHED_MAX_BUFFER_SIZE ->
  OnMessageReceived renv k (Some data) m = inl (tt, set_callbacks (callbacks_ m ++ told renv m c (OnMessage (buffer_of data))) m).
Proof.
  intros Hl Hp Hv Hk Hd. unfold OnMessageReceived. rewrite (on_channel_run k c) by done.
  unfold mbind, MM_bind. rewrite copy_received_run by done. by apply Notify_run.
Qed.

(** A session reads the type and the text of a message. *)
Lemma session_reads id ch sn s msg t : sessionMap_ s !! id = Some sn -> IsVaildChannel sn ch = true ->
  len (str_bytes msg) + 23 < DSCHED_MAX_BUFFER_SIZE ->
  Session_OnMessageReceived env id ch (buffer_of (message_bytes msg t)) s = handle_message env id (message_number t) (msg +:+ NUL) s.
Proof.
  intros Hs Hc Hn. pose proof (len_nonneg (str_bytes msg)). unfold Session_OnMessageReceived. unfold mbind at 1, AM_bind at 1.
  rewrite (self_run id sn) by done. rewrite Hc. cbn [negb]. rewrite contents_buffer_of. unfold DataBuffer.Size. buf_simpl.
  assert (Message.header_wf (header_of t (len (str_bytes msg) + 23))) as Hh.
  { unfold DSCHED_MAX_BUFFER_SIZE in *. split; [done|]. split; [by destruct t|]. unfold is_u32. cbn. lia. }
  unfold message_bytes. rewrite Message.Deserialize_message by done.
  assert (Z.to_nat Message.HEADER_LEN = length (Message.header_bytes (header_of t (len (str_bytes msg) + 23)))) as -> by done.
  rewrite drop_app_length, bytes_str_app, bytes_str_bytes. done.
Qed.

(** A message of a session becomes one buffer; the manager of the peer that
    receives its bytes hands them to every live listener of the channel; and the
    session there reads the type of the message and its text, with one zero
    character more than was sent: for the type of applications its listener is
    called with that text. *)
Theorem message_text_received msg t : len (str_bytes msg) + 23 < DSCHED_MAX_BUFFER_SIZE ->
  exists b, (forall s, message_buffer msg t s = inl (inr b, s)) /\
    (forall renv k c m, listening renv m -> 0 < k -> isValidChannelId c = true -> socketChannelMap_ m !! k = Some c ->
       exists b' m', OnMessageReceived renv k (Some (contents b)) m = inl (tt, m') /\
         callbacks_ m' = callbacks_ m ++ told renv m c (OnMessage b') /\
         forall id ch sn s, sessionMap_ s !! id = Some sn -> IsVaildChannel sn ch = true ->
           listener_call env id ch (OnMessage b') s = handle_message env id (message_number t) (msg +:+ NUL) s /\
           forall l, t = M_NORMAL -> sn_sessionListener sn = Some l ->
             listener_call env id ch (OnMessage b') s = inl (tt, add_call (AOnMessage l id (msg +:+ NUL)) s)).
Proof.
  intros Hn. exists (buffer_of (message_bytes msg t)). split; [intros s; by apply message_buffer_run|].
  intros renv k c m Hl Hp Hv Hk. rewrite contents_buffer_of. pose proof (len_nonneg (str_bytes msg)).
  exists (buffer_of (message_bytes msg t)). eexists. split.
  { apply (message_received_run renv k c); try done. unfold message_bytes. rewrite !len_app, Message.len_message_header.
    change (len [0]) with 1. lia. }
  split; [done|]. intros id ch sn s Hs Hc. split; [by apply (session_reads id ch sn)|].
  intros l -> Hls. cbn [listener_call]. rewrite (session_reads id ch sn) by done.
  change (ExeuteMessageEventCallback id (msg +:+ NUL) s = inl (tt, add_call (AOnMessage l id (msg +:+ NUL)) s)).
  unfold ExeuteMessageEventCallback. unfold mbind, AM_bind. rewrite (self_run id sn) by done. by rewrite Hls.
Qed.

(** ** A second call of Connect *)

Lemma refused_Connect id cb sn s : sessionMap_ s !! id = Some sn -> sn_handler sn = true -> count_key (sn_info sn) (clientSessionMap_ s) = true ->
  exists sn1, Session_Connect env id cb s = inl (SAME_SESSION_IS_CONNECTING, set_sessions (<[id := sn1]> (sessionMap_ s)) s) /\
    sn_status sn1 = sn_status sn /\ sn_channels sn1 = sn_channels sn /\ sn_handler sn1 = true /\
    sn_tasks sn1 = sn_tasks sn ++ [mkSessionTask (mkConnectResult false "") (sn_callback sn)] /\ sn_info sn1 = sn_info sn.
Proof.
  intros Hs Hh Hc. unfold Session_Connect. unfold mbind at 1, AM_bind at 1. rewrite (upd_run id _ sn) by done.
  unfold mbind at 1, AM_bind at 1, aget. unfold mbind at 1, AM_bind at 1.
  rewrite (upd_run id _ (with_direction COLLABRATE_SOURCE sn)) by apply lookup_insert_eq. cbn [sessionMap_ set_sessions].
  unfold mbind at 1, AM_bind at 1. rewrite insert_insert_eq.
  set (sn0 := with_token _ _). rewrite (self_run id sn0) by apply lookup_insert_eq.
  unfold mbind at 1, AM_bind at 1, UpdateClientSession. unfold mbind at 1, AM_bind at 1, aget. cbn [clientSessionMap_ set_sessions].
  change (sn_info sn0) with (sn_info sn). rewrite Hc. cbn [orb]. unfold mret, AM_ret. change (negb (SAME_SESSION_IS_CONNECTING =? ERR_OK)) with true. cbv iota.
  unfold mbind, AM_bind, ExeuteConnectCallback. rewrite (upd_run id _ sn0) by apply lookup_insert_eq. cbn [sessionMap_ set_sessions].
  rewrite insert_insert_eq. change (sn_handler sn0) with (sn_handler sn). rewrite Hh. eexists. split; [reflexivity|]. by repeat split.
Qed.

(** Calling Connect again on a session that connects or is connected
    returns an error, keeps the callback of the new call for no one, and the task it
    leaves tells the callback of the first call that the connection failed and releases
    the session with all its channels. *)
Theorem second_connect_tears_down id cb cb2 sn s :
  acm_wf s -> sessionMap_ s !! id = Some sn -> sn_status sn <> S_UNCONNECTED -> sn_handler sn = true ->
  sn_callback sn = Some cb -> count_key (sn_info sn) (clientSessionMap_ s) = true ->
  exists s1 s2 sn2,
    ConnectSession env id cb2 s = inl (SAME_SESSION_IS_CONNECTING, s1) /\
    run_session_task id (length (sn_tasks sn)) s1 = inl (tt, s2) /\
    acalls_ s2 = acalls_ s ++ [AConnectCallback cb (mkConnectResult false "")] /\
    sessionMap_ s2 !! id = Some sn2 /\ sn_status sn2 = S_UNCONNECTED /\ sn_channels sn2 = [] /\
    forall c, c ∈ ids_of (sn_channels sn) -> channelInfoMap_ (channels_ s2) !! c = None.
Proof.
  intros Hw Hs Hst Hh Hcb Hc. destruct (refused_Connect id cb2 sn s Hs Hh Hc) as (sn1 & E & H1 & H2 & H3 & H4 & H5).
  destruct (awf_sessions s Hw id sn Hs) as [Hid _].
  set (s1 := set_sessions (<[id:=sn1]> (sessionMap_ s)) s) in *.
  assert (acm_wf s1) as Hw1 by (pose proof (akeeps_Connect env id cb2 s Hw) as Hk; by rewrite E in Hk).
  exists s1. set (sn2 := with_tasks (sn_handler sn1) (delete (length (sn_tasks sn)) (sn_tasks sn1)) (sn_threads sn1) sn1).
  set (s2 := add_call (AConnectCallback cb (mkConnectResult false "")) (set_sessions (<[id := sn2]> (sessionMap_ s)) s)).
  assert (acm_wf s2) as Hw2.
  { assert (akeeps (_ ← upd id (fun s => with_tasks (sn_handler s) (delete (length (sn_tasks sn)) (sn_tasks s)) (sn_threads s) s);
        acall (AConnectCallback cb (mkConnectResult false "")))) as Hk.
    { apply akeeps_bind; [by apply akeeps_upd|]. intros _. apply akeeps_acall. }
    specialize (Hk s1 Hw1). unfold mbind, AM_bind in Hk. rewrite (upd_run id _ sn1) in Hk by apply lookup_insert_eq.
    unfold s1 in Hk. cbn [sessionMap_ set_sessions] in Hk. by rewrite insert_insert_eq in Hk. }
  assert (sessionMap_ s2 !! id = Some sn2) as Hs2 by apply lookup_insert_eq.
  assert (sn_status sn2 <> S_UNCONNECTED) as Hst2 by (cbn; by rewrite H1).
  exists (released_state id sn2 s2), (released sn2). split.
  { unfold ConnectSession, on_session, GetAbilityConnectionSession. unfold mbind, AM_bind, aget. zb_false (id <=? 0). by rewrite Hs. }
  split.
  { unfold run_session_task. unfold mbind at 1, AM_bind at 1. rewrite (self_run id sn1) by apply lookup_insert_eq.
    rewrite H4, list_lookup_middle by done. unfold mbind at 1, AM_bind at 1. rewrite (upd_run id _ sn1) by apply lookup_insert_eq.
    unfold run_connect_callback. cbn [st_callback st_result isConnected]. rewrite Hcb. unfold mbind at 1, AM_bind at 1, acall, amod.
    rewrite <- (Release_run id sn2 s2 Hw2 Hs2 Hst2). unfold s2, s1. cbn [sessionMap_ set_sessions]. by rewrite insert_insert_eq. }
  assert (acalls_ (released_state id sn2 s2) = acalls_ s2 /\ sessionMap_ (released_state id sn2 s2) = <[id := released sn2]> (sessionMap_ s2) /\
    channels_ (released_state id sn2 s2) = without_all (ids_of (sn_channels sn2)) (channels_ s2)) as (-> & -> & ->).
  { unfold released_state. by destruct (drop_entry _ _ _ _). }
  split; [done|]. split; [apply lookup_insert_eq|]. do 2 (split; [done|]). intros c Hin.
  rewrite (proj1 (without_all_lookup _ _ _)). cbn. by rewrite H2, decide_True.
Qed.
End Sessions.

(** ** A concrete device *)

#[local] Existing Instance BinaryJson.

(** The service accepts every call; names and tokens are not hashed. *)
Definition demo_aenv : AEnv := {|
  a_channels := demo_menv;
  a_socketName := fun _ _ _ => demo_owner;
  a_channelName := fun text => text;
  a_token := fun _ _ => "token";
  a_pid := 7;
  a_GetPeerVersion := fun _ _ => ERR_OK;
  a_CollabMission := fun _ _ => ERR_OK;
  a_NotifyPrepareResult := fun _ => ERR_OK;
  a_NotifyReject := fun _ => ERR_OK;
  a_SendPixelMap := fun _ => ERR_OK;
  a_garbage := Message.garbage0;
|}.
Definition demo_peerInfo : PeerInfo := mkPeerInfo "dev" "app" "mod" "abi" "srv".
Definition demo_create (file : bool) : AOp :=
  ACreateSession "srv" "app" "mod" "abi" 5 demo_peerInfo (mkConnectOption true false false false file).

Definition areach (os : list AOp) : ACM :=
  match run_aops demo_aenv os ACM_new with inl (_, s) => s | inr _ => ACM_new end.
Lemma areach_wf os : acm_wf (areach os).
Proof.
  unfold areach. pose proof (akeeps_aops demo_aenv os ACM_new acm_wf_new) as H.
  destruct (run_aops demo_aenv os ACM_new) as [[[] s]|]; [done|apply acm_wf_new].
Qed.

(** A session with a channel for messages and one for data is connected. *)
Definition connected_ops : list AOp :=
  [demo_create false; AConnectSession 100 1; ANotifyPeerVersion 100; ANotifyCollabResult 100 ERR_OK demo_owner "token" ""].

Definition session_at (os : list AOp) : Session := default no_session (sessionMap_ (areach os) !! 100).

Lemma release_complete_witness :
  ids_of (sn_channels (session_at connected_ops)) = [1001; 2001] /\
  exists s', Release 100 (areach connected_ops) = inl (tt, s') /\ channelInfoMap_ (channels_ s') !! 2001 = None.
Proof.
  split; [vm_compute; reflexivity|].
  destruct (release_complete 100 (session_at connected_ops) (areach connected_ops) (areach_wf connected_ops)) as
    (s' & sn' & E & _ & _ & _ & _ & _ & _ & Hc & _).
  - vm_compute. reflexivity.
  - vm_compute. discriminate.
  - exists s'. split; [exact E|]. rewrite Hc. vm_compute. reflexivity.
Defined.


Lemma message_text_received_witness :
  exists b, message_buffer "hello" M_NORMAL ACM_new = inl (inr b, ACM_new) /\
    Session_OnMessageReceived demo_aenv 100 1001 (buffer_of (contents b)) (areach connected_ops)
    = handle_message demo_aenv 100 0 ("hello" +:+ NUL) (areach connected_ops).
Proof.
  destruct (message_text_received demo_aenv "hello" M_NORMAL ltac:(vm_compute; reflexivity)) as (b & E & _).
  exists b. split; [apply E|]. pose proof (E ACM_new) as E'. rewrite message_buffer_run in E' by (vm_compute; reflexivity).
  injection E' as <-. rewrite contents_buffer_of.
  apply (session_reads demo_aenv 100 1001 (session_at connected_ops)); vm_compute; reflexivity.
Defined.

Lemma second_connect_tears_down_witness :
  exists s1 s2, ConnectSession demo_aenv 100 2 (areach connected_ops) = inl (SAME_SESSION_IS_CONNECTING, s1) /\
    run_session_task 100 1 s1 = inl (tt, s2) /\ channelInfoMap_ (channels_ s2) !! 1001 = None.
Proof.
  destruct (second_connect_tears_down demo_aenv 100 1 2 (session_at connected_ops) (areach connected_ops) (areach_wf connected_ops)) as
    (s1 & s2 & sn2 & E1 & E2 & _ & _ & _ & _ & Hc).
  1,3,4,5: vm_compute; reflexivity.
  - vm_compute. discriminate.
  - exists s1, s2. split; [exact E1|]. split; [exact E2|]. apply Hc, list_elem_of_In. vm_compute. by left.
Defined.

(** A peer that asks twice for the file channel makes the session create it twice; the
    session knows one, and the other one survives the session. *)
Definition file_ops : list AOp :=
  [demo_create false; AAcceptConnect 100 "token";
   AChannel (OpSocketConnected 5 (socket_name demo_owner MESSAGE "modabimodabi")); AChannel (OpRunTask 0); ADeliver 0] ++
  flat_map (fun _ => [AChannel (OpMessageReceived 5 (Some (message_bytes demo_owner M_CONNECT_FILE_CHANNEL))); ADeliver 0]) [1; 2] ++
  [ADestroySession 100].
Theorem file_channel_leaked :
  sessionMap_ (areach file_ops) = ∅ /\ is_Some (channelInfoMap_ (channels_ (areach file_ops)) !! 4002).
Proof. split; vm_compute; eauto. Qed.

(** A session that connects and is asked to accept the connection of its peer is
    entered in both tables; its end removes one entry, and no later session of the
    same abilities can connect or accept. *)
Definition meeting_ops : list AOp :=
  [demo_create false; AConnectSession 100 1; AAcceptConnect 100 "token"; ADestroySession 100; demo_create false].
Theorem meeting_entry_stays :
  exists s1 s2, ConnectSession demo_aenv 101 1 (areach meeting_ops) = inl (SAME_SESSION_IS_CONNECTING, s1) /\
    AcceptConnect demo_aenv 101 "token" (areach meeting_ops) = inl (COLLAB_INVALID_PARAMETERS, s2) /\
    sessionMap_ (areach meeting_ops) !! 100 = None.
Proof.
  destruct (ConnectSession demo_aenv 101 1 (areach meeting_ops)) as [[r1 s1]|] eqn:E1; [|by vm_compute in E1].
  destruct (AcceptConnect demo_aenv 101 "token" (areach meeting_ops)) as [[r2 s2]|] eqn:E2; [|by vm_compute in E2].
  exists s1, s2. assert (r1 = SAME_SESSION_IS_CONNECTING) as -> by (vm_compute in E1; by injection E1 as <- _).
  assert (r2 = COLLAB_INVALID_PARAMETERS) as -> by (vm_compute in E2; by injection E2 as <- _). split; [done|]. split; [done|]. by vm_compute.
Qed.
