(* ===== verification/MissionCondition.v ===== *)
(** The conditions under which a device offers a mission for continuation:
    services/dtbschedmgr/src/mission/dms_continue_condition_manager.cpp.

    The table has one list of missions for each user. What the ability manager and
    the other services answer is given for each step ([CondEnv]). The records are
    local variables of the C++ code: a field that the code does not set has whatever
    value the memory had ([c_garbage]). *)

From Stdlib Require Import Sorted.
From S2P Require Import Prelude StdMap SchedErrors.
#[local] Open Scope string_scope.
#[local] Open Scope list_scope.
#[local] Open Scope Z_scope.

Definition CONDITION_INVALID_MISSION_ID : Z := -1.

(** [AAFwk::ContinueState]. *)
Inductive ContinueState := CONTINUESTATE_UNKNOWN | CONTINUESTATE_ACTIVE | CONTINUESTATE_INACTIVE.
#[global] Instance ContinueState_eq_dec : EqDecision ContinueState.
Proof. solve_decision. Defined.

Record MissionStatus := mkMissionStatus {
  missionId : Z;
  bundleName : string;
  moduleName : string;
  abilityName : string;
  isContinuable : bool;
  launchFlag : Z;
  isFocused : bool;
  continueState : ContinueState;
}.
Definition set_isFocused (b : bool) (s : MissionStatus) : MissionStatus :=
  mkMissionStatus (missionId s) (bundleName s) (moduleName s) (abilityName s) (isContinuable s) (launchFlag s) b (continueState s).
Definition set_continueState (c : ContinueState) (s : MissionStatus) : MissionStatus :=
  mkMissionStatus (missionId s) (bundleName s) (moduleName s) (abilityName s) (isContinuable s) (launchFlag s) (isFocused s) c.

Inductive MissionEventType :=
  | MISSION_EVENT_INVALID | MISSION_EVENT_FOCUSED | MISSION_EVENT_UNFOCUSED | MISSION_EVENT_DESTORYED | MISSION_EVENT_ACTIVE
  | MISSION_EVENT_INACTIVE | MISSION_EVENT_TIMEOUT | MISSION_EVENT_MMI.
#[global] Instance MissionEventType_eq_dec : EqDecision MissionEventType.
Proof. solve_decision. Defined.

Inductive SysEventType := SYS_EVENT_INVALID | SYS_EVENT_CONTINUE_SWITCH | SYS_EVENT_WIFI | SYS_EVENT_BLUETOOTH | SYS_EVENT_SCREEN_LOCK.

(** [AAFwk::MissionInfo], what is read of it. *)
Record MissionInfo := mkMissionInfo {
  mi_id : Z;
  mi_bundleName : string;
  mi_moduleName : string;
  mi_abilityName : string;
  mi_flags : Z;
  mi_continuable : bool;
  mi_continueState : ContinueState;
}.

(** The answers during one step. [c_zero]: the state whose number is 0. *)
Record CondEnv := mkCondEnv {
  DMS_CHECK_WIFI : bool;
  DMS_CHECK_BLUETOOTH : bool;
  c_CheckCtrlRule : bool;
  c_IsCurrentContinueSwitchOn : bool;
  c_IsWifiActive : bool;
  c_IsBluetoothActive : bool;
  c_GetForegroundUser : Z;
  c_GetMissionInfos : list MissionInfo;
  c_GetMissionInfo : Z -> Z * MissionInfo;
  c_GetCurrentMissionId : Z;
  c_CheckBundleContinueConfig : string -> bool;
  c_garbage : Z -> bool;
  c_zero : ContinueState;
}.

Record CondMgr := mkCondMgr {
  isCfgDevice_ : bool;
  isSwitchOn_ : bool;
  isWifiActive_ : bool;
  isBtActive_ : bool;
  isScreenLocked_ : bool;
  missionMap_ : zmap (zmap MissionStatus);
  lastFocusMission_ : Z * MissionStatus;
}.

Definition set_missionMap (x : zmap (zmap MissionStatus)) (m : CondMgr) : CondMgr :=
  mkCondMgr (isCfgDevice_ m) (isSwitchOn_ m) (isWifiActive_ m) (isBtActive_ m) (isScreenLocked_ m) x (lastFocusMission_ m).
Definition set_lastFocus (x : Z * MissionStatus) (m : CondMgr) : CondMgr :=
  mkCondMgr (isCfgDevice_ m) (isSwitchOn_ m) (isWifiActive_ m) (isBtActive_ m) (isScreenLocked_ m) (missionMap_ m) x.

Section Condition.
Variable env : CondEnv.

(** A value-initialised record, which [operator\[\]] of the map creates. *)
Definition status_zero : MissionStatus := mkMissionStatus 0 "" "" "" false 0 false (c_zero env).

Definition CondMgr_new : CondMgr := mkCondMgr false false false false false [] (0, status_zero).

(** [missionMap_\[accountId\]]. *)
Definition missions (accountId : Z) (m : CondMgr) : zmap MissionStatus := default [] (zfind accountId (missionMap_ m)).
Definition put_missions (accountId : Z) (l : zmap MissionStatus) (m : CondMgr) : CondMgr :=
  set_missionMap (zset accountId l (missionMap_ m)) m.
Definition put_mission (accountId id : Z) (s : MissionStatus) (m : CondMgr) : CondMgr :=
  put_missions accountId (zset id s (missions accountId m)) m.

Definition IsMissionStatusExistLocked (accountId id : Z) (m : CondMgr) : bool :=
  match zfind accountId (missionMap_ m) with
  | None => false
  | Some l => match zfind id l with Some _ => true | None => false end
  end.

(** The focus is not set. *)
Definition ConvertToMissionStatus (info : MissionInfo) : MissionStatus :=
  mkMissionStatus (mi_id info) (mi_bundleName info) (mi_moduleName info) (mi_abilityName info) (mi_continuable info) (mi_flags info)
    (c_garbage env (mi_id info)) (mi_continueState info).

Definition CleanLastFocusedFlagLocked (accountId id : Z) (m : CondMgr) : CondMgr :=
  put_missions accountId
    (map (fun e => if negb (e.1 =? id) && isFocused e.2 then (e.1, set_isFocused false e.2) else e) (missions accountId m)) m.

(** ** Initialisation *)

Definition InitSystemCondition (m : CondMgr) : CondMgr :=
  mkCondMgr (negb (c_CheckCtrlRule env)) (c_IsCurrentContinueSwitchOn env) (c_IsWifiActive env) (c_IsBluetoothActive env)
    (isScreenLocked_ m) (missionMap_ m) (lastFocusMission_ m).

(** The later of two missions with one identity wins. *)
Definition initial_missions : zmap MissionStatus :=
  let l := foldl (fun l info => zset (mi_id info) (ConvertToMissionStatus info) l) [] (c_GetMissionInfos env) in
  let f := c_GetCurrentMissionId env in
  match (if 0 <? f then zfind f l else None) with
  | Some s => zset f (set_isFocused true s) l
  | None => l
  end.

Definition InitMissionStatus (accountId : Z) (m : CondMgr) : CondMgr :=
  match zfind accountId (missionMap_ m) with
  | Some _ => m
  | None => put_missions accountId initial_missions m
  end.

Definition InitMissionCondition (m : CondMgr) : CondMgr := InitMissionStatus (c_GetForegroundUser env) m.

Definition Cond_Init (m : CondMgr) : CondMgr := InitMissionCondition (InitSystemCondition m).
Definition Cond_UnInit (m : CondMgr) : CondMgr := set_missionMap [] m.

(** ** The system *)

Definition UpdateSystemStatus (type : SysEventType) (value : bool) (m : CondMgr) : Z * CondMgr :=
  match type with
  | SYS_EVENT_INVALID => (INVALID_PARAMETERS_ERR, m)
  | SYS_EVENT_CONTINUE_SWITCH =>
      (ERR_OK, mkCondMgr (isCfgDevice_ m) value (isWifiActive_ m) (isBtActive_ m) (isScreenLocked_ m) (missionMap_ m) (lastFocusMission_ m))
  | SYS_EVENT_WIFI =>
      (ERR_OK, mkCondMgr (isCfgDevice_ m) (isSwitchOn_ m) value (isBtActive_ m) (isScreenLocked_ m) (missionMap_ m) (lastFocusMission_ m))
  | SYS_EVENT_BLUETOOTH =>
      (ERR_OK, mkCondMgr (isCfgDevice_ m) (isSwitchOn_ m) (isWifiActive_ m) value (isScreenLocked_ m) (missionMap_ m) (lastFocusMission_ m))
  | SYS_EVENT_SCREEN_LOCK =>
      (ERR_OK, mkCondMgr (isCfgDevice_ m) (isSwitchOn_ m) (isWifiActive_ m) (isBtActive_ m) value (missionMap_ m) (lastFocusMission_ m))
  end.

Definition Cond_OnUserSwitched (accountId : Z) (m : CondMgr) : CondMgr := InitMissionStatus accountId m.
Definition Cond_OnUserRemoved (accountId : Z) (m : CondMgr) : CondMgr := set_missionMap (zerase accountId (missionMap_ m)) m.

(** ** Missions *)

Definition OnMissionFocused (accountId id : Z) (m : CondMgr) : Z * CondMgr :=
  let '(ret, info) := c_GetMissionInfo env id in
  if IsMissionStatusExistLocked accountId id m then
    let m := CleanLastFocusedFlagLocked accountId id m in
    (ERR_OK, put_mission accountId id (set_isFocused true (default status_zero (zfind id (missions accountId m)))) m)
  else if negb (ret =? ERR_OK) then (ret, m)
  else
    let m := CleanLastFocusedFlagLocked accountId id m in
    (ERR_OK, put_mission accountId id (set_isFocused true (ConvertToMissionStatus info)) m).

Definition OnMissionUnfocused (accountId id : Z) (m : CondMgr) : Z * CondMgr :=
  if negb (IsMissionStatusExistLocked accountId id m) then (CONDITION_INVALID_MISSION_ID, m)
  else
    let s := set_isFocused false (default status_zero (zfind id (missions accountId m))) in
    (ERR_OK, set_lastFocus (accountId, s) (put_mission accountId id s m)).

Definition OnMissionDestory (accountId id : Z) (m : CondMgr) : Z * CondMgr :=
  if negb (IsMissionStatusExistLocked accountId id m) then (ERR_OK, m)
  else (ERR_OK, put_missions accountId (zerase id (missions accountId m)) m).

Definition set_mission_state (c : ContinueState) (accountId id : Z) (m : CondMgr) : Z * CondMgr :=
  if negb (IsMissionStatusExistLocked accountId id m) then (ERR_OK, m)
  else (ERR_OK, put_mission accountId id (set_continueState c (default status_zero (zfind id (missions accountId m)))) m).
Definition OnMissionActive : Z -> Z -> CondMgr -> Z * CondMgr := set_mission_state CONTINUESTATE_ACTIVE.
Definition OnMissionInactive : Z -> Z -> CondMgr -> Z * CondMgr := set_mission_state CONTINUESTATE_INACTIVE.

Definition UpdateMissionStatus (accountId id : Z) (type : MissionEventType) (m : CondMgr) : Z * CondMgr :=
  match zfind accountId (missionMap_ m) with
  | None => (INVALID_PARAMETERS_ERR, m)
  | Some _ =>
      match type with
      | MISSION_EVENT_FOCUSED => OnMissionFocused accountId id m
      | MISSION_EVENT_UNFOCUSED => OnMissionUnfocused accountId id m
      | MISSION_EVENT_DESTORYED => OnMissionDestory accountId id m
      | MISSION_EVENT_ACTIVE => OnMissionActive accountId id m
      | MISSION_EVENT_INACTIVE => OnMissionInactive accountId id m
      | _ => (INVALID_PARAMETERS_ERR, m)
      end
  end.

(** ** Questions *)

Definition CheckSystemSendCondition (m : CondMgr) : bool :=
  if isCfgDevice_ m then false
  else if negb (isSwitchOn_ m) then false
  else if DMS_CHECK_WIFI env && negb (isWifiActive_ m) then false
  else if DMS_CHECK_BLUETOOTH env && negb (isBtActive_ m) then false
  else true.

Definition CheckSendFocusedCondition (s : MissionStatus) : bool :=
  if negb (isContinuable s) then false
  else if decide (continueState s <> CONTINUESTATE_ACTIVE) then false
  else if negb (c_CheckBundleContinueConfig env (bundleName s)) then false
  else true.
Definition CheckSendUnfocusedCondition (s : MissionStatus) : bool :=
  if negb (isFocused s) then false
  else if negb (isContinuable s) then false
  else if decide (continueState s <> CONTINUESTATE_ACTIVE) then false
  else if negb (c_CheckBundleContinueConfig env (bundleName s)) then false
  else true.
Definition CheckSendActiveCondition (s : MissionStatus) : bool :=
  if negb (isFocused s) then false
  else if negb (isContinuable s) then false
  else if negb (c_CheckBundleContinueConfig env (bundleName s)) then false
  else true.
Definition CheckSendInactiveCondition (s : MissionStatus) : bool :=
  if negb (isContinuable s) then false
  else if negb (c_CheckBundleContinueConfig env (bundleName s)) then false
  else true.

Definition CheckMissionSendCondition (s : MissionStatus) (type : MissionEventType) : bool :=
  match type with
  | MISSION_EVENT_FOCUSED | MISSION_EVENT_MMI => CheckSendFocusedCondition s
  | MISSION_EVENT_UNFOCUSED | MISSION_EVENT_DESTORYED | MISSION_EVENT_TIMEOUT => CheckSendUnfocusedCondition s
  | MISSION_EVENT_ACTIVE => CheckSendActiveCondition s
  | MISSION_EVENT_INACTIVE => CheckSendInactiveCondition s
  | MISSION_EVENT_INVALID => false
  end.

Definition GetMissionStatus (accountId id : Z) (m : CondMgr) : option MissionStatus :=
  if IsMissionStatusExistLocked accountId id m then zfind id (missions accountId m) else None.

Definition IsScreenLocked (m : CondMgr) : bool := isScreenLocked_ m.

Definition first_focused (l : zmap MissionStatus) : option Z := fst <$> zfirst isFocused l.

Definition GetCurrentFocusedMission (accountId : Z) (m : CondMgr) : Z :=
  match zfind accountId (missionMap_ m) with
  | None => CONDITION_INVALID_MISSION_ID
  | Some l => default CONDITION_INVALID_MISSION_ID (first_focused l)
  end.

(** [id] is what the caller has in the variable for the result. The entry of that
    mission is created when there is none. *)
Definition GetMissionIdByBundleName (accountId : Z) (name : string) (id : Z) (m : CondMgr) : Z * Z * CondMgr :=
  match zfind accountId (missionMap_ m) with
  | None => (MISSION_NOT_FOCUSED, id, m)
  | Some l =>
      let id := default id (first_focused l) in
      let s := default status_zero (zfind id l) in
      let m := match zfind id l with Some _ => m | None => put_mission accountId id status_zero m end in
      let last := snd (lastFocusMission_ m) in
      if String.eqb (bundleName s) name && isContinuable s then (ERR_OK, id, m)
      else if String.eqb (bundleName last) name && isContinuable last then (ERR_OK, missionId last, m)
      else (MISSION_NOT_FOCUSED, id, m)
  end.
End Condition.
