(* ===== verification/MissionSend.v ===== *)
(** The broadcasts that offer a mission to other devices:
    services/dtbschedmgr/src/mission/notification/dms_continue_send_manager.cpp and
    dms_continue_send_strategy.cpp, driven by
    mission/distributed_mission_focused_listener.cpp, common_event_listener.cpp and
    the observer of the continue switch in distributed_sched_service.cpp.

    The tasks of the event handler wait in a list and any of them may run next. A
    delayed task has a name made of a fixed text and the number of a mission; the
    number stands for the name. The manager of recommendations, which is told the
    same events, is left out. *)

From S2P Require Import Prelude StdMap SchedErrors MissionCondition.
#[local] Open Scope string_scope.
#[local] Open Scope list_scope.
#[local] Open Scope Z_scope.

Definition INVALID_MISSION_ID : Z := -1.
Definition FOCUS_TIMEOUT_DELAY_TIME : Z := 60000.
Definition SCREEN_LOCK_DELAY_TIME : Z := 10000.
Definition SCREEN_LOCK_EVENT_INTERVAL : Z := 500.
Definition BROADCAST_TYPE_APPEAR : Z := 0.
Definition BROADCAST_TYPE_DISAPPEAR : Z := 1.
Definition DMS_FOCUSED_TYPE : Z := 0.
Definition DMS_UNFOCUSED_TYPE : Z := 1.
Definition DMS_DATA_LEN : Z := 3.
Definition DMS_SEND_LEN : Z := 4.
Definition DMS_0XFF : Z := 255.
Definition CONTINUE_SHIFT_04 : Z := 4.
Definition CONTINUE_SHIFT_08 : Z := 8.

(** [unfoTime] is an [int32_t]. *)
Record LastUnfoInfo := mkUnfo { unfo_missionId : Z; unfo_unfoTime : Z; unfo_status : MissionStatus }.

(** What a task does when it runs. *)
Inductive SendTask :=
  | TBroadcast (s : MissionStatus) (type : MissionEventType)
  | TMission (id : Z) (type : MissionEventType)
  | TMmi
  | TScreenLocked
  | TUserSwitched
  | TLockedEvent (type : Z).

(** The name of a delayed task. *)
Record SendEntry := mkSendEntry { se_name : option Z; se_delay : Z; se_task : SendTask }.

Record SendMgr := mkSendMgr {
  sm_accountId : Z;
  mmiMonitorId_ : Z;
  sm_handler : bool;
  unfoInfo_ : LastUnfoInfo;
  sm_tasks : list SendEntry;
}.

(** Bytes handed to softbus; the listener of input events. *)
Inductive SendEvent := EvSoftbus (bytes : list Z) | EvAddMMI (id : Z) | EvRemoveMMI (id : Z).

Record SendWorld := mkSendWorld { w_cond : CondMgr; w_send : SendMgr; w_events : list SendEvent }.

(** The answers during one step; [s_tick] is the clock in milliseconds. *)
Record SendEnv := mkSendEnv {
  s_cond : CondEnv;
  DMS_ICON_HOLD_ON : bool;
  s_PostTask : bool;
  s_GetEventRunner : bool;
  s_GetTickCount : Z;
  s_AddMMIListener : Z;
  s_GetBundleNameId : string -> Z * Z;
  s_GetContinueTypeId : string -> string -> Z * Z;
}.

Definition with_cond (c : CondMgr) (w : SendWorld) : SendWorld := mkSendWorld c (w_send w) (w_events w).
Definition with_send (f : SendMgr -> SendMgr) (w : SendWorld) : SendWorld := mkSendWorld (w_cond w) (f (w_send w)) (w_events w).
Definition emit (e : SendEvent) (w : SendWorld) : SendWorld := mkSendWorld (w_cond w) (w_send w) (w_events w ++ [e]).
Definition set_mmi (x : Z) (s : SendMgr) : SendMgr := mkSendMgr (sm_accountId s) x (sm_handler s) (unfoInfo_ s) (sm_tasks s).
Definition set_handler (x : bool) (s : SendMgr) : SendMgr := mkSendMgr (sm_accountId s) (mmiMonitorId_ s) x (unfoInfo_ s) (sm_tasks s).
Definition set_unfo (x : LastUnfoInfo) (s : SendMgr) : SendMgr := mkSendMgr (sm_accountId s) (mmiMonitorId_ s) (sm_handler s) x (sm_tasks s).
Definition set_send_tasks (x : list SendEntry) (s : SendMgr) : SendMgr :=
  mkSendMgr (sm_accountId s) (mmiMonitorId_ s) (sm_handler s) (unfoInfo_ s) x.

Section Send.
Variable env : SendEnv.

Definition zero : MissionStatus := status_zero (s_cond env).
Definition no_unfo : LastUnfoInfo := mkUnfo INVALID_MISSION_ID 0 (mkMissionStatus INVALID_MISSION_ID "" "" "" false 0 false (c_zero (s_cond env))).
Definition SendMgr_new : SendMgr := mkSendMgr 100 (-1) false no_unfo [].

(** ** The event handler *)

Definition RemoveTask (name : Z) (w : SendWorld) : SendWorld :=
  with_send (fun s => set_send_tasks (List.filter (fun e => negb (bool_decide (se_name e = Some name))) (sm_tasks s)) s) w.
Definition PostTask (e : SendEntry) (w : SendWorld) : SendWorld :=
  if s_PostTask env then with_send (fun s => set_send_tasks (sm_tasks s ++ [e]) s) w else w.

Definition ResetScreenLockedInfo (w : SendWorld) : SendWorld := with_send (set_unfo (mkUnfo INVALID_MISSION_ID 0 zero)) w.

Definition Send_Init (currentUserId : Z) (w : SendWorld) : SendWorld :=
  if sm_handler (w_send w) then w
  else with_send (fun s => set_handler true (mkSendMgr currentUserId (mmiMonitorId_ s) (sm_handler s) (unfoInfo_ s) [])) (ResetScreenLockedInfo w).

Definition Send_UnInit (w : SendWorld) : SendWorld :=
  if negb (sm_handler (w_send w)) then w
  else if s_GetEventRunner env then with_send (fun s => set_handler false (set_send_tasks [] s)) w
  else w.

(** ** Sending *)

(** The bytes of a broadcast. *)
Definition broadcast_bytes (bundleNameId continueTypeId type : Z) : list Z :=
  [u8 (Z.lor (Z.shiftl type CONTINUE_SHIFT_04) DMS_DATA_LEN);
   Z.land (Z.shiftr bundleNameId CONTINUE_SHIFT_08) DMS_0XFF;
   Z.land bundleNameId DMS_0XFF;
   Z.land continueTypeId DMS_0XFF].
Definition SendSoftbusEvent (bundleNameId continueTypeId type : Z) (w : SendWorld) : SendWorld :=
  emit (EvSoftbus (broadcast_bytes bundleNameId continueTypeId type)) w.

Definition QueryBroadcastInfo (s : MissionStatus) : Z + (Z * Z) :=
  if String.eqb (bundleName s) "" || String.eqb (abilityName s) "" then inl INVALID_PARAMETERS_ERR
  else
    let '(ret, bundleNameId) := s_GetBundleNameId env (bundleName s) in
    if negb (ret =? ERR_OK) then inl ret
    else
      let '(ret, continueTypeId) := s_GetContinueTypeId env (bundleName s) (abilityName s) in
      if negb (ret =? ERR_OK) then inl ret else inr (bundleNameId, continueTypeId).

Definition AddMMIListener (w : SendWorld) : SendWorld :=
  if 0 <=? mmiMonitorId_ (w_send w) then w
  else with_send (set_mmi (s_AddMMIListener env)) (emit (EvAddMMI (s_AddMMIListener env)) w).
Definition RemoveMMIListener (w : SendWorld) : SendWorld :=
  if mmiMonitorId_ (w_send w) <? 0 then w
  else with_send (set_mmi INVALID_MISSION_ID) (emit (EvRemoveMMI (mmiMonitorId_ (w_send w))) w).

Definition SendContinueBroadcastAfterDelay (id : Z) (w : SendWorld) : SendWorld :=
  if negb (sm_handler (w_send w)) then w
  else PostTask (mkSendEntry (Some id) FOCUS_TIMEOUT_DELAY_TIME (TMission id MISSION_EVENT_TIMEOUT)) (RemoveTask id w).

Definition SetScreenLockedInfo (id : Z) (s : MissionStatus) (w : SendWorld) : SendWorld :=
  with_send (set_unfo (mkUnfo id (i32 (s_GetTickCount env)) s)) w.
Definition SetMissionContinueStateInfo (s : MissionStatus) (w : SendWorld) : SendWorld :=
  with_send (fun m => set_unfo (mkUnfo (unfo_missionId (unfoInfo_ m)) (unfo_unfoTime (unfoInfo_ m))
                                  (set_continueState (continueState s) (unfo_status (unfoInfo_ m)))) m) w.

(** ** Strategies: the result, the type to send, the new state *)

Definition StrategyFocused (s : MissionStatus) (w : SendWorld) : Z * Z * SendWorld :=
  (ERR_OK, BROADCAST_TYPE_APPEAR, ResetScreenLockedInfo (SendContinueBroadcastAfterDelay (missionId s) (AddMMIListener w))).
Definition StrategyUnfocused (s : MissionStatus) (w : SendWorld) : Z * Z * SendWorld :=
  let w := SetScreenLockedInfo (missionId s) s (RemoveMMIListener w) in
  (if IsScreenLocked (w_cond w) then DMS_PERMISSION_DENIED else ERR_OK, BROADCAST_TYPE_DISAPPEAR, w).
Definition StrategyDestoryed (s : MissionStatus) (w : SendWorld) : Z * Z * SendWorld :=
  (ERR_OK, BROADCAST_TYPE_DISAPPEAR, RemoveMMIListener w).
Definition StrategyActive (s : MissionStatus) (w : SendWorld) : Z * Z * SendWorld :=
  (ERR_OK, BROADCAST_TYPE_APPEAR, SendContinueBroadcastAfterDelay (missionId s) (AddMMIListener w)).
Definition StrategyInactive (s : MissionStatus) (w : SendWorld) : Z * Z * SendWorld :=
  let w := RemoveMMIListener w in
  if negb (missionId s =? unfo_missionId (unfoInfo_ (w_send w))) then (DMS_PERMISSION_DENIED, BROADCAST_TYPE_DISAPPEAR, w)
  else (ERR_OK, BROADCAST_TYPE_DISAPPEAR, SetMissionContinueStateInfo s w).
Definition StrategyTimeout (s : MissionStatus) (w : SendWorld) : Z * Z * SendWorld := (ERR_OK, BROADCAST_TYPE_DISAPPEAR, w).
Definition StrategyMMI (s : MissionStatus) (w : SendWorld) : Z * Z * SendWorld :=
  (ERR_OK, BROADCAST_TYPE_APPEAR, SendContinueBroadcastAfterDelay (missionId s) w).

Definition ExecuteSendStrategy (type : MissionEventType) (s : MissionStatus) (w : SendWorld) : Z * Z * SendWorld :=
  match type with
  | MISSION_EVENT_FOCUSED => StrategyFocused s w
  | MISSION_EVENT_UNFOCUSED => StrategyUnfocused s w
  | MISSION_EVENT_DESTORYED => StrategyDestoryed s w
  | MISSION_EVENT_ACTIVE => StrategyActive s w
  | MISSION_EVENT_INACTIVE => StrategyInactive s w
  | MISSION_EVENT_TIMEOUT => StrategyTimeout s w
  | MISSION_EVENT_MMI => StrategyMMI s w
  | MISSION_EVENT_INVALID => (INVALID_PARAMETERS_ERR, 0, w)
  end.

Definition SendContinueBroadcast (s : MissionStatus) (type : MissionEventType) (w : SendWorld) : SendWorld :=
  if negb (CheckSystemSendCondition (s_cond env) (w_cond w)) || negb (CheckMissionSendCondition (s_cond env) s type) then w
  else
    let '(ret, sendType, w) := ExecuteSendStrategy type s w in
    if negb (ret =? ERR_OK) then w
    else match QueryBroadcastInfo s with
    | inl _ => w
    | inr (bundleNameId, continueTypeId) => SendSoftbusEvent bundleNameId continueTypeId sendType w
    end.

(** The status is read when the task runs. *)
Definition SendContinueBroadcast_id (id : Z) (type : MissionEventType) (w : SendWorld) : SendWorld :=
  match GetMissionStatus (sm_accountId (w_send w)) id (w_cond w) with
  | None => w
  | Some s => SendContinueBroadcast s type w
  end.

Definition SendScreenLockedEvent (type : Z) (w : SendWorld) : SendWorld :=
  match QueryBroadcastInfo (unfo_status (unfoInfo_ (w_send w))) with
  | inl _ => w
  | inr (bundleNameId, continueTypeId) =>
      if negb (CheckSystemSendCondition (s_cond env) (w_cond w)) then w
      else SendSoftbusEvent bundleNameId continueTypeId type w
  end.

Definition PostScreenLockedEventAfterDelay (id type timeout : Z) (w : SendWorld) : SendWorld :=
  if negb (sm_handler (w_send w)) then w
  else
    let w := RemoveTask id w in
    if timeout =? 0 then PostTask (mkSendEntry None 0 (TLockedEvent type)) w
    else PostTask (mkSendEntry (Some id) timeout (TLockedEvent type)) w.

(** [ScreenLockedHandler::OnDeviceScreenLocked]. *)
Definition handle_screen_locked (w : SendWorld) : SendWorld :=
  let unfo := unfoInfo_ (w_send w) in
  let w := if negb (unfo_missionId unfo =? INVALID_MISSION_ID) && (s_GetTickCount env - unfo_unfoTime unfo <? SCREEN_LOCK_EVENT_INTERVAL)
           then PostScreenLockedEventAfterDelay (unfo_missionId unfo) DMS_FOCUSED_TYPE 0 w else w in
  let post w := PostScreenLockedEventAfterDelay (unfo_missionId (unfoInfo_ (w_send w))) DMS_UNFOCUSED_TYPE SCREEN_LOCK_DELAY_TIME w in
  if DMS_ICON_HOLD_ON env then
    let account := sm_accountId (w_send w) in
    let id := GetCurrentFocusedMission account (w_cond w) in
    match GetMissionStatus account id (w_cond w) with
    | None => w
    | Some s => post (SetScreenLockedInfo id s w)
    end
  else post w.

(** ** Public methods *)

Definition OnMissionStatusChanged (id : Z) (type : MissionEventType) (w : SendWorld) : SendWorld :=
  match GetMissionStatus (sm_accountId (w_send w)) id (w_cond w) with
  | None => w
  | Some s =>
      if negb (sm_handler (w_send w)) then w
      else PostTask (mkSendEntry None 0 (TBroadcast s type)) (RemoveTask id w)
  end.
Definition OnMMIEvent (w : SendWorld) : SendWorld :=
  if negb (sm_handler (w_send w)) then w else PostTask (mkSendEntry None 0 TMmi) w.
Definition OnDeviceOnline (w : SendWorld) : SendWorld :=
  let id := c_GetCurrentMissionId (s_cond env) in
  if id <=? 0 then w else OnMissionStatusChanged id MISSION_EVENT_FOCUSED w.
Definition OnDeviceScreenLocked (w : SendWorld) : SendWorld :=
  if negb (sm_handler (w_send w)) then w else PostTask (mkSendEntry None 0 TScreenLocked) w.
Definition Send_OnUserSwitched (w : SendWorld) : SendWorld :=
  if negb (sm_handler (w_send w)) then w
  else RemoveTask (unfo_missionId (unfoInfo_ (w_send w))) (PostTask (mkSendEntry None 0 TUserSwitched) w).

(** ** Tasks *)

Definition handle_mmi (w : SendWorld) : SendWorld :=
  let id := GetCurrentFocusedMission (sm_accountId (w_send w)) (w_cond w) in
  if negb (sm_handler (w_send w)) then w else SendContinueBroadcast_id id MISSION_EVENT_MMI (RemoveTask id w).

Definition run_send_task (t : SendTask) (w : SendWorld) : SendWorld :=
  match t with
  | TBroadcast s type => SendContinueBroadcast s type w
  | TMission id type => SendContinueBroadcast_id id type w
  | TMmi => handle_mmi w
  | TScreenLocked => handle_screen_locked w
  | TUserSwitched => SendScreenLockedEvent DMS_UNFOCUSED_TYPE (RemoveMMIListener w)
  | TLockedEvent type => SendScreenLockedEvent type w
  end.

Definition RunSendTask (n : nat) (w : SendWorld) : SendWorld :=
  match sm_tasks (w_send w) !! n with
  | None => w
  | Some e => run_send_task (se_task e) (with_send (fun s => set_send_tasks (delete n (sm_tasks s)) s) w)
  end.

(** ** Events of the system *)

Definition update_mission (id : Z) (type : MissionEventType) (w : SendWorld) : SendWorld :=
  with_cond (UpdateMissionStatus (s_cond env) (c_GetForegroundUser (s_cond env)) id type (w_cond w)).2 w.
Definition update_system (type : SysEventType) (value : bool) (w : SendWorld) : SendWorld :=
  with_cond (UpdateSystemStatus type value (w_cond w)).2 w.

Definition Listener_OnMissionFocused (id : Z) (w : SendWorld) : SendWorld :=
  OnMissionStatusChanged id MISSION_EVENT_FOCUSED (update_mission id MISSION_EVENT_FOCUSED w).
Definition Listener_OnMissionUnfocused (id : Z) (w : SendWorld) : SendWorld :=
  update_mission id MISSION_EVENT_UNFOCUSED (OnMissionStatusChanged id MISSION_EVENT_UNFOCUSED w).
Definition Listener_OnMissionDestroyed (id : Z) (w : SendWorld) : SendWorld :=
  update_mission id MISSION_EVENT_DESTORYED (OnMissionStatusChanged id MISSION_EVENT_DESTORYED w).
Definition Service_SetMissionContinueState (id : Z) (state : ContinueState) (w : SendWorld) : SendWorld :=
  let event := if decide (state = CONTINUESTATE_ACTIVE) then MISSION_EVENT_ACTIVE else MISSION_EVENT_INACTIVE in
  OnMissionStatusChanged id event (update_mission id event w).
(** The observer of the continue switch. *)
Definition switch_changed (on : bool) (w : SendWorld) : SendWorld :=
  let w := update_system SYS_EVENT_CONTINUE_SWITCH on w in
  OnMissionStatusChanged (c_GetCurrentMissionId (s_cond env)) (if on then MISSION_EVENT_FOCUSED else MISSION_EVENT_UNFOCUSED) w.
Definition HandleScreenLocked (w : SendWorld) : SendWorld := OnDeviceScreenLocked (update_system SYS_EVENT_SCREEN_LOCK true w).
Definition HandleScreenUnLocked (w : SendWorld) : SendWorld := update_system SYS_EVENT_SCREEN_LOCK false w.
Definition HandleScreenOff (w : SendWorld) : SendWorld := if DMS_ICON_HOLD_ON env then HandleScreenLocked w else w.
Definition HandleScreenOn (w : SendWorld) : SendWorld :=
  if DMS_ICON_HOLD_ON env then OnDeviceOnline (update_system SYS_EVENT_SCREEN_LOCK false w) else w.

Inductive SendOp :=
  | SoInit (user : Z)
  | SoUnInit
  | SoCondInit
  | SoCondUnInit
  | SoFocused (id : Z)
  | SoUnfocused (id : Z)
  | SoDestroyed (id : Z)
  | SoState (id : Z) (state : ContinueState)
  | SoSwitch (on : bool)
  | SoSystem (type : SysEventType) (value : bool)
  | SoScreenLocked
  | SoScreenUnLocked
  | SoScreenOff
  | SoScreenOn
  | SoDeviceOnline
  | SoMmi
  | SoUserSwitched (account : Z)
  | SoUserRemoved (account : Z)
  | SoFind (account : Z) (name : string) (id : Z)
  | SoTask (n : nat).

Definition run_send_op (o : SendOp) (w : SendWorld) : SendWorld :=
  match o with
  | SoInit u => Send_Init u w
  | SoUnInit => Send_UnInit w
  | SoCondInit => with_cond (Cond_Init (s_cond env) (w_cond w)) w
  | SoCondUnInit => with_cond (Cond_UnInit (w_cond w)) w
  | SoFocused id => Listener_OnMissionFocused id w
  | SoUnfocused id => Listener_OnMissionUnfocused id w
  | SoDestroyed id => Listener_OnMissionDestroyed id w
  | SoState id st => Service_SetMissionContinueState id st w
  | SoSwitch on => switch_changed on w
  | SoSystem t v => update_system t v w
  | SoScreenLocked => HandleScreenLocked w
  | SoScreenUnLocked => HandleScreenUnLocked w
  | SoScreenOff => HandleScreenOff w
  | SoScreenOn => HandleScreenOn w
  | SoDeviceOnline => OnDeviceOnline w
  | SoMmi => OnMMIEvent w
  | SoUserSwitched a => Send_OnUserSwitched (with_cond (Cond_OnUserSwitched (s_cond env) a (w_cond w)) w)
  | SoUserRemoved a => with_cond (Cond_OnUserRemoved a (w_cond w)) w
  | SoFind a name id => with_cond (GetMissionIdByBundleName (s_cond env) a name id (w_cond w)).2 w
  | SoTask n => RunSendTask n w
  end.
End Send.

Definition run_send (os : list (SendEnv * SendOp)) (w : SendWorld) : SendWorld := foldl (fun w eo => run_send_op eo.1 eo.2 w) w os.
