(* ===== verification/MissionSendProps.v ===== *)
(** What holds of the broadcasts a device sends about its missions. *)

From S2P Require Import Prelude StdMap SchedErrors MissionCondition MissionSend.
From Stdlib Require Import Sorted.
#[local] Open Scope string_scope.
#[local] Open Scope list_scope.
#[local] Open Scope Z_scope.

(** ** The focus *)

(** Only this mission has the focus. *)
Definition only_focus (id : Z) (l : zmap MissionStatus) : Prop := Forall (fun e => e.1 <> id -> isFocused e.2 = false) l.
(** At most one mission has it. *)
Definition one_focus (l : zmap MissionStatus) : Prop := exists id, only_focus id l.

Definition cleaned (id : Z) (l : zmap MissionStatus) : zmap MissionStatus :=
  map (fun e => if negb (e.1 =? id) && isFocused e.2 then (e.1, set_isFocused false e.2) else e) l.

Lemma cleaned_only id l : only_focus id (cleaned id l).
Proof.
  apply List.Forall_map, List.Forall_forall. intros [k s] _. cbn. destruct (Z.eqb_spec k id) as [->|Hne]; cbn; [done|].
  by destruct (isFocused s) eqn:E.
Qed.
Lemma cleaned_keys id l : zkeys (cleaned id l) = zkeys l.
Proof. unfold zkeys, cleaned. rewrite map_map. apply map_ext. intros e. by destruct (_ && _). Qed.

Lemma only_focus_set id s l : only_focus id l -> only_focus id (zset id s l).
Proof. intros H. by apply (zall_zset (fun k v => k <> id -> isFocused v = false)). Qed.

Lemma zfirst_unique id s l : zsorted l -> only_focus id l -> zfind id l = Some s -> isFocused s = true -> zfirst isFocused l = Some (id, s).
Proof.
  intros Hs Ho Hf Hi. induction l as [|[k v] l IH]; [done|]. apply zsorted_cons in Hs as [Hs _]. apply Forall_cons in Ho as [Hk Ho]. cbn in Hk.
  cbn [zfind] in Hf. cbn [zfirst]. destruct (Z.eqb_spec id k) as [<-|Hne].
  - injection Hf as ->. by rewrite Hi.
  - rewrite Hk by congruence. by apply IH.
Qed.

Section Props.
Variable env : CondEnv.

Lemma missions_put a l m : missions a (put_missions a l m) = l.
Proof. unfold missions, put_missions. cbn. by rewrite zfind_zset, Z.eqb_refl. Qed.
Lemma missions_put_other a b l m : b <> a -> zfind b (missionMap_ (put_missions a l m)) = zfind b (missionMap_ m).
Proof. intros H. unfold put_missions. cbn. rewrite zfind_zset. by destruct (Z.eqb_spec b a). Qed.

(** What a focus event leaves. *)
Lemma focused_list a id m l : zfind a (missionMap_ m) = Some l -> zsorted l -> (OnMissionFocused env a id m).1 = ERR_OK ->
  exists s, zfind a (missionMap_ (OnMissionFocused env a id m).2) = Some (zset id s (cleaned id l)) /\ isFocused s = true /\
    forall b, b <> a -> zfind b (missionMap_ (OnMissionFocused env a id m).2) = zfind b (missionMap_ m).
Proof.
  intros Hl Hs. unfold OnMissionFocused. destruct (c_GetMissionInfo env id) as [ret info].
  assert (missions a m = l) as El by (unfold missions; by rewrite Hl).
  assert (missions a (CleanLastFocusedFlagLocked a id m) = cleaned id l) as Ec.
  { unfold CleanLastFocusedFlagLocked. by rewrite missions_put, El. }
  destruct (IsMissionStatusExistLocked a id m); [|destruct (negb _) eqn:Er; [intros H; cbn in H; subst; done|]];
    intros _; cbn [fst snd]; (eexists; split; [unfold put_mission; rewrite Ec; cbn; by rewrite zfind_zset, Z.eqb_refl|]; split; [done|]);
    intros b Hb; cbn; rewrite !zfind_zset; by destruct (Z.eqb_spec b a).
Qed.

(** ** The tables are maps *)

Definition cond_wf (m : CondMgr) : Prop := zsorted (missionMap_ m) /\ Forall (fun e => zsorted e.2) (missionMap_ m).

Lemma put_missions_wf a l m : cond_wf m -> zsorted l -> cond_wf (put_missions a l m).
Proof. intros [H1 H2] Hl. split; cbn; [by apply zset_sorted|by apply (zall_zset (fun _ => zsorted))]. Qed.
Lemma missions_sorted a m : cond_wf m -> zsorted (missions a m).
Proof.
  intros [_ H]. unfold missions. destruct (zfind a (missionMap_ m)) eqn:E; [|constructor]. by eapply (zall_find (fun _ => zsorted)).
Qed.
Lemma put_mission_wf a id s m : cond_wf m -> cond_wf (put_mission a id s m).
Proof. intros H. apply put_missions_wf; [done|]. by apply zset_sorted, missions_sorted. Qed.
Lemma clean_wf a id m : cond_wf m -> cond_wf (CleanLastFocusedFlagLocked a id m).
Proof.
  intros H. apply put_missions_wf; [done|]. unfold zsorted. fold (cleaned id (missions a m)). rewrite cleaned_keys. by apply missions_sorted.
Qed.
Lemma initial_sorted : zsorted (initial_missions env).
Proof.
  unfold initial_missions. set (l := foldl _ _ (c_GetMissionInfos env)). assert (zsorted l) as Hl.
  { subst l. assert (zsorted (@nil (Z * MissionStatus))) as H0 by constructor. revert H0. generalize (@nil (Z * MissionStatus)).
    induction (c_GetMissionInfos env) as [|i infos IH]; intros l Hl; [done|]. cbn. by apply IH, zset_sorted. }
  repeat case_match; try done; by apply zset_sorted.
Qed.

Lemma UpdateMission_wf a id t m : cond_wf m -> cond_wf (UpdateMissionStatus env a id t m).2.
Proof.
  intros H. unfold UpdateMissionStatus. destruct (zfind a (missionMap_ m)); [|done].
  destruct t; try done; unfold OnMissionFocused, OnMissionUnfocused, OnMissionDestory, OnMissionActive, OnMissionInactive, set_mission_state.
  - destruct (c_GetMissionInfo env id) as [ret info]. destruct (IsMissionStatusExistLocked _ _ _); [by apply put_mission_wf, clean_wf|].
    destruct (negb _); [done|]. by apply put_mission_wf, clean_wf.
  - destruct (negb _); [done|]. exact (put_mission_wf _ _ _ _ H).
  - destruct (negb _); [done|]. cbn. apply put_missions_wf; [done|]. by apply zerase_sorted, missions_sorted.
  - destruct (negb _); [done|]. by apply put_mission_wf.
  - destruct (negb _); [done|]. by apply put_mission_wf.
Qed.
Lemma InitMission_wf a m : cond_wf m -> cond_wf (InitMissionStatus env a m).
Proof. intros H. unfold InitMissionStatus. destruct (zfind _ _); [done|]. apply put_missions_wf; [done|apply initial_sorted]. Qed.
Lemma UpdateSystem_wf t v m : cond_wf m -> cond_wf (UpdateSystemStatus t v m).2.
Proof. by destruct t. Qed.
Lemma UserRemoved_wf a m : cond_wf m -> cond_wf (Cond_OnUserRemoved a m).
Proof. intros [H1 H2]. split; cbn; [by apply zerase_sorted|by apply (zall_zerase (fun _ => zsorted))]. Qed.
Lemma FindMission_wf a n id m : cond_wf m -> cond_wf (GetMissionIdByBundleName env a n id m).2.
Proof.
  intros H. unfold GetMissionIdByBundleName. destruct (zfind a (missionMap_ m)) as [l|]; [|done].
  set (id' := default id (first_focused l)). assert (cond_wf (match zfind id' l with Some _ => m | None => put_mission a id' (status_zero env) m end)).
  { destruct (zfind id' l); [done|by apply put_mission_wf]. }
  repeat case_match; done.
Qed.

(** When a mission of a known user gets the focus and the manager accepts
    it, it is the mission the user works on: it has the focus, no other mission of this
    user has it, and the missions of other users are as they were. *)
Theorem focus_moves a id m : cond_wf m -> is_Some (zfind a (missionMap_ m)) ->
  (UpdateMissionStatus env a id MISSION_EVENT_FOCUSED m).1 = ERR_OK ->
  let m' := (UpdateMissionStatus env a id MISSION_EVENT_FOCUSED m).2 in
  GetCurrentFocusedMission a m' = id /\
  (exists s, GetMissionStatus a id m' = Some s /\ isFocused s = true) /\
  (forall id' s, id' <> id -> GetMissionStatus a id' m' = Some s -> isFocused s = false) /\
  (forall b id', b <> a -> GetMissionStatus b id' m' = GetMissionStatus b id' m).
Proof.
  intros [_ Hw] [l Hl]. unfold UpdateMissionStatus. rewrite Hl. intros Hr.
  assert (zsorted l) as Hs by (by eapply (zall_find (fun _ => zsorted))).
  destruct (focused_list a id m l Hl Hs Hr) as (s & Hf & Hi & Ho). set (m' := (OnMissionFocused env a id m).2) in *.
  set (l' := zset id s (cleaned id l)) in *. assert (only_focus id l') as Hol by apply only_focus_set, cleaned_only.
  assert (zfind id l' = Some s) as Hid by (subst l'; by rewrite zfind_zset, Z.eqb_refl).
  assert (zsorted l') as Hs' by (apply zset_sorted; unfold zsorted; by rewrite cleaned_keys).
  assert (forall k, GetMissionStatus a k m' = zfind k l') as Hg.
  { intros k. unfold GetMissionStatus, IsMissionStatusExistLocked, missions. rewrite Hf. cbn. by destruct (zfind k l'). }
  split. { unfold GetCurrentFocusedMission, first_focused. rewrite Hf. by rewrite (zfirst_unique id s). }
  split; [exists s; by rewrite Hg|]. split.
  - intros id' s'. rewrite Hg. intros Hne Hf'. apply zall_find with (P := fun k v => k <> id -> isFocused v = false) in Hf'; [by apply Hf'|exact Hol].
  - intros b id' Hb. unfold GetMissionStatus, IsMissionStatusExistLocked, missions. by rewrite Ho.
Qed.
End Props.

(** ** A device for the witnesses *)

Definition demo_info (id : Z) : MissionInfo := mkMissionInfo id "com.a" "entry" "Main" 0 true CONTINUESTATE_ACTIVE.
Definition demo_cond (garbage : bool) : CondEnv :=
  mkCondEnv true false true true true true 100 [demo_info 7; demo_info 9] (fun id => (ERR_OK, demo_info id)) 7 (fun _ => true) (fun _ => garbage) CONTINUESTATE_ACTIVE.

Lemma focus_moves_witness : GetCurrentFocusedMission 100 (UpdateMissionStatus (demo_cond false) 100 9 MISSION_EVENT_FOCUSED (Cond_Init (demo_cond false) (CondMgr_new (demo_cond false)))).2 = 9.
Proof.
  apply (focus_moves (demo_cond false) 100 9 (Cond_Init (demo_cond false) (CondMgr_new (demo_cond false)))).
  - apply InitMission_wf. split; cbn; constructor.
  - eexists. vm_compute. reflexivity.
  - by vm_compute.
Defined.

(** * The invariant of the sender of mission broadcasts, and what may be sent. *)

#[local] Open Scope string_scope.
#[local] Open Scope list_scope.
#[local] Open Scope Z_scope.

(** ** The listener of input events as an automaton *)

(** One event, from the identity of the listener ([-1]: there is none). [None]: a
    second listener is added, or one is removed that is not there. *)
Definition mmi_step (cur : option Z) (e : SendEvent) : option Z :=
  match cur with
  | None => None
  | Some c =>
      match e with
      | EvSoftbus _ => Some c
      | EvAddMMI id => if c <? 0 then Some id else None
      | EvRemoveMMI id => if (0 <=? c) && (id =? c) then Some (-1) else None
      end
  end.
Definition mmi_run (es : list SendEvent) : option Z := foldl mmi_step (Some (-1)) es.

(** ** The delayed tasks *)

(** A named task is the end of an offer or the end of the wait after a screen lock. *)
Definition delayed_ok (e : SendEntry) : Prop :=
  match se_name e with
  | None => se_delay e = 0
  | Some id => (se_delay e = FOCUS_TIMEOUT_DELAY_TIME /\ se_task e = TMission id MISSION_EVENT_TIMEOUT) \/
               (se_delay e = SCREEN_LOCK_DELAY_TIME /\ se_task e = TLockedEvent DMS_UNFOCUSED_TYPE)
  end.
Definition task_names (l : list SendEntry) : list Z := omap se_name l.

(** The type of a broadcast is one of the two, and its data four bytes. *)
Definition bytes_ok (bs : list Z) : Prop :=
  length bs = Z.to_nat DMS_SEND_LEN /\ Forall (fun b => 0 <= b < 256) bs /\
  (bs !! 0%nat = Some (16 * DMS_FOCUSED_TYPE + DMS_DATA_LEN) \/ bs !! 0%nat = Some (16 * DMS_UNFOCUSED_TYPE + DMS_DATA_LEN)).
Definition event_ok (e : SendEvent) : Prop := match e with EvSoftbus bs => bytes_ok bs | _ => True end.

(** What a waiting task sends when it runs is one of the two types. *)
Definition task_type_ok (e : SendEntry) : Prop :=
  match se_task e with TLockedEvent t => t = DMS_FOCUSED_TYPE \/ t = DMS_UNFOCUSED_TYPE | _ => True end.

Record send_inv (w : SendWorld) : Prop := mkSendInv {
  si_cond : cond_wf (w_cond w);
  si_mmi : mmi_run (w_events w) = Some (mmiMonitorId_ (w_send w));
  si_names : NoDup (task_names (sm_tasks (w_send w)));
  si_delayed : Forall delayed_ok (sm_tasks (w_send w));
  si_types : Forall task_type_ok (sm_tasks (w_send w));
  si_idle : sm_handler (w_send w) = false -> sm_tasks (w_send w) = [];
  si_bytes : Forall event_ok (w_events w);
}.

(** What only the tasks tell. *)
Definition tasks_ok (l : list SendEntry) : Prop := NoDup (task_names l) /\ Forall delayed_ok l /\ Forall task_type_ok l.

Lemma send_inv_tasks w : send_inv w -> tasks_ok (sm_tasks (w_send w)).
Proof. by intros []. Qed.

Lemma tasks_ok_filter (f : SendEntry -> bool) l : tasks_ok l -> tasks_ok (List.filter f l).
Proof.
  intros (H1 & H2 & H3). induction l as [|e l IH]; [done|]. apply Forall_cons in H2 as [D2 H2], H3 as [D3 H3].
  assert (NoDup (task_names l)) as H1' by (revert H1; unfold task_names; cbn; destruct (se_name e); [by intros [_ ?]%NoDup_cons|done]).
  destruct (IH H1' H2 H3) as (N & D & T). cbn. destruct (f e); [|done]. split; [|by split; constructor].
  revert H1. unfold task_names in *. cbn. destruct (se_name e) as [id|]; [|done]. intros [Hn _]%NoDup_cons. constructor; [|done].
  intros (x & Hx & Hi)%list_elem_of_omap. apply Hn. apply list_elem_of_omap. exists x. split; [|done].
  apply list_elem_of_In. apply list_elem_of_In in Hx. by apply List.filter_In in Hx as [? _].
Qed.
Lemma tasks_ok_delete n l : tasks_ok l -> tasks_ok (delete n l).
Proof.
  intros (H1 & H2 & H3). split; [|split; by apply Forall_delete]. eapply sublist_NoDup; [exact H1|].
  unfold task_names. induction l as [|e l IH] in n, H1, H2, H3 |- *; [done|]. apply Forall_cons in H2 as [_ H2], H3 as [_ H3].
  destruct n as [|n]; cbn; [destruct (se_name e); [by apply sublist_cons|done]|].
  unfold task_names in H1. cbn in H1. destruct (se_name e); [apply NoDup_cons in H1 as [_ H1]; apply sublist_skip|]; by apply IH.
Qed.
Lemma tasks_ok_snoc e l : tasks_ok l -> delayed_ok e -> task_type_ok e -> (forall id, se_name e = Some id -> id ∉ task_names l) -> tasks_ok (l ++ [e]).
Proof.
  intros (H1 & H2 & H3) D T N. split; [|split; apply Forall_app; auto]. unfold task_names. rewrite omap_app. cbn.
  destruct (se_name e) as [id|]; [|by rewrite app_nil_r]. apply NoDup_app. split; [done|]. split; [|by apply NoDup_singleton].
  intros x Hx Hi. apply list_elem_of_singleton in Hi as ->. by apply (N id).
Qed.
Lemma RemoveTask_fresh id w : id ∉ task_names (sm_tasks (w_send (RemoveTask id w))).
Proof.
  cbn. intros (x & Hx & Hi)%list_elem_of_omap. apply list_elem_of_In, List.filter_In in Hx as [_ Hf].
  rewrite Hi, bool_decide_true in Hf by done. done.
Qed.

(** ** The invariant and the elementary actions *)

Lemma inv_with_cond c w : send_inv w -> cond_wf c -> send_inv (with_cond c w).
Proof. by intros [] H. Qed.
Lemma inv_set_unfo x w : send_inv w -> send_inv (with_send (set_unfo x) w).
Proof. by intros []. Qed.
Lemma inv_tasks l w : send_inv w -> tasks_ok l -> (sm_handler (w_send w) = false -> l = []) -> send_inv (with_send (set_send_tasks l) w).
Proof. intros [] (H1 & H2 & H3) Hi. by constructor. Qed.
Lemma with_send_tasks f w :
  with_send (fun s => set_send_tasks (f s) s) w = with_send (set_send_tasks (f (w_send w))) w.
Proof. done. Qed.
Lemma RemoveTask_inv id w : send_inv w -> send_inv (RemoveTask id w).
Proof.
  intros H. unfold RemoveTask. rewrite with_send_tasks. apply inv_tasks; [done|by apply tasks_ok_filter, send_inv_tasks|].
  intros Hh. by rewrite (si_idle _ H Hh).
Qed.
Lemma PostTask_inv env e w : send_inv w -> sm_handler (w_send w) = true -> delayed_ok e -> task_type_ok e ->
  (forall id, se_name e = Some id -> id ∉ task_names (sm_tasks (w_send w))) -> send_inv (PostTask env e w).
Proof.
  intros H Hh D T N. unfold PostTask. destruct (s_PostTask env); [|done]. rewrite with_send_tasks.
  apply inv_tasks; [done|by apply tasks_ok_snoc; [apply send_inv_tasks|..]|by rewrite Hh].
Qed.

Lemma byte_of_type t : t = DMS_FOCUSED_TYPE \/ t = DMS_UNFOCUSED_TYPE -> forall b c, bytes_ok (broadcast_bytes b c t).
Proof.
  intros Ht b c. unfold bytes_ok, broadcast_bytes, DMS_0XFF. change 255 with (Z.ones 8). rewrite !Z.land_ones by lia.
  split; [done|]. split; [|by destruct Ht as [-> | ->]; [left|right]].
  assert (forall x, 0 <= x mod 2 ^ 8 < 256) as Hm by (intros x; apply Z.mod_pos_bound; lia).
  apply Forall_cons. split; [by destruct Ht as [-> | ->]|]. by repeat (apply Forall_cons; split; [apply Hm|]).
Qed.
Lemma inv_softbus b c t w : send_inv w -> t = DMS_FOCUSED_TYPE \/ t = DMS_UNFOCUSED_TYPE -> send_inv (SendSoftbusEvent b c t w).
Proof.
  intros [] Ht. constructor; try done; cbn.
  - unfold mmi_run in *. rewrite foldl_app, si_mmi0. done.
  - apply Forall_app. split; [done|]. constructor; [by apply byte_of_type|done].
Qed.
Lemma AddMMI_inv env w : send_inv w -> send_inv (AddMMIListener env w).
Proof.
  intros H. unfold AddMMIListener. destruct (Z.leb_spec 0 (mmiMonitorId_ (w_send w))) as [|Hlt]; [done|]. destruct H. constructor; try done; cbn.
  - unfold mmi_run in *. rewrite foldl_app, si_mmi0. cbn. by destruct (Z.ltb_spec (mmiMonitorId_ (w_send w)) 0); [|lia].
  - apply Forall_app. split; [done|by constructor].
Qed.
Lemma RemoveMMI_inv w : send_inv w -> send_inv (RemoveMMIListener w).
Proof.
  intros H. unfold RemoveMMIListener. destruct (Z.ltb_spec (mmiMonitorId_ (w_send w)) 0) as [|Hge]; [done|]. destruct H. constructor; try done; cbn.
  - unfold mmi_run in *. rewrite foldl_app, si_mmi0. cbn. rewrite Z.eqb_refl. by destruct (Z.leb_spec 0 (mmiMonitorId_ (w_send w))); [|lia].
  - apply Forall_app. split; [done|by constructor].
Qed.

Create HintDb send.
#[local] Hint Resolve inv_set_unfo RemoveTask_inv AddMMI_inv RemoveMMI_inv inv_with_cond inv_softbus : send.
#[local] Hint Resolve UpdateMission_wf InitMission_wf UpdateSystem_wf UserRemoved_wf FindMission_wf si_cond : send.
#[local] Hint Extern 1 (delayed_ok _) => (by left) || (by right) || done : send.
#[local] Hint Extern 1 (task_type_ok _) => done || (by left) || (by right) : send.

(** A task of no name may always be added. *)
Lemma post_now env t w : send_inv w -> sm_handler (w_send w) = true ->
  match t with TLockedEvent t => t = DMS_FOCUSED_TYPE \/ t = DMS_UNFOCUSED_TYPE | _ => True end ->
  send_inv (PostTask env (mkSendEntry None 0 t) w).
Proof. intros H Hh Ht. by apply PostTask_inv. Qed.
(** A named one after its name was removed. *)
Lemma post_later env id d t w : send_inv w -> sm_handler (w_send w) = true -> delayed_ok (mkSendEntry (Some id) d t) ->
  task_type_ok (mkSendEntry (Some id) d t) -> send_inv (PostTask env (mkSendEntry (Some id) d t) (RemoveTask id w)).
Proof. intros H Hh D T. apply PostTask_inv; [by apply RemoveTask_inv|done|done|done|]. intros ? [= <-]. apply RemoveTask_fresh. Qed.

(** Goes through the guards on the handler. *)
Ltac handler_case := match goal with |- context [negb (sm_handler (w_send ?w))] => destruct (sm_handler (w_send w)) eqn:?; cbn [negb]; [|done] end.

Lemma AfterDelay_inv env id w : send_inv w -> send_inv (SendContinueBroadcastAfterDelay env id w).
Proof. intros H. unfold SendContinueBroadcastAfterDelay. handler_case. apply post_later; auto with send. Qed.
#[local] Hint Resolve AfterDelay_inv : send.

Lemma Strategy_inv env t s w : send_inv w ->
  let r := ExecuteSendStrategy env t s w in
  send_inv r.2 /\ (r.1.1 = ERR_OK -> r.1.2 = DMS_FOCUSED_TYPE \/ r.1.2 = DMS_UNFOCUSED_TYPE) /\ w_cond r.2 = w_cond w.
Proof.
  intros H. assert (forall x, w_cond (AddMMIListener env x) = w_cond x) as C1 by (intros x; unfold AddMMIListener; by destruct (_ <=? _)).
  assert (forall x, w_cond (RemoveMMIListener x) = w_cond x) as C2 by (intros x; unfold RemoveMMIListener; by destruct (_ <? _)).
  assert (forall i x, w_cond (SendContinueBroadcastAfterDelay env i x) = w_cond x) as C3.
  { intros i x. unfold SendContinueBroadcastAfterDelay, PostTask. by destruct (sm_handler _), (s_PostTask env). }
  destruct t; cbn [ExecuteSendStrategy]; cbv zeta; unfold StrategyFocused, StrategyUnfocused, StrategyDestoryed, StrategyActive, StrategyInactive,
    StrategyTimeout, StrategyMMI, ResetScreenLockedInfo, SetScreenLockedInfo, SetMissionContinueStateInfo; try destruct (negb _); cbn [fst snd];
    (split; [eauto 6 with send|split; [(by auto)|cbn; by rewrite ?C1, ?C2, ?C3]]).
  all: destruct (RemoveMMI_inv w H); by constructor.
Qed.

Lemma Broadcast_inv env s t w : send_inv w -> send_inv (SendContinueBroadcast env s t w).
Proof.
  intros H. unfold SendContinueBroadcast. destruct (_ || _); [done|].
  pose proof (Strategy_inv env t s w H) as (H1 & H2 & _). destruct (ExecuteSendStrategy env t s w) as [[ret ty] w'] eqn:E. cbn in H1, H2.
  destruct (Z.eqb_spec ret ERR_OK) as [->|]; [|done]. cbn. destruct (QueryBroadcastInfo env s) as [|[b c]]; [done|]. apply inv_softbus; auto.
Qed.
#[local] Hint Resolve Broadcast_inv : send.
Lemma Broadcast_id_inv env id t w : send_inv w -> send_inv (SendContinueBroadcast_id env id t w).
Proof. intros H. unfold SendContinueBroadcast_id. destruct (GetMissionStatus _ _ _); auto with send. Qed.
#[local] Hint Resolve Broadcast_id_inv : send.
Lemma LockedEvent_inv env t w : t = DMS_FOCUSED_TYPE \/ t = DMS_UNFOCUSED_TYPE -> send_inv w -> send_inv (SendScreenLockedEvent env t w).
Proof.
  intros Ht H. unfold SendScreenLockedEvent. destruct (QueryBroadcastInfo _ _) as [|[b c]]; [done|]. destruct (negb _); auto with send.
Qed.
#[local] Hint Resolve LockedEvent_inv : send.
Lemma PostLocked_inv env id t d w : (t = DMS_FOCUSED_TYPE /\ d = 0) \/ (t = DMS_UNFOCUSED_TYPE /\ d = SCREEN_LOCK_DELAY_TIME) ->
  send_inv w -> send_inv (PostScreenLockedEventAfterDelay env id t d w).
Proof.
  intros Ht H. unfold PostScreenLockedEventAfterDelay. handler_case. destruct Ht as [[-> ->]|[-> ->]]; cbn.
  - apply post_now; [auto with send|done|by left].
  - apply post_later; [auto with send|done|by right|by right].
Qed.
#[local] Hint Resolve PostLocked_inv : send.
Lemma ScreenLockedTask_inv env w : send_inv w -> send_inv (handle_screen_locked env w).
Proof.
  intros H. unfold handle_screen_locked. set (w1 := if _ && _ then _ else _).
  assert (send_inv w1) by (subst w1; destruct (_ && _); [apply PostLocked_inv; [by left|]|]; done).
  destruct (DMS_ICON_HOLD_ON env); [destruct (GetMissionStatus _ _ _); [|done]|];
    (apply PostLocked_inv; [by right|]); unfold SetScreenLockedInfo; auto with send.
Qed.

Lemma StatusChanged_inv env id t w : send_inv w -> send_inv (OnMissionStatusChanged env id t w).
Proof.
  intros H. unfold OnMissionStatusChanged. destruct (GetMissionStatus _ _ _); [|done]. handler_case. apply post_now; auto with send.
Qed.
#[local] Hint Resolve StatusChanged_inv ScreenLockedTask_inv : send.
Lemma Online_inv env w : send_inv w -> send_inv (OnDeviceOnline env w).
Proof. intros H. unfold OnDeviceOnline. destruct (_ <=? 0); auto with send. Qed.
Lemma ScreenLocked_inv env w : send_inv w -> send_inv (OnDeviceScreenLocked env w).
Proof. intros H. unfold OnDeviceScreenLocked. handler_case. by apply post_now. Qed.
Lemma update_mission_inv env id t w : send_inv w -> send_inv (update_mission env id t w).
Proof. unfold update_mission. auto with send. Qed.
Lemma update_system_inv t v w : send_inv w -> send_inv (update_system t v w).
Proof. unfold update_system. auto with send. Qed.
#[local] Hint Resolve Online_inv ScreenLocked_inv update_mission_inv update_system_inv : send.

Lemma run_send_task_inv env t w :
  match t with TLockedEvent t => t = DMS_FOCUSED_TYPE \/ t = DMS_UNFOCUSED_TYPE | _ => True end ->
  send_inv w -> send_inv (run_send_task env t w).
Proof.
  intros Ht H. destruct t; cbn [run_send_task]; auto with send.
  unfold handle_mmi. handler_case. auto with send.
Qed.
Lemma RunSendTask_inv env n w : send_inv w -> send_inv (RunSendTask env n w).
Proof.
  intros H. unfold RunSendTask. destruct (sm_tasks (w_send w) !! n) as [e|] eqn:E; [|done]. apply run_send_task_inv.
  - pose proof (proj1 (Forall_lookup _ _) (si_types _ H) n e E) as T. exact T.
  - rewrite with_send_tasks. apply inv_tasks; [done|by apply tasks_ok_delete, send_inv_tasks|]. intros Hh. by rewrite (si_idle _ H Hh) in E.
Qed.

Lemma run_send_op_inv env o w : send_inv w -> send_inv (run_send_op env o w).
Proof.
  intros H. destruct o; cbn [run_send_op].
  - unfold Send_Init. destruct (sm_handler (w_send w)) eqn:E; [done|]. destruct H. constructor; try done; constructor.
  - unfold Send_UnInit. destruct (negb _); [done|]. destruct (s_GetEventRunner env); [|done]. destruct H. constructor; try done; constructor.
  - apply inv_with_cond; [done|]. unfold Cond_Init, InitMissionCondition. apply InitMission_wf. exact (si_cond _ H).
  - apply inv_with_cond; [done|]. split; cbn; constructor.
  - unfold Listener_OnMissionFocused. auto with send.
  - unfold Listener_OnMissionUnfocused. auto with send.
  - unfold Listener_OnMissionDestroyed. auto with send.
  - unfold Service_SetMissionContinueState. auto with send.
  - unfold switch_changed. auto with send.
  - auto with send.
  - unfold HandleScreenLocked. auto with send.
  - unfold HandleScreenUnLocked. auto with send.
  - unfold HandleScreenOff, HandleScreenLocked. destruct (DMS_ICON_HOLD_ON env); auto with send.
  - unfold HandleScreenOn. destruct (DMS_ICON_HOLD_ON env); auto with send.
  - auto with send.
  - unfold OnMMIEvent. handler_case. by apply post_now.
  - unfold Send_OnUserSwitched. cbn [w_send with_cond]. destruct (sm_handler (w_send w)) eqn:E; cbn [negb]; [apply RemoveTask_inv, post_now; [|done|done]|];
      unfold Cond_OnUserSwitched; auto with send.
  - auto with send.
  - auto with send.
  - by apply RunSendTask_inv.
Qed.

Lemma SendWorld_new_inv env : send_inv (mkSendWorld (CondMgr_new (s_cond env)) (SendMgr_new env) []).
Proof. constructor; cbn; try done; try constructor; constructor. Qed.

(** In every history of the sender (events of missions, users, the screen and
    the switch, tasks of the handler in any order, every answer of the services): the
    tables of missions are maps; a listener of input events is added only when there is
    none, and the one that was added is the one removed; of the delayed tasks at most
    one waits for each mission, and it is the end of an offer after 60 s or of the wait
    after a screen lock after 10 s; without a handler no task waits; and every broadcast
    has four bytes with one of the two types. *)
Theorem send_invariant env os : send_inv (run_send os (mkSendWorld (CondMgr_new (s_cond env)) (SendMgr_new env) [])).
Proof.
  pose proof (SendWorld_new_inv env) as H. unfold run_send. revert H. generalize (mkSendWorld (CondMgr_new (s_cond env)) (SendMgr_new env) []).
  induction os as [|[e o] os IH]; intros w H; [done|]. cbn. by apply IH, run_send_op_inv.
Qed.

(** ** What is sent *)

Definition softbus_bytes (e : SendEvent) : option (list Z) := match e with EvSoftbus bs => Some bs | _ => None end.
Definition sent (w : SendWorld) : list (list Z) := omap softbus_bytes (w_events w).

Lemma sent_emit e w : sent (emit e w) = sent w ++ match softbus_bytes e with Some b => [b] | None => [] end.
Proof. unfold sent. cbn. rewrite omap_app. cbn. by destruct (softbus_bytes e). Qed.
Lemma sent_AddMMI env w : sent (AddMMIListener env w) = sent w.
Proof. unfold AddMMIListener. destruct (_ <=? _); [done|]. rewrite <- (app_nil_r (sent w)). exact (sent_emit (EvAddMMI (s_AddMMIListener env)) w). Qed.
Lemma sent_RemoveMMI w : sent (RemoveMMIListener w) = sent w.
Proof.
  unfold RemoveMMIListener. destruct (_ <? _); [done|].
  rewrite <- (app_nil_r (sent w)). exact (sent_emit (EvRemoveMMI (mmiMonitorId_ (w_send w))) w).
Qed.
Lemma sent_PostTask env e w : sent (PostTask env e w) = sent w.
Proof. unfold PostTask. by destruct (s_PostTask env). Qed.
Lemma sent_AfterDelay env id w : sent (SendContinueBroadcastAfterDelay env id w) = sent w.
Proof. unfold SendContinueBroadcastAfterDelay. destruct (negb _); [done|]. by rewrite sent_PostTask. Qed.
Lemma sent_Strategy env t s w : sent (ExecuteSendStrategy env t s w).2 = sent w.
Proof.
  destruct t; cbn [ExecuteSendStrategy]; unfold StrategyFocused, StrategyUnfocused, StrategyDestoryed, StrategyActive, StrategyInactive,
    StrategyTimeout, StrategyMMI; try destruct (negb _); cbn [snd]; try done;
  unfold ResetScreenLockedInfo, SetScreenLockedInfo, SetMissionContinueStateInfo;
  repeat match goal with |- sent (with_send _ ?x) = _ => change (sent x = sent w) end;
  by rewrite ?sent_AfterDelay, ?sent_AddMMI, ?sent_RemoveMMI.
Qed.
Lemma sent_PostLocked env id t d w : sent (PostScreenLockedEventAfterDelay env id t d w) = sent w.
Proof. unfold PostScreenLockedEventAfterDelay. destruct (negb _); [done|]. destruct (d =? 0); by rewrite sent_PostTask. Qed.
Lemma sent_ScreenLocked env w : sent (handle_screen_locked env w) = sent w.
Proof.
  unfold handle_screen_locked. set (w1 := if _ && _ then _ else _).
  assert (sent w1 = sent w) as E by (subst w1; destruct (_ && _); [apply sent_PostLocked|done]). rewrite <- E.
  destruct (DMS_ICON_HOLD_ON env); [destruct (GetMissionStatus _ _ _); [|done]|]; by rewrite sent_PostLocked.
Qed.
Lemma sent_StatusChanged env id t w : sent (OnMissionStatusChanged env id t w) = sent w.
Proof. unfold OnMissionStatusChanged. destruct (GetMissionStatus _ _ _); [|done]. destruct (negb _); [done|]. by rewrite sent_PostTask. Qed.

(** One broadcast with the numbers of a mission, or none. *)
Definition sends (env : SendEnv) (w w' : SendWorld) : Prop :=
  sent w' = sent w \/
  (CheckSystemSendCondition (s_cond env) (w_cond w) = true /\ exists s b c t, QueryBroadcastInfo env s = inr (b, c) /\
     (t = BROADCAST_TYPE_APPEAR \/ t = BROADCAST_TYPE_DISAPPEAR) /\ sent w' = sent w ++ [broadcast_bytes b c t]).

Lemma Strategy_type env t s w : let r := ExecuteSendStrategy env t s w in
  (r.1.2 = BROADCAST_TYPE_APPEAR \/ r.1.2 = BROADCAST_TYPE_DISAPPEAR).
Proof. destruct t; cbn; auto; unfold StrategyInactive; destruct (negb _); cbn; auto. Qed.

Lemma Broadcast_sends env s t w w0 : sent w = sent w0 -> w_cond w = w_cond w0 -> sends env w0 (SendContinueBroadcast env s t w).
Proof.
  intros Hs Hc. unfold SendContinueBroadcast, sends. rewrite Hc. destruct (CheckSystemSendCondition _ _); [|by left]. cbn.
  destruct (CheckMissionSendCondition _ _ _); [|by left]. cbn. pose proof (sent_Strategy env t s w) as H1. pose proof (Strategy_type env t s w) as H2.
  destruct (ExecuteSendStrategy env t s w) as [[ret ty] w']. cbn in H1, H2. destruct (negb _); [left; congruence|].
  destruct (QueryBroadcastInfo env s) as [|[b c]] eqn:Q; [left; congruence|]. right. split; [done|]. exists s, b, c, ty. split; [done|]. split; [done|].
  unfold SendSoftbusEvent. rewrite sent_emit. cbn. congruence.
Qed.
Lemma Broadcast_id_sends env id t w w0 : sent w = sent w0 -> w_cond w = w_cond w0 -> sends env w0 (SendContinueBroadcast_id env id t w).
Proof. intros Hs Hc. unfold SendContinueBroadcast_id. destruct (GetMissionStatus _ _ _); [by apply Broadcast_sends|by left]. Qed.
Lemma LockedEvent_sends env t w w0 : t = DMS_FOCUSED_TYPE \/ t = DMS_UNFOCUSED_TYPE -> sent w = sent w0 -> w_cond w = w_cond w0 ->
  sends env w0 (SendScreenLockedEvent env t w).
Proof.
  intros Ht Hs Hc. unfold SendScreenLockedEvent. destruct (QueryBroadcastInfo _ _) as [|[b c]] eqn:Q; [by left|]. rewrite Hc.
  destruct (CheckSystemSendCondition _ _) eqn:Ec; [|by left]. right. split; [done|]. eexists _, b, c, t. split; [exact Q|]. split; [done|].
  cbn [negb]. unfold SendSoftbusEvent. rewrite sent_emit. cbn. by rewrite Hs.
Qed.
Lemma RemoveMMI_cond w : w_cond (RemoveMMIListener w) = w_cond w.
Proof. unfold RemoveMMIListener. by destruct (_ <? _). Qed.

(** A step of the sender hands softbus at most one broadcast; it does so only
    when a task runs and the system allows it at that moment (the device takes part, the
    switch is on, the networks that are checked are active), and the broadcast carries
    the numbers of the bundle and of the continue type of a mission with one of the two
    types. No event of the system sends by itself. *)
Theorem send_only_when_allowed env o w : send_inv w -> let w' := run_send_op env o w in
  match o with
  | SoTask n => sends env w w'
  | _ => sent w' = sent w
  end.
Proof.
  intros H. destruct o; cbn [run_send_op]; cbv zeta; try done.
  all: try (unfold Listener_OnMissionFocused, Listener_OnMissionUnfocused, Listener_OnMissionDestroyed, Service_SetMissionContinueState, switch_changed;
    first [ by rewrite sent_StatusChanged | exact (sent_StatusChanged env _ _ w) ]).
  - unfold Send_Init. by destruct (sm_handler _).
  - unfold Send_UnInit. destruct (negb _); [done|]. by destruct (s_GetEventRunner env).
  - unfold HandleScreenLocked, OnDeviceScreenLocked. destruct (negb _); [done|]. by rewrite sent_PostTask.
  - unfold HandleScreenOff, HandleScreenLocked, OnDeviceScreenLocked. destruct (DMS_ICON_HOLD_ON env); [|done]. destruct (negb _); [done|]. by rewrite sent_PostTask.
  - unfold HandleScreenOn, OnDeviceOnline. destruct (DMS_ICON_HOLD_ON env); [|done]. destruct (_ <=? 0); [done|]. by rewrite sent_StatusChanged.
  - unfold OnDeviceOnline. destruct (_ <=? 0); [done|]. by rewrite sent_StatusChanged.
  - unfold OnMMIEvent. destruct (negb _); [done|]. by rewrite sent_PostTask.
  - unfold Send_OnUserSwitched. destruct (negb _); [done|]. exact (sent_PostTask env _ (with_cond _ w)).
  - unfold RunSendTask. destruct (sm_tasks (w_send w) !! n) as [e|] eqn:E; [|by left].
    pose proof (proj1 (Forall_lookup _ _) (si_types _ H) n e E) as T. unfold task_type_ok in T.
    destruct (se_task e); cbn [run_send_task]; try by apply Broadcast_sends || apply Broadcast_id_sends.
    + unfold handle_mmi. destruct (negb _); [by left|]. by apply Broadcast_id_sends.
    + left. rewrite sent_ScreenLocked. done.
    + apply LockedEvent_sends; [by right| |]; [by rewrite sent_RemoveMMI|by rewrite RemoveMMI_cond].
    + by apply LockedEvent_sends.
Qed.

(** ** A device for the witnesses *)

(** [tick]: the clock. *)
Definition demo_env (garbage : bool) (tick : Z) : SendEnv :=
  mkSendEnv (demo_cond garbage) false true true tick 3 (fun _ => (ERR_OK, 513)) (fun _ _ => (ERR_OK, 2)).
Definition demo_start : SendWorld :=
  let env := demo_env false 0 in
  run_send [(env, SoCondInit); (env, SoInit 100)] (mkSendWorld (CondMgr_new (s_cond env)) (SendMgr_new env) []).

Lemma demo_start_inv : send_inv demo_start.
Proof. unfold demo_start, run_send. cbn [foldl]. apply run_send_op_inv, run_send_op_inv, SendWorld_new_inv. Qed.

Lemma send_only_when_allowed_witness : let env := demo_env false 0 in let w := run_send_op env (SoFocused 7) demo_start in
  sends env w (run_send_op env (SoTask 0) w) /\ sent w = [] /\ sent (run_send_op env (SoTask 0) w) = [[3; 2; 1; 2]].
Proof.
  cbv zeta. split; [|by vm_compute].
  apply (send_only_when_allowed (demo_env false 0) (SoTask 0) (run_send_op (demo_env false 0) (SoFocused 7) demo_start)).
  apply run_send_op_inv, demo_start_inv.
Defined.
