(* ===== verification/MissionOffer.v ===== *)
(** How a mission is offered to other devices and how the offer ends. *)

From Stdlib Require Import Sorted.
From S2P Require Import Prelude StdMap SchedErrors MissionCondition MissionSend MissionSendProps.
#[local] Open Scope string_scope.
#[local] Open Scope list_scope.
#[local] Open Scope Z_scope.

(** ** What the events leave in the table *)

Lemma zfind_cleaned id l : zfind id (cleaned id l) = zfind id l.
Proof.
  unfold cleaned. induction l as [|[k s] l IH]; [done|]. cbn. destruct (Z.eqb_spec k id) as [->|Hne]; cbn.
  - by rewrite Z.eqb_refl.
  - destruct (isFocused s); cbn; destruct (Z.eqb_spec id k); try congruence; apply IH.
Qed.

Lemma exists_status a id m : IsMissionStatusExistLocked a id m = bool_decide (is_Some (GetMissionStatus a id m)).
Proof.
  unfold GetMissionStatus. destruct (IsMissionStatusExistLocked a id m) eqn:E; [|by rewrite bool_decide_false by (by intros [? ?])].
  rewrite bool_decide_true; [done|]. unfold IsMissionStatusExistLocked, missions in *. destruct (zfind a _) as [l|]; [|done]. cbn.
  by destruct (zfind id l); [|done].
Qed.
Lemma status_find a id m s : GetMissionStatus a id m = Some s -> IsMissionStatusExistLocked a id m = true /\ zfind id (missions a m) = Some s /\
  exists l, zfind a (missionMap_ m) = Some l.
Proof.
  unfold GetMissionStatus. destruct (IsMissionStatusExistLocked a id m) eqn:E; [|done]. intros H. split; [done|]. split; [done|].
  unfold IsMissionStatusExistLocked in E. destruct (zfind a (missionMap_ m)); [eauto|done].
Qed.
Lemma status_put a id s m : GetMissionStatus a id (put_mission a id s m) = Some s.
Proof.
  unfold GetMissionStatus, IsMissionStatusExistLocked, put_mission, put_missions, missions. cbn.
  rewrite !zfind_zset, !Z.eqb_refl. cbn. by rewrite !zfind_zset, !Z.eqb_refl.
Qed.

Lemma focus_known env a id m s : GetMissionStatus a id m = Some s ->
  GetMissionStatus a id (UpdateMissionStatus env a id MISSION_EVENT_FOCUSED m).2 = Some (set_isFocused true s).
Proof.
  intros (He & Hf & l & Hl)%status_find. unfold UpdateMissionStatus. rewrite Hl. unfold OnMissionFocused.
  destruct (c_GetMissionInfo env id). rewrite He. cbn [snd]. rewrite status_put. do 2 f_equal.
  unfold CleanLastFocusedFlagLocked. rewrite missions_put. fold (cleaned id (missions a m)). by rewrite zfind_cleaned, Hf.
Qed.

(** The system's part of the condition is not touched by missions. *)
Lemma update_mission_system env e a id t m :
  CheckSystemSendCondition e (UpdateMissionStatus env a id t m).2 = CheckSystemSendCondition e m /\
  IsScreenLocked (UpdateMissionStatus env a id t m).2 = IsScreenLocked m.
Proof.
  unfold UpdateMissionStatus. destruct (zfind a _); [|done].
  destruct t; try done; unfold OnMissionFocused, OnMissionUnfocused, OnMissionDestory, OnMissionActive, OnMissionInactive, set_mission_state;
    try destruct (c_GetMissionInfo env id); repeat (case_match; try done).
Qed.

(** ** An offer *)

#[local] Arguments sent : simpl never.
#[local] Arguments emit : simpl never.

Section Offer.
Variable env : SendEnv.
Let account := c_GetForegroundUser (s_cond env).

(** A device that may offer the mission [id] with the status [s] and the numbers [b]
    and [c]. *)
Record can_offer (w : SendWorld) (id : Z) (s : MissionStatus) (b c : Z) : Prop := mkCanOffer {
  co_handler : sm_handler (w_send w) = true;
  co_post : s_PostTask env = true;
  co_system : CheckSystemSendCondition (s_cond env) (w_cond w) = true;
  co_account : sm_accountId (w_send w) = account;
  co_status : GetMissionStatus account id (w_cond w) = Some s;
  co_id : missionId s = id;
  co_mission : CheckSendFocusedCondition (s_cond env) s = true;
  co_query : QueryBroadcastInfo env s = inr (b, c);
}.

(** The task posted last. *)
Definition run_last (w : SendWorld) : SendWorld := run_send_op env (SoTask (pred (length (sm_tasks (w_send w))))) w.

Lemma run_last_snoc e l w : sm_tasks (w_send w) = l ++ [e] -> run_last w = run_send_task env (se_task e) (with_send (set_send_tasks l) w).
Proof.
  intros E. unfold run_last. cbn [run_send_op]. unfold RunSendTask. rewrite E, length_app. cbn. rewrite Nat.add_1_r. cbn.
  rewrite lookup_app_r, Nat.sub_diag by lia. cbn. f_equal. rewrite with_send_tasks, E. do 2 f_equal.
  rewrite delete_take_drop, take_app_length, drop_ge by (rewrite length_app; cbn; lia). by rewrite app_nil_r.
Qed.

Lemma status_changed_post id t s w : sm_handler (w_send w) = true -> s_PostTask env = true ->
  GetMissionStatus (sm_accountId (w_send w)) id (w_cond w) = Some s ->
  OnMissionStatusChanged env id t w = with_send (fun m => set_send_tasks (sm_tasks m ++ [mkSendEntry None 0 (TBroadcast s t)]) m) (RemoveTask id w).
Proof. intros H1 H2 H3. unfold OnMissionStatusChanged. rewrite H3, H1. cbn. unfold PostTask. by rewrite H2. Qed.

Lemma unfocused_ok s : isFocused s = true -> CheckSendFocusedCondition (s_cond env) s = true -> CheckSendUnfocusedCondition (s_cond env) s = true.
Proof. unfold CheckSendFocusedCondition, CheckSendUnfocusedCondition. by intros ->. Qed.
Lemma AddMMI_facts w : w_cond (AddMMIListener env w) = w_cond w /\ sm_handler (w_send (AddMMIListener env w)) = sm_handler (w_send w) /\
  sm_accountId (w_send (AddMMIListener env w)) = sm_accountId (w_send w) /\ sm_tasks (w_send (AddMMIListener env w)) = sm_tasks (w_send w).
Proof. unfold AddMMIListener. by destruct (_ <=? _). Qed.
Lemma RemoveMMI_facts w : w_cond (RemoveMMIListener w) = w_cond w /\ sm_handler (w_send (RemoveMMIListener w)) = sm_handler (w_send w) /\
  sm_accountId (w_send (RemoveMMIListener w)) = sm_accountId (w_send w) /\ sm_tasks (w_send (RemoveMMIListener w)) = sm_tasks (w_send w).
Proof. unfold RemoveMMIListener. by destruct (_ <? _). Qed.

Definition timeout_entry (id : Z) : SendEntry := mkSendEntry (Some id) FOCUS_TIMEOUT_DELAY_TIME (TMission id MISSION_EVENT_TIMEOUT).
Definition without (id : Z) (l : list SendEntry) : list SendEntry := List.filter (fun e => negb (bool_decide (se_name e = Some id))) l.

(** The offer itself: the broadcast goes out and its end is planned. *)
Lemma focused_task w id s b c : can_offer w id s b c ->
  let w' := SendContinueBroadcast env s MISSION_EVENT_FOCUSED w in
  sent w' = sent w ++ [broadcast_bytes b c BROADCAST_TYPE_APPEAR] /\ w_cond w' = w_cond w /\
  sm_handler (w_send w') = true /\ sm_accountId (w_send w') = account /\
  sm_tasks (w_send w') = without id (sm_tasks (w_send w)) ++ [timeout_entry id].
Proof.
  intros []. cbv zeta. unfold SendContinueBroadcast. rewrite co_system0. cbn [CheckMissionSendCondition]. rewrite co_mission0. cbn [negb orb].
  cbn [ExecuteSendStrategy]. unfold StrategyFocused, ResetScreenLockedInfo. cbn. rewrite co_query0. unfold SendContinueBroadcastAfterDelay, PostTask.
  destruct (AddMMI_facts w) as (E1 & E2 & E3 & E4). rewrite E2, co_handler0, co_post0, co_id0. cbn.
  unfold SendSoftbusEvent. rewrite sent_emit. unfold emit. cbn. rewrite E1, E3, E4, E2. split; [|done].
  f_equal. exact (sent_AddMMI env w).
Qed.
Lemma unfocused_task w s b c : CheckSystemSendCondition (s_cond env) (w_cond w) = true -> CheckSendFocusedCondition (s_cond env) s = true ->
  QueryBroadcastInfo env s = inr (b, c) -> isFocused s = true ->
  let w' := SendContinueBroadcast env s MISSION_EVENT_UNFOCUSED w in
  sent w' = sent w ++ (if IsScreenLocked (w_cond w) then [] else [broadcast_bytes b c BROADCAST_TYPE_DISAPPEAR]) /\ sm_tasks (w_send w') = sm_tasks (w_send w).
Proof.
  intros Hs Hm Hq Hf. cbv zeta. unfold SendContinueBroadcast. rewrite Hs. cbn [CheckMissionSendCondition]. rewrite unfocused_ok by done. cbn [negb orb].
  cbn [ExecuteSendStrategy]. unfold StrategyUnfocused. destruct (RemoveMMI_facts w) as (E1 & _ & _ & E4).
  cbn [w_cond SetScreenLockedInfo with_send]. rewrite E1. destruct (IsScreenLocked (w_cond w)); cbn.
  - rewrite E4, app_nil_r. split; [|done]. exact (sent_RemoveMMI w).
  - rewrite Hq. unfold SendSoftbusEvent. rewrite sent_emit. unfold emit. cbn. rewrite E4. split; [|done]. f_equal. exact (sent_RemoveMMI w).
Qed.
Lemma timeout_task w id s b c : can_offer w id s b c -> isFocused s = true ->
  let w' := SendContinueBroadcast_id env id MISSION_EVENT_TIMEOUT w in
  sent w' = sent w ++ [broadcast_bytes b c BROADCAST_TYPE_DISAPPEAR] /\ sm_tasks (w_send w') = sm_tasks (w_send w).
Proof.
  intros [] Hf. cbv zeta. unfold SendContinueBroadcast_id, SendContinueBroadcast. rewrite co_account0, co_status0, co_system0.
  cbn [CheckMissionSendCondition]. rewrite unfocused_ok by done. cbn. rewrite co_query0. unfold SendSoftbusEvent. rewrite sent_emit. by cbn.
Qed.

Lemma without_fresh id l : id ∉ task_names (without id l).
Proof.
  intros (x & Hx & Hi)%list_elem_of_omap. apply list_elem_of_In, List.filter_In in Hx as [_ Hf].
  rewrite Hi, bool_decide_true in Hf by done. done.
Qed.
Lemma can_offer_focus w w' id s b c : can_offer w id s b c -> sm_handler (w_send w') = true -> sm_accountId (w_send w') = account ->
  CheckSystemSendCondition (s_cond env) (w_cond w') = true -> GetMissionStatus account id (w_cond w') = Some (set_isFocused true s) ->
  can_offer w' id (set_isFocused true s) b c.
Proof. intros [] H1 H2 H3 H4. by constructor. Qed.

(** The focus event and its task. *)
Lemma focus_runs w id s b c : can_offer w id s b c -> let f := set_isFocused true s in
  let w1 := run_last (run_send_op env (SoFocused id) w) in
  can_offer w1 id f b c /\ IsScreenLocked (w_cond w1) = IsScreenLocked (w_cond w) /\
  sent w1 = sent w ++ [broadcast_bytes b c BROADCAST_TYPE_APPEAR] /\
  sm_tasks (w_send w1) = without id (without id (sm_tasks (w_send w))) ++ [timeout_entry id].
Proof.
  intros Ho. pose proof Ho as [H1 H2 H3 H4 H5 H6 H7 H8]. intros f. cbv zeta.
  pose proof (focus_known (s_cond env) account id (w_cond w) s H5) as Hf.
  pose proof (update_mission_system (s_cond env) (s_cond env) account id MISSION_EVENT_FOCUSED (w_cond w)) as [Hc Hl].
  set (v0 := update_mission env id MISSION_EVENT_FOCUSED w) in *.
  assert (can_offer v0 id f b c) as Ho0 by (apply (can_offer_focus w); [done|done|done|exact (eq_trans Hc H3)|done]).
  assert (run_last (run_send_op env (SoFocused id) w) =
    SendContinueBroadcast env f MISSION_EVENT_FOCUSED (with_send (set_send_tasks (without id (sm_tasks (w_send w)))) v0)) as ->.
  { cbn [run_send_op]. unfold Listener_OnMissionFocused. fold v0.
    rewrite (status_changed_post id MISSION_EVENT_FOCUSED f v0); [|done|done|exact (eq_trans (f_equal (fun a => GetMissionStatus a id (w_cond v0)) H4) Hf)].
    by rewrite (run_last_snoc (mkSendEntry None 0 (TBroadcast f MISSION_EVENT_FOCUSED)) (without id (sm_tasks (w_send w)))). }
  set (v1 := with_send _ v0). assert (can_offer v1 id f b c) as Ho1 by (by destruct Ho0).
  destruct (focused_task v1 id f b c Ho1) as (S1 & C1 & K1 & A1 & T1).
  split; [|split; [by rewrite C1|done]]. destruct Ho1. constructor; try done; by rewrite C1.
Qed.

(** The unfocus event and its task; behind a locked screen nothing is sent. *)
Lemma unfocus_runs w id s b c : can_offer w id s b c -> isFocused s = true ->
  let w' := run_last (run_send_op env (SoUnfocused id) w) in
  sent w' = sent w ++ (if IsScreenLocked (w_cond w) then [] else [broadcast_bytes b c BROADCAST_TYPE_DISAPPEAR]) /\ sm_tasks (w_send w') = without id (sm_tasks (w_send w)).
Proof.
  intros [H1 H2 H3 H4 H5 H6 H7 H8] Hf. cbv zeta.
  pose proof (update_mission_system (s_cond env) (s_cond env) account id MISSION_EVENT_UNFOCUSED (w_cond w)) as [Hc Hl2].
  set (v := update_mission env id MISSION_EVENT_UNFOCUSED (with_send (set_send_tasks (without id (sm_tasks (w_send w)))) w)).
  assert (run_last (run_send_op env (SoUnfocused id) w) = SendContinueBroadcast env s MISSION_EVENT_UNFOCUSED v) as ->.
  { cbn [run_send_op]. unfold Listener_OnMissionUnfocused.
    rewrite (status_changed_post id MISSION_EVENT_UNFOCUSED s w); [|done|done|by rewrite H4].
    by rewrite (run_last_snoc (mkSendEntry None 0 (TBroadcast s MISSION_EVENT_UNFOCUSED)) (without id (sm_tasks (w_send w)))). }
  destruct (unfocused_task v s b c) as [E1 E2]; [exact (eq_trans Hc H3)|done|done|done|]. rewrite E1, E2. split; [|done]. assert (IsScreenLocked (w_cond v) = IsScreenLocked (w_cond w)) as -> by exact Hl2. done.
Qed.

(** On a device that may offer a mission: when the mission gets the focus and
    the posted task runs, the broadcast that makes its icon appear goes out and its end
    is planned after 60 s. If nothing happens the planned task makes the icon disappear;
    if the mission loses the focus first (and the screen is not locked) the planned task
    is taken back and the task of the event makes the icon disappear. Appearing and
    disappearing carry the same numbers. *)
Theorem offer_and_withdraw w id s b c : can_offer w id s b c -> IsScreenLocked (w_cond w) = false ->
  let w1 := run_last (run_send_op env (SoFocused id) w) in
  let w2 := run_last (run_send_op env (SoUnfocused id) w1) in
  sent w1 = sent w ++ [broadcast_bytes b c BROADCAST_TYPE_APPEAR] /\
  last (sm_tasks (w_send w1)) = Some (timeout_entry id) /\
  sent (run_last w1) = sent w1 ++ [broadcast_bytes b c BROADCAST_TYPE_DISAPPEAR] /\
  sent w2 = sent w1 ++ [broadcast_bytes b c BROADCAST_TYPE_DISAPPEAR] /\
  id ∉ task_names (sm_tasks (w_send w2)).
Proof.
  intros Ho Hl. destruct (focus_runs w id s b c Ho) as (Ho1 & L1 & S1 & T1). cbv zeta. set (w1 := run_last (run_send_op env (SoFocused id) w)) in *.
  split; [exact S1|]. split; [by rewrite T1, last_snoc|]. split.
  - rewrite (run_last_snoc _ _ _ T1). cbn [se_task timeout_entry run_send_task].
    destruct (timeout_task (with_send (set_send_tasks (without id (without id (sm_tasks (w_send w))))) w1) id (set_isFocused true s) b c) as [E _];
      [by destruct Ho1|done|exact E].
  - destruct (unfocus_runs w1 id _ b c Ho1) as [E1 E2]; [done|]. rewrite L1, Hl in E1. split; [exact E1|]. rewrite E2. apply without_fresh.
Qed.
End Offer.

Lemma offer_and_withdraw_witness :
  let env := demo_env false 0 in
  let w1 := run_last env (run_send_op env (SoFocused 7) demo_start) in
  sent w1 = [[3; 2; 1; 2]] /\ sent (run_last env (run_send_op env (SoUnfocused 7) w1)) = [[3; 2; 1; 2]; [19; 2; 1; 2]].
Proof.
  destruct (offer_and_withdraw (demo_env false 0) demo_start 7 (mkMissionStatus 7 "com.a" "entry" "Main" true 0 true CONTINUESTATE_ACTIVE) 513 2)
    as (H1 & _ & _ & H2 & _); [by constructor; vm_compute|by vm_compute|]. cbv zeta in *. split; [exact H1|]. rewrite H2, H1. reflexivity.
Defined.

(** ** Offers that do not end *)

(** When the application makes its mission inactive, no event of that
    mission makes its icon disappear on the other devices: neither the event itself (the
    mission is compared with the one that lost the focus last, which the focus reset),
    nor a later loss of focus, its end or the end of the 60 s, which ask for an active
    mission. *)
Theorem inactive_never_withdrawn env s t w : continueState s = CONTINUESTATE_INACTIVE ->
  missionId s <> unfo_missionId (unfoInfo_ (w_send w)) -> t <> MISSION_EVENT_ACTIVE ->
  sent (SendContinueBroadcast env s t w) = sent w.
Proof.
  intros Hs Hi Ht. unfold SendContinueBroadcast. destruct (CheckSystemSendCondition _ _); [|done]. cbn [negb orb].
  assert (forall e, CheckSendFocusedCondition e s = false) as H1.
  { intros e. unfold CheckSendFocusedCondition. rewrite Hs. by destruct (isContinuable s). }
  assert (forall e, CheckSendUnfocusedCondition e s = false) as H2.
  { intros e. unfold CheckSendUnfocusedCondition. rewrite Hs. by destruct (isFocused s), (isContinuable s). }
  destruct t; cbn [CheckMissionSendCondition]; rewrite ?H1, ?H2; cbn [negb]; try done.
  destruct (CheckSendInactiveCondition _ _); [|done]. cbn [negb ExecuteSendStrategy]. unfold StrategyInactive.
  assert (unfoInfo_ (w_send (RemoveMMIListener w)) = unfoInfo_ (w_send w)) as -> by (unfold RemoveMMIListener; by destruct (_ <? _)).
  destruct (Z.eqb_spec (missionId s) (unfo_missionId (unfoInfo_ (w_send w)))); [done|]. cbn. apply sent_RemoveMMI.
Qed.

(** The offered mission 7 becomes inactive, loses the focus and ends: the only broadcast
    is the one that made the icon appear. *)
Lemma inactive_never_withdrawn_witness :
  (let env := demo_env false 0 in
   let step o w := run_last env (run_send_op env o w) in
   sent (step (SoDestroyed 7) (step (SoUnfocused 7) (step (SoState 7 CONTINUESTATE_INACTIVE) (step (SoFocused 7) demo_start)))) = [[3; 2; 1; 2]]) /\
  sent (SendContinueBroadcast (demo_env false 0) (mkMissionStatus 7 "com.a" "entry" "Main" true 0 true CONTINUESTATE_INACTIVE) MISSION_EVENT_UNFOCUSED demo_start) = [].
Proof.
  split; [by vm_compute|]. rewrite inactive_never_withdrawn; [reflexivity|reflexivity|by vm_compute|done].
Defined.

(** When the user turns the continue switch off, the event that should
    withdraw the offer of the current mission sends nothing, whatever task runs next:
    the switch is recorded as off before the event is raised, and every broadcast asks
    for the switch. *)
Theorem switch_off_never_withdraws env env' n w : let w' := run_send_op env (SoSwitch false) w in
  sent (run_send_op env' (SoTask n) w') = sent w'.
Proof.
  cbv zeta. set (w' := run_send_op env (SoSwitch false) w).
  assert (forall e, CheckSystemSendCondition e (w_cond w') = false) as Hc.
  { intros e. assert (isSwitchOn_ (w_cond w') = false) as Hs.
    { subst w'. cbn [run_send_op]. unfold switch_changed, OnMissionStatusChanged, PostTask. by repeat case_match. }
    unfold CheckSystemSendCondition. rewrite Hs. by destruct (isCfgDevice_ _). }
  assert (forall s t v, w_cond v = w_cond w' -> sent (SendContinueBroadcast env' s t v) = sent v) as Hb.
  { intros s t v E. unfold SendContinueBroadcast. by rewrite E, Hc. }
  assert (forall t v, w_cond v = w_cond w' -> sent (SendScreenLockedEvent env' t v) = sent v) as Hl.
  { intros t v E. unfold SendScreenLockedEvent. rewrite E, Hc. by destruct (QueryBroadcastInfo _ _) as [|[? ?]]. }
  assert (forall i t v, w_cond v = w_cond w' -> sent (SendContinueBroadcast_id env' i t v) = sent v) as Hi.
  { intros i t v E. unfold SendContinueBroadcast_id. destruct (GetMissionStatus _ _ _); [by apply Hb|done]. }
  cbn [run_send_op]. unfold RunSendTask. destruct (sm_tasks (w_send w') !! n) as [e|]; [|done].
  destruct (se_task e); cbn [run_send_task]; rewrite ?sent_ScreenLocked, ?Hb, ?Hl, ?Hi by (by rewrite ?RemoveMMI_cond); try done.
  - unfold handle_mmi. destruct (negb _); [done|]. by rewrite Hi.
  - by rewrite sent_RemoveMMI.
Qed.

(** ** Boundaries *)

Lemma i32_far t : 2 ^ 31 <= t -> 2 ^ 31 <= t - i32 t.
Proof. intros H. unfold i32. Z.div_mod_to_equations. lia. Qed.

(** The time at which a mission lost the focus is kept in 32 bits. Once the
    clock has passed 2^31 ms (25 days after the start) a screen lock right after the loss
    of focus does not bring the icon back: no task of the type that makes it appear is
    posted. *)
Theorem clock_wraps env env' id s w : 2 ^ 31 <= s_GetTickCount env -> s_GetTickCount env <= s_GetTickCount env' ->
  let w1 := SetScreenLockedInfo env id s w in
  forall e, e ∈ sm_tasks (w_send (handle_screen_locked env' w1)) -> se_task e = TLockedEvent DMS_FOCUSED_TYPE ->
    e ∈ sm_tasks (w_send w1).
Proof.
  intros H1 H2 w1 e. unfold handle_screen_locked.
  assert ((s_GetTickCount env' - unfo_unfoTime (unfoInfo_ (w_send w1)) <? SCREEN_LOCK_EVENT_INTERVAL) = false) as ->.
  { cbn. pose proof (i32_far _ H1). unfold SCREEN_LOCK_EVENT_INTERVAL. apply Z.ltb_ge. lia. }
  rewrite andb_false_r. cbv zeta. unfold PostScreenLockedEventAfterDelay, PostTask, SCREEN_LOCK_DELAY_TIME. change (10000 =? 0) with false. cbv iota.
  assert (forall i v, e ∈ sm_tasks (w_send (RemoveTask i v)) -> e ∈ sm_tasks (w_send v)) as Hr.
  { intros i v He. apply list_elem_of_In, List.filter_In in He as [He _]. by apply list_elem_of_In. }
  repeat case_match; try done; cbn [sm_tasks w_send with_send set_send_tasks SetScreenLockedInfo set_unfo]; intros He Ht;
    repeat match goal with H : _ ∈ _ ++ _ |- _ => apply elem_of_app in H as [H|H] end;
    try (apply list_elem_of_singleton in He as ->; discriminate Ht); try exact (Hr _ _ He); done.
Qed.
Lemma clock_wraps_witness :
  let w1 := SetScreenLockedInfo (demo_env false (2 ^ 31)) 7 (mkMissionStatus 7 "com.a" "entry" "Main" true 0 true CONTINUESTATE_ACTIVE) demo_start in
  Forall (fun e => se_task e <> TLockedEvent DMS_FOCUSED_TYPE) (sm_tasks (w_send (handle_screen_locked (demo_env false (2 ^ 31 + 100)) w1))).
Proof.
  intros w1. apply Forall_forall. intros e He Ht. pose proof (clock_wraps (demo_env false (2 ^ 31)) (demo_env false (2 ^ 31 + 100)) 7
    (mkMissionStatus 7 "com.a" "entry" "Main" true 0 true CONTINUESTATE_ACTIVE) demo_start ltac:(cbn; lia) ltac:(cbn; lia) e He Ht) as H.
  vm_compute in H. inversion H.
Defined.

(** ** The focus at the start *)

(** The table a user starts with takes the focus of its missions from memory
    that was never set: if that memory is not zero, two missions have the focus though
    the current one is known, and the first of the table, not the current one, counts as
    the mission the user works on. *)
Theorem initial_focus_garbage : exists env m, c_GetCurrentMissionId env = 9 /\
  m = Cond_Init env (CondMgr_new env) /\ GetCurrentFocusedMission (c_GetForegroundUser env) m = 7 /\
  ~ one_focus (missions (c_GetForegroundUser env) m).
Proof.
  set (env := mkCondEnv true false true true true true 100 [demo_info 7; demo_info 9] (fun id => (ERR_OK, demo_info id)) 9 (fun _ => true) (fun _ => true) CONTINUESTATE_ACTIVE).
  exists env, (Cond_Init env (CondMgr_new env)). split; [done|]. split; [done|]. split; [by vm_compute|].
  intros [id H]. assert (missions (c_GetForegroundUser env) (Cond_Init env (CondMgr_new env)) =
    [(7, mkMissionStatus 7 "com.a" "entry" "Main" true 0 true CONTINUESTATE_ACTIVE); (9, mkMissionStatus 9 "com.a" "entry" "Main" true 0 true CONTINUESTATE_ACTIVE)]) as E by (by vm_compute).
  rewrite E in H. apply Forall_cons in H as [H7 H]. apply Forall_cons in H as [H9 _]. cbn in H7, H9.
  destruct (decide (7 = id)) as [<-|]; [|by specialize (H7 n)]. by specialize (H9 ltac:(lia)).
Qed.
