(* ===== verification/MissionRecv.v ===== *)
(** The broadcasts of other devices and the icon they make the dock show:
    services/dtbschedmgr/src/mission/notification/dms_continue_recv_manager.cpp.

    The listeners are the remote objects of the dock; calls of them are recorded. A
    broadcast is handled by a task with a fixed name, of which at most one waits; the
    other tasks have no name. *)

From S2P Require Import Prelude StdMap SchedErrors ContinueInfo MissionSend.
#[local] Open Scope string_scope.
#[local] Open Scope list_scope.
#[local] Open Scope Z_scope.

Definition ACTIVE : Z := 0.
Definition INACTIVE : Z := 1.
Definition DBMS_RETRY_MAX_TIME : Z := 5.
Definition DBMS_RETRY_DELAY : Z := 2000.
Definition REGIST_MAX_SIZE : nat := 1000.
Definition DMS_0XF0 : Z := 240.
Definition DMS_0X0F : Z := 15.

Record currentIconInfo := mkIcon {
  senderNetworkId : string;
  icon_bundleName : string;
  icon_continueType : string;
  sourceBundleName : string;
}.
Definition no_icon : currentIconInfo := mkIcon "" "" "" "".
Definition isEmpty (i : currentIconInfo) : bool :=
  String.eqb (senderNetworkId i) "" && String.eqb (icon_bundleName i) "" && String.eqb (icon_continueType i) "".
(** What every clearing of the icon leaves. *)
Definition clear_icon (i : currentIconInfo) : currentIconInfo := mkIcon "" "" "" (sourceBundleName i).

(** [DmsBundleInfo], what is read of it. *)
Record DmsBundleInfo := mkDmsBundleInfo {
  dbi_bundleName : string;
  dbi_developerId : string;
  dbi_dmsAbilityInfos : list DmsAbilityInfo;
}.
(** An ability and a bundle of this device. *)
Record LocalAbility := mkLocalAbility {
  la_name : string;
  la_moduleName : string;
  la_continuable : bool;
  la_continueType : list string;
}.
Record LocalBundle := mkLocalBundle { lb_isApp : bool; lb_abilityInfos : list LocalAbility }.

Record BroadcastTask := mkBroadcast {
  bt_sender : string;
  bt_bundleNameId : Z;
  bt_continueTypeId : Z;
  bt_state : Z;
  bt_retry : Z;
}.
Inductive RecvTask := RBroadcast (b : BroadcastTask) | RScreenOff | RSwitchOff.

Inductive RecvCall :=
  | RNotify (obj : Z) (icon : currentIconInfo) (state : Z)
  | RAddDeath (obj : Z)
  | RRemoveDeath (obj : Z)
  | RPushAndPull (networkId : string).

Record RecvMgr := mkRecvMgr {
  rm_accountId : Z;
  iconInfo_ : currentIconInfo;
  onType_ : string;
  registerOnListener_ : list (string * list Z);
  rm_handler : bool;
  rm_tasks : list RecvTask;
  isScreenOn : bool;
  rm_calls : list RecvCall;
}.
Definition RecvMgr_new : RecvMgr := mkRecvMgr (-1) no_icon "" [] false [] true [].

Definition set_icon (x : currentIconInfo) (m : RecvMgr) : RecvMgr :=
  mkRecvMgr (rm_accountId m) x (onType_ m) (registerOnListener_ m) (rm_handler m) (rm_tasks m) (isScreenOn m) (rm_calls m).
Definition set_onListeners (t : string) (x : list (string * list Z)) (m : RecvMgr) : RecvMgr :=
  mkRecvMgr (rm_accountId m) (iconInfo_ m) t x (rm_handler m) (rm_tasks m) (isScreenOn m) (rm_calls m).
Definition set_rm (account : Z) (h : bool) (m : RecvMgr) : RecvMgr :=
  mkRecvMgr account (iconInfo_ m) (onType_ m) (registerOnListener_ m) h (rm_tasks m) (isScreenOn m) (rm_calls m).
Definition set_rtasks (x : list RecvTask) (m : RecvMgr) : RecvMgr :=
  mkRecvMgr (rm_accountId m) (iconInfo_ m) (onType_ m) (registerOnListener_ m) (rm_handler m) x (isScreenOn m) (rm_calls m).
Definition set_screen (x : bool) (m : RecvMgr) : RecvMgr :=
  mkRecvMgr (rm_accountId m) (iconInfo_ m) (onType_ m) (registerOnListener_ m) (rm_handler m) (rm_tasks m) x (rm_calls m).
Definition rcall (c : RecvCall) (m : RecvMgr) : RecvMgr :=
  mkRecvMgr (rm_accountId m) (iconInfo_ m) (onType_ m) (registerOnListener_ m) (rm_handler m) (rm_tasks m) (isScreenOn m) (rm_calls m ++ [c]).

(** The answers during one step. *)
Record RecvEnv := mkRecvEnv {
  r_CheckCtrlRule : bool;
  r_IsCurrentContinueSwitchOn : bool;
  r_IsWifiActive : bool;
  r_PostTask : bool;
  r_GetEventRunner : bool;
  r_GetDistributedBundleInfo : string -> Z -> option DmsBundleInfo;
  r_GetLocalBundleInfo : string -> option LocalBundle;
  r_GetContinueBundle4Src : string -> option (list string);
  r_GetAppProvisionInfo : string -> option string;
  r_GetLocalDeviceId : option string;
}.

Section Recv.
Variable env : RecvEnv.

(** ** The event handler *)

Definition is_broadcast (t : RecvTask) : bool := match t with RBroadcast _ => true | _ => false end.
Definition Recv_PostTask (t : RecvTask) (m : RecvMgr) : RecvMgr :=
  if rm_handler m && r_PostTask env then set_rtasks (rm_tasks m ++ [t]) m else m.

Definition Recv_Init (accountId : Z) (m : RecvMgr) : RecvMgr := set_rm accountId true m.
Definition Recv_UnInit (m : RecvMgr) : RecvMgr :=
  if rm_handler m && r_GetEventRunner env then set_rtasks [] (set_rm (rm_accountId m) false m) else m.

Definition PostOnBroadcastBusiness (b : BroadcastTask) (m : RecvMgr) : RecvMgr :=
  if rm_handler m
  then Recv_PostTask (RBroadcast b) (set_rtasks (List.filter (fun t => negb (is_broadcast t)) (rm_tasks m)) m)
  else m.

(** ** Receiving *)

(** [payload] has [dataLen] bytes. *)
Definition NotifyDataRecv (sender : string) (payload : list Z) (m : RecvMgr) : RecvMgr :=
  if negb (r_CheckCtrlRule env) then m
  else if negb (r_IsCurrentContinueSwitchOn env) then m
  else if negb (r_IsWifiActive env) then m
  else if len payload <? DMS_SEND_LEN then m
  else
    let byte i := nth i payload 0 in
    let type := Z.shiftr (Z.land (byte 0%nat) DMS_0XF0) CONTINUE_SHIFT_04 in
    let l := Z.land (byte 0%nat) DMS_0X0F in
    if (l <? DMS_DATA_LEN) || (DMS_0X0F <? type) then m
    else
      let bundleNameId := u16 (Z.lor (Z.shiftl (byte 1%nat) CONTINUE_SHIFT_08) (byte 2%nat)) in
      let state := if type =? DMS_UNFOCUSED_TYPE then INACTIVE else ACTIVE in
      PostOnBroadcastBusiness (mkBroadcast sender bundleNameId (byte 3%nat) state 0) m.

(** ** The listeners *)

(** [None]: the end of the map is dereferenced. *)
Definition RegisterOnListener (type : string) (obj : option Z) (m : RecvMgr) : option (Z * RecvMgr) :=
  match obj with
  | None => Some (INVALID_PARAMETERS_ERR, m)
  | Some obj =>
      let m := set_onListeners type (registerOnListener_ m) m in
      match mfind type (registerOnListener_ m) with
      | None =>
          if (length (registerOnListener_ m) <? REGIST_MAX_SIZE)%nat
          then Some (ERR_OK, set_onListeners type (mset type [obj] (registerOnListener_ m)) (rcall (RAddDeath obj) m))
          else None
      | Some objs =>
          if existsb (Z.eqb obj) objs then Some (NO_MISSION_INFO_FOR_MISSION_ID, m)
          else Some (ERR_OK, set_onListeners type (mset type (objs ++ [obj]) (registerOnListener_ m)) (rcall (RAddDeath obj) m))
      end
  end.

(** The first occurrence is removed. *)
Fixpoint remove_one (obj : Z) (objs : list Z) : list Z :=
  match objs with
  | [] => []
  | o :: os => if o =? obj then os else o :: remove_one obj os
  end.

(** Every list, whatever its type, loses the object; empty lists go. *)
Definition drop_listener (f : list Z -> list Z) (l : list (string * list Z)) : list (string * list Z) :=
  List.filter (fun e => match e.2 with [] => false | _ => true end) (map (fun e => (e.1, f e.2)) l).
Definition occurrences (obj : Z) (l : list (string * list Z)) : nat :=
  length (List.filter (fun e => existsb (Z.eqb obj) e.2) l).
Fixpoint rcalls (c : RecvCall) (n : nat) (m : RecvMgr) : RecvMgr :=
  match n with O => m | S n => rcalls c n (rcall c m) end.

Definition RegisterOffListener (type : string) (obj : option Z) (m : RecvMgr) : Z * RecvMgr :=
  match obj with
  | None => (INVALID_PARAMETERS_ERR, m)
  | Some obj =>
      let l := registerOnListener_ m in
      (ERR_OK, set_onListeners (onType_ m) (drop_listener (remove_one obj) l) (rcalls (RRemoveDeath obj) (occurrences obj l) m))
  end.

Definition remove_all (obj : Z) (objs : list Z) : list Z := List.filter (fun o => negb (o =? obj)) objs.
Definition NotifyDied (obj : option Z) (m : RecvMgr) : RecvMgr :=
  match obj with
  | None => m
  | Some obj =>
      let l := registerOnListener_ m in
      let n := length (List.filter (Z.eqb obj) (concat (map snd l))) in
      set_onListeners (onType_ m) (drop_listener (remove_all obj) l) (rcalls (RRemoveDeath obj) n m)
  end.

Fixpoint notify_all (objs : list Z) (icon : currentIconInfo) (state : Z) (m : RecvMgr) : RecvMgr :=
  match objs with
  | [] => m
  | o :: os => notify_all os icon state (rcall (RNotify o icon state) m)
  end.

Definition NotifyDockDisplay (icon : currentIconInfo) (state : Z) (m : RecvMgr) : Z * RecvMgr :=
  match mfind (onType_ m) (registerOnListener_ m) with
  | None => (INVALID_PARAMETERS_ERR, m)
  | Some objs => (ERR_OK, notify_all objs icon state m)
  end.

Definition FindToNotifyRecvBroadcast (sender bundle continueType : string) (m : RecvMgr) : RecvMgr :=
  match mfind (onType_ m) (registerOnListener_ m) with
  | None => m
  | Some objs => notify_all objs (mkIcon sender bundle continueType (sourceBundleName (iconInfo_ m))) INACTIVE m
  end.

(** The saved icon is cleared and the dock told that it is gone. *)
Definition withdraw_icon (m : RecvMgr) : RecvMgr :=
  let i := iconInfo_ m in
  FindToNotifyRecvBroadcast (senderNetworkId i) (icon_bundleName i) (icon_continueType i) (set_icon (clear_icon i) m).

(** ** A broadcast *)

Definition RetryPostBroadcast (b : BroadcastTask) (m : RecvMgr) : Z * RecvMgr :=
  if bt_retry b =? DBMS_RETRY_MAX_TIME then (INVALID_PARAMETERS_ERR, m)
  else (ERR_OK, PostOnBroadcastBusiness
                  (mkBroadcast (bt_sender b) (bt_bundleNameId b) (bt_continueTypeId b) (bt_state b) (bt_retry b + 1)) m).

Definition Recv_ContinueTypeFormat (continueType : string) : string :=
  if (String.length QUICK_START_CONFIGURATION <=? String.length continueType)%nat
     && match rfind QUICK_START_CONFIGURATION continueType with
        | Some i => (i =? String.length continueType - String.length QUICK_START_CONFIGURATION)%nat
        | None => false
        end
  then strip_marker continueType
  else continueType +:+ QUICK_START_CONFIGURATION.

(** The first bundle of the same developer that is installed. *)
Fixpoint find_bundle (developerId : string) (names : list string) : option (string * LocalBundle) :=
  match names with
  | [] => None
  | n :: ns =>
      match r_GetAppProvisionInfo env n with
      | Some d =>
          if String.eqb d developerId then
            match r_GetLocalBundleInfo env n with Some b => Some (n, b) | None => find_bundle developerId ns end
          else find_bundle developerId ns
      | None => find_bundle developerId ns
      end
  end.
Definition GetFinalBundleName (info : DmsBundleInfo) : option (string * LocalBundle) :=
  match r_GetLocalBundleInfo env (dbi_bundleName info) with
  | Some b => Some (dbi_bundleName info, b)
  | None =>
      match r_GetContinueBundle4Src env (dbi_bundleName info) with
      | None => None
      | Some names => find_bundle (dbi_developerId info) names
      end
  end.

(** The type with the number [continueTypeId], counted over all abilities, and its
    ability. *)
Definition FindContinueType (info : DmsBundleInfo) (continueTypeId : Z) : string * option DmsAbilityInfo :=
  let all := flat_map (fun a => map (fun t => (t, a)) (ability_continueType a)) (dbi_dmsAbilityInfos info) in
  match all !! Z.to_nat continueTypeId with
  | Some (t, a) => (t, Some a)
  | None => ("", None)
  end.

Definition type_continuable (srcAbility srcModule srcType : string) (a : LocalAbility) (t : string) : bool :=
  String.eqb t srcType || String.eqb t (Recv_ContinueTypeFormat srcType)
  || (String.eqb (la_moduleName a) srcModule && String.eqb (la_name a) srcAbility).
Definition IsBundleContinuable (b : LocalBundle) (srcAbility srcModule srcType : string) : bool :=
  existsb (fun a => la_continuable a && existsb (type_continuable srcAbility srcModule srcType a) (la_continueType a)) (lb_abilityInfos b).

Definition VerifyBroadcastSource (sender src sink continueType : string) (state : Z) (m : RecvMgr) : Z * RecvMgr :=
  let i := iconInfo_ m in
  if state =? ACTIVE then (ERR_OK, set_icon (mkIcon sender sink continueType src) m)
  else if negb (String.eqb sender (senderNetworkId i)) then (INVALID_PARAMETERS_ERR, m)
  else if negb (String.eqb sink (icon_bundleName i)) then (INVALID_PARAMETERS_ERR, m)
  else (ERR_OK, set_icon (clear_icon i) m).

(** The saved icon is not cleared. *)
Definition NotifyIconDisappear (sender : string) (state : Z) (m : RecvMgr) : RecvMgr :=
  if (state =? ACTIVE) && String.eqb sender (senderNetworkId (iconInfo_ m)) then (NotifyDockDisplay (iconInfo_ m) INACTIVE m).2 else m.

Definition DealOnBroadcastBusiness (b : BroadcastTask) (m : RecvMgr) : Z * RecvMgr :=
  let sender := bt_sender b in
  let state := bt_state b in
  match r_GetDistributedBundleInfo env sender (bt_bundleNameId b) with
  | None => RetryPostBroadcast b (rcall (RPushAndPull sender) m)
  | Some info =>
      let '(continueType, ability) := FindContinueType info (bt_continueTypeId b) in
      match GetFinalBundleName info with
      | None => (INVALID_PARAMETERS_ERR, NotifyIconDisappear sender state m)
      | Some (final, lb) =>
          if negb (lb_isApp lb) then (INVALID_PARAMETERS_ERR, NotifyIconDisappear sender state m)
          else if (state =? ACTIVE)
                  && negb (IsBundleContinuable lb (match ability with Some a => ability_abilityName a | None => "" end)
                             (match ability with Some a => ability_moduleName a | None => "" end) continueType)
          then (BUNDLE_NOT_CONTINUABLE, NotifyIconDisappear sender state m)
          else if (state =? ACTIVE) && negb (isScreenOn m) then (BUNDLE_NOT_CONTINUABLE, m)
          else
            let '(ret, m) := VerifyBroadcastSource sender (dbi_bundleName info) final continueType state m in
            if negb (ret =? ERR_OK) then (ret, m)
            else NotifyDockDisplay (mkIcon sender final continueType (dbi_bundleName info)) state m
      end
  end.

(** ** Events *)

Definition OnDeviceScreenOff (m : RecvMgr) : RecvMgr := Recv_PostTask RScreenOff (set_screen false m).
Definition OnDeviceScreenOn (m : RecvMgr) : RecvMgr := set_screen true m.
Definition OnContinueSwitchOff (m : RecvMgr) : RecvMgr := Recv_PostTask RSwitchOff m.
Definition OnUserSwitch (m : RecvMgr) : RecvMgr := if isEmpty (iconInfo_ m) then m else withdraw_icon m.
Definition NotifyDeviceOffline (networkId : string) (m : RecvMgr) : RecvMgr :=
  if String.eqb networkId "" then m
  else match r_GetLocalDeviceId env with
  | None => m
  | Some localNetworkId =>
      if negb (String.eqb networkId (senderNetworkId (iconInfo_ m))) && negb (String.eqb networkId localNetworkId) then m
      else withdraw_icon m
  end.
Definition NotifyPackageRemoved (sink : string) (m : RecvMgr) : RecvMgr :=
  if String.eqb sink "" then m
  else if negb (String.eqb (icon_bundleName (iconInfo_ m)) sink) then m
  else withdraw_icon m.
Definition GetContinueType (bundle : string) (m : RecvMgr) : string :=
  if isEmpty (iconInfo_ m) then ""
  else if negb (String.eqb (icon_bundleName (iconInfo_ m)) bundle) then ""
  else icon_continueType (iconInfo_ m).

Definition run_recv_task (t : RecvTask) (m : RecvMgr) : RecvMgr :=
  match t with
  | RBroadcast b => (DealOnBroadcastBusiness b m).2
  | RScreenOff | RSwitchOff => if isEmpty (iconInfo_ m) then m else withdraw_icon m
  end.
Definition RunRecvTask (n : nat) (m : RecvMgr) : RecvMgr :=
  match rm_tasks m !! n with
  | None => m
  | Some t => run_recv_task t (set_rtasks (delete n (rm_tasks m)) m)
  end.

Inductive RecvOp :=
  | RoInit (accountId : Z)
  | RoUnInit
  | RoData (sender : string) (payload : list Z)
  | RoRegister (type : string) (obj : option Z)
  | RoUnregister (type : string) (obj : option Z)
  | RoDied (obj : option Z)
  | RoScreenOff
  | RoScreenOn
  | RoSwitchOff
  | RoUserSwitch
  | RoOffline (networkId : string)
  | RoRemoved (bundle : string)
  | RoTask (n : nat).

(** [None]: undefined behaviour. *)
Definition run_recv_op (o : RecvOp) (m : RecvMgr) : option RecvMgr :=
  match o with
  | RoInit a => Some (Recv_Init a m)
  | RoUnInit => Some (Recv_UnInit m)
  | RoData s p => Some (NotifyDataRecv s p m)
  | RoRegister t o => snd <$> RegisterOnListener t o m
  | RoUnregister t o => Some (RegisterOffListener t o m).2
  | RoDied o => Some (NotifyDied o m)
  | RoScreenOff => Some (OnDeviceScreenOff m)
  | RoScreenOn => Some (OnDeviceScreenOn m)
  | RoSwitchOff => Some (OnContinueSwitchOff m)
  | RoUserSwitch => Some (OnUserSwitch m)
  | RoOffline n => Some (NotifyDeviceOffline n m)
  | RoRemoved b => Some (NotifyPackageRemoved b m)
  | RoTask n => Some (RunRecvTask n m)
  end.
End Recv.

Fixpoint run_recv (os : list (RecvEnv * RecvOp)) (m : RecvMgr) : option RecvMgr :=
  match os with
  | [] => Some m
  | (env, o) :: os => m ← run_recv_op env o m; run_recv os m
  end.
