(* ===== verification/MissionRecvProps.v ===== *)
(** What holds of the receiver of mission broadcasts and of the icon of the dock. *)

From Stdlib Require Import Sorted.
From S2P Require Import Prelude StdMap SchedErrors ContinueInfo MissionSend MissionRecv.
#[local] Open Scope string_scope.
#[local] Open Scope list_scope.
#[local] Open Scope Z_scope.

(** ** Watches for the death of listeners *)

(** How often an object is registered. *)
Definition registered (obj : Z) (l : list (string * list Z)) : nat := count_occ Z.eq_dec (concat (map snd l)) obj.
(** How many watches the calls leave. *)
Definition watch (obj : Z) (c : RecvCall) : Z :=
  match c with
  | RAddDeath o => if o =? obj then 1 else 0
  | RRemoveDeath o => if o =? obj then -1 else 0
  | _ => 0
  end.
Definition watches (obj : Z) (cs : list RecvCall) : Z := foldr (fun c n => watch obj c + n) 0 cs.

Lemma watches_app obj a b : watches obj (a ++ b) = watches obj a + watches obj b.
Proof. unfold watches. induction a as [|c a IH]; cbn; [done|]. rewrite IH. lia. Qed.
Lemma watches_rcall obj c m : watches obj (rm_calls (rcall c m)) = watches obj (rm_calls m) + watch obj c.
Proof. unfold rcall. cbn [rm_calls]. rewrite watches_app. unfold watches at 2. cbn. lia. Qed.
Lemma rcalls_facts c n m : let m' := rcalls c n m in
  rm_tasks m' = rm_tasks m /\ rm_handler m' = rm_handler m /\ registerOnListener_ m' = registerOnListener_ m /\ iconInfo_ m' = iconInfo_ m /\
  onType_ m' = onType_ m /\ rm_calls m' = rm_calls m ++ replicate n c.
Proof.
  induction n as [|n IH] in m |- *; [cbn; by rewrite app_nil_r|]. cbn [rcalls]. destruct (IH (rcall c m)) as (E1 & E2 & E3 & E4 & E5 & E6). cbv zeta.
  rewrite E1, E2, E3, E4, E5, E6. cbn. by rewrite <- app_assoc.
Qed.
Lemma watches_replicate obj o n : watches obj (replicate n (RRemoveDeath o)) = - (if o =? obj then Z.of_nat n else 0).
Proof. induction n as [|n IH]; cbn [replicate]; [by destruct (o =? obj)|]. unfold watches in *. cbn [foldr]. rewrite IH. cbn. destruct (o =? obj); lia. Qed.

(** ** The lists of listeners *)

Definition listeners_ok (l : list (string * list Z)) : Prop := msorted l /\ Forall (fun e => NoDup e.2 /\ e.2 <> []) l.

Lemma registered_cons obj e l : registered obj (e :: l) = (count_occ Z.eq_dec e.2 obj + registered obj l)%nat.
Proof. unfold registered. cbn. apply count_occ_app. Qed.
Lemma registered_insert obj t os l : registered obj (insert_sorted t os l) = (count_occ Z.eq_dec os obj + registered obj l)%nat.
Proof. induction l as [|[k v] l IH]; cbn [insert_sorted]; [apply registered_cons|]. destruct (key_lt t k); rewrite !registered_cons; [done|]. rewrite IH. lia. Qed.

Lemma mupdate_absent (t : string) f (l : list (string * list Z)) : mfind t l = None -> mupdate t f l = l.
Proof.
  induction l as [|e l IH]; [done|]. rewrite mfind_cons. cbn. destruct (same_key t e.1); [done|]. intros H. f_equal. by apply IH.
Qed.
Lemma mfind_tail_None (k : string) (v : list Z) l t : msorted ((k, v) :: l) -> same_key t k = true -> mfind t l = None.
Proof.
  intros Hs Hk. destruct (mfind t l) as [x|] eqn:E; [|done]. apply mfind_In in E as (k' & Hin & Hk'). inversion Hs as [|? ? _ Hf]. subst.
  apply (proj1 (List.Forall_forall _ _) Hf) in Hin. cbn in Hin. rewrite same_key_sym in Hk. pose proof (same_key_trans _ _ _ Hk Hk') as H.
  apply same_key_spec in H as [H _]. congruence.
Qed.
Lemma registered_update obj t os os' l : msorted l -> mfind t l = Some os ->
  (registered obj (mupdate t (fun _ => os') l) + count_occ Z.eq_dec os obj = registered obj l + count_occ Z.eq_dec os' obj)%nat.
Proof.
  induction l as [|[k v] l IH]; [done|]. intros Hs. rewrite mfind_cons. cbn [fst snd mupdate map]. destruct (same_key t k) eqn:Ek.
  - intros [= ->]. fold (mupdate t (fun _ => os') l). rewrite (mupdate_absent t) by (by eapply mfind_tail_None). rewrite !registered_cons. cbn. lia.
  - intros Hf. inversion Hs. subst. fold (mupdate t (fun _ => os') l). rewrite !registered_cons. specialize (IH ltac:(done) Hf). cbn. lia.
Qed.

Lemma existsb_In obj os : existsb (Z.eqb obj) os = bool_decide (obj ∈ os).
Proof.
  destruct (existsb (Z.eqb obj) os) eqn:E; symmetry.
  - apply bool_decide_eq_true. apply existsb_exists in E as (x & Hx & ->%Z.eqb_eq). by apply list_elem_of_In.
  - apply bool_decide_eq_false. intros H. apply list_elem_of_In in H. assert (existsb (Z.eqb obj) os = true) as E' by (apply existsb_exists; exists obj; split; [done|apply Z.eqb_refl]).
    congruence.
Qed.

(** Taking an object out of every list. *)
Lemma drop_sorted f l : msorted l -> msorted (drop_listener f l).
Proof. intros H. apply mfilter_sorted. eapply keys_sorted; [|exact H]. rewrite map_map. by apply map_ext. Qed.
Lemma drop_lists f l : (forall os, NoDup os -> NoDup (f os)) -> Forall (fun e : string * list Z => NoDup e.2 /\ e.2 <> []) l ->
  Forall (fun e => NoDup e.2 /\ e.2 <> []) (drop_listener f l).
Proof.
  intros Hf H. apply List.Forall_forall. intros e He. unfold drop_listener in He. apply filter_In in He as [He Hn].
  apply in_map_iff in He as (e' & <- & He'). cbn in *. apply (proj1 (List.Forall_forall _ _) H) in He' as [Hd _]. split; [by apply Hf|].
  by destruct (f e'.2).
Qed.
Lemma registered_drop obj f l : registered obj (drop_listener f l) = list_sum (map (fun e => count_occ Z.eq_dec (f e.2) obj) l).
Proof.
  induction l as [|e l IH]; [done|]. unfold drop_listener in *. cbn [map List.filter snd list_sum].
  destruct (f e.2) as [|x xs] eqn:E; [exact IH|]. rewrite registered_cons, IH. done.
Qed.
Lemma registered_sum obj l : registered obj l = list_sum (map (fun e => count_occ Z.eq_dec e.2 obj) l).
Proof. induction l as [|e l IH]; [done|]. rewrite registered_cons, IH. done. Qed.

Lemma remove_one_spec o os : NoDup os -> remove_one o os = remove_all o os.
Proof.
  induction 1 as [|x os Hx Hd IH]; [done|]. cbn. destruct (Z.eqb_spec x o) as [->|]; cbn; [|by rewrite IH].
  symmetry. unfold remove_all. clear IH. induction os as [|y os IH]; [done|]. cbn. apply NoDup_cons in Hd as [? Hd].
  apply not_elem_of_cons in Hx as [? ?].
  destruct (Z.eqb_spec y o) as [->|]; [done|]. cbn. f_equal. by apply IH.
Qed.
Lemma remove_all_NoDup o os : NoDup os -> NoDup (remove_all o os).
Proof. intros H. apply NoDup_ListNoDup. apply NoDup_ListNoDup in H. by apply List.NoDup_filter. Qed.
Lemma remove_all_count o obj os : count_occ Z.eq_dec (remove_all o os) obj = if o =? obj then 0%nat else count_occ Z.eq_dec os obj.
Proof.
  induction os as [|x os IH]; [by cbn; destruct (o =? obj)|]. change (remove_all o (x :: os)) with (if negb (x =? o) then x :: remove_all o os else remove_all o os).
  destruct (Z.eqb_spec x o) as [->|]; cbn [negb count_occ]; rewrite IH; destruct (Z.eqb_spec o obj) as [->|]; try done;
    repeat (destruct (Z.eq_dec _ _)); congruence.
Qed.
Lemma drop_one_all o l : Forall (fun e : string * list Z => NoDup e.2 /\ e.2 <> []) l -> drop_listener (remove_one o) l = drop_listener (remove_all o) l.
Proof. intros H. unfold drop_listener. f_equal. induction H as [|e l [Hd _] _ IH]; [done|]. cbn. by rewrite remove_one_spec, IH. Qed.
Lemma registered_remove o obj l : registered obj (drop_listener (remove_all o) l) = if o =? obj then 0%nat else registered obj l.
Proof.
  rewrite registered_drop, registered_sum. unfold list_sum in *. induction l as [|e l IH]; cbn; [by destruct (o =? obj)|]. rewrite IH, remove_all_count. by destruct (o =? obj).
Qed.
Lemma filter_count o os : length (List.filter (Z.eqb o) os) = count_occ Z.eq_dec os o.
Proof. induction os as [|x os IH]; [done|]. cbn. destruct (Z.eqb_spec o x), (Z.eq_dec x o); cbn; congruence. Qed.
Lemma occurrences_registered o l : Forall (fun e : string * list Z => NoDup e.2 /\ e.2 <> []) l -> occurrences o l = registered o l.
Proof.
  unfold occurrences. induction 1 as [|e l [Hd _] _ IH]; [done|]. rewrite registered_cons, <- IH. cbn. rewrite existsb_In.
  apply NoDup_ListNoDup in Hd. case_bool_decide as E; cbn.
  - apply list_elem_of_In in E. by rewrite (NoDup_count_occ' Z.eq_dec e.2) in Hd; rewrite Hd.
  - rewrite (proj1 (count_occ_not_In Z.eq_dec e.2 o)); [done|]. intros H. by apply E, list_elem_of_In.
Qed.

(** ** The invariant *)

Definition retry_ok (t : RecvTask) : Prop := match t with RBroadcast b => 0 <= bt_retry b <= DBMS_RETRY_MAX_TIME | _ => True end.

Record recv_inv (m : RecvMgr) : Prop := mkRecvInv {
  ri_listeners : listeners_ok (registerOnListener_ m);
  ri_watch : forall obj, watches obj (rm_calls m) = Z.of_nat (registered obj (registerOnListener_ m));
  ri_one : (length (List.filter is_broadcast (rm_tasks m)) <= 1)%nat;
  ri_retry : Forall retry_ok (rm_tasks m);
  ri_idle : rm_handler m = false -> rm_tasks m = [];
}.

Lemma recv_icon_inv i m : recv_inv m -> recv_inv (set_icon i m).
Proof. by intros []. Qed.
Lemma rcall_inv c m : (forall obj, watch obj c = 0) -> recv_inv m -> recv_inv (rcall c m).
Proof. intros Hc []. constructor; try done. intros obj. rewrite watches_rcall, Hc, ri_watch0. by rewrite Z.add_0_r. Qed.
Lemma notify_all_inv os i st m : recv_inv m -> recv_inv (notify_all os i st m).
Proof. induction os as [|o os IH] in m |- *; [done|]. intros H. cbn. apply IH. by apply rcall_inv. Qed.
Lemma recv_tasks_inv l m : recv_inv m -> (length (List.filter is_broadcast l) <= 1)%nat -> Forall retry_ok l -> (rm_handler m = false -> l = []) ->
  recv_inv (set_rtasks l m).
Proof. intros [] H1 H2 H3. by constructor. Qed.

Create HintDb recv.
#[local] Hint Resolve recv_icon_inv notify_all_inv : recv.

Lemma filter_none l : List.filter is_broadcast (List.filter (fun t => negb (is_broadcast t)) l) = [].
Proof. induction l as [|t l IH]; [done|]. cbn. by destruct (is_broadcast t) eqn:E; cbn; rewrite ?E. Qed.
Lemma PostBroadcast_inv env b m : 0 <= bt_retry b <= DBMS_RETRY_MAX_TIME -> recv_inv m -> recv_inv (PostOnBroadcastBusiness env b m).
Proof.
  intros Hb H. unfold PostOnBroadcastBusiness. destruct (rm_handler m) eqn:Eh; [|done]. set (l := List.filter _ (rm_tasks m)).
  assert (Forall retry_ok l) as Hl.
  { apply List.Forall_forall. intros t Ht. apply filter_In in Ht as [Ht _]. by apply (proj1 (List.Forall_forall _ _) (ri_retry _ H)). }
  unfold Recv_PostTask. cbn. rewrite Eh. cbn. destruct (r_PostTask env); cbn.
  - apply (recv_tasks_inv (l ++ [RBroadcast b]) m); [done|subst l; rewrite List.filter_app, filter_none; cbn; lia| |by rewrite Eh].
    apply Forall_app. split; [done|by constructor].
  - apply recv_tasks_inv; [done|subst l; rewrite filter_none; cbn; lia|done|by rewrite Eh].
Qed.
Lemma PostPlain_inv env t m : is_broadcast t = false -> recv_inv m -> recv_inv (Recv_PostTask env t m).
Proof.
  intros Ht H. unfold Recv_PostTask. destruct (rm_handler m) eqn:Eh, (r_PostTask env); cbn; try done.
  apply recv_tasks_inv; [done| | |by rewrite Eh].
  - rewrite List.filter_app. cbn. rewrite Ht, app_nil_r. apply H.
  - apply Forall_app. split; [apply H|]. constructor; [by destruct t|done].
Qed.
Lemma NotifyDock_inv i st m : recv_inv m -> recv_inv (NotifyDockDisplay i st m).2.
Proof. intros H. unfold NotifyDockDisplay. destruct (mfind _ _); cbn [snd]; auto with recv. Qed.
Lemma withdraw_inv m : recv_inv m -> recv_inv (withdraw_icon m).
Proof. intros H. unfold withdraw_icon, FindToNotifyRecvBroadcast. destruct (mfind _ _); auto with recv. Qed.
Lemma IconDisappear_inv s st m : recv_inv m -> recv_inv (NotifyIconDisappear s st m).
Proof. intros H. unfold NotifyIconDisappear. destruct (_ && _); [|done]. by apply NotifyDock_inv. Qed.
#[local] Hint Resolve PostBroadcast_inv PostPlain_inv NotifyDock_inv withdraw_inv IconDisappear_inv : recv.

Lemma Deal_inv env b m : 0 <= bt_retry b <= DBMS_RETRY_MAX_TIME -> recv_inv m -> recv_inv (DealOnBroadcastBusiness env b m).2.
Proof.
  intros Hb H. unfold DealOnBroadcastBusiness. destruct (r_GetDistributedBundleInfo _ _ _) as [info|].
  - destruct (FindContinueType _ _) as [ct ab]. destruct (GetFinalBundleName env info) as [[fin lb]|]; [|cbn [snd]; by auto with recv].
    do 3 (match goal with |- recv_inv (snd (if ?c then _ else _)) => destruct c; [cbn [snd]; by auto with recv|] end).
    destruct (VerifyBroadcastSource _ _ _ _ _ m) as [ret m'] eqn:E.
    assert (recv_inv m') as H'.
    { revert E. unfold VerifyBroadcastSource. repeat (match goal with |- (if ?c then _ else _) = _ -> _ => destruct c end); intros [= <- <-]; auto with recv. }
    destruct (negb _); [done|]. by apply NotifyDock_inv.
  - unfold RetryPostBroadcast. assert (recv_inv (rcall (RPushAndPull (bt_sender b)) m)) as H' by (by apply rcall_inv).
    destruct (Z.eqb_spec (bt_retry b) DBMS_RETRY_MAX_TIME) as [|Hne]; [done|]. apply PostBroadcast_inv; [cbn; unfold DBMS_RETRY_MAX_TIME in *; lia|done].
Qed.

Lemma Register_inv t obj m r m' : RegisterOnListener t obj m = Some (r, m') -> recv_inv m -> recv_inv m'.
Proof.
  unfold RegisterOnListener. destruct obj as [o|]; [|by intros [= <- <-]]. cbn [registerOnListener_ set_onListeners]. intros E H.
  destruct (mfind t (registerOnListener_ m)) as [os|] eqn:Ef.
  - rewrite existsb_In in E. case_bool_decide as Ho; injection E as <- <-; [by destruct H|]. destruct H as [[L1 L2] W O R I].
    unfold mset. rewrite Ef. constructor; try done.
    + split; [eapply keys_sorted; [apply mupdate_keys|done]|]. apply mfind_In in Ef as (k' & Hin & _).
      pose proof (proj1 (List.Forall_forall _ _) L2 _ Hin) as [Hd _]. cbn in Hd. apply List.Forall_map, List.Forall_forall. intros e He.
      destruct (same_key t e.1); [|by apply (proj1 (List.Forall_forall _ _) L2)]. cbn. split; [|by destruct os].
      apply NoDup_app. split; [done|]. split; [intros x Hx ->%list_elem_of_singleton; done|apply NoDup_singleton].
    + intros obj. cbn [rm_calls set_onListeners registerOnListener_]. rewrite watches_rcall. cbn [rm_calls set_onListeners watch]. rewrite W.
      pose proof (registered_update obj t os (os ++ [o]) (registerOnListener_ m) L1 Ef) as Hu. rewrite count_occ_app in Hu. cbn in Hu.
      destruct (Z.eq_dec o obj), (Z.eqb_spec o obj); try congruence; lia.
  - destruct (_ <? _)%nat; [|done]. injection E as <- <-. destruct H as [[L1 L2] W O R I]. unfold mset. rewrite Ef. constructor; try done.
    + split; [by apply insert_sorted_sorted|]. apply insert_sorted_Forall; [|done]. split; [apply NoDup_singleton|done].
    + intros obj. cbn [rm_calls set_onListeners registerOnListener_]. rewrite watches_rcall. cbn [rm_calls set_onListeners watch]. rewrite W, registered_insert. cbn.
      destruct (Z.eq_dec o obj), (Z.eqb_spec o obj); try congruence; lia.
Qed.

(** An object leaves every list and with it its watches. *)
Lemma dropped_inv o n m : n = registered o (registerOnListener_ m) -> recv_inv m ->
  recv_inv (set_onListeners (onType_ m) (drop_listener (remove_all o) (registerOnListener_ m)) (rcalls (RRemoveDeath o) n m)).
Proof.
  intros -> [[L1 L2] W O R I]. destruct (rcalls_facts (RRemoveDeath o) (registered o (registerOnListener_ m)) m) as (E1 & E2 & E3 & E4 & E5 & E6).
  cbv zeta in *. constructor; cbn [rm_tasks rm_handler rm_calls registerOnListener_ set_onListeners]; rewrite ?E1, ?E2, ?E6; try done.
  - split; [by apply drop_sorted|]. apply drop_lists; [apply remove_all_NoDup|done].
  - intros obj. rewrite watches_app, watches_replicate, W, registered_remove. destruct (Z.eqb_spec o obj) as [->|]; lia.
Qed.
Lemma Unregister_inv t obj m : recv_inv m -> recv_inv (RegisterOffListener t obj m).2.
Proof.
  intros H. destruct obj as [o|]; [|done]. unfold RegisterOffListener. cbn [snd]. destruct (ri_listeners _ H) as [_ L2].
  rewrite drop_one_all by done. apply dropped_inv; [by apply occurrences_registered|done].
Qed.
Lemma Died_inv obj m : recv_inv m -> recv_inv (NotifyDied obj m).
Proof. intros H. destruct obj as [o|]; [|done]. unfold NotifyDied. apply dropped_inv; [apply filter_count|done]. Qed.
#[local] Hint Resolve Deal_inv Register_inv Unregister_inv Died_inv : recv.

Lemma NotifyData_inv env s p m : recv_inv m -> recv_inv (NotifyDataRecv env s p m).
Proof.
  intros H. unfold NotifyDataRecv. repeat (match goal with |- recv_inv (if ?c then m else _) => destruct c; [done|] end). cbv zeta.
  apply PostBroadcast_inv; [cbn; unfold DBMS_RETRY_MAX_TIME; lia|done].
Qed.
Lemma filter_delete_le {A} (f : A -> bool) n l : (length (List.filter f (delete n l)) <= length (List.filter f l))%nat.
Proof.
  induction l as [|x l IH] in n |- *; [done|]. destruct n as [|n].
  - change (delete 0%nat (x :: l)) with l. cbn [List.filter]. destruct (f x); cbn [length]; lia.
  - change (delete (S n) (x :: l)) with (x :: delete n l). cbn [List.filter]. specialize (IH n). destruct (f x); cbn [length]; lia.
Qed.
Lemma RunRecv_inv env n m : recv_inv m -> recv_inv (RunRecvTask env n m).
Proof.
  intros H. unfold RunRecvTask. destruct (rm_tasks m !! n) as [t|] eqn:E; [|done].
  assert (recv_inv (set_rtasks (delete n (rm_tasks m)) m)) as H'.
  { apply recv_tasks_inv; [done| | |].
    - etrans; [apply filter_delete_le|apply H].
    - apply Forall_delete, H.
    - intros Hh. by rewrite (ri_idle _ H Hh) in E. }
  destruct t; cbn [run_recv_task]; [|by destruct (isEmpty _); auto with recv..].
  apply Deal_inv; [|done]. by pose proof (proj1 (Forall_lookup _ _) (ri_retry _ H) n _ E).
Qed.
Lemma run_recv_op_inv env o m m' : recv_inv m -> run_recv_op env o m = Some m' -> recv_inv m'.
Proof.
  intros H. destruct o; cbn [run_recv_op]; intros E.
  all: try (injection E as <-).
  - by destruct H.
  - unfold Recv_UnInit. destruct (_ && _); [|done]. destruct H. constructor; try done; cbn; lia || constructor.
  - by apply NotifyData_inv.
  - destruct (RegisterOnListener type obj m) as [[r m1]|] eqn:Er; [|done]. injection E as <-. by eapply Register_inv.
  - by apply Unregister_inv.
  - by apply Died_inv.
  - unfold OnDeviceScreenOff. apply PostPlain_inv; [done|]. by destruct H.
  - by destruct H.
  - unfold OnContinueSwitchOff. by apply PostPlain_inv.
  - unfold OnUserSwitch. destruct (isEmpty _); auto with recv.
  - unfold NotifyDeviceOffline. destruct (String.eqb _ _); [done|]. destruct (r_GetLocalDeviceId env); [|done]. destruct (_ && _); auto with recv.
  - unfold NotifyPackageRemoved. destruct (String.eqb _ _); [done|]. destruct (negb _); auto with recv.
  - by apply RunRecv_inv.
Qed.

(** In every history of the receiver that does not run into the end of the
    table: the table of listeners is a map whose lists have no listener twice and are not
    empty; for every object exactly as many watches for its death are set as it is
    registered; at most one broadcast waits for the handler and its number of repetitions
    is at most 5; without a handler no task waits. *)
Theorem recv_invariant os m' : run_recv os RecvMgr_new = Some m' -> recv_inv m'.
Proof.
  assert (recv_inv RecvMgr_new) as H by (constructor; try done; first [by split; [apply SSorted_nil|apply Forall_nil_2] | by cbn; lia | apply Forall_nil_2]).
  revert H. generalize RecvMgr_new. induction os as [|[e o] os IH]; intros m H; cbn; [by intros [= <-]|].
  destruct (run_recv_op e o m) as [m1|] eqn:E; [|done]. cbn. apply IH. by eapply run_recv_op_inv.
Qed.

(** ** The icon *)

(** What a call tells the dock, given the icon before and after the step. *)
Definition tells (before after : currentIconInfo) (c : RecvCall) : Prop :=
  match c with
  | RNotify _ i st =>
      (st = ACTIVE /\ i = after /\ isEmpty i = false \/
       st = INACTIVE /\ senderNetworkId i = senderNetworkId before /\ icon_bundleName i = icon_bundleName before)
  | _ => True
  end.
(** The calls of the step from [m] to [m'] are true of the icon. *)
Definition step_tells (m m' : RecvMgr) : Prop :=
  exists new, rm_calls m' = rm_calls m ++ new /\ Forall (tells (iconInfo_ m) (iconInfo_ m')) new.

Lemma notify_all_facts os i st m : rm_calls (notify_all os i st m) = rm_calls m ++ map (fun o => RNotify o i st) os /\ iconInfo_ (notify_all os i st m) = iconInfo_ m.
Proof.
  induction os as [|o os IH] in m |- *; cbn; [by rewrite app_nil_r|]. destruct (IH (rcall (RNotify o i st) m)) as [-> ->]. cbn. by rewrite <- app_assoc.
Qed.
Lemma quiet_tells m m' : rm_calls m' = rm_calls m -> step_tells m m'.
Proof. intros E. exists []. by rewrite E, app_nil_r. Qed.
Lemma told_tells m os i st m' : rm_calls m' = rm_calls m -> (forall o, tells (iconInfo_ m) (iconInfo_ m') (RNotify o i st)) -> step_tells m (notify_all os i st m').
Proof.
  intros E Ht. destruct (notify_all_facts os i st m') as [E1 E2]. exists (map (fun o => RNotify o i st) os). rewrite E1, E2, E. split; [done|].
  apply List.Forall_map, List.Forall_forall. intros o _. apply Ht.
Qed.
Lemma DockDisplay_tells m m' i st : rm_calls m' = rm_calls m -> (forall o, tells (iconInfo_ m) (iconInfo_ m') (RNotify o i st)) -> step_tells m (NotifyDockDisplay i st m').2.
Proof. intros E Ht. unfold NotifyDockDisplay. destruct (mfind _ _); [by apply told_tells|by apply quiet_tells]. Qed.
Lemma withdraw_tells m m0 : rm_calls m = rm_calls m0 -> iconInfo_ m = iconInfo_ m0 -> step_tells m0 (withdraw_icon m).
Proof.
  intros E1 E2. unfold withdraw_icon, FindToNotifyRecvBroadcast. destruct (mfind _ _); [|by apply quiet_tells].
  apply told_tells; [done|]. intros o. right. cbn. by rewrite E2.
Qed.
Lemma IconDisappear_tells s st m m0 : rm_calls m = rm_calls m0 -> iconInfo_ m = iconInfo_ m0 -> step_tells m0 (NotifyIconDisappear s st m).
Proof.
  intros E1 E2. unfold NotifyIconDisappear, NotifyDockDisplay. destruct (_ && _); [|by apply quiet_tells].
  destruct (mfind _ _); [|by apply quiet_tells]. apply told_tells; [done|]. intros o. right. by rewrite E2.
Qed.
Lemma PostBroadcast_calls env b m : rm_calls (PostOnBroadcastBusiness env b m) = rm_calls m /\ iconInfo_ (PostOnBroadcastBusiness env b m) = iconInfo_ m.
Proof. unfold PostOnBroadcastBusiness, Recv_PostTask. cbn. by destruct (rm_handler m), (r_PostTask env). Qed.
Lemma PostPlain_calls env t m : rm_calls (Recv_PostTask env t m) = rm_calls m.
Proof. unfold Recv_PostTask. by destruct (_ && _). Qed.

(** A sender has a name. *)
Lemma Deal_tells env b m m0 : bt_sender b <> "" -> (bt_state b = ACTIVE \/ bt_state b = INACTIVE) -> rm_calls m = rm_calls m0 -> iconInfo_ m = iconInfo_ m0 ->
  step_tells m0 (DealOnBroadcastBusiness env b m).2.
Proof.
  intros Hs Hst E1 E2. unfold DealOnBroadcastBusiness. destruct (r_GetDistributedBundleInfo _ _ _) as [info|].
  - destruct (FindContinueType _ _) as [ct ab]. destruct (GetFinalBundleName env info) as [[fin lb]|]; [|by apply IconDisappear_tells].
    do 2 (match goal with |- step_tells _ (snd (if ?c then _ else _)) => destruct c; [by apply IconDisappear_tells|] end).
    destruct (_ && _); [by apply quiet_tells|]. unfold VerifyBroadcastSource. destruct Hst as [Hst|Hst]; rewrite Hst; cbn [Z.eqb ACTIVE INACTIVE].
    + cbn [negb Z.eqb ERR_OK]. apply DockDisplay_tells; [done|]. intros o. left. split; [done|]. split; [done|].
      unfold isEmpty. cbn. destruct (String.eqb_spec (bt_sender b) ""); done.
    + destruct (String.eqb_spec (bt_sender b) (senderNetworkId (iconInfo_ m))) as [Es|]; [|by apply quiet_tells]. cbn [negb].
      destruct (String.eqb_spec fin (icon_bundleName (iconInfo_ m))) as [Ef|]; [|by apply quiet_tells]. cbn [negb Z.eqb ERR_OK].
      apply DockDisplay_tells; [done|]. intros o. right. cbn. by rewrite <- E2.
  - unfold RetryPostBroadcast. exists [RPushAndPull (bt_sender b)]. split; [|by constructor].
    destruct (_ =? _); cbn [snd]; [cbn; by rewrite E1|]. rewrite (proj1 (PostBroadcast_calls _ _ _)). cbn. by rewrite E1.
Qed.

(** The broadcasts that wait have a sender and one of the two states. *)
Definition named_ok (t : RecvTask) : Prop := match t with RBroadcast b => bt_sender b <> "" /\ (bt_state b = ACTIVE \/ bt_state b = INACTIVE) | _ => True end.
Definition sender_named (o : RecvOp) : Prop := match o with RoData s _ => s <> "" | _ => True end.

(** The dock is told the truth. Whatever a step of the receiver tells a
    listener: that an icon is shown, then it is the icon saved after the step, which is
    not empty; that an icon is gone, then sender and bundle are those of the icon saved
    before the step. *)
Theorem icon_told env o m m' : Forall named_ok (rm_tasks m) -> sender_named o -> run_recv_op env o m = Some m' -> step_tells m m'.
Proof.
  intros Ht Ho. destruct o; cbn [run_recv_op]; intros E; try (injection E as <-); try by apply quiet_tells.
  - unfold Recv_UnInit. destruct (_ && _); by apply quiet_tells.
  - unfold NotifyDataRecv. repeat (match goal with |- step_tells _ (if ?c then m else _) => destruct c; [by apply quiet_tells|] end). cbv zeta.
    apply quiet_tells, PostBroadcast_calls.
  - destruct (RegisterOnListener type obj m) as [[r m1]|] eqn:Er; [|done]. injection E as <-. revert Er. unfold RegisterOnListener.
    destruct obj as [ob|]; [|intros [= <- <-]; by apply quiet_tells]. destruct (mfind _ _); [destruct (existsb _ _)|destruct (_ <? _)%nat; [|done]];
      intros [= <- <-]; first [by apply quiet_tells | exists [RAddDeath ob]; split; [done|by constructor]].
  - destruct obj as [ob|]; [|by apply quiet_tells]. unfold RegisterOffListener. cbn [snd].
    destruct (rcalls_facts (RRemoveDeath ob) (occurrences ob (registerOnListener_ m)) m) as (_ & _ & _ & _ & _ & E6).
    eexists. split; [exact E6|]. by apply Forall_replicate.
  - destruct obj as [ob|]; [|by apply quiet_tells]. unfold NotifyDied. set (n := length _).
    destruct (rcalls_facts (RRemoveDeath ob) n m) as (_ & _ & _ & _ & _ & E6). eexists. split; [exact E6|]. by apply Forall_replicate.
  - apply quiet_tells. exact (PostPlain_calls env RScreenOff (set_screen false m)).
  - apply quiet_tells, PostPlain_calls.
  - unfold OnUserSwitch. destruct (isEmpty _); [by apply quiet_tells|by apply withdraw_tells].
  - unfold NotifyDeviceOffline. destruct (String.eqb _ _); [by apply quiet_tells|]. destruct (r_GetLocalDeviceId env); [|by apply quiet_tells].
    destruct (_ && _); [by apply quiet_tells|by apply withdraw_tells].
  - unfold NotifyPackageRemoved. destruct (String.eqb _ _); [by apply quiet_tells|]. destruct (negb _); [by apply quiet_tells|by apply withdraw_tells].
  - unfold RunRecvTask. destruct (rm_tasks m !! n) as [t|] eqn:El; [|by apply quiet_tells].
    destruct t; cbn [run_recv_task]; [|by destruct (isEmpty _); [apply quiet_tells|apply withdraw_tells]..].
    pose proof (proj1 (Forall_lookup _ _) Ht n _ El) as [H1 H2]. by apply Deal_tells.
Qed.

(** ** A device for the witnesses *)

Definition demo_ability : DmsAbilityInfo := mkDmsAbilityInfo "Main" ["x"; "y"; "z"] "entry" [].
Definition demo_renv (found : bool) : RecvEnv :=
  mkRecvEnv true true true true true
    (fun s b => if found && String.eqb s "devA" && (b =? 513) then Some (mkDmsBundleInfo "com.a" "dev" [demo_ability]) else None)
    (fun n => if String.eqb n "com.a" then Some (mkLocalBundle true [mkLocalAbility "Main" "entry" true ["z"]]) else None)
    (fun _ => None) (fun _ => None) (Some "devB").
Definition demo_dock : RecvMgr := default RecvMgr_new (run_recv [(demo_renv true, RoInit 100); (demo_renv true, RoRegister "t" (Some 5))] RecvMgr_new).
Definition demo_icon : currentIconInfo := mkIcon "devA" "com.a" "z" "com.a".

Lemma recv_invariant_witness : recv_inv demo_dock /\ registered 5 (registerOnListener_ demo_dock) = 1%nat.
Proof.
  split; [|done]. apply (recv_invariant [(demo_renv true, RoInit 100); (demo_renv true, RoRegister "t" (Some 5))]). reflexivity.
Defined.

Lemma icon_told_witness : step_tells demo_dock (RegisterOffListener "t" (Some 5) demo_dock).2 /\
  exists m', run_recv_op (demo_renv true) (RoTask 0) (NotifyDataRecv (demo_renv true) "devA" [3; 2; 1; 2] demo_dock) = Some m' /\ iconInfo_ m' = demo_icon /\
    step_tells (NotifyDataRecv (demo_renv true) "devA" [3; 2; 1; 2] demo_dock) m'.
Proof.
  split; [apply (icon_told (demo_renv true) (RoUnregister "t" (Some 5))); [constructor|done|done]|].
  eexists. split; [reflexivity|]. split; [reflexivity|]. apply (icon_told (demo_renv true) (RoTask 0)); [|done|reflexivity].
  constructor; [|constructor]. split; [done|by left].
Defined.

(** Registering fails badly in exactly one case: a new type when there are 1000. *)
Lemma register_past_the_end t o m : RegisterOnListener t (Some o) m = None <->
  mfind t (registerOnListener_ m) = None /\ (REGIST_MAX_SIZE <= length (registerOnListener_ m))%nat.
Proof.
  cbn [RegisterOnListener registerOnListener_ set_onListeners]. destruct (mfind t (registerOnListener_ m)) as [os|].
  - destruct (existsb _ _); split; [done|by intros []|done|by intros []].
  - destruct (Nat.ltb_spec (length (registerOnListener_ m)) REGIST_MAX_SIZE); split; [done|lia|done|done].
Qed.
