(* ===== verification/MissionDock.v ===== *)
(** From the mission that gets the focus on one device to the icon of the dock of
    another: the sender of the broadcasts and their receiver together. *)

From Stdlib Require Import Sorted.
From S2P Require Import Prelude StdMap SchedErrors ContinueInfo MissionCondition MissionSend MissionSendProps MissionOffer MissionRecv MissionRecvProps.
#[local] Open Scope string_scope.
#[local] Open Scope list_scope.
#[local] Open Scope Z_scope.

(** ** The bytes *)

Lemma low_byte x : Z.land x 255 = u8 x.
Proof. change 255 with (Z.ones 8). by rewrite Z.land_ones by lia. Qed.
Lemma join_bytes b : is_u16 b -> u16 (Z.lor (Z.shiftl (Z.land (Z.shiftr b 8) 255) 8) (Z.land b 255)) = b.
Proof.
  intros Hb. rewrite !low_byte. rewrite <- (u16_join b Hb) at 3. do 2 f_equal. rewrite low_byte. unfold u8. by rewrite Zmod_mod.
Qed.

(** The state that a type of broadcast announces. *)
Definition state_of (type : Z) : Z := if type =? BROADCAST_TYPE_DISAPPEAR then INACTIVE else ACTIVE.

Section Dock.
Variable env : RecvEnv.

(** The rules under which a device listens to broadcasts. *)
Definition listening : Prop := r_CheckCtrlRule env = true /\ r_IsCurrentContinueSwitchOn env = true /\ r_IsWifiActive env = true.

Lemma decode_broadcast sender b c t m : listening -> is_u16 b -> is_u8 c -> (t = BROADCAST_TYPE_APPEAR \/ t = BROADCAST_TYPE_DISAPPEAR) ->
  NotifyDataRecv env sender (broadcast_bytes b c t) m = PostOnBroadcastBusiness env (mkBroadcast sender b c (state_of t) 0) m.
Proof.
  intros (H1 & H2 & H3) Hb Hc Ht. unfold NotifyDataRecv. rewrite H1, H2, H3. cbn [negb]. change (len (broadcast_bytes b c t) <? DMS_SEND_LEN) with false. cbv iota zeta.
  cbn [nth broadcast_bytes]. unfold DMS_0XFF, CONTINUE_SHIFT_08. rewrite join_bytes by done. rewrite (low_byte c), (u8_id c Hc).
  by destruct Ht as [-> | ->].
Qed.

(** What one device hands to softbus is what another reads out of it: for
    every 16-bit number of a bundle, 8-bit number of a continue type and the two types,
    the listening receiver posts exactly the broadcast with these numbers, its sender and
    the state that belongs to the type. *)
Theorem broadcast_round_trip sender b c t m : listening -> is_u16 b -> is_u8 c -> (t = BROADCAST_TYPE_APPEAR \/ t = BROADCAST_TYPE_DISAPPEAR) ->
  rm_handler m = true -> r_PostTask env = true ->
  rm_tasks (NotifyDataRecv env sender (broadcast_bytes b c t) m) =
    List.filter (fun x => negb (is_broadcast x)) (rm_tasks m) ++ [RBroadcast (mkBroadcast sender b c (state_of t) 0)].
Proof.
  intros Hl Hb Hc Ht Hh Hp. rewrite decode_broadcast by done. unfold PostOnBroadcastBusiness, Recv_PostTask. rewrite Hh. cbn. by rewrite Hh, Hp.
Qed.

(** ** Delivery *)

(** The bytes arrive and the posted task runs. *)
Definition deliver (sender : string) (bytes : list Z) (m : RecvMgr) : RecvMgr :=
  let m := NotifyDataRecv env sender bytes m in RunRecvTask env (pred (length (rm_tasks m))) m.

(** A device that can continue the offered mission here. *)
Record can_show (m : RecvMgr) (sender : string) (b c : Z) (icon : currentIconInfo) (objs : list Z) : Prop := mkCanShow {
  cs_listening : listening;
  cs_post : r_PostTask env = true;
  cs_handler : rm_handler m = true;
  cs_screen : isScreenOn m = true;
  cs_objs : mfind (onType_ m) (registerOnListener_ m) = Some objs;
  cs_bundle : exists info ability lb,
    r_GetDistributedBundleInfo env sender b = Some info /\ FindContinueType info c = (icon_continueType icon, Some ability) /\
    GetFinalBundleName env info = Some (icon_bundleName icon, lb) /\ lb_isApp lb = true /\ dbi_bundleName info = sourceBundleName icon /\
    IsBundleContinuable lb (ability_abilityName ability) (ability_moduleName ability) (icon_continueType icon) = true;
  cs_sender : senderNetworkId icon = sender;
}.

Lemma deliver_runs sender b c t m : listening -> is_u16 b -> is_u8 c -> (t = BROADCAST_TYPE_APPEAR \/ t = BROADCAST_TYPE_DISAPPEAR) ->
  rm_handler m = true -> r_PostTask env = true ->
  deliver sender (broadcast_bytes b c t) m =
    (DealOnBroadcastBusiness env (mkBroadcast sender b c (state_of t) 0) (set_rtasks (List.filter (fun x => negb (is_broadcast x)) (rm_tasks m)) m)).2.
Proof.
  intros Hl Hb Hc Ht Hh Hp. unfold deliver. rewrite decode_broadcast by done. unfold PostOnBroadcastBusiness, Recv_PostTask. rewrite Hh. cbn. rewrite Hh, Hp. cbn.
  set (l := List.filter _ _). unfold RunRecvTask. cbn. rewrite length_app. cbn. rewrite Nat.add_1_r. cbn. rewrite lookup_app_r, Nat.sub_diag by lia. cbn.
  do 2 f_equal. unfold set_rtasks. cbn. f_equal. rewrite delete_take_drop, take_app_length, drop_ge by (rewrite length_app; cbn; lia). apply app_nil_r.
Qed.

Definition told (objs : list Z) (icon : currentIconInfo) (state : Z) : list RecvCall := map (fun o => RNotify o icon state) objs.

Lemma notify_all_keeps os i st m : let m' := notify_all os i st m in
  rm_handler m' = rm_handler m /\ isScreenOn m' = isScreenOn m /\ onType_ m' = onType_ m /\ registerOnListener_ m' = registerOnListener_ m.
Proof. induction os as [|o os IH] in m |- *; [done|]. cbv zeta. cbn [notify_all]. destruct (IH (rcall (RNotify o i st) m)) as (-> & -> & -> & ->). done. Qed.

Lemma appear_shown m sender b c icon objs : can_show m sender b c icon objs -> is_u16 b -> is_u8 c ->
  let m' := deliver sender (broadcast_bytes b c BROADCAST_TYPE_APPEAR) m in
  iconInfo_ m' = icon /\ rm_calls m' = rm_calls m ++ told objs icon ACTIVE /\ can_show m' sender b c icon objs.
Proof.
  intros Hcs Hb Hc. pose proof Hcs as [Hl Hp Hh Hsc Ho (info & ab & lb & B1 & B2 & B3 & B4 & B5 & B6) Hs]. cbv zeta.
  rewrite deliver_runs by auto. unfold DealOnBroadcastBusiness. cbn [bt_sender bt_bundleNameId bt_continueTypeId bt_state state_of Z.eqb BROADCAST_TYPE_APPEAR BROADCAST_TYPE_DISAPPEAR].
  rewrite B1, B2, B3, B4. cbn [negb ability_abilityName]. rewrite B6. cbn [negb andb]. rewrite andb_false_r. cbn [isScreenOn set_rtasks]. rewrite Hsc. cbn [negb]. rewrite andb_false_r.
  unfold VerifyBroadcastSource. cbn [Z.eqb ACTIVE negb ERR_OK]. unfold NotifyDockDisplay. cbn [onType_ set_icon set_rtasks registerOnListener_]. rewrite Ho. cbn [snd].
  assert (mkIcon sender (icon_bundleName icon) (icon_continueType icon) (dbi_bundleName info) = icon) as -> by (rewrite B5, <- Hs; by destruct icon).
  set (m1 := set_icon _ _). destruct (notify_all_facts objs icon ACTIVE m1) as [E1 E2]. destruct (notify_all_keeps objs icon ACTIVE m1) as (K1 & K2 & K3 & K4). cbv zeta in *.
  split; [by rewrite E2|]. split; [by rewrite E1|]. constructor; rewrite ?K1, ?K2, ?K3, ?K4; try done. by exists info, ab, lb.
Qed.

Lemma disappear_shown m sender b c icon objs : can_show m sender b c icon objs -> iconInfo_ m = icon -> is_u16 b -> is_u8 c ->
  let m' := deliver sender (broadcast_bytes b c BROADCAST_TYPE_DISAPPEAR) m in
  isEmpty (iconInfo_ m') = true /\ rm_calls m' = rm_calls m ++ told objs icon INACTIVE.
Proof.
  intros Hcs Hi Hb Hc. pose proof Hcs as [Hl Hp Hh Hsc Ho (info & ab & lb & B1 & B2 & B3 & B4 & B5 & B6) Hs]. cbv zeta.
  rewrite deliver_runs by auto. unfold DealOnBroadcastBusiness. cbn [bt_sender bt_bundleNameId bt_continueTypeId bt_state state_of Z.eqb Pos.eqb BROADCAST_TYPE_DISAPPEAR ACTIVE INACTIVE].
  rewrite B1, B2, B3, B4. cbn [negb andb].
  unfold VerifyBroadcastSource. cbn [Z.eqb ACTIVE INACTIVE iconInfo_ set_rtasks]. rewrite Hi, Hs, !String.eqb_refl. cbn [negb Z.eqb ERR_OK].
  unfold NotifyDockDisplay. cbn [onType_ set_icon set_rtasks registerOnListener_]. rewrite Ho. cbn [snd].
  assert (mkIcon sender (icon_bundleName icon) (icon_continueType icon) (dbi_bundleName info) = icon) as -> by (rewrite B5, <- Hs; by destruct icon).
  set (m1 := set_icon _ _). destruct (notify_all_facts objs icon INACTIVE m1) as [E1 E2]. by rewrite E1, E2.
Qed.
End Dock.


(** ** Repetitions *)

Lemma retry_step env b m : rm_handler m = true -> r_PostTask env = true -> r_GetDistributedBundleInfo env (bt_sender b) (bt_bundleNameId b) = None ->
  0 <= bt_retry b <= DBMS_RETRY_MAX_TIME -> rm_tasks m = [RBroadcast b] ->
  let m' := RunRecvTask env 0 m in
  rm_handler m' = true /\ rm_calls m' = rm_calls m ++ [RPushAndPull (bt_sender b)] /\
  rm_tasks m' = if bt_retry b =? DBMS_RETRY_MAX_TIME then []
                else [RBroadcast (mkBroadcast (bt_sender b) (bt_bundleNameId b) (bt_continueTypeId b) (bt_state b) (bt_retry b + 1))].
Proof.
  intros Hh Hp Hi Hr Ht. cbv zeta. unfold RunRecvTask. rewrite Ht. cbn [lookup list_lookup delete list_delete run_recv_task]. unfold DealOnBroadcastBusiness. rewrite Hi.
  unfold RetryPostBroadcast. destruct (bt_retry b =? DBMS_RETRY_MAX_TIME); [done|]. unfold PostOnBroadcastBusiness, Recv_PostTask. cbn. rewrite Hh. cbn. rewrite Hp. cbn. by rewrite Hh.
Qed.

(** A broadcast of a bundle that is never found does not repeat for ever:
    it is handled once and repeated five times, each time after asking the sender for its
    bundles, and then nothing waits. *)
Theorem retry_ends env b m : rm_handler m = true -> r_PostTask env = true ->
  r_GetDistributedBundleInfo env (bt_sender b) (bt_bundleNameId b) = None -> bt_retry b = 0 -> rm_tasks m = [RBroadcast b] ->
  let m' := Nat.iter 6 (RunRecvTask env 0) m in
  rm_tasks m' = [] /\ rm_calls m' = rm_calls m ++ replicate 6 (RPushAndPull (bt_sender b)).
Proof.
  intros Hh Hp Hi Hr Ht.
  assert (forall n b' m, rm_handler m = true -> bt_sender b' = bt_sender b -> bt_bundleNameId b' = bt_bundleNameId b -> bt_retry b' = DBMS_RETRY_MAX_TIME - Z.of_nat n ->
    (n <= 5)%nat -> rm_tasks m = [RBroadcast b'] ->
    rm_tasks (Nat.iter (S n) (RunRecvTask env 0) m) = [] /\
    rm_calls (Nat.iter (S n) (RunRecvTask env 0) m) = rm_calls m ++ replicate (S n) (RPushAndPull (bt_sender b))) as H.
  { induction n as [|n IH]; intros b' m1 H1 H2 H3 H4 H5 H6; rewrite Nat.iter_succ_r;
      destruct (retry_step env b' m1) as (K1 & K2 & K3); try done; try (by rewrite H2, H3); try (unfold DBMS_RETRY_MAX_TIME in *; lia).
    - rewrite H4 in K3. cbn in K3. cbn. rewrite K2, K3, H2. done.
    - assert ((bt_retry b' =? DBMS_RETRY_MAX_TIME) = false) as En by (apply Z.eqb_neq; lia). rewrite En in K3.
      set (b1 := mkBroadcast _ _ _ _ _) in K3. destruct (IH b1 _ K1 H2 H3 ltac:(cbn [b1 bt_retry]; lia) ltac:(lia) K3) as [E1 E2]. rewrite E1, E2, K2, H2, <- app_assoc. done. }
  apply (H 5%nat b m); auto.
Qed.

(** ** Witnesses *)

Lemma demo_can_show : can_show (demo_renv true) demo_dock "devA" 513 2 demo_icon [5].
Proof. constructor; try done. exists (mkDmsBundleInfo "com.a" "dev" [demo_ability]), demo_ability. eexists. repeat split; by vm_compute. Qed.


Lemma broadcast_round_trip_witness :
  rm_tasks (NotifyDataRecv (demo_renv true) "devA" (broadcast_bytes 65535 255 1) demo_dock) = [RBroadcast (mkBroadcast "devA" 65535 255 INACTIVE 0)].
Proof. rewrite broadcast_round_trip; [reflexivity|done|zlia|zlia|by right|done|done]. Defined.

Lemma retry_ends_witness :
  let m := NotifyDataRecv (demo_renv false) "devA" [3; 2; 1; 2] demo_dock in
  rm_tasks (Nat.iter 6 (RunRecvTask (demo_renv false) 0) m) = [].
Proof. apply (retry_ends (demo_renv false) (mkBroadcast "devA" 513 2 ACTIVE 0)); by vm_compute. Defined.

(** ** Where the dock is left behind *)

(** Listeners may register for several types, but only those of the type that
    was registered last are told: once some object registers for a type, no broadcast is
    told to a listener that is not registered for that type, whatever else it is
    registered for. *)
Theorem last_type_only env t o o1 m m2 b : run_recv_op env (RoRegister t (Some o)) m = Some m2 ->
  (forall os, mfind t (registerOnListener_ m2) = Some os -> o1 ∉ os) ->
  let m' := (DealOnBroadcastBusiness env b m2).2 in
  forall c, c ∈ rm_calls m' -> c ∉ rm_calls m2 -> forall i st, c <> RNotify o1 i st.
Proof.
  intros H2 Hn m' c Hc Hc' i st ->.
  assert (onType_ m2 = t) as Ht.
  { clear - H2. revert H2. cbn [run_recv_op RegisterOnListener]. destruct (mfind _ _); [destruct (existsb _ _)|destruct (_ <? _)%nat; [|done]]; intros [= <-]; done. }
  assert (forall j s k, onType_ k = t -> registerOnListener_ k = registerOnListener_ m2 -> rm_calls k = rm_calls m2 -> RNotify o1 i st ∉ rm_calls (NotifyDockDisplay j s k).2) as Hd.
  { intros j s k E1 E2 E3. unfold NotifyDockDisplay. rewrite E1, E2. destruct (mfind t _) as [os|] eqn:Ef; [|cbn [snd]; by rewrite E3]. cbn [snd].
    rewrite (proj1 (notify_all_facts os j s k)), E3. intros [Hx|Hx]%elem_of_app; [done|]. apply list_elem_of_In, in_map_iff in Hx as (o0 & [= -> _ _] & Ho).
    by apply (Hn os eq_refl), list_elem_of_In. }
  revert Hc. subst m'. unfold DealOnBroadcastBusiness. destruct (r_GetDistributedBundleInfo _ _ _) as [info|].
  - destruct (FindContinueType _ _) as [ct ab]. unfold NotifyIconDisappear, VerifyBroadcastSource.
    repeat case_match; simplify_eq; cbn [snd]; try done; try by apply Hd.
  - unfold RetryPostBroadcast. destruct (_ =? _); cbn [snd]; rewrite ?(proj1 (PostBroadcast_calls _ _ _)); cbn; (intros [Hx|Hx]%elem_of_app; [done|]);
      apply list_elem_of_singleton in Hx; discriminate.
Qed.

(** Object 5 registered for "t", then 6 for "u": the broadcast reaches 6 only. *)
Lemma last_type_only_witness : exists m2, run_recv_op (demo_renv true) (RoRegister "u" (Some 6)) demo_dock = Some m2 /\
  (RNotify 6 demo_icon ACTIVE) ∈ rm_calls (DealOnBroadcastBusiness (demo_renv true) (mkBroadcast "devA" 513 2 ACTIVE 0) m2).2 /\
  (RNotify 5 demo_icon ACTIVE) ∉ rm_calls (DealOnBroadcastBusiness (demo_renv true) (mkBroadcast "devA" 513 2 ACTIVE 0) m2).2.
Proof.
  eexists. split; [vm_compute; reflexivity|]. set (m2 := mkRecvMgr _ _ _ _ _ _ _ _). split; [apply list_elem_of_In; vm_compute; auto|].
  intros H. apply (last_type_only (demo_renv true) "u" 6 5 demo_dock m2 (mkBroadcast "devA" 513 2 ACTIVE 0) eq_refl) with (i := demo_icon) (st := ACTIVE) in H; [done| |].
  - intros os [= <-] Hx%list_elem_of_singleton. discriminate.
  - intros Hx. apply list_elem_of_In in Hx. vm_compute in Hx. intuition discriminate.
Defined.

(** A device that showed the icon of a sender and then gets a broadcast of that sender
    for a bundle it does not have: the dock is told that the icon is gone, but the icon
    stays saved. *)
Lemma icon_gone_but_saved env b m info i objs : bt_state b = ACTIVE -> bt_sender b = senderNetworkId i -> iconInfo_ m = i ->
  r_GetDistributedBundleInfo env (bt_sender b) (bt_bundleNameId b) = Some info -> GetFinalBundleName env info = None ->
  mfind (onType_ m) (registerOnListener_ m) = Some objs ->
  let m' := (DealOnBroadcastBusiness env b m).2 in
  rm_calls m' = rm_calls m ++ told objs i INACTIVE /\ iconInfo_ m' = i.
Proof.
  intros Hs Hb Hi H1 H2 H3. cbv zeta. unfold DealOnBroadcastBusiness. rewrite H1, H2. destruct (FindContinueType _ _). cbn [snd].
  unfold NotifyIconDisappear, NotifyDockDisplay. rewrite Hs, Hi, Hb, String.eqb_refl, H3. cbn [andb Z.eqb ACTIVE snd].
  destruct (notify_all_facts objs i INACTIVE m) as [-> ->]. done.
Qed.
