(* ===== verification/SelectionService.v ===== *)
(** The service that lets an application choose a device:
    services/dtbabilitymgr/src/distributed_ability_manager_service.cpp with
    continuation_manager/notifier_info.cpp and app_connection_stub.cpp.

    An application registers, gets a token, registers listeners for the two kinds of
    events of the token and asks for the panel in which the user chooses. The service
    connects to the application of the panel. The queue of the service runs its tasks
    in order. What other services answer is given for each step ([SelEnv]), the calls
    of other processes are recorded. *)

From S2P Require Import Prelude StdMap SchedErrors SchedUtils ContinueInfo.
#[local] Open Scope string_scope.
#[local] Open Scope list_scope.
#[local] Open Scope Z_scope.

Definition TOKEN_KEY : string := "distributedsched.continuationmanager.token".
Definition DEFAULT_TOKEN_VALUE : string := "0".
Definition MAX_TOKEN_NUM : Z := 100000000.
Definition MAX_REGISTER_NUM : nat := 600.
Definition EVENT_CONNECT : string := "deviceSelected".
Definition EVENT_DISCONNECT : string := "deviceUnselected".
Definition COLLABORATION_SINGLE : Z := 0.
Definition COLLABORATION_MUTIPLE : Z := 1.
Definition IDLE : Z := 0.
Definition DISCONNECTING : Z := 3.

Definition REGISTER_EXCEED_MAX_TIMES : Z := 29360207.
Definition TOKEN_HAS_NOT_REGISTERED : Z := 29360208.
Definition CALLBACK_HAS_REGISTERED : Z := 29360209.
Definition CALLBACK_HAS_NOT_REGISTERED : Z := 29360210.
Definition CONNECT_ABILITY_FAILED : Z := 29360211.
Definition DISCONNECT_ABILITY_FAILED : Z := 29360212.
Definition UNKNOWN_CALLBACK_TYPE : Z := 29360214.
Definition INVALID_CONNECT_STATUS : Z := 29360215.
Definition INVALID_CONTINUATION_MODE : Z := 29360216.

(** The mode is any number that arrives. *)
Record ContinuationExtraParams := mkExtraParams {
  deviceTypeVec_ : list string;
  targetBundle_ : string;
  description_ : string;
  filter_ : string;
  continuationMode_ : Z;
  authInfo_ : string;
}.
Record ContinuationResult := mkResult { deviceId_ : string; deviceType_ : string; deviceName_ : string }.

(** The listeners of a token, remote objects by the kind of event, and the status of
    a device that was told last. *)
Record NotifierInfo := mkNotifierInfo {
  notifierMap_ : list (string * Z);
  connectStatusInfo_ : option (string * Z);
}.

Inductive SelTask :=
  | TDisconnect
  | TDeviceConnect (notifier : Z) (results : list ContinuationResult)
  | TDeviceDisconnect (notifier : Z) (results : list ContinuationResult)
  | TStart (token : Z) (params : option ContinuationExtraParams) (appProxy : option Z)
  | TUpdate (token : Z) (deviceId : string) (status : Z) (appProxy : option Z)
  | TDied (notifier : Z).

(** Calls of other processes. A stub is the object that is told of a connection. *)
Inductive SelCall :=
  | CSetParameter (value : string)
  | CAddDeath (obj : Z)
  | CRemoveDeath (obj : Z)
  | CConnectAbility (stub : nat) (account : Z)
  | CDisconnectAbility (stub : nat)
  | CNotifyConnect (obj : Z) (results : list ContinuationResult)
  | CNotifyDisconnect (obj : Z) (results : list ContinuationResult)
  | CStartDeviceManager (app token : Z) (params : option ContinuationExtraParams) (status : option (string * Z))
  | CUpdateConnectStatus (app token : Z) (deviceId : string) (status : Z).

(** [sv_stubs]: every [AppConnectionStub] that was made, with what it keeps;
    [connect_] points to one. *)
Record Svc := mkSvc {
  token_ : Z;
  sv_parameter : string;
  tokenMap_ : zmap (list Z);
  callbackMap_ : zmap NotifierInfo;
  sv_stubs : list (Z * option ContinuationExtraParams);
  connect_ : option nat;
  appProxy_ : option Z;
  continuationHandler_ : bool;
  sv_queue : list SelTask;
  sv_calls : list SelCall;
}.
(** Before [OnStart]; the value of the parameter survives a restart. *)
Definition Svc_new (parameter : string) : Svc := mkSvc 0 parameter [] [] [] None None false [] [].

Definition set_tokenMap (x : zmap (list Z)) (s : Svc) : Svc :=
  mkSvc (token_ s) (sv_parameter s) x (callbackMap_ s) (sv_stubs s) (connect_ s) (appProxy_ s) (continuationHandler_ s) (sv_queue s) (sv_calls s).
Definition set_callbackMap (x : zmap NotifierInfo) (s : Svc) : Svc :=
  mkSvc (token_ s) (sv_parameter s) (tokenMap_ s) x (sv_stubs s) (connect_ s) (appProxy_ s) (continuationHandler_ s) (sv_queue s) (sv_calls s).
Definition set_connect (stubs : list (Z * option ContinuationExtraParams)) (x : option nat) (s : Svc) : Svc :=
  mkSvc (token_ s) (sv_parameter s) (tokenMap_ s) (callbackMap_ s) stubs x (appProxy_ s) (continuationHandler_ s) (sv_queue s) (sv_calls s).
Definition set_appProxy (x : option Z) (s : Svc) : Svc :=
  mkSvc (token_ s) (sv_parameter s) (tokenMap_ s) (callbackMap_ s) (sv_stubs s) (connect_ s) x (continuationHandler_ s) (sv_queue s) (sv_calls s).
Definition set_queue (x : list SelTask) (s : Svc) : Svc :=
  mkSvc (token_ s) (sv_parameter s) (tokenMap_ s) (callbackMap_ s) (sv_stubs s) (connect_ s) (appProxy_ s) (continuationHandler_ s) x (sv_calls s).
Definition scall (c : SelCall) (s : Svc) : Svc :=
  mkSvc (token_ s) (sv_parameter s) (tokenMap_ s) (callbackMap_ s) (sv_stubs s) (connect_ s) (appProxy_ s) (continuationHandler_ s) (sv_queue s) (sv_calls s ++ [c]).
Definition set_token (t : Z) (p : string) (s : Svc) : Svc :=
  mkSvc t p (tokenMap_ s) (callbackMap_ s) (sv_stubs s) (connect_ s) (appProxy_ s) (continuationHandler_ s) (sv_queue s) (sv_calls s).
Definition set_continuationHandler (s : Svc) : Svc :=
  mkSvc (token_ s) (sv_parameter s) (tokenMap_ s) (callbackMap_ s) (sv_stubs s) (connect_ s) (appProxy_ s) true (sv_queue s) (sv_calls s).

(** The answers during one step. *)
Record SelEnv := mkSelEnv {
  OS_ACCOUNT_PART : bool;
  e_QueryActiveOsAccountIds : option Z;
  e_bundleMgr : bool;
  e_QueryExtensionAbilityInfos : list (string * string);
  e_Connect : Z;
  e_ConnectAbility : Z;
  e_DisconnectAbility : Z;
  e_WriteParcel : bool;
  ERR_NULL_OBJECT : Z;
}.

(** ** [NotifierInfo] *)

Definition GetNotifier (cbType : string) (i : NotifierInfo) : option Z := mfind cbType (notifierMap_ i).
Definition SetNotifier (cbType : string) (notifier : Z) (i : NotifierInfo) : NotifierInfo :=
  mkNotifierInfo (mset cbType notifier (notifierMap_ i)) (connectStatusInfo_ i).
Definition DeleteNotifier (cbType : string) (i : NotifierInfo) : NotifierInfo :=
  mkNotifierInfo (merase cbType (notifierMap_ i)) (connectStatusInfo_ i).
Definition QueryNotifier (notifier : Z) (i : NotifierInfo) : bool := existsb (fun e => e.2 =? notifier) (notifierMap_ i).
Definition IsNotifierMapEmpty (i : NotifierInfo) : bool := match notifierMap_ i with [] => true | _ => false end.
Definition SetConnectStatusInfo (x : string * Z) (i : NotifierInfo) : NotifierInfo := mkNotifierInfo (notifierMap_ i) (Some x).

(** [RemoveDeathRecipient] with no kind of event: for every listener. *)
Fixpoint remove_deaths (l : list (string * Z)) (s : Svc) : Svc :=
  match l with
  | [] => s
  | e :: l => remove_deaths l (scall (CRemoveDeath e.2) s)
  end.
Definition RemoveDeathRecipient (cbType : string) (i : NotifierInfo) (s : Svc) : Svc :=
  if String.eqb cbType "" then remove_deaths (notifierMap_ i) s
  else match mfind cbType (notifierMap_ i) with
  | Some o => scall (CRemoveDeath o) s
  | None => s
  end.

(** ** Tests *)

Definition IsExceededRegisterMaxNum (accessToken : Z) (s : Svc) : bool :=
  match zfind accessToken (tokenMap_ s) with
  | Some l => (MAX_REGISTER_NUM <=? length l)%nat
  | None => false
  end.
Definition IsContinuationModeValid (mode : Z) : bool := negb ((mode <? COLLABORATION_SINGLE) || (COLLABORATION_MUTIPLE <? mode)).
Definition IsConnectStatusValid (status : Z) : bool := negb ((status <? IDLE) || (DISCONNECTING <? status)).
Definition IsTokenRegistered (accessToken token : Z) (s : Svc) : bool :=
  match zfind accessToken (tokenMap_ s) with
  | Some l => existsb (Z.eqb token) l
  | None => false
  end.
Definition IsNotifierRegistered (token : Z) (s : Svc) : bool :=
  match zfind token (callbackMap_ s) with Some _ => true | None => false end.
Definition IsNotifierRegisteredLocked (token : Z) (cbType : string) (s : Svc) : bool :=
  match zfind token (callbackMap_ s) with
  | None => false
  | Some i => match GetNotifier cbType i with Some _ => true | None => false end
  end.
Definition invalid_mode (params : option ContinuationExtraParams) : bool :=
  match params with Some p => negb (IsContinuationModeValid (continuationMode_ p)) | None => false end.
Definition unknown_event (cbType : string) : bool := negb (String.eqb cbType EVENT_CONNECT) && negb (String.eqb cbType EVENT_DISCONNECT).

Section Service.
Variable env : SelEnv.

(** ** The queue *)

Definition submit (t : SelTask) (s : Svc) : Svc := set_queue (sv_queue s ++ [t]) s.

Definition HandleDisconnectAbility (s : Svc) : bool * Svc :=
  if negb (continuationHandler_ s) then (false, s) else (true, submit TDisconnect s).
Definition HandleDeviceConnect (notifier : option Z) (results : list ContinuationResult) (s : Svc) : bool * Svc :=
  if negb (continuationHandler_ s) then (false, s)
  else match notifier with
  | None => (false, s)
  | Some o => (true, submit (TDeviceConnect o results) s)
  end.
Definition HandleDeviceDisconnect (notifier : option Z) (results : list ContinuationResult) (s : Svc) : bool * Svc :=
  if negb (continuationHandler_ s) then (false, s)
  else match notifier with
  | None => (false, s)
  | Some o => (true, submit (TDeviceDisconnect o results) s)
  end.
Definition HandleStartDeviceManager (token : Z) (params : option ContinuationExtraParams) (s : Svc) : Svc :=
  if negb (continuationHandler_ s) then s else submit (TStart token params (appProxy_ s)) s.
Definition HandleUpdateConnectStatus (token : Z) (deviceId : string) (status : Z) (s : Svc) : Svc :=
  if negb (continuationHandler_ s) then s else submit (TUpdate token deviceId status (appProxy_ s)) s.
Definition HandleNotifierDied (notifier : Z) (s : Svc) : Svc :=
  if negb (continuationHandler_ s) then s else submit (TDied notifier) s.
Definition ProcessNotifierDied (notifier : option Z) (s : Svc) : Svc :=
  match notifier with None => s | Some o => HandleNotifierDied o s end.

(** ** Start and registration *)

(** [None]: undefined behaviour. *)
Definition OnStart (s : Svc) : option Svc :=
  let text := sv_parameter s in
  token ← (if String.eqb text "" then Some (token_ s) else atoi text);
  Some (set_continuationHandler (set_token token text s)).

(** The two parts of [Register] after the check of the number: each takes a lock of its own. *)
Definition next_token (s : Svc) : Z * Svc :=
  let t := if MAX_TOKEN_NUM <? token_ s + 1 then 1 else token_ s + 1 in
  (t, scall (CSetParameter (to_string t)) (set_token t (to_string t) s)).
Definition enter_token (accessToken t : Z) (s : Svc) : Svc :=
  let l := default [] (zfind accessToken (tokenMap_ s)) in
  set_tokenMap (zset accessToken (l ++ [t]) (tokenMap_ s)) s.
Definition Register (accessToken : Z) (params : option ContinuationExtraParams) (s : Svc) : Z * Z * Svc :=
  if invalid_mode params then (INVALID_CONTINUATION_MODE, -1, s)
  else if IsExceededRegisterMaxNum accessToken s then (REGISTER_EXCEED_MAX_TIMES, -1, s)
  else let '(t, s) := next_token s in (ERR_OK, t, enter_token accessToken t s).

(** The token leaves the lists up to the first one that gets empty, which goes. *)
Fixpoint remove_token (token : Z) (l : zmap (list Z)) : zmap (list Z) :=
  match l with
  | [] => []
  | (k, ts) :: l =>
      let ts := List.filter (fun n => negb (n =? token)) ts in
      match ts with
      | [] => l
      | _ => (k, ts) :: remove_token token l
      end
  end.

(** What [Unregister] and the death of a listener share. *)
Definition drop_token (token : Z) (s : Svc) : Svc :=
  let s := match zfind token (callbackMap_ s) with
           | Some i => let s := RemoveDeathRecipient "" i s in set_callbackMap (zerase token (callbackMap_ s)) s
           | None => s
           end in
  set_tokenMap (remove_token token (tokenMap_ s)) s.

Definition Unregister (accessToken token : Z) (s : Svc) : Z * Svc :=
  if negb (IsTokenRegistered accessToken token s) then (TOKEN_HAS_NOT_REGISTERED, s)
  else (ERR_OK, (HandleDisconnectAbility (drop_token token s)).2).

(** ** Listeners *)

(** The part of [RegisterDeviceSelectionCallback] after its checks, under a lock of its own. *)
Definition enter_listener (token : Z) (cbType : string) (notifier : Z) (s : Svc) : Svc :=
  match zfind token (callbackMap_ s) with
  | Some i => set_callbackMap (zset token (SetNotifier cbType notifier i) (callbackMap_ s)) s
  | None =>
      let i := SetNotifier cbType notifier (mkNotifierInfo [] None) in
      scall (CAddDeath notifier) (set_callbackMap (zset token i (callbackMap_ s)) s)
  end.
Definition RegisterDeviceSelectionCallback (accessToken token : Z) (cbType : string) (notifier : Z) (s : Svc) : Z * Svc :=
  if unknown_event cbType then (UNKNOWN_CALLBACK_TYPE, s)
  else if negb (IsTokenRegistered accessToken token s) then (TOKEN_HAS_NOT_REGISTERED, s)
  else if IsNotifierRegisteredLocked token cbType s then (CALLBACK_HAS_REGISTERED, s)
  else (ERR_OK, enter_listener token cbType notifier s).

Definition UnregisterDeviceSelectionCallback (accessToken token : Z) (cbType : string) (s : Svc) : Z * Svc :=
  if unknown_event cbType then (UNKNOWN_CALLBACK_TYPE, s)
  else if negb (IsTokenRegistered accessToken token s) then (TOKEN_HAS_NOT_REGISTERED, s)
  else if negb (IsNotifierRegisteredLocked token cbType s) then (CALLBACK_HAS_NOT_REGISTERED, s)
  else match zfind token (callbackMap_ s) with
  | None => (ERR_OK, s)
  | Some i =>
      let s := RemoveDeathRecipient cbType i s in
      let i := DeleteNotifier cbType i in
      (ERR_OK, set_callbackMap (if IsNotifierMapEmpty i then zerase token (callbackMap_ s) else zset token i (callbackMap_ s)) s)
  end.

Definition UpdateConnectStatus (accessToken token : Z) (deviceId : string) (status : Z) (s : Svc) : Z * Svc :=
  if String.eqb deviceId "" then (ERR_NULL_OBJECT env, s)
  else if negb (IsConnectStatusValid status) then (INVALID_CONNECT_STATUS, s)
  else if negb (IsTokenRegistered accessToken token s) then (TOKEN_HAS_NOT_REGISTERED, s)
  else match zfind token (callbackMap_ s) with
  | None => (CALLBACK_HAS_NOT_REGISTERED, s)
  | Some i =>
      let s := set_callbackMap (zset token (SetConnectStatusInfo (deviceId, status) i) (callbackMap_ s)) s in
      (ERR_OK, match appProxy_ s with Some _ => HandleUpdateConnectStatus token deviceId status s | None => s end)
  end.

(** ** The connection to the panel *)

Definition QueryExtensionAbilityInfo : bool :=
  if negb (e_bundleMgr env) then false
  else match e_QueryExtensionAbilityInfos env with
  | [] => false
  | (bundleName, name) :: _ => negb (String.eqb bundleName "" || String.eqb name "")
  end.

Definition ConnectAbility (token : Z) (params : option ContinuationExtraParams) (s : Svc) : Z * Svc :=
  match (if OS_ACCOUNT_PART env then e_QueryActiveOsAccountIds env else Some (-1)) with
  | None => (INVALID_PARAMETERS_ERR, s)
  | Some account =>
      if negb QueryExtensionAbilityInfo then (CONNECT_ABILITY_FAILED, s)
      else
        let s := match connect_ s with
                 | None => set_connect (sv_stubs s ++ [(token, params)]) (Some (length (sv_stubs s))) s
                 | Some _ => s
                 end in
        if negb (e_Connect env =? ERR_OK) then (e_Connect env, s)
        else
          let s := match connect_ s with Some n => scall (CConnectAbility n account) s | None => s end in
          if negb (e_ConnectAbility env =? ERR_OK) then (CONNECT_ABILITY_FAILED, set_connect (sv_stubs s) None s)
          else (ERR_OK, s)
  end.

Definition StartDeviceManager (accessToken token : Z) (params : option ContinuationExtraParams) (s : Svc) : Z * Svc :=
  if invalid_mode params then (INVALID_CONTINUATION_MODE, s)
  else if negb (IsTokenRegistered accessToken token s) then (TOKEN_HAS_NOT_REGISTERED, s)
  else if negb (IsNotifierRegistered token s) then (CALLBACK_HAS_NOT_REGISTERED, s)
  else match appProxy_ s with
  | Some _ => (ERR_OK, HandleStartDeviceManager token params s)
  | None =>
      let '(errCode, s) := ConnectAbility token params s in
      if negb (errCode =? ERR_OK) then (CONNECT_ABILITY_FAILED, s) else (ERR_OK, s)
  end.

Definition ScheduleStartDeviceManager (appProxy : option Z) (token : Z) (params : option ContinuationExtraParams) (s : Svc) : Svc :=
  let s := set_appProxy appProxy s in
  match appProxy with None => s | Some _ => HandleStartDeviceManager token params s end.

(** [AppConnectionStub]: the stub [n] is told of the connection. *)
Definition OnAbilityConnectDone (n : nat) (remoteObject : Z) (s : Svc) : Svc :=
  match sv_stubs s !! n with
  | None => s
  | Some (token, params) => ScheduleStartDeviceManager (Some remoteObject) token params s
  end.
Definition OnAbilityDisconnectDone (n : nat) (s : Svc) : Svc :=
  match sv_stubs s !! n with
  | None => s
  | Some (token, params) => ScheduleStartDeviceManager None token params s
  end.

Definition DisconnectAbility (s : Svc) : Z * Svc :=
  match connect_ s with
  | None => (ERR_NULL_OBJECT env, s)
  | Some n =>
      if negb (e_Connect env =? ERR_OK) then (e_Connect env, s)
      else
        let s := set_connect (sv_stubs s) None (scall (CDisconnectAbility n) s) in
        if negb (e_DisconnectAbility env =? ERR_OK) then (DISCONNECT_ABILITY_FAILED, s) else (ERR_OK, s)
  end.

(** ** Events of the panel *)

(** The lock is released between the test and the use: [checked] is the state of the
    test, the last argument that of the use. [None]: a null pointer is dereferenced. *)
Definition OnDeviceConnect_notify (token : Z) (results : list ContinuationResult) (s : Svc) : option (Z * Svc) :=
  i ← zfind token (callbackMap_ s);
  let '(ok, s) := HandleDeviceConnect (GetNotifier EVENT_CONNECT i) results s in
  Some (if ok : bool then ERR_OK else INVALID_PARAMETERS_ERR, s).
Definition OnDeviceConnect (token : Z) (results : list ContinuationResult) (s : Svc) : option (Z * Svc) :=
  let '(ok, s) := HandleDisconnectAbility s in
  if negb ok then Some (DISCONNECT_ABILITY_FAILED, s)
  else if negb (IsNotifierRegisteredLocked token EVENT_CONNECT s) then Some (CALLBACK_HAS_NOT_REGISTERED, s)
  else OnDeviceConnect_notify token results s.
Definition OnDeviceDisconnect (token : Z) (results : list ContinuationResult) (s : Svc) : option (Z * Svc) :=
  let '(ok, s) := HandleDisconnectAbility s in
  if negb ok then Some (DISCONNECT_ABILITY_FAILED, s)
  else if negb (IsNotifierRegisteredLocked token EVENT_DISCONNECT s) then Some (CALLBACK_HAS_NOT_REGISTERED, s)
  else
    i ← zfind token (callbackMap_ s);
    let '(ok, s) := HandleDeviceDisconnect (GetNotifier EVENT_DISCONNECT i) results s in
    Some (if ok : bool then ERR_OK else INVALID_PARAMETERS_ERR, s).
Definition OnDeviceCancel (s : Svc) : Z * Svc :=
  let '(ok, s) := HandleDisconnectAbility s in
  (if negb ok then DISCONNECT_ABILITY_FAILED else ERR_OK, s).

(** ** Tasks *)

(** The first token one of whose listeners is the object. *)
Fixpoint QueryTokenByNotifier (notifier : Z) (l : zmap NotifierInfo) : option Z :=
  match l with
  | [] => None
  | (t, i) :: l => if QueryNotifier notifier i then Some t else QueryTokenByNotifier notifier l
  end.

Definition run_task (t : SelTask) (s : Svc) : Svc :=
  match t with
  | TDisconnect => (DisconnectAbility s).2
  | TDeviceConnect o results => scall (CNotifyConnect o results) s
  | TDeviceDisconnect o results => scall (CNotifyDisconnect o results) s
  | TStart token params appProxy =>
      if negb (e_WriteParcel env) then s
      else
        let status := match zfind token (callbackMap_ s) with Some i => connectStatusInfo_ i | None => None end in
        match appProxy with Some app => scall (CStartDeviceManager app token params status) s | None => s end
  | TUpdate token deviceId status appProxy =>
      if negb (e_WriteParcel env) then s
      else match appProxy with Some app => scall (CUpdateConnectStatus app token deviceId status) s | None => s end
  | TDied o =>
      match QueryTokenByNotifier o (callbackMap_ s) with
      | None => s
      | Some token => (HandleDisconnectAbility (drop_token token s)).2
      end
  end.
Definition RunQueue (s : Svc) : Svc :=
  match sv_queue s with
  | [] => s
  | t :: q => run_task t (set_queue q s)
  end.

(** ** The text of a dump *)

Fixpoint DumpNotifierLocked (tokens : list Z) (m : zmap NotifierInfo) (info : string) : string :=
  match tokens with
  | [] => info
  | t :: ts =>
      let info := info +:+ ", " +:+ "token: " +:+ to_string t in
      let info :=
        match zfind t m with
        | None => info
        | Some i =>
            if IsNotifierMapEmpty i then info
            else
              let info := info +:+ ", " +:+ "cbType: " in
              let info := match GetNotifier EVENT_CONNECT i with Some _ => info +:+ " " +:+ EVENT_CONNECT | None => info end in
              match GetNotifier EVENT_DISCONNECT i with Some _ => info +:+ " " +:+ EVENT_DISCONNECT | None => info end
        end in
      DumpNotifierLocked ts m info
  end.
Definition newline : string := String (byte_ascii 10) "".
Definition DumpAppRegisterInfo (s : Svc) (info : string) : string :=
  let info := info +:+ "application register infos:" +:+ newline +:+ "  " in
  match tokenMap_ s with
  | [] => info +:+ "  <none info>" +:+ newline
  | l => foldl (fun info e => DumpNotifierLocked e.2 (callbackMap_ s) (info +:+ "accessToken: " +:+ to_string e.1) +:+ newline +:+ "  ") info l
  end.

(** ** Histories *)

Inductive SelOp :=
  | SRegister (accessToken : Z) (params : option ContinuationExtraParams)
  | SUnregister (accessToken token : Z)
  | SOn (accessToken token : Z) (cbType : string) (notifier : Z)
  | SOff (accessToken token : Z) (cbType : string)
  | SStatus (accessToken token : Z) (deviceId : string) (status : Z)
  | SStart (accessToken token : Z) (params : option ContinuationExtraParams)
  | SConnectDone (stub : nat) (app : Z)
  | SDisconnectDone (stub : nat)
  | SSelected (token : Z) (results : list ContinuationResult)
  | SUnselected (token : Z) (results : list ContinuationResult)
  | SCancel
  | SDied (notifier : option Z)
  | SQueue.

Definition sel_step (o : SelOp) (s : Svc) : Svc :=
  match o with
  | SRegister a p => (Register a p s).2
  | SUnregister a t => (Unregister a t s).2
  | SOn a t c n => (RegisterDeviceSelectionCallback a t c n s).2
  | SOff a t c => (UnregisterDeviceSelectionCallback a t c s).2
  | SStatus a t d x => (UpdateConnectStatus a t d x s).2
  | SStart a t p => (StartDeviceManager a t p s).2
  | SConnectDone n app => OnAbilityConnectDone n app s
  | SDisconnectDone n => OnAbilityDisconnectDone n s
  | SSelected t r => match OnDeviceConnect t r s with Some (_, s) => s | None => s end
  | SUnselected t r => match OnDeviceDisconnect t r s with Some (_, s) => s | None => s end
  | SCancel => (OnDeviceCancel s).2
  | SDied o => ProcessNotifierDied o s
  | SQueue => RunQueue s
  end.
End Service.

Definition sel_run (os : list (SelEnv * SelOp)) (s : Svc) : Svc := foldl (fun s eo => sel_step eo.1 eo.2 s) s os.
