(* ===== verification/SelectionProps.v ===== *)
(** What holds of the service for choosing a device. *)

From Stdlib Require Import Sorted.
From stdpp Require Import relations.
From S2P Require Import Prelude StdMap SchedErrors SchedUtils ContinueInfo SelectionService.
#[local] Open Scope string_scope.
#[local] Open Scope list_scope.
#[local] Open Scope Z_scope.

(** ** The tables *)

Definition tokens (l : zmap (list Z)) : list Z := concat (map snd l).

Section Invariant.
(** How many tokens an application may have. *)
Variable lim : Z -> Z.

Definition list_ok (a : Z) (ts : list Z) : Prop := ts <> [] /\ len ts <= lim a /\ Forall (fun t => 1 <= t <= MAX_TOKEN_NUM) ts.
Definition info_ok (i : NotifierInfo) : Prop :=
  notifierMap_ i <> [] /\ msorted (notifierMap_ i) /\ Forall (fun e => e.1 = EVENT_CONNECT \/ e.1 = EVENT_DISCONNECT) (notifierMap_ i).

Record sel_inv (s : Svc) : Prop := mkSelInv {
  sl_token : 0 <= token_ s <= MAX_TOKEN_NUM;
  sl_parameter : sv_parameter s = to_string (token_ s);
  sl_sorted : zsorted (tokenMap_ s) /\ zsorted (callbackMap_ s);
  sl_lists : Forall (fun e => list_ok e.1 e.2) (tokenMap_ s);
  sl_infos : Forall (fun e => info_ok e.2) (callbackMap_ s);
  sl_owned : forall t, is_Some (zfind t (callbackMap_ s)) -> t ∈ tokens (tokenMap_ s);
  sl_connect : forall n, connect_ s = Some n -> (n < length (sv_stubs s))%nat;
  sl_idle : continuationHandler_ s = false -> sv_queue s = [];
}.

(** *** Lists of tokens *)

Lemma tokens_elem t l : t ∈ tokens l <-> exists e, e ∈ l /\ t ∈ e.2.
Proof.
  unfold tokens. rewrite list_elem_of_In, in_concat. split.
  - intros (x & Hx & Ht). apply in_map_iff in Hx as (e & <- & He). exists e. split; by apply list_elem_of_In.
  - intros (e & He & Ht). exists e.2. apply list_elem_of_In in He. apply list_elem_of_In in Ht. split; [by apply in_map|done].
Qed.
Lemma zfind_elem {A} k (v : A) (l : zmap A) : zfind k l = Some v -> (k, v) ∈ l.
Proof. induction l as [|[k' v'] l IH]; [done|]. cbn. destruct (Z.eqb_spec k k') as [->|]; [intros [= ->]; left|right; by apply IH]. Qed.
Lemma elem_zfind {A} k (v : A) (l : zmap A) : zsorted l -> (k, v) ∈ l -> zfind k l = Some v.
Proof.
  induction l as [|[k' v'] l IH]; [by intros _ H; inversion H|]. intros [Hs Hk]%zsorted_cons H. cbn. apply elem_of_cons in H as [[= -> ->]|H]; [by rewrite Z.eqb_refl|].
  destruct (Z.eqb_spec k k') as [->|]; [|by apply IH]. exfalso. assert (k' < k'); [|lia].
  apply (proj1 (List.Forall_forall _ _) Hk). unfold zkeys. apply list_elem_of_In in H. by apply (in_map fst) in H.
Qed.
Lemma tokens_zset t a ts l : zsorted l -> t ∈ tokens (zset a ts l) <-> t ∈ ts \/ exists b us, b <> a /\ zfind b l = Some us /\ t ∈ us.
Proof.
  intros Hs. rewrite tokens_elem. split.
  - intros ([b us] & He & Ht). apply elem_zfind in He; [|by apply zset_sorted]. rewrite zfind_zset in He. cbn in Ht.
    destruct (Z.eqb_spec b a) as [->|]; [injection He as ->; by left|right; by exists b, us].
  - intros [Ht|(b & us & Hb & Hf & Ht)].
    + exists (a, ts). split; [|done]. apply zfind_elem. by rewrite zfind_zset, Z.eqb_refl.
    + exists (b, us). split; [|done]. apply zfind_elem. rewrite zfind_zset. by destruct (Z.eqb_spec b a).
Qed.

Definition without_token (t : Z) (ts : list Z) : list Z := List.filter (fun n => negb (n =? t)) ts.
Lemma without_elem t t' ts : t' ∈ without_token t ts <-> t' ∈ ts /\ t' <> t.
Proof. unfold without_token. rewrite !list_elem_of_In, filter_In. destruct (Z.eqb_spec t' t); cbn; intuition congruence. Qed.

Lemma remove_token_keeps t t' l : t' <> t -> t' ∈ tokens l -> t' ∈ tokens (remove_token t l).
Proof.
  intros Hne. induction l as [|[k ts] l IH]; [done|]. rewrite tokens_elem. intros (e & He & Ht). cbn [remove_token].
  apply elem_of_cons in He as [->|He].
  - fold (without_token t ts). assert (t' ∈ without_token t ts) as Hw by (by apply without_elem). destruct (without_token t ts) as [|x xs] eqn:E; [by apply elem_of_nil in Hw|].
    apply tokens_elem. exists (k, x :: xs). split; [left|done].
  - assert (t' ∈ tokens l) as Hl by (apply tokens_elem; eauto). fold (without_token t ts). destruct (without_token t ts) as [|x xs]; [done|].
    apply tokens_elem. specialize (IH Hl). apply tokens_elem in IH as (e' & ? & ?). exists e'. split; [by right|done].
Qed.
Lemma remove_token_sub t l e : e ∈ remove_token t l -> exists ts, (e.1, ts) ∈ l /\ (e.2 = ts \/ e.2 = without_token t ts) /\ (e.2 = [] -> ts = []).
Proof.
  induction l as [|[k ts] l IH]; [by intros H; inversion H|]. cbn [remove_token]. fold (without_token t ts). destruct (without_token t ts) as [|x xs] eqn:E.
  - intros H. exists e.2. split; [right; by destruct e|]. auto.
  - intros H. apply elem_of_cons in H as [->|H].
    + exists ts. split; [left|]. split; [right; by rewrite E|done].
    + destruct (IH H) as (us & ? & ?). exists us. split; [by right|done].
Qed.
Lemma remove_token_sorted t l : zsorted l -> zsorted (remove_token t l).
Proof.
  induction l as [|[k ts] l IH]; [done|]. intros [Hs Hk]%zsorted_cons. cbn [remove_token]. destruct (List.filter _ ts); [done|].
  apply zsorted_cons. split; [by apply IH|]. apply List.Forall_forall. intros x Hx. unfold zkeys in Hx. apply in_map_iff in Hx as (e & <- & He).
  apply list_elem_of_In, remove_token_sub in He as (us & Hu & _). apply (proj1 (List.Forall_forall _ _) Hk). unfold zkeys. apply list_elem_of_In in Hu.
  by apply (in_map fst) in Hu.
Qed.
Lemma remove_token_lists t l : Forall (fun e => list_ok e.1 e.2) l -> Forall (fun e => list_ok e.1 e.2) (remove_token t l).
Proof.
  intros H. apply Forall_forall. intros e He. apply remove_token_sub in He as (ts & Hts & Heq & Hne). pose proof (proj1 (Forall_forall _ _) H _ Hts) as (H1 & H2 & H3). cbn in *.
  split; [by intros E; apply H1, Hne|]. destruct Heq as [-> | ->]; [done|]. split.
  - etrans; [|exact H2]. unfold without_token, len. apply Nat2Z.inj_le, List.filter_length_le.
  - apply List.Forall_forall. intros x Hx. apply filter_In in Hx as [Hx _]. by apply (proj1 (List.Forall_forall _ _) H3).
Qed.

(** *** Listeners *)

Lemma SetNotifier_ok c n i : (c = EVENT_CONNECT \/ c = EVENT_DISCONNECT) -> msorted (notifierMap_ i) ->
  Forall (fun e => e.1 = EVENT_CONNECT \/ e.1 = EVENT_DISCONNECT) (notifierMap_ i) -> info_ok (SetNotifier c n i).
Proof.
  intros Hc Hs Hk. unfold info_ok, SetNotifier. cbn. split; [|split; [by apply mset_sorted|]].
  - intros E. assert (mfind c (mset c n (notifierMap_ i)) = Some n) as H by (by rewrite mfind_mset, same_key_refl). by rewrite E in H.
  - unfold mset. destruct (mfind c (notifierMap_ i)); [|by apply insert_sorted_Forall]. apply List.Forall_map. eapply Forall_impl; [exact Hk|].
    intros e He. by destruct (same_key _ _).
Qed.
Lemma DeleteNotifier_ok c i : info_ok i -> IsNotifierMapEmpty (DeleteNotifier c i) = false -> info_ok (DeleteNotifier c i).
Proof.
  intros (H1 & H2 & H3) He. unfold info_ok, IsNotifierMapEmpty, DeleteNotifier in *. cbn in *. split; [intros E; by rewrite E in He|].
  split; [by apply merase_sorted|]. apply List.Forall_forall. intros e Hi. apply filter_In in Hi as [Hi _]. by apply (proj1 (List.Forall_forall _ _) H3).
Qed.
Lemma known_event c : unknown_event c = false -> c = EVENT_CONNECT \/ c = EVENT_DISCONNECT.
Proof. unfold unknown_event. destruct (String.eqb_spec c EVENT_CONNECT), (String.eqb_spec c EVENT_DISCONNECT); auto. done. Qed.

(** *** Calls and tasks do not touch the tables *)

Lemma scall_inv c s : sel_inv s -> sel_inv (scall c s).
Proof. by intros []. Qed.
Lemma remove_deaths_eq l s : remove_deaths l s = mkSvc (token_ s) (sv_parameter s) (tokenMap_ s) (callbackMap_ s) (sv_stubs s) (connect_ s) (appProxy_ s)
  (continuationHandler_ s) (sv_queue s) (sv_calls s ++ map (fun e => CRemoveDeath e.2) l).
Proof. induction l as [|e l IH] in s |- *; cbn; [rewrite app_nil_r; by destruct s|]. rewrite IH. cbn. by rewrite <- app_assoc. Qed.
Lemma RemoveDeath_eq c i s : exists cs, RemoveDeathRecipient c i s = mkSvc (token_ s) (sv_parameter s) (tokenMap_ s) (callbackMap_ s) (sv_stubs s) (connect_ s) (appProxy_ s)
  (continuationHandler_ s) (sv_queue s) (sv_calls s ++ cs) /\ Forall (fun x => exists e, e ∈ notifierMap_ i /\ x = CRemoveDeath e.2) cs.
Proof.
  unfold RemoveDeathRecipient. destruct (String.eqb c "").
  - rewrite remove_deaths_eq. eexists. split; [done|]. apply List.Forall_forall. intros x Hx. apply in_map_iff in Hx as (e & <- & He). exists e. by rewrite list_elem_of_In.
  - destruct (mfind c (notifierMap_ i)) as [o|] eqn:E.
    + exists [CRemoveDeath o]. split; [done|]. constructor; [|done]. apply mfind_In in E as (k & Hk & _). exists (k, o). by rewrite list_elem_of_In.
    + exists []. split; [rewrite app_nil_r; by destruct s|done].
Qed.
Lemma submit_inv t s : sel_inv s -> continuationHandler_ s = true -> sel_inv (submit t s).
Proof. intros [] Hh. constructor; try done. cbn. by rewrite Hh. Qed.
Lemma HandleDisconnect_inv s : sel_inv s -> sel_inv (HandleDisconnectAbility s).2.
Proof. intros H. unfold HandleDisconnectAbility. destruct (continuationHandler_ s) eqn:E; [by apply submit_inv|done]. Qed.

Lemma drop_token_inv t s : sel_inv s -> sel_inv (drop_token t s).
Proof.
  intros H. unfold drop_token. set (s1 := match zfind t (callbackMap_ s) with Some i => _ | None => _ end).
  assert (sel_inv (set_callbackMap (zerase t (callbackMap_ s)) s)) as H0.
  { destruct H as [? ? [Hs1 Hs2] ? HI HO ? ?]. constructor; try done; cbn.
    - split; [done|by apply zerase_sorted].
    - by apply (zall_zerase (fun _ => info_ok)).
    - intros t' [i Hi]. apply HO. rewrite zfind_zerase in Hi by done. destruct (t' =? t); [done|by eexists]. }
  assert (sel_inv s1 /\ zfind t (callbackMap_ s1) = None) as [H1 Hn].
  { subst s1. destruct (zfind t (callbackMap_ s)) as [i|] eqn:E; [|done]. destruct (RemoveDeath_eq "" i s) as (cs & -> & _). cbn. split; [by destruct H0|].
    rewrite zfind_zerase by apply H. by rewrite Z.eqb_refl. }
  destruct H1 as [? ? [Hs1 Hs2] HL ? HO ? ?]. constructor; try done; cbn.
  - split; [by apply remove_token_sorted|done].
  - by apply remove_token_lists.
  - intros t' Ht'. apply remove_token_keeps; [|by apply HO]. intros ->. rewrite Hn in Ht'. by destruct Ht'.
Qed.

Lemma put_info_inv t i s : sel_inv s -> info_ok i -> t ∈ tokens (tokenMap_ s) -> sel_inv (set_callbackMap (zset t i (callbackMap_ s)) s).
Proof.
  intros [? ? [Hs1 Hs2] ? HI HO ? ?] Hi Ht. constructor; try done; cbn.
  - split; [done|by apply zset_sorted].
  - by apply (zall_zset (fun _ => info_ok)).
  - intros t' [x Hx]. rewrite zfind_zset in Hx. destruct (Z.eqb_spec t' t) as [->|]; [done|]. apply HO. by eexists.
Qed.
Lemma registered_token a t s : IsTokenRegistered a t s = true -> t ∈ tokens (tokenMap_ s).
Proof.
  unfold IsTokenRegistered. destruct (zfind a (tokenMap_ s)) as [l|] eqn:E; [|done]. intros (x & Hx & ->%Z.eqb_eq)%existsb_exists. apply tokens_elem.
  exists (a, l). split; [by apply zfind_elem|by apply list_elem_of_In].
Qed.
Lemma info_found t i s : sel_inv s -> zfind t (callbackMap_ s) = Some i -> info_ok i /\ t ∈ tokens (tokenMap_ s).
Proof.
  intros H E. split; [|apply H; by eexists]. pose proof (sl_infos _ H) as HI. apply zfind_elem in E. by apply (proj1 (Forall_forall _ _) HI) in E.
Qed.

Lemma next_token_inv s : sel_inv s -> 1 <= (next_token s).1 <= MAX_TOKEN_NUM /\ sel_inv (next_token s).2.
Proof.
  intros [HT ? [Hs1 Hs2] ? ? ? ? ?]. unfold next_token. set (t := if MAX_TOKEN_NUM <? token_ s + 1 then 1 else token_ s + 1).
  assert (1 <= t <= MAX_TOKEN_NUM) as Ht by (subst t; unfold MAX_TOKEN_NUM in *; destruct (Z.ltb_spec 100000000 (token_ s + 1)); lia).
  split; [done|]. constructor; try done. cbn. lia.
Qed.
Lemma enter_token_inv a t s : sel_inv s -> 1 <= t <= MAX_TOKEN_NUM -> len (default [] (zfind a (tokenMap_ s))) < lim a -> sel_inv (enter_token a t s).
Proof.
  intros [? ? [Hs1 Hs2] HL ? HO ? ?] Ht Hlen. unfold enter_token. constructor; try done; cbn; [split; [by apply zset_sorted|done]| |].
  - assert (list_ok a (default [] (zfind a (tokenMap_ s)) ++ [t])) as Hl.
    { split; [by destruct (default [] (zfind a (tokenMap_ s)))|]. split; [unfold len in *; rewrite length_app; cbn; lia|]. apply Forall_app. split; [|by constructor].
      destruct (zfind a (tokenMap_ s)) as [l|] eqn:E; [|done]. apply zfind_elem in E. by apply (proj1 (Forall_forall _ _) HL) in E as (_ & _ & E3). }
    by apply (zall_zset list_ok).
  - intros t' Ht'. apply tokens_zset; [done|]. specialize (HO t' Ht'). apply tokens_elem in HO as ([b us] & Hb & Hu). apply elem_zfind in Hb; [|done]. cbn in Hu.
    destruct (Z.eq_dec b a) as [->|]; [left; rewrite Hb; cbn; apply elem_of_app; by left|right; by exists b, us].
Qed.
Lemma not_exceeded a s : IsExceededRegisterMaxNum a s = false -> len (default [] (zfind a (tokenMap_ s))) < Z.of_nat MAX_REGISTER_NUM.
Proof. unfold IsExceededRegisterMaxNum. destruct (zfind a (tokenMap_ s)) as [l|]; [|done]. intros H. apply Nat.leb_gt in H. unfold len. cbn. lia. Qed.
Lemma sel_Register_inv a p s : Z.of_nat MAX_REGISTER_NUM <= lim a -> sel_inv s -> sel_inv (SelectionService.Register a p s).2.
Proof.
  intros Hlim H. unfold SelectionService.Register. destruct (invalid_mode p); [done|]. destruct (IsExceededRegisterMaxNum a s) eqn:Ex; [done|]. apply not_exceeded in Ex.
  destruct (next_token_inv s H) as [Ht H']. unfold next_token in *. cbn [fst snd] in *. apply enter_token_inv; [done|done|]. cbn [tokenMap_ scall set_token]. lia.
Qed.

Lemma On_inv a t c n s : sel_inv s -> sel_inv (RegisterDeviceSelectionCallback a t c n s).2.
Proof.
  intros H. unfold RegisterDeviceSelectionCallback. destruct (unknown_event c) eqn:Ec; [done|]. destruct (IsTokenRegistered a t s) eqn:Et; [|done]. cbn [negb].
  destruct (IsNotifierRegisteredLocked t c s); [done|]. apply known_event in Ec. apply registered_token in Et. cbn [snd]. unfold enter_listener. destruct (zfind t (callbackMap_ s)) as [i|] eqn:E.
  - destruct (info_found t i s H E) as [(H1 & H2 & H3) _]. apply put_info_inv; [done|by apply SetNotifier_ok|done].
  - apply scall_inv, put_info_inv; [done| |done]. apply SetNotifier_ok; [done|apply SSorted_nil|apply Forall_nil_2].
Qed.
Lemma Off_inv a t c s : sel_inv s -> sel_inv (UnregisterDeviceSelectionCallback a t c s).2.
Proof.
  intros H. unfold UnregisterDeviceSelectionCallback. destruct (unknown_event c); [done|]. do 2 (destruct (negb _); [done|]).
  destruct (zfind t (callbackMap_ s)) as [i|] eqn:E; [|done]. destruct (RemoveDeath_eq c i s) as (cs & -> & _). cbn [snd callbackMap_]. destruct (info_found t i s H E) as [Hi Ht].
  destruct (IsNotifierMapEmpty (DeleteNotifier c i)) eqn:Em.
  - destruct H as [? ? [Hs1 Hs2] ? HI HO ? ?]. constructor; try done; cbn.
    + split; [done|by apply zerase_sorted].
    + by apply (zall_zerase (fun _ => info_ok)).
    + intros t' [x Hx]. apply HO. rewrite zfind_zerase in Hx by done. destruct (t' =? t); [done|by eexists].
  - pose proof (put_info_inv t (DeleteNotifier c i) s H (DeleteNotifier_ok c i Hi Em) Ht) as H'. by destruct H'.
Qed.
Lemma Status_inv env a t d x s : sel_inv s -> sel_inv (UpdateConnectStatus env a t d x s).2.
Proof.
  intros H. unfold UpdateConnectStatus. destruct (String.eqb d ""); [done|]. do 2 (destruct (negb _); [done|]).
  destruct (zfind t (callbackMap_ s)) as [i|] eqn:E; [|done]. destruct (info_found t i s H E) as [Hi Ht]. cbn [snd].
  pose proof (put_info_inv t (SetConnectStatusInfo (d, x) i) s H ltac:(by destruct Hi) Ht) as H'. cbn [appProxy_ set_callbackMap].
  destruct (appProxy_ s); [|done]. unfold HandleUpdateConnectStatus. destruct (continuationHandler_ (set_callbackMap _ s)) eqn:Eh; [by apply submit_inv|done].
Qed.
Lemma Connect_inv env t p s : sel_inv s -> sel_inv (ConnectAbility env t p s).2 /\ continuationHandler_ (ConnectAbility env t p s).2 = continuationHandler_ s.
Proof.
  intros H. unfold ConnectAbility. destruct (if OS_ACCOUNT_PART env then _ else _) as [acc|]; [|done]. destruct (negb (QueryExtensionAbilityInfo env)); [done|].
  set (s1 := match connect_ s with None => _ | Some _ => _ end).
  assert (sel_inv s1 /\ continuationHandler_ s1 = continuationHandler_ s) as [H1 E1].
  { subst s1. destruct (connect_ s) eqn:E; [done|]. split; [|done]. destruct H. constructor; try done; cbn. intros n [= <-]. rewrite length_app. cbn. lia. }
  destruct (negb _); [done|]. cbn [snd]. set (s2 := match connect_ s1 with Some n => _ | None => _ end).
  assert (sel_inv s2 /\ continuationHandler_ s2 = continuationHandler_ s) as [H2 E2] by (subst s2; destruct (connect_ s1); [split; [by apply scall_inv|done]|done]).
  destruct (negb _); cbn [snd]; [|done]. split; [|done]. by destruct H2.
Qed.
Lemma StartPanel_inv t p s : sel_inv s -> sel_inv (HandleStartDeviceManager t p s).
Proof. intros H. unfold HandleStartDeviceManager. destruct (continuationHandler_ s) eqn:E; [by apply submit_inv|done]. Qed.
Lemma Start_inv env a t p s : sel_inv s -> sel_inv (StartDeviceManager env a t p s).2.
Proof.
  intros H. unfold StartDeviceManager. destruct (invalid_mode p); [done|]. do 2 (destruct (negb _); [done|]). destruct (appProxy_ s); [by apply StartPanel_inv|].
  pose proof (Connect_inv env t p s H) as [H' _]. destruct (ConnectAbility env t p s) as [e s']. by destruct (negb _).
Qed.
Lemma Schedule_inv app t p s : sel_inv s -> sel_inv (ScheduleStartDeviceManager app t p s).
Proof.
  intros H. unfold ScheduleStartDeviceManager. assert (sel_inv (set_appProxy app s)) as H' by (by destruct H). destruct app; [by apply StartPanel_inv|done].
Qed.
Lemma Selected_inv t r s : sel_inv s -> exists e s', OnDeviceConnect t r s = Some (e, s') /\ sel_inv s'.
Proof.
  intros H. unfold OnDeviceConnect. pose proof (HandleDisconnect_inv s H) as H1. destruct (HandleDisconnectAbility s) as [ok s1]. destruct ok; [|by eexists _, _]. cbn in *.
  unfold IsNotifierRegisteredLocked, OnDeviceConnect_notify. destruct (zfind t (callbackMap_ s1)) as [i|]; [|by eexists _, _]. destruct (GetNotifier EVENT_CONNECT i) as [o|] eqn:Eg; [|by eexists _, _].
  cbn. rewrite Eg. unfold HandleDeviceConnect. destruct (continuationHandler_ s1) eqn:E; cbn; eexists _, _; (split; [reflexivity|]); [by apply submit_inv|done].
Qed.
Lemma Unselected_inv t r s : sel_inv s -> exists e s', OnDeviceDisconnect t r s = Some (e, s') /\ sel_inv s'.
Proof.
  intros H. unfold OnDeviceDisconnect. pose proof (HandleDisconnect_inv s H) as H1. destruct (HandleDisconnectAbility s) as [ok s1]. destruct ok; [|by eexists _, _]. cbn in *.
  unfold IsNotifierRegisteredLocked. destruct (zfind t (callbackMap_ s1)) as [i|]; [|by eexists _, _]. destruct (GetNotifier EVENT_DISCONNECT i) as [o|] eqn:Eg; [|by eexists _, _].
  cbn. rewrite Eg. unfold HandleDeviceDisconnect. destruct (continuationHandler_ s1) eqn:E; cbn; eexists _, _; (split; [reflexivity|]); [by apply submit_inv|done].
Qed.
Lemma sel_run_task_inv env t s : sel_inv s -> sel_inv (run_task env t s).
Proof.
  intros H. destruct t; cbn [run_task]; try by apply scall_inv.
  - unfold DisconnectAbility. destruct (connect_ s); [|done]. destruct (negb _); [done|]. destruct (negb _); by destruct H.
  - destruct (negb _); [done|]. destruct appProxy; [by apply scall_inv|done].
  - destruct (negb _); [done|]. destruct appProxy; [by apply scall_inv|done].
  - destruct (QueryTokenByNotifier _ _); [|done]. by apply HandleDisconnect_inv, drop_token_inv.
Qed.

Definition register_of (o : SelOp) : option Z := match o with SRegister a _ => Some a | _ => None end.
Lemma sel_step_inv env o s : (forall a, register_of o = Some a -> Z.of_nat MAX_REGISTER_NUM <= lim a) -> sel_inv s -> sel_inv (sel_step env o s).
Proof.
  intros Hlim H. destruct o; cbn [sel_step].
  - apply sel_Register_inv; [by apply Hlim|done].
  - unfold SelectionService.Unregister. destruct (negb _); [done|]. by apply HandleDisconnect_inv, drop_token_inv.
  - by apply On_inv.
  - by apply Off_inv.
  - by apply Status_inv.
  - by apply Start_inv.
  - unfold OnAbilityConnectDone. destruct (sv_stubs s !! stub) as [[t p]|]; [by apply Schedule_inv|done].
  - unfold OnAbilityDisconnectDone. destruct (sv_stubs s !! stub) as [[t p]|]; [by apply Schedule_inv|done].
  - by destruct (Selected_inv token results s H) as (e & s' & -> & H').
  - by destruct (Unselected_inv token results s H) as (e & s' & -> & H').
  - unfold OnDeviceCancel. pose proof (HandleDisconnect_inv s H). by destruct (HandleDisconnectAbility s) as [ok s1].
  - destruct notifier as [o|]; [|done]. cbn. unfold HandleNotifierDied. destruct (continuationHandler_ s) eqn:E; [by apply submit_inv|done].
  - unfold RunQueue. destruct (sv_queue s) as [|t q] eqn:E; [done|]. apply sel_run_task_inv. destruct H. constructor; try done. cbn. intros Hh. by specialize (sl_idle0 Hh); rewrite E in sl_idle0.
Qed.
Lemma sel_run_inv os s : (forall a, Z.of_nat MAX_REGISTER_NUM <= lim a) -> sel_inv s -> sel_inv (sel_run os s).
Proof. intros Hlim. unfold sel_run. revert s. induction os as [|[e o] os IH]; intros s H; [done|]. cbn. apply IH, sel_step_inv; [by intros; apply Hlim|done]. Qed.

(** ** The start *)

Lemma OnStart_inv t : 0 <= t <= MAX_TOKEN_NUM -> exists s, OnStart (Svc_new (to_string t)) = Some s /\ sel_inv s /\ token_ s = t /\ continuationHandler_ s = true /\ tokenMap_ s = [].
Proof.
  intros Ht. unfold OnStart. cbn [sv_parameter Svc_new]. destruct (digits_head 19 t "") as (d & x & E & Hd); [lia|].
  assert (String.eqb (to_string t) "" = false) as -> by (unfold to_string; by rewrite E). rewrite atoi_to_string by (unfold MAX_TOKEN_NUM in Ht; lia). cbn.
  eexists. split; [reflexivity|]. split; [|done]. constructor; cbn; try done; first [by split; constructor | constructor | by intros ? [? ?]].
Qed.

End Invariant.
Lemma sel_inv_lim lim lim' s : Forall (fun e => len e.2 <= lim' e.1) (tokenMap_ s) -> sel_inv lim s -> sel_inv lim' s.
Proof.
  intros Hl [? ? ? HL ? ? ? ?]. constructor; try done. apply Forall_forall. intros e He. pose proof (proj1 (Forall_forall _ _) Hl _ He). by destruct (proj1 (Forall_forall _ _) HL _ He) as (? & _ & ?).
Qed.

(** ** Registrations that overlap *)

(** The registrations that have passed the check of the number and have let go of the lock: the
    application and, once it is taken, the token. *)
Definition calls_of (a : Z) (l : list (Z * option Z)) : Z := len (List.filter (fun p => p.1 =? a) l).
Lemma calls_of_app a l l' : calls_of a (l ++ l') = calls_of a l + calls_of a l'.
Proof. unfold calls_of, len. rewrite List.filter_app, length_app. lia. Qed.
Lemma calls_of_cons a p l : calls_of a (p :: l) = Z.b2z (p.1 =? a) + calls_of a l.
Proof. unfold calls_of, len. cbn. destruct (p.1 =? a); cbn [length Z.b2z]; lia. Qed.

Section Overlap.
(** How many registrations of one application may run at the same time. *)
Variable threads : Z.

(** A registration takes three steps, one for each lock it takes, and others run between
    them; every other call, and every task, is one step. *)
Inductive lock_step : Svc * list (Z * option Z) -> Svc * list (Z * option Z) -> Prop :=
  | lock_check a p s l : calls_of a l < threads -> invalid_mode p = false -> IsExceededRegisterMaxNum a s = false -> lock_step (s, l) (s, l ++ [(a, None)])
  | lock_number a pre post s : lock_step (s, pre ++ (a, None) :: post) ((next_token s).2, pre ++ (a, Some (next_token s).1) :: post)
  | lock_enter a t pre post s : lock_step (s, pre ++ (a, Some t) :: post) (enter_token a t s, pre ++ post)
  | lock_other env o s l : register_of o = None -> lock_step (s, l) (sel_step env o s, l).

(** A registration that is not disturbed takes these steps. *)
Lemma Register_steps a p s : 0 < threads -> rtc lock_step (s, []) ((SelectionService.Register a p s).2, []).
Proof.
  intros Ht. unfold SelectionService.Register. destruct (invalid_mode p) eqn:Em; [apply rtc_refl|]. destruct (IsExceededRegisterMaxNum a s) eqn:Ex; [apply rtc_refl|].
  eapply rtc_l; [by apply (lock_check a p)|]. eapply rtc_l; [apply (lock_number a [] [])|]. eapply rtc_l; [apply (lock_enter a _ [] [])|]. destruct (next_token s). apply rtc_refl.
Qed.

Definition free (l : list (Z * option Z)) (a : Z) : Z := Z.of_nat MAX_REGISTER_NUM - 1 + threads - calls_of a l.
Definition overlap_ok (x : Svc * list (Z * option Z)) : Prop :=
  sel_inv (free x.2) x.1 /\ Forall (fun p => forall t, p.2 = Some t -> 1 <= t <= MAX_TOKEN_NUM) x.2 /\ forall a, calls_of a x.2 <= threads.
Lemma lists_within s l a ts : sel_inv (free l) s -> (a, ts) ∈ tokenMap_ s -> len ts <= free l a.
Proof. intros H Hin. by destruct (proj1 (Forall_forall _ _) (sl_lists _ _ H) _ Hin) as (_ & ? & _). Qed.
Lemma lock_check_ok a s l : calls_of a l < threads -> IsExceededRegisterMaxNum a s = false -> overlap_ok (s, l) -> overlap_ok (s, l ++ [(a, None)]).
Proof.
  intros Hc Hex (H & Hl & Ha). cbn [fst snd] in *. split; cbn [fst snd]; [|split; [apply Forall_app; split; [done|by constructor]|]].
  2: { intros b. rewrite calls_of_app, calls_of_cons. cbn [fst]. change (calls_of b []) with 0. specialize (Ha b). destruct (Z.eqb_spec a b) as [->|]; cbn [Z.b2z]; lia. }
  eapply sel_inv_lim; [|exact H]. apply Forall_forall. intros [b ts] Hin.
  pose proof (lists_within _ _ _ _ H Hin) as Hb. apply not_exceeded in Hex. unfold free in *. cbn [fst snd]. rewrite calls_of_app, calls_of_cons. cbn [fst]. change (calls_of b []) with 0.
  destruct (Z.eqb_spec a b) as [->|]; cbn [Z.b2z]; [|lia]. apply elem_zfind in Hin; [|apply H]. rewrite Hin in Hex. cbn [default] in Hex. unfold id in Hex. lia.
Qed.
Lemma lock_number_ok a pre post s : overlap_ok (s, pre ++ (a, None) :: post) -> overlap_ok ((next_token s).2, pre ++ (a, Some (next_token s).1) :: post).
Proof.
  intros (H & Hl & Ha). cbn [fst snd] in *. destruct (next_token_inv _ s H) as [Ht H']. split; cbn [fst snd]; [|split; [|intros b; specialize (Ha b); by rewrite calls_of_app, calls_of_cons in *]].
  - eapply sel_inv_lim; [|exact H']. apply Forall_forall. intros [b ts] Hin. pose proof (lists_within _ _ _ _ H' Hin) as Hb. unfold free in *. by rewrite calls_of_app, calls_of_cons in *.
  - apply Forall_app in Hl as [L1 L2]. apply Forall_cons in L2 as [_ L2]. apply Forall_app. split; [done|]. constructor; [by intros t [= <-]|done].
Qed.
Lemma enter_ok a t pre post s : 1 <= threads -> overlap_ok (s, pre ++ (a, Some t) :: post) -> overlap_ok (enter_token a t s, pre ++ post).
Proof.
  intros Hth (H & Hl & Ha). cbn [fst snd] in *. apply Forall_app in Hl as [L1 L2]. apply Forall_cons in L2 as [Ht L2]. split; cbn [fst snd]; [|split; [by apply Forall_app|]].
  2: { intros b. specialize (Ha b). rewrite calls_of_app, calls_of_cons in Ha. rewrite calls_of_app. destruct (_ =? b); cbn in Ha; lia. }
  assert (forall b, free (pre ++ (a, Some t) :: post) b = free (pre ++ post) b - Z.b2z (a =? b)) as Ef by (intros b; unfold free; rewrite !calls_of_app, calls_of_cons; cbn [fst]; lia).
  assert (sel_inv (free (pre ++ post)) s) as H1.
  { eapply sel_inv_lim; [|exact H]. apply Forall_forall. intros [b ts] Hin. pose proof (lists_within _ _ _ _ H Hin) as Hb. rewrite Ef in Hb. cbn. destruct (a =? b); cbn in Hb; lia. }
  apply enter_token_inv; [done|by apply Ht|]. destruct (zfind a (tokenMap_ s)) as [ts|] eqn:E; cbn.
  - apply zfind_elem in E. pose proof (lists_within _ _ _ _ H E) as Hb. rewrite Ef, Z.eqb_refl in Hb. cbn in Hb. unfold id. lia.
  - specialize (Ha a). assert (free (pre ++ (a, Some t) :: post) a = free (pre ++ post) a - 1) as Ef' by (by rewrite Ef, Z.eqb_refl). unfold free in Ef' |- *. unfold free, MAX_REGISTER_NUM in *. unfold id, len. cbn [length]. lia.
Qed.
Lemma overlap_reached s l x : 1 <= threads -> overlap_ok (s, l) -> rtc lock_step (s, l) x -> overlap_ok x.
Proof.
  intros Hth H0 Hr. revert x Hr. apply rtc_ind_r; [done|]. intros x y _ H IH. destruct H.
  - by apply lock_check_ok.
  - by apply lock_number_ok.
  - by apply enter_ok.
  - destruct IH as (H1 & H2 & H3). split; [|done]. apply sel_step_inv; [by rewrite H|done].
Qed.

End Overlap.

Definition demo_sel : SelEnv := mkSelEnv true (Some 100) true [("com.hiplay", "Panel")] 0 0 0 true 22.
Definition demo_begun : Svc := default (Svc_new "7") (OnStart (Svc_new "7")).

(** Two registrations of an application with 599 tokens pass the check together: both
    tokens are entered. *)
Lemma limit_passed_by_two_registrations :
  let s := foldr (fun t s => enter_token 1 (Z.of_nat t) s) demo_begun (seq 1 599) in
  IsExceededRegisterMaxNum 1 s = false /\ len (default [] (zfind 1 (tokenMap_ (enter_token 1 600 (enter_token 1 601 s))))) = 601.
Proof. vm_compute. done. Qed.
(** A token is given back between the check of a new listener and its entry: the listener is
    kept for a token that no application has. *)
Lemma listener_of_dropped_token :
  let s := sel_step demo_sel (SRegister 1 None) demo_begun in
  let s' := enter_listener 8 EVENT_CONNECT 50 (SelectionService.Unregister 1 8 s).2 in
  IsTokenRegistered 1 8 s = true /\ is_Some (zfind 8 (callbackMap_ s')) /\ tokenMap_ s' = [].
Proof. vm_compute. eauto. Qed.
