(* ===== verification/SelectionLife.v ===== *)
(** Tokens and applications of the service for choosing a device, and the way from the
    request of an application to its listener. *)

From Stdlib Require Import Sorted.
From S2P Require Import Prelude StdMap SchedErrors SchedUtils ContinueInfo SelectionService SelectionProps.
#[local] Open Scope string_scope.
#[local] Open Scope list_scope.
#[local] Open Scope Z_scope.

(** ** Tokens are unique until the numbers start again *)

Definition unique (s : Svc) : Prop := NoDup (tokens (tokenMap_ s)) /\ Forall (fun t => t <= token_ s) (tokens (tokenMap_ s)).

Lemma tokens_cons k ts l : tokens ((k, ts) :: l) = ts ++ tokens l.
Proof. done. Qed.
Lemma tokens_add a t l : zsorted l -> tokens (zset a (default [] (zfind a l) ++ [t]) l) ≡ₚ t :: tokens l.
Proof.
  induction l as [|[k ts] l IH]; [done|]. intros [Hs Hk]%zsorted_cons. cbn [zfind zset]. destruct (Z.ltb_spec a k) as [Hlt|Hge].
  - destruct (Z.eqb_spec a k); [lia|]. rewrite zfind_None_lt; [done|]. eapply Forall_impl; [exact Hk|]. cbn. lia.
  - destruct (Z.eqb_spec a k) as [->|Hne]; cbn [default]; rewrite !tokens_cons.
    + rewrite <- app_assoc. cbn. by rewrite Permutation_middle.
    + rewrite IH by done. by rewrite Permutation_middle.
Qed.
Lemma without_sublist t ts : without_token t ts `sublist_of` ts.
Proof. unfold without_token. induction ts as [|x ts IH]; [done|]. cbn. destruct (negb _); [by apply sublist_skip|by apply sublist_cons]. Qed.
Lemma remove_token_sublist t l : tokens (remove_token t l) `sublist_of` tokens l.
Proof.
  induction l as [|[k ts] l IH]; [done|]. cbn [remove_token]. fold (without_token t ts). rewrite tokens_cons. destruct (without_token t ts) as [|x xs] eqn:E.
  - by apply sublist_inserts_l.
  - rewrite tokens_cons, <- E. apply sublist_app; [apply without_sublist|done].
Qed.

(** What a step does to the tokens. *)
Definition tokens_kept (s s' : Svc) : Prop := token_ s' = token_ s /\ (tokenMap_ s' = tokenMap_ s \/ exists t, tokenMap_ s' = remove_token t (tokenMap_ s)).

Lemma HandleDisconnect_tokens s : token_ (HandleDisconnectAbility s).2 = token_ s /\ tokenMap_ (HandleDisconnectAbility s).2 = tokenMap_ s /\
  callbackMap_ (HandleDisconnectAbility s).2 = callbackMap_ s.
Proof. unfold HandleDisconnectAbility. by destruct (negb _). Qed.
Lemma drop_token_facts t s : token_ (drop_token t s) = token_ s /\ tokenMap_ (drop_token t s) = remove_token t (tokenMap_ s) /\
  callbackMap_ (drop_token t s) = match zfind t (callbackMap_ s) with Some _ => zerase t (callbackMap_ s) | None => callbackMap_ s end.
Proof. unfold drop_token. destruct (zfind t (callbackMap_ s)) as [i|]; [|done]. by destruct (RemoveDeath_eq "" i s) as (cs & -> & _). Qed.
Lemma dropped_kept t s : tokens_kept s (HandleDisconnectAbility (drop_token t s)).2.
Proof.
  destruct (HandleDisconnect_tokens (drop_token t s)) as (E1 & E2 & _). destruct (drop_token_facts t s) as (F1 & F2 & _). unfold tokens_kept. rewrite E1, E2, F1, F2. eauto.
Qed.
Lemma Connect_tables env t p s : let s' := (ConnectAbility env t p s).2 in token_ s' = token_ s /\ tokenMap_ s' = tokenMap_ s /\ callbackMap_ s' = callbackMap_ s.
Proof.
  cbv zeta. unfold ConnectAbility. destruct (if OS_ACCOUNT_PART env then _ else _) as [acc|]; [|done]. destruct (negb _); [done|].
  set (s1 := match connect_ s with None => _ | Some _ => _ end).
  assert (token_ s1 = token_ s /\ tokenMap_ s1 = tokenMap_ s /\ callbackMap_ s1 = callbackMap_ s) as (E1 & E2 & E3) by (subst s1; by destruct (connect_ s)).
  destruct (negb _); [done|]. destruct (connect_ s1); by destruct (negb _).
Qed.
Lemma Start_tables env a t p s : let s' := (StartDeviceManager env a t p s).2 in token_ s' = token_ s /\ tokenMap_ s' = tokenMap_ s /\ callbackMap_ s' = callbackMap_ s.
Proof.
  cbv zeta. unfold StartDeviceManager, HandleStartDeviceManager. destruct (invalid_mode p); [done|]. do 2 (destruct (negb _); [done|]). destruct (appProxy_ s); [by destruct (negb _)|].
  pose proof (Connect_tables env t p s) as H. destruct (ConnectAbility env t p s). by destruct (negb _).
Qed.
Lemma Schedule_tables app t p s : let s' := ScheduleStartDeviceManager app t p s in token_ s' = token_ s /\ tokenMap_ s' = tokenMap_ s /\ callbackMap_ s' = callbackMap_ s.
Proof. cbv zeta. unfold ScheduleStartDeviceManager, HandleStartDeviceManager. destruct app; [|done]. by destruct (negb _). Qed.

Lemma Selected_tokens t r s : tokens_kept s (match OnDeviceConnect t r s with Some (_, s) => s | None => s end).
Proof.
  unfold OnDeviceConnect, OnDeviceConnect_notify, HandleDisconnectAbility. destruct (continuationHandler_ s) eqn:Eh; cbn [negb]; [|by split; [|left]].
  destruct (negb _); [by split; [|left]|]. destruct (zfind t _) as [i|]; cbn; [|by split; [|left]]. unfold HandleDeviceConnect. cbn. rewrite Eh. cbn.
  destruct (GetNotifier _ i); by split; [|left].
Qed.
Lemma Unselected_tokens t r s : tokens_kept s (match OnDeviceDisconnect t r s with Some (_, s) => s | None => s end).
Proof.
  unfold OnDeviceDisconnect, HandleDisconnectAbility. destruct (continuationHandler_ s) eqn:Eh; cbn [negb]; [|by split; [|left]].
  destruct (negb _); [by split; [|left]|]. destruct (zfind t _) as [i|]; cbn; [|by split; [|left]]. unfold HandleDeviceDisconnect. cbn. rewrite Eh. cbn.
  destruct (GetNotifier _ i); by split; [|left].
Qed.

Lemma step_tokens env o s : match o with SRegister _ _ => True | _ => tokens_kept s (sel_step env o s) end.
Proof.
  destruct o; cbn [sel_step]; try done.
  - unfold SelectionService.Unregister. destruct (negb _); [by split; [|left]|]. apply dropped_kept.
  - unfold RegisterDeviceSelectionCallback. destruct (unknown_event _); [by split; [|left]|]. destruct (negb _); [by split; [|left]|].
    destruct (IsNotifierRegisteredLocked _ _ _); [by split; [|left]|]. unfold enter_listener. destruct (zfind token (callbackMap_ s)); by split; [|left].
  - unfold UnregisterDeviceSelectionCallback. destruct (unknown_event _); [by split; [|left]|]. do 2 (destruct (negb _); [by split; [|left]|]).
    destruct (zfind _ _) as [i|]; [|by split; [|left]]. destruct (RemoveDeath_eq cbType i s) as (cs & -> & _). by split; [|left].
  - unfold UpdateConnectStatus, HandleUpdateConnectStatus. destruct (String.eqb _ _); [by split; [|left]|]. do 2 (destruct (negb _); [by split; [|left]|]).
    destruct (zfind _ _) as [i|]; [|by split; [|left]]. cbn. destruct (appProxy_ s); [destruct (negb _)|]; by split; [|left].
  - destruct (Start_tables env accessToken token params s) as (E1 & E2 & _). split; [done|by left].
  - unfold OnAbilityConnectDone. destruct (sv_stubs s !! stub) as [[t p]|]; [|by split; [|left]]. destruct (Schedule_tables (Some app) t p s) as (E1 & E2 & _). split; [done|by left].
  - unfold OnAbilityDisconnectDone. destruct (sv_stubs s !! stub) as [[t p]|]; [|by split; [|left]]. by split; [|left].
  - by apply Selected_tokens.
  - by apply Unselected_tokens.
  - unfold OnDeviceCancel, HandleDisconnectAbility. destruct (negb _); by split; [|left].
  - destruct notifier; [|by split; [|left]]. cbn. unfold HandleNotifierDied. destruct (negb _); by split; [|left].
  - unfold RunQueue. destruct (sv_queue s) as [|t q]; [by split; [|left]|]. destruct t; cbn [run_task]; try by split; [|left].
    + unfold DisconnectAbility. cbn. destruct (connect_ s); [|by split; [|left]]. destruct (negb _); [by split; [|left]|]. destruct (negb _); by split; [|left].
    + destruct (negb _); [by split; [|left]|]. destruct appProxy; by split; [|left].
    + destruct (negb _); [by split; [|left]|]. destruct appProxy; by split; [|left].
    + destruct (QueryTokenByNotifier _ _); [|by split; [|left]]. exact (dropped_kept z (set_queue q s)).
Qed.

Definition is_register (o : SelOp) : bool := match o with SRegister _ _ => true | _ => false end.
Definition registers (os : list (SelEnv * SelOp)) : Z := len (List.filter (fun eo => is_register eo.2) os).

Lemma kept_unique s s' : tokens_kept s s' -> unique s -> unique s'.
Proof.
  intros [Ht [Em|[t Em]]] [H1 H2]; unfold unique; rewrite Ht, Em; [done|]. split; [by eapply sublist_NoDup; [|apply remove_token_sublist]|].
  apply Forall_forall. intros x Hx. apply (proj1 (Forall_forall _ _) H2). apply (sublist_subseteq _ _ (remove_token_sublist t (tokenMap_ s))). exact Hx.
Qed.
(** The limit of tokens when the registrations of an application come one after the other. *)
Definition one_by_one (a : Z) : Z := Z.of_nat MAX_REGISTER_NUM.
Lemma Register_unique a p s : sel_inv one_by_one s -> unique s -> token_ s < MAX_TOKEN_NUM ->
  unique (SelectionService.Register a p s).2 /\ token_ (SelectionService.Register a p s).2 <= token_ s + 1.
Proof.
  intros H [H1 H2] Ht. unfold SelectionService.Register. destruct (invalid_mode p); [split; [done|cbn; lia]|]. destruct (IsExceededRegisterMaxNum a s); [split; [done|cbn; lia]|].
  unfold next_token, enter_token. cbn [snd]. zb_false (MAX_TOKEN_NUM <? token_ s + 1). cbn [tokenMap_ scall set_token]. split; [|cbn; lia].
  unfold unique. cbn [tokenMap_ set_tokenMap token_ set_token scall]. pose proof (tokens_add a (token_ s + 1) (tokenMap_ s) (proj1 (sl_sorted _ _ H))) as Hp. split.
  - rewrite Hp. constructor; [|done]. intros Hx. apply (proj1 (Forall_forall _ _) H2) in Hx. lia.
  - rewrite Hp. constructor; [lia|]. eapply Forall_impl; [exact H2|]. cbn. lia.
Qed.

(** As long as the numbers have not started again at 1, that is for at most
    100000000 - t registrations after a start with the saved token t, no token is given
    out twice: neither two applications nor one application hold the same token. *)
Theorem tokens_unique t os s : 0 <= t -> t + registers os <= MAX_TOKEN_NUM -> OnStart (Svc_new (to_string t)) = Some s ->
  NoDup (tokens (tokenMap_ (sel_run os s))).
Proof.
  intros Ht Hr Hs. assert (0 <= registers os) by (unfold registers, len; lia). destruct (OnStart_inv one_by_one t ltac:(lia)) as (s' & E & Hi & Et & _ & Em). rewrite E in Hs. injection Hs as <-.
  assert (unique s') as Hu by (unfold unique; rewrite Em; split; constructor). rewrite <- Et in Hr. clear Et E Em Ht.
  revert s' Hi Hu Hr. induction os as [|[e o] os IH]; intros s Hi Hu Hr; [apply Hu|]. cbn [sel_run foldl fst snd]. fold (sel_run os (sel_step e o s)).
  unfold registers in *. cbn [List.filter snd] in *. pose proof (sel_step_inv one_by_one e o s (fun _ _ => Z.le_refl _) Hi) as Hi'. assert (0 <= len (List.filter (fun eo => is_register eo.2) os)) as Hp by (unfold len; lia).
  destruct (is_register o) eqn:Eo.
  - destruct o; try done. unfold len in *. cbn [length] in *.
    destruct (Register_unique accessToken params s Hi Hu ltac:(lia)) as [Hu' Ht']. apply IH; [lia|done|done|]. cbn [sel_step]. lia.
  - pose proof (step_tokens e o s) as Hk. assert (tokens_kept s (sel_step e o s)) as Hk' by (by destruct o). apply IH; [done|done|by eapply kept_unique|].
    by rewrite (proj1 Hk').
Qed.

(** ** Applications do not touch each other *)

(** The application that asks. *)
Definition by_app (o : SelOp) : option Z :=
  match o with
  | SRegister a _ | SUnregister a _ | SOn a _ _ _ | SOff a _ _ | SStatus a _ _ _ | SStart a _ _ => Some a
  | _ => None
  end.

Lemma tokens_find b t l ts : zfind b l = Some ts -> t ∈ ts -> t ∈ tokens l.
Proof. intros H1 H2. apply tokens_elem. exists (b, ts). split; [by apply zfind_elem|done]. Qed.
Lemma tokens_disjoint a b l la lb t : NoDup (tokens l) -> zfind a l = Some la -> zfind b l = Some lb -> a <> b -> t ∈ la -> t ∈ lb -> False.
Proof.
  induction l as [|[k ts] l IH]; [done|]. rewrite tokens_cons. intros (N1 & N2 & N3)%NoDup_app. cbn. intros Ha Hb Hne Hta Htb.
  destruct (Z.eqb_spec a k) as [->|], (Z.eqb_spec b k) as [->|]; simplify_eq; [..|by eapply IH].
  - apply (N2 t Hta). by eapply tokens_find.
  - apply (N2 t Htb). by eapply tokens_find.
Qed.
Lemma remove_token_find tok b t l ts : t <> tok -> zfind b l = Some ts -> t ∈ ts -> exists us, zfind b (remove_token tok l) = Some us /\ t ∈ us.
Proof.
  intros Hne. induction l as [|[k vs] l IH]; [done|]. cbn. fold (without_token tok vs). intros Hf Ht. destruct (Z.eqb_spec b k) as [->|Hk].
  - injection Hf as ->. assert (t ∈ without_token tok ts) as Hw by (by apply without_elem). destruct (without_token tok ts) as [|x xs]; [by apply elem_of_nil in Hw|].
    cbn. rewrite Z.eqb_refl. eauto.
  - destruct (without_token tok vs); [eauto|]. cbn. destruct (Z.eqb_spec b k); [done|]. by apply IH.
Qed.
Lemma IsTokenRegistered_elem a t s : IsTokenRegistered a t s = true <-> exists ts, zfind a (tokenMap_ s) = Some ts /\ t ∈ ts.
Proof.
  unfold IsTokenRegistered. destruct (zfind a (tokenMap_ s)) as [ts|]; [|by split; [|intros (? & ? & _)]]. rewrite existsb_exists. split.
  - intros (x & Hx & ->%Z.eqb_eq). exists ts. split; [done|by apply list_elem_of_In].
  - intros (ts' & [= <-] & Ht). exists t. rewrite Z.eqb_refl. split; [by apply list_elem_of_In|done].
Qed.
Lemma other_token a b t tok s : NoDup (tokens (tokenMap_ s)) -> b <> a -> IsTokenRegistered a tok s = true -> IsTokenRegistered b t s = true -> t <> tok.
Proof.
  intros Hn Hne (la & Ha & Hta)%IsTokenRegistered_elem (lb & Hb & Htb)%IsTokenRegistered_elem ->. by eapply (tokens_disjoint a b).
Qed.
Lemma find_erase_other (m : zmap NotifierInfo) t tok : zsorted m -> t <> tok -> zfind t (zerase tok m) = zfind t m.
Proof. intros Hs Hne. rewrite zfind_zerase by done. by destruct (Z.eqb_spec t tok). Qed.
Lemma find_set_other (m : zmap NotifierInfo) t tok i : t <> tok -> zfind t (zset tok i m) = zfind t m.
Proof. intros Hne. rewrite zfind_zset. by destruct (Z.eqb_spec t tok). Qed.

(** Applications do not touch each other: whatever one application asks
    (to register, to give a token back, to change listeners or the status, to start the
    panel), a token of another application stays registered and keeps its listeners and
    its status. *)
Theorem apps_isolated env o a s b t : sel_inv one_by_one s -> NoDup (tokens (tokenMap_ s)) -> by_app o = Some a -> b <> a -> IsTokenRegistered b t s = true ->
  let s' := sel_step env o s in IsTokenRegistered b t s' = true /\ zfind t (callbackMap_ s') = zfind t (callbackMap_ s).
Proof.
  intros H Hn Ha Hne Ht. cbv zeta. assert (forall tok s', tokenMap_ s' = tokenMap_ s -> (IsTokenRegistered a tok s = true -> zfind t (callbackMap_ s') = zfind t (callbackMap_ s)) ->
    IsTokenRegistered a tok s = true -> IsTokenRegistered b t s' = true /\ zfind t (callbackMap_ s') = zfind t (callbackMap_ s)) as K.
  { intros tok s' E1 E2 E3. split; [|by apply E2]. unfold IsTokenRegistered in *. by rewrite E1. }
  destruct o; cbn [by_app] in Ha; simplify_eq; cbn [sel_step].
  - unfold SelectionService.Register. destruct (invalid_mode _); [done|]. destruct (IsExceededRegisterMaxNum _ _); [done|]. unfold next_token, enter_token. split; [|done]. cbn [snd].
    unfold IsTokenRegistered in *. cbn [tokenMap_ set_tokenMap scall set_token]. rewrite zfind_zset. by destruct (Z.eqb_spec b a).
  - unfold SelectionService.Unregister. destruct (IsTokenRegistered a token s) eqn:Et; [|done]. cbn [negb snd]. pose proof (other_token a b t token s Hn Hne Et Ht) as Hd.
    destruct (HandleDisconnect_tokens (drop_token token s)) as (_ & E2 & E3). destruct (drop_token_facts token s) as (_ & F2 & F3). rewrite E3, F3. split.
    + apply IsTokenRegistered_elem in Ht as (ts & Hf & Hts). apply IsTokenRegistered_elem. rewrite E2, F2. by eapply remove_token_find.
    + destruct (zfind token (callbackMap_ s)); [|done]. apply find_erase_other; [apply H|done].
  - unfold RegisterDeviceSelectionCallback. destruct (unknown_event _); [done|]. destruct (IsTokenRegistered a token s) eqn:Et; [|done]. cbn [negb].
    destruct (IsNotifierRegisteredLocked _ _ _); [done|]. pose proof (other_token a b t token s Hn Hne Et Ht) as Hd. cbn [snd]. unfold enter_listener.
    destruct (zfind token (callbackMap_ s)); apply (K token); try done; intros _; by apply find_set_other.
  - unfold UnregisterDeviceSelectionCallback. destruct (unknown_event _); [done|]. destruct (IsTokenRegistered a token s) eqn:Et; [|done]. cbn [negb].
    destruct (negb _); [done|]. pose proof (other_token a b t token s Hn Hne Et Ht) as Hd. destruct (zfind token (callbackMap_ s)) as [i|] eqn:Ei; [|done].
    destruct (RemoveDeath_eq cbType i s) as (cs & -> & _). apply (K token); try done. intros _. cbn.
    destruct (IsNotifierMapEmpty _); [apply find_erase_other; [apply H|done]|by apply find_set_other].
  - unfold UpdateConnectStatus. destruct (String.eqb _ _); [done|]. destruct (negb (IsConnectStatusValid _)); [done|]. destruct (IsTokenRegistered a token s) eqn:Et; [|done]. cbn [negb].
    pose proof (other_token a b t token s Hn Hne Et Ht) as Hd. destruct (zfind token (callbackMap_ s)) as [i|] eqn:Ei; [|done]. cbn [snd].
    unfold HandleUpdateConnectStatus. cbn. destruct (appProxy_ s); [destruct (negb _)|]; apply (K token); try done; intros _; by apply find_set_other.
  - destruct (Start_tables env a token params s) as (_ & E2 & E3). rewrite E3. split; [|done]. unfold IsTokenRegistered in *. by rewrite E2.
Qed.

(** ** From the request to the listener *)

(** The other services do what they are asked. *)
Definition willing (env : SelEnv) (account : Z) : Prop :=
  (if OS_ACCOUNT_PART env then e_QueryActiveOsAccountIds env else Some (-1)) = Some account /\ QueryExtensionAbilityInfo env = true /\
  e_Connect env = ERR_OK /\ e_ConnectAbility env = ERR_OK /\ e_DisconnectAbility env = ERR_OK /\ e_WriteParcel env = true.

(** An application that may ask for the panel, which is not connected. *)
Record can_ask (s : Svc) (a t : Z) (p : option ContinuationExtraParams) (i : NotifierInfo) : Prop := mkCanAsk {
  ca_handler : continuationHandler_ s = true;
  ca_idle : sv_queue s = [];
  ca_connect : connect_ s = None;
  ca_proxy : appProxy_ s = None;
  ca_mode : invalid_mode p = false;
  ca_token : IsTokenRegistered a t s = true;
  ca_info : zfind t (callbackMap_ s) = Some i;
}.

(** The panel is connected and started for the token. *)
Lemma panel_started env s a t p i account app : willing env account -> can_ask s a t p i ->
  let n := length (sv_stubs s) in
  let s1 := sel_step env SQueue (sel_step env (SConnectDone n app) (sel_step env (SStart a t p) s)) in
  sv_calls s1 = sv_calls s ++ [CConnectAbility n account; CStartDeviceManager app t p (connectStatusInfo_ i)] /\
  sv_queue s1 = [] /\ connect_ s1 = Some n /\ appProxy_ s1 = Some app /\ continuationHandler_ s1 = true /\ callbackMap_ s1 = callbackMap_ s.
Proof.
  intros (W1 & W2 & W3 & W4 & W5 & W6) [H1 H2 H3 H4 H5 H6 H7]. cbv zeta. cbn [sel_step]. unfold StartDeviceManager. rewrite H5, H6. unfold IsNotifierRegistered. rewrite H7, H4. cbn [negb].
  unfold ConnectAbility. rewrite W1, W2, H3, W3, W4. cbn. unfold OnAbilityConnectDone. cbn. rewrite lookup_app_r, Nat.sub_diag by lia. cbn.
  unfold ScheduleStartDeviceManager, HandleStartDeviceManager. cbn. rewrite H1. cbn. unfold RunQueue. cbn. rewrite H2. cbn. rewrite W6. cbn. rewrite H7. by rewrite <- app_assoc.
Qed.
(** What the user chose goes to the listener and the panel is let go. *)
Lemma choice_told env s t r i o n account : willing env account -> continuationHandler_ s = true -> sv_queue s = [] -> connect_ s = Some n ->
  zfind t (callbackMap_ s) = Some i -> GetNotifier EVENT_CONNECT i = Some o ->
  let s1 := sel_step env SQueue (sel_step env SQueue (sel_step env (SSelected t r) s)) in
  sv_calls s1 = sv_calls s ++ [CDisconnectAbility n; CNotifyConnect o r] /\ sv_queue s1 = [] /\ connect_ s1 = None.
Proof.
  intros (W1 & W2 & W3 & W4 & W5 & W6) H1 H2 H3 H4 H5. cbv zeta. cbn [sel_step]. unfold OnDeviceConnect, HandleDisconnectAbility. rewrite H1. cbn [negb].
  unfold IsNotifierRegisteredLocked, OnDeviceConnect_notify. cbn. rewrite H4. cbn. rewrite H5. cbn. unfold HandleDeviceConnect. cbn. rewrite H1. cbn. unfold RunQueue. cbn. rewrite H2. cbn.
  unfold DisconnectAbility. cbn. rewrite H3, W3, W5. cbn. by rewrite <- app_assoc.
Qed.

(** C40: An application asks for the panel, the panel connects and the user chooses:
    the panel is started for the token of the application with its wishes and the last
    status, and the listener of the application is told exactly the devices the user
    chose; afterwards no task waits and the panel is let go. *)
Theorem selection_delivered env s a t p i o account app r : willing env account -> can_ask s a t p i -> GetNotifier EVENT_CONNECT i = Some o ->
  let n := length (sv_stubs s) in
  let s' := foldl (fun s o => sel_step env o s) s [SStart a t p; SConnectDone n app; SQueue; SSelected t r; SQueue; SQueue] in
  sv_calls s' = sv_calls s ++ [CConnectAbility n account; CStartDeviceManager app t p (connectStatusInfo_ i); CDisconnectAbility n; CNotifyConnect o r] /\
  sv_queue s' = [] /\ connect_ s' = None.
Proof.
  intros W Ha Hg. cbv zeta. cbn [foldl]. destruct (panel_started env s a t p i account app W Ha) as (C1 & Q1 & N1 & _ & H1 & M1). cbv zeta in *. set (s1 := sel_step env SQueue _) in *.
  destruct (choice_told env s1 t r i o (length (sv_stubs s)) account W H1 Q1 N1) as (C2 & Q2 & N2); [rewrite M1; apply Ha|done|]. cbv zeta in *.
  by rewrite C2, C1, <- app_assoc.
Qed.

(** ** Where tokens and listeners are mixed up *)

(** While the panel is being connected for one token, the request of another
    application is accepted, but nothing is remembered of it: when the connection is
    there, the panel is started for the first token only. *)
Theorem panel_for_first_token env s a t p n t1 p1 account app : willing env account -> continuationHandler_ s = true -> sv_queue s = [] ->
  connect_ s = Some n -> sv_stubs s !! n = Some (t1, p1) -> appProxy_ s = None -> invalid_mode p = false ->
  IsTokenRegistered a t s = true -> IsNotifierRegistered t s = true ->
  let r := StartDeviceManager env a t p s in
  r.1 = ERR_OK /\ sv_queue (sel_step env (SConnectDone n app) r.2) = [TStart t1 p1 (Some app)].
Proof.
  intros (W1 & W2 & W3 & W4 & W5 & W6) H1 H2 H3 H4 H5 H6 H7 H8. cbv zeta. cbn [sel_step]. unfold StartDeviceManager. rewrite H6, H7, H8, H5. cbn [negb].
  unfold ConnectAbility. rewrite W1, W2, H3, W3, W4. cbn. rewrite H3. cbn. split; [done|]. unfold OnAbilityConnectDone. cbn. rewrite H4.
  unfold ScheduleStartDeviceManager, HandleStartDeviceManager. cbn. rewrite H1. cbn. by rewrite H2.
Qed.

(** The numbers start again at 1 without a look at the tokens that are held: the next
    application gets a token of another. *)
Lemma token_given_twice a b ts s : token_ s = MAX_TOKEN_NUM -> a <> b -> zfind b (tokenMap_ s) = Some ts -> 1 ∈ ts -> zfind a (tokenMap_ s) = None ->
  let '(ret, t, s') := SelectionService.Register a None s in
  ret = ERR_OK /\ t = 1 /\ IsTokenRegistered a 1 s' = true /\ IsTokenRegistered b 1 s' = true.
Proof.
  intros Ht Hne Hb H1 Ha. unfold SelectionService.Register, next_token, enter_token, IsExceededRegisterMaxNum. cbn [invalid_mode]. rewrite Ha, Ht. cbn. unfold IsTokenRegistered. cbn. rewrite Ha, !zfind_zset, Z.eqb_refl. cbn.
  destruct (Z.eqb_spec b a); [congruence|]. rewrite Hb. split; [done|]. split; [done|]. split; [done|]. apply existsb_exists. exists 1. split; [by apply list_elem_of_In|done].
Qed.
(** Only the first listener of a token is watched: the second one is not. *)
Lemma second_listener_unwatched a t c n s i : unknown_event c = false -> IsTokenRegistered a t s = true -> IsNotifierRegisteredLocked t c s = false ->
  zfind t (callbackMap_ s) = Some i -> let r := RegisterDeviceSelectionCallback a t c n s in r.1 = ERR_OK /\ sv_calls r.2 = sv_calls s.
Proof. intros H1 H2 H3 H4. cbv zeta. unfold RegisterDeviceSelectionCallback, enter_listener. by rewrite H1, H2, H3, H4. Qed.
(** Between the test and the use of the listener the token may be given back. *)
Lemma selected_race a t r s : IsTokenRegistered a t s = true -> sel_inv one_by_one s -> OnDeviceConnect_notify t r (SelectionService.Unregister a t s).2 = None.
Proof.
  intros H Hi. unfold SelectionService.Unregister. rewrite H. cbn [negb snd]. unfold OnDeviceConnect_notify.
  destruct (HandleDisconnect_tokens (drop_token t s)) as (_ & _ & E3). destruct (drop_token_facts t s) as (_ & _ & F3). rewrite E3, F3.
  destruct (zfind t (callbackMap_ s)) eqn:E; [|by rewrite E]. rewrite zfind_zerase by apply Hi. by rewrite Z.eqb_refl.
Qed.
(** An application that gives its token back lets go the panel of another. *)
Lemma unregister_closes_panel env a t n account s : willing env account -> continuationHandler_ s = true -> sv_queue s = [] -> connect_ s = Some n -> IsTokenRegistered a t s = true ->
  exists cs, sv_calls (sel_step env SQueue (sel_step env (SUnregister a t) s)) = cs ++ [CDisconnectAbility n].
Proof.
  intros (_ & _ & W3 & _ & W5 & _) H1 H2 H3 H4. cbn [sel_step]. unfold SelectionService.Unregister. rewrite H4. cbn [negb snd].
  assert (continuationHandler_ (drop_token t s) = true /\ sv_queue (drop_token t s) = [] /\ connect_ (drop_token t s) = Some n) as (E1 & E2 & E3).
  { unfold drop_token. destruct (zfind t (callbackMap_ s)) as [i|]; [|done]. by destruct (RemoveDeath_eq "" i s) as (cs & -> & _). }
  generalize dependent (drop_token t s). intros d E1 E2 E3. unfold HandleDisconnectAbility. rewrite E1. cbn. unfold RunQueue. cbn. rewrite E2. cbn. unfold DisconnectAbility. cbn. rewrite E3, W3, W5. cbn. by eexists.
Qed.

(** ** Witnesses *)

Definition demo_sel_env : SelEnv := mkSelEnv true (Some 100) true [("com.hiplay", "Panel")] 0 0 0 true 22.
(** Application 1 holds token 8 with a listener, application 2 token 9. *)
Definition demo_svc : Svc :=
  sel_run (map (fun o => (demo_sel_env, o)) [SRegister 1 None; SRegister 2 None; SOn 1 8 EVENT_CONNECT 50; SStatus 1 8 "dev" 2; SOn 2 9 EVENT_CONNECT 60])
    (default (Svc_new "7") (OnStart (Svc_new "7"))).

Lemma selection_invariant_short : sel_inv one_by_one demo_svc /\ unique demo_svc.
Proof.
  destruct (OnStart_inv one_by_one 7) as (s & E & Hi & Et & Hh & Em); [unfold MAX_TOKEN_NUM; lia|]. split.
  - unfold demo_svc. change "7" with (to_string 7). rewrite E. cbn [default]. by apply sel_run_inv; [intros a; apply Z.le_refl|].
  - split; vm_compute; repeat constructor; intros H; inversion H; subst; by inversion H2.
Qed.

Lemma tokens_unique_witness : NoDup (tokens (tokenMap_ demo_svc)).
Proof. apply (tokens_unique 7); [lia|by vm_compute|reflexivity]. Defined.
Lemma apps_isolated_witness : IsTokenRegistered 2 9 (sel_step demo_sel_env (SUnregister 1 8) demo_svc) = true.
Proof.
  apply (apps_isolated demo_sel_env (SUnregister 1 8) 1 demo_svc 2 9); [apply selection_invariant_short|apply selection_invariant_short|done|lia|by vm_compute].
Defined.
Lemma selection_delivered_witness :
  sv_calls (foldl (fun s o => sel_step demo_sel_env o s) demo_svc [SStart 1 8 None; SConnectDone 0 77; SQueue; SSelected 8 [mkResult "d" "phone" "P"]; SQueue; SQueue]) =
  [CSetParameter "8"; CSetParameter "9"; CAddDeath 50; CAddDeath 60; CConnectAbility 0 100; CStartDeviceManager 77 8 None (Some ("dev", 2)); CDisconnectAbility 0; CNotifyConnect 50 [mkResult "d" "phone" "P"]].
Proof.
  destruct (selection_delivered demo_sel_env demo_svc 1 8 None (mkNotifierInfo [(EVENT_CONNECT, 50)] (Some ("dev", 2))) 50 100 77 [mkResult "d" "phone" "P"]) as [H _];
    [by repeat split|by constructor; vm_compute|by vm_compute|]. exact H.
Defined.
(** Application 2 asks while the panel is being connected for application 1. *)
Lemma panel_for_first_token_witness :
  let s := sel_step demo_sel_env (SStart 1 8 None) demo_svc in
  sv_queue (sel_step demo_sel_env (SConnectDone 0 77) (StartDeviceManager demo_sel_env 2 9 None s).2) = [TStart 8 None (Some 77)].
Proof.
  cbv zeta. apply (panel_for_first_token demo_sel_env (sel_step demo_sel_env (SStart 1 8 None) demo_svc) 2 9 None 0 8 None 100 77); try (by vm_compute).
Defined.
