(* ===== verification/IpcParcel.v ===== *)
(** Messages between processes.

    The message parcel and the conversion between texts of 8 and 16 bits are code of
    other repositories. The class names the operations that are called and the laws
    what their documentation says: values come out in the order in which they went in. *)

From S2P Require Import Prelude.
#[local] Open Scope string_scope.
#[local] Open Scope list_scope.
#[local] Open Scope Z_scope.

(** Texts of 16 bits. *)
Class Text16 := {
  string16 : Type;
  Str8ToStr16 : string -> string16;
  Str16ToStr8 : string16 -> string;
  empty16 : string16;
  is_empty16 : string16 -> bool;
  (** Texts that the conversion represents. *)
  utf8 : string -> Prop;
}.
Class Text16Laws `{Text16} : Prop := { text_back : forall s, utf8 s -> Str16ToStr8 (Str8ToStr16 s) = s }.

Section Parcel.
Context {T16 : Text16}.

(** Numbers that are not 32 bits wide. *)
Inductive Width := W8 | W16 | W64 | WFloat | WDouble.
#[export] Instance width_eq : EqDecision Width.
Proof. solve_decision. Defined.

(** A value in a message. [IMark] stands for what [WriteParcelable] writes before an
    object and [INull] for what it writes for a null pointer; a file descriptor stands for the file it names, which the receiver may know by
    another number; numbers with a point are given by their bits. *)
Inductive Item :=
  | IInt (z : Z)
  | IStr (s : string)
  | IStr16 (s : string16)
  | IStr16Vec (l : list string16)
  | IObject (o : Z)
  | IToken (s : string)
  | IMark
  | INull
  | IStrVec (l : list string)
  | INum (w : Width) (z : Z)
  | INums (w : Width) (l : list Z)
  | IInts (l : list Z)
  | IFd (f : Z)
  | IBytes (l : list Z).
Inductive Kind := KInt | KStr | KStr16 | KStr16Vec | KObject | KToken | KMark | KStrVec | KNum (w : Width) | KNums (w : Width) | KInts | KFd | KBytes (n : Z).
Definition kind (x : Item) : Kind :=
  match x with
  | IInt _ => KInt | IStr _ => KStr | IStr16 _ => KStr16 | IStr16Vec _ => KStr16Vec | IObject _ => KObject | IToken _ => KToken | IMark | INull => KMark | IStrVec _ => KStrVec
  | INum w _ => KNum w | INums w _ => KNums w | IInts _ => KInts | IFd _ => KFd | IBytes l => KBytes (len l)
  end.

Class IpcParcel := {
  Parcel : Type;
  Parcel_empty : Parcel;
  Write : Item -> Parcel -> option Parcel;
  Read : Kind -> Parcel -> option (Item * Parcel);
  GetReadableBytes : Parcel -> Z;
  GetDataSize : Parcel -> Z;
}.

(** [items]: the values that are still to be read. Every value takes a byte at least. *)
Class IpcParcelLaws `{IpcParcel} := {
  items : Parcel -> list Item;
  items_empty : items Parcel_empty = [];
  items_write : forall x p p', Write x p = Some p' -> items p' = items p ++ [x];
  items_read : forall x l p, items p = x :: l -> exists p', Read (kind x) p = Some (x, p') /\ items p' = l;
  items_end : forall k p, items p = [] -> Read k p = None;
  items_bytes : forall p, len (items p) <= GetReadableBytes p;
  items_data : forall p, GetReadableBytes p <= GetDataSize p;
  read_data : forall k p x p', Read k p = Some (x, p') -> GetDataSize p' = GetDataSize p;
}.

Context {IP : IpcParcel}.

Definition ReadInt32 (p : Parcel) : option (Z * Parcel) := match Read KInt p with Some (IInt z, p) => Some (z, p) | _ => None end.
Definition ReadString (p : Parcel) : option (string * Parcel) := match Read KStr p with Some (IStr s, p) => Some (s, p) | _ => None end.
Definition ReadString16 (p : Parcel) : option (string16 * Parcel) := match Read KStr16 p with Some (IStr16 s, p) => Some (s, p) | _ => None end.
Definition ReadString16Vector (p : Parcel) : option (list string16 * Parcel) := match Read KStr16Vec p with Some (IStr16Vec l, p) => Some (l, p) | _ => None end.
Definition ReadRemoteObject (p : Parcel) : option (Z * Parcel) := match Read KObject p with Some (IObject o, p) => Some (o, p) | _ => None end.
Definition ReadInterfaceToken (p : Parcel) : option (string * Parcel) := match Read KToken p with Some (IToken s, p) => Some (s, p) | _ => None end.
Definition ReadMark (p : Parcel) : option Parcel := match Read KMark p with Some (IMark, p) => Some p | _ => None end.

Definition ReadStringVector (p : Parcel) : option (list string * Parcel) := match Read KStrVec p with Some (IStrVec l, p) => Some (l, p) | _ => None end.
Definition ReadNum (w : Width) (p : Parcel) : option (Z * Parcel) := match Read (KNum w) p with Some (INum _ z, p) => Some (z, p) | _ => None end.
Definition ReadNums (w : Width) (p : Parcel) : option (list Z * Parcel) := match Read (KNums w) p with Some (INums _ l, p) => Some (l, p) | _ => None end.
Definition ReadInt32Vector (p : Parcel) : option (list Z * Parcel) := match Read KInts p with Some (IInts l, p) => Some (l, p) | _ => None end.
(** -1 when there is no descriptor to read. *)
Definition ReadFileDescriptor (p : Parcel) : Z * Parcel := match Read KFd p with Some (IFd f, p) => (f, p) | _ => (-1, p) end.
Definition ReadUnpadBuffer (n : Z) (p : Parcel) : option (list Z * Parcel) := match Read (KBytes n) p with Some (IBytes l, p) => Some (l, p) | _ => None end.

(** A write whose result is not looked at. *)
Definition put (x : Item) (p : Parcel) : Parcel := default p (Write x p).
(** Reads that give a default value when there is nothing to read. *)
Definition ReadInt32_or0 (p : Parcel) : Z * Parcel := default (0, p) (ReadInt32 p).
Definition ReadString16_or_empty (p : Parcel) : string16 * Parcel := default (empty16, p) (ReadString16 p).

(** ** What the laws give *)

(** Writes succeed. *)
Definition roomy : Prop := forall x p, is_Some (Write x p).

Context {IPL : IpcParcelLaws}.

Lemma roomy_write x p : roomy -> exists p', Write x p = Some p' /\ items p' = items p ++ [x].
Proof. intros R. destruct (R x p) as [p' E]. exists p'. split; [done|by apply items_write]. Qed.
Lemma roomy_put x p : roomy -> items (put x p) = items p ++ [x].
Proof. intros R. unfold put. destruct (roomy_write x p R) as (p' & -> & E). exact E. Qed.

Lemma read_int z l p : items p = IInt z :: l -> exists p', ReadInt32 p = Some (z, p') /\ items p' = l.
Proof. intros (p' & E & H)%items_read. exists p'. unfold ReadInt32. cbn in E. by rewrite E. Qed.
Lemma read_str s l p : items p = IStr s :: l -> exists p', ReadString p = Some (s, p') /\ items p' = l.
Proof. intros (p' & E & H)%items_read. exists p'. unfold ReadString. cbn in E. by rewrite E. Qed.
Lemma read_str16 s l p : items p = IStr16 s :: l -> exists p', ReadString16 p = Some (s, p') /\ items p' = l.
Proof. intros (p' & E & H)%items_read. exists p'. unfold ReadString16. cbn in E. by rewrite E. Qed.
Lemma read_vec v l p : items p = IStr16Vec v :: l -> exists p', ReadString16Vector p = Some (v, p') /\ items p' = l.
Proof. intros (p' & E & H)%items_read. exists p'. unfold ReadString16Vector. cbn in E. by rewrite E. Qed.
Lemma read_strs v l p : items p = IStrVec v :: l -> exists p', ReadStringVector p = Some (v, p') /\ items p' = l.
Proof. intros (p' & E & H)%items_read. exists p'. unfold ReadStringVector. cbn in E. by rewrite E. Qed.
Lemma read_object o l p : items p = IObject o :: l -> exists p', ReadRemoteObject p = Some (o, p') /\ items p' = l.
Proof. intros (p' & E & H)%items_read. exists p'. unfold ReadRemoteObject. cbn in E. by rewrite E. Qed.
Lemma read_token s l p : items p = IToken s :: l -> exists p', ReadInterfaceToken p = Some (s, p') /\ items p' = l.
Proof. intros (p' & E & H)%items_read. exists p'. unfold ReadInterfaceToken. cbn in E. by rewrite E. Qed.
Lemma read_num w z l p : items p = INum w z :: l -> exists p', ReadNum w p = Some (z, p') /\ items p' = l.
Proof. intros (p' & E & H)%items_read. exists p'. unfold ReadNum. cbn in E. by rewrite E. Qed.
Lemma read_nums w v l p : items p = INums w v :: l -> exists p', ReadNums w p = Some (v, p') /\ items p' = l.
Proof. intros (p' & E & H)%items_read. exists p'. unfold ReadNums. cbn in E. by rewrite E. Qed.
Lemma read_ints v l p : items p = IInts v :: l -> exists p', ReadInt32Vector p = Some (v, p') /\ items p' = l.
Proof. intros (p' & E & H)%items_read. exists p'. unfold ReadInt32Vector. cbn in E. by rewrite E. Qed.
Lemma read_fd f l p : items p = IFd f :: l -> exists p', ReadFileDescriptor p = (f, p') /\ items p' = l.
Proof. intros (p' & E & H)%items_read. exists p'. unfold ReadFileDescriptor. cbn in E. by rewrite E. Qed.
Lemma read_bytes v l p : items p = IBytes v :: l -> exists p', ReadUnpadBuffer (len v) p = Some (v, p') /\ items p' = l.
Proof. intros (p' & E & H)%items_read. exists p'. unfold ReadUnpadBuffer. cbn in E. by rewrite E. Qed.
Lemma read_mark l p : items p = IMark :: l -> exists p', ReadMark p = Some p' /\ items p' = l.
Proof. intros (p' & E & H)%items_read. exists p'. unfold ReadMark. cbn in E. by rewrite E. Qed.
End Parcel.

(** ** A parcel for the witnesses: the list of the values *)

#[local] Instance demo_text : Text16 := {|
  string16 := string; Str8ToStr16 := id; Str16ToStr8 := id; empty16 := ""; is_empty16 := String.eqb ""; utf8 := fun _ => True |}.
#[local] Instance demo_text_laws : Text16Laws.
Proof. constructor. by intros s _. Qed.

Definition same_kind (a b : Kind) : bool :=
  match a, b with
  | KInt, KInt | KStr, KStr | KStr16, KStr16 | KStr16Vec, KStr16Vec | KObject, KObject | KToken, KToken | KMark, KMark | KStrVec, KStrVec => true
  | KNum a, KNum b | KNums a, KNums b => bool_decide (a = b)
  | KInts, KInts | KFd, KFd => true
  | KBytes a, KBytes b => a =? b
  | _, _ => false
  end.
Lemma same_kind_refl k : same_kind k k = true.
Proof. destruct k as [| | | | | | | |w|w| | |n]; try done; [by destruct w| |apply Z.eqb_refl]. by destruct w. Qed.
(** The values that were read and those that are still to be read. *)
#[local] Instance demo_parcel : IpcParcel := {|
  Parcel := list Item * list Item;
  Parcel_empty := ([], []);
  Write := fun x p => Some (fst p, snd p ++ [x]);
  Read := fun k p => match snd p with x :: l => if same_kind k (kind x) then Some (x, (fst p ++ [x], l)) else None | [] => None end;
  GetReadableBytes := fun p => 4 * len (snd p);
  GetDataSize := fun p => 4 * (len (fst p) + len (snd p));
|}.
#[local] Instance demo_parcel_laws : IpcParcelLaws.
Proof.
  refine {| items := fun p => snd p |}; [done| | | | | |].
  - by intros x p p' [= <-].
  - intros x l [a b]. cbn [snd]. intros ->. exists (a ++ [x], l). split; [|done]. change ((if same_kind (kind x) (kind x) then Some (x, (a ++ [x], l)) else None) = Some (x, (a ++ [x], l))). by rewrite same_kind_refl.
  - intros k [a b]. cbn [snd]. by intros ->.
  - intros p. cbn. unfold len. lia.
  - intros p. cbn. unfold len. lia.
  - intros k [a [|y b]] x p' E; cbn in E; [done|]. destruct (same_kind k (kind y)); [|done]. injection E as <- <-. cbn. unfold len. rewrite length_app. cbn. lia.
Defined.
