(* ===== verification/SelectionIpc.v ===== *)
(** The service for choosing a device across processes: the parcels of
    continuation_extra_params.cpp and continuation_result.cpp, the proxy
    (distributed_ability_manager_proxy.cpp) that an application calls, the stub
    (distributed_ability_manager_stub.cpp) that calls the service, and the way of the
    chosen devices from the panel (app_device_callback_stub.cpp) and to the listener
    (device_selection_notifier_proxy.cpp and device_selection_notifier_stub.cpp). *)

From S2P Require Import Prelude StdMap SchedErrors SelectionService IpcParcel.
#[local] Open Scope string_scope.
#[local] Open Scope list_scope.
#[local] Open Scope Z_scope.

Definition VALUE_NULL : Z := -1.
Definition VALUE_OBJECT : Z := 1.
(** Codes of the requests. *)
Definition REGISTER : Z := 500.
Definition UNREGISTER : Z := 501.
Definition REGISTER_DEVICE_SELECTION_CALLBACK : Z := 502.
Definition UNREGISTER_DEVICE_SELECTION_CALLBACK : Z := 503.
Definition UPDATE_CONNECT_STATUS : Z := 504.
Definition START_DEVICE_MANAGER : Z := 505.
Definition EVENT_DEVICE_CONNECT : Z := 1.
Definition EVENT_DEVICE_DISCONNECT : Z := 2.
Definition EVENT_DEVICE_CANCEL : Z := 3.

(** Names and results of other libraries. *)
Record IpcEnv := mkIpcEnv {
  i_GetDescriptor : string;
  i_PanelDescriptor : string;
  i_NotifierDescriptor : string;
  ERR_FLATTEN_OBJECT : Z;
  ERR_INVALID_STATE : Z;
  ERR_INVALID_VALUE : Z;
  (** [IPCObjectStub::OnRemoteRequest] for a code that is not known. *)
  i_unknown : Z -> Z;
  (** The result of the check of [DISTRIBUTED_DATASYNC] for a caller. *)
  i_VerifyPermission : Z -> bool;
  (** Whether the remote object is there and, when a request is not delivered, why. *)
  i_Remote : bool;
  i_undelivered : option Z;
}.

Section Ipc.
Context {T16 : Text16} {IP : @IpcParcel T16}.
Variable ipc : IpcEnv.
Variable env : SelEnv.

(** ** Parcels *)

Definition Params_Marshalling (e : ContinuationExtraParams) (p : Parcel) : Parcel :=
  let p := put (IStr16Vec (map Str8ToStr16 (deviceTypeVec_ e))) p in
  let p := put (IStr16 (Str8ToStr16 (targetBundle_ e))) p in
  let p := put (IStr16 (Str8ToStr16 (description_ e))) p in
  let p := put (IStr16 (Str8ToStr16 (filter_ e))) p in
  let p := put (IInt (continuationMode_ e)) p in
  put (IStr16 (Str8ToStr16 (authInfo_ e))) p.
Definition Params_ReadFromParcel (p : Parcel) : option (ContinuationExtraParams * Parcel) :=
  '(types, p) ← ReadString16Vector p;
  let '(bundle, p) := ReadString16_or_empty p in
  let '(description, p) := ReadString16_or_empty p in
  let '(filter, p) := ReadString16_or_empty p in
  let '(mode, p) := ReadInt32_or0 p in
  let '(auth, p) := ReadString16_or_empty p in
  Some (mkExtraParams (map Str16ToStr8 types) (Str16ToStr8 bundle) (Str16ToStr8 description) (Str16ToStr8 filter) mode (Str16ToStr8 auth), p).

Definition Result_Marshalling (r : ContinuationResult) (p : Parcel) : Parcel :=
  let p := put (IStr16 (Str8ToStr16 (deviceId_ r))) p in
  let p := put (IStr16 (Str8ToStr16 (deviceType_ r))) p in
  put (IStr16 (Str8ToStr16 (deviceName_ r))) p.
Definition Result_ReadFromParcel (p : Parcel) : ContinuationResult * Parcel :=
  let '(id, p) := ReadString16_or_empty p in
  let '(type, p) := ReadString16_or_empty p in
  let '(name, p) := ReadString16_or_empty p in
  (mkResult (Str16ToStr8 id) (Str16ToStr8 type) (Str16ToStr8 name), p).

Fixpoint write_results (l : list ContinuationResult) (p : Parcel) : option Parcel :=
  match l with
  | [] => Some p
  | r :: l => p ← Write IMark p; write_results l (Result_Marshalling r p)
  end.
Definition WriteContinuationResultsToParcel (l : list ContinuationResult) (p : Parcel) : option Parcel :=
  match l with
  | [] => Write (IInt VALUE_NULL) p
  | _ => p ← Write (IInt VALUE_OBJECT) p; p ← Write (IInt (i32 (len l))) p; write_results l p
  end.
Fixpoint read_results (n : nat) (p : Parcel) : option (list ContinuationResult * Parcel) :=
  match n with
  | O => Some ([], p)
  | S n =>
      p ← ReadMark p;
      let '(r, p) := Result_ReadFromParcel p in
      '(l, p) ← read_results n p;
      Some (r :: l, p)
  end.
Definition ReadContinuationResultsFromParcel (p : Parcel) : option (list ContinuationResult * Parcel) :=
  let '(empty, p) := ReadInt32_or0 p in
  if empty =? VALUE_OBJECT then
    let '(n, p) := ReadInt32_or0 p in
    if n <? 0 then None
    else if GetReadableBytes p <? n then None
    else read_results (Z.to_nat n) p
  else Some ([], p).

(** What the proxy and the panel write for the wishes of an application. *)
Definition write_params (e : option ContinuationExtraParams) (p : Parcel) : option Parcel :=
  match e with
  | None => Write (IInt VALUE_NULL) p
  | Some e => p ← Write (IInt VALUE_OBJECT) p; p ← Write IMark p; Some (Params_Marshalling e p)
  end.
(** [inl]: the code with which the stub returns. *)
Definition read_params (p : Parcel) : Z + option ContinuationExtraParams :=
  match ReadInt32 p with
  | None => inl (ERR_FLATTEN_OBJECT ipc)
  | Some (flag, p) =>
      if flag =? VALUE_OBJECT then
        match (p ← ReadMark p; Params_ReadFromParcel p) with
        | None => inl (ERR_NULL_OBJECT env)
        | Some (e, _) => inr (Some e)
        end
      else inr None
  end.

(** ** The stub: the code it returns, the reply and the new state *)

Definition fail (code : Z) (s : Svc) : Z * Parcel * Svc := (code, Parcel_empty, s).
(** [PARCEL_WRITE_HELPER(reply, Int32, result)] for each result. *)
Definition answer (results : list Z) (s : Svc) : Z * Parcel * Svc :=
  match foldl (fun p r => p ← p; Write (IInt r) p) (Some Parcel_empty) results with
  | Some p => (0, p, s)
  | None => fail (ERR_FLATTEN_OBJECT ipc) s
  end.

Definition RegisterInner (accessToken : Z) (data : Parcel) (s : Svc) : Z * Parcel * Svc :=
  match read_params data with
  | inl e => fail e s
  | inr params => let '(result, token, s) := Register accessToken params s in answer [result; token] s
  end.
Definition UnregisterInner (accessToken : Z) (data : Parcel) (s : Svc) : Z * Parcel * Svc :=
  match ReadInt32 data with
  | None => fail (ERR_FLATTEN_OBJECT ipc) s
  | Some (token, _) => let '(result, s) := Unregister accessToken token s in answer [result] s
  end.
Definition RegisterDeviceSelectionCallbackInner (accessToken : Z) (data : Parcel) (s : Svc) : Z * Parcel * Svc :=
  match ('(token, p) ← ReadInt32 data; '(cbType, p) ← ReadString p; Some (token, cbType, p)) with
  | None => fail (ERR_FLATTEN_OBJECT ipc) s
  | Some (token, cbType, p) =>
      if String.eqb cbType "" then fail (ERR_NULL_OBJECT env) s
      else match ReadRemoteObject p with
      | None => fail (ERR_NULL_OBJECT env) s
      | Some (notifier, _) => let '(result, s) := RegisterDeviceSelectionCallback accessToken token cbType notifier s in answer [result] s
      end
  end.
Definition UnregisterDeviceSelectionCallbackInner (accessToken : Z) (data : Parcel) (s : Svc) : Z * Parcel * Svc :=
  match ('(token, p) ← ReadInt32 data; '(cbType, p) ← ReadString p; Some (token, cbType)) with
  | None => fail (ERR_FLATTEN_OBJECT ipc) s
  | Some (token, cbType) =>
      if String.eqb cbType "" then fail (ERR_NULL_OBJECT env) s
      else let '(result, s) := UnregisterDeviceSelectionCallback accessToken token cbType s in answer [result] s
  end.
Definition UpdateConnectStatusInner (accessToken : Z) (data : Parcel) (s : Svc) : Z * Parcel * Svc :=
  match ('(token, p) ← ReadInt32 data; '(deviceId, p) ← ReadString p; Some (token, deviceId, p)) with
  | None => fail (ERR_FLATTEN_OBJECT ipc) s
  | Some (token, deviceId, p) =>
      let '(status, _) := ReadInt32_or0 p in
      let '(result, s) := UpdateConnectStatus env accessToken token deviceId status s in answer [result] s
  end.
Definition StartDeviceManagerInner (accessToken : Z) (data : Parcel) (s : Svc) : Z * Parcel * Svc :=
  match ReadInt32 data with
  | None => fail (ERR_FLATTEN_OBJECT ipc) s
  | Some (token, p) =>
      match read_params p with
      | inl e => fail e s
      | inr params => let '(result, s) := StartDeviceManager env accessToken token params s in answer [result] s
      end
  end.

Definition funcsMap_ (code : Z) : option (Z -> Parcel -> Svc -> Z * Parcel * Svc) :=
  if code =? REGISTER then Some RegisterInner
  else if code =? UNREGISTER then Some UnregisterInner
  else if code =? REGISTER_DEVICE_SELECTION_CALLBACK then Some RegisterDeviceSelectionCallbackInner
  else if code =? UNREGISTER_DEVICE_SELECTION_CALLBACK then Some UnregisterDeviceSelectionCallbackInner
  else if code =? UPDATE_CONNECT_STATUS then Some UpdateConnectStatusInner
  else if code =? START_DEVICE_MANAGER then Some StartDeviceManagerInner
  else None.

Definition OnRemoteRequest (accessToken code : Z) (data : Parcel) (s : Svc) : Z * Parcel * Svc :=
  match funcsMap_ code with
  | None => fail (i_unknown ipc code) s
  | Some func =>
      match ReadInterfaceToken data with
      | Some (token, data) =>
          if negb (String.eqb token (i_GetDescriptor ipc)) then fail DMS_PERMISSION_DENIED s
          else if negb (i_VerifyPermission ipc accessToken) then fail DMS_PERMISSION_DENIED s
          else func accessToken data s
      | None => fail DMS_PERMISSION_DENIED s
      end
  end.

(** ** The proxy *)

Definition SendRequest (accessToken code : Z) (data : Parcel) (s : Svc) : Z * Parcel * Svc :=
  match i_undelivered ipc with
  | Some error => fail error s
  | None => OnRemoteRequest accessToken code data s
  end.
(** [PARCEL_TRANSACT_SYNC_RET_INT]. *)
Definition transact (accessToken code : Z) (data : option Parcel) (s : Svc) : Z * Svc :=
  match data with
  | None => (ERR_FLATTEN_OBJECT ipc, s)
  | Some data =>
      let '(error, reply, s) := SendRequest accessToken code data s in
      if negb (error =? 0) then (error, s) else (fst (ReadInt32_or0 reply), s)
  end.
Definition request : option Parcel := Write (IToken (i_GetDescriptor ipc)) Parcel_empty.

(** The token the caller gets, if any. *)
Definition Proxy_Register (accessToken : Z) (params : option ContinuationExtraParams) (s : Svc) : Z * option Z * Svc :=
  if negb (i_Remote ipc) then (ERR_NULL_OBJECT env, None, s)
  else match (p ← request; write_params params p) with
  | None => (ERR_FLATTEN_OBJECT ipc, None, s)
  | Some data =>
      let '(error, reply, s) := SendRequest accessToken REGISTER data s in
      if negb (error =? 0) then (error, None, s)
      else
        let '(result, reply) := ReadInt32_or0 reply in
        if negb (result =? 0) then (result, None, s)
        else match ReadInt32 reply with
        | None => (ERR_FLATTEN_OBJECT ipc, None, s)
        | Some (token, _) => (0, Some token, s)
        end
  end.
Definition Proxy_Unregister (accessToken token : Z) (s : Svc) : Z * Svc :=
  if negb (i_Remote ipc) then (ERR_NULL_OBJECT env, s)
  else transact accessToken UNREGISTER (p ← request; Write (IInt token) p) s.
Definition Proxy_RegisterDeviceSelectionCallback (accessToken token : Z) (cbType : string) (notifier : option Z) (s : Svc) : Z * Svc :=
  if String.eqb cbType "" then (ERR_NULL_OBJECT env, s)
  else match notifier with
  | None => (ERR_NULL_OBJECT env, s)
  | Some o =>
      if negb (i_Remote ipc) then (ERR_NULL_OBJECT env, s)
      else transact accessToken REGISTER_DEVICE_SELECTION_CALLBACK (p ← request; p ← Write (IInt token) p; p ← Write (IStr cbType) p; Write (IObject o) p) s
  end.
Definition Proxy_UnregisterDeviceSelectionCallback (accessToken token : Z) (cbType : string) (s : Svc) : Z * Svc :=
  if String.eqb cbType "" then (ERR_NULL_OBJECT env, s)
  else if negb (i_Remote ipc) then (ERR_NULL_OBJECT env, s)
  else transact accessToken UNREGISTER_DEVICE_SELECTION_CALLBACK (p ← request; p ← Write (IInt token) p; Write (IStr cbType) p) s.
Definition Proxy_UpdateConnectStatus (accessToken token : Z) (deviceId : string) (status : Z) (s : Svc) : Z * Svc :=
  if negb (i_Remote ipc) then (ERR_NULL_OBJECT env, s)
  else transact accessToken UPDATE_CONNECT_STATUS (p ← request; p ← Write (IInt token) p; p ← Write (IStr deviceId) p; Write (IInt status) p) s.
Definition Proxy_StartDeviceManager (accessToken token : Z) (params : option ContinuationExtraParams) (s : Svc) : Z * Svc :=
  if negb (i_Remote ipc) then (ERR_NULL_OBJECT env, s)
  else transact accessToken START_DEVICE_MANAGER (p ← request; p ← Write (IInt token) p; write_params params p) s.

(** ** The chosen devices *)

(** The request of the panel; [None]: undefined behaviour of the service. *)
Definition Panel_OnRemoteRequest (code : Z) (data : Parcel) (s : Svc) : option (Z * Svc) :=
  match ReadInterfaceToken data with
  | None => Some (ERR_INVALID_STATE ipc, s)
  | Some (descriptor, data) =>
      if negb (String.eqb descriptor (i_PanelDescriptor ipc)) then Some (ERR_INVALID_STATE ipc, s)
      else if (code =? EVENT_DEVICE_CONNECT) || (code =? EVENT_DEVICE_DISCONNECT) then
        match ('(token, p) ← ReadInt32 data; '(results, _) ← ReadContinuationResultsFromParcel p; Some (token, results)) with
        | None => Some (ERR_FLATTEN_OBJECT ipc, s)
        | Some (token, results) => if code =? EVENT_DEVICE_CONNECT then OnDeviceConnect token results s else OnDeviceDisconnect token results s
        end
      else if code =? EVENT_DEVICE_CANCEL then Some (OnDeviceCancel s)
      else Some (i_unknown ipc code, s)
  end.

(** The message that tells a listener ([DeviceSelectionNotifierProxy]) and its receipt
    ([DeviceSelectionNotifierStub]): the code and the devices, or the error. *)
Definition Notifier_message (results : list ContinuationResult) : option Parcel :=
  p ← Write (IToken (i_NotifierDescriptor ipc)) Parcel_empty; WriteContinuationResultsToParcel results p.
Definition Notifier_OnRemoteRequest (code : Z) (data : Parcel) : Z + list ContinuationResult :=
  match ReadInterfaceToken data with
  | None => inl (ERR_INVALID_VALUE ipc)
  | Some (descriptor, data) =>
      if negb (String.eqb descriptor (i_NotifierDescriptor ipc)) then inl (ERR_INVALID_VALUE ipc)
      else if (code =? EVENT_DEVICE_CONNECT) || (code =? EVENT_DEVICE_DISCONNECT) then
        match ReadContinuationResultsFromParcel data with
        | None => inl (ERR_FLATTEN_OBJECT ipc)
        | Some (results, _) => inr results
        end
      else inl (i_unknown ipc code)
  end.
End Ipc.

(** * An application calls the service for choosing a device through the proxy as if it
    called it directly, and no one else calls it. *)

#[local] Open Scope string_scope.
#[local] Open Scope list_scope.
#[local] Open Scope Z_scope.

Section Props.
Context {T16 : Text16} {T16L : Text16Laws} {IP : @IpcParcel T16} {IPL : IpcParcelLaws}.
Variable ipc : IpcEnv.
Variable env : SelEnv.
(** Messages are small enough. *)
Hypothesis R : roomy.

(** ** Parcels *)

Definition params_items (e : ContinuationExtraParams) : list Item :=
  [IStr16Vec (map Str8ToStr16 (deviceTypeVec_ e)); IStr16 (Str8ToStr16 (targetBundle_ e)); IStr16 (Str8ToStr16 (description_ e));
   IStr16 (Str8ToStr16 (filter_ e)); IInt (continuationMode_ e); IStr16 (Str8ToStr16 (authInfo_ e))].
Definition params_utf8 (e : ContinuationExtraParams) : Prop :=
  Forall utf8 (deviceTypeVec_ e) /\ utf8 (targetBundle_ e) /\ utf8 (description_ e) /\ utf8 (filter_ e) /\ utf8 (authInfo_ e).
Definition result_items (r : ContinuationResult) : list Item :=
  [IStr16 (Str8ToStr16 (deviceId_ r)); IStr16 (Str8ToStr16 (deviceType_ r)); IStr16 (Str8ToStr16 (deviceName_ r))].
Definition result_utf8 (r : ContinuationResult) : Prop := utf8 (deviceId_ r) /\ utf8 (deviceType_ r) /\ utf8 (deviceName_ r).

Lemma texts_back l : Forall utf8 l -> map Str16ToStr8 (map Str8ToStr16 l) = l.
Proof. induction 1 as [|s l Hs _ IH]; [done|]. cbn. by rewrite text_back, IH. Qed.
Lemma read16 s l p : items p = IStr16 s :: l -> exists p', ReadString16_or_empty p = (s, p') /\ items p' = l.
Proof. intros (p' & E & H)%read_str16. exists p'. unfold ReadString16_or_empty. by rewrite E. Qed.
Lemma read32 z l p : items p = IInt z :: l -> exists p', ReadInt32_or0 p = (z, p') /\ items p' = l.
Proof. intros (p' & E & H)%read_int. exists p'. unfold ReadInt32_or0. by rewrite E. Qed.

(** Reads the next value. *)
Ltac next H :=
  lazymatch type of H with
  | items _ = IStr16 _ :: _ => let E := fresh "E" in apply read16 in H as (? & E & H); rewrite E; clear E
  | items _ = IStr16Vec _ :: _ => let E := fresh "E" in apply read_vec in H as (? & E & H); rewrite E; clear E
  | items _ = IStr _ :: _ => let E := fresh "E" in apply read_str in H as (? & E & H); rewrite E; clear E
  | items _ = IObject _ :: _ => let E := fresh "E" in apply read_object in H as (? & E & H); rewrite E; clear E
  | items _ = IToken _ :: _ => let E := fresh "E" in apply read_token in H as (? & E & H); rewrite E; clear E
  | items _ = IMark :: _ => let E := fresh "E" in apply read_mark in H as (? & E & H); rewrite E; clear E
  end; cbn [mbind option_bind].
Ltac next_int H := let E := fresh "E" in apply read_int in H as (? & E & H); rewrite E; clear E; cbn [mbind option_bind].
Ltac next_int0 H := let E := fresh "E" in apply read32 in H as (? & E & H); rewrite E; clear E; cbn [mbind option_bind].

Lemma params_read e l p : params_utf8 e -> items p = params_items e ++ l -> exists p', Params_ReadFromParcel p = Some (e, p') /\ items p' = l.
Proof.
  intros (U1 & U2 & U3 & U4 & U5) H. unfold Params_ReadFromParcel. cbn [params_items app] in H. do 4 next H. next_int0 H. next H. eexists. split; [|exact H].
  rewrite texts_back, !text_back by done. by destruct e.
Qed.
Lemma params_written e p : items (Params_Marshalling e p) = items p ++ params_items e.
Proof. unfold Params_Marshalling. rewrite !roomy_put by done. by rewrite <- !app_assoc. Qed.
Lemma result_read r l p : result_utf8 r -> items p = result_items r ++ l -> exists p', Result_ReadFromParcel p = (r, p') /\ items p' = l.
Proof.
  intros (U1 & U2 & U3) H. unfold Result_ReadFromParcel. cbn [result_items app] in H. do 3 next H. eexists. split; [|exact H]. rewrite !text_back by done. by destruct r.
Qed.
Lemma result_written r p : items (Result_Marshalling r p) = items p ++ result_items r.
Proof. unfold Result_Marshalling. rewrite !roomy_put by done. by rewrite <- !app_assoc. Qed.

Definition results_items (l : list ContinuationResult) : list Item := concat (map (fun r => IMark :: result_items r) l).
Lemma results_written l p : exists p', write_results l p = Some p' /\ items p' = items p ++ results_items l.
Proof.
  induction l as [|r l IH] in p |- *; cbn [write_results]; [exists p; by rewrite app_nil_r|]. destruct (roomy_write IMark p R) as (p1 & -> & E1). cbn [mbind option_bind].
  destruct (IH (Result_Marshalling r p1)) as (p' & E & H). exists p'. split; [done|]. rewrite H, result_written, E1. unfold results_items. cbn. by rewrite <- !app_assoc.
Qed.
Lemma results_read l p : Forall result_utf8 l -> items p = results_items l -> exists p', read_results (length l) p = Some (l, p').
Proof.
  intros Hu. induction Hu as [|r l Hr Hu IH] in p |- *; cbn [read_results length]; intros H; [by eexists|].
  unfold results_items in H. cbn [map concat app] in H. next H. destruct (result_read r _ _ Hr H) as (p2 & -> & H2). destruct (IH p2 H2) as (p3 & ->). cbn. by eexists.
Qed.
Lemma results_length l : len l <= len (results_items l).
Proof. unfold len. induction l as [|r l IH]; [done|]. unfold results_items in *. cbn [map concat]. rewrite length_app. cbn [length result_items]. lia. Qed.

(** All devices, as they are written. *)
Definition devices_items (l : list ContinuationResult) : list Item :=
  match l with [] => [IInt VALUE_NULL] | _ => IInt VALUE_OBJECT :: IInt (i32 (len l)) :: results_items l end.
Lemma devices_written l p : exists q, WriteContinuationResultsToParcel l p = Some q /\ items q = items p ++ devices_items l.
Proof.
  unfold WriteContinuationResultsToParcel, devices_items. destruct l as [|r l]; [apply (roomy_write _ _ R)|]. set (rs := r :: l).
  destruct (roomy_write (IInt VALUE_OBJECT) p R) as (p1 & -> & E1). cbn [mbind option_bind].
  destruct (roomy_write (IInt (i32 (len rs))) p1 R) as (p2 & -> & E2). cbn [mbind option_bind]. destruct (results_written rs p2) as (q & E3 & H). exists q. split; [done|].
  by rewrite H, E2, E1, <- !app_assoc.
Qed.
Lemma devices_read l p : Forall result_utf8 l -> len l <= 2147483647 -> items p = devices_items l -> exists p', ReadContinuationResultsFromParcel p = Some (l, p').
Proof.
  intros Hu Hl H. unfold ReadContinuationResultsFromParcel, devices_items in *. destruct l as [|r l]; next_int0 H; [by eexists|]. set (rs := r :: l) in *.
  rewrite Z.eqb_refl. next_int0 H. assert (0 < len rs) as Hpos by (unfold len, rs; cbn [length]; lia).
  assert (i32 (len rs) = len rs) as -> by (unfold i32; rewrite Z.mod_small; lia). zb_false (len rs <? 0).
  assert (len rs <= GetReadableBytes x0) as Hb by (etrans; [apply results_length|]; rewrite <- H; apply items_bytes). zb_false (GetReadableBytes x0 <? len rs).
  replace (Z.to_nat (len rs)) with (length rs) by (unfold len; lia). by apply results_read.
Qed.

(** ** Calls *)

Definition wishes_items (e : option ContinuationExtraParams) : list Item :=
  match e with None => [IInt VALUE_NULL] | Some e => IInt VALUE_OBJECT :: IMark :: params_items e end.
Definition wishes_utf8 (e : option ContinuationExtraParams) : Prop := match e with None => True | Some e => params_utf8 e end.

Lemma wishes_written e p : exists q, write_params e p = Some q /\ items q = items p ++ wishes_items e.
Proof.
  destruct e as [e|]; cbn [write_params]; [|apply (roomy_write _ _ R)]. destruct (roomy_write (IInt VALUE_OBJECT) p R) as (p1 & -> & E1). cbn [mbind option_bind].
  destruct (roomy_write IMark p1 R) as (p2 & -> & E2). cbn [mbind option_bind]. eexists. split; [done|]. rewrite params_written, E2, E1. by rewrite <- !app_assoc.
Qed.
Lemma wishes_read e p : wishes_utf8 e -> items p = wishes_items e -> read_params ipc env p = inr e.
Proof.
  intros Hu H. unfold read_params. destruct e as [e|]; cbn [wishes_items] in H; next_int H; [|done]. rewrite Z.eqb_refl. next H.
  rewrite <- (app_nil_r (params_items e)) in H. destruct (params_read e [] _ Hu H) as (p' & -> & _). done.
Qed.

Lemma answer_one r s : exists p, answer ipc [r] s = (0, p, s) /\ ReadInt32_or0 p = (r, default p (snd <$> ReadInt32 p)).
Proof.
  unfold answer. cbn [foldl mbind option_bind]. destruct (roomy_write (IInt r) Parcel_empty R) as (p & -> & E). exists p. split; [done|]. rewrite items_empty in E. cbn in E.
  apply read_int in E as (p' & E & _). unfold ReadInt32_or0. by rewrite E.
Qed.
Lemma answer_two r t s : exists p, answer ipc [r; t] s = (0, p, s) /\ items p = [IInt r; IInt t].
Proof.
  unfold answer. cbn [foldl mbind option_bind]. destruct (roomy_write (IInt r) Parcel_empty R) as (p & -> & E). cbn [mbind option_bind].
  destruct (roomy_write (IInt t) p R) as (q & -> & E2). exists q. split; [done|]. by rewrite E2, E, items_empty.
Qed.

(** The caller is allowed to and the message arrives. *)
Record connected (accessToken : Z) : Prop := mkConnected {
  cn_remote : i_Remote ipc = true;
  cn_delivered : i_undelivered ipc = None;
  cn_permission : i_VerifyPermission ipc accessToken = true;
}.

(** A message with the values [l] after the name of the interface. *)
Definition message (l : list Item) (q : Parcel) : Prop := items q = IToken (i_GetDescriptor ipc) :: l.

Lemma request_written : exists p, request ipc = Some p /\ message [] p.
Proof. unfold request, message. destruct (roomy_write (IToken (i_GetDescriptor ipc)) Parcel_empty R) as (p & E & H). exists p. by rewrite H, items_empty. Qed.
Lemma message_write x l p : message l p -> exists q, Write x p = Some q /\ message (l ++ [x]) q.
Proof. intros H. destruct (roomy_write x p R) as (q & E & Hq). exists q. split; [done|]. unfold message in *. by rewrite Hq, H. Qed.

(** The request reaches the function of its code with the values that were written. *)
Lemma delivered a code f l q s : connected a -> funcsMap_ ipc env code = Some f -> message l q ->
  exists p, SendRequest ipc env a code q s = f a p s /\ items p = l.
Proof.
  intros [_ Hd Hp] Hf H. unfold SendRequest. rewrite Hd. unfold OnRemoteRequest. rewrite Hf. unfold message in H. next H. rewrite String.eqb_refl, Hp. cbn. by eexists.
Qed.
Lemma transact_result a code f l q s r s' : connected a -> funcsMap_ ipc env code = Some f -> message l q ->
  (forall p, items p = l -> f a p s = answer ipc [r] s') -> transact ipc env a code (Some q) s = (r, s').
Proof.
  intros Hc Hf Hq Ha. unfold transact. destruct (delivered a code f l q s Hc Hf Hq) as (p & -> & Hp). rewrite (Ha p Hp).
  destruct (answer_one r s') as (p' & -> & E). cbn. by rewrite E.
Qed.

(** Writes the values of a request. *)
Ltac write_all H :=
  repeat (lazymatch goal with
  | |- context [Write ?x ?p] => let E := fresh "E" in let q := fresh "q" in
      destruct (message_write x _ p H) as (q & E & ?H'); rewrite E; clear E H; rename H' into H; cbn [mbind option_bind app] in *
  end).


(** The devices the user chose arrive at the listener of the application
    unchanged and in order. *)
Theorem listener_gets_devices code l : Forall result_utf8 l -> len l <= 2147483647 -> code = EVENT_DEVICE_CONNECT \/ code = EVENT_DEVICE_DISCONNECT ->
  exists data, Notifier_message ipc l = Some data /\ Notifier_OnRemoteRequest ipc code data = inr l.
Proof.
  intros Hu Hl Hc. unfold Notifier_message. destruct (roomy_write (IToken (i_NotifierDescriptor ipc)) Parcel_empty R) as (p & -> & E). cbn [mbind option_bind].
  destruct (devices_written l p) as (q & -> & Hq). exists q. split; [done|]. rewrite E, items_empty in Hq. cbn [app] in Hq. unfold Notifier_OnRemoteRequest. next Hq. rewrite String.eqb_refl. cbn [negb].
  destruct (devices_read l _ Hu Hl Hq) as (p' & ->). by destruct Hc as [-> | ->].
Qed.

(** The panel's choice reaches the service as it was made. *)
Lemma panel_choice_arrives t l q s : Forall result_utf8 l -> len l <= 2147483647 -> items q = IToken (i_PanelDescriptor ipc) :: IInt t :: devices_items l ->
  Panel_OnRemoteRequest ipc EVENT_DEVICE_CONNECT q s = OnDeviceConnect t l s.
Proof.
  intros Hu Hl H. unfold Panel_OnRemoteRequest. next H. rewrite String.eqb_refl. cbn [negb orb Z.eqb EVENT_DEVICE_CONNECT Pos.eqb]. next_int H.
  by destruct (devices_read l _ Hu Hl H) as (p' & ->).
Qed.
End Props.

(** ** Who may call *)

Section Guard.
Context {T16 : Text16} {IP : @IpcParcel T16}.

(** The service does nothing for a caller without the permission or with a
    message for another interface, whatever the message holds: it answers that this is
    denied and stays as it is. *)
Theorem stub_guarded ipc env a code data s : funcsMap_ ipc env code <> None ->
  (i_VerifyPermission ipc a = false \/ (forall tok p, ReadInterfaceToken data = Some (tok, p) -> tok <> i_GetDescriptor ipc)) ->
  OnRemoteRequest ipc env a code data s = (DMS_PERMISSION_DENIED, Parcel_empty, s).
Proof.
  intros Hf Hp. unfold OnRemoteRequest. destruct (funcsMap_ ipc env code) as [f|]; [|done]. destruct (ReadInterfaceToken data) as [[tok p]|]; [|done].
  destruct (String.eqb_spec tok (i_GetDescriptor ipc)) as [->|]; [|done]. cbn. destruct Hp as [-> | Hp]; [done|]. by specialize (Hp _ _ eq_refl).
Qed.
End Guard.

(** ** Witnesses *)

Section Witness.
#[local] Existing Instances demo_text demo_text_laws demo_parcel demo_parcel_laws.

Definition demo_ipc : IpcEnv := mkIpcEnv "ohos.service" "ohos.panel" "ohos.notifier" 5 6 7 (fun c => c) (fun a => a =? 1) true None.
Definition demo_wishes : ContinuationExtraParams := mkExtraParams ["phone"; "tablet"] "com.a" "d" "f" 1 "auth".
Definition demo_env0 : SelEnv := mkSelEnv true (Some 100) true [("com.hiplay", "Panel")] 0 0 0 true 22.
Definition demo_started : Svc := default (Svc_new "7") (OnStart (Svc_new "7")).

Lemma demo_roomy : roomy.
Proof. intros x p. by eexists. Qed.

Lemma listener_gets_devices_witness : exists data, Notifier_message demo_ipc [mkResult "a" "b" "c"; mkResult "d" "e" "f"] = Some data /\
  Notifier_OnRemoteRequest demo_ipc 1 data = inr [mkResult "a" "b" "c"; mkResult "d" "e" "f"].
Proof. apply (listener_gets_devices demo_ipc demo_roomy); [by repeat constructor|by vm_compute|by left]. Defined.
Lemma stub_guarded_witness : OnRemoteRequest demo_ipc demo_env0 2 UNREGISTER ([], [IToken "ohos.service"; IInt 8]) demo_started = (DMS_PERMISSION_DENIED, Parcel_empty, demo_started).
Proof. apply (stub_guarded demo_ipc demo_env0); [done|by left]. Defined.
End Witness.
