(* ===== verification/WantValue.v ===== *)
(** Parameters of a want: services/dtbschedmgr/src/distributedWant/
    distributed_want_params.cpp with the wrapper of nested parameters,
    distributed_want_params_wrapper.cpp (the texts of nested parameters are in WantText,
    the messages in WantParcel).

    A parameter is an object that boxes a value. The classes of these objects are code
    of another repository: a [Value] says what an object boxes, and the class [ValueApi]
    names the operations of the objects that are called. Objects are not changed after
    they were boxed, so that sharing them cannot be seen. *)

From S2P Require Import Prelude StdMap ContinueInfo IpcParcel.
#[local] Open Scope string_scope.
#[local] Open Scope list_scope.
#[local] Open Scope Z_scope.

Definition VALUE_TYPE_NULL : Z := -1.
Definition VALUE_TYPE_BOOLEAN : Z := 1.
Definition VALUE_TYPE_BYTE : Z := 2.
Definition VALUE_TYPE_CHAR : Z := 3.
Definition VALUE_TYPE_SHORT : Z := 4.
Definition VALUE_TYPE_INT : Z := 5.
Definition VALUE_TYPE_LONG : Z := 6.
Definition VALUE_TYPE_FLOAT : Z := 7.
Definition VALUE_TYPE_DOUBLE : Z := 8.
Definition VALUE_TYPE_STRING : Z := 9.
Definition VALUE_TYPE_CHARSEQUENCE : Z := 10.
Definition VALUE_TYPE_BOOLEANARRAY : Z := 11.
Definition VALUE_TYPE_BYTEARRAY : Z := 12.
Definition VALUE_TYPE_CHARARRAY : Z := 13.
Definition VALUE_TYPE_SHORTARRAY : Z := 14.
Definition VALUE_TYPE_INTARRAY : Z := 15.
Definition VALUE_TYPE_LONGARRAY : Z := 16.
Definition VALUE_TYPE_FLOATARRAY : Z := 17.
Definition VALUE_TYPE_DOUBLEARRAY : Z := 18.
Definition VALUE_TYPE_STRINGARRAY : Z := 19.
Definition VALUE_TYPE_CHARSEQUENCEARRAY : Z := 20.
Definition VALUE_TYPE_PARCELABLE : Z := 21.
Definition VALUE_TYPE_PARCELABLEARRAY : Z := 22.
Definition VALUE_TYPE_SERIALIZABLE : Z := 23.
Definition VALUE_TYPE_LIST : Z := 50.
Definition VALUE_TYPE_WANTPARAMS : Z := 101.
Definition VALUE_TYPE_ARRAY : Z := 102.
Definition VALUE_TYPE_FD : Z := 103.
Definition VALUE_TYPE_REMOTE_OBJECT : Z := 104.

Inductive NumKind := NBool | NByte | NChar | NShort | NInt | NLong | NFloat | NDouble.
#[export] Instance numkind_eq : EqDecision NumKind.
Proof. solve_decision. Defined.

(** What an object boxes. A truth value is 0 or 1, a number with a point its bits. The
    slots of an array are all filled with objects of its kind, as the code that makes
    arrays fills them. [VNull] is a null pointer, [VOtherArray] an array of another
    kind, [VOther] an object of another class. *)
Inductive Value :=
  | VNull
  | VNum (k : NumKind) (z : Z)
  | VString (s : string)
  | VNums (k : NumKind) (l : list Z)
  | VStrings (l : list string)
  | VParams (l : list (string * Value))
  | VRemote (o : option Z)
  | VOtherArray
  | VOther.
Notation params := (list (string * Value)).

(** The classes of the boxes. *)
Class ValueApi := {
  leaf_ToString : Value -> string;
  leaf_Parse : Z -> string -> Value;
  leaf_Equals : Value -> Value -> bool;
  (** A character of 32 bits as a [char]. *)
  char_cast : Z -> Z;
}.

(** ** Induction and depth *)

Section ValueInd.
Variable P : Value -> Prop.
Hypotheses (HNull : P VNull) (HNum : forall k z, P (VNum k z)) (HString : forall s, P (VString s))
  (HNums : forall k l, P (VNums k l)) (HStrings : forall l, P (VStrings l))
  (HParams : forall l, Forall (fun e => P (snd e)) l -> P (VParams l))
  (HRemote : forall o, P (VRemote o)) (HOtherArray : P VOtherArray) (HOther : P VOther).
Fixpoint Value_nested (v : Value) : P v :=
  match v with
  | VNull => HNull | VNum k z => HNum k z | VString s => HString s | VNums k l => HNums k l | VStrings l => HStrings l
  | VParams l => HParams l ((fix go (l : list (string * Value)) : Forall (fun e => P (snd e)) l :=
      match l with [] => List.Forall_nil _ | e :: l => @List.Forall_cons _ (fun e => P (snd e)) e l (Value_nested (snd e)) (go l) end) l)
  | VRemote o => HRemote o | VOtherArray => HOtherArray | VOther => HOther
  end.
End ValueInd.

(** How deep parameters are nested in a value. *)
Fixpoint depth (v : Value) : nat :=
  match v with
  | VParams l => S (fold_right (fun e => Nat.max (depth (snd e))) O l)
  | _ => O
  end.

Section Params.
Context {T16 : Text16} {VA : ValueApi}.

(** Data of a type that is not known here, kept to be sent on. *)
Record DistributedUnsupportedData := {
  ud_key : string16;
  ud_type : Z;
  ud_size : Z;
  ud_buffer : list Z;
}.
Record DistributedWantParams := {
  params_ : params;
  cachedUnsupportedData_ : list DistributedUnsupportedData;
}.
Definition Params_new : DistributedWantParams := {| params_ := []; cachedUnsupportedData_ := [] |}.
Definition set_params (l : params) (p : DistributedWantParams) : DistributedWantParams :=
  {| params_ := l; cachedUnsupportedData_ := cachedUnsupportedData_ p |}.

(** ** The table *)

Definition SetParam (key : string) (value : Value) (p : DistributedWantParams) : DistributedWantParams :=
  set_params (mset key value (params_ p)) p.
Definition GetParam (key : string) (p : DistributedWantParams) : Value := default VNull (mfind key (params_ p)).
Definition Remove (key : string) (p : DistributedWantParams) : DistributedWantParams := set_params (merase key (params_ p)) p.
Definition HasParam (key : string) (p : DistributedWantParams) : bool := match mfind key (params_ p) with Some _ => true | None => false end.
Definition Size (p : DistributedWantParams) : Z := len (params_ p).
Definition IsEmpty (p : DistributedWantParams) : bool := len (params_ p) =? 0.
Definition KeySet (p : DistributedWantParams) : list string := map fst (params_ p).

(** ** Copies *)

(** [NewArrayData]: [None] if the array is empty or of an unknown kind. The characters
    of an array of characters go through [char]. *)
Definition NewArrayData (v : Value) : option Value :=
  match v with
  | VNums _ [] | VStrings [] => None
  | VNums NChar l => Some (VNums NChar (map char_cast l))
  | VNums k l => Some (VNums k l)
  | VStrings l => Some (VStrings l)
  | _ => None
  end.

(** The copy of a value; [None]: the parameter is left out. Nested parameters are copied
    several times on the way, which is the same as once ([NewParams_idem]). *)
Fixpoint NewValue (v : Value) : option Value :=
  match v with
  | VString s => Some (VString s)
  | VNum k z => Some (VNum k z)
  | VRemote o => Some (VRemote o)
  | VParams l =>
      Some (VParams ((fix go l := match l with
        | [] => []
        | (k, x) :: l => match NewValue x with Some y => (k, y) :: go l | None => go l end
        end) l))
  | VNums _ _ | VStrings _ | VOtherArray => NewArrayData v
  | VNull | VOther => None
  end.
(** The source is a map, so that the entries arrive in the order of their keys. *)
Fixpoint NewParams (l : params) : params :=
  match l with
  | [] => []
  | (k, x) :: l => match NewValue x with Some y => (k, y) :: NewParams l | None => NewParams l end
  end.
(** The copy constructor and the assignment; the data of unknown types is not copied. *)
Definition Params_copy (source : DistributedWantParams) : DistributedWantParams :=
  {| params_ := NewParams (params_ source); cachedUnsupportedData_ := [] |}.
Definition Params_assign (dest other : DistributedWantParams) : DistributedWantParams :=
  set_params (NewParams (params_ other)) dest.

(** [DistributedWantParamWrapper::Box] and [Unbox]: an object of its own with a copy of the
    parameters, and a copy of the parameters of an object. *)
Definition Wrapper_Box (p : DistributedWantParams) : Value := VParams (params_ (Params_copy p)).
Definition Wrapper_Unbox (v : Value) : DistributedWantParams :=
  match v with VParams l => Params_assign Params_new {| params_ := l; cachedUnsupportedData_ := [] |} | _ => Params_new end.

(** ** Types and comparison *)

Definition GetNumberDataType (v : Value) : Z :=
  match v with
  | VNum NShort _ => VALUE_TYPE_SHORT
  | VNum NInt _ => VALUE_TYPE_INT
  | VNum NLong _ => VALUE_TYPE_LONG
  | VNum NFloat _ => VALUE_TYPE_FLOAT
  | VNum NDouble _ => VALUE_TYPE_DOUBLE
  | _ => VALUE_TYPE_NULL
  end.
Definition GetDataType (v : Value) : Z :=
  match v with
  | VNum NBool _ => VALUE_TYPE_BOOLEAN
  | VNum NByte _ => VALUE_TYPE_BYTE
  | VNum NChar _ => VALUE_TYPE_CHAR
  | VString _ => VALUE_TYPE_STRING
  | VNums _ _ | VStrings _ | VOtherArray => VALUE_TYPE_ARRAY
  | VParams _ => VALUE_TYPE_WANTPARAMS
  | _ => GetNumberDataType v
  end.

(** The object made from the text of a value. *)
Definition GetInterfaceByType (typeId : Z) (value : string) : Value :=
  if existsb (Z.eqb typeId) [VALUE_TYPE_BOOLEAN; VALUE_TYPE_BYTE; VALUE_TYPE_CHAR; VALUE_TYPE_SHORT; VALUE_TYPE_INT;
       VALUE_TYPE_LONG; VALUE_TYPE_FLOAT; VALUE_TYPE_DOUBLE; VALUE_TYPE_STRING; VALUE_TYPE_ARRAY]
  then leaf_Parse typeId value else VNull.

(** [params_eq]: [operator==], with the comparison of two values given. *)
Definition params_eq (cmp : Value -> Value -> bool) (this other : params) : bool :=
  (len this =? len other) &&
  forallb (fun e => match mfind (fst e) other with None => false | Some v => cmp v (snd e) end) this.
(** The functions of the table compare an object with itself. *)
Definition NumQueryEquals (k : NumKind) (v : Value) : bool := match v with VNum k' _ => bool_decide (k' = k) && leaf_Equals v v | _ => false end.
Definition BooleanQueryEquals : Value -> bool := NumQueryEquals NBool.
Definition ByteQueryEquals : Value -> bool := NumQueryEquals NByte.
Definition CharQueryEquals : Value -> bool := NumQueryEquals NChar.
Definition ShortQueryEquals : Value -> bool := NumQueryEquals NShort.
Definition IntegerQueryEquals : Value -> bool := NumQueryEquals NInt.
Definition LongQueryEquals : Value -> bool := NumQueryEquals NLong.
Definition FloatQueryEquals : Value -> bool := NumQueryEquals NFloat.
Definition DoubleQueryEquals : Value -> bool := NumQueryEquals NDouble.
Definition StringQueryEquals (v : Value) : bool := match v with VString _ => leaf_Equals v v | _ => false end.
Definition ArrayQueryEquals (v : Value) : bool := match v with VNums _ _ | VStrings _ | VOtherArray => leaf_Equals v v | _ => false end.
(** The table, but for nested parameters. *)
Definition interfaceQueryEqualsMap (typeId : Z) : option (Value -> bool) :=
  if typeId =? VALUE_TYPE_BOOLEAN then Some BooleanQueryEquals
  else if typeId =? VALUE_TYPE_BYTE then Some ByteQueryEquals
  else if typeId =? VALUE_TYPE_CHAR then Some CharQueryEquals
  else if typeId =? VALUE_TYPE_SHORT then Some ShortQueryEquals
  else if typeId =? VALUE_TYPE_INT then Some IntegerQueryEquals
  else if typeId =? VALUE_TYPE_LONG then Some LongQueryEquals
  else if typeId =? VALUE_TYPE_FLOAT then Some FloatQueryEquals
  else if typeId =? VALUE_TYPE_DOUBLE then Some DoubleQueryEquals
  else if typeId =? VALUE_TYPE_STRING then Some StringQueryEquals
  else if typeId =? VALUE_TYPE_ARRAY then Some ArrayQueryEquals
  else None.
(** [CompareInterface]: the second value is not looked at. [d] bounds the depth of nesting. *)
Fixpoint CompareInterface (d : nat) (v1 v2 : Value) (typeId : Z) : bool :=
  if typeId =? VALUE_TYPE_WANTPARAMS then
    match v1, d with
    | VParams l, S d => params_eq (fun a b => CompareInterface d a b (GetDataType a)) l l
    | _, _ => false
    end
  else match interfaceQueryEqualsMap typeId with Some f => f v1 | None => false end.
Definition Params_eq (this other : DistributedWantParams) : bool :=
  params_eq (fun v1 v2 => CompareInterface (depth v1) v1 v2 (GetDataType v1)) (params_ this) (params_ other).

(** ** Copies of copies *)

Lemma NewValue_params l : NewValue (VParams l) = Some (VParams (NewParams l)).
Proof. reflexivity. Qed.

(** A cast to [char] changes nothing the second time. *)
Class ValueApiLaws : Prop := { char_cast_idem : forall z, char_cast (char_cast z) = char_cast z }.
Context {VL : ValueApiLaws}.

Lemma map_char_idem l : map char_cast (map char_cast l) = map char_cast l.
Proof. rewrite List.map_map. apply List.map_ext. intros. apply char_cast_idem. Qed.
Lemma NewArrayData_idem v w : NewArrayData v = Some w -> NewArrayData w = Some w.
Proof.
  destruct v as [| | |k l|l| | | |]; try done.
  - destruct l as [|z l]; [by destruct k|]. destruct k; intros E; injection E as <-; try done.
    change (Some (VNums NChar (map char_cast (map char_cast (z :: l)))) = Some (VNums NChar (map char_cast (z :: l)))). by rewrite map_char_idem.
  - destruct l; [done|]. by intros [= <-].
Qed.
Lemma NewValue_idem v w : NewValue v = Some w -> NewValue w = Some w.
Proof.
  revert w. induction v as [|k z|s|k l|l|l IH|o| |] using Value_nested; intros w E; try (by injection E as <-); try done.
  - assert (exists k' l', w = VNums k' l') as (k' & l' & ->) by (cbn in E; destruct l, k; simplify_eq; eauto). exact (NewArrayData_idem _ _ E).
  - assert (exists l', w = VStrings l') as (l' & ->) by (cbn in E; destruct l; simplify_eq; eauto). exact (NewArrayData_idem _ _ E).
  - rewrite NewValue_params in E. injection E as <-. rewrite NewValue_params. do 2 f_equal.
    induction IH as [|[k x] l Hx Hl IHl]; [done|]. cbn [NewParams]. destruct (NewValue x) as [y|] eqn:Ey; [|exact IHl].
    cbn [NewParams]. cbn [snd] in Hx. by rewrite (Hx _ Ey), IHl.
Qed.
Lemma NewParams_idem l : NewParams (NewParams l) = NewParams l.
Proof.
  induction l as [|[k x] l IH]; [done|]. cbn [NewParams]. destruct (NewValue x) as [y|] eqn:Ey; [|done].
  cbn [NewParams]. by rewrite (NewValue_idem _ _ Ey), IH.
Qed.
Lemma NewParams_keys l e : In e (NewParams l) -> exists v, In (fst e, v) l /\ NewValue v = Some (snd e).
Proof.
  induction l as [|[k x] l IH]; [done|]. cbn [NewParams]. destruct (NewValue x) as [y|] eqn:Ey; cbn.
  - intros [<-|H]; [eauto|]. destruct (IH H) as (v & ? & ?). eauto.
  - intros H. destruct (IH H) as (v & ? & ?). eauto.
Qed.
Lemma NewParams_sorted l : msorted l -> msorted (NewParams l).
Proof.
  unfold msorted. induction 1 as [|[k x] l Hl IH Hx]; [constructor|]. cbn [NewParams]. destruct (NewValue x); [|done].
  constructor; [done|]. apply List.Forall_forall. intros e He. destruct (NewParams_keys l e He) as (u & Hv & _).
  rewrite List.Forall_forall in Hx. exact (Hx _ Hv).
Qed.
End Params.
