(* ===== verification/WantText.v ===== *)
(** The text of nested parameters: [DistributedWantParamWrapper] in
    services/dtbschedmgr/src/distributedWant/distributed_want_params_wrapper.cpp.

    Positions in a text are 64-bit numbers, [npos] is the largest of them and adding one
    to it gives 0. The loops over a text move their position back when nothing is found,
    so that they need not end: [parse_loop] has fuel and gives [None] when it is used up. *)

From S2P Require Import Prelude StdMap SchedUtils ContinueInfo IpcParcel WantValue.
From Stdlib Require Import Ascii.
#[local] Open Scope string_scope.
#[local] Open Scope list_scope.
#[local] Open Scope Z_scope.

(** ** Texts *)

Definition quote : ascii := "034"%char.
Definition lbrace : ascii := "{"%char.
Definition rbrace : ascii := "}"%char.
Notation text := (list ascii).
Definition chars (s : string) : text := String.list_ascii_of_string s.
Definition str (t : text) : string := String.string_of_list_ascii t.

Definition npos : Z := 18446744073709551615.
Definition char_at (t : text) (n : Z) : ascii := nth (Z.to_nat n) t zero.
(** [find] of a character from a position on. *)
Fixpoint index_char (c : ascii) (t : text) (i : Z) : option Z :=
  match t with
  | [] => None
  | x :: t => if Ascii.eqb x c then Some i else index_char c t (i + 1)
  end.
Definition find_char (c : ascii) (t : text) (pos : Z) : Z :=
  if pos <=? len t then default npos (index_char c (drop (Z.to_nat pos) t) pos) else npos.
(** [substr]: at most [n] characters; the positions it is called with are inside. *)
Definition substr (t : text) (pos n : Z) : text := slice t pos (Z.min n (len t - pos)).
Definition count_char (c : ascii) (t : text) : Z := len (List.filter (fun x => Ascii.eqb x c) t).

Section Text.
Context {VA : ValueApi}.

(** ** Writing *)

Definition NumQueryToStr (k : NumKind) (v : Value) : string := match v with VNum k' _ => if bool_decide (k' = k) then leaf_ToString v else "" | _ => "" end.
Definition BooleanQueryToStr : Value -> string := NumQueryToStr NBool.
Definition ByteQueryToStr : Value -> string := NumQueryToStr NByte.
Definition CharQueryToStr : Value -> string := NumQueryToStr NChar.
Definition ShortQueryToStr : Value -> string := NumQueryToStr NShort.
Definition IntegerQueryToStr : Value -> string := NumQueryToStr NInt.
Definition LongQueryToStr : Value -> string := NumQueryToStr NLong.
Definition FloatQueryToStr : Value -> string := NumQueryToStr NFloat.
Definition DoubleQueryToStr : Value -> string := NumQueryToStr NDouble.
Definition StringQueryToStr (v : Value) : string := match v with VString _ => leaf_ToString v | _ => "" end.
Definition ArrayQueryToStr (v : Value) : string := match v with VNums _ _ | VStrings _ | VOtherArray => leaf_ToString v | _ => "" end.
(** The table, but for nested parameters. *)
Definition interfaceQueryToStrMap (typeId : Z) : option (Value -> string) :=
  if typeId =? VALUE_TYPE_BOOLEAN then Some BooleanQueryToStr
  else if typeId =? VALUE_TYPE_BYTE then Some ByteQueryToStr
  else if typeId =? VALUE_TYPE_CHAR then Some CharQueryToStr
  else if typeId =? VALUE_TYPE_SHORT then Some ShortQueryToStr
  else if typeId =? VALUE_TYPE_INT then Some IntegerQueryToStr
  else if typeId =? VALUE_TYPE_LONG then Some LongQueryToStr
  else if typeId =? VALUE_TYPE_FLOAT then Some FloatQueryToStr
  else if typeId =? VALUE_TYPE_DOUBLE then Some DoubleQueryToStr
  else if typeId =? VALUE_TYPE_STRING then Some StringQueryToStr
  else if typeId =? VALUE_TYPE_ARRAY then Some ArrayQueryToStr
  else None.
Definition leaf_string (v : Value) (typeId : Z) : string := match interfaceQueryToStrMap typeId with Some f => f v | None => "" end.

(** The text of a parameter after its type: nested parameters stand for themselves, other
    values are between quotes. *)
Fixpoint value_text (v : Value) : text :=
  match v with
  | VParams [] => [lbrace; rbrace]
  | VParams l =>
      lbrace :: (fix entries (l : params) : text :=
        match l with
        | [] => [rbrace]
        | (k, x) :: l' =>
            quote :: chars k ++ quote :: ":"%char :: lbrace :: quote :: chars (signed_to_string (GetDataType x)) ++ quote :: ":"%char ::
            value_text x ++ rbrace :: match l' with [] => [] | _ => [","%char] end ++ entries l'
        end) l
  | _ => quote :: chars (leaf_string v (GetDataType v)) ++ [quote]
  end.
Definition Wrapper_ToString (v : Value) : string := str (value_text v).
Definition DistributedWantParamsQueryToStr (v : Value) : string := match v with VParams _ => Wrapper_ToString v | _ => "" end.
Definition GetStringByType (v : Value) (typeId : Z) : string :=
  if typeId =? VALUE_TYPE_WANTPARAMS then DistributedWantParamsQueryToStr v else leaf_string v typeId.

(** ** Reading *)

(** The depth of the braces never falls below zero. *)
Fixpoint braces_ok (t : text) (counter : Z) : bool :=
  match t with
  | [] => true
  | c :: t =>
      let counter := if Ascii.eqb c lbrace then counter + 1 else if Ascii.eqb c rbrace then counter - 1 else counter in
      if counter <? 0 then false else braces_ok t counter
  end.
Definition ValidateStr (t : text) : bool :=
  if bool_decide (t = []) || bool_decide (t = [lbrace; rbrace]) || bool_decide (t = [lbrace; quote; quote; rbrace]) then false
  else if negb (count_char quote t mod 2 =? 0) then false
  else if negb (count_char lbrace t =? count_char rbrace t) then false
  else braces_ok t 0.

(** [FindMatchingBrace]: the position after which the braces from [strnum] on are balanced. *)
Fixpoint match_from (t : text) (num count : Z) : option Z :=
  match t with
  | [] => None
  | c :: t =>
      let count := if Ascii.eqb c lbrace then count + 1 else if Ascii.eqb c rbrace then count - 1 else count in
      if count =? 0 then Some num else match_from t (num + 1) count
  end.
Definition FindMatchingBrace (t : text) (strnum : Z) : Z :=
  default strnum (match_from (drop (Z.to_nat strnum) t) strnum 0).

(** What [errno] says after the conversion of a text, which is not reset before, and the
    result of a conversion that does not fit. *)
Class ConvertEnv := { errno_ERANGE : string -> bool; atoi_undefined : string -> Z }.
Context {CV : ConvertEnv}.

(** The type at a position, with the text it was read from. *)
Definition GerTypedId (t : text) (strnum : Z) : Z * string :=
  let nIdx := find_char quote t strnum in
  if nIdx <? strnum then (0, "")
  else
    let typeIdStr := str (substr t strnum (u64 (nIdx - strnum))) in
    if String.eqb typeIdStr "" then (0, "")
    else (default (atoi_undefined typeIdStr) (atoi (c_str typeIdStr)), typeIdStr).

(** The object for the parameters that were read; [None] stands for null. *)
Definition wrap (r : option params) : Value := match r with Some l => VParams (NewParams l) | None => VNull end.

(** The loop of [Parse]. The result is [None] when the fuel is used up, [Some None] when the
    function returns null. *)
Fixpoint parse_loop (fuel : nat) (t : text) (strnum : Z) (strKey : string) (typeId : Z) (wantParams : params) : option (option params) :=
  match fuel with
  | O => None
  | S fuel =>
      if negb (strnum <? len t) then Some (Some wantParams)
      else
        let c := char_at t strnum in
        if Ascii.eqb c lbrace && negb (String.eqb strKey "") && (typeId =? VALUE_TYPE_WANTPARAMS) then
          let num := FindMatchingBrace t strnum in
          let sub := substr t strnum (u64 (num - strnum + 1)) in
          nested ← (if ValidateStr sub then parse_loop fuel sub 0 "" 0 [] else Some None);
          parse_loop fuel t (u64 (num + 1 + 1)) "" 0 (mset strKey (wrap nested) wantParams)
        else if negb (Ascii.eqb c quote) then parse_loop fuel t (u64 (strnum + 1)) strKey typeId wantParams
        else
          let strnum := u64 (strnum + 1) in
          let pos := find_char quote t strnum in
          if String.eqb strKey "" then
            let strKey := if negb (pos =? npos) && (strnum <? pos) then str (substr t strnum (u64 (pos - strnum))) else strKey in
            parse_loop fuel t (u64 (pos + 1)) strKey typeId wantParams
          else if typeId =? 0 then
            let '(typeId, typeIdStr) := GerTypedId t strnum in
            if errno_ERANGE typeIdStr then Some None
            else parse_loop fuel t (u64 (pos + 1)) strKey typeId wantParams
          else
            let value := GetInterfaceByType typeId (str (substr t strnum (u64 (pos - strnum)))) in
            parse_loop fuel t (u64 (pos + 1)) "" 0 (mset strKey value wantParams)
  end.
Definition Parse (fuel : nat) (t : text) : option Value :=
  if ValidateStr t then wrap <$> parse_loop fuel t 0 "" 0 [] else Some VNull.

(** The loop of [ParseWantParams], which reads the outermost parameters. *)
Fixpoint params_loop (fuel : nat) (t : text) (strnum : Z) (key : string) (typeId : Z) (wantParams : params) : option params :=
  match fuel with
  | O => None
  | S fuel =>
      if negb (strnum <? len t) then Some wantParams
      else
        let c := char_at t strnum in
        if Ascii.eqb c lbrace && negb (String.eqb key "") && (typeId =? VALUE_TYPE_WANTPARAMS) then
          let num := FindMatchingBrace t strnum in
          nested ← Parse fuel (substr t strnum (u64 (num - strnum)));
          params_loop fuel t (u64 (num + 1 + 1)) "" 0 (mset key nested wantParams)
        else if negb (Ascii.eqb c quote) then params_loop fuel t (u64 (strnum + 1)) key typeId wantParams
        else
          let strnum := u64 (strnum + 1) in
          let nIdx := find_char quote t strnum in
          if String.eqb key "" then
            if nIdx <? strnum then params_loop fuel t (u64 (strnum + 1)) key typeId wantParams
            else params_loop fuel t (u64 (nIdx + 1)) (str (substr t strnum (u64 (nIdx - strnum)))) typeId wantParams
          else if typeId =? 0 then
            let '(typeId, typeIdStr) := GerTypedId t strnum in
            if errno_ERANGE typeIdStr then Some wantParams
            else params_loop fuel t (u64 (nIdx + 1)) key typeId wantParams
          else
            let value := GetInterfaceByType typeId (str (substr t strnum (u64 (nIdx - strnum)))) in
            params_loop fuel t (u64 (nIdx + 1)) "" 0 (mset key value wantParams)
  end.
Definition ParseWantParams (fuel : nat) (t : text) : option params :=
  if ValidateStr t then params_loop fuel t 0 "" 0 [] else Some [].
End Text.
