(* ===== verification/WantTextProps.v ===== *)
(** Theorems about the text of nested parameters: what can be read back, a text on which
    reading never ends, and what is lost. *)

From S2P Require Import Prelude StdMap SchedUtils ContinueInfo IpcParcel WantValue WantText.
From Stdlib Require Import Ascii.
#[local] Open Scope string_scope.
#[local] Open Scope list_scope.
#[local] Open Scope Z_scope.

(** ** Braces and quotes *)

Definition brace (c : ascii) : Z := if Ascii.eqb c lbrace then 1 else if Ascii.eqb c rbrace then -1 else 0.
Fixpoint brace_sum (t : text) : Z := match t with [] => 0 | c :: t => brace c + brace_sum t end.
Definition noquote (t : text) : Prop := Forall (fun c => c <> quote) t.
(** Every brace has its partner inside the text. *)
Definition balanced (t : text) : Prop := braces_ok t 0 = true /\ brace_sum t = 0.
Definition clean (t : text) : Prop := noquote t /\ balanced t.

Lemma braces_ok_cons c t d : braces_ok (c :: t) d = if d + brace c <? 0 then false else braces_ok t (d + brace c).
Proof. cbn [braces_ok]. unfold brace. by destruct (Ascii.eqb c lbrace), (Ascii.eqb c rbrace); rewrite ?Z.add_0_r. Qed.
Lemma match_from_cons c t n d : match_from (c :: t) n d = if d + brace c =? 0 then Some n else match_from t (n + 1) (d + brace c).
Proof. cbn [match_from]. unfold brace. by destruct (Ascii.eqb c lbrace), (Ascii.eqb c rbrace); rewrite ?Z.add_0_r. Qed.
Lemma brace_sum_app a b : brace_sum (a ++ b) = brace_sum a + brace_sum b.
Proof. induction a; cbn; lia. Qed.
Lemma char_count_app c a b : count_char c (a ++ b) = count_char c a + count_char c b.
Proof. unfold count_char. by rewrite List.filter_app, len_app. Qed.
Lemma count_cons c x t : count_char c (x :: t) = (if Ascii.eqb x c then 1 else 0) + count_char c t.
Proof. unfold count_char. cbn. destruct (Ascii.eqb x c); [rewrite len_cons|]; lia. Qed.
Lemma brace_count t : brace_sum t = count_char lbrace t - count_char rbrace t.
Proof.
  induction t as [|c t IH]; [done|]. cbn [brace_sum]. rewrite !count_cons, IH. unfold brace.
  destruct (Ascii.eqb_spec c lbrace) as [->|]; [cbn; lia|]. destruct (Ascii.eqb c rbrace); lia.
Qed.

Lemma braces_ok_app a b d e : 0 <= e -> braces_ok a d = true -> braces_ok (a ++ b) (d + e) = braces_ok b (d + e + brace_sum a).
Proof.
  intros He. revert d. induction a as [|c a IH]; intros d; [cbn [app brace_sum]; intros _; f_equal; lia|].
  cbn [app brace_sum]. rewrite !braces_ok_cons. destruct (Z.ltb_spec (d + brace c) 0); [done|]. intros H'.
  zb_false (d + e + brace c <? 0). replace (d + e + brace c) with (d + brace c + e) by lia. rewrite IH by done. f_equal. lia.
Qed.
Lemma match_from_app a b n d e : 0 < e -> braces_ok a d = true -> match_from (a ++ b) n (d + e) = match_from b (n + len a) (d + e + brace_sum a).
Proof.
  intros He. revert n d. induction a as [|c a IH]; intros n d; [cbn [app brace_sum]; intros _; rewrite len_nil; f_equal; lia|].
  cbn [app brace_sum]. rewrite braces_ok_cons, match_from_cons, len_cons. destruct (Z.ltb_spec (d + brace c) 0); [done|]. intros H'.
  zb_false (d + e + brace c =? 0). replace (d + e + brace c) with (d + brace c + e) by lia. rewrite IH by done. f_equal; lia.
Qed.

Lemma balanced_nil : balanced [].
Proof. done. Qed.
Lemma balanced_app a b : balanced a -> balanced b -> balanced (a ++ b).
Proof.
  intros [A1 A2] [B1 B2]. split; [|rewrite brace_sum_app; lia]. pose proof (braces_ok_app a b 0 0 ltac:(lia) A1) as E.
  rewrite A2 in E. change (0 + 0 + 0) with 0 in E. change (0 + 0) with 0 in E. by rewrite E.
Qed.
Lemma balanced_char c : c <> lbrace -> c <> rbrace -> balanced [c].
Proof. intros H1 H2. unfold balanced. cbn. destruct (Ascii.eqb_spec c lbrace); [done|]. destruct (Ascii.eqb_spec c rbrace); [done|]. unfold brace. destruct (Ascii.eqb_spec c lbrace); [done|]. by destruct (Ascii.eqb_spec c rbrace). Qed.
Lemma balanced_braces a : balanced a -> balanced (lbrace :: a ++ [rbrace]).
Proof.
  intros [A1 A2]. split; [|cbn [brace_sum]; rewrite brace_sum_app, A2; done]. rewrite braces_ok_cons. change (0 + brace lbrace <? 0) with false. cbv iota.
  change (0 + brace lbrace) with (0 + 1). rewrite braces_ok_app by (done || lia). rewrite A2. done.
Qed.
Lemma match_balanced a b n : balanced a -> match_from (lbrace :: a ++ rbrace :: b) n 0 = Some (n + 1 + len a).
Proof.
  intros [A1 A2]. rewrite match_from_cons. change (0 + brace lbrace =? 0) with false. cbv iota. change (0 + brace lbrace) with (0 + 1).
  rewrite match_from_app by (done || lia). rewrite A2, match_from_cons. done.
Qed.

Lemma noquote_app a b : noquote (a ++ b) <-> noquote a /\ noquote b.
Proof. apply Forall_app. Qed.
Lemma count_noquote t : noquote t -> count_char quote t = 0.
Proof. induction 1 as [|c t Hc _ IH]; [done|]. rewrite count_cons, IH. by destruct (Ascii.eqb_spec c quote). Qed.
Lemma index_quote a b i : noquote a -> index_char quote (a ++ quote :: b) i = Some (i + len a).
Proof.
  intros H. revert i. induction H as [|c a Hc _ IH]; intros i; [rewrite len_nil; cbn; f_equal; lia|].
  cbn [app index_char]. destruct (Ascii.eqb_spec c quote); [done|]. rewrite IH, len_cons. f_equal. lia.
Qed.

(** ** Positions *)

Lemma drop_pre (pre post : text) : drop (Z.to_nat (len pre)) (pre ++ post) = post.
Proof. unfold len. by rewrite Nat2Z.id, drop_app_length. Qed.
Lemma char_at_pre pre c post : char_at (pre ++ c :: post) (len pre) = c.
Proof. unfold char_at, len. by rewrite Nat2Z.id, List.nth_middle. Qed.
Lemma find_pre pre a post : noquote a -> find_char quote (pre ++ a ++ quote :: post) (len pre) = len pre + len a.
Proof.
  intros H. unfold find_char. pose proof (len_nonneg (a ++ quote :: post)). pose proof (len_app pre (a ++ quote :: post)).
  zb_true (len pre <=? len (pre ++ a ++ quote :: post)). by rewrite drop_pre, index_quote.
Qed.
Lemma substr_pre pre a post : substr (pre ++ a ++ post) (len pre) (len a) = a.
Proof.
  unfold substr, slice. rewrite drop_pre, !len_app. pose proof (len_nonneg post). rewrite Z.min_l by lia.
  unfold len. by rewrite Nat2Z.id, take_app_length.
Qed.
Lemma str_chars s : str (chars s) = s.
Proof. apply String.string_of_list_ascii_of_string. Qed.
Lemma chars_str t : chars (str t) = t.
Proof. apply String.list_ascii_of_string_of_list_ascii. Qed.
Lemma u64_pos n : 0 <= n < npos -> u64 n = n.
Proof. unfold u64, npos. intros. apply Z.mod_small. lia. Qed.

(** ** Steps of the loop *)

Section Steps.
Context {VA : ValueApi} {CV : ConvertEnv}.

(** The loop ends with [r] from this point on, given enough fuel. *)
Definition ends (t : text) (n : Z) (k : string) (ty : Z) (acc : params) (r : option params) : Prop :=
  exists f0, forall f, (f0 <= f)%nat -> parse_loop f t n k ty acc = Some r.

Lemma ends_step t n k ty acc n' k' ty' acc' r :
  (forall f, parse_loop (S f) t n k ty acc = parse_loop f t n' k' ty' acc') -> ends t n' k' ty' acc' r -> ends t n k ty acc r.
Proof. intros H [f0 H0]. exists (S f0). intros [|f] Hf; [lia|]. rewrite H. apply H0. lia. Qed.

Definition short (t : text) : Prop := len t < npos - 1.

Lemma ends_end t k ty acc : ends t (len t) k ty acc (Some acc).
Proof. exists 1%nat. intros [|f] Hf; [lia|]. cbn [parse_loop]. by rewrite Z.ltb_irrefl. Qed.


Lemma ends_skip pre c post k ty acc r : short (pre ++ c :: post) -> c <> quote -> c <> lbrace \/ k = "" \/ ty <> VALUE_TYPE_WANTPARAMS ->
  ends (pre ++ c :: post) (len pre + 1) k ty acc r -> ends (pre ++ c :: post) (len pre) k ty acc r.
Proof.
  intros Hs Hq Hc. apply ends_step. intros f. cbn [parse_loop]. rewrite char_at_pre. unfold short in Hs.
  pose proof (len_nonneg pre). pose proof (len_nonneg post). pose proof (len_app pre (c :: post)). pose proof (len_cons c post).
  zb_true (len pre <? len (pre ++ c :: post)). cbn [negb].
  replace (Ascii.eqb c lbrace && negb (String.eqb k "") && (ty =? VALUE_TYPE_WANTPARAMS)) with false.
  - destruct (Ascii.eqb_spec c quote); [done|]. cbn [negb]. by rewrite u64_pos by lia.
  - symmetry. apply andb_false_iff. destruct Hc as [Hc|[-> |Hc]].
    + left. by destruct (Ascii.eqb_spec c lbrace).
    + left. by rewrite andb_false_r.
    + right. by apply Z.eqb_neq.
Qed.

(** A quote, a text without quotes and a quote. *)
Lemma quoted_positions pre a post : short (pre ++ quote :: a ++ quote :: post) -> noquote a ->
  let t := pre ++ quote :: a ++ quote :: post in
  (len pre <? len t) = true /\ u64 (len pre + 1) = len pre + 1 /\ find_char quote t (len pre + 1) = len pre + 1 + len a /\
  substr t (len pre + 1) (u64 (len pre + 1 + len a - (len pre + 1))) = a /\ u64 (len pre + 1 + len a + 1) = len pre + len a + 2 /\
  (len pre + 1 + len a =? npos) = false.
Proof.
  intros Hs Ha t. unfold short in Hs. pose proof (len_nonneg pre). pose proof (len_nonneg post). pose proof (len_nonneg a).
  assert (len t = len pre + len a + len post + 2) as Et by (unfold t; rewrite len_app, len_cons, len_app, len_cons; lia). fold t in Hs.
  assert (t = (pre ++ [quote]) ++ a ++ quote :: post) as Et' by (unfold t; by rewrite <- app_assoc).
  assert (len (pre ++ [quote]) = len pre + 1) as El by (rewrite len_app, len_cons, len_nil; lia).
  repeat split.
  - apply Z.ltb_lt. lia.
  - apply u64_pos. lia.
  - rewrite Et', <- El. by apply find_pre.
  - replace (len pre + 1 + len a - (len pre + 1)) with (len a) by lia. rewrite u64_pos by lia. rewrite Et', <- El. apply substr_pre.
  - rewrite u64_pos by lia. lia.
  - apply Z.eqb_neq. lia.
Qed.

Lemma quote_not_brace : Ascii.eqb quote lbrace = false. Proof. done. Qed.
Ltac at_quote Hs Ha E1 E2 E3 E4 E5 E6 :=
  match type of Hs with short (?pre ++ quote :: ?a ++ quote :: ?post) =>
    destruct (quoted_positions pre a post Hs Ha) as (E1 & E2 & E3 & E4 & E5 & E6) end;
  cbn [parse_loop]; rewrite char_at_pre, E1, quote_not_brace; cbn [negb andb]; rewrite Ascii.eqb_refl; cbn [negb]; cbv zeta; rewrite E2, E3.

Lemma ends_key pre a post ty acc r : short (pre ++ quote :: a ++ quote :: post) -> noquote a -> a <> [] ->
  ends (pre ++ quote :: a ++ quote :: post) (len pre + len a + 2) (str a) ty acc r ->
  ends (pre ++ quote :: a ++ quote :: post) (len pre) "" ty acc r.
Proof.
  intros Hs Ha Hne. apply ends_step. intros f. at_quote Hs Ha E1 E2 E3 E4 E5 E6. rewrite E6, E4, E5. cbn [negb andb String.eqb].
  assert (0 < len a) by (destruct a; [done|]; rewrite len_cons; pose proof (len_nonneg a0); lia). by zb_true (len pre + 1 <? len pre + 1 + len a).
Qed.

(** The text of a type. *)
Definition type_text (ty : Z) (a : text) : Prop := a <> [] /\ atoi (c_str (str a)) = Some ty /\ errno_ERANGE (str a) = false.

Lemma ends_type pre a post k ty acc r : short (pre ++ quote :: a ++ quote :: post) -> noquote a -> k <> "" -> type_text ty a ->
  ends (pre ++ quote :: a ++ quote :: post) (len pre + len a + 2) k ty acc r ->
  ends (pre ++ quote :: a ++ quote :: post) (len pre) k 0 acc r.
Proof.
  intros Hs Ha Hk (Hne & Hat & Her). apply ends_step. intros f. at_quote Hs Ha E1 E2 E3 E4 E5 E6. destruct (String.eqb_spec k ""); [done|].
  cbn [Z.eqb]. unfold GerTypedId. rewrite E3. pose proof (len_nonneg a). zb_false (len pre + 1 + len a <? len pre + 1). cbv zeta. rewrite E4.
  destruct (String.eqb_spec (str a) "") as [E|]; [destruct a; [done|discriminate E]|]. by rewrite Hat, Her, E5.
Qed.

Lemma ends_value pre a post k ty acc r : short (pre ++ quote :: a ++ quote :: post) -> noquote a -> k <> "" -> ty <> 0 ->
  ends (pre ++ quote :: a ++ quote :: post) (len pre + len a + 2) "" 0 (mset k (GetInterfaceByType ty (str a)) acc) r ->
  ends (pre ++ quote :: a ++ quote :: post) (len pre) k ty acc r.
Proof.
  intros Hs Ha Hk Ht. apply ends_step. intros f. at_quote Hs Ha E1 E2 E3 E4 E5 E6. destruct (String.eqb_spec k ""); [done|].
  destruct (Z.eqb_spec ty 0); [done|]. by rewrite E4, E5.
Qed.

(** Nested parameters: the braces with what they enclose, and the next character. *)
Lemma ends_nested pre a c post k acc l r : let sub := lbrace :: a ++ [rbrace] in let t := pre ++ lbrace :: a ++ rbrace :: c :: post in
  short t -> balanced a -> k <> "" -> ValidateStr sub = true -> ends sub 0 "" 0 [] l ->
  ends t (len pre + len a + 3) "" 0 (mset k (wrap l) acc) r -> ends t (len pre) k VALUE_TYPE_WANTPARAMS acc r.
Proof.
  intros sub t Hs Hb Hk Hv [f1 H1] [f2 H2]. exists (S (Nat.max f1 f2)). intros [|f] Hf; [lia|]. unfold short in Hs.
  pose proof (len_nonneg pre). pose proof (len_nonneg post). pose proof (len_nonneg a).
  assert (len t = len pre + len a + len post + 3) as Et by (unfold t; rewrite len_app, len_cons, len_app, !len_cons; lia).
  assert (t = pre ++ sub ++ c :: post) as Et' by (unfold t, sub; cbn; by rewrite <- app_assoc).
  assert (len sub = len a + 2) as El by (unfold sub; rewrite len_cons, len_app, len_cons, len_nil; lia).
  cbn [parse_loop]. zb_true (len pre <? len t). assert (char_at t (len pre) = lbrace) as -> by apply char_at_pre. cbn [negb]. rewrite Ascii.eqb_refl.
  destruct (String.eqb_spec k ""); [done|]. rewrite Z.eqb_refl. cbn [negb andb].
  assert (FindMatchingBrace t (len pre) = len pre + 1 + len a) as -> by (unfold FindMatchingBrace, t; rewrite drop_pre, match_balanced; done).
  assert (substr t (len pre) (u64 (len pre + 1 + len a - len pre + 1)) = sub) as ->.
  { replace (len pre + 1 + len a - len pre + 1) with (len sub) by lia. rewrite u64_pos by lia. rewrite Et'. apply substr_pre. }
  cbv zeta. rewrite Hv, H1 by lia. cbn [mbind option_bind]. rewrite u64_pos by lia.
  replace (len pre + 1 + len a + 1 + 1) with (len pre + len a + 3) by lia. apply H2. lia.
Qed.
End Steps.

(** ** Values that a text can carry *)

Section RoundTrip.
Context {VA : ValueApi} {CV : ConvertEnv}.

Definition key_ok (k : string) : Prop := k <> "" /\ clean (chars k).
(** Nested parameters are a map with at least one entry; keys and the texts of values hold
    no quote and only whole pairs of braces; a value is read back from its own text. *)
Fixpoint textual (v : Value) : Prop :=
  match v with
  | VParams l => l <> [] /\ msorted l /\ fold_right (fun e P => (key_ok (fst e) /\ textual (snd e)) /\ P) True l
  | VNull | VRemote _ | VOther => False
  | _ => clean (chars (leaf_ToString v)) /\ leaf_Parse (GetDataType v) (leaf_ToString v) = v
  end.
(** A copy of the value is the value. *)
Definition stable (v : Value) : Prop := NewValue v = Some v.

Lemma textual_entries l : fold_right (fun e P => (key_ok (fst e) /\ textual (snd e)) /\ P) True l <-> Forall (fun e => key_ok (fst e) /\ textual (snd e)) l.
Proof. induction l as [|e l IH]; cbn [fold_right]; [by split|]. rewrite IH. split; [intros [? ?]; by constructor|intros H; inversion H; by subst]. Qed.

(** What stands between the braces of nested parameters. *)
Definition type_chars (x : Value) : text := chars (signed_to_string (GetDataType x)).
Definition comma (l : params) : text := match l with [] => [] | _ => [","%char] end.
Fixpoint body (l : params) : text :=
  match l with
  | [] => []
  | (k, x) :: l =>
      quote :: chars k ++ quote :: ":"%char :: lbrace :: quote :: type_chars x ++ quote :: ":"%char :: value_text x ++ rbrace :: comma l ++ body l
  end.
Lemma value_text_params l : value_text (VParams l) = lbrace :: body l ++ [rbrace].
Proof.
  assert (forall m, (fix entries (l : params) : text :=
        match l with
        | [] => [rbrace]
        | (k, x) :: l' =>
            quote :: chars k ++ quote :: ":"%char :: lbrace :: quote :: chars (signed_to_string (GetDataType x)) ++ quote :: ":"%char ::
            value_text x ++ rbrace :: match l' with [] => [] | _ => [","%char] end ++ entries l'
        end) m = body m ++ [rbrace]) as E.
  { induction m as [|[k x] m IH]; [done|]. cbn [body]. rewrite IH. unfold type_chars, comma. do 6 (cbn [app]; rewrite <- ?app_assoc). done. }
  rewrite <- E. by destruct l.
Qed.

Definition is_params (v : Value) : bool := match v with VParams _ => true | _ => false end.
Lemma leaf_text v : is_params v = false -> textual v -> value_text v = quote :: chars (leaf_ToString v) ++ [quote].
Proof. destruct v as [|k z|s|k l|l| | | |]; try done. by destruct k. Qed.
Lemma leaf_clean v : is_params v = false -> textual v -> clean (chars (leaf_ToString v)) /\ GetInterfaceByType (GetDataType v) (leaf_ToString v) = v.
Proof. destruct v as [|k z|s|k l|l| | | |]; try done. by destruct k. Qed.
Lemma type_chars_ok v : textual v -> clean (type_chars v) /\ type_chars v <> [] /\ atoi (c_str (str (type_chars v))) = Some (GetDataType v) /\ GetDataType v <> 0.
Proof.
  assert (forall ty, In ty [1; 2; 3; 4; 5; 6; 7; 8; 9; 101; 102] ->
    clean (chars (signed_to_string ty)) /\ chars (signed_to_string ty) <> [] /\ atoi (c_str (str (chars (signed_to_string ty)))) = Some ty /\ ty <> 0) as K.
  { intros ty H. cbn in H. repeat (destruct H as [<-|H]; [split; [split; [repeat constructor; done|by vm_compute]|by vm_compute]|]). done. }
  intros H. apply K. destruct v as [|k z|s|k l|l|l|o| |]; try done; [destruct k| | | | |]; cbn; tauto.
Qed.

(** *** Texts that are accepted *)

Definition even (t : text) : Prop := exists m, count_char quote t = 2 * m.
(** A text with its braces and its quotes in pairs. *)
Definition paired (t : text) : Prop := balanced t /\ even t.

Lemma paired_app a b : paired a -> paired b -> paired (a ++ b).
Proof. intros [A [m Em]] [B [n En]]. split; [by apply balanced_app|]. exists (m + n). rewrite char_count_app. lia. Qed.
Lemma paired_quoted a : clean a -> paired (quote :: a ++ [quote]).
Proof.
  intros [Hq Hb]. split; [|exists 1; rewrite count_cons, char_count_app, (count_noquote a Hq); reflexivity].
  apply (balanced_app [quote]); [by apply balanced_char|]. apply balanced_app; [done|by apply balanced_char].
Qed.
Lemma paired_braces a : paired a -> paired (lbrace :: a ++ [rbrace]).
Proof. intros [H [m Em]]. split; [by apply balanced_braces|]. exists m. rewrite count_cons, char_count_app, Em. change (count_char quote [rbrace]) with 0. change (Ascii.eqb lbrace quote) with false. cbv iota. lia. Qed.
Lemma paired_char c : c <> quote -> c <> lbrace -> c <> rbrace -> paired [c].
Proof. intros Hq H1 H2. split; [by apply balanced_char|]. exists 0. rewrite count_cons. by destruct (Ascii.eqb_spec c quote). Qed.
Lemma paired_nil : paired [].
Proof. split; [done|]. by exists 0. Qed.

Lemma body_cons k x l : body ((k, x) :: l) =
  (quote :: chars k ++ [quote]) ++ [":"%char] ++ (lbrace :: ((quote :: type_chars x ++ [quote]) ++ [":"%char] ++ value_text x) ++ [rbrace]) ++ comma l ++ body l.
Proof. cbn [body]. do 6 (cbn [app]; rewrite <- ?app_assoc). done. Qed.
Lemma body_paired l : Forall (fun e => key_ok (fst e) /\ textual (snd e) /\ paired (value_text (snd e))) l -> paired (body l).
Proof.
  induction 1 as [|[k x] l ([_ Hk] & Hx & Hp) _ IH]; [apply paired_nil|]. rewrite body_cons. cbn [fst snd] in *.
  apply paired_app; [by apply paired_quoted|]. apply paired_app; [by apply paired_char|]. apply paired_app.
  - apply paired_braces, paired_app; [apply paired_quoted; by apply type_chars_ok|]. by apply paired_app; [apply paired_char|].
  - apply paired_app; [|done]. destruct l; [apply paired_nil|by apply paired_char].
Qed.
Lemma textual_paired v : textual v -> paired (value_text v).
Proof.
  induction v as [|k z|s|k l|l|l IH|o| |] using Value_nested; intros H; try done.
  all: try (rewrite leaf_text by done; apply paired_quoted; by apply leaf_clean).
  rewrite value_text_params. apply paired_braces, body_paired. destruct H as (_ & _ & H). apply textual_entries in H.
  apply List.Forall_forall. intros e He. rewrite List.Forall_forall in H, IH. destruct (H e He) as [? ?]. auto.
Qed.
Lemma valid_text l : textual (VParams l) -> ValidateStr (value_text (VParams l)) = true.
Proof.
  intros H. destruct (textual_paired _ H) as [[Hb1 Hb2] [m Em]]. destruct H as (Hne & _ & H). apply textual_entries in H.
  destruct l as [|[k x] l]; [done|]. inversion_clear H as [|? ? [[Hk Hc] _] _]. cbn [fst snd] in *.
  unfold ValidateStr. rewrite Em, Z.mul_comm, Z_mod_mult, Hb1. rewrite brace_count in Hb2.
  replace (count_char lbrace _ =? count_char rbrace _) with true by (symmetry; apply Z.eqb_eq; lia).
  destruct k as [|c k]; [done|]. rewrite !bool_decide_false; [done| | |]; rewrite value_text_params, body_cons; cbn; try done.
  intros [= E]. destruct Hc as [Hq _]. by inversion Hq.
Qed.

(** *** Reading back *)

Ltac reassoc := do 9 (cbn [app]; rewrite <- ?app_assoc); reflexivity.
Ltac lens := repeat (rewrite len_app || rewrite len_cons || rewrite len_nil); lia.
Lemma foldl_mset (acc l : params) : msorted (acc ++ l) -> foldl (fun a e => mset (fst e) (snd e) a) acc l = acc ++ l.
Proof.
  revert acc. induction l as [|[k x] l IH]; intros acc Hs; [by rewrite app_nil_r|]. cbn [foldl fst snd].
  assert (mset k x acc = acc ++ [(k, x)]) as ->.
  { assert (Forall (fun e => key_lt (fst e) k = true) acc) as H.
    { clear IH. induction acc as [|e acc IHa]; [constructor|]. inversion_clear Hs as [|? ? Hs' He]. constructor; [|by apply IHa].
      rewrite List.Forall_forall in He. apply (He (k, x)). apply in_app_iff. right. by left. }
    assert (mfind k acc = None) as Hf.
    { clear Hs IH. induction H as [|e acc He _ IHa]; [done|]. rewrite mfind_cons, IHa. unfold same_key. by rewrite He, andb_false_r. }
    unfold mset. rewrite Hf. clear Hs IH Hf. induction H as [|[k' x'] acc He _ IHa]; [done|]. cbn. cbn in He.
    replace (key_lt k k') with false; [by rewrite IHa|]. symmetry. destruct (key_lt k k') eqn:E; [|done].
    pose proof (key_trans _ _ _ E He) as X. by rewrite key_irrefl in X. }
  rewrite IH; [by rewrite <- app_assoc|by rewrite <- app_assoc].
Qed.

Hypothesis no_range : forall s, errno_ERANGE s = false.

(** The steps at a place that is given by what stands before it. *)
Lemma at_skip p c q t n k ty acc r : t = p ++ c :: q -> n = len p -> short t -> c <> quote -> c <> lbrace \/ k = "" \/ ty <> VALUE_TYPE_WANTPARAMS ->
  ends t (n + 1) k ty acc r -> ends t n k ty acc r.
Proof. intros -> ->. apply ends_skip. Qed.
Lemma at_type p a q t n k ty acc r : t = p ++ quote :: a ++ quote :: q -> n = len p -> short t -> noquote a -> k <> "" -> type_text ty a ->
  ends t (n + len a + 2) k ty acc r -> ends t n k 0 acc r.
Proof. intros -> ->. apply ends_type. Qed.

(** The key, the type and the characters before the value. *)
Definition head (k : string) (x : Value) : text := quote :: chars k ++ quote :: ":"%char :: lbrace :: quote :: type_chars x ++ [quote; ":"%char].
Lemma ends_head p k x q acc r : let t := p ++ head k x ++ q in short t -> key_ok k -> textual x ->
  ends t (len (p ++ head k x)) k (GetDataType x) acc r -> ends t (len p) "" 0 acc r.
Proof.
  intros t Hs [Hk [Hkq _]] Hx H. destruct (type_chars_ok x Hx) as ([Hq _] & Hne & Hat & Hz). unfold head in *.
  assert (t = p ++ quote :: chars k ++ quote :: ":"%char :: lbrace :: quote :: type_chars x ++ quote :: ":"%char :: q) as Et by (subst t; reassoc).
  rewrite Et. apply ends_key; [by rewrite <- Et|done|destruct k; done|rewrite <- Et, str_chars].
  apply (at_skip (p ++ quote :: chars k ++ [quote]) ":"%char (lbrace :: quote :: type_chars x ++ quote :: ":"%char :: q)); [rewrite Et; reassoc|lens|done|done|by left|].
  apply (at_skip (p ++ quote :: chars k ++ [quote; ":"%char]) lbrace (quote :: type_chars x ++ quote :: ":"%char :: q)); [rewrite Et; reassoc|lens|done|done|by right; right|].
  apply (at_type (p ++ quote :: chars k ++ [quote; ":"%char; lbrace]) (type_chars x) (":"%char :: q) _ _ _ (GetDataType x)); [rewrite Et; reassoc|lens|done|done|done|by repeat split|].
  apply (at_skip (p ++ quote :: chars k ++ quote :: ":"%char :: lbrace :: quote :: type_chars x ++ [quote]) ":"%char q); [rewrite Et; reassoc|lens|done|done|by left|].
  match goal with |- ends _ ?n _ _ _ _ => replace n with (len (p ++ quote :: chars k ++ quote :: ":"%char :: lbrace :: quote :: type_chars x ++ [quote; ":"%char])) by lens end. done.
Qed.

(** What reading gives for nested parameters. *)
Definition reads (v : Value) : Prop :=
  match v with VParams l => stable v /\ (short (value_text v) -> ends (value_text v) 0 "" 0 [] (Some l)) | _ => True end.

(** The value and the brace after it. *)
Lemma ends_entry p k x c q acc r : let t := p ++ value_text x ++ rbrace :: c :: q in short t -> k <> "" -> textual x -> reads x ->
  ends t (len p + len (value_text x) + 1) "" 0 (mset k x acc) r -> ends t (len p) k (GetDataType x) acc r.
Proof.
  intros t Hs Hk Hx Hr H. destruct (is_params x) eqn:Ep.
  - destruct x as [| | | | |l| | |]; try done. destruct Hr as [Hst Hr]. pose proof (valid_text l Hx) as Hv. destruct (textual_paired _ Hx) as [_ _].
    assert (balanced (body l)) as Hb.
    { apply body_paired. destruct Hx as (_ & _ & Hx). apply textual_entries in Hx. eapply Forall_impl; [exact Hx|]. intros e [? ?]. auto using textual_paired. }
    subst t. rewrite value_text_params in *. replace (p ++ (lbrace :: body l ++ [rbrace]) ++ rbrace :: c :: q) with (p ++ lbrace :: body l ++ rbrace :: rbrace :: c :: q) in * by reassoc.
    assert (short (lbrace :: body l ++ [rbrace])) as Hs' by (unfold short in *; revert Hs; repeat (rewrite len_app || rewrite len_cons || rewrite len_nil); pose proof (len_nonneg p); pose proof (len_nonneg q); lia).
    eapply (ends_nested p (body l) rbrace (c :: q) k acc (Some l)); [done|done|done|done|by apply Hr|].
    replace (wrap (Some l)) with (VParams l) by (unfold stable in Hst; rewrite NewValue_params in Hst; injection Hst as E; cbn; by rewrite E).
    match goal with H : ends _ ?n _ _ _ _ |- ends _ ?m _ _ _ _ => replace m with n by lens end. done.
  - subst t. destruct (leaf_clean x Ep Hx) as [[Hq _] Hp]. destruct (type_chars_ok x Hx) as (_ & _ & _ & Hz). rewrite (leaf_text x Ep Hx) in *.
    replace (p ++ (quote :: chars (leaf_ToString x) ++ [quote]) ++ rbrace :: c :: q) with (p ++ quote :: chars (leaf_ToString x) ++ quote :: rbrace :: c :: q) in * by reassoc.
    apply ends_value; [done|done|done|done|]. rewrite str_chars, Hp.
    apply (at_skip (p ++ quote :: chars (leaf_ToString x) ++ [quote]) rbrace (c :: q)); [reassoc|lens|done|done|by left|].
    match goal with H : ends _ ?n _ _ _ _ |- ends _ ?m _ _ _ _ => replace m with n by lens end. done.
Qed.

Lemma ends_body l : Forall (fun e => key_ok (fst e) /\ textual (snd e) /\ reads (snd e)) l -> forall p acc, short (p ++ body l ++ [rbrace]) ->
  ends (p ++ body l ++ [rbrace]) (len p) "" 0 acc (Some (foldl (fun a e => mset (fst e) (snd e) a) acc l)).
Proof.
  induction 1 as [|[k x] l (Hk & Hx & Hr) _ IH]; intros p acc Hs; cbn [foldl fst snd] in *.
  - apply (at_skip p rbrace []); [done|done|done|done|by left|]. replace (len p + 1) with (len (p ++ body [] ++ [rbrace])) by (cbn [body app]; lens). apply ends_end.
  - assert (exists c q, comma l ++ body l ++ [rbrace] = c :: q) as (c & q & Eq) by (destruct l; cbn; eauto).
    assert (p ++ body ((k, x) :: l) ++ [rbrace] = p ++ head k x ++ value_text x ++ rbrace :: c :: q) as Et by (rewrite <- Eq; unfold head; cbn [body]; reassoc).
    rewrite Et in *. apply ends_head; [done|done|done|]. rewrite !app_assoc, <- app_assoc. rewrite !app_assoc, <- app_assoc in Hs. apply ends_entry; [done|apply Hk|done|done|]. rewrite <- Eq in *.
    destruct l as [|e l'].
    + cbn [comma body app] in *. specialize (IH ((p ++ head k x) ++ value_text x ++ [rbrace]) (mset k x acc)). cbn [body app] in IH.
      replace ((p ++ head k x) ++ value_text x ++ [rbrace; rbrace]) with (((p ++ head k x) ++ value_text x ++ [rbrace]) ++ [rbrace]) in * by reassoc.
      match goal with |- ends _ ?n _ _ _ _ => replace n with (len ((p ++ head k x) ++ value_text x ++ [rbrace])) by lens end. by apply IH.
    + set (l := e :: l') in *. change (comma l) with [","%char] in *.
      apply (at_skip ((p ++ head k x) ++ value_text x ++ [rbrace]) ","%char (body l ++ [rbrace])); [reassoc|lens|done|done|by left|].
      specialize (IH ((p ++ head k x) ++ value_text x ++ [rbrace; ","%char]) (mset k x acc)).
      replace ((p ++ head k x) ++ value_text x ++ rbrace :: [","%char] ++ body l ++ [rbrace]) with (((p ++ head k x) ++ value_text x ++ [rbrace; ","%char]) ++ body l ++ [rbrace]) in * by reassoc.
      match goal with |- ends _ ?n _ _ _ _ => replace n with (len ((p ++ head k x) ++ value_text x ++ [rbrace; ","%char])) by lens end. by apply IH.
Qed.

Lemma stable_entries l : stable (VParams l) -> Forall (fun e => stable (snd e)) l.
Proof.
  unfold stable. rewrite NewValue_params. intros [= E]. revert E. induction l as [|[k x] l IH]; [constructor|]. cbn [NewParams].
  destruct (NewValue x) as [y|] eqn:Ey; [intros [= -> E]; constructor; [done|by apply IH]|].
  intros E. exfalso. assert (length (NewParams l) <= length l)%nat as Hl by (clear; induction l as [|[k x] l IH]; cbn; [lia|]; destruct (NewValue x); cbn; lia).
  rewrite E in Hl. cbn in Hl. lia.
Qed.
Lemma nested_reads v : textual v -> stable v -> reads v.
Proof.
  induction v as [|k z|s|k l|l|l IH|o| |] using Value_nested; intros Hx Hst; try done. split; [done|]. intros Hs.
  pose proof (stable_entries l Hst) as Hl. destruct Hx as (_ & Hso & Hx). apply textual_entries in Hx. rewrite value_text_params in *.
  pose proof (ends_body l) as H. specialize (H ltac:(apply List.Forall_forall; intros e He; rewrite List.Forall_forall in Hx, IH, Hl; destruct (Hx e He); auto) [lbrace] []).
  rewrite foldl_mset in H by done. specialize (H Hs).
  apply (at_skip [] lbrace (body l ++ [rbrace])); [done|done|done|done|by right; left|exact H].
Qed.

(** Nested parameters that are made of values with exact texts, at any depth,
    with keys and texts that hold no quotes and whole pairs of braces, and with no empty
    parameters inside, are read back from their text: reading ends and gives the same
    parameters. *)
Theorem nested_text_roundtrip l : textual (VParams l) -> stable (VParams l) -> short (value_text (VParams l)) ->
  exists f0, forall f, (f0 <= f)%nat -> Parse f (value_text (VParams l)) = Some (VParams l).
Proof.
  intros Hx Hst Hs. pose proof (nested_reads _ Hx Hst) as [_ H]. destruct (H Hs) as [f0 H0]. exists f0. intros f Hf.
  unfold Parse. rewrite valid_text, H0 by done. cbn. unfold stable in Hst. rewrite NewValue_params in Hst. injection Hst as E. by rewrite E.
Qed.
End RoundTrip.

(** ** Boxes for the witnesses *)

#[local] Instance demo_value : ValueApi := {|
  leaf_ToString := fun v => match v with VNum _ z => signed_to_string z | VString s => s | _ => "" end;
  leaf_Parse := fun ty s =>
    if ty =? VALUE_TYPE_STRING then VString s
    else if ty =? VALUE_TYPE_INT then match atoi s with Some z => VNum NInt z | None => VNull end else VNull;
  leaf_Equals := fun _ _ => true;
  char_cast := u8 |}.
#[local] Instance demo_convert : ConvertEnv := {| errno_ERANGE := fun _ => false; atoi_undefined := fun _ => 0 |}.

Lemma nested_text_roundtrip_witness :
  let l := [("a", VNum NInt (-5)); ("b", VParams [("c", VString "x")])] in
  exists f0, forall f, (f0 <= f)%nat -> Parse f (value_text (VParams l)) = Some (VParams l).
Proof.
  cbv zeta. apply nested_text_roundtrip; [done| | |].
  - repeat split; try done; repeat constructor; done.
  - reflexivity.
  - by vm_compute.
Defined.

(** ** A text that is never read to its end *)

Section Endless.
Context {VA : ValueApi} {CV : ConvertEnv}.
Hypothesis no_range : errno_ERANGE "101" = false.

(** The text {"a":{"101":{x"}}"} *)
Definition endless : text :=
  [lbrace; quote; "a"%char; quote; ":"%char; lbrace; quote] ++ chars "101" ++ [quote; ":"%char; lbrace; "x"%char; quote; rbrace; rbrace; quote; rbrace].

Lemma parse_loop_S f t strnum strKey typeId wantParams : parse_loop (S f) t strnum strKey typeId wantParams =
      if negb (strnum <? len t) then Some (Some wantParams)
      else
        let c := char_at t strnum in
        if Ascii.eqb c lbrace && negb (String.eqb strKey "") && (typeId =? VALUE_TYPE_WANTPARAMS) then
          let num := FindMatchingBrace t strnum in
          let sub := substr t strnum (u64 (num - strnum + 1)) in
          nested ← (if ValidateStr sub then parse_loop f sub 0 "" 0 [] else Some None);
          parse_loop f t (u64 (num + 1 + 1)) "" 0 (mset strKey (wrap nested) wantParams)
        else if negb (Ascii.eqb c quote) then parse_loop f t (u64 (strnum + 1)) strKey typeId wantParams
        else
          let strnum := u64 (strnum + 1) in
          let pos := find_char quote t strnum in
          if String.eqb strKey "" then
            let strKey := if negb (pos =? npos) && (strnum <? pos) then str (substr t strnum (u64 (pos - strnum))) else strKey in
            parse_loop f t (u64 (pos + 1)) strKey typeId wantParams
          else if typeId =? 0 then
            let '(typeId, typeIdStr) := GerTypedId t strnum in
            if errno_ERANGE typeIdStr then Some None
            else parse_loop f t (u64 (pos + 1)) strKey typeId wantParams
          else
            let value := GetInterfaceByType typeId (str (substr t strnum (u64 (pos - strnum)))) in
            parse_loop f t (u64 (pos + 1)) "" 0 (mset strKey value wantParams).
Proof. reflexivity. Qed.

(** The turns of the loop on this text: position, key and type. *)
Lemma endless_turn f acc :
  parse_loop (S f) endless 0 "" 0 acc = parse_loop f endless 1 "" 0 acc /\
  parse_loop (S f) endless 1 "" 0 acc = parse_loop f endless 4 "a" 0 acc /\
  parse_loop (S f) endless 4 "a" 0 acc = parse_loop f endless 5 "a" 0 acc /\
  parse_loop (S f) endless 5 "a" 0 acc = parse_loop f endless 6 "a" 0 acc /\
  parse_loop (S f) endless 6 "a" 0 acc = parse_loop f endless 11 "a" 101 acc /\
  parse_loop (S f) endless 11 "a" 101 acc = parse_loop f endless 12 "a" 101 acc /\
  parse_loop (S f) endless 12 "a" 101 acc = parse_loop f endless 17 "" 0 (mset "a" VNull acc) /\
  parse_loop (S f) endless 17 "" 0 acc = parse_loop f endless 0 "" 0 acc.
Proof.
  rewrite !parse_loop_S. repeat split; try reflexivity.
  assert (GerTypedId endless (u64 (6 + 1)) = (101, "101")) as E by reflexivity.
  cbv zeta. rewrite E, no_range. reflexivity.
Qed.

Lemma parse_monotone f : forall t n k ty acc r, parse_loop f t n k ty acc = Some r -> parse_loop (S f) t n k ty acc = Some r.
Proof.
  induction f as [|f IH]; [done|]. intros t n k ty acc r. rewrite (parse_loop_S f), (parse_loop_S (S f)). cbv zeta.
  destruct (negb (n <? len t)); [done|]. destruct (_ && _).
  - destruct (ValidateStr _); [|cbn; apply IH]. destruct (parse_loop f _ 0 "" 0 []) as [x|] eqn:E; [|done]. cbn [mbind option_bind]. rewrite (IH _ _ _ _ _ _ E). cbn [mbind option_bind]. apply IH.
  - destruct (negb (Ascii.eqb _ quote)); [apply IH|]. destruct (String.eqb k ""); [apply IH|]. destruct (ty =? 0); [|apply IH]. destruct (GerTypedId _ _) as [ty' s].
    destruct (errno_ERANGE s); [done|apply IH].
Qed.

(** The function that reads nested parameters never returns on the text
    {"a":{"101":{x"}}"}, which passes its test: after the odd quote no quote is found, the
    position becomes the largest number and the next step goes on at the beginning of the
    text. The text of nested parameters comes from the message of another device. *)
Theorem parse_never_ends f : ValidateStr endless = true /\ Parse f endless = None.
Proof.
  split; [reflexivity|]. unfold Parse. change (ValidateStr endless) with true. cbv iota.
  enough (forall acc, parse_loop f endless 0 "" 0 acc = None) as H by (by rewrite H).
  induction f as [|f IH]; [done|]. intros acc. destruct (parse_loop (S f) endless 0 "" 0 acc) as [r|] eqn:E; [exfalso|done].
  do 7 apply parse_monotone in E.
  destruct (endless_turn (7 + f) acc) as (E0 & _). destruct (endless_turn (6 + f) acc) as (_ & E1 & _). destruct (endless_turn (5 + f) acc) as (_ & _ & E2 & _).
  destruct (endless_turn (4 + f) acc) as (_ & _ & _ & E3 & _). destruct (endless_turn (3 + f) acc) as (_ & _ & _ & _ & E4 & _).
  destruct (endless_turn (2 + f) acc) as (_ & _ & _ & _ & _ & E5 & _). destruct (endless_turn (1 + f) acc) as (_ & _ & _ & _ & _ & _ & E6 & _).
  destruct (endless_turn f (mset "a" VNull acc)) as (_ & _ & _ & _ & _ & _ & _ & E7). cbn [Nat.add] in *.
  rewrite E0, E1, E2, E3, E4, E5, E6, E7, IH in E. done.
Qed.
End Endless.

Lemma parse_never_ends_witness : ValidateStr endless = true /\ Parse 1000 endless = None.
Proof. by apply parse_never_ends. Defined.

(** ** Nested parameters are lost in the text of a want *)

Section Lost.
Context {VA : ValueApi} {CV : ConvertEnv}.

Lemma match_from_first t n d m : match_from t n d = Some m -> n <= m /\ (n < m -> d + brace_sum (take (Z.to_nat (m - n)) t) <> 0).
Proof.
  revert n d. induction t as [|c t IH]; intros n d; [done|]. rewrite match_from_cons. destruct (Z.eqb_spec (d + brace c) 0).
  - intros [= <-]. lia.
  - intros H. destruct (IH _ _ H) as [H1 H2]. split; [lia|]. intros Hm. replace (Z.to_nat (m - n)) with (S (Z.to_nat (m - (n + 1)))) by lia. cbn [take brace_sum].
    destruct (Z.eq_dec m (n + 1)) as [-> |]; [rewrite Z.sub_diag; change (brace_sum (take (Z.to_nat 0) t)) with 0; lia|]. specialize (H2 ltac:(lia)). lia.
Qed.
(** Without its last brace a pair of braces is not accepted. *)
Lemma cut_not_valid t n : 0 <= n < len t -> short t -> char_at t n = lbrace -> ValidateStr (substr t n (u64 (FindMatchingBrace t n - n))) = false.
Proof.
  intros Hn Hs Hc. unfold FindMatchingBrace, short in *. assert (exists q, drop (Z.to_nat n) t = lbrace :: q) as [q Eq].
  { unfold char_at in Hc. assert (Z.to_nat n < length t)%nat as Hl by (unfold len in Hn; lia). destruct (lookup_lt_is_Some_2 _ _ Hl) as [x Ex].
    exists (drop (S (Z.to_nat n)) t). rewrite (drop_S _ x) by done. f_equal. rewrite <- Hc. symmetry. by apply nth_lookup_Some. }
  rewrite Eq. destruct (match_from (lbrace :: q) n 0) as [m|] eqn:E; cbn [from_option id].
  - destruct (match_from_first _ _ _ _ E) as [H1 H2]. rewrite match_from_cons in E. change (0 + brace lbrace =? 0) with false in E. cbv iota in E.
    destruct (match_from_first _ _ _ _ E) as [H3 _]. specialize (H2 ltac:(lia)). rewrite <- Eq in H2.
    assert (0 <= m - n <= len t - n) as Hm.
    { split; [lia|]. destruct (Z.le_gt_cases m (len t)); [lia|]. exfalso. assert (forall u k e j, match_from u k e = Some j -> j < k + len u) as K.
      { clear. intros u. induction u as [|c u IH]; intros k e j; [done|]. rewrite match_from_cons, len_cons. pose proof (len_nonneg u). destruct (_ =? 0); [intros [= <-]; lia|]. intros H'%IH. lia. }
      apply K in E. assert (len q = len t - n - 1) as Hq; [|lia]. assert (len (drop (Z.to_nat n) t) = len t - n) as Hd by (unfold len in *; rewrite length_drop; lia). rewrite Eq, len_cons in Hd. lia. }
    rewrite u64_pos by (unfold npos in *; lia). unfold substr, slice. rewrite Z.min_l by lia. rewrite Z.add_0_l, brace_count in H2.
    unfold ValidateStr. destruct (bool_decide _ || _ || _); [done|]. destruct (negb (_ mod 2 =? 0)); [done|]. by zb_false (count_char lbrace (take (Z.to_nat (m - n)) (drop (Z.to_nat n) t)) =? count_char rbrace (take (Z.to_nat (m - n)) (drop (Z.to_nat n) t))).
  - rewrite Z.sub_diag. change (u64 0) with 0. unfold substr, slice. rewrite Z.min_l by lia. done.
Qed.

Hypothesis leaves : forall ty s, is_params (leaf_Parse ty s) = false.
Definition flat (l : params) : Prop := Forall (fun e => is_params (snd e) = false) l.

Lemma mset_flat k v l : is_params v = false -> flat l -> flat (mset k v l).
Proof.
  intros Hv Hl. unfold mset. destruct (mfind k l); [|by apply insert_sorted_Forall]. unfold mupdate, flat. apply Forall_map.
  eapply Forall_impl; [exact Hl|]. intros e He. by destruct (same_key k (fst e)).
Qed.
Lemma params_loop_flat f t : short t -> forall n k ty acc r, 0 <= n -> flat acc -> params_loop f t n k ty acc = Some r -> flat r.
Proof.
  intros Hs. induction f as [|f IH]; [done|]. intros n k ty acc r Hn Hf. cbn [params_loop]. assert (forall z, 0 <= u64 z) as Hu by (intros; apply Z.mod_pos_bound; lia).
  destruct (Z.ltb_spec n (len t)); cbn [negb]; [|by intros [= <-]]. destruct (Ascii.eqb_spec (char_at t n) lbrace) as [Ec|]; cbn [andb].
  - destruct (negb (String.eqb k "") && _).
    + unfold Parse. rewrite cut_not_valid by done. cbn [mbind option_bind]. apply IH; [done|by apply mset_flat].
    + rewrite Ec. cbn [negb]. change (Ascii.eqb lbrace quote) with false. cbn [negb]. by apply IH.
  - destruct (negb (Ascii.eqb _ quote)); [by apply IH|]. cbv zeta. destruct (String.eqb k ""); [destruct (_ <? _); by apply IH|].
    destruct (ty =? 0); [|apply IH; [done|]; apply mset_flat; [|done]; unfold GetInterfaceByType; destruct (existsb _ _); [apply leaves|done]].
    destruct (GerTypedId _ _) as [ty' s]. destruct (errno_ERANGE s); [by intros [= <-]|by apply IH].
Qed.

(** Reading the parameters of a want from its text never gives nested
    parameters, whatever the text is: the part that is handed to the function for nested
    parameters lacks its last brace, so that it is refused. What was nested is lost. *)
Theorem nested_params_lost f t r : short t -> ParseWantParams f t = Some r -> flat r.
Proof.
  intros Hs. unfold ParseWantParams. destruct (ValidateStr t); [|intros [= <-]; constructor]. apply params_loop_flat; [done|done|constructor].
Qed.
End Lost.

(** The text of parameters with a nested one: the key stays, with a null pointer. *)
Lemma nested_params_lost_witness :
  let t := value_text (VParams [("a", VNum NInt 5); ("b", VParams [("c", VString "x")])]) in
  ParseWantParams 100 t = Some [("a", VNum NInt 5); ("b", VNull)] /\ flat [("a", VNum NInt 5); ("b", VNull)].
Proof.
  cbv zeta. split; [by vm_compute|]. eapply (nested_params_lost _ 100 (value_text (VParams [("a", VNum NInt 5); ("b", VParams [("c", VString "x")])]))); [by vm_compute|by vm_compute].
  Unshelve. intros ty s. cbn. destruct (_ =? _); [done|]. destruct (_ =? _); [|done]. by destruct (atoi s).
Defined.
