(* ===== verification/WantParcel.v ===== *)
(** Parameters of a want in a message: the marshalling of [DistributedWantParams] in
    services/dtbschedmgr/src/distributedWant/distributed_want_params.cpp.

    A parameter is written as its key, its type and its value; nested parameters travel as
    their text. Writing gives [None] where the code returns false. Reading gives [None] only
    when the fuel for the texts is used up, otherwise the result with the parameters read so
    far and the rest of the message. *)

From S2P Require Import Prelude StdMap SchedUtils ContinueInfo IpcParcel WantValue WantText WantTextProps.
#[local] Open Scope string_scope.
#[local] Open Scope list_scope.
#[local] Open Scope Z_scope.

Definition FD : string := "FD".
Definition REMOTE_OBJECT : string := "RemoteObject".
Definition TYPE_PROPERTY : string := "type".
Definition VALUE_PROPERTY : string := "value".
Definition maxAllowedSize : Z := 100 * 1024 * 1024.

Definition i8 (z : Z) : Z := (z + 128) mod 256 - 128.
(** [Boolean::Box] of a number. *)
Definition bool_of (z : Z) : Z := if z =? 0 then 0 else 1.

Section Marshal.
Context {T16 : Text16} {IP : @IpcParcel T16} {VA : ValueApi} {CV : ConvertEnv}.

(** ** Writing *)

Definition typed (type : Z) (x : Item) (p : Parcel) : option Parcel := p ← Write (IInt type) p; Write x p.

Definition WriteToParcelString (s : string) (p : Parcel) : option Parcel := typed VALUE_TYPE_STRING (IStr16 (Str8ToStr16 s)) p.
Definition WriteToParcelBool (z : Z) (p : Parcel) : option Parcel := typed VALUE_TYPE_BOOLEAN (INum W8 z) p.
Definition WriteToParcelByte (z : Z) (p : Parcel) : option Parcel := typed VALUE_TYPE_BYTE (INum W8 z) p.
Definition WriteToParcelChar (z : Z) (p : Parcel) : option Parcel := typed VALUE_TYPE_CHAR (IInt z) p.
Definition WriteToParcelShort (z : Z) (p : Parcel) : option Parcel := typed VALUE_TYPE_SHORT (INum W16 z) p.
Definition WriteToParcelInt (z : Z) (p : Parcel) : option Parcel := typed VALUE_TYPE_INT (IInt z) p.
Definition WriteToParcelLong (z : Z) (p : Parcel) : option Parcel := typed VALUE_TYPE_LONG (INum W64 z) p.
Definition WriteToParcelFloat (z : Z) (p : Parcel) : option Parcel := typed VALUE_TYPE_FLOAT (INum WFloat z) p.
Definition WriteToParcelDouble (z : Z) (p : Parcel) : option Parcel := typed VALUE_TYPE_DOUBLE (INum WDouble z) p.

Definition WriteToParcelFD (value : DistributedWantParams) (p : Parcel) : option Parcel :=
  p ← Write (IInt VALUE_TYPE_FD) p;
  match GetParam VALUE_PROPERTY value with VNum NInt fd => Write (IFd fd) p | _ => None end.
(** A null object cannot be written. *)
Definition WriteToParcelRemoteObject (value : DistributedWantParams) (p : Parcel) : option Parcel :=
  p ← Write (IInt VALUE_TYPE_REMOTE_OBJECT) p;
  match GetParam VALUE_PROPERTY value with VRemote (Some o) => Write (IObject o) p | _ => None end.
Definition WriteToParcelWantParams (v : Value) (p : Parcel) : option Parcel :=
  let value := Wrapper_Unbox v in
  let as_text := typed VALUE_TYPE_WANTPARAMS (IStr16 (Str8ToStr16 (Wrapper_ToString v))) p in
  match GetParam TYPE_PROPERTY value with
  | VString typeValue =>
      if String.eqb typeValue FD then WriteToParcelFD value p
      else if String.eqb typeValue REMOTE_OBJECT then WriteToParcelRemoteObject value p
      else as_text
  | _ => as_text
  end.

Definition WriteArrayToParcelString (l : list string) (p : Parcel) : option Parcel := typed VALUE_TYPE_STRINGARRAY (IStr16Vec (map Str8ToStr16 l)) p.
Definition WriteArrayToParcelBool (l : list Z) (p : Parcel) : option Parcel := typed VALUE_TYPE_BOOLEANARRAY (IInts l) p.
Definition WriteArrayToParcelByte (l : list Z) (p : Parcel) : option Parcel := typed VALUE_TYPE_BYTEARRAY (INums W8 l) p.
Definition WriteArrayToParcelChar (l : list Z) (p : Parcel) : option Parcel := typed VALUE_TYPE_CHARARRAY (IInts l) p.
Definition WriteArrayToParcelShort (l : list Z) (p : Parcel) : option Parcel := typed VALUE_TYPE_SHORTARRAY (INums W16 l) p.
Definition WriteArrayToParcelInt (l : list Z) (p : Parcel) : option Parcel := typed VALUE_TYPE_INTARRAY (IInts l) p.
Definition WriteArrayToParcelLong (l : list Z) (p : Parcel) : option Parcel := typed VALUE_TYPE_LONGARRAY (INums W64 l) p.
Definition WriteArrayToParcelFloat (l : list Z) (p : Parcel) : option Parcel := typed VALUE_TYPE_FLOATARRAY (INums WFloat l) p.
Definition WriteArrayToParcelDouble (l : list Z) (p : Parcel) : option Parcel := typed VALUE_TYPE_DOUBLEARRAY (INums WDouble l) p.
Definition WriteArrayToParcel (ao : Value) (p : Parcel) : option Parcel :=
  match ao with
  | VStrings l => WriteArrayToParcelString l p
  | VNums NBool l => WriteArrayToParcelBool l p
  | VNums NByte l => WriteArrayToParcelByte l p
  | VNums NChar l => WriteArrayToParcelChar l p
  | VNums NShort l => WriteArrayToParcelShort l p
  | VNums NInt l => WriteArrayToParcelInt l p
  | VNums NLong l => WriteArrayToParcelLong l p
  | VNums NFloat l => WriteArrayToParcelFloat l p
  | VNums NDouble l => WriteArrayToParcelDouble l p
  | _ => Some p
  end.

(** Nothing is written for a value of another class. *)
Definition WriteMarshalling (o : Value) (p : Parcel) : option Parcel :=
  match o with
  | VString s => WriteToParcelString s p
  | VNum NBool z => WriteToParcelBool z p
  | VNum NByte z => WriteToParcelByte z p
  | VNum NChar z => WriteToParcelChar z p
  | VNum NShort z => WriteToParcelShort z p
  | VNum NInt z => WriteToParcelInt z p
  | VNum NLong z => WriteToParcelLong z p
  | VNum NFloat z => WriteToParcelFloat z p
  | VNum NDouble z => WriteToParcelDouble z p
  | VParams _ => WriteToParcelWantParams o p
  | VNums _ _ | VStrings _ | VOtherArray => WriteArrayToParcel o p
  | VNull | VRemote _ | VOther => Some p
  end.

Fixpoint write_params (l : params) (p : Parcel) : option Parcel :=
  match l with
  | [] => Some p
  | (key, o) :: l => p ← Write (IStr16 (Str8ToStr16 key)) p; p ← WriteMarshalling o p; write_params l p
  end.
Fixpoint write_unsupported (l : list DistributedUnsupportedData) (p : Parcel) : option Parcel :=
  match l with
  | [] => Some p
  | d :: l =>
      p ← Write (IStr16 (ud_key d)) p;
      p ← Write (IInt (ud_type d)) p;
      p ← Write (IInt (ud_size d)) p;
      p ← Write (IInt (ud_size d)) p;
      p ← Write (IBytes (ud_buffer d)) p;
      write_unsupported l p
  end.
Definition DoMarshalling (w : DistributedWantParams) (p : Parcel) : option Parcel :=
  p ← Write (IInt (i32 (len (params_ w) + len (cachedUnsupportedData_ w)))) p;
  p ← write_params (params_ w) p;
  write_unsupported (cachedUnsupportedData_ w) p.

(** ** Reading *)

(** The result of a reading step: success, the parameters and the rest of the message. *)
Definition Reading : Type := bool * DistributedWantParams * Parcel.

(** Reading a value of a fixed type: [box] makes the object. *)
Definition read_as {A} (r : option (A * Parcel)) (box : A -> Value) (key : string) (w : DistributedWantParams) (p : Parcel) : Reading :=
  match r with
  | Some (x, p) => (true, SetParam key (box x) w, p)
  | None => (false, w, p)
  end.

Definition ReadFromParcelString (key : string) (w : DistributedWantParams) (p : Parcel) : Reading :=
  let '(value, p) := ReadString16_or_empty p in (true, SetParam key (VString (Str16ToStr8 value)) w, p).
Definition ReadFromParcelBool (key : string) (w : DistributedWantParams) (p : Parcel) : Reading := read_as (ReadNum W8 p) (fun z => VNum NBool (bool_of z)) key w p.
Definition ReadFromParcelInt8 (key : string) (w : DistributedWantParams) (p : Parcel) : Reading := read_as (ReadNum W8 p) (VNum NByte) key w p.
Definition ReadFromParcelChar (key : string) (w : DistributedWantParams) (p : Parcel) : Reading := read_as (ReadInt32 p) (VNum NChar) key w p.
Definition ReadFromParcelShort (key : string) (w : DistributedWantParams) (p : Parcel) : Reading := read_as (ReadNum W16 p) (VNum NShort) key w p.
Definition ReadFromParcelInt (key : string) (w : DistributedWantParams) (p : Parcel) : Reading := read_as (ReadInt32 p) (VNum NInt) key w p.
(** A number of 64 bits arrives as a text. *)
Definition ReadFromParcelLong (key : string) (w : DistributedWantParams) (p : Parcel) : Reading := read_as (ReadNum W64 p) (fun z => VString (signed_to_string z)) key w p.
Definition ReadFromParcelFloat (key : string) (w : DistributedWantParams) (p : Parcel) : Reading := read_as (ReadNum WFloat p) (VNum NFloat) key w p.
Definition ReadFromParcelDouble (key : string) (w : DistributedWantParams) (p : Parcel) : Reading := read_as (ReadNum WDouble p) (VNum NDouble) key w p.

Definition ReadFromParcelFD (key : string) (w : DistributedWantParams) (p : Parcel) : Reading :=
  let '(fd, p) := ReadFileDescriptor p in
  let wp := SetParam VALUE_PROPERTY (VNum NInt fd) (SetParam TYPE_PROPERTY (VString FD) Params_new) in
  (true, SetParam key (Wrapper_Box wp) w, p).
Definition ReadFromParcelRemoteObject (key : string) (w : DistributedWantParams) (p : Parcel) : Reading :=
  let '(remoteObject, p) := match ReadRemoteObject p with Some (o, p) => (Some o, p) | None => (None, p) end in
  let wp := SetParam VALUE_PROPERTY (VRemote remoteObject) (SetParam TYPE_PROPERTY (VString REMOTE_OBJECT) Params_new) in
  (true, SetParam key (Wrapper_Box wp) w, p).
Definition ReadFromParcelWantParamWrapper (fuel : nat) (key : string) (type : Z) (w : DistributedWantParams) (p : Parcel) : option Reading :=
  if type =? VALUE_TYPE_FD then Some (ReadFromParcelFD key w p)
  else if type =? VALUE_TYPE_REMOTE_OBJECT then Some (ReadFromParcelRemoteObject key w p)
  else
    let '(value, p) := ReadString16_or_empty p in
    intf ← Parse fuel (chars (Str16ToStr8 value));
    Some (true, match intf with VNull => w | _ => SetParam key intf w end, p).

Definition ReadFromParcelArrayString (p : Parcel) : option (Value * Parcel) := '(l, p) ← ReadString16Vector p; Some (VStrings (map Str16ToStr8 l), p).
Definition ReadFromParcelArrayBool (p : Parcel) : option (Value * Parcel) := '(l, p) ← ReadInt32Vector p; Some (VNums NBool (map (fun z => bool_of (i8 z)) l), p).
Definition ReadFromParcelArrayByte (p : Parcel) : option (Value * Parcel) := '(l, p) ← ReadNums W8 p; Some (VNums NByte l, p).
Definition ReadFromParcelArrayChar (p : Parcel) : option (Value * Parcel) := '(l, p) ← ReadInt32Vector p; Some (VNums NChar l, p).
Definition ReadFromParcelArrayShort (p : Parcel) : option (Value * Parcel) := '(l, p) ← ReadNums W16 p; Some (VNums NShort l, p).
Definition ReadFromParcelArrayInt (p : Parcel) : option (Value * Parcel) := '(l, p) ← ReadInt32Vector p; Some (VNums NInt l, p).
Definition ReadFromParcelArrayLong (p : Parcel) : option (Value * Parcel) := '(l, p) ← ReadNums W64 p; Some (VStrings (map signed_to_string l), p).
Definition ReadFromParcelArrayFloat (p : Parcel) : option (Value * Parcel) := '(l, p) ← ReadNums WFloat p; Some (VNums NFloat l, p).
Definition ReadFromParcelArrayDouble (p : Parcel) : option (Value * Parcel) := '(l, p) ← ReadNums WDouble p; Some (VNums NDouble l, p).
(** The array, null for a type that is not known. *)
Definition ReadArrayToParcel (type : Z) (p : Parcel) : option (Value * Parcel) :=
  if (type =? VALUE_TYPE_STRINGARRAY) || (type =? VALUE_TYPE_CHARSEQUENCEARRAY) then ReadFromParcelArrayString p
  else if type =? VALUE_TYPE_BOOLEANARRAY then ReadFromParcelArrayBool p
  else if type =? VALUE_TYPE_BYTEARRAY then ReadFromParcelArrayByte p
  else if type =? VALUE_TYPE_CHARARRAY then ReadFromParcelArrayChar p
  else if type =? VALUE_TYPE_SHORTARRAY then ReadFromParcelArrayShort p
  else if type =? VALUE_TYPE_INTARRAY then ReadFromParcelArrayInt p
  else if type =? VALUE_TYPE_LONGARRAY then ReadFromParcelArrayLong p
  else if type =? VALUE_TYPE_FLOATARRAY then ReadFromParcelArrayFloat p
  else if type =? VALUE_TYPE_DOUBLEARRAY then ReadFromParcelArrayDouble p
  else Some (VNull, p).

Definition ReadUnsupportedData (key : string) (type : Z) (w : DistributedWantParams) (p : Parcel) : Reading :=
  match ReadInt32 p with
  | None => (false, w, p)
  | Some (bufferSize, p) =>
      if (bufferSize <? 0) || (maxAllowedSize <? bufferSize) then (false, w, p)
      else
        match ReadInt32 p with
        | None => (false, w, p)
        | Some (_, p) =>
            match ReadUnpadBuffer bufferSize p with
            | None => (false, w, p)
            | Some (bufferP, p) =>
                match memcpy_s (Some (zeros bufferSize)) 0 bufferSize (Some bufferP) 0 bufferSize with
                | MemOk buffer =>
                    let dData := {| ud_key := Str8ToStr16 key; ud_type := type; ud_size := bufferSize; ud_buffer := buffer |} in
                    (true, {| params_ := params_ w; cachedUnsupportedData_ := cachedUnsupportedData_ w ++ [dData] |}, p)
                | _ => (false, w, p)
                end
            end
        end
  end.

Definition ReadFromParcelParam (fuel : nat) (key : string) (type : Z) (w : DistributedWantParams) (p : Parcel) : option Reading :=
  if (type =? VALUE_TYPE_CHARSEQUENCE) || (type =? VALUE_TYPE_STRING) then Some (ReadFromParcelString key w p)
  else if type =? VALUE_TYPE_BOOLEAN then Some (ReadFromParcelBool key w p)
  else if type =? VALUE_TYPE_BYTE then Some (ReadFromParcelInt8 key w p)
  else if type =? VALUE_TYPE_CHAR then Some (ReadFromParcelChar key w p)
  else if type =? VALUE_TYPE_SHORT then Some (ReadFromParcelShort key w p)
  else if type =? VALUE_TYPE_INT then Some (ReadFromParcelInt key w p)
  else if type =? VALUE_TYPE_LONG then Some (ReadFromParcelLong key w p)
  else if type =? VALUE_TYPE_FLOAT then Some (ReadFromParcelFloat key w p)
  else if type =? VALUE_TYPE_DOUBLE then Some (ReadFromParcelDouble key w p)
  else if (type =? VALUE_TYPE_WANTPARAMS) || (type =? VALUE_TYPE_FD) || (type =? VALUE_TYPE_REMOTE_OBJECT) then
    ReadFromParcelWantParamWrapper fuel key type w p
  else if type =? VALUE_TYPE_NULL then Some (true, w, p)
  else if (type =? VALUE_TYPE_PARCELABLE) || (type =? VALUE_TYPE_PARCELABLEARRAY) || (type =? VALUE_TYPE_SERIALIZABLE) || (type =? VALUE_TYPE_LIST) then
    Some (ReadUnsupportedData key type w p)
  else
    Some (match ReadArrayToParcel type p with
    | None => (false, w, p)
    | Some (VNull, p) => (true, w, p)
    | Some (ao, p) => (true, SetParam key ao w, p)
    end).

Fixpoint read_params (fuel n : nat) (w : DistributedWantParams) (p : Parcel) : option Reading :=
  match n with
  | O => Some (true, w, p)
  | S n =>
      let '(key, p) := ReadString16_or_empty p in
      match ReadInt32 p with
      | None => Some (false, w, p)
      | Some (type, p) =>
          '(ok, w, p) ← ReadFromParcelParam fuel (Str16ToStr8 key) type w p;
          if ok : bool then read_params fuel n w p else Some (false, w, p)
      end
  end.
Definition ReadFromParcel (fuel : nat) (w : DistributedWantParams) (p : Parcel) : option Reading :=
  match ReadInt32 p with
  | None => Some (false, w, p)
  | Some (size, p) =>
      if i32 (GetDataSize p) <? size then Some (false, w, p) else read_params fuel (Z.to_nat size) w p
  end.
(** The parameters, [None] for null. *)
Definition Params_Unmarshalling (fuel : nat) (p : Parcel) : option (option DistributedWantParams * Parcel) :=
  '(ok, w, p) ← ReadFromParcel fuel Params_new p; Some (if ok : bool then Some w else None, p).
End Marshal.

(** * Theorems about the parameters of a want in a message. *)

#[local] Open Scope string_scope.
#[local] Open Scope list_scope.
#[local] Open Scope Z_scope.

Section RoundTrip.
Context {T16 : Text16} {TL : Text16Laws} {IP : @IpcParcel T16} {IPL : IpcParcelLaws} {VA : ValueApi} {CV : ConvertEnv}.
Hypothesis room : roomy.
Hypothesis no_range : forall s, errno_ERANGE s = false.

(** ** What can be sent, what is sent and what arrives *)

Definition is_bool (z : Z) : Prop := z = 0 \/ z = 1.
Definition fd_params (fd : Z) : params := [(TYPE_PROPERTY, VString FD); (VALUE_PROPERTY, VNum NInt fd)].
Definition object_params (o : Z) : params := [(TYPE_PROPERTY, VString REMOTE_OBJECT); (VALUE_PROPERTY, VRemote (Some o))].
(** Nested parameters that are no file descriptor and no object of another process. *)
Definition plain_params (l : params) : Prop :=
  match mfind TYPE_PROPERTY l with Some (VString s) => s <> FD /\ s <> REMOTE_OBJECT | _ => True end.

Inductive sendable : Value -> Prop :=
  | send_string s : utf8 s -> sendable (VString s)
  | send_bool z : is_bool z -> sendable (VNum NBool z)
  | send_num k z : k <> NBool -> sendable (VNum k z)
  | send_bools l : Forall is_bool l -> sendable (VNums NBool l)
  | send_nums k l : k <> NBool -> sendable (VNums k l)
  | send_strings l : Forall utf8 l -> sendable (VStrings l)
  | send_fd fd : sendable (VParams (fd_params fd))
  | send_object o : sendable (VParams (object_params o))
  | send_params l : textual (VParams l) -> stable (VParams l) -> short (value_text (VParams l)) -> utf8 (Wrapper_ToString (VParams l)) -> plain_params l -> sendable (VParams l).

(** The type and the value in the message. *)
Definition wire (v : Value) : Z * Item :=
  match v with
  | VString s => (VALUE_TYPE_STRING, IStr16 (Str8ToStr16 s))
  | VNum NBool z => (VALUE_TYPE_BOOLEAN, INum W8 z)
  | VNum NByte z => (VALUE_TYPE_BYTE, INum W8 z)
  | VNum NChar z => (VALUE_TYPE_CHAR, IInt z)
  | VNum NShort z => (VALUE_TYPE_SHORT, INum W16 z)
  | VNum NInt z => (VALUE_TYPE_INT, IInt z)
  | VNum NLong z => (VALUE_TYPE_LONG, INum W64 z)
  | VNum NFloat z => (VALUE_TYPE_FLOAT, INum WFloat z)
  | VNum NDouble z => (VALUE_TYPE_DOUBLE, INum WDouble z)
  | VStrings l => (VALUE_TYPE_STRINGARRAY, IStr16Vec (map Str8ToStr16 l))
  | VNums NBool l => (VALUE_TYPE_BOOLEANARRAY, IInts l)
  | VNums NByte l => (VALUE_TYPE_BYTEARRAY, INums W8 l)
  | VNums NChar l => (VALUE_TYPE_CHARARRAY, IInts l)
  | VNums NShort l => (VALUE_TYPE_SHORTARRAY, INums W16 l)
  | VNums NInt l => (VALUE_TYPE_INTARRAY, IInts l)
  | VNums NLong l => (VALUE_TYPE_LONGARRAY, INums W64 l)
  | VNums NFloat l => (VALUE_TYPE_FLOATARRAY, INums WFloat l)
  | VNums NDouble l => (VALUE_TYPE_DOUBLEARRAY, INums WDouble l)
  | VParams l =>
      match mfind TYPE_PROPERTY l, mfind VALUE_PROPERTY l with
      | Some (VString t), Some (VNum NInt fd) =>
          if String.eqb t FD then (VALUE_TYPE_FD, IFd fd) else (VALUE_TYPE_WANTPARAMS, IStr16 (Str8ToStr16 (Wrapper_ToString v)))
      | Some (VString t), Some (VRemote (Some o)) =>
          if String.eqb t REMOTE_OBJECT then (VALUE_TYPE_REMOTE_OBJECT, IObject o) else (VALUE_TYPE_WANTPARAMS, IStr16 (Str8ToStr16 (Wrapper_ToString v)))
      | _, _ => (VALUE_TYPE_WANTPARAMS, IStr16 (Str8ToStr16 (Wrapper_ToString v)))
      end
  | _ => (VALUE_TYPE_NULL, IInt 0)
  end.
(** Numbers of 64 bits arrive as texts. *)
Definition received (v : Value) : Value :=
  match v with
  | VNum NLong z => VString (signed_to_string z)
  | VNums NLong l => VStrings (map signed_to_string l)
  | _ => v
  end.

Lemma plain_wire l : plain_params l -> wire (VParams l) = (VALUE_TYPE_WANTPARAMS, IStr16 (Str8ToStr16 (Wrapper_ToString (VParams l)))).
Proof.
  unfold plain_params, wire. destruct (mfind TYPE_PROPERTY l) as [[| |s| | | | | |]|]; try done. intros [H1 H2].
  destruct (mfind VALUE_PROPERTY l) as [[|[]| | | | |[o|]| |]|]; try done; by destruct (String.eqb_spec s FD), (String.eqb_spec s REMOTE_OBJECT).
Qed.
Lemma typed_ok ty x p : exists p', typed ty x p = Some p' /\ items p' = items p ++ [IInt ty; x].
Proof.
  unfold typed. destruct (roomy_write (IInt ty) p room) as (p1 & -> & E1). cbn [mbind option_bind].
  destruct (roomy_write x p1 room) as (p2 & -> & E2). exists p2. split; [done|]. by rewrite E2, E1, <- app_assoc.
Qed.

Lemma write_sendable v p : sendable v -> exists p', WriteMarshalling v p = Some p' /\ items p' = items p ++ [IInt (fst (wire v)); snd (wire v)].
Proof.
  destruct 1 as [s Hs|z Hz|k z Hk|l Hl|k l Hk|l Hl|fd|o|l Hx Hst Hsh Hu Hp]; try apply typed_ok.
  - destruct k; try done; apply typed_ok.
  - destruct k; try done; apply typed_ok.
  - rewrite plain_wire by done. cbn [WriteMarshalling]. unfold WriteToParcelWantParams, Wrapper_Unbox, Params_assign, GetParam. cbn [params_ set_params Params_new].
    assert (NewParams l = l) as -> by (unfold stable in Hst; rewrite NewValue_params in Hst; by injection Hst). unfold plain_params in Hp.
    destruct (mfind TYPE_PROPERTY l) as [[| |s| | | | | |]|]; cbn [from_option id]; try apply typed_ok. destruct Hp as [H1 H2].
    destruct (String.eqb_spec s FD); [done|]. destruct (String.eqb_spec s REMOTE_OBJECT); [done|]. apply typed_ok.
Qed.

(** ** Reading a parameter *)

Lemma map_back l : Forall utf8 l -> map Str16ToStr8 (map Str8ToStr16 l) = l.
Proof. induction 1 as [|s l Hs _ IH]; [done|]. cbn. by rewrite text_back, IH. Qed.
Lemma bools_back l : Forall is_bool l -> map (fun z => bool_of (i8 z)) l = l.
Proof. induction 1 as [|z l Hz _ IH]; [done|]. cbn [map]. rewrite IH. f_equal. by destruct Hz as [-> | ->]. Qed.

(** Enough fuel gives the result. *)
Definition eventually {A} (g : nat -> A) (x : A) : Prop := exists f0, forall f, (f0 <= f)%nat -> g f = x.

Lemma read_sendable v key w q r : sendable v -> items q = snd (wire v) :: r ->
  exists q', items q' = r /\ eventually (fun f => ReadFromParcelParam f key (fst (wire v)) w q) (Some (true, SetParam key (received v) w, q')).
Proof.
  destruct 1 as [s Hs|z Hz|k z Hk|l Hl|k l Hk|l Hl|fd|o|l Hx Hst Hsh Hu Hp]; intros Hq.
  - destruct (read_str16 _ _ _ Hq) as (q' & E & Hq'). exists q'. split; [done|]. exists O. intros f _. cbn. unfold ReadFromParcelString, ReadString16_or_empty. rewrite E. cbn. by rewrite text_back.
  - destruct (read_num _ _ _ _ Hq) as (q' & E & Hq'). exists q'. split; [done|]. exists O. intros f _. cbn. unfold ReadFromParcelBool. rewrite E. cbn. by destruct Hz as [-> | ->].
  - destruct k; [done| | | | | | |]; cbn [wire snd] in Hq;
      (destruct (read_int _ _ _ Hq) as (q' & E & Hq') || destruct (read_num _ _ _ _ Hq) as (q' & E & Hq')); exists q'; (split; [done|]); exists O; intros f _; cbn;
      unfold ReadFromParcelInt8, ReadFromParcelChar, ReadFromParcelShort, ReadFromParcelInt, ReadFromParcelLong, ReadFromParcelFloat, ReadFromParcelDouble; by rewrite E.
  - destruct (read_ints _ _ _ Hq) as (q' & E & Hq'). exists q'. split; [done|]. exists O. intros f _. cbn. unfold ReadFromParcelArrayBool. rewrite E. cbn. by rewrite bools_back.
  - destruct k; [done| | | | | | |]; cbn [wire snd] in Hq;
      (destruct (read_ints _ _ _ Hq) as (q' & E & Hq') || destruct (read_nums _ _ _ _ Hq) as (q' & E & Hq')); exists q'; (split; [done|]); exists O; intros f _; cbn;
      unfold ReadFromParcelArrayByte, ReadFromParcelArrayChar, ReadFromParcelArrayShort, ReadFromParcelArrayInt, ReadFromParcelArrayLong, ReadFromParcelArrayFloat, ReadFromParcelArrayDouble; by rewrite E.
  - destruct (read_vec _ _ _ Hq) as (q' & E & Hq'). exists q'. split; [done|]. exists O. intros f _. cbn. unfold ReadFromParcelArrayString. rewrite E. cbn. by rewrite map_back.
  - destruct (read_fd _ _ _ Hq) as (q' & E & Hq'). exists q'. split; [done|]. exists O. intros f _. change (Some (ReadFromParcelFD key w q) = Some (true, SetParam key (VParams (fd_params fd)) w, q')). unfold ReadFromParcelFD. by rewrite E.
  - destruct (read_object _ _ _ Hq) as (q' & E & Hq'). exists q'. split; [done|]. exists O. intros f _. change (Some (ReadFromParcelRemoteObject key w q) = Some (true, SetParam key (VParams (object_params o)) w, q')). unfold ReadFromParcelRemoteObject. by rewrite E.
  - rewrite plain_wire in * by done. cbn [snd fst] in *. destruct (read_str16 _ _ _ Hq) as (q' & E & Hq'). exists q'. split; [done|].
    destruct (nested_reads no_range _ Hx Hst) as [_ H]. destruct (H Hsh) as [f0 H0]. exists f0. intros f Hf.
    change (ReadFromParcelWantParamWrapper f key VALUE_TYPE_WANTPARAMS w q = Some (true, SetParam key (VParams l) w, q')).
    unfold ReadFromParcelWantParamWrapper, ReadString16_or_empty. change (VALUE_TYPE_WANTPARAMS =? VALUE_TYPE_FD) with false. change (VALUE_TYPE_WANTPARAMS =? VALUE_TYPE_REMOTE_OBJECT) with false. rewrite E. cbn [from_option id].
    rewrite text_back by done. unfold Wrapper_ToString. rewrite chars_str. unfold Parse. rewrite valid_text, H0 by done. cbn [fmap option_fmap option_map wrap mbind option_bind].
    unfold stable in Hst. rewrite NewValue_params in Hst. injection Hst as Es. by rewrite Es.
Qed.

(** ** All parameters *)

Definition wire_entry (e : string * Value) : list Item := [IStr16 (Str8ToStr16 (fst e)); IInt (fst (wire (snd e))); snd (wire (snd e))].
Definition wire_unsupported (d : DistributedUnsupportedData) : list Item :=
  [IStr16 (ud_key d); IInt (ud_type d); IInt (ud_size d); IInt (ud_size d); IBytes (ud_buffer d)].
Definition entries (w : DistributedWantParams) : Z := len (params_ w) + len (cachedUnsupportedData_ w).
Definition wire_all (w : DistributedWantParams) : list Item :=
  IInt (i32 (entries w)) :: concat (map wire_entry (params_ w)) ++ concat (map wire_unsupported (cachedUnsupportedData_ w)).

Definition entry_ok (e : string * Value) : Prop := utf8 (fst e) /\ sendable (snd e).
Definition unsupported_ok (d : DistributedUnsupportedData) : Prop :=
  (exists k, utf8 k /\ ud_key d = Str8ToStr16 k) /\ In (ud_type d) [VALUE_TYPE_PARCELABLE; VALUE_TYPE_PARCELABLEARRAY; VALUE_TYPE_SERIALIZABLE; VALUE_TYPE_LIST] /\
  ud_size d = len (ud_buffer d) /\ len (ud_buffer d) <= maxAllowedSize.
Record params_ok (w : DistributedWantParams) : Prop := {
  po_sorted : msorted (params_ w);
  po_entries : Forall entry_ok (params_ w);
  po_unsupported : Forall unsupported_ok (cachedUnsupportedData_ w);
}.
Definition received_all (l : params) : params := map (fun e => (fst e, received (snd e))) l.

Lemma write_params_ok l p : Forall entry_ok l -> exists p', write_params l p = Some p' /\ items p' = items p ++ concat (map wire_entry l).
Proof.
  intros H. revert p. induction H as [|[k v] l [_ Hv] _ IH]; intros p; [exists p; split; [done|by rewrite app_nil_r]|]. cbn [write_params fst snd] in *.
  destruct (roomy_write (IStr16 (Str8ToStr16 k)) p room) as (p1 & -> & E1). cbn [mbind option_bind]. destruct (write_sendable v p1 Hv) as (p2 & -> & E2). cbn [mbind option_bind].
  destruct (IH p2) as (p3 & -> & E3). exists p3. split; [done|]. rewrite E3, E2, E1, <- !app_assoc. done.
Qed.
Lemma write_unsupported_ok l p : exists p', write_unsupported l p = Some p' /\ items p' = items p ++ concat (map wire_unsupported l).
Proof.
  revert p. induction l as [|d l IH]; intros p; [exists p; split; [done|by rewrite app_nil_r]|]. cbn [write_unsupported].
  destruct (roomy_write (IStr16 (ud_key d)) p room) as (p1 & -> & E1). cbn [mbind option_bind]. destruct (roomy_write (IInt (ud_type d)) p1 room) as (p2 & -> & E2). cbn [mbind option_bind].
  destruct (roomy_write (IInt (ud_size d)) p2 room) as (p3 & -> & E3). cbn [mbind option_bind]. destruct (roomy_write (IInt (ud_size d)) p3 room) as (p4 & -> & E4). cbn [mbind option_bind].
  destruct (roomy_write (IBytes (ud_buffer d)) p4 room) as (p5 & -> & E5). cbn [mbind option_bind].
  destruct (IH p5) as (p6 & -> & E6). exists p6. split; [done|]. by rewrite E6, E5, E4, E3, E2, E1, <- !app_assoc.
Qed.
Lemma DoMarshalling_ok w p : params_ok w -> exists p', DoMarshalling w p = Some p' /\ items p' = items p ++ wire_all w.
Proof.
  intros [_ H _]. unfold DoMarshalling. destruct (roomy_write (IInt (i32 (len (params_ w) + len (cachedUnsupportedData_ w)))) p room) as (p1 & -> & E1). cbn [mbind option_bind].
  destruct (write_params_ok (params_ w) p1 H) as (p2 & -> & E2). cbn [mbind option_bind]. destruct (write_unsupported_ok (cachedUnsupportedData_ w) p2) as (p3 & -> & E3).
  exists p3. split; [done|]. by rewrite E3, E2, E1, <- !app_assoc.
Qed.

Lemma read_params_ok l : Forall entry_ok l -> forall n w q r, items q = concat (map wire_entry l) ++ r ->
  exists q', items q' = r /\ exists f0, forall f, (f0 <= f)%nat ->
    read_params f (length l + n) w q = read_params f n (set_params (foldl (fun a e => mset (fst e) (snd e) a) (params_ w) (received_all l)) w) q'.
Proof.
  induction 1 as [|[k v] l [Hk Hv] _ IH]; intros n w q r Hq; [exists q; split; [done|]; exists O; intros f _; by destruct w|]. cbn [map concat wire_entry app fst snd] in *.
  destruct (read_str16 _ _ _ Hq) as (q1 & E1 & Hq1). destruct (read_int _ _ _ Hq1) as (q2 & E2 & Hq2). destruct (read_sendable v k w q2 _ Hv Hq2) as (q3 & Hq3 & f1 & E3).
  destruct (IH n (SetParam k (received v) w) q3 r Hq3) as (q' & Hq' & f2 & H'). exists q'. split; [done|]. exists (Nat.max f1 f2). intros f Hf.
  cbn [length Nat.add read_params]. unfold ReadString16_or_empty. rewrite E1. cbn [from_option id]. rewrite E2, text_back by done. rewrite E3 by lia. cbn [mbind option_bind]. by rewrite H' by lia.
Qed.
Lemma read_unsupported_ok d q r k : unsupported_ok d -> ud_key d = Str8ToStr16 k -> items q = [IInt (ud_size d); IInt (ud_size d); IBytes (ud_buffer d)] ++ r ->
  exists q', items q' = r /\ forall w f, ReadFromParcelParam f k (ud_type d) w q = Some (true, {| params_ := params_ w; cachedUnsupportedData_ := cachedUnsupportedData_ w ++ [d] |}, q').
Proof.
  intros (_ & Ht & Hs & Hm) Hk Hq. pose proof (len_nonneg (ud_buffer d)). cbn [app] in Hq. destruct (read_int _ _ _ Hq) as (q1 & E1 & Hq1). destruct (read_int _ _ _ Hq1) as (q2 & E2 & Hq2).
  destruct (read_bytes _ _ _ Hq2) as (q3 & E3 & Hq3). exists q3. split; [done|]. intros w f.
  assert (ReadFromParcelParam f k (ud_type d) w q = Some (ReadUnsupportedData k (ud_type d) w q)) as ->.
  { cbn in Ht. by destruct Ht as [<-|[<-|[<-|[<-|[]]]]]. }
  unfold ReadUnsupportedData. rewrite E1, Hs. zb_false (len (ud_buffer d) <? 0). zb_false (maxAllowedSize <? len (ud_buffer d)). cbn [orb]. rewrite E2, E3.
  rewrite memcpy_s_ok; [|lia|lia|unfold maxAllowedSize, RSIZE_MAX in *; lia|lia|rewrite len_zeros; lia|lia].
  rewrite slice_all, splice_all by (rewrite len_zeros; lia). rewrite <- Hk, <- Hs. by destruct d.
Qed.

Lemma read_all_unsupported_ok l : Forall unsupported_ok l -> forall q r, items q = concat (map wire_unsupported l) ++ r ->
  exists q', items q' = r /\ forall w f, read_params f (length l) w q = Some (true, {| params_ := params_ w; cachedUnsupportedData_ := cachedUnsupportedData_ w ++ l |}, q').
Proof.
  induction 1 as [|d l Hd _ IH]; intros q r Hq; [exists q; split; [done|]; intros w f; rewrite app_nil_r; by destruct w|].
  assert (exists k, utf8 k /\ ud_key d = Str8ToStr16 k) as (k & Hu & Hk) by apply Hd. cbn [map concat wire_unsupported app] in Hq.
  destruct (read_str16 _ _ _ Hq) as (q1 & E1 & Hq1). destruct (read_int _ _ _ Hq1) as (q2 & E2 & Hq2).
  destruct (read_unsupported_ok d q2 (concat (map wire_unsupported l) ++ r) k Hd Hk) as (q3 & Hq3 & E3); [by rewrite Hq2|].
  destruct (IH q3 r Hq3) as (q' & Hq' & E'). exists q'. split; [done|]. intros w f.
  cbn [length read_params]. unfold ReadString16_or_empty. rewrite E1. cbn [from_option id]. rewrite E2, Hk, text_back by done. rewrite E3. cbn [mbind option_bind]. rewrite E'.
  cbn [params_ cachedUnsupportedData_]. by rewrite <- app_assoc.
Qed.

Lemma received_sorted l : msorted l -> msorted (received_all l).
Proof. apply keys_sorted. unfold received_all. by rewrite List.map_map. Qed.
Lemma wire_length w : entries w <= len (concat (map wire_entry (params_ w)) ++ concat (map wire_unsupported (cachedUnsupportedData_ w))).
Proof.
  assert (forall {A} (g : A -> list Item) l, (forall x, 1 <= len (g x)) -> len l <= len (concat (map g l))) as K.
  { intros A g l Hg. induction l as [|x l IH]; [done|]. cbn [map concat]. rewrite len_cons, len_app. specialize (Hg x). lia. }
  unfold entries. rewrite len_app. pose proof (K _ wire_entry (params_ w) ltac:(done)). pose proof (K _ wire_unsupported (cachedUnsupportedData_ w) ltac:(done)). lia.
Qed.

Lemma int_data z p p' : ReadInt32 p = Some (z, p') -> GetDataSize p' = GetDataSize p.
Proof. unfold ReadInt32. destruct (Read KInt p) as [[[] ?]|] eqn:E; try done. intros [= <- <-]. by apply read_data in E. Qed.

(** Reading does not change how much data a message has. *)
Ltac by_size := repeat match goal with H : Read _ _ = Some _ |- _ => apply read_data in H end; simplify_eq/=; congruence.
Lemma param_size f k t w p ok w' p' : ReadFromParcelParam f k t w p = Some (ok, w', p') -> GetDataSize p' = GetDataSize p.
Proof.
  unfold ReadFromParcelParam, ReadFromParcelString, ReadFromParcelBool, ReadFromParcelInt8, ReadFromParcelChar, ReadFromParcelShort, ReadFromParcelInt, ReadFromParcelLong,
    ReadFromParcelFloat, ReadFromParcelDouble, ReadFromParcelWantParamWrapper, ReadFromParcelFD, ReadFromParcelRemoteObject, ReadArrayToParcel, ReadFromParcelArrayString,
    ReadFromParcelArrayBool, ReadFromParcelArrayByte, ReadFromParcelArrayChar, ReadFromParcelArrayShort, ReadFromParcelArrayInt, ReadFromParcelArrayLong, ReadFromParcelArrayFloat,
    ReadFromParcelArrayDouble, ReadUnsupportedData, read_as, ReadString16_or_empty, ReadString16, ReadNum, ReadNums, ReadInt32, ReadInt32Vector, ReadString16Vector, ReadFileDescriptor,
    ReadRemoteObject, ReadUnpadBuffer.
  intros H. repeat (case_match; try done; simplify_eq/=); try by_size.
  all: destruct (Parse f _); simplify_eq/=; by_size.
Qed.

Lemma params_size n f w p ok w' p' : read_params f n w p = Some (ok, w', p') -> GetDataSize p' = GetDataSize p.
Proof.
  induction n as [|n IH] in w, p |- *; cbn [read_params]; [by intros [= _ _ <-]|]. unfold ReadString16_or_empty, ReadString16. intros H.
  set (k := default (empty16, p) _) in H. assert (GetDataSize k.2 = GetDataSize p) as Ek by (subst k; repeat case_match; simplify_eq/=; try done; by_size).
  destruct k as [k p1]. cbn in Ek. destruct (ReadInt32 p1) as [[t p2]|] eqn:E; [|congruence]. apply int_data in E.
  destruct (ReadFromParcelParam f _ t w p2) as [[[b w2] p3]|] eqn:E2; [|done]. apply param_size in E2. cbn in H. destruct b; [apply IH in H|]; congruence.
Qed.
Lemma Params_size f p x p' : Params_Unmarshalling f p = Some (x, p') -> GetDataSize p' = GetDataSize p.
Proof.
  unfold Params_Unmarshalling, ReadFromParcel. destruct (ReadInt32 p) as [[n p1]|] eqn:E; cbn; [|congruence]. apply int_data in E. destruct (_ <? n); cbn; [congruence|].
  destruct (read_params f _ Params_new p1) as [[[ok w] p2]|] eqn:E2; cbn; [|done]. apply params_size in E2. congruence.
Qed.

Lemma read_all_params w q r : params_ok w -> items q = wire_all w ++ r -> GetDataSize q <= 2147483647 -> exists q', items q' = r /\
    eventually (fun f => Params_Unmarshalling f q)
      (Some (Some {| params_ := received_all (params_ w); cachedUnsupportedData_ := cachedUnsupportedData_ w |}, q')).
Proof.
  intros Hw Hq Hm. destruct Hw as [Hs He Hu].
  cbn [wire_all app] in Hq. destruct (read_int _ _ _ Hq) as (q1 & E1 & Hq1). rewrite <- app_assoc in Hq1.
  destruct (read_params_ok _ He (length (cachedUnsupportedData_ w)) Params_new q1 _ Hq1) as (q2 & Hq2 & f0 & E2).
  destruct (read_all_unsupported_ok _ Hu q2 r Hq2) as (q' & Hq' & E3). exists q'. split; [done|]. exists f0. intros f Hf.
  pose proof (wire_length w) as Hl. pose proof (items_bytes q1) as Hb. pose proof (items_data q1) as Hd. rewrite <- (int_data _ _ _ E1) in Hm.
  rewrite Hq1, app_assoc, len_app in Hb. pose proof (len_nonneg r). assert (0 <= entries w) by (unfold entries; pose proof (len_nonneg (params_ w)); pose proof (len_nonneg (cachedUnsupportedData_ w)); lia).
  assert (forall z, 0 <= z <= 2147483647 -> i32 z = z) as Hi by (intros z Hz; unfold i32; rewrite Z.mod_small; lia).
  unfold Params_Unmarshalling, ReadFromParcel. rewrite E1, !Hi by lia. zb_false (GetDataSize q1 <? entries w).
  replace (Z.to_nat (entries w)) with (length (params_ w) + length (cachedUnsupportedData_ w))%nat by (unfold entries, len; lia).
  rewrite E2, E3 by lia. cbn [mbind option_bind params_ set_params Params_new cachedUnsupportedData_ app]. by rewrite foldl_mset by (by apply received_sorted).
Qed.
(** The parameters of a want that are written to a message (of less than 2 GB) are read back from
    it on another device, with the data of unknown types, and what follows in the message is
    left unread. All kinds of values arrive as they were, but for numbers of 64 bits, which
    arrive as their decimal texts. *)
Theorem params_message_roundtrip w p : params_ok w ->
  exists p', DoMarshalling w p = Some p' /\ items p' = items p ++ wire_all w /\
  forall q r, items q = wire_all w ++ r -> GetDataSize q <= 2147483647 -> exists q', items q' = r /\
    eventually (fun f => Params_Unmarshalling f q)
      (Some (Some {| params_ := received_all (params_ w); cachedUnsupportedData_ := cachedUnsupportedData_ w |}, q')).
Proof.
  intros Hw. destruct (DoMarshalling_ok w p Hw) as (p' & Ep & Hp). exists p'. split; [done|]. split; [done|]. intros q r. by apply read_all_params.
Qed.
End RoundTrip.

(** ** Witness *)

#[local] Existing Instance demo_text.
#[local] Existing Instance demo_text_laws.
#[local] Existing Instance demo_parcel.
#[local] Existing Instance demo_parcel_laws.
#[local] Existing Instance demo_value.
#[local] Existing Instance demo_convert.

Definition demo_params : DistributedWantParams := {|
  params_ := [("fd", VParams (fd_params 7)); ("flag", VNum NBool 1); ("list", VStrings ["x"; "y"]); ("nested", VParams [("c", VString "x")]); ("time", VNum NLong (-3))];
  cachedUnsupportedData_ := [{| ud_key := "u"; ud_type := VALUE_TYPE_LIST; ud_size := 2; ud_buffer := [1; 2] |}] |}.
Lemma demo_params_ok : params_ok demo_params.
Proof.
  split.
  - repeat constructor.
  - assert (sendable (VParams [("c", VString "x")])) as Hn.
    { apply send_params; [|done|by vm_compute|done|done]. repeat split; try done; repeat constructor; done. }
    constructor; [by split; [|apply send_fd]|]. constructor; [split; [done|]; apply send_bool; by right|].
    constructor; [split; [done|]; apply send_strings; by repeat constructor|]. constructor; [by split|]. constructor; [by split; [|apply send_num]|constructor].
  - constructor; [|constructor]. split; [by exists "u"|]. split; [cbn; tauto|]. split; [done|by vm_compute].
Qed.

Lemma demo_writes : roomy.
Proof. intros x p. by eexists. Qed.

Lemma demo_no_range s : errno_ERANGE s = false.
Proof. done. Qed.

Lemma params_message_roundtrip_witness : exists p, DoMarshalling demo_params Parcel_empty = Some p /\
  exists q, items q = [] /\ eventually (fun f => Params_Unmarshalling f p) (Some (Some {|
    params_ := [("fd", VParams (fd_params 7)); ("flag", VNum NBool 1); ("list", VStrings ["x"; "y"]); ("nested", VParams [("c", VString "x")]); ("time", VString "-3")];
    cachedUnsupportedData_ := cachedUnsupportedData_ demo_params |}, q)).
Proof.
  destruct (params_message_roundtrip demo_writes demo_no_range demo_params Parcel_empty demo_params_ok) as (p & Ep & Hp & H).
  exists p. split; [exact Ep|]. cbn [DoMarshalling] in Ep. destruct (H p [] ltac:(by rewrite app_nil_r, Hp)) as (q & Hq & E); [|by exists q].
  vm_compute in Ep. injection Ep as <-. by vm_compute.
Defined.
