(* ===== verification/DistWant.v ===== *)
(** A want that travels between devices: services/dtbschedmgr/src/distributedWant/
    distributed_want.cpp with distributed_operation.cpp and
    distributed_operation_builder.cpp.

    A [Uri] of the system is its text, of which the scheme is a parameter; the names of an
    ability in a message, [AAFwk::Want] and the JSON library are code of other repositories
    and appear as classes of operations. *)

From S2P Require Import Prelude StdMap SchedUtils Json ContinueInfo IpcParcel WantValue WantText WantParcel.
From Stdlib Require Import Ascii.
#[local] Open Scope string_scope.
#[local] Open Scope list_scope.
#[local] Open Scope Z_scope.

Notation Parcel := IpcParcel.Parcel.

Definition MIME_TYPE : string := "mime-type".
Definition VALUE_NULL : Z := -1.
Definition VALUE_OBJECT : Z := 1.

(** ** The operation *)

Record DistributedOperation := mkOp {
  abilityName_ : string;
  action_ : string;
  bundleName_ : string;
  deviceId_ : string;
  moduleName_ : string;
  entities_ : list string;
  flags_ : Z;
  uri_ : string;
}.
Definition Op_new : DistributedOperation := mkOp "" "" "" "" "" [] 0 "".
(** The copy constructor copies the entities and then clears them; the assignment keeps them. *)
Definition Op_copy (o : DistributedOperation) : DistributedOperation :=
  mkOp (abilityName_ o) (action_ o) (bundleName_ o) (deviceId_ o) (moduleName_ o) [] (flags_ o) (uri_ o).

Definition set_abilityName (x : string) (o : DistributedOperation) : DistributedOperation := mkOp x (action_ o) (bundleName_ o) (deviceId_ o) (moduleName_ o) (entities_ o) (flags_ o) (uri_ o).
Definition set_action (x : string) (o : DistributedOperation) : DistributedOperation := mkOp (abilityName_ o) x (bundleName_ o) (deviceId_ o) (moduleName_ o) (entities_ o) (flags_ o) (uri_ o).
Definition set_bundleName (x : string) (o : DistributedOperation) : DistributedOperation := mkOp (abilityName_ o) (action_ o) x (deviceId_ o) (moduleName_ o) (entities_ o) (flags_ o) (uri_ o).
Definition set_deviceId (x : string) (o : DistributedOperation) : DistributedOperation := mkOp (abilityName_ o) (action_ o) (bundleName_ o) x (moduleName_ o) (entities_ o) (flags_ o) (uri_ o).
Definition set_moduleName (x : string) (o : DistributedOperation) : DistributedOperation := mkOp (abilityName_ o) (action_ o) (bundleName_ o) (deviceId_ o) x (entities_ o) (flags_ o) (uri_ o).
Definition set_entities (x : list string) (o : DistributedOperation) : DistributedOperation := mkOp (abilityName_ o) (action_ o) (bundleName_ o) (deviceId_ o) (moduleName_ o) x (flags_ o) (uri_ o).
Definition set_flags (x : Z) (o : DistributedOperation) : DistributedOperation := mkOp (abilityName_ o) (action_ o) (bundleName_ o) (deviceId_ o) (moduleName_ o) (entities_ o) x (uri_ o).
Definition set_uri (x : string) (o : DistributedOperation) : DistributedOperation := mkOp (abilityName_ o) (action_ o) (bundleName_ o) (deviceId_ o) (moduleName_ o) (entities_ o) (flags_ o) x.

Definition Op_HasEntity (entity : string) (o : DistributedOperation) : bool := existsb (String.eqb entity) (entities_ o).
Definition Op_AddEntity (entity : string) (o : DistributedOperation) : DistributedOperation :=
  if Op_HasEntity entity o then o else set_entities (entities_ o ++ [entity]) o.
(** The first occurrence is erased. *)
Fixpoint erase_first (x : string) (l : list string) : list string :=
  match l with [] => [] | y :: l => if String.eqb x y then l else y :: erase_first x l end.
Definition Op_RemoveEntity (entity : string) (o : DistributedOperation) : DistributedOperation := set_entities (erase_first entity (entities_ o)) o.
Definition Op_CountEntities (o : DistributedOperation) : Z := len (entities_ o).
Definition Op_AddFlags (flags : Z) (o : DistributedOperation) : DistributedOperation := set_flags (Z.lor (flags_ o) flags) o.
(** [~flags] on 32 bits. *)
Definition Op_RemoveFlags (flags : Z) (o : DistributedOperation) : DistributedOperation := set_flags (Z.land (flags_ o) (u32 (Z.lnot flags))) o.

Definition Op_eq (a b : DistributedOperation) : bool :=
  if negb (String.eqb (abilityName_ a) (abilityName_ b)) then false
  else if negb (String.eqb (action_ a) (action_ b)) then false
  else if negb (String.eqb (bundleName_ a) (bundleName_ b)) then false
  else if negb (String.eqb (deviceId_ a) (deviceId_ b)) then false
  else if negb (String.eqb (moduleName_ a) (moduleName_ b)) then false
  else if negb (len (entities_ a) =? len (entities_ b)) then false
  else if negb (forallb (fun p => String.eqb (fst p) (snd p)) (combine (entities_ a) (entities_ b))) then false
  else if negb (flags_ a =? flags_ b) then false
  else String.eqb (uri_ a) (uri_ b).

(** ** The want *)

Section Want.
Context {T16 : Text16} {IP : @IpcParcel T16} {VA : ValueApi} {CV : ConvertEnv}.

Record DistributedWant := mkWant { operation_ : DistributedOperation; parameters_ : DistributedWantParams }.
Definition Want_new : DistributedWant := mkWant Op_new Params_new.
Definition Want_copy (w : DistributedWant) : DistributedWant := mkWant (operation_ w) (Params_assign Params_new (parameters_ w)).
Definition on_op (f : DistributedOperation -> DistributedOperation) (w : DistributedWant) : DistributedWant := mkWant (f (operation_ w)) (parameters_ w).
Definition on_params (f : DistributedWantParams -> DistributedWantParams) (w : DistributedWant) : DistributedWant := mkWant (operation_ w) (f (parameters_ w)).

(** What [AAFwk::Want] tells about itself. *)
Record WantView := { wv_element : string * string * string; wv_action : string; wv_entities : list string; wv_flags : Z; wv_uri : string; wv_params : params }.

(** [DistributedOperationBuilder] and its [build]. *)
Definition build (v : WantView) : DistributedOperation :=
  let '(device, bundle, ability) := wv_element v in
  mkOp ability (wv_action v) bundle device "" (wv_entities v) (wv_flags v) (wv_uri v).
(** [GetDataType] is that of [AAFwk::WantParams]. *)
Definition Want_of (GetDataType : Value -> Z) (v : WantView) : DistributedWant :=
  mkWant (build v) (foldl (fun p e =>
    if existsb (Z.eqb (GetDataType (snd e))) [VALUE_TYPE_BOOLEAN; VALUE_TYPE_BYTE; VALUE_TYPE_CHAR; VALUE_TYPE_SHORT; VALUE_TYPE_INT; VALUE_TYPE_LONG; VALUE_TYPE_FLOAT;
         VALUE_TYPE_DOUBLE; VALUE_TYPE_STRING; VALUE_TYPE_ARRAY; VALUE_TYPE_REMOTE_OBJECT; VALUE_TYPE_WANTPARAMS]
    then WantValue.SetParam (fst e) (snd e) p else p) Params_new (wv_params v)).

Definition GetFlags (w : DistributedWant) : Z := flags_ (operation_ w).
Definition SetFlags (flags : Z) (w : DistributedWant) : DistributedWant := on_op (set_flags flags) w.
Definition AddFlags (flags : Z) (w : DistributedWant) : DistributedWant := on_op (Op_AddFlags flags) w.
Definition RemoveFlags (flags : Z) (w : DistributedWant) : DistributedWant := on_op (Op_RemoveFlags flags) w.
(** Device, bundle and ability. *)
Definition GetElement (w : DistributedWant) : string * string * string := (deviceId_ (operation_ w), bundleName_ (operation_ w), abilityName_ (operation_ w)).
Definition SetElement (e : string * string * string) (w : DistributedWant) : DistributedWant :=
  let '(device, bundle, ability) := e in on_op (fun o => set_abilityName ability (set_bundleName bundle (set_deviceId device o))) w.
Definition SetElementName (bundleName abilityName : string) (w : DistributedWant) : DistributedWant := on_op (fun o => set_abilityName abilityName (set_bundleName bundleName o)) w.
Definition GetEntities (w : DistributedWant) : list string := entities_ (operation_ w).
Definition AddEntity (entity : string) (w : DistributedWant) : DistributedWant := on_op (Op_AddEntity entity) w.
Definition RemoveEntity (entity : string) (w : DistributedWant) : DistributedWant := on_op (Op_RemoveEntity entity) w.
Definition HasEntity (entity : string) (w : DistributedWant) : bool := Op_HasEntity entity (operation_ w).
Definition GetBundle (w : DistributedWant) : string := bundleName_ (operation_ w).
Definition SetBundle (bundleName : string) (w : DistributedWant) : DistributedWant := on_op (set_bundleName bundleName) w.
Definition GetAction (w : DistributedWant) : string := action_ (operation_ w).
Definition SetAction (action : string) (w : DistributedWant) : DistributedWant := on_op (set_action action) w.
Definition GetUriString (w : DistributedWant) : string := uri_ (operation_ w).
Definition SetUri (uri : string) (w : DistributedWant) : DistributedWant := on_op (set_uri uri) w.
Definition SetDeviceId (deviceId : string) (w : DistributedWant) : DistributedWant := on_op (set_deviceId deviceId) w.
(** [GetOperation] returns a copy. *)
Definition GetOperation (w : DistributedWant) : DistributedOperation := Op_copy (operation_ w).
Definition SetOperation (o : DistributedOperation) (w : DistributedWant) : DistributedWant := on_op (fun _ => o) w.
Definition OperationEquals (a b : DistributedWant) : bool := Op_eq (operation_ a) (operation_ b).

Definition SetParams (p : DistributedWantParams) (w : DistributedWant) : DistributedWant := on_params (fun old => Params_assign old p) w.
Definition HasParameter (key : string) (w : DistributedWant) : bool := HasParam key (parameters_ w).
Definition RemoveParam (key : string) (w : DistributedWant) : DistributedWant := on_params (Remove key) w.

(** *** Scheme of the address *)

Definition tolower (c : ascii) : ascii := if (65 <=? ascii_byte c) && (ascii_byte c <=? 90) then byte_ascii (ascii_byte c + 32) else c.
(** [find_first_of]: the first character that occurs in [set]. *)
Fixpoint find_first_of (set t : text) (i : nat) : option nat :=
  match t with [] => None | c :: t => if existsb (Ascii.eqb c) set then Some i else find_first_of set t (S i) end.
Definition GetLowerCaseScheme (GetScheme : string -> string) (uri : string) : string :=
  let scheme := GetScheme uri in
  if String.eqb uri "" || String.eqb scheme "" then uri
  else
    let low := map tolower (chars scheme) in
    if String.eqb scheme (WantText.str low) then uri
    else
      match find_first_of (chars scheme) (chars uri) O with
      | Some pos => WantText.str (take pos (chars uri) ++ low ++ drop (pos + length (chars scheme)) (chars uri))
      | None => uri
      end.
Definition FormatUri (GetScheme : string -> string) (uri : string) (w : DistributedWant) : DistributedWant := on_op (set_uri (GetLowerCaseScheme GetScheme uri)) w.

(** *** Parameters by their kind *)

(** Setters: a boxed value and a filled array. *)
Definition SetNum (k : NumKind) (key : string) (value : Z) (w : DistributedWant) : DistributedWant := on_params (WantValue.SetParam key (VNum k value)) w.
Definition SetNums (k : NumKind) (key : string) (value : list Z) (w : DistributedWant) : DistributedWant := on_params (WantValue.SetParam key (VNums k value)) w.
Definition SetString (key value : string) (w : DistributedWant) : DistributedWant := on_params (WantValue.SetParam key (VString value)) w.
Definition SetStrings (key : string) (value : list string) (w : DistributedWant) : DistributedWant := on_params (WantValue.SetParam key (VStrings value)) w.
Definition SetParam_bool : string -> Z -> DistributedWant -> DistributedWant := SetNum NBool.
Definition SetParam_bools : string -> list Z -> DistributedWant -> DistributedWant := SetNums NBool.
Definition SetParam_byte : string -> Z -> DistributedWant -> DistributedWant := SetNum NByte.
Definition SetParam_bytes : string -> list Z -> DistributedWant -> DistributedWant := SetNums NByte.
Definition SetParam_char : string -> Z -> DistributedWant -> DistributedWant := SetNum NChar.
Definition SetParam_chars : string -> list Z -> DistributedWant -> DistributedWant := SetNums NChar.
Definition SetParam_short : string -> Z -> DistributedWant -> DistributedWant := SetNum NShort.
Definition SetParam_shorts : string -> list Z -> DistributedWant -> DistributedWant := SetNums NShort.
Definition SetParam_int : string -> Z -> DistributedWant -> DistributedWant := SetNum NInt.
Definition SetParam_ints : string -> list Z -> DistributedWant -> DistributedWant := SetNums NInt.
Definition SetParam_long : string -> Z -> DistributedWant -> DistributedWant := SetNum NLong.
Definition SetParam_longs : string -> list Z -> DistributedWant -> DistributedWant := SetNums NLong.
Definition SetParam_float : string -> Z -> DistributedWant -> DistributedWant := SetNum NFloat.
Definition SetParam_floats : string -> list Z -> DistributedWant -> DistributedWant := SetNums NFloat.
Definition SetParam_double : string -> Z -> DistributedWant -> DistributedWant := SetNum NDouble.
Definition SetParam_doubles : string -> list Z -> DistributedWant -> DistributedWant := SetNums NDouble.
Definition SetParam_longlong : string -> Z -> DistributedWant -> DistributedWant := SetNum NLong.
Definition SetRemoteObject (key : string) (remoteObject : option Z) (w : DistributedWant) : DistributedWant :=
  let wp := WantValue.SetParam VALUE_PROPERTY (VRemote remoteObject) (WantValue.SetParam TYPE_PROPERTY (VString REMOTE_OBJECT) Params_new) in
  on_params (WantValue.SetParam key (Wrapper_Box wp)) w.

(** Getters: the default value if there is no value of this kind. *)
Definition get_num (k : NumKind) (key : string) (defaultValue : Z) (w : DistributedWant) : Z :=
  match GetParam key (parameters_ w) with VNum k' z => if bool_decide (k' = k) then z else defaultValue | _ => defaultValue end.
Definition get_nums (k : NumKind) (key : string) (w : DistributedWant) : list Z :=
  match GetParam key (parameters_ w) with VNums k' l => if bool_decide (k' = k) then l else [] | _ => [] end.
Definition GetBoolParam : string -> Z -> DistributedWant -> Z := get_num NBool.
Definition GetByteParam : string -> Z -> DistributedWant -> Z := get_num NByte.
Definition GetCharParam : string -> Z -> DistributedWant -> Z := get_num NChar.
Definition GetShortParam : string -> Z -> DistributedWant -> Z := get_num NShort.
Definition GetIntParam : string -> Z -> DistributedWant -> Z := get_num NInt.
Definition GetFloatParam : string -> Z -> DistributedWant -> Z := get_num NFloat.
Definition GetDoubleParam : string -> Z -> DistributedWant -> Z := get_num NDouble.
Definition GetBoolArrayParam : string -> DistributedWant -> list Z := get_nums NBool.
Definition GetByteArrayParam : string -> DistributedWant -> list Z := get_nums NByte.
Definition GetCharArrayParam : string -> DistributedWant -> list Z := get_nums NChar.
Definition GetShortArrayParam : string -> DistributedWant -> list Z := get_nums NShort.
Definition GetIntArrayParam : string -> DistributedWant -> list Z := get_nums NInt.
Definition GetFloatArrayParam : string -> DistributedWant -> list Z := get_nums NFloat.
Definition GetDoubleArrayParam : string -> DistributedWant -> list Z := get_nums NDouble.
Definition GetStringParam (key : string) (w : DistributedWant) : string := match GetParam key (parameters_ w) with VString s => s | _ => "" end.
Definition GetStringArrayParam (key : string) (w : DistributedWant) : list string := match GetParam key (parameters_ w) with VStrings l => l | _ => [] end.
Definition GetType (w : DistributedWant) : string := GetStringParam MIME_TYPE w.
(** [String::Parse] boxes the text. *)
Definition SetType (type : string) (w : DistributedWant) : DistributedWant := SetString MIME_TYPE type w.

(** The regular expression ^[-+]?([0-9]+)([.]([0-9]+))?$ *)
Fixpoint skip_digits (t : text) : text := match t with c :: t' => if is_digit c then skip_digits t' else t | [] => [] end.
Definition starts_with_digit (t : text) : bool := match t with c :: _ => is_digit c | [] => false end.
Definition NUMBER_REGEX (s : string) : bool :=
  let t := match chars s with c :: t => if Ascii.eqb c "-" || Ascii.eqb c "+" then t else c :: t | [] => [] end in
  starts_with_digit t &&
  match skip_digits t with
  | [] => true
  | c :: t => Ascii.eqb c "." && starts_with_digit t && bool_decide (skip_digits t = [])
  end.
(** What [atoll] gives for a number that does not fit. *)
Class Overflow := atoll_undefined : string -> Z.
Context {OV : Overflow}.
Definition number_of (s : string) : option Z := if NUMBER_REGEX s then Some (default (atoll_undefined s) (atoll (c_str s))) else None.
(** Numbers of 64 bits may have become texts on the way. *)
Definition GetLongParam (key : string) (defaultValue : Z) (w : DistributedWant) : Z :=
  match GetParam key (parameters_ w) with
  | VNum NLong z => z
  | VString s => default defaultValue (number_of s)
  | _ => defaultValue
  end.
Definition GetLongArrayParam (key : string) (w : DistributedWant) : list Z :=
  match GetParam key (parameters_ w) with
  | VNums NLong l => l
  | VStrings l => omap number_of l
  | _ => []
  end.

Definition ClearWant (w : DistributedWant) : DistributedWant :=
  let w := SetElement ("", "", "") (SetFlags 0 (SetAction "" (SetType "" w))) in
  SetParams Params_new (SetOperation Op_new w).

(** The calls with which the want is copied to an [AAFwk::Want]. *)
Inductive WantCall :=
  | WSetFlags (flags : Z) | WSetElement (e : string * string * string) | WSetUri (uri : string) | WSetAction (action : string)
  | WSetBundle (bundle : string) | WSetType (type : string) | WAddEntity (entity : string) | WSetParams (l : params).
Definition ToWant (w : DistributedWant) : list WantCall :=
  [WSetFlags (GetFlags w); WSetElement (GetElement w); WSetUri (GetUriString w); WSetAction (GetAction w); WSetBundle (GetBundle w); WSetType (GetType w)] ++
  map WAddEntity (GetEntities w) ++ [WSetParams (params_ (parameters_ w))].

(** ** Messages *)

(** [ElementName] in a message: device, bundle and ability. *)
Class ElementApi := {
  Element_Marshalling : string * string * string -> Parcel -> option Parcel;
  Element_Unmarshalling : Parcel -> option (string * string * string * Parcel);
}.
Context {EA : ElementApi}.

Definition MarshallingWriteUri (w : DistributedWant) (p : Parcel) : option Parcel :=
  if String.eqb (GetUriString w) "" then Write (IInt VALUE_NULL) p
  else p ← Write (IInt VALUE_OBJECT) p; Write (IStr16 (Str8ToStr16 (GetUriString w))) p.
Definition MarshallingWriteEntities (w : DistributedWant) (p : Parcel) : option Parcel :=
  match GetEntities w with
  | [] => Write (IInt VALUE_NULL) p
  | l => p ← Write (IInt VALUE_OBJECT) p; Write (IStr16Vec (map Str8ToStr16 l)) p
  end.
Definition is_empty_element (e : string * string * string) : bool := String.eqb e.1.1 "" && String.eqb e.1.2 "" && String.eqb e.2 "".
Definition MarshallingWriteElement (w : DistributedWant) (p : Parcel) : option Parcel :=
  if is_empty_element (GetElement w) then Write (IInt VALUE_NULL) p
  else p ← Write (IInt VALUE_OBJECT) p; p ← Write IMark p; Element_Marshalling (GetElement w) p.
Definition MarshallingWriteParameters (w : DistributedWant) (p : Parcel) : option Parcel :=
  if Size (parameters_ w) =? 0 then Write (IInt VALUE_NULL) p
  else p ← Write (IInt VALUE_OBJECT) p; p ← Write IMark p; DoMarshalling (parameters_ w) p.
Definition Want_Marshalling (w : DistributedWant) (p : Parcel) : option Parcel :=
  p ← Write (IStr16 (Str8ToStr16 (GetAction w))) p;
  p ← MarshallingWriteUri w p;
  p ← MarshallingWriteEntities w p;
  p ← Write (IInt (i32 (GetFlags w))) p;
  p ← MarshallingWriteElement w p;
  p ← MarshallingWriteParameters w p;
  Write (IStr16 (Str8ToStr16 (GetBundle w))) p.

(** Readers: [None] where the code returns false. *)
Definition ReadUriFromParcel (w : DistributedWant) (p : Parcel) : option (DistributedWant * Parcel) :=
  '(value, p) ← ReadInt32 p;
  if value =? VALUE_OBJECT then let '(s, p) := ReadString16_or_empty p in Some (SetUri (Str16ToStr8 s) w, p) else Some (w, p).
Definition ReadEntitiesFromParcel (w : DistributedWant) (p : Parcel) : option (DistributedWant * Parcel) :=
  '(value, p) ← ReadInt32 p;
  '(entityU16, p) ← (if value =? VALUE_OBJECT then ReadString16Vector p else Some ([], p));
  Some (on_op (set_entities (map Str16ToStr8 entityU16)) w, p).
Definition ReadElementFromParcel (w : DistributedWant) (p : Parcel) : option (DistributedWant * Parcel) :=
  '(value, p) ← ReadInt32 p;
  if value =? VALUE_OBJECT then p ← ReadMark p; '(element, p) ← Element_Unmarshalling p; Some (SetElement element w, p) else Some (w, p).
(** The outer [None] is the fuel. *)
Definition ReadParametersFromParcel (fuel : nat) (w : DistributedWant) (p : Parcel) : option (option (DistributedWant * Parcel)) :=
  match ReadInt32 p with
  | None => Some None
  | Some (empty, p) =>
      if empty =? VALUE_OBJECT then
        match ReadMark p with
        | None => Some None
        | Some p =>
            '(params, p) ← Params_Unmarshalling fuel p;
            Some (params ← params; Some (SetParams params w, p))
        end
      else Some (Some (w, p))
  end.
Definition Want_ReadFromParcel (fuel : nat) (w : DistributedWant) (p : Parcel) : option (option (DistributedWant * Parcel)) :=
  let '(action, p) := ReadString16_or_empty p in
  let before :=
    '(w, p) ← ReadUriFromParcel (SetAction (Str16ToStr8 action) w) p;
    '(w, p) ← ReadEntitiesFromParcel w p;
    '(flags, p) ← ReadInt32 p;
    ReadElementFromParcel (SetFlags (u32 flags) w) p in
  match before with
  | None => Some None
  | Some (w, p) =>
      r ← ReadParametersFromParcel fuel w p;
      match r with
      | None => Some None
      | Some (w, p) => let '(bundle, p) := ReadString16_or_empty p in Some (Some (SetBundle (Str16ToStr8 bundle) w, p))
      end
  end.
Definition Want_Unmarshalling (fuel : nat) (p : Parcel) : option (option (DistributedWant * Parcel)) := Want_ReadFromParcel fuel Want_new p.

(** ** JSON *)

(** The library: [dump], and [parse] without exceptions. *)
Class NJson := { dump : json -> string; parse : string -> option json }.
Context {NJ : NJson}.

Definition ToJson (w : DistributedWant) : json :=
  let o := operation_ w in
  JObject [("deviceId", JString (deviceId_ o)); ("bundleName", JString (bundleName_ o)); ("abilityName", JString (abilityName_ o)); ("uri", JString (uri_ o));
    ("type", JString (GetType w)); ("flags", JNumber (flags_ o)); ("action", JString (action_ o));
    ("parameters", JString (Wrapper_ToString (Wrapper_Box (parameters_ w))));
    ("entities", match entities_ o with [] => JNull | l => JArray (map JString l) end)].

Definition is_string (j : option json) : bool := match j with Some (JString _) => true | _ => false end.
Definition is_unsigned (j : option json) : bool := match j with Some (JNumber n) => 0 <=? n | _ => false end.
Definition get_str (j : json) (key : string) : string := match GetObjectItem j key with Some (JString s) => s | _ => "" end.
Definition CanReadFromJson (j : json) : bool :=
  forallb (fun key => match GetObjectItem j key with Some _ => true | None => false end)
    ["deviceId"; "bundleName"; "abilityName"; "uri"; "type"; "flags"; "action"; "parameters"; "entities"] &&
  forallb (fun key => is_string (GetObjectItem j key)) ["deviceId"; "bundleName"; "abilityName"; "uri"; "type"; "action"; "parameters"] &&
  is_unsigned (GetObjectItem j "flags").

(** How reading ends: an object, a refusal, or an exception of the JSON library that nobody
    catches. *)
Inductive JsonRead := JOk (w : DistributedWant) | JRefused | JThrows.
(** [get_to] a list of texts. *)
Fixpoint texts_of (l : list json) : option (list string) :=
  match l with [] => Some [] | JString s :: l => cons s <$> texts_of l | _ => None end.
Definition ReadFromJson (fuel : nat) (j : json) (w : DistributedWant) : option JsonRead :=
  if negb (CanReadFromJson j) then Some JRefused
  else
    let w := SetElement (get_str j "deviceId", get_str j "bundleName", get_str j "abilityName") w in
    let w := SetType (get_str j "type") (SetUri (get_str j "uri") w) in
    let w := SetFlags (match GetObjectItem j "flags" with Some (JNumber n) => u32 n | _ => 0 end) w in
    let w := SetAction (get_str j "action") w in
    l ← ParseWantParams fuel (chars (get_str j "parameters"));
    let w := SetParams {| params_ := l; cachedUnsupportedData_ := [] |} w in
    Some (match GetObjectItem j "entities" with
    | Some JNull => JOk w
    | Some (JArray a) => match texts_of a with Some l => JOk (foldl (fun w e => AddEntity e w) w l) | None => JThrows end
    | _ => JThrows
    end).
Definition Want_ToString (w : DistributedWant) : string := dump (ToJson w).
Definition FromString (fuel : nat) (s : string) : option JsonRead :=
  if String.eqb s "" then Some JRefused
  else match parse s with None => Some JRefused | Some j => ReadFromJson fuel j Want_new end.
End Want.
