(* ===== verification/DistWantProps.v ===== *)
(** Theorems about wants: what arrives on the other device, numbers of 64 bits, comparison,
    and the text of a want. *)

From S2P Require Import Prelude StdMap SchedUtils Json ContinueInfo IpcParcel WantValue WantText WantTextProps WantParcel DistWant.
From Stdlib Require Import Ascii.
#[local] Open Scope string_scope.
#[local] Open Scope list_scope.
#[local] Open Scope Z_scope.

(** ** Comparison *)

Lemma strings_eq a b : (len a =? len b) = true -> forallb (fun p : string * string => String.eqb (fst p) (snd p)) (combine a b) = true -> a = b.
Proof.
  revert b. induction a as [|x a IH]; intros [|y b]; try done; rewrite Z.eqb_eq, ?len_cons, ?len_nil; pose proof (len_nonneg a); pose proof (len_nonneg b); intros Hl; try lia.
  cbn [combine forallb fst snd]. intros [E1 E2]%andb_prop. apply String.eqb_eq in E1 as ->. f_equal. apply IH; [|done]. apply Z.eqb_eq. lia.
Qed.
Lemma strings_refl a : forallb (fun p : string * string => String.eqb (fst p) (snd p)) (combine a a) = true.
Proof. induction a as [|x a IH]; [done|]. cbn. by rewrite String.eqb_refl. Qed.
(** The comparison of operations is equality of all fields. *)
Lemma Op_eq_spec a b : Op_eq a b = true <-> a = b.
Proof.
  split.
  - unfold Op_eq. intros H. repeat match goal with H : (if negb ?c then false else _) = true |- _ => let E := fresh "E" in destruct c eqn:E; cbn [negb] in H; [|done] end.
    repeat match goal with H : String.eqb _ _ = true |- _ => apply String.eqb_eq in H end. pose proof (strings_eq _ _ E4 E5). apply Z.eqb_eq in E6.
    destruct a, b. cbn in *. by subst.
  - intros <-. unfold Op_eq. by rewrite !String.eqb_refl, !Z.eqb_refl, strings_refl.
Qed.

Section Compare.
Context {T16 : Text16} {VA : ValueApi}.
(** The comparison of parameters looks at the values of the right side only: parameters with the
    same keys and other values compare the same. *)
Lemma eq_ignores_values a a' b : map fst (params_ a) = map fst (params_ a') -> Params_eq a b = Params_eq a' b.
Proof.
  unfold Params_eq, params_eq. intros H. assert (len (params_ a) = len (params_ a')) as ->. { unfold len. rewrite <- (List.length_map fst (params_ a)), H, List.length_map. done. }
  f_equal. revert H. generalize (params_ a), (params_ a'). intros l l'. revert l'. induction l as [|e l IH]; intros [|e' l']; try done.
  cbn [map forallb]. intros [= E1 E2]. rewrite (IH l' E2), E1. f_equal. destruct (mfind (fst e') (params_ b)) as [v|]; [|done]. by destruct (depth v).
Qed.
End Compare.

(** ** Numbers of 64 bits *)

Section Long.
Context {T16 : Text16} {VA : ValueApi} {OV : Overflow}.

Definition is_long (z : Z) : Prop := -9223372036854775808 <= z <= 9223372036854775807.
Fixpoint all_digits (s : string) : bool := match s with EmptyString => true | String c s => is_digit c && all_digits s end.
Lemma digits_all fuel n acc : 0 <= n -> all_digits acc = true -> all_digits (digits fuel n acc) = true.
Proof.
  revert n acc. induction fuel as [|fuel IH]; intros n acc Hn Ha; [done|]. cbn [digits].
  assert (all_digits (String (digit (n mod 10)) acc) = true) as Hd.
  { cbn [all_digits]. rewrite Ha, andb_true_r. assert (0 <= n mod 10 < 10) by (apply Z.mod_pos_bound; lia). unfold is_digit. rewrite ascii_digit by lia. by zb_true (48 <=? 48 + n mod 10); zb_true (48 + n mod 10 <=? 57). }
  destruct (n <? 10); [done|]. apply IH; [apply Z.div_pos; lia|done].
Qed.
Lemma skip_all s : all_digits s = true -> skip_digits (chars s) = [].
Proof. induction s as [|c s IH]; [done|]. cbn. intros [-> H]%andb_prop. by apply IH. Qed.
Lemma digit_no_sign c : is_digit c = true -> Ascii.eqb c "-" || Ascii.eqb c "+" = false.
Proof. intros H. destruct (Ascii.eqb_spec c "-") as [->|]; [done|]. by destruct (Ascii.eqb_spec c "+") as [->|]. Qed.
Lemma to_string_digits n : 0 <= n -> exists c s, to_string n = String c s /\ is_digit c = true /\ all_digits s = true.
Proof.
  intros Hn. pose proof (digits_all 20 n "" Hn eq_refl) as H. unfold to_string. destruct (digits_head 19 n "" Hn) as (d & s & E & _). rewrite E in *.
  apply andb_prop in H as [H1 H2]. by exists (digit d), s.
Qed.
Lemma regex_signed z : NUMBER_REGEX (signed_to_string z) = true.
Proof.
  unfold signed_to_string. destruct (Z.ltb_spec z 0).
  - destruct (to_string_digits (- z) ltac:(lia)) as (c & s & -> & Hc & Hs). unfold NUMBER_REGEX. cbn. rewrite Hc. cbn. fold (chars s). by rewrite (skip_all s Hs).
  - destruct (to_string_digits z ltac:(lia)) as (c & s & -> & Hc & Hs). unfold NUMBER_REGEX. change (chars (String c s)) with (c :: chars s). cbv beta iota zeta. rewrite (digit_no_sign c Hc). cbn [starts_with_digit skip_digits]. rewrite Hc.
    by rewrite (skip_all s Hs).
Qed.
Lemma number_of_signed z : is_long z -> number_of (signed_to_string z) = Some z.
Proof.
  intros Hz. unfold number_of. rewrite regex_signed, c_str_no_nul; [by rewrite atoll_signed|].
  unfold signed_to_string, to_string. destruct (Z.ltb_spec z 0); [cbn [no_nul]; change (ascii_byte "-" =? 0) with false; cbn [negb andb]|]; apply digits_no_nul; (done || lia).
Qed.
Lemma omap_number l : Forall is_long l -> omap number_of (map signed_to_string l) = l.
Proof. induction 1 as [|z l Hz _ IH]; [done|]. cbn [map omap list_omap]. by rewrite number_of_signed, IH. Qed.
End Long.

(** ** The parameters that arrive *)

Section Travel.
Context {T16 : Text16} {VA : ValueApi}.
Lemma mfind_NewParams k l : msorted l -> mfind k (NewParams l) = mfind k l ≫= NewValue.
Proof.
  unfold msorted. induction 1 as [|[k' x] l Hl IH Hx]; [done|]. cbn [NewParams]. rewrite mfind_cons. cbn [fst snd].
  destruct (same_key k k') eqn:Ek.
  - cbn [mbind option_bind]. destruct (NewValue x) as [y|]; [by rewrite mfind_cons; cbn [fst snd]; rewrite Ek|].
    assert (mfind k l = None) as E; [|by rewrite IH, E]. destruct (mfind k l) as [v|] eqn:E; [exfalso|done]. destruct (mfind_In _ _ _ E) as (k2 & Hin & Hk2).
    rewrite List.Forall_forall in Hx. specialize (Hx _ Hin). cbn in Hx. rewrite (same_key_eq _ _ k2 Ek) in Hk2. apply same_key_spec in Hk2 as [H1 _]. congruence.
  - destruct (NewValue x) as [y|]; [rewrite mfind_cons; cbn [fst snd]; by rewrite Ek|done].
Qed.
Lemma mfind_received k l : mfind k (received_all l) = received <$> mfind k l.
Proof. induction l as [|[k' x] l IH]; [done|]. cbn [received_all map fst snd]. rewrite !mfind_cons. cbn [fst snd]. destruct (same_key k k'); [done|]. exact IH. Qed.
(** The value that arrives for a value that is sent. Numbers of 64 bits become texts, the
    characters of a list are cut to [char], an empty list is lost; all other values arrive
    as they are, nested parameters too. *)
Definition travelled (v : Value) : option Value :=
  match v with
  | VNums _ [] | VStrings [] => None
  | VNum NLong z => Some (VString (signed_to_string z))
  | VNums NLong l => Some (VStrings (map signed_to_string l))
  | VNums NChar l => Some (VNums NChar (map char_cast l))
  | v => Some v
  end.
Lemma sendable_travels v : sendable v -> NewValue (received v) = travelled v.
Proof.
  destruct 1 as [s Hs|z Hz|k z Hk|l Hl|k l Hk|l Hl|fd|o|l Ht Hst _ _ _]; try done; try exact Hst.
  all: try (by destruct k); try (by destruct l); by destruct k, l.
Qed.
End Travel.

(** ** Messages *)

Section Message.
Context {T16 : Text16} {TL : Text16Laws} {IP : @IpcParcel T16} {IPL : IpcParcelLaws} {VA : ValueApi} {CV : ConvertEnv} {EA : ElementApi}.
Hypothesis room : roomy.
Hypothesis no_range : forall s, errno_ERANGE s = false.

(** What the names of an ability take in a message. *)
Class ElementLaws := {
  element_wire : string * string * string -> list Item;
  element_write : forall e p, exists p', Element_Marshalling e p = Some p' /\ items p' = items p ++ element_wire e;
  element_read : forall e q r, items q = element_wire e ++ r -> exists q', Element_Unmarshalling q = Some (e, q') /\ items q' = r /\ GetDataSize q' = GetDataSize q;
}.
Context {EL : ElementLaws}.

Record want_ok (w : DistributedWant) : Prop := {
  wo_texts : utf8 (GetAction w) /\ utf8 (GetUriString w) /\ utf8 (GetBundle w) /\ Forall utf8 (GetEntities w);
  wo_flags : is_u32 (GetFlags w);
  wo_params : params_ok (parameters_ w);
}.
Definition uri_wire (w : DistributedWant) : list Item := if String.eqb (GetUriString w) "" then [IInt VALUE_NULL] else [IInt VALUE_OBJECT; IStr16 (Str8ToStr16 (GetUriString w))].
Definition entities_wire (w : DistributedWant) : list Item := match GetEntities w with [] => [IInt VALUE_NULL] | l => [IInt VALUE_OBJECT; IStr16Vec (map Str8ToStr16 l)] end.
Definition name_wire (w : DistributedWant) : list Item := if is_empty_element (GetElement w) then [IInt VALUE_NULL] else [IInt VALUE_OBJECT; IMark] ++ element_wire (GetElement w).
Definition params_wire (w : DistributedWant) : list Item := if Size (parameters_ w) =? 0 then [IInt VALUE_NULL] else [IInt VALUE_OBJECT; IMark] ++ wire_all (parameters_ w).
Definition want_wire (w : DistributedWant) : list Item :=
  [IStr16 (Str8ToStr16 (GetAction w))] ++ uri_wire w ++ entities_wire w ++ [IInt (i32 (GetFlags w))] ++ name_wire w ++ params_wire w ++ [IStr16 (Str8ToStr16 (GetBundle w))].

Lemma write_uri w p : exists p', MarshallingWriteUri w p = Some p' /\ items p' = items p ++ uri_wire w.
Proof.
  unfold MarshallingWriteUri, uri_wire. destruct (String.eqb _ ""); [apply (roomy_write _ _ room)|]. destruct (roomy_write (IInt VALUE_OBJECT) p room) as (p1 & -> & E1). cbn [mbind option_bind].
  destruct (roomy_write (IStr16 (Str8ToStr16 (GetUriString w))) p1 room) as (p2 & -> & E2). exists p2. split; [done|]. by rewrite E2, E1, <- app_assoc.
Qed.
Lemma write_entities w p : exists p', MarshallingWriteEntities w p = Some p' /\ items p' = items p ++ entities_wire w.
Proof.
  unfold MarshallingWriteEntities, entities_wire. destruct (GetEntities w) as [|x l]; [apply (roomy_write _ _ room)|]. destruct (roomy_write (IInt VALUE_OBJECT) p room) as (p1 & -> & E1). cbn [mbind option_bind].
  destruct (roomy_write (IStr16Vec (map Str8ToStr16 (x :: l))) p1 room) as (p2 & -> & E2). exists p2. split; [done|]. by rewrite E2, E1, <- app_assoc.
Qed.
Lemma write_marked (f : Parcel -> option Parcel) l p : (forall p, exists p', f p = Some p' /\ items p' = items p ++ l) ->
  exists p', (p ← Write (IInt VALUE_OBJECT) p; p ← Write IMark p; f p) = Some p' /\ items p' = items p ++ [IInt VALUE_OBJECT; IMark] ++ l.
Proof.
  intros Hf. destruct (roomy_write (IInt VALUE_OBJECT) p room) as (p1 & -> & E1). cbn [mbind option_bind]. destruct (roomy_write IMark p1 room) as (p2 & -> & E2). cbn [mbind option_bind].
  destruct (Hf p2) as (p3 & -> & E3). exists p3. split; [done|]. by rewrite E3, E2, E1, <- !app_assoc.
Qed.
Lemma write_name w p : exists p', MarshallingWriteElement w p = Some p' /\ items p' = items p ++ name_wire w.
Proof.
  unfold MarshallingWriteElement, name_wire. destruct (is_empty_element _); [apply (roomy_write _ _ room)|]. apply write_marked. intros. apply element_write.
Qed.
Lemma write_want_params w p : params_ok (parameters_ w) -> exists p', MarshallingWriteParameters w p = Some p' /\ items p' = items p ++ params_wire w.
Proof.
  intros H. unfold MarshallingWriteParameters, params_wire. destruct (_ =? 0); [apply (roomy_write _ _ room)|]. apply write_marked. intros. by apply DoMarshalling_ok.
Qed.
Lemma write_want w p : want_ok w -> exists p', Want_Marshalling w p = Some p' /\ items p' = items p ++ want_wire w.
Proof.
  intros [_ _ Hp]. unfold Want_Marshalling. destruct (roomy_write (IStr16 (Str8ToStr16 (GetAction w))) p room) as (p1 & -> & E1). cbn [mbind option_bind].
  destruct (write_uri w p1) as (p2 & -> & E2). cbn [mbind option_bind]. destruct (write_entities w p2) as (p3 & -> & E3). cbn [mbind option_bind].
  destruct (roomy_write (IInt (i32 (GetFlags w))) p3 room) as (p4 & -> & E4). cbn [mbind option_bind]. destruct (write_name w p4) as (p5 & -> & E5). cbn [mbind option_bind].
  destruct (write_want_params w p5 Hp) as (p6 & -> & E6). cbn [mbind option_bind]. destruct (roomy_write (IStr16 (Str8ToStr16 (GetBundle w))) p6 room) as (p7 & -> & E7).
  exists p7. split; [done|]. unfold want_wire. by rewrite E7, E6, E5, E4, E3, E2, E1, <- !app_assoc.
Qed.

(** *** Reading *)

Lemma read_str16_data s r q : items q = IStr16 s :: r -> exists q', ReadString16_or_empty q = (s, q') /\ items q' = r /\ GetDataSize q' = GetDataSize q.
Proof. intros H. destruct (items_read _ _ _ H) as (q' & E & Hq). exists q'. unfold ReadString16_or_empty, ReadString16. cbn in E. rewrite E. split; [done|]. split; [done|]. by apply read_data in E. Qed.
Lemma read_int_data z r q : items q = IInt z :: r -> exists q', ReadInt32 q = Some (z, q') /\ items q' = r /\ GetDataSize q' = GetDataSize q.
Proof. intros H. destruct (read_int _ _ _ H) as (q' & E & Hq). exists q'. split; [done|]. split; [done|]. by apply int_data in E. Qed.
Lemma read_mark_data r q : items q = IMark :: r -> exists q', ReadMark q = Some q' /\ items q' = r /\ GetDataSize q' = GetDataSize q.
Proof. intros H. destruct (items_read _ _ _ H) as (q' & E & Hq). exists q'. unfold ReadMark. cbn in E. rewrite E. split; [done|]. split; [done|]. by apply read_data in E. Qed.
Lemma read_vec_data v r q : items q = IStr16Vec v :: r -> exists q', ReadString16Vector q = Some (v, q') /\ items q' = r /\ GetDataSize q' = GetDataSize q.
Proof. intros H. destruct (items_read _ _ _ H) as (q' & E & Hq). exists q'. unfold ReadString16Vector. cbn in E. rewrite E. split; [done|]. split; [done|]. by apply read_data in E. Qed.

Lemma read_uri w w0 q r : utf8 (GetUriString w) -> GetUriString w0 = "" -> items q = uri_wire w ++ r ->
  exists q', ReadUriFromParcel w0 q = Some (SetUri (GetUriString w) w0, q') /\ items q' = r /\ GetDataSize q' = GetDataSize q.
Proof.
  intros Hu H0. unfold uri_wire, ReadUriFromParcel. destruct (String.eqb_spec (GetUriString w) "") as [-> |]; cbn [app]; intros Hq.
  - destruct (read_int_data _ _ _ Hq) as (q1 & -> & ? & ?). exists q1. cbn [mbind option_bind]. change (VALUE_NULL =? VALUE_OBJECT) with false. split; [|done]. destruct w0 as [[] ?]. cbn in *. by subst.
  - destruct (read_int_data _ _ _ Hq) as (q1 & -> & Hq1 & E1). cbn [mbind option_bind]. change (VALUE_OBJECT =? VALUE_OBJECT) with true. cbv iota.
    destruct (read_str16_data _ _ _ Hq1) as (q2 & -> & Hq2 & E2). exists q2. rewrite text_back by done. split; [done|]. split; [done|congruence].
Qed.
Lemma read_entities w w0 q r : Forall utf8 (GetEntities w) -> items q = entities_wire w ++ r ->
  exists q', ReadEntitiesFromParcel w0 q = Some (on_op (set_entities (GetEntities w)) w0, q') /\ items q' = r /\ GetDataSize q' = GetDataSize q.
Proof.
  unfold entities_wire, ReadEntitiesFromParcel. destruct (GetEntities w) as [|x l]; cbn [app]; intros Hu Hq.
  - destruct (read_int_data _ _ _ Hq) as (q1 & -> & ? & ?). by exists q1.
  - destruct (read_int_data _ _ _ Hq) as (q1 & -> & Hq1 & E1). cbn [mbind option_bind]. change (VALUE_OBJECT =? VALUE_OBJECT) with true. cbv iota.
    destruct (read_vec_data _ _ _ Hq1) as (q2 & -> & Hq2 & E2). exists q2. cbn [mbind option_bind]. rewrite map_back by done. split; [done|]. split; [done|congruence].
Qed.
Lemma read_name w w0 q r : GetElement w0 = ("", "", "") -> items q = name_wire w ++ r ->
  exists q', ReadElementFromParcel w0 q = Some (SetElement (GetElement w) w0, q') /\ items q' = r /\ GetDataSize q' = GetDataSize q.
Proof.
  intros H0. unfold name_wire, ReadElementFromParcel. destruct (is_empty_element (GetElement w)) eqn:Ee; cbn [app]; intros Hq.
  - destruct (read_int_data _ _ _ Hq) as (q1 & -> & ? & ?). exists q1. cbn [mbind option_bind]. change (VALUE_NULL =? VALUE_OBJECT) with false. split; [|done].
    unfold is_empty_element in Ee. apply andb_prop in Ee as [Ee E3]. apply andb_prop in Ee as [E1 E2]. apply String.eqb_eq in E1, E2, E3.
    destruct (GetElement w) as [[d b] a]. cbn in E1, E2, E3. subst. destruct w0 as [[] ?]. unfold GetElement in H0. cbn in H0. by simplify_eq.
  - destruct (read_int_data _ _ _ Hq) as (q1 & -> & Hq1 & E1). cbn [mbind option_bind]. change (VALUE_OBJECT =? VALUE_OBJECT) with true. cbv iota.
    destruct (read_mark_data _ _ Hq1) as (q2 & -> & Hq2 & E2). cbn [mbind option_bind]. destruct (element_read _ _ _ Hq2) as (q3 & -> & Hq3 & E3). exists q3. cbn [mbind option_bind]. split; [done|]. split; [done|congruence].
Qed.

(** The parameters that arrive: copied once more, without the data of unknown types. *)
Definition arrived_params (w : DistributedWant) : DistributedWantParams := {| params_ := NewParams (received_all (params_ (parameters_ w))); cachedUnsupportedData_ := [] |}.
Lemma read_want_params w w0 q r : params_ok (parameters_ w) -> parameters_ w0 = Params_new -> items q = params_wire w ++ r -> GetDataSize q <= 2147483647 ->
  exists q', items q' = r /\ GetDataSize q' = GetDataSize q /\ eventually (fun f => ReadParametersFromParcel f w0 q) (Some (Some (mkWant (operation_ w0) (arrived_params w), q'))).
Proof.
  intros Hp H0. unfold params_wire, ReadParametersFromParcel, arrived_params. destruct (Z.eqb_spec (Size (parameters_ w)) 0) as [Es|]; cbn [app]; intros Hq Hd.
  - destruct (read_int_data _ _ _ Hq) as (q1 & -> & Hq1 & E1). exists q1. split; [done|]. split; [done|]. exists O. intros f _. change (VALUE_NULL =? VALUE_OBJECT) with false. cbv iota.
    assert (params_ (parameters_ w) = []) as -> by (apply len_0_nil; unfold Size in Es; lia). cbn. destruct w0 as [o ps]. cbn in *. by subst.
  - destruct (read_int_data _ _ _ Hq) as (q1 & -> & Hq1 & E1). destruct (read_mark_data _ _ Hq1) as (q2 & E2 & Hq2 & E2').
    destruct (read_all_params no_range (parameters_ w) q2 r Hp Hq2 ltac:(congruence)) as (q' & Hq' & f0 & H'). exists q'. split; [done|].
    split; [pose proof (Params_size _ _ _ _ (H' f0 (Nat.le_refl f0))); congruence|]. exists f0. intros f Hf.
    change (VALUE_OBJECT =? VALUE_OBJECT) with true. cbv iota. rewrite E2, H' by done. cbn [mbind option_bind]. unfold SetParams, on_params, Params_assign. by rewrite H0.
Qed.

(** The want that arrives. The name of the module does not travel. *)
Definition arrived (w : DistributedWant) : DistributedWant := mkWant (set_moduleName "" (operation_ w)) (arrived_params w).

Lemma read_want w q r : want_ok w -> items q = want_wire w ++ r -> GetDataSize q <= 2147483647 ->
  exists q', items q' = r /\ GetDataSize q' = GetDataSize q /\ eventually (fun f => Want_Unmarshalling f q) (Some (Some (arrived w, q'))).
Proof.
  intros [(Ua & Uu & Ub & Ue) Hf Hps] Hq Hd.
  unfold want_wire in Hq. rewrite <- !app_assoc in Hq. destruct (read_str16_data _ _ _ Hq) as (q1 & E1 & Hq1 & D1).
  destruct (read_uri w (SetAction (GetAction w) Want_new) q1 _ Uu eq_refl Hq1) as (q2 & E2 & Hq2 & D2). destruct (read_entities w (SetUri (GetUriString w) (SetAction (GetAction w) Want_new)) q2 _ Ue Hq2) as (q3 & E3 & Hq3 & D3).
  destruct (read_int_data _ _ _ Hq3) as (q4 & E4 & Hq4 & D4).
  set (w3 := SetFlags (u32 (i32 (GetFlags w))) (on_op (set_entities (GetEntities w)) (SetUri (GetUriString w) (SetAction (GetAction w) Want_new)))).
  destruct (read_name w w3 q4 _ eq_refl Hq4) as (q5 & E5 & Hq5 & D5).
  destruct (read_want_params w (SetElement (GetElement w) w3) q5 _ Hps eq_refl Hq5 ltac:(congruence)) as (q6 & Hq6 & D6 & f0 & E6).
  destruct (read_str16_data _ _ _ Hq6) as (q7 & E7 & Hq7 & D7). exists q7. split; [done|]. split; [congruence|]. exists f0. intros f Hle.
  unfold Want_Unmarshalling, Want_ReadFromParcel. rewrite E1. cbv zeta. rewrite text_back by done. rewrite E2. cbn [mbind option_bind]. rewrite E3. cbn [mbind option_bind]. rewrite E4. cbn [mbind option_bind].
  fold w3. rewrite E5, E6 by done. cbn [mbind option_bind]. rewrite E7, text_back by done. unfold w3. assert (u32 (i32 (GetFlags w)) = GetFlags w) as -> by (unfold is_u32, u32, i32 in *; Z.div_mod_to_equations; lia).
  done.
Qed.

Lemma travelled_params w key : params_ok (parameters_ w) ->
  mfind key (params_ (parameters_ (arrived w))) = mfind key (params_ (parameters_ w)) ≫= travelled.
Proof.
  intros [Hs He _]. cbn [arrived parameters_ arrived_params params_]. rewrite mfind_NewParams by (by apply received_sorted). rewrite mfind_received.
  destruct (mfind key (params_ (parameters_ w))) as [v|] eqn:E; [|done]. cbn [fmap option_fmap option_map mbind option_bind]. apply sendable_travels.
  destruct (mfind_In _ _ _ E) as (k & Hin & _). rewrite List.Forall_forall in He. exact (proj2 (He _ Hin)).
Qed.

End Message.

(** ** What the other device gets to see *)

Section Seen.
Context {T16 : Text16} {VA : ValueApi} {OV : Overflow}.

Lemma GetParam_arrived key w : msorted (params_ (parameters_ w)) ->
  GetParam key (parameters_ (arrived w)) = default VNull (mfind key (params_ (parameters_ w)) ≫= fun v => NewValue (received v)).
Proof.
  intros H. unfold GetParam, arrived, arrived_params. cbn [parameters_ params_]. rewrite mfind_NewParams by (by apply received_sorted). rewrite mfind_received.
  by destruct (mfind key (params_ (parameters_ w))).
Qed.

(** The value of a key is a number of 64 bits or a list of them. *)
Definition is_long_value (v : Value) : bool := match v with VNum NLong _ | VNums NLong _ => true | _ => false end.
Definition long_in_range (v : Value) : Prop := match v with VNum NLong z => is_long z | VNums NLong l => Forall is_long l | _ => True end.

(** For every key, a want that has arrived in a message answers the calls for
    truth values, bytes, characters, short, normal and long numbers, numbers with a point and
    lists of them as the want that was sent, a list of characters with its characters cut to
    [char]; it answers the calls for texts and lists of texts alike too, unless the value is a
    long number or a list of them, which were turned into texts. *)
Theorem getters_survive w key : msorted (params_ (parameters_ w)) -> long_in_range (GetParam key (parameters_ w)) ->
  (forall k d, k <> NLong -> get_num k key d (arrived w) = get_num k key d w) /\
  (forall d, GetLongParam key d (arrived w) = GetLongParam key d w) /\
  (forall k, k <> NLong -> k <> NChar -> get_nums k key (arrived w) = get_nums k key w) /\
  GetCharArrayParam key (arrived w) = map char_cast (GetCharArrayParam key w) /\
  GetLongArrayParam key (arrived w) = GetLongArrayParam key w /\
  (is_long_value (GetParam key (parameters_ w)) = false ->
    GetStringParam key (arrived w) = GetStringParam key w /\ GetStringArrayParam key (arrived w) = GetStringArrayParam key w).
Proof.
  intros Hs. unfold get_num, GetLongParam, get_nums, GetCharArrayParam, get_nums, GetLongArrayParam, GetStringParam, GetStringArrayParam. rewrite GetParam_arrived by done. unfold GetParam.
  destruct (mfind key (params_ (parameters_ w))) as [v|]; cbn [from_option id mbind option_bind]; [|by repeat split].
  destruct v as [|k z|s|k l|l|l|o| |]; cbn [received NewValue from_option id long_in_range is_long_value]; intros Hr; try (by repeat split).
  - destruct k; cbn [from_option id]; try (by repeat split). split; [intros k d Hk; cbn; by rewrite bool_decide_false by congruence|]. split; [intros d; cbn; by rewrite number_of_signed|]. by repeat split.
  - destruct l as [|z l]; [destruct k; cbn; repeat split; intros; try done; by case_bool_decide|]. destruct k; cbn [received NewValue map NewArrayData from_option id]; try (by repeat split).
    + repeat split; try done. intros k Hk Hc. case_bool_decide; [congruence|done].
    + repeat split; try done; [intros k Hk Hc; case_bool_decide; [congruence|done]|]. change (omap number_of (map signed_to_string (z :: l)) = z :: l). by rewrite omap_number.
  - destruct l; by repeat split.
Qed.
End Seen.

(** ** The text of a want *)

Section Text.
Context {T16 : Text16} {VA : ValueApi} {CV : ConvertEnv} {NJ : NJson}.
(** The library reads this document back from its text. *)
Definition dumps (j : json) : Prop := parse (dump j) = Some j /\ dump j <> "".
Hypothesis leaves : forall ty s, is_params (leaf_Parse ty s) = false.

Lemma texts_strings l : texts_of (map JString l) = Some l.
Proof. induction l as [|s l IH]; [done|]. cbn. by rewrite IH. Qed.
Lemma add_entities l : NoDup l -> forall w, Forall (fun e => e ∉ GetEntities w) l -> foldl (fun w e => AddEntity e w) w l = on_op (set_entities (GetEntities w ++ l)) w.
Proof.
  induction 1 as [|x l Hx Hl IH]; intros w Hw; [rewrite app_nil_r; by destruct w as [[] ?]|]. cbn [foldl]. inversion_clear Hw as [|? ? H1 H2].
  assert (AddEntity x w = on_op (set_entities (GetEntities w ++ [x])) w) as ->.
  { unfold AddEntity, on_op, Op_AddEntity. f_equal. destruct (Op_HasEntity x (operation_ w)) eqn:E; [|done]. exfalso. apply H1. unfold Op_HasEntity in E. apply existsb_exists in E as (y & Hy & ->%String.eqb_eq). by apply list_elem_of_In. }
  rewrite IH; [cbn; by rewrite <- app_assoc|]. cbn. apply Forall_forall. intros e He. apply not_elem_of_app. split; [by eapply Forall_forall in H2|]. intros ->%list_elem_of_singleton. done.
Qed.
Lemma NewParams_flat l : flat l -> flat (NewParams l).
Proof.
  unfold flat. induction 1 as [|[k v] l Hv _ IH]; [constructor|]. cbn [NewParams]. destruct (NewValue v) as [y|] eqn:E; [|done]. constructor; [|done]. cbn in *.
  destruct v as [|? ?|?|nk nl|ls| |?| |]; cbn in E; simplify_eq; try done; [destruct nl, nk; by simplify_eq|destruct ls; by simplify_eq].
Qed.

(** A want whose entities are different from each other is read back from its text
    with its action, its address, its entities, its flags and the names of its ability, whenever
    the JSON library reads its document back and the reading of its parameters ends; and none of the parameters that are read is nested. *)
Theorem want_text_read w f l : dumps (ToJson w) -> NoDup (GetEntities w) -> is_u32 (GetFlags w) -> short (value_text (Wrapper_Box (parameters_ w))) ->
  ParseWantParams f (value_text (Wrapper_Box (parameters_ w))) = Some l ->
  FromString f (Want_ToString w) = Some (JOk (mkWant (set_moduleName "" (operation_ w)) {| params_ := NewParams l; cachedUnsupportedData_ := [] |})) /\ flat (NewParams l).
Proof.
  intros [Hd1 Hd2] Hn Hf Hs Hp. split; [|by eapply NewParams_flat, nested_params_lost; [exact leaves|exact Hs|exact Hp]]. unfold FromString, Want_ToString.
  destruct (String.eqb_spec (dump (ToJson w)) ""); [done|]. rewrite Hd1. unfold ReadFromJson.
  assert (CanReadFromJson (ToJson w) = true) as -> by (unfold is_u32, GetFlags in Hf; unfold CanReadFromJson, ToJson; cbn -[Z.leb]; by zb_true (0 <=? flags_ (operation_ w))).
  cbn [negb]. assert (get_str (ToJson w) "parameters" = Wrapper_ToString (Wrapper_Box (parameters_ w))) as -> by done. unfold Wrapper_ToString. rewrite chars_str, Hp. cbn [mbind option_bind].
  assert (u32 (flags_ (operation_ w)) = flags_ (operation_ w)) as Eu by (unfold is_u32, GetFlags, u32 in *; apply Z.mod_small; lia).
  destruct w as [[ab ac bu de mo en fl ur] ps]. cbn in Hn, Eu. destruct en as [|x en].
  - cbn. rewrite Eu. done.
  - set (en' := x :: en) in *. change (GetObjectItem (ToJson (mkWant (mkOp ab ac bu de mo en' fl ur) ps)) "entities") with (Some (JArray (map JString en'))). cbv iota.
    rewrite texts_strings, add_entities; [|done|apply Forall_forall; intros e _; cbn; apply not_elem_of_nil]. cbn. by rewrite Eu.
Qed.

(** An "entities" that is no list of texts passes the test of the object and raises an
    exception that nobody catches. *)
Lemma entities_throw f n : let j := JObject [("deviceId", JString ""); ("bundleName", JString ""); ("abilityName", JString ""); ("uri", JString ""); ("type", JString "");
    ("flags", JNumber 0); ("action", JString ""); ("parameters", JString ""); ("entities", JNumber n)] in
  dumps j -> FromString f (dump j) = Some JThrows.
Proof. intros j [H1 H2]. unfold FromString. destruct (String.eqb_spec (dump j) ""); [done|]. by rewrite H1. Qed.
End Text.

(** Taking out the operation of a want loses its entities. *)
Lemma operation_loses_entities {T16 : Text16} (w : DistributedWant) : entities_ (GetOperation w) = [] /\ (GetEntities w <> [] -> Op_eq (GetOperation w) (operation_ w) = false).
Proof. split; [done|]. intros H. destruct (Op_eq _ _) eqn:E; [|done]. apply Op_eq_spec in E. exfalso. apply H. unfold GetEntities. by rewrite <- E. Qed.

(** ** Witnesses *)

#[local] Existing Instance demo_text.
#[local] Existing Instance demo_text_laws.
#[local] Existing Instance demo_parcel.
#[local] Existing Instance demo_parcel_laws.
#[local] Existing Instance demo_value.
#[local] Existing Instance demo_convert.
#[local] Instance demo_overflow : Overflow := fun _ => 0.
(** The names as three texts. *)
#[local] Instance demo_element : ElementApi := {|
  Element_Marshalling := fun e p => p ← Write (IStr16 e.1.1) p; p ← Write (IStr16 e.1.2) p; Write (IStr16 e.2) p;
  Element_Unmarshalling := fun p => '(d, p) ← ReadString16 p; '(b, p) ← ReadString16 p; '(a, p) ← ReadString16 p; Some (d, b, a, p) |}.
#[local] Instance demo_element_laws : ElementLaws.
Proof.
  refine {| element_wire := fun e => [IStr16 e.1.1; IStr16 e.1.2; IStr16 e.2] |}.
  - intros [[d b] a] [x y]. eexists. split; [done|]. cbn. by rewrite <- !app_assoc.
  - intros [[d b] a] [x y] r H. cbn in H. subst y. eexists. split; [done|]. split; [done|]. cbn. unfold len. rewrite !length_app. cbn. lia.
Defined.

Definition demo_want : DistributedWant := mkWant (mkOp "Main" "act" "com.a" "dev" "mod" ["e1"; "e2"] 4294967295 "file://x") demo_params.
Lemma demo_want_ok : want_ok demo_want.
Proof.
  split; [|unfold is_u32; cbn; lia|exact demo_params_ok]. split; [done|]. split; [done|]. split; [done|]. apply Forall_forall. intros s _. done.
Qed.
Lemma getters_survive_witness : GetLongParam "time" 0 (arrived demo_want) = -3 /\ get_num NBool "flag" 0 (arrived demo_want) = 1.
Proof.
  destruct (getters_survive demo_want "time") as (_ & H & _); [apply demo_params_ok|by vm_compute|]. rewrite H. split; [done|].
  destruct (getters_survive demo_want "flag") as (H' & _); [apply demo_params_ok|done|]. by rewrite H'.
Defined.

(** One document, written as "j". *)
#[local] Instance demo_njson : NJson := {| dump := fun _ => "j"; parse := fun _ => Some (ToJson demo_want) |}.
Lemma want_text_read_witness : exists l, ParseWantParams 200 (value_text (Wrapper_Box (parameters_ demo_want))) = Some l /\
  FromString 200 (Want_ToString demo_want) = Some (JOk (mkWant (set_moduleName "" (operation_ demo_want)) {| params_ := NewParams l; cachedUnsupportedData_ := [] |})).
Proof.
  destruct (ParseWantParams 200 (value_text (Wrapper_Box (parameters_ demo_want)))) as [l|] eqn:E; [|by vm_compute in E]. exists l. split; [done|].
  eapply want_text_read; [| | | | |exact E].
  - intros ty s. cbn. destruct (_ =? _); [done|]. destruct (_ =? _); [|done]. by destruct (atoi s).
  - split; [reflexivity|discriminate].
  - repeat constructor; cbn; rewrite ?list_elem_of_singleton; by try apply not_elem_of_nil.
  - unfold is_u32. cbn. lia.
  - by vm_compute.
Defined.
