(* ===== verification/RemoteAbility.v ===== *)
(** Abilities of other devices: the tables of connections and calls of
    services/dtbschedmgr/src/distributed_sched_service.cpp with the part of
    distributed_sched_adapter.cpp that hands on deaths.

    An application connects to an ability of another device ([ConnectRemoteAbility]) or
    calls it ([StartRemoteAbilityByCall]) and gives a connection object. The service of
    its device, the source, keeps for each object a list of sessions, one for each
    device; the service of the other device, the sink, keeps the caller and the wrapper
    that it passes to the ability manager. Objects are numbers; a death recipient that
    is registered with an object is kept in [watches]. What the other services and
    devices answer is given for each step ([Answers]), what they are asked is recorded. *)

From S2P Require Import Prelude StdMap SchedErrors SchedUtils Json ContinueInfo ContinueSession.
#[local] Open Scope string_scope.
#[local] Open Scope list_scope.
#[local] Open Scope Z_scope.

Definition BIND_CONNECT_RETRY_TIMES : nat := 3.
Definition BIND_CONNECT_TIMEOUT : Z := 500.
Definition MAX_DISTRIBUTED_CONNECT_NUM : Z := 600.
Definition INVALID_CALLER_UID : Z := -1.
Definition DEFAULT_DMS_CONNECT_TOKEN : Z := -1.
Definition MAX_TOKEN_NUM : Z := 100000000.
Definition DISTRIBUTED_COMPONENT_ADD : Z := 1.
Definition DISTRIBUTED_COMPONENT_REMOVE : Z := 2.
Definition CALLER_TYPE_NONE : Z := 0.
Definition CALLER_TYPE_HARMONY : Z := 1.
Definition CALLER : Z := 0.
Definition CALLEE : Z := 1.
Definition CONNECT : Z := 0.
Definition CALL : Z := 1.
Definition NO_CONNECT_CALLBACK_ERR : Z := 29360130.
Definition BIND_ABILITY_UID_INVALID_ERR : Z := 29360159.
Definition BIND_ABILITY_LEAK_ERR : Z := 29360160.
Definition DMS_NOT_FOREGROUND_USER : Z := 29360236.
Definition DMS_UID_SPEC_BUNDLE_NAME : string := "dmsCallerUidBundleName".
Definition DMS_UNKNOW : Z := -1.
Definition DMS_CONTINUE : Z := 0.
Definition DMS_COLLABORATION : Z := 1.
Definition DMS_ALL : Z := 2.
Definition DMS_DSCHED_EVENT_INIT : Z := 0.
Definition DMS_DSCHED_EVENT_START : Z := 1.
Definition DMS_DSCHED_EVENT_PROCESSING : Z := 2.
Definition DMS_DSCHED_EVENT_STOP : Z := 3.
Definition DMS_DSCHED_EVENT_FINISH : Z := 4.
Definition DMS_VERSION_ID : string := "dmsVersion".
Definition DMS_VERSION : string := "5.0.0".

(** ** Data *)

(** [ElementName]. *)
Record Element := mkElement { el_device : string; el_bundle : string; el_module : string; el_ability : string }.
#[export] Instance element_eq : EqDecision Element.
Proof. solve_decision. Defined.
Definition no_element : Element := mkElement "" "" "" "".

Definition CallerInfo_default : CallerInfo := mkCallerInfo (-1) (-1) CALLER_TYPE_NONE "" (-1) "" [] (-1) 0 JNull.

(** [TargetComponent] has one value, which is left out. *)
Record ConnectAbilitySession := mkSession { sourceDeviceId_ : string; destinationDeviceId_ : string; elementsList_ : list Element; callerInfo_ : CallerInfo }.
Record ConnectInfo := mkConnectInfo { ci_callerInfo : CallerInfo; ci_callbackWrapper : Z; ci_element : Element }.
Record CallInfo := mkCallInfo { call_connectToken : Z; call_remoteDeviceId : string }.
Record ObserverInfo := mkObserver { ob_observer : Z; ob_srcDeviceId : string; ob_connectToken : Z; ob_dstBundleName : string; ob_dstAbilityName : string; ob_srcConnect : Z; ob_token : option Z }.
Record EventNotify := mkEvent {
  ev_result : Z; ev_src : string; ev_dst : string; ev_srcBundle : string; ev_srcModule : string; ev_srcAbility : string;
  ev_destBundle : string; ev_destModule : string; ev_destAbility : string; ev_developerId : string; ev_type : Z; ev_state : Z;
}.

(** The three death recipients of the service. *)
Inductive Recipient := RConnect | RCaller | RLocalCaller.
#[export] Instance recipient_eq : EqDecision Recipient.
Proof. solve_decision. Defined.

(** What the service asks of others. *)
Inductive Ask :=
  | AEvent (e : EventNotify)
  | AReportCaller (c : CallerInfo) (change component : Z)
  | AReportCallee (i : ConnectInfo) (change component : Z)
  | AConnectRemote (device : string) (connect : Z) (e : Element) (c : CallerInfo)
  | ADisconnectRemote (device : string) (connect uid : Z) (source : string)
  | ANotifyDied (device : string) (c : CallerInfo)
  | ACallRemote (device : string) (connect token : Z) (e : Element) (c : CallerInfo)
  | AReleaseRemote (device : string) (connect : Z) (e : Element) (source : string)
  | AStateChangedRemote (device : string) (state token : Z) (e : Element)
  | AConnectAbility (wrapper : Z) (e : Element)
  | ADisconnectAbility (wrapper : Z)
  | AStartByCall (wrapper : Z) (e : Element)
  | AReleaseCall (wrapper : Z) (bundle ability : string)
  | ANotifyOffline (connect : Z) (e : Element)
  | AStateChanged (connect : Z) (e : Element) (state : Z)
  | ARegisterObserver (observer : Z) (bundle : string)
  | AUnregisterObserver (observer : Z)
  | AMissionsOffline
  | AFreeInstallOffline (device : string).

(** What the others answer during a step. *)
Record Answers := {
  a_IsCallerForeground : Z -> bool;
  a_GetLocalDeviceId : option string;
  a_GetCallerAppId : Z -> option string;
  a_GetBundleNameList : Z -> option (list string);
  a_GetSpecifyBundleName : Z -> option string;
  a_GetRemoteDms : string -> bool;
  a_GetAccountInfo : Z;
  (** The result and the time of each attempt to connect. *)
  a_ConnectRemote : nat -> Z;
  a_elapsed : nat -> Z;
  a_CallRemote : Z;
  a_ReleaseRemote : Z;
  a_CallingDeviceID : string;
  a_CallingUid : Z;
  a_IsLocalCalling : bool;
  a_CheckTargetPermission : Z;
  a_ConnectAbility : Z;
  a_DisconnectAbility : Z -> Z;
  a_StartAbilityByCall : Z;
  a_ReleaseCall : Z;
  a_GetAppManager : bool;
  a_RegisterObserver : Z;
  a_GetAbilityToken : option Z;
  a_NotifyStateRemote : Z;
  (** What the comparison of an iterator that was never set gives. *)
  a_unset_iterator : bool;
}.

Record Svc := mkSvc {
  distributedConnectAbilityMap_ : zmap (list ConnectAbilitySession);
  connectAbilityMap_ : zmap ConnectInfo;
  trackingUidMap_ : zmap Z;
  calleeMap_ : zmap ConnectInfo;
  callerMap_ : zmap (list ConnectAbilitySession);
  observerMap_ : zmap ObserverInfo;
  callMap_ : zmap CallInfo;
  token_ : Z;
  bundleNameMap_ : list (string * Z);
  watches : list (Recipient * Z);
  (** The next new object. *)
  next_object : Z;
  asked : list Ask;
}.
Definition Svc_new : Svc := mkSvc [] [] [] [] [] [] [] 0 [] [] 1 [].

Definition set_connects x s := mkSvc x (connectAbilityMap_ s) (trackingUidMap_ s) (calleeMap_ s) (callerMap_ s) (observerMap_ s) (callMap_ s) (token_ s) (bundleNameMap_ s) (watches s) (next_object s) (asked s).
Definition set_sinks x s := mkSvc (distributedConnectAbilityMap_ s) x (trackingUidMap_ s) (calleeMap_ s) (callerMap_ s) (observerMap_ s) (callMap_ s) (token_ s) (bundleNameMap_ s) (watches s) (next_object s) (asked s).
Definition set_tracking x s := mkSvc (distributedConnectAbilityMap_ s) (connectAbilityMap_ s) x (calleeMap_ s) (callerMap_ s) (observerMap_ s) (callMap_ s) (token_ s) (bundleNameMap_ s) (watches s) (next_object s) (asked s).
Definition set_callees x s := mkSvc (distributedConnectAbilityMap_ s) (connectAbilityMap_ s) (trackingUidMap_ s) x (callerMap_ s) (observerMap_ s) (callMap_ s) (token_ s) (bundleNameMap_ s) (watches s) (next_object s) (asked s).
Definition set_callers x s := mkSvc (distributedConnectAbilityMap_ s) (connectAbilityMap_ s) (trackingUidMap_ s) (calleeMap_ s) x (observerMap_ s) (callMap_ s) (token_ s) (bundleNameMap_ s) (watches s) (next_object s) (asked s).
Definition set_observers x s := mkSvc (distributedConnectAbilityMap_ s) (connectAbilityMap_ s) (trackingUidMap_ s) (calleeMap_ s) (callerMap_ s) x (callMap_ s) (token_ s) (bundleNameMap_ s) (watches s) (next_object s) (asked s).
Definition set_calls x s := mkSvc (distributedConnectAbilityMap_ s) (connectAbilityMap_ s) (trackingUidMap_ s) (calleeMap_ s) (callerMap_ s) (observerMap_ s) x (token_ s) (bundleNameMap_ s) (watches s) (next_object s) (asked s).
Definition set_token x s := mkSvc (distributedConnectAbilityMap_ s) (connectAbilityMap_ s) (trackingUidMap_ s) (calleeMap_ s) (callerMap_ s) (observerMap_ s) (callMap_ s) x (bundleNameMap_ s) (watches s) (next_object s) (asked s).
Definition set_bundles x s := mkSvc (distributedConnectAbilityMap_ s) (connectAbilityMap_ s) (trackingUidMap_ s) (calleeMap_ s) (callerMap_ s) (observerMap_ s) (callMap_ s) (token_ s) x (watches s) (next_object s) (asked s).
Definition set_watches x s := mkSvc (distributedConnectAbilityMap_ s) (connectAbilityMap_ s) (trackingUidMap_ s) (calleeMap_ s) (callerMap_ s) (observerMap_ s) (callMap_ s) (token_ s) (bundleNameMap_ s) x (next_object s) (asked s).
Definition new_object s := mkSvc (distributedConnectAbilityMap_ s) (connectAbilityMap_ s) (trackingUidMap_ s) (calleeMap_ s) (callerMap_ s) (observerMap_ s) (callMap_ s) (token_ s) (bundleNameMap_ s) (watches s) (next_object s + 1) (asked s).
Definition ask (a : Ask) s := mkSvc (distributedConnectAbilityMap_ s) (connectAbilityMap_ s) (trackingUidMap_ s) (calleeMap_ s) (callerMap_ s) (observerMap_ s) (callMap_ s) (token_ s) (bundleNameMap_ s) (watches s) (next_object s) (asked s ++ [a]).
Definition ask_all (l : list Ask) (s : Svc) : Svc := foldl (fun s a => ask a s) s l.

(** A recipient may be added several times; one registration is removed at a time. *)
Fixpoint remove_watch (w : Recipient * Z) (l : list (Recipient * Z)) : list (Recipient * Z) :=
  match l with [] => [] | x :: l => if bool_decide (x = w) then l else x :: remove_watch w l end.
Definition AddDeathRecipient (r : Recipient) (connect : Z) (s : Svc) : Svc := set_watches (watches s ++ [(r, connect)]) s.
Definition RemoveDeathRecipient (r : Recipient) (connect : Z) (s : Svc) : Svc := set_watches (remove_watch (r, connect) (watches s)) s.

(** ** Sessions *)

Definition AddElement (element : Element) (session : ConnectAbilitySession) : ConnectAbilitySession :=
  if existsb (fun e => bool_decide (e = element)) (elementsList_ session) then session
  else mkSession (sourceDeviceId_ session) (destinationDeviceId_ session) (elementsList_ session ++ [element]) (callerInfo_ session).
Definition IsSameCaller (session : ConnectAbilitySession) (c : CallerInfo) : bool :=
  (caller_uid c =? caller_uid (callerInfo_ session)) && (caller_pid c =? caller_pid (callerInfo_ session)) &&
  String.eqb (caller_sourceDeviceId c) (caller_sourceDeviceId (callerInfo_ session)) && (caller_callerType c =? caller_callerType (callerInfo_ session)).

(** The element is added to the session with the device, or to a new session at the end. *)
Fixpoint add_session (source remote : string) (element : Element) (c : CallerInfo) (l : list ConnectAbilitySession) : list ConnectAbilitySession :=
  match l with
  | [] => [AddElement element (mkSession source remote [] c)]
  | x :: l => if String.eqb remote (destinationDeviceId_ x) then AddElement element x :: l else x :: add_session source remote element c l
  end.
Definition has_session (remote : string) (l : list ConnectAbilitySession) : bool := existsb (fun x => String.eqb remote (destinationDeviceId_ x)) l.
(** [std::find_if] and [erase]: the first session with the device and the list without it. *)
Fixpoint take_session (remote : string) (l : list ConnectAbilitySession) : option ConnectAbilitySession * list ConnectAbilitySession :=
  match l with
  | [] => (None, [])
  | x :: l => if String.eqb (destinationDeviceId_ x) remote then (Some x, l) else let '(f, l) := take_session remote l in (f, x :: l)
  end.

(** ** Devices *)

Definition CheckDeviceId (localDeviceId remoteDeviceId : string) : bool :=
  negb (String.eqb localDeviceId "" || String.eqb remoteDeviceId "" || String.eqb localDeviceId remoteDeviceId).
Definition CheckDeviceIdFromRemote (callingDeviceId : string) (localDeviceId destinationDeviceId sourceDeviceId : string) : bool :=
  if String.eqb localDeviceId "" || String.eqb destinationDeviceId "" || String.eqb sourceDeviceId "" then false
  else if negb (String.eqb localDeviceId destinationDeviceId) then false
  else if String.eqb sourceDeviceId destinationDeviceId || String.eqb sourceDeviceId localDeviceId then false
  else String.eqb sourceDeviceId callingDeviceId.
Definition GetRemoteDms (reached : string -> bool) (device : string) : bool := negb (String.eqb device "") && reached device.

(** ** Events for listeners *)

Definition GetCurSrcCollaborateEvent (a : Answers) (c : CallerInfo) (e : Element) (state ret : Z) : EventNotify :=
  mkEvent ret (caller_sourceDeviceId c) (el_device e) (default "" (a_GetSpecifyBundleName a (caller_uid c))) "" "" (el_bundle e) (el_module e) (el_ability e) "" DMS_COLLABORATION state.
Definition GetCurDestCollaborateEvent (c : CallerInfo) (e : Element) (state ret : Z) : EventNotify :=
  let callerBundleName := match GetObjectItem (caller_extraInfoJson c) DMS_UID_SPEC_BUNDLE_NAME with Some (JString s) => s | _ => "" end in
  mkEvent ret (caller_sourceDeviceId c) (el_device e) callerBundleName "" "" (el_bundle e) (el_module e) (el_ability e) "" DMS_COLLABORATION state.
Definition NotifyCollaborateEventWithSessions (a : Answers) (l : list ConnectAbilitySession) (state ret : Z) (s : Svc) : Svc :=
  ask_all (concat (map (fun x => map (fun e => AEvent (GetCurSrcCollaborateEvent a (callerInfo_ x) e state ret)) (elementsList_ x)) l)) s.

(** ** Connections: the side of the application *)

Definition CheckDistributedConnectLocked (c : CallerInfo) (s : Svc) : Z :=
  if caller_uid c <? 0 then BIND_ABILITY_UID_INVALID_ERR
  else match zfind (caller_uid c) (trackingUidMap_ s) with
       | Some n => if MAX_DISTRIBUTED_CONNECT_NUM <=? n then BIND_ABILITY_LEAK_ERR else ERR_OK
       | None => ERR_OK
       end.
Definition RemoteConnectAbilityMappingLocked (connect : Z) (localDeviceId remoteDeviceId : string) (e : Element) (c : CallerInfo) (s : Svc) : Svc :=
  let s :=
    match zfind connect (distributedConnectAbilityMap_ s) with
    | Some _ => s
    | None =>
        let s := set_tracking (zset (caller_uid c) (u32 (default 0 (zfind (caller_uid c) (trackingUidMap_ s)) + 1)) (trackingUidMap_ s)) s in
        ask (AReportCaller c DISTRIBUTED_COMPONENT_ADD CONNECT) (AddDeathRecipient RConnect connect s)
    end in
  let l := default [] (zfind connect (distributedConnectAbilityMap_ s)) in
  set_connects (zset connect (add_session localDeviceId remoteDeviceId e c l) (distributedConnectAbilityMap_ s)) s.
Definition DecreaseConnectLocked (uid : Z) (s : Svc) : Svc :=
  if uid <? 0 then s
  else match zfind uid (trackingUidMap_ s) with
       | None => s
       | Some conns =>
           let conns := if 0 <? conns then conns - 1 else conns in
           set_tracking (if conns =? 0 then zerase uid (trackingUidMap_ s) else zset uid conns (trackingUidMap_ s)) s
       end.
Definition GetUidLocked (l : list ConnectAbilitySession) : Z := match l with x :: _ => caller_uid (callerInfo_ x) | [] => INVALID_CALLER_UID end.

(** One attempt to connect: the result, whether another attempt follows. The connection
    is entered under the lock, which is taken anew after the other device answered. *)
Definition connect_attempt (a : Answers) (attempt : nat) (device : string) (connect : Z) (e : Element) (c : CallerInfo) (s : Svc) : Z * bool * Svc :=
  let result := a_ConnectRemote a attempt in
  let s := ask (AConnectRemote device connect e c) s in
  if result =? ERR_OK then (result, false, RemoteConnectAbilityMappingLocked connect (caller_sourceDeviceId c) device e c s)
  else if (result =? INVALID_REMOTE_PARAMETERS_ERR) || (result =? REMOTE_DEVICE_BIND_ABILITY_ERR) then (result, false, s)
  else if BIND_CONNECT_TIMEOUT <? a_elapsed a attempt then (result, false, s)
  else (result, true, s).
(** The attempts to connect: how many are left and the number of this one. *)
Fixpoint connect_loop (a : Answers) (tries attempt : nat) (device : string) (connect : Z) (e : Element) (c : CallerInfo) (result : Z) (s : Svc) : Z * Svc :=
  match tries with
  | O => (result, s)
  | S tries =>
      let '(result, again, s) := connect_attempt a attempt device connect e c s in
      if again then connect_loop a tries (S attempt) device connect e c result s else (result, s)
  end.
(** What is looked up before the first attempt. *)
Definition connect_prepare (a : Answers) (e : Element) : Z :=
  if negb (GetRemoteDms (a_GetRemoteDms a) (el_device e)) then INVALID_PARAMETERS_ERR else a_GetAccountInfo a.
Definition TryConnectRemoteAbility (a : Answers) (e : Element) (connect : option Z) (c : CallerInfo) (s : Svc) : Z * Svc :=
  match connect with
  | Some connect =>
      if negb (connect_prepare a e =? ERR_OK) then (connect_prepare a e, s)
      else connect_loop a BIND_CONNECT_RETRY_TIMES O (el_device e) connect e c REMOTE_DEVICE_BIND_ABILITY_ERR s
  | None => (INVALID_PARAMETERS_ERR, s)
  end.
(** [extraInfoJson\[k\] = v] for one key. *)
Definition version_info : json := JObject [(DMS_VERSION_ID, JString DMS_VERSION)].
(** The first part of [ConnectRemoteAbility]: the limit is checked under the lock, which
    is let go of before the attempts. An error, or the caller to connect for. *)
Definition connect_check (a : Answers) (e : Element) (callerUid callerPid accessToken : Z) (s : Svc) : Z + CallerInfo :=
  if negb (a_IsCallerForeground a callerUid) then inl DMS_NOT_FOREGROUND_USER
  else
    match a_GetLocalDeviceId a with
    | Some localDeviceId =>
        if negb (CheckDeviceId localDeviceId (el_device e)) then inl INVALID_PARAMETERS_ERR
        else
          let c := mkCallerInfo callerUid callerPid CALLER_TYPE_HARMONY localDeviceId (-1) "" [] (-1) accessToken JNull in
          let checkResult := CheckDistributedConnectLocked c s in
          if negb (checkResult =? ERR_OK) then inl checkResult
          else
            match a_GetCallerAppId a callerUid, a_GetBundleNameList a callerUid with
            | Some appId, Some names => inr (mkCallerInfo callerUid callerPid CALLER_TYPE_HARMONY localDeviceId (-1) appId names (-1) accessToken version_info)
            | _, _ => inl INVALID_PARAMETERS_ERR
            end
    | None => inl INVALID_PARAMETERS_ERR
    end.
Definition ConnectRemoteAbility (a : Answers) (e : Element) (connect : option Z) (callerUid callerPid accessToken : Z) (s : Svc) : Z * Svc :=
  match connect_check a e callerUid callerPid accessToken s with
  | inl r => (r, s)
  | inr c => TryConnectRemoteAbility a e connect c s
  end.

Definition DisconnectEachRemoteAbilityLocked (a : Answers) (connect : Z) (x : ConnectAbilitySession) (s : Svc) : Svc :=
  if GetRemoteDms (a_GetRemoteDms a) (destinationDeviceId_ x) then ask (ADisconnectRemote (destinationDeviceId_ x) connect (a_CallingUid a) (sourceDeviceId_ x)) s else s.
Definition report_removed (l : list ConnectAbilitySession) (component : Z) (s : Svc) : Svc :=
  match l with x :: _ => ask (AReportCaller (callerInfo_ x) DISTRIBUTED_COMPONENT_REMOVE component) s | [] => s end.
Definition DisconnectRemoteAbility (a : Answers) (connect : option Z) (s : Svc) : Z * Svc :=
  match connect with
  | None => (INVALID_PARAMETERS_ERR, s)
  | Some connect =>
      match zfind connect (distributedConnectAbilityMap_ s) with
      | None => (NO_CONNECT_CALLBACK_ERR, s)
      | Some l =>
          let s := RemoveDeathRecipient RConnect connect (DecreaseConnectLocked (GetUidLocked l) s) in
          let s := report_removed l CONNECT s in
          let s := set_connects (zerase connect (distributedConnectAbilityMap_ s)) s in
          match l with
          | [] => (NO_CONNECT_CALLBACK_ERR, s)
          | _ => (ERR_OK, foldl (fun s x => DisconnectEachRemoteAbilityLocked a connect x s) s l)
          end
      end
  end.

(** The application died: all connections of its process are removed and each device is
    told once. *)
Fixpoint add_devices (l : list ConnectAbilitySession) (seen : list string) : list string :=
  match l with
  | [] => seen
  | x :: l => add_devices l (if existsb (String.eqb (destinationDeviceId_ x)) seen then seen else seen ++ [destinationDeviceId_ x])
  end.
Definition first_same_caller (c : CallerInfo) (l : list ConnectAbilitySession) : bool := match l with x :: _ => IsSameCaller x c | [] => false end.
Fixpoint died_loop (c : CallerInfo) (m : zmap (list ConnectAbilitySession)) (seen : list string) (s : Svc) : list string * Svc :=
  match m with
  | [] => (seen, s)
  | (connect, l) :: m =>
      if first_same_caller c l then
        let s := RemoveDeathRecipient RConnect connect (DecreaseConnectLocked (caller_uid c) s) in
        let s := ask (AReportCaller c DISTRIBUTED_COMPONENT_REMOVE CONNECT) s in
        died_loop c m (add_devices l seen) (set_connects (zerase connect (distributedConnectAbilityMap_ s)) s)
      else died_loop c m seen s
  end.
Definition NotifyProcessDied (a : Answers) (c : CallerInfo) (device : string) (s : Svc) : Svc := if GetRemoteDms (a_GetRemoteDms a) device then ask (ANotifyDied device c) s else s.
Definition ProcessConnectDied (a : Answers) (connect : option Z) (s : Svc) : Svc :=
  match connect ≫= fun connect => zfind connect (distributedConnectAbilityMap_ s) with
  | Some (x :: _) =>
      let c := callerInfo_ x in
      let '(notifyList, s) := died_loop c (distributedConnectAbilityMap_ s) [] s in
      foldl (fun s device => NotifyProcessDied a c device s) s notifyList
  | _ => s
  end.

(** ** Connections: the side of the ability *)

(** Another type of caller than Harmony leaves the iterator unset; it is compared all
    the same. *)
Definition ConnectAbilityFromRemote (a : Answers) (e : Element) (connect : option Z) (c : CallerInfo) (s : Svc) : Z * Svc :=
  match connect, a_GetLocalDeviceId a with
  | Some connect, Some localDeviceId =>
      if negb (CheckDeviceIdFromRemote (a_CallingDeviceID a) localDeviceId (el_device e) (caller_sourceDeviceId c)) then (INVALID_REMOTE_PARAMETERS_ERR, s)
      else if negb (a_CheckTargetPermission a =? ERR_OK) then (a_CheckTargetPermission a, s)
      else
        let '(callbackWrapper, at_end, s) :=
          if caller_callerType c =? CALLER_TYPE_HARMONY then
            match zfind connect (connectAbilityMap_ s) with
            | Some i => (ci_callbackWrapper i, false, s)
            | None => (next_object s, true, new_object s)
            end
          else (connect, a_unset_iterator a, s) in
        let errCode := a_ConnectAbility a in
        let s := ask (AConnectAbility callbackWrapper e) s in
        if (errCode =? ERR_OK) && at_end then
          let i := mkConnectInfo c callbackWrapper e in
          let s := ask (AReportCallee i DISTRIBUTED_COMPONENT_ADD CONNECT) s in
          (errCode, match zfind connect (connectAbilityMap_ s) with
                    | Some _ => s
                    | None => set_sinks (zset connect i (connectAbilityMap_ s)) s
                    end)
        else (errCode, s)
  | _, _ => (INVALID_REMOTE_PARAMETERS_ERR, s)
  end.
Definition source_ok (a : Answers) (sourceDeviceId : string) : bool :=
  match a_GetLocalDeviceId a with
  | Some l => negb (String.eqb l "" || String.eqb sourceDeviceId "" || String.eqb l sourceDeviceId)
  | None => false
  end.
Definition DisconnectAbilityFromRemote (a : Answers) (connect : option Z) (sourceDeviceId : string) (s : Svc) : Z * Svc :=
  match connect with
  | None => (INVALID_REMOTE_PARAMETERS_ERR, s)
  | Some connect =>
      if negb (source_ok a sourceDeviceId) then (INVALID_REMOTE_PARAMETERS_ERR, s)
      else
        match zfind connect (connectAbilityMap_ s) with
        | Some i =>
            let s := ask (AReportCallee i DISTRIBUTED_COMPONENT_REMOVE CONNECT) s in
            (a_DisconnectAbility a (ci_callbackWrapper i),
             ask (ADisconnectAbility (ci_callbackWrapper i)) (set_sinks (zerase connect (connectAbilityMap_ s)) s))
        | None =>
            if negb (a_IsLocalCalling a) then (INVALID_REMOTE_PARAMETERS_ERR, s)
            else (a_DisconnectAbility a connect, ask (ADisconnectAbility connect) s)
        end
  end.
Definition same_process (c : CallerInfo) (i : ConnectInfo) : bool :=
  String.eqb (caller_sourceDeviceId c) (caller_sourceDeviceId (ci_callerInfo i)) && (caller_uid c =? caller_uid (ci_callerInfo i)) &&
  (caller_pid c =? caller_pid (ci_callerInfo i)) && (caller_callerType c =? caller_callerType (ci_callerInfo i)).
(** The loop that disconnects and erases the entries for which [p] holds; the result is
    the last error. *)
Fixpoint drop_sinks (a : Answers) (p : ConnectInfo -> bool) (m : zmap ConnectInfo) (errCode : Z) (s : Svc) : Z * Svc :=
  match m with
  | [] => (errCode, s)
  | (connect, i) :: m =>
      if p i then
        let ret := a_DisconnectAbility a (ci_callbackWrapper i) in
        let s := ask (AReportCallee i DISTRIBUTED_COMPONENT_REMOVE CONNECT) (ask (ADisconnectAbility (ci_callbackWrapper i)) s) in
        drop_sinks a p m (if ret =? ERR_OK then errCode else ret) (set_sinks (zerase connect (connectAbilityMap_ s)) s)
      else drop_sinks a p m errCode s
  end.
Definition NotifyProcessDiedFromRemote (a : Answers) (c : CallerInfo) (s : Svc) : Z * Svc := drop_sinks a (same_process c) (connectAbilityMap_ s) ERR_OK s.

(** ** A device goes offline *)

Definition NotifyDeviceOfflineToAppLocked (connect : Z) (x : ConnectAbilitySession) (s : Svc) : Svc := ask_all (map (ANotifyOffline connect) (elementsList_ x)) s.
Fixpoint offline_connects (deviceId : string) (m : zmap (list ConnectAbilitySession)) (s : Svc) : Svc :=
  match m with
  | [] => s
  | (connect, l) :: m =>
      let uid := GetUidLocked l in
      let '(found, l) := take_session deviceId l in
      let s := match found with Some x => NotifyDeviceOfflineToAppLocked connect x s | None => s end in
      let c := match found with Some x => callerInfo_ x | None => CallerInfo_default end in
      offline_connects deviceId m
        (match l with
         | [] =>
             let s := DecreaseConnectLocked uid (RemoveDeathRecipient RConnect connect s) in
             let s := ask (AReportCaller c DISTRIBUTED_COMPONENT_REMOVE CONNECT) s in
             set_connects (zerase connect (distributedConnectAbilityMap_ s)) s
         | _ => set_connects (zset connect l (distributedConnectAbilityMap_ s)) s
         end)
  end.
Definition RemoveConnectAbilityInfo (a : Answers) (deviceId : string) (s : Svc) : Svc :=
  let s := offline_connects deviceId (distributedConnectAbilityMap_ s) s in
  snd (drop_sinks a (fun i => String.eqb deviceId (caller_sourceDeviceId (ci_callerInfo i))) (connectAbilityMap_ s) ERR_OK s).
Fixpoint offline_callers (a : Answers) (deviceId : string) (m : zmap (list ConnectAbilitySession)) (s : Svc) : Svc :=
  match m with
  | [] => s
  | (connect, l) :: m =>
      let '(found, l) := take_session deviceId l in
      let s := match found with Some x => NotifyCollaborateEventWithSessions a [x] DMS_DSCHED_EVENT_FINISH ERR_OK s | None => s end in
      let c := match found with Some x => callerInfo_ x | None => CallerInfo_default end in
      offline_callers a deviceId m
        (match l with
         | [] =>
             let s := ask (AReportCaller c DISTRIBUTED_COMPONENT_REMOVE CALL) (RemoveDeathRecipient RLocalCaller connect s) in
             set_callers (zerase connect (callerMap_ s)) s
         | _ => set_callers (zset connect l (callerMap_ s)) s
         end)
  end.
Definition ProcessCalleeOffline (a : Answers) (deviceId : string) (s : Svc) : Svc :=
  let s := offline_callers a deviceId (callerMap_ s) s in
  set_calls (List.filter (fun e => negb (String.eqb (call_remoteDeviceId (snd e)) deviceId)) (callMap_ s)) s.
(** The mission manager and the free installs are told as well. *)
Definition ProcessDeviceOffline (a : Answers) (deviceId : string) (s : Svc) : Svc :=
  match a_GetLocalDeviceId a with
  | Some localDeviceId =>
      if CheckDeviceId localDeviceId deviceId then ask (AFreeInstallOffline deviceId) (ProcessCalleeOffline a deviceId (RemoveConnectAbilityInfo a deviceId (ask AMissionsOffline s)))
      else s
  | None => s
  end.

(** ** State of the applications of called abilities *)

Definition RegisterAppStateObserver (a : Answers) (connectToken : Z) (e : Element) (c : CallerInfo) (srcConnect callbackWrapper : Z) (s : Svc) : bool * Svc :=
  if connectToken =? DEFAULT_DMS_CONNECT_TOKEN then (false, s)
  else if negb (a_GetAppManager a) then (false, s)
  else
    let '(ok, observer, s) :=
      match mfind (el_bundle e) (bundleNameMap_ s) with
      | Some observer => (true, observer, s)
      | None =>
          let observer := next_object s in
          let s := set_bundles (mset (el_bundle e) observer (bundleNameMap_ s)) (new_object s) in
          (a_RegisterObserver a =? ERR_OK, observer, ask (ARegisterObserver observer (el_bundle e)) s)
      end in
    if ok then
      (true, set_observers (zset callbackWrapper (mkObserver observer (caller_sourceDeviceId c) connectToken (el_bundle e) (el_ability e) srcConnect None) (observerMap_ s)) s)
    else (false, s).
Definition UnregisterAppStateObserver (a : Answers) (callbackWrapper : Z) (s : Svc) : Svc :=
  match zfind callbackWrapper (observerMap_ s) with
  | None => s
  | Some o =>
      let s := set_observers (zerase callbackWrapper (observerMap_ s)) s in
      if existsb (fun e => String.eqb (ob_dstBundleName (snd e)) (ob_dstBundleName o)) (observerMap_ s) then s
      else
        let s := set_bundles (merase (ob_dstBundleName o) (bundleNameMap_ s)) s in
        if a_GetAppManager a then ask (AUnregisterObserver (ob_observer o)) s else s
  end.
Definition observes (e : Element) (token : option Z) (o : ObserverInfo) : bool :=
  String.eqb (ob_dstBundleName o) (el_bundle e) && String.eqb (ob_dstAbilityName o) (el_ability e) && bool_decide (token = ob_token o).
Definition NotifyStateChanged (a : Answers) (abilityState : Z) (e : Element) (token : option Z) (s : Svc) : Z * Svc :=
  let '(srcDeviceId, connectToken) := match zfirst (observes e token) (observerMap_ s) with Some (_, o) => (ob_srcDeviceId o, ob_connectToken o) | None => ("", 0) end in
  match a_GetLocalDeviceId a with
  | Some localDeviceId =>
      if negb (CheckDeviceId localDeviceId srcDeviceId) then (INVALID_PARAMETERS_ERR, s)
      else if negb (GetRemoteDms (a_GetRemoteDms a) srcDeviceId) then (INVALID_PARAMETERS_ERR, s)
      else (a_NotifyStateRemote a, ask (AStateChangedRemote srcDeviceId abilityState connectToken (mkElement localDeviceId (el_bundle e) (el_module e) (el_ability e))) s)
  | None => (INVALID_PARAMETERS_ERR, s)
  end.
(** On the device of the caller; the texts of the message are written without fault. *)
Definition NotifyStateChangedFromRemote (abilityState connectToken : Z) (e : Element) (s : Svc) : Z * Svc :=
  match zfirst (fun i => call_connectToken i =? connectToken) (callMap_ s) with
  | Some (connect, _) => (ERR_OK, ask (AStateChanged connect e abilityState) s)
  | None => (INVALID_PARAMETERS_ERR, s)
  end.

(** ** Calls: the side of the application *)

Definition SaveConnectToken (e : Element) (connect : Z) (s : Svc) : Z * Svc :=
  let tToken := if MAX_TOKEN_NUM <? token_ s + 1 then 1 else token_ s + 1 in
  let s := set_token tToken s in
  (tToken, set_calls (zset connect (mkCallInfo tToken (el_device e)) (callMap_ s)) s).
Definition SaveCallerComponent (a : Answers) (e : Element) (connect : Z) (c : CallerInfo) (s : Svc) : Svc :=
  let s :=
    match zfind connect (callerMap_ s) with
    | Some _ => s
    | None => ask (AReportCaller c DISTRIBUTED_COMPONENT_ADD CALL) (AddDeathRecipient RLocalCaller connect s)
    end in
  let l := default [] (zfind connect (callerMap_ s)) in
  let s' := set_callers (zset connect (add_session (caller_sourceDeviceId c) (el_device e) e c l) (callerMap_ s)) s in
  if has_session (el_device e) l then s' else ask (AEvent (GetCurSrcCollaborateEvent a c e DMS_DSCHED_EVENT_PROCESSING ERR_OK)) s'.
Definition TryStartRemoteAbilityByCall (a : Answers) (e : Element) (connect : Z) (c : CallerInfo) (s : Svc) : Z * Svc :=
  if negb (GetRemoteDms (a_GetRemoteDms a) (el_device e)) then (INVALID_PARAMETERS_ERR, s)
  else if negb (a_GetAccountInfo a =? ERR_OK) then (a_GetAccountInfo a, s)
  else
    let '(connectToken, s) := SaveConnectToken e connect s in
    let result := a_CallRemote a in
    let s := ask (ACallRemote (el_device e) connect connectToken e c) s in
    (result, if result =? ERR_OK then SaveCallerComponent a e connect c s else s).
Definition StartRemoteAbilityByCall (a : Answers) (e : Element) (connect : option Z) (callerUid callerPid accessToken : Z) (s : Svc) : Z * Svc :=
  if negb (a_IsCallerForeground a callerUid) then (DMS_NOT_FOREGROUND_USER, s)
  else
    match connect, a_GetLocalDeviceId a with
    | Some connect, Some localDeviceId =>
        if negb (CheckDeviceId localDeviceId (el_device e)) then (INVALID_PARAMETERS_ERR, s)
        else
          match a_GetCallerAppId a callerUid, a_GetBundleNameList a callerUid with
          | Some appId, Some names =>
              let extra := set_member version_info DMS_UID_SPEC_BUNDLE_NAME (JString (default "" (a_GetSpecifyBundleName a callerUid))) in
              let c := mkCallerInfo callerUid callerPid CALLER_TYPE_NONE localDeviceId (-1) appId names (-1) accessToken extra in
              let s := ask (AEvent (GetCurSrcCollaborateEvent a c e DMS_DSCHED_EVENT_START ERR_OK)) s in
              let '(ret, s) := TryStartRemoteAbilityByCall a e connect c s in
              (ret, if ret =? ERR_OK then s else set_calls (zerase connect (callMap_ s)) s)
          | _, _ => (INVALID_PARAMETERS_ERR, s)
          end
    | _, _ => (INVALID_PARAMETERS_ERR, s)
    end.

(** The caller's entry is erased; [watched]: the death recipient is removed first. *)
Definition drop_caller (a : Answers) (watched : bool) (connect : Z) (s : Svc) : Svc :=
  let s :=
    match zfind connect (callerMap_ s) with
    | Some l =>
        let s := if watched then RemoveDeathRecipient RLocalCaller connect s else s in
        let s := NotifyCollaborateEventWithSessions a l DMS_DSCHED_EVENT_FINISH ERR_OK (report_removed l CALL s) in
        set_callers (zerase connect (callerMap_ s)) s
    | None => s
    end in
  set_calls (zerase connect (callMap_ s)) s.
Definition RemoveCallerComponent (a : Answers) (connect : Z) (s : Svc) : Svc := drop_caller a true connect s.
Definition HandleLocalCallerDied (a : Answers) (connect : Z) (s : Svc) : Svc := drop_caller a false connect s.
Definition ReleaseRemoteAbility (a : Answers) (connect : option Z) (e : Element) (s : Svc) : Z * Svc :=
  match connect, a_GetLocalDeviceId a with
  | Some connect, Some localDeviceId =>
      if negb (GetRemoteDms (a_GetRemoteDms a) (el_device e)) then (INVALID_PARAMETERS_ERR, s)
      else
        let result := a_ReleaseRemote a in
        let s := ask (AReleaseRemote (el_device e) connect e localDeviceId) s in
        (result, if result =? ERR_OK then RemoveCallerComponent a connect s else s)
  | _, _ => (INVALID_PARAMETERS_ERR, s)
  end.

(** ** Calls: the side of the ability *)

Definition dest_event (c : CallerInfo) (e : Element) (state ret : Z) (s : Svc) : Svc := ask (AEvent (GetCurDestCollaborateEvent c e state ret)) s.
Definition StartAbilityByCallFromRemote (a : Answers) (connectToken : Z) (e : Element) (connect : option Z) (c : CallerInfo) (s : Svc) : Z * Svc :=
  match connect with
  | None => (INVALID_REMOTE_PARAMETERS_ERR, s)
  | Some connect =>
      let s := dest_event c e DMS_DSCHED_EVENT_START ERR_OK s in
      match a_GetLocalDeviceId a with
      | Some localDeviceId =>
          if negb (CheckDeviceIdFromRemote (a_CallingDeviceID a) localDeviceId (el_device e) (caller_sourceDeviceId c)) then (INVALID_REMOTE_PARAMETERS_ERR, s)
          else if negb (a_CheckTargetPermission a =? ERR_OK) then (a_CheckTargetPermission a, s)
          else
            let '(callbackWrapper, s) :=
              match zfind connect (calleeMap_ s) with Some i => (ci_callbackWrapper i, s) | None => (next_object s, new_object s) end in
            let errCode := a_StartAbilityByCall a in
            let s := ask (AStartByCall callbackWrapper e) s in
            let s :=
              if errCode =? ERR_OK then
                let i := mkConnectInfo c callbackWrapper e in
                let s := ask (AReportCallee i DISTRIBUTED_COMPONENT_ADD CALL) s in
                let s := match zfind connect (calleeMap_ s) with Some _ => s | None => set_callees (zset connect i (calleeMap_ s)) s end in
                snd (RegisterAppStateObserver a connectToken e c connect callbackWrapper (AddDeathRecipient RCaller connect s))
              else s in
            (errCode, dest_event c e DMS_DSCHED_EVENT_PROCESSING ERR_OK s)
      | None => (INVALID_REMOTE_PARAMETERS_ERR, s)
      end
  end.
Definition ReleaseAbility (a : Answers) (callbackWrapper : Z) (e : Element) (s : Svc) : Z * Svc := (a_ReleaseCall a, ask (AReleaseCall callbackWrapper (el_bundle e) (el_ability e)) s).
Definition ReleaseAbilityFromRemote (a : Answers) (connect : option Z) (e : Element) (c : CallerInfo) (s : Svc) : Z * Svc :=
  match connect with
  | None => (INVALID_REMOTE_PARAMETERS_ERR, s)
  | Some connect =>
      let s := dest_event c e DMS_DSCHED_EVENT_STOP ERR_OK s in
      if negb (source_ok a (caller_sourceDeviceId c)) then (INVALID_REMOTE_PARAMETERS_ERR, s)
      else
        match zfind connect (calleeMap_ s) with
        | None => (INVALID_REMOTE_PARAMETERS_ERR, s)
        | Some i =>
            let s := ask (AReportCallee i DISTRIBUTED_COMPONENT_REMOVE CALL) s in
            let s := RemoveDeathRecipient RCaller connect (set_callees (zerase connect (calleeMap_ s)) s) in
            let '(result, s) := ReleaseAbility a (ci_callbackWrapper i) e (UnregisterAppStateObserver a (ci_callbackWrapper i) s) in
            (result, dest_event c e DMS_DSCHED_EVENT_FINISH result s)
        end
  end.
(** The connection object of a caller died. *)
Definition ProcessCallerDied (a : Answers) (connect : option Z) (deviceType : Z) (s : Svc) : Svc :=
  match connect with
  | None => s
  | Some connect =>
      if deviceType =? CALLER then HandleLocalCallerDied a connect s
      else
        let '(callbackWrapper, e, c, s) :=
          match zfind connect (calleeMap_ s) with
          | Some i =>
              let s := ask (AReportCallee i DISTRIBUTED_COMPONENT_REMOVE CALL) s in
              let s := dest_event (ci_callerInfo i) (ci_element i) DMS_DSCHED_EVENT_STOP ERR_OK s in
              (ci_callbackWrapper i, ci_element i, ci_callerInfo i, set_callees (zerase connect (calleeMap_ s)) s)
          | None => (connect, no_element, CallerInfo_default, s)
          end in
        let '(result, s) := ReleaseAbility a callbackWrapper e (UnregisterAppStateObserver a callbackWrapper s) in
        dest_event c e DMS_DSCHED_EVENT_FINISH result s
  end.
(** The called ability released the call. *)
Definition ProcessCalleeDied (a : Answers) (connect : option Z) (s : Svc) : Svc :=
  match connect ≫= fun connect => zfind connect (calleeMap_ s) with
  | Some i =>
      let s := ask (AReportCallee i DISTRIBUTED_COMPONENT_REMOVE CALL) s in
      let s := set_callees (zerase (default 0 connect) (calleeMap_ s)) s in
      let s := dest_event (ci_callerInfo i) (ci_element i) DMS_DSCHED_EVENT_STOP ERR_OK s in
      dest_event (ci_callerInfo i) (ci_element i) DMS_DSCHED_EVENT_FINISH ERR_OK (UnregisterAppStateObserver a (ci_callbackWrapper i) s)
  | None => s
  end.
(** The first observer of the connection gets the token of the called ability. *)
Fixpoint set_observer_token (callerConnect token : Z) (m : zmap ObserverInfo) : zmap ObserverInfo :=
  match m with
  | [] => []
  | (k, o) :: m =>
      if ob_srcConnect o =? callerConnect
      then (k, mkObserver (ob_observer o) (ob_srcDeviceId o) (ob_connectToken o) (ob_dstBundleName o) (ob_dstAbilityName o) (ob_srcConnect o) (Some token)) :: m
      else (k, o) :: set_observer_token callerConnect token m
  end.
Definition ProcessCallResult (a : Answers) (callerConnect : Z) (s : Svc) : Svc :=
  match a_GetAbilityToken a with
  | None => s
  | Some token => set_observers (set_observer_token callerConnect token (observerMap_ s)) s
  end.

(** ** What the service tells of its connections and calls *)

Section Lists.
(** [dump] of nlohmann and the uid that the bundle manager gives. *)
Variable dump : json -> string.
Variable GetUidFromBms : string -> Z.

(** The members of an object are kept in the order of their names. *)
Definition caller_component (component : Z) (c : CallerInfo) : string :=
  dump (JObject [("bundleName", JString (default "" (hd_error (caller_bundleNames c)))); ("componentType", JNumber component); ("deviceType", JNumber CALLER); ("pid", JNumber (caller_pid c)); ("uid", JNumber (caller_uid c))]).
Definition callee_component (component : Z) (i : ConnectInfo) : string :=
  dump (JObject [("bundleName", JString (el_bundle (ci_element i))); ("componentType", JNumber component); ("deviceType", JNumber CALLEE); ("uid", JNumber (GetUidFromBms (el_bundle (ci_element i))))]).
Definition caller_components (component : Z) (m : zmap (list ConnectAbilitySession)) : list string :=
  concat (map (fun e => match snd e with x :: _ => [caller_component component (callerInfo_ x)] | [] => [] end) m).
Definition callee_components (component : Z) (m : zmap ConnectInfo) : list string := map (fun e => callee_component component (snd e)) m.
Definition GetConnectComponentList (s : Svc) : list string := caller_components CONNECT (distributedConnectAbilityMap_ s) ++ callee_components CONNECT (connectAbilityMap_ s).
Definition GetCallComponentList (s : Svc) : list string := caller_components CALL (callerMap_ s) ++ callee_components CALL (calleeMap_ s).
Definition GetDistributedComponentList (distributedComponents : list string) (s : Svc) : Z * list string :=
  (ERR_OK, distributedComponents ++ GetConnectComponentList s ++ GetCallComponentList s).
End Lists.

Definition DEFAULT_REQUEST_CODE : Z := -1.
Definition GetCollaborateEventsByCallers (a : Answers) (callingUid : Z) (callingBundleName : string) (s : Svc) : list EventNotify :=
  concat (map (fun x =>
    if negb (callingUid =? DEFAULT_REQUEST_CODE) && negb (callingUid =? caller_uid (callerInfo_ x)) && negb (existsb (String.eqb callingBundleName) (caller_bundleNames (callerInfo_ x))) then []
    else map (fun e => GetCurSrcCollaborateEvent a (callerInfo_ x) e DMS_DSCHED_EVENT_PROCESSING ERR_OK) (elementsList_ x)) (concat (map snd (callerMap_ s)))).
Definition GetCollaborateEventsByCallees (callingUid : Z) (callingBundleName : string) (s : Svc) : list EventNotify :=
  concat (map (fun i =>
    if negb (callingUid =? DEFAULT_REQUEST_CODE) && negb (String.eqb callingBundleName (el_bundle (ci_element i))) then []
    else [GetCurDestCollaborateEvent (ci_callerInfo i) (ci_element i) DMS_DSCHED_EVENT_PROCESSING ERR_OK]) (map snd (calleeMap_ s))).
Definition GetCollaborateEventInfo (a : Answers) (callingUid : Z) (events : list EventNotify) (s : Svc) : list EventNotify :=
  if callingUid =? DEFAULT_REQUEST_CODE then events ++ GetCollaborateEventsByCallers a callingUid "" s ++ GetCollaborateEventsByCallees callingUid "" s
  else match a_GetSpecifyBundleName a callingUid with
       | Some name => events ++ GetCollaborateEventsByCallers a callingUid name s ++ GetCollaborateEventsByCallees callingUid name s
       | None => events
       end.

Definition nl : string := String (Ascii.ascii_of_nat 10) "".
Definition DumpElementLocked (l : list Element) : string := String.concat "" (map (fun e => ", BundleName: " +:+ el_bundle e +:+ ", AbilityName: " +:+ el_ability e) l).
Definition DumpSessionsLocked (l : list ConnectAbilitySession) : string :=
  String.concat "" (map (fun x =>
    "  SourceDeviceId: " +:+ sourceDeviceId_ x +:+ ", DestinationDeviceId: " +:+ destinationDeviceId_ x +:+
    ", CallerUid: " +:+ signed_to_string (caller_uid (callerInfo_ x)) +:+ ", CallerPid: " +:+ signed_to_string (caller_pid (callerInfo_ x)) +:+
    ", CallerType: " +:+ signed_to_string (caller_callerType (callerInfo_ x)) +:+ DumpElementLocked (elementsList_ x) +:+ nl) l).
Definition DumpConnectInfo (info : string) (s : Svc) : string :=
  let info := info +:+ "connected remote abilities:" +:+ nl in
  match distributedConnectAbilityMap_ s with
  | [] => info +:+ "  <none info>" +:+ nl
  | m => info +:+ String.concat "" (map (fun e => DumpSessionsLocked (snd e)) m)
  end.

(** ** Deaths and offline devices, through the adapter *)

(** The tasks of the adapter's handler. *)
Inductive Task :=
  | TOffline (networkId : string)
  | TConnectDied (connect : Z)
  | TCalleeDied (connect : Z)
  | TCallResult (calleeConnect callerConnect : Z)
  | TCallerDied (connect deviceType : Z).
Record Adapter := mkAdapter { handler : bool; tasks : list Task }.
Definition Adapter_new : Adapter := mkAdapter false [].
(** A handler that could not be made is tried again the next time. *)
Definition adapter_Init (created : bool) (d : Adapter) : Adapter := if handler d then d else mkAdapter created (tasks d).
Definition adapter_UnInit (d : Adapter) : Adapter := mkAdapter false [].
Definition post (posted : bool) (t : Task) (d : Adapter) : Adapter := if handler d && posted then mkAdapter (handler d) (tasks d ++ [t]) else d.
(** [RemoveTask]: the tasks that have that name. *)
Definition named (networkId : string) (t : Task) : bool := match t with TOffline n => String.eqb n networkId | _ => false end.
Definition DeviceOnline (networkId : string) (d : Adapter) : Adapter :=
  if negb (handler d) || String.eqb networkId "" then d else mkAdapter (handler d) (List.filter (fun t => negb (named networkId t)) (tasks d)).
Definition DeviceOffline (posted : bool) (networkId : string) (d : Adapter) : Adapter := if String.eqb networkId "" then d else post posted (TOffline networkId) d.
Definition post_connect (posted : bool) (t : Z -> Task) (connect : option Z) (d : Adapter) : Adapter := match connect with Some c => post posted (t c) d | None => d end.
Definition adapter_ProcessConnectDied (posted : bool) (connect : option Z) (d : Adapter) : Adapter := post_connect posted TConnectDied connect d.
Definition adapter_ProcessCalleeDied (posted : bool) (connect : option Z) (d : Adapter) : Adapter := post_connect posted TCalleeDied connect d.
Definition adapter_ProcessCallerDied (posted : bool) (deviceType : Z) (connect : option Z) (d : Adapter) : Adapter := post_connect posted (fun c => TCallerDied c deviceType) connect d.
Definition adapter_ProcessCallResult (posted : bool) (calleeConnect callerConnect : option Z) (d : Adapter) : Adapter :=
  match calleeConnect, callerConnect with Some x, Some y => post posted (TCallResult x y) d | _, _ => d end.
Definition run_task (a : Answers) (t : Task) (s : Svc) : Svc :=
  match t with
  | TOffline n => ProcessDeviceOffline a n s
  | TConnectDied c => ProcessConnectDied a (Some c) s
  | TCalleeDied c => ProcessCalleeDied a (Some c) s
  | TCallResult _ c => ProcessCallResult a c s
  | TCallerDied c t => ProcessCallerDied a (Some c) t s
  end.

(** The object died: each recipient that is registered with it posts its task, and the
    registrations end. *)
Definition OnRemoteDied (posted : bool) (connect : Z) (r : Recipient) (d : Adapter) : Adapter :=
  match r with
  | RConnect => adapter_ProcessConnectDied posted (Some connect) d
  | RCaller => adapter_ProcessCallerDied posted CALLEE (Some connect) d
  | RLocalCaller => adapter_ProcessCallerDied posted CALLER (Some connect) d
  end.
Definition object_died (posted : bool) (connect : Z) (s : Svc) (d : Adapter) : Svc * Adapter :=
  (set_watches (List.filter (fun w => negb (snd w =? connect)) (watches s)) s,
   foldl (fun d w => if snd w =? connect then OnRemoteDied posted connect (fst w) d else d) d (watches s)).

(** ** The wrapper that the sink gives to the ability manager *)

Record Wrapper := mkWrapper { distributedConnection_ : option Z; isCall_ : bool; localDeviceId_ : string }.
Inductive ToApp := SConnectDone (connect : Z) (e : Element) (remoteObject resultCode : Z) | SDisconnectDone (connect : Z) (e : Element) (resultCode : Z).
Definition OnAbilityConnectDone (posted : bool) (w : Wrapper) (e : Element) (remoteObject resultCode : Z) (d : Adapter) : list ToApp * Adapter :=
  match distributedConnection_ w with
  | None => ([], d)
  | Some c =>
      if isCall_ w then ([SConnectDone c (mkElement (localDeviceId_ w) (el_bundle e) "" (el_ability e)) remoteObject resultCode], adapter_ProcessCallResult posted (Some remoteObject) (Some c) d)
      else ([SConnectDone c e remoteObject resultCode], d)
  end.
Definition OnAbilityDisconnectDone (posted : bool) (w : Wrapper) (e : Element) (resultCode : Z) (d : Adapter) : list ToApp * Adapter :=
  match distributedConnection_ w with
  | None => ([], d)
  | Some c => if isCall_ w then ([], adapter_ProcessCalleeDied posted (Some c) d) else ([SDisconnectDone c e resultCode], d)
  end.
(** [OnRemoteRequest] of the stub and what it answers; [WBase] is a code that the base
    class answers. *)
Inductive WrapperMsg := MConnectDone (remoteObject : option Z) (resultCode : Z) | MDisconnectDone (resultCode : Z) | MOther.
Inductive WrapperAnswer := ERR_NONE | ERR_INVALID_STATE | ERR_INVALID_VALUE | ERR_INVALID_DATA | WBase.
Definition wrapper_OnRemoteRequest (posted descriptor : bool) (w : Wrapper) (element : option Element) (m : WrapperMsg) (d : Adapter) : WrapperAnswer * list ToApp * Adapter :=
  if negb descriptor then (ERR_INVALID_STATE, [], d)
  else match element with
       | None => (ERR_INVALID_VALUE, [], d)
       | Some e =>
           match m with
           | MConnectDone (Some o) r => let '(sent, d) := OnAbilityConnectDone posted w e o r d in (ERR_NONE, sent, d)
           | MConnectDone None _ => (ERR_INVALID_DATA, [], d)
           | MDisconnectDone r => let '(sent, d) := OnAbilityDisconnectDone posted w e r d in (ERR_NONE, sent, d)
           | MOther => (WBase, [], d)
           end
       end.
