(* ===== verification/RemoteAbilityProps.v ===== *)
(** Theorems about the connections to abilities of other devices (RemoteAbility.v): the
    count of the connections of each user and its limit, the death of a process, a
    device that goes offline, and the way of a state change back to the caller. *)

From S2P Require Import Prelude StdMap SchedErrors SchedUtils Json ContinueInfo ContinueSession RemoteAbility.
From Stdlib Require Import Sorted.
From stdpp Require Import relations.
#[local] Open Scope string_scope.
#[local] Open Scope list_scope.
#[local] Open Scope Z_scope.

(** ** Counting the entries of a map *)

Section Count.
Context {A : Type}.
Implicit Types (f : A -> bool) (m : zmap A).

Definition zcount f m : Z := Z.of_nat (length (List.filter (fun e => f (snd e)) m)).
Definition b2z (b : bool) : Z := if b then 1 else 0.

Lemma zcount_cons f k v m : zcount f ((k, v) :: m) = b2z (f v) + zcount f m.
Proof. unfold zcount. cbn. destruct (f v); cbn [length b2z]; lia. Qed.
Lemma zcount_nonneg f m : 0 <= zcount f m.
Proof. unfold zcount. lia. Qed.
Lemma zcount_zset_new f k v m : zfind k m = None -> zcount f (zset k v m) = b2z (f v) + zcount f m.
Proof.
  induction m as [|[k' v'] m IH]; cbn; [intros; apply zcount_cons|].
  destruct (Z.eqb_spec k k'); [discriminate|]. intros H. destruct (k <? k'); rewrite !zcount_cons; [lia|]. rewrite (IH H). lia.
Qed.
Lemma zcount_zset_old f k v w m : zsorted m -> zfind k m = Some w -> zcount f (zset k v m) = b2z (f v) - b2z (f w) + zcount f m.
Proof.
  induction m as [|[k' v'] m IH]; cbn; [discriminate|]. rewrite zsorted_cons. intros [Hs Hall] H.
  destruct (Z.eqb_spec k k') as [->|].
  - injection H as ->. destruct (Z.ltb_spec k' k'); [lia|]. rewrite !zcount_cons. lia.
  - destruct (Z.ltb_spec k k').
    + rewrite zfind_None_lt in H; [discriminate|]. eapply Forall_impl; [exact Hall|]. cbn. lia.
    + rewrite !zcount_cons, (IH Hs H). lia.
Qed.
Lemma zcount_zerase f k w m : zfind k m = Some w -> zcount f (zerase k m) = zcount f m - b2z (f w).
Proof.
  induction m as [|[k' v'] m IH]; cbn; [discriminate|]. destruct (Z.eqb_spec k k').
  - intros [= ->]. rewrite zcount_cons. lia.
  - intros H. rewrite !zcount_cons, (IH H). lia.
Qed.
Lemma zerase_absent k m : zfind k m = None -> zerase k m = m.
Proof. induction m as [|[k' v'] m IH]; cbn; [done|]. destruct (k =? k'); [discriminate|]. intros H. by rewrite IH. Qed.
Lemma zcount_pos f k v m : zfind k m = Some v -> f v = true -> 0 < zcount f m.
Proof.
  intros H Hf. pose proof (zcount_zerase f k v m H) as E. pose proof (zcount_nonneg f (zerase k m)). rewrite Hf in E. cbn in E. lia.
Qed.
Lemma zfind_In k v m : zsorted m -> In (k, v) m -> zfind k m = Some v.
Proof.
  induction m as [|[k' v'] m IH]; cbn; [done|]. rewrite zsorted_cons. intros [Hs Hall] [[= -> ->]|H]; [by rewrite Z.eqb_refl|].
  destruct (Z.eqb_spec k k') as [->|]; [|auto]. rewrite Forall_forall in Hall. apply (in_map fst) in H. cbn in H.
  specialize (Hall k' (proj2 (list_elem_of_In _ _) H)). cbn in Hall. lia.
Qed.
Lemma zfind_In' k v m : zfind k m = Some v -> In (k, v) m.
Proof. induction m as [|[k' v'] m IH]; cbn; [discriminate|]. destruct (Z.eqb_spec k k') as [->|]; [intros [= ->]; auto|auto]. Qed.
End Count.

(** ** Registrations of death recipients *)

Definition watch_count (w : Recipient * Z) (l : list (Recipient * Z)) : Z := Z.of_nat (length (List.filter (fun x => bool_decide (x = w)) l)).
Lemma watch_count_app w l x : watch_count w (l ++ [x]) = watch_count w l + b2z (bool_decide (x = w)).
Proof. unfold watch_count. rewrite List.filter_app, length_app. cbn. destruct (bool_decide (x = w)); cbn; lia. Qed.
Lemma watch_count_nonneg w l : 0 <= watch_count w l.
Proof. unfold watch_count. lia. Qed.
Lemma watch_count_remove w x l : watch_count w (remove_watch x l) = if bool_decide (x = w) then Z.max 0 (watch_count w l - 1) else watch_count w l.
Proof.
  unfold watch_count. induction l as [|y l IH]; cbn; [by destruct (bool_decide (x = w))|]. destruct (bool_decide (y = x)) eqn:E.
  - apply bool_decide_eq_true in E as ->. destruct (bool_decide (x = w)); cbn [length]; lia.
  - cbn. destruct (bool_decide (y = w)) eqn:F; cbn [length]; [|exact IH]. destruct (bool_decide (x = w)) eqn:G; [|lia].
    apply bool_decide_eq_true in F, G. rewrite F, G in E. apply bool_decide_eq_false in E. done.
Qed.
Lemma watch_count_filter w c l :
  watch_count w (List.filter (fun x => negb (snd x =? c)) l) = if snd w =? c then 0 else watch_count w l.
Proof.
  unfold watch_count. induction l as [|y l IH]; cbn; [by destruct (snd w =? c)|]. destruct (Z.eqb_spec (snd y) c) as [E|E]; cbn.
  - rewrite IH. destruct (Z.eqb_spec (snd w) c); [done|]. destruct (bool_decide (y = w)) eqn:F; [|done]. apply bool_decide_eq_true in F as ->. done.
  - destruct (bool_decide (y = w)) eqn:F; cbn [length]; [|done]. apply bool_decide_eq_true in F as ->. destruct (Z.eqb_spec (snd w) c); [done|]. lia.
Qed.

(** What is asked of others changes no table. *)
Lemma ask_all_eq l s :
  ask_all l s = mkSvc (distributedConnectAbilityMap_ s) (connectAbilityMap_ s) (trackingUidMap_ s) (calleeMap_ s) (callerMap_ s) (observerMap_ s) (callMap_ s)
                  (token_ s) (bundleNameMap_ s) (watches s) (next_object s) (asked s ++ l).
Proof.
  unfold ask_all. revert s. induction l as [|a l IH]; intros s; cbn [foldl]; [rewrite app_nil_r; by destruct s|]. rewrite IH. cbn.
  by rewrite <- app_assoc.
Qed.

(** ** The connections of the applications of the device *)

Section Connections.
(** The application that holds a connection object. *)
Variable owner : Z -> Z.
(** How many connections an application may have. *)
Variable lim : Z -> Z.

Definition of_uid (u : Z) (l : list ConnectAbilitySession) : bool := GetUidLocked l =? u.
Definition sessions_ok (c : Z) (l : list ConnectAbilitySession) : Prop :=
  l <> [] /\ NoDup (map destinationDeviceId_ l) /\ Forall (fun x => caller_uid (callerInfo_ x) = owner c) l /\ 0 <= owner c.

(** [dead]: the objects that died and whose death is not handled yet. *)
Record connects_ok (dead : list Z) (m : zmap (list ConnectAbilitySession)) (t : zmap Z) (w : list (Recipient * Z)) : Prop := {
  ok_sorted : zsorted m;
  ok_tracked : zsorted t;
  ok_sessions : zall sessions_ok m;
  ok_count u : zfind u t = if zcount (of_uid u) m =? 0 then None else Some (zcount (of_uid u) m);
  ok_limit u : zcount (of_uid u) m <= lim u;
  ok_watched c : match zfind c m with
                 | Some _ => watch_count (RConnect, c) w = 1 \/ (watch_count (RConnect, c) w = 0 /\ In c dead)
                 | None => watch_count (RConnect, c) w = 0
                 end;
}.
Definition keeps_connects (s s' : Svc) : Prop :=
  distributedConnectAbilityMap_ s' = distributedConnectAbilityMap_ s /\ trackingUidMap_ s' = trackingUidMap_ s /\ watches s' = watches s.
Definition Connected (dead : list Z) (s : Svc) : Prop := connects_ok dead (distributedConnectAbilityMap_ s) (trackingUidMap_ s) (watches s).

Lemma uid_of_owner c l : sessions_ok c l -> GetUidLocked l = owner c.
Proof. intros (Hne & _ & Hu & _). destruct l as [|x l]; [done|]. cbn. by apply List.Forall_cons_iff in Hu as [-> _]. Qed.
Lemma of_uid_owner c l u : sessions_ok c l -> of_uid u l = (owner c =? u).
Proof. intros H. unfold of_uid. by rewrite (uid_of_owner c). Qed.

Lemma AddElement_dest e x : destinationDeviceId_ (AddElement e x) = destinationDeviceId_ x /\ callerInfo_ (AddElement e x) = callerInfo_ x /\ sourceDeviceId_ (AddElement e x) = sourceDeviceId_ x.
Proof. unfold AddElement. by destruct (existsb _ _). Qed.
Lemma add_session_dests src d e c l :
  map destinationDeviceId_ (add_session src d e c l) = if has_session d l then map destinationDeviceId_ l else map destinationDeviceId_ l ++ [d].
Proof.
  unfold has_session. induction l as [|x l IH]; cbn [map existsb add_session app]; [by rewrite (proj1 (AddElement_dest _ _))|].
  destruct (String.eqb d (destinationDeviceId_ x)) eqn:E; cbn [map orb]; [by rewrite (proj1 (AddElement_dest _ _))|]. rewrite IH. by destruct (existsb _ l).
Qed.
Lemma add_session_uid src d e c l u :
  caller_uid c = u -> Forall (fun x => caller_uid (callerInfo_ x) = u) l -> Forall (fun x => caller_uid (callerInfo_ x) = u) (add_session src d e c l).
Proof.
  intros Hc. induction l as [|x l IH]; cbn [add_session]; intros Hl.
  - apply List.Forall_cons; [|done]. by rewrite (proj1 (proj2 (AddElement_dest _ _))).
  - apply List.Forall_cons_iff in Hl as [Hx Hl]. destruct (String.eqb _ _); apply List.Forall_cons; auto. by rewrite (proj1 (proj2 (AddElement_dest _ _))).
Qed.
Lemma has_session_In d l : has_session d l = true <-> In d (map destinationDeviceId_ l).
Proof.
  unfold has_session. rewrite existsb_exists, in_map_iff. split; intros (x & H1 & H2); exists x.
  - by apply String.eqb_eq in H2.
  - split; [done|]. by apply String.eqb_eq.
Qed.
Lemma add_session_ne src d e c l : add_session src d e c l <> [].
Proof. destruct l as [|x l]; cbn; [done|]. by destruct (String.eqb _ _). Qed.
Lemma add_session_ok k src d e c l : caller_uid c = owner k -> 0 <= owner k -> (l = [] \/ sessions_ok k l) -> sessions_ok k (add_session src d e c l).
Proof.
  intros Hc Ho Hl. assert (H : NoDup (map destinationDeviceId_ l) /\ Forall (fun x => caller_uid (callerInfo_ x) = owner k) l).
  { destruct Hl as [->|(_ & ? & ? & _)]; [split; [apply NoDup_nil_2|done]|done]. }
  destruct H as [Hnd Hu]. repeat split; [apply add_session_ne| |by apply add_session_uid|done].
  rewrite add_session_dests. destruct (has_session d l) eqn:E; [done|]. apply NoDup_app. split; [done|]. split; [|apply NoDup_singleton].
  intros x Hx Hx'. apply list_elem_of_singleton in Hx' as ->. apply list_elem_of_In, has_session_In in Hx. congruence.
Qed.
Lemma take_session_spec d l f l' :
  take_session d l = (f, l') -> match f with
                                | Some x => destinationDeviceId_ x = d /\ exists l1 l2, l = l1 ++ x :: l2 /\ l' = l1 ++ l2
                                | None => l' = l /\ ~ In d (map destinationDeviceId_ l)
                                end.
Proof.
  revert l' f. induction l as [|x l IH]; cbn; intros l' f; [intros [= <- <-]; auto|].
  destruct (String.eqb_spec (destinationDeviceId_ x) d) as [E|E]; [intros [= <- <-]; split; [done|]; by exists [], l|].
  destruct (take_session d l) as [f' l''] eqn:T. specialize (IH l'' f' eq_refl). intros [= <- <-]. destruct f' as [y|].
  - destruct IH as (Hd & l1 & l2 & -> & ->). split; [done|]. by exists (x :: l1), l2.
  - destruct IH as [-> Hn]. split; [done|]. intros [H|H]; auto.
Qed.
Lemma take_session_gone d l f l' : NoDup (map destinationDeviceId_ l) -> take_session d l = (f, l') -> ~ In d (map destinationDeviceId_ l').
Proof.
  intros Hnd H. apply take_session_spec in H. destruct f as [x|]; [|by destruct H as [-> H]]. destruct H as (<- & l1 & l2 & -> & ->).
  rewrite map_app in Hnd |- *. cbn in Hnd. intros Hin. apply NoDup_app in Hnd as (_ & H1 & H2). apply NoDup_cons in H2 as [H2 _].
  apply in_app_or in Hin as [Hin|Hin]; apply list_elem_of_In in Hin; [|done]. apply (H1 _ Hin). by left.
Qed.
Lemma take_session_ok k d l f l' : sessions_ok k l -> take_session d l = (f, l') -> l' <> [] -> sessions_ok k l'.
Proof.
  intros (Hne & Hnd & Hu & Ho) H Hne'. apply take_session_spec in H. destruct f as [x|]; [|by destruct H as [-> _]].
  destruct H as (_ & l1 & l2 & -> & ->). repeat split; [done| | |done].
  - rewrite map_app in Hnd |- *. cbn in Hnd. apply NoDup_app in Hnd as (H0 & H1 & H2). apply NoDup_cons in H2 as [_ H2].
    apply NoDup_app. split; [done|]. split; [|done]. intros y Hy Hy'. apply (H1 y Hy). by right.
  - rewrite Forall_app in Hu |- *. destruct Hu as [? Hu]. apply List.Forall_cons_iff in Hu as [_ Hu]. done.
Qed.

(** A connection that is new or gets another element. *)
Lemma connects_add dead m t w k l' :
  connects_ok dead m t w -> sessions_ok k l' -> zcount (of_uid (owner k)) m < lim (owner k) -> lim (owner k) < 2 ^ 32 ->
  connects_ok dead (zset k l' m) (match zfind k m with Some _ => t | None => zset (owner k) (u32 (default 0 (zfind (owner k) t) + 1)) t end)
    (match zfind k m with Some _ => w | None => w ++ [(RConnect, k)] end).
Proof.
  intros [Hs Ht Hss Hc Hb Hw] Hl' Hlim Hu32. destruct (zfind k m) as [l|] eqn:E.
  - assert (Hl := zall_find _ _ _ _ Hss E). assert (Hz : forall u, zcount (of_uid u) (zset k l' m) = zcount (of_uid u) m).
    { intros u. rewrite (zcount_zset_old _ _ _ l) by done. rewrite !(of_uid_owner k) by done. lia. }
    split; [by apply zset_sorted|done|by apply zall_zset|intros u; by rewrite Hz|intros u; by rewrite Hz|].
    intros c. rewrite zfind_zset. destruct (Z.eqb_spec c k) as [->|]; [specialize (Hw k); by rewrite E in Hw|apply Hw].
  - assert (Hz : forall u, zcount (of_uid u) (zset k l' m) = b2z (owner k =? u) + zcount (of_uid u) m).
    { intros u. rewrite zcount_zset_new by done. by rewrite (of_uid_owner k). }
    pose proof (zcount_nonneg (of_uid (owner k)) m) as Hnn.
    split; [by apply zset_sorted|by apply zset_sorted|by apply zall_zset| | |].
    + intros u. rewrite zfind_zset, Hz, Hc. destruct (Z.eqb_spec u (owner k)) as [->|Hne].
      * rewrite Z.eqb_refl. cbn [b2z]. destruct (Z.eqb_spec (zcount (of_uid (owner k)) m) 0) as [H0|H0]; cbn [default id from_option].
        -- rewrite H0. reflexivity.
        -- unfold u32. rewrite Z.mod_small by lia. destruct (Z.eqb_spec (1 + zcount (of_uid (owner k)) m) 0); [lia|]. f_equal. lia.
      * rewrite Hc. destruct (Z.eqb_spec (owner k) u); [congruence|]. done.
    + intros u. rewrite Hz. destruct (Z.eqb_spec (owner k) u) as [<-|]; cbn; [lia|apply Hb].
    + intros c. rewrite zfind_zset, watch_count_app. specialize (Hw c). destruct (Z.eqb_spec c k) as [->|Hne].
      * rewrite E in Hw. rewrite Hw, bool_decide_true by done. by left.
      * rewrite bool_decide_false by congruence. cbn [b2z]. rewrite Z.add_0_r. exact Hw.
Qed.

(** A connection is dropped. *)
Definition decreased (uid : Z) (t : zmap Z) : zmap Z :=
  if uid <? 0 then t
  else match zfind uid t with
       | None => t
       | Some n => let n := if 0 <? n then n - 1 else n in if n =? 0 then zerase uid t else zset uid n t
       end.
Lemma DecreaseConnectLocked_eq uid s : DecreaseConnectLocked uid s = set_tracking (decreased uid (trackingUidMap_ s)) s.
Proof. unfold DecreaseConnectLocked, decreased. destruct (uid <? 0); [by destruct s|]. destruct (zfind uid _); [done|by destruct s]. Qed.
Lemma connects_drop dead m t w k l :
  connects_ok dead m t w -> zfind k m = Some l -> connects_ok dead (zerase k m) (decreased (owner k) t) (remove_watch (RConnect, k) w).
Proof.
  intros [Hs Ht Hss Hc Hb Hw] E. assert (Hl := zall_find _ _ _ _ Hss E).
  assert (Hz : forall u, zcount (of_uid u) (zerase k m) = zcount (of_uid u) m - b2z (owner k =? u)).
  { intros u. rewrite (zcount_zerase _ _ l) by done. by rewrite (of_uid_owner k). }
  assert (Hpos : 0 < zcount (of_uid (owner k)) m). { eapply zcount_pos; [exact E|]. rewrite (of_uid_owner k) by done. apply Z.eqb_refl. }
  assert (Hfk : zfind (owner k) t = Some (zcount (of_uid (owner k)) m)). { rewrite Hc. destruct (Z.eqb_spec (zcount (of_uid (owner k)) m) 0); [lia|done]. }
  assert (Hd : decreased (owner k) t = if zcount (of_uid (owner k)) m - 1 =? 0 then zerase (owner k) t else zset (owner k) (zcount (of_uid (owner k)) m - 1) t).
  { unfold decreased. destruct Hl as (_ & _ & _ & Ho). rewrite (proj2 (Z.ltb_ge _ _) Ho), Hfk. cbn zeta. by rewrite (proj2 (Z.ltb_lt _ _) Hpos). }
  rewrite Hd. split.
  - by apply zerase_sorted.
  - destruct (_ =? 0); auto with dms.
  - by apply zall_zerase.
  - intros u. rewrite Hz. destruct (Z.eqb_spec (owner k) u) as [<-|Hne]; cbn [b2z].
    + destruct (Z.eqb_spec (zcount (of_uid (owner k)) m - 1) 0); [rewrite zfind_zerase by done|rewrite zfind_zset]; by rewrite Z.eqb_refl.
    + rewrite Z.sub_0_r, <- Hc. destruct (_ =? 0); [rewrite zfind_zerase by done|rewrite zfind_zset]; (destruct (Z.eqb_spec u (owner k)); [congruence|done]).
  - intros u. rewrite Hz. specialize (Hb u). destruct (owner k =? u); cbn; lia.
  - intros c. rewrite zfind_zerase by done. rewrite watch_count_remove. specialize (Hw c). destruct (Z.eqb_spec c k) as [->|Hne].
    + rewrite bool_decide_true by done. rewrite E in Hw. destruct Hw as [->|[-> _]]; lia.
    + rewrite bool_decide_false by congruence. done.
Qed.

(** One of several sessions of a connection is dropped. *)
Lemma connects_shrink dead m t w k l l' :
  connects_ok dead m t w -> zfind k m = Some l -> sessions_ok k l' -> connects_ok dead (zset k l' m) t w.
Proof.
  intros [Hs Ht Hss Hc Hb Hw] E Hl'. assert (Hl := zall_find _ _ _ _ Hss E). assert (Hz : forall u, zcount (of_uid u) (zset k l' m) = zcount (of_uid u) m).
  { intros u. rewrite (zcount_zset_old _ _ _ l) by done. rewrite !(of_uid_owner k) by done. lia. }
  split; [by apply zset_sorted|done|by apply zall_zset|intros u; by rewrite Hz|intros u; by rewrite Hz|].
  intros c. rewrite zfind_zset. destruct (Z.eqb_spec c k) as [->|]; [specialize (Hw k); by rewrite E in Hw|apply Hw].
Qed.
Lemma connects_watches dead m t w w' :
  (forall c, watch_count (RConnect, c) w' = watch_count (RConnect, c) w) -> connects_ok dead m t w -> connects_ok dead m t w'.
Proof. intros E [Hs Ht Hss Hc Hb Hw]. split; try done. intros c. rewrite E. apply Hw. Qed.

(** ** Every operation keeps the tables in order *)

Lemma mapping_Connected dead k src d e c s :
  Connected dead s -> caller_uid c = owner k -> 0 <= owner k -> zcount (of_uid (owner k)) (distributedConnectAbilityMap_ s) < lim (owner k) -> lim (owner k) < 2 ^ 32 ->
  Connected dead (RemoteConnectAbilityMappingLocked k src d e c s).
Proof.
  intros H Hu Ho Hlim Hu32. unfold Connected in *.
  assert (Hl : sessions_ok k (add_session src d e c (default [] (zfind k (distributedConnectAbilityMap_ s))))).
  { apply add_session_ok; [done..|]. destruct (zfind k _) as [l|] eqn:E; [right|by left]. exact (zall_find _ _ _ _ (ok_sessions _ _ _ _ H) E). }
  pose proof (connects_add _ _ _ _ k _ H Hl Hlim Hu32) as R. unfold RemoteConnectAbilityMappingLocked. rewrite Hu.
  destruct (zfind k (distributedConnectAbilityMap_ s)) as [l|] eqn:E; cbn -[add_session zset from_option] in R |- *; rewrite E; exact R.
Qed.
(** An attempt that is to be followed by another enters nothing. *)
Lemma connect_attempt_Connected dead a i d k e c s r again s' :
  Connected dead s -> caller_uid c = owner k -> 0 <= owner k -> zcount (of_uid (owner k)) (distributedConnectAbilityMap_ s) < lim (owner k) -> lim (owner k) < 2 ^ 32 ->
  connect_attempt a i d k e c s = (r, again, s') -> Connected dead s' /\ (again = true -> keeps_connects s s').
Proof.
  intros H Hu Ho Hlim Hu32. unfold connect_attempt. cbn zeta. destruct (a_ConnectRemote a i =? ERR_OK); [intros [= <- <- <-]; split; [by apply mapping_Connected|done]|].
  destruct (_ || _); [by intros [= <- <- <-]|]. destruct (_ <? _); by intros [= <- <- <-].
Qed.
Lemma each_Connected dead a k l s : Connected dead s -> Connected dead (foldl (fun s x => DisconnectEachRemoteAbilityLocked a k x s) s l).
Proof.
  revert s. induction l as [|x l IH]; intros s H; [done|]. cbn [foldl]. apply IH. unfold DisconnectEachRemoteAbilityLocked. by destruct (GetRemoteDms _ _).
Qed.
Lemma drop_Connected dead k l s :
  Connected dead s -> zfind k (distributedConnectAbilityMap_ s) = Some l ->
  connects_ok dead (zerase k (distributedConnectAbilityMap_ s)) (trackingUidMap_ (DecreaseConnectLocked (GetUidLocked l) s)) (remove_watch (RConnect, k) (watches s)).
Proof.
  intros H E. rewrite (uid_of_owner k) by exact (zall_find _ _ _ _ (ok_sessions _ _ _ _ H) E). rewrite DecreaseConnectLocked_eq. exact (connects_drop _ _ _ _ k l H E).
Qed.
Lemma DisconnectRemoteAbility_Connected dead a connect s : Connected dead s -> Connected dead (snd (DisconnectRemoteAbility a connect s)).
Proof.
  intros H. destruct connect as [k|]; [|done]. unfold DisconnectRemoteAbility. destruct (zfind k (distributedConnectAbilityMap_ s)) as [l|] eqn:E; [|done].
  pose proof (drop_Connected _ _ _ _ H E) as R. rewrite DecreaseConnectLocked_eq in R |- *.
  destruct l as [|x l]; [exact R|]. cbn [snd report_removed]. apply each_Connected. exact R.
Qed.

(** The loops over the map erase and change entries of the map they go through. *)
Definition entries_of (m m' : zmap (list ConnectAbilitySession)) : Prop := Forall (fun e => zfind (fst e) m' = Some (snd e)) m.
Lemma entries_refl m : zsorted m -> entries_of m m.
Proof. intros H. apply Forall_forall. intros [k l] Hin. by apply zfind_In, list_elem_of_In. Qed.
Lemma entries_erase k m m' : Forall (fun k' => k < k') (zkeys m) -> zsorted m' -> entries_of m m' -> entries_of m (zerase k m').
Proof.
  intros Hlt Hs H. unfold entries_of in *. rewrite Forall_forall in H |- *; rewrite Forall_forall in Hlt. intros [k' l] Hin. specialize (H _ Hin). cbn in H |- *.
  rewrite zfind_zerase by done. apply list_elem_of_In, (in_map fst), list_elem_of_In in Hin. specialize (Hlt _ Hin). cbn in Hlt. destruct (Z.eqb_spec k' k); [lia|done].
Qed.
Lemma entries_set k l m m' : Forall (fun k' => k < k') (zkeys m) -> entries_of m m' -> entries_of m (zset k l m').
Proof.
  intros Hlt H. unfold entries_of in *. rewrite Forall_forall in H |- *; rewrite Forall_forall in Hlt. intros [k' l'] Hin. specialize (H _ Hin). cbn in H |- *.
  rewrite zfind_zset. apply list_elem_of_In, (in_map fst), list_elem_of_In in Hin. specialize (Hlt _ Hin). cbn in Hlt. destruct (Z.eqb_spec k' k); [lia|done].
Qed.

Lemma died_loop_spec dead c m seen s :
  Connected dead s -> zsorted m -> entries_of m (distributedConnectAbilityMap_ s) ->
  let '(seen', s') := died_loop c m seen s in
  Connected dead s' /\ seen' = foldl (fun seen e => if first_same_caller c (snd e) then add_devices (snd e) seen else seen) seen m /\
  connectAbilityMap_ s' = connectAbilityMap_ s /\
  forall k, zfind k (distributedConnectAbilityMap_ s') = match zfind k m with Some l => if first_same_caller c l then None else zfind k (distributedConnectAbilityMap_ s) | None => zfind k (distributedConnectAbilityMap_ s) end.
Proof.
  revert seen s. induction m as [|[k l] m IH]; intros seen s H Hm Hin; [done|]. rewrite zsorted_cons in Hm. destruct Hm as [Hm Hlt].
  apply List.Forall_cons_iff in Hin as [Hk Hin]. cbn [fst snd] in Hk. cbn [died_loop foldl fst snd]. destruct (first_same_caller c l) eqn:F.
  - set (s1 := set_connects _ _). assert (H1 : Connected dead s1).
    { assert (Eu : caller_uid c = GetUidLocked l).
      { destruct l as [|x l]; [discriminate|]. cbn in F |- *. unfold IsSameCaller in F. apply andb_prop in F as [F _]. apply andb_prop in F as [F _]. apply andb_prop in F as [F _]. lia. }
      pose proof (drop_Connected _ _ _ _ H Hk) as R. unfold s1. rewrite Eu. rewrite DecreaseConnectLocked_eq in R |- *. exact R. }
    assert (E1 : distributedConnectAbilityMap_ s1 = zerase k (distributedConnectAbilityMap_ s)) by (unfold s1; rewrite DecreaseConnectLocked_eq; reflexivity).
    assert (E2 : connectAbilityMap_ s1 = connectAbilityMap_ s) by (unfold s1; rewrite DecreaseConnectLocked_eq; reflexivity).
    specialize (IH (add_devices l seen) s1 H1 Hm). rewrite E1, E2 in IH.
    specialize (IH (entries_erase _ _ _ Hlt (ok_sorted _ _ _ _ H) Hin)). destruct (died_loop c m (add_devices l seen) s1) as [seen' s'].
    destruct IH as (I1 & I2 & I3 & I4). split; [done|]. split; [done|]. split; [done|]. intros k'. rewrite I4. cbn [zfind].
    rewrite zfind_zerase by exact (ok_sorted _ _ _ _ H). destruct (Z.eqb_spec k' k) as [->|]; [|done]. by rewrite (zfind_None_lt _ _ Hlt), F.
  - specialize (IH seen s H Hm Hin). destruct (died_loop c m seen s) as [seen' s']. destruct IH as (I1 & I2 & I3 & I4). split; [done|]. split; [done|]. split; [done|].
    intros k'. rewrite I4. cbn [zfind]. destruct (Z.eqb_spec k' k) as [->|]; [|done]. by rewrite (zfind_None_lt _ _ Hlt), F.
Qed.
Lemma notify_all_Connected dead a c l s :
  let s' := foldl (fun s device => NotifyProcessDied a c device s) s l in
  (Connected dead s -> Connected dead s') /\ distributedConnectAbilityMap_ s' = distributedConnectAbilityMap_ s /\ connectAbilityMap_ s' = connectAbilityMap_ s /\
  asked s' = asked s ++ map (fun d => ANotifyDied d c) (List.filter (GetRemoteDms (a_GetRemoteDms a)) l).
Proof.
  revert s. induction l as [|d l IH]; intros s; cbn [foldl List.filter map]; [by rewrite app_nil_r|].
  specialize (IH (NotifyProcessDied a c d s)). cbn zeta in IH |- *. unfold NotifyProcessDied in *.
  destruct (GetRemoteDms (a_GetRemoteDms a) d); [|exact IH]. destruct IH as (I1 & I2 & I3 & I4). split; [exact I1|]. split; [exact I2|]. split; [exact I3|].
  rewrite I4. cbn. by rewrite <- app_assoc.
Qed.
Lemma ProcessConnectDied_Connected dead a connect s : Connected dead s -> Connected dead (ProcessConnectDied a connect s).
Proof.
  intros H. unfold ProcessConnectDied. destruct (connect ≫= _) as [[|x l]|]; [done| |done].
  pose proof (died_loop_spec dead (callerInfo_ x) _ [] s H (ok_sorted _ _ _ _ H) (entries_refl _ (ok_sorted _ _ _ _ H))) as R.
  destruct (died_loop _ _ _ _) as [seen s']. destruct R as (R & _). by apply notify_all_Connected.
Qed.

Lemma offline_connects_spec dead d m s :
  Connected dead s -> zsorted m -> entries_of m (distributedConnectAbilityMap_ s) ->
  let s' := offline_connects d m s in
  Connected dead s' /\ connectAbilityMap_ s' = connectAbilityMap_ s /\
  forall k, zfind k (distributedConnectAbilityMap_ s') = match zfind k m with
                                                         | Some l => match snd (take_session d l) with [] => None | l' => Some l' end
                                                         | None => zfind k (distributedConnectAbilityMap_ s)
                                                         end.
Proof.
  revert s. induction m as [|[k l] m IH]; intros s H Hm Hin; [done|]. rewrite zsorted_cons in Hm. destruct Hm as [Hm Hlt].
  apply List.Forall_cons_iff in Hin as [Hk Hin]. cbn [fst snd] in Hk. cbn [offline_connects]. destruct (take_session d l) as [found l'] eqn:T.
  set (s0 := match found with Some x => _ | None => s end).
  assert (F0 : Connected dead s0 /\ distributedConnectAbilityMap_ s0 = distributedConnectAbilityMap_ s /\ connectAbilityMap_ s0 = connectAbilityMap_ s).
  { unfold s0. destruct found; [|done]. unfold NotifyDeviceOfflineToAppLocked. rewrite ask_all_eq. done. }
  destruct F0 as (H0 & E0 & E0'). clearbody s0. rewrite <- E0 in Hk, Hin. cbn zeta. set (s1 := match l' with [] => _ | _ :: _ => _ end).
  assert (F1 : Connected dead s1 /\ distributedConnectAbilityMap_ s1 = (match l' with [] => zerase k (distributedConnectAbilityMap_ s0) | _ => zset k l' (distributedConnectAbilityMap_ s0) end) /\ connectAbilityMap_ s1 = connectAbilityMap_ s).
  { unfold s1. destruct l' as [|y l'].
    - pose proof (drop_Connected _ _ _ _ H0 Hk) as R. rewrite DecreaseConnectLocked_eq in R |- *. done.
    - split; [|done]. eapply connects_shrink; [exact H0|exact Hk|]. eapply take_session_ok; [|exact T|done]. exact (zall_find _ _ _ _ (ok_sessions _ _ _ _ H0) Hk). }
  destruct F1 as (H1 & E1 & E1'). clearbody s1. assert (Hin1 : entries_of m (distributedConnectAbilityMap_ s1)).
  { rewrite E1. destruct l'; [apply entries_erase; [done|exact (ok_sorted _ _ _ _ H0)|done]|by apply entries_set]. }
  specialize (IH s1 H1 Hm Hin1). cbn zeta in IH. destruct IH as (I1 & I2 & I3). split; [done|]. split; [congruence|]. intros k'. rewrite I3, E1. cbn [zfind].
  destruct (Z.eqb_spec k' k) as [->|Hne].
  - rewrite (zfind_None_lt _ _ Hlt), T. cbn [snd]. destruct l'; [rewrite zfind_zerase by exact (ok_sorted _ _ _ _ H0)|rewrite zfind_zset]; by rewrite Z.eqb_refl.
  - destruct (zfind k' m); [done|]. rewrite <- E0. destruct l'; [rewrite zfind_zerase by exact (ok_sorted _ _ _ _ H0)|rewrite zfind_zset]; (destruct (Z.eqb_spec k' k); [congruence|done]).
Qed.

(** The other operations leave the connections of this device's applications alone. *)
Definition keeps (s s' : Svc) : Prop :=
  distributedConnectAbilityMap_ s' = distributedConnectAbilityMap_ s /\ trackingUidMap_ s' = trackingUidMap_ s /\
  forall c, watch_count (RConnect, c) (watches s') = watch_count (RConnect, c) (watches s).
#[local] Instance keeps_preorder : PreOrder keeps.
Proof. split; [done|]. intros x y z (A1 & A2 & A3) (B1 & B2 & B3). split; [congruence|]. split; [congruence|]. intros c. by rewrite B3. Qed.
Lemma keeps_Connected dead s s' : keeps s s' -> Connected dead s -> Connected dead s'.
Proof. intros (E1 & E2 & E3) H. unfold Connected. rewrite E1, E2. by apply (connects_watches _ _ _ _ _ E3). Qed.
Lemma keeps_add r k s : r <> RConnect -> keeps s (AddDeathRecipient r k s).
Proof. intros Hr. split; [done|]. split; [done|]. intros c. cbn. rewrite watch_count_app, bool_decide_false by congruence. cbn. lia. Qed.
Lemma keeps_remove r k s : r <> RConnect -> keeps s (RemoveDeathRecipient r k s).
Proof. intros Hr. split; [done|]. split; [done|]. intros c. cbn. by rewrite watch_count_remove, bool_decide_false by congruence. Qed.
Lemma keeps_ask_all l s : keeps s (ask_all l s).
Proof. rewrite ask_all_eq. done. Qed.

Lemma drop_sinks_keeps a p m r s : keeps s (snd (drop_sinks a p m r s)).
Proof.
  revert r s. induction m as [|[k i] m IH]; intros r s; [done|]. cbn [drop_sinks]. destruct (p i); [|apply IH]. etrans; [|apply IH]. done.
Qed.
Lemma offline_callers_keeps a d m s : keeps s (offline_callers a d m s).
Proof.
  revert s. induction m as [|[k l] m IH]; intros s; [done|]. cbn [offline_callers]. destruct (take_session d l) as [found l'].
  etrans; [|apply IH]. set (s0 := match found with Some x => _ | None => s end). transitivity s0; [unfold s0; destruct found; [apply keeps_ask_all|done]|].
  destruct l'; [|done]. etrans; [apply (keeps_remove RLocalCaller k); discriminate|done].
Qed.
Lemma drop_caller_keeps a b k s : keeps s (drop_caller a b k s).
Proof.
  unfold drop_caller. destruct (zfind k (callerMap_ s)) as [l|]; [|done]. unfold NotifyCollaborateEventWithSessions. rewrite ask_all_eq.
  set (s1 := if b then _ else s). transitivity s1; [unfold s1; destruct b; [apply keeps_remove; discriminate|done]|]. by destruct l.
Qed.
Lemma Unregister_keeps a k s : keeps s (UnregisterAppStateObserver a k s).
Proof. unfold UnregisterAppStateObserver. destruct (zfind k _); [|done]. destruct (existsb _ _); [done|]. by destruct (a_GetAppManager a). Qed.
Lemma Register_keeps a t e c k w s : keeps s (snd (RegisterAppStateObserver a t e c k w s)).
Proof.
  unfold RegisterAppStateObserver. destruct (t =? _); [done|]. destruct (a_GetAppManager a); [|done]. cbn [negb]. destruct (mfind _ _); [done|].
  by destruct (a_RegisterObserver a =? ERR_OK).
Qed.
Lemma ConnectFrom_keeps a e k c s : keeps s (snd (ConnectAbilityFromRemote a e k c s)).
Proof.
  unfold ConnectAbilityFromRemote. destruct k as [k|]; [|done]. destruct (a_GetLocalDeviceId a); [|done]. destruct (negb (CheckDeviceIdFromRemote _ _ _ _)); [done|].
  destruct (negb (_ =? _)); [done|]. destruct (caller_callerType c =? CALLER_TYPE_HARMONY); [destruct (zfind k (connectAbilityMap_ s)) eqn:E|]; destruct (_ && _); cbn; try done.
  all: by destruct (zfind k (connectAbilityMap_ s)).
Qed.
Lemma DisconnectFrom_keeps a k d s : keeps s (snd (DisconnectAbilityFromRemote a k d s)).
Proof.
  unfold DisconnectAbilityFromRemote. destruct k as [k|]; [|done]. destruct (negb _); [done|]. destruct (zfind k _); [done|]. by destruct (negb _).
Qed.
Lemma SaveCallerComponent_keeps a e k c s : keeps s (SaveCallerComponent a e k c s).
Proof.
  unfold SaveCallerComponent. set (s1 := match zfind k _ with Some _ => s | None => _ end). assert (K : keeps s s1).
  { unfold s1. destruct (zfind k _); [done|]. etrans; [apply (keeps_add RLocalCaller k); discriminate|done]. }
  clearbody s1. etrans; [exact K|]. by destruct (has_session _ _).
Qed.
Lemma Call_keeps a e k uid pid tok s : keeps s (snd (StartRemoteAbilityByCall a e k uid pid tok s)).
Proof.
  unfold StartRemoteAbilityByCall. destruct (negb _); [done|]. destruct k as [k|]; [|done]. destruct (a_GetLocalDeviceId a); [|done]. destruct (negb _); [done|].
  destruct (a_GetCallerAppId a uid); [|done]. destruct (a_GetBundleNameList a uid); [|done]. unfold TryStartRemoteAbilityByCall.
  destruct (negb (GetRemoteDms _ _)); [done|]. destruct (negb (a_GetAccountInfo a =? ERR_OK)); [cbn; by destruct (_ =? _)|].
  cbn [SaveConnectToken]. destruct (a_CallRemote a =? ERR_OK) eqn:E; cbn -[SaveCallerComponent]; [|done]. etrans; [|apply SaveCallerComponent_keeps]. done.
Qed.
Lemma Release_keeps a k e s : keeps s (snd (ReleaseRemoteAbility a k e s)).
Proof.
  unfold ReleaseRemoteAbility. destruct k as [k|]; [|done]. destruct (a_GetLocalDeviceId a); [|done]. destruct (negb _); [done|]. cbn [snd].
  destruct (_ =? _); [|done]. etrans; [|apply drop_caller_keeps]. done.
Qed.
Lemma CallFrom_keeps a t e k c s : keeps s (snd (StartAbilityByCallFromRemote a t e k c s)).
Proof.
  unfold StartAbilityByCallFromRemote. destruct k as [k|]; [|done]. cbn zeta. set (s0 := dest_event _ _ _ _ s). assert (K0 : keeps s s0) by done. clearbody s0.
  destruct (a_GetLocalDeviceId a) as [ld|]; [|done]. destruct (negb (CheckDeviceIdFromRemote _ _ _ _)); [done|]. destruct (negb (_ =? _)); [done|].
  assert (exists w s1, (match zfind k (calleeMap_ s0) with Some i => (ci_callbackWrapper i, s0) | None => (next_object s0, new_object s0) end) = (w, s1) /\ keeps s0 s1) as (w & s1 & -> & K1).
  { destruct (zfind k (calleeMap_ s0)) as [i|]; [by exists (ci_callbackWrapper i), s0|by exists (next_object s0), (new_object s0)]. }
  etrans; [exact K0|]. etrans; [exact K1|]. cbn [snd]. destruct (a_StartAbilityByCall a =? ERR_OK); [|done].
  set (s2 := match zfind k _ with Some _ => _ | None => _ end). assert (K2 : keeps s1 s2) by (unfold s2; by destruct (zfind k _)). clearbody s2.
  etrans; [exact K2|]. etrans; [apply (keeps_add RCaller k); discriminate|]. apply (Register_keeps a t e c k w).
Qed.
Lemma ReleaseFrom_keeps a k e c s : keeps s (snd (ReleaseAbilityFromRemote a k e c s)).
Proof.
  unfold ReleaseAbilityFromRemote. destruct k as [k|]; [|done]. destruct (negb _); [done|]. destruct (zfind k _) as [i|]; [|done]. cbn [ReleaseAbility snd].
  etrans; [|apply (Unregister_keeps a (ci_callbackWrapper i))]. etrans; [|apply keeps_remove; discriminate]. done.
Qed.
Lemma CallerDied_keeps a k t s : keeps s (ProcessCallerDied a k t s).
Proof.
  unfold ProcessCallerDied. destruct k as [k|]; [|done]. destruct (t =? CALLER); [apply drop_caller_keeps|]. destruct (zfind k (calleeMap_ s)) as [i|]; cbn [ReleaseAbility].
  - etrans; [|apply (Unregister_keeps a (ci_callbackWrapper i))]. done.
  - apply (Unregister_keeps a k).
Qed.
Lemma CalleeDied_keeps a k s : keeps s (ProcessCalleeDied a k s).
Proof. unfold ProcessCalleeDied. destruct (k ≫= _) as [i|]; [|done]. etrans; [|apply (Unregister_keeps a (ci_callbackWrapper i))]. done. Qed.
Lemma State_keeps a st e t s : keeps s (snd (NotifyStateChanged a st e t s)).
Proof.
  unfold NotifyStateChanged. destruct (match zfirst _ _ with Some _ => _ | None => _ end) as [d t']. destruct (a_GetLocalDeviceId a); [|done].
  destruct (negb _); [done|]. by destruct (negb _).
Qed.

Lemma Offline_Connected dead a d s : Connected dead s -> Connected dead (ProcessDeviceOffline a d s).
Proof.
  intros H. unfold ProcessDeviceOffline. destruct (a_GetLocalDeviceId a) as [ld|]; [|done]. destruct (CheckDeviceId ld d); [|done].
  unfold ProcessCalleeOffline, RemoveConnectAbilityInfo. cbn zeta. set (s0 := ask AMissionsOffline s). assert (H0 : Connected dead s0) by exact H. clearbody s0.
  destruct (offline_connects_spec dead d _ s0 H0 (ok_sorted _ _ _ _ H0) (entries_refl _ (ok_sorted _ _ _ _ H0))) as (H1 & _).
  eapply keeps_Connected; [|exact H1]. etrans; [eapply (drop_sinks_keeps a)|]. etrans; [apply (offline_callers_keeps a d)|]. done.
Qed.
Lemma run_task_Connected dead a t s : Connected dead s -> Connected dead (run_task a t s).
Proof.
  intros H. destruct t; cbn [run_task].
  - by apply Offline_Connected.
  - by apply ProcessConnectDied_Connected.
  - exact (keeps_Connected _ _ _ (CalleeDied_keeps _ _ _) H).
  - unfold ProcessCallResult. by destruct (a_GetAbilityToken a).
  - exact (keeps_Connected _ _ _ (CallerDied_keeps _ _ _ _) H).
Qed.

(** ** The death of a process *)

Definition reports (c : CallerInfo) (m : zmap (list ConnectAbilitySession)) : list Ask :=
  map (fun _ => AReportCaller c DISTRIBUTED_COMPONENT_REMOVE CONNECT) (List.filter (fun e : Z * _ => first_same_caller c (snd e)) m).
Lemma died_loop_asked c m seen s : asked (snd (died_loop c m seen s)) = asked s ++ reports c m.
Proof.
  revert seen s. induction m as [|[k l] m IH]; intros seen s; cbn [died_loop reports List.filter map fst snd]; [by rewrite app_nil_r|].
  fold (reports c m). destruct (first_same_caller c l); [|apply IH]. rewrite IH, DecreaseConnectLocked_eq. cbn. by rewrite <- app_assoc.
Qed.
Lemma add_devices_spec l seen :
  NoDup seen -> NoDup (add_devices l seen) /\ forall d, In d (add_devices l seen) <-> In d seen \/ In d (map destinationDeviceId_ l).
Proof.
  revert seen. induction l as [|x l IH]; intros seen Hnd; cbn [add_devices map]; [split; [done|]; cbn; tauto|].
  destruct (existsb (String.eqb (destinationDeviceId_ x)) seen) eqn:E.
  - apply existsb_exists in E as (y & Hy & Heq). apply String.eqb_eq in Heq as <-. destruct (IH seen Hnd) as [H1 H2]. split; [done|].
    intros d. rewrite H2. cbn. split; [tauto|]. intros [?|[<-|?]]; auto.
  - assert (Hn : ~ In (destinationDeviceId_ x) seen).
    { intros Hin. rewrite <- Bool.not_true_iff_false in E. apply E, existsb_exists. eexists. split; [exact Hin|]. apply String.eqb_refl. }
    destruct (IH (seen ++ [destinationDeviceId_ x])) as [H1 H2].
    { apply NoDup_app. split; [done|]. split; [|apply NoDup_singleton]. intros y Hy Hy'. apply list_elem_of_singleton in Hy' as ->. by apply list_elem_of_In in Hy. }
    split; [done|]. intros d. rewrite H2, in_app_iff. cbn. tauto.
Qed.
Lemma devices_spec c m seen :
  NoDup seen -> let seen' := foldl (fun seen (e : Z * list ConnectAbilitySession) => if first_same_caller c (snd e) then add_devices (snd e) seen else seen) seen m in
  NoDup seen' /\ forall d, In d seen' <-> In d seen \/ exists k l, In (k, l) m /\ first_same_caller c l = true /\ In d (map destinationDeviceId_ l).
Proof.
  revert seen. induction m as [|[k l] m IH]; intros seen Hnd; cbn [foldl fst snd]; cbn zeta.
  - split; [done|]. intros d. split; [by left|]. intros [?|(? & ? & [] & _)]. done.
  - cbn zeta in IH. destruct (first_same_caller c l) eqn:F.
    + destruct (add_devices_spec l seen Hnd) as [A1 A2]. destruct (IH _ A1) as [I1 I2]. split; [done|]. intros d. rewrite I2, A2. split.
      * intros [[?|?]|(k' & l' & ? & ? & ?)]; [by left|right; exists k, l; cbn; auto|right; exists k', l'; cbn; auto].
      * intros [?|(k' & l' & [[= <- <-]|?] & ? & ?)]; [auto|auto|right; eauto 6].
    + destruct (IH _ Hnd) as [I1 I2]. split; [done|]. intros d. rewrite I2. split.
      * intros [?|(k' & l' & ? & ? & ?)]; [by left|right; exists k', l'; cbn; auto].
      * intros [?|(k' & l' & [[= <- <-]|?] & ? & ?)]; [auto|congruence|right; eauto 6].
Qed.

Lemma zerase_mid {A} (pre m : zmap A) k v : zsorted (pre ++ (k, v) :: m) -> zerase k (pre ++ (k, v) :: m) = pre ++ m.
Proof.
  induction pre as [|[k' v'] pre IH]; cbn; [by rewrite Z.eqb_refl|]. rewrite zsorted_cons. intros [Hs Hlt]. rewrite (IH Hs).
  unfold zkeys in Hlt. rewrite map_app in Hlt. apply Forall_app in Hlt as [_ Hlt]. apply List.Forall_cons_iff in Hlt as [Hlt _]. cbn in Hlt. destruct (Z.eqb_spec k k'); [lia|done].
Qed.
Lemma zsorted_mid {A} (pre m : zmap A) k v : zsorted (pre ++ (k, v) :: m) -> zsorted (pre ++ m).
Proof. intros H. rewrite <- (zerase_mid pre m k v H). by apply zerase_sorted. Qed.
Definition disconnects (p : ConnectInfo -> bool) (m : zmap ConnectInfo) : list Ask :=
  concat (map (fun e : Z * _ => [ADisconnectAbility (ci_callbackWrapper (snd e)); AReportCallee (snd e) DISTRIBUTED_COMPONENT_REMOVE CONNECT]) (List.filter (fun e : Z * _ => p (snd e)) m)).
Lemma drop_sinks_spec a p m r pre s :
  connectAbilityMap_ s = pre ++ m -> zsorted (pre ++ m) ->
  connectAbilityMap_ (snd (drop_sinks a p m r s)) = pre ++ List.filter (fun e => negb (p (snd e))) m /\
  asked (snd (drop_sinks a p m r s)) = asked s ++ disconnects p m.
Proof.
  revert r pre s. induction m as [|[k i] m IH]; intros r pre s E Hs; [cbn; by rewrite !app_nil_r in *|].
  unfold disconnects. cbn [drop_sinks List.filter fst snd]. destruct (p i); cbn [negb map concat].
  - match goal with |- context [drop_sinks a p m ?r ?s1] => destruct (IH r pre s1) as [I1 I2] end; [cbn; rewrite E; by apply zerase_mid|by eapply zsorted_mid|].
    split; [exact I1|]. rewrite I2. cbn. unfold disconnects. by rewrite <- !app_assoc.
  - destruct (IH r (pre ++ [(k, i)]) s) as [I1 I2]; [by rewrite <- app_assoc|by rewrite <- app_assoc|]. rewrite I1, I2, <- app_assoc. done.
Qed.

(** Two callers are the same process of a device. *)
Definition of_process (c c' : CallerInfo) : Prop :=
  caller_sourceDeviceId c = caller_sourceDeviceId c' /\ caller_uid c = caller_uid c' /\ caller_pid c = caller_pid c' /\ caller_callerType c = caller_callerType c'.
(** The connection belongs to the process. *)
Definition connected_by (c : CallerInfo) (l : list ConnectAbilitySession) : Prop := exists x l', l = x :: l' /\ of_process c (callerInfo_ x).
Lemma same_process_spec c i : same_process c i = true <-> of_process c (ci_callerInfo i).
Proof. unfold same_process, of_process. rewrite !andb_true_iff, String.eqb_eq, !Z.eqb_eq. tauto. Qed.
Lemma first_same_caller_spec c l : first_same_caller c l = true <-> connected_by c l.
Proof.
  unfold first_same_caller, connected_by. destruct l as [|x l]; [split; [discriminate|intros (? & ? & ? & _); discriminate]|].
  unfold IsSameCaller. rewrite !andb_true_iff, String.eqb_eq, !Z.eqb_eq. unfold of_process. split.
  - intros [[[? ?] ?] ?]. exists x, l. split; [done|]. tauto.
  - intros (y & l' & [= <- <-] & ?). tauto.
Qed.

(** When a connection object dies, all connections of the process that held it
    are removed and no other is touched; every device that one of them had a session
    with is told, once, if its service is reached; and a device that is told
    removes exactly its connections from that process and disconnects them. *)
Theorem process_death_cleans dead a b k x l s t :
  Connected dead s -> zfind k (distributedConnectAbilityMap_ s) = Some (x :: l) -> zsorted (connectAbilityMap_ t) ->
  let c := callerInfo_ x in
  let s' := ProcessConnectDied a (Some k) s in
  let t' := snd (NotifyProcessDiedFromRemote b c t) in
  (forall k' l', zfind k' (distributedConnectAbilityMap_ s') = Some l' <-> zfind k' (distributedConnectAbilityMap_ s) = Some l' /\ ~ connected_by c l') /\
  (exists devices, asked s' = asked s ++ reports c (distributedConnectAbilityMap_ s) ++ map (fun d => ANotifyDied d c) (List.filter (GetRemoteDms (a_GetRemoteDms a)) devices) /\ NoDup devices /\
     forall d, In d devices <-> exists k' l', zfind k' (distributedConnectAbilityMap_ s) = Some l' /\ connected_by c l' /\ In d (map destinationDeviceId_ l')) /\
  (forall e, In e (connectAbilityMap_ t') <-> In e (connectAbilityMap_ t) /\ ~ of_process c (ci_callerInfo (snd e))) /\
  asked t' = asked t ++ disconnects (same_process c) (connectAbilityMap_ t).
Proof.
  intros H E Ht. cbn zeta. pose proof (ok_sorted _ _ _ _ H) as Hs. set (c := callerInfo_ x).
  pose proof (died_loop_spec dead c _ [] s H Hs (entries_refl _ Hs)) as R. pose proof (died_loop_asked c (distributedConnectAbilityMap_ s) [] s) as Ra.
  assert (Ep : ProcessConnectDied a (Some k) s = let '(notifyList, s1) := died_loop c (distributedConnectAbilityMap_ s) [] s in foldl (fun s device => NotifyProcessDied a c device s) s1 notifyList).
  { unfold ProcessConnectDied. cbn [mbind option_bind]. by rewrite E. }
  rewrite Ep. destruct (died_loop _ _ _ _) as [seen s1]. destruct R as (_ & Hseen & _ & R). cbn [snd] in Ra. destruct (notify_all_Connected dead a c seen s1) as (_ & N1 & _ & N2). split; [|split].
  - intros k' l'. rewrite N1, R. destruct (zfind k' (distributedConnectAbilityMap_ s)) as [l2|] eqn:F; [|intuition congruence].
    destruct (first_same_caller c l2) eqn:G; [apply first_same_caller_spec in G; split; [discriminate|intros [[= ->] Hn]; contradiction]|].
    split; [intros [= ->]; split; [done|]; rewrite <- first_same_caller_spec; congruence|by intros [? _]].
  - exists seen. rewrite N2, Ra, <- app_assoc. split; [done|]. rewrite Hseen.
    destruct (devices_spec c (distributedConnectAbilityMap_ s) [] (NoDup_nil_2)) as [D1 D2]. split; [done|]. intros d. rewrite D2. split.
    + intros [[]|(k' & l' & Hin & Hc & ?)]. exists k', l'. split; [by apply zfind_In|]. split; [by apply first_same_caller_spec|done].
    + intros (k' & l' & Hin & Hc & ?). right. exists k', l'. split; [by apply zfind_In'|]. split; [by apply first_same_caller_spec|done].
  - unfold NotifyProcessDiedFromRemote. destruct (drop_sinks_spec b (same_process c) (connectAbilityMap_ t) ERR_OK [] t eq_refl Ht) as [D1 D2]. rewrite D1, D2. split; [|done].
    intros [k' i]. cbn [app]. rewrite filter_In. cbn [snd]. rewrite <- same_process_spec. destruct (same_process c i); cbn; intuition congruence.
Qed.

(** ** A device goes offline *)

Lemma take_session_filter d l : NoDup (map destinationDeviceId_ l) -> snd (take_session d l) = List.filter (fun x => negb (String.eqb (destinationDeviceId_ x) d)) l.
Proof.
  induction l as [|x l IH]; cbn; [done|]. intros Hnd. apply NoDup_cons in Hnd as [Hn Hnd]. destruct (String.eqb_spec (destinationDeviceId_ x) d) as [<-|]; cbn [negb].
  - cbn. clear IH Hnd. induction l as [|y l IH]; cbn in *; [done|]. apply not_elem_of_cons in Hn as [Hy Hn]. destruct (String.eqb_spec (destinationDeviceId_ y) (destinationDeviceId_ x)); [congruence|].
    cbn. f_equal. by apply IH.
  - specialize (IH Hnd). destruct (take_session d l). cbn in *. by rewrite IH.
Qed.
Definition tells_offline (x : Ask) : bool := match x with ANotifyOffline _ _ => true | _ => false end.
Definition disconnects_one (x : Ask) : bool := match x with ADisconnectAbility _ => true | _ => false end.
(** The messages to the connections that a device has gone: one for each ability of the
    sessions with it. *)
Definition notices (d : string) (k : Z) (l : list ConnectAbilitySession) : list Ask :=
  concat (map (fun x => if String.eqb (destinationDeviceId_ x) d then map (ANotifyOffline k) (elementsList_ x) else []) l).
Definition offline_notices (d : string) (m : zmap (list ConnectAbilitySession)) : list Ask := concat (map (fun e : Z * _ => notices d (fst e) (snd e)) m).
Lemma notices_none d k l : ~ In d (map destinationDeviceId_ l) -> notices d k l = [].
Proof. unfold notices. induction l as [|x l IH]; cbn; [done|]. intros H. destruct (String.eqb_spec (destinationDeviceId_ x) d) as [E|]; [by destruct H; left|]. apply IH. tauto. Qed.
Lemma take_session_notices d k l : NoDup (map destinationDeviceId_ l) -> notices d k l = match fst (take_session d l) with Some x => map (ANotifyOffline k) (elementsList_ x) | None => [] end.
Proof.
  induction l as [|x l IH]; [done|]. cbn [map]. intros Hnd. apply NoDup_cons in Hnd as [Hn Hnd]. specialize (IH Hnd). cbn [take_session]. unfold notices in *. cbn [map concat].
  destruct (String.eqb_spec (destinationDeviceId_ x) d) as [E|].
  - cbn [fst]. fold (notices d k l). rewrite notices_none; [by rewrite app_nil_r|]. rewrite <- E. by rewrite <- list_elem_of_In.
  - cbn [app]. rewrite IH. by destruct (take_session d l).
Qed.
Lemma filter_notices (f : Ask -> bool) b k l : (forall e, f (ANotifyOffline k e) = b) -> List.filter f (map (ANotifyOffline k) l) = if b then map (ANotifyOffline k) l else [].
Proof. intros H. induction l as [|e l IH]; cbn; [by destruct b|]. rewrite H, IH. by destruct b. Qed.
Lemma DecreaseConnect_rest uid s :
  asked (DecreaseConnectLocked uid s) = asked s /\ callMap_ (DecreaseConnectLocked uid s) = callMap_ s /\ callerMap_ (DecreaseConnectLocked uid s) = callerMap_ s.
Proof. unfold DecreaseConnectLocked. destruct (uid <? 0); [done|]. by destruct (zfind uid _). Qed.
Lemma offline_connects_asked d m s :
  List.Forall (fun e : Z * _ => NoDup (map destinationDeviceId_ (snd e))) m ->
  let s' := offline_connects d m s in
  List.filter tells_offline (asked s') = List.filter tells_offline (asked s) ++ offline_notices d m /\
  List.filter disconnects_one (asked s') = List.filter disconnects_one (asked s) /\ callMap_ s' = callMap_ s /\ callerMap_ s' = callerMap_ s.
Proof.
  revert s. induction m as [|[k l] m IH]; intros s Hm; [cbn; by rewrite app_nil_r|]. apply List.Forall_cons_iff in Hm as [Hk Hm]. cbn [fst snd] in Hk.
  unfold offline_notices. cbn [offline_connects map concat fst snd]. rewrite (take_session_notices d k l Hk). destruct (take_session d l) as [found l']. cbn [fst].
  set (s0 := match found with Some x => NotifyDeviceOfflineToAppLocked k x s | None => s end). set (N := match found with Some x => map _ _ | None => [] end).
  assert (K0 : List.filter tells_offline (asked s0) = List.filter tells_offline (asked s) ++ N /\ List.filter disconnects_one (asked s0) = List.filter disconnects_one (asked s) /\
    callMap_ s0 = callMap_ s /\ callerMap_ s0 = callerMap_ s).
  { unfold s0, N. destruct found as [x|]; [|by rewrite app_nil_r]. unfold NotifyDeviceOfflineToAppLocked. rewrite ask_all_eq. cbn.
    rewrite !List.filter_app, (filter_notices tells_offline true), (filter_notices disconnects_one false) by done. by rewrite app_nil_r. }
  clearbody s0. destruct K0 as (K1 & K2 & K3 & K4). set (s1 := match l' with [] => _ | _ => _ end).
  assert (L : List.filter tells_offline (asked s1) = List.filter tells_offline (asked s0) /\ List.filter disconnects_one (asked s1) = List.filter disconnects_one (asked s0) /\
    callMap_ s1 = callMap_ s0 /\ callerMap_ s1 = callerMap_ s0).
  { unfold s1. destruct l'; [|done]. cbn zeta. match goal with |- context [DecreaseConnectLocked ?u ?x] => destruct (DecreaseConnect_rest u x) as (D1 & D2 & D3) end.
    cbn [asked callMap_ callerMap_ set_connects ask]. rewrite D1, D2, D3, !List.filter_app. cbn. by rewrite !app_nil_r. }
  clearbody s1. destruct L as (L1 & L2 & L3 & L4). destruct (IH s1 Hm) as (I1 & I2 & I3 & I4). cbn zeta. rewrite I1, I2, I3, I4, L1, L2, L3, L4, K1, K2, K3, K4. by rewrite <- app_assoc.
Qed.
Lemma drop_sinks_tables a p m r s : callMap_ (snd (drop_sinks a p m r s)) = callMap_ s /\ callerMap_ (snd (drop_sinks a p m r s)) = callerMap_ s.
Proof. revert r s. induction m as [|[k i] m IH]; intros r s; [done|]. cbn [drop_sinks]. destruct (p i); [|apply IH]. cbn zeta. by destruct (IH (if a_DisconnectAbility a (ci_callbackWrapper i) =? ERR_OK then r else a_DisconnectAbility a (ci_callbackWrapper i))
  (set_sinks (zerase k (connectAbilityMap_ s)) (ask (AReportCallee i DISTRIBUTED_COMPONENT_REMOVE CONNECT) (ask (ADisconnectAbility (ci_callbackWrapper i)) s)))). Qed.
Lemma filter_disconnects p m :
  List.filter tells_offline (disconnects p m) = [] /\
  List.filter disconnects_one (disconnects p m) = map (fun e : Z * _ => ADisconnectAbility (ci_callbackWrapper (snd e))) (List.filter (fun e : Z * _ => p (snd e)) m).
Proof. unfold disconnects. induction m as [|[k i] m [I1 I2]]; [done|]. cbn [List.filter fst snd]. destruct (p i); [|done]. cbn. split; [exact I1|by f_equal]. Qed.
Lemma filter_events (f : Ask -> bool) g l : (forall e, f (AEvent e) = false) -> List.filter f (map (fun e : Element => AEvent (g e)) l) = [].
Proof. intros H. induction l as [|e l IH]; cbn; [done|]. by rewrite H. Qed.
(** The callers of abilities of the device lose their session with it. *)
Lemma offline_callers_spec a d m s :
  zsorted m -> zsorted (callerMap_ s) -> (forall k l, In (k, l) m -> zfind k (callerMap_ s) = Some l) -> let s' := offline_callers a d m s in
  List.filter tells_offline (asked s') = List.filter tells_offline (asked s) /\ List.filter disconnects_one (asked s') = List.filter disconnects_one (asked s) /\
  callMap_ s' = callMap_ s /\ connectAbilityMap_ s' = connectAbilityMap_ s /\ zsorted (callerMap_ s') /\
  forall k, zfind k (callerMap_ s') = match zfind k m with Some l => match snd (take_session d l) with [] => None | l' => Some l' end | None => zfind k (callerMap_ s) end.
Proof.
  revert s. induction m as [|[k l] m IH]; intros s Hm Hs Hin; [done|]. rewrite zsorted_cons in Hm. destruct Hm as [Hm Hlt]. cbn [offline_callers]. destruct (take_session d l) as [found l'] eqn:T.
  set (s0 := match found with Some x => _ | None => s end).
  assert (K0 : List.filter tells_offline (asked s0) = List.filter tells_offline (asked s) /\ List.filter disconnects_one (asked s0) = List.filter disconnects_one (asked s) /\
    callMap_ s0 = callMap_ s /\ connectAbilityMap_ s0 = connectAbilityMap_ s /\ callerMap_ s0 = callerMap_ s).
  { unfold s0. destruct found as [x|]; [|done]. unfold NotifyCollaborateEventWithSessions. rewrite ask_all_eq. cbn. rewrite app_nil_r, !List.filter_app, !filter_events by done. by rewrite !app_nil_r. }
  clearbody s0. destruct K0 as (K1 & K2 & K3 & K4 & K5). set (s1 := match l' with [] => _ | _ => _ end).
  assert (L : List.filter tells_offline (asked s1) = List.filter tells_offline (asked s0) /\ List.filter disconnects_one (asked s1) = List.filter disconnects_one (asked s0) /\
    callMap_ s1 = callMap_ s0 /\ connectAbilityMap_ s1 = connectAbilityMap_ s0 /\ zsorted (callerMap_ s1) /\
    forall i, zfind i (callerMap_ s1) = if i =? k then match l' with [] => None | l' => Some l' end else zfind i (callerMap_ s)).
  { unfold s1. destruct l'; cbn; rewrite ?List.filter_app, ?app_nil_r, K5; cbn; rewrite ?app_nil_r; (split; [done|split; [done|split; [done|split; [done|split; [auto with dms|]]]]]); intros i; [by rewrite zfind_zerase|by rewrite zfind_zset]. }
  clearbody s1. destruct L as (L1 & L2 & L3 & L4 & L5 & L6).
  assert (Hk : forall i v, In (i, v) m -> i <> k). { intros i v Hi ->. rewrite List.Forall_forall in Hlt. specialize (Hlt k). apply Z.lt_irrefl with k, Hlt, in_map_iff. by exists (k, v). }
  destruct (IH s1 Hm L5) as (I1 & I2 & I3 & I4 & I5 & I6). { intros i v Hi. rewrite L6. destruct (Z.eqb_spec i k) as [->|]; [by destruct (Hk _ _ Hi)|]. apply Hin. by right. }
  cbn zeta. rewrite I1, I2, I3, I4, L1, L2, L3, L4, K1, K2, K3, K4. split; [done|]. split; [done|]. split; [done|]. split; [done|]. split; [done|]. intros i. rewrite I6. cbn [zfind].
  destruct (Z.eqb_spec i k) as [->|Hne].
  - assert (zfind k m = None) as ->. { destruct (zfind k m) as [v|] eqn:E; [|done]. by destruct (Hk _ _ (zfind_In' _ _ _ E)). } rewrite L6, T. cbn [snd]. rewrite Z.eqb_refl. by destruct l'.
  - destruct (zfind i m); [done|]. rewrite L6. by destruct (Z.eqb_spec i k).
Qed.
(** C21: When a device goes offline, the sessions with it are removed from the
    connections of this device's applications and from their calls, a connection or
    caller that has no session left is removed, exactly the connections that the other
    device made to abilities of this one are removed, and exactly the calls to it are
    removed from the list of calls; everything of other devices stays as it is. Every
    connection is told once for each ability of its session with the device, and
    each removed connection from the device is disconnected once; no other is told or
    disconnected. *)
Theorem offline_cleans dead a ld d s :
  Connected dead s -> zsorted (connectAbilityMap_ s) -> zsorted (callerMap_ s) -> a_GetLocalDeviceId a = Some ld -> CheckDeviceId ld d = true ->
  let s' := ProcessDeviceOffline a d s in
  let from_d (e : Z * ConnectInfo) := String.eqb d (caller_sourceDeviceId (ci_callerInfo (snd e))) in
  (forall k, zfind k (distributedConnectAbilityMap_ s') =
     match zfind k (distributedConnectAbilityMap_ s) with
     | Some l => match List.filter (fun x => negb (String.eqb (destinationDeviceId_ x) d)) l with [] => None | l' => Some l' end
     | None => None
     end) /\
  (forall k, zfind k (callerMap_ s') = match zfind k (callerMap_ s) with Some l => match snd (take_session d l) with [] => None | l' => Some l' end | None => None end) /\
  connectAbilityMap_ s' = List.filter (fun e => negb (from_d e)) (connectAbilityMap_ s) /\
  callMap_ s' = List.filter (fun e => negb (String.eqb (call_remoteDeviceId (snd e)) d)) (callMap_ s) /\
  List.filter tells_offline (asked s') = List.filter tells_offline (asked s) ++ offline_notices d (distributedConnectAbilityMap_ s) /\
  List.filter disconnects_one (asked s') =
    List.filter disconnects_one (asked s) ++ map (fun e => ADisconnectAbility (ci_callbackWrapper (snd e))) (List.filter from_d (connectAbilityMap_ s)).
Proof.
  intros H Hsink Hcall Hld Hck. pose proof (ok_sorted _ _ _ _ H) as Hs. unfold ProcessDeviceOffline. rewrite Hld, Hck. cbn zeta.
  unfold ProcessCalleeOffline, RemoveConnectAbilityInfo. cbn zeta. set (s0 := ask AMissionsOffline s). assert (H0 : Connected dead s0) by exact H.
  assert (Hnd : List.Forall (fun e : Z * _ => NoDup (map destinationDeviceId_ (snd e))) (distributedConnectAbilityMap_ s0)).
  { apply List.Forall_forall. intros [k l] Hin. exact (proj1 (proj2 (zall_find _ _ _ _ (ok_sessions _ _ _ _ H) (zfind_In _ _ _ Hs Hin)))). }
  destruct (offline_connects_spec dead d _ s0 H0 Hs (entries_refl _ Hs)) as (_ & E1 & E2). destruct (offline_connects_asked d _ s0 Hnd) as (A1 & A2 & A3 & A4). set (s1 := offline_connects _ _ _) in *.
  set (s2 := snd (drop_sinks _ _ _ _ _)). destruct (drop_sinks_keeps a (fun i => String.eqb d (caller_sourceDeviceId (ci_callerInfo i))) (connectAbilityMap_ s1) ERR_OK s1) as (K1 & _).
  destruct (drop_sinks_spec a (fun i => String.eqb d (caller_sourceDeviceId (ci_callerInfo i))) (connectAbilityMap_ s1) ERR_OK [] s1) as [D1 D2]; [done|by rewrite E1|].
  destruct (drop_sinks_tables a (fun i => String.eqb d (caller_sourceDeviceId (ci_callerInfo i))) (connectAbilityMap_ s1) ERR_OK s1) as [D3 D4]. fold s2 in K1, D1, D2, D3, D4.
  destruct (offline_callers_keeps a d (callerMap_ s2) s2) as (K2 & _). assert (Ec : callerMap_ s2 = callerMap_ s) by (by rewrite D4, A4).
  destruct (offline_callers_spec a d (callerMap_ s2) s2) as (F1 & F2 & F3 & F4 & _ & F6); [by rewrite Ec..|intros k l Hin; apply zfind_In; [by rewrite Ec|done]|].
  destruct (filter_disconnects (fun i => String.eqb d (caller_sourceDeviceId (ci_callerInfo i))) (connectAbilityMap_ s1)) as [G1 G2]. split; [|split; [|split; [|split; [|split]]]].
  - intros k. cbn. rewrite K2, K1, E2. cbn. destruct (zfind k (distributedConnectAbilityMap_ s)) as [l|] eqn:E; [|done].
    rewrite take_session_filter; [done|]. exact (proj1 (proj2 (zall_find _ _ _ _ (ok_sessions _ _ _ _ H) E))).
  - intros k. cbn. rewrite F6, Ec. by destruct (zfind k (callerMap_ s)).
  - cbn. by rewrite F4, D1, E1.
  - cbn. by rewrite F3, D3, A3.
  - cbn. rewrite List.filter_app, F1, D2, List.filter_app, G1, A1. cbn. by rewrite List.filter_app, !app_nil_r.
  - cbn. rewrite List.filter_app, F2, D2, List.filter_app, G2, A2, E1. cbn. by rewrite List.filter_app, !app_nil_r.
Qed.
End Connections.

(** ** The service as a whole *)

(** A call of [ConnectRemoteAbility] that has passed the check of the limit and has let
    go of the lock. *)
Record Pending := mkPending { pd_connect : Z; pd_element : Element; pd_caller : CallerInfo; pd_attempt : nat }.
Definition pending_of (u : Z) (l : list Pending) : Z := Z.of_nat (length (List.filter (fun p => caller_uid (pd_caller p) =? u) l)).

Section System.
(** The application that holds a connection object, and how many calls to connect of one
    application may run at the same time. *)
Variable owner : Z -> Z.
Variable threads : Z.

Inductive Op :=
  | ODisconnect (connect : option Z)
  | OConnectFrom (e : Element) (connect : option Z) (c : CallerInfo)
  | ODisconnectFrom (connect : option Z) (source : string)
  | ODiedFrom (c : CallerInfo)
  | OCall (e : Element) (connect : option Z) (callerUid callerPid accessToken : Z)
  | ORelease (connect : option Z) (e : Element)
  | OCallFrom (token : Z) (e : Element) (connect : option Z) (c : CallerInfo)
  | OReleaseFrom (connect : option Z) (e : Element) (c : CallerInfo)
  | OState (state : Z) (e : Element) (token : option Z)
  | OStateFrom (state token : Z) (e : Element).
Definition exec (a : Answers) (o : Op) (s : Svc) : Svc :=
  match o with
  | ODisconnect k => snd (DisconnectRemoteAbility a k s)
  | OConnectFrom e k c => snd (ConnectAbilityFromRemote a e k c s)
  | ODisconnectFrom k d => snd (DisconnectAbilityFromRemote a k d s)
  | ODiedFrom c => snd (NotifyProcessDiedFromRemote a c s)
  | OCall e k uid pid tok => snd (StartRemoteAbilityByCall a e k uid pid tok s)
  | ORelease k e => snd (ReleaseRemoteAbility a k e s)
  | OCallFrom t e k c => snd (StartAbilityByCallFromRemote a t e k c s)
  | OReleaseFrom k e c => snd (ReleaseAbilityFromRemote a k e c s)
  | OState st e t => snd (NotifyStateChanged a st e t s)
  | OStateFrom st t e => snd (NotifyStateChangedFromRemote st t e s)
  end.

(** The service, the adapter's tasks, the objects that died and the calls to connect that
    are under way. A call to connect takes several steps, with those of others between
    them: the check of the limit, and each attempt. *)
Inductive sys_step : Svc * Adapter * list Z * list Pending -> Svc * Adapter * list Z * list Pending -> Prop :=
  | step_check a e k pid tok c s d dead l :
      pending_of (owner k) l < threads -> connect_check a e (owner k) pid tok s = inr c -> sys_step (s, d, dead, l) (s, d, dead, l ++ [mkPending k e c 0])
  | step_unprepared a p pre post s d dead :
      pd_attempt p = O -> connect_prepare a (pd_element p) <> ERR_OK -> sys_step (s, d, dead, pre ++ p :: post) (s, d, dead, pre ++ post)
  | step_attempt a p pre post r again s s' d dead :
      (pd_attempt p = O -> connect_prepare a (pd_element p) = ERR_OK) ->
      connect_attempt a (pd_attempt p) (el_device (pd_element p)) (pd_connect p) (pd_element p) (pd_caller p) s = (r, again, s') ->
      sys_step (s, d, dead, pre ++ p :: post)
        (s', d, dead, pre ++ (if again && (S (pd_attempt p) <? BIND_CONNECT_RETRY_TIMES)%nat then [mkPending (pd_connect p) (pd_element p) (pd_caller p) (S (pd_attempt p))] else []) ++ post)
  | step_op a o s d dead l : sys_step (s, d, dead, l) (exec a o s, d, dead, l)
  | step_death posted k s d dead l : sys_step (s, d, dead, l) (fst (object_died posted k s d), snd (object_died posted k s d), k :: dead, l)
  | step_offline posted n s d dead l : sys_step (s, d, dead, l) (s, DeviceOffline posted n d, dead, l)
  | step_online n s d dead l : sys_step (s, d, dead, l) (s, DeviceOnline n d, dead, l)
  | step_disconnected posted w e r s d dead l : sys_step (s, d, dead, l) (s, snd (OnAbilityDisconnectDone posted w e r d), dead, l)
  | step_connected posted w e o r s d dead l : sys_step (s, d, dead, l) (s, snd (OnAbilityConnectDone posted w e o r d), dead, l)
  | step_run a t s d rest dead l : tasks d = t :: rest -> sys_step (s, d, dead, l) (run_task a t s, mkAdapter (handler d) rest, dead, l).
Definition sys_new : Svc * Adapter * list Z * list Pending := (Svc_new, adapter_Init true Adapter_new, [], []).

(** A call that is not disturbed takes these steps and leaves what [ConnectRemoteAbility] leaves. *)
Lemma connect_loop_steps a e k c tries attempt r s d dead :
  (S tries + attempt = BIND_CONNECT_RETRY_TIMES)%nat -> connect_prepare a e = ERR_OK ->
  rtc sys_step (s, d, dead, [mkPending k e c attempt]) (snd (connect_loop a (S tries) attempt (el_device e) k e c r s), d, dead, []).
Proof.
  revert attempt r s. induction tries as [|tries IH]; intros attempt r s Hn Hp; cbn [connect_loop]; destruct (connect_attempt a attempt (el_device e) k e c s) as [[r' again] s'] eqn:E.
  - eapply rtc_l; [apply (step_attempt a (mkPending k e c attempt) [] [] _ _ _ _ _ _ (fun _ => Hp) E)|]. cbn [pd_attempt app]. destruct (Nat.ltb_spec (S attempt) BIND_CONNECT_RETRY_TIMES); [lia|].
    rewrite andb_false_r. destruct again; apply rtc_refl.
  - eapply rtc_l; [apply (step_attempt a (mkPending k e c attempt) [] [] _ _ _ _ _ _ (fun _ => Hp) E)|]. cbn [pd_attempt pd_connect pd_element pd_caller app].
    destruct again; [|apply rtc_refl]. destruct (Nat.ltb_spec (S attempt) BIND_CONNECT_RETRY_TIMES); [|lia]. cbn [andb app]. apply (IH (S attempt) r' s'); [lia|done].
Qed.
Lemma ConnectRemoteAbility_steps a e k pid tok s d dead :
  0 < threads -> rtc sys_step (s, d, dead, []) (snd (ConnectRemoteAbility a e (Some k) (owner k) pid tok s), d, dead, []).
Proof.
  intros Ht. unfold ConnectRemoteAbility. destruct (connect_check a e (owner k) pid tok s) as [r|c] eqn:E; [apply rtc_refl|]. eapply rtc_l; [by apply (step_check a e k pid tok c)|].
  unfold TryConnectRemoteAbility. destruct (Z.eqb_spec (connect_prepare a e) ERR_OK) as [Hp|Hp]; cbn [negb app].
  - by apply (connect_loop_steps a e k c 2 0).
  - eapply rtc_l; [by apply (step_unprepared a (mkPending k e c 0) [] [])|]. apply rtc_refl.
Qed.

Lemma exec_Connected lim dead a o s : Connected owner lim dead s -> Connected owner lim dead (exec a o s).
Proof.
  intros H. destruct o; cbn [exec].
  - by apply DisconnectRemoteAbility_Connected.
  - exact (keeps_Connected _ _ _ _ _ (ConnectFrom_keeps _ _ _ _ _) H).
  - exact (keeps_Connected _ _ _ _ _ (DisconnectFrom_keeps _ _ _ _) H).
  - exact (keeps_Connected _ _ _ _ _ (drop_sinks_keeps _ _ _ _ _) H).
  - exact (keeps_Connected _ _ _ _ _ (Call_keeps _ _ _ _ _ _ _) H).
  - exact (keeps_Connected _ _ _ _ _ (Release_keeps _ _ _ _) H).
  - exact (keeps_Connected _ _ _ _ _ (CallFrom_keeps _ _ _ _ _ _) H).
  - exact (keeps_Connected _ _ _ _ _ (ReleaseFrom_keeps _ _ _ _ _) H).
  - exact (keeps_Connected _ _ _ _ _ (State_keeps _ _ _ _ _) H).
  - unfold NotifyStateChangedFromRemote. by destruct (zfirst _ _) as [[k i]|].
Qed.
Lemma death_Connected lim dead posted k s d : Connected owner lim dead s -> Connected owner lim (k :: dead) (fst (object_died posted k s d)).
Proof.
  intros [Hs Ht Hss Hc Hb Hw]. split; try done. intros c. cbn [object_died fst set_watches watches distributedConnectAbilityMap_]. rewrite watch_count_filter. cbn [snd]. specialize (Hw c).
  destruct (Z.eqb_spec c k) as [->|].
  - destruct (zfind k _); [right; split; [done|by left]|done].
  - destruct (zfind c _); [|done]. destruct Hw as [Hw|[Hw ?]]; [by left|right; split; [done|by right]].
Qed.
Lemma new_Connected lim : (forall u, 0 <= lim u) -> Connected owner lim [] Svc_new.
Proof. intros H. split; [constructor|constructor|constructor| | |]; intros u; cbn; done. Qed.
Lemma Connected_lim lim lim' dead s : (forall u, zcount (of_uid u) (distributedConnectAbilityMap_ s) <= lim' u) -> Connected owner lim dead s -> Connected owner lim' dead s.
Proof. intros H [Hs Ht Hss Hc Hb Hw]. by split. Qed.

(** With the calls under way the connections of an application stay within the limit. *)
Definition room (l : list Pending) (u : Z) : Z := MAX_DISTRIBUTED_CONNECT_NUM - 1 + threads - pending_of u l.
Definition pending_ok (p : Pending) : Prop := caller_uid (pd_caller p) = owner (pd_connect p) /\ 0 <= owner (pd_connect p).
Lemma pending_of_app u l l' : pending_of u (l ++ l') = pending_of u l + pending_of u l'.
Proof. unfold pending_of. rewrite List.filter_app, length_app. lia. Qed.
Lemma pending_of_cons u p l : pending_of u (p :: l) = b2z (caller_uid (pd_caller p) =? u) + pending_of u l.
Proof. unfold pending_of. cbn. destruct (_ =? u); cbn [length b2z]; lia. Qed.
Lemma pending_of_nonneg u l : 0 <= pending_of u l.
Proof. unfold pending_of. lia. Qed.
Lemma connect_check_ok a e uid pid tok s c :
  connect_check a e uid pid tok s = inr c -> caller_uid c = uid /\ 0 <= uid /\ forall n, zfind uid (trackingUidMap_ s) = Some n -> n < MAX_DISTRIBUTED_CONNECT_NUM.
Proof.
  unfold connect_check. destruct (negb _); [done|]. destruct (a_GetLocalDeviceId a) as [ld|]; [|done]. destruct (negb _); [done|]. cbn zeta.
  match goal with |- context [CheckDistributedConnectLocked ?x s =? ERR_OK] => destruct (Z.eqb_spec (CheckDistributedConnectLocked x s) ERR_OK) as [Hck|]; [|done] end.
  cbn [negb]. destruct (a_GetCallerAppId a uid); [|done]. destruct (a_GetBundleNameList a uid); [|done]. intros [= <-]. unfold CheckDistributedConnectLocked in Hck. cbn [caller_uid] in *.
  destruct (Z.ltb_spec uid 0); [discriminate|]. split; [done|]. split; [done|]. intros n E. rewrite E in Hck. by destruct (Z.leb_spec MAX_DISTRIBUTED_CONNECT_NUM n).
Qed.
Definition sys_ok (x : Svc * Adapter * list Z * list Pending) : Prop := let '(s, _, dead, l) := x in Connected owner (room l) dead s /\ Forall pending_ok l.
Lemma check_ok a e k pid tok c s d dead l :
  pending_of (owner k) l < threads -> connect_check a e (owner k) pid tok s = inr c -> sys_ok (s, d, dead, l) -> sys_ok (s, d, dead, l ++ [mkPending k e c 0]).
Proof.
  intros Hp Hck [H Hl]. destruct (connect_check_ok _ _ _ _ _ _ _ Hck) as (Hu & Ho & Hn). split; [|apply Forall_app; split; [done|]; apply List.Forall_cons; [by split|done]].
  eapply Connected_lim; [|exact H]. intros u. unfold room. rewrite pending_of_app, pending_of_cons. cbn [pd_caller]. rewrite Hu. pose proof (ok_limit _ _ _ _ _ _ H u) as Hb. unfold room in Hb.
  destruct (Z.eqb_spec (owner k) u) as [<-|]; cbn [b2z]; [|change (pending_of u []) with 0; lia]. rewrite (ok_count _ _ _ _ _ _ H) in Hn. change (pending_of (owner k) []) with 0.
  destruct (Z.eqb_spec (zcount (of_uid (owner k)) (distributedConnectAbilityMap_ s)) 0) as [->|]; [unfold MAX_DISTRIBUTED_CONNECT_NUM; lia|]. specialize (Hn _ eq_refl). lia.
Qed.
Lemma gone_ok p pre post s d dead : sys_ok (s, d, dead, pre ++ p :: post) -> sys_ok (s, d, dead, pre ++ post).
Proof.
  intros [H Hl]. apply Forall_app in Hl as [L1 L2]. apply List.Forall_cons_iff in L2 as [_ L2]. split; [|by apply Forall_app]. eapply Connected_lim; [|exact H].
  intros u. pose proof (ok_limit _ _ _ _ _ _ H u) as Hb. unfold room in *. rewrite pending_of_app in *. rewrite pending_of_cons in Hb. destruct (_ =? u); cbn [b2z] in Hb; lia.
Qed.
Lemma attempt_ok a p pre post r again s s' d dead :
  threads < 2 ^ 31 ->
  connect_attempt a (pd_attempt p) (el_device (pd_element p)) (pd_connect p) (pd_element p) (pd_caller p) s = (r, again, s') ->
  sys_ok (s, d, dead, pre ++ p :: post) ->
  sys_ok (s', d, dead, pre ++ (if again && (S (pd_attempt p) <? BIND_CONNECT_RETRY_TIMES)%nat then [mkPending (pd_connect p) (pd_element p) (pd_caller p) (S (pd_attempt p))] else []) ++ post).
Proof.
  intros Ht E [H Hl]. assert (Hp : pending_ok p) by (apply Forall_app in Hl as [_ Hl]; by apply List.Forall_cons_iff in Hl as [Hl _]). destruct Hp as [Hu Ho].
  destruct (gone_ok _ _ _ s d dead (conj H Hl)) as [H1 Hl1]. assert (Hb : zcount (of_uid (owner (pd_connect p))) (distributedConnectAbilityMap_ s) < room (pre ++ post) (owner (pd_connect p))).
  { pose proof (ok_limit _ _ _ _ _ _ H (owner (pd_connect p))) as Hb. unfold room in *. rewrite pending_of_app in *. rewrite pending_of_cons, Hu, Z.eqb_refl in Hb. cbn [b2z] in Hb. lia. }
  assert (Hr : room (pre ++ post) (owner (pd_connect p)) < 2 ^ 32) by (pose proof (pending_of_nonneg (owner (pd_connect p)) (pre ++ post)); unfold room, MAX_DISTRIBUTED_CONNECT_NUM in *; lia).
  destruct (connect_attempt_Connected owner _ dead a _ _ _ _ _ _ _ _ _ H1 Hu Ho Hb Hr E) as [K1 K2]. destruct again; [|by split]. cbn [andb]. destruct (_ <? _)%nat; [|by split].
  destruct (K2 eq_refl) as (E1 & E2 & E3). apply Forall_app in Hl1 as [L1 L2]. split; [|apply Forall_app; split; [done|]; by apply List.Forall_cons].
  unfold Connected in *. rewrite E1, E2, E3. eapply (Connected_lim _ _ dead s); [|exact H]. intros u. pose proof (ok_limit _ _ _ _ _ _ H u) as Hb'. unfold room in *. rewrite !pending_of_app, !pending_of_cons in *. cbn [pd_caller app]. change (pending_of u []) with 0. lia.
Qed.
Lemma sys_reached x : 1 <= threads < 2 ^ 31 -> rtc sys_step sys_new x -> sys_ok x.
Proof.
  intros Ht. revert x. apply rtc_ind_r.
  - split; [|done]. apply new_Connected. intros u. unfold room, MAX_DISTRIBUTED_CONNECT_NUM. change (pending_of u []) with 0. lia.
  - intros x y _ H IH. destruct H; try exact IH.
    + by eapply check_ok.
    + by eapply gone_ok.
    + eapply attempt_ok; [lia|done|done].
    + destruct IH as [IH ?]. split; [|done]. by apply exec_Connected.
    + destruct IH as [IH ?]. split; [|done]. by apply death_Connected.
    + destruct IH as [IH ?]. split; [|done]. by apply run_task_Connected.
Qed.

(** C35: In every state that the service reaches by any sequence of connections,
    disconnections, calls, deaths of objects, offline devices and tasks, the number that
    is kept for a user is the number of connection objects of that user; no number is
    kept for a user without connections; every connection has sessions with distinct
    devices, all of its owner; and exactly one death recipient is registered with each
    object that is connected and lives, none with the others. The check of the limit and
    the entry are separate steps, between which others run: if a user has at most
    [threads] calls to connect under way at a time, its connections and the calls under
    way that passed the check are together at most 599 + [threads], so at most 600
    when its calls come one after the other. *)
Theorem connections_counted s d dead l :
  1 <= threads < 2 ^ 31 -> rtc sys_step sys_new (s, d, dead, l) ->
  (forall u, zfind u (trackingUidMap_ s) = if zcount (of_uid u) (distributedConnectAbilityMap_ s) =? 0 then None else Some (zcount (of_uid u) (distributedConnectAbilityMap_ s))) /\
  (forall u, zcount (of_uid u) (distributedConnectAbilityMap_ s) + pending_of u l <= MAX_DISTRIBUTED_CONNECT_NUM - 1 + threads) /\
  (forall k l, zfind k (distributedConnectAbilityMap_ s) = Some l ->
     l <> [] /\ NoDup (map destinationDeviceId_ l) /\ Forall (fun x => caller_uid (callerInfo_ x) = owner k) l /\ (In k dead \/ watch_count (RConnect, k) (watches s) = 1)) /\
  (forall k, zfind k (distributedConnectAbilityMap_ s) = None -> watch_count (RConnect, k) (watches s) = 0).
Proof.
  intros Ht H. apply (sys_reached _ Ht) in H as [[Hs Htr Hss Hc Hb Hw] _]. split; [done|]. split; [intros u; specialize (Hb u); unfold room in Hb; lia|]. split.
  - intros k x E. destruct (zall_find _ _ _ _ Hss E) as (H1 & H2 & H3 & _). specialize (Hw k). rewrite E in Hw. destruct Hw as [Hw|[_ Hw]]; auto.
  - intros k E. specialize (Hw k). by rewrite E in Hw.
Qed.
End System.

(** ** A state change on its way back to the caller *)

Lemma zfirst_only {A} (f : A -> bool) k v (m : zmap A) :
  zsorted m -> zfind k m = Some v -> f v = true -> (forall k' v', zfind k' m = Some v' -> f v' = true -> k' = k) -> zfirst f m = Some (k, v).
Proof.
  intros Hs E Hf Hu. destruct (zfirst f m) as [[k' v']|] eqn:F.
  - destruct (zfirst_Some _ _ _ _ Hs F) as [E' Hf']. pose proof (Hu _ _ E' Hf') as ->. congruence.
  - apply zfirst_None in F. rewrite Forall_forall in F. apply zfind_In', list_elem_of_In in E. specialize (F _ E). cbn in F. congruence.
Qed.

Lemma SaveCallerComponent_calls a e k c s :
  token_ (SaveCallerComponent a e k c s) = token_ s /\ callMap_ (SaveCallerComponent a e k c s) = callMap_ s /\
  forall x, In x (asked s) -> In x (asked (SaveCallerComponent a e k c s)).
Proof.
  unfold SaveCallerComponent. destruct (zfind k (callerMap_ s)); destruct (has_session _ _); cbn -[add_session zset]; (split; [done|]; split; [done|]; intros x Hx; rewrite ?in_app_iff; auto).
Qed.
(** The caller's device: the token that is sent is kept with the object. *)
Lemma call_kept a e k uid pid tok s s1 :
  StartRemoteAbilityByCall a e (Some k) uid pid tok s = (ERR_OK, s1) ->
  exists ld c, a_GetLocalDeviceId a = Some ld /\ caller_sourceDeviceId c = ld /\ el_device e <> ld /\ In (ACallRemote (el_device e) k (token_ s1) e c) (asked s1) /\
    token_ s1 = (if MAX_TOKEN_NUM <? token_ s + 1 then 1 else token_ s + 1) /\ callMap_ s1 = zset k (mkCallInfo (token_ s1) (el_device e)) (callMap_ s).
Proof.
  unfold StartRemoteAbilityByCall. destruct (negb (a_IsCallerForeground a uid)); [discriminate|]. destruct (a_GetLocalDeviceId a) as [ld|]; [|discriminate].
  destruct (CheckDeviceId ld (el_device e)) eqn:Hck; [|discriminate]. cbn [negb]. destruct (a_GetCallerAppId a uid); [|discriminate]. destruct (a_GetBundleNameList a uid); [|discriminate].
  unfold TryStartRemoteAbilityByCall. destruct (negb (GetRemoteDms (a_GetRemoteDms a) (el_device e))); [discriminate|]. destruct (Z.eqb_spec (a_GetAccountInfo a) ERR_OK) as [|Hn]; cbn [negb].
  2: { destruct (a_GetAccountInfo a =? ERR_OK); intros [= ? ?]; congruence. }
  cbn [SaveConnectToken]. destruct (Z.eqb_spec (a_CallRemote a) ERR_OK) as [Hr|Hr]; [|intros [= ? ?]; congruence]. intros [= _ <-].
  match goal with |- context [SaveCallerComponent a e k ?c ?s0] => destruct (SaveCallerComponent_calls a e k c s0) as (-> & -> & Ha); exists ld, c end.
  split; [done|]. split; [done|]. split; [|split; [|done]].
  - unfold CheckDeviceId in Hck. destruct (String.eqb ld (el_device e)) eqn:E; [rewrite Bool.orb_true_r in Hck; discriminate|]. intros <-. by rewrite String.eqb_refl in E.
  - apply Ha. cbn. apply in_app_iff. right. by left.
Qed.
(** The device of the ability: the first call of a connection leaves an observer. *)
Lemma call_observed b tok e k c t t1 :
  StartAbilityByCallFromRemote b tok e (Some k) c t = (ERR_OK, t1) -> tok <> DEFAULT_DMS_CONNECT_TOKEN -> a_GetAppManager b = true -> a_RegisterObserver b = ERR_OK ->
  zfind k (calleeMap_ t) = None ->
  exists ob, observerMap_ t1 = zset (next_object t) (mkObserver ob (caller_sourceDeviceId c) tok (el_bundle e) (el_ability e) k None) (observerMap_ t).
Proof.
  intros H Htok Happ Hreg Hk. unfold StartAbilityByCallFromRemote in H. cbn [dest_event ask calleeMap_] in H. destruct (a_GetLocalDeviceId b) as [ld|]; [|discriminate].
  destruct (negb (CheckDeviceIdFromRemote (a_CallingDeviceID b) ld (el_device e) (caller_sourceDeviceId c))); [discriminate|].
  destruct (Z.eqb_spec (a_CheckTargetPermission b) ERR_OK) as [|Hn]; cbn [negb] in H; [|injection H as H _; contradiction]. rewrite Hk in H.
  destruct (Z.eqb_spec (a_StartAbilityByCall b) ERR_OK) as [|Hn]; [|injection H as H _; contradiction].
  cbn -[RegisterAppStateObserver zset] in H. rewrite Hk in H. cbn -[RegisterAppStateObserver zset] in H. unfold RegisterAppStateObserver in H. rewrite Happ, Hreg in H.
  destruct (Z.eqb_spec tok DEFAULT_DMS_CONNECT_TOKEN); [contradiction|]. cbn -[zset mset mfind] in H.
  destruct (mfind (el_bundle e) (bundleNameMap_ t)) as [ob|]; injection H as _ <-; [by exists ob|by exists (next_object t + 1)].
Qed.
Definition with_token (T : Z) (o : ObserverInfo) : ObserverInfo :=
  mkObserver (ob_observer o) (ob_srcDeviceId o) (ob_connectToken o) (ob_dstBundleName o) (ob_dstAbilityName o) (ob_srcConnect o) (Some T).
Lemma set_observer_token_eq k T w o (m : zmap ObserverInfo) :
  zsorted m -> zfind w m = Some o -> ob_srcConnect o = k -> (forall w' o', zfind w' m = Some o' -> ob_srcConnect o' = k -> w' = w) ->
  set_observer_token k T m = zset w (with_token T o) m.
Proof.
  intros Hs E Hk Hu. induction m as [|[w' o'] m IH]; [discriminate|]. rewrite zsorted_cons in Hs. destruct Hs as [Hs Hlt]. cbn [set_observer_token zfind zset] in *.
  destruct (Z.eqb_spec (ob_srcConnect o') k) as [Ek|Ek].
  - assert (w' = w) as ->. { apply (Hu w' o'); [by rewrite Z.eqb_refl|done]. } rewrite Z.eqb_refl in E. injection E as ->. by rewrite Z.ltb_irrefl, Z.eqb_refl.
  - destruct (Z.eqb_spec w w') as [->|Hw]; [congruence|]. assert (Hlt' : w' < w).
    { rewrite Forall_forall in Hlt. apply Hlt, list_elem_of_In, in_map_iff. exists (w, o). split; [done|]. by apply zfind_In'. }
    destruct (Z.ltb_spec w w'); [lia|]. f_equal. apply IH; [done|done|]. intros w2 o2 H2 Hk2. apply (Hu w2 o2); [|done].
    destruct (Z.eqb_spec w2 w') as [->|]; [|done]. by rewrite (zfind_None_lt _ _ Hlt) in H2.
Qed.

(** An application called an ability of another device, the ability's device took
    the call (the first over this connection object, and the application manager takes
    the observer) and the ability manager answered it with the token of the called
    ability. When the state of that ability changes, the ability's device tells the
    caller's device the state with the token of the call, and the caller's device passes
    the state to the connection object of the call - unless the numbers of the calls
    have come round, or another call has the same ability. *)
Theorem state_change_reaches_caller a b b1 b2 e k uid pid acc c ld rd T st s s1 t t1 :
  a_GetLocalDeviceId a = Some ld -> caller_sourceDeviceId c = ld ->
  StartRemoteAbilityByCall a e (Some k) uid pid acc s = (ERR_OK, s1) ->
  zsorted (callMap_ s) -> (forall k' i, zfind k' (callMap_ s) = Some i -> call_connectToken i <= token_ s) -> 0 <= token_ s < MAX_TOKEN_NUM ->
  StartAbilityByCallFromRemote b (token_ s1) e (Some k) c t = (ERR_OK, t1) ->
  a_GetAppManager b = true -> a_RegisterObserver b = ERR_OK -> zfind k (calleeMap_ t) = None -> zsorted (observerMap_ t) ->
  (forall w o, zfind w (observerMap_ t) = Some o -> ob_srcConnect o <> k /\ ob_token o <> Some T) ->
  a_GetAbilityToken b1 = Some T -> a_GetLocalDeviceId b2 = Some rd -> CheckDeviceId rd ld = true -> GetRemoteDms (a_GetRemoteDms b2) ld = true ->
  let t2 := ProcessCallResult b1 k t1 in
  let e' := mkElement rd (el_bundle e) (el_module e) (el_ability e) in
  NotifyStateChanged b2 st e (Some T) t2 = (a_NotifyStateRemote b2, ask (AStateChangedRemote ld st (token_ s1) e') t2) /\
  NotifyStateChangedFromRemote st (token_ s1) e' s1 = (ERR_OK, ask (AStateChanged k e' st) s1).
Proof.
  intros Hld Hc Hcall Hsc Htok Hrng Hsink Happ Hreg Hk Hso Hobs HT Hrd Hck Hdms. cbn zeta.
  destruct (call_kept _ _ _ _ _ _ _ _ Hcall) as (ld' & _ & _ & _ & _ & _ & Et & Em). destruct (Z.ltb_spec MAX_TOKEN_NUM (token_ s + 1)) as [|]; [lia|].
  split.
  - destruct (call_observed _ _ _ _ _ _ _ Hsink) as [ob Eo]; [unfold DEFAULT_DMS_CONNECT_TOKEN; lia|done..|]. set (o := mkObserver _ _ _ _ _ _ _) in Eo.
    assert (Hs1 : zsorted (observerMap_ t1)) by (rewrite Eo; by apply zset_sorted).
    assert (Hf : zfind (next_object t) (observerMap_ t1) = Some o) by (rewrite Eo, zfind_zset, Z.eqb_refl; done).
    assert (Hu : forall w' o', zfind w' (observerMap_ t1) = Some o' -> w' = next_object t \/ (ob_srcConnect o' <> k /\ ob_token o' <> Some T)).
    { intros w' o' Hw. rewrite Eo, zfind_zset in Hw. destruct (Z.eqb_spec w' (next_object t)); [by left|right; eauto]. }
    unfold ProcessCallResult. rewrite HT, (set_observer_token_eq k T (next_object t) o) by (try done; intros w' o' Hw Hk'; destruct (Hu _ _ Hw) as [|[? _]]; congruence).
    unfold NotifyStateChanged. cbn [observerMap_ set_observers]. rewrite (zfirst_only _ (next_object t) (with_token T o)).
    + cbn [ob_srcDeviceId ob_connectToken with_token o]. rewrite Hrd, Hc, Hck, Hdms. done.
    + by apply zset_sorted.
    + by rewrite zfind_zset, Z.eqb_refl.
    + unfold observes. cbn. by rewrite !String.eqb_refl, bool_decide_true.
    + intros w' o' Hw Ho. rewrite zfind_zset in Hw. destruct (Z.eqb_spec w' (next_object t)); [done|]. destruct (Hu _ _ Hw) as [|[_ Hn]]; [done|].
      unfold observes in Ho. apply andb_prop in Ho as [_ Ho]. apply bool_decide_eq_true in Ho. congruence.
  - unfold NotifyStateChangedFromRemote. rewrite (zfirst_only _ k (mkCallInfo (token_ s1) (el_device e))); [done| | | |]; rewrite ?Em.
    + by apply zset_sorted.
    + by rewrite zfind_zset, Z.eqb_refl.
    + cbn. apply Z.eqb_refl.
    + intros k' i Hi Heq. rewrite zfind_zset in Hi. destruct (Z.eqb_spec k' k); [done|]. specialize (Htok _ _ Hi). lia.
Qed.

(** ** Two devices, as an example *)

Definition demo_answers (device : string) : Answers := {|
  a_IsCallerForeground := fun _ => true; a_GetLocalDeviceId := Some device; a_GetCallerAppId := fun _ => Some "app"; a_GetBundleNameList := fun _ => Some ["com.demo"];
  a_GetSpecifyBundleName := fun _ => Some "com.demo"; a_GetRemoteDms := fun _ => true; a_GetAccountInfo := ERR_OK; a_ConnectRemote := fun n => if n is O then REMOTE_DEVICE_BIND_ABILITY_ERR + 1 else ERR_OK;
  a_elapsed := fun _ => 20; a_CallRemote := ERR_OK; a_ReleaseRemote := ERR_OK; a_CallingDeviceID := "A"; a_CallingUid := 20; a_IsLocalCalling := false;
  a_CheckTargetPermission := ERR_OK; a_ConnectAbility := ERR_OK; a_DisconnectAbility := fun _ => ERR_OK; a_StartAbilityByCall := ERR_OK; a_ReleaseCall := ERR_OK;
  a_GetAppManager := true; a_RegisterObserver := ERR_OK; a_GetAbilityToken := Some 77; a_NotifyStateRemote := ERR_OK; a_unset_iterator := false |}.
Definition demo_element (device : string) : Element := mkElement device "com.callee" "entry" "Main".
Definition demo_owner (connect : Z) : Z := if connect <? 100 then 20 else 30.
Definition demo_connect (device : string) (k pid : Z) : Svc -> Svc := fun s => snd (ConnectRemoteAbility (demo_answers "A") (demo_element device) (Some k) (demo_owner k) pid 9 s).
Definition demo_source : Svc := demo_connect "B" 100 50 (demo_connect "C" 2 40 (demo_connect "C" 1 40 (demo_connect "B" 1 40 Svc_new))).
Definition demo_caller : CallerInfo := mkCallerInfo 20 40 CALLER_TYPE_HARMONY "A" (-1) "app" ["com.demo"] (-1) 9 version_info.
Definition demo_sink : Svc := exec (demo_answers "B") (OConnectFrom (demo_element "B") (Some 1) demo_caller) Svc_new.

Lemma demo_reached : rtc (sys_step demo_owner 1) sys_new (demo_source, adapter_Init true Adapter_new, [], []).
Proof. unfold demo_source, demo_connect. repeat (etrans; [|by apply ConnectRemoteAbility_steps]). apply rtc_refl. Qed.
Lemma demo_Connected : Connected demo_owner (room 1 []) [] demo_source.
Proof. exact (proj1 (sys_reached demo_owner 1 _ (conj (Z.le_refl 1) eq_refl) demo_reached)). Qed.

Lemma connections_counted_witness :
  let s := fst (object_died true 1 demo_source (adapter_Init true Adapter_new)) in
  let s' := run_task (demo_answers "A") (TConnectDied 1) s in
  zcount (of_uid 20) (distributedConnectAbilityMap_ s') <= 600 /\ zcount (of_uid 20) (distributedConnectAbilityMap_ demo_source) = 2 /\
  zfind 20 (trackingUidMap_ s') = None /\ zfind 30 (trackingUidMap_ s') = Some 1.
Proof.
  cbn zeta. set (d0 := adapter_Init true Adapter_new). set (s := fst (object_died true 1 demo_source d0)). set (s' := run_task (demo_answers "A") (TConnectDied 1) s).
  assert (R : rtc (sys_step demo_owner 1) sys_new (s', mkAdapter (handler (snd (object_died true 1 demo_source d0))) [], [1], [])).
  { eapply rtc_r; [eapply rtc_r; [exact demo_reached|apply (step_death demo_owner 1 true 1)]|]. apply (step_run demo_owner 1). vm_compute. reflexivity. }
  destruct (connections_counted demo_owner 1 _ _ _ _ (conj (Z.le_refl 1) eq_refl) R) as (_ & H & _). split; [specialize (H 20); rewrite Z.add_0_r in H; exact H|]. vm_compute. done.
Defined.
Lemma process_death_cleans_witness :
  let s' := ProcessConnectDied (demo_answers "A") (Some 1) demo_source in
  zfind 2 (distributedConnectAbilityMap_ demo_source) <> None /\ zfind 2 (distributedConnectAbilityMap_ s') = None /\ zkeys (distributedConnectAbilityMap_ s') = [100] /\
  (exists e, In e (connectAbilityMap_ demo_sink)) /\ forall e, ~ In e (connectAbilityMap_ (snd (NotifyProcessDiedFromRemote (demo_answers "B") demo_caller demo_sink))).
Proof.
  assert (exists x l, zfind 1 (distributedConnectAbilityMap_ demo_source) = Some (x :: l) /\ callerInfo_ x = demo_caller) as (x & l & E & Ec) by (vm_compute; eauto).
  destruct (process_death_cleans demo_owner (room 1 []) [] (demo_answers "A") (demo_answers "B") 1 x l demo_source demo_sink demo_Connected E) as (H1 & _ & H2 & _).
  { vm_compute. repeat constructor. }
  rewrite Ec in H1, H2. cbn zeta. split; [vm_compute; discriminate|]. split; [|split; [vm_compute; reflexivity|split; [eexists; left; reflexivity|]]].
  - destruct (zfind 2 _) as [l2|] eqn:F; [|done]. apply H1 in F as [F Hn]. exfalso. apply Hn. vm_compute in F. injection F as <-. eexists _, _. split; [reflexivity|]. vm_compute. done.
  - intros e He. apply H2 in He as [He Hn]. apply Hn. cbn in He. destruct He as [<-|[]]. vm_compute. done.
Defined.
Lemma offline_cleans_witness :
  map (fun e => map destinationDeviceId_ (snd e)) (distributedConnectAbilityMap_ demo_source) = [["B"; "C"]; ["C"]; ["B"]] /\
  option_map (map destinationDeviceId_) (zfind 1 (distributedConnectAbilityMap_ (ProcessDeviceOffline (demo_answers "A") "B" demo_source))) = Some ["C"] /\
  zfind 100 (distributedConnectAbilityMap_ (ProcessDeviceOffline (demo_answers "A") "B" demo_source)) = None.
Proof.
  destruct (offline_cleans demo_owner (room 1 []) [] (demo_answers "A") "A" "B" demo_source demo_Connected) as (H & _); [vm_compute; repeat constructor|vm_compute; repeat constructor|reflexivity..|].
  split; [vm_compute; done|]. rewrite !H. vm_compute. done.
Defined.
Lemma state_change_reaches_caller_witness :
  let s1 := snd (StartRemoteAbilityByCall (demo_answers "A") (demo_element "B") (Some 1) 20 40 9 Svc_new) in
  let t1 := snd (StartAbilityByCallFromRemote (demo_answers "B") 1 (demo_element "B") (Some 1) demo_caller Svc_new) in
  fst (NotifyStateChanged (demo_answers "B") 4 (demo_element "B") (Some 77) (ProcessCallResult (demo_answers "B") 1 t1)) = ERR_OK /\
  fst (NotifyStateChangedFromRemote 4 1 (demo_element "B") s1) = ERR_OK.
Proof.
  cbn zeta. set (s1 := snd (StartRemoteAbilityByCall _ _ _ _ _ _ _)). set (t1 := snd (StartAbilityByCallFromRemote _ _ _ _ _ _)).
  destruct (state_change_reaches_caller (demo_answers "A") (demo_answers "B") (demo_answers "B") (demo_answers "B") (demo_element "B") 1 20 40 9 demo_caller "A" "B" 77 4 Svc_new s1 Svc_new t1) as [H1 H2].
  all: try (vm_compute; reflexivity). all: try exact (SSorted_nil _). all: try (intros ? ? H; discriminate H).
  - split; vm_compute; [discriminate|reflexivity].
  - split; [exact (f_equal fst H1)|exact (f_equal fst H2)].
Defined.

(** ** Where the tables can go wrong *)

(** The limit is checked and the connection entered under two locks: two connections of
    a user with 599 that pass the check together are both entered. *)
Definition full (n : nat) : Svc := foldr (fun i s => RemoteConnectAbilityMappingLocked (Z.of_nat i) "A" "B" (demo_element "B") demo_caller s) Svc_new (seq 0 n).
Lemma limit_passed_by_two :
  let s := full 599 in
  CheckDistributedConnectLocked demo_caller s = ERR_OK /\
  zfind 20 (trackingUidMap_ (RemoteConnectAbilityMappingLocked 1001 "A" "B" (demo_element "B") demo_caller
    (RemoteConnectAbilityMappingLocked 1000 "A" "B" (demo_element "B") demo_caller s))) = Some 601.
Proof. vm_compute. done. Qed.

(** A second call over a connection object takes the place of the first in the list of
    calls: the state of the ability that was called first no longer reaches the
    application. *)
Lemma second_call_hides_first :
  let s := snd (StartRemoteAbilityByCall (demo_answers "A") (demo_element "B") (Some 1) 20 40 9 Svc_new) in
  let s' := snd (StartRemoteAbilityByCall (demo_answers "A") (demo_element "C") (Some 1) 20 40 9 s) in
  fst (NotifyStateChangedFromRemote 4 1 (demo_element "B") s) = ERR_OK /\ fst (NotifyStateChangedFromRemote 4 1 (demo_element "B") s') = INVALID_PARAMETERS_ERR.
Proof. vm_compute. done. Qed.
(** Two callers of one ability: only the first is told of its state. *)
Lemma second_caller_not_told :
  let b := demo_answers "B" in
  let t1 := ProcessCallResult b 1 (snd (StartAbilityByCallFromRemote b 1 (demo_element "B") (Some 1) demo_caller Svc_new)) in
  let t2 := ProcessCallResult b 2 (snd (StartAbilityByCallFromRemote b 2 (demo_element "B") (Some 2) demo_caller t1)) in
  map (fun o => ob_token (snd o)) (observerMap_ t2) = [Some 77; Some 77] /\
  asked (snd (NotifyStateChanged b 4 (demo_element "B") (Some 77) t2)) = asked t2 ++ [AStateChangedRemote "A" 4 1 (demo_element "B")].
Proof. vm_compute. done. Qed.
(** An observer that the application manager refused stays entered for the bundle: the
    next call takes it for registered. *)
Definition refusing : Answers :=
  Build_Answers (fun _ => true) (Some "B") (fun _ => Some "app") (fun _ => Some ["com.demo"]) (fun _ => Some "com.demo") (fun _ => true) ERR_OK (fun _ => ERR_OK) (fun _ => 20) ERR_OK ERR_OK
    "A" 20 false ERR_OK ERR_OK (fun _ => ERR_OK) ERR_OK ERR_OK true 1 (Some 77) ERR_OK false.
Lemma refused_observer_stays :
  let t := snd (RegisterAppStateObserver refusing 1 (demo_element "B") demo_caller 1 10 Svc_new) in
  fst (RegisterAppStateObserver refusing 1 (demo_element "B") demo_caller 1 10 Svc_new) = false /\
  fst (RegisterAppStateObserver refusing 2 (demo_element "B") demo_caller 2 11 t) = true /\
  asked (snd (RegisterAppStateObserver refusing 2 (demo_element "B") demo_caller 2 11 t)) = asked t.
Proof. vm_compute. done. Qed.
