(* ===== verification/OldContinue.v ===== *)
(** Continuations by mission, free installs and the listeners of events:
    services/dtbschedmgr/src/distributed_sched_continuation.cpp, dms_callback_task.cpp,
    dms_free_install_callback.cpp, distributed_event_died_listener.cpp,
    bundle/bundle_manager_callback_stub.cpp, collaborate/dsched_collaborate_callback_mgr.cpp
    and the functions of distributed_sched_service.cpp that use them.

    The mission centre asks for a mission to be continued on another device and gives a
    callback; the callback is kept with a timer until the other device answers, the time
    is up, or the application cannot be installed there. Objects (callbacks, listeners)
    are numbers, a null pointer is [None]. A timer is the id of an event that is to come; it comes
    unless it is removed. The durations that are kept for diagnosis are left out. *)

From S2P Require Import Prelude StdMap SchedErrors SchedUtils Json ContinueInfo ContinueSession RemoteAbility.
#[local] Open Scope string_scope.
#[local] Open Scope list_scope.
#[local] Open Scope Z_scope.

Definition CONTINUATION_DELAY_TIME : Z := 20000.
Definition CALLBACK_DELAY_TIME : Z := 30000.
Definition CONTINUATION_TIMEOUT : Z := 20000.
Definition CHECK_REMOTE_INSTALL_ABILITY : Z := 40000.
Definition CONTINUATION_FREE_INSTALL_TIMEOUT : Z := 50000.
Definition MAX_MODULENAME_LEN : Z := 2048.
Definition DEFAULT_DMS_MISSION_ID : Z := -1.
Definition HID_HAP : Z := 10000.
Definition DMS_SRC_NETWORK_ID : string := "dmsSrcNetworkId".
Definition DMS_MISSION_ID : string := "dmsMissionId".
Definition DMS_CALLING_UID : string := "ohos.dms.callingUid".
Definition VERSION_CODE_KEY : string := "version".
Definition SUPPORT_CONTINUE_PAGE_STACK_KEY : string := "ohos.extra.param.key.supportContinuePageStack".
Definition SUPPORT_CONTINUE_SOURCE_EXIT_KEY : string := "ohos.extra.param.key.supportContinueSourceExit".
Definition SUPPORT_CONTINUE_MODULE_NAME_UPDATE_KEY : string := "ohos.extra.param.key.supportContinueModuleNameUpdate".
Definition DEVICE_OFFLINE_ERR : Z := 29360142.
Definition NOTIFYCOMPLETECONTINUATION_FAILED : Z := 29360152.
Definition CONTINUE_REMOTE_UNINSTALLED_SUPPORT_FREEINSTALL : Z := 29360202.
Definition CONTINUE_REMOTE_UNINSTALLED_UNSUPPORT_FREEINSTALL : Z := 29360203.
Definition CONTINUE_FREE_INSTALL_FAILED : Z := 29360205.
Definition CONTINUE_REMOTE_UNINSTALLED_CANNOT_FREEINSTALL : Z := 29360206.
Definition CALLBACK_HAS_NOT_REGISTERED : Z := 29360210.
Definition MISSION_FOR_CONTINUING_IS_NOT_ALIVE : Z := 29360224.
Definition DMS_NOT_GET_MANAGER : Z := 29360237.

(** ** Wants *)

(** The part of a want that this code reads: the element, the flags and parameters. *)
Inductive Param := PBool (b : bool) | PInt (n : Z) | PString (s : string).
Record Want := mkWant { w_element : Element; w_flags : Z; w_params : list (string * Param) }.
Definition GetBoolParam (k : string) (d : bool) (w : Want) : bool := match mfind k (w_params w) with Some (PBool b) => b | _ => d end.
Definition GetIntParam (k : string) (d : Z) (w : Want) : Z := match mfind k (w_params w) with Some (PInt n) => n | _ => d end.
Definition GetStringParam (k : string) (w : Want) : string := match mfind k (w_params w) with Some (PString s) => s | _ => "" end.
Definition SetParam (k : string) (p : Param) (w : Want) : Want := mkWant (w_element w) (w_flags w) (mset k p (w_params w)).
Definition RemoveParam (k : string) (w : Want) : Want := mkWant (w_element w) (w_flags w) (merase k (w_params w)).
Definition SetElement (e : Element) (w : Want) : Want := mkWant e (w_flags w) (w_params w).

(** ** The table of continuations *)

Definition no_event : EventNotify := mkEvent (-1) "" "" "" "" "" "" "" "" "" DMS_UNKNOW DMS_DSCHED_EVENT_INIT.
Record Cont := mkCont {
  c_handler : bool;
  (** The events that are to come. *)
  c_timers : list Z;
  currSessionId_ : Z;
  continuationMap_ : zmap Z;
  continuationCallbackArr_ : list Z;
  c_callbacks : zmap Z;
  freeInstall_ : zmap bool;
  cleanMission_ : zmap bool;
  continuationDevices_ : zmap string;
  continueEvent_ : EventNotify;
  info_src : string;
  info_dst : string;
}.
Definition Cont_new : Cont := mkCont false [] 1 [] [] [] [] [] [] no_event "" "".
Definition Cont_Init (c : Cont) : Cont := mkCont true (c_timers c) (currSessionId_ c) (continuationMap_ c) (continuationCallbackArr_ c) (c_callbacks c) (freeInstall_ c) (cleanMission_ c) (continuationDevices_ c) (continueEvent_ c) (info_src c) (info_dst c).
Definition c_set_timers x c := mkCont (c_handler c) x (currSessionId_ c) (continuationMap_ c) (continuationCallbackArr_ c) (c_callbacks c) (freeInstall_ c) (cleanMission_ c) (continuationDevices_ c) (continueEvent_ c) (info_src c) (info_dst c).
Definition c_set_session x c := mkCont (c_handler c) (c_timers c) x (continuationMap_ c) (continuationCallbackArr_ c) (c_callbacks c) (freeInstall_ c) (cleanMission_ c) (continuationDevices_ c) (continueEvent_ c) (info_src c) (info_dst c).
Definition c_set_map x c := mkCont (c_handler c) (c_timers c) (currSessionId_ c) x (continuationCallbackArr_ c) (c_callbacks c) (freeInstall_ c) (cleanMission_ c) (continuationDevices_ c) (continueEvent_ c) (info_src c) (info_dst c).
Definition c_set_listeners x c := mkCont (c_handler c) (c_timers c) (currSessionId_ c) (continuationMap_ c) x (c_callbacks c) (freeInstall_ c) (cleanMission_ c) (continuationDevices_ c) (continueEvent_ c) (info_src c) (info_dst c).
Definition c_set_missions cb fi cl dv c := mkCont (c_handler c) (c_timers c) (currSessionId_ c) (continuationMap_ c) (continuationCallbackArr_ c) cb fi cl dv (continueEvent_ c) (info_src c) (info_dst c).
Definition c_set_event x c := mkCont (c_handler c) (c_timers c) (currSessionId_ c) (continuationMap_ c) (continuationCallbackArr_ c) (c_callbacks c) (freeInstall_ c) (cleanMission_ c) (continuationDevices_ c) x (info_src c) (info_dst c).
Definition c_set_info src dst c := mkCont (c_handler c) (c_timers c) (currSessionId_ c) (continuationMap_ c) (continuationCallbackArr_ c) (c_callbacks c) (freeInstall_ c) (cleanMission_ c) (continuationDevices_ c) (continueEvent_ c) src dst.

(** The handler of events: [sent] is the answer of [SendEvent]. *)
Definition SendEvent (sent : bool) (id : Z) (c : Cont) : Cont := if sent then c_set_timers (c_timers c ++ [id]) c else c.
Definition RemoveEvent (id : Z) (c : Cont) : Cont := c_set_timers (List.filter (fun i => negb (i =? id)) (c_timers c)) c.

Definition PushAbilityToken (sent : bool) (sessionId : Z) (abilityToken : option Z) (c : Cont) : bool * Cont :=
  match abilityToken with
  | None => (false, c)
  | Some token =>
      if sessionId <=? 0 then (false, c)
      else if negb (c_handler c) then (false, c)
      else if negb sent then (false, c)
      else
        let c := SendEvent sent sessionId c in
        match zfind sessionId (continuationMap_ c) with
        | Some _ => (false, c)
        | None => (true, c_set_map (zset sessionId token (continuationMap_ c)) c)
        end
  end.
Definition PopAbilityToken (sessionId : Z) (c : Cont) : option Z * Cont :=
  if sessionId <=? 0 then (None, c)
  else match zfind sessionId (continuationMap_ c) with
       | None => (None, c)
       | Some token =>
           let c := c_set_map (zerase sessionId (continuationMap_ c)) c in
           (Some token, if c_handler c then RemoveEvent sessionId c else c)
       end.
Definition GenerateSessionId (c : Cont) : Z * Cont :=
  let currValue := currSessionId_ c in
  let next := i32 (currValue + 1) in
  (currValue, c_set_session (if next <=? 0 then 1 else next) c).
Definition SetTimeOut (sent : bool) (missionId : Z) (c : Cont) : Cont := if c_handler c then SendEvent sent missionId c else c.
Definition RemoveTimeOut (missionId : Z) (c : Cont) : Cont := if c_handler c then RemoveEvent missionId c else c.
Definition IsFreeInstall (missionId : Z) (c : Cont) : bool := default false (zfind missionId (freeInstall_ c)).
Definition IsInContinuationProgress (missionId : Z) (c : Cont) : bool := match zfind missionId (c_callbacks c) with Some _ => true | None => false end.
Definition GetTargetDevice (missionId : Z) (c : Cont) : string := default "" (zfind missionId (continuationDevices_ c)).
Definition zemplace {A} (k : Z) (v : A) (m : zmap A) : zmap A := match zfind k m with Some _ => m | None => zset k v m end.
Definition PushCallback (missionId : Z) (callback : option Z) (deviceId : string) (isFreeInstall : bool) (c : Cont) : bool * Cont :=
  match callback with
  | None => (false, c)
  | Some cb =>
      if negb (c_handler c) then (false, c)
      else match zfind missionId (c_callbacks c) with
           | Some _ => (false, c)
           | None =>
               (true, c_set_missions (zset missionId cb (c_callbacks c)) (if isFreeInstall then zset missionId true (freeInstall_ c) else freeInstall_ c) (cleanMission_ c)
                        (zemplace missionId deviceId (continuationDevices_ c)) c)
           end
  end.
Definition PopCallback (missionId : Z) (c : Cont) : option Z * Cont :=
  match zfind missionId (c_callbacks c) with
  | None => (None, c)
  | Some cb => (Some cb, c_set_missions (zerase missionId (c_callbacks c)) (zerase missionId (freeInstall_ c)) (zerase missionId (cleanMission_ c)) (zerase missionId (continuationDevices_ c)) c)
  end.
(** [emplace]: a flag that is there stays. *)
Definition c_SetCleanMissionFlag (missionId : Z) (isCleanMission : bool) (c : Cont) : Cont :=
  c_set_missions (c_callbacks c) (freeInstall_ c) (zemplace missionId isCleanMission (cleanMission_ c)) (continuationDevices_ c) c.
Definition IsCleanMission (missionId : Z) (c : Cont) : bool := default true (zfind missionId (cleanMission_ c)).

(** ** The table of free installs *)

Inductive LaunchType := FREEINSTALL_START | FREEINSTALL_CONTINUE.
Record CallbackTaskItem := mkItem { it_callback : option Z; it_taskId : Z; it_launchType : LaunchType; it_deviceId : string; it_want : Want }.
Definition no_want : Want := mkWant no_element 0 [].
Definition no_item : CallbackTaskItem := mkItem None (-1) FREEINSTALL_START "" no_want.
Record CallbackTask := mkTask { t_handler : bool; t_timers : list Z; currTaskId_ : Z; t_callbacks : zmap CallbackTaskItem; continuationMissionMap_ : zmap Z }.
Definition Task_new : CallbackTask := mkTask false [] 1 [] [].
Definition Task_Init (t : CallbackTask) : CallbackTask := mkTask true (t_timers t) (currTaskId_ t) (t_callbacks t) (continuationMissionMap_ t).
Definition INT64_MAX : Z := 9223372036854775807.
Definition GenerateTaskId (t : CallbackTask) : Z * CallbackTask :=
  (currTaskId_ t, mkTask (t_handler t) (t_timers t) (if currTaskId_ t =? INT64_MAX then 1 else currTaskId_ t + 1) (t_callbacks t) (continuationMissionMap_ t)).
Definition t_PushCallback (sent : bool) (taskId : Z) (callback : option Z) (deviceId : string) (launchType : LaunchType) (want : Want) (t : CallbackTask) : Z * CallbackTask :=
  if taskId <=? 0 then (INVALID_PARAMETERS_ERR, t)
  else match launchType, callback with
       | FREEINSTALL_START, None => (INVALID_PARAMETERS_ERR, t)
       | _, _ =>
           if negb (t_handler t) then (INVALID_PARAMETERS_ERR, t)
           else match zfind taskId (t_callbacks t) with
                | Some _ => (INVALID_PARAMETERS_ERR, t)
                | None =>
                    if negb sent then (INVALID_PARAMETERS_ERR, t)
                    else (ERR_OK, mkTask (t_handler t) (t_timers t ++ [taskId]) (currTaskId_ t) (zset taskId (mkItem callback taskId launchType deviceId want) (t_callbacks t)) (continuationMissionMap_ t))
                end
       end.
Definition t_RemoveEvent (id : Z) (t : CallbackTask) : CallbackTask :=
  if t_handler t then mkTask (t_handler t) (List.filter (fun i => negb (i =? id)) (t_timers t)) (currTaskId_ t) (t_callbacks t) (continuationMissionMap_ t) else t.
Definition t_PopCallback (taskId : Z) (t : CallbackTask) : CallbackTaskItem * CallbackTask :=
  match zfind taskId (t_callbacks t) with
  | None => (no_item, t)
  | Some item => (item, t_RemoveEvent taskId (mkTask (t_handler t) (t_timers t) (currTaskId_ t) (zerase taskId (t_callbacks t)) (continuationMissionMap_ t)))
  end.
Definition t_set_missions x t := mkTask (t_handler t) (t_timers t) (currTaskId_ t) (t_callbacks t) x.
Definition PopContinuationMissionMap (taskId : Z) (t : CallbackTask) : CallbackTask := t_set_missions (zerase taskId (continuationMissionMap_ t)) t.
(** An error code is given as a mission when there is none. *)
Definition GetContinuaionMissionId (taskId : Z) (t : CallbackTask) : Z :=
  if taskId <=? 0 then INVALID_PARAMETERS_ERR else default INVALID_PARAMETERS_ERR (zfind taskId (continuationMissionMap_ t)).
Definition SetContinuationMissionMap (taskId missionId : Z) (t : CallbackTask) : CallbackTask :=
  if (taskId <=? 0) || (missionId <=? 0) then t else t_set_missions (zemplace taskId missionId (continuationMissionMap_ t)) t.
Definition GetLaunchType (taskId : Z) (t : CallbackTask) : LaunchType :=
  if taskId <=? 0 then FREEINSTALL_START else match zfind taskId (t_callbacks t) with Some item => it_launchType item | None => FREEINSTALL_START end.

(** ** The service *)

(** What is asked of others. *)
Inductive LAsk :=
  | LEvent (listener result : Z) (e : EventNotify)
  | LCollabEvent (listener : Z) (e : EventNotify)
  | LMissionCenter (callback missionId result : Z)
  | LCleanMission (missionId : Z)
  | LContinuationResult (missionId result : Z)
  | LContinueAbility (device : string) (missionId version : Z)
  | LCheckInstall (w : Want) (missionId : Z)
  | LContinueMissionRemote (device src dst : string) (missionId : Z) (callback : Z)
  | LContinueBundleRemote (device src dst bundle : string) (callback : Z)
  | LStartRemote (device : string) (w : Want) (requestCode : Z) (c : CallerInfo)
  | LFreeInstallRemote (device : string) (w : Want) (requestCode : Z) (c : CallerInfo) (taskId : Z)
  | LFreeInstallLocal (w : Want) (requestCode taskId : Z)
  | LStartAbility (w : Want) (requestCode : Z) (forResult : bool)
  | LSendResult (w : Want) (requestCode resultCode : Z)
  | LResultRemote (device : string) (sessionId : Z) (isSuccess : bool)
  | LEventResultRemote (device : string) (status : Z)
  | LFreeInstallDoneRemote (device : string) (taskId resultCode : Z)
  | LFreeInstallDone (callback resultCode : Z) (w : Want).

(** What others answer during a step; the last fields are constants of the ability
    framework. *)
Record LAnswers := {
  l_SendEvent : bool;
  l_SendRequest : Z -> Z;
  l_GetLocalDeviceId : option string;
  l_GetRemoteDms : string -> bool;
  l_CallingDeviceID : string;
  l_CallingUid : Z;
  l_ContinueSwitchOn : bool;
  l_RemoteVersionLower : string -> bool;
  (** The want of the mission and whether it may be continued. *)
  l_GetMissionInfo : Z -> Z * (Want * bool);
  l_CheckBundleContinueConfig : string -> bool;
  l_CheckRemoteBundleInfo : string -> string -> Z * Z;
  l_ContinueAbility : Z;
  l_CheckIfRemoteCanInstall : bool;
  l_CleanMission : Z;
  l_NotifyContinuationResult : Z;
  l_ContinueMissionRemote : Z;
  l_KnownDevice : string -> bool;
  l_SendMgr : bool;
  l_GetMissionIdByBundleName : string -> Z * Z;
  l_LocalVersion : string -> Z * Z;
  l_IsCallerForeground : Z -> bool;
  l_GetCallerAppId : Z -> option string;
  l_GetBundleNameList : Z -> option (list string);
  l_GetAccountInfo : Z;
  l_StartRemote : Z;
  l_CheckTargetPermission : Z;
  l_Connect : Z;
  l_QueryOsAccount : Z;
  l_StartAbility : Z;
  l_SendResult : Z;
  l_FreeInstallRemote : Z;
  l_FreeInstallLocal : Z;
  l_FreeInstallDoneRemote : Z;
  (** The events of the collaborations ([GetCollaborateEventInfo]). *)
  l_CollaborateEvents : Z -> list EventNotify;
  l_ERR_INVALID_VALUE : Z;
  l_FREE_INSTALL_TIMEOUT : Z;
  l_FLAG_ABILITY_CONTINUATION : Z;
  l_FLAG_INSTALL_ON_DEMAND : Z;
  l_PARAM_RESV_FOR_RESULT : string;
}.

Record Lg := mkLg {
  lg_cont : option Cont;
  lg_task : option CallbackTask;
  (** The listeners of collaborations. *)
  lg_collab : option (list Z);
  (** The death recipients of the listeners. *)
  lg_watches : list Z;
  lg_asked : list LAsk;
}.
Definition Lg_new : Lg := mkLg None None None [] [].
Definition DoStart (s : Lg) : Lg := mkLg (Some (Cont_Init Cont_new)) (Some (Task_Init Task_new)) (Some []) (lg_watches s) (lg_asked s).
Definition set_cont c s := mkLg (Some c) (lg_task s) (lg_collab s) (lg_watches s) (lg_asked s).
Definition set_task t s := mkLg (lg_cont s) (Some t) (lg_collab s) (lg_watches s) (lg_asked s).
Definition set_collab l s := mkLg (lg_cont s) (lg_task s) (Some l) (lg_watches s) (lg_asked s).
Definition add_watch l s := mkLg (lg_cont s) (lg_task s) (lg_collab s) (lg_watches s ++ [l]) (lg_asked s).
Definition lask x s := mkLg (lg_cont s) (lg_task s) (lg_collab s) (lg_watches s) (lg_asked s ++ [x]).
Definition on_cont (f : Cont -> Cont) (s : Lg) : Lg := match lg_cont s with Some c => set_cont (f c) s | None => s end.

(** ** Listeners of events *)

(** The messages to the listeners; the result says whether all were taken. *)
Fixpoint tell_all (a : LAnswers) (msg : Z -> LAsk) (l : list Z) (s : Lg) : bool * Lg :=
  match l with
  | [] => (true, s)
  | x :: l => let '(ok, s) := tell_all a msg l (lask (msg x) s) in ((l_SendRequest a x =? ERR_OK) && ok, s)
  end.
Definition tell_listeners (a : LAnswers) (msg : Z -> LAsk) (l : list Z) (s : Lg) : Z * Lg :=
  match l with
  | [] => (INVALID_PARAMETERS_ERR, s)
  | _ => let '(ok, s) := tell_all a msg l s in (if ok then ERR_OK else SEND_REQUEST_DEF_FAIL, s)
  end.
(** [DSchedContinuation::NotifyDSchedEventResult]. *)
Definition NotifyDSchedEventResult (a : LAnswers) (resultCode : Z) (s : Lg) : Z * Lg :=
  match lg_cont s with
  | Some c => tell_listeners a (fun x => LEvent x resultCode (continueEvent_ c)) (continuationCallbackArr_ c) s
  | None => (INVALID_PARAMETERS_ERR, s)
  end.
Definition collab_NotifyDSchedEventResult (a : LAnswers) (e : EventNotify) (s : Lg) : Z * Lg :=
  match lg_collab s with
  | Some l => tell_listeners a (fun x => LCollabEvent x e) l s
  | None => (INVALID_PARAMETERS_ERR, s)
  end.
Definition NotifyContinuateEventResult (a : LAnswers) (resultCode : Z) (e : EventNotify) (s : Lg) : Lg :=
  match lg_cont s with
  | None => s
  | Some c =>
      let s := snd (NotifyDSchedEventResult a resultCode (set_cont (c_set_event e c) s)) in
      if (ev_state e =? DMS_DSCHED_EVENT_FINISH) || negb (resultCode =? ERR_OK) then on_cont (c_set_event no_event) s else s
  end.
Definition NotifyDSchedEventCallbackResult (a : LAnswers) (resultCode : Z) (e : EventNotify) (s : Lg) : Lg :=
  if ev_type e =? DMS_CONTINUE then NotifyContinuateEventResult a resultCode e s
  else if ev_type e =? DMS_COLLABORATION then snd (collab_NotifyDSchedEventResult a e s)
  else s.
Definition NotifyDSchedEventResultFromRemote (a : LAnswers) (dSchedEventResult : Z) (s : Lg) : Z * Lg := (ERR_OK, snd (NotifyDSchedEventResult a dSchedEventResult s)).

Definition GetContinueEventInfo (a : LAnswers) (callingUid : Z) (c : Cont) : list EventNotify :=
  if callingUid =? DEFAULT_REQUEST_CODE then [continueEvent_ c]
  else match l_GetBundleNameList a callingUid with
       | None => []
       | Some names =>
           concat (map (fun n => if String.eqb n (ev_srcBundle (continueEvent_ c)) || String.eqb n (ev_destBundle (continueEvent_ c)) then [continueEvent_ c] else []) names)
       end.
Definition CheckCallingUid (a : LAnswers) : bool := l_CallingUid a <? HID_HAP.
(** Once the service has started. *)
Definition GetDSchedEventInfo (a : LAnswers) (type : Z) (c : Cont) : Z * list EventNotify :=
  let callingUid := if CheckCallingUid a then DEFAULT_REQUEST_CODE else l_CallingUid a in
  if type =? DMS_CONTINUE then (ERR_OK, GetContinueEventInfo a callingUid c)
  else if type =? DMS_COLLABORATION then (ERR_OK, l_CollaborateEvents a callingUid)
  else if type =? DMS_ALL then (ERR_OK, GetContinueEventInfo a callingUid c ++ l_CollaborateEvents a callingUid)
  else (INVALID_PARAMETERS_ERR, []).

(** A new listener is watched and told of what is going on. *)
Definition PushListener (a : LAnswers) (callback : option Z) (s : Lg) : bool * Lg :=
  match lg_cont s, callback with
  | Some c, Some cb =>
      if negb (c_handler c) then (false, s)
      else if existsb (Z.eqb cb) (continuationCallbackArr_ c) then (false, s)
      else (true, lask (LEvent cb ERR_OK (continueEvent_ c)) (add_watch cb (set_cont (c_set_listeners (continuationCallbackArr_ c ++ [cb]) c) s)))
  | _, _ => (false, s)
  end.
Definition collab_PushCallback (a : LAnswers) (callback : option Z) (s : Lg) : bool * Lg :=
  match lg_collab s, callback with
  | Some l, Some cb =>
      if existsb (Z.eqb cb) l then (false, s)
      else
        let events := match lg_cont s with Some c => snd (GetDSchedEventInfo a DMS_COLLABORATION c) | None => [] end in
        (true, foldl (fun s e => lask (LCollabEvent cb e) s) (add_watch cb (set_collab (l ++ [cb]) s)) events)
  | _, _ => (false, s)
  end.
Fixpoint erase_first (cb : Z) (l : list Z) : list Z := match l with [] => [] | x :: l => if x =? cb then l else x :: erase_first cb l end.
Definition CleanupCallback (cb : Z) (s : Lg) : bool * Lg :=
  match lg_cont s with
  | Some c => if existsb (Z.eqb cb) (continuationCallbackArr_ c) then (true, set_cont (c_set_listeners (erase_first cb (continuationCallbackArr_ c)) c) s) else (false, s)
  | None => (false, s)
  end.
Definition collab_CleanupCallback (cb : Z) (s : Lg) : bool * Lg :=
  match lg_collab s with
  | Some l => if existsb (Z.eqb cb) l then (true, set_collab (erase_first cb l) s) else (false, s)
  | None => (false, s)
  end.
(** [x && y]: the second is not evaluated when the first is false. *)
Definition and_then (x y : Lg -> bool * Lg) (s : Lg) : bool * Lg := let '(b, s) := x s in if b then y s else (false, s).
Definition RegisterDSchedEventListener (a : LAnswers) (type : Z) (callback : option Z) (s : Lg) : Z * Lg :=
  match lg_cont s, lg_collab s with
  | Some _, Some _ =>
      let run f := let '(ret, s) := f s in (if ret : bool then ERR_OK else CALLBACK_HAS_NOT_REGISTERED, s) in
      if type =? DMS_CONTINUE then run (PushListener a callback)
      else if type =? DMS_COLLABORATION then run (collab_PushCallback a callback)
      else if type =? DMS_ALL then run (and_then (PushListener a callback) (collab_PushCallback a callback))
      else (INVALID_PARAMETERS_ERR, s)
  | _, _ => (INVALID_PARAMETERS_ERR, s)
  end.
Definition UnRegisterDSchedEventListener (type : Z) (cb : Z) (s : Lg) : Z * Lg :=
  match lg_cont s, lg_collab s with
  | Some _, Some _ =>
      (0, if type =? DMS_CONTINUE then snd (CleanupCallback cb s)
          else if type =? DMS_COLLABORATION then snd (collab_CleanupCallback cb s)
          else if type =? DMS_ALL then snd (and_then (CleanupCallback cb) (collab_CleanupCallback cb) s)
          else s)
  | _, _ => (INVALID_PARAMETERS_ERR, s)
  end.
(** A listener died: each recipient that is registered with it has it removed. *)
Definition listener_died (cb : Z) (s : Lg) : Lg :=
  let gone := List.filter (Z.eqb cb) (lg_watches s) in
  let s := mkLg (lg_cont s) (lg_task s) (lg_collab s) (List.filter (fun x => negb (cb =? x)) (lg_watches s)) (lg_asked s) in
  foldl (fun s cb => snd (UnRegisterDSchedEventListener DMS_ALL cb s)) s gone.

(** ** Continuation of a mission: the device that has it *)

Definition RemoveContinuationTimeout (missionId : Z) (s : Lg) : Lg := on_cont (RemoveTimeOut missionId) s.
Definition SetContinuationTimeout (a : LAnswers) (missionId : Z) (s : Lg) : Lg := on_cont (SetTimeOut (l_SendEvent a) missionId) s.
Definition GetContinuaitonDevice (missionId : Z) (s : Lg) : string := match lg_cont s with Some c => GetTargetDevice missionId c | None => "" end.
(** The callback is told and forgotten, with its timer. *)
Definition NotifyMissionCenterResult (a : LAnswers) (missionId resultCode : Z) (c : Cont) (s : Lg) : Z * Lg :=
  let '(callback, c) := PopCallback missionId c in
  let s := set_cont (RemoveTimeOut missionId c) s in
  match callback with
  | None => (INVALID_PARAMETERS_ERR, s)
  | Some cb => (l_SendRequest a cb, lask (LMissionCenter cb missionId resultCode) s)
  end.
Definition NotifyContinuationCallbackResult (a : LAnswers) (missionId resultCode : Z) (s : Lg) : Lg :=
  match lg_cont s with
  | None => s
  | Some c =>
      if IsInContinuationProgress missionId c then
        let s := if (resultCode =? ERR_OK) && IsCleanMission missionId c then lask (LCleanMission missionId) s else s in
        snd (NotifyMissionCenterResult a missionId resultCode c s)
      else on_cont (RemoveTimeOut missionId) (lask (LContinuationResult missionId resultCode) s)
  end.
(** A timer is up. *)
Definition cont_ProcessEvent (a : LAnswers) (eventId : Z) (s : Lg) : Lg :=
  if eventId <=? 0 then s else NotifyContinuationCallbackResult a eventId CONTINUE_ABILITY_TIMEOUT_ERR s.

Definition ContinueAbilityWithTimeout (a : LAnswers) (dstDeviceId : string) (missionId : Z) (callback : option Z) (remoteBundleVersion : Z) (s : Lg) : Z * Lg :=
  match lg_cont s with
  | None => (INVALID_PARAMETERS_ERR, s)
  | Some c =>
      let '(isPushSucceed, c) := PushCallback missionId callback dstDeviceId false c in
      if negb isPushSucceed then (CONTINUE_ALREADY_IN_PROGRESS, s)
      else
        let s := SetContinuationTimeout a missionId (set_cont c s) in
        let result := l_ContinueAbility a in
        (if result =? l_ERR_INVALID_VALUE a then MISSION_FOR_CONTINUING_IS_NOT_ALIVE else result, lask (LContinueAbility dstDeviceId missionId remoteBundleVersion) s)
  end.
Definition ContinueLocalMissionDealFreeInstall (a : LAnswers) (want : Want) (missionId : Z) (dstDeviceId : string) (callback : option Z) (s : Lg) : Z * Lg :=
  if negb (GetBoolParam "isFreeInstall" false want) then (CONTINUE_REMOTE_UNINSTALLED_SUPPORT_FREEINSTALL, s)
  else
    match lg_cont s with
    | None => (INVALID_PARAMETERS_ERR, s)
    | Some c =>
        let s := SetContinuationTimeout a missionId (set_cont (snd (PushCallback missionId callback dstDeviceId true c)) s) in
        let e := w_element want in
        let s := lask (LCheckInstall (SetElement (mkElement dstDeviceId (el_bundle e) (el_module e) (el_ability e)) want) missionId) s in
        if negb (l_CheckIfRemoteCanInstall a) then
          (INVALID_PARAMETERS_ERR, on_cont (fun c => snd (PopCallback missionId c)) (RemoveContinuationTimeout missionId s))
        else (ERR_OK, s)
    end.
Definition ContinueLocalMission (a : LAnswers) (dstDeviceId : string) (missionId : Z) (callback : option Z) (wantParams : list (string * Param)) (s : Lg) : Z * Lg :=
  if negb (l_ContinueSwitchOn a) then (DMS_PERMISSION_DENIED, s)
  else
    match lg_cont s with
    | None => (INVALID_PARAMETERS_ERR, s)
    | Some c =>
        if IsInContinuationProgress missionId c then (CONTINUE_ALREADY_IN_PROGRESS, s)
        else if l_RemoteVersionLower a dstDeviceId then ContinueAbilityWithTimeout a dstDeviceId missionId callback 0 s
        else
          let '(result, (w, active)) := l_GetMissionInfo a missionId in
          if negb (result =? ERR_OK) then (NO_MISSION_INFO_FOR_MISSION_ID, s)
          else if negb active then (INVALID_PARAMETERS_ERR, s)
          else if negb (l_CheckBundleContinueConfig a (el_bundle (w_element w))) then (REMOTE_DEVICE_BIND_ABILITY_ERR, s)
          else
            let '(result, version) := l_CheckRemoteBundleInfo a dstDeviceId (el_bundle (w_element w)) in
            if result =? ERR_OK then ContinueAbilityWithTimeout a dstDeviceId missionId callback version s
            else if result =? CONTINUE_REMOTE_UNINSTALLED_UNSUPPORT_FREEINSTALL then (result, s)
            else ContinueLocalMissionDealFreeInstall a (mkWant (w_element w) (w_flags w) wantParams) missionId dstDeviceId callback s
    end.
(** The bundle manager answers whether the application can be installed there. *)
Definition OnQueryInstallationFinished (a : LAnswers) (resultCode missionId versionCode : Z) (s : Lg) : Z * Lg :=
  if negb (resultCode =? ERR_OK) then
    (CONTINUE_REMOTE_UNINSTALLED_CANNOT_FREEINSTALL, NotifyContinuationCallbackResult a missionId CONTINUE_REMOTE_UNINSTALLED_CANNOT_FREEINSTALL s)
  else
    let s := RemoveContinuationTimeout missionId s in
    let deviceId := GetContinuaitonDevice missionId s in
    let s := SetContinuationTimeout a missionId s in
    (l_ContinueAbility a, lask (LContinueAbility deviceId missionId versionCode) s).

Definition ContinueRemoteMission (a : LAnswers) (srcDeviceId dstDeviceId : string) (missionId callback : Z) (s : Lg) : Z * Lg :=
  if negb (l_ContinueSwitchOn a) then (DMS_PERMISSION_DENIED, s)
  else if negb (GetRemoteDms (l_GetRemoteDms a) srcDeviceId) then (INVALID_REMOTE_PARAMETERS_ERR, s)
  else
    let ret := fst (l_GetMissionInfo a missionId) in
    if negb (ret =? ERR_OK) then (ret, s)
    else (l_ContinueMissionRemote a, lask (LContinueMissionRemote srcDeviceId srcDeviceId dstDeviceId missionId callback) s).
Definition ContinueMission (a : LAnswers) (srcDeviceId dstDeviceId : string) (missionId : Z) (callback : option Z) (wantParams : list (string * Param)) (s : Lg) : Z * Lg :=
  match callback, l_GetLocalDeviceId a with
  | Some cb, Some localDevId =>
      if String.eqb srcDeviceId "" || String.eqb dstDeviceId "" then (INVALID_PARAMETERS_ERR, s)
      else if String.eqb srcDeviceId localDevId then
        if negb (l_KnownDevice a dstDeviceId) then (INVALID_REMOTE_PARAMETERS_ERR, s) else ContinueLocalMission a dstDeviceId missionId callback (merase DMS_CALLING_UID wantParams) s
      else if String.eqb dstDeviceId localDevId then
        if negb (l_KnownDevice a srcDeviceId) then (INVALID_REMOTE_PARAMETERS_ERR, s) else ContinueRemoteMission a srcDeviceId dstDeviceId missionId cb s
      else (OPERATION_DEVICE_NOT_INITIATOR_OR_TARGET, s)
  | _, _ => (INVALID_PARAMETERS_ERR, s)
  end.
(** By the name of the bundle. *)
Definition event_devices (src dst : string) (e : EventNotify) : EventNotify :=
  mkEvent (ev_result e) src dst (ev_srcBundle e) (ev_srcModule e) (ev_srcAbility e) (ev_destBundle e) (ev_destModule e) (ev_destAbility e) (ev_developerId e) (ev_type e) (ev_state e).
Definition ProcessContinueLocalMission (a : LAnswers) (srcDeviceId dstDeviceId bundleName : string) (callback : option Z) (wantParams : list (string * Param)) (s : Lg) : Z * Lg :=
  if negb (l_KnownDevice a dstDeviceId) then (INVALID_REMOTE_PARAMETERS_ERR, s)
  else if negb (l_SendMgr a) then (DMS_NOT_GET_MANAGER, s)
  else
    let '(ret, missionId) := l_GetMissionIdByBundleName a bundleName in
    if negb (ret =? ERR_OK) then (ret, s)
    else match lg_cont s with
         | None => (INVALID_PARAMETERS_ERR, s)
         | Some c => ContinueLocalMission a dstDeviceId missionId callback wantParams (set_cont (c_set_event (event_devices srcDeviceId dstDeviceId (continueEvent_ c)) c) s)
         end.
Definition ContinueRemoteMission_bundle (a : LAnswers) (srcDeviceId dstDeviceId bundleName : string) (callback : Z) (s : Lg) : Z * Lg :=
  if negb (GetRemoteDms (l_GetRemoteDms a) srcDeviceId) then
    match lg_cont s with
    | None => (INVALID_PARAMETERS_ERR, s)
    | Some _ => (INVALID_REMOTE_PARAMETERS_ERR, snd (NotifyDSchedEventResult a INVALID_REMOTE_PARAMETERS_ERR s))
    end
  else
    let result := l_ContinueMissionRemote a in
    let s := lask (LContinueBundleRemote srcDeviceId srcDeviceId dstDeviceId bundleName callback) s in
    if result =? ERR_OK then (result, s)
    else match lg_cont s with
         | None => (INVALID_PARAMETERS_ERR, s)
         | Some _ => (result, snd (NotifyDSchedEventResult a result s))
         end.
Definition ProcessContinueRemoteMission (a : LAnswers) (srcDeviceId dstDeviceId bundleName : string) (callback : Z) (s : Lg) : Z * Lg :=
  if negb (l_KnownDevice a srcDeviceId) then (INVALID_REMOTE_PARAMETERS_ERR, s)
  else match lg_cont s with
       | None => (INVALID_PARAMETERS_ERR, s)
       | Some c => ContinueRemoteMission_bundle a srcDeviceId dstDeviceId bundleName callback (set_cont (c_set_event (event_devices dstDeviceId srcDeviceId (continueEvent_ c)) c) s)
       end.
Definition ContinueMission_bundle (a : LAnswers) (srcDeviceId dstDeviceId bundleName : string) (callback : option Z) (wantParams : list (string * Param)) (s : Lg) : Z * Lg :=
  match callback, l_GetLocalDeviceId a with
  | Some cb, Some localDevId =>
      if String.eqb srcDeviceId "" || String.eqb dstDeviceId "" then (INVALID_PARAMETERS_ERR, s)
      else if String.eqb srcDeviceId localDevId then ProcessContinueLocalMission a srcDeviceId dstDeviceId bundleName callback (merase DMS_CALLING_UID wantParams) s
      else if String.eqb dstDeviceId localDevId then ProcessContinueRemoteMission a srcDeviceId dstDeviceId bundleName cb s
      else (OPERATION_DEVICE_NOT_INITIATOR_OR_TARGET, s)
  | _, _ => (INVALID_PARAMETERS_ERR, s)
  end.

(** ** Start of abilities on the other device *)

Definition StartAbility (a : LAnswers) (w : Want) (requestCode : Z) (s : Lg) : Z * Lg :=
  if negb (l_ContinueSwitchOn a) then (DMS_PERMISSION_DENIED, s)
  else if negb (l_Connect a =? ERR_OK) then (l_Connect a, s)
  else if negb (l_QueryOsAccount a =? ERR_OK) then (l_QueryOsAccount a, s)
  else (l_StartAbility a, lask (LStartAbility w requestCode (GetBoolParam (l_PARAM_RESV_FOR_RESULT a) false w)) s).
Definition from_remote (a : LAnswers) (deviceId sourceDeviceId : string) : bool :=
  match l_GetLocalDeviceId a with Some localDeviceId => CheckDeviceIdFromRemote (l_CallingDeviceID a) localDeviceId deviceId sourceDeviceId | None => false end.
Definition StartAbilityFromRemote (a : LAnswers) (w : Want) (requestCode : Z) (c : CallerInfo) (s : Lg) : Z * Lg :=
  if negb (from_remote a (el_device (w_element w)) (caller_sourceDeviceId c)) then (INVALID_REMOTE_PARAMETERS_ERR, s)
  else if negb (l_CheckTargetPermission a =? ERR_OK) then (l_CheckTargetPermission a, s)
  else StartAbility a w requestCode s.
(** The caller of a remote start; [callerType] is set for a free install. *)
Definition GetCallerInfo (a : LAnswers) (callerType : Z) (localDeviceId : string) (callerUid accessToken : Z) : option CallerInfo :=
  match l_GetCallerAppId a callerUid, l_GetBundleNameList a callerUid with
  | Some appId, Some names => Some (mkCallerInfo callerUid (-1) callerType localDeviceId (-1) appId names (-1) accessToken version_info)
  | _, _ => None
  end.
Definition remote_target (a : LAnswers) (w : Want) : option string :=
  match l_GetLocalDeviceId a with
  | Some localDeviceId => if CheckDeviceId localDeviceId (el_device (w_element w)) && GetRemoteDms (l_GetRemoteDms a) (el_device (w_element w)) then Some localDeviceId else None
  | None => None
  end.
Definition StartRemoteAbility (a : LAnswers) (w : Want) (callerUid requestCode accessToken : Z) (s : Lg) : Z * Lg :=
  if negb (l_IsCallerForeground a callerUid) then (DMS_NOT_FOREGROUND_USER, s)
  else match remote_target a w with
       | None => (INVALID_PARAMETERS_ERR, s)
       | Some localDeviceId =>
           match GetCallerInfo a CALLER_TYPE_NONE localDeviceId callerUid accessToken with
           | None => (INVALID_PARAMETERS_ERR, s)
           | Some c =>
               if negb (l_GetAccountInfo a =? ERR_OK) then (l_GetAccountInfo a, s)
               else (l_StartRemote a, lask (LStartRemote (el_device (w_element w)) (SetParam DMS_SRC_NETWORK_ID (PString localDeviceId) w) requestCode c) s)
           end
       end.
(** The result of an ability that was started for a result. *)
Definition SendResultFromRemote (a : LAnswers) (w : Want) (requestCode : Z) (c : CallerInfo) (resultCode : Z) (s : Lg) : Z * Lg :=
  let deviceId := GetStringParam DMS_SRC_NETWORK_ID w in
  let w := RemoveParam DMS_SRC_NETWORK_ID w in
  if negb (from_remote a deviceId (caller_sourceDeviceId c)) then (INVALID_REMOTE_PARAMETERS_ERR, s)
  else
    let '(err, w) :=
      if String.eqb (el_bundle (w_element w)) "" && String.eqb (el_ability (w_element w)) "" then
        let '(ret, (mw, _)) := l_GetMissionInfo a (GetIntParam DMS_MISSION_ID DEFAULT_DMS_MISSION_ID w) in
        if negb (l_Connect a =? ERR_OK) then (l_Connect a, w)
        else if negb (ret =? ERR_OK) then (ret, w)
        else (ERR_OK, SetElement (mkElement "" (el_bundle (w_element mw)) "" (el_ability (w_element mw))) w)
      else (ERR_OK, w) in
    if negb (err =? ERR_OK) then (err, s)
    else if negb (l_CheckTargetPermission a =? ERR_OK) then (l_CheckTargetPermission a, s)
    else if negb (l_Connect a =? ERR_OK) then (l_Connect a, s)
    else (l_SendResult a, lask (LSendResult w requestCode resultCode) s).

(** ** Free installs *)

Definition NotifyFreeInstallResult (a : LAnswers) (item : CallbackTaskItem) (resultCode : Z) (s : Lg) : Z * Lg :=
  match it_callback item with
  | None => (INVALID_REMOTE_PARAMETERS_ERR, s)
  | Some cb => (l_SendRequest a cb, lask (LFreeInstallDone cb resultCode (it_want item)) s)
  end.
Definition is_continuation (a : LAnswers) (w : Want) : bool := negb (Z.land (w_flags w) (l_FLAG_ABILITY_CONTINUATION a) =? 0).
Definition StartRemoteFreeInstall (a : LAnswers) (w : Want) (callerUid requestCode accessToken : Z) (callback : option Z) (s : Lg) : Z * Lg :=
  match remote_target a w with
  | None => (INVALID_PARAMETERS_ERR, s)
  | Some localDeviceId =>
      match lg_task s with
      | None => (INVALID_REMOTE_PARAMETERS_ERR, s)
      | Some t =>
          let '(taskId, t) := GenerateTaskId t in
          let launchType := if is_continuation a w then FREEINSTALL_CONTINUE else FREEINSTALL_START in
          let '(ret, t) := t_PushCallback (l_SendEvent a) taskId callback (el_device (w_element w)) launchType w t in
          if negb (ret =? ERR_OK) then (INVALID_REMOTE_PARAMETERS_ERR, set_task t s)
          else
            let t := match launchType with FREEINSTALL_CONTINUE => SetContinuationMissionMap taskId (GetIntParam "sessionId" (-1) w) t | FREEINSTALL_START => t end in
            let s := set_task t s in
            match GetCallerInfo a CALLER_TYPE_HARMONY localDeviceId callerUid accessToken with
            | None => (INVALID_PARAMETERS_ERR, s)
            | Some c =>
                if negb (l_GetAccountInfo a =? ERR_OK) then (INVALID_PARAMETERS_ERR, s)
                else
                  let result := l_FreeInstallRemote a in
                  let s := lask (LFreeInstallRemote (el_device (w_element w)) (SetParam DMS_SRC_NETWORK_ID (PString localDeviceId) w) requestCode c taskId) s in
                  if result =? ERR_OK then (result, s)
                  else
                    let '(item, t) := t_PopCallback taskId t in
                    (result, snd (NotifyFreeInstallResult a item result (set_task t s)))
            end
      end
  end.
Definition StartFreeInstallFromRemote (a : LAnswers) (w : Want) (requestCode : Z) (c : CallerInfo) (taskId : Z) (s : Lg) : Z * Lg :=
  if negb (from_remote a (el_device (w_element w)) (caller_sourceDeviceId c)) then (INVALID_REMOTE_PARAMETERS_ERR, s)
  else if negb (l_Connect a =? ERR_OK) then (l_Connect a, s)
  else if negb (l_QueryOsAccount a =? ERR_OK) then (l_QueryOsAccount a, s)
  else (l_FreeInstallLocal a, lask (LFreeInstallLocal w requestCode taskId) s).
Definition HandleRemoteNotify (a : LAnswers) (c : CallerInfo) (taskId resultCode : Z) (s : Lg) : Z * Lg :=
  if negb (GetRemoteDms (l_GetRemoteDms a) (caller_sourceDeviceId c)) then (INVALID_PARAMETERS_ERR, s)
  else if taskId <=? 0 then (INVALID_PARAMETERS_ERR, s)
  else (l_FreeInstallDoneRemote a, lask (LFreeInstallDoneRemote (caller_sourceDeviceId c) taskId resultCode) s).
Definition StartLocalAbility (a : LAnswers) (w : Want) (requestCode : Z) (s : Lg) : Z * Lg :=
  match l_GetLocalDeviceId a with
  | None => (INVALID_REMOTE_PARAMETERS_ERR, s)
  | Some _ =>
      if negb (l_CheckTargetPermission a =? ERR_OK) then (l_CheckTargetPermission a, s)
      else StartAbility a (mkWant (w_element w) (Z.land (w_flags w) (Z.lnot (l_FLAG_INSTALL_ON_DEMAND a))) (w_params w)) requestCode s
  end.
(** [OnInstallFinished] of the callback given to the ability manager. *)
Definition NotifyCompleteFreeInstall (a : LAnswers) (w : Want) (requestCode : Z) (c : CallerInfo) (taskId resultCode : Z) (s : Lg) : Z * Lg :=
  if taskId <=? 0 then (INVALID_PARAMETERS_ERR, s)
  else if negb (resultCode =? ERR_OK) then HandleRemoteNotify a c taskId resultCode s
  else let '(result, s) := StartLocalAbility a w requestCode s in HandleRemoteNotify a c taskId result s.
Definition NotifyCompleteFreeInstallFromRemote (a : LAnswers) (taskId resultCode : Z) (s : Lg) : Z * Lg :=
  match lg_task s, lg_cont s with
  | Some t, Some _ =>
      let launchType := GetLaunchType taskId t in
      let '(item, t) := t_PopCallback taskId t in
      let s := set_task t s in
      match launchType with
      | FREEINSTALL_START => NotifyFreeInstallResult a item resultCode s
      | FREEINSTALL_CONTINUE =>
          if resultCode =? ERR_OK then (ERR_OK, set_task (PopContinuationMissionMap taskId t) s)
          else
            let s := NotifyContinuationCallbackResult a (i32 (GetContinuaionMissionId taskId t)) CONTINUE_FREE_INSTALL_FAILED s in
            (ERR_OK, set_task (PopContinuationMissionMap taskId t) s)
      end
  | _, _ => (INVALID_REMOTE_PARAMETERS_ERR, s)
  end.
Definition task_ProcessEvent (a : LAnswers) (eventId : Z) (s : Lg) : Lg := if eventId <=? 0 then s else snd (NotifyCompleteFreeInstallFromRemote a eventId (l_FREE_INSTALL_TIMEOUT a) s).
Fixpoint offline_tasks (a : LAnswers) (deviceId : string) (m : zmap CallbackTaskItem) (t : CallbackTask) (s : Lg) : CallbackTask * Lg :=
  match m with
  | [] => (t, s)
  | (taskId, item) :: m =>
      if String.eqb (it_deviceId item) deviceId then
        let t := t_RemoveEvent (it_taskId item) t in
        offline_tasks a deviceId m (mkTask (t_handler t) (t_timers t) (currTaskId_ t) (zerase taskId (t_callbacks t)) (continuationMissionMap_ t)) (snd (NotifyFreeInstallResult a item DEVICE_OFFLINE_ERR s))
      else offline_tasks a deviceId m t s
  end.
Definition NotifyDeviceOffline (a : LAnswers) (deviceId : string) (s : Lg) : Lg :=
  match lg_task s with
  | None => s
  | Some t => let '(t, s) := offline_tasks a deviceId (t_callbacks t) t s in set_task t s
  end.

(** ** The ability has saved its data *)

Definition SetWantForContinuation (a : LAnswers) (missionId : Z) (w : Want) : Z * Want :=
  match l_GetLocalDeviceId a with
  | None => (INVALID_REMOTE_PARAMETERS_ERR, w)
  | Some devId =>
      let w := SetParam "deviceId" (PString devId) (SetParam "sessionId" (PInt missionId) w) in
      let '(ret, version) := l_LocalVersion a (el_bundle (w_element w)) in
      if negb (ret =? ERR_OK) then (INVALID_PARAMETERS_ERR, w)
      else
        let w := SetParam VERSION_CODE_KEY (PInt (i32 version)) w in
        let moduleName := GetStringParam SUPPORT_CONTINUE_MODULE_NAME_UPDATE_KEY w in
        let e := w_element w in
        (ERR_OK, if negb (GetBoolParam SUPPORT_CONTINUE_PAGE_STACK_KEY true w) && negb (String.eqb moduleName "") && (Z.of_nat (String.length moduleName) <=? MAX_MODULENAME_LEN)
                 then SetElement (mkElement (el_device e) (el_bundle e) moduleName (el_ability e)) w else w)
  end.
Definition DealDSchedEventResult (a : LAnswers) (w : Want) (status : Z) (s : Lg) : Z * Lg :=
  match lg_cont s with
  | None => (INVALID_PARAMETERS_ERR, s)
  | Some _ =>
      if status =? ERR_OK then (ERR_OK, s)
      else if negb (GetRemoteDms (l_GetRemoteDms a) (el_device (w_element w))) then (INVALID_REMOTE_PARAMETERS_ERR, s)
      else (ERR_OK, lask (LEventResultRemote (el_device (w_element w)) status) s)
  end.
Definition SetCleanMissionFlag (w : Want) (missionId : Z) (s : Lg) : Lg :=
  on_cont (c_SetCleanMissionFlag missionId (GetBoolParam SUPPORT_CONTINUE_SOURCE_EXIT_KEY true w)) s.
Definition GetIsFreeInstall (missionId : Z) (s : Lg) : bool := match lg_cont s with Some c => IsFreeInstall missionId c | None => false end.
Definition StartContinuation (a : LAnswers) (w : Want) (missionId callerUid status accessToken : Z) (s : Lg) : Z * Lg :=
  let s := snd (DealDSchedEventResult a w status s) in
  if negb (status =? ERR_OK) then (INVALID_REMOTE_PARAMETERS_ERR, NotifyContinuationCallbackResult a missionId status s)
  else if negb (is_continuation a w) then (INVALID_REMOTE_PARAMETERS_ERR, s)
  else
    match lg_cont s with
    | None => (INVALID_REMOTE_PARAMETERS_ERR, s)
    | Some c =>
        let s := if IsInContinuationProgress missionId c then s else set_cont (SetTimeOut (l_SendEvent a) missionId c) s in
        let '(result, newWant) := SetWantForContinuation a missionId w in
        if negb (result =? ERR_OK) then (result, s)
        else
          let flag := GetIsFreeInstall missionId s in
          let s := SetCleanMissionFlag w missionId s in
          if flag then StartRemoteFreeInstall a newWant callerUid DEFAULT_REQUEST_CODE accessToken None s
          else StartRemoteAbility a newWant callerUid DEFAULT_REQUEST_CODE accessToken s
    end.

(** ** The ability runs on the other device *)

(** On the other device. *)
Definition NotifyCompleteContinuation (a : LAnswers) (deviceId : string) (sessionId : Z) (isSuccess : bool) (s : Lg) : Lg :=
  if sessionId <=? 0 then s
  else if negb (GetRemoteDms (l_GetRemoteDms a) deviceId) then s
  else
    match lg_cont s with
    | None => s
    | Some _ =>
        let s := snd (NotifyDSchedEventResult a ERR_OK s) in
        on_cont (c_set_info "" "") (lask (LResultRemote deviceId sessionId isSuccess) s)
    end.
(** On the device that had the mission. *)
Definition NotifyContinuationResultFromRemote (a : LAnswers) (sessionId : Z) (isSuccess : bool) (s : Lg) : Z * Lg :=
  if sessionId <=? 0 then (INVALID_REMOTE_PARAMETERS_ERR, s)
  else
    let s := NotifyContinuationCallbackResult a sessionId (if isSuccess then 0 else NOTIFYCOMPLETECONTINUATION_FAILED) s in
    (ERR_OK, on_cont (c_set_info "" "") s).
Definition GetContinueInfo (s : Lg) : Z * (string * string) := match lg_cont s with Some c => (0, (info_dst c, info_src c)) | None => (INVALID_PARAMETERS_ERR, ("", "")) end.
