(* ===== verification/OldContinueProps.v ===== *)
(** Theorems about continuations by mission (OldContinue.v): every callback is answered
    exactly once and a timer runs until then, a continuation between two devices, free
    installs, and listeners. *)

From S2P Require Import Prelude StdMap SchedErrors SchedUtils Json ContinueInfo ContinueSession RemoteAbility RemoteAbilityProps OldContinue.
From Stdlib Require Import Sorted.
From stdpp Require Import relations.
#[local] Open Scope string_scope.
#[local] Open Scope list_scope.
#[local] Open Scope Z_scope.

(** ** The tables *)

Definition waiting (m : Z) (c : Cont) : bool := IsInContinuationProgress m c.
(** A mission and the callback that waits for it. *)
Definition held (p : Z * Z) (c : Cont) : bool := match zfind (fst p) (c_callbacks c) with Some cb => cb =? snd p | None => false end.
(** The tables belong together; every mission but [x] that is waited for has a timer
    (the event of a number that is not positive is not processed). *)
Record cont_ok (x : option Z) (c : Cont) : Prop := {
  co_handler : c_handler c = true;
  co_callbacks : zsorted (c_callbacks c);
  co_devices : zsorted (continuationDevices_ c);
  co_free : zsorted (freeInstall_ c);
  co_device m : waiting m c = false <-> zfind m (continuationDevices_ c) = None;
  co_install m : waiting m c = false -> zfind m (freeInstall_ c) = None;
  co_timer m : 0 < m -> waiting m c = true -> x <> Some m -> In m (c_timers c);
}.
Lemma cont_ok_weaken x c : cont_ok None c -> cont_ok x c.
Proof. intros [? ? ? ? ? ? Ht]. split; try done. intros m Hp Hm _. by apply Ht. Qed.

Lemma waiting_None m c : waiting m c = false <-> zfind m (c_callbacks c) = None.
Proof. unfold waiting, IsInContinuationProgress. by destruct (zfind m (c_callbacks c)). Qed.
Lemma in_filter_ne i m l : In i (List.filter (fun x => negb (x =? m)) l) <-> In i l /\ i <> m.
Proof. rewrite filter_In. destruct (Z.eqb_spec i m); cbn; intuition congruence. Qed.

Lemma held_waiting p c : held p c = true -> waiting (fst p) c = true.
Proof. unfold held, waiting, IsInContinuationProgress. by destruct (zfind (fst p) (c_callbacks c)). Qed.
(** A callback is popped and its timer removed. *)
Lemma pop_held m c p : cont_ok (Some m) c -> held p (RemoveTimeOut m (snd (PopCallback m c))) = held p c && negb (fst p =? m).
Proof.
  intros H. unfold RemoveTimeOut, PopCallback. destruct (zfind m (c_callbacks c)) as [cb|] eqn:E; cbn [snd].
  - cbn [c_handler c_set_missions]. rewrite (co_handler _ _ H). unfold held. cbn. rewrite zfind_zerase by exact (co_callbacks _ _ H). by destruct (fst p =? m); rewrite ?andb_false_r, ?andb_true_r.
  - rewrite (co_handler _ _ H). change (held p (RemoveEvent m c)) with (held p c). destruct (Z.eqb_spec (fst p) m) as [Ep|]; [|by rewrite andb_true_r]. unfold held. by rewrite Ep, E.
Qed.
Lemma pop_ok m c : cont_ok (Some m) c -> waiting m c = true -> cont_ok None (RemoveTimeOut m (snd (PopCallback m c))) /\
  forall i, waiting i (RemoveTimeOut m (snd (PopCallback m c))) = waiting i c && negb (i =? m).
Proof.
  intros [Hh Hc Hd Hf Hcd Hi Ht] Hw. unfold PopCallback. destruct (zfind m (c_callbacks c)) as [cb|] eqn:E; [|apply waiting_None in E; congruence].
  cbn [snd]. unfold RemoveTimeOut. cbn [c_handler c_set_missions]. rewrite Hh. set (c' := RemoveEvent _ _).
  assert (W : forall i, waiting i c' = waiting i c && negb (i =? m)).
  { intros i. unfold waiting, IsInContinuationProgress. cbn. rewrite zfind_zerase by done. destruct (i =? m); [by rewrite andb_false_r|by rewrite andb_true_r]. }
  split; [|exact W]. split; [done|by apply zerase_sorted..| | |].
  - intros i. rewrite W. cbn. rewrite zfind_zerase by done. destruct (i =? m); [rewrite andb_false_r; done|rewrite andb_true_r; apply Hcd].
  - intros i. rewrite W. cbn. rewrite zfind_zerase by done. destruct (i =? m); [done|rewrite andb_true_r; apply Hi].
  - intros i. rewrite W. cbn. intros Hp H _. apply andb_prop in H as [H1 H2]. apply in_filter_ne. destruct (Z.eqb_spec i m); [discriminate|]. split; [|done]. apply Ht; [done|done|congruence].
Qed.
(** A callback is pushed and its timer set. *)
Lemma push_ok m cb d fi c c1 : cont_ok None c -> PushCallback m cb d fi c = (true, c1) ->
  cont_ok None (SetTimeOut true m c1) /\ forall i, waiting i (SetTimeOut true m c1) = waiting i c || (i =? m).
Proof.
  intros [Hh Hc Hd Hf Hcd Hi Ht] H. unfold PushCallback in H. destruct cb as [cb|]; [|discriminate]. rewrite Hh in H. cbn [negb] in H.
  destruct (zfind m (c_callbacks c)) eqn:E; [discriminate|]. injection H as <-. unfold SetTimeOut. cbn [c_handler c_set_missions]. rewrite Hh. cbn [SendEvent].
  assert (Em : zfind m (continuationDevices_ c) = None) by (apply Hcd, waiting_None, E). set (c' := c_set_timers _ _).
  assert (W : forall i, waiting i c' = waiting i c || (i =? m)).
  { intros i. unfold waiting, IsInContinuationProgress. cbn. rewrite zfind_zset. destruct (i =? m); [by rewrite orb_true_r|by rewrite orb_false_r]. }
  assert (Ez : zemplace m d (continuationDevices_ c) = zset m d (continuationDevices_ c)) by (unfold zemplace; by rewrite Em).
  split; [|exact W]. split; [done|by apply zset_sorted|cbn; rewrite Ez; by apply zset_sorted|cbn; destruct fi; auto with dms| | |].
  - intros i. rewrite W. cbn. rewrite Ez, zfind_zset. destruct (i =? m); [rewrite orb_true_r; done|rewrite orb_false_r; apply Hcd].
  - intros i. rewrite W. cbn. intros H. apply orb_false_elim in H as [H1 H2]. specialize (Hi i H1). destruct fi; [by rewrite zfind_zset, H2|done].
  - intros i. rewrite W. cbn. intros Hp H _. apply in_app_iff. apply orb_prop in H as [H|H]; [left; by apply Ht|right; left; by apply Z.eqb_eq in H].
Qed.
Lemma push_held m cb d fi c b c1 p : PushCallback m cb d fi c = (b, c1) -> held p c = true -> held p (SetTimeOut true m c1) = true.
Proof.
  unfold PushCallback. intros H Hp. assert (Q : held p c1 = true); [|unfold SetTimeOut; by destruct (c_handler c1)].
  destruct cb as [cb|]; [|by injection H as _ <-]. destruct (negb _); [by injection H as _ <-|]. destruct (zfind m (c_callbacks c)) eqn:E; [by injection H as _ <-|]. injection H as _ <-.
  unfold held in *. cbn. rewrite zfind_zset. destruct (Z.eqb_spec (fst p) m) as [Ep|]; [|done]. by rewrite Ep, E in Hp.
Qed.
(** The tables of missions stay, timers are added. *)
Definition same_missions (c c' : Cont) : Prop :=
  c_handler c' = c_handler c /\ c_callbacks c' = c_callbacks c /\ continuationDevices_ c' = continuationDevices_ c /\ freeInstall_ c' = freeInstall_ c /\
  forall i, In i (c_timers c) -> In i (c_timers c').
#[local] Instance same_missions_preorder : PreOrder same_missions.
Proof. split; [by intros c|]. intros c1 c2 c3 (A1 & A2 & A3 & A4 & A5) (B1 & B2 & B3 & B4 & B5). split; [congruence|]. split; [congruence|]. split; [congruence|]. split; [congruence|auto]. Qed.
Lemma same_waiting c c' i : same_missions c c' -> waiting i c' = waiting i c.
Proof. intros (_ & E & _). unfold waiting, IsInContinuationProgress. by rewrite E. Qed.
Lemma same_held c c' p : same_missions c c' -> held p c' = held p c.
Proof. intros (_ & E & _). unfold held. by rewrite E. Qed.
Lemma same_ok x c c' : same_missions c c' -> cont_ok x c -> cont_ok x c'.
Proof.
  intros S [Hh Hc Hd Hf Hcd Hi Ht]. pose proof (fun i => same_waiting c c' i S) as W. destruct S as (S1 & S2 & S3 & S4 & S5). split; rewrite ?S1, ?S2, ?S3, ?S4; try done.
  - intros m. rewrite W. apply Hcd.
  - intros m. rewrite W. apply Hi.
  - intros m. rewrite W. auto.
Qed.

(** ** Answers to the mission centre *)

(** How often a callback was told the end of its mission. *)
Definition is_told (p : Z * Z) (x : LAsk) : bool := match x with LMissionCenter cb m _ => (m =? fst p) && (cb =? snd p) | _ => false end.
Definition told (p : Z * Z) (s : Lg) : Z := Z.of_nat (length (List.filter (is_told p) (lg_asked s))).
Lemma told_lask p x s : told p (lask x s) = told p s + b2z (is_told p x).
Proof. unfold told. cbn. rewrite List.filter_app, length_app. cbn. destruct (is_told p x); cbn; lia. Qed.

(** The state has started and its tables are in order. *)
Definition Ready (x : option Z) (s : Lg) : Prop := exists c, lg_cont s = Some c /\ cont_ok x c.
Definition awaited (m : Z) (s : Lg) : bool := match lg_cont s with Some c => waiting m c | None => false end.
Definition awaits (p : Z * Z) (s : Lg) : bool := match lg_cont s with Some c => held p c | None => false end.
(** A callback is told exactly when it is no longer held for its mission. *)
Definition fair (s s' : Lg) : Prop := Ready None s' /\ forall p, told p s' = told p s + b2z (awaits p s && negb (awaits p s')).
(** Nothing happens to the missions. *)
Definition quiet (s s' : Lg) : Prop :=
  (forall c, lg_cont s = Some c -> exists c', lg_cont s' = Some c' /\ same_missions c c') /\ forall p, told p s' = told p s.
#[local] Instance quiet_preorder : PreOrder quiet.
Proof.
  split; [intros s; split; [intros c E; by exists c|done]|]. intros s1 s2 s3 [A1 A2] [B1 B2]. split; [|intros m; by rewrite B2].
  intros c E. destruct (A1 c E) as (c2 & E2 & S2). destruct (B1 c2 E2) as (c3 & E3 & S3). exists c3. split; [done|]. by etrans.
Qed.
Lemma quiet_awaits p s s' x : Ready x s -> quiet s s' -> awaits p s' = awaits p s.
Proof. intros (c & E & _) [Q _]. destruct (Q c E) as (c' & E' & S). unfold awaits. rewrite E, E'. by apply same_held. Qed.
Lemma quiet_Ready x s s' : Ready x s -> quiet s s' -> Ready x s'.
Proof. intros (c & E & H) [Q _]. destruct (Q c E) as (c' & E' & S). exists c'. split; [done|]. by eapply same_ok. Qed.
Lemma quiet_fair s s' : Ready None s -> quiet s s' -> fair s s'.
Proof. intros R Q. split; [by eapply quiet_Ready|]. intros m. rewrite (quiet_awaits m s s' None) by done. rewrite andb_negb_r. destruct Q as [_ Q]. rewrite Q. cbn. lia. Qed.
Lemma fair_quiet s s1 s2 : fair s s1 -> quiet s1 s2 -> fair s s2.
Proof.
  intros [R F] Q. split; [by eapply quiet_Ready|]. intros m. rewrite (quiet_awaits m s1 s2 None) by done. destruct Q as [_ Q]. by rewrite Q.
Qed.
Lemma quiet_then_fair x s s1 s2 : Ready x s -> quiet s s1 -> fair s1 s2 -> fair s s2.
Proof. intros R Q [R2 F]. split; [done|]. intros m. rewrite F, (quiet_awaits m s s1 x) by done. destruct Q as [_ Q]. by rewrite Q. Qed.

Lemma quiet_lask x s : (forall m, is_told m x = false) -> quiet s (lask x s).
Proof. intros H. split; [intros c E; by exists c|]. intros m. rewrite told_lask, H. cbn. lia. Qed.
Lemma quiet_on_cont f s : (forall c, same_missions c (f c)) -> quiet s (on_cont f s).
Proof.
  intros H. unfold on_cont. destruct (lg_cont s) as [c|] eqn:E; [|split; [intros c E'; exists c; split; done|done]].
  split; [|done]. intros c' E'. exists (f c). split; [done|]. replace c' with c by congruence. apply H.
Qed.
Lemma quiet_set_cont c c' s : lg_cont s = Some c -> same_missions c c' -> quiet s (set_cont c' s).
Proof. intros E H. split; [|done]. intros c0 E0. exists c'. split; [done|]. by replace c0 with c by congruence. Qed.
Lemma quiet_cont_eq s s' : lg_cont s' = lg_cont s -> lg_asked s' = lg_asked s -> quiet s s'.
Proof. intros E A. split; [intros c H; exists c; by rewrite E|]. intros m. unfold told. by rewrite A. Qed.
Lemma same_set_event e c : same_missions c (c_set_event e c).
Proof. done. Qed.
Lemma same_set_info a b c : same_missions c (c_set_info a b c).
Proof. done. Qed.
Lemma same_listeners l c : same_missions c (c_set_listeners l c).
Proof. done. Qed.
Lemma same_timeout b m c : same_missions c (SetTimeOut b m c).
Proof. unfold SetTimeOut, SendEvent. destruct (c_handler c), b; try done. repeat split. intros i Hi. cbn. apply in_app_iff. by left. Qed.
Lemma same_clean m b c : same_missions c (c_SetCleanMissionFlag m b c).
Proof. done. Qed.

Lemma tell_all_quiet a msg l s : (forall x m, is_told m (msg x) = false) -> quiet s (snd (tell_all a msg l s)).
Proof.
  intros H. revert s. induction l as [|x l IH]; intros s; [done|]. cbn [tell_all]. specialize (IH (lask (msg x) s)). destruct (tell_all a msg l _) as [ok s']. cbn [snd] in *.
  etrans; [|exact IH]. by apply quiet_lask.
Qed.
Lemma tell_listeners_quiet a msg l s : (forall x m, is_told m (msg x) = false) -> quiet s (snd (tell_listeners a msg l s)).
Proof.
  intros H. unfold tell_listeners. destruct l as [|x l]; [done|]. pose proof (tell_all_quiet a msg (x :: l) s H) as Q. by destruct (tell_all _ _ _ _).
Qed.
Lemma event_quiet a r s : quiet s (snd (NotifyDSchedEventResult a r s)).
Proof. unfold NotifyDSchedEventResult. destruct (lg_cont s); [|done]. by apply tell_listeners_quiet. Qed.
Lemma collab_event_quiet a e s : quiet s (snd (collab_NotifyDSchedEventResult a e s)).
Proof. unfold collab_NotifyDSchedEventResult. destruct (lg_collab s); [|done]. by apply tell_listeners_quiet. Qed.
Lemma event_callback_quiet a r e s : quiet s (NotifyDSchedEventCallbackResult a r e s).
Proof.
  unfold NotifyDSchedEventCallbackResult. destruct (_ =? _); [|destruct (_ =? _); [apply collab_event_quiet|done]].
  unfold NotifyContinuateEventResult. destruct (lg_cont s) as [c|] eqn:E; [|done]. cbn zeta. etrans; [exact (quiet_set_cont c (c_set_event e c) s E (same_set_event e c))|].
  etrans; [apply (event_quiet a r)|]. destruct (_ || _); [|done]. by apply quiet_on_cont.
Qed.
Lemma PushListener_quiet a cb s : quiet s (snd (PushListener a cb s)).
Proof.
  unfold PushListener. destruct (lg_cont s) as [c|] eqn:E; [|done]. destruct cb as [cb|]; [|done]. destruct (negb _); [done|]. destruct (existsb _ _); [done|]. cbn [snd].
  etrans; [exact (quiet_set_cont c _ s E (same_listeners (continuationCallbackArr_ c ++ [cb]) c))|]. etrans; [|by apply quiet_lask]. by apply quiet_cont_eq.
Qed.
Lemma collab_Push_quiet a cb s : quiet s (snd (collab_PushCallback a cb s)).
Proof.
  unfold collab_PushCallback. destruct (lg_collab s) as [l|]; [|done]. destruct cb as [cb|]; [|done]. destruct (existsb _ _); [done|]. cbn zeta. cbn [snd].
  etrans; [apply (quiet_cont_eq s (add_watch cb (set_collab (l ++ [cb]) s))); done|]. generalize (add_watch cb (set_collab (l ++ [cb]) s)).
  generalize (match lg_cont s with Some c => snd (GetDSchedEventInfo a DMS_COLLABORATION c) | None => [] end). intros ev.
  induction ev as [|e ev IH]; intros s1; [done|]. cbn [foldl]. etrans; [|apply IH]. by apply quiet_lask.
Qed.
Lemma Cleanup_quiet cb s : quiet s (snd (CleanupCallback cb s)).
Proof. unfold CleanupCallback. destruct (lg_cont s) as [c|] eqn:E; [|done]. destruct (existsb _ _); [|done]. by apply (quiet_set_cont c _ s E). Qed.
Lemma collab_Cleanup_quiet cb s : quiet s (snd (collab_CleanupCallback cb s)).
Proof. unfold collab_CleanupCallback. destruct (lg_collab s); [|done]. destruct (existsb _ _); [|done]. by apply quiet_cont_eq. Qed.
Lemma and_then_quiet f g s : (forall s, quiet s (snd (f s))) -> (forall s, quiet s (snd (g s))) -> quiet s (snd (and_then f g s)).
Proof. intros F G. unfold and_then. specialize (F s). destruct (f s) as [[] s1]; [|done]. etrans; [exact F|apply G]. Qed.
Lemma Register_quiet a t cb s : quiet s (snd (RegisterDSchedEventListener a t cb s)).
Proof.
  unfold RegisterDSchedEventListener. destruct (lg_cont s) eqn:E; [|done]. destruct (lg_collab s); [|done]. cbn zeta.
  assert (H : forall f : Lg -> bool * Lg, (forall s, quiet s (snd (f s))) -> quiet s (snd (let '(ret, s) := f s in (if ret : bool then ERR_OK else CALLBACK_HAS_NOT_REGISTERED, s)))).
  { intros f F. specialize (F s). by destruct (f s). }
  repeat (destruct (_ =? _)); try done; apply H; [apply PushListener_quiet|apply collab_Push_quiet|]. intros s1. apply and_then_quiet; [apply PushListener_quiet|apply collab_Push_quiet].
Qed.
Lemma UnRegister_quiet t cb s : quiet s (snd (UnRegisterDSchedEventListener t cb s)).
Proof.
  unfold UnRegisterDSchedEventListener. destruct (lg_cont s) eqn:E; [|done]. destruct (lg_collab s); [|done]. cbn [snd].
  destruct (_ =? _); [apply Cleanup_quiet|]. destruct (_ =? _); [apply collab_Cleanup_quiet|]. destruct (_ =? _); [|done]. apply and_then_quiet; [apply Cleanup_quiet|apply collab_Cleanup_quiet].
Qed.
Lemma died_quiet cb s : quiet s (listener_died cb s).
Proof.
  unfold listener_died. cbn zeta. etrans; [apply (quiet_cont_eq s (mkLg (lg_cont s) (lg_task s) (lg_collab s) (List.filter (fun x => negb (cb =? x)) (lg_watches s)) (lg_asked s))); done|].
  generalize (mkLg (lg_cont s) (lg_task s) (lg_collab s) (List.filter (fun x => negb (cb =? x)) (lg_watches s)) (lg_asked s)). generalize (List.filter (Z.eqb cb) (lg_watches s)).
  intros l. induction l as [|x l IH]; intros s1; [done|]. cbn [foldl]. etrans; [apply (UnRegister_quiet DMS_ALL x)|apply IH].
Qed.

(** ** An answer *)

Lemma Notify_fair a m r s : Ready (Some m) s -> fair s (NotifyContinuationCallbackResult a m r s).
Proof.
  intros (c & E & H). unfold NotifyContinuationCallbackResult. rewrite E. fold (waiting m c). destruct (waiting m c) eqn:W.
  - destruct (pop_ok m c H W) as [H1 _]. pose proof (fun p => pop_held m c p H) as W1. unfold NotifyMissionCenterResult. unfold waiting, IsInContinuationProgress in W.
    destruct (PopCallback m c) as [cb c1] eqn:P. cbn [snd] in H1, W1. assert (exists b, cb = Some b /\ zfind m (c_callbacks c) = Some b) as (b & -> & Eb).
    { unfold PopCallback in P. destruct (zfind m (c_callbacks c)) as [b|]; [|done]. exists b. by injection P as <- _. }
    cbn [snd]. set (s0 := if _ && _ then lask (LCleanMission m) s else s). assert (T0 : forall p, told p s0 = told p s) by (intros p; unfold s0; destruct (_ && _); [rewrite told_lask; cbn; lia|done]).
    split; [by exists (RemoveTimeOut m c1)|]. intros p. rewrite told_lask. unfold awaits. cbn [lg_cont lask set_cont]. rewrite E, W1.
    replace (told p (set_cont (RemoveTimeOut m c1) s0)) with (told p s) by (rewrite <- T0; done). f_equal. cbn [is_told]. rewrite (Z.eqb_sym m (fst p)).
    destruct (Z.eqb_spec (fst p) m) as [Ep|]; [|by rewrite andb_true_r, andb_negb_r]. unfold held. rewrite Ep, Eb. by destruct (b =? snd p).
  - set (s1 := lask _ s). assert (E1 : lg_cont s1 = Some c) by exact E. unfold on_cont. rewrite E1. destruct H as [Hh Hc Hd Hf Hcd Hi Ht].
    assert (K : cont_ok None (RemoveTimeOut m c) /\ forall p, held p (RemoveTimeOut m c) = held p c).
    { unfold RemoveTimeOut. rewrite Hh. split; [|done]. split; try done. intros i Hp Hw _. cbn. apply in_filter_ne. assert (i <> m) by (intros ->; change (waiting m c = true) in Hw; congruence).
      split; [|done]. apply Ht; [done|exact Hw|congruence]. }
    destruct K as [K1 K2]. split; [by exists (RemoveTimeOut m c)|]. intros p. replace (told p (set_cont (RemoveTimeOut m c) s1)) with (told p s1) by done. unfold s1. rewrite told_lask.
    unfold awaits. cbn [lg_cont set_cont]. rewrite E, K2, andb_negb_r. done.
Qed.

(** ** A request *)

Lemma pop_remove_comm m c : RemoveTimeOut m (snd (PopCallback m c)) = snd (PopCallback m (RemoveTimeOut m c)).
Proof. unfold RemoveTimeOut, PopCallback, RemoveEvent. destruct c as [h ? ? ? ? cb ? ? ? ? ? ?]. destruct h; cbn; by destruct (zfind m cb). Qed.
Lemma pushed_fair s c c' :
  lg_cont s = Some c -> cont_ok None c' -> (forall p, held p c = true -> held p c' = true) -> fair s (set_cont c' s).
Proof.
  intros E H W. split; [by exists c'|]. intros p. unfold awaits. cbn [lg_cont set_cont]. rewrite E. replace (told p (set_cont c' s)) with (told p s) by done.
  specialize (W p). destruct (held p c); [rewrite (W eq_refl)|]; cbn; lia.
Qed.
Lemma ContinueAbility_fair a d m cb v s : l_SendEvent a = true -> Ready None s -> fair s (snd (ContinueAbilityWithTimeout a d m cb v s)).
Proof.
  intros Hs (c & E & H). unfold ContinueAbilityWithTimeout. rewrite E. destruct (PushCallback m cb d false c) as [[] c1] eqn:P; cbn [negb snd].
  - eapply fair_quiet; [|by apply quiet_lask]. unfold SetContinuationTimeout. cbn [on_cont lg_cont set_cont]. rewrite Hs. destruct (push_ok _ _ _ _ _ _ H P) as [K1 _].
    change (fair s (set_cont (SetTimeOut true m c1) s)). apply (pushed_fair s c); [done|done|]. intros p. by eapply push_held.
  - apply quiet_fair; [by exists c|done].
Qed.
Lemma FreeInstall_fair a w m d cb s : l_SendEvent a = true -> Ready None s -> awaited m s = false -> fair s (snd (ContinueLocalMissionDealFreeInstall a w m d cb s)).
Proof.
  intros Hs (c & E & H) W. unfold ContinueLocalMissionDealFreeInstall. destruct (negb (GetBoolParam _ _ _)); [apply quiet_fair; [by exists c|done]|]. rewrite E. cbn zeta.
  unfold awaited in W. rewrite E in W. set (c1 := SetTimeOut true m (snd (PushCallback m cb d true c))).
  assert (Hw : forall p, held p c = true -> fst p <> m) by (intros p Hp Ep; apply held_waiting in Hp; rewrite Ep in Hp; congruence).
  assert (K : cont_ok None c1 /\ forall p, held p c = true -> held p c1 = true).
  { unfold c1. destruct (PushCallback m cb d true c) as [b c2] eqn:P; cbn [snd]. split; [|intros p; by eapply push_held]. destruct b; [by apply (push_ok _ _ _ _ _ _ H P)|].
    assert (c2 = c) as ->. { unfold PushCallback in P. destruct cb; [|congruence]. destruct (negb _); [congruence|]. destruct (zfind _ _); congruence. }
    by apply (same_ok None c _ (same_timeout true m c)). }
  destruct K as [K1 K2]. unfold SetContinuationTimeout. cbn [on_cont lg_cont set_cont]. rewrite Hs. fold c1. destruct (l_CheckIfRemoteCanInstall a); cbn [negb snd].
  - eapply fair_quiet; [|by apply quiet_lask]. by apply (pushed_fair s c).
  - unfold RemoveContinuationTimeout. cbn [on_cont lg_cont set_cont lask]. rewrite <- pop_remove_comm.
    assert (L : cont_ok None (RemoveTimeOut m (snd (PopCallback m c1)))).
    { destruct (waiting m c1) eqn:W1; [by apply (pop_ok m c1 (cont_ok_weaken _ _ K1) W1)|].
      assert (Ep : PopCallback m c1 = (None, c1)) by (unfold PopCallback; apply waiting_None in W1; by rewrite W1). rewrite Ep. cbn [snd].
      assert (Hh := co_handler _ _ K1). unfold RemoveTimeOut. rewrite Hh. destruct K1 as [? ? ? ? ? ? Ht]. split; try done. intros i Hp Hi _. cbn. apply in_filter_ne.
      assert (i <> m) by (intros ->; change (waiting m c1 = true) in Hi; congruence). split; [|done]. by apply Ht. }
    eapply (fair_quiet _ (set_cont (RemoveTimeOut m (snd (PopCallback m c1))) s)).
    + apply (pushed_fair s c); [done|done|]. intros p Hp. rewrite pop_held by by apply cont_ok_weaken. rewrite K2 by done. specialize (Hw p Hp). by destruct (Z.eqb_spec (fst p) m).
    + split; [intros c' [= <-]; eexists; split; [done|done]|]. intros i. unfold told. cbn. rewrite List.filter_app. cbn. by rewrite app_nil_r.
Qed.
Lemma LocalMission_fair a d m cb p s : l_SendEvent a = true -> Ready None s -> fair s (snd (ContinueLocalMission a d m cb p s)).
Proof.
  intros Hs R. assert (Q : fair s s) by (apply quiet_fair; done). unfold ContinueLocalMission. destruct (negb _); [done|]. destruct (lg_cont s) as [c|] eqn:E; [|done].
  destruct (IsInContinuationProgress m c) eqn:W; [done|]. destruct (l_RemoteVersionLower a d); [by apply ContinueAbility_fair|].
  destruct (l_GetMissionInfo a m) as [r [w act]]. destruct (negb _); [done|]. destruct (negb _); [done|]. destruct (negb _); [done|].
  destruct (l_CheckRemoteBundleInfo a d _) as [r' v]. destruct (_ =? _); [by apply ContinueAbility_fair|]. destruct (_ =? _); [done|].
  apply FreeInstall_fair; [done|done|]. unfold awaited. by rewrite E.
Qed.
Lemma Mission_fair a src d m cb p s : l_SendEvent a = true -> Ready None s -> fair s (snd (ContinueMission a src d m cb p s)).
Proof.
  intros Hs R. assert (Q : fair s s) by (apply quiet_fair; done). unfold ContinueMission. destruct cb as [cb|]; [|done]. destruct (l_GetLocalDeviceId a) as [ld|]; [|done].
  destruct (_ || _); [done|]. destruct (String.eqb src ld); [destruct (negb _); [done|by apply LocalMission_fair]|]. destruct (String.eqb d ld); [|done].
  destruct (negb _); [done|]. unfold ContinueRemoteMission. destruct (negb _); [done|]. destruct (negb _); [done|]. cbn zeta. destruct (negb _); [done|].
  apply quiet_fair; [done|]. by apply quiet_lask.
Qed.
Lemma Bundle_fair a src d b cb p s : l_SendEvent a = true -> Ready None s -> fair s (snd (ContinueMission_bundle a src d b cb p s)).
Proof.
  intros Hs R. assert (Q : fair s s) by (apply quiet_fair; done). unfold ContinueMission_bundle. destruct cb as [cb|]; [|done]. destruct (l_GetLocalDeviceId a) as [ld|]; [|done].
  destruct (_ || _); [done|]. destruct (String.eqb src ld); [|destruct (String.eqb d ld); [|done]].
  - unfold ProcessContinueLocalMission. destruct (negb _); [done|]. destruct (negb _); [done|]. destruct (l_GetMissionIdByBundleName a b) as [r m]. destruct (negb _); [done|].
    destruct (lg_cont s) as [c|] eqn:E; [|done]. pose proof (quiet_set_cont c (c_set_event (event_devices src d (continueEvent_ c)) c) s E (same_set_event _ _)) as Q1.
    eapply quiet_then_fair; [exact R|exact Q1|]. apply LocalMission_fair; [done|]. by eapply quiet_Ready.
  - unfold ProcessContinueRemoteMission. destruct (negb _); [done|]. destruct (lg_cont s) as [c|] eqn:E; [|done].
    pose proof (quiet_set_cont c (c_set_event (event_devices d src (continueEvent_ c)) c) s E (same_set_event _ _)) as Q1. apply quiet_fair; [done|]. etrans; [exact Q1|].
    unfold ContinueRemoteMission_bundle. destruct (negb _); [cbn; apply (event_quiet a INVALID_REMOTE_PARAMETERS_ERR)|]. cbn zeta. destruct (_ =? _); [by apply quiet_lask|].
    cbn [lg_cont lask set_cont]. etrans; [|apply (event_quiet a)]. by apply quiet_lask.
Qed.
Lemma Query_fair a r m v s : l_SendEvent a = true -> Ready None s -> fair s (snd (OnQueryInstallationFinished a r m v s)).
Proof.
  intros Hs R. unfold OnQueryInstallationFinished. destruct (negb _); [cbn; apply Notify_fair; destruct R as (c & E & H); exists c; split; [done|by apply cont_ok_weaken]|].
  cbn zeta. cbn [snd]. eapply fair_quiet; [|by apply quiet_lask]. destruct R as (c & E & H). unfold SetContinuationTimeout, RemoveContinuationTimeout, on_cont. rewrite E. cbn [lg_cont set_cont]. rewrite Hs.
  change (fair s (set_cont (SetTimeOut true m (RemoveTimeOut m c)) s)). assert (Hh := co_handler _ _ H). apply (pushed_fair s c); [done| |].
  - unfold RemoveTimeOut. rewrite Hh. unfold SetTimeOut. cbn [c_handler RemoveEvent c_set_timers]. rewrite Hh. cbn [SendEvent]. destruct H as [? ? ? ? ? ? Ht]. split; try done.
    intros i Hp Hi _. cbn. apply in_app_iff. destruct (Z.eq_dec i m) as [->|]; [right; by left|left]. apply in_filter_ne. split; [by apply Ht|done].
  - intros i Hi. unfold RemoveTimeOut. rewrite Hh. unfold SetTimeOut. cbn [c_handler RemoveEvent c_set_timers]. by rewrite Hh.
Qed.

(** ** Free installs and results *)

Lemma quiet_task t s : quiet s (set_task t s).
Proof. by apply quiet_cont_eq. Qed.
Lemma FreeResult_quiet a i r s : quiet s (snd (NotifyFreeInstallResult a i r s)).
Proof. unfold NotifyFreeInstallResult. destruct (it_callback i); [|done]. by apply quiet_lask. Qed.
Lemma StartFree_quiet a w u r t cb s : quiet s (snd (StartRemoteFreeInstall a w u r t cb s)).
Proof.
  unfold StartRemoteFreeInstall. destruct (remote_target a w) as [ld|]; [|done]. destruct (lg_task s) as [k|]; [|done]. destruct (GenerateTaskId k) as [id k1].
  cbn zeta. destruct (t_PushCallback _ _ _ _ _ _ _) as [ret k2]. destruct (negb _); [apply quiet_task|]. match goal with |- context [set_task ?x s] => set (k3 := x) end.
  destruct (GetCallerInfo _ _ _ _ _) as [c|]; [|apply quiet_task]. destruct (negb _); [apply quiet_task|]. etrans; [apply (quiet_task k3)|]. destruct (_ =? _); [by apply quiet_lask|].
  destruct (t_PopCallback id k3) as [item k4]. cbn [snd]. etrans; [|apply (FreeResult_quiet a item)]. etrans; [|apply quiet_task]. by apply quiet_lask.
Qed.
Lemma StartRemote_quiet a w u r t s : quiet s (snd (StartRemoteAbility a w u r t s)).
Proof.
  unfold StartRemoteAbility. destruct (negb _); [done|]. destruct (remote_target a w); [|done]. destruct (GetCallerInfo _ _ _ _ _); [|done]. destruct (negb _); [done|]. by apply quiet_lask.
Qed.
Lemma StartAbility_quiet a w r s : quiet s (snd (StartAbility a w r s)).
Proof. unfold StartAbility. destruct (negb _); [done|]. destruct (negb _); [done|]. destruct (negb _); [done|]. by apply quiet_lask. Qed.
Lemma StartFrom_quiet a w r c s : quiet s (snd (StartAbilityFromRemote a w r c s)).
Proof. unfold StartAbilityFromRemote. destruct (negb _); [done|]. destruct (negb _); [done|]. apply StartAbility_quiet. Qed.
Lemma SendResult_quiet a w r c k s : quiet s (snd (SendResultFromRemote a w r c k s)).
Proof.
  unfold SendResultFromRemote. cbn zeta. destruct (negb _); [done|]. destruct (if _ && _ then _ else _) as [err w']. destruct (negb _); [done|]. destruct (negb _); [done|]. destruct (negb _); [done|]. by apply quiet_lask.
Qed.
Lemma HandleRemote_quiet a c t r s : quiet s (snd (HandleRemoteNotify a c t r s)).
Proof. unfold HandleRemoteNotify. destruct (negb _); [done|]. destruct (_ <=? _); [done|]. by apply quiet_lask. Qed.
Lemma FreeComplete_quiet a w r c t k s : quiet s (snd (NotifyCompleteFreeInstall a w r c t k s)).
Proof.
  unfold NotifyCompleteFreeInstall. destruct (_ <=? _); [done|]. destruct (negb _); [apply HandleRemote_quiet|]. assert (Q : quiet s (snd (StartLocalAbility a w r s))).
  { unfold StartLocalAbility. destruct (l_GetLocalDeviceId a); [|done]. destruct (negb _); [done|]. apply StartAbility_quiet. }
  destruct (StartLocalAbility a w r s) as [res s1]. etrans; [exact Q|apply HandleRemote_quiet].
Qed.
Lemma FreeFrom_quiet a w r c t s : quiet s (snd (StartFreeInstallFromRemote a w r c t s)).
Proof. unfold StartFreeInstallFromRemote. destruct (negb _); [done|]. destruct (negb _); [done|]. destruct (negb _); [done|]. by apply quiet_lask. Qed.
Lemma FreeDone_fair a t r s : Ready None s -> fair s (snd (NotifyCompleteFreeInstallFromRemote a t r s)).
Proof.
  intros R. assert (Q : fair s s) by (apply quiet_fair; done). unfold NotifyCompleteFreeInstallFromRemote. destruct (lg_task s) as [k|]; [|done]. destruct (lg_cont s) as [c0|] eqn:E0; [|done].
  cbn zeta. destruct (t_PopCallback t k) as [item k1]. pose proof (quiet_task k1 s) as Q1. destruct (GetLaunchType t k).
  - apply quiet_fair; [done|]. etrans; [exact Q1|apply FreeResult_quiet].
  - destruct (_ =? _); cbn [snd]; [apply quiet_fair; [done|]; etrans; [exact Q1|apply quiet_task]|].
    eapply fair_quiet; [|apply quiet_task]. eapply quiet_then_fair; [exact R|exact Q1|]. apply Notify_fair. destruct (quiet_Ready _ _ _ R Q1) as (c & E & H). exists c. split; [done|by apply cont_ok_weaken].
Qed.
Lemma offline_tasks_quiet a d m t s : quiet s (snd (offline_tasks a d m t s)).
Proof.
  revert t s. induction m as [|[k i] m IH]; intros t s; [done|]. cbn [offline_tasks]. destruct (String.eqb _ _); [|apply IH]. etrans; [apply (FreeResult_quiet a i DEVICE_OFFLINE_ERR)|apply IH].
Qed.
Lemma Offline_quiet a d s : quiet s (NotifyDeviceOffline a d s).
Proof.
  unfold NotifyDeviceOffline. destruct (lg_task s) as [t|]; [|done]. pose proof (offline_tasks_quiet a d (t_callbacks t) t s) as Q. destruct (offline_tasks _ _ _ _ _) as [t' s']. etrans; [exact Q|apply quiet_task].
Qed.
Lemma Ready_weaken x s : Ready None s -> Ready x s.
Proof. intros (c & E & H). exists c. split; [done|by apply cont_ok_weaken]. Qed.
Lemma Deal_quiet a w st s : quiet s (snd (DealDSchedEventResult a w st s)).
Proof. unfold DealDSchedEventResult. destruct (lg_cont s); [|done]. destruct (_ =? _); [done|]. destruct (negb _); [done|]. by apply quiet_lask. Qed.
Lemma Start_fair a w m u st t s : Ready None s -> fair s (snd (StartContinuation a w m u st t s)).
Proof.
  intros R. unfold StartContinuation. pose proof (Deal_quiet a w st s) as Q0. set (s0 := snd (DealDSchedEventResult a w st s)) in *. clearbody s0. pose proof (quiet_Ready _ _ _ R Q0) as R0.
  eapply quiet_then_fair; [exact R|exact Q0|]. clear Q0. assert (Q : fair s0 s0) by (apply quiet_fair; done). destruct (negb _); [cbn; by apply Notify_fair, Ready_weaken|]. destruct (negb _); [done|].
  destruct (lg_cont s0) as [c|] eqn:E; [|done]. cbn zeta. set (s1 := if IsInContinuationProgress m c then s0 else _).
  assert (Q1 : quiet s0 s1) by (unfold s1; destruct (IsInContinuationProgress m c); [done|apply (quiet_set_cont c); [done|apply same_timeout]]). clearbody s1.
  destruct (SetWantForContinuation a m w) as [r w']. apply quiet_fair; [done|]. etrans; [exact Q1|]. destruct (negb _); [done|]. etrans; [unfold SetCleanMissionFlag; apply (quiet_on_cont (c_SetCleanMissionFlag m (GetBoolParam SUPPORT_CONTINUE_SOURCE_EXIT_KEY true w))); intros; apply same_clean|].
  destruct (GetIsFreeInstall m s1); [apply StartFree_quiet|apply StartRemote_quiet].
Qed.
Lemma Complete_quiet a d i b s : quiet s (NotifyCompleteContinuation a d i b s).
Proof.
  unfold NotifyCompleteContinuation. destruct (_ <=? _); [done|]. destruct (negb _); [done|]. destruct (lg_cont s); [|done]. cbn zeta. etrans; [apply (event_quiet a ERR_OK)|].
  etrans; [|apply quiet_on_cont; intros; apply same_set_info]. by apply quiet_lask.
Qed.
Lemma Result_fair a i b s : Ready None s -> fair s (snd (NotifyContinuationResultFromRemote a i b s)).
Proof.
  intros R. unfold NotifyContinuationResultFromRemote. destruct (_ <=? _); [by apply quiet_fair|]. cbn [snd]. eapply fair_quiet; [by apply Notify_fair, Ready_weaken|].
  apply quiet_on_cont. intros. apply same_set_info.
Qed.

(** ** The service as a whole *)

Inductive LOp :=
  | QContinue (src dst : string) (missionId : Z) (callback : option Z) (params : list (string * Param))
  | QContinueBundle (src dst bundle : string) (callback : option Z) (params : list (string * Param))
  | QQueryFinished (resultCode missionId version : Z)
  | QStartContinuation (w : Want) (missionId callerUid status accessToken : Z)
  | QResult (sessionId : Z) (isSuccess : bool)
  | QComplete (device : string) (sessionId : Z) (isSuccess : bool)
  | QStartRemote (w : Want) (callerUid requestCode accessToken : Z)
  | QStartFrom (w : Want) (requestCode : Z) (c : CallerInfo)
  | QSendResult (w : Want) (requestCode : Z) (c : CallerInfo) (resultCode : Z)
  | QStartFree (w : Want) (callerUid requestCode accessToken : Z) (callback : option Z)
  | QFreeFrom (w : Want) (requestCode : Z) (c : CallerInfo) (taskId : Z)
  | QFreeComplete (w : Want) (requestCode : Z) (c : CallerInfo) (taskId resultCode : Z)
  | QFreeDone (taskId resultCode : Z)
  | QOffline (device : string)
  | QRegister (type : Z) (callback : option Z)
  | QUnRegister (type cb : Z)
  | QListenerDied (cb : Z)
  | QEvent (resultCode : Z) (e : EventNotify)
  | QEventFrom (resultCode : Z).
Definition lexec (a : LAnswers) (o : LOp) (s : Lg) : Lg :=
  match o with
  | QContinue src dst m cb p => snd (ContinueMission a src dst m cb p s)
  | QContinueBundle src dst b cb p => snd (ContinueMission_bundle a src dst b cb p s)
  | QQueryFinished r m v => snd (OnQueryInstallationFinished a r m v s)
  | QStartContinuation w m u st t => snd (StartContinuation a w m u st t s)
  | QResult i b => snd (NotifyContinuationResultFromRemote a i b s)
  | QComplete d i b => NotifyCompleteContinuation a d i b s
  | QStartRemote w u r t => snd (StartRemoteAbility a w u r t s)
  | QStartFrom w r c => snd (StartAbilityFromRemote a w r c s)
  | QSendResult w r c k => snd (SendResultFromRemote a w r c k s)
  | QStartFree w u r t cb => snd (StartRemoteFreeInstall a w u r t cb s)
  | QFreeFrom w r c t => snd (StartFreeInstallFromRemote a w r c t s)
  | QFreeComplete w r c t k => snd (NotifyCompleteFreeInstall a w r c t k s)
  | QFreeDone t r => snd (NotifyCompleteFreeInstallFromRemote a t r s)
  | QOffline d => NotifyDeviceOffline a d s
  | QRegister t cb => snd (RegisterDSchedEventListener a t cb s)
  | QUnRegister t cb => snd (UnRegisterDSchedEventListener t cb s)
  | QListenerDied cb => listener_died cb s
  | QEvent r e => NotifyDSchedEventCallbackResult a r e s
  | QEventFrom r => snd (NotifyDSchedEventResultFromRemote a r s)
  end.
(** A timer of the continuations is up: the event is taken off and processed. *)
Definition timer_up (a : LAnswers) (id : Z) (s : Lg) : Lg := cont_ProcessEvent a id (on_cont (fun c => c_set_timers (erase_first id (c_timers c)) c) s).
Definition task_timer_up (a : LAnswers) (id : Z) (s : Lg) : Lg :=
  task_ProcessEvent a id (match lg_task s with Some t => set_task (mkTask (t_handler t) (erase_first id (t_timers t)) (currTaskId_ t) (t_callbacks t) (continuationMissionMap_ t)) s | None => s end).

(** The missions with their callbacks that are held after a step and were not before it. *)
Definition newly (s s' : Lg) : list (Z * Z) :=
  match lg_cont s' with Some c' => List.filter (fun p => negb (awaits p s)) (c_callbacks c') | None => [] end.
Inductive old_step : Lg * list (Z * Z) -> Lg * list (Z * Z) -> Prop :=
  | old_op a o s given : l_SendEvent a = true -> old_step (s, given) (lexec a o s, given ++ newly s (lexec a o s))
  | old_timer a id s given c : l_SendEvent a = true -> lg_cont s = Some c -> In id (c_timers c) -> old_step (s, given) (timer_up a id s, given ++ newly s (timer_up a id s))
  | old_task_timer a id s given t : l_SendEvent a = true -> lg_task s = Some t -> In id (t_timers t) -> old_step (s, given) (task_timer_up a id s, given ++ newly s (task_timer_up a id s)).

Lemma lexec_fair a o s : l_SendEvent a = true -> Ready None s -> fair s (lexec a o s).
Proof.
  intros Hs R. destruct o; cbn [lexec].
  - by apply Mission_fair.
  - by apply Bundle_fair.
  - by apply Query_fair.
  - by apply Start_fair.
  - by apply Result_fair.
  - apply quiet_fair; [done|apply Complete_quiet].
  - apply quiet_fair; [done|apply StartRemote_quiet].
  - apply quiet_fair; [done|apply StartFrom_quiet].
  - apply quiet_fair; [done|apply SendResult_quiet].
  - apply quiet_fair; [done|apply StartFree_quiet].
  - apply quiet_fair; [done|apply FreeFrom_quiet].
  - apply quiet_fair; [done|apply FreeComplete_quiet].
  - by apply FreeDone_fair.
  - apply quiet_fair; [done|apply Offline_quiet].
  - apply quiet_fair; [done|apply Register_quiet].
  - apply quiet_fair; [done|apply UnRegister_quiet].
  - apply quiet_fair; [done|apply died_quiet].
  - apply quiet_fair; [done|apply event_callback_quiet].
  - apply quiet_fair; [done|apply event_quiet].
Qed.
Lemma In_erase_first i x l : i <> x -> In i l -> In i (erase_first x l).
Proof. intros Hn. induction l as [|y l IH]; cbn; [done|]. intros [E|H]; destruct (Z.eqb_spec y x) as [E'|]; cbn; [congruence|by left|done|auto]. Qed.
(** The state after a timer is taken off: the missions stand as before. *)
Lemma timer_off id s : Ready None s -> let s1 := on_cont (fun c => c_set_timers (erase_first id (c_timers c)) c) s in
  Ready (Some id) s1 /\ (id <= 0 -> Ready None s1) /\ (forall p, awaits p s1 = awaits p s) /\ forall p, told p s1 = told p s.
Proof.
  intros (c & E & H). cbn zeta. unfold on_cont. rewrite E. destruct H as [Hh Hc Hd Hf Hcd Hi Ht]. split; [|split; [|split]].
  - eexists. split; [done|]. split; try done. intros m Hp Hw Hx. cbn. apply In_erase_first; [congruence|]. by apply Ht.
  - intros Hid. eexists. split; [done|]. split; try done. intros m Hp Hw Hx. cbn. apply In_erase_first; [lia|]. by apply Ht.
  - intros p. unfold awaits. cbn [lg_cont set_cont]. by rewrite E.
  - done.
Qed.
Lemma timer_fair a id s : Ready None s -> fair s (timer_up a id s).
Proof.
  intros R. destruct (timer_off id s R) as (R1 & R2 & W & T). unfold timer_up, cont_ProcessEvent. set (s1 := on_cont _ s) in *. destruct (Z.leb_spec id 0).
  - split; [by apply R2|]. intros m. rewrite W, T, andb_negb_r. cbn. lia.
  - destruct (Notify_fair a id CONTINUE_ABILITY_TIMEOUT_ERR s1 R1) as [K1 K2]. split; [done|]. intros m. by rewrite K2, W, T.
Qed.
Lemma task_timer_fair a id s : Ready None s -> fair s (task_timer_up a id s).
Proof.
  intros R. unfold task_timer_up, task_ProcessEvent. set (s1 := match lg_task s with Some _ => _ | None => s end). assert (Q : quiet s s1) by (unfold s1; destruct (lg_task s); [apply quiet_task|done]).
  clearbody s1. destruct (_ <=? _); [by apply quiet_fair|]. eapply quiet_then_fair; [exact R|exact Q|]. apply FreeDone_fair. by eapply quiet_Ready.
Qed.

Definition occurs (p : Z * Z) (l : list (Z * Z)) : Z := Z.of_nat (count_occ prod_eq_dec l p).
Lemma occurs_app p l l' : occurs p (l ++ l') = occurs p l + occurs p l'.
Proof. unfold occurs. rewrite count_occ_app. lia. Qed.
Lemma sorted_NoDup l : StronglySorted Z.lt l -> List.NoDup l.
Proof.
  induction 1 as [|x l H IH Hall]; constructor; [|done]. intros Hin. rewrite Forall_forall in Hall. specialize (Hall x (proj2 (list_elem_of_In _ _) Hin)). lia.
Qed.
Lemma held_In p c x : cont_ok x c -> In p (c_callbacks c) <-> held p c = true.
Proof.
  intros H. destruct p as [m cb]. unfold held. cbn [fst snd]. split.
  - intros Hin. rewrite (zfind_In _ _ _ (co_callbacks _ _ H) Hin). apply Z.eqb_refl.
  - destruct (zfind m (c_callbacks c)) as [v|] eqn:F; [|discriminate]. intros Hv. apply Z.eqb_eq in Hv as ->. by apply zfind_In'.
Qed.
Lemma newly_occurs p s s' : Ready None s' -> occurs p (newly s s') = b2z (awaits p s' && negb (awaits p s)).
Proof.
  intros (c & E & H). unfold newly, occurs. rewrite E. assert (Hn : List.NoDup (c_callbacks c)) by apply (List.NoDup_map_inv fst), sorted_NoDup, (co_callbacks _ _ H).
  assert (Hin : In p (c_callbacks c) <-> awaits p s' = true) by (unfold awaits; rewrite E; by eapply held_In).
  assert (Hf := List.NoDup_filter (fun p => negb (awaits p s)) Hn). destruct (awaits p s' && negb (awaits p s)) eqn:B.
  - apply andb_prop in B as [B1 B2]. rewrite (proj1 (NoDup_count_occ' prod_eq_dec _) Hf p); [done|]. apply filter_In. split; [by apply Hin|done].
  - rewrite (proj1 (count_occ_not_In prod_eq_dec _ p)); [done|]. intros F. apply filter_In in F as [F1 F2]. apply Hin in F1. rewrite F1, F2 in B. discriminate.
Qed.
Definition balanced (x : Lg * list (Z * Z)) : Prop := Ready None (fst x) /\ forall p, occurs p (snd x) = told p (fst x) + b2z (awaits p (fst x)).
Lemma fair_balanced s s' given : fair s s' -> balanced (s, given) -> balanced (s', given ++ newly s s').
Proof.
  intros [R F] [_ B]. split; [done|]. intros p. cbn [fst snd] in *. rewrite occurs_app, B, F, (newly_occurs p s s' R). destruct (awaits p s), (awaits p s'); cbn; lia.
Qed.
Lemma old_start : balanced (DoStart Lg_new, []).
Proof.
  split; [|done]. exists (Cont_Init Cont_new). split; [done|]. split; try done; constructor.
Qed.
Lemma old_balanced x : rtc old_step (DoStart Lg_new, []) x -> balanced x.
Proof.
  revert x. apply rtc_ind_r; [exact old_start|]. intros x y _ H IH. destruct H; apply fair_balanced; try exact IH.
  - by apply lexec_fair, IH.
  - apply timer_fair, IH.
  - apply task_timer_fair, IH.
Qed.

(** C20: In every history of requests, results, installs, deaths, offline devices and
    timers, a callback was taken for a mission as often as this very callback was told
    the end of this mission, and once more while it is kept for it: each is answered
    exactly once, and no other is told. The device of a mission and the mark of a free
    install are kept exactly as long as its callback. *)
Theorem callbacks_answered_once s given :
  rtc old_step (DoStart Lg_new, []) (s, given) ->
  exists c, lg_cont s = Some c /\
  (forall m cb, occurs (m, cb) given = told (m, cb) s + b2z (held (m, cb) c)) /\
  (forall m, IsInContinuationProgress m c = false <-> zfind m (continuationDevices_ c) = None) /\
  (forall m, IsInContinuationProgress m c = false -> IsFreeInstall m c = false).
Proof.
  intros H. destruct (old_balanced _ H) as [(c & E & K) B]. cbn [fst snd] in *. exists c. split; [done|]. split; [|split].
  - intros m cb. rewrite B. unfold awaits. by rewrite E.
  - exact (co_device _ _ K).
  - intros m W. unfold IsFreeInstall. by rewrite (co_install _ _ K m W).
Qed.

(** A mission that is waited for has a timer; when it is up, and nothing else
    came before, the callback is told that the time is up, and the mission can be
    continued again. *)
Theorem timer_answers s given c m a :
  rtc old_step (DoStart Lg_new, []) (s, given) -> lg_cont s = Some c -> 0 < m -> IsInContinuationProgress m c = true ->
  In m (c_timers c) /\
  exists c' cb, lg_cont (timer_up a m s) = Some c' /\ zfind m (c_callbacks c) = Some cb /\ told (m, cb) (timer_up a m s) = told (m, cb) s + 1 /\ IsInContinuationProgress m c' = false /\ ~ In m (c_timers c') /\
    lg_asked (timer_up a m s) = lg_asked s ++ [LMissionCenter cb m CONTINUE_ABILITY_TIMEOUT_ERR].
Proof.
  intros H E Hm W. destruct (old_balanced _ H) as [(c0 & E0 & K) _]. cbn [fst] in E0. assert (c0 = c) as -> by congruence. split; [by apply (co_timer _ _ K)|].
  unfold IsInContinuationProgress in W. destruct (zfind m (c_callbacks c)) as [cb|] eqn:F; [|discriminate]. assert (Hh := co_handler _ _ K).
  unfold timer_up, cont_ProcessEvent, on_cont. rewrite E. destruct (Z.leb_spec m 0); [lia|]. unfold NotifyContinuationCallbackResult. cbn [lg_cont set_cont].
  unfold IsInContinuationProgress. cbn [c_callbacks c_set_timers]. rewrite F. change (CONTINUE_ABILITY_TIMEOUT_ERR =? ERR_OK) with false. cbn [andb].
  unfold NotifyMissionCenterResult, PopCallback. cbn [c_callbacks c_set_timers]. rewrite F. unfold RemoveTimeOut. cbn [c_handler c_set_missions c_set_timers]. rewrite Hh. cbn [snd].
  eexists _, cb. split; [done|]. split; [done|]. split; [|split; [|split; [|done]]].
  - rewrite told_lask. cbn [is_told fst snd]. by rewrite !Z.eqb_refl.
  - cbn. rewrite zfind_zerase by exact (co_callbacks _ _ K). by rewrite Z.eqb_refl.
  - cbn. intros Hin. apply in_filter_ne in Hin as [_ Hin]. done.
Qed.

(** ** A continuation between two devices *)

Lemma mission_taken a d m cb p s s1 :
  Ready None s -> l_ERR_INVALID_VALUE a <> ERR_OK -> ContinueLocalMission a d m (Some cb) p s = (ERR_OK, s1) ->
  exists c c1, lg_cont s = Some c /\ lg_cont s1 = Some c1 /\ zfind m (c_callbacks c1) = Some cb /\ cleanMission_ c1 = cleanMission_ c /\ c_handler c1 = true /\ zsorted (c_callbacks c1).
Proof.
  intros (c & E & H) Hv. assert (Hh := co_handler _ _ H). assert (Hs := co_callbacks _ _ H).
  assert (P : forall v, ContinueAbilityWithTimeout a d m (Some cb) v s = (ERR_OK, s1) -> exists c0 c1, lg_cont s = Some c0 /\ lg_cont s1 = Some c1 /\ zfind m (c_callbacks c1) = Some cb /\ cleanMission_ c1 = cleanMission_ c0 /\ c_handler c1 = true /\ zsorted (c_callbacks c1)).
  { intros v. unfold ContinueAbilityWithTimeout. rewrite E. unfold PushCallback. rewrite Hh. cbn [negb]. destruct (zfind m (c_callbacks c)) as [x|]; [discriminate|]. cbn [negb].
    intros H1. injection H1 as _ <-. unfold SetContinuationTimeout, on_cont. cbn [lg_cont set_cont lask]. exists c. eexists. split; [done|]. split; [done|].
    unfold SetTimeOut. cbn [c_handler c_set_missions]. rewrite Hh. unfold SendEvent. destruct (l_SendEvent a); cbn; rewrite zfind_zset, Z.eqb_refl; repeat split; try done; by apply zset_sorted. }
  unfold ContinueLocalMission. destruct (negb _); [discriminate|]. rewrite E. destruct (IsInContinuationProgress m c) eqn:W; [discriminate|]. destruct (l_RemoteVersionLower a d); [rewrite <- E; apply P|].
  destruct (l_GetMissionInfo a m) as [r [w act]]. destruct (negb _); [discriminate|]. destruct (negb _); [discriminate|]. destruct (negb _); [discriminate|].
  destruct (l_CheckRemoteBundleInfo a d _) as [r' v]. destruct (Z.eqb_spec r' ERR_OK); [rewrite <- E; apply P|]. destruct (_ =? _); [intros HH; injection HH as HH _; contradiction|].
  unfold ContinueLocalMissionDealFreeInstall. destruct (negb _); [discriminate|]. rewrite E. unfold PushCallback. rewrite Hh. cbn [negb]. apply waiting_None in W. rewrite W. cbn zeta. cbn [snd].
  destruct (negb (l_CheckIfRemoteCanInstall a)); [discriminate|]. intros H1. injection H1 as <-. unfold SetContinuationTimeout, on_cont. cbn [lg_cont set_cont lask]. exists c. eexists. split; [done|]. split; [done|].
  unfold SetTimeOut. cbn [c_handler c_set_missions]. rewrite Hh. unfold SendEvent. destruct (l_SendEvent a); cbn; rewrite zfind_zset, Z.eqb_refl; repeat split; try done; by apply zset_sorted.
Qed.
Lemma want_for_continuation a m w w' :
  SetWantForContinuation a m w = (ERR_OK, w') ->
  exists ld, l_GetLocalDeviceId a = Some ld /\ GetIntParam "sessionId" (-1) w' = m /\ GetStringParam "deviceId" w' = ld /\ el_device (w_element w') = el_device (w_element w) /\
    el_bundle (w_element w') = el_bundle (w_element w) /\ el_ability (w_element w') = el_ability (w_element w).
Proof.
  unfold SetWantForContinuation. destruct (l_GetLocalDeviceId a) as [ld|]; [|discriminate]. cbn [w_element SetParam]. destruct (l_LocalVersion a _) as [r v]. destruct (negb _); [discriminate|].
  intros H. exists ld. split; [done|]. destruct (_ && _ && _); injection H as <-; unfold GetIntParam, GetStringParam; cbn [w_params w_element SetElement SetParam el_device el_bundle el_ability]; rewrite !mfind_mset; done.
Qed.
(** What is left of a start when the mission is not installed on demand. *)
Lemma start_sent a w m uid tok s s2 c :
  lg_cont s = Some c -> IsInContinuationProgress m c = true -> IsFreeInstall m c = false -> StartContinuation a w m uid ERR_OK tok s = (ERR_OK, s2) ->
  exists w' ld ci, SetWantForContinuation a m w = (ERR_OK, w') /\ remote_target a w' = Some ld /\ caller_sourceDeviceId ci = ld /\
    lg_asked s2 = lg_asked s ++ [LStartRemote (el_device (w_element w')) (SetParam DMS_SRC_NETWORK_ID (PString ld) w') DEFAULT_REQUEST_CODE ci] /\
    lg_cont s2 = Some (c_SetCleanMissionFlag m (GetBoolParam SUPPORT_CONTINUE_SOURCE_EXIT_KEY true w) c).
Proof.
  intros E W Hf. unfold StartContinuation, DealDSchedEventResult. rewrite E. cbn [Z.eqb ERR_OK snd negb]. destruct (negb (is_continuation a w)); [discriminate|]. rewrite E, W.
  destruct (SetWantForContinuation a m w) as [r w'] eqn:Ew. destruct (Z.eqb_spec r ERR_OK) as [->|Hr]; cbn [negb]; [|intros [= ? ?]; congruence].
  unfold GetIsFreeInstall. rewrite E, Hf. unfold SetCleanMissionFlag, on_cont. rewrite E. unfold StartRemoteAbility. destruct (negb _); [discriminate|].
  destruct (remote_target a w') as [ld|] eqn:Et; [|discriminate]. unfold GetCallerInfo. destruct (l_GetCallerAppId a uid) as [app|]; [|discriminate]. destruct (l_GetBundleNameList a uid) as [names|]; [|discriminate].
  destruct (Z.eqb_spec (l_GetAccountInfo a) ERR_OK) as [|Hn]; cbn [negb]; [|intros [= ? ?]; congruence]. intros H. injection H as _ <-. exists w', ld, (mkCallerInfo uid (-1) CALLER_TYPE_NONE ld (-1) app names (-1) tok version_info).
  split; [done|]. split; [exact Et|]. split; [done|]. split; reflexivity.
Qed.

(** C39: Two devices, and an ability that is installed on both. The mission centre of
    the first asks for a mission to be continued and its callback is taken; the ability
    saves its data and the continuation starts; the ability manager of the second starts
    the ability with the same want, which names the mission and the first device; when
    the second device tells the first by these how it went, this callback is told
    the success or the failure, and the mission can be continued again. The mission is
    cleaned up if and only if it went well and the mark of the mission says so: the mark is the
    wish of the application, unless an earlier continuation of the mission that never
    had a callback left one. *)
Theorem continuation_completes a a2 a3 b d m cb p w uid tok s s1 s2 t ok :
  Ready None s -> l_ERR_INVALID_VALUE a <> ERR_OK -> 0 < m ->
  ContinueLocalMission a d m (Some cb) p s = (ERR_OK, s1) -> GetIsFreeInstall m s1 = false ->
  StartContinuation a2 w m uid ERR_OK tok s1 = (ERR_OK, s2) ->
  exists c w' ld ci, lg_cont s = Some c /\ l_GetLocalDeviceId a2 = Some ld /\
    lg_asked s2 = lg_asked s1 ++ [LStartRemote (el_device (w_element w)) w' DEFAULT_REQUEST_CODE ci] /\
    GetIntParam "sessionId" (-1) w' = m /\ GetStringParam "deviceId" w' = ld /\
    (fst (StartAbilityFromRemote b w' DEFAULT_REQUEST_CODE ci t) = ERR_OK -> exists f, lg_asked (snd (StartAbilityFromRemote b w' DEFAULT_REQUEST_CODE ci t)) = lg_asked t ++ [LStartAbility w' DEFAULT_REQUEST_CODE f]) /\
    let s3 := snd (NotifyContinuationResultFromRemote a3 m ok s2) in
    let mark := default (GetBoolParam SUPPORT_CONTINUE_SOURCE_EXIT_KEY true w) (zfind m (cleanMission_ c)) in
    lg_asked s3 = lg_asked s2 ++ (if ok && mark then [LCleanMission m] else []) ++ [LMissionCenter cb m (if ok then ERR_OK else NOTIFYCOMPLETECONTINUATION_FAILED)] /\ awaited m s3 = false.
Proof.
  intros R Hv Hm Hc Hf Hst. destruct (mission_taken _ _ _ _ _ _ _ R Hv Hc) as (c & c1 & E & E1 & Fc & Ecl & Hh & Hs).
  unfold GetIsFreeInstall in Hf. rewrite E1 in Hf. assert (W1 : IsInContinuationProgress m c1 = true) by (unfold IsInContinuationProgress; by rewrite Fc).
  destruct (start_sent _ _ _ _ _ _ _ _ E1 W1 Hf Hst) as (w0 & ld & ci & Ew & Et & Eci & Ea & E2). destruct (want_for_continuation _ _ _ _ Ew) as (ld' & El & P1 & P2 & P3 & _).
  assert (ld = ld') as <-. { unfold remote_target in Et. rewrite El in Et. destruct (_ && _); congruence. }
  exists c, (SetParam DMS_SRC_NETWORK_ID (PString ld) w0), ld, ci. split; [done|]. split; [done|]. rewrite <- P3. split; [done|]. unfold GetIntParam, GetStringParam in *. cbn [w_params SetParam]. rewrite !mfind_mset.
  split; [exact P1|]. split; [exact P2|]. split.
  - unfold StartAbilityFromRemote. destruct (negb _); [discriminate|]. destruct (Z.eqb_spec (l_CheckTargetPermission b) ERR_OK) as [|]; cbn [negb]; [|done]. unfold StartAbility.
    destruct (negb _); [discriminate|]. destruct (Z.eqb_spec (l_Connect b) ERR_OK); cbn [negb]; [|done]. destruct (Z.eqb_spec (l_QueryOsAccount b) ERR_OK); cbn [negb]; [|done]. by eexists.
  - cbn zeta. unfold NotifyContinuationResultFromRemote. destruct (Z.leb_spec m 0); [lia|]. cbn [snd]. unfold NotifyContinuationCallbackResult. rewrite E2.
    set (flag := GetBoolParam SUPPORT_CONTINUE_SOURCE_EXIT_KEY true w). assert (Ec : IsCleanMission m (c_SetCleanMissionFlag m flag c1) = default flag (zfind m (cleanMission_ c))).
    { unfold IsCleanMission, c_SetCleanMissionFlag, zemplace. cbn. rewrite Ecl. destruct (zfind m (cleanMission_ c)) eqn:Z0; [by rewrite Z0|]. by rewrite zfind_zset, Z.eqb_refl. }
    change (IsInContinuationProgress m (c_SetCleanMissionFlag m flag c1)) with (IsInContinuationProgress m c1). rewrite W1, Ec.
    unfold NotifyMissionCenterResult, PopCallback. cbn [c_callbacks c_SetCleanMissionFlag c_set_missions]. rewrite Fc. unfold RemoveTimeOut. cbn [c_handler c_set_missions c_SetCleanMissionFlag]. rewrite Hh.
    unfold on_cont. cbn [lg_cont snd lask set_cont]. split; [destruct ok, (default flag _); cbn; by rewrite <- ?app_assoc|]. unfold awaited, waiting, IsInContinuationProgress. cbn. rewrite zfind_zerase by done. by rewrite Z.eqb_refl.
Qed.

(** ** An example *)

Definition demo_want (exit : bool) : Want := mkWant (mkElement "B" "com.notes" "entry" "Main") 8 [(SUPPORT_CONTINUE_SOURCE_EXIT_KEY, PBool exit)].
Definition demo_l (device peer : string) : LAnswers := {|
  l_SendEvent := true; l_SendRequest := fun _ => ERR_OK; l_GetLocalDeviceId := Some device; l_GetRemoteDms := fun _ => true; l_CallingDeviceID := peer; l_CallingUid := 1000;
  l_ContinueSwitchOn := true; l_RemoteVersionLower := fun _ => false; l_GetMissionInfo := fun _ => (ERR_OK, (demo_want true, true)); l_CheckBundleContinueConfig := fun _ => true;
  l_CheckRemoteBundleInfo := fun _ _ => (ERR_OK, 3); l_ContinueAbility := ERR_OK; l_CheckIfRemoteCanInstall := true; l_CleanMission := ERR_OK; l_NotifyContinuationResult := ERR_OK;
  l_ContinueMissionRemote := ERR_OK; l_KnownDevice := fun _ => true; l_SendMgr := true; l_GetMissionIdByBundleName := fun _ => (ERR_OK, 7); l_LocalVersion := fun _ => (ERR_OK, 3);
  l_IsCallerForeground := fun _ => true; l_GetCallerAppId := fun _ => Some "app"; l_GetBundleNameList := fun _ => Some ["com.notes"]; l_GetAccountInfo := ERR_OK; l_StartRemote := ERR_OK;
  l_CheckTargetPermission := ERR_OK; l_Connect := ERR_OK; l_QueryOsAccount := ERR_OK; l_StartAbility := ERR_OK; l_SendResult := ERR_OK; l_FreeInstallRemote := ERR_OK; l_FreeInstallLocal := ERR_OK;
  l_FreeInstallDoneRemote := ERR_OK; l_CollaborateEvents := fun _ => []; l_ERR_INVALID_VALUE := 22; l_FREE_INSTALL_TIMEOUT := 29360300; l_FLAG_ABILITY_CONTINUATION := 8;
  l_FLAG_INSTALL_ON_DEMAND := 2048; l_PARAM_RESV_FOR_RESULT := "ohos.aafwk.param.startAbilityForResult" |}.
Definition demo_started : Lg := DoStart Lg_new.
Definition demo_waiting : Lg := lexec (demo_l "A" "B") (QContinue "A" "B" 7 (Some 90) []) demo_started.
Lemma demo_waiting_reached : rtc old_step (demo_started, []) (demo_waiting, [(7, 90)]).
Proof.
  eapply rtc_l; [|apply rtc_refl]. change [(7, 90)] with ([] ++ newly demo_started demo_waiting). by apply (old_op (demo_l "A" "B") (QContinue "A" "B" 7 (Some 90) [])).
Qed.

Lemma callbacks_answered_once_witness : exists c, lg_cont demo_waiting = Some c /\ occurs (7, 90) [(7, 90)] = told (7, 90) demo_waiting + b2z (held (7, 90) c) /\ held (7, 90) c = true.
Proof.
  destruct (callbacks_answered_once demo_waiting [(7, 90)] demo_waiting_reached) as (c & E & H & _). exists c. split; [done|]. split; [apply H|].
  vm_compute in E. injection E as <-. reflexivity.
Defined.
Lemma timer_answers_witness : told (7, 90) (timer_up (demo_l "A" "B") 7 demo_waiting) = 1.
Proof.
  assert (exists c, lg_cont demo_waiting = Some c /\ IsInContinuationProgress 7 c = true /\ zfind 7 (c_callbacks c) = Some 90) as (c & E & W & F) by (vm_compute; eauto).
  destruct (timer_answers demo_waiting [(7, 90)] c 7 (demo_l "A" "B") demo_waiting_reached E) as (_ & c' & cb & _ & F' & H & _); [lia|exact W|]. assert (cb = 90) as -> by congruence. rewrite H. vm_compute. reflexivity.
Defined.
Lemma continuation_completes_witness :
  let s2 := lexec (demo_l "A" "B") (QStartContinuation (demo_want true) 7 20010 ERR_OK 5) demo_waiting in
  let s3 := snd (NotifyContinuationResultFromRemote (demo_l "A" "B") 7 true s2) in
  awaited 7 s2 = true /\ awaited 7 s3 = false /\ lg_asked s3 = lg_asked s2 ++ [LCleanMission 7; LMissionCenter 90 7 ERR_OK].
Proof.
  cbn zeta. set (s2 := lexec _ _ _). split; [vm_compute; reflexivity|]. destruct (old_balanced _ (rtc_refl _ _) : balanced (demo_started, [])) as [R _].
  destruct (continuation_completes (demo_l "A" "B") (demo_l "A" "B") (demo_l "A" "B") (demo_l "B" "A") "B" 7 90 [] (demo_want true) 20010 5 demo_started demo_waiting s2 demo_started true R) as (c & w' & ld & ci & E & _ & _ & _ & _ & _ & H1 & H2).
  - discriminate.
  - lia.
  - vm_compute. reflexivity.
  - vm_compute. reflexivity.
  - vm_compute. reflexivity.
  - split; [exact H2|]. rewrite H1. apply (f_equal (option_map (fun c => zfind 7 (cleanMission_ c)))) in E. cbn [option_map] in E. injection E as E. by rewrite <- E.
Defined.

(** ** Where it goes wrong *)

(** A listener of collaborations only stays after its death: the removal for all types
    stops at the table of continuations, where it is not found. *)
Lemma dead_listener_stays :
  let a := demo_l "A" "B" in
  let s := listener_died 5 (snd (RegisterDSchedEventListener a DMS_COLLABORATION (Some 5) demo_started)) in
  lg_collab s = Some [5] /\ lg_watches s = [].
Proof. vm_compute. done. Qed.
(** A mark that a continuation without callback left decides the next one: the
    application wants its mission cleaned up, and it is not. *)
Lemma clean_flag_stays :
  let a := demo_l "A" "B" in
  let s := lexec a (QResult 7 true) (lexec a (QStartContinuation (demo_want false) 7 20010 ERR_OK 5) demo_started) in
  let s' := lexec a (QStartContinuation (demo_want true) 7 20010 ERR_OK 5) (lexec a (QContinue "A" "B" 7 (Some 90) []) s) in
  existsb (fun x => match x with LCleanMission _ => true | _ => false end) (lg_asked (lexec a (QResult 7 true) s')) = false.
Proof. vm_compute. done. Qed.
(** A request that the ability manager refuses is answered with the error, and its
    callback waits on: for the time of the timer the mission cannot be continued, and
    then the callback is told that the time is up. *)
Definition refused : LAnswers :=
  Build_LAnswers true (fun _ => ERR_OK) (Some "A") (fun _ => true) "B" 1000 true (fun _ => true) (fun _ => (ERR_OK, (demo_want true, true))) (fun _ => true) (fun _ _ => (ERR_OK, 3)) 22 true ERR_OK ERR_OK ERR_OK
    (fun _ => true) true (fun _ => (ERR_OK, 7)) (fun _ => (ERR_OK, 3)) (fun _ => true) (fun _ => Some "app") (fun _ => Some ["com.notes"]) ERR_OK ERR_OK ERR_OK ERR_OK ERR_OK ERR_OK ERR_OK ERR_OK ERR_OK ERR_OK (fun _ => []) 22 29360300 8 2048 "forResult".
Lemma refused_request_waits :
  let s := snd (ContinueMission refused "A" "B" 7 (Some 90) [] demo_started) in
  fst (ContinueMission refused "A" "B" 7 (Some 90) [] demo_started) = MISSION_FOR_CONTINUING_IS_NOT_ALIVE /\
  fst (ContinueMission refused "A" "B" 7 (Some 91) [] s) = CONTINUE_ALREADY_IN_PROGRESS /\ told (7, 90) (timer_up refused 7 s) = 1.
Proof. vm_compute. done. Qed.
(** The device of a free install for a continuation goes offline: nobody is told, and the
    mission of the task is kept for ever. *)
Lemma offline_install_forgotten :
  let a := demo_l "A" "B" in
  let s := lexec a (QStartFree (SetParam "sessionId" (PInt 7) (demo_want true)) 20010 (-1) 5 None) demo_started in
  let s' := lexec a (QOffline "B") s in
  lg_asked s' = lg_asked s /\ option_map continuationMissionMap_ (lg_task s') = Some [(1, 7)] /\ option_map t_callbacks (lg_task s') = Some [].
Proof. vm_compute. done. Qed.
