(* ===== verification/Users.v ===== *)
(** The users of a device and their managers of missions.

    services/dtbschedmgr/src/multi_user_manager.cpp keeps a sender ([MissionSend]), a receiver
    ([MissionRecv]) and a recommender (mission/notification/dms_continue_recommend_manager.cpp)
    for each user, all of which broadcast through softbus_adapter/softbus_adapter.cpp.

    The managers of a user who is not in the foreground exist further: their handlers have
    tasks. Softbus, the account service, the bundle manager and the settings answer as the
    surroundings of a step say. *)

From Stdlib Require Import Sorted.
From S2P Require Import Prelude StdMap SchedErrors ContinueInfo RemoteAbility MissionCondition MissionSend MissionSendProps MissionRecv MissionRecvProps.
#[local] Open Scope string_scope.
#[local] Open Scope list_scope.
#[local] Open Scope Z_scope.

Definition RETRY_SENT_EVENT_MAX_TIME : Z := 3.
Definition STATE_ACTIVE : Z := 0.
Definition STATE_INACTIVE : Z := 1.
Definition INVALID_ID : Z := 0.

(** ** Broadcasts *)

(** Tasks of the adapter; a retry has a name of its own. *)
Inductive BTask := BSend (data : list Z) | BRetry (data : list Z) (retry : Z).
Inductive BCall := BSendEvent (data : list Z) | BStopEvent | BRegister | BUnregister.
(** [b_listener]: whether there is a listener. *)
Record Broadcaster := mkBroadcaster { b_handler : bool; b_listener : bool; b_tasks : list BTask; b_calls : list BCall }.
Definition Broadcaster_new : Broadcaster := mkBroadcaster false false [] [].
Record BEnv := mkBEnv { SOFTBUS_OK : Z; SOFTBUS_INVALID_PARAM : Z; b_SendEvent : Z; b_StopEvent : Z; b_RegisterEventListener : Z; b_UnregisterEventListener : Z; b_runner : bool }.

Definition b_set_handler (x : bool) (b : Broadcaster) : Broadcaster := mkBroadcaster x (b_listener b) (b_tasks b) (b_calls b).
Definition b_set_listener (x : bool) (b : Broadcaster) : Broadcaster := mkBroadcaster (b_handler b) x (b_tasks b) (b_calls b).
Definition b_set_tasks (x : list BTask) (b : Broadcaster) : Broadcaster := mkBroadcaster (b_handler b) (b_listener b) x (b_calls b).
Definition b_call (c : BCall) (b : Broadcaster) : Broadcaster := mkBroadcaster (b_handler b) (b_listener b) (b_tasks b) (b_calls b ++ [c]).

Section Broadcasting.
Variable env : BEnv.

Definition Broadcast_Init (b : Broadcaster) : Broadcaster := if b_handler b then b else b_set_handler true b.
(** The tasks go with the handler. *)
Definition Broadcast_UnInit (b : Broadcaster) : Broadcaster := if b_handler b && b_runner env then b_set_tasks [] (b_set_handler false b) else b.
Definition Broadcast_SendSoftbusEvent (data : list Z) (b : Broadcaster) : Z * Broadcaster := (SOFTBUS_OK env, if b_handler b then b_set_tasks (b_tasks b ++ [BSend data]) b else b).
Definition is_retry (t : BTask) : bool := match t with BRetry _ _ => true | _ => false end.
Definition RemoveRetry (b : Broadcaster) : Broadcaster := b_set_tasks (List.filter (fun t => negb (is_retry t)) (b_tasks b)) b.
Definition RetrySendSoftbusEvent (data : list Z) (retry : Z) (b : Broadcaster) : Z * Broadcaster :=
  if retry =? RETRY_SENT_EVENT_MAX_TIME then (INVALID_PARAMETERS_ERR, b)
  else if b_handler b then (let b := RemoveRetry b in (ERR_OK, b_set_tasks (b_tasks b ++ [BRetry data (retry + 1)]) b))
  else (INVALID_PARAMETERS_ERR, b).
Definition DealSendSoftbusEvent (data : option (list Z)) (retry : Z) (b : Broadcaster) : Z * Broadcaster :=
  if negb (b_handler b) then (INVALID_PARAMETERS_ERR, b)
  else
    let b := RemoveRetry b in
    match data with
    | None => (INVALID_PARAMETERS_ERR, b)
    | Some data =>
        let b := b_call (BSendEvent data) b in
        if negb (b_SendEvent env =? SOFTBUS_OK env) then RetrySendSoftbusEvent data retry b else (b_SendEvent env, b)
    end.
Definition run_btask (t : BTask) (b : Broadcaster) : Broadcaster :=
  match t with BSend data => snd (DealSendSoftbusEvent (Some data) 0 b) | BRetry data retry => snd (DealSendSoftbusEvent (Some data) retry b) end.
Definition RunBTask (n : nat) (b : Broadcaster) : Broadcaster :=
  match b_tasks b !! n with None => b | Some t => run_btask t (b_set_tasks (delete n (b_tasks b)) b) end.
Definition StopSoftbusEvent (b : Broadcaster) : Z * Broadcaster := (b_StopEvent env, b_call BStopEvent b).
Definition RegisterSoftbusEventListener (listener : bool) (b : Broadcaster) : Z * Broadcaster :=
  if negb listener then (SOFTBUS_INVALID_PARAM env, b) else (b_RegisterEventListener env, b_call BRegister (b_set_listener true b)).
(** The listener stays. *)
Definition UnregisterSoftbusEventListener (listener : bool) (b : Broadcaster) : Z * Broadcaster :=
  if negb listener then (SOFTBUS_INVALID_PARAM env, b) else (b_UnregisterEventListener env, b_call BUnregister (b_set_listener true b)).
Definition ReRegister (b : Broadcaster) : Broadcaster :=
  let '(_, b) := StopSoftbusEvent b in
  let '(ret, b) := UnregisterSoftbusEventListener (b_listener b) b in
  if negb (ret =? ERR_OK) then b else snd (RegisterSoftbusEventListener true b).
End Broadcasting.

(** ** Recommendations *)

Record RecomMgr := mkRecomMgr { rc_accountId : Z; rc_hasInit : bool; rc_handler : bool; rc_tasks : list (MissionStatus * MissionEventType) }.
Definition RecomMgr_new : RecomMgr := mkRecomMgr 100 false false [].
Record Recommendation := mkRecommendation { rec_state : Z; rec_srcBundleName : string; rec_continueType : string; rec_userId : Z; rec_candidates : list (string * string) }.
(** The devices, the bundles of a device, an ability of this device, the developer of a bundle. *)
Record RecomEnv := mkRecomEnv {
  rc_GetNetworkIdList : list string;
  rc_GetDistributedBundleInfo : string -> string -> option DmsBundleInfo;
  rc_GetDistributeInfosByNetworkId : string -> option (list DmsBundleInfo);
  rc_GetLocalAbilityInfo : string -> string -> string -> option (list string);
  rc_GetDeveloperId : string -> option string;
}.

Section Recommending.
Variables (cond : CondEnv) (env : RecomEnv).

Definition Recom_Init (account : Z) (m : RecomMgr) : RecomMgr :=
  if rc_hasInit m then m
  else if rc_handler m then mkRecomMgr (rc_accountId m) true (rc_handler m) (rc_tasks m)
  else mkRecomMgr account true true (rc_tasks m).
Definition Recom_OnMissionStatusChanged (id : Z) (type : MissionEventType) (c : CondMgr) (m : RecomMgr) : RecomMgr :=
  match GetMissionStatus (rc_accountId m) id c with
  | None => m
  | Some status => if rc_handler m then mkRecomMgr (rc_accountId m) (rc_hasInit m) (rc_handler m) (rc_tasks m ++ [(status, type)]) else m
  end.
Definition OnDeviceChanged (c : CondMgr) (m : RecomMgr) : RecomMgr :=
  let id := c_GetCurrentMissionId cond in if id <=? 0 then m else Recom_OnMissionStatusChanged id MISSION_EVENT_FOCUSED c m.
Definition IsContinuableWithDiffBundle (bundle : string) (info : DmsBundleInfo) : bool :=
  existsb (fun a => existsb (String.eqb bundle) (ability_continueBundleName a)) (dbi_dmsAbilityInfos info).
(** The bundle of a device that can go on: one of the same name, or another one of the
    same developer that names this one. *)
Definition same_bundle (bundle networkId : string) : option DmsBundleInfo :=
  info ← rc_GetDistributedBundleInfo env networkId bundle; if String.eqb (dbi_bundleName info) bundle then Some info else None.
Definition diff_bundle (bundle networkId : string) : option DmsBundleInfo :=
  let localDeveloperId := default "" (rc_GetDeveloperId env bundle) in
  bundleInfoList ← rc_GetDistributeInfosByNetworkId env networkId;
  find (fun info => String.eqb (dbi_developerId info) localDeveloperId && IsContinuableWithDiffBundle bundle info) bundleInfoList.
Definition recommended_on (bundle networkId : string) : option DmsBundleInfo :=
  match same_bundle bundle networkId with Some info => Some info | None => diff_bundle bundle networkId end.
Definition GetAvailableRecommendList (bundle : string) : list (string * DmsBundleInfo) :=
  fold_left (fun l networkId => match recommended_on bundle networkId with Some info => mset networkId info l | None => l end) (rc_GetNetworkIdList env) [].
Definition is_shown (type : MissionEventType) : bool := match type with MISSION_EVENT_FOCUSED | MISSION_EVENT_ACTIVE => true | _ => false end.
Definition GetRecommendInfo (account : Z) (status : MissionStatus) (type : MissionEventType) : option Recommendation :=
  let state := if is_shown type then STATE_ACTIVE else STATE_INACTIVE in
  continueType ← rc_GetLocalAbilityInfo env (bundleName status) (moduleName status) (abilityName status);
  Some (mkRecommendation state (bundleName status) (hd "" continueType) account
    (if state =? STATE_ACTIVE then map (fun e => (fst e, dbi_bundleName (snd e))) (GetAvailableRecommendList (bundleName status)) else [])).
Definition PublishContinueRecommend (account : Z) (c : CondMgr) (status : MissionStatus) (type : MissionEventType) : option Recommendation :=
  if negb (CheckSystemSendCondition cond c) || negb (CheckMissionSendCondition cond status type) then None else GetRecommendInfo account status type.
End Recommending.

(** ** Users *)

Inductive UserCall := UMmiInit | UMmiUnInit | URegisterObserver | UContinueInit | UContinueUnInit | UPublish (r : Recommendation) | UMmi (e : SendEvent) | UDeviceTold (networkId : string) (online : bool).
(** The managers of all users, the conditions of missions, the broadcasts and the switch;
    listeners of a user in the background wait for the user. *)
Record Users := mkUsers {
  currentUserId_ : Z;
  sendMgrMap_ : zmap SendMgr;
  recvMgrMap_ : zmap RecvMgr;
  recomMgrMap_ : zmap RecomMgr;
  listenerCache_ : zmap (list (string * option Z));
  hasRegSoftbusEventListener_ : bool;
  u_cond : CondMgr;
  u_broadcast : Broadcaster;
  u_switch : bool;
  u_calls : list UserCall;
}.
Record UserEnv := mkUserEnv {
  u_send : SendEnv;
  u_recv : RecvEnv;
  u_recom : RecomEnv;
  u_softbus : BEnv;
  DMS_RECEIVE_BROADCAST : bool;
  u_GetForegroundOsAccountLocalId : Z * Z;
  (** The local ids of the accounts in the foreground; the account of a user id. *)
  u_GetForegroundOsAccounts : list Z;
  u_accountOf : Z -> Z;
  u_IsContinueSwitchOn : bool;
  u_IsSameAccount : string -> bool;
}.

Definition set_user (x : Z) (u : Users) : Users := mkUsers x (sendMgrMap_ u) (recvMgrMap_ u) (recomMgrMap_ u) (listenerCache_ u) (hasRegSoftbusEventListener_ u) (u_cond u) (u_broadcast u) (u_switch u) (u_calls u).
Definition set_sends (x : zmap SendMgr) (u : Users) : Users := mkUsers (currentUserId_ u) x (recvMgrMap_ u) (recomMgrMap_ u) (listenerCache_ u) (hasRegSoftbusEventListener_ u) (u_cond u) (u_broadcast u) (u_switch u) (u_calls u).
Definition set_recvs (x : zmap RecvMgr) (u : Users) : Users := mkUsers (currentUserId_ u) (sendMgrMap_ u) x (recomMgrMap_ u) (listenerCache_ u) (hasRegSoftbusEventListener_ u) (u_cond u) (u_broadcast u) (u_switch u) (u_calls u).
Definition set_recoms (x : zmap RecomMgr) (u : Users) : Users := mkUsers (currentUserId_ u) (sendMgrMap_ u) (recvMgrMap_ u) x (listenerCache_ u) (hasRegSoftbusEventListener_ u) (u_cond u) (u_broadcast u) (u_switch u) (u_calls u).
Definition set_waiting (x : zmap (list (string * option Z))) (u : Users) : Users := mkUsers (currentUserId_ u) (sendMgrMap_ u) (recvMgrMap_ u) (recomMgrMap_ u) x (hasRegSoftbusEventListener_ u) (u_cond u) (u_broadcast u) (u_switch u) (u_calls u).
Definition set_registered (u : Users) : Users := mkUsers (currentUserId_ u) (sendMgrMap_ u) (recvMgrMap_ u) (recomMgrMap_ u) (listenerCache_ u) true (u_cond u) (u_broadcast u) (u_switch u) (u_calls u).
Definition set_cond (x : CondMgr) (u : Users) : Users := mkUsers (currentUserId_ u) (sendMgrMap_ u) (recvMgrMap_ u) (recomMgrMap_ u) (listenerCache_ u) (hasRegSoftbusEventListener_ u) x (u_broadcast u) (u_switch u) (u_calls u).
Definition set_broadcast (x : Broadcaster) (u : Users) : Users := mkUsers (currentUserId_ u) (sendMgrMap_ u) (recvMgrMap_ u) (recomMgrMap_ u) (listenerCache_ u) (hasRegSoftbusEventListener_ u) (u_cond u) x (u_switch u) (u_calls u).
Definition set_switch (x : bool) (u : Users) : Users := mkUsers (currentUserId_ u) (sendMgrMap_ u) (recvMgrMap_ u) (recomMgrMap_ u) (listenerCache_ u) (hasRegSoftbusEventListener_ u) (u_cond u) (u_broadcast u) x (u_calls u).
Definition u_call (c : UserCall) (u : Users) : Users := mkUsers (currentUserId_ u) (sendMgrMap_ u) (recvMgrMap_ u) (recomMgrMap_ u) (listenerCache_ u) (hasRegSoftbusEventListener_ u) (u_cond u) (u_broadcast u) (u_switch u) (u_calls u ++ [c]).

Section UserManager.
Variable env : UserEnv.
Let cond := s_cond (u_send env).
Let soft := u_softbus env.

Definition GetForegroundUser : Z :=
  let '(err, accountId) := u_GetForegroundOsAccountLocalId env in
  if negb (err =? ERR_OK) || (accountId =? INVALID_ID) then INVALID_PARAMETERS_ERR else accountId.
Definition MultiUserManager_new : Users := mkUsers GetForegroundUser [] [] [] [] false (CondMgr_new cond) Broadcaster_new true [].
Definition IsUserForeground (accountId : Z) : bool := match u_GetForegroundOsAccounts env with a :: _ => a =? accountId | [] => false end.
Definition IsCallerForeground (callingUid : Z) : bool := IsUserForeground (u_accountOf env callingUid).

(** *** The managers of a user, made when they are asked for *)

Definition CreateNewSendMgrLocked (accountId : Z) (u : Users) : Users :=
  let w := Send_Init (u_send env) accountId (mkSendWorld (u_cond u) (SendMgr_new (u_send env)) []) in set_sends (zset accountId (w_send w) (sendMgrMap_ u)) u.
Definition CreateNewRecvMgrLocked (accountId : Z) (u : Users) : Users := set_recvs (zset accountId (Recv_Init accountId RecvMgr_new) (recvMgrMap_ u)) u.
Definition CreateNewRecomMgrLocked (accountId : Z) (u : Users) : Users := set_recoms (zset accountId (Recom_Init accountId RecomMgr_new) (recomMgrMap_ u)) u.
Definition GetSendMgr (accountId : Z) (u : Users) : Users := match zfind accountId (sendMgrMap_ u) with Some _ => u | None => CreateNewSendMgrLocked accountId u end.
Definition GetRecvMgr (accountId : Z) (u : Users) : Users := match zfind accountId (recvMgrMap_ u) with Some _ => u | None => CreateNewRecvMgrLocked accountId u end.
Definition GetRecomMgr (accountId : Z) (u : Users) : Users := match zfind accountId (recomMgrMap_ u) with Some _ => u | None => CreateNewRecomMgrLocked accountId u end.
Definition GetCurrentSendMgr (u : Users) : Users := GetSendMgr (currentUserId_ u) u.
Definition GetCurrentRecvMgr (u : Users) : Users := GetRecvMgr (currentUserId_ u) u.
Definition GetCurrentRecomMgr (u : Users) : Users := GetRecomMgr (currentUserId_ u) u.
Definition GetSendMgrByCallingUid (callingUid : Z) (u : Users) : Users := GetSendMgr (u_accountOf env callingUid) u.
Definition GetRecvMgrByCallingUid (callingUid : Z) (u : Users) : Users := GetRecvMgr (u_accountOf env callingUid) u.
Definition GetRecomMgrByCallingUid (callingUid : Z) (u : Users) : Users := GetRecomMgr (u_accountOf env callingUid) u.

(** What a sender hands to softbus goes to the adapter. *)
Definition hand_over (e : SendEvent) (u : Users) : Users :=
  match e with EvSoftbus data => set_broadcast (snd (Broadcast_SendSoftbusEvent soft data (u_broadcast u))) u | _ => u_call (UMmi e) u end.
(** A function of the manager of a user, if there is one. *)
Definition on_send (accountId : Z) (f : SendWorld -> SendWorld) (u : Users) : Users :=
  match zfind accountId (sendMgrMap_ u) with
  | None => u
  | Some m =>
      let w := f (mkSendWorld (u_cond u) m []) in
      fold_left (fun u e => hand_over e u) (w_events w) (set_cond (w_cond w) (set_sends (zset accountId (w_send w) (sendMgrMap_ u)) u))
  end.
Definition on_recv (accountId : Z) (f : RecvMgr -> RecvMgr) (u : Users) : Users :=
  match zfind accountId (recvMgrMap_ u) with None => u | Some m => set_recvs (zset accountId (f m) (recvMgrMap_ u)) u end.
Definition on_recom (accountId : Z) (f : RecomMgr -> RecomMgr) (u : Users) : Users :=
  match zfind accountId (recomMgrMap_ u) with None => u | Some m => set_recoms (zset accountId (f m) (recomMgrMap_ u)) u end.
(** The same for the user in the foreground, whose manager is made if need be. *)
Definition current_send (f : SendWorld -> SendWorld) (u : Users) : Users := let u := GetCurrentSendMgr u in on_send (currentUserId_ u) f u.
Definition current_recv (f : RecvMgr -> RecvMgr) (u : Users) : Users := let u := GetCurrentRecvMgr u in on_recv (currentUserId_ u) f u.
Definition current_recom (f : RecomMgr -> RecomMgr) (u : Users) : Users := let u := GetCurrentRecomMgr u in on_recom (currentUserId_ u) f u.

(** The result of the registration is not looked at. *)
Definition RegisterSoftbusListener (u : Users) : Users :=
  if DMS_RECEIVE_BROADCAST env then set_registered (set_broadcast (snd (RegisterSoftbusEventListener soft true (u_broadcast u))) u) else u.
Definition CheckRegSoftbusListener (u : Users) : bool := hasRegSoftbusEventListener_ u.

Definition Users_Init (u : Users) : Users :=
  let u := u_call UMmiInit u in
  let u := set_broadcast (Broadcast_Init (u_broadcast u)) u in
  let u := current_send (OnDeviceOnline (u_send env)) u in
  let u := GetCurrentRecvMgr u in
  let u := if negb (CheckRegSoftbusListener u) then RegisterSoftbusListener u else u in
  GetCurrentRecomMgr u.
Definition Users_UnInit (u : Users) : Users :=
  let u := u_call UMmiUnInit u in
  let u := set_broadcast (Broadcast_UnInit soft (u_broadcast u)) u in
  set_recoms [] (set_recvs [] (set_sends [] u)).

(** *** The user in the foreground changes *)

(** [None]: the registration ran into undefined behaviour. *)
Fixpoint register_all (l : list (string * option Z)) (m : RecvMgr) : option RecvMgr :=
  match l with [] => Some m | (type, obj) :: l => '(_, m) ← RegisterOnListener type obj m; register_all l m end.
Definition UserSwitchedOnRegisterListenerCache (u : Users) : option Users :=
  match listenerCache_ u with
  | [] => Some u
  | _ =>
      let u := GetCurrentRecvMgr u in
      match zfind (currentUserId_ u) (listenerCache_ u), zfind (currentUserId_ u) (recvMgrMap_ u) with
      | Some (x :: l), Some m => m ← register_all (x :: l) m; Some (set_waiting (zerase (currentUserId_ u) (listenerCache_ u)) (set_recvs (zset (currentUserId_ u) m (recvMgrMap_ u)) u))
      | _, _ => Some u
      end
  end.
Definition SetCurrentContinueSwitch (status : bool) (u : Users) : Users := set_cond (snd (UpdateSystemStatus SYS_EVENT_CONTINUE_SWITCH status (u_cond u))) (set_switch status u).
Definition OnUserSwitched (accountId : Z) (u : Users) : option Users :=
  let u := set_broadcast (ReRegister soft (u_broadcast u)) u in
  let u := current_recv OnUserSwitch u in
  let u := current_send (Send_OnUserSwitched (u_send env)) u in
  let u := set_user accountId u in
  let u := SetCurrentContinueSwitch (u_IsContinueSwitchOn env) u in
  let u := u_call URegisterObserver u in
  let u := GetCurrentSendMgr u in
  let u := GetCurrentRecvMgr u in
  let u := if u_switch u then u_call UContinueInit (on_send (currentUserId_ u) (OnDeviceOnline (u_send env)) u)
           else u_call UContinueUnInit (on_recv (currentUserId_ u) (OnContinueSwitchOff (u_recv env)) u) in
  u ← UserSwitchedOnRegisterListenerCache u;
  Some (set_cond (Cond_OnUserSwitched cond accountId (u_cond u)) u).
(** The recommender and the waiting listeners of the user stay. *)
Definition OnUserRemoved (accountId : Z) (u : Users) : Users :=
  let u := set_sends (zerase accountId (sendMgrMap_ u)) u in
  let u := set_recvs (zerase accountId (recvMgrMap_ u)) u in
  set_cond (Cond_OnUserRemoved accountId (u_cond u)) u.

(** *** Listeners of the dock *)

(** [emplace]: an entry of the user that waits already is kept. *)
Definition OnRegisterOnListener (type : string) (obj : option Z) (callingUid : Z) (u : Users) : option (Z * Users) :=
  let accountId := u_accountOf env callingUid in
  if negb (IsUserForeground accountId) || negb (accountId =? currentUserId_ u) then
    Some (ERR_OK, match zfind accountId (listenerCache_ u) with Some _ => u | None => set_waiting (zset accountId [(type, obj)] (listenerCache_ u)) u end)
  else
    let u := GetCurrentRecvMgr u in
    match zfind (currentUserId_ u) (recvMgrMap_ u) with
    | None => Some (ERR_OK, u)
    | Some m => '(ret, m) ← RegisterOnListener type obj m; Some (ret, set_recvs (zset (currentUserId_ u) m (recvMgrMap_ u)) u)
    end.
Definition OnRegisterOffListener (type : string) (obj : option Z) (callingUid : Z) (u : Users) : Z * Users :=
  let accountId := u_accountOf env callingUid in
  if negb (IsUserForeground accountId) || negb (accountId =? currentUserId_ u) then (DMS_NOT_FOREGROUND_USER, u)
  else
    let u := GetCurrentRecvMgr u in
    match zfind (currentUserId_ u) (recvMgrMap_ u) with
    | None => (ERR_OK, u)
    | Some m => let '(ret, m) := RegisterOffListener type obj m in (ret, set_recvs (zset (currentUserId_ u) m (recvMgrMap_ u)) u)
    end.

(** *** Events *)

(** A broadcast of another device, if there is a listener. *)
Definition OnBroadCastRecv (networkId : string) (data : list Z) (u : Users) : Users := if b_listener (u_broadcast u) then current_recv (NotifyDataRecv (u_recv env) networkId data) u else u.
(** The service: devices come and go. *)
Definition Service_DeviceOnlineNotify (networkId : string) (u : Users) : Users :=
  let u := u_call (UDeviceTold networkId true) u in
  let u := if negb (CheckRegSoftbusListener u) && u_IsSameAccount env networkId then RegisterSoftbusListener u else u in
  let u := current_send (OnDeviceOnline (u_send env)) u in
  current_recom (OnDeviceChanged cond (u_cond u)) u.
Definition Service_DeviceOfflineNotify (networkId : string) (u : Users) : Users :=
  let u := current_recv (NotifyDeviceOffline (u_recv env) networkId) u in
  u_call (UDeviceTold networkId false) u.
Definition DeviceOfflineNotifyAfterDelete (u : Users) : Users := current_recom (OnDeviceChanged cond (u_cond u)) u.
Definition Storage_OnDeviceInfoChanged (deviceId : string) (u : Users) : Users :=
  if negb (CheckRegSoftbusListener u) && u_IsSameAccount env deviceId then RegisterSoftbusListener u else u.
Definition RunRecomTask (accountId : Z) (n : nat) (u : Users) : Users :=
  match zfind accountId (recomMgrMap_ u) with
  | None => u
  | Some m =>
      match rc_tasks m !! n with
      | None => u
      | Some (status, type) =>
          let u := set_recoms (zset accountId (mkRecomMgr (rc_accountId m) (rc_hasInit m) (rc_handler m) (delete n (rc_tasks m))) (recomMgrMap_ u)) u in
          match PublishContinueRecommend cond (u_recom env) (rc_accountId m) (u_cond u) status type with Some r => u_call (UPublish r) u | None => u end
      end
  end.
End UserManager.

(** ** Histories *)

(** Events of missions, of the screen and of the system, which go to the sender of the user
    in the foreground; events that go to its receiver. *)
Definition mission_event (o : SendOp) : bool :=
  match o with SoInit _ | SoUnInit | SoCondUnInit | SoUserSwitched _ | SoUserRemoved _ | SoTask _ => false | _ => true end.
Definition dock_event (o : RecvOp) : bool := match o with RoDied _ | RoScreenOff | RoScreenOn | RoSwitchOff | RoRemoved _ => true | _ => false end.
Inductive UserOp :=
  | UoInit
  | UoUnInit
  | UoSwitched (accountId : Z)
  | UoRemoved (accountId : Z)
  | UoGetSend (callingUid : Z)
  | UoGetRecv (callingUid : Z)
  | UoGetRecom (callingUid : Z)
  | UoRegisterOn (type : string) (obj : option Z) (callingUid : Z)
  | UoRegisterOff (type : string) (obj : option Z) (callingUid : Z)
  | UoMission (o : SendOp)
  | UoDock (o : RecvOp)
  | UoSendTask (accountId : Z) (n : nat)
  | UoRecvTask (accountId : Z) (n : nat)
  | UoRecomTask (accountId : Z) (n : nat)
  | UoBroadcastTask (n : nat)
  | UoBroadcastRecv (networkId : string) (data : list Z)
  | UoOnline (networkId : string)
  | UoOffline (networkId : string)
  | UoOfflineAfter
  | UoInfoChanged (deviceId : string).
Definition run_recv_or (env : RecvEnv) (o : RecvOp) (m : RecvMgr) : RecvMgr := default m (run_recv_op env o m).
(** [None]: undefined behaviour. *)
Definition user_step (env : UserEnv) (o : UserOp) (u : Users) : option Users :=
  match o with
  | UoInit => Some (Users_Init env u)
  | UoUnInit => Some (Users_UnInit env u)
  | UoSwitched a => OnUserSwitched env a u
  | UoRemoved a => Some (OnUserRemoved a u)
  | UoGetSend uid => Some (GetSendMgrByCallingUid env uid u)
  | UoGetRecv uid => Some (GetRecvMgrByCallingUid env uid u)
  | UoGetRecom uid => Some (GetRecomMgrByCallingUid env uid u)
  | UoRegisterOn type obj uid => snd <$> OnRegisterOnListener env type obj uid u
  | UoRegisterOff type obj uid => Some (snd (OnRegisterOffListener env type obj uid u))
  | UoMission o => Some (if mission_event o then current_send env (run_send_op (u_send env) o) u else u)
  | UoDock o => Some (if dock_event o then current_recv (run_recv_or (u_recv env) o) u else u)
  | UoSendTask a n => Some (on_send env a (RunSendTask (u_send env) n) u)
  | UoRecvTask a n => Some (on_recv a (RunRecvTask (u_recv env) n) u)
  | UoRecomTask a n => Some (RunRecomTask env a n u)
  | UoBroadcastTask n => Some (set_broadcast (RunBTask (u_softbus env) n (u_broadcast u)) u)
  | UoBroadcastRecv networkId data => Some (OnBroadCastRecv env networkId data u)
  | UoOnline networkId => Some (Service_DeviceOnlineNotify env networkId u)
  | UoOffline networkId => Some (Service_DeviceOfflineNotify env networkId u)
  | UoOfflineAfter => Some (DeviceOfflineNotifyAfterDelete env u)
  | UoInfoChanged d => Some (Storage_OnDeviceInfoChanged env d u)
  end.
Inductive UserReach : Users -> Prop :=
  | user_new env : UserReach (MultiUserManager_new env)
  | user_steps env o u u' : UserReach u -> user_step env o u = Some u' -> UserReach u'.

(** ** A manager stays the manager of its user *)

Definition steady (f : SendWorld -> SendWorld) : Prop := forall w, sm_accountId (w_send (f w)) = sm_accountId (w_send w) /\ sm_handler (w_send (f w)) = sm_handler (w_send w).
Lemma steady_comp f g : steady f -> steady g -> steady (fun w => f (g w)).
Proof. intros Hf Hg w. destruct (Hf (g w)) as [-> ->]. apply Hg. Qed.

Section Steady.
Variable env : SendEnv.
Ltac easy_steady := intros w; unfold PostTask, RemoveTask, AddMMIListener, RemoveMMIListener, SendSoftbusEvent, emit, with_send, with_cond, SetScreenLockedInfo, ResetScreenLockedInfo; repeat case_match; done.
Lemma steady_status id type : steady (OnMissionStatusChanged env id type).
Proof. unfold OnMissionStatusChanged. easy_steady. Qed.
Lemma steady_online : steady (OnDeviceOnline env).
Proof. intros w. unfold OnDeviceOnline. case_match; [done|apply steady_status]. Qed.
Lemma steady_switched : steady (Send_OnUserSwitched env).
Proof. unfold Send_OnUserSwitched. easy_steady. Qed.
Lemma steady_strategy type s w : sm_accountId (w_send (ExecuteSendStrategy env type s w).2) = sm_accountId (w_send w) /\ sm_handler (w_send (ExecuteSendStrategy env type s w).2) = sm_handler (w_send w).
Proof.
  destruct type; cbn [ExecuteSendStrategy];
    unfold StrategyFocused, StrategyUnfocused, StrategyDestoryed, StrategyActive, StrategyInactive, StrategyTimeout, StrategyMMI, SendContinueBroadcastAfterDelay, SetMissionContinueStateInfo, SetScreenLockedInfo, PostTask, RemoveTask, AddMMIListener, RemoveMMIListener, emit, with_send; repeat case_match; done.
Qed.
Lemma steady_broadcast s type : steady (SendContinueBroadcast env s type).
Proof.
  intros w. unfold SendContinueBroadcast. pose proof (steady_strategy type s w) as H. repeat case_match; simplify_eq/=; done.
Qed.
Lemma steady_locked_event type : steady (SendScreenLockedEvent env type).
Proof. unfold SendScreenLockedEvent. easy_steady. Qed.
Lemma steady_post_locked id type d : steady (PostScreenLockedEventAfterDelay env id type d).
Proof. unfold PostScreenLockedEventAfterDelay. easy_steady. Qed.
Lemma steady_post t : steady (PostTask env t).
Proof. easy_steady. Qed.
Lemma steady_remove id : steady (RemoveTask id).
Proof. easy_steady. Qed.
Lemma steady_mmi : steady (RemoveMMIListener).
Proof. easy_steady. Qed.
Lemma steady_locked_info id s : steady (SetScreenLockedInfo env id s).
Proof. easy_steady. Qed.
Lemma steady_id_broadcast id type : steady (SendContinueBroadcast_id env id type).
Proof. intros w. unfold SendContinueBroadcast_id. case_match; [apply steady_broadcast|done]. Qed.
Lemma steady_handle_locked : steady (handle_screen_locked env).
Proof.
  intros w. unfold handle_screen_locked. set (w1 := if _ && _ then _ else _). assert (sm_accountId (w_send w1) = sm_accountId (w_send w) /\ sm_handler (w_send w1) = sm_handler (w_send w)) as [Ha Hh].
  { unfold w1. case_match; [apply steady_post_locked|done]. }
  rewrite <- Ha, <- Hh. case_match; [|apply steady_post_locked]. case_match; [|done].
  match goal with |- context [SetScreenLockedInfo env ?i ?s w1] => destruct (steady_locked_info i s w1) as [<- <-] end. apply steady_post_locked.
Qed.
Lemma steady_task n : steady (RunSendTask env n).
Proof.
  intros w. unfold RunSendTask. destruct (sm_tasks (w_send w) !! n) as [e|]; [|done]. set (w1 := with_send _ w). assert (forall t, steady (run_send_task env t)) as H; [|exact (H _ w1)].
  intros [] w'; cbn [run_send_task].
  - apply steady_broadcast.
  - apply steady_id_broadcast.
  - unfold handle_mmi. destruct (negb _); [done|]. apply (steady_comp _ _ (steady_id_broadcast _ _) (steady_remove _)).
  - apply steady_handle_locked.
  - apply (steady_comp _ _ (steady_locked_event _) steady_mmi).
  - apply steady_locked_event.
Qed.
Lemma steady_locked : steady (OnDeviceScreenLocked env).
Proof. intros w. unfold OnDeviceScreenLocked. destruct (negb _); [done|apply steady_post]. Qed.
Lemma steady_mmi_event : steady (OnMMIEvent env).
Proof. intros w. unfold OnMMIEvent. destruct (negb _); [done|apply steady_post]. Qed.
Lemma steady_op o : mission_event o = true -> steady (run_send_op env o).
Proof.
  destruct o; cbn [mission_event]; try done; intros _ w; cbn [run_send_op];
    unfold Listener_OnMissionFocused, Listener_OnMissionUnfocused, Listener_OnMissionDestroyed, Service_SetMissionContinueState, switch_changed, HandleScreenOff, HandleScreenOn, HandleScreenLocked, HandleScreenUnLocked, update_mission, update_system;
    try (destruct (DMS_ICON_HOLD_ON env); [|done]); try done.
  all: first [exact (steady_status _ _ w) | exact (steady_online w) | exact (steady_mmi_event w) | exact (steady_status _ _ (with_cond _ w)) | exact (steady_online (with_cond _ w)) | exact (steady_locked (with_cond _ w))].
Qed.
End Steady.

Definition rsteady (m m' : RecvMgr) : Prop := rm_accountId m' = rm_accountId m /\ rm_handler m' = rm_handler m.
Lemma rsteady_refl m : rsteady m m.
Proof. done. Qed.
Lemma rsteady_trans m1 m2 m3 : rsteady m1 m2 -> rsteady m2 m3 -> rsteady m1 m3.
Proof. unfold rsteady. intuition congruence. Qed.
Lemma rsteady_notify os i st m : rsteady m (notify_all os i st m).
Proof. revert m. induction os as [|o os IH]; intros m; [done|]. exact (rsteady_trans _ _ _ (conj eq_refl eq_refl) (IH _)). Qed.
Lemma rsteady_rcalls c n m : rsteady m (rcalls c n m).
Proof. revert m. induction n as [|n IH]; intros m; [done|]. exact (rsteady_trans _ _ _ (conj eq_refl eq_refl) (IH _)). Qed.
Lemma rsteady_withdraw m : rsteady m (withdraw_icon m).
Proof. unfold withdraw_icon, FindToNotifyRecvBroadcast. cbn [onType_ registerOnListener_ set_icon]. case_match; [|by split]. apply rsteady_trans with (set_icon (clear_icon (iconInfo_ m)) m); [done|apply rsteady_notify]. Qed.
Lemma rsteady_dock i st m : rsteady m (NotifyDockDisplay i st m).2.
Proof. unfold NotifyDockDisplay. case_match; [apply rsteady_notify|done]. Qed.
Lemma rsteady_gone s st m : rsteady m (NotifyIconDisappear s st m).
Proof. unfold NotifyIconDisappear. case_match; [apply rsteady_dock|done]. Qed.
Lemma rsteady_post env b m : rsteady m (PostOnBroadcastBusiness env b m).
Proof. unfold PostOnBroadcastBusiness, Recv_PostTask. by repeat case_match. Qed.
Lemma rsteady_verify s src sink t st m : rsteady m (VerifyBroadcastSource s src sink t st m).2.
Proof. unfold VerifyBroadcastSource. by repeat case_match. Qed.
Lemma rsteady_deal env b m : rsteady m (DealOnBroadcastBusiness env b m).2.
Proof.
  unfold DealOnBroadcastBusiness. destruct (r_GetDistributedBundleInfo _ _ _) as [info|].
  - destruct (FindContinueType _ _) as [t ab]. destruct (GetFinalBundleName env info) as [[fin lb]|]; [|apply rsteady_gone].
    destruct (negb (lb_isApp lb)); [apply rsteady_gone|]. destruct (_ && negb (IsBundleContinuable _ _ _ _)); [apply rsteady_gone|]. destruct (_ && negb (isScreenOn m)); [done|].
    match goal with |- context [VerifyBroadcastSource ?a ?b ?c ?d ?e m] => pose proof (rsteady_verify a b c d e m) as H; destruct (VerifyBroadcastSource a b c d e m) as [ret m1] end.
    case_match; [done|]. apply (rsteady_trans _ m1); [done|apply rsteady_dock].
  - unfold RetryPostBroadcast. case_match; [done|]. cbn [snd]. exact (rsteady_trans _ _ _ (conj eq_refl eq_refl) (rsteady_post _ _ _)).
Qed.
Lemma rsteady_register t obj m r m' : RegisterOnListener t obj m = Some (r, m') -> rsteady m m'.
Proof. unfold RegisterOnListener. intros H. repeat case_match; by simplify_eq. Qed.

Definition lasting_event (o : RecvOp) : bool := match o with RoInit _ | RoUnInit => false | _ => true end.
Lemma rsteady_op env o m m' : lasting_event o = true -> run_recv_op env o m = Some m' -> rsteady m m'.
Proof.
  destruct o; cbn [lasting_event run_recv_op]; try done; intros _ H; simplify_eq/=.
  - unfold NotifyDataRecv. repeat case_match; try done; apply rsteady_post.
  - apply fmap_Some in H as ([r m1] & H & ->). by eapply rsteady_register.
  - unfold RegisterOffListener. case_match; [|done]. cbn [snd]. exact (rsteady_trans _ _ _ (rsteady_rcalls _ _ m) (conj eq_refl eq_refl)).
  - unfold NotifyDied. case_match; [|done]. exact (rsteady_trans _ _ _ (rsteady_rcalls _ _ m) (conj eq_refl eq_refl)).
  - unfold OnDeviceScreenOff, Recv_PostTask. by case_match.
  - done.
  - unfold OnContinueSwitchOff, Recv_PostTask. by case_match.
  - unfold OnUserSwitch. case_match; [done|apply rsteady_withdraw].
  - unfold NotifyDeviceOffline. repeat case_match; try done; apply rsteady_withdraw.
  - unfold NotifyPackageRemoved. repeat case_match; try done; apply rsteady_withdraw.
  - unfold RunRecvTask. case_match; [|done]. apply rsteady_trans with (set_rtasks (delete n (rm_tasks m)) m); [done|].
    unfold run_recv_task. case_match; [apply rsteady_deal| |]; (case_match; [done|apply rsteady_withdraw]).
Qed.

(** ** What holds of the tables *)

Definition table {A} (P : Z -> A -> Prop) (m : zmap A) : Prop := zsorted m /\ zall P m.
Lemma table_nil {A} (P : Z -> A -> Prop) : table P [].
Proof. by split; constructor. Qed.
Lemma table_set {A} (P : Z -> A -> Prop) k v m : P k v -> table P m -> table P (zset k v m).
Proof. intros H [??]. split; [by apply zset_sorted|by apply zall_zset]. Qed.
Lemma table_erase {A} (P : Z -> A -> Prop) k m : table P m -> table P (zerase k m).
Proof. intros [??]. split; [by apply zerase_sorted|by apply zall_zerase]. Qed.
Lemma table_find {A} (P : Z -> A -> Prop) k v m : table P m -> zfind k m = Some v -> P k v.
Proof. intros [_ ?]. by apply zall_find. Qed.
#[local] Hint Resolve table_nil table_set table_erase : core.

Definition send_of (a : Z) (m : SendMgr) : Prop := sm_accountId m = a /\ sm_handler m = true.
Definition recv_of (a : Z) (m : RecvMgr) : Prop := rm_accountId m = a /\ rm_handler m = true /\ recv_inv m.
Definition recom_of (a : Z) (m : RecomMgr) : Prop := rc_accountId m = a /\ rc_handler m = true.
(** At most one retry waits; the first one has the number 1. *)
Definition btask_ok (t : BTask) : Prop := match t with BRetry _ n => 1 <= n <= RETRY_SENT_EVENT_MAX_TIME | _ => True end.
Definition broadcaster_ok (b : Broadcaster) : Prop :=
  (length (List.filter is_retry (b_tasks b)) <= 1)%nat /\ Forall btask_ok (b_tasks b) /\ (b_handler b = false -> b_tasks b = []).
Record users_ok (u : Users) : Prop := mkUsersOk {
  uo_send : table send_of (sendMgrMap_ u);
  uo_recv : table recv_of (recvMgrMap_ u);
  uo_recom : table recom_of (recomMgrMap_ u);
  uo_waiting : table (fun _ l => exists x, l = [x]) (listenerCache_ u);
  uo_broadcast : broadcaster_ok (u_broadcast u);
}.
(** What a user has. *)
Definition same_user (b : Z) (u u' : Users) : Prop :=
  zfind b (sendMgrMap_ u') = zfind b (sendMgrMap_ u) /\ zfind b (recvMgrMap_ u') = zfind b (recvMgrMap_ u) /\
  zfind b (recomMgrMap_ u') = zfind b (recomMgrMap_ u) /\ zfind b (listenerCache_ u') = zfind b (listenerCache_ u).
(** A step for the user [a] keeps the invariant, the user in the foreground and what the
    other users have. *)
Definition step_of (a : Z) (u u' : Users) : Prop :=
  users_ok u -> users_ok u' /\ currentUserId_ u' = currentUserId_ u /\ forall b, b <> a -> same_user b u u'.

Lemma step_refl a u : step_of a u u.
Proof. by intros H. Qed.
Lemma step_trans a u1 u2 u3 : step_of a u1 u2 -> step_of a u2 u3 -> step_of a u1 u3.
Proof.
  intros H1 H2 H. destruct (H1 H) as (Hu & Hc & Hs). destruct (H2 Hu) as (Hu' & Hc' & Hs'). split; [done|]. split; [congruence|].
  intros b Hb. destruct (Hs b Hb) as (?&?&?&?), (Hs' b Hb) as (?&?&?&?). unfold same_user. intuition congruence.
Qed.
Lemma zfind_other {A} a b (v : A) m : b <> a -> zfind b (zset a v m) = zfind b m.
Proof. intros H. rewrite zfind_zset. by destruct (Z.eqb_spec b a). Qed.
Lemma zfind_other_erase {A} (P : Z -> A -> Prop) a b m : table P m -> b <> a -> zfind b (zerase a m) = zfind b m.
Proof. intros [Hs _] H. rewrite zfind_zerase by done. by destruct (Z.eqb_spec b a). Qed.

Lemma step_set_send a m u : send_of a m -> step_of a u (set_sends (zset a m (sendMgrMap_ u)) u).
Proof. intros Hm []. split; [split; cbn; auto|]. split; [done|]. intros b Hb. split; [by apply zfind_other|done]. Qed.
Lemma step_set_recv a m u : recv_of a m -> step_of a u (set_recvs (zset a m (recvMgrMap_ u)) u).
Proof. intros Hm []. split; [split; cbn; auto|]. split; [done|]. intros b Hb. split; [done|]. split; [by apply zfind_other|done]. Qed.
Lemma step_set_recom a m u : recom_of a m -> step_of a u (set_recoms (zset a m (recomMgrMap_ u)) u).
Proof. intros Hm []. split; [split; cbn; auto|]. split; [done|]. intros b Hb. do 2 (split; [done|]). split; [by apply zfind_other|done]. Qed.
Lemma step_set_waiting a x u : step_of a u (set_waiting (zset a [x] (listenerCache_ u)) u).
Proof. intros []. split; [split; cbn; eauto|]. split; [done|]. intros b Hb. do 3 (split; [done|]). by apply zfind_other. Qed.
Lemma step_drop_waiting a u : step_of a u (set_waiting (zerase a (listenerCache_ u)) u).
Proof. intros []. split; [split; cbn; auto|]. split; [done|]. intros b Hb. do 3 (split; [done|]). by eapply zfind_other_erase. Qed.
Lemma step_broadcast a b u : (broadcaster_ok (u_broadcast u) -> broadcaster_ok b) -> step_of a u (set_broadcast b u).
Proof. intros Hb []. split; [split; cbn; auto|done]. Qed.
Lemma step_cond a c u : step_of a u (set_cond c u).
Proof. intros []. by split. Qed.
Lemma step_call a c u : step_of a u (u_call c u).
Proof. intros []. by split. Qed.
Lemma step_switch a x u : step_of a u (set_switch x u).
Proof. intros []. by split. Qed.
Lemma step_registered a u : step_of a u (set_registered u).
Proof. intros []. by split. Qed.

(** *** The broadcasts *)

Lemma no_retry l : List.filter is_retry (List.filter (fun t => negb (is_retry t)) l) = [].
Proof. induction l as [|t l IH]; [done|]. cbn. destruct (is_retry t) eqn:E; cbn; [done|]. by rewrite E. Qed.
Lemma Forall_kept {A} (P : A -> Prop) f l : Forall P l -> Forall P (List.filter f l).
Proof. induction 1; cbn; [constructor|]. case_match; auto. Qed.
Lemma RemoveRetry_ok b : broadcaster_ok b -> broadcaster_ok (RemoveRetry b) /\ List.filter is_retry (b_tasks (RemoveRetry b)) = [].
Proof.
  intros (H1 & H2 & H3). unfold RemoveRetry. cbn. rewrite no_retry. split; [|done]. split; [cbn; rewrite no_retry; cbn; lia|]. split; [by apply Forall_kept|].
  cbn. intros H. by rewrite H3.
Qed.
Lemma Retry_ok data n b : 0 <= n <= RETRY_SENT_EVENT_MAX_TIME -> broadcaster_ok b -> broadcaster_ok (RetrySendSoftbusEvent data n b).2.
Proof.
  intros Hn Hb. unfold RetrySendSoftbusEvent. destruct (Z.eqb_spec n RETRY_SENT_EVENT_MAX_TIME); [done|]. destruct (b_handler b) eqn:Eh; [|done].
  destruct (RemoveRetry_ok b Hb) as [(_ & H2 & _) H4]. split; [|split].
  - cbn [b_tasks b_set_tasks snd]. rewrite List.filter_app, H4. cbn. lia.
  - cbn [b_tasks b_set_tasks snd]. apply Forall_app. split; [done|]. repeat constructor; cbn in *; unfold RETRY_SENT_EVENT_MAX_TIME in *; lia.
  - cbn. by rewrite Eh.
Qed.
Lemma Deal_ok env data n b : 0 <= n <= RETRY_SENT_EVENT_MAX_TIME -> broadcaster_ok b -> broadcaster_ok (DealSendSoftbusEvent env data n b).2.
Proof.
  intros Hn Hb. unfold DealSendSoftbusEvent. destruct (negb _); [done|]. pose proof (proj1 (RemoveRetry_ok b Hb)) as Hr. destruct data; [|done].
  case_match; [by apply Retry_ok|done].
Qed.
Lemma RunBTask_ok env n b : broadcaster_ok b -> broadcaster_ok (RunBTask env n b).
Proof.
  intros (H1 & H2 & H3). unfold RunBTask. destruct (b_tasks b !! n) as [t|] eqn:E; [|done]. pose proof (Forall_lookup_1 _ _ _ _ H2 E) as Ht.
  assert (broadcaster_ok (b_set_tasks (delete n (b_tasks b)) b)) as Hb.
  { split; [|split].
    - cbn. rewrite <- (take_drop_middle _ _ _ E), List.filter_app in H1. rewrite delete_take_drop, List.filter_app. rewrite length_app in *. cbn in H1. destruct (is_retry t); cbn in *; lia.
    - by apply Forall_delete.
    - cbn. intros H. by rewrite H3. }
  destruct t; cbn [run_btask]; apply Deal_ok; try done; cbn in Ht; unfold RETRY_SENT_EVENT_MAX_TIME in *; lia.
Qed.
Lemma Send_ok env data b : broadcaster_ok b -> broadcaster_ok (Broadcast_SendSoftbusEvent env data b).2.
Proof.
  intros Hb. pose proof Hb as (H1 & H2 & H3). unfold Broadcast_SendSoftbusEvent. cbn. destruct (b_handler b) eqn:E; [|done].
  split; [|split]; cbn; [rewrite List.filter_app, length_app; cbn; lia| |by rewrite E]. apply Forall_app. by repeat constructor.
Qed.
Lemma ReRegister_ok env b : broadcaster_ok b -> broadcaster_ok (ReRegister env b).
Proof.
  intros H. unfold ReRegister, UnregisterSoftbusEventListener. cbn. repeat case_match; simplify_eq/=; done.
Qed.
Lemma Init_ok b : broadcaster_ok b -> broadcaster_ok (Broadcast_Init b).
Proof. intros Hb. pose proof Hb as (H1 & H2 & H3). unfold Broadcast_Init. case_match; [done|]. by split. Qed.
Lemma UnInit_ok env b : broadcaster_ok b -> broadcaster_ok (Broadcast_UnInit env b).
Proof. intros Hb. unfold Broadcast_UnInit. case_match; [|done]. split; [cbn; lia|]. by split. Qed.

(** *** The managers of a user *)

Section Stepping.
Variable env : UserEnv.

Lemma send_made a m : zfind a (sendMgrMap_ (GetSendMgr env a m)) <> None.
Proof. unfold GetSendMgr. case_match eqn:E; [congruence|]. cbn. by rewrite zfind_zset, Z.eqb_refl. Qed.
Lemma recv_made a m : zfind a (recvMgrMap_ (GetRecvMgr a m)) <> None.
Proof. unfold GetRecvMgr. case_match eqn:E; [congruence|]. cbn. by rewrite zfind_zset, Z.eqb_refl. Qed.
Lemma RecvMgr_new_ok a : recv_of a (Recv_Init a RecvMgr_new).
Proof. split; [done|]. split; [done|]. constructor; try done; first [by split; [apply SSorted_nil|apply Forall_nil_2] | by cbn; lia | apply Forall_nil_2]. Qed.
Lemma step_GetSend a u : step_of a u (GetSendMgr env a u).
Proof. unfold GetSendMgr. case_match; [apply step_refl|]. by apply step_set_send. Qed.
Lemma step_GetRecv a u : step_of a u (GetRecvMgr a u).
Proof. unfold GetRecvMgr. case_match; [apply step_refl|]. apply step_set_recv, RecvMgr_new_ok. Qed.
Lemma step_GetRecom a u : step_of a u (GetRecomMgr a u).
Proof. unfold GetRecomMgr. case_match; [apply step_refl|]. by apply step_set_recom. Qed.

Lemma step_hand_over a es u : step_of a u (fold_left (fun u e => hand_over env e u) es u).
Proof.
  revert u. induction es as [|e es IH]; intros u; cbn [fold_left]; [apply step_refl|]. apply step_trans with (hand_over env e u); [|apply IH].
  destruct e; cbn [hand_over]; try apply step_call. apply step_broadcast, Send_ok.
Qed.
Lemma step_on_send a f u : steady f -> step_of a u (on_send env a f u).
Proof.
  intros Hf Hu. unfold on_send. destruct (zfind a (sendMgrMap_ u)) as [m|] eqn:E; [|by apply step_refl]. revert Hu. set (w := f _).
  intros Hu. destruct (table_find _ _ _ _ (uo_send _ Hu) E) as [Ha Hh]. destruct (Hf (mkSendWorld (u_cond u) m [])) as [Ha' Hh']. fold w in Ha', Hh'. cbn in Ha', Hh'.
  revert Hu. apply step_trans with (set_sends (zset a (w_send w) (sendMgrMap_ u)) u); [apply step_set_send; split; congruence|].
  eapply step_trans; [apply step_cond|apply step_hand_over].
Qed.
Definition rgood (f : RecvMgr -> RecvMgr) : Prop := forall m, recv_inv m -> rsteady m (f m) /\ recv_inv (f m).
Lemma step_on_recv a f u : rgood f -> step_of a u (on_recv a f u).
Proof.
  intros Hf Hu. unfold on_recv. destruct (zfind a (recvMgrMap_ u)) as [m|] eqn:E; [|by apply step_refl].
  destruct (table_find _ _ _ _ (uo_recv _ Hu) E) as (Ha & Hh & Hi). destruct (Hf m Hi) as [[Ha' Hh'] Hi'].
  revert Hu. apply step_set_recv. split; [congruence|]. split; [congruence|done].
Qed.
Lemma rgood_op renv o f : lasting_event o = true -> (forall m, run_recv_op renv o m = Some (f m)) -> rgood f.
Proof. intros Ho Hf m Hm. split; [exact (rsteady_op renv o m _ Ho (Hf m))|exact (run_recv_op_inv renv o m _ Hm (Hf m))]. Qed.
Lemma step_on_recom a f u : (forall m, rc_accountId (f m) = rc_accountId m /\ rc_handler (f m) = rc_handler m) -> step_of a u (on_recom a f u).
Proof.
  intros Hf Hu. unfold on_recom. destruct (zfind a (recomMgrMap_ u)) as [m|] eqn:E; [|by apply step_refl].
  destruct (table_find _ _ _ _ (uo_recom _ Hu) E) as [Ha Hh]. destruct (Hf m) as [Ha' Hh']. revert Hu. apply step_set_recom. split; congruence.
Qed.
Lemma cur_GetSend a u : currentUserId_ (GetSendMgr env a u) = currentUserId_ u.
Proof. unfold GetSendMgr. by case_match. Qed.
Lemma cur_GetRecv a u : currentUserId_ (GetRecvMgr a u) = currentUserId_ u.
Proof. unfold GetRecvMgr. by case_match. Qed.
Lemma cur_GetRecom a u : currentUserId_ (GetRecomMgr a u) = currentUserId_ u.
Proof. unfold GetRecomMgr. by case_match. Qed.
Lemma step_current_send f u : steady f -> step_of (currentUserId_ u) u (current_send env f u).
Proof. intros Hf. unfold current_send, GetCurrentSendMgr. rewrite cur_GetSend. eapply step_trans; [apply step_GetSend|by apply step_on_send]. Qed.
Lemma step_current_recv f u : rgood f -> step_of (currentUserId_ u) u (current_recv f u).
Proof. intros Hf. unfold current_recv, GetCurrentRecvMgr. rewrite cur_GetRecv. eapply step_trans; [apply step_GetRecv|by apply step_on_recv]. Qed.
Lemma step_current_recom f u : (forall m, rc_accountId (f m) = rc_accountId m /\ rc_handler (f m) = rc_handler m) -> step_of (currentUserId_ u) u (current_recom f u).
Proof. intros Hf. unfold current_recom, GetCurrentRecomMgr. rewrite cur_GetRecom. eapply step_trans; [apply step_GetRecom|by apply step_on_recom]. Qed.

(** A step for the user in the foreground. *)
Definition step_cur (u u' : Users) : Prop := step_of (currentUserId_ u) u u'.
Lemma cur_trans u1 u2 u3 : step_cur u1 u2 -> step_cur u2 u3 -> step_cur u1 u3.
Proof. intros H1 H2 H. destruct (H1 H) as (H' & Hc & _). unfold step_cur in H2. rewrite Hc in H2. by apply (step_trans _ _ u2). Qed.
Lemma cur_if (x : bool) u u1 u2 : step_cur u u1 -> step_cur u u2 -> step_cur u (if x then u1 else u2).
Proof. by destruct x. Qed.

Lemma step_Register u : step_cur u (RegisterSoftbusListener env u).
Proof. unfold RegisterSoftbusListener. case_match; [|apply step_refl]. eapply cur_trans; [|apply step_registered]. apply step_broadcast. done. Qed.
Lemma step_SetSwitch x u : step_cur u (SetCurrentContinueSwitch x u).
Proof. eapply cur_trans; [apply step_switch|apply step_cond]. Qed.
Lemma recom_status id type c m : let m' := Recom_OnMissionStatusChanged id type c m in rc_accountId m' = rc_accountId m /\ rc_handler m' = rc_handler m.
Proof. cbn zeta. unfold Recom_OnMissionStatusChanged. case_match; [|done]. case_match eqn:E; cbn; auto. Qed.
Lemma step_changed c u : step_cur u (current_recom (OnDeviceChanged (s_cond (u_send env)) c) u).
Proof. apply step_current_recom. intros m. unfold OnDeviceChanged. case_match; [done|]. apply recom_status. Qed.
Lemma step_Init u : step_cur u (Users_Init env u).
Proof.
  unfold Users_Init. eapply cur_trans; [apply step_call|]. eapply cur_trans; [apply step_broadcast, Init_ok|].
  eapply cur_trans; [apply step_current_send, steady_online|]. eapply cur_trans; [apply step_GetRecv|]. eapply cur_trans; [|apply step_GetRecom].
  apply cur_if; [apply step_Register|apply step_refl].
Qed.
Lemma step_Online networkId u : step_cur u (Service_DeviceOnlineNotify env networkId u).
Proof.
  unfold Service_DeviceOnlineNotify. eapply cur_trans; [apply step_call|]. eapply cur_trans; [apply cur_if; [apply step_Register|apply step_refl]|].
  eapply cur_trans; [apply step_current_send, steady_online|apply step_changed].
Qed.
Lemma step_Offline networkId u : step_cur u (Service_DeviceOfflineNotify env networkId u).
Proof. eapply cur_trans; [|apply step_call]. apply step_current_recv, (rgood_op (u_recv env) (RoOffline networkId)); done. Qed.
Lemma step_Recv networkId data u : step_cur u (OnBroadCastRecv env networkId data u).
Proof. unfold OnBroadCastRecv. apply cur_if; [|apply step_refl]. apply step_current_recv, (rgood_op (u_recv env) (RoData networkId data)); done. Qed.
Lemma step_RecomTask a n u : step_of a u (RunRecomTask env a n u).
Proof.
  intros Hu. unfold RunRecomTask. destruct (zfind a (recomMgrMap_ u)) as [m|] eqn:E; [|by apply step_refl].
  destruct (rc_tasks m !! n) as [[status type]|]; [|by apply step_refl]. pose proof (table_find _ _ _ _ (uo_recom _ Hu) E) as Hm. revert Hu.
  set (u1 := set_recoms _ u). apply step_trans with u1; [by apply step_set_recom|]. case_match; [apply step_call|apply step_refl].
Qed.
Lemma step_Removed a u : step_of a u (OnUserRemoved a u).
Proof.
  intros []. split; [split; cbn; auto|]. split; [done|]. intros b Hb. split; [by eapply zfind_other_erase|]. split; [by eapply zfind_other_erase|done].
Qed.

(** *** Listeners *)

Lemma register_all_good l m m' : register_all l m = Some m' -> rsteady m m' /\ (recv_inv m -> recv_inv m').
Proof.
  revert m. induction l as [|[type obj] l IH]; intros m; cbn; [by intros [= <-]|]. destruct (RegisterOnListener type obj m) as [[r m1]|] eqn:E; [|done]. cbn.
  intros H. destruct (IH _ H) as [H1 H2]. split; [eapply rsteady_trans; [by eapply rsteady_register|done]|]. intros Hm. eapply H2, Register_inv; eauto.
Qed.
Lemma recv_of_steady a m m' : recv_of a m -> rsteady m m' -> (recv_inv m -> recv_inv m') -> recv_of a m'.
Proof. intros (Ha & Hh & Hi) [Ha' Hh'] H. split; [congruence|]. split; [congruence|auto]. Qed.
Lemma step_Waiting u u' : UserSwitchedOnRegisterListenerCache u = Some u' -> step_cur u u'.
Proof.
  unfold UserSwitchedOnRegisterListenerCache. destruct (listenerCache_ u) as [|w ws] eqn:Ew; [intros [= <-]; apply step_refl|].
  unfold GetCurrentRecvMgr. set (u1 := GetRecvMgr (currentUserId_ u) u). intros H. apply cur_trans with u1; [apply step_GetRecv|]. revert H.
  intros H Hu. destruct (zfind (currentUserId_ u1) (listenerCache_ u1)) as [[|x l]|]; simplify_eq; try by apply step_refl.
  destruct (zfind (currentUserId_ u1) (recvMgrMap_ u1)) as [m|] eqn:E; simplify_eq; [|by apply step_refl].
  destruct (register_all (x :: l) m) as [m'|] eqn:Er; [|done]. cbn in H. simplify_eq. destruct (register_all_good _ _ _ Er) as [H1 H2].
  pose proof (table_find _ _ _ _ (uo_recv _ Hu) E) as Hm. revert Hu.
  set (u2 := set_recvs (zset (currentUserId_ u1) m' (recvMgrMap_ u1)) u1). apply cur_trans with u2; [apply step_set_recv; by apply recv_of_steady with m|exact (step_drop_waiting (currentUserId_ u2) u2)].
Qed.
Lemma step_RegisterOn type obj uid u r u' : OnRegisterOnListener env type obj uid u = Some (r, u') -> step_of (u_accountOf env uid) u u'.
Proof.
  unfold OnRegisterOnListener. set (a := u_accountOf env uid). destruct (negb (IsUserForeground env a) || negb (a =? currentUserId_ u)) eqn:Ef.
  - intros [= <- <-]. case_match; [apply step_refl|apply step_set_waiting].
  - apply orb_false_iff in Ef as [_ Ef]. apply negb_false_iff, Z.eqb_eq in Ef. rewrite Ef. unfold GetCurrentRecvMgr. rewrite cur_GetRecv. clearbody a. subst a.
    set (u1 := GetRecvMgr (currentUserId_ u) u). intros H. apply step_trans with u1; [apply step_GetRecv|]. intros Hu.
    destruct (zfind _ (recvMgrMap_ u1)) as [m|] eqn:E; simplify_eq; [|by apply step_refl].
    destruct (RegisterOnListener type obj m) as [[r' m']|] eqn:Er; [|done]. cbn in H. simplify_eq. pose proof (table_find _ _ _ _ (uo_recv _ Hu) E) as Hm. revert Hu.
    apply step_set_recv. apply recv_of_steady with m; [done|by eapply rsteady_register|by apply (Register_inv _ _ _ _ _ Er)].
Qed.
Lemma step_RegisterOff type obj uid u : step_of (u_accountOf env uid) u (OnRegisterOffListener env type obj uid u).2.
Proof.
  unfold OnRegisterOffListener. set (a := u_accountOf env uid). destruct (negb (IsUserForeground env a) || negb (a =? currentUserId_ u)) eqn:Ef; [apply step_refl|].
  apply orb_false_iff in Ef as [_ Ef]. apply negb_false_iff, Z.eqb_eq in Ef. rewrite Ef. unfold GetCurrentRecvMgr. rewrite cur_GetRecv. clearbody a. subst a.
  set (u1 := GetRecvMgr (currentUserId_ u) u). apply step_trans with u1; [apply step_GetRecv|].
  intros Hu. destruct (zfind _ (recvMgrMap_ u1)) as [m|] eqn:E; [|by apply step_refl]. pose proof (table_find _ _ _ _ (uo_recv _ Hu) E) as Hm.
  pose proof (rgood_op (u_recv env) (RoUnregister type obj) (fun m => (RegisterOffListener type obj m).2) eq_refl (fun m => eq_refl) m) as H. cbv beta in H.
  destruct (RegisterOffListener type obj m) as [r m']. revert Hu. apply step_set_recv. destruct (H (proj2 (proj2 Hm))). by apply recv_of_steady with m.
Qed.

(** *** The user in the foreground changes *)

Lemma users_set_user a u : users_ok u -> users_ok (set_user a u).
Proof. by intros []. Qed.
(** Before the change, for the old user. *)
Definition leave_user (u : Users) : Users :=
  current_send env (Send_OnUserSwitched (u_send env)) (current_recv OnUserSwitch (set_broadcast (ReRegister (u_softbus env) (u_broadcast u)) u)).
Lemma step_leave u : step_cur u (leave_user u).
Proof.
  unfold leave_user. eapply cur_trans; [apply step_broadcast, ReRegister_ok|].
  eapply cur_trans; [apply step_current_recv, (rgood_op (u_recv env) RoUserSwitch); done|apply step_current_send, steady_switched].
Qed.
(** After it, for the new one. *)
Definition managers_of (u : Users) : Users := GetCurrentRecvMgr (GetCurrentSendMgr env (u_call URegisterObserver (SetCurrentContinueSwitch (u_IsContinueSwitchOn env) u))).
Definition start_user (u : Users) : Users :=
  if u_switch u then u_call UContinueInit (on_send env (currentUserId_ u) (OnDeviceOnline (u_send env)) u)
  else u_call UContinueUnInit (on_recv (currentUserId_ u) (OnContinueSwitchOff (u_recv env)) u).
Definition enter_user (a : Z) (u : Users) : option Users :=
  u ← UserSwitchedOnRegisterListenerCache (start_user (managers_of u)); Some (set_cond (Cond_OnUserSwitched (s_cond (u_send env)) a (u_cond u)) u).
Lemma switch_split a u : OnUserSwitched env a u = enter_user a (set_user a (leave_user u)).
Proof. unfold OnUserSwitched, enter_user, start_user, managers_of, leave_user. reflexivity. Qed.
Lemma step_start u : step_cur u (start_user (managers_of u)).
Proof.
  apply cur_trans with (managers_of u).
  - eapply cur_trans; [apply step_SetSwitch|]. eapply cur_trans; [apply step_call|]. eapply cur_trans; [apply step_GetSend|apply step_GetRecv].
  - unfold start_user. apply cur_if; (eapply cur_trans; [|apply step_call]).
    + apply step_on_send, steady_online.
    + apply step_on_recv, (rgood_op (u_recv env) RoSwitchOff); done.
Qed.
Lemma step_enter a u u' : enter_user a u = Some u' -> step_cur u u'.
Proof.
  unfold enter_user. destruct (UserSwitchedOnRegisterListenerCache _) as [u3|] eqn:E; [|done]. cbn. intros [= <-].
  eapply cur_trans; [apply step_start|]. eapply cur_trans; [apply (step_Waiting _ _ E)|apply step_cond].
Qed.
Lemma step_Switched a u u' : users_ok u -> OnUserSwitched env a u = Some u' ->
  users_ok u' /\ currentUserId_ u' = a /\ forall b, b <> currentUserId_ u -> b <> a -> same_user b u u'.
Proof.
  rewrite switch_split. intros Hu H. destruct (step_leave u Hu) as (Hu1 & Hc1 & Hs1). destruct (step_enter _ _ _ H (users_set_user a _ Hu1)) as (Hu2 & Hc2 & Hs2).
  split; [done|]. split; [done|]. intros b H1 H2. destruct (Hs1 b H1) as (?&?&?&?). destruct (Hs2 b H2) as (?&?&?&?). unfold same_user. cbn in *. intuition congruence.
Qed.
End Stepping.

(** ** Users do not disturb each other *)

(** Whose managers a step is about. *)
Definition touched (env : UserEnv) (o : UserOp) (u : Users) (b : Z) : Prop :=
  match o with
  | UoUnInit => True
  | UoSwitched a => b = currentUserId_ u \/ b = a
  | UoRemoved a | UoSendTask a _ | UoRecvTask a _ | UoRecomTask a _ => b = a
  | UoGetSend uid | UoGetRecv uid | UoGetRecom uid | UoRegisterOn _ _ uid | UoRegisterOff _ _ uid => b = u_accountOf env uid
  | UoBroadcastTask _ | UoInfoChanged _ => False
  | _ => b = currentUserId_ u
  end.
Lemma rgood_or env o : dock_event o = true -> rgood (run_recv_or env o).
Proof. intros Ho. apply (rgood_op env o); destruct o; try done; by intros m. Qed.
Lemma step_touched env o u u' : users_ok u -> user_step env o u = Some u' -> users_ok u' /\ forall b, ~ touched env o u b -> same_user b u u'.
Proof.
  intros Hu H. assert (forall a, step_of a u u' -> (forall b, ~ touched env o u b -> b <> a) -> users_ok u' /\ forall b, ~ touched env o u b -> same_user b u u') as Hstep.
  { intros a Hs Ht. destruct (Hs Hu) as (? & _ & ?). split; auto. }
  unfold user_step in H. destruct o; try apply (inj Some) in H as <-.
  - eapply Hstep; [apply step_Init|done].
  - split; [|by intros b []]. destruct Hu. split; cbn; auto. by apply UnInit_ok.
  - destruct (step_Switched env _ _ _ Hu H) as (Hu' & _ & Hs). split; [done|]. cbn. intros b Hb. apply Hs; tauto.
  - eapply Hstep; [apply step_Removed|done].
  - eapply Hstep; [apply step_GetSend|done].
  - eapply Hstep; [apply step_GetRecv|done].
  - eapply Hstep; [apply step_GetRecom|done].
  - apply fmap_Some in H as ([r u1] & H & ->). eapply Hstep; [by eapply step_RegisterOn|done].
  - eapply Hstep; [apply step_RegisterOff|done].
  - destruct (mission_event o) eqn:Eo; [|by eapply Hstep; [apply step_refl|]]. eapply Hstep; [by apply step_current_send, steady_op|done].
  - destruct (dock_event o) eqn:Eo; [|by eapply Hstep; [apply step_refl|]]. eapply Hstep; [by apply step_current_recv, rgood_or|done].
  - eapply Hstep; [apply step_on_send, steady_task|done].
  - eapply Hstep; [apply step_on_recv, (rgood_op (u_recv env) (RoTask n)); done|done].
  - eapply Hstep; [apply step_RecomTask|done].
  - split; [|done]. destruct Hu. split; cbn; auto. by apply RunBTask_ok.
  - eapply Hstep; [apply step_Recv|done].
  - eapply Hstep; [apply step_Online|done].
  - eapply Hstep; [apply step_Offline|done].
  - eapply Hstep; [apply step_changed|done].
  - unfold Storage_OnDeviceInfoChanged, RegisterSoftbusListener. destruct Hu. repeat case_match; (split; [by split|done]).
Qed.
Lemma reach_ok u : UserReach u -> users_ok u.
Proof.
  induction 1 as [env|env o u u' _ IH H]; [|exact (proj1 (step_touched env o u u' IH H))].
  split; cbn; auto. split; [cbn; lia|]. by split; [constructor|].
Qed.

(** ** The change of the user *)

Section Change.
Variable env : UserEnv.

Lemma hand_fields es u : let u' := fold_left (fun u e => hand_over env e u) es u in
  sendMgrMap_ u' = sendMgrMap_ u /\ recvMgrMap_ u' = recvMgrMap_ u /\ listenerCache_ u' = listenerCache_ u /\ currentUserId_ u' = currentUserId_ u.
Proof.
  cbn zeta. revert u. induction es as [|e es IH]; intros u; [done|]. cbn [fold_left]. destruct (IH (hand_over env e u)) as (-> & -> & -> & ->). by destruct e.
Qed.
Lemma on_send_fields a f u : let u' := on_send env a f u in
  recvMgrMap_ u' = recvMgrMap_ u /\ listenerCache_ u' = listenerCache_ u /\ currentUserId_ u' = currentUserId_ u /\ (is_Some (zfind a (sendMgrMap_ u)) -> is_Some (zfind a (sendMgrMap_ u'))).
Proof.
  cbn zeta. unfold on_send. case_match; [|done]. match goal with |- context [fold_left ?g ?es ?u1] => destruct (hand_fields es u1) as (-> & -> & -> & ->) end.
  cbn. repeat split. intros _. rewrite zfind_zset, Z.eqb_refl. by eexists.
Qed.
Lemma on_recv_fields a f u : let u' := on_recv a f u in
  sendMgrMap_ u' = sendMgrMap_ u /\ listenerCache_ u' = listenerCache_ u /\ currentUserId_ u' = currentUserId_ u /\ zfind a (recvMgrMap_ u') = f <$> zfind a (recvMgrMap_ u).
Proof. cbn zeta. unfold on_recv. case_match eqn:E; [|by rewrite E]. cbn. by rewrite zfind_zset, Z.eqb_refl. Qed.
Lemma GetSend_fields a u : let u' := GetSendMgr env a u in
  recvMgrMap_ u' = recvMgrMap_ u /\ listenerCache_ u' = listenerCache_ u /\ currentUserId_ u' = currentUserId_ u /\ is_Some (zfind a (sendMgrMap_ u')).
Proof. cbn zeta. unfold GetSendMgr. case_match eqn:E; [by rewrite E|]. cbn. rewrite zfind_zset, Z.eqb_refl. eauto. Qed.
Lemma GetRecv_fields a u : let u' := GetRecvMgr a u in
  sendMgrMap_ u' = sendMgrMap_ u /\ listenerCache_ u' = listenerCache_ u /\ currentUserId_ u' = currentUserId_ u /\ is_Some (zfind a (recvMgrMap_ u')).
Proof. cbn zeta. unfold GetRecvMgr. case_match eqn:E; [by rewrite E|]. cbn. rewrite zfind_zset, Z.eqb_refl. eauto. Qed.

Lemma icon_notify os i st m : iconInfo_ (notify_all os i st m) = iconInfo_ m.
Proof. revert m. induction os as [|o os IH]; intros m; [done|]. apply (IH (rcall _ m)). Qed.
(** What the dock of a receiver is told when its icon goes: the icon is inactive, to every
    listener of the type that was registered last; nothing if there is no icon. *)
Definition withdrawals (m : RecvMgr) : list RecvCall :=
  if isEmpty (iconInfo_ m) then [] else map (fun o => RNotify o (iconInfo_ m) INACTIVE) (default [] (mfind (onType_ m) (registerOnListener_ m))).
Lemma switch_clears m : isEmpty (iconInfo_ (OnUserSwitch m)) = true /\ rm_calls (OnUserSwitch m) = rm_calls m ++ withdrawals m.
Proof.
  unfold OnUserSwitch, withdrawals. destruct (isEmpty (iconInfo_ m)) eqn:E; [by rewrite app_nil_r|]. unfold withdraw_icon, FindToNotifyRecvBroadcast.
  cbn [onType_ registerOnListener_ set_icon iconInfo_ clear_icon sourceBundleName]. case_match; [|by rewrite app_nil_r].
  rewrite (proj1 (notify_all_facts _ _ _ _)), icon_notify. split; [done|]. cbn. by destruct (iconInfo_ m).
Qed.
(** The receiver of a user, which is made when it is asked for. *)
Definition receiver_of (a : Z) (u : Users) : RecvMgr := default (Recv_Init a RecvMgr_new) (zfind a (recvMgrMap_ u)).
Lemma current_recv_found f u : zfind (currentUserId_ u) (recvMgrMap_ (current_recv f u)) = Some (f (receiver_of (currentUserId_ u) u)).
Proof.
  unfold current_recv, GetCurrentRecvMgr. rewrite cur_GetRecv. destruct (on_recv_fields (currentUserId_ u) f (GetRecvMgr (currentUserId_ u) u)) as (_ & _ & _ & ->).
  unfold GetRecvMgr, receiver_of. case_match eqn:E; [by rewrite E|]. cbn. by rewrite zfind_zset, Z.eqb_refl.
Qed.
Lemma current_send_recvs f u : recvMgrMap_ (current_send env f u) = recvMgrMap_ u.
Proof. unfold current_send, GetCurrentSendMgr. by rewrite (proj1 (on_send_fields _ _ _)), (proj1 (GetSend_fields _ _)). Qed.
Lemma leave_clears u : exists m, zfind (currentUserId_ u) (recvMgrMap_ (leave_user env u)) = Some m /\ isEmpty (iconInfo_ m) = true /\
  rm_calls m = rm_calls (receiver_of (currentUserId_ u) u) ++ withdrawals (receiver_of (currentUserId_ u) u).
Proof.
  unfold leave_user. rewrite current_send_recvs. eexists. split; [apply (current_recv_found OnUserSwitch (set_broadcast (ReRegister (u_softbus env) (u_broadcast u)) u))|]. apply switch_clears.
Qed.

Lemma register_puts type obj m r m' : RegisterOnListener type (Some obj) m = Some (r, m') -> onType_ m' = type /\ exists l, mfind type (registerOnListener_ m') = Some l /\ obj ∈ l.
Proof.
  unfold RegisterOnListener. cbn [registerOnListener_ set_onListeners]. destruct (mfind type (registerOnListener_ m)) as [objs|] eqn:E.
  - destruct (existsb (Z.eqb obj) objs) eqn:Eb; intros [= <- <-]; (split; [done|]).
    + exists objs. split; [done|]. apply existsb_exists in Eb as (x & Hx & ->%Z.eqb_eq). by apply list_elem_of_In.
    + eexists. cbn [registerOnListener_ set_onListeners rcall]. rewrite mfind_mset, same_key_refl. split; [done|]. apply list_elem_of_In, in_or_app. right. by left.
  - case_match; [|done]. intros [= <- <-]. split; [done|]. eexists. cbn [registerOnListener_ set_onListeners rcall]. rewrite mfind_mset, same_key_refl. split; [done|]. apply list_elem_of_In. by left.
Qed.
(** What the new user finds. *)
Definition taken_over (a : Z) (w : option (list (string * option Z))) (u : Users) : Prop :=
  is_Some (zfind a (sendMgrMap_ u)) /\ zfind a (listenerCache_ u) = None /\
  exists m, zfind a (recvMgrMap_ u) = Some m /\
    forall type obj, w = Some [(type, Some obj)] -> onType_ m = type /\ exists l, mfind type (registerOnListener_ m) = Some l /\ obj ∈ l.
Lemma waiting_registered u u' : users_ok u -> is_Some (zfind (currentUserId_ u) (sendMgrMap_ u)) -> is_Some (zfind (currentUserId_ u) (recvMgrMap_ u)) ->
  UserSwitchedOnRegisterListenerCache u = Some u' -> taken_over (currentUserId_ u) (zfind (currentUserId_ u) (listenerCache_ u)) u'.
Proof.
  intros Hu Hs [m Hm]. unfold UserSwitchedOnRegisterListenerCache. destruct (listenerCache_ u) as [|w ws] eqn:Ew; [intros [= <-]; split; [done|]; rewrite Ew; split; [done|]; by exists m|].
  unfold GetCurrentRecvMgr, GetRecvMgr. rewrite Hm, <- Ew. cbv zeta. destruct (uo_waiting _ Hu) as [Hsort Hall].
  destruct (zfind (currentUserId_ u) (listenerCache_ u)) as [l|] eqn:El; [|intros [= <-]; split; [done|]; split; [done|]; by exists m].
  destruct (zall_find _ _ _ _ Hall El) as [[type obj] ->]. rewrite Hm. cbn. destruct (RegisterOnListener type obj m) as [[r m']|] eqn:Er; [|done]. cbn. intros [= <-].
  split; [done|]. cbn. split; [rewrite zfind_zerase by done; by rewrite Z.eqb_refl|]. exists m'. rewrite zfind_zset, Z.eqb_refl. split; [done|].
  intros t o [= -> ->]. by eapply register_puts.
Qed.
(** The managers of the new user are there. *)
Definition has_managers (a : Z) (c : zmap (list (string * option Z))) (u : Users) : Prop :=
  currentUserId_ u = a /\ listenerCache_ u = c /\ is_Some (zfind a (sendMgrMap_ u)) /\ is_Some (zfind a (recvMgrMap_ u)).
Lemma managers_there u : has_managers (currentUserId_ u) (listenerCache_ u) (managers_of env u).
Proof.
  unfold managers_of, GetCurrentRecvMgr, GetCurrentSendMgr. set (u0 := u_call _ _). change (currentUserId_ u) with (currentUserId_ u0). change (listenerCache_ u) with (listenerCache_ u0).
  rewrite cur_GetSend. destruct (GetRecv_fields (currentUserId_ u0) (GetSendMgr env (currentUserId_ u0) u0)) as (Hs & Hl & Hc & Hr).
  destruct (GetSend_fields (currentUserId_ u0) u0) as (_ & Hl' & Hc' & Hs'). unfold has_managers. rewrite Hs, Hl, Hc. done.
Qed.
Lemma start_there a c u : has_managers a c u -> has_managers a c (start_user env u).
Proof.
  intros (<- & <- & Hs & [m Hm]). unfold start_user. case_match.
  - destruct (on_send_fields (currentUserId_ u) (OnDeviceOnline (u_send env)) u) as (Hr & Hl & Hc & Hk). repeat split; cbn; auto. rewrite Hr. eauto.
  - destruct (on_recv_fields (currentUserId_ u) (OnContinueSwitchOff (u_recv env)) u) as (Hs' & Hl & Hc & Hk). repeat split; cbn; auto; [by rewrite Hs'|]. rewrite Hk, Hm. eauto.
Qed.
Lemma enter_takes_over a u u' : users_ok u -> currentUserId_ u = a -> enter_user env a u = Some u' -> taken_over a (zfind a (listenerCache_ u)) u'.
Proof.
  intros Hu <-. unfold enter_user. destruct (UserSwitchedOnRegisterListenerCache _) as [u3|] eqn:E; [|done]. cbn. intros [= <-].
  destruct (start_there _ _ _ (managers_there u)) as (Hc & Hl & Hs & Hr). pose proof (waiting_registered _ u3 (proj1 (step_start env u Hu))) as H.
  rewrite Hc, Hl in H. by apply H.
Qed.
End Change.

(** C29: In every history of the service: the tables of senders, receivers and
    recommenders are maps, each manager is the manager of the user it is filed under and its
    handler runs; each receiver satisfies its own invariant; at most one listener waits for a
    user; of the broadcasts at most one retry waits, with a number from 1 to 3, and without a
    handler nothing waits. And a step (an event of the foreground user, a call of an
    application of some user, a task of some manager, a change or a removal of a user) leaves
    the managers and the waiting listeners of all users it is not about as they are. *)
Theorem users_apart env o u u' : UserReach u -> user_step env o u = Some u' ->
  users_ok u' /\ forall b, ~ touched env o u b -> same_user b u u'.
Proof. intros Hr. apply step_touched, reach_ok, Hr. Qed.

(** C30: When the user in the foreground changes to another one and the step ends: that
    user is the current one; if the dock of the old user showed an icon, the receiver of
    the old user has forgotten it and has told every listener of the type registered last that it is
    inactive, once, and nothing else; the new user has a sender and a receiver; no
    listener waits for it any more, and the one that waited is registered with its
    receiver under its type. *)
Theorem switch_takes_over env a u u' : UserReach u -> a <> currentUserId_ u -> OnUserSwitched env a u = Some u' ->
  currentUserId_ u' = a /\
  (exists m, zfind (currentUserId_ u) (recvMgrMap_ u') = Some m /\ isEmpty (iconInfo_ m) = true /\
     rm_calls m = rm_calls (receiver_of (currentUserId_ u) u) ++ withdrawals (receiver_of (currentUserId_ u) u)) /\
  taken_over a (zfind a (listenerCache_ u)) u'.
Proof.
  intros Hr Ha H. pose proof (reach_ok _ Hr) as Hu. destruct (step_Switched _ _ _ _ Hu H) as (_ & Hc & _). split; [done|].
  rewrite switch_split in H. destruct (step_leave env u Hu) as (Hu1 & Hc1 & Hs1). pose proof (users_set_user a _ Hu1) as Hu2. split.
  - destruct (leave_clears env u) as (m & Hm & He). exists m. split; [|done]. destruct (step_enter _ _ _ _ H Hu2) as (_ & _ & Hs). cbn in Hs.
    destruct (Hs (currentUserId_ u)) as (_ & -> & _); [done|exact Hm].
  - destruct (Hs1 a Ha) as (_ & _ & _ & <-). exact (enter_takes_over env a _ _ Hu2 eq_refl H).
Qed.

(** ** A device with two users *)

Definition demo_softbus (reg : Z) : BEnv := mkBEnv 0 (-1) 0 0 reg 0 true.
Definition demo_recom : RecomEnv := mkRecomEnv [] (fun _ _ => None) (fun _ => None) (fun _ _ _ => None) (fun _ => None).
(** The user 100 or 101 is in the foreground. *)
Definition demo_users (fg reg : Z) : UserEnv :=
  mkUserEnv (demo_env false 0) (demo_renv true) demo_recom (demo_softbus reg) true (ERR_OK, fg) [fg] (fun uid => uid / 200000) true (fun _ => true).
Definition run_user (os : list (UserEnv * UserOp)) (u : Users) : option Users := foldl (fun u eo => u ← u; user_step eo.1 eo.2 u) (Some u) os.
Definition demo_new : Users := MultiUserManager_new (demo_users 100 0).
Definition demo_ops : list (UserEnv * UserOp) :=
  [(demo_users 100 0, UoInit); (demo_users 100 0, UoRegisterOn "t" (Some 5) 20000001); (demo_users 100 0, UoRegisterOn "t" (Some 6) 20200001); (demo_users 100 0, UoMission (SoFocused 7))].
Lemma run_user_reach os u u' : UserReach u -> run_user os u = Some u' -> UserReach u'.
Proof.
  unfold run_user. intros Hu H. assert (forall x, (forall v, x = Some v -> UserReach v) -> foldl (fun u (eo : UserEnv * UserOp) => u ← u; user_step eo.1 eo.2 u) x os = Some u' -> UserReach u') as Hx.
  { clear. induction os as [|[env o] os IH]; intros x Hx; cbn; [by apply Hx|]. apply IH. intros v Hv. destruct x as [w|]; [|done]. cbn in Hv. eapply user_steps; [by apply Hx|done]. }
  apply (Hx (Some u)); [by intros v [= <-]|done].
Qed.
Definition demo_two : Users := default demo_new (run_user demo_ops demo_new).
Lemma demo_two_reach : UserReach demo_two.
Proof. apply (run_user_reach demo_ops demo_new); [apply user_new|]. vm_compute. reflexivity. Qed.
Lemma users_apart_witness : ~ touched (demo_users 100 0) (UoSendTask 100 0) demo_two 101 /\ same_user 101 demo_two (on_send (demo_users 100 0) 100 (RunSendTask (demo_env false 0) 0) demo_two).
Proof. split; [done|]. apply (proj2 (users_apart (demo_users 100 0) (UoSendTask 100 0) demo_two _ demo_two_reach eq_refl)). done. Defined.
Definition demo_switched : Users := default demo_two (OnUserSwitched (demo_users 101 0) 101 demo_two).
(** An icon of another device is shown to the user 100. *)
Definition demo_shown_ops : list (UserEnv * UserOp) := [(demo_users 100 0, UoBroadcastRecv "devA" [3; 2; 1; 2]); (demo_users 100 0, UoRecvTask 100 0)].
Definition demo_shown : Users := default demo_two (run_user demo_shown_ops demo_two).
Lemma demo_shown_reach : UserReach demo_shown.
Proof. apply (run_user_reach demo_shown_ops demo_two); [apply demo_two_reach|]. vm_compute. reflexivity. Qed.
Lemma switch_takes_over_witness :
  let u' := default demo_shown (OnUserSwitched (demo_users 101 0) 101 demo_shown) in
  withdrawals (receiver_of 100 demo_shown) = [RNotify 5 demo_icon INACTIVE] /\ zfind 101 (listenerCache_ demo_shown) = Some [("t", Some 6)] /\
  currentUserId_ u' = 101 /\ (exists m, zfind 100 (recvMgrMap_ u') = Some m /\ rm_calls m = rm_calls (receiver_of 100 demo_shown) ++ [RNotify 5 demo_icon INACTIVE]) /\
  taken_over 101 (Some [("t", Some 6)]) u'.
Proof.
  cbn zeta. split; [by vm_compute|]. split; [by vm_compute|]. set (u' := default demo_shown _).
  destruct (switch_takes_over (demo_users 101 0) 101 demo_shown u' demo_shown_reach) as (H1 & (m & Hm & _ & Hc) & H2); [by vm_compute|by vm_compute|].
  split; [exact H1|]. split; [exists m; split; [exact Hm|exact Hc]|exact H2].
Defined.

(** ** What is recommended *)

Section Candidates.
Variable env : RecomEnv.
Definition put_recommended (bundle : string) (l : list (string * DmsBundleInfo)) (networkId : string) : list (string * DmsBundleInfo) :=
  match recommended_on env bundle networkId with Some info => mset networkId info l | None => l end.
Lemma put_all bundle ids l : msorted l ->
  let l' := fold_left (put_recommended bundle) ids l in
  msorted l' /\ forall d info, mfind d l' = Some info <-> (d ∈ ids /\ recommended_on env bundle d = Some info) \/ ((d ∉ ids \/ recommended_on env bundle d = None) /\ mfind d l = Some info).
Proof.
  cbn zeta. revert l. induction ids as [|i ids IH]; intros l Hl; cbn [fold_left].
  - split; [done|]. intros d info. rewrite elem_of_nil. tauto.
  - assert (msorted (put_recommended bundle l i)) as Hp by (unfold put_recommended; case_match; [by apply mset_sorted|done]).
    destruct (IH _ Hp) as [Hs Hf]. split; [done|]. intros d info. rewrite Hf, elem_of_cons. unfold put_recommended. destruct (decide (d = i)) as [->|Hne].
    + destruct (recommended_on env bundle i) as [x|]; [|naive_solver]. rewrite mfind_mset, same_key_refl. destruct (decide (i ∈ ids)); naive_solver.
    + replace (mfind d (match recommended_on env bundle i with Some x => mset i x l | None => l end)) with (mfind d l); [naive_solver|].
      case_match; [|done]. rewrite mfind_mset. destruct (same_key d i) eqn:E; [|done]. by rewrite same_string in E; apply String.eqb_eq in E.
Qed.
(** The candidates of a recommendation are exactly the known devices with a bundle that can
    go on, and there are none when the mission is not shown. *)
Lemma candidates_exact cond account c status type r : PublishContinueRecommend cond env account c status type = Some r ->
  rec_userId r = account /\ rec_srcBundleName r = bundleName status /\
  forall d b, (d, b) ∈ rec_candidates r <-> is_shown type = true /\ d ∈ rc_GetNetworkIdList env /\ exists info, recommended_on env (bundleName status) d = Some info /\ dbi_bundleName info = b.
Proof.
  unfold PublishContinueRecommend, GetRecommendInfo. case_match; [done|]. destruct (rc_GetLocalAbilityInfo _ _ _ _) as [types|]; [|done]. cbn. intros [= <-]. cbn.
  split; [done|]. split; [done|]. intros d b. destruct (is_shown type); cbn; [|rewrite elem_of_nil; naive_solver].
  destruct (put_all (bundleName status) (rc_GetNetworkIdList env) [] ltac:(apply SSorted_nil)) as [Hs Hf]. change (fold_left _ _ []) with (GetAvailableRecommendList env (bundleName status)) in Hs, Hf.
  rewrite list_elem_of_In, in_map_iff. split.
  - intros ([d' info] & [= -> <-] & Hin). apply (mfind_sorted _ _ _ Hs), Hf in Hin as [[? ?]|[_ ?]]; [eauto|done].
  - intros (_ & Hd & info & Hi & <-). destruct (mfind_In d info _ (proj2 (Hf d info) (or_introl (conj Hd Hi)))) as (k & Hin & Hk). rewrite same_string in Hk; apply String.eqb_eq in Hk as ->. by exists (k, info).
Qed.
End Candidates.

(** ** What is lost *)

(** A second type of listener of a user in the background: the call succeeds, and nothing
    is kept of it. *)
Lemma second_listener_lost env type obj uid u l : zfind (u_accountOf env uid) (listenerCache_ u) = Some l -> u_accountOf env uid <> currentUserId_ u ->
  OnRegisterOnListener env type obj uid u = Some (ERR_OK, u).
Proof. intros Hl Hc. unfold OnRegisterOnListener. rewrite (proj2 (Z.eqb_neq _ _) Hc), orb_true_r, Hl. done. Qed.
(** A user who is removed leaves its recommender and its listener. *)
Lemma removed_user_stays a u : recomMgrMap_ (OnUserRemoved a u) = recomMgrMap_ u /\ listenerCache_ (OnUserRemoved a u) = listenerCache_ u.
Proof. done. Qed.
(** A registration with softbus that failed counts as done, so no device that comes online
    leads to another one. *)
Lemma failed_registration_kept env u : DMS_RECEIVE_BROADCAST env = true ->
  CheckRegSoftbusListener (RegisterSoftbusListener env u) = true /\
  forall env' d, Storage_OnDeviceInfoChanged env' d (RegisterSoftbusListener env u) = RegisterSoftbusListener env u.
Proof. intros H. unfold RegisterSoftbusListener. by rewrite H. Qed.
(** The first change to a user: the focused mission is offered before the missions of the
    user are read, so nothing is sent; the second change does send. *)
Definition offers (a : Z) (u : Users) : list MissionStatus :=
  match zfind a (sendMgrMap_ u) with Some m => omap (fun e => match se_task e with TBroadcast s _ => Some s | _ => None end) (sm_tasks m) | None => [] end.
Definition demo_again : Users := default demo_switched (run_user [(demo_users 100 0, UoSwitched 100); (demo_users 101 0, UoSwitched 101)] demo_switched).
Lemma first_switch_silent : offers 101 demo_switched = [] /\ length (offers 101 demo_again) = 1%nat.
Proof. split; vm_compute; reflexivity. Qed.
