(* ===== verification/BundleInfo.v ===== *)
(** What a device tells the others about its applications ([distributed_bundle_info.cpp]),
    and the reader of JSON members it uses ([mission/json_util.h]).

    A record is kept in the distributed database as a JSON text that nlohmann prints and
    parses. The library and the constants of the application framework are not part of
    the repository: they are parameters ([Nlohmann], [AppConstants]). Of a number the code
    reads only the integer part. An exception that [dump] throws on a text that is not
    UTF-8 is [None]. Parcels are those of [IpcParcel]. *)

From S2P Require Import Prelude StdMap SchedUtils Json ContinueInfo IpcParcel.
From stdpp Require Import countable.
#[local] Open Scope string_scope.
#[local] Open Scope list_scope.
#[local] Open Scope Z_scope.

(** ** nlohmann *)

Class Nlohmann := {
  nl_dump : json -> option string;
  nl_parse : string -> option json;
  (** Texts that are UTF-8. *)
  nl_utf8 : string -> bool;
}.

(** The documents of nlohmann: members in the order of their names, numbers of 64 bits. *)
Fixpoint nl_wf {NL : Nlohmann} (j : json) : Prop :=
  match j with
  | JNull | JBool _ => True
  | JNumber n => -9223372036854775808 <= n < 18446744073709551616
  | JString s => nl_utf8 s = true
  | JArray l => foldr (fun x P => nl_wf x /\ P) True l
  | JObject l => msorted l /\ foldr (fun kv P => nl_utf8 kv.1 = true /\ nl_wf kv.2 /\ P) True l
  end.

(** A document that is printed is parsed to itself, texts of ASCII characters are UTF-8, and
    an empty text is not a document. *)
Definition ascii_text (s : string) : bool := forallb (fun c => ascii_byte c <? 128) (String.list_ascii_of_string s).
Class NlohmannLaws `{Nlohmann} : Prop := {
  nl_round : forall j, nl_wf j -> exists s, nl_dump j = Some s /\ nl_parse s = Some j;
  nl_ascii : forall s, ascii_text s = true -> nl_utf8 s = true;
  nl_empty : nl_parse "" = None;
}.

(** [json\[key\] = value], [find] and [at]. *)
Definition nl_set (key : string) (v : json) (l : list (string * json)) : list (string * json) := mset key v l.
Definition nl_find (j : json) (key : string) : option json := match j with JObject l => mfind key l | _ => None end.
(** A braced list of members. *)
Definition nl_object (l : list (string * json)) : json := JObject (fold_left (fun m kv => nl_set kv.1 kv.2 m) l []).

(** ** Constants of the application framework *)

Class AppConstants := {
  MAX_JSON_ARRAY_LENGTH : Z;
  MAX_JSON_ELEMENT_LENGTH : Z;
  ERR_APPEXECFWK_PARSE_PROFILE_PROP_SIZE_CHECK_ERROR : Z;
  ERR_APPEXECFWK_PARSE_PROFILE_PROP_TYPE_ERROR : Z;
  ERR_APPEXECFWK_PARSE_PROFILE_MISSING_PROP : Z;
  Constants_BUNDLE_NAME : string;
  FILE_UNDERLINE : string;
}.

Definition ERR_OK : Z := 0.
Definition JSON_KEY_VERSION := "version".
Definition JSON_KEY_VERSION_CODE := "versionCode".
Definition JSON_KEY_COMPATIBLE_VERSION_CODE := "compatibleVersionCode".
Definition JSON_KEY_VERSION_NAME := "versionName".
Definition JSON_KEY_MIN_COMPATIBLE_VERSION := "minCompatibleVersion".
Definition JSON_KEY_TARGET_VERSION_CODE := "targetVersionCode".
Definition JSON_KEY_APP_ID := "appId".
Definition JSON_KEY_ENABLED := "enabled".
Definition JSON_KEY_BUNDLE_NAME_ID := "bundleNameId".
Definition JSON_KEY_UPDATE_TIME := "updateTime".
Definition JSON_KEY_DEVELOPER_ID := "developerId".
Definition JSON_KEY_DMS_ABILITY_INFOS := "dmsAbilityInfos".
Definition JSON_KEY_DMS_ABILITY_NAME := "abilityName".
Definition JSON_KEY_DMS_CONTINUETYPE := "continueType".
Definition JSON_KEY_DMS_CONTINUETYPEID := "continueTypeId".
Definition JSON_KEY_DMS_USERID := "userIdArr".
Definition JSON_KEY_DMS_MODULENAME := "moduleName".
Definition JSON_KEY_DMS_CONTINUEBUNDLENAME := "continueBundleName".
Definition JSON_KEY_DMS_MAX_BUNDLENAME_ID := "maxBundleNameId".

(** ** The records *)

Record PublicRecordsInfo := mkPublicRecordsInfo { maxBundleNameId : Z }.

Record DmsAbilityInfo := mkDmsAbilityInfo {
  abilityName : string;
  continueType : list string;
  continueTypeId : list Z;
  moduleName : string;
  continueBundleName : list string;
}.

Record DmsBundleInfo := mkDmsBundleInfo {
  version : Z;
  bundleName : string;
  versionCode : Z;
  versionName : string;
  minCompatibleVersion : Z;
  targetVersionCode : Z;
  compatibleVersionCode : Z;
  appId : string;
  enabled : bool;
  bundleNameId : Z;
  updateTime : Z;
  developerId : string;
  dmsAbilityInfos : list DmsAbilityInfo;
  userIdArr : list Z;
}.

Definition PublicRecordsInfo_new : PublicRecordsInfo := mkPublicRecordsInfo 0.
Definition DmsAbilityInfo_new : DmsAbilityInfo := mkDmsAbilityInfo "" [] [] "" [].
Definition DmsBundleInfo_new : DmsBundleInfo := mkDmsBundleInfo 1 "" 0 "" 0 0 0 "" true 0 0 "" [] [].

Inductive JsonType := NULLABLE | BOOLEAN | NUMBER | OBJECT | ARRAY | STRING.
Inductive ArrayType := A_NUMBER | A_OBJECT | A_STRING | NOT_ARRAY.

Definition i64 (x : Z) : Z := (x + 9223372036854775808) mod 18446744073709551616 - 9223372036854775808.

Section Info.
Context {NL : Nlohmann} {AC : AppConstants}.

(** ** Reading members *)

Definition is_boolean (j : json) : bool := match j with JBool _ => true | _ => false end.
Definition is_number (j : json) : bool := match j with JNumber _ => true | _ => false end.
Definition is_object (j : json) : bool := match j with JObject _ => true | _ => false end.
Definition is_array (j : json) : bool := match j with JArray _ => true | _ => false end.
Definition is_string (j : json) : bool := match j with JString _ => true | _ => false end.

(** [get<T>()], called after the kind of the value was tested. *)
Definition get_num (w : Z -> Z) (j : json) : Z := match j with JNumber n => w n | _ => 0 end.
Definition get_bool (j : json) : bool := match j with JBool b => b | _ => false end.
Definition get_str (j : json) : string := match j with JString s => s | _ => "" end.
Definition get_vec {A} (get : json -> A) (j : json) : list A := match j with JArray l => map get l | _ => [] end.
Definition elements (j : json) : list json := match j with JArray l => l | JObject l => map snd l | _ => [] end.

Definition CheckArrayType {T} (value : json) (get : json -> T) (arrayType : ArrayType) (data : T) (parseResult : Z) : T * Z :=
  let arrays := elements value in
  let typed (is_kind : json -> bool) :=
    let parseResult := if forallb is_kind arrays then parseResult else ERR_APPEXECFWK_PARSE_PROFILE_PROP_TYPE_ERROR in
    if parseResult =? ERR_OK then (get value, parseResult) else (data, parseResult) in
  match arrays with
  | [] => (data, parseResult)
  | _ =>
      if MAX_JSON_ARRAY_LENGTH <? len arrays then (data, ERR_APPEXECFWK_PARSE_PROFILE_PROP_SIZE_CHECK_ERROR)
      else match arrayType with
           | A_STRING => typed is_string
           | A_OBJECT => typed is_object
           | A_NUMBER => typed is_number
           | NOT_ARRAY => (data, parseResult)
           end
  end.

(** The value [data] of a member and the result so far. *)
Definition GetValueIfFindKey {T} (jsonObject : json) (key : string) (get : json -> T) (jsonType : JsonType)
    (isNecessary : bool) (arrayType : ArrayType) (data : T) (parseResult : Z) : T * Z :=
  if negb (parseResult =? 0) then (data, parseResult)
  else match nl_find jsonObject key with
       | Some v =>
           let typed (is_kind : json -> bool) :=
             if is_kind v then (get v, parseResult) else (data, ERR_APPEXECFWK_PARSE_PROFILE_PROP_TYPE_ERROR) in
           match jsonType with
           | BOOLEAN => typed is_boolean
           | NUMBER => typed is_number
           | OBJECT => typed is_object
           | ARRAY => if is_array v then CheckArrayType v get arrayType data parseResult
                      else (data, ERR_APPEXECFWK_PARSE_PROFILE_PROP_TYPE_ERROR)
           | STRING =>
               if is_string v
               then (get v, if MAX_JSON_ELEMENT_LENGTH <? Z.of_nat (String.length (get_str v))
                            then ERR_APPEXECFWK_PARSE_PROFILE_PROP_SIZE_CHECK_ERROR else parseResult)
               else (data, ERR_APPEXECFWK_PARSE_PROFILE_PROP_TYPE_ERROR)
           | NULLABLE => (data, parseResult)
           end
       | None => (data, if isNecessary then ERR_APPEXECFWK_PARSE_PROFILE_MISSING_PROP else parseResult)
       end.

Definition number (w : Z -> Z) (o : json) (key : string) := GetValueIfFindKey o key (get_num w) NUMBER false NOT_ARRAY.
Definition text (o : json) (key : string) := GetValueIfFindKey o key get_str STRING false NOT_ARRAY.
Definition texts (o : json) (key : string) := GetValueIfFindKey o key (get_vec get_str) ARRAY false A_STRING.
Definition bytes8 (o : json) (key : string) := GetValueIfFindKey o key (get_vec (get_num u8)) ARRAY false A_NUMBER.

(** [ParseInfoFromJsonStr] and [GetJsonStrFromInfo], over the conversion of the type. *)
Definition GetJsonStrFromInfo {T} (to_json : T -> json) (t : T) : option string := nl_dump (to_json t).
Definition ParseInfoFromJsonStr {T} (from_json : json -> T) (data : option string) (t : T) : bool * T :=
  match data with
  | None => (false, t)
  | Some s => match nl_parse s with None => (false, t) | Some j => (true, from_json j) end
  end.

(** ** The largest number given to a bundle *)

Definition PublicRecordsInfo_ToString (i : PublicRecordsInfo) : option string :=
  nl_dump (JObject (nl_set JSON_KEY_DMS_MAX_BUNDLENAME_ID (JNumber (maxBundleNameId i)) [])).

Definition PublicRecordsInfo_to_json (i : PublicRecordsInfo) : json :=
  nl_object [(JSON_KEY_DMS_MAX_BUNDLENAME_ID, JNumber (maxBundleNameId i))].
(** Reads the member of another record. *)
Definition PublicRecordsInfo_from_json (o : json) (i : PublicRecordsInfo) : PublicRecordsInfo :=
  mkPublicRecordsInfo (number u16 o JSON_KEY_DMS_CONTINUETYPEID (maxBundleNameId i) ERR_OK).1.

Definition PublicRecordsInfo_FromJsonString (s : string) (i : PublicRecordsInfo) : bool * PublicRecordsInfo :=
  match nl_parse s with
  | None => (false, i)
  | Some o =>
      let '(m, r) := number u16 o JSON_KEY_DMS_MAX_BUNDLENAME_ID (maxBundleNameId i) ERR_OK in
      (r =? ERR_OK, mkPublicRecordsInfo m)
  end.

(** ** Abilities *)

Definition strings_json (l : list string) : json := JArray (map JString l).
Definition numbers_json (l : list Z) : json := JArray (map JNumber l).

Definition DmsAbilityInfo_to_json (a : DmsAbilityInfo) : json :=
  nl_object [(JSON_KEY_DMS_ABILITY_NAME, JString (abilityName a));
             (JSON_KEY_DMS_CONTINUETYPE, strings_json (continueType a));
             (JSON_KEY_DMS_CONTINUETYPEID, numbers_json (continueTypeId a));
             (JSON_KEY_DMS_MODULENAME, JString (moduleName a));
             (JSON_KEY_DMS_CONTINUEBUNDLENAME, strings_json (continueBundleName a))].

(** The result of the reader is only logged. *)
Definition DmsAbilityInfo_from_json (o : json) (a : DmsAbilityInfo) : DmsAbilityInfo :=
  let '(name, r) := text o JSON_KEY_DMS_ABILITY_NAME (abilityName a) ERR_OK in
  let '(types, r) := texts o JSON_KEY_DMS_CONTINUETYPE (continueType a) r in
  let '(ids, r) := bytes8 o JSON_KEY_DMS_CONTINUETYPEID (continueTypeId a) r in
  let '(module, r) := text o JSON_KEY_DMS_MODULENAME (moduleName a) r in
  let '(bundles, r) := texts o JSON_KEY_DMS_CONTINUEBUNDLENAME (continueBundleName a) r in
  mkDmsAbilityInfo name types ids module bundles.

Definition get_ability (j : json) : DmsAbilityInfo := DmsAbilityInfo_from_json j DmsAbilityInfo_new.

(** ** Bundles *)

Definition DmsBundleInfo_members (i : DmsBundleInfo) : list (string * json) :=
  [(JSON_KEY_VERSION, JNumber (version i));
   (Constants_BUNDLE_NAME, JString (bundleName i));
   (JSON_KEY_VERSION_CODE, JNumber (versionCode i));
   (JSON_KEY_VERSION_NAME, JString (versionName i));
   (JSON_KEY_COMPATIBLE_VERSION_CODE, JNumber (compatibleVersionCode i));
   (JSON_KEY_MIN_COMPATIBLE_VERSION, JNumber (minCompatibleVersion i));
   (JSON_KEY_TARGET_VERSION_CODE, JNumber (targetVersionCode i));
   (JSON_KEY_APP_ID, JString (appId i));
   (JSON_KEY_ENABLED, JBool (enabled i));
   (JSON_KEY_BUNDLE_NAME_ID, JNumber (bundleNameId i));
   (JSON_KEY_UPDATE_TIME, JNumber (updateTime i));
   (JSON_KEY_DEVELOPER_ID, JString (developerId i));
   (JSON_KEY_DMS_ABILITY_INFOS, JArray (map DmsAbilityInfo_to_json (dmsAbilityInfos i)));
   (JSON_KEY_DMS_USERID, numbers_json (userIdArr i))].

Definition DmsBundleInfo_ToString (i : DmsBundleInfo) : option string := nl_dump (nl_object (DmsBundleInfo_members i)).

Definition DmsBundleInfo_read (o : json) (i : DmsBundleInfo) : DmsBundleInfo * Z :=
  let '(v, r) := number u32 o JSON_KEY_VERSION (version i) ERR_OK in
  let '(name, r) := text o Constants_BUNDLE_NAME (bundleName i) r in
  let '(code, r) := number u32 o JSON_KEY_VERSION_CODE (versionCode i) r in
  let '(compatible, r) := number u32 o JSON_KEY_COMPATIBLE_VERSION_CODE (compatibleVersionCode i) r in
  let '(vname, r) := text o JSON_KEY_VERSION_NAME (versionName i) r in
  let '(minimal, r) := number u32 o JSON_KEY_MIN_COMPATIBLE_VERSION (minCompatibleVersion i) r in
  let '(target, r) := number u32 o JSON_KEY_TARGET_VERSION_CODE (targetVersionCode i) r in
  let '(app, r) := text o JSON_KEY_APP_ID (appId i) r in
  let '(on, r) := GetValueIfFindKey o JSON_KEY_ENABLED get_bool BOOLEAN false NOT_ARRAY (enabled i) r in
  let '(id, r) := number u16 o JSON_KEY_BUNDLE_NAME_ID (bundleNameId i) r in
  let '(time, r) := number i64 o JSON_KEY_UPDATE_TIME (updateTime i) r in
  let '(dev, r) := text o JSON_KEY_DEVELOPER_ID (developerId i) r in
  let '(abilities, r) := GetValueIfFindKey o JSON_KEY_DMS_ABILITY_INFOS (get_vec get_ability) ARRAY false A_OBJECT (dmsAbilityInfos i) r in
  let '(users, r) := bytes8 o JSON_KEY_DMS_USERID (userIdArr i) r in
  (mkDmsBundleInfo v name code vname minimal target compatible app on id time dev abilities users, r).

Definition DmsBundleInfo_FromJsonString (s : string) (i : DmsBundleInfo) : bool * DmsBundleInfo :=
  match nl_parse s with
  | None => (false, i)
  | Some o => let '(i, r) := DmsBundleInfo_read o i in (r =? ERR_OK, i)
  end.
End Info.

(** ** Parcels

    [CONTAINER_SECURITY_VERIFY] is a macro of another repository: the parameter [verify].
    Words of 32 bits, signed or not, and truth values are values of the same kind in a message. *)

Section InParcels.
Context {T16 : Text16} {IP : IpcParcel}.
Variable verify : Z -> Parcel -> bool.

Definition read_u32 (p : Parcel) : Z * Parcel := let '(z, p) := ReadInt32_or0 p in (u32 z, p).
Definition read_width (w : Width) (p : Parcel) : Z * Parcel := default (0, p) (ReadNum w p).
Definition read_bool (p : Parcel) : bool * Parcel := let '(z, p) := ReadInt32_or0 p in (negb (z =? 0), p).
Definition read_text (p : Parcel) : string * Parcel := let '(t, p) := ReadString16_or_empty p in (Str16ToStr8 t, p).
Fixpoint read_many {A} (read : Parcel -> A * Parcel) (n : nat) (p : Parcel) : list A * Parcel :=
  match n with
  | O => ([], p)
  | S n => let '(x, p) := read p in let '(l, p) := read_many read n p in (x :: l, p)
  end.

Definition PublicRecordsInfo_ReadFromParcel (p : Parcel) : PublicRecordsInfo * Parcel :=
  let '(m, p) := read_width W16 p in (mkPublicRecordsInfo m, p).
Definition PublicRecordsInfo_Marshalling (i : PublicRecordsInfo) (p : Parcel) : Parcel := put (INum W16 (maxBundleNameId i)) p.
Definition PublicRecordsInfo_Unmarshalling (p : Parcel) : option PublicRecordsInfo * Parcel :=
  let '(i, p) := PublicRecordsInfo_ReadFromParcel p in (Some i, p).

Definition DmsAbilityInfo_ReadFromParcel (p : Parcel) : option (DmsAbilityInfo * Parcel) :=
  let '(name, p) := read_text p in
  '(n, p) ← ReadInt32 p;
  if negb (verify n p) then None
  else
    let '(types, p) := read_many read_text (Z.to_nat n) p in
    '(n, p) ← ReadInt32 p;
    if negb (verify n p) then None
    else
      let '(ids, p) := read_many (read_width W8) (Z.to_nat n) p in
      let '(module, p) := read_text p in
      Some (mkDmsAbilityInfo name types ids module [], p).

(** The numbers of types and of identities are not written. *)
Definition DmsAbilityInfo_Marshalling (a : DmsAbilityInfo) (p : Parcel) : Parcel :=
  let p := put (IStr16 (Str8ToStr16 (abilityName a))) p in
  let p := fold_left (fun p t => put (IStr16 (Str8ToStr16 t)) p) (continueType a) p in
  let p := fold_left (fun p z => put (INum W8 z) p) (continueTypeId a) p in
  put (IStr16 (Str8ToStr16 (moduleName a))) p.
Definition DmsAbilityInfo_Unmarshalling (p : Parcel) : option (DmsAbilityInfo * Parcel) := DmsAbilityInfo_ReadFromParcel p.

(** [ReadParcelable]. *)
Definition read_ability (p : Parcel) : option (DmsAbilityInfo * Parcel) := p ← ReadMark p; DmsAbilityInfo_Unmarshalling p.
Fixpoint read_abilities (n : nat) (p : Parcel) : option (list DmsAbilityInfo * Parcel) :=
  match n with
  | O => Some ([], p)
  | S n => '(a, p) ← read_ability p; '(l, p) ← read_abilities n p; Some (a :: l, p)
  end.

Definition DmsBundleInfo_ReadFromParcel (p : Parcel) : option (DmsBundleInfo * Parcel) :=
  let '(v, p) := read_u32 p in
  let '(code, p) := read_u32 p in
  let '(compatible, p) := read_u32 p in
  let '(minimal, p) := read_u32 p in
  let '(target, p) := read_u32 p in
  let '(name, p) := read_text p in
  let '(vname, p) := read_text p in
  let '(app, p) := read_text p in
  let '(on, p) := read_bool p in
  let '(id, p) := read_width W16 p in
  let '(time, p) := read_width W64 p in
  let '(dev, p) := read_text p in
  '(n, p) ← ReadInt32 p;
  let n := u32 n in
  if negb (verify n p) then None
  else
    '(abilities, p) ← read_abilities (Z.to_nat n) p;
    '(n, p) ← ReadInt32 p;
    let n := u32 n in
    if negb (verify n p) then None
    else
      let '(users, p) := read_many (read_width W8) (Z.to_nat n) p in
      Some (mkDmsBundleInfo v name code vname minimal target compatible app on id time dev abilities users, p).

Definition write_ability (p : Parcel) (a : DmsAbilityInfo) : Parcel := DmsAbilityInfo_Marshalling a (put IMark p).
(** The developer and the numbers of abilities and of users are not written. *)
Definition DmsBundleInfo_Marshalling (i : DmsBundleInfo) (p : Parcel) : Parcel :=
  let p := put (IInt (version i)) p in
  let p := put (IInt (versionCode i)) p in
  let p := put (IInt (compatibleVersionCode i)) p in
  let p := put (IInt (minCompatibleVersion i)) p in
  let p := put (IInt (targetVersionCode i)) p in
  let p := put (IStr16 (Str8ToStr16 (bundleName i))) p in
  let p := put (IStr16 (Str8ToStr16 (versionName i))) p in
  let p := put (IStr16 (Str8ToStr16 (appId i))) p in
  let p := put (IInt (Z.b2z (enabled i))) p in
  let p := put (INum W16 (bundleNameId i)) p in
  let p := put (INum W64 (updateTime i)) p in
  let p := fold_left write_ability (dmsAbilityInfos i) p in
  fold_left (fun p z => put (INum W8 z) p) (userIdArr i) p.
Definition DmsBundleInfo_Unmarshalling (p : Parcel) : option (DmsBundleInfo * Parcel) := DmsBundleInfo_ReadFromParcel p.
End InParcels.

(** ** Records that the reader accepts *)

Section Fits.
Context {NL : Nlohmann} {AC : AppConstants}.

Definition fits_u8 (z : Z) : bool := (0 <=? z) && (z <? 256).
Definition fits_u16 (z : Z) : bool := (0 <=? z) && (z <? 65536).
Definition fits_u32 (z : Z) : bool := (0 <=? z) && (z <? 4294967296).
Definition fits_i64 (z : Z) : bool := (-9223372036854775808 <=? z) && (z <? 9223372036854775808).
Definition fits_text (s : string) : bool := nl_utf8 s && (Z.of_nat (String.length s) <=? MAX_JSON_ELEMENT_LENGTH).
Definition fits_list {A} (ok : A -> bool) (l : list A) : bool := forallb ok l && (len l <=? MAX_JSON_ARRAY_LENGTH).
Definition fits_ability (a : DmsAbilityInfo) : bool :=
  fits_text (abilityName a) && fits_list nl_utf8 (continueType a) && fits_list fits_u8 (continueTypeId a)
  && fits_text (moduleName a) && fits_list nl_utf8 (continueBundleName a).
Definition fits_info (i : DmsBundleInfo) : bool :=
  fits_u32 (version i) && fits_text (bundleName i) && fits_u32 (versionCode i) && fits_text (versionName i)
  && fits_u32 (minCompatibleVersion i) && fits_u32 (targetVersionCode i) && fits_u32 (compatibleVersionCode i)
  && fits_text (appId i) && fits_u16 (bundleNameId i) && fits_i64 (updateTime i) && fits_text (developerId i)
  && fits_list fits_ability (dmsAbilityInfos i) && fits_list fits_u8 (userIdArr i).

(** The name of the member that the framework chooses is none of the others. *)
Definition info_keys : list string :=
  [JSON_KEY_VERSION; JSON_KEY_VERSION_CODE; JSON_KEY_VERSION_NAME; JSON_KEY_COMPATIBLE_VERSION_CODE;
   JSON_KEY_MIN_COMPATIBLE_VERSION; JSON_KEY_TARGET_VERSION_CODE; JSON_KEY_APP_ID; JSON_KEY_ENABLED;
   JSON_KEY_BUNDLE_NAME_ID; JSON_KEY_UPDATE_TIME; JSON_KEY_DEVELOPER_ID; JSON_KEY_DMS_ABILITY_INFOS; JSON_KEY_DMS_USERID].
Class AppConstantsLaws : Prop := {
  bundle_key_other : forallb (fun k => negb (String.eqb k Constants_BUNDLE_NAME)) info_keys = true;
  bundle_key_ascii : ascii_text Constants_BUNDLE_NAME = true;
}.
End Fits.

Section Round.
Context {NL : Nlohmann} {AC : AppConstants} {NLL : NlohmannLaws} {ACL : AppConstantsLaws}.

Lemma fold_set_find l m k : nl_find (JObject (fold_left (fun m kv => nl_set kv.1 kv.2 m) l m)) k =
  match find_member k (rev l) with Some v => Some v | None => mfind k m end.
Proof.
  cbn [nl_find]. revert m. induction l as [|[k0 v] l IH]; intros m; [done|]. cbn [fold_left rev]. rewrite IH.
  assert (forall l1 l2, find_member k (l1 ++ l2) = match find_member k l1 with Some v => Some v | None => find_member k l2 end) as Happ.
  { induction l1 as [|[a b] l1 IH1]; intros l2; [done|]. cbn [find_member app]. destruct (String.eqb k a); [done|apply IH1]. }
  rewrite Happ. destruct (find_member k (rev l)); [done|]. cbn [find_member fst snd]. unfold nl_set. rewrite mfind_mset, same_string. by destruct (String.eqb k k0).
Qed.

Lemma nl_find_object l k : nl_find (nl_object l) k = find_member k (rev l).
Proof. unfold nl_object. rewrite fold_set_find. by destruct (find_member k (rev l)). Qed.

(** *** Reading one member *)
Context (o : json).

Lemma number_ok w k d n : nl_find o k = Some (JNumber n) -> w n = n -> number w o k d ERR_OK = (n, ERR_OK).
Proof. intros E W. unfold number, GetValueIfFindKey. rewrite E. cbn. by rewrite W. Qed.
Lemma bool_ok k d b : nl_find o k = Some (JBool b) -> GetValueIfFindKey o k get_bool BOOLEAN false NOT_ARRAY d ERR_OK = (b, ERR_OK).
Proof. intros E. unfold GetValueIfFindKey. by rewrite E. Qed.
Lemma text_ok k d s : nl_find o k = Some (JString s) -> fits_text s = true -> text o k d ERR_OK = (s, ERR_OK).
Proof.
  intros E F. apply andb_true_iff in F as [_ F]. unfold text, GetValueIfFindKey. rewrite E. cbn.
  apply Z.leb_le in F. destruct (Z.ltb_spec MAX_JSON_ELEMENT_LENGTH (Z.of_nat (String.length s))); [lia|done].
Qed.
Lemma array_ok {A} (get : json -> A) (put : A -> json) (ok : A -> bool) is_kind at_ k (l : list A) :
  (forall x, ok x = true -> get (put x) = x /\ is_kind (put x) = true) ->
  (at_ = A_STRING /\ is_kind = is_string \/ at_ = A_OBJECT /\ is_kind = is_object \/ at_ = A_NUMBER /\ is_kind = is_number) ->
  nl_find o k = Some (JArray (map put l)) -> fits_list ok l = true ->
  GetValueIfFindKey o k (get_vec get) ARRAY false at_ [] ERR_OK = (l, ERR_OK).
Proof.
  intros Hg Ha E F. apply andb_true_iff in F as [F1 F2]. unfold GetValueIfFindKey. rewrite E. cbn [is_array negb Z.eqb ERR_OK].
  unfold CheckArrayType. cbn [elements get_vec]. destruct l as [|x l]; [done|]. set (l' := x :: l) in *. clearbody l'. cbn [map].
  assert (map get (map put l') = l' /\ forallb is_kind (map put l') = true) as [Hm Hi].
  { clear -Hg F1. induction l' as [|y l' IH]; [done|]. cbn [forallb map] in *. apply andb_true_iff in F1 as [Hy F1].
    destruct (Hg y Hy) as [-> ->]. by destruct (IH F1) as [-> ->]. }
  destruct (map put l') as [|j js] eqn:El; [by destruct l'|]. rewrite <- El in *. clear El.
  assert (MAX_JSON_ARRAY_LENGTH <? len (map put l') = false) as ->.
  { apply Z.leb_le in F2. unfold len in *. rewrite length_map. lia. }
  destruct Ha as [[-> ->]|[[-> ->]|[-> ->]]]; rewrite Hi; cbn; by rewrite Hm.
Qed.
End Round.

Section RoundTrip.
Context {NL : Nlohmann} {AC : AppConstants} {NLL : NlohmannLaws} {ACL : AppConstantsLaws}.

(** *** Well-formed documents *)

Definition wf_member (k : string) (v : json) : Prop := nl_utf8 k = true /\ nl_wf v.

Lemma nl_wf_array l : Forall nl_wf l -> nl_wf (JArray l).
Proof. induction 1; cbn in *; auto. Qed.
Lemma nl_wf_members l : msorted l -> mall wf_member l -> nl_wf (JObject l).
Proof. intros S F. cbn. split; [done|]. clear S. induction F as [|kv l [? ?] _ IH]; cbn in *; auto. Qed.

Lemma mall_mset k v m : wf_member k v -> mall wf_member m -> mall wf_member (mset k v m).
Proof.
  intros Hp Hm. unfold mset. destruct (mfind k m); [|by apply insert_sorted_Forall].
  apply mall_mupdate; [|done]. intros k' v' [? _]. split; [done|apply Hp].
Qed.

Lemma nl_wf_object l : Forall (fun kv => nl_utf8 kv.1 = true /\ nl_wf kv.2) l -> nl_wf (nl_object l).
Proof.
  intros F. unfold nl_object.
  assert (forall m, msorted m -> mall wf_member m ->
    nl_wf (JObject (fold_left (fun m kv => nl_set kv.1 kv.2 m) l m))) as H.
  { induction F as [|kv l Hk _ IH]; intros m S M; [by apply nl_wf_members|]. cbn [fold_left].
    apply IH; [by apply mset_sorted|by apply mall_mset]. }
  apply H; constructor.
Qed.

Lemma nl_wf_strings l : forallb nl_utf8 l = true -> nl_wf (strings_json l).
Proof.
  intros F. apply nl_wf_array. apply Forall_map. induction l as [|x l IH]; constructor; cbn in F; apply andb_true_iff in F as [? ?]; cbn; auto.
Qed.
Lemma nl_wf_numbers l : forallb fits_u8 l = true -> nl_wf (numbers_json l).
Proof.
  intros F. apply nl_wf_array. apply Forall_map. induction l as [|x l IH]; constructor; cbn in F; apply andb_true_iff in F as [H ?]; [|auto].
  unfold fits_u8 in H. cbn. lia.
Qed.
Lemma fits_utf8 s : fits_text s = true -> nl_utf8 s = true.
Proof. by intros [? _]%andb_true_iff. Qed.
Lemma fits_all {A} (ok : A -> bool) l : fits_list ok l = true -> forallb ok l = true.
Proof. by intros [? _]%andb_true_iff. Qed.

Ltac fits_split H := unfold fits_info, fits_ability in H; repeat rewrite andb_true_iff in H; destruct_and? H.
Ltac member := constructor; [split; [apply nl_ascii; reflexivity|] |].

(** *** Abilities *)

Lemma ability_wf a : fits_ability a = true -> nl_wf (DmsAbilityInfo_to_json a).
Proof.
  intros F. fits_split F. apply nl_wf_object. repeat member; cbn [snd]; auto using nl_wf_strings, nl_wf_numbers, fits_all.
  all: cbn; by apply fits_utf8.
Qed.

Lemma string_item s : nl_utf8 s = true -> get_str (JString s) = s /\ is_string (JString s) = true.
Proof. done. Qed.
Lemma byte_item z : fits_u8 z = true -> get_num u8 (JNumber z) = z /\ is_number (JNumber z) = true.
Proof. unfold fits_u8. intros F. split; [|done]. apply u8_id. unfold is_u8. lia. Qed.

Lemma texts_ok o k l : nl_find o k = Some (strings_json l) -> fits_list nl_utf8 l = true -> texts o k [] ERR_OK = (l, ERR_OK).
Proof. intros E F. eapply (array_ok o get_str JString nl_utf8 is_string); [apply string_item|by left|done|done]. Qed.
Lemma bytes8_ok o k l : nl_find o k = Some (numbers_json l) -> fits_list fits_u8 l = true -> bytes8 o k [] ERR_OK = (l, ERR_OK).
Proof. intros E F. eapply (array_ok o (get_num u8) JNumber fits_u8 is_number); [apply byte_item|by right; right|done|done]. Qed.

Lemma ability_round a : fits_ability a = true -> get_ability (DmsAbilityInfo_to_json a) = a.
Proof.
  intros F. fits_split F. unfold get_ability, DmsAbilityInfo_from_json, DmsAbilityInfo_to_json. cbn [abilityName continueType continueTypeId moduleName continueBundleName DmsAbilityInfo_new].
  erewrite text_ok; [|by rewrite nl_find_object|done]. erewrite texts_ok; [|by rewrite nl_find_object|done].
  erewrite bytes8_ok; [|by rewrite nl_find_object|done]. erewrite text_ok; [|by rewrite nl_find_object|done].
  erewrite texts_ok; [|by rewrite nl_find_object|done]. by destruct a.
Qed.

Lemma ability_item a : fits_ability a = true ->
  get_ability (DmsAbilityInfo_to_json a) = a /\ is_object (DmsAbilityInfo_to_json a) = true.
Proof. intros F. split; [by apply ability_round|done]. Qed.

(** *** Bundles *)

Lemma info_wf i : fits_info i = true -> nl_wf (nl_object (DmsBundleInfo_members i)).
Proof.
  intros F. fits_split F. apply nl_wf_object. unfold DmsBundleInfo_members.
  member; [|constructor; [split; [apply nl_ascii, bundle_key_ascii|]|]]; repeat member; cbn [snd]; auto using nl_wf_numbers, fits_all.
  all: unfold fits_u32, fits_u16, fits_i64 in *; try (cbn; by apply fits_utf8); try (cbn; lia).
  apply nl_wf_array, Forall_map, List.Forall_forall. intros a Ha. apply ability_wf. revert a Ha. apply forallb_forall. by apply fits_all.
Qed.

Lemma find_same k v l : find_member k ((k, v) :: l) = Some v.
Proof. cbn. by rewrite String.eqb_refl. Qed.
Lemma find_other k a v l : String.eqb k a = false -> find_member k ((a, v) :: l) = find_member k l.
Proof. cbn. by intros ->. Qed.
Lemma key_other k : In k info_keys -> String.eqb k Constants_BUNDLE_NAME = false /\ String.eqb Constants_BUNDLE_NAME k = false.
Proof.
  intros Hk. pose proof bundle_key_other as H. rewrite forallb_forall in H. specialize (H k Hk). apply negb_true_iff in H.
  by rewrite (String.eqb_sym Constants_BUNDLE_NAME).
Qed.

Ltac is_key := cbn; tauto.
Ltac member_at := rewrite nl_find_object; unfold DmsBundleInfo_members; cbn [rev app];
  repeat first [ apply find_same | rewrite find_other; [|first [reflexivity|apply key_other; is_key]] ].

Lemma info_read i : fits_info i = true -> DmsBundleInfo_read (nl_object (DmsBundleInfo_members i)) DmsBundleInfo_new = (i, ERR_OK).
Proof.
  intros F. fits_split F. unfold DmsBundleInfo_read. cbn [dmsAbilityInfos userIdArr DmsBundleInfo_new].
  unfold fits_u32, fits_u16, fits_i64 in *.
  do 8 first [ erewrite number_ok; [|member_at|unfold u32; apply Z.mod_small; lia] | erewrite text_ok; [|member_at|done] ].
  erewrite bool_ok; [|member_at].
  erewrite number_ok; [|member_at|apply u16_id; unfold is_u16; lia].
  erewrite number_ok; [|member_at|unfold i64; rewrite Z.mod_small; lia].
  erewrite text_ok; [|member_at|done].
  erewrite (array_ok _ get_ability DmsAbilityInfo_to_json fits_ability is_object); [|apply ability_item|by right; left|member_at|done].
  erewrite bytes8_ok; [|member_at|done]. by destruct i.
Qed.

(** A record that fits the limits of the reader is printed, and read back from its text. *)
Lemma info_round i : fits_info i = true ->
  exists s, DmsBundleInfo_ToString i = Some s /\ DmsBundleInfo_FromJsonString s DmsBundleInfo_new = (true, i).
Proof.
  intros F. destruct (nl_round _ (info_wf i F)) as (s & E & P). exists s. split; [exact E|].
  unfold DmsBundleInfo_FromJsonString. by rewrite P, info_read.
Qed.

Lemma public_round m : fits_u16 m = true ->
  exists s, PublicRecordsInfo_ToString (mkPublicRecordsInfo m) = Some s /\
    forall i, PublicRecordsInfo_FromJsonString s i = (true, mkPublicRecordsInfo m).
Proof.
  unfold fits_u16. intros F. destruct (nl_round (nl_object [(JSON_KEY_DMS_MAX_BUNDLENAME_ID, JNumber m)])) as (s & E & P).
  { apply nl_wf_object. repeat constructor; cbn; [by apply nl_ascii|lia..]. }
  exists s. split; [exact E|]. intros i. unfold PublicRecordsInfo_FromJsonString. rewrite P.
  erewrite number_ok; [done|by rewrite nl_find_object|apply u16_id; unfold is_u16; lia].
Qed.
End RoundTrip.

(** ** A printer and parser, and constants, for the witnesses *)

#[local] Instance binary_nlohmann : Nlohmann := {|
  nl_dump := fun j => Some (String Ascii.zero (pos_str (encode j))); nl_parse := fun s => match s with String _ s => decode (str_pos s) | EmptyString => None end; nl_utf8 := fun _ => true |}.
#[local] Instance binary_nlohmann_laws : NlohmannLaws.
Proof. split; [|done|done]. intros j _. eexists. split; [reflexivity|]. cbn. by rewrite str_pos_str, decode_encode. Qed.
#[local] Instance demo_constants : AppConstants := {|
  MAX_JSON_ARRAY_LENGTH := 10240; MAX_JSON_ELEMENT_LENGTH := 4096;
  ERR_APPEXECFWK_PARSE_PROFILE_PROP_SIZE_CHECK_ERROR := 3; ERR_APPEXECFWK_PARSE_PROFILE_PROP_TYPE_ERROR := 1;
  ERR_APPEXECFWK_PARSE_PROFILE_MISSING_PROP := 2; Constants_BUNDLE_NAME := "bundleName"; FILE_UNDERLINE := "_" |}.
#[local] Instance demo_constants_laws : AppConstantsLaws.
Proof. by split. Qed.

(** The parcel of a record is not one that the reader of records accepts: lengths are not in it. *)
Lemma parcel_not_read_back :
  DmsBundleInfo_Unmarshalling (T16 := demo_text) (IP := demo_parcel) (fun _ _ => true)
    (DmsBundleInfo_Marshalling (T16 := demo_text) (IP := demo_parcel) DmsBundleInfo_new (Parcel_empty (IpcParcel := demo_parcel))) = None
  /\ DmsAbilityInfo_Unmarshalling (T16 := demo_text) (IP := demo_parcel) (fun _ _ => true)
    (DmsAbilityInfo_Marshalling (T16 := demo_text) (IP := demo_parcel) (mkDmsAbilityInfo "A" ["t"] [0] "m" [])
       (Parcel_empty (IpcParcel := demo_parcel))) = None.
Proof. split; reflexivity. Qed.
(** [from_json] of the largest number reads another member. *)
Lemma public_from_json_reads_other m :
  PublicRecordsInfo_from_json (PublicRecordsInfo_to_json (mkPublicRecordsInfo m)) PublicRecordsInfo_new = mkPublicRecordsInfo 0.
Proof. reflexivity. Qed.
