(* ===== verification/BundleStore.v ===== *)
(** The applications of the devices in the distributed database
    ([mission/distributed_bm_storage.cpp], and the functions of
    [bundle/bundle_manager_internal.cpp] and [common_event_listener.cpp] that only call it).

    Each device gives its applications numbers of 16 bits, which the broadcasts of missions
    carry, and stores a record per application; the database copies the records to the
    other devices. The database, the bundle manager and the accounts are code of other
    repositories: parameters. An operation may fail with any status at any time.

    [M] threads the state of the storage; [None] is what the code does not define: an
    exception that is not caught, the last entry of an empty table, or a recursion that
    does not end (numbers run out, the records are made again, numbers run out again, ...). *)

From S2P Require Import Prelude StdMap ContinueInfo BundleInfo.
#[local] Open Scope string_scope.
#[local] Open Scope list_scope.
#[local] Open Scope Z_scope.

(** ** The database *)

Inductive Status := SUCCESS | ERROR | IPC_ERROR | STORE_META_CHANGED | OtherStatus (code : Z).
#[export] Instance Status_eq : EqDecision Status.
Proof. solve_decision. Defined.
(** A key and a value. *)
Definition Entry : Type := string * string.

Class KvManager := {
  Kv : Type;
  (** The status, and whether the pointer is set. *)
  GetSingleKvStore : Kv -> Status * bool * Kv;
  DeleteKvStore : Kv -> Kv;
  kv_Put : string -> string -> Kv -> Status * Kv;
  kv_PutBatch : list Entry -> Kv -> Status * Kv;
  kv_Delete : string -> Kv -> Status * Kv;
  kv_DeleteBatch : list string -> Kv -> Status * Kv;
  kv_Get : string -> Kv -> Status * string * Kv;
  (** The entries of this device with a prefix, and those of a device. *)
  kv_GetEntries : string -> Kv -> Status * list Entry * Kv;
  kv_GetDeviceEntries : string -> Kv -> Status * list Entry * Kv;
  (** Requests to a device whose answer may not come in time ([None]). *)
  kv_GetFrom : string -> string -> Kv -> option (Status * string) * Kv;
  kv_GetEntriesFrom : string -> string -> Kv -> option (Status * list Entry) * Kv;
  kv_CloudSync : Kv -> Status * Kv;
  (** The number of a status. *)
  status_code : Status -> Z;
}.

(** ** What the application framework knows *)

Record AbilityInfo := mkAbilityInfo {
  ai_name : string;
  ai_continueType : list string;
  ai_moduleName : string;
  ai_continueBundleNames : list string;
  ai_continuable : bool;
}.
Record BundleInfo := mkBundleInfo {
  bi_name : string;
  bi_versionCode : Z;
  bi_compatibleVersion : Z;
  bi_versionName : string;
  bi_minCompatibleVersionCode : Z;
  bi_targetVersion : Z;
  bi_appId : string;
  bi_enabled : bool;
  bi_updateTime : Z;
  bi_abilityInfos : list AbilityInfo;
}.

(** The environment during an operation. *)
Record BmEnv := mkBmEnv {
  e_localUdid : string;
  e_localUuid : string;
  e_udidOf : string -> string;
  e_uuidOf : string -> string;
  e_systemAbilityManager : bool;
  e_bundleMgrSa : bool;
  e_GetBundleInfo : string -> option BundleInfo;
  e_GetBundleInfosForContinuation : option (list BundleInfo);
  (** The result and the accounts. *)
  e_accounts : Z * list Z;
  (** The result and the developer that is left in the argument. *)
  e_GetAppProvisionInfo : string -> Z -> string -> Z * string;
  (** Whether the build synchronises after package events. *)
  e_syncOnPackageEvent : bool;
}.

Definition PUBLIC_RECORDS : string := "publicRecords".
Definition MAX_TIMES : nat := 600.
Definition MAX_BUNDLEID : Z := 65535.
Definition MAX_CONTINUETYPEID : Z := 255.
Definition INVALID_REMOTE_PARAMETERS_ERR : Z := 29360131.
Definition CAN_NOT_FOUND_ABILITY_ERR : Z := 29360164.

Record ContinueEventInfo := mkContinueEventInfo {
  ev_networkId : string; ev_bundleName : string; ev_moduleName : string; ev_abilityName : string; ev_developerId : string }.

Section Store.
Context {NL : Nlohmann} {AC : AppConstants} {KM : KvManager}.

Record Bm := mkBm {
  kv_ : Kv;
  kvStorePtr_ : bool;
  bundleNameIdTables_ : zmap string;
  bundleMgr_ : bool;
  (** Calls of [PushAndPullData]. *)
  pulls : nat;
}.
Definition set_kv (k : Kv) (s : Bm) : Bm := mkBm k (kvStorePtr_ s) (bundleNameIdTables_ s) (bundleMgr_ s) (pulls s).
Definition set_ptr (p : bool) (s : Bm) : Bm := mkBm (kv_ s) p (bundleNameIdTables_ s) (bundleMgr_ s) (pulls s).
Definition set_table (t : zmap string) (s : Bm) : Bm := mkBm (kv_ s) (kvStorePtr_ s) t (bundleMgr_ s) (pulls s).
Definition set_mgr (b : bool) (s : Bm) : Bm := mkBm (kv_ s) (kvStorePtr_ s) (bundleNameIdTables_ s) b (pulls s).
Definition add_pull (s : Bm) : Bm := mkBm (kv_ s) (kvStorePtr_ s) (bundleNameIdTables_ s) (bundleMgr_ s) (S (pulls s)).

Definition M (A : Type) : Type := Bm -> option (A * Bm).
#[export] Instance M_ret : MRet M := fun A x s => Some (x, s).
#[export] Instance M_bind : MBind M := fun A B f m s => match m s with Some (x, s) => f x s | None => None end.
Definition undefined {A} : M A := fun _ => None.
Definition get_state : M Bm := fun s => Some (s, s).
Definition modify (f : Bm -> Bm) : M unit := fun s => Some (tt, f s).
Definition run_kv {A} (f : Kv -> A * Kv) : M A := fun s => let '(x, k) := f (kv_ s) in Some (x, set_kv k s).
(** A text that [dump] throws on. *)
Definition dumped (t : option string) : M string := fun s => match t with Some x => Some (x, s) | None => None end.

Variable env : BmEnv.

(** ** The store *)

Definition GetKvStore : M Status := fun s =>
  let '(status, ptr, k) := GetSingleKvStore (kv_ s) in
  let k := if decide (status = STORE_META_CHANGED) then DeleteKvStore k else k in
  Some (status, set_ptr ptr (set_kv k s)).

Definition TryTwice (func : M Status) : M unit :=
  status ← func;
  if decide (status = IPC_ERROR) then (_ ← func; mret tt) else mret tt.

Fixpoint open_loop (tryTimes : nat) : M bool :=
  match tryTimes with
  | O => s ← get_state; mret (kvStorePtr_ s)
  | S n =>
      status ← GetKvStore;
      s ← get_state;
      if bool_decide (status = SUCCESS) && kvStorePtr_ s then mret true else open_loop n
  end.
Definition CheckKvStore : M bool := s ← get_state; if kvStorePtr_ s then mret true else open_loop MAX_TIMES.

(** The constructor, with the store of the service. *)
Definition DmsBmStorage_new (k : Kv) : option (unit * Bm) := TryTwice GetKvStore (mkBm k false [] false 0).

Definition GetBundleMgr : M bool :=
  s ← get_state;
  if bundleMgr_ s then mret true
  else if negb (e_systemAbilityManager env) then mret false
  else if negb (e_bundleMgrSa env) then mret false
  else (_ ← modify (set_mgr true); mret true).

Definition PushAndPullData : M unit := modify add_pull.
Definition SyncOnPackageEvent : M unit := if e_syncOnPackageEvent env then PushAndPullData else mret tt.

Definition DeviceAndNameToKey (udid name : string) : string := udid +:+ FILE_UNDERLINE +:+ name.
Definition key_of_public (udid : string) : string := udid +:+ FILE_UNDERLINE +:+ PUBLIC_RECORDS.
(** [s.find(t) != npos]. *)
Definition str_contains (s t : string) : bool := match String.index 0 t s with Some _ => true | None => false end.

(** The second attempt after [IPC_ERROR]. *)
Definition again (op : Kv -> Status * Kv) : M Status :=
  status ← run_kv op;
  if decide (status = IPC_ERROR) then run_kv op else mret status.

(** ** Numbers of bundles *)

Definition GetLastBundleNameId (id : Z) : M (bool * Z) :=
  if String.eqb (e_localUdid env) "" then mret (false, id)
  else
    ok ← CheckKvStore;
    if negb ok then mret (false, id)
    else
      '(status, value) ← run_kv (kv_Get (key_of_public (e_localUdid env)));
      if negb (bool_decide (status = SUCCESS)) then mret (false, id)
      else
        let '(parsed, info) := PublicRecordsInfo_FromJsonString value PublicRecordsInfo_new in
        mret (if parsed then (true, maxBundleNameId info) else (false, id)).

Definition GetBundleNameId (name : string) (id : Z) : M (bool * Z) :=
  ok ← CheckKvStore;
  if negb ok then mret (false, id)
  else if String.eqb (e_localUdid env) "" then mret (false, id)
  else
    '(status, value) ← run_kv (kv_Get (DeviceAndNameToKey (e_localUdid env) name));
    if negb (bool_decide (status = SUCCESS)) then mret (false, id)
    else
      let '(parsed, info) := DmsBundleInfo_FromJsonString value DmsBundleInfo_new in
      mret (if parsed && String.eqb (bundleName info) name then (true, bundleNameId info) else (false, id)).

(** [rbegin()->first]: undefined for an empty table. *)
Definition last_key (t : zmap string) : option Z := fst <$> last t.

(** [insert] keeps an entry that is there. *)
Definition table_insert (id : Z) (name : string) (t : zmap string) : zmap string :=
  match zfind id t with Some _ => t | None => zset id name t end.
Definition AddBundleNameId (id : Z) (name : string) : M unit :=
  modify (fun s => set_table (table_insert id name (bundleNameIdTables_ s)) s).

Fixpoint erase_name (name : string) (t : zmap string) : zmap string :=
  match t with
  | [] => []
  | (id, n) :: t => if String.eqb n name then t else (id, n) :: erase_name name t
  end.
Definition DelBundleNameId (name : string) : M unit :=
  modify (fun s => set_table (erase_name name (bundleNameIdTables_ s)) s).

(** The larger of the last number of the table and the recorded one. *)
Definition largest_id : M Z :=
  '(_, recorded) ← GetLastBundleNameId 0;
  s ← get_state;
  match last_key (bundleNameIdTables_ s) with
  | Some k => mret (Z.max k recorded)
  | None => undefined
  end.

(** [isPackageChange && GetBundleNameId(...)]. *)
Definition known_id (name : string) (isPackageChange : bool) : M (bool * Z) :=
  if isPackageChange then GetBundleNameId name 0 else mret (false, 0).
Definition CreateBundleNameId (rebuild : M bool) (name : string) (isPackageChange : bool) : M Z :=
  '(found, id) ← known_id name isPackageChange;
  if (found : bool) then mret id
  else
    s ← get_state;
    match bundleNameIdTables_ s with
    | [] => _ ← AddBundleNameId id name; mret id
    | _ =>
        lastBundleNameId ← largest_id;
        if lastBundleNameId <? MAX_BUNDLEID then
          _ ← AddBundleNameId (lastBundleNameId + 1) name; mret (lastBundleNameId + 1)
        else
          _ ← rebuild;
          '(_, id) ← GetBundleNameId name id;
          mret id
    end.

(** ** Records of bundles *)

(** The numbers of continue types count through all abilities, in 8 bits. *)
Fixpoint number_types (l : list string) (pos : Z) : list Z * Z :=
  match l with
  | [] => ([], pos)
  | _ :: l => let '(ids, p) := number_types l (u8 (pos + 1)) in (pos :: ids, p)
  end.
Fixpoint convert_abilities (l : list AbilityInfo) (pos : Z) : list DmsAbilityInfo :=
  match l with
  | [] => []
  | a :: l =>
      let '(ids, pos) := number_types (ai_continueType a) pos in
      mkDmsAbilityInfo (ai_name a) (ai_continueType a) ids (ai_moduleName a) (ai_continueBundleNames a) :: convert_abilities l pos
  end.

Definition ConvertToDistributedBundleInfo (rebuild : M bool) (b : BundleInfo) (developer : string) (isPackageChange : bool) : M DmsBundleInfo :=
  if String.eqb (bi_name b) "" then mret DmsBundleInfo_new
  else
    id ← CreateBundleNameId rebuild (bi_name b) isPackageChange;
    mret (mkDmsBundleInfo 1 (bi_name b) (bi_versionCode b) (bi_versionName b) (bi_minCompatibleVersionCode b) (bi_targetVersion b)
            (bi_compatibleVersion b) (bi_appId b) (bi_enabled b) id (bi_updateTime b) developer
            (convert_abilities (bi_abilityInfos b) 0) []).

Definition UpdatePublicRecords (localUdid : string) : M bool :=
  ok ← CheckKvStore;
  if negb ok then mret false
  else
    '(_, recorded) ← GetLastBundleNameId 0;
    s ← get_state;
    match last_key (bundleNameIdTables_ s) with
    | None => mret false
    | Some k =>
        value ← dumped (PublicRecordsInfo_ToString (mkPublicRecordsInfo (Z.max k recorded)));
        status ← run_kv (kv_Put (key_of_public localUdid) value);
        mret (bool_decide (status = SUCCESS))
    end.

Definition InnerSaveStorageDistributeInfo (info : DmsBundleInfo) (localUdid : string) : M bool :=
  if String.eqb (bundleName info) "" then mret false
  else
    ok ← CheckKvStore;
    if negb ok then mret false
    else
      value ← dumped (DmsBundleInfo_ToString info);
      status ← again (kv_Put (DeviceAndNameToKey localUdid (bundleName info)) value);
      if negb (bool_decide (status = SUCCESS)) then mret false
      else (_ ← UpdatePublicRecords localUdid; mret true).

Definition IsContinuable (b : BundleInfo) : bool :=
  negb (String.eqb (bi_name b) "") && existsb ai_continuable (bi_abilityInfos b).

(** The first account whose developer is known. *)
Fixpoint find_provision (name : string) (accounts : list Z) (developer : string) : string :=
  match accounts with
  | [] => developer
  | a :: accounts =>
      let '(result, developer) := e_GetAppProvisionInfo env name a developer in
      if (result =? ERR_OK) && negb (String.eqb developer "") then developer else find_provision name accounts developer
  end.
Definition provision (name developer : string) : string :=
  if fst (e_accounts env) =? ERR_OK then find_provision name (snd (e_accounts env)) developer else developer.

(** The caller's argument, which is passed by value, and the copy that is filled. *)
Definition FindProvishionInfo (developer name : string) : string * string := (developer, provision name developer).

(** The argument [isPackageChange] is not passed on. *)
Definition SaveStorageDistributeInfo (rebuild : M bool) (name : string) (isPackageChange : bool) : M bool :=
  ok ← CheckKvStore;
  if negb ok then mret false
  else
    mgr ← GetBundleMgr;
    if negb mgr then mret false
    else
      match e_GetBundleInfo env name with
      | None => mret false
      | Some b =>
          if negb (IsContinuable b) then mret false
          else if String.eqb (e_localUdid env) "" then mret false
          else
            info ← ConvertToDistributedBundleInfo rebuild b (provision name "") false;
            ret ← InnerSaveStorageDistributeInfo info (e_localUdid env);
            if negb ret then mret false
            else (_ ← SyncOnPackageEvent; mret true)
      end.

Definition DeleteStorageDistributeInfo (name : string) : M bool :=
  ok ← CheckKvStore;
  if negb ok then mret false
  else if String.eqb (e_localUdid env) "" then mret false
  else
    mgr ← GetBundleMgr;
    if negb mgr then mret false
    else
      match e_GetBundleInfo env name with
      | Some _ => mret true
      | None =>
          status ← again (kv_Delete (DeviceAndNameToKey (e_localUdid env) name));
          if negb (bool_decide (status = SUCCESS)) then mret false
          else (_ ← SyncOnPackageEvent; mret true)
      end.

(** ** All bundles of this device *)

(** Entries of this device: their numbers go to the table, records of bundles that are gone are deleted. *)
Fixpoint old_infos (udid : string) (names : list string) (entries : list Entry) (old : list (string * DmsBundleInfo)) : M (list (string * DmsBundleInfo)) :=
  match entries with
  | [] => mret old
  | (key, value) :: entries =>
      if str_contains key (key_of_public udid) then old_infos udid names entries old
      else
        let '(parsed, info) := DmsBundleInfo_FromJsonString value DmsBundleInfo_new in
        if parsed then
          _ ← AddBundleNameId (bundleNameId info) (bundleName info);
          if negb (existsb (String.eqb (bundleName info)) names) || String.eqb (bundleName info) ""
          then (_ ← run_kv (kv_Delete key); old_infos udid names entries old)
          else old_infos udid names entries (minsert (bundleName info) info old)
        else old_infos udid names entries old
  end.
Definition GetAllOldDistributionBundleInfo (names : list string) : M (list (string * DmsBundleInfo)) :=
  s ← get_state;
  if negb (kvStorePtr_ s) then mret []
  else if String.eqb (e_localUdid env) "" || String.eqb (e_localUuid env) "" then mret []
  else
    '(status, entries) ← run_kv (kv_GetDeviceEntries (e_localUuid env));
    match entries with
    | [] => mret []
    | _ => if negb (bool_decide (status = SUCCESS)) then mret [] else old_infos (e_localUdid env) names entries []
    end.

Fixpoint bundle_entries (udid : string) (infos : list DmsBundleInfo) : M (list Entry) :=
  match infos with
  | [] => mret []
  | i :: infos =>
      value ← dumped (DmsBundleInfo_ToString i);
      l ← bundle_entries udid infos;
      mret ((DeviceAndNameToKey udid (bundleName i), value) :: l)
  end.
Definition SyncBundleInfoData (entries : list Entry) : M unit :=
  match entries with [] => mret tt | _ => SyncOnPackageEvent end.
Definition DmsPutBatch (infos : list DmsBundleInfo) : M unit :=
  match infos with
  | [] => mret tt
  | _ =>
      ok ← CheckKvStore;
      if negb ok then mret tt
      else if String.eqb (e_localUdid env) "" then mret tt
      else
        entries ← bundle_entries (e_localUdid env) infos;
        largest ← largest_id;
        value ← dumped (PublicRecordsInfo_ToString (mkPublicRecordsInfo largest));
        let entries := entries ++ [(key_of_public (e_localUdid env), value)] in
        _ ← again (kv_PutBatch entries);
        SyncBundleInfoData entries
  end.

Fixpoint update_loop (rebuild : M bool) (old : list (string * DmsBundleInfo)) (bundles : list BundleInfo) (developer : string)
    (infos : list DmsBundleInfo) : M (list DmsBundleInfo) :=
  match bundles with
  | [] => mret infos
  | b :: bundles =>
      let developer := (FindProvishionInfo developer (bi_name b)).1 in
      match mfind (bi_name b) old with
      | Some i =>
          if negb (updateTime i =? bi_updateTime b) then
            info ← ConvertToDistributedBundleInfo rebuild b developer true;
            update_loop rebuild old bundles developer (infos ++ [info])
          else update_loop rebuild old bundles developer infos
      | None =>
          info ← ConvertToDistributedBundleInfo rebuild b developer false;
          if String.eqb (bundleName info) "" then update_loop rebuild old bundles developer infos
          else update_loop rebuild old bundles developer (infos ++ [info])
      end
  end.
Definition UpdateDistributedData_with (rebuild : M bool) : M unit :=
  mgr ← GetBundleMgr;
  if negb mgr then mret tt
  else
    match e_GetBundleInfosForContinuation env with
    | None => mret tt
    | Some bundles =>
        old ← GetAllOldDistributionBundleInfo (map bi_name bundles);
        infos ← update_loop rebuild old bundles "" [];
        DmsPutBatch infos
    end.

Definition RebuildLocalData_with (update : M unit) : M bool :=
  if String.eqb (e_localUdid env) "" then mret false
  else
    ok ← CheckKvStore;
    if negb ok then mret false
    else
      '(status, entries) ← run_kv (kv_GetEntries (e_localUdid env));
      if negb (bool_decide (status = SUCCESS)) then mret false
      else
        status ← run_kv (kv_DeleteBatch (map fst entries));
        if negb (bool_decide (status = SUCCESS)) then mret false
        else (_ ← modify (set_table []); _ ← update; mret true).

(** [depth]: how often making the records again may itself run out of numbers. *)
Fixpoint RebuildLocalData (depth : nat) : M bool :=
  match depth with
  | O => undefined
  | S depth => RebuildLocalData_with (UpdateDistributedData_with (RebuildLocalData depth))
  end.
Definition UpdateDistributedData (depth : nat) : M unit := UpdateDistributedData_with (RebuildLocalData depth).

(** ** Records of other devices *)

(** The entries that hold a record that [test] accepts. *)
Definition hits (udid : string) (test : DmsBundleInfo -> bool) (entries : list Entry) : list (Entry * DmsBundleInfo) :=
  omap (fun e : Entry =>
    if str_contains e.1 (key_of_public udid) then None
    else let '(parsed, info) := DmsBundleInfo_FromJsonString e.2 DmsBundleInfo_new in
         if parsed && test info then Some (e, info) else None) entries.

Definition DelReduData (networkId : string) (reduRiskEntries : list Entry) : M bool :=
  ok ← CheckKvStore;
  if negb ok then mret false
  else if String.eqb (e_udidOf env networkId) "" || String.eqb (e_uuidOf env networkId) "" then mret false
  else
    '(status, newEntries) ← run_kv (kv_GetDeviceEntries (e_uuidOf env networkId));
    match newEntries with
    | [] => mret false
    | _ =>
        if negb (bool_decide (status = SUCCESS)) then mret false
        else
          let gone := List.filter (fun k => negb (existsb (String.eqb k) (map fst newEntries))) (map fst reduRiskEntries) in
          status ← run_kv (kv_DeleteBatch gone);
          mret (bool_decide (status = SUCCESS))
    end.

(** The records of a device that [test] accepts; [None] when its entries cannot be read. *)
Definition device_hits (networkId : string) (test : DmsBundleInfo -> bool) : M (option (list (Entry * DmsBundleInfo))) :=
  ok ← CheckKvStore;
  if negb ok then mret None
  else if String.eqb (e_udidOf env networkId) "" || String.eqb (e_uuidOf env networkId) "" then mret None
  else
    '(status, remoteEntries) ← run_kv (kv_GetDeviceEntries (e_uuidOf env networkId));
    match remoteEntries with
    | [] => mret None
    | _ => mret (if negb (bool_decide (status = SUCCESS)) then None else Some (hits (e_udidOf env networkId) test remoteEntries))
    end.

Definition DealGetBundleName (networkId : string) (id : Z) (name : string) : M (bool * string) :=
  r ← device_hits networkId (fun i => bundleNameId i =? id);
  match r with
  | None => mret (false, name)
  | Some l =>
      if (1 <? length l)%nat then (_ ← DelReduData networkId (map fst l); mret (false, ""))
      else
        let name := match last l with Some (_, i) => bundleName i | None => name end in
        mret (negb (String.eqb name ""), name)
  end.

Definition CheckSyncData (networkId : string) : M bool :=
  if String.eqb (e_uuidOf env networkId) "" then mret false
  else
    s ← get_state;
    if negb (kvStorePtr_ s) then mret false
    else
      '(status, entries) ← run_kv (kv_GetDeviceEntries (e_uuidOf env networkId));
      match entries with [] => mret false | _ => mret (bool_decide (status = SUCCESS)) end.

Definition GetDistributedBundleName (networkId : string) (id : Z) (name : string) : M (bool * string) :=
  synced ← CheckSyncData networkId;
  if negb synced then mret (false, name)
  else
    '(ret, name) ← DealGetBundleName networkId id name;
    mret (ret && negb (String.eqb name ""), name).

Definition one_record (networkId : string) (test : DmsBundleInfo -> bool) (info : DmsBundleInfo) : M (bool * DmsBundleInfo) :=
  r ← device_hits networkId test;
  match r with
  | None => mret (false, info)
  | Some l =>
      if (1 <? length l)%nat then (_ ← DelReduData networkId (map fst l); mret (false, DmsBundleInfo_new))
      else mret (match last l with Some (_, i) => (true, i) | None => (false, info) end)
  end.
Definition GetDistributedBundleInfo (networkId : string) (id : Z) (info : DmsBundleInfo) : M (bool * DmsBundleInfo) :=
  one_record networkId (fun i => bundleNameId i =? id) info.
Definition GetDistributedBundleInfo_name (networkId name : string) (info : DmsBundleInfo) : M (bool * DmsBundleInfo) :=
  one_record networkId (fun i => String.eqb (bundleName i) name) info.

Definition GetDistributeInfosByNetworkId (networkId : string) (infos : list DmsBundleInfo) : M (bool * list DmsBundleInfo) :=
  r ← device_hits networkId (fun _ => true);
  mret (match r with None => (false, infos) | Some l => (true, infos ++ map snd l) end).

(** [GetResultSatus]: no answer in time is an error. *)
Definition GetResultSatus (answer : option Status) : Status := default ERROR answer.

Definition GetStorageDistributeInfo (networkId name : string) (info : DmsBundleInfo) : M (bool * DmsBundleInfo) :=
  ok ← CheckKvStore;
  if negb ok then mret (false, info)
  else if String.eqb (e_udidOf env networkId) "" then mret (false, info)
  else
    answer ← run_kv (kv_GetFrom (DeviceAndNameToKey (e_udidOf env networkId) name) networkId);
    if decide (GetResultSatus (fst <$> answer) = SUCCESS)
    then mret (true, (DmsBundleInfo_FromJsonString (default "" (snd <$> answer)) info).2)
    else mret (false, info).

(** ** Continue types *)

(** [GetEntries] of a device; without a store nobody answers. *)
Definition GetEntries (networkId prefix : string) : M (Status * list Entry) :=
  s ← get_state;
  if negb (kvStorePtr_ s) then mret (GetResultSatus None, [])
  else
    answer ← run_kv (kv_GetEntriesFrom prefix networkId);
    mret (GetResultSatus (fst <$> answer), match answer with Some (SUCCESS, l) => l | _ => [] end).

(** The records of a bundle among the entries of a device. *)
Definition records (udid name : string) (entries : list Entry) : list DmsBundleInfo :=
  omap (fun e : Entry =>
    if negb (str_contains e.1 udid) then None
    else let '(parsed, info) := DmsBundleInfo_FromJsonString e.2 DmsBundleInfo_new in
         if parsed && String.eqb (bundleName info) name then Some info else None) entries.
Definition device_records (networkId name : string) : M (option (list DmsBundleInfo)) :=
  ok ← CheckKvStore;
  if negb ok then mret None
  else if String.eqb (e_udidOf env networkId) "" then mret None
  else
    '(status, entries) ← GetEntries networkId "";
    mret (if decide (status = SUCCESS) then Some (records (e_udidOf env networkId) name entries) else None).

Fixpoint find_type (l : list string) (pos id : Z) : string + Z :=
  match l with
  | [] => inr pos
  | t :: l => if pos =? id then inl t else find_type l (u32 (pos + 1)) id
  end.
Fixpoint find_type_in (l : list DmsAbilityInfo) (pos id : Z) : string :=
  match l with
  | [] => ""
  | a :: l => match find_type (continueType a) pos id with inl t => t | inr pos => find_type_in l pos id end
  end.
Definition FindContinueType (info : DmsBundleInfo) (id : Z) : string := find_type_in (dmsAbilityInfos info) 0 id.

Definition with_type (t : string) (a : DmsAbilityInfo) : bool := existsb (String.eqb t) (continueType a).
Definition FindAbilityName (info : DmsBundleInfo) (t : string) : string :=
  match List.find (with_type t) (dmsAbilityInfos info) with Some a => abilityName a | None => "" end.
Definition FindModuleName (info : DmsBundleInfo) (t : string) : string :=
  match List.find (with_type t) (dmsAbilityInfos info) with Some a => moduleName a | None => "" end.

(** The position of the ability, in 8 bits. *)
Fixpoint find_ability (l : list DmsAbilityInfo) (name : string) (pos : Z) : Z :=
  match l with
  | [] => MAX_CONTINUETYPEID
  | a :: l => if String.eqb (abilityName a) name then pos else find_ability l name (u8 (pos + 1))
  end.
Definition FindContinueTypeId (info : DmsBundleInfo) (name : string) : Z := find_ability (dmsAbilityInfos info) name 0.

(** The first text that is not empty. *)
Definition first_text (f : DmsBundleInfo -> string) (l : list DmsBundleInfo) : string :=
  default "" (List.find (fun t => negb (String.eqb t "")) (map f l)).
Definition GetContinueType (networkId name : string) (id : Z) : M string :=
  r ← device_records networkId name;
  mret (match r with Some l => first_text (fun i => FindContinueType i id) l | None => "" end).
Definition GetAbilityName (networkId name t : string) : M string :=
  r ← device_records networkId name;
  mret (match r with Some l => first_text (fun i => FindAbilityName i t) l | None => "" end).

Fixpoint first_type_id (name : string) (l : list DmsBundleInfo) (id : Z) : bool * Z :=
  match l with
  | [] => (false, id)
  | i :: l => let id := FindContinueTypeId i name in if negb (id =? MAX_CONTINUETYPEID) then (true, id) else first_type_id name l id
  end.
Definition GetContinueTypeId (name ability : string) (id : Z) : M (bool * Z) :=
  ok ← CheckKvStore;
  if negb ok then mret (false, id)
  else if String.eqb (e_localUdid env) "" then mret (false, id)
  else
    '(status, entries) ← run_kv (kv_GetEntries "");
    mret (if negb (bool_decide (status = SUCCESS)) then (false, id)
          else first_type_id ability (records (e_localUdid env) name entries) id).

Definition GetContinueEventInfo (networkId name t : string) (info : ContinueEventInfo) : M (bool * ContinueEventInfo) :=
  r ← device_records networkId name;
  mret (match r with
        | Some (i :: _) => (true, mkContinueEventInfo networkId name (FindModuleName i t) (FindAbilityName i t) (developerId i))
        | _ => (false, info)
        end).

Definition CloudSync : M Z :=
  ok ← CheckKvStore;
  if negb ok then mret INVALID_REMOTE_PARAMETERS_ERR
  else (status ← run_kv kv_CloudSync; mret (status_code status)).

(** ** Callers *)

Definition HandlePackageAdded (depth : nat) (name : string) : M bool := SaveStorageDistributeInfo (RebuildLocalData depth) name false.
Definition HandlePackageChange (depth : nat) (name : string) : M bool := SaveStorageDistributeInfo (RebuildLocalData depth) name true.

Definition Internal_GetBundleNameId (name : string) (id : Z) : M (Z * Z) :=
  '(ret, id) ← GetBundleNameId name id;
  mret (if negb ret then CAN_NOT_FOUND_ABILITY_ERR else ERR_OK, id).
Definition Internal_GetContinueTypeId (name ability : string) (id : Z) : M (Z * Z) :=
  '(ret, id) ← GetContinueTypeId name ability id;
  mret (if negb ret then CAN_NOT_FOUND_ABILITY_ERR else ERR_OK, id).
Definition Internal_GetBundleNameById (networkId : string) (id : Z) (name : string) : M (Z * string) :=
  '(ret, name) ← GetDistributedBundleName networkId id name;
  if negb ret then (_ ← PushAndPullData; mret (CAN_NOT_FOUND_ABILITY_ERR, name)) else mret (ERR_OK, name).
End Store.
