(* ===== verification/BundleStoreProps.v ===== *)
(** The numbers of applications are unique on a device, and a number means the same
    application on the other devices.

    The database keeps the entries of this device ([contents]) and copies of the entries of
    others ([device]); an operation that fails may have been done or not. *)

From S2P Require Import Prelude StdMap ContinueInfo BundleInfo BundleStore.
From stdpp Require Import gmap.
#[local] Open Scope string_scope.
#[local] Open Scope list_scope.
#[local] Open Scope Z_scope.

Definition put_all (l : list Entry) (c : gmap string string) : gmap string string := fold_left (fun c e => <[e.1 := e.2]> c) l c.
Definition delete_all (l : list string) (c : gmap string string) : gmap string string := fold_left (fun c k => delete k c) l c.

Class KvLaws `{KvManager} := {
  contents : Kv -> gmap string string;
  device : Kv -> string -> gmap string string;
  put_law : forall k v s st s', kv_Put k v s = (st, s') ->
    contents s' = <[k := v]> (contents s) \/ st <> SUCCESS /\ contents s' = contents s;
  put_batch_law : forall l s st s', kv_PutBatch l s = (st, s') ->
    contents s' = put_all l (contents s) \/ st <> SUCCESS /\ contents s' = contents s;
  delete_law : forall k s st s', kv_Delete k s = (st, s') ->
    contents s' = delete k (contents s) \/ st <> SUCCESS /\ contents s' = contents s;
  delete_batch_law : forall l s st s', kv_DeleteBatch l s = (st, s') ->
    contents s' = delete_all l (contents s) \/ st <> SUCCESS /\ contents s' = contents s;
  get_law : forall k s st v s', kv_Get k s = (st, v, s') ->
    contents s' = contents s /\ (st = SUCCESS -> contents s !! k = Some v);
  entries_law : forall p s st l s', kv_GetEntries p s = (st, l, s') ->
    contents s' = contents s /\ (st = SUCCESS -> forall k v, contents s !! k = Some v -> String.prefix p k = true -> In (k, v) l);
  device_law : forall u s st l s', kv_GetDeviceEntries u s = (st, l, s') ->
    contents s' = contents s /\ device s' u = device s u /\
    (st = SUCCESS -> NoDup (map fst l) /\ forall k v, In (k, v) l <-> device s u !! k = Some v);
}.

Section Props.
Context {NL : Nlohmann} {AC : AppConstants} {KM : KvManager} {NLL : NlohmannLaws} {ACL : AppConstantsLaws} {KL : KvLaws}.

(** ** Running an operation *)

Definition wp {A} (m : M A) (s : Bm) (Q : A -> Bm -> Prop) : Prop := match m s with Some (x, s') => Q x s' | None => False end.

Lemma wp_ret {A} (x : A) s (Q : A -> Bm -> Prop) : Q x s -> wp (mret x) s Q.
Proof. done. Qed.
Lemma wp_bind {A B} (m : M A) (f : A -> M B) s Q : wp m s (fun x s' => wp (f x) s' Q) -> wp (m ≫= f) s Q.
Proof. unfold wp, mbind, M_bind. destruct (m s) as [[x s']|]; done. Qed.
Lemma wp_mono {A} (m : M A) s (P Q : A -> Bm -> Prop) : wp m s P -> (forall x s', P x s' -> Q x s') -> wp m s Q.
Proof. unfold wp. destruct (m s) as [[x s']|]; auto. Qed.
Lemma wp_and {A} (m : M A) s (P Q : A -> Bm -> Prop) : wp m s P -> wp m s Q -> wp m s (fun x s' => P x s' /\ Q x s').
Proof. unfold wp. destruct (m s) as [[x s']|]; auto. Qed.
Lemma wp_get s (Q : Bm -> Bm -> Prop) : Q s s -> wp get_state s Q.
Proof. done. Qed.
Lemma wp_modify f s (Q : unit -> Bm -> Prop) : Q tt (f s) -> wp (modify f) s Q.
Proof. done. Qed.
Lemma wp_kv {A} (f : Kv -> A * Kv) s (Q : A -> Bm -> Prop) :
  (forall x k, f (kv_ s) = (x, k) -> Q x (set_kv k s)) -> wp (run_kv f) s Q.
Proof. intros H. unfold wp, run_kv. destruct (f (kv_ s)) as [x k] eqn:E. by apply H. Qed.
Lemma wp_dumped t x s (Q : string -> Bm -> Prop) : t = Some x -> Q x s -> wp (dumped t) s Q.
Proof. intros -> H. exact H. Qed.
Lemma wp_run {A} (m : M A) s x s' (Q : A -> Bm -> Prop) : wp m s Q -> m s = Some (x, s') -> Q x s'.
Proof. unfold wp. intros H E. by rewrite E in H. Qed.

Variable env : BmEnv.

(** Nothing that the numbers depend on has changed. *)
Definition same (s s' : Bm) : Prop :=
  contents (kv_ s') = contents (kv_ s) /\ bundleNameIdTables_ s' = bundleNameIdTables_ s /\ kvStorePtr_ s' = kvStorePtr_ s.

Lemma same_refl s : same s s.
Proof. done. Qed.
Lemma same_trans a b c : same a b -> same b c -> same a c.
Proof. unfold same. intros (-> & -> & ->) (-> & -> & ->). done. Qed.

Lemma wp_CheckKvStore s Q : kvStorePtr_ s = true -> Q true s -> wp CheckKvStore s Q.
Proof. intros E H. unfold CheckKvStore. apply wp_bind, wp_get. rewrite E. by apply wp_ret. Qed.

Lemma wp_GetBundleMgr s : wp (GetBundleMgr env) s (fun _ s' => same s s').
Proof.
  unfold GetBundleMgr. apply wp_bind, wp_get. destruct (bundleMgr_ s); [by apply wp_ret|].
  destruct (e_systemAbilityManager env); [|by apply wp_ret]. destruct (e_bundleMgrSa env); [|by apply wp_ret].
  by apply wp_bind, wp_modify.
Qed.

Lemma wp_Sync s : wp (SyncOnPackageEvent env) s (fun _ s' => same s s').
Proof. unfold SyncOnPackageEvent, PushAndPullData. destruct (e_syncOnPackageEvent env); [by apply wp_modify|by apply wp_ret]. Qed.

(** ** Reading *)

Definition info_of (v : string) : option DmsBundleInfo :=
  let '(parsed, i) := DmsBundleInfo_FromJsonString v DmsBundleInfo_new in if parsed then Some i else None.
Definition info_at (c : gmap string string) (k : string) : option DmsBundleInfo := c !! k ≫= info_of.
Definition recorded (c : gmap string string) (x : Z) : Prop :=
  exists v, c !! key_of_public (e_localUdid env) = Some v /\ PublicRecordsInfo_FromJsonString v PublicRecordsInfo_new = (true, mkPublicRecordsInfo x).

Lemma wp_GetLast d s : kvStorePtr_ s = true ->
  wp (GetLastBundleNameId env d) s (fun r s' => same s s' /\ (r.2 = d \/ recorded (contents (kv_ s)) r.2)).
Proof.
  intros Hp. unfold GetLastBundleNameId. destruct (String.eqb _ _); [apply wp_ret; split; [done|by left]|].
  apply wp_bind, wp_CheckKvStore; [done|]. cbn [negb]. apply wp_bind, wp_kv. intros [st v] k (E & Hv)%get_law.
  assert (same s (set_kv k s)) as Hs by done.
  destruct (bool_decide (st = SUCCESS)) eqn:Es; cbn [negb]; [|apply wp_ret; split; [done|by left]].
  apply bool_decide_eq_true in Es. destruct (PublicRecordsInfo_FromJsonString v PublicRecordsInfo_new) as [parsed [m]] eqn:Ep.
  apply wp_ret. split; [done|]. destruct parsed; [right|by left]. exists v. split; [by apply Hv|done].
Qed.

Lemma wp_GetBundleNameId name d s : kvStorePtr_ s = true ->
  wp (GetBundleNameId env name d) s (fun r s' => same s s' /\
    (if r.1 then exists i, info_at (contents (kv_ s)) (DeviceAndNameToKey (e_localUdid env) name) = Some i /\ bundleName i = name /\ bundleNameId i = r.2
     else r.2 = d)).
Proof.
  intros Hp. unfold GetBundleNameId. apply wp_bind, wp_CheckKvStore; [done|]. cbn [negb].
  destruct (String.eqb _ _); [by apply wp_ret|]. apply wp_bind, wp_kv. intros [st v] k (E & Hv)%get_law.
  destruct (bool_decide (st = SUCCESS)) eqn:Es; cbn [negb]; [|by apply wp_ret]. apply bool_decide_eq_true in Es.
  destruct (DmsBundleInfo_FromJsonString v DmsBundleInfo_new) as [parsed i] eqn:Ep. apply wp_ret. split; [done|].
  destruct parsed; [|done]. destruct (String.eqb_spec (bundleName i) name); [|done]. exists i.
  split; [|done]. unfold info_at, info_of. rewrite (Hv Es). cbn. by rewrite Ep.
Qed.
(** ** The table of numbers *)

Definition last_or (t : zmap string) : Z := default (-1) (last_key t).

Lemma last_key_max t m : zsorted t -> last_key t = Some m -> Forall (fun k => k <= m) (zkeys t).
Proof.
  unfold last_key. induction t as [|[k v] t IH]; [done|]. intros [Hs Hk]%zsorted_cons E. cbn [zkeys map fst].
  destruct t as [|e t]; [injection E as <-; repeat constructor; lia|].
  specialize (IH Hs E). constructor; [|done]. cbn in Hk, IH. apply Forall_cons in Hk as [? _]. apply Forall_cons in IH as [? _]. lia.
Qed.
Lemma last_key_cons e t : exists k, last_key (e :: t) = Some k.
Proof. unfold last_key. destruct (last (e :: t)) as [[k v]|] eqn:E; [by exists k|]. by rewrite last_None in E. Qed.
Lemma last_key_in t k : last_key t = Some k -> In k (zkeys t).
Proof.
  unfold last_key, zkeys. intros E. destruct (last t) as [[k' v]|] eqn:El; [|done]. injection E as <-.
  apply last_Some in El as [l ->]. rewrite map_app. apply in_app_iff. right. by left.
Qed.
Lemma last_or_lt t k : zsorted t -> last_or t < k -> Forall (fun x => x < k) (zkeys t).
Proof.
  unfold last_or. intros Hs H. destruct (last_key t) as [m|] eqn:E; cbn in H.
  - eapply Forall_impl; [by apply last_key_max|]. cbn. lia.
  - destruct t as [|e t]; [constructor|]. unfold last_key in E. by destruct (last (e :: t)) eqn:El; [|rewrite last_None in El].
Qed.
Lemma zset_last (t : zmap string) k v : Forall (fun x => x < k) (zkeys t) -> zset k v t = t ++ [(k, v)].
Proof.
  induction t as [|[k0 v0] t IH]; intros H; [done|]. cbn in H. apply Forall_cons in H as [H0 H]. cbn [zset].
  destruct (Z.ltb_spec k k0); [lia|]. destruct (Z.eqb_spec k k0); [lia|]. by rewrite IH.
Qed.
Lemma last_or_zset (t : zmap string) k v : Forall (fun x => x < k) (zkeys t) -> last_or (zset k v t) = k.
Proof. intros H. rewrite zset_last by done. unfold last_or, last_key. by rewrite last_snoc. Qed.
Lemma zfind_above (t : zmap string) k : Forall (fun x => x < k) (zkeys t) -> zfind k t = None.
Proof.
  induction t as [|[k0 v0] t IH]; intros H; [done|]. cbn in *. apply Forall_cons in H as [H0 H].
  destruct (Z.eqb_spec k k0); [lia|auto].
Qed.
Lemma zfind_key {A} k (t : zmap A) : is_Some (zfind k t) -> In k (zkeys t).
Proof. intros [x H]. induction t as [|[k0 v0] t IH]; cbn in *; [done|]. destruct (Z.eqb_spec k k0); auto. Qed.

(** ** Unique numbers *)

Definition key (name : string) : string := DeviceAndNameToKey (e_localUdid env) name.
(** The records of this device, by key. *)
Definition stored (c : gmap string string) (k : string) : option DmsBundleInfo :=
  if str_contains k (key_of_public (e_localUdid env)) then None else info_at c k.
Definition upd (k : string) (i : DmsBundleInfo) (f : string -> option DmsBundleInfo) (k' : string) : option DmsBundleInfo :=
  if String.eqb k' k then Some i else f k'.

Record numbered (t : zmap string) (f : string -> option DmsBundleInfo) : Prop := {
  num_sorted : zsorted t;
  num_u16 : Forall (fun k => 0 <= k <= MAX_BUNDLEID) (zkeys t);
  num_given : forall k i, f k = Some i -> is_Some (zfind (bundleNameId i) t);
  num_unique : forall k1 k2 i1 i2, f k1 = Some i1 -> f k2 = Some i2 -> bundleNameId i1 = bundleNameId i2 -> k1 = k2;
}.

Lemma numbered_sub t f g : (forall k i, g k = Some i -> f k = Some i) -> numbered t f -> numbered t g.
Proof. intros H []. split; eauto. Qed.
Lemma numbered_same t f k i j : numbered t f -> f k = Some j -> bundleNameId i = bundleNameId j -> numbered t (upd k i f).
Proof.
  intros [S U G N] E Hi. split; [done|done| |]; unfold upd.
  - intros k' i'. destruct (String.eqb_spec k' k); [intros [= <-]; rewrite Hi; eauto|eauto].
  - intros k1 k2 i1 i2. destruct (String.eqb_spec k1 k), (String.eqb_spec k2 k); try congruence.
    + intros [= <-] E2 Hn. subst. apply (N _ _ _ _ E E2). congruence.
    + intros E1 [= <-] Hn. subst. apply (N _ _ _ _ E1 E). congruence.
    + eauto.
Qed.
Lemma numbered_fresh t f k i name : numbered t f -> last_or t < bundleNameId i -> 0 <= bundleNameId i <= MAX_BUNDLEID ->
  numbered (zset (bundleNameId i) name t) (upd k i f).
Proof.
  intros [S U G N] L R. pose proof (last_or_lt _ _ S L) as Hlt.
  assert (forall k' i', f k' = Some i' -> bundleNameId i' < bundleNameId i) as Hf.
  { intros k' i' E. rewrite List.Forall_forall in Hlt. by apply Hlt, zfind_key, (G k'). }
  split; [by apply zset_sorted|by apply zkeys_zset_Forall| |]; unfold upd.
  - intros k' i'. rewrite zfind_zset. destruct (String.eqb_spec k' k); [intros [= <-]; by rewrite Z.eqb_refl|].
    intros E. destruct (Z.eqb_spec (bundleNameId i') (bundleNameId i)); eauto.
  - intros k1 k2 i1 i2. destruct (String.eqb_spec k1 k), (String.eqb_spec k2 k); try congruence.
    + intros [= <-] E2 Hn. apply Hf in E2. lia.
    + intros E1 [= <-] Hn. apply Hf in E1. lia.
    + eauto.
Qed.

Lemma numbered_ext t f g : (forall k, g k = f k) -> numbered t f -> numbered t g.
Proof. intros H. apply numbered_sub. intros k i. by rewrite H. Qed.
Lemma numbered_grow t f id name : numbered t f -> last_or t < id -> 0 <= id <= MAX_BUNDLEID -> numbered (zset id name t) f.
Proof.
  intros [S U G N] L R. split; [by apply zset_sorted|by apply zkeys_zset_Forall| |done].
  intros k i E. rewrite zfind_zset. destruct (_ =? _); eauto.
Qed.

(** ** New numbers *)

(** [n] more numbers can be given. *)
Definition room (n : Z) (s : Bm) : Prop :=
  last_or (bundleNameIdTables_ s) + n <= MAX_BUNDLEID /\ forall x, recorded (contents (kv_ s)) x -> x + n <= MAX_BUNDLEID.

Lemma wp_largest s k : kvStorePtr_ s = true -> last_key (bundleNameIdTables_ s) = Some k ->
  wp (largest_id env) s (fun x s' => same s s' /\ (x = Z.max k 0 \/ exists r, recorded (contents (kv_ s)) r /\ x = Z.max k r)).
Proof.
  intros Hp Hk. unfold largest_id. apply wp_bind. eapply wp_mono; [by apply wp_GetLast|]. intros [b x] s' [Hs Hx]. cbn [snd] in Hx.
  apply wp_bind, wp_get. destruct Hs as (E1 & E2 & E3). rewrite E2, Hk. apply wp_ret. split; [done|].
  destruct Hx as [->|Hx]; [by left|right]. by exists x.
Qed.

(** The number is the one of the stored record, or larger than all that were given. *)
Definition created (name : string) (chg : bool) (s : Bm) (id : Z) (s' : Bm) : Prop :=
  contents (kv_ s') = contents (kv_ s) /\ kvStorePtr_ s' = true /\
  (chg = true /\ bundleNameIdTables_ s' = bundleNameIdTables_ s
     /\ (exists j, info_at (contents (kv_ s)) (key name) = Some j /\ bundleName j = name /\ bundleNameId j = id)
   \/ last_or (bundleNameIdTables_ s) < id /\ 0 <= id <= MAX_BUNDLEID /\ bundleNameIdTables_ s' = zset id name (bundleNameIdTables_ s)
     /\ (forall n, room (n + 1) s -> room n s')).

Lemma created_new name chg s s1 id : same s s1 -> kvStorePtr_ s = true -> zsorted (bundleNameIdTables_ s) ->
  last_or (bundleNameIdTables_ s) < id -> 0 <= id <= MAX_BUNDLEID ->
  (forall n, room (n + 1) s -> id + n <= MAX_BUNDLEID) ->
  wp (_ ← AddBundleNameId id name; mret id) s1 (created name chg s).
Proof.
  intros (E1 & E2 & E3) Hp Hs Hl Hi Hr. unfold AddBundleNameId. apply wp_bind, wp_modify, wp_ret.
  pose proof (last_or_lt _ _ Hs Hl) as Hlt. unfold table_insert. rewrite E2, zfind_above by done.
  split; [done|]. split; [by rewrite <- Hp|]. right. split; [done|]. split; [done|]. split; [done|].
  intros n Hn. specialize (Hr n Hn). destruct Hn as [_ Hn]. split; cbn [bundleNameIdTables_ kv_ set_table]; [by rewrite last_or_zset|].
  rewrite E1. intros x Hx. specialize (Hn x Hx). lia.
Qed.

Lemma wp_known name chg s : kvStorePtr_ s = true ->
  wp (known_id env name chg) s (fun r s' => same s s' /\
    (if r.1 then chg = true /\ exists i, info_at (contents (kv_ s)) (key name) = Some i /\ bundleName i = name /\ bundleNameId i = r.2 else r.2 = 0)).
Proof.
  intros Hp. unfold known_id. destruct chg; [|by apply wp_ret]. eapply wp_mono; [by apply wp_GetBundleNameId|].
  intros [b x] s' [Hs Hx]. split; [done|]. by destruct b.
Qed.

Lemma wp_Create rebuild name chg s : kvStorePtr_ s = true -> zsorted (bundleNameIdTables_ s) ->
  Forall (fun k => 0 <= k <= MAX_BUNDLEID) (zkeys (bundleNameIdTables_ s)) -> room 1 s ->
  wp (CreateBundleNameId env rebuild name chg) s (created name chg s).
Proof.
  intros Hp Hs Hu Hr. unfold CreateBundleNameId. apply wp_bind. eapply wp_mono; [by apply wp_known|].
  intros [found id] s1 [H1 Hx]. cbn [fst snd] in Hx. pose proof H1 as (E1 & E2 & E3). destruct found.
  { destruct Hx as [-> Hx]. apply wp_ret. split; [done|]. split; [congruence|]. by left. }
  subst id. apply wp_bind, wp_get. rewrite E2. destruct (bundleNameIdTables_ s) as [|e t] eqn:Et.
  { apply created_new; try done; rewrite ?Et; try done; unfold MAX_BUNDLEID; try lia. intros n [Hn _]. rewrite Et in Hn. cbn in Hn. unfold MAX_BUNDLEID in *. lia. }
  destruct (last_key_cons e t) as [k Ek]. rewrite <- Et in *. clear e t Et.
  pose proof (proj1 (List.Forall_forall _ _) Hu k (last_key_in _ _ Ek)) as Hk. cbn in Hk.
  assert (last_or (bundleNameIdTables_ s) = k) as Hl by (unfold last_or; by rewrite Ek).
  apply wp_bind. eapply wp_mono; [apply (wp_largest _ k); congruence|]. intros x s2 [H2 Hx].
  pose proof (same_trans _ _ _ H1 H2) as H3. rewrite E1 in Hx. destruct Hr as [R1 R2].
  assert (k <= x < MAX_BUNDLEID) as Hxr by (destruct Hx as [->|(r & Hr & ->)]; [|specialize (R2 r Hr)]; unfold MAX_BUNDLEID in *; lia).
  rewrite (proj2 (Z.ltb_lt _ _)) by lia. apply created_new; try done; try lia.
  intros n [N1 N2]. destruct Hx as [->|(r & Hr & ->)]; [|specialize (N2 r Hr)]; unfold MAX_BUNDLEID in *; lia.
Qed.

(** ** Records *)

Definition record_of (b : BundleInfo) (developer : string) (id : Z) : DmsBundleInfo :=
  mkDmsBundleInfo 1 (bi_name b) (bi_versionCode b) (bi_versionName b) (bi_minCompatibleVersionCode b) (bi_targetVersion b)
    (bi_compatibleVersion b) (bi_appId b) (bi_enabled b) id (bi_updateTime b) developer (convert_abilities (bi_abilityInfos b) 0) [].

(** A bundle whose record the reader accepts and whose key is not taken for the one of the largest number. *)
Definition storable (b : BundleInfo) (developer : string) : Prop :=
  fits_info (record_of b developer 0) = true /\ bi_name b <> "" /\ str_contains (key (bi_name b)) (key_of_public (e_localUdid env)) = false.

Lemma fits_record b developer id : fits_info (record_of b developer 0) = true -> 0 <= id <= MAX_BUNDLEID -> fits_info (record_of b developer id) = true.
Proof.
  unfold fits_info. cbn -[fits_u16]. repeat rewrite andb_true_iff. intros H Hi. destruct_and? H. split_and?; try done.
  unfold fits_u16, MAX_BUNDLEID in *. lia.
Qed.

Lemma wp_Convert rebuild b developer chg s : bi_name b <> "" -> kvStorePtr_ s = true -> zsorted (bundleNameIdTables_ s) ->
  Forall (fun k => 0 <= k <= MAX_BUNDLEID) (zkeys (bundleNameIdTables_ s)) -> room 1 s ->
  wp (ConvertToDistributedBundleInfo env rebuild b developer chg) s
     (fun i s' => exists id, i = record_of b developer id /\ created (bi_name b) chg s id s').
Proof.
  intros Hn Hp Hs Hu Hr. unfold ConvertToDistributedBundleInfo. rewrite (proj2 (String.eqb_neq _ _)) by done.
  apply wp_bind. eapply wp_mono; [by apply wp_Create|]. intros id s' Hc. apply wp_ret. by exists id.
Qed.

Lemma prefix_refl t : String.prefix t t = true.
Proof. induction t as [|c t IH]; [done|]. cbn. by destruct (Ascii.ascii_dec c c). Qed.
Lemma contains_self t : str_contains t t = true.
Proof. unfold str_contains. destruct t as [|c t]; [done|]. cbn [String.index]. by rewrite prefix_refl. Qed.

Lemma stored_public c v k : stored (<[key_of_public (e_localUdid env) := v]> c) k = stored c k.
Proof.
  unfold stored. destruct (str_contains k _) eqn:E; [done|]. unfold info_at. rewrite lookup_insert_ne; [done|].
  intros <-. by rewrite contains_self in E.
Qed.
Lemma stored_insert c k v i : str_contains k (key_of_public (e_localUdid env)) = false -> info_of v = Some i ->
  forall k', stored (<[k := v]> c) k' = upd k i (stored c) k'.
Proof.
  intros Hk Hv k'. unfold stored, upd, info_at. destruct (String.eqb_spec k' k) as [->|Hne].
  - rewrite Hk, lookup_insert_eq. done.
  - by rewrite lookup_insert_ne.
Qed.
Lemma stored_delete c k k' i : stored (delete k c) k' = Some i -> stored c k' = Some i.
Proof.
  unfold stored, info_at. destruct (str_contains k' _); [done|]. destruct (decide (k = k')) as [->|]; [by rewrite lookup_delete_eq|by rewrite lookup_delete_ne].
Qed.
Lemma recorded_insert c k v x : str_contains k (key_of_public (e_localUdid env)) = false -> recorded (<[k := v]> c) x -> recorded c x.
Proof.
  intros Hk (w & E & P). exists w. split; [|done]. rewrite lookup_insert_ne in E; [done|]. intros ->. by rewrite contains_self in Hk.
Qed.

(** The text of a record. *)
Lemma record_text b developer id : fits_info (record_of b developer 0) = true -> 0 <= id <= MAX_BUNDLEID ->
  exists v, DmsBundleInfo_ToString (record_of b developer id) = Some v /\ info_of v = Some (record_of b developer id).
Proof.
  intros F Hi. destruct (info_round _ (fits_record b developer id F Hi)) as (v & E & P). exists v. split; [done|].
  unfold info_of. by rewrite P.
Qed.

(** ** Writing *)

(** What happens to the entries, and that nothing else does. *)
Definition written (F : gmap string string -> gmap string string) (s : Bm) (ok : Prop) (s' : Bm) : Prop :=
  bundleNameIdTables_ s' = bundleNameIdTables_ s /\ kvStorePtr_ s' = kvStorePtr_ s /\
  (contents (kv_ s') = F (contents (kv_ s)) \/ ~ ok /\ contents (kv_ s') = contents (kv_ s)).

Lemma wp_op op F s : (forall k st k', op k = (st, k') -> contents k' = F (contents k) \/ st <> SUCCESS /\ contents k' = contents k) ->
  wp (run_kv op) s (fun st s' => written F s (st = SUCCESS) s').
Proof. intros H. apply wp_kv. intros st k E. split; [done|]. split; [done|]. by apply H. Qed.

Lemma wp_again op F s : (forall k st k', op k = (st, k') -> contents k' = F (contents k) \/ st <> SUCCESS /\ contents k' = contents k) ->
  (forall c, F (F c) = F c) -> wp (again op) s (fun st s' => written F s (st = SUCCESS) s').
Proof.
  intros H I. unfold again. apply wp_bind. eapply wp_mono; [by apply wp_op|]. intros st s1 W.
  destruct (decide (st = IPC_ERROR)) as [->|]; [|by apply wp_ret]. eapply wp_mono; [by apply wp_op|]. cbn. intros st' s2 W2.
  destruct W as (T1 & P1 & C1), W2 as (T2 & P2 & C2). split; [congruence|]. split; [congruence|].
  destruct C1 as [C1|[_ C1]]; rewrite C1 in C2; [rewrite I in C2; destruct C2 as [C2|[_ C2]]; by left|exact C2].
Qed.

Lemma wp_again_ok op s : wp (again op) s (fun st _ => (forall k, (op k).1 = SUCCESS) -> st = SUCCESS).
Proof.
  unfold again. apply wp_bind, wp_kv. intros st k E. destruct (decide (st = IPC_ERROR)).
  - apply wp_kv. intros st' k' E' H. by rewrite <- (H (kv_ (set_kv k s))), E'.
  - apply wp_ret. intros H. by rewrite <- (H (kv_ s)), E.
Qed.

Lemma wp_UpdatePublic s : kvStorePtr_ s = true -> Forall (fun k => 0 <= k <= MAX_BUNDLEID) (zkeys (bundleNameIdTables_ s)) -> room 0 s ->
  wp (UpdatePublicRecords env (e_localUdid env)) s (fun _ s' => bundleNameIdTables_ s' = bundleNameIdTables_ s /\ kvStorePtr_ s' = true
    /\ forall k, stored (contents (kv_ s')) k = stored (contents (kv_ s)) k).
Proof.
  intros Hp Hu [R1 R2]. unfold UpdatePublicRecords. apply wp_bind, wp_CheckKvStore; [done|]. cbn [negb]. apply wp_bind.
  eapply wp_mono; [by apply wp_GetLast|]. intros [b x] s1 [(E1 & E2 & E3) Hx]. cbn [snd] in Hx. apply wp_bind, wp_get. rewrite E2.
  destruct (last_key (bundleNameIdTables_ s)) as [k|] eqn:Ek; [|apply wp_ret; rewrite E1, E3; done].
  pose proof (proj1 (List.Forall_forall _ _) Hu k (last_key_in _ _ Ek)) as Hk. cbn in Hk.
  assert (0 <= Z.max k x <= MAX_BUNDLEID) as Hm by (destruct Hx as [->|Hx]; [|specialize (R2 x Hx)]; lia).
  destruct (public_round (Z.max k x)) as (v & Ev & _); [unfold fits_u16, MAX_BUNDLEID in *; lia|].
  apply wp_bind. eapply wp_dumped; [exact Ev|]. apply wp_bind. eapply wp_mono; [apply (wp_op _ (fun c => <[key_of_public (e_localUdid env) := v]> c)), put_law|].
  intros st s2 (T & P & C). apply wp_ret. split; [congruence|]. split; [congruence|]. intros k'.
  destruct C as [C|[_ C]]; rewrite C, E1; [apply stored_public|done].
Qed.

(** ** Installed, changed and removed packages *)

Definition Inv (s : Bm) : Prop := kvStorePtr_ s = true /\ numbered (bundleNameIdTables_ s) (stored (contents (kv_ s))).

Lemma Inv_same s s' : same s s' -> Inv s -> Inv s'.
Proof. unfold same, Inv. intros (-> & -> & ->). done. Qed.
Lemma room_same n s s' : same s s' -> room n s -> room n s'.
Proof. unfold same, room. intros (-> & -> & _). done. Qed.

Lemma wp_InnerSave b developer id s : storable b developer -> 0 <= id <= MAX_BUNDLEID -> kvStorePtr_ s = true ->
  Forall (fun k => 0 <= k <= MAX_BUNDLEID) (zkeys (bundleNameIdTables_ s)) -> room 0 s ->
  wp (InnerSaveStorageDistributeInfo env (record_of b developer id) (e_localUdid env)) s (fun r s' =>
    bundleNameIdTables_ s' = bundleNameIdTables_ s /\ kvStorePtr_ s' = true /\
    ((forall k, stored (contents (kv_ s')) k = upd (key (bi_name b)) (record_of b developer id) (stored (contents (kv_ s))) k)
     \/ r = false /\ forall k, stored (contents (kv_ s')) k = stored (contents (kv_ s)) k)).
Proof.
  intros (F & Hn & Hk) Hi Hp Hu [R1 R2]. unfold InnerSaveStorageDistributeInfo. cbn [bundleName record_of]. rewrite (proj2 (String.eqb_neq _ _)) by done.
  apply wp_bind, wp_CheckKvStore; [done|]. cbn [negb]. destruct (record_text b developer id F Hi) as (v & Ev & Iv).
  apply wp_bind. eapply wp_dumped; [exact Ev|]. apply wp_bind.
  eapply wp_mono; [apply (wp_again _ (fun c => <[key (bi_name b) := v]> c)); [apply put_law|intros c; apply insert_insert_eq]|].
  intros st s1 (T & P & C). pose proof (stored_insert (contents (kv_ s)) _ _ _ Hk Iv) as Hins.
  destruct (bool_decide (st = SUCCESS)) eqn:Es; cbn [negb].
  - apply bool_decide_eq_true in Es. destruct C as [C|[C _]]; [|done]. apply wp_bind. eapply wp_mono; [apply wp_UpdatePublic|].
    + congruence.
    + by rewrite T.
    + split; [by rewrite T|]. intros x Hx. rewrite C in Hx. apply recorded_insert in Hx; [auto|done].
    + cbv beta. intros _ s2 (T2 & P2 & C2). apply wp_ret. split; [congruence|]. split; [done|]. left. intros k. by rewrite C2, C.
  - apply wp_ret. split; [done|]. split; [congruence|]. destruct C as [C|[_ C]]; [left|right; split; [done|]]; intros k; rewrite C; done.
Qed.

(** What saving a bundle does: a record with a new number, or no change of the records. *)
Lemma wp_Save rebuild name chg s :
  Inv s -> room 1 s -> (forall b, e_GetBundleInfo env name = Some b -> storable b (provision env name "")) ->
  wp (SaveStorageDistributeInfo env rebuild name chg) s (fun r s' => Inv s' /\
    (r = true -> exists b id, e_GetBundleInfo env name = Some b /\ last_or (bundleNameIdTables_ s) < id <= MAX_BUNDLEID
       /\ stored (contents (kv_ s')) (key (bi_name b)) = Some (record_of b (provision env name "") id))).
Proof.
  intros [Hp N] R Hb. unfold SaveStorageDistributeInfo. apply wp_bind, wp_CheckKvStore; [done|]. cbn [negb]. apply wp_bind.
  eapply wp_mono; [apply wp_GetBundleMgr|]. cbv beta. intros mgr s0 S0.
  assert (Inv s0) as I0 by (by apply (Inv_same s)). destruct mgr; [|by apply wp_ret]. cbn [negb].
  destruct (e_GetBundleInfo env name) as [b|] eqn:Eb; [|by apply wp_ret]. destruct (IsContinuable b); [|by apply wp_ret]. cbn [negb].
  destruct (String.eqb _ _); [by apply wp_ret|]. specialize (Hb b eq_refl). pose proof Hb as (F & Hn & Hk).
  pose proof (room_same 1 _ _ S0 R) as R0. destruct I0 as [Hp0 N0]. destruct S0 as (E1 & E2 & E3). apply wp_bind.
  eapply wp_mono; [apply wp_Convert; [done|done|apply N0|apply N0|done]|]. cbv beta. intros i s1 (id & -> & C & P1 & D).
  destruct D as [[? _]|(L & Hi & T & Rn)]; [done|]. apply wp_bind.
  assert (numbered (bundleNameIdTables_ s1) (upd (key (bi_name b)) (record_of b (provision env name "") id) (stored (contents (kv_ s1))))) as N1.
  { rewrite T, C. apply (numbered_fresh _ _ _ (record_of b _ id)); done. }
  eapply wp_mono; [apply wp_InnerSave; [done|done|done|apply N1|by apply Rn]|]. cbv beta. intros r s2 (T2 & P2 & D2).
  assert (Inv s2) as I2.
  { split; [done|]. rewrite T2. destruct D2 as [D2|[_ D2]]; eapply numbered_ext; try exact D2; [done|].
    rewrite T, C. by apply numbered_grow. }
  destruct r; cbn [negb]; [|by apply wp_ret]. destruct D2 as [D2|[? _]]; [|done]. apply wp_bind.
  eapply wp_mono; [apply wp_Sync|]. cbv beta. intros _ s3 S3. apply wp_ret. split; [by apply (Inv_same s2)|]. intros _.
  exists b, id. split; [done|]. split; [rewrite E2 in L; lia|]. destruct S3 as (-> & _). rewrite D2. unfold upd. by rewrite String.eqb_refl.
Qed.

Lemma wp_Delete name s : Inv s ->
  wp (DeleteStorageDistributeInfo env name) s (fun r s' => Inv s' /\
    (r = true -> e_GetBundleInfo env name = None -> contents (kv_ s') !! key name = None)).
Proof.
  intros [Hp N]. unfold DeleteStorageDistributeInfo. apply wp_bind, wp_CheckKvStore; [done|]. cbn [negb].
  destruct (String.eqb _ _); [by apply wp_ret|]. apply wp_bind. eapply wp_mono; [apply wp_GetBundleMgr|]. cbv beta. intros mgr s0 S0.
  assert (Inv s0) as [Hp0 N0] by (by apply (Inv_same s)). destruct mgr; [|by apply wp_ret]. cbn [negb].
  destruct (e_GetBundleInfo env name) as [b|]; [by apply wp_ret|]. apply wp_bind.
  eapply wp_mono; [apply (wp_again _ (delete (key name))); [apply delete_law|intros c; apply delete_delete_eq]|]. cbv beta. intros st s1 (T & P & C).
  assert (Inv s1) as I1.
  { split; [congruence|]. rewrite T. eapply numbered_sub; [|exact N0]. intros k i. destruct C as [C|[_ C]]; rewrite C; [apply stored_delete|done]. }
  destruct (bool_decide (st = SUCCESS)) eqn:Es; cbn [negb]; [|by apply wp_ret]. apply bool_decide_eq_true in Es. apply wp_bind.
  eapply wp_mono; [apply wp_Sync|]. cbv beta. intros _ s2 S2. apply wp_ret. split; [by apply (Inv_same s1)|]. intros _ _.
  destruct S2 as (-> & _). destruct C as [C|[C _]]; [|done]. rewrite C. apply lookup_delete_eq.
Qed.

(** ** Start-up *)

Definition overlay (l : list DmsBundleInfo) (f : string -> option DmsBundleInfo) : string -> option DmsBundleInfo :=
  fold_left (fun f i => upd (key (bundleName i)) i f) l f.

(** The numbers of all entries of the device go to the table. *)
Lemma table_insert_grows id name t k : is_Some (zfind k t) -> is_Some (zfind k (table_insert id name t)).
Proof.
  intros [x H]. unfold table_insert. destruct (zfind id t) eqn:E; [by exists x|]. rewrite zfind_zset. destruct (Z.eqb_spec k id); [by eexists|by exists x].
Qed.
Lemma table_insert_has id name t : is_Some (zfind id (table_insert id name t)).
Proof. unfold table_insert. destruct (zfind id t) eqn:E; [by eexists|]. rewrite zfind_zset, Z.eqb_refl. by eexists. Qed.
Lemma table_insert_sorted id name t : zsorted t -> zsorted (table_insert id name t).
Proof. unfold table_insert. destruct (zfind id t); [done|apply zset_sorted]. Qed.
Lemma table_insert_all (P : Z -> Prop) id name t : P id -> Forall P (zkeys t) -> Forall P (zkeys (table_insert id name t)).
Proof. unfold table_insert. destruct (zfind id t); [done|apply zkeys_zset_Forall]. Qed.

Lemma last_or_le t m : -1 <= m -> Forall (fun k => k <= m) (zkeys t) -> last_or t <= m.
Proof.
  intros Hm H. unfold last_or. destruct (last_key t) as [k|] eqn:E; [|done]. apply last_key_in in E. rewrite List.Forall_forall in H. by apply H.
Qed.

Definition ranged (m : Z) (t : zmap string) : Prop := zsorted t /\ Forall (fun k => 0 <= k <= m) (zkeys t).
Lemma ranged_last m t : -1 <= m -> ranged m t -> last_or t <= m.
Proof. intros Hm [_ H]. apply last_or_le; [done|]. eapply Forall_impl; [exact H|]. cbn. lia. Qed.

Lemma wp_old names m l : forall old s, ranged m (bundleNameIdTables_ s) ->
  (forall k v i, In (k, v) l -> str_contains k (key_of_public (e_localUdid env)) = false -> info_of v = Some i -> 0 <= bundleNameId i <= m) ->
  wp (old_infos (e_localUdid env) names l old) s (fun _ s' =>
    ranged m (bundleNameIdTables_ s') /\ kvStorePtr_ s' = kvStorePtr_ s
    /\ (forall k v, contents (kv_ s') !! k = Some v -> contents (kv_ s) !! k = Some v)
    /\ (forall id, is_Some (zfind id (bundleNameIdTables_ s)) -> is_Some (zfind id (bundleNameIdTables_ s')))
    /\ (forall k v i, In (k, v) l -> str_contains k (key_of_public (e_localUdid env)) = false -> info_of v = Some i ->
        is_Some (zfind (bundleNameId i) (bundleNameIdTables_ s')))).
Proof.
  induction l as [|[k v] l IH]; intros old s Hr Hm; [apply wp_ret; split_and!; auto; by intros|].
  assert (forall k' v' i, In (k', v') l -> str_contains k' (key_of_public (e_localUdid env)) = false -> info_of v' = Some i -> 0 <= bundleNameId i <= m)
    as Hm' by (intros; eapply Hm; eauto; by right).
  cbn [old_infos]. destruct (str_contains k _) eqn:Ek.
  { eapply wp_mono; [by apply IH|]. cbv beta. intros _ s' (A & B & C & D & E). split_and!; auto.
    intros k' v' i [[= <- <-]|Hi]; [congruence|eauto]. }
  pose proof (Hm k v) as Hkv. unfold info_of in Hkv. destruct (DmsBundleInfo_FromJsonString v DmsBundleInfo_new) as [[|] i] eqn:Ep.
  2: { eapply wp_mono; [by apply IH|]. cbv beta. intros _ s' (A & B & C & D & E). split_and!; auto.
       intros k' v' i' [[= <- <-]|Hi]; [unfold info_of; by rewrite Ep|eauto]. }
  specialize (Hkv i (or_introl eq_refl) Ek eq_refl). apply wp_bind. unfold AddBundleNameId. apply wp_modify.
  set (s1 := set_table _ s). assert (ranged m (bundleNameIdTables_ s1)) as Hr1.
  { destruct Hr. split; [by apply table_insert_sorted|by apply table_insert_all]. }
  assert (forall old s2, bundleNameIdTables_ s2 = bundleNameIdTables_ s1 -> kvStorePtr_ s2 = kvStorePtr_ s ->
    (forall k v, contents (kv_ s2) !! k = Some v -> contents (kv_ s) !! k = Some v) ->
    wp (old_infos (e_localUdid env) names l old) s2 (fun _ s' => ranged m (bundleNameIdTables_ s') /\ kvStorePtr_ s' = kvStorePtr_ s
    /\ (forall k v, contents (kv_ s') !! k = Some v -> contents (kv_ s) !! k = Some v)
    /\ (forall id, is_Some (zfind id (bundleNameIdTables_ s)) -> is_Some (zfind id (bundleNameIdTables_ s')))
    /\ (forall k' v' i, In (k', v') ((k, v) :: l) -> str_contains k' (key_of_public (e_localUdid env)) = false -> info_of v' = Some i ->
        is_Some (zfind (bundleNameId i) (bundleNameIdTables_ s'))))) as Hgo.
  { intros old' s2 T2 P2 C2. eapply wp_mono; [apply IH; [by rewrite T2|done]|]. cbv beta. intros _ s' (A & B & C & D & E).
    rewrite T2 in D. split_and!; auto; [congruence|intros id Hid; by apply D, table_insert_grows|].
    intros k' v' i' [[= <- <-]|Hi]; [|eauto]. unfold info_of. rewrite Ep. intros _ [= <-]. apply D, table_insert_has. }
  destruct (negb _ || _); [|by apply Hgo]. apply wp_bind. eapply wp_mono; [apply (wp_op _ (delete k)), delete_law|]. cbv beta. intros st s2 (T & P & C).
  apply Hgo; [done|done|]. intros k' v' H. destruct C as [C|[_ C]]; rewrite C in H; [apply lookup_delete_Some in H as [_ H]; exact H|exact H].
Qed.

(** ** The loop over the bundles *)

Lemma append_inj a b c : a +:+ b = a +:+ c -> b = c.
Proof. induction a as [|x a IH]; [done|]. intros [= H]. by apply IH. Qed.
Lemma key_inj a b : key a = key b -> a = b.
Proof. unfold key, DeviceAndNameToKey. intros H. by do 2 apply append_inj in H. Qed.

Lemma overlay_snoc l i f : overlay (l ++ [i]) f = upd (key (bundleName i)) i (overlay l f).
Proof. unfold overlay. by rewrite fold_left_app. Qed.
Lemma overlay_other l f name : ~ In name (map bundleName l) -> overlay l f (key name) = f (key name).
Proof.
  induction l as [|i l IH] using rev_ind; [done|]. rewrite overlay_snoc, map_app, in_app_iff. intros H. unfold upd.
  destruct (String.eqb_spec (key name) (key (bundleName i))) as [E|]; [apply key_inj in E; subst; exfalso; apply H; right; by left|].
  apply IH. intros Hi. apply H. by left.
Qed.
Lemma overlay_ext l : forall f g k, (forall k, f k = g k) -> overlay l f k = overlay l g k.
Proof.
  induction l as [|i l IH]; intros f g k H; [by apply H|]. unfold overlay. cbn [fold_left]. apply IH. intros k'. unfold upd. by destruct (String.eqb _ _).
Qed.

(** A record that was made in the loop. *)
Definition made (bundles : list BundleInfo) (i : DmsBundleInfo) : Prop :=
  exists b id, In b bundles /\ i = record_of b "" id /\ 0 <= id <= MAX_BUNDLEID.

Record pending (c : gmap string string) (bundles : list BundleInfo) (l : list DmsBundleInfo) (s : Bm) : Prop := {
  pe_contents : contents (kv_ s) = c;
  pe_ptr : kvStorePtr_ s = true;
  pe_old : numbered (bundleNameIdTables_ s) (stored c);
  pe_new : numbered (bundleNameIdTables_ s) (overlay l (stored c));
  pe_made : Forall (made bundles) l;
}.

Lemma pending_convert c all b chg l s rebuild : In b all -> storable b "" -> ~ In (bi_name b) (map bundleName l) -> pending c all l s -> room 1 s ->
  wp (ConvertToDistributedBundleInfo env rebuild b "" chg) s (fun i s' =>
    bundleName i = bi_name b /\ pending c all (l ++ [i]) s' /\ forall n, 0 <= n -> room (n + 1) s -> room n s').
Proof.
  intros Hin (F & Hn & Hk) Hl [C P O W Hm] R. eapply wp_mono; [apply wp_Convert; [done|done|apply O|apply O|done]|]. cbv beta.
  intros i s' (id & -> & C' & P' & D). split; [done|].
  assert (contents (kv_ s') = c) as Ec by congruence.
  destruct D as [(_ & T & j & Ej & Nj & Ij)|(L & Hi & T & Rn)].
  - assert (stored c (key (bi_name b)) = Some j) as Sj by (unfold stored; rewrite Hk, <- C; done).
    destruct (num_given _ _ O _ _ Sj) as [x Hx]. assert (0 <= id <= MAX_BUNDLEID) as Hid.
    { pose proof (num_u16 _ _ O) as U. rewrite List.Forall_forall in U. rewrite <- Ij. apply U, zfind_key. by exists x. }
    split; [split; [done|done|by rewrite T| |]|].
    + rewrite T, overlay_snoc. apply (numbered_same _ _ _ _ j); [done| |done]. cbn [bundleName record_of]. by rewrite overlay_other.
    + apply List.Forall_app. split; [done|]. constructor; [|done]. exists b, id. done.
    + intros n Hn0 [R1 R2]. unfold room. rewrite T, Ec, <- C. split; [lia|]. intros y Hy. specialize (R2 y Hy). lia.
  - split; [split; [done|done| | |]|].
    + rewrite T. by apply numbered_grow.
    + rewrite T, overlay_snoc. by apply (numbered_fresh _ _ _ (record_of b "" id)).
    + apply List.Forall_app. split; [done|]. constructor; [|done]. exists b, id. done.
    + intros n _. apply Rn.
Qed.

(** The records that the loop makes, and which bundles have none: those whose record is of the same time. *)
Definition loop_done (c : gmap string string) (all : list BundleInfo) (old : list (string * DmsBundleInfo)) (bundles : list BundleInfo)
    (l l' : list DmsBundleInfo) (s' : Bm) : Prop :=
  pending c all l' s' /\ room 0 s' /\ (forall n, In n (map bundleName l) -> In n (map bundleName l')) /\
  forall b, In b bundles -> In (bi_name b) (map bundleName l') \/ exists i, mfind (bi_name b) old = Some i /\ updateTime i = bi_updateTime b.

Lemma wp_update_loop c all rebuild old bundles : forall l s, (forall b, In b bundles -> In b all) -> Forall (fun b => storable b "") bundles ->
  NoDup (map bi_name bundles) -> (forall b, In b bundles -> ~ In (bi_name b) (map bundleName l)) -> pending c all l s -> room (len bundles) s ->
  wp (update_loop env rebuild old bundles "" l) s (loop_done c all old bundles l).
Proof.
  induction bundles as [|b bundles IH]; intros l s Hall Hst Hnd Hl Hp R; [by apply wp_ret; split_and!|].
  apply Forall_cons in Hst as [Hb Hst]. cbn [map] in Hnd. apply NoDup_cons in Hnd as [Hnb Hnd].
  assert (room 1 s /\ forall n, 0 <= n -> n <= len bundles -> room n s) as [R1 Rn].
  { destruct R as [A B]. unfold len in *. cbn [length] in *. split.
    - split; [lia|]. intros x Hx. specialize (B x Hx). lia.
    - intros n H0 H1. split; [lia|]. intros x Hx. specialize (B x Hx). lia. }
  assert (forall chg, wp (ConvertToDistributedBundleInfo env rebuild b "" chg) s (fun i s' => bundleName i = bi_name b /\
    wp (update_loop env rebuild old bundles "" (l ++ [i])) s' (loop_done c all old (b :: bundles) l))) as Hgo.
  { intros chg. eapply wp_mono; [apply (pending_convert c all b chg l); [apply Hall; by left|done|apply Hl; by left|done|done]|]. cbv beta.
    intros i s' (Ni & Pi & Ri). split; [done|]. eapply wp_mono; [apply IH|].
    - intros b' Hb'. apply Hall. by right.
    - done.
    - done.
    - intros b' Hb'. rewrite map_app, in_app_iff. intros [H|[H|[]]]; [by apply (Hl b'); [right|]|]. apply Hnb. apply list_elem_of_In.
      rewrite <- Ni, H. by apply in_map.
    - done.
    - apply Ri; unfold len in *; [lia|]. cbn [length] in R. replace (Z.of_nat (length bundles) + 1) with (Z.of_nat (S (length bundles))) by lia. done.
    - intros l' s2 (A & B & C & D). rewrite map_app in C. split_and!; [done|done|intros n Hn; apply C, in_app_iff; by left|].
      intros b' [<-|Hb']; [left|by apply D]. apply C, in_app_iff. right. left. done. }
  cbn [update_loop FindProvishionInfo fst]. destruct (mfind (bi_name b) old) as [i|] eqn:Eo.
  - destruct (updateTime i =? bi_updateTime b) eqn:Et; cbn [negb].
    + eapply wp_mono; [apply IH; auto; [intros; apply Hall; by right|intros; apply Hl; by right|apply Rn; unfold len; lia]|].
      intros l' s' (A & B & C & D). split_and!; [done|done|done|]. intros b' [<-|Hb']; [right|by apply D]. exists i. split; [done|]. by apply Z.eqb_eq.
    + apply wp_bind. eapply wp_mono; [apply (Hgo true)|]. cbv beta. by intros i' s' [_ H].
  - apply wp_bind. eapply wp_mono; [apply (Hgo false)|]. cbv beta. intros i' s' [Hn H].
    destruct Hb as (_ & Hb & _). rewrite Hn, (proj2 (String.eqb_neq _ _)) by done. done.
Qed.

(** ** Writing all records *)

Lemma put_all_lookup l : forall c k, put_all l c !! k = match List.find (fun e => String.eqb k e.1) (rev l) with Some e => Some e.2 | None => c !! k end.
Proof.
  induction l as [|e l IH] using rev_ind; intros c k; [done|]. unfold put_all in *. rewrite fold_left_app, rev_app_distr. cbn.
  destruct (String.eqb_spec k e.1) as [->|]; [apply lookup_insert_eq|rewrite lookup_insert_ne by done; apply IH].
Qed.
Lemma put_all_idem l c : put_all l (put_all l c) = put_all l c.
Proof. apply map_eq. intros k. rewrite !put_all_lookup. by destruct (List.find _ _). Qed.

Lemma wp_bundle_entries all l : Forall (fun b => storable b "") all -> Forall (made all) l -> forall s,
  wp (bundle_entries (e_localUdid env) l) s (fun es s' => s' = s /\ forall c k, stored (put_all es c) k = overlay l (stored c) k).
Proof.
  intros Hst. induction 1 as [|i l (b & id & Hb & -> & Hi) _ IH]; intros s; [by apply wp_ret|]. cbn [bundle_entries].
  rewrite List.Forall_forall in Hst. destruct (Hst b Hb) as (F & Hn & Hk). destruct (record_text b "" id F Hi) as (v & Ev & Iv).
  apply wp_bind. eapply wp_dumped; [exact Ev|]. apply wp_bind. eapply wp_mono; [apply IH|]. cbv beta. intros es s' [-> H]. apply wp_ret. split; [done|].
  intros c k. change (stored (put_all es (<[key (bi_name b) := v]> c)) k = overlay l (upd (key (bi_name b)) (record_of b "" id) (stored c)) k).
  rewrite H. apply overlay_ext. by apply stored_insert.
Qed.

(** The batch succeeds. *)
Definition batches_succeed : Prop := forall l k, (kv_PutBatch l k).1 = SUCCESS.

Lemma wp_PutBatch c all l s : Forall (fun b => storable b "") all -> pending c all l s -> room 0 s -> e_localUdid env <> "" ->
  wp (DmsPutBatch env l) s (fun _ s' => Inv s' /\ (batches_succeed -> forall k, stored (contents (kv_ s')) k = overlay l (stored c) k)).
Proof.
  intros Hst [C P O W Hm] [R1 R2] Hu. unfold DmsPutBatch. destruct l as [|i0 l0] eqn:El; [apply wp_ret; unfold Inv; rewrite C; done|].
  rewrite <- El in *. apply wp_bind, wp_CheckKvStore; [done|]. cbn [negb]. rewrite (proj2 (String.eqb_neq _ _)) by done.
  apply wp_bind. eapply wp_mono; [by apply (wp_bundle_entries all)|]. cbv beta. intros es s' [-> Hes].
  assert (exists k, last_key (bundleNameIdTables_ s) = Some k) as [k Ek].
  { destruct (bundleNameIdTables_ s) as [|e t] eqn:Et; [|apply last_key_cons]. exfalso.
    destruct (rev l) as [|i r] eqn:Er; [apply (f_equal (@rev _)) in Er; rewrite rev_involutive in Er; by rewrite El in Er|].
    apply (f_equal (@rev _)) in Er. rewrite rev_involutive in Er. cbn in Er. rewrite Er, overlay_snoc in W.
    destruct (num_given _ _ W (key (bundleName i)) i) as [x Hx]; [unfold upd; by rewrite String.eqb_refl|done]. }
  pose proof (proj1 (List.Forall_forall _ _) (num_u16 _ _ O) k (last_key_in _ _ Ek)) as Hk. cbn in Hk.
  apply wp_bind. eapply wp_mono; [by apply (wp_largest _ k)|]. cbv beta. intros x s1 [(E1 & E2 & E3) Hx].
  assert (0 <= x <= MAX_BUNDLEID) as Hxr by (destruct Hx as [->|(r & Hr & ->)]; [|specialize (R2 r Hr)]; lia).
  destruct (public_round x) as (v & Ev & _); [unfold fits_u16, MAX_BUNDLEID in *; lia|].
  apply wp_bind. eapply wp_dumped; [exact Ev|]. cbv zeta. apply wp_bind.
  set (entries := es ++ _). assert (forall c' k', stored (put_all entries c') k' = overlay l (stored c') k') as Hst'.
  { intros c' k'. unfold entries, put_all. rewrite fold_left_app. cbn [fold_left fst snd]. rewrite stored_public. apply Hes. }
  eapply wp_mono; [apply wp_and; [apply (wp_again _ (put_all entries)); [apply put_batch_law|apply put_all_idem]|apply wp_again_ok]|].
  cbv beta. intros st s2 [(T & Q & D) Hok].
  assert (Inv s2) as I2.
  { split; [congruence|]. rewrite T, E2. destruct D as [D|[_ D]]; rewrite D, E1, C; [|done].
    eapply numbered_ext; [apply Hst'|done]. }
  assert (batches_succeed -> forall k', stored (contents (kv_ s2)) k' = overlay l (stored c) k') as H2.
  { intros B k'. destruct D as [D|[D _]]; [rewrite D, E1, C; apply Hst'|]. exfalso. apply D, Hok. intros k0. apply B. }
  unfold SyncBundleInfoData. destruct entries; [by apply wp_ret|]. eapply wp_mono; [apply wp_Sync|]. cbv beta. intros _ s3 S3.
  split; [by apply (Inv_same s2)|]. intros B k'. destruct S3 as (-> & _). by apply H2.
Qed.

(** ** The records that were there *)

Lemma wp_old_kept names l : forall old s,
  wp (old_infos (e_localUdid env) names l old) s (fun old' s' =>
    (forall n i, mfind n old' = Some i -> mfind n old = Some i \/ exists k v, In (k, v) l /\
       str_contains k (key_of_public (e_localUdid env)) = false /\ info_of v = Some i /\ bundleName i = n)
    /\ forall k, (forall v i, In (k, v) l -> str_contains k (key_of_public (e_localUdid env)) = false -> info_of v = Some i ->
                   existsb (String.eqb (bundleName i)) names = true /\ bundleName i <> "") ->
         contents (kv_ s') !! k = contents (kv_ s) !! k).
Proof.
  induction l as [|[k v] l IH]; intros old s; [apply wp_ret; split; auto|].
  assert (forall old1 s1, (forall n i, mfind n old1 = Some i -> mfind n old = Some i \/
       str_contains k (key_of_public (e_localUdid env)) = false /\ info_of v = Some i /\ bundleName i = n) ->
     (forall k', (forall v' i, In (k', v') ((k, v) :: l) -> str_contains k' (key_of_public (e_localUdid env)) = false -> info_of v' = Some i ->
        existsb (String.eqb (bundleName i)) names = true /\ bundleName i <> "") -> contents (kv_ s1) !! k' = contents (kv_ s) !! k') ->
     wp (old_infos (e_localUdid env) names l old1) s1 (fun old' s' =>
    (forall n i, mfind n old' = Some i -> mfind n old = Some i \/ exists k' v', In (k', v') ((k, v) :: l) /\
       str_contains k' (key_of_public (e_localUdid env)) = false /\ info_of v' = Some i /\ bundleName i = n)
    /\ forall k', (forall v' i, In (k', v') ((k, v) :: l) -> str_contains k' (key_of_public (e_localUdid env)) = false -> info_of v' = Some i ->
                   existsb (String.eqb (bundleName i)) names = true /\ bundleName i <> "") ->
         contents (kv_ s') !! k' = contents (kv_ s) !! k')) as Hgo.
  { intros old1 s1 Ho Hc. eapply wp_mono; [apply IH|]. cbv beta. intros old' s' [A B]. split.
    - intros n i [H|(k' & v' & Hin & H)]%A; [|right; exists k', v'; split; [by right|done]].
      apply Ho in H as [H|H]; [by left|right]. exists k, v. split; [by left|done].
    - intros k' H. rewrite B; [by apply Hc|]. intros v' i Hin. apply H. by right. }
  cbn [old_infos]. destruct (str_contains k _) eqn:Ek; [apply Hgo; auto|].
  destruct (DmsBundleInfo_FromJsonString v DmsBundleInfo_new) as [[|] i] eqn:Ep; [|apply Hgo; auto].
  assert (info_of v = Some i) as Iv by (unfold info_of; by rewrite Ep). apply wp_bind. unfold AddBundleNameId. apply wp_modify.
  destruct (negb _ || _) eqn:Ed.
  - apply wp_bind. eapply wp_mono; [apply (wp_op _ (delete k)), delete_law|]. cbv beta. intros st s2 (T & P & C). apply Hgo; [auto|].
    intros k' H. destruct C as [C|[_ C]]; rewrite C; [|done]. destruct (decide (k = k')) as [<-|]; [|by rewrite lookup_delete_ne].
    destruct (H v i (or_introl eq_refl) Ek Iv) as [H1 H2]. rewrite H1, (proj2 (String.eqb_neq _ _)) in Ed by done. done.
  - apply Hgo; [|done]. intros n i' H. unfold minsert in H. destruct (mfind (bundleName i) old) eqn:Eo; [by left|].
    rewrite mfind_insert_sorted, same_string in H by done. destruct (String.eqb_spec n (bundleName i)) as [->|]; [|by left].
    injection H as <-. by right.
Qed.

(** ** Start-up as a whole *)

(** The records of the database before: keys and numbers are consistent. *)
Definition tidy (m : Z) (c : gmap string string) : Prop :=
  (forall k i, stored c k = Some i -> k = key (bundleName i) /\ 0 <= bundleNameId i <= m) /\
  (forall k1 k2 i1 i2, stored c k1 = Some i1 -> stored c k2 = Some i2 -> bundleNameId i1 = bundleNameId i2 -> k1 = k2).

Lemma overlay_in l f n : In n (map bundleName l) -> exists i, In i l /\ overlay l f (key n) = Some i /\ bundleName i = n.
Proof.
  induction l as [|i l IH] using rev_ind; [done|]. rewrite overlay_snoc, map_app, in_app_iff. intros H. unfold upd.
  destruct (String.eqb_spec (key n) (key (bundleName i))) as [E|Hne].
  - apply key_inj in E. exists i. rewrite in_app_iff. split; [right; by left|done].
  - destruct H as [H|[H|[]]]; [|by subst]. destruct (IH H) as (j & Hj & E & N). exists j. rewrite in_app_iff. auto.
Qed.

Lemma wp_GetBundleMgr_kv s : bundleMgr_ s = true -> forall Q : bool -> Bm -> Prop, Q true s -> wp (GetBundleMgr env) s Q.
Proof. intros E Q H. unfold GetBundleMgr. apply wp_bind, wp_get. rewrite E. by apply wp_ret. Qed.

(** What the records of before leave: the table has their numbers. *)
Definition old_read (m : Z) (names : list string) (c : gmap string string) (old : list (string * DmsBundleInfo)) (s' : Bm) : Prop :=
  ranged m (bundleNameIdTables_ s') /\ kvStorePtr_ s' = true
  /\ (forall k v, contents (kv_ s') !! k = Some v -> c !! k = Some v)
  /\ numbered (bundleNameIdTables_ s') (stored (contents (kv_ s')))
  /\ forall n i, mfind n old = Some i -> In n names -> stored (contents (kv_ s')) (key n) = Some i /\ bundleName i = n.

Lemma wp_GetAllOld m names s : m <= MAX_BUNDLEID -> kvStorePtr_ s = true -> e_localUdid env <> "" -> e_localUuid env <> "" ->
  ~ In "" names -> ranged m (bundleNameIdTables_ s) -> tidy m (contents (kv_ s)) ->
  device (kv_ s) (e_localUuid env) = contents (kv_ s) -> (kv_GetDeviceEntries (e_localUuid env) (kv_ s)).1.1 = SUCCESS ->
  wp (GetAllOldDistributionBundleInfo env names) s (old_read m names (contents (kv_ s))).
Proof.
  intros Hm Hp Hu Hv Hn Hr [Tk Tu] Hdev Hread. unfold GetAllOldDistributionBundleInfo. apply wp_bind, wp_get. rewrite Hp. cbn [negb].
  rewrite !(proj2 (String.eqb_neq _ _)) by done. cbn [orb]. apply wp_bind, wp_kv. intros [st l] k E. rewrite E in Hread. cbn in Hread. subst st.
  apply device_law in E as (E1 & E2 & E3). destruct (E3 eq_refl) as [Hnd Hin]. rewrite Hdev in Hin.
  set (s1 := set_kv k s). destruct l as [|e l0] eqn:El.
  { apply wp_ret. assert (forall k v, contents (kv_ s1) !! k = Some v -> False) as Hno.
    { intros k' v' H. cbn in H. rewrite E1 in H. by apply Hin in H. }
    split_and!; [done|done|by intros ?? ?%Hno| |done]. split; [apply Hr|destruct Hr as [_ Hr]; eapply Forall_impl; [exact Hr|]; cbn; lia| |];
      unfold stored, info_at; intros; destruct (str_contains _ _); try done; destruct (contents (kv_ s1) !! _) eqn:Ek; try done; by apply Hno in Ek. }
  rewrite <- El in *. clear e l0 El. rewrite bool_decide_eq_true_2 by done. cbn [negb].
  assert (forall k' v i, In (k', v) l -> str_contains k' (key_of_public (e_localUdid env)) = false -> info_of v = Some i ->
    stored (contents (kv_ s)) k' = Some i) as Hs.
  { intros k' v i H%Hin Hk Hi. unfold stored, info_at. by rewrite Hk, H. }
  eapply wp_mono; [apply wp_and; [apply (wp_old names m l); [done|intros k' v i H Hk Hi; eapply (Tk k'), Hs; eauto]|apply wp_old_kept]|].
  cbv beta. intros old s2 ((A & B & C & D & F) & G & K). cbn [kv_ set_kv s1] in C, K. rewrite E1 in C, K.
  assert (forall k' i, stored (contents (kv_ s2)) k' = Some i -> stored (contents (kv_ s)) k' = Some i) as Hsub.
  { intros k' i. unfold stored, info_at. destruct (str_contains k' _); [done|]. destruct (contents (kv_ s2) !! k') as [v|] eqn:Ev; [|done]. by rewrite (C _ _ Ev). }
  split_and!; [done|by rewrite B|done| |].
  - split; [apply A|destruct A as [_ A]; eapply Forall_impl; [exact A|]; cbn; lia| |].
    + intros k' i H. unfold stored, info_at in H. destruct (str_contains k' _) eqn:Ek; [done|].
      destruct (contents (kv_ s2) !! k') as [v|] eqn:Ev; [|done]. apply (F k' v i); [by apply Hin, C|done|done].
    + intros k1 k2 i1 i2 H1%Hsub H2%Hsub. by apply Tu.
  - intros n i H Hnm. apply G in H as [H|(k' & v & Hkv & Hk & Hi & Hb)]; [done|]. pose proof (Hs _ _ _ Hkv Hk Hi) as Hst.
    destruct (Tk _ _ Hst) as [Ek _]. rewrite Hb in Ek. subst k'. split; [|done]. unfold stored, info_at. rewrite Hk, K.
    + apply Hin in Hkv. by rewrite Hkv.
    + intros v' i' Hkv' _ Hi'. apply Hin in Hkv, Hkv'. assert (v' = v) as -> by congruence. assert (i' = i) as -> by congruence.
      rewrite Hb. split; [|intros ->; done]. apply existsb_exists. exists n. by rewrite String.eqb_refl.
Qed.

Lemma NoDup_fmap_1_name (l : list BundleInfo) b b' : NoDup (map bi_name l) -> In b l -> In b' l -> bi_name b' = bi_name b -> b' = b.
Proof.
  induction l as [|x l IH]; [done|]. cbn [map]. intros [Hx Hn]%NoDup_cons. rewrite list_elem_of_In in Hx.
  intros [->|Hb] [->|Hb'] E; [done|exfalso; apply Hx; rewrite <- E; by apply in_map|exfalso; apply Hx; rewrite E; by apply in_map|auto].
Qed.

Lemma startup_runs depth bundles s :
  -1 <= MAX_BUNDLEID - len bundles -> kvStorePtr_ s = true -> bundleMgr_ s = true -> e_localUdid env <> "" -> e_localUuid env <> "" ->
  e_GetBundleInfosForContinuation env = Some bundles -> Forall (fun b => storable b "") bundles -> NoDup (map bi_name bundles) ->
  ranged (MAX_BUNDLEID - len bundles) (bundleNameIdTables_ s) -> tidy (MAX_BUNDLEID - len bundles) (contents (kv_ s)) ->
  (forall x, recorded (contents (kv_ s)) x -> x <= MAX_BUNDLEID - len bundles) ->
  device (kv_ s) (e_localUuid env) = contents (kv_ s) -> (kv_GetDeviceEntries (e_localUuid env) (kv_ s)).1.1 = SUCCESS ->
  wp (UpdateDistributedData env depth) s (fun _ s' => Inv s' /\ (batches_succeed -> forall b, In b bundles ->
    exists i, stored (contents (kv_ s')) (key (bi_name b)) = Some i /\ bundleName i = bi_name b /\ updateTime i = bi_updateTime b)).
Proof.
  intros Hm Hp Hmgr Hu Hv Hb Hst Hnd Hr Ht Hrec Hdev Hread. unfold UpdateDistributedData, UpdateDistributedData_with.
  apply wp_bind, wp_GetBundleMgr_kv; [done|]. cbn [negb]. rewrite Hb. apply wp_bind.
  assert (forall b, In b bundles -> storable b "") as Hst' by (by apply List.Forall_forall).
  eapply wp_mono; [apply (wp_GetAllOld (MAX_BUNDLEID - len bundles)); auto; [unfold len; lia|]|].
  { intros (b & Hn & Hin)%in_map_iff. by destruct (Hst' b Hin) as (_ & ? & _). }
  intros old s1 (A & B & C & D & E). apply wp_bind. eapply wp_mono; [apply (wp_update_loop (contents (kv_ s1)) bundles _ old bundles)|]; auto.
  - split; auto.
  - split; [pose proof (ranged_last _ _ Hm A); lia|]. intros x (v & Hx & Px). assert (x <= MAX_BUNDLEID - len bundles); [|lia].
    apply Hrec. exists v. auto.
  - cbv beta. intros l s2 (P & R & _ & Hall). eapply wp_mono; [by apply (wp_PutBatch (contents (kv_ s1)) bundles)|]. cbv beta. intros _ s3 [I H].
    split; [done|]. intros Hok b Hin. rewrite (H Hok).
    destruct (in_dec String.string_dec (bi_name b) (map bundleName l)) as [Hl|Hl].
    + destruct (overlay_in l (stored (contents (kv_ s1))) _ Hl) as (i & Hi & Ei & Ni). exists i. split; [done|]. split; [done|].
      pose proof (pe_made _ _ _ _ P) as Hmade. rewrite List.Forall_forall in Hmade. destruct (Hmade i Hi) as (b' & id & Hb' & -> & _).
      cbn in Ni |- *. destruct (Hst' b Hin), (Hst' b' Hb'). by rewrite (NoDup_fmap_1_name bundles b b').
    + rewrite overlay_other by done. destruct (Hall b Hin) as [?|(i & Hi & Ti)]; [done|]. destruct (E _ _ Hi (in_map _ _ _ Hin)) as [Si Ni]. by exists i.
Qed.

(** ** Numbers that have run out *)

Lemma delete_all_None l : forall c k, In k l \/ c !! k = None -> delete_all l c !! k = None.
Proof.
  induction l as [|x l IH]; intros c k [H|H]; [done|done| |]; unfold delete_all; cbn [fold_left].
  - apply IH. destruct H as [->|H]; [right; apply lookup_delete_eq|by left].
  - apply IH. right. apply lookup_delete_None. by right.
Qed.

Lemma rebuild_runs depth bundles s :
  len bundles <= MAX_BUNDLEID + 1 -> kvStorePtr_ s = true -> bundleMgr_ s = true -> e_localUdid env <> "" -> e_localUuid env <> "" ->
  e_GetBundleInfosForContinuation env = Some bundles -> Forall (fun b => storable b "") bundles -> NoDup (map bi_name bundles) ->
  (forall k v, contents (kv_ s) !! k = Some v -> String.prefix (e_localUdid env) k = true) ->
  (forall k, device k (e_localUuid env) = contents k) -> (forall k, (kv_GetDeviceEntries (e_localUuid env) k).1.1 = SUCCESS) ->
  wp (RebuildLocalData env (S depth)) s (fun r s' => r = true -> Inv s' /\ (batches_succeed -> forall b, In b bundles ->
    exists i, stored (contents (kv_ s')) (key (bi_name b)) = Some i /\ bundleName i = bi_name b /\ updateTime i = bi_updateTime b)).
Proof.
  intros Hm Hp Hmgr Hu Hv Hb Hst Hnd Hpre Hdev Hread. cbn [RebuildLocalData]. unfold RebuildLocalData_with.
  rewrite (proj2 (String.eqb_neq _ _)) by done. apply wp_bind, wp_CheckKvStore; [done|]. cbn [negb]. apply wp_bind, wp_kv.
  intros [st l] k (E1 & E2)%entries_law. destruct (bool_decide (st = SUCCESS)) eqn:Es; cbn [negb]; [|by apply wp_ret].
  apply bool_decide_eq_true in Es. specialize (E2 Es). apply wp_bind, wp_kv. intros st2 k2 D%delete_batch_law. cbn [kv_ set_kv] in D.
  destruct (bool_decide (st2 = SUCCESS)) eqn:Es2; cbn [negb]; [|by apply wp_ret]. apply bool_decide_eq_true in Es2.
  destruct D as [D|[? _]]; [|done]. apply wp_bind, wp_modify, wp_bind.
  assert (forall k', contents k2 !! k' = None) as Hno.
  { intros k'. rewrite D, E1. apply delete_all_None. destruct (contents (kv_ s) !! k') as [v|] eqn:Ev; [left|by right].
    apply in_map_iff. exists (k', v). split; [done|]. by apply E2, Hpre with v. }
  set (s2 := set_table _ _). assert (forall k', stored (contents (kv_ s2)) k' = None) as Hno'.
  { intros k'. unfold stored, info_at. destruct (str_contains _ _); [done|]. by rewrite (Hno k' : contents (kv_ s2) !! k' = None). }
  eapply wp_mono; [apply (startup_runs depth bundles s2)|]; auto.
  - lia.
  - split; [constructor|constructor].
  - split; intros ??; rewrite Hno'; done.
  - intros x (v & Hx & _). by rewrite (Hno _ : contents (kv_ s2) !! _ = None) in Hx.
  - cbv beta. intros _ s3 H. by apply wp_ret.
Qed.

(** ** Other devices *)

Lemma omap_single {A B} (f : A -> option B) l x y : NoDup l -> In x l -> f x = Some y -> (forall x', In x' l -> x' <> x -> f x' = None) -> omap f l = [y].
Proof.
  intros Hnd Hin Hx Hf. induction l as [|z l IH]; [done|]. apply NoDup_cons in Hnd as [Hz Hnd]. rewrite list_elem_of_In in Hz. cbn.
  destruct Hin as [->|Hin].
  - rewrite Hx. f_equal. assert (forall x', In x' l -> f x' = None) as Hl by (intros x' H; apply Hf; [by right|intros ->; done]).
    clear -Hl. induction l as [|a l IH]; [done|]. cbn. rewrite (Hl a) by (by left). apply IH. intros; apply Hl; by right.
  - rewrite (Hf z); [|by left|intros ->; done]. apply IH; auto. intros; apply Hf; [by right|done].
Qed.

(** Another device that has the entries of this one. *)
Record sees (s : Bm) (peer : BmEnv) (networkId : string) (t : Bm) : Prop := {
  see_ptr : kvStorePtr_ t = true;
  see_udid : e_udidOf peer networkId = e_localUdid env;
  see_udid_some : e_localUdid env <> "";
  see_uuid_some : e_uuidOf peer networkId <> "";
  see_entries : device (kv_ t) (e_uuidOf peer networkId) = contents (kv_ s);
  see_reads : forall k, (kv_GetDeviceEntries (e_uuidOf peer networkId) k).1.1 = SUCCESS;
}.

Lemma wp_device_hits s peer networkId t test k v i : sees s peer networkId t ->
  contents (kv_ s) !! k = Some v -> str_contains k (key_of_public (e_localUdid env)) = false -> info_of v = Some i -> test i = true ->
  (forall k' i', stored (contents (kv_ s)) k' = Some i' -> test i' = true -> k' = k) ->
  wp (device_hits peer networkId test) t (fun r t' => r = Some [((k, v), i)] /\ sees s peer networkId t').
Proof.
  intros [P1 U1 U2 U3 E R] Hk Hpub Hi Ht Hu. unfold device_hits. apply wp_bind, wp_CheckKvStore; [done|]. cbn [negb].
  rewrite U1, !(proj2 (String.eqb_neq _ _)) by done. cbn [orb]. apply wp_bind, wp_kv. intros [st l] k2 Eq. specialize (R (kv_ t)) as R0. rewrite Eq in R0.
  cbn in R0. subst st. apply device_law in Eq as (_ & E2 & E3). destruct (E3 eq_refl) as [Hnd Hin]. rewrite E in Hin.
  assert (sees s peer networkId (set_kv k2 t)) as Hsees by (split; try done; cbn; by rewrite E2).
  destruct l as [|e l0] eqn:El; [by apply Hin in Hk|]. rewrite <- El in *. clear e l0 El. rewrite bool_decide_eq_true_2 by done. cbn [negb].
  apply wp_ret. split; [|done]. f_equal. unfold hits. apply (omap_single _ _ (k, v)).
  - by apply NoDup_fmap_1 in Hnd.
  - by apply Hin.
  - cbn [fst snd]. rewrite Hpub. unfold info_of in Hi. destruct (DmsBundleInfo_FromJsonString v _) as [[|] i0]; [|done]. injection Hi as ->. by rewrite Ht.
  - intros [k' v'] H Hne. cbn [fst snd]. destruct (str_contains k' _) eqn:Ek'; [done|]. destruct (DmsBundleInfo_FromJsonString v' _) as [[|] i'] eqn:Ep; [|done].
    destruct (test i') eqn:Et; [|done]. exfalso. apply Hin in H. assert (stored (contents (kv_ s)) k' = Some i') as Hs.
    { unfold stored, info_at, info_of. rewrite Ek', H. cbn. by rewrite Ep. }
    rewrite (Hu _ _ Hs Et) in *. apply Hne. congruence.
Qed.

Lemma number_resolves_at s peer networkId t name id i : Inv s -> sees s peer networkId t -> name <> "" ->
  str_contains (key name) (key_of_public (e_localUdid env)) = false ->
  info_at (contents (kv_ s)) (key name) = Some i -> bundleName i = name -> bundleNameId i = id ->
  wp (GetDistributedBundleInfo peer networkId id DmsBundleInfo_new) t (fun r _ => r = (true, i))
  /\ wp (GetDistributedBundleName peer networkId id "") t (fun r _ => r = (true, name)).
Proof.
  intros [_ N] See Hn Hpub Hi Hb Hid. assert (exists v, contents (kv_ s) !! key name = Some v /\ info_of v = Some i) as (v & Hv & Iv).
  { unfold info_at in Hi. destruct (contents (kv_ s) !! key name) as [v|]; [by exists v|done]. }
  assert (stored (contents (kv_ s)) (key name) = Some i) as Hs by (unfold stored; by rewrite Hpub).
  assert (forall t', sees s peer networkId t' -> wp (device_hits peer networkId (fun j => bundleNameId j =? id)) t'
    (fun r t2 => r = Some [((key name, v), i)] /\ sees s peer networkId t2)) as Hh.
  { intros t' See'. apply wp_device_hits; auto; [by apply Z.eqb_eq|]. intros k' i' Hk' Hid'. apply Z.eqb_eq in Hid'.
    apply (num_unique _ _ N _ _ _ _ Hk' Hs). congruence. }
  split.
  - unfold GetDistributedBundleInfo, one_record. apply wp_bind. eapply wp_mono; [by apply Hh|]. cbv beta. intros r t' [-> _]. by apply wp_ret.
  - unfold GetDistributedBundleName, CheckSyncData. pose proof See as [P1 U1 U2 U3 E R]. rewrite (proj2 (String.eqb_neq _ _)) by done.
    apply wp_bind, wp_bind, wp_get. rewrite P1. cbn [negb]. apply wp_bind, wp_kv. intros [st l] k2 Eq. specialize (R (kv_ t)) as R0. rewrite Eq in R0.
    cbn in R0. subst st. apply device_law in Eq as (_ & E2 & E3). destruct (E3 eq_refl) as [_ Hin]. rewrite E in Hin.
    assert (sees s peer networkId (set_kv k2 t)) as See' by (split; try done; cbn; by rewrite E2).
    destruct l as [|e l]; [by apply Hin in Hv|]. apply wp_ret. rewrite bool_decide_eq_true_2 by done. cbn [negb].
    apply wp_bind. unfold DealGetBundleName. apply wp_bind. eapply wp_mono; [by apply Hh|]. cbv beta. intros r t' [-> _]. cbn [length Nat.ltb Nat.leb last].
    apply wp_ret. rewrite Hb, (proj2 (String.eqb_neq _ _)) by done. by apply wp_ret.
Qed.

(** ** Claims *)

(** An installed or changed package. While numbers are left, saving a bundle ends
    with a result, whatever the statuses of the database; the numbers of the records stay
    unique and known to the table; and when it reports success the record of the bundle is
    stored, readable, with a number of 16 bits above all that were given before. *)
Theorem saving_keeps_numbers_unique depth name chg s :
  Inv s -> room 1 s -> (forall b, e_GetBundleInfo env name = Some b -> storable b (provision env name "")) ->
  exists r s', SaveStorageDistributeInfo env (RebuildLocalData env depth) name chg s = Some (r, s') /\ Inv s' /\
    (r = true -> exists b id, e_GetBundleInfo env name = Some b /\ last_or (bundleNameIdTables_ s) < id <= MAX_BUNDLEID
       /\ stored (contents (kv_ s')) (key (bi_name b)) = Some (record_of b (provision env name "") id)).
Proof.
  intros I R H. pose proof (wp_Save (RebuildLocalData env depth) name chg s I R H) as W. unfold wp in W.
  destruct (SaveStorageDistributeInfo _ _ _ _ s) as [[r s']|]; [|done]. exists r, s'. by split.
Qed.

(** C31: Start-up on a database that is in order: its records are filed under the names
    of their bundles and have distinct numbers ([tidy]), it can be read, and so many
    numbers are left above the largest one that every bundle of the device could get a
    new one. If in addition the bundle manager answers, the names of the bundles differ
    and each bundle can be stored ([storable]: its fields fit the record, and its key does
    not contain the key of the public records), then the update ends without making the
    records again, the numbers of all records are still distinct and in the table, and if
    the batch was written every bundle has a record of its present version. A
    database whose numbers already repeat is not put in order by it
    ([save_before_startup_repeats], [rebuild_in_startup_repeats] reach such states). *)
Theorem startup_numbers_bundles depth bundles s :
  -1 <= MAX_BUNDLEID - len bundles -> kvStorePtr_ s = true -> bundleMgr_ s = true -> e_localUdid env <> "" -> e_localUuid env <> "" ->
  e_GetBundleInfosForContinuation env = Some bundles -> Forall (fun b => storable b "") bundles -> NoDup (map bi_name bundles) ->
  ranged (MAX_BUNDLEID - len bundles) (bundleNameIdTables_ s) -> tidy (MAX_BUNDLEID - len bundles) (contents (kv_ s)) ->
  (forall x, recorded (contents (kv_ s)) x -> x <= MAX_BUNDLEID - len bundles) ->
  device (kv_ s) (e_localUuid env) = contents (kv_ s) -> (kv_GetDeviceEntries (e_localUuid env) (kv_ s)).1.1 = SUCCESS ->
  exists s', UpdateDistributedData env depth s = Some (tt, s') /\ Inv s' /\ (batches_succeed -> forall b, In b bundles ->
    exists i, stored (contents (kv_ s')) (key (bi_name b)) = Some i /\ bundleName i = bi_name b /\ updateTime i = bi_updateTime b).
Proof.
  intros. pose proof (startup_runs depth bundles s) as W. unfold wp in W. destruct (UpdateDistributedData env depth s) as [[[] s']|].
  - exists s'. split; [done|]. by apply W.
  - exfalso. by apply W.
Qed.


(** C36: The numbers of the records of a device are distinct and in its table ([Inv]), and
    a peer knows the device and has a copy of its records ([sees]). Then the number that
    the device puts into its broadcasts for a bundle means that bundle on the peer:
    looked up there by number, the record and the name are those of the bundle. It is for
    a bundle whose key does not contain the key of the public records; a bundle whose
    name begins with publicRecords is never found ([public_name_hidden]), and in a
    database whose numbers repeat another bundle may be. *)
Theorem number_resolves_on_peer s peer networkId t name id s1 :
  Inv s -> sees s peer networkId t -> name <> "" -> str_contains (key name) (key_of_public (e_localUdid env)) = false ->
  GetBundleNameId env name 0 s = Some ((true, id), s1) ->
  exists i t1 t2, stored (contents (kv_ s)) (key name) = Some i /\ bundleName i = name /\ bundleNameId i = id
    /\ GetDistributedBundleInfo peer networkId id DmsBundleInfo_new t = Some ((true, i), t1)
    /\ GetDistributedBundleName peer networkId id "" t = Some ((true, name), t2).
Proof.
  intros I See Hn Hpub Hget. pose proof (wp_run _ _ _ _ _ (wp_GetBundleNameId name 0 s (proj1 I)) Hget) as (_ & i & Hi & Hb & Hid). cbn [fst snd] in *.
  destruct (number_resolves_at s peer networkId t name id i I See Hn Hpub Hi Hb Hid) as [A B]. unfold wp in A, B.
  destruct (GetDistributedBundleInfo _ _ _ _ _) as [[r t1]|]; [|done]. destruct (GetDistributedBundleName _ _ _ _ _) as [[r2 t2]|]; [|done].
  exists i, t1, t2. subst. split; [unfold stored; by rewrite Hpub|done].
Qed.
End Props.

(** ** A database for the witnesses: it always succeeds; peers have entries that do not change *)

Record DemoKv := mkDemoKv { dk_local : gmap string string; dk_peer : gmap string string }.
Definition demo_device (k : DemoKv) (uuid : string) : gmap string string := if String.eqb uuid "local" then dk_local k else dk_peer k.
Definition with_local (c : gmap string string) (k : DemoKv) : DemoKv := mkDemoKv c (dk_peer k).
#[local] Instance demo_kv : KvManager := {|
  Kv := DemoKv;
  GetSingleKvStore := fun k => (SUCCESS, true, k);
  DeleteKvStore := fun k => with_local ∅ k;
  kv_Put := fun key v k => (SUCCESS, with_local (<[key := v]> (dk_local k)) k);
  kv_PutBatch := fun l k => (SUCCESS, with_local (put_all l (dk_local k)) k);
  kv_Delete := fun key k => (SUCCESS, with_local (delete key (dk_local k)) k);
  kv_DeleteBatch := fun l k => (SUCCESS, with_local (delete_all l (dk_local k)) k);
  kv_Get := fun key k => match dk_local k !! key with Some v => (SUCCESS, v, k) | None => (OtherStatus 15, "", k) end;
  kv_GetEntries := fun p k => (SUCCESS, List.filter (fun e => String.prefix p e.1) (map_to_list (dk_local k)), k);
  kv_GetDeviceEntries := fun u k => (SUCCESS, map_to_list (demo_device k u), k);
  kv_GetFrom := fun key u k => (match demo_device k u !! key with Some v => Some (SUCCESS, v) | None => Some (OtherStatus 15, "") end, k);
  kv_GetEntriesFrom := fun p u k => (Some (SUCCESS, List.filter (fun e => String.prefix p e.1) (map_to_list (demo_device k u))), k);
  kv_CloudSync := fun k => (SUCCESS, k);
  status_code := fun s => match s with SUCCESS => 0 | ERROR => 1 | IPC_ERROR => 2 | STORE_META_CHANGED => 3 | OtherStatus c => c end;
|}.
#[local] Instance demo_kv_laws : KvLaws.
Proof.
  unshelve econstructor; [exact dk_local|exact demo_device| | | | | | | ]; cbn.
  - intros k v s st s' [= <- <-]. by left.
  - intros l s st s' [= <- <-]. by left.
  - intros k s st s' [= <- <-]. by left.
  - intros l s st s' [= <- <-]. by left.
  - intros k s st v s'. destruct (dk_local s !! k) eqn:E; by intros [= <- <- <-].
  - intros p s st l s' [= <- <- <-]. split; [done|]. intros _ k v E Hp. apply filter_In. split; [|done]. by apply list_elem_of_In, elem_of_map_to_list.
  - intros u s st l s' [= <- <- <-]. split; [done|]. split; [done|]. intros _. split; [apply NoDup_fst_map_to_list|].
    intros k v. rewrite <- list_elem_of_In. apply elem_of_map_to_list.
Defined.

Section Demo.
#[local] Existing Instances binary_nlohmann binary_nlohmann_laws demo_constants demo_constants_laws.

Definition demo_bundle (name : string) (time : Z) (types : list string) : BundleInfo :=
  mkBundleInfo name 10 9 "1.0" 8 7 "app" true time [mkAbilityInfo "Main" types "entry" [] true].
Definition demo_env (bundles : list BundleInfo) : BmEnv :=
  mkBmEnv "udid" "local" (fun _ => "udid") (fun _ => "uuid") true true
    (fun n => List.find (fun b => String.eqb (bi_name b) n) bundles) (Some bundles) (0, [100]) (fun _ _ _ => (0, "dev")) true.
Definition demo_bm (c : gmap string string) : Bm := mkBm (mkDemoKv c ∅) true [] true 0.
Definition demo_bundles : list BundleInfo := [demo_bundle "a" 1 ["x"]; demo_bundle "b" 2 ["y"; "z"]].
Definition ran {A} (r : option (A * Bm)) : Bm := match r with Some (_, s) => s | None => demo_bm ∅ end.

Definition result (r : option (bool * Bm)) : bool := match r with Some (b, _) => b | None => false end.
Lemma ran_id (r : option (bool * Z * Bm)) id : match r with Some (b, z, _) => b && (z =? id) | None => false end = true -> r = Some ((true, id), ran r).
Proof. destruct r as [[[[|] z] s]|]; [|done|done]. cbn. by intros ->%Z.eqb_eq. Qed.
Lemma demo_names : NoDup (map bi_name demo_bundles).
Proof. apply (bool_decide_eq_true_1 (NoDup ["a"; "b"])). reflexivity. Qed.
Lemma demo_empty env k : stored env (contents (kv_ (demo_bm ∅))) k = None.
Proof.
  unfold stored. destruct (str_contains _ _); [done|]. unfold info_at. change (contents (kv_ (demo_bm ∅))) with (∅ : gmap string string). by rewrite lookup_empty.
Qed.
Lemma demo_inv : Inv (demo_env demo_bundles) (demo_bm ∅).
Proof.
  split; [done|]. split; [exact (Sorted.SSorted_nil _)|exact (List.Forall_nil _)| |]; intros ??; rewrite demo_empty; done.
Qed.
Lemma demo_room n : n <= 65536 -> room (demo_env demo_bundles) n (demo_bm ∅).
Proof. intros H. split; [cbn; unfold MAX_BUNDLEID; lia|]. by intros x (v & Hv & _). Qed.
Lemma demo_storable developer : developer = "" \/ developer = "dev" -> Forall (fun b => storable (demo_env demo_bundles) b developer) demo_bundles.
Proof. intros [-> | ->]; repeat constructor; done. Qed.

Lemma demo_saved_storable name b : e_GetBundleInfo (demo_env demo_bundles) name = Some b ->
  storable (demo_env demo_bundles) b (provision (demo_env demo_bundles) name "").
Proof.
  intros E. apply List.find_some in E as [Hin _]. pose proof (demo_storable "dev" (or_intror eq_refl)) as H. rewrite List.Forall_forall in H. by apply H.
Qed.

Lemma saving_keeps_numbers_unique_witness : exists r s',
  SaveStorageDistributeInfo (demo_env demo_bundles) (RebuildLocalData (demo_env demo_bundles) 1) "a" false (demo_bm ∅) = Some (r, s')
  /\ Inv (demo_env demo_bundles) s' /\ zkeys (bundleNameIdTables_ s') = [0].
Proof.
  destruct (saving_keeps_numbers_unique (demo_env demo_bundles) 1 "a" false (demo_bm ∅)) as (r & s' & E & I & _).
  - exact demo_inv.
  - apply demo_room. lia.
  - apply demo_saved_storable.
  - exists r, s'. split; [exact E|]. split; [exact I|]. change s' with (ran (Some (r, s'))). rewrite <- E. vm_compute. reflexivity.
Defined.

Lemma startup_numbers_bundles_witness : exists s',
  UpdateDistributedData (demo_env demo_bundles) 0 (demo_bm ∅) = Some (tt, s') /\ Inv (demo_env demo_bundles) s' /\ zkeys (bundleNameIdTables_ s') = [0; 1].
Proof.
  destruct (startup_numbers_bundles (demo_env demo_bundles) 0 demo_bundles (demo_bm ∅)) as (s' & E & I & _); try done.
  - apply demo_storable. by left.
  - exact demo_names.
  - split; [exact (Sorted.SSorted_nil _)|exact (List.Forall_nil _)].
  - split; intros ??; rewrite demo_empty; done.
  - by intros x (v & Hv & _).
  - exists s'. split; [exact E|]. split; [exact I|]. change s' with (ran (Some (tt, s'))). rewrite <- E. vm_compute. reflexivity.
Defined.


(** Both bundles are saved; another device has the entries. *)
Definition demo_source : Bm :=
  ran (SaveStorageDistributeInfo (demo_env demo_bundles) (RebuildLocalData (demo_env demo_bundles) 1) "a" false (demo_bm ∅)).
Lemma demo_source_inv : Inv (demo_env demo_bundles) demo_source.
Proof.
  pose proof (wp_Save (demo_env demo_bundles) (RebuildLocalData (demo_env demo_bundles) 1) "a" false (demo_bm ∅) demo_inv
    (demo_room 1 ltac:(lia)) (demo_saved_storable "a")) as W.
  unfold wp in W. unfold demo_source. destruct (SaveStorageDistributeInfo _ _ _ _ _) as [[r s']|]; [apply W|done].
Qed.
Definition demo_sink : Bm := mkBm (mkDemoKv ∅ (dk_local (kv_ demo_source))) true [] true 0.

Lemma number_resolves_on_peer_witness : exists i t1 t2, bundleName i = "a"
    /\ GetDistributedBundleInfo (demo_env []) "net" 0 DmsBundleInfo_new demo_sink = Some ((true, i), t1)
    /\ GetDistributedBundleName (demo_env []) "net" 0 "" demo_sink = Some ((true, "a"), t2).
Proof.
  destruct (number_resolves_on_peer (demo_env demo_bundles) demo_source (demo_env []) "net" demo_sink "a" 0
    (ran (GetBundleNameId (demo_env demo_bundles) "a" 0 demo_source))) as (i & t1 & t2 & _ & Hb & _ & A & B).
  - exact demo_source_inv.
  - split; done.
  - done.
  - reflexivity.
  - apply ran_id. vm_compute. reflexivity.
  - exists i, t1, t2. exact (conj Hb (conj A B)).
Defined.

(** ** What the code does otherwise than meant *)

Definition id_in (env : BmEnv) (s : Bm) (name : string) : option Z := bundleNameId <$> stored env (contents (kv_ s)) (key env name).

(** A changed package gets a new number, although the caller says that it changed. *)
Lemma package_change_new_number :
  let env := demo_env demo_bundles in
  let s1 := ran (HandlePackageAdded env 1 "a" (demo_bm ∅)) in
  let s2 := ran (HandlePackageChange env 1 "a" s1) in
  (id_in env s1 "a", id_in env s2 "a") = (Some 0, Some 1).
Proof. vm_compute. reflexivity. Qed.

(** At start-up the developer is looked up into a copy: the records are stored without it. *)
Lemma startup_forgets_developer :
  let env := demo_env demo_bundles in
  (developerId <$> stored env (contents (kv_ (ran (UpdateDistributedData env 1 (demo_bm ∅))))) (key env "a"),
   developerId <$> stored env (contents (kv_ (ran (HandlePackageAdded env 1 "a" (demo_bm ∅))))) (key env "a")) = (Some "", Some "dev").
Proof. vm_compute. reflexivity. Qed.

Definition demo_entry (env : BmEnv) (b : BundleInfo) (id : Z) : Entry :=
  (key env (bi_name b), default "" (DmsBundleInfo_ToString (record_of b "" id))).

(** A package that is installed before the records of before were read gets the number of one of them. *)
Lemma save_before_startup_repeats :
  let env := demo_env demo_bundles in
  let s := demo_bm (put_all [demo_entry env (demo_bundle "a" 1 ["x"]) 0] ∅) in
  let s' := ran (HandlePackageAdded env 1 "b" s) in
  (id_in env s' "a", id_in env s' "b") = (Some 0, Some 0).
Proof. vm_compute. reflexivity. Qed.

(** The numbers run out during start-up: records that were made before the others were made
    again are written over the new ones, with numbers that are given again. *)
Lemma rebuild_in_startup_repeats :
  let bundles := [demo_bundle "a" 2 ["x"]; demo_bundle "b" 1 ["x"]; demo_bundle "c" 1 ["x"]] in
  let env := demo_env bundles in
  let s := demo_bm (put_all [demo_entry env (demo_bundle "a" 1 ["x"]) 2; demo_entry env (demo_bundle "b" 1 ["x"]) 65535] ∅) in
  let s' := ran (UpdateDistributedData env 1 s) in
  (id_in env s' "a", id_in env s' "b", id_in env s' "c") = (Some 2, Some 1, Some 2).
Proof. vm_compute. reflexivity. Qed.

(** A bundle whose name begins with the name of the largest number is not found by others. *)
Lemma public_name_hidden :
  let env := demo_env [demo_bundle "publicRecords2" 1 ["x"]] in
  let s := ran (HandlePackageAdded env 1 "publicRecords2" (demo_bm ∅)) in
  let sink := mkBm (mkDemoKv ∅ (dk_local (kv_ s))) true [] true 0 in
  (match GetDistributedBundleInfo_name env "net" "publicRecords2" DmsBundleInfo_new sink with Some (r, _, _) => Some r | None => None end) = Some false.
Proof. vm_compute. reflexivity. Qed.
End Demo.

(** ** Numbers of continue types

    The broadcast carries the position of an ability ([FindContinueTypeId]); the receiver
    counts continue types ([FindContinueType]). They agree when every ability has one type. *)

Lemma find_type_one a l pos id t : continueType a = [t] -> find_type_in (a :: l) pos id = if pos =? id then t else find_type_in l (u32 (pos + 1)) id.
Proof. intros E. cbn. rewrite E. cbn. by destruct (pos =? id). Qed.

Lemma find_ability_ge l name : forall pos, 0 <= pos -> pos + len l <= 255 -> pos <= find_ability l name pos.
Proof.
  induction l as [|a l IH]; intros pos H0 H1; cbn [find_ability]; [unfold MAX_CONTINUETYPEID; unfold len in H1; cbn in H1; lia|].
  unfold len in *. cbn [length] in H1. destruct (String.eqb _ _); [lia|]. rewrite u8_id by (unfold is_u8; lia). specialize (IH (pos + 1)). lia.
Qed.

Lemma type_number_resolves l a t : forall pos, 0 <= pos -> pos + len l <= 255 ->
  Forall (fun b => exists t, continueType b = [t]) l -> List.find (fun b => String.eqb (abilityName b) (abilityName a)) l = Some a -> continueType a = [t] ->
  find_ability l (abilityName a) pos <> MAX_CONTINUETYPEID /\ find_type_in l pos (find_ability l (abilityName a) pos) = t.
Proof.
  induction l as [|b l IH]; intros pos H0 H1 Hl Hf Ha; [done|]. apply Forall_cons in Hl as [[tb Hb] Hl]. cbn [List.find find_ability] in *.
  unfold len in H1. cbn [length] in H1. rewrite (find_type_one _ _ _ _ _ Hb). destruct (String.eqb _ _).
  - injection Hf as ->. rewrite Z.eqb_refl. unfold MAX_CONTINUETYPEID. split; [lia|congruence].
  - assert (u8 (pos + 1) = pos + 1) as Hu8 by (apply u8_id; unfold is_u8; lia).
    assert (u32 (pos + 1) = pos + 1) as Hu32 by (unfold u32; apply Z.mod_small; lia). rewrite Hu8, Hu32.
    pose proof (find_ability_ge l (abilityName a) (pos + 1)) as Hge. unfold len in *.
    destruct (Z.eqb_spec pos (find_ability l (abilityName a) (pos + 1))); [lia|]. apply IH; auto; lia.
Qed.

(** When every ability of a bundle has one continue type and there are at most 255
    abilities, the number that is broadcast for an ability is found and stands, on the
    receiving side, for the continue type of that ability. *)
Theorem continue_type_number_resolves info a t : len (dmsAbilityInfos info) <= 255 ->
  Forall (fun b => exists t, continueType b = [t]) (dmsAbilityInfos info) ->
  List.find (fun b => String.eqb (abilityName b) (abilityName a)) (dmsAbilityInfos info) = Some a -> continueType a = [t] ->
  first_type_id (abilityName a) [info] 0 = (true, FindContinueTypeId info (abilityName a)) /\
  FindContinueType info (FindContinueTypeId info (abilityName a)) = t.
Proof.
  intros H1 H2 H3 H4. destruct (type_number_resolves (dmsAbilityInfos info) a t 0) as [A B]; auto; [lia|].
  split; [|exact B]. cbn [first_type_id]. unfold FindContinueTypeId. by rewrite (proj2 (Z.eqb_neq _ _)).
Qed.

Definition demo_abilities (t1 t2 : list string) : DmsBundleInfo :=
  mkDmsBundleInfo 1 "a" 0 "" 0 0 0 "" true 0 0 "" [mkDmsAbilityInfo "A" t1 [] "" []; mkDmsAbilityInfo "B" t2 [] "" []] [].
Lemma continue_type_number_resolves_witness :
  FindContinueType (demo_abilities ["x"] ["y"]) (FindContinueTypeId (demo_abilities ["x"] ["y"]) "B") = "y".
Proof.
  apply (continue_type_number_resolves (demo_abilities ["x"] ["y"]) (mkDmsAbilityInfo "B" ["y"] [] "" []) "y"); try done.
  repeat constructor; by eexists.
Defined.
(** With two types in the first ability the number of the second ability names another type. *)
Lemma type_number_of_other_ability :
  FindContinueType (demo_abilities ["x"; "w"] ["y"]) (FindContinueTypeId (demo_abilities ["x"; "w"] ["y"]) "B") = "w".
Proof. reflexivity. Qed.
