(* ===== verification/SchedWire.v ===== *)
(** What the processes and devices of the scheduler service write to one another:
    readers and writers of messages (parcel_helper.h), objects that travel, the
    information about missions (distributed_mission_info.cpp, mission_info_converter.cpp,
    snapshot_converter.cpp), the extra information of a caller (the JSON texts of
    distributed_sched_stub.cpp and distributed_sched_proxy.cpp) and the comparison of
    versions (dms_version_manager.cpp).

    A reader goes through the message like the macros PARCEL_READ_HELPER: it goes on, or
    stops with the code that the function returns, or never ends (a want whose text the
    parser does not finish, for every fuel). Numbers of JSON are integers. *)

From S2P Require Import Prelude StdMap SchedUtils SchedErrors Json ContinueInfo IpcParcel WantValue WantText WantParcel DistWant BundleInfo Permission RemoteAbility ContinueSession CollabSession AbilityConnection.
#[local] Open Scope string_scope.
#[local] Open Scope list_scope.
#[local] Open Scope Z_scope.

Notation Parcel := IpcParcel.Parcel.
Notation Want := ContinueSession.Want.
Notation Element := RemoteAbility.Element.

Definition DMS_VERSION_EMPTY : Z := 29360217.
Definition DMS_VERSION_PARSE_EXCEPTION : Z := 29360218.
Definition GET_MAX_MISSIONS : Z := 20.
Definition EXTRO_INFO_JSON_KEY_ACCESS_TOKEN : string := "accessTokenID".
Definition EXTRO_INFO_JSON_KEY_REQUEST_CODE : string := "requestCode".
Definition EXTRO_INFO_JSON_KEY_ACCOUNT_ID : string := "accountId".
Definition EXTRO_INFO_JSON_KEY_USERID_ID : string := "userId".
Definition EXTRO_INFO_JSON_KEY_CALLER_INFO_EX : string := "callerInfo_ExtraInfoJson".
Definition DEFAULT_REQUEST_CODE : Z := -1.

(** Codes of the IPC library. *)
Class IpcCodes := { ERR_FLATTEN_OBJECT : Z; ERR_NULL_OBJECT : Z; ERR_INVALID_VALUE : Z }.

(** An object that travels in a message. *)
Class Sendable {T16 : Text16} {IP : IpcParcel} (A : Type) := {
  Marshalling : A -> Parcel -> option Parcel;
  Unmarshalling : Parcel -> option (A * Parcel);
}.

(** Wants of the ability framework as [DistributedWant] sees them and is turned into. *)
Class WantWire `{WantApi} := {
  want_view : Want -> WantView;
  want_GetDataType : Value -> Z;
  want_calls : list WantCall -> Want;
  (** [GetParams] and [SetParams]. *)
  want_params : Want -> params;
  want_set_params : Want -> params -> Want;
}.

Section Wire.
Context {T16 : Text16} {IP : @IpcParcel T16} {IC : IpcCodes}.

(** ** Readers *)

Inductive Reading (A : Type) := Go (x : A) (p : Parcel) | Stop (code : Z) | Endless.
#[global] Arguments Go {A}.
#[global] Arguments Stop {A}.
#[global] Arguments Endless {A}.
Definition Reader (A : Type) : Type := nat -> Parcel -> Reading A.
Definition done_with {A} (x : A) : Reader A := fun _ p => Go x p.
Definition stop {A} (code : Z) : Reader A := fun _ _ => Stop code.
Definition then_read {A B} (m : Reader A) (k : A -> Reader B) : Reader B :=
  fun f p => match m f p with Go x p => k x f p | Stop c => Stop c | Endless => Endless end.

(** [ReadUint32] and [ReadBool]: numbers of 32 bits. *)
Definition ReadUint32 (p : Parcel) : option (Z * Parcel) := '(z, p) ← ReadInt32 p; Some (u32 z, p).
Definition ReadBool (p : Parcel) : option (bool * Parcel) := '(z, p) ← ReadInt32 p; Some (negb (z =? 0), p).
(** [ReadParcelable]: a null pointer when there is none or it cannot be read. *)
Definition ReadParcelable {A} `{!Sendable A} (p : Parcel) : option A * Parcel :=
  match Read KMark p with
  | Some (IMark, p) => match Unmarshalling p with Some (x, p) => (Some x, p) | None => (None, p) end
  | Some (_, p) => (None, p)
  | None => (None, p)
  end.

(** [PARCEL_READ_HELPER]. *)
Definition need {A} (read : Parcel -> option (A * Parcel)) : Reader A :=
  fun _ p => match read p with Some (x, p) => Go x p | None => Stop ERR_FLATTEN_OBJECT end.
(** A read whose failure gives a default value. *)
Definition read_or {A} (d : A) (read : Parcel -> option (A * Parcel)) : Reader A :=
  fun _ p => match read p with Some (x, p) => Go x p | None => Go d p end.
Definition Int32 : Reader Z := need ReadInt32.
Definition Uint32 : Reader Z := need ReadUint32.
Definition Int64 : Reader Z := need (ReadNum W64).
Definition Bool : Reader bool := need ReadBool.
Definition Str : Reader string := need ReadString.
Definition StringVector : Reader (list string) := need ReadStringVector.
Definition Int32_or0 : Reader Z := read_or 0 ReadInt32.
Definition Int64_or0 : Reader Z := read_or 0 (ReadNum W64).
Definition Uint8_or0 : Reader Z := read_or 0 (ReadNum W8).
Definition Bool_or : Reader bool := read_or false ReadBool.
Definition Str_or : Reader string := read_or "" ReadString.
Definition Str16_or : Reader string16 := read_or empty16 ReadString16.
Definition RemoteObject : Reader (option Z) := fun _ p => match ReadRemoteObject p with Some (o, p) => Go (Some o) p | None => Go None p end.
Definition Parcelable A `{!Sendable A} : Reader (option A) := fun _ p => let '(x, p) := ReadParcelable p in Go x p.
(** A null pointer stops with a code. *)
Definition nonnull {A} (code : Z) (m : Reader (option A)) : Reader A := then_read m (fun x => match x with Some x => done_with x | None => stop code end).
(** Returns with a code under a condition. *)
Definition stop_if (b : bool) (code : Z) : Reader unit := if b then stop code else done_with tt.

(** ** Writers *)

Inductive Writing := Wrote (p : Parcel) | Failed (code : Z) | Thrown.
Definition Writer : Type := Parcel -> Writing.
Definition wnone : Writer := Wrote.
Definition then_write (a b : Writer) : Writer := fun p => match a p with Wrote p => b p | r => r end.
(** [PARCEL_WRITE_HELPER] one after the other. *)
Definition write_all (l : list Writer) : Writer := foldr then_write wnone l.
Definition w_item (x : Item) : Writer := fun p => match Write x p with Some p => Wrote p | None => Failed ERR_FLATTEN_OBJECT end.
Definition w_int (z : Z) : Writer := w_item (IInt z).
Definition w_uint (z : Z) : Writer := w_item (IInt (i32 z)).
Definition w_long (z : Z) : Writer := w_item (INum W64 z).
Definition w_byte (z : Z) : Writer := w_item (INum W8 z).
Definition w_bool (b : bool) : Writer := w_item (IInt (if b then 1 else 0)).
Definition w_str (s : string) : Writer := w_item (IStr s).
Definition w_str16 (s : string16) : Writer := w_item (IStr16 s).
Definition w_strs (l : list string) : Writer := w_item (IStrVec l).
Definition w_object (o : Z) : Writer := w_item (IObject o).
(** [WriteParcelable], with the code of a failure. *)
Definition WriteParcelable {A} `{!Sendable A} (x : A) (p : Parcel) : option Parcel := p ← Write IMark p; Marshalling x p.
Definition w_parcelable_or {A} `{!Sendable A} (code : Z) (x : A) : Writer := fun p => match WriteParcelable x p with Some p => Wrote p | None => Failed code end.
Definition w_parcelable {A} `{!Sendable A} (x : A) : Writer := w_parcelable_or ERR_FLATTEN_OBJECT x.
Definition WriteParcelable_maybe {A} `{!Sendable A} (x : option A) (p : Parcel) : option Parcel :=
  match x with Some x => WriteParcelable x p | None => Write INull p end.

(** ** Missions *)

Section Missions.
Context {W : WantApi} {SW : Sendable Want} {SE : Sendable Element}.

Record DstbMissionInfo := mkDstbMissionInfo {
  dm_id : Z; dm_runingState : Z; dm_userId : Z; dm_missionStackId : Z; dm_combinedMissionIds : list Z;
  dm_windowMode : Z; dm_boundsLeft : Z; dm_boundsTop : Z; dm_boundsRight : Z; dm_boundsBottom : Z;
  dm_baseWant : option Want; dm_topAbility : option Element; dm_baseAbility : option Element; dm_reservedAbility : option Element;
  dm_lastMissionActiveTime : Z; dm_displayId : Z; dm_label : string; dm_size : Z; dm_iconPath : string; dm_continuable : Z;
  dm_windowType : Z; dm_lockedState : bool; dm_missionType : Z; dm_windowTypeMode : Z;
}.

Definition DstbMissionInfo_Marshalling (i : DstbMissionInfo) (p : Parcel) : option Parcel :=
  p ← Write (IInt (dm_id i)) p;
  p ← Write (IInt (dm_runingState i)) p;
  p ← Write (IInt (dm_userId i)) p;
  p ← Write (IInt (dm_missionStackId i)) p;
  p ← Write (IInts (dm_combinedMissionIds i)) p;
  p ← Write (IInt (dm_windowMode i)) p;
  p ← Write (IInt (dm_boundsLeft i)) p;
  p ← Write (IInt (dm_boundsTop i)) p;
  p ← Write (IInt (dm_boundsRight i)) p;
  p ← Write (IInt (dm_boundsBottom i)) p;
  p ← WriteParcelable_maybe (dm_baseWant i) p;
  p ← WriteParcelable_maybe (dm_topAbility i) p;
  p ← WriteParcelable_maybe (dm_baseAbility i) p;
  p ← WriteParcelable_maybe (dm_reservedAbility i) p;
  p ← Write (INum W64 (dm_lastMissionActiveTime i)) p;
  p ← Write (IInt (dm_displayId i)) p;
  p ← Write (IStr16 (Str8ToStr16 (dm_label i))) p;
  p ← Write (IInt (dm_size i)) p;
  p ← Write (IStr16 (Str8ToStr16 (dm_iconPath i))) p;
  p ← Write (IInt (dm_continuable i)) p;
  p ← Write (IInt (dm_windowType i)) p;
  p ← Write (IInt (if dm_lockedState i then 1 else 0)) p;
  p ← Write (IInt (dm_missionType i)) p;
  Write (IInt (dm_windowTypeMode i)) p.

(** [ReadFromParcel] on an object that was made by the default constructor. *)
Definition DstbMissionInfo_ReadFromParcel (p : Parcel) : option (DstbMissionInfo * Parcel) :=
  let int := ReadInt32_or0 in
  let '(id, p) := int p in
  let '(runingState, p) := int p in
  let '(userId, p) := int p in
  let '(missionStackId, p) := int p in
  '(combinedMissionIds, p) ← ReadInt32Vector p;
  let '(windowMode, p) := int p in
  let '(boundsLeft, p) := int p in
  let '(boundsTop, p) := int p in
  let '(boundsRight, p) := int p in
  let '(boundsBottom, p) := int p in
  let '(baseWant, p) := ReadParcelable p in
  let '(topAbility, p) := ReadParcelable p in
  let '(baseAbility, p) := ReadParcelable p in
  let '(reservedAbility, p) := ReadParcelable p in
  let '(lastMissionActiveTime, p) := default (0, p) (ReadNum W64 p) in
  let '(displayId, p) := int p in
  let '(label, p) := ReadString16_or_empty p in
  let '(size, p) := int p in
  let '(iconPath, p) := ReadString16_or_empty p in
  let '(continuable, p) := int p in
  let '(windowType, p) := int p in
  let '(lockedState, p) := default (false, p) (ReadBool p) in
  let '(missionType, p) := int p in
  let '(windowTypeMode, p) := int p in
  Some (mkDstbMissionInfo id runingState userId missionStackId combinedMissionIds windowMode boundsLeft boundsTop boundsRight boundsBottom
    baseWant topAbility baseAbility reservedAbility lastMissionActiveTime displayId (Str16ToStr8 label) size (Str16ToStr8 iconPath) continuable
    windowType lockedState missionType windowTypeMode, p).
#[export] Instance DstbMissionInfo_sendable : Sendable DstbMissionInfo := {|
  Marshalling := DstbMissionInfo_Marshalling; Unmarshalling := DstbMissionInfo_ReadFromParcel |}.

(** [size] objects. *)
Fixpoint read_objects {A} `{!Sendable A} (n : nat) (p : Parcel) : option (list A * Parcel) :=
  match n with
  | O => Some ([], p)
  | S n => match ReadParcelable p with
      | (Some x, p) => '(l, p) ← read_objects n p; Some (x :: l, p)
      | (None, _) => None
      end
  end.
Fixpoint write_objects {A} `{!Sendable A} (l : list A) (p : Parcel) : option Parcel :=
  match l with [] => Some p | x :: l => p ← WriteParcelable x p; write_objects l p end.

(** A list with [VALUE_OBJECT] and its length before it. *)
Definition write_list {A} `{!Sendable A} (l : list A) (p : Parcel) : option Parcel :=
  match l with
  | [] => Write (IInt VALUE_NULL) p
  | _ => p ← Write (IInt VALUE_OBJECT) p; p ← Write (IInt (i32 (len l))) p; write_objects l p
  end.
Definition read_list {A} `{!Sendable A} (too_long : Z -> Parcel -> bool) (p : Parcel) : option (list A * Parcel) :=
  let '(empty, p) := ReadInt32_or0 p in
  if empty =? VALUE_OBJECT then
    let '(n, p) := ReadInt32_or0 p in
    if n <? 0 then None
    else if too_long n p then None
    else read_objects (Z.to_nat n) p
  else Some ([], p).

Definition WriteDstbMissionInfosToParcel (l : list DstbMissionInfo) (p : Parcel) : option Parcel := write_list l p.
Definition ReadDstbMissionInfosFromParcel (p : Parcel) : option (list DstbMissionInfo * Parcel) := read_list (fun n _ => GET_MAX_MISSIONS <? n) p.

(** [AAFwk::MissionInfo]: the members that are converted. *)
Record MissionInfo := mkMissionInfo {
  mi_id : Z; mi_runningState : Z; mi_lockedState : bool; mi_label : string; mi_iconPath : string; mi_want : Want; mi_continuable : bool;
}.
Definition ConvertToDstbMissionInfo (m : MissionInfo) : DstbMissionInfo :=
  mkDstbMissionInfo (mi_id m) (mi_runningState m) 0 (-1) [] 0 0 0 0 0 (Some (mi_want m)) None None None 0 0 (mi_label m) 0 (mi_iconPath m)
    (if mi_continuable m then 1 else 0) 0 (mi_lockedState m) 2147483647 0.
(** New objects are appended to those that are there. *)
Definition ConvertToDstbMissionInfos (l : list MissionInfo) (d : list DstbMissionInfo) : list DstbMissionInfo := d ++ map ConvertToDstbMissionInfo l.
(** [None]: a null pointer is dereferenced. *)
Definition ConvertToMissionInfo (d : DstbMissionInfo) : option MissionInfo :=
  want ← dm_baseWant d;
  Some (mkMissionInfo (dm_id d) (dm_runingState d) (dm_lockedState d) (dm_label d) (dm_iconPath d) want (dm_continuable d =? 1)).
Definition ConvertToMissionInfos (d : list DstbMissionInfo) (l : list MissionInfo) : option (list MissionInfo) :=
  m ← mapM ConvertToMissionInfo d; Some (l ++ m).

Context {SM : Sendable MissionInfo}.
Definition WriteMissionInfosToParcel (l : list MissionInfo) (p : Parcel) : option Parcel := write_list l p.
Definition ReadMissionInfosFromParcel (p : Parcel) : option (list MissionInfo * Parcel) :=
  read_list (fun n p => (GetReadableBytes p <? n) || (GET_MAX_MISSIONS <? n)) p.
End Missions.

(** [Rect]: left, top, right, bottom. *)
Definition Rect : Type := Z * Z * Z * Z.
(** [Snapshot]; pictures are those of the media framework. *)
Record Snapshot (Pixels : Type) := mkSnapshot {
  version_ : Z; orientation_ : Z; rect_ : option Rect; reducedResolution_ : bool; scale_ : Z; isRealSnapshot_ : bool; windowingMode_ : Z;
  systemUiVisibility_ : Z; isTranslucent_ : bool; windowBounds_ : option Rect; appLabel_ : string16; abilityLabel_ : string16; icon_ : list Z;
  secAppLabel_ : string16; secAbilityLabel_ : string16; secIcon_ : list Z; sourceDeviceTips_ : string16; pixelMap_ : Pixels;
}.
Definition ConvertToSnapshot {Pixels} (picture : Pixels) : Snapshot Pixels :=
  mkSnapshot _ 200 0 (Some (0, 0, 0, 0)) true 0 true 0 0 true (Some (0, 0, 0, 0)) empty16 empty16 [] empty16 empty16 [] empty16 picture.
Definition ConvertToMissionSnapshot {Pixels} (s : Snapshot Pixels) : Pixels := pixelMap_ _ s.

(** ** What travels with a caller *)

Section Callers.
Context {NL : Nlohmann}.

Definition nl_unsigned (j : json) (key : string) : option Z := match nl_find j key with Some (JNumber n) => if 0 <=? n then Some n else None | _ => None end.
Definition nl_number (j : json) (key : string) : option Z := match nl_find j key with Some (JNumber n) => Some n | _ => None end.
Definition nl_string (j : json) (key : string) : option string := match nl_find j key with Some (JString s) => Some s | _ => None end.
(** [json\[key\] = value] on a new value or an object; on other values it throws, and is not called. *)
Definition nl_assign (key : string) (v : json) (j : json) : json :=
  match j with JNull => JObject [(key, v)] | JObject l => JObject (nl_set key v l) | _ => j end.

Definition set_token (t : Z) (c : CallerInfo) : CallerInfo :=
  mkCallerInfo (caller_uid c) (caller_pid c) (caller_callerType c) (caller_sourceDeviceId c) (caller_duid c) (caller_callerAppId c) (caller_bundleNames c) (caller_dmsVersion c) t (caller_extraInfoJson c).
Definition set_extra (j : json) (c : CallerInfo) : CallerInfo :=
  mkCallerInfo (caller_uid c) (caller_pid c) (caller_callerType c) (caller_sourceDeviceId c) (caller_duid c) (caller_callerAppId c) (caller_bundleNames c) (caller_dmsVersion c) (caller_accessToken c) j.
Definition set_account (s : string) (a : AccountInfo) : AccountInfo := mkAccountInfo (account_accountType a) (account_groupIdList a) s (account_userId a).
Definition set_userId (z : Z) (a : AccountInfo) : AccountInfo := mkAccountInfo (account_accountType a) (account_groupIdList a) (account_activeAccountId a) z.
(** Applies a change when there is a value. *)
Definition when {A B} (o : option A) (f : A -> B -> B) (b : B) : B := match o with Some x => f x b | None => b end.

Definition SaveExtraInfo (j : json) (c : CallerInfo) (a : AccountInfo) : CallerInfo * AccountInfo :=
  let c := when (nl_unsigned j EXTRO_INFO_JSON_KEY_ACCESS_TOKEN) (fun t => set_token (u32 t)) c in
  let c := when (nl_string j DMS_VERSION_ID) (fun s c => set_extra (nl_assign DMS_VERSION_ID (JString s) (caller_extraInfoJson c)) c) c in
  let c := when (nl_string j DMS_UID_SPEC_BUNDLE_NAME) (fun s c => set_extra (nl_assign DMS_UID_SPEC_BUNDLE_NAME (JString s) (caller_extraInfoJson c)) c) c in
  let a := when (nl_string j EXTRO_INFO_JSON_KEY_ACCOUNT_ID) set_account a in
  let a := when (nl_number j EXTRO_INFO_JSON_KEY_USERID_ID) (fun n => set_userId (i32 n)) a in
  (c, a).
(** The extra information of the caller becomes the parsed text; the truth value says
    whether it is the discarded value, which [json] does not have. *)
Definition SaveSendResultExtraInfo (j : json) (c : CallerInfo) (a : AccountInfo) : CallerInfo * bool * AccountInfo :=
  let a := when (nl_string j EXTRO_INFO_JSON_KEY_ACCOUNT_ID) set_account a in
  let a := when (nl_number j EXTRO_INFO_JSON_KEY_USERID_ID) (fun n => set_userId (i32 n)) a in
  match nl_string j EXTRO_INFO_JSON_KEY_CALLER_INFO_EX with
  | None => (c, false, a)
  | Some s => match nl_parse s with Some e => (set_extra e c, false, a) | None => (set_extra JNull c, true, a) end
  end.
(** The request code and the saved information. *)
Definition CreateJsonObject (extraInfo : string) (c : CallerInfo) (a : AccountInfo) : Z * CallerInfo * AccountInfo :=
  match nl_parse extraInfo with
  | None => (DEFAULT_REQUEST_CODE, c, a)
  | Some j => let '(c, a) := SaveExtraInfo j c a in (default DEFAULT_REQUEST_CODE (i32 <$> nl_number j EXTRO_INFO_JSON_KEY_REQUEST_CODE), c, a)
  end.

(** The texts of the proxy: members are added to an object one after the other. *)
Definition add_found (key : string) (from : json) (l : list (string * json)) : list (string * json) := when (nl_find from key) (nl_set key) l.
Definition account_extra (a : AccountInfo) (l : list (string * json)) : list (string * json) :=
  nl_set EXTRO_INFO_JSON_KEY_USERID_ID (JNumber (account_userId a)) (nl_set EXTRO_INFO_JSON_KEY_ACCOUNT_ID (JString (account_activeAccountId a)) l).
Definition token_extra (c : CallerInfo) : list (string * json) := nl_set EXTRO_INFO_JSON_KEY_ACCESS_TOKEN (JNumber (caller_accessToken c)) [].
Definition stop_extra (c : CallerInfo) (a : AccountInfo) : json := JObject (account_extra a (token_extra c)).
Definition start_extra (c : CallerInfo) (a : AccountInfo) : json := JObject (add_found DMS_VERSION_ID (caller_extraInfoJson c) (account_extra a (token_extra c))).
Definition call_extra (c : CallerInfo) (a : AccountInfo) : json :=
  JObject (add_found DMS_UID_SPEC_BUNDLE_NAME (caller_extraInfoJson c) (add_found DMS_VERSION_ID (caller_extraInfoJson c) (account_extra a (token_extra c)))).
Definition install_extra (c : CallerInfo) (requestCode : Z) : json :=
  JObject (add_found DMS_VERSION_ID (caller_extraInfoJson c) (nl_set EXTRO_INFO_JSON_KEY_REQUEST_CODE (JNumber requestCode) (token_extra c))).
Definition w_json (j : json) : Writer := fun p => match nl_dump j with Some s => w_str s p | None => Thrown end.
Definition result_extra (c : CallerInfo) (a : AccountInfo) : Writer := fun p =>
  match nl_dump (caller_extraInfoJson c) with
  | None => Thrown
  | Some s => w_json (JObject (nl_set EXTRO_INFO_JSON_KEY_CALLER_INFO_EX (JString s) (account_extra a []))) p
  end.

(** [CallerInfoMarshalling] and [CallerInfoUnmarshalling]. *)
Definition CallerInfoMarshalling (c : CallerInfo) : Writer :=
  write_all [w_int (caller_uid c); w_int (caller_pid c); w_int (caller_callerType c); w_str (caller_sourceDeviceId c); w_int (caller_duid c);
    w_str (caller_callerAppId c); w_int (caller_dmsVersion c)].
Definition CallerInfoUnmarshalling : Reader CallerInfo :=
  then_read Int32 (fun uid => then_read Int32 (fun pid => then_read Int32 (fun callerType => then_read Str (fun sourceDeviceId =>
  then_read Int32 (fun duid => then_read Str (fun callerAppId => then_read Int32 (fun version =>
  done_with (mkCallerInfo uid pid callerType sourceDeviceId duid callerAppId [] version 0 JNull)))))))).
End Callers.

(** ** Versions *)

Record DmsVersion := mkDmsVersion { majorVersionNum : Z; minorVersionNum : Z; featureVersionNum : Z }.
(** [SplitStr] and [StrToInt] of the utilities, and the profile of a device: a code or a text. *)
Class VersionApi := { SplitStr : string -> string -> list string; StrToInt : string -> option Z; GetAppInfoFromDP : string -> Z + string }.

Section Version.
Context {NL : Nlohmann} {VE : VersionApi}.

Definition ParseAppInfo (appInfoJsonData : string) : Z + string * string :=
  if String.eqb appInfoJsonData "" then inl DMS_VERSION_EMPTY
  else match nl_parse appInfoJsonData with
  | None => inl DMS_VERSION_EMPTY
  | Some j =>
      match nl_string j "packageNames", nl_string j "versions" with
      | Some packageNamesData, Some versionsData => inr (packageNamesData, versionsData)
      | _, _ => inl DMS_VERSION_EMPTY
      end
  end.
(** The version beside the first name that is [DMS_NAME]. *)
Fixpoint version_of (names versions : list string) : option string :=
  match names, versions with
  | n :: names, v :: versions => if String.eqb n "dmsfwk" then Some v else version_of names versions
  | _, _ => None
  end.
Definition GetDmsVersionDataFromAppInfo (packageNamesData versionsData : string) : Z + string :=
  if String.eqb packageNamesData "" || String.eqb versionsData "" then inl DMS_VERSION_EMPTY
  else
    let packageNameList := SplitStr packageNamesData "," in
    let versionsList := SplitStr versionsData "," in
    if negb (len packageNameList =? len versionsList) then inl DMS_VERSION_PARSE_EXCEPTION
    else match version_of packageNameList versionsList with Some v => inr v | None => inl DMS_VERSION_EMPTY end.
Definition version_num (s : string) : option Z := n ← StrToInt s; if n <? 0 then None else Some n.
Definition ParseDmsVersion (dmsVersionData : string) : option DmsVersion :=
  match SplitStr dmsVersionData "." with
  | [major; minor; feature] => major ← version_num major; minor ← version_num minor; feature ← version_num feature; Some (mkDmsVersion major minor feature)
  | _ => None
  end.
Definition GetRemoteDmsVersion (deviceId : string) : Z + DmsVersion :=
  match GetAppInfoFromDP deviceId with
  | inl result => inl result
  | inr appInfoJsonData =>
      match ParseAppInfo appInfoJsonData with
      | inl result => inl result
      | inr (packageNamesData, versionsData) =>
          match GetDmsVersionDataFromAppInfo packageNamesData versionsData with
          | inl result => inl result
          | inr dmsVersionData => match ParseDmsVersion dmsVersionData with Some v => inr v | None => inl DMS_VERSION_PARSE_EXCEPTION end
          end
      end
  end.
Definition CompareDmsVersion (v threshold : DmsVersion) : bool :=
  if majorVersionNum v <? majorVersionNum threshold then true
  else if (majorVersionNum v =? majorVersionNum threshold) && (minorVersionNum v <? minorVersionNum threshold) then true
  else if (majorVersionNum v =? majorVersionNum threshold) && (minorVersionNum v =? minorVersionNum threshold) && (featureVersionNum v <? featureVersionNum threshold) then true
  else false.
Definition IsRemoteDmsVersionLower (remoteDeviceId : string) (threshold : DmsVersion) : bool :=
  match GetRemoteDmsVersion remoteDeviceId with inl _ => false | inr v => CompareDmsVersion v threshold end.
Definition QOS_THRESHOLD_VERSION : Z := 5.
Definition NEW_COLLAB_THRESHOLD_VERSION : Z := 5.
Definition IsUsingQos (remoteDeviceId : string) : bool :=
  if String.eqb remoteDeviceId "" then false else negb (IsRemoteDmsVersionLower remoteDeviceId (mkDmsVersion QOS_THRESHOLD_VERSION 0 0)).
Definition IsNewCollabVersion (remoteDeviceId : string) : bool :=
  if String.eqb remoteDeviceId "" then false else negb (IsRemoteDmsVersionLower remoteDeviceId (mkDmsVersion NEW_COLLAB_THRESHOLD_VERSION 0 0)).
End Version.
End Wire.

Notation "'let!' x := m 'in' k" := (then_read m (fun x => k)) (at level 200, x name, m at level 100, k at level 200, right associativity).
