(* ===== verification/SchedIpc.v ===== *)
(** The interface of the scheduler service between processes and devices: the stub
    (distributed_sched_stub.cpp) that checks a caller and calls the service, the proxy
    (distributed_sched_proxy.cpp) that the service of another device and the ability
    manager use, and the clients of applications (distributed_client.cpp of the
    collaboration, dms_client.cpp, js_continuation_state_client.cpp).

    A call of the interface IDistributedSched, of a manager or of an adapter is a value of
    [Call]; the service behind the stub is a function of the calls. Reports and traces are
    left out. The switches of the build are a record. *)

From S2P Require Import Prelude StdMap SchedUtils SchedErrors Json ContinueInfo IpcParcel WantValue WantText WantParcel DistWant BundleInfo Permission RemoteAbility ContinueSession CollabSession AbilityConnection SchedWire.
#[local] Open Scope string_scope.
#[local] Open Scope list_scope.
#[local] Open Scope Z_scope.

Definition HID_HAP : Z := 10000.
Definition DMS_STUB_INTERFACE_TOKEN : string := "ohos.distributedschedule.accessToken".
Definition DMS_PROXY_INTERFACE_TOKEN : string := "ohos.distributedschedule.accessToken".
Definition PARAM_FREEINSTALL_APPID : string := "ohos.freeinstall.params.callingAppId".
Definition PARAM_FREEINSTALL_BUNDLENAMES : string := "ohos.freeinstall.params.callingBundleNames".
Definition CMPT_PARAM_FREEINSTALL_BUNDLENAMES : string := "ohos.extra.param.key.allowedBundles".
Definition FEATURE_ABILITY_FLAG_KEY : string := "ohos.dms.faFlag".
Definition VERSION : Z := 200.
Definition ERR_NONE : Z := 0.
Definition DMSPROXY_SERVICE_ERR : Z := 29360169.
Definition DMS_WRITE_FILE_FAILED_ERR : Z := 29360141.
Definition SYSTEM_WORK_ABNORMALLY : Z := 16600001.
Definition DSCHED_EVENT_MAX_NUM : Z := 10000.
Definition MULTIUSER_HAP_PER_USER_RANGE_EXT : Z := 100000.
Definition HID_HAP_EXT : Z := 10000.

(** [IDSchedInterfaceCode]: the codes with a function in the stub. *)
Inductive Code :=
  | START_REMOTE_ABILITY | START_ABILITY_FROM_REMOTE | STOP_ABILITY_FROM_REMOTE | CONNECT_REMOTE_ABILITY | DISCONNECT_REMOTE_ABILITY
  | CONNECT_ABILITY_FROM_REMOTE | DISCONNECT_ABILITY_FROM_REMOTE | START_CONTINUATION | NOTIFY_COMPLETE_CONTINUATION | NOTIFY_CONTINUATION_RESULT_FROM_REMOTE
  | NOTIFY_PROCESS_DIED_FROM_REMOTE | NOTIFY_DSCHED_EVENT_RESULT_FROM_REMOTE | SEND_RESULT_FROM_REMOTE | CONTINUE_MISSION | CONTINUE_MISSION_OF_BUNDLENAME
  | START_FREE_INSTALL_FROM_REMOTE | NOTIFY_COMPLETE_FREE_INSTALL_FROM_REMOTE | NOTIFY_ABILITY_LIFECYCLE_CHANGED_FROM_REMOTE | GET_MISSION_INFOS
  | REGISTER_MISSION_LISTENER | UNREGISTER_MISSION_LISTENER | START_SYNC_MISSIONS_FROM_REMOTE | STOP_SYNC_MISSIONS_FROM_REMOTE | NOTIFY_MISSIONS_CHANGED_FROM_REMOTE
  | START_SYNC_MISSIONS | STOP_SYNC_MISSIONS | GET_REMOTE_MISSION_SNAPSHOT_INFO | START_REMOTE_ABILITY_BY_CALL | RELEASE_REMOTE_ABILITY
  | START_ABILITY_BY_CALL_FROM_REMOTE | RELEASE_ABILITY_FROM_REMOTE | NOTIFY_STATE_CHANGED_FROM_REMOTE | GET_DISTRIBUTED_COMPONENT_LIST | START_REMOTE_FREE_INSTALL
  | START_REMOTE_SHARE_FORM | START_SHARE_FORM_FROM_REMOTE | STOP_REMOTE_EXTERNSION_ABILITY | STOP_EXTERNSION_ABILITY_FROM_REMOTE | REGISTER_ON_LISTENER
  | REGISTER_OFF_LISTENER | REGISTER_DSCHED_EVENT_LISTENER | UNREGISTER_DSCHED_EVENT_LISTENER | GET_CONTINUE_INFO | GET_DSCHED_EVENT_INFO | DSCHED_START_DEXTENSION
  | SET_MISSION_CONTINUE_STATE | CONTINUE_STATE_CALLBACK_REGISTER | CONTINUE_STATE_CALLBACK_UNREGISTER | COLLAB_MISSION | NOTIFY_COLLAB_PREPARE_RESULT
  | NOTIFY_REJECT_REASON | NOTIFY_CLOSE_COLLAB_SESSION | NOTIFY_START_ABILITY_RESULT | GET_SINK_COLLAB_VERSION.
#[export] Instance Code_eq_dec : EqDecision Code.
Proof. solve_decision. Defined.
Definition code_table : list (Z * Code) := [
  (1, START_REMOTE_ABILITY); (4, START_ABILITY_FROM_REMOTE); (5, STOP_ABILITY_FROM_REMOTE); (6, CONNECT_REMOTE_ABILITY); (7, DISCONNECT_REMOTE_ABILITY);
  (8, CONNECT_ABILITY_FROM_REMOTE); (9, DISCONNECT_ABILITY_FROM_REMOTE); (11, START_CONTINUATION); (12, NOTIFY_COMPLETE_CONTINUATION); (13, NOTIFY_CONTINUATION_RESULT_FROM_REMOTE);
  (17, NOTIFY_PROCESS_DIED_FROM_REMOTE); (18, NOTIFY_DSCHED_EVENT_RESULT_FROM_REMOTE); (20, SEND_RESULT_FROM_REMOTE); (36, CONTINUE_MISSION); (37, CONTINUE_MISSION_OF_BUNDLENAME);
  (51, START_FREE_INSTALL_FROM_REMOTE); (52, NOTIFY_COMPLETE_FREE_INSTALL_FROM_REMOTE); (66, NOTIFY_ABILITY_LIFECYCLE_CHANGED_FROM_REMOTE); (80, GET_MISSION_INFOS);
  (84, REGISTER_MISSION_LISTENER); (85, UNREGISTER_MISSION_LISTENER); (86, START_SYNC_MISSIONS_FROM_REMOTE); (87, STOP_SYNC_MISSIONS_FROM_REMOTE); (91, NOTIFY_MISSIONS_CHANGED_FROM_REMOTE);
  (92, START_SYNC_MISSIONS); (98, STOP_SYNC_MISSIONS); (99, GET_REMOTE_MISSION_SNAPSHOT_INFO); (150, START_REMOTE_ABILITY_BY_CALL); (151, RELEASE_REMOTE_ABILITY);
  (152, START_ABILITY_BY_CALL_FROM_REMOTE); (153, RELEASE_ABILITY_FROM_REMOTE); (154, NOTIFY_STATE_CHANGED_FROM_REMOTE); (161, GET_DISTRIBUTED_COMPONENT_LIST); (200, START_REMOTE_FREE_INSTALL);
  (220, START_REMOTE_SHARE_FORM); (221, START_SHARE_FORM_FROM_REMOTE); (225, STOP_REMOTE_EXTERNSION_ABILITY); (226, STOP_EXTERNSION_ABILITY_FROM_REMOTE); (260, REGISTER_ON_LISTENER);
  (261, REGISTER_OFF_LISTENER); (262, REGISTER_DSCHED_EVENT_LISTENER); (263, UNREGISTER_DSCHED_EVENT_LISTENER); (264, GET_CONTINUE_INFO); (265, GET_DSCHED_EVENT_INFO); (266, DSCHED_START_DEXTENSION);
  (300, SET_MISSION_CONTINUE_STATE); (302, CONTINUE_STATE_CALLBACK_REGISTER); (303, CONTINUE_STATE_CALLBACK_UNREGISTER); (330, COLLAB_MISSION); (331, NOTIFY_COLLAB_PREPARE_RESULT);
  (332, NOTIFY_REJECT_REASON); (333, NOTIFY_CLOSE_COLLAB_SESSION); (334, NOTIFY_START_ABILITY_RESULT); (335, GET_SINK_COLLAB_VERSION)].
Definition code_of (n : Z) : option Code := snd <$> find (fun e => fst e =? n) code_table.
Definition code_number (c : Code) : Z := default 0 (fst <$> find (fun e => bool_decide (snd e = c)) code_table).

(** Switches of the build. *)
Record Build := mkBuild { MISSION_MANAGER : bool; FORM_SHARE : bool; INTERACTIVE_ADAPTER : bool }.

(** Types and operations of other frameworks. *)
Class SchedObjects `{IpcParcel} `{WantApi} := {
  AbilityInfo : Type;
  CompatibleAbilityInfo : Type;
  ConvertToCompatiableAbilityInfo : AbilityInfo -> CompatibleAbilityInfo;
  ConvertToAbilityInfo : CompatibleAbilityInfo -> AbilityInfo;
  ability_bundleName : AbilityInfo -> string;
  ability_deviceId : AbilityInfo -> string;
  FormShareInfo : Type;
  MissionSnapshot : Type;
  send_want :: Sendable Want;
  send_params :: Sendable ContinueSession.WantParams;
  send_element :: Sendable Element;
  send_ability :: Sendable CompatibleAbilityInfo;
  send_form :: Sendable FormShareInfo;
  send_snapshot :: Sendable MissionSnapshot;
  send_mission :: Sendable MissionInfo;
}.

Section Sched.
Context {T16 : Text16} {IP : @IpcParcel T16} {IC : IpcCodes} {NL : Nlohmann} {VE : VersionApi} {W : WantApi} {CW : CollabWantApi} {PW : PermWantApi}
  {WW : WantWire} {VA : ValueApi} {CV : ConvertEnv} {EA : ElementApi} {SO : SchedObjects}.
Notation WantParams := ContinueSession.WantParams.
Notation RemoveParam := ContinueSession.RemoveParam.

(** ** Calls *)

Record FreeInstallInfo := mkFreeInstallInfo { fi_want : Want; fi_requestCode : Z; fi_callerInfo : CallerInfo; fi_accountInfo : AccountInfo }.
Inductive AdapterCall := StartAbilityFromRemoteAdapter | StopAbilityFromRemoteAdapter | ConnectAbilityFromRemoteAdapter | DisconnectAbilityFromRemoteAdapter
  | NotifyAbilityLifecycleChangedFromRemoteAdapter.

(** Methods of IDistributedSched first, then those of the managers ([M_]) and of the
    adapter to other systems. *)
Inductive Call :=
  | StartRemoteAbility (want : Want) (callerUid requestCode accessToken : Z)
  | StartAbilityFromRemote (want : Want) (abilityInfo : AbilityInfo) (requestCode : Z) (callerInfo : CallerInfo) (accountInfo : AccountInfo)
  | SendResultFromRemote (want : Want) (requestCode : Z) (callerInfo : CallerInfo) (discarded : bool) (accountInfo : AccountInfo) (resultCode : Z)
  | ContinueMission (srcDeviceId dstDeviceId : string) (missionId : Z) (callback : option Z) (wantParams : WantParams)
  | ContinueMissionOfBundleName (srcDeviceId dstDeviceId bundleName : string) (callback : option Z) (wantParams : WantParams)
  | StartContinuation (want : Want) (missionId callerUid status accessToken : Z)
  | NotifyCompleteContinuation (devId : string16) (sessionId : Z) (isSuccess : bool)
  | NotifyContinuationResultFromRemote (sessionId : Z) (isSuccess : bool) (dstInfo : string)
  | NotifyDSchedEventResultFromRemote (type : string) (dSchedEventResult : Z)
  | ConnectRemoteAbility (want : Want) (connect : option Z) (callerUid callerPid accessToken : Z)
  | DisconnectRemoteAbility (connect : option Z) (callerUid accessToken : Z)
  | ConnectAbilityFromRemote (want : Want) (abilityInfo : AbilityInfo) (connect : option Z) (callerInfo : CallerInfo) (accountInfo : AccountInfo)
  | DisconnectAbilityFromRemote (connect : option Z) (uid : Z) (sourceDeviceId : string)
  | NotifyProcessDiedFromRemote (callerInfo : CallerInfo)
  | RegisterDSchedEventListener (type : Z) (obj : option Z)
  | UnRegisterDSchedEventListener (type : Z) (obj : option Z)
  | GetContinueInfo
  | GetDSchedEventInfo (type : Z)
  | StartSyncRemoteMissions (devId : string) (fixConflict : bool) (tag callingUid : Z)
  | StartSyncMissionsFromRemote (callerInfo : CallerInfo)
  | StopSyncRemoteMissions (devId : string) (callingUid : Z)
  | StopSyncMissionsFromRemote (callerInfo : CallerInfo)
  | RegisterMissionListener (devId : string16) (obj : option Z) (callingUid : Z)
  | RegisterOnListener (type : string) (obj : option Z) (callingUid : Z)
  | RegisterOffListener (type : string) (obj : option Z) (callingUid : Z)
  | UnRegisterMissionListener (devId : string16) (obj : option Z)
  | GetMissionInfos (deviceId : string) (numMissions : Z)
  | GetRemoteMissionSnapshotInfo (networkId : string) (missionId : Z)
  | NotifyMissionsChangedFromRemote (missionInfos : list DstbMissionInfo) (callerInfo : CallerInfo)
  | SetMissionContinueState (missionId state callingUid : Z)
  | StartRemoteAbilityByCall (want : Want) (connect : option Z) (callerUid callerPid accessToken : Z)
  | ReleaseRemoteAbility (connect : option Z) (element : Element)
  | StartAbilityByCallFromRemote (want : Want) (connect : option Z) (callerInfo : CallerInfo) (accountInfo : AccountInfo)
  | ReleaseAbilityFromRemote (connect : option Z) (element : Element) (callerInfo : CallerInfo)
  | StartRemoteFreeInstall (want : Want) (callerUid requestCode accessToken : Z) (callback : option Z)
  | StartFreeInstallFromRemote (info : FreeInstallInfo) (taskId : Z)
  | NotifyCompleteFreeInstallFromRemote (taskId resultCode : Z)
  | StartRemoteShareForm (deviceId : string) (formShareInfo : FormShareInfo)
  | StartShareFormFromRemote (deviceId : string) (formShareInfo : FormShareInfo)
  | NotifyStateChangedFromRemote (abilityState connectToken : Z) (element : Element)
  | GetDistributedComponentList
  | StopRemoteExtensionAbility (want : Want) (callerUid accessToken extensionType : Z)
  | StopExtensionAbilityFromRemote (want : Want) (callerInfo : CallerInfo) (accountInfo : AccountInfo) (extensionType : Z)
  | M_SetCallingTokenId (token : Z)
  | M_ContinueMission (srcDevId dstDevId : string) (missionId : Z) (callback : Z) (wantParams : WantParams)
  | M_ContinueMissionOfBundleName (srcDevId srcBundleName dstDevId bundleName continueType : string) (callback : Z) (wantParams : WantParams)
  | M_StartContinuation (want : Want) (missionId callerUid status accessToken : Z)
  | M_NotifyCompleteContinuation (devId : string16) (sessionId : Z) (isSuccess : bool) (callerBundleName : string)
  | M_GetSinkCollabVersion (info : DSchedCollabInfo)
  | M_CollabMission (info : DSchedCollabInfo)
  | M_NotifySinkRejectReason (token reason : string)
  | M_NotifyStartAbilityResult (collabToken : string) (ret sinkPid sinkUid sinkAccessTokenId : Z)
  | M_NotifySinkPrepareResult (collabToken : string) (ret sinkCollabSessionId : Z) (sinkSocketName : string) (sinkClientCallback : Z)
  | M_NotifySessionClose (tokenId : string)
  | M_ContinueStateCallbackRegister (missionId : Z) (bundleName moduleName abilityName : string) (callback : option Z)
  | M_ContinueStateCallbackUnRegister (missionId : Z) (bundleName moduleName abilityName : string)
  | M_EnqueueCachedSnapshotInfo (uuid : string) (missionId : Z) (snapshot : Snapshot MissionSnapshot)
  | Adapter (a : AdapterCall) (data : Parcel).

(** What a call returns: the code and the values of its reference parameters. *)
Inductive Out := O_none | O_missions (l : list MissionInfo) | O_dstb (l : list DstbMissionInfo) | O_snapshot (m : MissionSnapshot) | O_texts (l : list string)
  | O_networks (dst src : string) | O_events (l : list EventNotify) | O_parcel (p : Parcel).
Record Ret := mkRet { r_code : Z; r_out : Out }.
Definition ret (code : Z) : Ret := mkRet code O_none.
Definition out_missions (o : Out) : list MissionInfo := match o with O_missions l => l | _ => [] end.
Definition out_dstb (o : Out) : list DstbMissionInfo := match o with O_dstb l => l | _ => [] end.
Definition out_texts (o : Out) : list string := match o with O_texts l => l | _ => [] end.
Definition out_events (o : Out) : list EventNotify := match o with O_events l => l | _ => [] end.
Definition out_networks (o : Out) : string * string := match o with O_networks d s => (d, s) | _ => ("", "") end.
Definition out_parcel (o : Out) : Parcel := match o with O_parcel p => p | _ => Parcel_empty end.

(** ** Surroundings of the stub *)

(** Who calls. *)
Record Caller := mkCaller {
  IsLocalCalling : bool;
  GetCallingUid : Z;
  GetCallingPid : Z;
  GetCallingTokenID : Z;
  GetCallingDeviceID : string;
}.

Section Stub.
Variable St : Type.
Variable build : Build.
(** The service and its managers. *)
Variable serve : Call -> St -> Ret * St.

(** What the stub asks: the permissions, the ability manager, the bundles of devices, and
    the parts of the service it only looks at. *)
Record StubEnv := mkStubEnv {
  e_perm : PEnv;
  e_GetMissionInfo : Z -> option Want;
  e_GetIsFreeInstall : Z -> St -> bool;
  e_GetDSchedContinueByDevId : string16 -> Z -> St -> bool;
  (** [GetContinueType] of the receiver of the current user, if there is one. *)
  e_GetContinueType : string -> St -> option string;
  (** The name in the record of a bundle on a device. *)
  e_StorageBundleName : string -> string -> string;
  e_GetUuidByNetworkId : string -> string;
  e_CheckRemoteOsType : string -> bool;
  (** [GetTickCount] at the end less that at the beginning. *)
  e_elapsed : Z;
  (** [IPCObjectStub::OnRemoteRequest]. *)
  e_unknown : Z -> Z;
  (** What a member without initialiser holds. *)
  e_uninitialised : Z;
}.
Variable env : StubEnv.
Variable caller : Caller.

Definition IsFoundationCall : bool := Permission.IsFoundationCall (e_perm env).
Definition IsSceneBoardCall : bool := Permission.IsSceneBoardCall (e_perm env).
Definition CheckCallingUid : bool := GetCallingUid caller <? HID_HAP.
(** The remainder of C++ has the sign of the number. *)
Definition CheckDmsExtensionCallingUid : bool := Z.rem (GetCallingUid caller) MULTIUSER_HAP_PER_USER_RANGE_EXT <? HID_HAP_EXT.

(** What a function of the stub does after it has read its message: the code it returns,
    the reply and the new state. *)
Definition Act : Type := St -> Z * Parcel * St.
Definition Handler : Type := Reader Act.

(** [PARCEL_WRITE_HELPER] for each value of the reply; the reply to a request that failed is not read. *)
Definition replies (results : list Item) (s : St) : Z * Parcel * St :=
  match foldl (fun p x => p ← p; Write x p) (Some Parcel_empty) results with
  | Some p => (ERR_NONE, p, s)
  | None => (ERR_FLATTEN_OBJECT, Parcel_empty, s)
  end.
(** [PARCEL_WRITE_REPLY_NOERROR]. *)
Definition reply_int (result : Z) (s : St) : Z * Parcel * St := (ERR_NONE, put (IInt result) Parcel_empty, s).
Definition call_int (c : Call) : Act := fun s => let '(r, s) := serve c s in reply_int (r_code r) s.
Definition call_ret (c : Call) : Act := fun s => let '(r, s) := serve c s in (r_code r, Parcel_empty, s).
Definition refuse (code : Z) : Act := fun s => (code, Parcel_empty, s).

(** A parameter that is an object with the type of a remote object. *)
Definition is_remote_object (v : Value) : bool :=
  match v with VParams l => match mfind TYPE_PROPERTY l with Some (VString t) => String.eqb t REMOTE_OBJECT | _ => false end | _ => false end.
Definition RemoveRemoteObjectFromWant (want : Want) : Want :=
  want_set_params want (foldl (fun l e => if is_remote_object (snd e) then merase (fst e) l else l) (want_params want) (want_params want)).
Definition MarkUriPermission (want : Want) (accessToken : Z) : Want := Permission.MarkUriPermission (e_perm env) want accessToken.

(** [ReadParcelable<DistributedWant>], and [ReadDistributedWant] with [ToWant]. *)
Definition DistributedWant_ReadParcelable : Reader (option Want) := fun f p =>
  match Read KMark p with
  | Some (IMark, p) =>
      match Want_Unmarshalling f p with
      | None => Endless
      | Some None => Go None p
      | Some (Some (w, p)) => Go (Some (want_calls (ToWant w))) p
      end
  | Some (_, p) => Go None p
  | None => Go None p
  end.
Definition ReadDistributedWant : Reader (option Want) := DistributedWant_ReadParcelable.
(** A want of a local or a remote caller: a null pointer is refused, remote objects are removed. *)
Definition local_want : Reader Want := let! want := nonnull ERR_NULL_OBJECT (Parcelable Want) in done_with (RemoveRemoteObjectFromWant want).
Definition remote_want : Reader Want := let! want := nonnull ERR_NULL_OBJECT ReadDistributedWant in done_with (RemoveRemoteObjectFromWant want).
Definition foundation : Reader unit := stop_if (negb IsFoundationCall) DMS_PERMISSION_DENIED.
Definition system_uid : Reader unit := stop_if (negb CheckCallingUid) DMS_PERMISSION_DENIED.
Definition local_only : Reader unit := stop_if (negb (IsLocalCalling caller)) DMS_PERMISSION_DENIED.
(** A failure to read of a part of a message, as another code. *)
Definition or_code {A} (code : Z) (m : Reader A) : Reader A := fun f p => match m f p with Stop _ => Stop code | r => r end.

(** ** Abilities *)

Definition StartRemoteAbilityInner : Handler :=
  let! _ := foundation in
  let! want := local_want in
  let! callerUid := Int32 in
  let! requestCode := Int32 in
  let! accessToken := Uint32 in
  done_with (call_int (StartRemoteAbility (MarkUriPermission want accessToken) callerUid requestCode accessToken)).

Definition extra_info (c : CallerInfo) (a : AccountInfo) (extraInfo : string) : CallerInfo * AccountInfo :=
  match nl_parse extraInfo with Some j => SaveExtraInfo j c a | None => (c, a) end.

Definition GetStartAbilityFromRemoteExParam : Reader (AbilityInfo * Z * CallerInfo * AccountInfo) :=
  let! cmpAbilityInfo := nonnull ERR_NULL_OBJECT (Parcelable CompatibleAbilityInfo) in
  let! requestCode := Int32 in
  let! uid := Int32 in
  let! sourceDeviceId := Str in
  let! accountType := Int32_or0 in
  let! groupIdList := StringVector in
  let! callerAppId := Str_or in
  let! extraInfo := Str_or in
  let c := mkCallerInfo uid (-1) CALLER_TYPE_HARMONY sourceDeviceId (-1) callerAppId [] (-1) 0 JNull in
  let a := mkAccountInfo accountType groupIdList "" (-1) in
  let ca := if String.eqb extraInfo "" then (c, a) else extra_info c a extraInfo in
  done_with (ConvertToAbilityInfo cmpAbilityInfo, requestCode, fst ca, snd ca).

Definition ReadDataForConnect : Reader (CallerInfo * AccountInfo) :=
  let! uid := Int32 in
  let! pid := Int32 in
  let! sourceDeviceId := Str in
  let! accountType := Int32_or0 in
  let! groupIdList := StringVector in
  let! callerAppId := Str_or in
  done_with (mkCallerInfo uid pid CALLER_TYPE_HARMONY sourceDeviceId (-1) callerAppId [] (-1) 0 JNull, mkAccountInfo accountType groupIdList "" (-1)).
Definition GetConnectAbilityFromRemoteExParam : Reader (AbilityInfo * option Z * CallerInfo * AccountInfo) :=
  let! cmpAbilityInfo := nonnull ERR_NULL_OBJECT (Parcelable CompatibleAbilityInfo) in
  let! connect := RemoteObject in
  let! ca := ReadDataForConnect in
  let! extraInfo := Str_or in
  let ca := extra_info (fst ca) (snd ca) extraInfo in
  done_with (ConvertToAbilityInfo cmpAbilityInfo, connect, fst ca, snd ca).

(** A request of another system is handed to the adapter. *)
Definition other_system : bool := INTERACTIVE_ADAPTER build && e_CheckRemoteOsType env (GetCallingDeviceID caller).
(** The adapter gets the message itself; [ok] says whether the code of the adapter is returned. *)
Definition adapter_inner (a : AdapterCall) (keep_code : bool) : Handler := fun _ data =>
  if negb CheckDmsExtensionCallingUid then Stop DMS_PERMISSION_DENIED
  else Go (fun s => let '(r, s) := serve (Adapter a data) s in (if keep_code then r_code r else ERR_OK, out_parcel (r_out r), s)) data.
Definition StartAbilityFromRemoteAdapterInner : Handler := adapter_inner StartAbilityFromRemoteAdapter true.
Definition StopAbilityFromRemoteAdapterInner : Handler := adapter_inner StopAbilityFromRemoteAdapter false.
Definition ConnectAbilityFromRemoteAdapterInner : Handler := adapter_inner ConnectAbilityFromRemoteAdapter false.
Definition DisconnectAbilityFromRemoteAdapterInner : Handler := adapter_inner DisconnectAbilityFromRemoteAdapter false.
Definition NotifyAbilityLifecycleChangedFromRemoteAdapterInner : Handler := adapter_inner NotifyAbilityLifecycleChangedFromRemoteAdapter false.

(** The reply to a start or a connection tells how long it took and for which bundle. *)
Definition call_timed (c : Call) (info : AbilityInfo) : Act := fun s =>
  let '(r, s) := serve c s in replies [IInt (r_code r); INum W64 (e_elapsed env); IStr (ability_bundleName info); IStr (ability_deviceId info)] s.

Definition StartAbilityFromRemoteInner : Handler :=
  if other_system then StartAbilityFromRemoteAdapterInner
  else
    let! _ := system_uid in
    let! want := remote_want in
    let! x := or_code INVALID_PARAMETERS_ERR GetStartAbilityFromRemoteExParam in
    let '(abilityInfo, requestCode, callerInfo, accountInfo) := x in
    done_with (call_timed (StartAbilityFromRemote want abilityInfo requestCode callerInfo accountInfo) abilityInfo).
Definition StopAbilityFromRemoteInner : Handler :=
  if other_system then StopAbilityFromRemoteAdapterInner else done_with (reply_int ERR_OK).

Definition SendResultFromRemoteInner : Handler :=
  let! _ := system_uid in
  let! want := remote_want in
  let! requestCode := Int32 in
  let! uid := Int32 in
  let! sourceDeviceId := Str in
  let! accountType := Int32_or0 in
  let! groupIdList := StringVector in
  let! callerAppId := Str_or in
  let! resultCode := Int32 in
  let! extraInfo := Str_or in
  let c := mkCallerInfo uid (-1) CALLER_TYPE_HARMONY sourceDeviceId (-1) callerAppId [] (-1) 0 JNull in
  let a := mkAccountInfo accountType groupIdList "" (-1) in
  let '(c, discarded, a) := match nl_parse extraInfo with Some j => SaveSendResultExtraInfo j c a | None => (c, false, a) end in
  done_with (fun s => let '(r, s) := serve (SendResultFromRemote want requestCode c discarded a resultCode) s in replies [IInt (r_code r); INum W64 (e_elapsed env)] s).

Definition ConnectRemoteAbilityInner : Handler :=
  let! _ := foundation in
  let! want := local_want in
  let! connect := RemoteObject in
  let! callerUid := Int32 in
  let! callerPid := Int32 in
  let! accessToken := Uint32 in
  done_with (call_int (ConnectRemoteAbility want connect callerUid callerPid accessToken)).
Definition DisconnectRemoteAbilityInner : Handler :=
  let! _ := foundation in
  let! connect := RemoteObject in
  let! callerUid := Int32 in
  let! accessToken := Uint32 in
  done_with (call_int (DisconnectRemoteAbility connect callerUid accessToken)).
Definition ConnectAbilityFromRemoteInner : Handler :=
  if other_system then ConnectAbilityFromRemoteAdapterInner
  else
    let! _ := system_uid in
    let! want := remote_want in
    let! x := or_code INVALID_PARAMETERS_ERR GetConnectAbilityFromRemoteExParam in
    let '(abilityInfo, connect, callerInfo, accountInfo) := x in
    done_with (call_timed (ConnectAbilityFromRemote want abilityInfo connect callerInfo accountInfo) abilityInfo).
Definition DisconnectAbilityFromRemoteInner : Handler :=
  if other_system then DisconnectAbilityFromRemoteAdapterInner
  else
    let! _ := system_uid in
    let! connect := RemoteObject in
    let! uid := Int32 in
    let! sourceDeviceId := Str in
    done_with (call_int (DisconnectAbilityFromRemote connect uid sourceDeviceId)).
Definition NotifyProcessDiedFromRemoteInner : Handler :=
  let! _ := system_uid in
  let! uid := Int32 in
  let! pid := Int32 in
  let! sourceDeviceId := Str in
  done_with (call_int (NotifyProcessDiedFromRemote (mkCallerInfo uid pid CALLER_TYPE_HARMONY sourceDeviceId (-1) "" [] (-1) 0 JNull))).

Definition StartRemoteAbilityByCallInner : Handler :=
  let! _ := foundation in
  let! want := local_want in
  let! connect := RemoteObject in
  let! callerUid := Int32 in
  let! callerPid := Int32 in
  let! accessToken := Uint32 in
  done_with (call_int (StartRemoteAbilityByCall want connect callerUid callerPid accessToken)).
Definition ReleaseRemoteAbilityInner : Handler :=
  let! _ := foundation in
  let! connect := RemoteObject in
  let! element := nonnull ERR_INVALID_VALUE (Parcelable Element) in
  done_with (call_int (ReleaseRemoteAbility connect element)).
Definition StartAbilityByCallFromRemoteInner : Handler :=
  let! _ := system_uid in
  let! connect := RemoteObject in
  let! uid := Int32 in
  let! pid := Int32 in
  let! sourceDeviceId := Str in
  let! accountType := Int32_or0 in
  let! groupIdList := StringVector in
  let! callerAppId := Str_or in
  let! extraInfo := Str_or in
  let! _ := stop_if (String.eqb extraInfo "") ERR_NULL_OBJECT in
  let ca := extra_info (mkCallerInfo uid pid CALLER_TYPE_NONE sourceDeviceId (-1) callerAppId [] (-1) 0 JNull) (mkAccountInfo accountType groupIdList "" (-1)) extraInfo in
  let! want := remote_want in
  done_with (fun s => let '(r, s) := serve (StartAbilityByCallFromRemote want connect (fst ca) (snd ca)) s in replies [IInt (r_code r)] s).
Definition ReleaseAbilityFromRemoteInner : Handler :=
  let! _ := system_uid in
  let! connect := RemoteObject in
  let! element := nonnull ERR_INVALID_VALUE (Parcelable Element) in
  let! sourceDeviceId := Str in
  let! extraInfo := Str in
  done_with (call_int (ReleaseAbilityFromRemote connect element (mkCallerInfo (-1) (-1) CALLER_TYPE_NONE sourceDeviceId (-1) "" [] (-1) 0 JNull))).
Definition NotifyStateChangedFromRemoteInner : Handler :=
  let! _ := system_uid in
  let! abilityState := Int32 in
  let! connectToken := Int32 in
  let! element := nonnull ERR_INVALID_VALUE (Parcelable Element) in
  done_with (fun s => let '(r, s) := serve (NotifyStateChangedFromRemote abilityState connectToken element) s in replies [IInt (r_code r)] s).
Definition StopRemoteExtensionAbilityInner : Handler :=
  let! _ := foundation in
  let! want := local_want in
  let! callerUid := Int32 in
  let! accessToken := Uint32 in
  let! serviceType := Int32 in
  done_with (call_int (StopRemoteExtensionAbility want callerUid accessToken serviceType)).
Definition StopExtensionAbilityFromRemoteInner : Handler :=
  let! _ := system_uid in
  let! want := remote_want in
  let! serviceType := Int32 in
  let! uid := Int32 in
  let! sourceDeviceId := Str in
  let! accountType := Int32_or0 in
  let! groupIdList := StringVector in
  let! callerAppId := Str_or in
  let! extraInfo := Str_or in
  let c := mkCallerInfo uid (-1) CALLER_TYPE_HARMONY sourceDeviceId (-1) callerAppId [] (-1) 0 JNull in
  let c := when (j ← nl_parse extraInfo; nl_unsigned j EXTRO_INFO_JSON_KEY_ACCESS_TOKEN) (fun t => set_token (u32 t)) c in
  done_with (fun s => let '(r, s) := serve (StopExtensionAbilityFromRemote want c (mkAccountInfo accountType groupIdList "" (-1)) serviceType) s in replies [IInt (r_code r)] s).

(** ** Continuations *)

Definition IsRemoteInstall (networkId bundleName : string) : bool := negb (String.eqb (e_StorageBundleName env networkId bundleName) "").
(** Whether a continuation of a local caller takes the new way. *)
Definition takes_qos (want : Want) (wantParams : WantParams) (remoteDeviceId bundleName : string) : bool :=
  let isFreeInstall := ContinueSession.GetBoolParam (Want_SetParams want wantParams) "isFreeInstall" false in
  (negb isFreeInstall && IsUsingQos remoteDeviceId) || (isFreeInstall && IsRemoteInstall remoteDeviceId bundleName).
Definition remote_of (srcDevId dstDevId : string) : string := if String.eqb (GetCallingDeviceID caller) srcDevId then dstDevId else srcDevId.
Definition may_continue : Reader unit :=
  stop_if ((IsLocalCalling caller && negb IsFoundationCall) || (negb (IsLocalCalling caller) && negb CheckCallingUid)) DMS_PERMISSION_DENIED.
(** [SetCallingTokenId] and then a call of a manager. *)
Definition with_token (c : Call) : Act := fun s => call_int c (snd (serve (M_SetCallingTokenId (GetCallingTokenID caller)) s)).

Definition continue_mission (srcDevId dstDevId : string) (missionId callback : Z) (wantParams : WantParams) : Act :=
  let by_service := call_int (ContinueMission srcDevId dstDevId missionId (Some callback) wantParams) in
  if IsLocalCalling caller then
    match e_GetMissionInfo env missionId with
    | None => refuse ERR_NULL_OBJECT
    | Some want =>
        if takes_qos want wantParams (remote_of srcDevId dstDevId) (ContinueSession.GetBundle want)
        then with_token (M_ContinueMission srcDevId dstDevId missionId callback wantParams)
        else by_service
    end
  else by_service.
Definition ContinueMissionInner : Handler :=
  let! _ := may_continue in
  let! srcDevId := Str in
  let! dstDevId := Str in
  let! missionId := Int32 in
  let! callback := nonnull ERR_NULL_OBJECT RemoteObject in
  let! wantParams := nonnull ERR_NULL_OBJECT (Parcelable WantParams) in
  done_with (continue_mission srcDevId dstDevId missionId callback wantParams).

Definition SetContinueType (continueType bundleName : string) (s : St) : string := default continueType (e_GetContinueType env bundleName s).
Definition continue_bundle (srcDevId dstDevId bundleName : string) (callback : Z) (wantParams : WantParams) (srcBundleName continueType : string) : Act := fun s =>
  let continueType := if String.eqb continueType "" then SetContinueType continueType bundleName s else continueType in
  if IsLocalCalling caller && takes_qos ContinueSession.Want_new wantParams (remote_of srcDevId dstDevId) bundleName
  then with_token (M_ContinueMissionOfBundleName srcDevId srcBundleName dstDevId bundleName continueType callback wantParams) s
  else call_int (ContinueMissionOfBundleName srcDevId dstDevId bundleName (Some callback) wantParams) s.
Definition ContinueMissionOfBundleNameInner : Handler :=
  let! _ := may_continue in
  let! srcDevId := Str in
  let! dstDevId := Str in
  let! bundleName := Str in
  let! callback := nonnull ERR_NULL_OBJECT RemoteObject in
  let! wantParams := nonnull ERR_NULL_OBJECT (Parcelable WantParams) in
  let! srcBundleName := Str_or in
  let! continueType := Str_or in
  done_with (continue_bundle srcDevId dstDevId bundleName callback wantParams srcBundleName continueType).

Definition start_continuation (want : Want) (missionId callerUid status accessToken : Z) : Act := fun s =>
  let want := MarkUriPermission want accessToken in
  let isFA := ContinueSession.GetBoolParam want FEATURE_ABILITY_FLAG_KEY false in
  let want := RemoveParam want FEATURE_ABILITY_FLAG_KEY in
  if isFA || e_GetIsFreeInstall env missionId s || negb (IsUsingQos (GetElementDeviceID want))
  then call_int (StartContinuation want missionId callerUid status accessToken) s
  else call_int (M_StartContinuation want missionId callerUid status accessToken) s.
Definition StartContinuationInner : Handler :=
  let! _ := foundation in
  let! want := local_want in
  let! missionId := Int32_or0 in
  let! callerUid := Int32_or0 in
  let! status := Int32_or0 in
  let! accessToken := Uint32 in
  done_with (start_continuation want missionId callerUid status accessToken).

Definition notify_complete (devId : string16) (sessionId : Z) (continuationResult : bool) (callerBundleName : string) : Act := fun s =>
  let c := if e_GetDSchedContinueByDevId env devId sessionId s then M_NotifyCompleteContinuation devId sessionId continuationResult callerBundleName
    else NotifyCompleteContinuation devId sessionId continuationResult in
  (ERR_OK, Parcel_empty, snd (serve c s)).
Definition NotifyCompleteContinuationInner : Handler :=
  let! _ := foundation in
  let! devId := Str16_or in
  let! _ := stop_if (is_empty16 devId) INVALID_PARAMETERS_ERR in
  let! sessionId := Int32 in
  let! continuationResult := Bool in
  let! callerBundleName := Str_or in
  done_with (notify_complete devId sessionId continuationResult callerBundleName).
Definition NotifyDSchedEventResultFromRemoteInner : Handler :=
  let! _ := system_uid in
  let! type := Str in
  let! dSchedEventResult := Int32 in
  done_with (call_ret (NotifyDSchedEventResultFromRemote type dSchedEventResult)).
Definition NotifyContinuationResultFromRemoteInner : Handler :=
  let! _ := system_uid in
  let! sessionId := Int32 in
  let! continuationResult := Bool in
  let! dstInfo := Str_or in
  done_with (call_ret (NotifyContinuationResultFromRemote sessionId continuationResult dstInfo)).
Definition ContinueStateCallbackRegister : Handler :=
  let! bundleName := Str_or in
  let! missionId := Int32_or0 in
  let! moduleName := Str_or in
  let! abilityName := Str_or in
  let! callback := RemoteObject in
  done_with (call_int (M_ContinueStateCallbackRegister missionId bundleName moduleName abilityName callback)).
Definition ContinueStateCallbackUnRegister : Handler :=
  let! bundleName := Str_or in
  let! missionId := Int32_or0 in
  let! moduleName := Str_or in
  let! abilityName := Str_or in
  done_with (call_int (M_ContinueStateCallbackUnRegister missionId bundleName moduleName abilityName)).

(** ** Collaborations *)

(** The members of a collaboration that the stub sets. *)
Definition collab_source (m : CollabMessage) (socketName : option string) : CollabMessage :=
  mkCollabMessage (GetCallingPid caller) (GetCallingUid caller) (i32 (GetCallingTokenID caller)) (msg_deviceId m) (msg_bundleName m) (msg_abilityName m) (msg_moduleName m)
    (msg_serverId m) (default (msg_socketName m) socketName).
Definition collab_info (sessionId : Z) (token : string) (src sink : CollabMessage) (opt : ConnectOpt) (cb : option Z) : DSchedCollabInfo :=
  let d := DSchedCollabInfo_default (e_uninitialised env) in
  mkCollabInfo sessionId (sinkCollabSessionId_ d) (sinkUserId_ d) (srcCollabVersion_ d) (sinkCollabVersion_ d) (srcAppVersion_ d) (collabDirection_ d) token
    (srcUdid_ d) (sinkUdid_ d) (sinkAccountId_ d) (CollabSession.callerInfo_ d) (srcAccountInfo_ d) src sink opt cb (sinkClientCB_ d).

Definition CollabMessage_ReadFromParcel (p : Parcel) : option (CollabMessage * Parcel) :=
  let '(deviceId, p) := ReadString16_or_empty p in
  let '(bundleName, p) := ReadString16_or_empty p in
  let '(moduleName, p) := ReadString16_or_empty p in
  let '(abilityName, p) := ReadString16_or_empty p in
  let '(serverId, p) := ReadString16_or_empty p in
  Some (mkCollabMessage (-1) (-1) (-1) (Str16ToStr8 deviceId) (Str16ToStr8 bundleName) (Str16ToStr8 abilityName) (Str16ToStr8 moduleName) (Str16ToStr8 serverId) "", p).
(** [Marshalling] writes nothing. *)
#[local] Instance CollabMessage_sendable : Sendable CollabMessage := {| Marshalling := fun _ p => Some p; Unmarshalling := CollabMessage_ReadFromParcel |}.
Definition ConnectOpt_ReadFromParcel (p : Parcel) : option (ConnectOpt * Parcel) :=
  let '(needSendBigData, p) := default (false, p) (ReadBool p) in
  let '(needSendStream, p) := default (false, p) (ReadBool p) in
  let '(needRecvStream, p) := default (false, p) (ReadBool p) in
  match ReadParcelable p with
  | (Some startParams, p) =>
      match ReadParcelable p with
      | (Some messageParams, p) => Some (mkConnectOpt needSendBigData needSendStream needRecvStream startParams messageParams, p)
      | (None, _) => None
      end
  | (None, _) => None
  end.
#[local] Instance ConnectOpt_sendable : Sendable ConnectOpt := {| Marshalling := fun _ p => Some p; Unmarshalling := ConnectOpt_ReadFromParcel |}.

Definition GetSinkCollabVersionInner : Handler :=
  let! _ := local_only in
  let! collabSessionId := Int32 in
  let! sinkDeviceId := Str in
  let! collabToken := Str in
  let! sourceClientCallback := nonnull ERR_NULL_OBJECT RemoteObject in
  let sink := mkCollabMessage (-1) (-1) (-1) sinkDeviceId "" "" "" "" "" in
  done_with (with_token (M_GetSinkCollabVersion
    (collab_info collabSessionId collabToken (collab_source CollabMessage_default None) sink ConnectOpt_default (Some sourceClientCallback)))).
Definition CollabMissionInner : Handler :=
  let! _ := local_only in
  let! collabSessionId := Int32 in
  let! srcSocketName := Str in
  let! localInfo := nonnull ERR_NULL_OBJECT (Parcelable CollabMessage) in
  let! peerInfo := nonnull ERR_NULL_OBJECT (Parcelable CollabMessage) in
  let! srcOpt := nonnull ERR_NULL_OBJECT (Parcelable ConnectOpt) in
  let! collabToken := Str in
  done_with (with_token (M_CollabMission (collab_info collabSessionId collabToken (collab_source localInfo (Some srcSocketName)) peerInfo srcOpt None))).
Definition NotifyRejectReason : Handler :=
  let! _ := local_only in
  let! token := Str_or in
  let! reason := Str_or in
  done_with (call_int (M_NotifySinkRejectReason token reason)).
Definition NotifyStartAbilityResultInner : Handler :=
  let! _ := local_only in
  let! collabToken := Str_or in
  let! ret := Int32_or0 in
  let! sinkPid := Int32_or0 in
  let! sinkUid := Int32_or0 in
  let! sinkAccessTokenId := Int32_or0 in
  done_with (call_int (M_NotifyStartAbilityResult collabToken ret sinkPid sinkUid sinkAccessTokenId)).
Definition NotifyCollabPrepareResultInner : Handler :=
  let! _ := local_only in
  let! collabToken := Str_or in
  let! ret := Int32_or0 in
  let! sinkCollabSessionId := Int32_or0 in
  let! sinkSocketName := Str_or in
  let! sinkClientCallback := nonnull ERR_NULL_OBJECT RemoteObject in
  done_with (call_int (M_NotifySinkPrepareResult collabToken ret sinkCollabSessionId sinkSocketName sinkClientCallback)).
Definition NotifyCloseCollabSessionInner : Handler :=
  let! _ := local_only in
  let! tokenId := Str_or in
  done_with (call_int (M_NotifySessionClose tokenId)).

(** ** Missions *)

Definition foundation_or_board : Reader unit := stop_if (negb IsFoundationCall && negb IsSceneBoardCall) DMS_PERMISSION_DENIED.
Definition dev_id : Reader string16 := let! devId := Str16_or in let! _ := stop_if (is_empty16 devId) INVALID_PARAMETERS_ERR in done_with devId.
Definition calling_uid : Reader Z := let! callingUid := Int32_or0 in let! _ := stop_if (callingUid <? 0) ERR_FLATTEN_OBJECT in done_with callingUid.
Definition listener : Reader Z := nonnull ERR_FLATTEN_OBJECT RemoteObject.
Definition listener_type : Reader string := let! type := Str_or in let! _ := stop_if (String.eqb type "") ERR_FLATTEN_OBJECT in done_with type.

Definition GetMissionInfosInner : Handler :=
  let! _ := foundation_or_board in
  let! deviceId := Str16_or in
  let! numMissions := Int32 in
  done_with (fun s =>
    let '(r, s) := serve (GetMissionInfos (Str16ToStr8 deviceId) numMissions) s in
    if r_code r =? ERR_NONE then
      match WriteMissionInfosToParcel (out_missions (r_out r)) Parcel_empty with Some reply => (ERR_NONE, reply, s) | None => (ERR_FLATTEN_OBJECT, Parcel_empty, s) end
    else (r_code r, Parcel_empty, s)).
Definition GetRemoteMissionSnapshotInfoInner : Handler :=
  let! _ := foundation_or_board in
  let! networkId := Str_or in
  let! _ := stop_if (String.eqb networkId "") ERR_FLATTEN_OBJECT in
  let! missionId := Int32 in
  let! _ := stop_if (missionId <? 0) INVALID_PARAMETERS_ERR in
  done_with (fun s =>
    let '(r, s) := serve (GetRemoteMissionSnapshotInfo networkId missionId) s in
    if negb (r_code r =? ERR_NONE) then (ERR_NULL_OBJECT, Parcel_empty, s)
    else match r_out r with
    | O_snapshot m =>
        match WriteParcelable m Parcel_empty with
        | None => (ERR_FLATTEN_OBJECT, Parcel_empty, s)
        | Some reply =>
            let uuid := e_GetUuidByNetworkId env networkId in
            if String.eqb uuid "" then (ERR_NULL_OBJECT, reply, s)
            else (ERR_NONE, reply, snd (serve (M_EnqueueCachedSnapshotInfo uuid missionId (ConvertToSnapshot m)) s))
        end
    | _ => (ERR_NULL_OBJECT, Parcel_empty, s)
    end).
Definition RegisterMissionListenerInner : Handler :=
  let! _ := foundation in
  let! devId := dev_id in
  let! missionChangedListener := listener in
  let! callingUid := calling_uid in
  done_with (call_int (RegisterMissionListener devId (Some missionChangedListener) callingUid)).
Definition UnRegisterMissionListenerInner : Handler :=
  let! _ := foundation in
  let! devId := dev_id in
  let! missionChangedListener := listener in
  done_with (call_int (UnRegisterMissionListener devId (Some missionChangedListener))).
(** [static_cast<DSchedEventType>]: the number itself. *)
Definition RegisterDSchedEventListenerInner : Handler :=
  let! _ := system_uid in
  let! type := Uint8_or0 in
  let! dSchedEventListener := listener in
  done_with (call_int (RegisterDSchedEventListener type (Some dSchedEventListener))).
Definition UnRegisterDSchedEventListenerInner : Handler :=
  let! _ := system_uid in
  let! type := Uint8_or0 in
  let! dSchedEventListener := listener in
  done_with (call_int (UnRegisterDSchedEventListener type (Some dSchedEventListener))).
Definition GetContinueInfoInner : Handler :=
  done_with (fun s =>
    let '(r, s) := serve GetContinueInfo s in
    let '(dst, src) := out_networks (r_out r) in
    let '(code, reply, s) := replies [IStr dst; IStr src] s in
    (if code =? ERR_NONE then r_code r else code, reply, s)).
Definition encoded_event (e : EventNotify) : list Item :=
  [IInt (eventResult_ e); IStr (srcNetworkId_ e); IStr (dstNetworkId_ e); IStr (srcBundleName_ e); IStr (srcModuleName_ e); IStr (srcAbilityName_ e);
   IStr (destBundleName_ e); IStr (destModuleName_ e); IStr (destAbilityName_ e); IInt (dSchedEventType_ e); IInt (state_ e)].
(** Writes values until one fails. *)
Definition write_items (l : list Item) (p : Parcel) : option Parcel := foldl (fun p x => p ← p; Write x p) (Some p) l.
Definition GetEncodeDSchedEventNotify (e : EventNotify) (p : Parcel) : option Parcel := write_items (encoded_event e) p.
Definition GetDSchedEventInfoInner : Handler :=
  let! type := Int32_or0 in
  done_with (fun s =>
    let '(r, s) := serve (GetDSchedEventInfo type) s in
    let events := out_events (r_out r) in
    match write_items [IInt (r_code r); IInt (i32 (u32 (len events)))] Parcel_empty with
    | None => (ERR_FLATTEN_OBJECT, Parcel_empty, s)
    | Some p =>
        match events with
        | [] => (r_code r, p, s)
        | _ => match foldl (fun p e => p ← p; GetEncodeDSchedEventNotify e p) (Some p) events with
            | Some p => (ERR_OK, p, s)
            | None => (DMS_WRITE_FILE_FAILED_ERR, p, s)
            end
        end
    end).
Definition RegisterOnListenerInner : Handler :=
  let! _ := foundation in
  let! type := listener_type in
  let! onListener := listener in
  let! callingUid := calling_uid in
  done_with (call_int (RegisterOnListener type (Some onListener) callingUid)).
Definition RegisterOffListenerInner : Handler :=
  let! _ := foundation in
  let! type := listener_type in
  let! onListener := listener in
  let! callingUid := calling_uid in
  done_with (call_int (RegisterOffListener type (Some onListener) callingUid)).
(** A message that is refused and a service that fails give the same code. *)
Definition StartSyncMissionsFromRemoteInner : Handler :=
  let! _ := system_uid in
  let! callerInfo := CallerInfoUnmarshalling in
  done_with (fun s =>
    let '(r, s) := serve (StartSyncMissionsFromRemote callerInfo) s in
    if negb (r_code r =? ERR_NONE) then (ERR_FLATTEN_OBJECT, Parcel_empty, s)
    else match (p ← Write (IInt VERSION) Parcel_empty; WriteDstbMissionInfosToParcel (out_dstb (r_out r)) p) with
    | Some reply => (ERR_NONE, reply, s)
    | None => (ERR_FLATTEN_OBJECT, Parcel_empty, s)
    end).
Definition StopSyncRemoteMissionsInner : Handler :=
  let! _ := foundation in
  let! devId := dev_id in
  let! callingUid := calling_uid in
  done_with (call_int (StopSyncRemoteMissions (Str16ToStr8 devId) callingUid)).
Definition StopSyncMissionsFromRemoteInner : Handler :=
  let! _ := system_uid in
  let! callerInfo := CallerInfoUnmarshalling in
  done_with (call_int (StopSyncMissionsFromRemote callerInfo)).
Definition NotifyMissionsChangedFromRemoteInner : Handler :=
  let! _ := system_uid in
  let! version := Int32_or0 in
  let! missionInfos := need ReadDstbMissionInfosFromParcel in
  let! sourceDeviceId := Str_or in
  let! uid := Int32_or0 in
  let! pid := Int32_or0 in
  let! dmsVersion := Int32_or0 in
  done_with (call_int (NotifyMissionsChangedFromRemote missionInfos (mkCallerInfo uid pid CALLER_TYPE_NONE sourceDeviceId (-1) "" [] dmsVersion 0 JNull))).
Definition StartSyncRemoteMissionsInner : Handler :=
  let! _ := foundation in
  let! devId := dev_id in
  let! fixConflict := Bool_or in
  let! tag := Int64_or0 in
  let! callingUid := calling_uid in
  done_with (call_int (StartSyncRemoteMissions (Str16ToStr8 devId) fixConflict tag callingUid)).
Definition SetMissionContinueStateInner : Handler :=
  let! _ := stop_if (negb CheckCallingUid && negb IsSceneBoardCall) DMS_PERMISSION_DENIED in
  let! missionId := Int32 in
  let! state := Int32 in
  let! callingUid := Int32 in
  done_with (call_int (SetMissionContinueState missionId state callingUid)).

(** ** Forms, components and free installs *)

(** The code of a refusal is in the reply; the function returns [ERR_NONE]. *)
Definition StartRemoteShareFormInner : Handler :=
  let! _ := foundation in
  let! deviceId := Str in
  let! formShareInfo := Parcelable FormShareInfo in
  done_with (match formShareInfo with None => reply_int ERR_FLATTEN_OBJECT | Some i => call_int (StartRemoteShareForm deviceId i) end).
Definition StartShareFormFromRemoteInner : Handler :=
  if negb CheckCallingUid then done_with (reply_int DMS_PERMISSION_DENIED)
  else
    let! deviceId := Str in
    let! formShareInfo := Parcelable FormShareInfo in
    done_with (match formShareInfo with None => reply_int ERR_FLATTEN_OBJECT | Some i => call_int (StartShareFormFromRemote deviceId i) end).
Definition GetDistributedComponentListInner : Handler :=
  let! _ := system_uid in
  done_with (fun s => let '(r, s) := serve GetDistributedComponentList s in replies [IInt (r_code r); IStrVec (out_texts (r_out r))] s).
Definition StartRemoteFreeInstallInner : Handler :=
  let! _ := foundation in
  let! want := local_want in
  let! callerUid := Int32 in
  let! requestCode := Int32 in
  let! accessToken := Uint32 in
  let! callback := nonnull ERR_NULL_OBJECT RemoteObject in
  done_with (call_int (StartRemoteFreeInstall want callerUid requestCode accessToken (Some callback))).
Definition ReadDataForFreeInstall : Reader (CallerInfo * AccountInfo * Z) :=
  let! uid := Int32 in
  let! sourceDeviceId := Str in
  let! accountType := Int32_or0 in
  let! groupIdList := StringVector in
  let! callerAppId := Str_or in
  let! taskId := Int64 in
  done_with (mkCallerInfo uid (-1) CALLER_TYPE_HARMONY sourceDeviceId (-1) callerAppId [] (-1) 0 JNull, mkAccountInfo accountType groupIdList "" (-1), taskId).
(** The want gets the identity of the caller and the names of its bundles. *)
Definition install_want (want cmpWant : Want) (c : CallerInfo) : Want :=
  let w := SetParamString (RemoveParam want PARAM_FREEINSTALL_APPID) PARAM_FREEINSTALL_APPID (caller_callerAppId c) in
  Want_SetStringArrayParam (RemoveParam w PARAM_FREEINSTALL_BUNDLENAMES) PARAM_FREEINSTALL_BUNDLENAMES (Want_GetStringArrayParam cmpWant CMPT_PARAM_FREEINSTALL_BUNDLENAMES).
Definition StartFreeInstallFromRemoteInner : Handler :=
  let! _ := system_uid in
  let! want := remote_want in
  let! x := ReadDataForFreeInstall in
  let '(callerInfo, accountInfo, taskId) := x in
  let! cmpWant := DistributedWant_ReadParcelable in
  let! extraInfo := Str_or in
  let '(requestCode, callerInfo, accountInfo) := CreateJsonObject extraInfo callerInfo accountInfo in
  match cmpWant with
  | None => stop ERR_NULL_OBJECT
  | Some cmpWant =>
      let info := mkFreeInstallInfo (install_want want (RemoveRemoteObjectFromWant cmpWant) callerInfo) requestCode callerInfo accountInfo in
      done_with (fun s => let '(r, s) := serve (StartFreeInstallFromRemote info taskId) s in replies [IInt (r_code r); INum W64 (e_elapsed env)] s)
  end.
Definition NotifyCompleteFreeInstallFromRemoteInner : Handler :=
  let! _ := system_uid in
  let! taskId := Int64 in
  let! resultCode := Int32 in
  done_with (call_int (NotifyCompleteFreeInstallFromRemote taskId resultCode)).

(** ** The tables *)

Definition ExtendedLocalFuncs (c : Code) : option Handler :=
  match c with
  | REGISTER_DSCHED_EVENT_LISTENER => Some RegisterDSchedEventListenerInner
  | UNREGISTER_DSCHED_EVENT_LISTENER => Some UnRegisterDSchedEventListenerInner
  | GET_CONTINUE_INFO => Some GetContinueInfoInner
  | GET_DSCHED_EVENT_INFO => Some GetDSchedEventInfoInner
  | _ => None
  end.
Definition LocalMissionManager (c : Code) : option Handler :=
  match c with
  | GET_REMOTE_MISSION_SNAPSHOT_INFO => Some GetRemoteMissionSnapshotInfoInner
  | REGISTER_MISSION_LISTENER => Some RegisterMissionListenerInner
  | REGISTER_ON_LISTENER => Some RegisterOnListenerInner
  | REGISTER_OFF_LISTENER => Some RegisterOffListenerInner
  | UNREGISTER_MISSION_LISTENER => Some UnRegisterMissionListenerInner
  | GET_MISSION_INFOS => Some GetMissionInfosInner
  | START_SYNC_MISSIONS => Some StartSyncRemoteMissionsInner
  | STOP_SYNC_MISSIONS => Some StopSyncRemoteMissionsInner
  | SET_MISSION_CONTINUE_STATE => Some SetMissionContinueStateInner
  | CONTINUE_STATE_CALLBACK_REGISTER => Some ContinueStateCallbackRegister
  | CONTINUE_STATE_CALLBACK_UNREGISTER => Some ContinueStateCallbackUnRegister
  | _ => None
  end.
Definition LocalFuncs (c : Code) : option Handler :=
  match c with
  | START_REMOTE_ABILITY => Some StartRemoteAbilityInner
  | CONTINUE_MISSION => Some ContinueMissionInner
  | CONTINUE_MISSION_OF_BUNDLENAME => Some ContinueMissionOfBundleNameInner
  | START_CONTINUATION => Some StartContinuationInner
  | NOTIFY_COMPLETE_CONTINUATION => Some NotifyCompleteContinuationInner
  | CONNECT_REMOTE_ABILITY => Some ConnectRemoteAbilityInner
  | DISCONNECT_REMOTE_ABILITY => Some DisconnectRemoteAbilityInner
  | START_REMOTE_ABILITY_BY_CALL => Some StartRemoteAbilityByCallInner
  | RELEASE_REMOTE_ABILITY => Some ReleaseRemoteAbilityInner
  | START_REMOTE_SHARE_FORM => if FORM_SHARE build then Some StartRemoteShareFormInner else None
  | GET_DISTRIBUTED_COMPONENT_LIST => Some GetDistributedComponentListInner
  | START_REMOTE_FREE_INSTALL => Some StartRemoteFreeInstallInner
  | STOP_REMOTE_EXTERNSION_ABILITY => Some StopRemoteExtensionAbilityInner
  | GET_SINK_COLLAB_VERSION => Some GetSinkCollabVersionInner
  | COLLAB_MISSION => Some CollabMissionInner
  | NOTIFY_REJECT_REASON => Some NotifyRejectReason
  | NOTIFY_START_ABILITY_RESULT => Some NotifyStartAbilityResultInner
  | NOTIFY_COLLAB_PREPARE_RESULT => Some NotifyCollabPrepareResultInner
  | NOTIFY_CLOSE_COLLAB_SESSION => Some NotifyCloseCollabSessionInner
  | _ => None
  end.
(** The functions of missions are built in by a switch. *)
Definition localFuncsMap_ (c : Code) : option Handler :=
  match LocalFuncs c with
  | Some h => Some h
  | None => if MISSION_MANAGER build then match ExtendedLocalFuncs c with Some h => Some h | None => LocalMissionManager c end else None
  end.
Definition remoteFuncsMap_ (c : Code) : option Handler :=
  match c with
  | START_ABILITY_FROM_REMOTE => Some StartAbilityFromRemoteInner
  | STOP_ABILITY_FROM_REMOTE => Some StopAbilityFromRemoteInner
  | SEND_RESULT_FROM_REMOTE => Some SendResultFromRemoteInner
  | NOTIFY_CONTINUATION_RESULT_FROM_REMOTE => Some NotifyContinuationResultFromRemoteInner
  | NOTIFY_DSCHED_EVENT_RESULT_FROM_REMOTE => Some NotifyDSchedEventResultFromRemoteInner
  | CONNECT_ABILITY_FROM_REMOTE => Some ConnectAbilityFromRemoteInner
  | DISCONNECT_ABILITY_FROM_REMOTE => Some DisconnectAbilityFromRemoteInner
  | NOTIFY_PROCESS_DIED_FROM_REMOTE => Some NotifyProcessDiedFromRemoteInner
  | START_SYNC_MISSIONS_FROM_REMOTE => if MISSION_MANAGER build then Some StartSyncMissionsFromRemoteInner else None
  | STOP_SYNC_MISSIONS_FROM_REMOTE => if MISSION_MANAGER build then Some StopSyncMissionsFromRemoteInner else None
  | NOTIFY_MISSIONS_CHANGED_FROM_REMOTE => if MISSION_MANAGER build then Some NotifyMissionsChangedFromRemoteInner else None
  | CONTINUE_MISSION => Some ContinueMissionInner
  | CONTINUE_MISSION_OF_BUNDLENAME => Some ContinueMissionOfBundleNameInner
  | START_ABILITY_BY_CALL_FROM_REMOTE => Some StartAbilityByCallFromRemoteInner
  | RELEASE_ABILITY_FROM_REMOTE => Some ReleaseAbilityFromRemoteInner
  | NOTIFY_STATE_CHANGED_FROM_REMOTE => Some NotifyStateChangedFromRemoteInner
  | NOTIFY_ABILITY_LIFECYCLE_CHANGED_FROM_REMOTE => if INTERACTIVE_ADAPTER build then Some NotifyAbilityLifecycleChangedFromRemoteAdapterInner else None
  | START_SHARE_FORM_FROM_REMOTE => if FORM_SHARE build then Some StartShareFormFromRemoteInner else None
  | START_FREE_INSTALL_FROM_REMOTE => Some StartFreeInstallFromRemoteInner
  | NOTIFY_COMPLETE_FREE_INSTALL_FROM_REMOTE => Some NotifyCompleteFreeInstallFromRemoteInner
  | STOP_EXTERNSION_ABILITY_FROM_REMOTE => Some StopExtensionAbilityFromRemoteInner
  | _ => None
  end.
Definition funcsMap (n : Z) : option Handler := c ← code_of n; if IsLocalCalling caller then localFuncsMap_ c else remoteFuncsMap_ c.

Definition EnforceInterfaceToken (data : Parcel) : option Parcel :=
  match ReadInterfaceToken data with Some (t, data) => if String.eqb t DMS_STUB_INTERFACE_TOKEN then Some data else None | None => None end.

(** [None]: the request never ends. *)
Definition OnRemoteRequest (fuel : nat) (code : Z) (data : Parcel) (s : St) : option (Z * Parcel * St) :=
  match funcsMap code with
  | None => Some (e_unknown env code, Parcel_empty, s)
  | Some func =>
      match EnforceInterfaceToken data with
      | None => Some (DMS_PERMISSION_DENIED, Parcel_empty, s)
      | Some data =>
          match func fuel data with
          | Go act _ => Some (act s)
          | Stop c => Some (c, Parcel_empty, s)
          | Endless => None
          end
      end
  end.
End Stub.

(** ** The proxy *)

Section Proxy.
Variable St : Type.
(** The request of the IPC library: the code, the reply and the new state; [None] when there
    is never an answer. *)
Variable SendRequest : Z -> Parcel -> St -> option (Z * Parcel * St).
(** Whether there is a remote object. *)
Variable remote : bool.

Inductive Ran := Returned (r : Ret) (s : St) | Raised | Hangs.

(** A message with the name of the interface. *)
Definition request (w : Writer) : Writing := then_write (w_item (IToken DMS_PROXY_INTERFACE_TOKEN)) w Parcel_empty.
(** Writes and sends a message; [decode] reads the reply, [failed] is the result for a code
    of a failure. *)
Definition transact_as (failed : Z -> Ret) (decode : Parcel -> Ret) (code : Code) (w : Writer) (s : St) : Ran :=
  match request w with
  | Failed c => Returned (failed c) s
  | Thrown => Raised
  | Wrote data =>
      match SendRequest (code_number code) data s with
      | None => Hangs
      | Some (error, reply, s) => if negb (error =? ERR_NONE) then Returned (failed error) s else Returned (decode reply) s
      end
  end.
Definition read_result (reply : Parcel) : Ret := ret (fst (ReadInt32_or0 reply)).
(** [PARCEL_TRANSACT_SYNC_RET_INT]. *)
Definition transact : Code -> Writer -> St -> Ran := transact_as ret read_result.
(** Without a remote object, or with an object that is null. *)
Definition with_remote (k : St -> Ran) (s : St) : Ran := if remote then k s else Returned (ret ERR_NULL_OBJECT) s.
Definition with_object (o : option Z) (k : Z -> St -> Ran) (s : St) : Ran := match o with Some o => with_remote (k o) s | None => Returned (ret ERR_NULL_OBJECT) s end.
(** [WriteRemoteObject] of a pointer that was not tested; the library writes no null pointer. *)
Definition w_remote (o : option Z) : Writer := match o with Some o => w_object o | None => fun _ => Failed ERR_FLATTEN_OBJECT end.
(** [DistributedWant dstbWant(want)] and its [Marshalling]. *)
Definition w_distributed (w : DistributedWant) : Writer := fun p => match (p ← Write IMark p; Want_Marshalling w p) with Some p => Wrote p | None => Failed ERR_FLATTEN_OBJECT end.
Definition distributed (want : Want) : DistributedWant := Want_of want_GetDataType (want_view want).
Definition w_want (want : Want) : Writer := w_parcelable want.
Definition w_dwant (want : Want) : Writer := w_distributed (distributed want).

Definition Proxy_StartRemoteAbility (want : Want) (callerUid requestCode accessToken : Z) : St -> Ran :=
  with_remote (transact START_REMOTE_ABILITY (write_all [w_want want; w_int callerUid; w_int requestCode; w_uint accessToken])).
Definition Proxy_StartAbilityFromRemote (want : Want) (abilityInfo : AbilityInfo) (requestCode : Z) (c : CallerInfo) (a : AccountInfo) : St -> Ran :=
  with_remote (transact START_ABILITY_FROM_REMOTE (write_all
    [w_dwant want; w_parcelable (ConvertToCompatiableAbilityInfo abilityInfo); w_int requestCode; w_int (caller_uid c); w_str (caller_sourceDeviceId c);
     w_int (account_accountType a); w_strs (account_groupIdList a); w_str (caller_callerAppId c); w_json (start_extra c a)])).
Definition Proxy_SendResultFromRemote (want : Want) (requestCode : Z) (c : CallerInfo) (a : AccountInfo) (resultCode : Z) : St -> Ran :=
  with_remote (transact SEND_RESULT_FROM_REMOTE (write_all
    [w_dwant want; w_int requestCode; w_int (caller_uid c); w_str (caller_sourceDeviceId c); w_int (account_accountType a); w_strs (account_groupIdList a);
     w_str (caller_callerAppId c); w_int resultCode; result_extra c a])).
Definition Proxy_ContinueMission (srcDeviceId dstDeviceId : string) (missionId : Z) (callback : option Z) (wantParams : WantParams) : St -> Ran :=
  with_object callback (fun o => transact CONTINUE_MISSION (write_all [w_str srcDeviceId; w_str dstDeviceId; w_int missionId; w_object o; w_parcelable wantParams])).
Definition Proxy_ContinueMissionOfBundleName (srcDeviceId dstDeviceId bundleName : string) (callback : option Z) (wantParams : WantParams) : St -> Ran :=
  with_object callback (fun o => transact CONTINUE_MISSION_OF_BUNDLENAME (write_all [w_str srcDeviceId; w_str dstDeviceId; w_str bundleName; w_object o; w_parcelable wantParams])).
Definition Proxy_StartContinuation (want : Want) (missionId callerUid status accessToken : Z) : St -> Ran :=
  with_remote (transact START_CONTINUATION (write_all [w_want want; w_int missionId; w_int callerUid; w_int status; w_uint accessToken])).
(** The function returns nothing. *)
Definition Proxy_NotifyCompleteContinuation (devId : string16) (sessionId : Z) (isSuccess : bool) (s : St) : Ran :=
  if remote then transact_as (fun _ => ret 0) (fun _ => ret 0) NOTIFY_COMPLETE_CONTINUATION (write_all [w_str16 devId; w_int sessionId; w_bool isSuccess]) s
  else Returned (ret 0) s.
Definition Proxy_NotifyDSchedEventResultFromRemote (type : string) (dSchedEventResult : Z) : St -> Ran :=
  with_remote (transact NOTIFY_DSCHED_EVENT_RESULT_FROM_REMOTE (write_all [w_str type; w_int dSchedEventResult])).
Definition Proxy_NotifyContinuationResultFromRemote (sessionId : Z) (isSuccess : bool) (dstInfo : string) : St -> Ran :=
  with_remote (transact NOTIFY_CONTINUATION_RESULT_FROM_REMOTE (write_all [w_int sessionId; w_bool isSuccess; w_str dstInfo])).
Definition Proxy_ConnectRemoteAbility (want : Want) (connect : option Z) (callerUid callerPid accessToken : Z) : St -> Ran :=
  with_object connect (fun o => transact CONNECT_REMOTE_ABILITY (write_all [w_want want; w_object o; w_int callerUid; w_int callerPid; w_uint accessToken])).
Definition Proxy_DisconnectRemoteAbility (connect : option Z) (callerUid accessToken : Z) : St -> Ran :=
  with_object connect (fun o => transact DISCONNECT_REMOTE_ABILITY (write_all [w_object o; w_int callerUid; w_uint accessToken])).
Definition Proxy_ConnectAbilityFromRemote (want : Want) (abilityInfo : AbilityInfo) (connect : option Z) (c : CallerInfo) (a : AccountInfo) : St -> Ran :=
  with_object connect (fun o => transact CONNECT_ABILITY_FROM_REMOTE (write_all
    [w_dwant want; w_parcelable (ConvertToCompatiableAbilityInfo abilityInfo); w_object o; w_int (caller_uid c); w_int (caller_pid c); w_str (caller_sourceDeviceId c);
     w_int (account_accountType a); w_strs (account_groupIdList a); w_str (caller_callerAppId c); w_json (start_extra c a)])).
Definition Proxy_DisconnectAbilityFromRemote (connect : option Z) (uid : Z) (sourceDeviceId : string) : St -> Ran :=
  with_object connect (fun o => transact DISCONNECT_ABILITY_FROM_REMOTE (write_all [w_object o; w_int uid; w_str sourceDeviceId])).
Definition Proxy_NotifyProcessDiedFromRemote (c : CallerInfo) : St -> Ran :=
  with_remote (transact NOTIFY_PROCESS_DIED_FROM_REMOTE (write_all [w_int (caller_uid c); w_int (caller_pid c); w_str (caller_sourceDeviceId c)])).
Definition Proxy_StartSyncRemoteMissions (devId : string) (fixConflict : bool) (tag callingUid : Z) : St -> Ran :=
  with_remote (transact START_SYNC_MISSIONS (write_all [w_str16 (Str8ToStr16 devId); w_bool fixConflict; w_long tag; w_int callingUid])).
Definition Proxy_StartSyncMissionsFromRemote (c : CallerInfo) : St -> Ran :=
  with_remote (transact_as ret (fun reply =>
    let '(version, reply) := ReadInt32_or0 reply in
    match ReadDstbMissionInfosFromParcel reply with Some (l, _) => mkRet ERR_NONE (O_dstb l) | None => ret ERR_FLATTEN_OBJECT end)
    START_SYNC_MISSIONS_FROM_REMOTE (CallerInfoMarshalling c)).
Definition Proxy_StopSyncRemoteMissions (devId : string) (callingUid : Z) : St -> Ran :=
  with_remote (transact STOP_SYNC_MISSIONS (write_all [w_str16 (Str8ToStr16 devId); w_int callingUid])).
Definition Proxy_StopSyncMissionsFromRemote (c : CallerInfo) : St -> Ran := with_remote (transact STOP_SYNC_MISSIONS_FROM_REMOTE (CallerInfoMarshalling c)).
Definition Proxy_RegisterMissionListener (devId : string16) (obj : option Z) (callingUid : Z) : St -> Ran :=
  with_remote (transact REGISTER_MISSION_LISTENER (write_all [w_str16 devId; w_remote obj; w_int callingUid])).
Definition Proxy_RegisterDSchedEventListener (type : Z) (obj : option Z) : St -> Ran :=
  with_remote (transact REGISTER_DSCHED_EVENT_LISTENER (write_all [w_byte (u8 type); w_remote obj])).
Definition Proxy_UnRegisterDSchedEventListener (type : Z) (obj : option Z) : St -> Ran :=
  with_remote (transact UNREGISTER_DSCHED_EVENT_LISTENER (write_all [w_byte (u8 type); w_remote obj])).
Definition Proxy_RegisterOnListener (type : string) (obj : option Z) (callingUid : Z) : St -> Ran :=
  with_remote (transact REGISTER_ON_LISTENER (write_all [w_str type; w_remote obj; w_int callingUid])).
Definition Proxy_RegisterOffListener (type : string) (obj : option Z) (callingUid : Z) : St -> Ran :=
  with_remote (transact REGISTER_OFF_LISTENER (write_all [w_str type; w_remote obj; w_int callingUid])).
Definition Proxy_UnRegisterMissionListener (devId : string16) (obj : option Z) : St -> Ran :=
  with_remote (transact UNREGISTER_MISSION_LISTENER (write_all [w_str16 devId; w_remote obj])).
Definition Proxy_GetMissionInfos (deviceId : string) (numMissions : Z) : St -> Ran :=
  with_remote (transact_as ret (fun reply =>
    match ReadMissionInfosFromParcel reply with Some (l, _) => mkRet ERR_NONE (O_missions l) | None => ret ERR_FLATTEN_OBJECT end)
    GET_MISSION_INFOS (write_all [w_str16 (Str8ToStr16 deviceId); w_int numMissions])).
Definition Proxy_NotifyMissionsChangedFromRemote (missionInfos : list DstbMissionInfo) (c : CallerInfo) : St -> Ran :=
  with_remote (transact NOTIFY_MISSIONS_CHANGED_FROM_REMOTE (write_all
    [w_int (caller_dmsVersion c); (fun p => match WriteDstbMissionInfosToParcel missionInfos p with Some p => Wrote p | None => Failed ERR_FLATTEN_OBJECT end);
     w_str (caller_sourceDeviceId c); w_int (caller_uid c); w_int (caller_pid c); w_int (caller_dmsVersion c)])).
(** The snapshot that is read may be a null pointer. *)
Definition Proxy_GetRemoteMissionSnapshotInfo (networkId : string) (missionId : Z) (s : St) : Ran :=
  if String.eqb networkId "" then Returned (ret ERR_NULL_OBJECT) s
  else if missionId <? 0 then Returned (ret INVALID_PARAMETERS_ERR) s
  else with_remote (transact_as ret (fun reply => mkRet ERR_NONE (match fst (ReadParcelable reply) with Some m => O_snapshot m | None => O_none end))
    GET_REMOTE_MISSION_SNAPSHOT_INFO (write_all [w_str networkId; w_int missionId])) s.
Definition Proxy_SetMissionContinueState (missionId state callingUid : Z) : St -> Ran :=
  with_remote (transact SET_MISSION_CONTINUE_STATE (write_all [w_int missionId; w_int state; w_int callingUid])).
Definition Proxy_StartRemoteAbilityByCall (want : Want) (connect : option Z) (callerUid callerPid accessToken : Z) : St -> Ran :=
  with_object connect (fun o => transact START_REMOTE_ABILITY_BY_CALL (write_all [w_want want; w_object o; w_int callerUid; w_int callerPid; w_uint accessToken])).
Definition Proxy_ReleaseRemoteAbility (connect : option Z) (element : Element) : St -> Ran :=
  with_object connect (fun o => transact RELEASE_REMOTE_ABILITY (write_all [w_object o; w_parcelable_or ERR_INVALID_VALUE element])).
Definition Proxy_StartAbilityByCallFromRemote (want : Want) (connect : option Z) (c : CallerInfo) (a : AccountInfo) : St -> Ran :=
  with_object connect (fun o => transact START_ABILITY_BY_CALL_FROM_REMOTE (write_all
    [w_object o; w_int (caller_uid c); w_int (caller_pid c); w_str (caller_sourceDeviceId c); w_int (account_accountType a); w_strs (account_groupIdList a);
     w_str (caller_callerAppId c); w_json (call_extra c a); w_dwant want])).
Definition Proxy_ReleaseAbilityFromRemote (connect : option Z) (element : Element) (c : CallerInfo) : St -> Ran :=
  with_object connect (fun o => transact RELEASE_ABILITY_FROM_REMOTE (write_all
    [w_object o; w_parcelable_or ERR_INVALID_VALUE element; w_str (caller_sourceDeviceId c); w_str ""])).
Definition Proxy_StartRemoteFreeInstall (want : Want) (callerUid requestCode accessToken : Z) (callback : option Z) : St -> Ran :=
  with_object callback (fun o => transact START_REMOTE_FREE_INSTALL (write_all [w_want want; w_int callerUid; w_int requestCode; w_uint accessToken; w_object o])).
(** The names of the bundles of the caller travel as a parameter of a second want. *)
Definition install_names (c : CallerInfo) : DistributedWant := SetStrings CMPT_PARAM_FREEINSTALL_BUNDLENAMES (caller_bundleNames c) DistWant.Want_new.
Definition Proxy_StartFreeInstallFromRemote (info : FreeInstallInfo) (taskId : Z) : St -> Ran :=
  let c := fi_callerInfo info in
  let a := fi_accountInfo info in
  with_remote (transact START_FREE_INSTALL_FROM_REMOTE (write_all
    [w_dwant (fi_want info); w_int (caller_uid c); w_str (caller_sourceDeviceId c); w_int (account_accountType a); w_strs (account_groupIdList a);
     w_str (caller_callerAppId c); w_long taskId; w_distributed (install_names c); w_json (install_extra c (fi_requestCode info))])).
Definition Proxy_NotifyCompleteFreeInstallFromRemote (taskId resultCode : Z) : St -> Ran :=
  with_remote (transact NOTIFY_COMPLETE_FREE_INSTALL_FROM_REMOTE (write_all [w_long taskId; w_int resultCode])).
Definition share_form (code : Code) (deviceId : string) (formShareInfo : FormShareInfo) (s : St) : Ran :=
  if String.eqb deviceId "" then Returned (ret INVALID_PARAMETERS_ERR) s
  else if negb remote then Returned (ret DMSPROXY_SERVICE_ERR) s
  else transact code (write_all [w_str deviceId; w_parcelable formShareInfo]) s.
Definition Proxy_StartRemoteShareForm : string -> FormShareInfo -> St -> Ran := share_form START_REMOTE_SHARE_FORM.
Definition Proxy_StartShareFormFromRemote : string -> FormShareInfo -> St -> Ran := share_form START_SHARE_FORM_FROM_REMOTE.
Definition Proxy_NotifyStateChangedFromRemote (abilityState connectToken : Z) (element : Element) : St -> Ran :=
  with_remote (transact NOTIFY_STATE_CHANGED_FROM_REMOTE (write_all [w_int abilityState; w_int connectToken; w_parcelable_or ERR_INVALID_VALUE element])).
Definition Proxy_GetDistributedComponentList : St -> Ran :=
  with_remote (transact_as ret (fun reply =>
    let '(result, reply) := ReadInt32_or0 reply in
    if negb (result =? ERR_NONE) then ret result
    else match ReadStringVector reply with Some (l, _) => mkRet ERR_NONE (O_texts l) | None => ret ERR_FLATTEN_OBJECT end)
    GET_DISTRIBUTED_COMPONENT_LIST wnone).
Definition Proxy_StopRemoteExtensionAbility (want : Want) (callerUid accessToken extensionType : Z) : St -> Ran :=
  with_remote (transact STOP_REMOTE_EXTERNSION_ABILITY (write_all [w_want want; w_int callerUid; w_uint accessToken; w_int extensionType])).
Definition Proxy_StopExtensionAbilityFromRemote (want : Want) (c : CallerInfo) (a : AccountInfo) (extensionType : Z) : St -> Ran :=
  with_remote (transact STOP_EXTERNSION_ABILITY_FROM_REMOTE (write_all
    [w_dwant want; w_int extensionType; w_int (caller_uid c); w_str (caller_sourceDeviceId c); w_int (account_accountType a); w_strs (account_groupIdList a);
     w_str (caller_callerAppId c); w_json (stop_extra c a)])).

(** The methods of IDistributedSched on the proxy; those that it does not override return 0. *)
Definition Proxy_call (c : Call) : St -> Ran :=
  match c with
  | StartRemoteAbility want callerUid requestCode accessToken => Proxy_StartRemoteAbility want callerUid requestCode accessToken
  | StartAbilityFromRemote want abilityInfo requestCode callerInfo accountInfo => Proxy_StartAbilityFromRemote want abilityInfo requestCode callerInfo accountInfo
  | SendResultFromRemote want requestCode callerInfo _ accountInfo resultCode => Proxy_SendResultFromRemote want requestCode callerInfo accountInfo resultCode
  | ContinueMission src dst missionId callback wantParams => Proxy_ContinueMission src dst missionId callback wantParams
  | ContinueMissionOfBundleName src dst bundleName callback wantParams => Proxy_ContinueMissionOfBundleName src dst bundleName callback wantParams
  | StartContinuation want missionId callerUid status accessToken => Proxy_StartContinuation want missionId callerUid status accessToken
  | NotifyCompleteContinuation devId sessionId isSuccess => Proxy_NotifyCompleteContinuation devId sessionId isSuccess
  | NotifyContinuationResultFromRemote sessionId isSuccess dstInfo => Proxy_NotifyContinuationResultFromRemote sessionId isSuccess dstInfo
  | NotifyDSchedEventResultFromRemote type result => Proxy_NotifyDSchedEventResultFromRemote type result
  | ConnectRemoteAbility want connect callerUid callerPid accessToken => Proxy_ConnectRemoteAbility want connect callerUid callerPid accessToken
  | DisconnectRemoteAbility connect callerUid accessToken => Proxy_DisconnectRemoteAbility connect callerUid accessToken
  | ConnectAbilityFromRemote want abilityInfo connect callerInfo accountInfo => Proxy_ConnectAbilityFromRemote want abilityInfo connect callerInfo accountInfo
  | DisconnectAbilityFromRemote connect uid sourceDeviceId => Proxy_DisconnectAbilityFromRemote connect uid sourceDeviceId
  | NotifyProcessDiedFromRemote callerInfo => Proxy_NotifyProcessDiedFromRemote callerInfo
  | RegisterDSchedEventListener type obj => Proxy_RegisterDSchedEventListener type obj
  | UnRegisterDSchedEventListener type obj => Proxy_UnRegisterDSchedEventListener type obj
  | StartSyncRemoteMissions devId fixConflict tag callingUid => Proxy_StartSyncRemoteMissions devId fixConflict tag callingUid
  | StartSyncMissionsFromRemote callerInfo => Proxy_StartSyncMissionsFromRemote callerInfo
  | StopSyncRemoteMissions devId callingUid => Proxy_StopSyncRemoteMissions devId callingUid
  | StopSyncMissionsFromRemote callerInfo => Proxy_StopSyncMissionsFromRemote callerInfo
  | RegisterMissionListener devId obj callingUid => Proxy_RegisterMissionListener devId obj callingUid
  | RegisterOnListener type obj callingUid => Proxy_RegisterOnListener type obj callingUid
  | RegisterOffListener type obj callingUid => Proxy_RegisterOffListener type obj callingUid
  | UnRegisterMissionListener devId obj => Proxy_UnRegisterMissionListener devId obj
  | GetMissionInfos deviceId numMissions => Proxy_GetMissionInfos deviceId numMissions
  | GetRemoteMissionSnapshotInfo networkId missionId => Proxy_GetRemoteMissionSnapshotInfo networkId missionId
  | NotifyMissionsChangedFromRemote missionInfos callerInfo => Proxy_NotifyMissionsChangedFromRemote missionInfos callerInfo
  | SetMissionContinueState missionId state callingUid => Proxy_SetMissionContinueState missionId state callingUid
  | StartRemoteAbilityByCall want connect callerUid callerPid accessToken => Proxy_StartRemoteAbilityByCall want connect callerUid callerPid accessToken
  | ReleaseRemoteAbility connect element => Proxy_ReleaseRemoteAbility connect element
  | StartAbilityByCallFromRemote want connect callerInfo accountInfo => Proxy_StartAbilityByCallFromRemote want connect callerInfo accountInfo
  | ReleaseAbilityFromRemote connect element callerInfo => Proxy_ReleaseAbilityFromRemote connect element callerInfo
  | StartRemoteFreeInstall want callerUid requestCode accessToken callback => Proxy_StartRemoteFreeInstall want callerUid requestCode accessToken callback
  | StartFreeInstallFromRemote info taskId => Proxy_StartFreeInstallFromRemote info taskId
  | NotifyCompleteFreeInstallFromRemote taskId resultCode => Proxy_NotifyCompleteFreeInstallFromRemote taskId resultCode
  | StartRemoteShareForm deviceId formShareInfo => Proxy_StartRemoteShareForm deviceId formShareInfo
  | StartShareFormFromRemote deviceId formShareInfo => Proxy_StartShareFormFromRemote deviceId formShareInfo
  | NotifyStateChangedFromRemote abilityState connectToken element => Proxy_NotifyStateChangedFromRemote abilityState connectToken element
  | GetDistributedComponentList => Proxy_GetDistributedComponentList
  | StopRemoteExtensionAbility want callerUid accessToken extensionType => Proxy_StopRemoteExtensionAbility want callerUid accessToken extensionType
  | StopExtensionAbilityFromRemote want callerInfo accountInfo extensionType => Proxy_StopExtensionAbilityFromRemote want callerInfo accountInfo extensionType
  | _ => Returned (ret 0)
  end.

(** ** Clients of applications *)

(** [PeerInfo] and [ConnectOption]: writes whose results are not looked at. *)
Definition PeerInfo_Marshalling (i : PeerInfo) (p : Parcel) : option Parcel :=
  let p := put (IStr16 (Str8ToStr16 (pi_deviceId i))) p in
  let p := put (IStr16 (Str8ToStr16 (pi_bundleName i))) p in
  let p := put (IStr16 (Str8ToStr16 (pi_moduleName i))) p in
  let p := put (IStr16 (Str8ToStr16 (pi_abilityName i))) p in
  Some (put (IStr16 (Str8ToStr16 (pi_serverId i))) p).
Definition put_bool (b : bool) (p : Parcel) : Parcel := put (IInt (if b then 1 else 0)) p.
Definition put_parcelable (x : WantParams) (p : Parcel) : Parcel := default p (WriteParcelable x p).
Definition ConnectOption_Marshalling (o : ConnectOption) (options parameters : WantParams) (p : Parcel) : option Parcel :=
  let p := put_bool (needReceiveStream o) (put_bool (needSendStream o) (put_bool (needSendData o) p)) in
  Some (put_parcelable parameters (put_parcelable options p)).
Definition w_marked (f : Parcel -> option Parcel) : Writer := fun p => match (p ← Write IMark p; f p) with Some p => Wrote p | None => Failed ERR_FLATTEN_OBJECT end.
(** Without the service: the code of the clients. *)
Definition with_service (k : St -> Ran) (s : St) : Ran := if remote then k s else Returned (ret INVALID_PARAMETERS_ERR) s.

Definition Client_CollabMission (sessionId : Z) (serverSocketName : string) (localInfo peerInfo : PeerInfo) (o : ConnectOption) (options parameters : WantParams)
    (token : string) (listener : Z) : St -> Ran :=
  with_service (transact COLLAB_MISSION (write_all
    [w_int sessionId; w_str serverSocketName; w_marked (PeerInfo_Marshalling localInfo); w_marked (PeerInfo_Marshalling peerInfo);
     w_marked (ConnectOption_Marshalling o options parameters); w_str token; w_object listener])).
Definition Client_NotifyPrepareResult (token : string) (result sessionId : Z) (serverSocketName : string) (listener : Z) : St -> Ran :=
  with_service (transact NOTIFY_COLLAB_PREPARE_RESULT (write_all [w_str token; w_int result; w_int sessionId; w_str serverSocketName; w_object listener])).
Definition Client_NotifyCloseCollabSession (token : string) : St -> Ran := with_service (transact NOTIFY_CLOSE_COLLAB_SESSION (write_all [w_str token])).
Definition Client_NotifyRejectReason (token reason : string) : St -> Ran := with_service (transact NOTIFY_REJECT_REASON (write_all [w_str token; w_str reason])).
Definition Client_GetPeerVersion (sessionId : Z) (peerDeviceId dmsServerToken : string) (listener : Z) : St -> Ran :=
  with_service (transact GET_SINK_COLLAB_VERSION (write_all [w_int sessionId; w_str peerDeviceId; w_str dmsServerToken; w_object listener])).

(** The pointer to the listener is tested after its type was written. *)
Definition w_tested (o : option Z) : Writer := match o with Some o => w_object o | None => fun _ => Failed INVALID_PARAMETERS_ERR end.
Definition Client_RegisterDSchedEventListener (type : Z) (obj : option Z) : St -> Ran :=
  with_service (transact REGISTER_DSCHED_EVENT_LISTENER (write_all [w_byte (u8 type); w_tested obj])).
Definition Client_UnRegisterDSchedEventListener (type : Z) (obj : option Z) : St -> Ran :=
  with_service (transact UNREGISTER_DSCHED_EVENT_LISTENER (write_all [w_byte (u8 type); w_tested obj])).
Definition Client_ConnectDExtAbility (bundleName abilityName : string) (userId : Z) : St -> Ran :=
  with_service (transact_as ret (fun _ => ret ERR_NONE) DSCHED_START_DEXTENSION (write_all [w_str bundleName; w_str abilityName; w_int userId])).
Definition read_text (p : Parcel) : string * Parcel := default ("", p) (ReadString p).
Definition Client_GetContinueInfo : St -> Ran :=
  with_service (transact_as ret (fun reply =>
    let '(dst, reply) := read_text reply in
    let '(src, _) := read_text reply in
    mkRet (if String.eqb dst "" then ERR_FLATTEN_OBJECT else ERR_NONE) (O_networks dst src)) GET_CONTINUE_INFO wnone).
Definition GetDecodeDSchedEventNotify (p : Parcel) : EventNotify * Parcel :=
  let '(eventResult, p) := ReadInt32_or0 p in
  let '(srcNetworkId, p) := read_text p in
  let '(dstNetworkId, p) := read_text p in
  let '(srcBundleName, p) := read_text p in
  let '(srcModuleName, p) := read_text p in
  let '(srcAbilityName, p) := read_text p in
  let '(destBundleName, p) := read_text p in
  let '(destModuleName, p) := read_text p in
  let '(destAbilityName, p) := read_text p in
  let '(dSchedEventType, p) := ReadInt32_or0 p in
  let '(state, p) := ReadInt32_or0 p in
  (mkEventNotify eventResult srcNetworkId dstNetworkId srcBundleName srcModuleName srcAbilityName destBundleName destModuleName destAbilityName "" dSchedEventType state, p).
Fixpoint decode_events (n : nat) (p : Parcel) : list EventNotify :=
  match n with O => [] | S n => let '(e, p) := GetDecodeDSchedEventNotify p in e :: decode_events n p end.
Definition Client_GetDSchedEventInfo (type : Z) (s : St) : Ran :=
  if negb remote then Returned (ret ERR_FLATTEN_OBJECT) s
  else transact_as ret (fun reply =>
    let '(result, reply) := ReadInt32_or0 reply in
    if negb (result =? ERR_OK) then ret result
    else
      let '(n, reply) := default (0, reply) (ReadUint32 reply) in
      if DSCHED_EVENT_MAX_NUM <? n then ret INVALID_PARAMETERS_ERR
      else mkRet result (O_events (decode_events (Z.to_nat n) reply))) GET_DSCHED_EVENT_INFO (write_all [w_uint (u32 type)]) s.

(** The client of the state of a continuation has one code for every failure. *)
Definition state_client (code : Code) (w : Writer) (s : St) : Ran :=
  if remote then transact_as (fun _ => ret SYSTEM_WORK_ABNORMALLY) read_result code w s else Returned (ret SYSTEM_WORK_ABNORMALLY) s.
Definition Client_RegisterContinueStateCallback (bundleName : string) (missionId : Z) (moduleName abilityName : string) (stub : Z) : St -> Ran :=
  state_client CONTINUE_STATE_CALLBACK_REGISTER (write_all [w_str bundleName; w_int missionId; w_str moduleName; w_str abilityName; w_object stub]).
Definition Client_UnRegisterContinueStateCallback (bundleName : string) (missionId : Z) (moduleName abilityName : string) : St -> Ran :=
  state_client CONTINUE_STATE_CALLBACK_UNREGISTER (write_all [w_str bundleName; w_int missionId; w_str moduleName; w_str abilityName]).
End Proxy.
End Sched.
