(* ===== verification/SchedIpcProps.v ===== *)
(** The interface of the scheduler service: a call through the proxy is the call of the
    service on the other side, with what arrives of its arguments; and no one gets to the
    service who may not.

    Readers and writers are related by the list of values in the message: [writes w l] and
    [reads m l x] compose along the program, so that a call is checked value by value. *)

From S2P Require Import Prelude StdMap SchedUtils SchedErrors Json ContinueInfo IpcParcel WantValue WantText WantParcel WantTextProps DistWant DistWantProps BundleInfo Permission RemoteAbility ContinueSession CollabSession AbilityConnection ContinueDemo CollabStates PermissionProps SchedWire SchedIpc.
#[local] Open Scope string_scope.
#[local] Open Scope list_scope.
#[local] Open Scope Z_scope.

Definition MAX_MESSAGE : Z := 2147483647.
Lemma u32_i32 z : is_u32 z -> u32 (i32 z) = z.
Proof. unfold is_u32, u32, i32. intros. Z.div_mod_to_equations. lia. Qed.
Lemma i32_id z : is_i32 z -> i32 z = z.
Proof. unfold is_i32, i32. intros. rewrite Z.mod_small; lia. Qed.

(** ** The calculus *)

Section Calculus.
Context {T16 : Text16} {TL : Text16Laws} {IP : @IpcParcel T16} {IPL : IpcParcelLaws} {IC : IpcCodes}.

(** What an object takes in a message. *)
Class SendableLaws (A : Type) {SA : Sendable A} := {
  send_ok : A -> Prop;
  send_wire : A -> list Item;
  send_written : forall x p, send_ok x -> exists p', Marshalling x p = Some p' /\ items p' = items p ++ send_wire x;
  send_read : forall x q r, send_ok x -> items q = send_wire x ++ r -> exists q', Unmarshalling q = Some (x, q') /\ items q' = r /\ GetDataSize q' = GetDataSize q;
}.

(** The reader consumes the values [l] and gives [x]. *)
Definition reads {A} (m : Reader A) (l : list Item) (x : A) : Prop :=
  forall q r, items q = l ++ r -> GetDataSize q <= MAX_MESSAGE -> exists q', items q' = r /\ GetDataSize q' = GetDataSize q /\ eventually (fun f => m f q) (Go x q').
(** The writer adds the values [l]. *)
Definition writes (w : Writer) (l : list Item) : Prop := forall p, exists p', w p = Wrote p' /\ items p' = items p ++ l.

Lemma reads_done {A} (x : A) : reads (done_with x) [] x.
Proof. intros q r Hq _. exists q. split; [done|]. split; [done|]. by exists O. Qed.
Lemma reads_then {A B} (m : Reader A) (k : A -> Reader B) l1 l2 x y : reads m l1 x -> reads (k x) l2 y -> reads (then_read m k) (l1 ++ l2) y.
Proof.
  intros H1 H2 q r Hq Hs. rewrite <- app_assoc in Hq. destruct (H1 q _ Hq Hs) as (q1 & Hq1 & S1 & f1 & E1). destruct (H2 q1 r Hq1 ltac:(congruence)) as (q2 & Hq2 & S2 & f2 & E2).
  exists q2. split; [done|]. split; [congruence|]. exists (Nat.max f1 f2). intros f Hf. unfold then_read. rewrite E1 by lia. apply E2. lia.
Qed.
Lemma reads_skip {A B} (m : Reader A) (k : A -> Reader B) l x y : reads m [] x -> reads (k x) l y -> reads (then_read m k) l y.
Proof. intros H1 H2. by apply (reads_then m k [] l x y). Qed.
Lemma reads_last {A} (m : Reader A) l x : reads m l x -> reads m (l ++ []) x.
Proof. by rewrite app_nil_r. Qed.
(** A reader that does not need fuel. *)
Lemma reads_plain {A} (m : Reader A) l x :
  (forall q r, items q = l ++ r -> exists q', (forall f, m f q = Go x q') /\ items q' = r /\ GetDataSize q' = GetDataSize q) -> reads m l x.
Proof. intros H q r Hq _. destruct (H q r Hq) as (q' & E & Hr & Hs). exists q'. split; [done|]. split; [done|]. by exists O. Qed.
Lemma read_one x q r : items q = x :: r -> exists q', Read (kind x) q = Some (x, q') /\ items q' = r /\ GetDataSize q' = GetDataSize q.
Proof. intros (q' & E & H)%items_read. exists q'. split; [done|]. split; [done|]. by apply read_data in E. Qed.

Ltac one := apply reads_plain; intros q r Hq; cbn [app] in Hq; destruct (read_one _ _ _ Hq) as (q' & E & Hr & Hs); cbn [kind] in E; exists q'; (split; [intros f|done]).
Lemma reads_int z : reads Int32 [IInt z] z.
Proof. one. unfold Int32, need, ReadInt32. by rewrite E. Qed.
Lemma reads_int0 z : reads Int32_or0 [IInt z] z.
Proof. one. unfold Int32_or0, read_or, ReadInt32. by rewrite E. Qed.
Lemma reads_uint z : is_u32 z -> reads Uint32 [IInt (i32 z)] z.
Proof. intros Hz. one. unfold Uint32, need, ReadUint32, ReadInt32. rewrite E. cbn. by rewrite u32_i32. Qed.
Lemma reads_long z : reads Int64 [INum W64 z] z.
Proof. one. unfold Int64, need, ReadNum. by rewrite E. Qed.
Lemma reads_long0 z : reads Int64_or0 [INum W64 z] z.
Proof. one. unfold Int64_or0, read_or, ReadNum. by rewrite E. Qed.
Lemma reads_byte0 z : reads Uint8_or0 [INum W8 z] z.
Proof. one. unfold Uint8_or0, read_or, ReadNum. by rewrite E. Qed.
Lemma reads_bool (b : bool) : reads Bool [IInt (if b then 1 else 0)] b.
Proof. one. unfold Bool, need, ReadBool, ReadInt32. rewrite E. by destruct b. Qed.
Lemma reads_bool0 (b : bool) : reads Bool_or [IInt (if b then 1 else 0)] b.
Proof. one. unfold Bool_or, read_or, ReadBool, ReadInt32. rewrite E. by destruct b. Qed.
Lemma reads_str s : reads Str [IStr s] s.
Proof. one. unfold Str, need, ReadString. by rewrite E. Qed.
Lemma reads_str0 s : reads Str_or [IStr s] s.
Proof. one. unfold Str_or, read_or, ReadString. by rewrite E. Qed.
Lemma reads_str16 s : reads Str16_or [IStr16 s] s.
Proof. one. unfold Str16_or, read_or, ReadString16. by rewrite E. Qed.
Lemma reads_strs l : reads StringVector [IStrVec l] l.
Proof. one. unfold StringVector, need, ReadStringVector. by rewrite E. Qed.
Lemma reads_object o : reads RemoteObject [IObject o] (Some o).
Proof. one. unfold RemoteObject, ReadRemoteObject. by rewrite E. Qed.
Lemma reads_nonnull {A} code (m : Reader (option A)) l x : reads m l (Some x) -> reads (nonnull code m) l x.
Proof. intros H. rewrite <- (app_nil_r l). eapply reads_then; [exact H|]. apply reads_done. Qed.
Lemma reads_go b code : b = false -> reads (stop_if b code) [] tt.
Proof. intros ->. apply reads_done. Qed.
Lemma reads_or_code {A} code (m : Reader A) l x : reads m l x -> reads (or_code code m) l x.
Proof. intros H q r Hq Hs. destruct (H q r Hq Hs) as (q' & Hr & Hd & f0 & E). exists q'. split; [done|]. split; [done|]. exists f0. intros f Hf. unfold or_code. by rewrite E. Qed.
Lemma parcelable_read {A} `{SL : SendableLaws A} x q r : send_ok x -> items q = IMark :: send_wire x ++ r ->
  exists q', ReadParcelable q = (Some x, q') /\ items q' = r /\ GetDataSize q' = GetDataSize q.
Proof.
  intros Hx Hq. destruct (read_one _ _ _ Hq) as (q1 & E & H1 & S1). destruct (send_read x q1 r Hx H1) as (q2 & E2 & H2 & S2).
  exists q2. split; [|split; [done|congruence]]. unfold ReadParcelable. cbn [kind] in E. by rewrite E, E2.
Qed.
Lemma reads_parcelable {A} `{SL : SendableLaws A} x : send_ok x -> reads (Parcelable A) (IMark :: send_wire x) (Some x).
Proof.
  intros Hx. apply reads_plain. intros q r Hq. destruct (parcelable_read x q r Hx Hq) as (q' & E & H). exists q'. split; [intros f|exact H]. unfold Parcelable. by rewrite E.
Qed.
(** The reader goes to the end of a message with the values [l]; there a text is empty. *)
Definition reads_all {A} (m : Reader A) (l : list Item) (x : A) : Prop := forall q, items q = l -> GetDataSize q <= MAX_MESSAGE -> exists q', eventually (fun f => m f q) (Go x q').
Lemma reads_whole {A} (m : Reader A) l x : reads m l x -> reads_all m l x.
Proof. intros H q Hq Hs. rewrite <- (app_nil_r l) in Hq. destruct (H q [] Hq Hs) as (q' & _ & _ & E). by exists q'. Qed.
Lemma reads_then_all {A B} (m : Reader A) (k : A -> Reader B) l1 l2 x y : reads m l1 x -> reads_all (k x) l2 y -> reads_all (then_read m k) (l1 ++ l2) y.
Proof.
  intros H1 H2 q Hq Hs. destruct (H1 q _ Hq Hs) as (q1 & Hq1 & S1 & f1 & E1). destruct (H2 q1 Hq1 ltac:(congruence)) as (q2 & f2 & E2).
  exists q2, (Nat.max f1 f2). intros f Hf. unfold then_read. rewrite E1 by lia. apply E2. lia.
Qed.
Lemma reads_skip_all {A B} (m : Reader A) (k : A -> Reader B) l x y : reads m [] x -> reads_all (k x) l y -> reads_all (then_read m k) l y.
Proof. intros H1 H2. by apply (reads_then_all m k [] l x y). Qed.
Lemma reads_end {A} (k : string -> Reader A) x : reads_all (k "") [] x -> reads_all (then_read Str_or k) [] x.
Proof. intros H q Hq Hs. destruct (H q Hq Hs) as (q' & f0 & E). exists q', f0. intros f Hf. unfold then_read, Str_or, read_or, ReadString. rewrite items_end by done. by apply E. Qed.

(** *** Writers *)

Hypothesis R : roomy.

Lemma writes_item x : writes (w_item x) [x].
Proof. intros p. destruct (roomy_write x p R) as (p' & E & H). exists p'. split; [|done]. unfold w_item. by rewrite E. Qed.
Lemma writes_then a b l1 l2 : writes a l1 -> writes b l2 -> writes (then_write a b) (l1 ++ l2).
Proof. intros H1 H2 p. destruct (H1 p) as (p1 & E1 & I1). destruct (H2 p1) as (p2 & E2 & I2). exists p2. unfold then_write. rewrite E1, E2. split; [done|]. by rewrite I2, I1, app_assoc. Qed.
Lemma writes_none : writes wnone [].
Proof. intros p. exists p. by rewrite app_nil_r. Qed.
Lemma writes_all_nil : writes (write_all []) [].
Proof. apply writes_none. Qed.
Lemma writes_all_cons w ws l ls : writes w l -> writes (write_all ws) ls -> writes (write_all (w :: ws)) (l ++ ls).
Proof. intros H1 H2. by apply writes_then. Qed.
Lemma parcelable_written {A} `{SL : SendableLaws A} x p : send_ok x -> exists p', WriteParcelable x p = Some p' /\ items p' = items p ++ IMark :: send_wire x.
Proof.
  intros Hx. unfold WriteParcelable. destruct (roomy_write IMark p R) as (p1 & -> & E1). cbn [mbind option_bind]. destruct (send_written x p1 Hx) as (p2 & -> & E2).
  exists p2. split; [done|]. by rewrite E2, E1, <- app_assoc.
Qed.
Lemma writes_parcelable_or {A} `{SL : SendableLaws A} code x : send_ok x -> writes (w_parcelable_or code x) (IMark :: send_wire x).
Proof. intros Hx p. destruct (parcelable_written x p Hx) as (p' & E & H). exists p'. unfold w_parcelable_or. by rewrite E. Qed.
Lemma writes_parcelable {A} `{SL : SendableLaws A} x : send_ok x -> writes (w_parcelable x) (IMark :: send_wire x).
Proof. apply writes_parcelable_or. Qed.

(** *** Lists of objects *)

Definition objects_wire {A} `{SL : SendableLaws A} (l : list A) : list Item := concat (map (fun x => IMark :: send_wire x) l).
Definition list_wire {A} `{SL : SendableLaws A} (l : list A) : list Item := match l with [] => [IInt VALUE_NULL] | _ => [IInt VALUE_OBJECT; IInt (i32 (len l))] ++ objects_wire l end.
Lemma objects_written {A} `{SL : SendableLaws A} l p : Forall send_ok l -> exists p', write_objects l p = Some p' /\ items p' = items p ++ objects_wire l.
Proof.
  intros H. induction H as [|x l Hx _ IH] in p |- *; [exists p; by rewrite app_nil_r|]. cbn [write_objects]. destruct (parcelable_written x p Hx) as (p1 & -> & E1).
  cbn [mbind option_bind]. destruct (IH p1) as (p2 & -> & E2). exists p2. split; [done|]. by rewrite E2, E1, <- app_assoc.
Qed.
Lemma objects_read {A} `{SL : SendableLaws A} l q r : Forall send_ok l -> items q = objects_wire l ++ r ->
  exists q', read_objects (length l) q = Some (l, q') /\ items q' = r /\ GetDataSize q' = GetDataSize q.
Proof.
  intros H. induction H as [|x l Hx _ IH] in q |- *; intros Hq; [by exists q|]. unfold objects_wire in Hq. cbn [map concat] in Hq. rewrite <- app_assoc in Hq.
  destruct (parcelable_read x q _ Hx Hq) as (q1 & E1 & H1 & S1). destruct (IH q1 H1) as (q2 & E2 & H2 & S2). exists q2. cbn [length read_objects]. rewrite E1, E2. split; [done|]. split; [done|congruence].
Qed.
Lemma list_written {A} `{SL : SendableLaws A} l p : Forall send_ok l -> exists p', write_list l p = Some p' /\ items p' = items p ++ list_wire l.
Proof.
  intros H. unfold write_list, list_wire. destruct l as [|x l]; [apply (roomy_write _ _ R)|]. destruct (roomy_write (IInt VALUE_OBJECT) p R) as (p1 & -> & E1). cbn [mbind option_bind].
  destruct (roomy_write (IInt (i32 (len (x :: l)))) p1 R) as (p2 & -> & E2). cbn [mbind option_bind]. destruct (objects_written (x :: l) p2 H) as (p3 & -> & E3). exists p3. split; [done|].
  by rewrite E3, E2, E1, <- !app_assoc.
Qed.
Lemma objects_length {A} `{SL : SendableLaws A} l : len l <= len (objects_wire l).
Proof. unfold len. induction l as [|x l IH]; [done|]. unfold objects_wire in *. cbn [map concat]. rewrite length_app. cbn [length]. lia. Qed.
Lemma list_read {A} `{SL : SendableLaws A} l too_long q r : Forall send_ok l -> len l <= GET_MAX_MISSIONS -> items q = list_wire l ++ r ->
  (forall q', len l <= GetReadableBytes q' -> too_long (len l) q' = false) ->
  exists q', read_list too_long q = Some (l, q') /\ items q' = r /\ GetDataSize q' = GetDataSize q.
Proof.
  intros Hl Hn Hq Ht. unfold read_list, list_wire, ReadInt32_or0, ReadInt32 in *. destruct l as [|x l].
  - destruct (read_one _ _ _ Hq) as (q1 & E1 & H1 & S1). cbn [kind] in E1. exists q1. rewrite E1. done.
  - set (xs := x :: l) in *. assert (0 < len xs) as Hp by (unfold len, xs; cbn [length]; lia). rewrite <- app_assoc in Hq. cbn [app] in Hq.
    destruct (read_one _ _ _ Hq) as (q1 & E1 & H1 & S1). destruct (read_one _ _ _ H1) as (q2 & E2 & H2 & S2). cbn [kind] in *. rewrite E1. cbn [from_option id]. rewrite Z.eqb_refl, E2. cbn [from_option id].
    assert (i32 (len xs) = len xs) as -> by (apply i32_id; unfold is_i32, GET_MAX_MISSIONS in *; lia). zb_false (len xs <? 0).
    rewrite Ht. 2:{ pose proof (items_bytes q2) as Hb. rewrite H2, len_app in Hb. pose proof (objects_length xs). pose proof (len_nonneg r). lia. }
    replace (Z.to_nat (len xs)) with (length xs) by (unfold len; lia). destruct (objects_read xs q2 r Hl H2) as (q3 & E3 & H3 & S3). exists q3. split; [done|]. split; [done|congruence].
Qed.
End Calculus.

(** ** Missions *)

Section MissionWire.
Context {T16 : Text16} {TL : Text16Laws} {IP : @IpcParcel T16} {IPL : IpcParcelLaws} {W : WantApi} {SW : Sendable Want} {SE : Sendable Element}
  {SWL : SendableLaws Want} {SEL : SendableLaws Element}.
Hypothesis R : roomy.

Definition maybe_wire {A} {SA : Sendable A} {SL : SendableLaws A} (x : option A) : list Item := match x with Some x => IMark :: send_wire x | None => [INull] end.
Definition maybe_ok {A} {SA : Sendable A} {SL : SendableLaws A} (x : option A) : Prop := match x with Some x => send_ok x | None => True end.
Lemma maybe_written {A} {SA : Sendable A} {SL : SendableLaws A} (x : option A) p : maybe_ok x -> exists p', WriteParcelable_maybe x p = Some p' /\ items p' = items p ++ maybe_wire x.
Proof. destruct x as [x|]; cbn; [by apply parcelable_written|]. intros _. apply (roomy_write _ _ R). Qed.
Lemma maybe_read {A} {SA : Sendable A} {SL : SendableLaws A} (x : option A) q r : maybe_ok x -> items q = maybe_wire x ++ r ->
  exists q', ReadParcelable q = (x, q') /\ items q' = r /\ GetDataSize q' = GetDataSize q.
Proof.
  destruct x as [x|]; cbn [maybe_ok maybe_wire]; [by intros Hx; apply parcelable_read|]. intros _ Hq. destruct (read_one _ _ _ Hq) as (q1 & E1 & H1 & S1). exists q1.
  unfold ReadParcelable. cbn [kind] in E1. by rewrite E1.
Qed.

Definition mission_wire (i : DstbMissionInfo) : list Item :=
  [IInt (dm_id i); IInt (dm_runingState i); IInt (dm_userId i); IInt (dm_missionStackId i); IInts (dm_combinedMissionIds i); IInt (dm_windowMode i); IInt (dm_boundsLeft i);
   IInt (dm_boundsTop i); IInt (dm_boundsRight i); IInt (dm_boundsBottom i)] ++
  maybe_wire (dm_baseWant i) ++ maybe_wire (dm_topAbility i) ++ maybe_wire (dm_baseAbility i) ++ maybe_wire (dm_reservedAbility i) ++
  [INum W64 (dm_lastMissionActiveTime i); IInt (dm_displayId i); IStr16 (Str8ToStr16 (dm_label i)); IInt (dm_size i); IStr16 (Str8ToStr16 (dm_iconPath i)); IInt (dm_continuable i);
   IInt (dm_windowType i); IInt (if dm_lockedState i then 1 else 0); IInt (dm_missionType i); IInt (dm_windowTypeMode i)].
Definition mission_ok (i : DstbMissionInfo) : Prop :=
  maybe_ok (dm_baseWant i) /\ maybe_ok (dm_topAbility i) /\ maybe_ok (dm_baseAbility i) /\ maybe_ok (dm_reservedAbility i) /\ utf8 (dm_label i) /\ utf8 (dm_iconPath i).

(** One write or read of the next value. *)
Ltac put_next := lazymatch goal with |- context [Write ?x ?p] => let E := fresh "E" in let I := fresh "I" in destruct (roomy_write x p R) as (? & E & I); rewrite E; clear E; cbn [mbind option_bind] end.
Ltac put_maybe H := lazymatch goal with |- context [WriteParcelable_maybe ?x ?p] => let E := fresh "E" in let I := fresh "I" in destruct (maybe_written x p H) as (? & E & I); rewrite E; clear E; cbn [mbind option_bind] end.
Lemma mission_written i p : mission_ok i -> exists p', DstbMissionInfo_Marshalling i p = Some p' /\ items p' = items p ++ mission_wire i.
Proof.
  intros (H1 & H2 & H3 & H4 & _). unfold DstbMissionInfo_Marshalling. do 10 put_next. put_maybe H1. put_maybe H2. put_maybe H3. put_maybe H4. do 9 put_next.
  lazymatch goal with |- context [Write ?x ?p] => destruct (roomy_write x p R) as (q & -> & Iq) end. exists q. split; [done|]. rewrite Iq. unfold mission_wire.
  repeat match goal with I : items ?x = _ |- context [items ?x] => rewrite I; clear I end. rewrite <- !app_assoc. by cbn [app].
Qed.
Ltac get_next H := let E := fresh "E" in let S := fresh "S" in apply read_one in H as (? & E & H & S); cbn [kind] in E; rewrite E; clear E; cbn [mbind option_bind from_option id].
Ltac get_maybe K H := let E := fresh "E" in let S := fresh "S" in apply (maybe_read _ _ _ K) in H as (? & E & H & S); rewrite E; clear E.
Lemma mission_read i q r : mission_ok i -> items q = mission_wire i ++ r -> exists q', DstbMissionInfo_ReadFromParcel q = Some (i, q') /\ items q' = r /\ GetDataSize q' = GetDataSize q.
Proof.
  intros (H1 & H2 & H3 & H4 & H5 & H6) H. unfold mission_wire in H. rewrite <- !app_assoc in H. cbn [app] in H.
  unfold DstbMissionInfo_ReadFromParcel, ReadInt32_or0, ReadBool, ReadInt32, ReadInt32Vector, ReadNum, ReadString16_or_empty, ReadString16.
  do 10 get_next H. get_maybe H1 H. get_maybe H2 H. get_maybe H3 H. get_maybe H4 H. do 10 get_next H. eexists. split; [|split; [exact H|congruence]].
  rewrite !text_back by done. destruct i as [? ? ? ? ? ? ? ? ? ? ? ? ? ? ? ? ? ? ? ? ? b ? ?]. by destruct b.
Qed.
#[export] Instance mission_laws : SendableLaws DstbMissionInfo := {| send_ok := mission_ok; send_wire := mission_wire; send_written := mission_written; send_read := mission_read |}.

(** The information that a device sends about its missions becomes, on the other device,
    the same missions. *)
Lemma missions_converted l : ConvertToMissionInfos (ConvertToDstbMissionInfos l []) [] = Some l.
Proof.
  unfold ConvertToMissionInfos, ConvertToDstbMissionInfos. cbn [app]. induction l as [|m l IH]; [done|]. cbn [map mapM]. destruct m as [? ? ? ? ? ? c]. cbn -[mapM].
  destruct (mapM ConvertToMissionInfo (map ConvertToDstbMissionInfo l)); [|done]. cbn in *. injection IH as ->. by destruct c.
Qed.
(** A mission without a want, which a message may hold, is dereferenced. *)
Lemma mission_without_want d l : dm_baseWant d = None -> In d l -> ConvertToMissionInfos l [] = None.
Proof.
  intros Hd Hin. unfold ConvertToMissionInfos. assert (mapM ConvertToMissionInfo l = None) as ->; [|done]. induction l as [|x l IH]; [done|]. cbn [mapM].
  destruct Hin as [->|Hin]; [unfold ConvertToMissionInfo; by rewrite Hd|]. destruct (ConvertToMissionInfo x); [|done]. cbn. by rewrite (IH Hin).
Qed.
End MissionWire.

(** ** Versions *)

(** The comparison is the lexicographic order. *)
Lemma CompareDmsVersion_lex v t : CompareDmsVersion v t = true <->
  majorVersionNum v < majorVersionNum t \/ (majorVersionNum v = majorVersionNum t /\
    (minorVersionNum v < minorVersionNum t \/ (minorVersionNum v = minorVersionNum t /\ featureVersionNum v < featureVersionNum t))).
Proof.
  unfold CompareDmsVersion. destruct (Z.ltb_spec (majorVersionNum v) (majorVersionNum t)); [intuition lia|].
  destruct (Z.eqb_spec (majorVersionNum v) (majorVersionNum t)); cbn [andb]; [|intuition lia].
  destruct (Z.ltb_spec (minorVersionNum v) (minorVersionNum t)); [intuition lia|].
  destruct (Z.eqb_spec (minorVersionNum v) (minorVersionNum t)); cbn [andb]; [|intuition lia].
  destruct (Z.ltb_spec (featureVersionNum v) (featureVersionNum t)); intuition lia.
Qed.
(** A device whose version is not known counts as one with the new transport. *)
Lemma unknown_version_uses_qos {NL : Nlohmann} {VE : VersionApi} d e : d <> "" -> GetRemoteDmsVersion d = inl e -> IsUsingQos d = true.
Proof. intros Hd H. unfold IsUsingQos, IsRemoteDmsVersionLower. rewrite H. by destruct (String.eqb_spec d ""). Qed.

(** ** What arrives of a caller *)

Section Extra.
Context {NL : Nlohmann} {NLL : NlohmannLaws}.

Lemma find_set k k' v l : nl_find (JObject (nl_set k' v l)) k = if same_key k k' then Some v else nl_find (JObject l) k.
Proof. apply mfind_mset. Qed.
Lemma find_found k k' j l : nl_find (JObject (add_found k' j l)) k = if same_key k k' then match nl_find j k' with Some v => Some v | None => nl_find (JObject l) k end else nl_find (JObject l) k.
Proof. unfold add_found, when. destruct (nl_find j k') as [v|]; [rewrite find_set; by destruct (same_key k k')|by destruct (same_key k k')]. Qed.

(** The version of the sender, and the names of its user, where they are texts. *)
Definition version_extra (j : json) : json := when (nl_string j DMS_VERSION_ID) (fun s => nl_assign DMS_VERSION_ID (JString s)) JNull.
Definition names_extra (j : json) : json := when (nl_string j DMS_UID_SPEC_BUNDLE_NAME) (fun s => nl_assign DMS_UID_SPEC_BUNDLE_NAME (JString s)) (version_extra j).
Definition sent_caller (c : CallerInfo) (pid type token : Z) (extra : json) : CallerInfo :=
  mkCallerInfo (caller_uid c) pid type (caller_sourceDeviceId c) (-1) (caller_callerAppId c) [] (-1) token extra.
Definition account_type (a : AccountInfo) : AccountInfo := mkAccountInfo (account_accountType a) (account_groupIdList a) "" (-1).

Definition numbers_ok (c : CallerInfo) (a : AccountInfo) : Prop := is_u32 (caller_accessToken c) /\ is_i32 (account_userId a).
Ltac finds := unfold nl_unsigned, nl_number, nl_string, start_extra, call_extra, install_extra, stop_extra, account_extra, token_extra; rewrite ?find_found, ?find_set.
Ltac keys := repeat match goal with |- context [same_key ?a ?b] => let v := eval vm_compute in (same_key a b) in change (same_key a b) with v; cbv iota end.

Lemma token_found c a l : is_u32 (caller_accessToken c) -> nl_find (JObject l) EXTRO_INFO_JSON_KEY_ACCESS_TOKEN = Some (JNumber (caller_accessToken c)) ->
  when (nl_unsigned (JObject l) EXTRO_INFO_JSON_KEY_ACCESS_TOKEN) (fun t => set_token (u32 t)) a = set_token (caller_accessToken c) a.
Proof. intros H E. unfold nl_unsigned. rewrite E. unfold is_u32 in H. destruct (Z.leb_spec 0 (caller_accessToken c)); [|lia]. cbn. by rewrite u32_id. Qed.
Lemma save_start c a c0 a0 : numbers_ok c a -> caller_extraInfoJson c0 = JNull ->
  SaveExtraInfo (start_extra c a) c0 a0 = (set_extra (version_extra (caller_extraInfoJson c)) (set_token (caller_accessToken c) c0), set_userId (account_userId a) (set_account (account_activeAccountId a) a0)).
Proof.
  intros [Ht Hi] H0. unfold SaveExtraInfo, start_extra, call_extra. cbv zeta. rewrite (token_found c) by (done || (finds; keys; done)). finds. keys. cbn [nl_find mfind mentry List.find].
  unfold version_extra, nl_string. destruct (nl_find (caller_extraInfoJson c) DMS_VERSION_ID) as [[]|]; cbn -[DMS_VERSION_ID]; rewrite ?H0; destruct c0; cbn in *; subst; by rewrite i32_id.
Qed.
Lemma save_call c a c0 a0 : numbers_ok c a -> caller_extraInfoJson c0 = JNull ->
  SaveExtraInfo (call_extra c a) c0 a0 = (set_extra (names_extra (caller_extraInfoJson c)) (set_token (caller_accessToken c) c0), set_userId (account_userId a) (set_account (account_activeAccountId a) a0)).
Proof.
  intros [Ht Hi] H0. unfold SaveExtraInfo, start_extra, call_extra. cbv zeta. rewrite (token_found c) by (done || (finds; keys; done)). finds. keys. cbn [nl_find mfind mentry List.find].
  unfold names_extra, version_extra, nl_string. destruct (nl_find (caller_extraInfoJson c) DMS_VERSION_ID) as [[]|], (nl_find (caller_extraInfoJson c) DMS_UID_SPEC_BUNDLE_NAME) as [[]|];
    cbn -[DMS_VERSION_ID DMS_UID_SPEC_BUNDLE_NAME]; rewrite ?H0; destruct c0; cbn -[DMS_VERSION_ID DMS_UID_SPEC_BUNDLE_NAME] in *; subst; by rewrite i32_id.
Qed.
Lemma save_install c n c0 a0 : is_u32 (caller_accessToken c) -> caller_extraInfoJson c0 = JNull ->
  SaveExtraInfo (install_extra c n) c0 a0 = (set_extra (version_extra (caller_extraInfoJson c)) (set_token (caller_accessToken c) c0), a0).
Proof.
  intros Ht H0. unfold SaveExtraInfo, install_extra. cbv zeta. rewrite (token_found c) by (done || (finds; keys; done)). finds. keys. cbn [nl_find mfind mentry List.find].
  unfold version_extra, nl_string. destruct (nl_find (caller_extraInfoJson c) DMS_VERSION_ID) as [[]|]; cbn -[DMS_VERSION_ID]; rewrite ?H0; destruct c0; cbn in *; by subst.
Qed.
Lemma save_stop c a c0 : is_u32 (caller_accessToken c) ->
  when (nl_unsigned (stop_extra c a) EXTRO_INFO_JSON_KEY_ACCESS_TOKEN) (fun t => set_token (u32 t)) c0 = set_token (caller_accessToken c) c0.
Proof. intros H. unfold stop_extra. apply token_found; [done|]. finds. by keys. Qed.
Lemma dumped_parsed j s : nl_wf j -> nl_dump j = Some s -> nl_parse s = Some j /\ s <> "".
Proof. intros Hj E. destruct (nl_round j Hj) as (s' & E' & P). rewrite E in E'. injection E' as <-. split; [done|]. intros ->. by rewrite nl_empty in P. Qed.
End Extra.

(** ** Calls *)

Lemma code_back c : code_of (code_number c) = Some c.
Proof. by destruct c. Qed.

Section Calls.
Context {T16 : Text16} {TL : Text16Laws} {IP : @IpcParcel T16} {IPL : IpcParcelLaws} {IC : IpcCodes} {NL : Nlohmann} {NLL : NlohmannLaws} {VE : VersionApi} {W : WantApi}
  {CW : CollabWantApi} {PW : PermWantApi} {WW : WantWire} {VA : ValueApi} {CV : ConvertEnv} {EA : ElementApi} {EL : ElementLaws} {SO : SchedObjects}
  {LW : SendableLaws Want} {LP : SendableLaws ContinueSession.WantParams} {LE : SendableLaws Element} {LA : SendableLaws CompatibleAbilityInfo}
  {LF : SendableLaws FormShareInfo} {LS : SendableLaws MissionSnapshot} {LM : SendableLaws MissionInfo}.
(** The messages fit, and no number in a text is out of range. *)
Hypothesis R : roomy.
Hypothesis no_range : forall s, errno_ERANGE s = false.

Variable St : Type.
Variable build : Build.
Variable serve : Call -> St -> Ret * St.
Variable env : StubEnv St.
Variable caller : Caller.
Notation deliver := (OnRemoteRequest St build serve env caller).
Notation Ran := (Ran St).
Notation Returned := (Returned St).

(** The library takes a message that is not too big. *)
Definition probe (code : Z) (data : Parcel) (s : St) : option (Z * Parcel * St) := if GetDataSize data <=? MAX_MESSAGE then Some (0, Parcel_empty, s) else None.

Lemma transact_ok failed decode code w l h act s : funcsMap St build serve env caller (code_number code) = Some h -> writes w l -> reads_all h l act ->
  transact_as St probe failed decode code w s <> Hangs St ->
  eventually (fun f => transact_as St (deliver f) failed decode code w s)
    (let '(error, reply, s) := act s in if negb (error =? ERR_NONE) then Returned (failed error) s else Returned (decode reply) s).
Proof.
  intros Hf Hw Hr Hp. unfold transact_as, request, probe in *. destruct (writes_then _ _ _ _ (writes_item R (IToken DMS_PROXY_INTERFACE_TOKEN)) Hw Parcel_empty) as (data & E & Hd).
  rewrite E in *. rewrite items_empty in Hd. cbn [app] in Hd. destruct (Z.leb_spec (GetDataSize data) MAX_MESSAGE) as [Hm|]; [|done].
  destruct (read_one _ _ _ Hd) as (q & Eq & Hq & Hs). destruct (Hr q Hq ltac:(lia)) as (q' & f0 & H). exists f0. intros f Hle.
  unfold OnRemoteRequest. rewrite Hf. unfold EnforceInterfaceToken, ReadInterfaceToken. cbn [kind] in Eq. rewrite Eq. change (String.eqb DMS_PROXY_INTERFACE_TOKEN DMS_STUB_INTERFACE_TOKEN) with true.
  cbv iota. rewrite H by done. by destruct (act s) as [[? ?] ?].
Qed.

(** What the answers of the stub give in the proxy. *)
Definition direct (c : Call) (s : St) : Ran := let '(r, s) := serve c s in Returned (ret (r_code r)) s.
Definition through_transact (act : Act St) (s : St) : Ran :=
  let '(error, reply, s) := act s in if negb (error =? ERR_NONE) then Returned (ret error) s else Returned (read_result reply) s.
Lemma read_put z : ReadInt32_or0 (put (IInt z) Parcel_empty) = (z, default (put (IInt z) Parcel_empty) (snd <$> ReadInt32 (put (IInt z) Parcel_empty))).
Proof.
  assert (items (put (IInt z) Parcel_empty) = [IInt z]) as H by (rewrite roomy_put by done; by rewrite items_empty). destruct (read_int _ _ _ H) as (p & E & _).
  unfold ReadInt32_or0. by rewrite E.
Qed.
Lemma call_int_direct c s : through_transact (call_int St serve c) s = direct c s.
Proof. unfold through_transact, call_int, direct, reply_int, read_result. destruct (serve c s) as [r s']. cbn. by rewrite read_put. Qed.
Lemma call_ret_direct c s : through_transact (call_ret St serve c) s = direct c s.
Proof.
  unfold through_transact, call_ret, direct, read_result. destruct (serve c s) as [r s']. destruct (Z.eqb_spec (r_code r) ERR_NONE) as [E|]; [|done]. cbn. unfold ReadInt32_or0, ReadInt32.
  rewrite items_end by apply items_empty. cbn. by rewrite E.
Qed.
Lemma replies_written l s : exists p, replies St l s = (ERR_NONE, p, s) /\ items p = l.
Proof.
  unfold replies. assert (forall l p, exists q, foldl (fun p x => p ← p; Write x p) (Some p) l = Some q /\ items q = items p ++ l) as H.
  { clear l. induction l as [|x l IH]; intros p; cbn [foldl mbind option_bind]; [exists p; by rewrite app_nil_r|]. destruct (roomy_write x p R) as (p1 & -> & E1). destruct (IH p1) as (q & E & Hq).
    exists q. split; [done|]. by rewrite Hq, E1, <- app_assoc. }
  destruct (H l Parcel_empty) as (q & -> & Hq). exists q. split; [done|]. by rewrite Hq, items_empty.
Qed.
Lemma call_replies_direct c l s : through_transact (fun s => let '(r, s) := serve c s in replies St (IInt (r_code r) :: l) s) s = direct c s.
Proof.
  unfold through_transact, direct, read_result. destruct (serve c s) as [r s']. destruct (replies_written (IInt (r_code r) :: l) s') as (p & -> & Hp). cbn [negb Z.eqb ERR_NONE].
  destruct (read_int _ _ _ Hp) as (q & E & _). unfold ReadInt32_or0. by rewrite E.
Qed.

(** *** Wants *)

Definition distributed_ok (w : DistributedWant) : Prop := want_ok w.
Lemma reads_distributed w : distributed_ok w -> reads DistributedWant_ReadParcelable (IMark :: want_wire w) (Some (want_calls (ToWant (arrived w)))).
Proof.
  intros Hw q r Hq Hs. cbn [app] in Hq. destruct (read_one _ _ _ Hq) as (q1 & E1 & H1 & S1). cbn [kind] in E1.
  destruct (read_want no_range w q1 r Hw H1 ltac:(unfold MAX_MESSAGE in *; lia)) as (q2 & H2 & S2 & f0 & E2). exists q2. split; [done|]. split; [congruence|]. exists f0. intros f Hf.
  unfold DistributedWant_ReadParcelable. by rewrite E1, E2.
Qed.
Lemma writes_distributed w : distributed_ok w -> writes (w_distributed w) (IMark :: want_wire w).
Proof.
  intros Hw p. unfold w_distributed. destruct (roomy_write IMark p R) as (p1 & -> & E1). cbn [mbind option_bind]. destruct (write_want R w p1 Hw) as (p2 & -> & E2).
  exists p2. split; [done|]. by rewrite E2, E1, <- app_assoc.
Qed.
Definition remote_arrived (w : Want) : Want := RemoveRemoteObjectFromWant (want_calls (ToWant (arrived (distributed w)))).
Definition dwant_ok (w : Want) : Prop := distributed_ok (distributed w).
Lemma reads_remote_want w : dwant_ok w -> reads remote_want (IMark :: want_wire (distributed w)) (remote_arrived w).
Proof. intros Hw. unfold remote_want, ReadDistributedWant. rewrite <- (app_nil_r (IMark :: _)). eapply reads_then; [apply reads_nonnull, reads_distributed, Hw|]. apply reads_done. Qed.
Lemma reads_local_want w : send_ok w -> reads local_want (IMark :: send_wire w) (RemoveRemoteObjectFromWant w).
Proof. intros Hw. unfold local_want. rewrite <- (app_nil_r (IMark :: _)). eapply reads_then; [apply reads_nonnull, reads_parcelable, Hw|]. apply reads_done. Qed.
Lemma writes_dwant w : dwant_ok w -> writes (w_dwant w) (IMark :: want_wire (distributed w)).
Proof. apply writes_distributed. Qed.
Lemma reads_assoc {A B C} (m : Reader A) (k : A -> Reader B) (k2 : B -> Reader C) l y :
  reads (then_read m (fun x => then_read (k x) k2)) l y -> reads (then_read (then_read m k) k2) l y.
Proof.
  intros H q r Hq Hs. destruct (H q r Hq Hs) as (q' & ? & ? & f0 & E). exists q'. split; [done|]. split; [done|]. exists f0. intros f Hf. specialize (E f Hf). unfold then_read in *.
  by destruct (m f q).
Qed.
Lemma reads_tail {A B} (m : Reader A) (k : A -> Reader B) l x y : reads m l x -> reads (k x) [] y -> reads (then_read m k) l y.
Proof. intros H1 H2. rewrite <- (app_nil_r l). by eapply reads_then. Qed.
Lemma writes_json j : nl_wf j -> exists s, nl_dump j = Some s /\ nl_parse s = Some j /\ s <> "" /\ writes (w_json j) [IStr s].
Proof.
  intros Hj. destruct (nl_round j Hj) as (s & E & P). exists s. split; [done|]. split; [done|]. split; [by apply (dumped_parsed j)|]. intros p. unfold w_json. rewrite E. apply writes_item, R.
Qed.

(** *** Calls of another device *)

(** What the service gets of a call of another device. Not all of a caller travels: the
    type of the caller is set by the receiver, its bundle names and most of its extra
    information stay behind. *)
Definition meaning_remote (c : Call) : option (St -> Ran) :=
  match c with
  | StartAbilityFromRemote w i n c a => Some (direct (StartAbilityFromRemote (remote_arrived w) (ConvertToAbilityInfo (ConvertToCompatiableAbilityInfo i)) n
      (sent_caller c (-1) CALLER_TYPE_HARMONY (caller_accessToken c) (version_extra (caller_extraInfoJson c))) a))
  | SendResultFromRemote w n c _ a code => Some (direct (SendResultFromRemote (remote_arrived w) n (sent_caller c (-1) CALLER_TYPE_HARMONY 0 (caller_extraInfoJson c)) false a code))
  | ContinueMission src dst n (Some o) ps => Some (direct (ContinueMission src dst n (Some o) ps))
  | ContinueMissionOfBundleName src dst b (Some o) ps => Some (direct (ContinueMissionOfBundleName src dst b (Some o) ps))
  | NotifyContinuationResultFromRemote _ _ _ | NotifyDSchedEventResultFromRemote _ _ | DisconnectAbilityFromRemote (Some _) _ _ | NotifyCompleteFreeInstallFromRemote _ _
  | StartShareFormFromRemote _ _ | NotifyStateChangedFromRemote _ _ _ => Some (direct c)
  | ConnectAbilityFromRemote w i (Some o) c a => Some (direct (ConnectAbilityFromRemote (remote_arrived w) (ConvertToAbilityInfo (ConvertToCompatiableAbilityInfo i)) (Some o)
      (sent_caller c (caller_pid c) CALLER_TYPE_HARMONY (caller_accessToken c) (version_extra (caller_extraInfoJson c))) a))
  | NotifyProcessDiedFromRemote c => Some (direct (NotifyProcessDiedFromRemote
      (mkCallerInfo (caller_uid c) (caller_pid c) CALLER_TYPE_HARMONY (caller_sourceDeviceId c) (-1) "" [] (-1) 0 JNull)))
  | StopSyncMissionsFromRemote c => Some (direct (StopSyncMissionsFromRemote
      (mkCallerInfo (caller_uid c) (caller_pid c) (caller_callerType c) (caller_sourceDeviceId c) (caller_duid c) (caller_callerAppId c) [] (caller_dmsVersion c) 0 JNull)))
  | NotifyMissionsChangedFromRemote l c => Some (direct (NotifyMissionsChangedFromRemote l
      (mkCallerInfo (caller_uid c) (caller_pid c) CALLER_TYPE_NONE (caller_sourceDeviceId c) (-1) "" [] (caller_dmsVersion c) 0 JNull)))
  | StartAbilityByCallFromRemote w (Some o) c a => Some (direct (StartAbilityByCallFromRemote (remote_arrived w) (Some o)
      (sent_caller c (caller_pid c) CALLER_TYPE_NONE (caller_accessToken c) (names_extra (caller_extraInfoJson c))) a))
  | ReleaseAbilityFromRemote (Some o) e c => Some (direct (ReleaseAbilityFromRemote (Some o) e (mkCallerInfo (-1) (-1) CALLER_TYPE_NONE (caller_sourceDeviceId c) (-1) "" [] (-1) 0 JNull)))
  | StartFreeInstallFromRemote i t =>
      let c := sent_caller (fi_callerInfo i) (-1) CALLER_TYPE_HARMONY (caller_accessToken (fi_callerInfo i)) (version_extra (caller_extraInfoJson (fi_callerInfo i))) in
      let names := RemoveRemoteObjectFromWant (want_calls (ToWant (arrived (install_names (fi_callerInfo i))))) in
      Some (direct (StartFreeInstallFromRemote (mkFreeInstallInfo (install_want (remote_arrived (fi_want i)) names c) (fi_requestCode i) c (account_type (fi_accountInfo i))) t))
  | StopExtensionAbilityFromRemote w c a n => Some (direct (StopExtensionAbilityFromRemote (remote_arrived w)
      (sent_caller c (-1) CALLER_TYPE_HARMONY (caller_accessToken c) JNull) (account_type a) n))
  | _ => None
  end.

(** The call can be written: its texts and numbers are what their types hold, the extra
    information is a document; and it is one that this build has. *)
Definition remote_ok (c : Call) : Prop :=
  match c with
  | StartAbilityFromRemote w i _ c a => dwant_ok w /\ send_ok (ConvertToCompatiableAbilityInfo i) /\ numbers_ok c a /\ nl_wf (start_extra c a)
  | SendResultFromRemote w _ c _ a _ => dwant_ok w /\ is_i32 (account_userId a) /\ nl_wf (caller_extraInfoJson c) /\
      forall s, nl_dump (caller_extraInfoJson c) = Some s -> nl_wf (JObject (nl_set EXTRO_INFO_JSON_KEY_CALLER_INFO_EX (JString s) (account_extra a [])))
  | ContinueMission _ _ _ _ ps | ContinueMissionOfBundleName _ _ _ _ ps => send_ok ps
  | ConnectAbilityFromRemote w i _ c a => dwant_ok w /\ send_ok (ConvertToCompatiableAbilityInfo i) /\ numbers_ok c a /\ nl_wf (start_extra c a)
  | StopSyncMissionsFromRemote _ => MISSION_MANAGER build = true
  | NotifyMissionsChangedFromRemote l _ => MISSION_MANAGER build = true /\ Forall mission_ok l /\ len l <= GET_MAX_MISSIONS
  | StartAbilityByCallFromRemote w _ c a => dwant_ok w /\ numbers_ok c a /\ nl_wf (call_extra c a)
  | ReleaseAbilityFromRemote _ e _ | NotifyStateChangedFromRemote _ _ e => send_ok e
  | StartFreeInstallFromRemote i _ => dwant_ok (fi_want i) /\ distributed_ok (install_names (fi_callerInfo i)) /\ is_u32 (caller_accessToken (fi_callerInfo i)) /\
      is_i32 (fi_requestCode i) /\ nl_wf (install_extra (fi_callerInfo i) (fi_requestCode i))
  | StartShareFormFromRemote d i => FORM_SHARE build = true /\ d <> "" /\ send_ok i
  | StopExtensionAbilityFromRemote w c a _ => dwant_ok w /\ is_u32 (caller_accessToken c) /\ nl_wf (stop_extra c a)
  | _ => True
  end.

(** A process of the system on another device that runs this system. *)
Record device_caller : Prop := {
  dc_remote : IsLocalCalling caller = false;
  dc_uid : CheckCallingUid caller = true;
  dc_system : other_system St build env caller = false;
}.

(** Writes the values of a call, and reads them. *)
Ltac write_values := repeat (eapply writes_all_cons; [solve [apply writes_item, R | by apply writes_parcelable_or | by apply writes_parcelable | by apply writes_dwant | by apply writes_distributed | eassumption]|]); apply writes_all_nil.
Ltac read_value := first
  [ eapply reads_skip; [solve [apply reads_done | by apply reads_go]|]; cbv beta iota zeta
  | eapply reads_then; [solve [apply reads_int | apply reads_int0 | by apply reads_uint | apply reads_long | apply reads_long0 | apply reads_byte0 | apply reads_bool | apply reads_bool0
      | apply reads_str | apply reads_str0 | apply reads_str16 | apply reads_strs | apply reads_object | by apply reads_remote_want | by apply reads_local_want | by apply reads_distributed
      | by apply reads_parcelable | apply reads_nonnull, reads_object | by apply reads_nonnull, reads_parcelable]|]; cbv beta iota zeta
  | apply reads_assoc ].
Ltac read_values := repeat read_value.


Lemma call_arrives code w l h act (m : St -> Ran) s : funcsMap St build serve env caller (code_number code) = Some h -> writes w l -> reads_all h l act ->
  through_transact act s = m s -> transact St probe code w s <> Hangs St -> eventually (fun f => transact St (deliver f) code w s) (m s).
Proof. intros Hf Hw Hr <- Hp. exact (transact_ok ret read_result code w l h act s Hf Hw Hr Hp). Qed.
Lemma remote_func c : device_caller -> funcsMap St build serve env caller (code_number c) = remoteFuncsMap_ St build serve env caller c.
Proof. intros [H _ _]. unfold funcsMap. rewrite code_back. cbn. by rewrite H. Qed.
Lemma remote_guard : device_caller -> reads (system_uid caller) [] tt.
Proof. intros [_ H _]. apply reads_go. by rewrite H. Qed.
Lemma remote_may_continue : device_caller -> reads (may_continue St env caller) [] tt.
Proof. intros [H1 H2 _]. apply reads_go. by rewrite H1, H2. Qed.
(** A call of another device goes through [k] after the check of its user. *)
Lemma device_call code w l k act (m : St -> Ran) s : device_caller ->
  remoteFuncsMap_ St build serve env caller code = Some (then_read (system_uid caller) (fun _ => k)) -> writes w l -> reads k l act ->
  through_transact act s = m s -> transact St probe code w s <> Hangs St -> eventually (fun f => transact St (deliver f) code w s) (m s).
Proof.
  intros Hd Hf Hw Hr. apply call_arrives with (l := l) (h := then_read (system_uid caller) (fun _ => k)); [by rewrite remote_func|done|].
  apply reads_whole. eapply reads_skip; [by apply remote_guard|exact Hr].
Qed.

Lemma start_arrives w i n c a s : device_caller -> remote_ok (StartAbilityFromRemote w i n c a) ->
  Proxy_StartAbilityFromRemote St probe true w i n c a s <> Hangs St ->
  eventually (fun f => Proxy_StartAbilityFromRemote St (deliver f) true w i n c a s)
    (direct (StartAbilityFromRemote (remote_arrived w) (ConvertToAbilityInfo (ConvertToCompatiableAbilityInfo i)) n
      (sent_caller c (-1) CALLER_TYPE_HARMONY (caller_accessToken c) (version_extra (caller_extraInfoJson c))) a) s).
Proof.
  intros Hd (Hw & Hi & Hn & Hj). destruct (writes_json _ Hj) as (x & E & P & Hx & Wx). unfold Proxy_StartAbilityFromRemote, with_remote.
  eapply device_call; [done|cbn; unfold StartAbilityFromRemoteInner; rewrite (dc_system Hd); reflexivity|write_values| |].
  - read_values. eapply reads_tail; [apply reads_or_code; unfold GetStartAbilityFromRemoteExParam; read_values; apply reads_done|]. cbv beta iota zeta. apply reads_done.
  - destruct (String.eqb_spec x "") as [|_]; [done|]. unfold extra_info. rewrite P, save_start by done. unfold call_timed. rewrite call_replies_direct. destruct a. done.
Qed.

Lemma connect_arrives w i o c a s : device_caller -> remote_ok (ConnectAbilityFromRemote w i (Some o) c a) ->
  Proxy_ConnectAbilityFromRemote St probe true w i (Some o) c a s <> Hangs St ->
  eventually (fun f => Proxy_ConnectAbilityFromRemote St (deliver f) true w i (Some o) c a s)
    (direct (ConnectAbilityFromRemote (remote_arrived w) (ConvertToAbilityInfo (ConvertToCompatiableAbilityInfo i)) (Some o)
      (sent_caller c (caller_pid c) CALLER_TYPE_HARMONY (caller_accessToken c) (version_extra (caller_extraInfoJson c))) a) s).
Proof.
  intros Hd (Hw & Hi & Hn & Hj). destruct (writes_json _ Hj) as (x & E & P & Hx & Wx). unfold Proxy_ConnectAbilityFromRemote, with_object, with_remote.
  eapply device_call; [done|cbn; unfold ConnectAbilityFromRemoteInner; rewrite (dc_system Hd); reflexivity|write_values| |].
  - read_values. eapply reads_tail; [apply reads_or_code; unfold GetConnectAbilityFromRemoteExParam, ReadDataForConnect; read_values; apply reads_done|]. cbv beta iota zeta. apply reads_done.
  - unfold extra_info. cbn [fst snd]. rewrite P, save_start by done. unfold call_timed. rewrite call_replies_direct. by destruct a.
Qed.
Lemma call_by_remote_arrives w o c a s : device_caller -> remote_ok (StartAbilityByCallFromRemote w (Some o) c a) ->
  Proxy_StartAbilityByCallFromRemote St probe true w (Some o) c a s <> Hangs St ->
  eventually (fun f => Proxy_StartAbilityByCallFromRemote St (deliver f) true w (Some o) c a s)
    (direct (StartAbilityByCallFromRemote (remote_arrived w) (Some o) (sent_caller c (caller_pid c) CALLER_TYPE_NONE (caller_accessToken c) (names_extra (caller_extraInfoJson c))) a) s).
Proof.
  intros Hd (Hw & Hn & Hj). destruct (writes_json _ Hj) as (x & E & P & Hx & Wx). unfold Proxy_StartAbilityByCallFromRemote, with_object, with_remote.
  eapply device_call; [done|reflexivity|write_values| |].
  - read_values. eapply reads_skip; [apply reads_go; by apply String.eqb_neq|]. cbv beta iota zeta. read_values. apply reads_done.
  - unfold extra_info. rewrite P, save_call by done. rewrite call_replies_direct. by destruct a.
Qed.
Lemma result_extra_written c a : nl_wf (caller_extraInfoJson c) ->
  (forall s, nl_dump (caller_extraInfoJson c) = Some s -> nl_wf (JObject (nl_set EXTRO_INFO_JSON_KEY_CALLER_INFO_EX (JString s) (account_extra a [])))) ->
  exists e x, writes (result_extra c a) [IStr x] /\ nl_parse e = Some (caller_extraInfoJson c) /\ nl_parse x = Some (JObject (nl_set EXTRO_INFO_JSON_KEY_CALLER_INFO_EX (JString e) (account_extra a []))).
Proof.
  intros Hj H. destruct (nl_round _ Hj) as (e & E & P). destruct (writes_json _ (H e E)) as (x & Ex & Px & _ & Wx). exists e, x. split; [|done]. intros p. unfold result_extra. rewrite E. apply Wx.
Qed.
Lemma save_result e c a c0 a0 : is_i32 (account_userId a) -> nl_parse e = Some (caller_extraInfoJson c) ->
  SaveSendResultExtraInfo (JObject (nl_set EXTRO_INFO_JSON_KEY_CALLER_INFO_EX (JString e) (account_extra a []))) c0 a0 =
  (set_extra (caller_extraInfoJson c) c0, false, set_userId (account_userId a) (set_account (account_activeAccountId a) a0)).
Proof.
  intros Hi P. unfold SaveSendResultExtraInfo, nl_string, nl_number, account_extra. rewrite !find_set.
  repeat match goal with |- context [same_key ?a ?b] => let v := eval vm_compute in (same_key a b) in change (same_key a b) with v; cbv iota end. rewrite P. cbn. by rewrite i32_id.
Qed.
Lemma send_result_arrives w n c d a code s : device_caller -> remote_ok (SendResultFromRemote w n c d a code) ->
  Proxy_SendResultFromRemote St probe true w n c a code s <> Hangs St ->
  eventually (fun f => Proxy_SendResultFromRemote St (deliver f) true w n c a code s)
    (direct (SendResultFromRemote (remote_arrived w) n (sent_caller c (-1) CALLER_TYPE_HARMONY 0 (caller_extraInfoJson c)) false a code) s).
Proof.
  intros Hd (Hw & Hn & Hj & Hx). destruct (result_extra_written c a Hj Hx) as (e & x & Wx & Pe & Px). unfold Proxy_SendResultFromRemote, with_remote.
  eapply device_call; [done|reflexivity|write_values| |].
  - read_values. rewrite Px, (save_result e c a) by done. cbv beta iota zeta. apply reads_done.
  - rewrite call_replies_direct. by destruct a.
Qed.
Lemma create_install x c n c0 a0 : nl_parse x = Some (install_extra c n) -> is_u32 (caller_accessToken c) -> is_i32 n -> caller_extraInfoJson c0 = JNull ->
  CreateJsonObject x c0 a0 = (n, set_extra (version_extra (caller_extraInfoJson c)) (set_token (caller_accessToken c) c0), a0).
Proof.
  intros P Ht Hn H0. unfold CreateJsonObject. rewrite P, save_install by done. cbv beta iota. unfold nl_number, install_extra. rewrite find_found, find_set.
  repeat match goal with |- context [same_key ?a ?b] => let v := eval vm_compute in (same_key a b) in change (same_key a b) with v; cbv iota end. cbn. by rewrite i32_id.
Qed.
Lemma install_arrives i t s m : device_caller -> remote_ok (StartFreeInstallFromRemote i t) -> meaning_remote (StartFreeInstallFromRemote i t) = Some m ->
  Proxy_StartFreeInstallFromRemote St probe true i t s <> Hangs St -> eventually (fun f => Proxy_StartFreeInstallFromRemote St (deliver f) true i t s) (m s).
Proof.
  intros Hd (Hw & Hi & Hn & Hc & Hj) [= <-]. destruct (writes_json _ Hj) as (x & E & P & Hx & Wx). unfold Proxy_StartFreeInstallFromRemote, with_remote.
  eapply device_call; [done|reflexivity|write_values| |].
  - unfold ReadDataForFreeInstall. read_values. rewrite (create_install x (fi_callerInfo i) (fi_requestCode i)) by done. cbv beta iota zeta. apply reads_done.
  - rewrite call_replies_direct. done.
Qed.
Lemma stop_extension_arrives w c a n s : device_caller -> remote_ok (StopExtensionAbilityFromRemote w c a n) ->
  Proxy_StopExtensionAbilityFromRemote St probe true w c a n s <> Hangs St ->
  eventually (fun f => Proxy_StopExtensionAbilityFromRemote St (deliver f) true w c a n s)
    (direct (StopExtensionAbilityFromRemote (remote_arrived w) (sent_caller c (-1) CALLER_TYPE_HARMONY (caller_accessToken c) JNull) (account_type a) n) s).
Proof.
  intros Hd (Hw & Hn & Hj). destruct (writes_json _ Hj) as (x & E & P & Hx & Wx). unfold Proxy_StopExtensionAbilityFromRemote, with_remote.
  eapply device_call; [done|reflexivity|write_values|read_values; apply reads_done|].
  rewrite P. cbn [mbind option_bind]. rewrite save_stop by done. by rewrite call_replies_direct.
Qed.
Lemma missions_list l : Forall mission_ok l -> len l <= GET_MAX_MISSIONS ->
  writes (fun p => match WriteDstbMissionInfosToParcel l p with Some p => Wrote p | None => Failed ERR_FLATTEN_OBJECT end) (list_wire (SL := mission_laws R) l) /\
  reads (need ReadDstbMissionInfosFromParcel) (list_wire (SL := mission_laws R) l) l.
Proof.
  intros Hl Hn. split.
  - intros p. unfold WriteDstbMissionInfosToParcel. destruct (list_written (SL := mission_laws R) R l p Hl) as (p' & -> & H). by exists p'.
  - apply reads_plain. intros q r Hq. destruct (list_read (SL := mission_laws R) l (fun n _ => GET_MAX_MISSIONS <? n) q r Hl Hn Hq) as (q' & E & H); [intros _ _; apply Z.ltb_ge; lia|].
    exists q'. split; [|exact H]. intros f. unfold need, ReadDstbMissionInfosFromParcel. by rewrite E.
Qed.
Lemma missions_arrive l c s : device_caller -> remote_ok (NotifyMissionsChangedFromRemote l c) -> Proxy_NotifyMissionsChangedFromRemote St probe true l c s <> Hangs St ->
  eventually (fun f => Proxy_NotifyMissionsChangedFromRemote St (deliver f) true l c s)
    (direct (NotifyMissionsChangedFromRemote l (mkCallerInfo (caller_uid c) (caller_pid c) CALLER_TYPE_NONE (caller_sourceDeviceId c) (-1) "" [] (caller_dmsVersion c) 0 JNull)) s).
Proof.
  intros Hd (Hb & Hl & Hn). destruct (missions_list l Hl Hn) as [Wl Rl]. unfold Proxy_NotifyMissionsChangedFromRemote, with_remote.
  eapply device_call; [done|cbn; rewrite Hb; reflexivity|write_values| |apply call_int_direct].
  unfold NotifyMissionsChangedFromRemoteInner. eapply reads_then; [apply reads_int0|]. eapply reads_then; [exact Rl|]. read_values. apply reads_done.
Qed.
Lemma continue_arrives src dst n o ps s : device_caller -> send_ok ps -> Proxy_ContinueMission St probe true src dst n (Some o) ps s <> Hangs St ->
  eventually (fun f => Proxy_ContinueMission St (deliver f) true src dst n (Some o) ps s) (direct (ContinueMission src dst n (Some o) ps) s).
Proof.
  intros Hd Hp. unfold Proxy_ContinueMission, with_object, with_remote. eapply call_arrives; [by rewrite remote_func|write_values| |].
  - apply reads_whole. unfold ContinueMissionInner. eapply reads_skip; [by apply remote_may_continue|]. read_values. apply reads_done.
  - unfold continue_mission. rewrite (dc_remote Hd). apply call_int_direct.
Qed.
(** The receiver reads two texts more than the sender writes; they are empty. *)
Lemma continue_bundle_arrives src dst b o ps s : device_caller -> send_ok ps -> Proxy_ContinueMissionOfBundleName St probe true src dst b (Some o) ps s <> Hangs St ->
  eventually (fun f => Proxy_ContinueMissionOfBundleName St (deliver f) true src dst b (Some o) ps s) (direct (ContinueMissionOfBundleName src dst b (Some o) ps) s).
Proof.
  intros Hd Hp. unfold Proxy_ContinueMissionOfBundleName, with_object, with_remote. eapply call_arrives; [by rewrite remote_func|write_values| |].
  - unfold ContinueMissionOfBundleNameInner. eapply reads_skip_all; [by apply remote_may_continue|]. do 3 (eapply reads_then_all; [apply reads_str|]).
    eapply reads_then_all; [apply reads_nonnull, reads_object|]. eapply reads_then_all; [by apply reads_nonnull, reads_parcelable|]. do 2 apply reads_end. apply reads_whole, reads_done.
  - unfold continue_bundle. rewrite (dc_remote Hd). apply call_int_direct.
Qed.

Lemma disconnect_arrives o uid d s : device_caller -> Proxy_DisconnectAbilityFromRemote St probe true (Some o) uid d s <> Hangs St ->
  eventually (fun f => Proxy_DisconnectAbilityFromRemote St (deliver f) true (Some o) uid d s) (direct (DisconnectAbilityFromRemote (Some o) uid d) s).
Proof.
  intros Hd. unfold Proxy_DisconnectAbilityFromRemote, with_object, with_remote.
  eapply device_call; [done|cbn; unfold DisconnectAbilityFromRemoteInner; rewrite (dc_system Hd); reflexivity|write_values|read_values; apply reads_done|apply call_int_direct].
Qed.
Lemma stop_sync_arrives c s : device_caller -> MISSION_MANAGER build = true -> Proxy_StopSyncMissionsFromRemote St probe true c s <> Hangs St ->
  eventually (fun f => Proxy_StopSyncMissionsFromRemote St (deliver f) true c s) (direct (StopSyncMissionsFromRemote
    (mkCallerInfo (caller_uid c) (caller_pid c) (caller_callerType c) (caller_sourceDeviceId c) (caller_duid c) (caller_callerAppId c) [] (caller_dmsVersion c) 0 JNull)) s).
Proof.
  intros Hd Hb. unfold Proxy_StopSyncMissionsFromRemote, with_remote, CallerInfoMarshalling.
  eapply device_call; [done|cbn; rewrite Hb; reflexivity|write_values|unfold CallerInfoUnmarshalling; read_values; apply reads_done|apply call_int_direct].
Qed.
Lemma share_arrives d i s : device_caller -> remote_ok (StartShareFormFromRemote d i) -> Proxy_StartShareFormFromRemote St probe true d i s <> Hangs St ->
  eventually (fun f => Proxy_StartShareFormFromRemote St (deliver f) true d i s) (direct (StartShareFormFromRemote d i) s).
Proof.
  intros Hd (Hb & Hn & Hi). unfold Proxy_StartShareFormFromRemote, share_form. destruct (String.eqb_spec d "") as [|_]; [done|]. cbn [negb].
  eapply call_arrives; [rewrite remote_func by done; cbn; rewrite Hb; reflexivity|write_values| |apply call_int_direct].
  apply reads_whole. unfold StartShareFormFromRemoteInner. rewrite (dc_uid Hd). cbn [negb]. read_values. apply reads_done.
Qed.

(** A call of another device. *)
Lemma device_calls c m s : device_caller -> remote_ok c -> meaning_remote c = Some m -> Proxy_call St probe true c s <> Hangs St ->
  eventually (fun f => Proxy_call St (deliver f) true c s) (m s).
Proof.
  intros Hd Hok Hm. destruct c; try done; cbn [Proxy_call].
  all: try match goal with o : option Z |- _ => destruct o; [|done] end.
  all: try (injection Hm as <-).
  all: try lazymatch goal with
    | |- context [Proxy_StartAbilityFromRemote] => by apply start_arrives
    | |- context [Proxy_ConnectAbilityFromRemote] => by apply connect_arrives
    | |- context [Proxy_StartAbilityByCallFromRemote] => by apply call_by_remote_arrives
    | |- context [Proxy_SendResultFromRemote] => by eapply send_result_arrives
    | |- context [Proxy_StartFreeInstallFromRemote] => by apply install_arrives
    | |- context [Proxy_StopExtensionAbilityFromRemote] => by apply stop_extension_arrives
    | |- context [Proxy_NotifyMissionsChangedFromRemote] => by apply missions_arrive
    | |- context [Proxy_ContinueMission] => by apply continue_arrives
    | |- context [Proxy_ContinueMissionOfBundleName] => by apply continue_bundle_arrives
    | |- context [Proxy_DisconnectAbilityFromRemote] => by apply disconnect_arrives
    | |- context [Proxy_StopSyncMissionsFromRemote] => by apply stop_sync_arrives
    | |- context [Proxy_StartShareFormFromRemote] => by apply share_arrives
    end.
  all: unfold Proxy_NotifyContinuationResultFromRemote, Proxy_NotifyDSchedEventResultFromRemote, Proxy_NotifyProcessDiedFromRemote, Proxy_ReleaseAbilityFromRemote,
    Proxy_NotifyCompleteFreeInstallFromRemote, Proxy_NotifyStateChangedFromRemote, with_object, with_remote.
  all: eapply device_call; [done|reflexivity|write_values|read_values; apply reads_done|].
  all: first [apply call_int_direct | apply call_ret_direct | apply call_replies_direct].
Qed.

(** *** Calls of the ability manager *)

Notation MarkUri := (MarkUriPermission St env).
Definition meaning_local (c : Call) : option (St -> Ran) :=
  match c with
  | StartRemoteAbility w u n t => Some (direct (StartRemoteAbility (MarkUri (RemoveRemoteObjectFromWant w) t) u n t))
  | ConnectRemoteAbility w (Some o) u p t => Some (direct (ConnectRemoteAbility (RemoveRemoteObjectFromWant w) (Some o) u p t))
  | StartRemoteAbilityByCall w (Some o) u p t => Some (direct (StartRemoteAbilityByCall (RemoveRemoteObjectFromWant w) (Some o) u p t))
  | StartRemoteFreeInstall w u n t (Some o) => Some (direct (StartRemoteFreeInstall (RemoveRemoteObjectFromWant w) u n t (Some o)))
  | StopRemoteExtensionAbility w u t n => Some (direct (StopRemoteExtensionAbility (RemoveRemoteObjectFromWant w) u t n))
  | DisconnectRemoteAbility (Some _) _ _ | ReleaseRemoteAbility (Some _) _ | StartSyncRemoteMissions _ _ _ _ | StopSyncRemoteMissions _ _ | RegisterMissionListener _ (Some _) _
  | RegisterOnListener _ (Some _) _ | RegisterOffListener _ (Some _) _ | UnRegisterMissionListener _ (Some _) | SetMissionContinueState _ _ _ | StartRemoteShareForm _ _ => Some (direct c)
  | RegisterDSchedEventListener t (Some o) => Some (direct (RegisterDSchedEventListener (u8 t) (Some o)))
  | UnRegisterDSchedEventListener t (Some o) => Some (direct (UnRegisterDSchedEventListener (u8 t) (Some o)))
  | ContinueMission src dst n (Some o) ps => Some (through_transact (continue_mission St serve env caller src dst n o ps))
  | ContinueMissionOfBundleName src dst b (Some o) ps => Some (through_transact (continue_bundle St serve env caller src dst b o ps "" ""))
  | StartContinuation w n u x t => Some (through_transact (start_continuation St serve env (RemoveRemoteObjectFromWant w) n u x t))
  | NotifyCompleteContinuation d n b => Some (fun s => Returned (ret 0) (snd (notify_complete St serve env d n b "" s)))
  | _ => None
  end.
Definition local_ok (c : Call) : Prop :=
  match c with
  | StartRemoteAbility w _ _ t | ConnectRemoteAbility w _ _ _ t | StartRemoteAbilityByCall w _ _ _ t | StartRemoteFreeInstall w _ _ t _ | StopRemoteExtensionAbility w _ t _
  | StartContinuation w _ _ _ t => send_ok w /\ is_u32 t
  | DisconnectRemoteAbility _ _ t => is_u32 t
  | ReleaseRemoteAbility _ e => send_ok e
  | StartSyncRemoteMissions d _ _ u | StopSyncRemoteMissions d u => MISSION_MANAGER build = true /\ utf8 d /\ is_empty16 (Str8ToStr16 d) = false /\ 0 <= u
  | RegisterMissionListener d _ u => MISSION_MANAGER build = true /\ is_empty16 d = false /\ 0 <= u
  | UnRegisterMissionListener d _ => MISSION_MANAGER build = true /\ is_empty16 d = false
  | RegisterOnListener t _ u | RegisterOffListener t _ u => MISSION_MANAGER build = true /\ t <> "" /\ 0 <= u
  | SetMissionContinueState _ _ _ | RegisterDSchedEventListener _ _ | UnRegisterDSchedEventListener _ _ => MISSION_MANAGER build = true
  | StartRemoteShareForm d i => FORM_SHARE build = true /\ d <> "" /\ send_ok i
  | ContinueMission _ _ _ _ ps | ContinueMissionOfBundleName _ _ _ _ ps => send_ok ps
  | NotifyCompleteContinuation d _ _ => is_empty16 d = false
  | _ => True
  end.
(** The ability manager of this device. *)
Record foundation_caller : Prop := {
  fc_local : IsLocalCalling caller = true;
  fc_foundation : IsFoundationCall St env = true;
  fc_uid : CheckCallingUid caller = true;
}.
Lemma local_func c : foundation_caller -> funcsMap St build serve env caller (code_number c) = localFuncsMap_ St build serve env caller c.
Proof. intros [H _ _]. unfold funcsMap. rewrite code_back. cbn. by rewrite H. Qed.
Lemma foundation_reads : foundation_caller -> reads (foundation St env) [] tt.
Proof. intros [_ H _]. apply reads_go. by rewrite H. Qed.
Lemma local_uid_reads : foundation_caller -> reads (system_uid caller) [] tt.
Proof. intros [_ _ H]. apply reads_go. by rewrite H. Qed.
Lemma local_may_continue : foundation_caller -> reads (may_continue St env caller) [] tt.
Proof. intros [H1 H2 _]. apply reads_go. by rewrite H1, H2. Qed.
Lemma reads_dev_id d : is_empty16 d = false -> reads dev_id [IStr16 d] d.
Proof. intros H. unfold dev_id. rewrite <- (app_nil_r [_]). eapply reads_then; [apply reads_str16|]. eapply reads_skip; [by apply reads_go|]. apply reads_done. Qed.
Lemma reads_calling_uid u : 0 <= u -> reads calling_uid [IInt u] u.
Proof. intros H. unfold calling_uid. rewrite <- (app_nil_r [_]). eapply reads_then; [apply reads_int0|]. eapply reads_skip; [apply reads_go; by apply Z.ltb_ge|]. apply reads_done. Qed.
Lemma reads_listener o : reads listener [IObject o] o.
Proof. apply reads_nonnull, reads_object. Qed.
Lemma reads_listener_type t : t <> "" -> reads listener_type [IStr t] t.
Proof. intros H. unfold listener_type. rewrite <- (app_nil_r [_]). eapply reads_then; [apply reads_str0|]. eapply reads_skip; [apply reads_go; by apply String.eqb_neq|]. apply reads_done. Qed.

Ltac read_local := repeat first
  [ eapply reads_skip; [solve [by apply foundation_reads | by apply local_uid_reads | by apply local_may_continue]|]; cbv beta iota zeta
  | eapply reads_then; [solve [by apply reads_dev_id | by apply reads_calling_uid | apply reads_listener | by apply reads_listener_type]|]; cbv beta iota zeta
  | read_value ].
Lemma local_call code w l h act (m : St -> Ran) s : foundation_caller -> localFuncsMap_ St build serve env caller code = Some h -> writes w l -> reads h l act ->
  through_transact act s = m s -> transact St probe code w s <> Hangs St -> eventually (fun f => transact St (deliver f) code w s) (m s).
Proof. intros Hd Hf Hw Hr. apply call_arrives with (l := l) (h := h); [by rewrite local_func|done|by apply reads_whole]. Qed.
Ltac in_local := cbn; repeat match goal with H : _ build = true |- _ => rewrite H end; reflexivity.

Lemma sync_arrives d b t u s : foundation_caller -> local_ok (StartSyncRemoteMissions d b t u) ->
  Proxy_StartSyncRemoteMissions St probe true d b t u s <> Hangs St -> eventually (fun f => Proxy_StartSyncRemoteMissions St (deliver f) true d b t u s) (direct (StartSyncRemoteMissions d b t u) s).
Proof.
  intros Hd (Hb & Hu & He & H0). unfold Proxy_StartSyncRemoteMissions, with_remote. eapply local_call; [done|in_local|write_values|unfold StartSyncRemoteMissionsInner; read_local; apply reads_done|].
  rewrite text_back by done. apply call_int_direct.
Qed.
Lemma stop_sync_local_arrives d u s : foundation_caller -> local_ok (StopSyncRemoteMissions d u) ->
  Proxy_StopSyncRemoteMissions St probe true d u s <> Hangs St -> eventually (fun f => Proxy_StopSyncRemoteMissions St (deliver f) true d u s) (direct (StopSyncRemoteMissions d u) s).
Proof.
  intros Hd (Hb & Hu & He & H0). unfold Proxy_StopSyncRemoteMissions, with_remote. eapply local_call; [done|in_local|write_values|unfold StopSyncRemoteMissionsInner; read_local; apply reads_done|].
  rewrite text_back by done. apply call_int_direct.
Qed.
Lemma set_state_arrives n x u s : foundation_caller -> MISSION_MANAGER build = true ->
  Proxy_SetMissionContinueState St probe true n x u s <> Hangs St -> eventually (fun f => Proxy_SetMissionContinueState St (deliver f) true n x u s) (direct (SetMissionContinueState n x u) s).
Proof.
  intros Hd Hb. unfold Proxy_SetMissionContinueState, with_remote. eapply local_call; [done|in_local|write_values| |apply call_int_direct].
  unfold SetMissionContinueStateInner. eapply reads_skip; [apply reads_go; by rewrite (fc_uid Hd)|]. read_local. apply reads_done.
Qed.
Lemma share_local_arrives d i s : foundation_caller -> local_ok (StartRemoteShareForm d i) -> Proxy_StartRemoteShareForm St probe true d i s <> Hangs St ->
  eventually (fun f => Proxy_StartRemoteShareForm St (deliver f) true d i s) (direct (StartRemoteShareForm d i) s).
Proof.
  intros Hd (Hb & Hn & Hi). unfold Proxy_StartRemoteShareForm, share_form. destruct (String.eqb_spec d "") as [|_]; [done|]. cbn [negb].
  eapply local_call; [done|unfold localFuncsMap_; in_local|write_values|unfold StartRemoteShareFormInner; read_local; apply reads_done|apply call_int_direct].
Qed.
Lemma continue_bundle_local src dst b o ps s : foundation_caller -> send_ok ps -> Proxy_ContinueMissionOfBundleName St probe true src dst b (Some o) ps s <> Hangs St ->
  eventually (fun f => Proxy_ContinueMissionOfBundleName St (deliver f) true src dst b (Some o) ps s) (through_transact (continue_bundle St serve env caller src dst b o ps "" "") s).
Proof.
  intros Hd Hp. unfold Proxy_ContinueMissionOfBundleName, with_object, with_remote. eapply call_arrives; [by rewrite local_func|write_values| |done].
  unfold ContinueMissionOfBundleNameInner. eapply reads_skip_all; [by apply local_may_continue|]. do 3 (eapply reads_then_all; [apply reads_str|]).
  eapply reads_then_all; [apply reads_nonnull, reads_object|]. eapply reads_then_all; [by apply reads_nonnull, reads_parcelable|]. do 2 apply reads_end. apply reads_whole, reads_done.
Qed.
(** The name of the bundle that the stub reads is not written by the proxy. *)
Lemma complete_arrives d n b s : foundation_caller -> is_empty16 d = false -> Proxy_NotifyCompleteContinuation St probe true d n b s <> Hangs St ->
  eventually (fun f => Proxy_NotifyCompleteContinuation St (deliver f) true d n b s) (Returned (ret 0) (snd (notify_complete St serve env d n b "" s))).
Proof.
  intros Hd He Hp. unfold Proxy_NotifyCompleteContinuation in *.
  assert (writes (write_all [w_str16 d; w_int n; w_bool b]) ([IStr16 d] ++ [IInt n] ++ [IInt (if b then 1 else 0)] ++ [])) as Hw by write_values.
  assert (reads_all (NotifyCompleteContinuationInner St serve env) ([IStr16 d] ++ [IInt n] ++ [IInt (if b then 1 else 0)] ++ []) (notify_complete St serve env d n b "")) as Hr.
  { unfold NotifyCompleteContinuationInner. eapply reads_skip_all; [by apply foundation_reads|]. eapply reads_then_all; [apply reads_str16|]. eapply reads_skip_all; [by apply reads_go|].
    eapply reads_then_all; [apply reads_int|]. eapply reads_then_all; [apply reads_bool|]. apply reads_end, reads_whole, reads_done. }
  destruct (transact_ok (fun _ => ret 0) (fun _ => ret 0) NOTIFY_COMPLETE_CONTINUATION _ _ _ _ s (local_func NOTIFY_COMPLETE_CONTINUATION Hd) Hw Hr Hp) as [f0 E].
  exists f0. intros f Hf. rewrite E by done. unfold notify_complete. done.
Qed.

(** A call of the ability manager. *)
Lemma foundation_calls c m s : foundation_caller -> local_ok c -> meaning_local c = Some m -> Proxy_call St probe true c s <> Hangs St ->
  eventually (fun f => Proxy_call St (deliver f) true c s) (m s).
Proof.
  intros Hd Hok Hm. destruct c; try done; cbn [Proxy_call].
  all: try match goal with o : option Z |- _ => destruct o; [|done] end.
  all: try (injection Hm as <-).
  all: try lazymatch goal with
    | |- context [Proxy_StartSyncRemoteMissions] => by apply sync_arrives
    | |- context [Proxy_StopSyncRemoteMissions] => by apply stop_sync_local_arrives
    | |- context [Proxy_SetMissionContinueState] => by apply set_state_arrives
    | |- context [Proxy_StartRemoteShareForm] => by apply share_local_arrives
    | |- context [Proxy_ContinueMissionOfBundleName] => by apply continue_bundle_local
    | |- context [Proxy_NotifyCompleteContinuation] => by apply complete_arrives
    end.
  all: cbn [local_ok] in Hok; destruct_and?.
  all: cbv delta [Proxy_StartRemoteAbility Proxy_ContinueMission Proxy_StartContinuation Proxy_ConnectRemoteAbility Proxy_DisconnectRemoteAbility Proxy_RegisterDSchedEventListener
    Proxy_UnRegisterDSchedEventListener Proxy_RegisterMissionListener Proxy_RegisterOnListener Proxy_RegisterOffListener Proxy_UnRegisterMissionListener Proxy_StartRemoteAbilityByCall
    Proxy_ReleaseRemoteAbility Proxy_StartRemoteFreeInstall Proxy_StopRemoteExtensionAbility with_object with_remote w_remote] beta iota.
  all: eapply local_call; [done|in_local|write_values|read_local; apply reads_done|first [apply call_int_direct | done]].
Qed.

(** C5: A call of the interface that answers with a result code, made through the proxy by
    the service of another device or by the ability manager of this one, is the call of the
    service, provided that it can be written ([remote_ok], [local_ok]: its wants, numbers and
    extra information are what their types hold, its device names are not empty, the build
    has it), that objects it needs are there, and that the message fits. Then the stub ends
    with enough fuel; the service gets each argument as far as the protocol carries it, its
    result is the result of the call, and no argument is mixed up; nothing else happens. A
    want loses its remote objects; of a remote caller the message carries its user, device
    and application, and its token and the version of its service where the call has them.
    Calls that bring more than a result code back (missions, snapshots, components, the
    request for missions) have no meaning here; messages that no proxy writes can keep the
    stub from ending. *)
Theorem proxy_calls_service c m s :
  device_caller /\ remote_ok c /\ meaning_remote c = Some m \/ foundation_caller /\ local_ok c /\ meaning_local c = Some m ->
  Proxy_call St probe true c s <> Hangs St -> eventually (fun f => Proxy_call St (deliver f) true c s) (m s).
Proof. intros [(Hd & Ho & Hm)|(Hd & Ho & Hm)]; [by apply device_calls|by apply foundation_calls]. Qed.

(** *** Values that come back *)

Lemma transact_values failed decode code w l h act s (x : Ran) : funcsMap St build serve env caller (code_number code) = Some h -> writes w l -> reads h l act ->
  (let '(error, reply, s) := act s in if negb (error =? ERR_NONE) then Returned (failed error) s else Returned (decode reply) s) = x ->
  transact_as St probe failed decode code w s <> Hangs St -> eventually (fun f => transact_as St (deliver f) failed decode code w s) x.
Proof. intros Hf Hw Hr <- Hp. apply (transact_ok failed decode code w l h act s); [done|done|by apply reads_whole|done]. Qed.

(** The missions of another device come back as the service found them, if there are at
    most twenty; so do those with which a device answers a request to synchronise. *)
Lemma missions_come_back d n s l s' : foundation_caller -> MISSION_MANAGER build = true -> utf8 d -> serve (GetMissionInfos d n) s = (mkRet 0 (O_missions l), s') ->
  Forall send_ok l -> len l <= GET_MAX_MISSIONS -> Proxy_GetMissionInfos St probe true d n s <> Hangs St ->
  eventually (fun f => Proxy_GetMissionInfos St (deliver f) true d n s) (Returned (mkRet 0 (O_missions l)) s').
Proof.
  intros Hd Hb Hu Hs Hl Hn. unfold Proxy_GetMissionInfos, with_remote. eapply transact_values; [by rewrite local_func; [in_local|]|write_values| |].
  - unfold GetMissionInfosInner. eapply reads_skip; [apply reads_go; by rewrite (fc_foundation Hd)|]. read_local. apply reads_done.
  - cbv beta. rewrite text_back, Hs by done. cbn [r_code r_out out_missions Z.eqb ERR_NONE]. unfold WriteMissionInfosToParcel. destruct (list_written R l Parcel_empty Hl) as (p & -> & Hp).
    rewrite items_empty in Hp. cbn [app] in Hp. rewrite <- (app_nil_r (list_wire l)) in Hp. unfold ReadMissionInfosFromParcel.
    destruct (list_read l (fun n p => (GetReadableBytes p <? n) || (GET_MAX_MISSIONS <? n)) p [] Hl Hn Hp) as (q & -> & _); [|done].
    intros q Hq. apply orb_false_iff. split; apply Z.ltb_ge; lia.
Qed.
Lemma synchronised_missions_come_back c s l s' : device_caller -> MISSION_MANAGER build = true ->
  serve (StartSyncMissionsFromRemote (mkCallerInfo (caller_uid c) (caller_pid c) (caller_callerType c) (caller_sourceDeviceId c) (caller_duid c) (caller_callerAppId c) []
    (caller_dmsVersion c) 0 JNull)) s = (mkRet 0 (O_dstb l), s') ->
  Forall mission_ok l -> len l <= GET_MAX_MISSIONS -> Proxy_StartSyncMissionsFromRemote St probe true c s <> Hangs St ->
  eventually (fun f => Proxy_StartSyncMissionsFromRemote St (deliver f) true c s) (Returned (mkRet 0 (O_dstb l)) s').
Proof.
  intros Hd Hb Hs Hl Hn. unfold Proxy_StartSyncMissionsFromRemote, with_remote, CallerInfoMarshalling. eapply transact_values; [rewrite remote_func by done; in_local|write_values| |].
  - unfold StartSyncMissionsFromRemoteInner, CallerInfoUnmarshalling. eapply reads_skip; [by apply remote_guard|]. read_values. apply reads_done.
  - cbv beta. rewrite Hs. cbn [r_code r_out out_dstb Z.eqb ERR_NONE negb]. destruct (roomy_write (IInt VERSION) Parcel_empty R) as (p & -> & Ep). cbn [mbind option_bind].
    unfold WriteDstbMissionInfosToParcel. destruct (list_written (SL := mission_laws R) R l p Hl) as (p2 & -> & Hp). rewrite Ep, items_empty in Hp. cbn [app Z.eqb negb] in *.
    destruct (read_int _ _ _ Hp) as (q1 & E1 & H1). unfold ReadInt32_or0. rewrite E1. cbn [from_option id]. rewrite <- (app_nil_r (list_wire l)) in H1. unfold ReadDstbMissionInfosFromParcel.
    destruct (list_read (SL := mission_laws R) l (fun n _ => GET_MAX_MISSIONS <? n) q1 [] Hl Hn H1) as (q & -> & _); [|done]. intros q Hq. apply Z.ltb_ge. lia.
Qed.
(** *** The client of a collaboration *)

#[local] Existing Instances CollabMessage_sendable ConnectOpt_sendable.
Definition message_of (i : PeerInfo) : CollabMessage :=
  mkCollabMessage (-1) (-1) (-1) (pi_deviceId i) (pi_bundleName i) (pi_abilityName i) (pi_moduleName i) (pi_serverId i) "".
Definition peer_texts (i : PeerInfo) : list string := [pi_deviceId i; pi_bundleName i; pi_moduleName i; pi_abilityName i; pi_serverId i].
Definition peer_wire (i : PeerInfo) : list Item := map (fun s => IStr16 (Str8ToStr16 s)) (peer_texts i).
Definition option_of (o : ConnectOption) (options parameters : ContinueSession.WantParams) : ConnectOpt :=
  mkConnectOpt (needSendData o) (needSendStream o) (needReceiveStream o) options parameters.
Definition flag_item (b : bool) : Item := IInt (if b then 1 else 0).
Definition option_wire (o : ConnectOption) (options parameters : ContinueSession.WantParams) : list Item :=
  flag_item (needSendData o) :: flag_item (needSendStream o) :: flag_item (needReceiveStream o) :: IMark :: send_wire options ++ IMark :: send_wire parameters.

Lemma writes_peer i : writes (w_marked (PeerInfo_Marshalling i)) (IMark :: peer_wire i).
Proof.
  intros p. unfold w_marked, PeerInfo_Marshalling. destruct (roomy_write IMark p R) as (p1 & -> & E1). cbn [mbind option_bind]. eexists. split; [reflexivity|].
  rewrite !(roomy_put _ _ R), E1, <- !app_assoc. done.
Qed.
Lemma put_parcelable_items x p : send_ok x -> items (put_parcelable x p) = items p ++ IMark :: send_wire x.
Proof. intros Hx. unfold put_parcelable. destruct (parcelable_written R x p Hx) as (p' & -> & E). exact E. Qed.
Lemma writes_option o x y : send_ok x -> send_ok y -> writes (w_marked (ConnectOption_Marshalling o x y)) (IMark :: option_wire o x y).
Proof.
  intros Hx Hy p. unfold w_marked, ConnectOption_Marshalling, put_bool. destruct (roomy_write IMark p R) as (p1 & -> & E1). cbn [mbind option_bind]. eexists. split; [reflexivity|].
  rewrite !put_parcelable_items, !(roomy_put _ _ R), E1, <- !app_assoc by done. done.
Qed.
Lemma marked_reads {A} {SA : Sendable A} code l (x : A) :
  (forall q r, items q = l ++ r -> exists q', Unmarshalling q = Some (x, q') /\ items q' = r /\ GetDataSize q' = GetDataSize q) -> reads (nonnull code (Parcelable A)) (IMark :: l) x.
Proof.
  intros H. apply reads_nonnull, reads_plain. intros q r Hq. destruct (read_one _ _ _ Hq) as (q1 & E & H1 & S1). destruct (H q1 r H1) as (q2 & E2 & H2 & S2).
  exists q2. split; [|split; [done|congruence]]. intros f. unfold Parcelable, ReadParcelable. cbn [kind] in E. by rewrite E, E2.
Qed.
Lemma reads_peer code i : Forall utf8 (peer_texts i) -> reads (nonnull code (Parcelable CollabMessage)) (IMark :: peer_wire i) (message_of i).
Proof.
  intros Hu. apply marked_reads. intros q r Hq. cbn in Hq. destruct i as [a b c d e]. unfold peer_texts in Hu. cbn in *. rewrite !Forall_cons in Hu. destruct Hu as (? & ? & ? & ? & ? & _).
  unfold CollabMessage_ReadFromParcel. do 5 (destruct (read_str16_data _ _ _ Hq) as (? & -> & Hq' & ?); clear Hq; rename Hq' into Hq). eexists. split; [|split; [exact Hq|congruence]].
  by rewrite !text_back.
Qed.
Lemma read_flag b q r : items q = flag_item b :: r -> exists q', default (false, q) (ReadBool q) = (b, q') /\ items q' = r /\ GetDataSize q' = GetDataSize q.
Proof. intros H. destruct (read_one _ _ _ H) as (q' & E & ?). exists q'. split; [|done]. unfold ReadBool, ReadInt32. cbn [kind flag_item] in E. rewrite E. by destruct b. Qed.
Lemma reads_option code o x y : send_ok x -> send_ok y -> reads (nonnull code (Parcelable ConnectOpt)) (IMark :: option_wire o x y) (option_of o x y).
Proof.
  intros Hx Hy. apply marked_reads. intros q r Hq. unfold option_wire in Hq. cbn [app] in Hq. rewrite <- app_assoc in Hq. cbn [Unmarshalling ConnectOpt_sendable]. unfold ConnectOpt_ReadFromParcel.
  do 3 (destruct (read_flag _ _ _ Hq) as (? & -> & Hq' & ?); clear Hq; rename Hq' into Hq).
  destruct (parcelable_read x _ _ Hx Hq) as (q1 & -> & Hq1 & ?). destruct (parcelable_read y _ _ Hy Hq1) as (q2 & -> & Hq2 & ?). eexists. split; [reflexivity|]. split; [done|congruence].
Qed.

(** The request of an application for a collaboration arrives at the manager of
    collaborations with the names, the peer and the options that the application gave. *)
Lemma client_collab_arrives session socket local peer o x y token listener s :
  IsLocalCalling caller = true -> Forall utf8 (peer_texts local) -> Forall utf8 (peer_texts peer) -> send_ok x -> send_ok y ->
  Client_CollabMission St probe true session socket local peer o x y token listener s <> Hangs St ->
  eventually (fun f => Client_CollabMission St (deliver f) true session socket local peer o x y token listener s)
    (through_transact (with_token St serve caller (M_CollabMission
      (collab_info St env session token (collab_source caller (message_of local) (Some socket)) (message_of peer) (option_of o x y) None))) s).
Proof.
  intros Hl Hu Hv Hx Hy. unfold Client_CollabMission, with_service. eapply call_arrives; [unfold funcsMap; rewrite code_back; cbn; rewrite Hl; reflexivity| | |done].
  - repeat (eapply writes_all_cons; [solve [apply writes_item, R | apply writes_peer | by apply writes_option]|]). apply writes_all_nil.
  - unfold CollabMissionInner. eapply reads_skip_all; [apply reads_go; by rewrite Hl|]. eapply reads_then_all; [apply reads_int|]. eapply reads_then_all; [apply reads_str|].
    do 2 (eapply reads_then_all; [by apply reads_peer|]). eapply reads_then_all; [by apply reads_option|]. eapply reads_then_all; [apply reads_str|].
    intros q _ _. exists q. by exists O.
Qed.
End Calls.

(** ** Who may call *)

Section Guarded.
Context {T16 : Text16} {IP : @IpcParcel T16} {IC : IpcCodes} {NL : Nlohmann} {VE : VersionApi} {W : WantApi} {CW : CollabWantApi} {PW : PermWantApi}
  {WW : WantWire} {VA : ValueApi} {CV : ConvertEnv} {EA : ElementApi} {SO : SchedObjects}.
Variable St : Type.
Variable build : Build.
Variable serve : Call -> St -> Ret * St.
Variable env : StubEnv St.
Variable caller : Caller.

(** What a process of this device may do: all that concerns abilities and missions is for
    the ability manager (some of it for the desktop as well), events and components are for
    processes of the system, applications may ask for the state of continuations and take
    part in collaborations. *)
Definition local_allowed (c : Code) : bool :=
  match c with
  | START_REMOTE_ABILITY | START_CONTINUATION | NOTIFY_COMPLETE_CONTINUATION | CONNECT_REMOTE_ABILITY | DISCONNECT_REMOTE_ABILITY | START_REMOTE_ABILITY_BY_CALL | RELEASE_REMOTE_ABILITY
  | START_REMOTE_SHARE_FORM | START_REMOTE_FREE_INSTALL | STOP_REMOTE_EXTERNSION_ABILITY | CONTINUE_MISSION | CONTINUE_MISSION_OF_BUNDLENAME | REGISTER_MISSION_LISTENER | REGISTER_ON_LISTENER
  | REGISTER_OFF_LISTENER | UNREGISTER_MISSION_LISTENER | START_SYNC_MISSIONS | STOP_SYNC_MISSIONS => IsFoundationCall St env
  | GET_MISSION_INFOS | GET_REMOTE_MISSION_SNAPSHOT_INFO => IsFoundationCall St env || IsSceneBoardCall St env
  | SET_MISSION_CONTINUE_STATE => CheckCallingUid caller || IsSceneBoardCall St env
  | REGISTER_DSCHED_EVENT_LISTENER | UNREGISTER_DSCHED_EVENT_LISTENER | GET_DISTRIBUTED_COMPONENT_LIST => CheckCallingUid caller
  | GET_CONTINUE_INFO | GET_DSCHED_EVENT_INFO | CONTINUE_STATE_CALLBACK_REGISTER | CONTINUE_STATE_CALLBACK_UNREGISTER
  | COLLAB_MISSION | NOTIFY_COLLAB_PREPARE_RESULT | NOTIFY_REJECT_REASON | NOTIFY_CLOSE_COLLAB_SESSION | NOTIFY_START_ABILITY_RESULT | GET_SINK_COLLAB_VERSION => true
  | _ => false
  end.
(** What a process of another device may do: it has to be one of the system. *)
Definition remote_allowed (c : Code) : bool :=
  match c with
  | START_ABILITY_FROM_REMOTE | CONNECT_ABILITY_FROM_REMOTE | DISCONNECT_ABILITY_FROM_REMOTE =>
      if other_system St build env caller then CheckDmsExtensionCallingUid caller else CheckCallingUid caller
  | STOP_ABILITY_FROM_REMOTE => other_system St build env caller && CheckDmsExtensionCallingUid caller
  | NOTIFY_ABILITY_LIFECYCLE_CHANGED_FROM_REMOTE => CheckDmsExtensionCallingUid caller
  | SEND_RESULT_FROM_REMOTE | NOTIFY_CONTINUATION_RESULT_FROM_REMOTE | NOTIFY_DSCHED_EVENT_RESULT_FROM_REMOTE | NOTIFY_PROCESS_DIED_FROM_REMOTE | START_SYNC_MISSIONS_FROM_REMOTE
  | STOP_SYNC_MISSIONS_FROM_REMOTE | NOTIFY_MISSIONS_CHANGED_FROM_REMOTE | CONTINUE_MISSION | CONTINUE_MISSION_OF_BUNDLENAME | START_ABILITY_BY_CALL_FROM_REMOTE
  | RELEASE_ABILITY_FROM_REMOTE | NOTIFY_STATE_CHANGED_FROM_REMOTE | START_SHARE_FORM_FROM_REMOTE | START_FREE_INSTALL_FROM_REMOTE | NOTIFY_COMPLETE_FREE_INSTALL_FROM_REMOTE
  | STOP_EXTERNSION_ABILITY_FROM_REMOTE => CheckCallingUid caller
  | _ => false
  end.
Definition allowed (n : Z) : bool := match code_of n with None => false | Some c => if IsLocalCalling caller then local_allowed c else remote_allowed c end.

(** The function of a code refuses a caller, whatever the message holds. *)
Definition refuses (h : Handler St) : Prop := forall f p, (exists code, h f p = Stop code) \/ exists act p', h f p = Go act p' /\ forall s, snd (act s) = s.
Lemma refuses_if {A} (b : bool) code (k : A -> Handler St) x : b = true -> refuses (then_read (if b then stop code else done_with x) k).
Proof. intros -> f p. left. by exists code. Qed.
Lemma refuses_at_once (act : Act St) : (forall s, snd (act s) = s) -> refuses (done_with act).
Proof. intros H f p. right. by exists act, p. Qed.
Lemma refuses_adapter a keep : CheckDmsExtensionCallingUid caller = false -> refuses (adapter_inner St serve caller a keep).
Proof. intros H f p. left. unfold adapter_inner. rewrite H. by eexists. Qed.
Ltac refuse := first
  [ apply refuses_if; unfold IsFoundationCall, IsSceneBoardCall in *; by repeat match goal with H : _ = false |- _ => rewrite H end
  | by apply refuses_adapter ].

Lemma local_refused c h : IsLocalCalling caller = true -> localFuncsMap_ St build serve env caller c = Some h -> local_allowed c = false -> refuses h.
Proof.
  intros Hl Hh Ha. unfold localFuncsMap_ in Hh. destruct c; cbn in Hh, Ha; try done; repeat case_match; simplify_eq; try refuse.
  all: try (apply orb_false_iff in Ha as [? ?]; refuse).
  all: apply refuses_if; unfold IsFoundationCall in *; rewrite Hl; unfold IsFoundationCall; by rewrite Ha.
Qed.
Lemma remote_refused c h : IsLocalCalling caller = false -> remoteFuncsMap_ St build serve env caller c = Some h -> remote_allowed c = false -> refuses h.
Proof.
  intros Hl Hh Ha. destruct c; cbn [remoteFuncsMap_ remote_allowed] in Hh, Ha; try done.
  all: repeat match type of Hh with context [if ?b then _ else _] => destruct b; [|done] end; injection Hh as <-.
  all: cbv delta [StartAbilityFromRemoteInner StopAbilityFromRemoteInner ConnectAbilityFromRemoteInner DisconnectAbilityFromRemoteInner StartShareFormFromRemoteInner] beta.
  all: try destruct (other_system St build env caller); try refuse.
  all: first [by apply refuses_at_once | by apply refuses_if; rewrite Hl, Ha | by rewrite Ha; apply refuses_at_once].
Qed.

(** C11: The stub of the scheduler service does nothing for a caller that may not
    call what it asks for, whatever its message holds: the answer is a code and the service
    stays as it is. The same holds for a message of another interface. *)
Theorem sched_stub_guarded f n data s : allowed n = false \/ EnforceInterfaceToken data = None ->
  exists code reply, OnRemoteRequest St build serve env caller f n data s = Some (code, reply, s).
Proof.
  intros H. unfold OnRemoteRequest. destruct (funcsMap St build serve env caller n) as [h|] eqn:Eh; [|by eexists _, _]. destruct H as [Ha | ->]; [|by eexists _, _].
  destruct (EnforceInterfaceToken data) as [p|]; [|by eexists _, _]. assert (refuses h) as Hr.
  { unfold allowed, funcsMap in *. destruct (code_of n) as [c|]; [|done]. cbn in Eh. destruct (IsLocalCalling caller) eqn:El; [by eapply local_refused|by eapply remote_refused]. }
  destruct (Hr f p) as [[code ->]|(act & p' & -> & Hs)]; [by eexists _, _|]. destruct (act s) as [[code reply] s'] eqn:E. specialize (Hs s). rewrite E in Hs. cbn in Hs. subst. by eexists _, _.
Qed.

(** The code that a client sends to connect an extension has no function in the stub. *)
Lemma extension_code_unknown f data s : OnRemoteRequest St build serve env caller f (code_number DSCHED_START_DEXTENSION) data s
  = Some (e_unknown St env (code_number DSCHED_START_DEXTENSION), Parcel_empty, s).
Proof.
  unfold OnRemoteRequest, funcsMap. rewrite code_back. cbn [mbind option_bind]. assert (localFuncsMap_ St build serve env caller DSCHED_START_DEXTENSION = None) as ->.
  - unfold localFuncsMap_. cbn. by repeat case_match.
  - by destruct (IsLocalCalling caller).
Qed.

(** *** Collaborations *)

(** What the message says about its sender does not matter. *)
Definition own_identity (m : CollabMessage) : Prop :=
  msg_uid m = GetCallingUid caller /\ msg_pid m = GetCallingPid caller /\ msg_accessToken m = i32 (GetCallingTokenID caller).
Lemma own_source m n : own_identity (collab_source caller m n).
Proof. done. Qed.
(** A reader that always comes to an end. *)
Definition ends {A} (m : Reader A) : Prop := forall f p, m f p <> Endless.
Lemma ends_need {A} (read : Parcel -> option (A * Parcel)) : ends (need read).
Proof. intros f p. unfold need. by destruct (read p) as [[]|]. Qed.
Lemma ends_stop_if b code : ends (stop_if b code).
Proof. intros f p. by destruct b. Qed.
Lemma ends_nonnull {A} code (m : Reader (option A)) : ends m -> ends (nonnull code m).
Proof. intros H f p. unfold nonnull, then_read. destruct (m f p) as [[]| |] eqn:E; [done..|]. by destruct (H f p). Qed.
Lemma ends_object : ends RemoteObject.
Proof. intros f p. unfold RemoteObject. by destruct (ReadRemoteObject p) as [[]|]. Qed.
Lemma ends_parcelable A {SA : Sendable A} : ends (Parcelable A).
Proof. intros f p. unfold Parcelable. by destruct (ReadParcelable p). Qed.
Lemma reader_cases {A B} (m : Reader A) (k : A -> Reader B) f p (P : Reading B -> Prop) :
  ends m -> (forall c, P (Stop c)) -> (forall x p', P (k x f p')) -> P (then_read m k f p).
Proof. intros H1 H2 H3. unfold then_read. specialize (H1 f p). destruct (m f p); by auto. Qed.

(** C12: A collaboration that an application asks for, with any message, is asked
    for in its own name: the user, the process and the token that the manager of
    collaborations gets are those of the calling process, never those that the message
    claims. Otherwise the request is refused and nothing happens. The answer always comes. *)
Theorem collab_in_own_name f code data s : code = COLLAB_MISSION \/ code = GET_SINK_COLLAB_VERSION ->
  exists result reply s', OnRemoteRequest St build serve env caller f (code_number code) data s = Some (result, reply, s') /\
    (s' = s \/ IsLocalCalling caller = true /\ exists info, own_identity (srcInfo_ info) /\
      (with_token St serve caller (M_CollabMission info) s = (result, reply, s') \/ with_token St serve caller (M_GetSinkCollabVersion info) s = (result, reply, s'))).
Proof.
  intros Hc. unfold OnRemoteRequest, funcsMap. rewrite code_back. cbn [mbind option_bind]. destruct (IsLocalCalling caller) eqn:El; [|destruct Hc as [-> | ->]; by eauto 6].
  set (P := fun r : Reading (Act St) => match r with
    | Go act _ => exists info, own_identity (srcInfo_ info) /\ (act = with_token St serve caller (M_CollabMission info) \/ act = with_token St serve caller (M_GetSinkCollabVersion info))
    | Stop _ => True
    | Endless => False
    end).
  assert (forall h p, localFuncsMap_ St build serve env caller code = Some h -> P (h f p)) as H.
  { intros h p Hh. destruct Hc as [-> | ->]; injection Hh as <-; unfold CollabMissionInner, GetSinkCollabVersionInner.
    all: repeat (apply (reader_cases _ _ _ _ P); [first [apply ends_stop_if | apply ends_need | apply ends_nonnull; first [apply ends_object | apply ends_parcelable]]|done|intros]).
    all: cbn; eexists; (split; [|by eauto]); apply own_source. }
  destruct (localFuncsMap_ St build serve env caller code) as [h|]; [|by eauto 6]. destruct (EnforceInterfaceToken data) as [p|]; [|by eauto 6]. specialize (H h p eq_refl).
  destruct (h f p) as [act p'|c|]; [|by eauto 6|done]. destruct (act s) as [[result reply] s'] eqn:E. exists result, reply, s'. split; [done|]. right. split; [done|].
  destruct H as (info & Hi & [-> | ->]); by eauto 6.
Qed.
End Guarded.

(** ** Witnesses *)

#[local] Existing Instances demo_text demo_text_laws demo_parcel demo_parcel_laws demo_value demo_convert demo_element demo_element_laws binary_nlohmann binary_nlohmann_laws.
#[local] Instance demo_ipc : IpcCodes := {| ERR_FLATTEN_OBJECT := 5; ERR_NULL_OBJECT := 7; ERR_INVALID_VALUE := 22 |}.
#[local] Instance demo_versions : VersionApi := {| SplitStr := fun s _ => [s]; StrToInt := fun _ => None; GetAppInfoFromDP := fun _ => inl 1 |}.
(** Of a want its element and its flags travel. *)
Definition demo_apply (w : DemoWant) (c : WantCall) : DemoWant :=
  match c with WSetFlags z => SetFlags w z | WSetElement e => SetElementName3 w e.1.1 e.1.2 e.2 | _ => w end.
#[local] Instance demo_wire : WantWire := {|
  want_view := fun w => {| wv_element := (w_device w, w_bundle w, w_ability w); wv_action := ""; wv_entities := []; wv_flags := w_flags w; wv_uri := ""; wv_params := [] |};
  want_GetDataType := fun _ => 0;
  want_calls := fun l => foldl demo_apply Want_new l;
  want_params := fun _ => [];
  want_set_params := fun w _ => w |}.
(** Other objects as texts. *)
Definition text_sendable {A} (to : A -> string) (back : string -> A) : Sendable A := {|
  Marshalling := fun x p => Write (IStr (to x)) p; Unmarshalling := fun p => '(s, p) ← ReadString p; Some (back s, p) |}.
#[local] Instance demo_objects : SchedObjects := {|
  AbilityInfo := string; CompatibleAbilityInfo := string; ConvertToCompatiableAbilityInfo := id; ConvertToAbilityInfo := id; ability_bundleName := id; ability_deviceId := fun _ => "";
  FormShareInfo := string; MissionSnapshot := string;
  send_want := text_sendable w_bundle (fun s => SetBundle Want_new s);
  send_params := text_sendable (fun _ => "") (fun _ => tt);
  send_element := text_sendable (fun e => el_bundle e) (fun s => mkElement "" s "" "");
  send_ability := text_sendable id id;
  send_form := text_sendable id id;
  send_snapshot := text_sendable id id;
  send_mission := text_sendable mi_label (fun s => mkMissionInfo 0 0 false s "" Want_new false) |}.
Lemma text_laws {A} (to : A -> string) (back : string -> A) : SendableLaws A (SA := text_sendable to back).
Proof.
  refine {| send_ok := fun x => back (to x) = x; send_wire := fun x => [IStr (to x)] |}.
  - intros x p _. eexists. split; reflexivity.
  - intros x [a b] r Hx Hq. cbn in Hq. subst b. eexists. cbn. rewrite Hx. split; [reflexivity|]. split; [done|]. cbn. unfold len. rewrite !length_app. cbn. lia.
Defined.
#[local] Instance demo_want_laws : SendableLaws Want := text_laws _ _.
#[local] Instance demo_wantparams_laws : SendableLaws ContinueSession.WantParams := text_laws _ _.
#[local] Instance demo_elementname_laws : SendableLaws Element := text_laws _ _.
#[local] Instance demo_ability_laws : SendableLaws CompatibleAbilityInfo := text_laws _ _.
#[local] Instance demo_form_laws : SendableLaws FormShareInfo := text_laws _ _.

(** A service that notes its calls and answers with their number. *)
Definition demo_serve (c : Call) (s : list Call) : Ret * list Call := (mkRet (len s) O_none, s ++ [c]).
Definition demo_stub : StubEnv (list Call) :=
  mkStubEnv _ demo_penv (fun _ => None) (fun _ _ => false) (fun _ _ _ => false) (fun _ _ => None) (fun _ b => b) (fun d => d) (fun _ => true) 0 (fun _ => 305) 0.
Definition demo_build : Build := mkBuild true true false.
Definition demo_peer : Caller := mkCaller false 5522 1 1 "A".
Definition demo_application : Caller := mkCaller true 20010 77 4294967295 "B".
Definition sent_want : DemoWant := mkDemoWant "B" "com.a" "Main" "" 8 [] [] [].
Definition sent_by : CallerInfo := mkCallerInfo 20010 77 0 "A" 3 "app" ["com.a"] 5 9 (JObject [(DMS_VERSION_ID, JString "5.0.0")]).
Definition sent_account : AccountInfo := mkAccountInfo 1 ["g"] "user" 100.
Definition sent_call : Call := StartAbilityFromRemote sent_want "com.a" 6 sent_by sent_account.
Definition started_by : CallerInfo := mkCallerInfo 20010 (-1) CALLER_TYPE_HARMONY "A" (-1) "app" [] (-1) 9 (JObject [(DMS_VERSION_ID, JString "5.0.0")]).
Lemma demo_device_caller : device_caller (list Call) demo_build demo_stub demo_peer.
Proof. by split. Qed.
Lemma sent_ok : remote_ok demo_build sent_call.
Proof.
  split; [|split; [reflexivity|split]].
  - split; [repeat split; constructor|unfold is_u32; cbn; lia|]. split; constructor.
  - unfold numbers_ok, is_u32, is_i32. cbn. lia.
  - apply nl_wf_members; [|repeat constructor; done]. repeat (apply mset_sorted). constructor.
Qed.
Lemma proxy_calls_service_witness :
  eventually (fun f => Proxy_call (list Call) (OnRemoteRequest (list Call) demo_build demo_serve demo_stub demo_peer f) true sent_call [])
    (Returned (list Call) (mkRet 0 O_none) [StartAbilityFromRemote sent_want "com.a" 6 started_by sent_account]).
Proof.
  refine (proxy_calls_service demo_writes demo_no_range (list Call) demo_build demo_serve demo_stub demo_peer sent_call _ [] (or_introl (conj demo_device_caller (conj _ eq_refl))) _).
  - exact sent_ok.
  - unfold Proxy_call, Proxy_StartAbilityFromRemote, with_remote, transact, transact_as, probe. by lazy.
Defined.
(** An application of another device asks for an ability. *)
Lemma sched_stub_guarded_witness : exists code reply,
  OnRemoteRequest (list Call) demo_build demo_serve demo_stub (mkCaller false 20010 77 1 "A") 100 (code_number START_ABILITY_FROM_REMOTE) ([], [IToken DMS_STUB_INTERFACE_TOKEN]) []
  = Some (code, reply, []).
Proof. apply sched_stub_guarded. left. reflexivity. Defined.
(** An application asks for the version of the collaborations of another device. *)
Lemma collab_in_own_name_witness : exists result reply s',
  OnRemoteRequest (list Call) demo_build demo_serve demo_stub demo_application 1 (code_number GET_SINK_COLLAB_VERSION)
    ([], [IToken DMS_STUB_INTERFACE_TOKEN; IInt 3; IStr "A"; IStr "t"; IObject 4]) [] = Some (result, reply, s') /\
  (s' = [] \/ IsLocalCalling demo_application = true /\ exists info, own_identity demo_application (srcInfo_ info) /\
    (with_token (list Call) demo_serve demo_application (M_CollabMission info) [] = (result, reply, s')
     \/ with_token (list Call) demo_serve demo_application (M_GetSinkCollabVersion info) [] = (result, reply, s'))).
Proof. apply collab_in_own_name. by right. Defined.
