(* ===== verification/MissionSync.v ===== *)
(** The missions of other devices and their pictures
    (services/dtbschedmgr/src/mission): the manager distributed_sched_mission_manager.cpp,
    its database distributed_data_storage.cpp, the pictures snapshot.cpp, the listeners
    distributed_data_change_listener.cpp and distributed_mission_change_listener.cpp, the
    functions of the service and of the adapter that only call them.

    A device that shows the missions of another one asks it to send them, keeps them in a
    table and tells its listeners when they change. Pictures travel in a database.

    Tasks of the three kinds of event handlers wait in one list and are run in any order.
    Calls of other services and of other devices are recorded; what they answer is given
    for each step. A pointer to the service of another device is never null: the proxy is
    made from an object that is there. *)

From S2P Require Import Prelude StdMap SchedUtils SchedErrors Json ContinueInfo IpcParcel RemoteAbility ContinueSession SchedWire SchedIpc BundleStore.
#[local] Open Scope string_scope.
#[local] Open Scope list_scope.
#[local] Open Scope Z_scope.

Definition MAX_CACHED_ITEM : Z := 10.
Definition MAX_RETRY_TIMES : Z := 15.
Definition DELETE_DATA_STORAGE : string := "DeleteDataStorage".
Definition NET_STATE : Z := 0.
Definition PIXEL_MAP_MAX_BUFFER_SIZE : Z := 600 * 1024.
Definition INT_BYTE : Z := 4.
Definition RETRY_TIMES_WAIT_KV_DATA : nat := 30.
Definition RETRY_TIMES_GET_KVSTORE : nat := 5.
Definition maxSplitVars : Z := 2.
Definition GET_REMOTE_DMS_FAIL : Z := 29360174.

(** ** Parameters *)

(** The bytes of a parcel. *)
Class ParcelBytes `{IpcParcel} := {
  parcel_bytes : Parcel -> list Z;
  (** [ReadBuffer] of all that can be read, and [WriteBuffer] into a new parcel. *)
  ReadBuffer : Parcel -> option (list Z);
  parcel_from : list Z -> option Parcel;
  GetDataCapacity : Parcel -> Z;
  SetDataCapacity : Z -> Parcel -> option Parcel;
}.
(** Pictures: a shared pointer to a pixel map, and its form as a JPEG. *)
Class Media := { PixelMap : Type; no_pixels : PixelMap; is_null : PixelMap -> bool; pack_jpeg : PixelMap -> list Z; decode_jpeg : list Z -> option PixelMap }.

(** The database of pictures. *)
Class PictureStore := {
  PKv : Type;
  pk_GetSingleKvStore : PKv -> Status * bool * PKv;
  pk_Subscribe : PKv -> Status * PKv;
  pk_UnSubscribe : PKv -> Status * PKv;
  pk_Close : PKv -> Status * PKv;
  pk_DeleteStore : PKv -> Status * PKv;
  pk_Put : string -> list Z -> PKv -> Status * PKv;
  pk_Delete : string -> PKv -> Status * PKv;
  pk_RemoveDeviceData : string -> PKv -> Status * PKv;
  (** The answer of a device may not come in time ([None]). *)
  pk_Get : string -> string -> PKv -> option (Status * list Z);
}.
(** The order of the texts of 16 bits. *)
Class Text16Key `{Text16} := { key16 :: MapKey string16; key16_laws :: MapKeyLaws string16; key16_eq : forall a b : string16, same_key a b = true -> a = b }.

(** ** Pictures *)

Section Pictures.
Context {T16 : Text16} {IP : @IpcParcel T16} {IC : IpcCodes} {PB : ParcelBytes} {ME : Media}.
Notation Snapshot := (Snapshot PixelMap).

Definition Rect_Marshalling (r : Rect) (p : Parcel) : option Parcel :=
  let '(left_, top_, right_, bottom_) := r in
  p ← Write (IInt left_) p; p ← Write (IInt top_) p; p ← Write (IInt right_) p; Write (IInt bottom_) p.
Definition Rect_Unmarshalling (p : Parcel) : option (Rect * Parcel) :=
  let '(left_, p) := ReadInt32_or0 p in
  let '(top_, p) := ReadInt32_or0 p in
  let '(right_, p) := ReadInt32_or0 p in
  let '(bottom_, p) := ReadInt32_or0 p in
  Some (left_, top_, right_, bottom_, p).
#[export] Instance Rect_sendable : Sendable Rect := {| Marshalling := Rect_Marshalling; Unmarshalling := Rect_Unmarshalling |}.

Definition bool_item (b : bool) : Item := IInt (if b then 1 else 0).
(** The parcel inside: all members but the picture. *)
Definition snapshot_info (s : Snapshot) (p : Parcel) : option Parcel :=
  p ← Write (IInt (version_ _ s)) p;
  p ← Write (IInt (orientation_ _ s)) p;
  p ← WriteParcelable_maybe (rect_ _ s) p;
  p ← Write (bool_item (reducedResolution_ _ s)) p;
  p ← Write (INum WFloat (scale_ _ s)) p;
  p ← Write (bool_item (isRealSnapshot_ _ s)) p;
  p ← Write (IInt (windowingMode_ _ s)) p;
  p ← Write (IInt (systemUiVisibility_ _ s)) p;
  p ← Write (bool_item (isTranslucent_ _ s)) p;
  p ← WriteParcelable_maybe (windowBounds_ _ s) p;
  p ← Write (IStr16 (appLabel_ _ s)) p;
  p ← Write (IStr16 (abilityLabel_ _ s)) p;
  p ← Write (INums W8 (icon_ _ s)) p;
  p ← Write (IStr16 (secAppLabel_ _ s)) p;
  p ← Write (IStr16 (secAbilityLabel_ _ s)) p;
  p ← Write (INums W8 (secIcon_ _ s)) p;
  Write (IStr16 (sourceDeviceTips_ _ s)) p.
Definition WriteSnapshotInfo (s : Snapshot) (data : Parcel) : option Parcel :=
  parcel ← snapshot_info s Parcel_empty;
  let infoSize := GetReadableBytes parcel in
  infoBuffer ← ReadBuffer parcel;
  data ← Write (IInt (i32 (u32 infoSize))) data;
  Write (IBytes infoBuffer) data.
(** The pixel map is there: a snapshot without one is refused before. *)
Definition WritePixelMap (s : Snapshot) (data : Parcel) : option Parcel :=
  let byteStream := pack_jpeg (pixelMap_ _ s) in
  let l := len byteStream in
  if PIXEL_MAP_MAX_BUFFER_SIZE <? l then None
  else
    let minCapacity := GetReadableBytes data + l + INT_BYTE in
    let minCapacity := if negb (minCapacity mod INT_BYTE =? 0) then minCapacity + INT_BYTE else minCapacity in
    data ← (if GetDataCapacity data <? minCapacity then SetDataCapacity minCapacity data else Some data);
    data ← Write (IInt (i32 (u32 l))) data;
    Write (IBytes byteStream) data.
Definition MissionSnapshotSequence (s : Snapshot) (data : Parcel) : Z + Parcel :=
  match WriteSnapshotInfo s data with
  | None => inl ERR_FLATTEN_OBJECT
  | Some data => match WritePixelMap s data with None => inl ERR_FLATTEN_OBJECT | Some data => inr data end
  end.

Definition ReadUInt8Vector (p : Parcel) : option (list Z * Parcel) := ReadNums W8 p.
Definition FillSnapshot (p : Parcel) : option Snapshot :=
  '(version, p) ← ReadInt32 p;
  '(orientation, p) ← ReadInt32 p;
  let '(rect, p) := ReadParcelable p in
  '(reduced, p) ← ReadBool p;
  '(scale, p) ← ReadNum WFloat p;
  '(isRealSnapshot, p) ← ReadBool p;
  '(windowingMode, p) ← ReadInt32 p;
  '(systemUiVisibility, p) ← ReadInt32 p;
  '(isTranslucent, p) ← ReadBool p;
  let '(windowBounds, p) := ReadParcelable p in
  let '(appLabel, p) := ReadString16_or_empty p in
  let '(abilityLabel, p) := ReadString16_or_empty p in
  '(icon, p) ← ReadUInt8Vector p;
  let '(secAppLabel, p) := ReadString16_or_empty p in
  let '(secAbilityLabel, p) := ReadString16_or_empty p in
  '(secIcon, p) ← ReadUInt8Vector p;
  let '(sourceDeviceTips, p) := ReadString16_or_empty p in
  Some (mkSnapshot _ version orientation rect reduced scale isRealSnapshot windowingMode systemUiVisibility isTranslucent windowBounds
    appLabel abilityLabel icon secAppLabel secAbilityLabel secIcon sourceDeviceTips no_pixels).
Definition CreatePixelMap (buffer : list Z) : option PixelMap := if len buffer =? 0 then None else decode_jpeg buffer.
Definition set_pixels (x : PixelMap) (s : Snapshot) : Snapshot :=
  mkSnapshot _ (version_ _ s) (orientation_ _ s) (rect_ _ s) (reducedResolution_ _ s) (scale_ _ s) (isRealSnapshot_ _ s) (windowingMode_ _ s) (systemUiVisibility_ _ s)
    (isTranslucent_ _ s) (windowBounds_ _ s) (appLabel_ _ s) (abilityLabel_ _ s) (icon_ _ s) (secAppLabel_ _ s) (secAbilityLabel_ _ s) (secIcon_ _ s) (sourceDeviceTips_ _ s) x.
(** The number of 32 bits at an offset. *)
Definition u32_at (data : list Z) (off : Z) : Z := le_val (slice data off INT_BYTE).
Definition Create (data : list Z) : option Snapshot :=
  let totalSize := len data in
  if totalSize <? INT_BYTE then None
  else
    let msgSize := u32_at data 0 in
    if (totalSize <=? msgSize) || (totalSize <=? msgSize + INT_BYTE) then None
    else
      dataParcel ← parcel_from (slice data INT_BYTE msgSize);
      snapShot ← FillSnapshot dataParcel;
      let remainSize := u32 (totalSize - msgSize - INT_BYTE) in
      if remainSize <? INT_BYTE then None
      else
        let off := INT_BYTE + msgSize in
        let pixelmapLen := u32_at data off in
        if (remainSize <=? pixelmapLen) || (remainSize <? pixelmapLen + INT_BYTE) then None
        else Some (match CreatePixelMap (slice data (off + INT_BYTE) pixelmapLen) with Some x => set_pixels x snapShot | None => snapShot end).
End Pictures.

(** ** The database of pictures *)

Record DataStorage := mkDataStorage { ds_handler : bool; ds_kvStorePtr : bool; ds_listener : bool; ds_waitTasks : nat }.
Definition DataStorage_new : DataStorage := mkDataStorage false false false 0.

Section Manager.
Context {T16 : Text16} {K16 : Text16Key} {IP : @IpcParcel T16} {IC : IpcCodes} {PB : ParcelBytes} {ME : Media} {PS : PictureStore} {W : WantApi} {VE : VersionApi}.
Notation Snapshot := (Snapshot PixelMap).

(** What is asked of other services, and their answers during one step. *)
Record SyncEnv := mkSyncEnv {
  m_uuidOf : string -> string;
  m_networkIdOf : string -> string;
  m_known : string -> bool;
  m_GetLocalDeviceId : option string;
  m_callingUid : Z;
  m_callingPid : Z;
  m_now : Z;
  m_PostTask : bool;
  m_IsCallerForeground : Z -> bool;
  (** The look-up of the service of a device. *)
  m_CheckSystemAbility : string -> option Z;
  (** The service of a device. *)
  m_StartSync : Z -> CallerInfo -> Z * list DstbMissionInfo;
  m_StopSync : Z -> CallerInfo -> Z;
  m_NotifyMissionsChanged : Z -> list DstbMissionInfo -> CallerInfo -> Z;
  (** The ability manager: [Connect], its missions, a picture, the listener. *)
  m_Connect : Z;
  m_GetMissionInfos : Z -> Z * list MissionInfo;
  m_GetMissionSnapshot : string -> Z -> Z * PixelMap;
  m_RegisterListener : Z;
  m_UnRegisterListener : Z;
  (** The services of the system: the manager of services, and whether the database is
      found at a try. *)
  m_samgr : bool;
  m_kvService : nat -> bool;
}.

(** Calls, in order: messages to listeners, observers of deaths, the services of devices. *)
Inductive SyncCall :=
  | CSend (listener code : Z) (data : Parcel)
  | CAddDeath (listener : Z)
  | CRemoveDeath (listener : Z)
  | CWatchDms (dms : Z)
  | CUnwatchDms (dms : Z)
  | CStartSync (dms : Z) (callerInfo : CallerInfo)
  | CStopSync (dms : Z) (callerInfo : CallerInfo)
  | CNotifyDms (dms : Z) (missionInfoSet : list DstbMissionInfo) (callerInfo : CallerInfo)
  | CRegisterMissionListener
  | CUnRegisterMissionListener
  | CUnSubscribe
  | CUnwatchKv.

Record ListenerInfo := mkListenerInfo { called : bool; listenerSet : zmap unit }.
(** A picture with the times of its creation and of its last use. *)
Record Cached := mkCached { c_snapshot : Snapshot; createdTime_ : Z; lastAccessTime_ : Z }.

Inductive SyncTask :=
  | TDeleteDataStorage (uuid deviceId : string)
  | TRegisterMissionListener (missionInfoSet : list DstbMissionInfo)
  | TUnRegisterMissionListener
  | TMissionListenerDied (listener : Z)
  | TRemoteDmsDied (remote : Z)
  | TNotifyChanged (listeners : list Z) (devId : string16)
  | TRetryStartSync (dstDeviceId localDevId : string) (retryTimes : Z)
  | TRetryRegister (retryTimes : Z)
  | TDnetDied
  | TLocalMissionsChanged
  | TSnapshotChanged (missionId : Z)
  | TSnapshotDestroyed (missionId : Z)
  | TToRemote (deviceId : string) (missionInfoSet : list DstbMissionInfo) (callerInfo : CallerInfo).

(** The manager; [inited] says whether [Init] has made the handlers and the listener. *)
Record Sync := mkSync {
  inited : bool;
  deviceHandle_ : list (string * unit);
  deviceMissionInfos_ : list (string * list DstbMissionInfo);
  remoteSyncDeviceSet_ : list (string * unit);
  cachedSnapshotInfos_ : list (string * Cached);
  listenDeviceMap_ : list (string16 * ListenerInfo);
  storage_ : option DataStorage;
  pkv_ : PKv;
  isRegMissionChange_ : bool;
  remoteDmsMap_ : list (string * Z);
  tasks_ : list SyncTask;
  calls_ : list SyncCall;
}.
Definition Sync_new (kv : PKv) : Sync := mkSync false [] [] [] [] [] None kv false [] [] [].

Definition SM (A : Type) : Type := Sync -> A * Sync.
#[export] Instance SM_ret : MRet SM := fun _ x s => (x, s).
#[export] Instance SM_bind : MBind SM := fun _ _ k m s => let '(x, s) := m s in k x s.
Definition get {A} (f : Sync -> A) : SM A := fun s => (f s, s).
Definition get_sync : SM Sync := fun s => (s, s).
Definition modify (f : Sync -> Sync) : SM unit := fun s => (tt, f s).
Definition when_ (b : bool) (m : SM unit) : SM unit := if b then m else mret tt.
Fixpoint each {A} (f : A -> SM unit) (l : list A) : SM unit := match l with [] => mret tt | x :: l => _ ← f x; each f l end.

Definition set_inited (s : Sync) : Sync :=
  mkSync true (deviceHandle_ s) (deviceMissionInfos_ s) (remoteSyncDeviceSet_ s) (cachedSnapshotInfos_ s) (listenDeviceMap_ s) (storage_ s) (pkv_ s) (isRegMissionChange_ s) (remoteDmsMap_ s) (tasks_ s) (calls_ s).
Definition set_handles (x : list (string * unit)) (s : Sync) : Sync :=
  mkSync (inited s) x (deviceMissionInfos_ s) (remoteSyncDeviceSet_ s) (cachedSnapshotInfos_ s) (listenDeviceMap_ s) (storage_ s) (pkv_ s) (isRegMissionChange_ s) (remoteDmsMap_ s) (tasks_ s) (calls_ s).
Definition set_missions (x : list (string * list DstbMissionInfo)) (s : Sync) : Sync :=
  mkSync (inited s) (deviceHandle_ s) x (remoteSyncDeviceSet_ s) (cachedSnapshotInfos_ s) (listenDeviceMap_ s) (storage_ s) (pkv_ s) (isRegMissionChange_ s) (remoteDmsMap_ s) (tasks_ s) (calls_ s).
Definition set_devices (x : list (string * unit)) (s : Sync) : Sync :=
  mkSync (inited s) (deviceHandle_ s) (deviceMissionInfos_ s) x (cachedSnapshotInfos_ s) (listenDeviceMap_ s) (storage_ s) (pkv_ s) (isRegMissionChange_ s) (remoteDmsMap_ s) (tasks_ s) (calls_ s).
Definition set_cache (x : list (string * Cached)) (s : Sync) : Sync :=
  mkSync (inited s) (deviceHandle_ s) (deviceMissionInfos_ s) (remoteSyncDeviceSet_ s) x (listenDeviceMap_ s) (storage_ s) (pkv_ s) (isRegMissionChange_ s) (remoteDmsMap_ s) (tasks_ s) (calls_ s).
Definition set_listeners (x : list (string16 * ListenerInfo)) (s : Sync) : Sync :=
  mkSync (inited s) (deviceHandle_ s) (deviceMissionInfos_ s) (remoteSyncDeviceSet_ s) (cachedSnapshotInfos_ s) x (storage_ s) (pkv_ s) (isRegMissionChange_ s) (remoteDmsMap_ s) (tasks_ s) (calls_ s).
Definition set_storage (x : option DataStorage) (s : Sync) : Sync :=
  mkSync (inited s) (deviceHandle_ s) (deviceMissionInfos_ s) (remoteSyncDeviceSet_ s) (cachedSnapshotInfos_ s) (listenDeviceMap_ s) x (pkv_ s) (isRegMissionChange_ s) (remoteDmsMap_ s) (tasks_ s) (calls_ s).
Definition set_pkv (x : PKv) (s : Sync) : Sync :=
  mkSync (inited s) (deviceHandle_ s) (deviceMissionInfos_ s) (remoteSyncDeviceSet_ s) (cachedSnapshotInfos_ s) (listenDeviceMap_ s) (storage_ s) x (isRegMissionChange_ s) (remoteDmsMap_ s) (tasks_ s) (calls_ s).
Definition set_reg (x : bool) (s : Sync) : Sync :=
  mkSync (inited s) (deviceHandle_ s) (deviceMissionInfos_ s) (remoteSyncDeviceSet_ s) (cachedSnapshotInfos_ s) (listenDeviceMap_ s) (storage_ s) (pkv_ s) x (remoteDmsMap_ s) (tasks_ s) (calls_ s).
Definition set_dms (x : list (string * Z)) (s : Sync) : Sync :=
  mkSync (inited s) (deviceHandle_ s) (deviceMissionInfos_ s) (remoteSyncDeviceSet_ s) (cachedSnapshotInfos_ s) (listenDeviceMap_ s) (storage_ s) (pkv_ s) (isRegMissionChange_ s) x (tasks_ s) (calls_ s).
Definition set_tasks (x : list SyncTask) (s : Sync) : Sync :=
  mkSync (inited s) (deviceHandle_ s) (deviceMissionInfos_ s) (remoteSyncDeviceSet_ s) (cachedSnapshotInfos_ s) (listenDeviceMap_ s) (storage_ s) (pkv_ s) (isRegMissionChange_ s) (remoteDmsMap_ s) x (calls_ s).
Definition add_call (c : SyncCall) (s : Sync) : Sync :=
  mkSync (inited s) (deviceHandle_ s) (deviceMissionInfos_ s) (remoteSyncDeviceSet_ s) (cachedSnapshotInfos_ s) (listenDeviceMap_ s) (storage_ s) (pkv_ s) (isRegMissionChange_ s) (remoteDmsMap_ s) (tasks_ s) (calls_ s ++ [c]).

Variable env : SyncEnv.
Definition call (c : SyncCall) : SM unit := modify (add_call c).

(** ** Handlers *)

Definition Init : SM unit := modify set_inited.
(** [PostTask] of a handler that may be missing. *)
Definition post (t : SyncTask) : SM bool := s ← get_sync; if inited s && m_PostTask env then (_ ← modify (set_tasks (tasks_ s ++ [t])); mret true) else mret false.
Definition post_ (t : SyncTask) : SM unit := _ ← post t; mret tt.
Definition is_delete (uuid : string) (t : SyncTask) : bool := match t with TDeleteDataStorage u _ => String.eqb u uuid | _ => false end.
(** [RemoveTask] of the deletion for a device, when there is a handler. *)
Definition RemoveDeleteTask (uuid : string) : SM unit :=
  s ← get_sync; when_ (inited s) (modify (set_tasks (List.filter (fun t => negb (is_delete uuid t)) (tasks_ s)))).

(** ** The database *)

Definition run_pkv {A} (f : PKv -> A * PKv) : SM A := fun s => let '(x, k) := f (pkv_ s) in (x, set_pkv k s).
Definition update_storage (f : DataStorage -> DataStorage) : SM unit := modify (fun s => set_storage (f <$> storage_ s) s).
Definition ds_set_ptr (b : bool) (d : DataStorage) : DataStorage := mkDataStorage (ds_handler d) b (ds_listener d) (ds_waitTasks d).
Definition ds_set_listener (b : bool) (d : DataStorage) : DataStorage := mkDataStorage (ds_handler d) (ds_kvStorePtr d) b (ds_waitTasks d).
Definition has_ptr (s : Sync) : bool := match storage_ s with Some d => ds_kvStorePtr d | None => false end.
Definition has_listener (s : Sync) : bool := match storage_ s with Some d => ds_listener d | None => false end.

Definition DataStorage_GetKvStore : SM Status :=
  '(status, ptr) ← run_pkv pk_GetSingleKvStore;
  _ ← update_storage (ds_set_ptr ptr);
  mret status.
Fixpoint TryGetKvStore (retries : nat) : SM bool :=
  match retries with
  | O => get has_ptr
  | S n => status ← DataStorage_GetKvStore; ptr ← get has_ptr; if bool_decide (status = SUCCESS) && ptr then mret true else TryGetKvStore n
  end.
Definition InitDistributedDataStorage : SM unit := _ ← TryGetKvStore RETRY_TIMES_GET_KVSTORE; mret tt.
Definition WaitKvDataService : bool := m_samgr env && existsb (m_kvService env) (seq 0 RETRY_TIMES_WAIT_KV_DATA).
(** The listener is moved to the store, whatever the status. *)
Definition SubscribeDistributedDataStorage : SM unit :=
  s ← get_sync;
  when_ (has_ptr s && has_listener s) (_ ← update_storage (ds_set_listener false); _ ← run_pkv pk_Subscribe; mret tt).
(** The task that waits for the service of the database. *)
Definition run_waitTask : SM unit :=
  if WaitKvDataService then (_ ← InitDistributedDataStorage; _ ← update_storage (ds_set_listener true); SubscribeDistributedDataStorage) else mret tt.
Definition InitKvDataService : SM bool :=
  if m_PostTask env then (_ ← update_storage (fun d => mkDataStorage (ds_handler d) (ds_kvStorePtr d) (ds_listener d) (S (ds_waitTasks d))); mret true) else mret false.
Definition DataStorage_Init : SM bool :=
  _ ← update_storage (fun d => mkDataStorage true (ds_kvStorePtr d) (ds_listener d) (ds_waitTasks d));
  InitKvDataService.
Definition UninitDistributedDataStorage : SM bool :=
  s ← get_sync;
  unsubscribed ← (if has_listener s && has_ptr s then
    (_ ← update_storage (ds_set_listener false);
     _ ← call CUnSubscribe;
     status ← run_pkv pk_UnSubscribe;
     mret (bool_decide (status = SUCCESS))) else mret true);
  if negb unsubscribed then mret false
  else
    closed ← (if has_ptr s then
      (status ← run_pkv pk_Close;
       if decide (status = SUCCESS) then (_ ← update_storage (ds_set_ptr false); mret true) else mret false) else mret true);
    if negb closed then mret false
    else (status ← run_pkv pk_DeleteStore; mret (bool_decide (status = SUCCESS))).
(** The tasks of the handler go with it. *)
Definition DataStorage_Stop : SM bool :=
  _ ← update_storage (fun d => mkDataStorage false (ds_kvStorePtr d) (ds_listener d) 0);
  UninitDistributedDataStorage.

Definition GenerateKey (uuid : string) (missionId : Z) : string := uuid +:+ "_" +:+ signed_to_string missionId.
(** A change of the entry of a mission: [Insert] and [Delete]. *)
Definition change_entry (f : string -> PKv -> Status * PKv) (networkId : string) (missionId : Z) : SM bool :=
  if String.eqb networkId "" then mret false
  else if missionId <? 0 then mret false
  else
    let uuid := m_uuidOf env networkId in
    if String.eqb uuid "" then mret false
    else
      ptr ← get has_ptr;
      if negb ptr then mret false
      else (status ← run_pkv (f (GenerateKey uuid missionId)); mret (bool_decide (status = SUCCESS))).
Definition Insert (networkId : string) (missionId : Z) (byteStream : list Z) : SM bool := change_entry (fun key => pk_Put key byteStream) networkId missionId.
Definition Delete : string -> Z -> SM bool := change_entry pk_Delete.
Definition FuzzyDelete (networkId : string) : SM bool :=
  if String.eqb networkId "" then mret false
  else
    ptr ← get has_ptr;
    if negb ptr then mret false
    else (status ← run_pkv (pk_RemoveDeviceData networkId); mret (bool_decide (status = SUCCESS))).
Definition Query (networkId : string) (missionId : Z) : SM (option (list Z)) :=
  if String.eqb networkId "" then mret None
  else if missionId <? 0 then mret None
  else
    s ← get_sync;
    if negb (has_ptr s) then mret None
    else
      let uuid := m_uuidOf env networkId in
      if String.eqb uuid "" then mret None
      else mret (match pk_Get (GenerateKey uuid missionId) networkId (pkv_ s) with
        | Some (SUCCESS, value) => Some value
        | _ => None
        end).

Definition code_or (failed : Z) (ok : bool) : Z := if ok then ERR_NONE else failed.
Definition InitDataStorage : SM Z :=
  s ← get_sync;
  _ ← when_ (match storage_ s with None => true | _ => false end) (modify (set_storage (Some DataStorage_new)));
  ok ← DataStorage_Init;
  mret (code_or ERR_NULL_OBJECT ok).
(** A function of the database, when there is one. *)
Definition with_storage (failed : Z) (m : SM bool) : SM Z :=
  s ← get_sync;
  match storage_ s with
  | None => mret ERR_NULL_OBJECT
  | Some _ => ok ← m; mret (code_or failed ok)
  end.
Definition StopDataStorage : SM Z := with_storage ERR_NULL_OBJECT DataStorage_Stop.
Definition StoreSnapshotInfo (deviceId : string) (missionId : Z) (byteStream : list Z) : SM Z := with_storage INVALID_PARAMETERS_ERR (Insert deviceId missionId byteStream).
Definition RemoveSnapshotInfo (deviceId : string) (missionId : Z) : SM Z := with_storage INVALID_PARAMETERS_ERR (Delete deviceId missionId).
Definition Manager_NotifyRemoteDied : SM unit := s ← get_sync; when_ (match storage_ s with None => false | _ => true end) (call CUnwatchKv).
(** The service of the database died. *)
Definition KvStore_OnRemoteDied : SM unit := _ ← Manager_NotifyRemoteDied; _ ← InitDataStorage; mret tt.

(** ** Messages to listeners (mission_changed_notify.cpp) *)

Definition CODE_NOTIFY_MISSION : Z := 0.
Definition NOTIFY_SNAP_SHOT : Z := 1.
Definition NOTIFY_NET_DISCONNECT : Z := 2.
Definition DESCRIPTOR : string := "ohos.aafwk.RemoteMissionListener".
(** Nothing is sent when a value cannot be written. *)
Definition listener_message (l : list Item) : option Parcel := foldl (fun p x => p ← p; Write x p) (Some Parcel_empty) (IToken DESCRIPTOR :: l).
Definition send_listener (remoteObject code : Z) (l : list Item) : SM unit := match listener_message l with Some data => call (CSend remoteObject code data) | None => mret tt end.
Definition NotifyMissionsChanged (remoteObject : Z) (deviceId : string16) : SM unit := send_listener remoteObject CODE_NOTIFY_MISSION [IStr (Str16ToStr8 deviceId)].
Definition NotifySnapshot (remoteObject : Z) (deviceId : string16) (missionId : Z) : SM unit := send_listener remoteObject NOTIFY_SNAP_SHOT [IStr (Str16ToStr8 deviceId); IInt missionId].
Definition NotifyNetDisconnect (remoteObject : Z) (deviceId : string16) (state : Z) : SM unit := send_listener remoteObject NOTIFY_NET_DISCONNECT [IStr (Str16ToStr8 deviceId); IInt state].
Definition NotifyNetDisconnectOffline : SM unit :=
  s ← get_sync;
  each (fun e => each (fun connect => NotifyNetDisconnect connect (fst e) NET_STATE) (zkeys (listenerSet (snd e)))) (listenDeviceMap_ s).

(** ** Devices *)

Definition IsDeviceIdValidated (deviceId : string) : bool := negb (String.eqb deviceId "") && m_known env deviceId.
Definition GenerateCallerInfo : option CallerInfo :=
  localUuid ← m_GetLocalDeviceId env;
  Some (mkCallerInfo (m_callingUid env) (m_callingPid env) CALLER_TYPE_HARMONY localUuid (-1) "" [] VERSION 0 JNull).
(** Another device than this one. *)
Definition is_remote_device (deviceId : string) : bool := match m_GetLocalDeviceId env with Some localDeviceId => negb (String.eqb localDeviceId deviceId) | None => false end.

Definition GetRemoteDms (deviceId : string) : SM (option Z) :=
  if String.eqb deviceId "" then mret None
  else
    s ← get_sync;
    match mfind deviceId (remoteDmsMap_ s) with
    | Some object => mret (Some object)
    | None =>
        if negb (m_samgr env) then mret None
        else match m_CheckSystemAbility env deviceId with
        | None => mret None
        | Some object => _ ← call (CWatchDms object); _ ← modify (fun s => set_dms (mset deviceId object (remoteDmsMap_ s)) s); mret (Some object)
        end
    end.

(** ** The missions of other devices *)

Definition FetchCachedRemoteMissions (srcId : string) (numMissions : Z) (s : Sync) : Z + list DstbMissionInfo :=
  let uuid := m_uuidOf env srcId in
  if String.eqb uuid "" then inl INVALID_PARAMETERS_ERR
  else match mfind uuid (deviceMissionInfos_ s) with
  | None => inl ERR_NULL_OBJECT
  | Some l =>
      let actualNums := i32 (len l) in
      if actualNums <? 0 then inl ERR_NULL_OBJECT
      else inr (if numMissions <? actualNums then firstn (Z.to_nat numMissions) l else l)
  end.
(** [None]: a mission without a want is converted. *)
Definition Manager_GetMissionInfos (deviceId : string) (numMissions : Z) (s : Sync) : option (Z * list MissionInfo) :=
  if negb (IsDeviceIdValidated deviceId) then Some (INVALID_PARAMETERS_ERR, [])
  else if numMissions <=? 0 then Some (INVALID_PARAMETERS_ERR, [])
  else match FetchCachedRemoteMissions deviceId numMissions s with
  | inl ret => Some (ret, [])
  | inr l => missions ← ConvertToMissionInfos l []; Some (ERR_OK, missions)
  end.
Definition RebornMissionCache (deviceId : string) (missionInfoSet : list DstbMissionInfo) : SM unit :=
  let uuid := m_uuidOf env deviceId in
  when_ (negb (String.eqb uuid "")) (modify (fun s => set_missions (mset uuid missionInfoSet (deviceMissionInfos_ s)) s)).
Definition CleanMissionCache (deviceId : string) : SM unit :=
  let uuid := m_uuidOf env deviceId in
  when_ (negb (String.eqb uuid "")) (modify (fun s => set_missions (merase uuid (deviceMissionInfos_ s)) s)).

(** *** Pictures in memory *)

Definition GenerateKeyInfo (devId : string) (missionId : Z) : string := devId +:+ "_" +:+ signed_to_string missionId.
(** The entry that was not used for the longest time, from [oldest] on. *)
Fixpoint find_oldest (l : list (string * Cached)) (oldest : Z) (found : option string) : option string :=
  match l with
  | [] => found
  | (k, c) :: l => if (oldest =? -1) || (lastAccessTime_ c <? oldest) then find_oldest l (lastAccessTime_ c) (Some k) else find_oldest l oldest found
  end.
Definition EnqueueCachedSnapshotInfo (deviceId : string) (missionId : Z) (snapshot : option Cached) : SM unit :=
  match snapshot with
  | None => mret tt
  | Some c =>
      if String.eqb deviceId "" then mret tt
      else modify (fun s =>
        let keyInfo := GenerateKeyInfo deviceId missionId in
        let l := cachedSnapshotInfos_ s in
        if match mfind keyInfo l with Some old => createdTime_ c <? createdTime_ old | None => false end then s
        else
          let l := if len l =? MAX_CACHED_ITEM then match find_oldest l (-1) None with Some k => merase k l | None => l end else l in
          set_cache (mset keyInfo c l) s)
  end.
Definition DequeueCachedSnapshotInfo (deviceId : string) (missionId : Z) : SM (option Cached) :=
  if String.eqb deviceId "" then mret None
  else
    s ← get_sync;
    let keyInfo := GenerateKeyInfo deviceId missionId in
    match mfind keyInfo (cachedSnapshotInfos_ s) with
    | None => mret None
    | Some c => _ ← modify (set_cache (merase keyInfo (cachedSnapshotInfos_ s))); mret (Some (mkCached (c_snapshot c) (createdTime_ c) (m_now env)))
    end.
Definition DeleteCachedSnapshotInfo (networkId : string) : SM unit :=
  if String.eqb networkId "" then mret tt
  else
    let uuid := m_uuidOf env networkId in
    if String.eqb uuid "" then mret tt
    else modify (fun s => set_cache (List.filter (fun e => negb (str_contains (fst e) uuid)) (cachedSnapshotInfos_ s)) s).
Definition Manager_GetRemoteMissionSnapshotInfo (networkId : string) (missionId : Z) : SM (Z * option PixelMap) :=
  let uuid := m_uuidOf env networkId in
  if String.eqb uuid "" then mret (INVALID_PARAMETERS_ERR, None)
  else
    snapshotPtr ← DequeueCachedSnapshotInfo uuid missionId;
    match snapshotPtr with
    | Some c => mret (ERR_NONE, Some (ConvertToMissionSnapshot (c_snapshot c)))
    | None =>
        s ← get_sync;
        match storage_ s with
        | None => mret (ERR_NULL_OBJECT, None)
        | Some _ =>
            value ← Query networkId missionId;
            mret (match value with
              | None => (INVALID_PARAMETERS_ERR, None)
              | Some value => match Create value with None => (ERR_NULL_OBJECT, None) | Some snapshot => (ERR_NONE, Some (ConvertToMissionSnapshot snapshot)) end
              end)
        end
    end.
Definition run_delete (deviceId : string) : SM unit := s ← get_sync; when_ (match storage_ s with None => false | _ => true end) (_ ← FuzzyDelete deviceId; mret tt).
Definition DeleteDataStorage (deviceId : string) (isDelayed : bool) : SM unit :=
  s ← get_sync;
  match storage_ s with
  | None => mret tt
  | Some _ =>
      let uuid := m_uuidOf env deviceId in
      if isDelayed then post_ (TDeleteDataStorage uuid deviceId) else (_ ← RemoveDeleteTask uuid; run_delete deviceId)
  end.

(** ** Listeners *)

Definition DeviceOnlineNotify (networkId : string) : SM unit := if String.eqb networkId "" then mret tt else RemoveDeleteTask (m_uuidOf env networkId).
Definition Manager_RegisterMissionListener (devId : string16) (listener : option Z) : SM Z :=
  let uuid := m_uuidOf env (Str16ToStr8 devId) in
  if String.eqb uuid "" then mret INVALID_PARAMETERS_ERR
  else
    _ ← RemoveDeleteTask uuid;
    match listener with
    | None => mret INVALID_PARAMETERS_ERR
    | Some listener =>
        if negb (is_remote_device (Str16ToStr8 devId)) then mret INVALID_PARAMETERS_ERR
        else
          s ← get_sync;
          let info := default (mkListenerInfo false []) (mfind devId (listenDeviceMap_ s)) in
          match zfind listener (listenerSet info) with
          | Some _ => mret ERR_NONE
          | None =>
              _ ← modify (set_listeners (mset devId (mkListenerInfo (called info) (zset listener tt (listenerSet info))) (listenDeviceMap_ s)));
              _ ← call (CAddDeath listener);
              mret ERR_NONE
          end
    end.
Definition Manager_UnRegisterMissionListener (devId : string16) (listener : option Z) : SM Z :=
  match listener with
  | None => mret INVALID_PARAMETERS_ERR
  | Some listener =>
      if negb (IsDeviceIdValidated (Str16ToStr8 devId)) then mret INVALID_PARAMETERS_ERR
      else if negb (is_remote_device (Str16ToStr8 devId)) then mret INVALID_PARAMETERS_ERR
      else
        s ← get_sync;
        match mfind devId (listenDeviceMap_ s) with
        | None => mret ERR_NONE
        | Some info =>
            match zfind listener (listenerSet info) with
            | None => mret ERR_NONE
            | Some _ =>
                _ ← call (CRemoveDeath listener);
                let set := zerase listener (listenerSet info) in
                _ ← modify (set_listeners (match set with [] => merase devId (listenDeviceMap_ s) | _ => mset devId (mkListenerInfo (called info) set) (listenDeviceMap_ s) end));
                mret ERR_NONE
            end
        end
  end.
Definition HasSyncListener (networkId : string) (s : Sync) : bool := match mfind (Str8ToStr16 networkId) (listenDeviceMap_ s) with Some info => called info | None => false end.
Definition NotifySnapshotChanged (networkId : string) (missionId : Z) : SM unit :=
  s ← get_sync;
  match mfind (Str8ToStr16 networkId) (listenDeviceMap_ s) with
  | None => mret tt
  | Some info => each (fun listener => NotifySnapshot listener (Str8ToStr16 networkId) missionId) (zkeys (listenerSet info))
  end.

(** ** Asking another device for its missions *)

Definition StartSyncRemoteMissions_dms (dstDevId : string) (remoteDms : Z) : SM Z :=
  match GenerateCallerInfo with
  | None => mret GET_LOCAL_DEVICE_ERR
  | Some callerInfo =>
      _ ← call (CStartSync remoteDms callerInfo);
      let '(ret, missionInfos) := m_StartSync env remoteDms callerInfo in
      _ ← when_ (ret =? ERR_NONE) (RebornMissionCache dstDevId missionInfos);
      mret ret
  end.
Definition RetryStartSyncRemoteMissions (dstDeviceId localDevId : string) (retryTimes : Z) : SM unit :=
  when_ (retryTimes <? MAX_RETRY_TIMES) (post_ (TRetryStartSync dstDeviceId localDevId retryTimes)).
Definition run_retry_sync (dstDeviceId localDevId : string) (retryTimes : Z) : SM unit :=
  s ← get_sync;
  if negb (HasSyncListener dstDeviceId s) then mret tt
  else
    remoteDms ← GetRemoteDms dstDeviceId;
    match remoteDms with
    | None => RetryStartSyncRemoteMissions dstDeviceId localDevId (retryTimes + 1)
    | Some remoteDms => _ ← StartSyncRemoteMissions_dms dstDeviceId remoteDms; mret tt
    end.
Definition set_called (info : ListenerInfo) : ListenerInfo := mkListenerInfo true (listenerSet info).
Definition StartSyncRemoteMissions_local (dstDevId localDevId : string) : SM Z :=
  let devId := Str8ToStr16 dstDevId in
  s ← get_sync;
  match mfind devId (listenDeviceMap_ s) with
  | None => mret ERR_NONE
  | Some info =>
      if called info then mret ERR_NONE
      else
        remoteDms ← GetRemoteDms dstDevId;
        match remoteDms with
        | None => _ ← RetryStartSyncRemoteMissions dstDevId localDevId 0; mret GET_REMOTE_DMS_FAIL
        | Some remoteDms =>
            ret ← StartSyncRemoteMissions_dms dstDevId remoteDms;
            _ ← when_ (ret =? ERR_NONE) (modify (fun s => set_listeners (mupdate devId set_called (listenDeviceMap_ s)) s));
            mret ret
        end
  end.
Definition Manager_StartSyncRemoteMissions (dstDevId : string) : SM Z :=
  if negb (IsDeviceIdValidated dstDevId) then mret INVALID_PARAMETERS_ERR
  else match m_GetLocalDeviceId env with
  | None => mret INVALID_PARAMETERS_ERR
  | Some localDeviceId => if String.eqb dstDevId localDeviceId then mret INVALID_PARAMETERS_ERR else StartSyncRemoteMissions_local dstDevId localDeviceId
  end.
Definition Manager_StopSyncRemoteMissions (dstDevId : string) (offline : bool) : SM Z :=
  _ ← CleanMissionCache dstDevId;
  _ ← DeleteCachedSnapshotInfo dstDevId;
  _ ← DeleteDataStorage dstDevId true;
  if offline then mret ERR_NONE
  else
    remoteDms ← GetRemoteDms dstDevId;
    match remoteDms with
    | None => mret GET_REMOTE_DMS_FAIL
    | Some remoteDms =>
        match GenerateCallerInfo with
        | None => mret GET_LOCAL_DEVICE_ERR
        | Some callerInfo => _ ← call (CStopSync remoteDms callerInfo); mret (m_StopSync env remoteDms callerInfo)
        end
    end.
Definition CleanMissionResources (networkId : string) : SM unit :=
  s ← get_sync;
  match mfind (Str8ToStr16 networkId) (listenDeviceMap_ s) with
  | None => mret tt
  | Some info =>
      _ ← each (fun listener => call (CRemoveDeath listener)) (zkeys (listenerSet info));
      _ ← modify (fun s => set_listeners (merase (Str8ToStr16 networkId) (listenDeviceMap_ s)) s);
      _ ← Manager_StopSyncRemoteMissions networkId true;
      mret tt
  end.
(** The listeners without [remote], and the devices whose last listener it was and that
    were asked for their missions. *)
Fixpoint without_listener (remote : Z) (l : list (string16 * ListenerInfo)) : list (string16 * ListenerInfo) * list (string * unit) * nat :=
  match l with
  | [] => ([], [], O)
  | (devId, info) :: l =>
      let '(l, devices, n) := without_listener remote l in
      match zfind remote (listenerSet info) with
      | None => ((devId, info) :: l, devices, n)
      | Some _ =>
          match zerase remote (listenerSet info) with
          | [] => (l, if called info then mset (Str16ToStr8 devId) tt devices else devices, S n)
          | set => ((devId, mkListenerInfo (called info) set) :: l, devices, S n)
          end
      end
  end.
Definition OnMissionListenerDied (remote : Z) : SM unit :=
  s ← get_sync;
  let '(l, devices, n) := without_listener remote (listenDeviceMap_ s) in
  _ ← each (fun _ => call (CRemoveDeath remote)) (seq 0 n);
  _ ← modify (set_listeners l);
  each (fun e => _ ← Manager_StopSyncRemoteMissions (fst e) false; mret tt) devices.
Definition Manager_OnRemoteDied (listener : option Z) : SM unit := match listener with Some listener => post_ (TMissionListenerDied listener) | None => mret tt end.

(** The service of a device died. *)
Definition OnRemoteDmsDied (remote : Z) : SM unit :=
  s ← get_sync;
  match find (fun e => snd e =? remote) (remoteDmsMap_ s) with
  | None => mret tt
  | Some (devId, _) =>
      _ ← call (CUnwatchDms remote);
      _ ← modify (fun s => set_dms (merase devId (remoteDmsMap_ s)) s);
      if String.eqb devId "" then mret tt
      else
        s ← get_sync;
        if negb (HasSyncListener devId s) then mret tt
        else match m_GetLocalDeviceId env with
        | None => mret tt
        | Some localDeviceId => RetryStartSyncRemoteMissions devId localDeviceId 0
        end
  end.
Definition OnRemoteDmsDied_notify (remote : option Z) : SM unit := match remote with Some remote => post_ (TRemoteDmsDied remote) | None => mret tt end.

(** ** Giving missions to other devices *)

(** Functions of the adapter: the ability manager of this device. *)
Definition GetLocalMissionInfos (numMissions : Z) : Z * list DstbMissionInfo :=
  if negb (m_Connect env =? ERR_OK) then (m_Connect env, [])
  else
    let '(ret, amsMissions) := m_GetMissionInfos env numMissions in
    if negb (ret =? ERR_OK) then (ret, [])
    else (ERR_OK, ConvertToDstbMissionInfos amsMissions []).
Definition Adapter_RegisterMissionListener (listener : bool) : SM Z :=
  if negb listener then mret INVALID_PARAMETERS_ERR
  else if negb (m_Connect env =? ERR_OK) then mret (m_Connect env)
  else (_ ← call CRegisterMissionListener; mret (m_RegisterListener env)).
Definition Adapter_UnRegisterMissionListener (listener : bool) : SM Z :=
  if negb listener then mret INVALID_PARAMETERS_ERR
  else if negb (m_Connect env =? ERR_OK) then mret (m_Connect env)
  else (_ ← call CUnRegisterMissionListener; mret (m_UnRegisterListener env)).
Definition GetLocalMissionSnapshotInfo (networkId : string) (missionId : Z) : Z + PixelMap :=
  if negb (m_Connect env =? ERR_OK) then inl (m_Connect env)
  else
    let '(errCode, snapshot) := m_GetMissionSnapshot env networkId missionId in
    if negb (errCode =? ERR_OK) then inl errCode
    else if is_null snapshot then inl ERR_NULL_OBJECT
    else inr snapshot.

Definition MissionSnapshotChanged (missionId : Z) : SM Z :=
  match m_GetLocalDeviceId env with
  | None => mret INVALID_PARAMETERS_ERR
  | Some networkId =>
      match GetLocalMissionSnapshotInfo networkId missionId with
      | inl errCode => mret errCode
      | inr picture =>
          match MissionSnapshotSequence (ConvertToSnapshot picture) Parcel_empty with
          | inl errCode => mret errCode
          | inr data =>
              match ReadBuffer data with
              | None => mret INVALID_PARAMETERS_ERR
              | Some byteStream => StoreSnapshotInfo networkId missionId byteStream
              end
          end
      end
  end.
Definition MissionSnapshotDestroyed (missionId : Z) : SM Z :=
  match m_GetLocalDeviceId env with
  | None => mret INVALID_PARAMETERS_ERR
  | Some networkId => RemoveSnapshotInfo networkId missionId
  end.
Definition InitAllSnapshots (missionInfoSet : list DstbMissionInfo) : SM unit := each (fun i => _ ← MissionSnapshotChanged (dm_id i); mret tt) missionInfoSet.

Definition Manager_StartSyncMissionsFromRemote (callerInfo : CallerInfo) : SM (Z * list DstbMissionInfo) :=
  _ ← modify (fun s => set_devices (minsert (caller_sourceDeviceId callerInfo) tt (remoteSyncDeviceSet_ s)) s);
  let '(result, missionInfoSet) := GetLocalMissionInfos GET_MAX_MISSIONS in
  _ ← post_ (TRegisterMissionListener missionInfoSet);
  mret (result, missionInfoSet).
Definition run_register (missionInfoSet : list DstbMissionInfo) : SM unit :=
  s ← get_sync;
  if isRegMissionChange_ s then mret tt
  else
    ret ← Adapter_RegisterMissionListener (inited s);
    _ ← when_ (ret =? ERR_OK) (modify (set_reg true));
    InitAllSnapshots missionInfoSet.
Definition Manager_StopSyncMissionsFromRemote (networkId : string) : SM unit :=
  _ ← modify (fun s => set_devices (merase networkId (remoteSyncDeviceSet_ s)) s);
  s ← get_sync;
  match remoteSyncDeviceSet_ s with [] => post_ TUnRegisterMissionListener | _ => mret tt end.
Definition run_unregister : SM unit := s ← get_sync; ret ← Adapter_UnRegisterMissionListener (inited s); when_ (ret =? ERR_OK) (modify (set_reg false)).
Definition NeedSyncDevice (deviceId : string) (s : Sync) : bool :=
  if String.eqb deviceId "" then false else match mfind deviceId (remoteSyncDeviceSet_ s) with Some _ => true | None => false end.

(** Whether there is, or can be made, a handler for a device. *)
Definition FetchDeviceHandler (deviceId : string) : SM bool :=
  if negb (IsDeviceIdValidated deviceId) then mret false
  else
    let uuid := m_uuidOf env deviceId in
    if String.eqb uuid "" then mret false
    else (_ ← modify (fun s => set_handles (minsert uuid tt (deviceHandle_ s)) s); mret true).
(** [PostTask] of the handler of a device. *)
Definition post_device (t : SyncTask) : SM bool := if m_PostTask env then (_ ← modify (fun s => set_tasks (tasks_ s ++ [t]) s); mret true) else mret false.
Fixpoint notify_devices (missionInfoSet : list DstbMissionInfo) (callerInfo : CallerInfo) (devices : list (string * unit)) : SM Z :=
  match devices with
  | [] => mret ERR_NONE
  | (destDeviceId, _) :: devices =>
      handler ← FetchDeviceHandler destDeviceId;
      if negb handler then notify_devices missionInfoSet callerInfo devices
      else
        posted ← post_device (TToRemote destDeviceId missionInfoSet callerInfo);
        if negb posted then mret ERR_NULL_OBJECT else notify_devices missionInfoSet callerInfo devices
  end.
Definition NotifyMissionsChangedToRemote (missionInfoSet : list DstbMissionInfo) : SM Z :=
  match GenerateCallerInfo with
  | None => mret GET_LOCAL_DEVICE_ERR
  | Some callerInfo => s ← get_sync; notify_devices missionInfoSet callerInfo (remoteSyncDeviceSet_ s)
  end.
Definition NotifyMissionsChangedToRemoteInner (deviceId : string) (missionInfoSet : list DstbMissionInfo) (callerInfo : CallerInfo) : SM unit :=
  remoteDms ← GetRemoteDms deviceId;
  match remoteDms with None => mret tt | Some remoteDms => call (CNotifyDms remoteDms missionInfoSet callerInfo) end.
Definition Manager_NotifyMissionsChangedFromRemote (callerInfo : CallerInfo) (missionInfoSet : list DstbMissionInfo) : SM Z :=
  let u16DevId := Str8ToStr16 (caller_sourceDeviceId callerInfo) in
  _ ← RebornMissionCache (caller_sourceDeviceId callerInfo) missionInfoSet;
  s ← get_sync;
  match mfind u16DevId (listenDeviceMap_ s) with
  | None => mret INVALID_PARAMETERS_ERR
  | Some info =>
      if inited s then (_ ← post_ (TNotifyChanged (zkeys (listenerSet info)) u16DevId); mret ERR_NONE) else mret INVALID_PARAMETERS_ERR
  end.

(** *** Events of this device *)

Definition NotifyLocalMissionsChanged : SM unit := post_ TLocalMissionsChanged.
Definition run_local_changed : SM unit :=
  let '(ret, missionInfos) := GetLocalMissionInfos GET_MAX_MISSIONS in
  when_ (ret =? ERR_OK) (_ ← NotifyMissionsChangedToRemote missionInfos; mret tt).
Definition NotifyMissionSnapshotCreated (missionId : Z) : SM unit := post_ (TSnapshotChanged missionId).
Definition NotifyMissionSnapshotChanged (missionId : Z) : SM unit := post_ (TSnapshotChanged missionId).
Definition NotifyMissionSnapshotDestroyed (missionId : Z) : SM unit := post_ (TSnapshotDestroyed missionId).
Definition OnMissionCreated (missionId : Z) : SM unit := _ ← NotifyLocalMissionsChanged; NotifyMissionSnapshotCreated missionId.
Definition OnMissionDestroyed (missionId : Z) : SM unit := _ ← NotifyLocalMissionsChanged; NotifyMissionSnapshotDestroyed missionId.
Definition OnMissionSnapshotChanged (missionId : Z) : SM unit := NotifyMissionSnapshotChanged missionId.
Definition OnMissionMovedToFront (missionId : Z) : SM unit := NotifyLocalMissionsChanged.

Definition RetryRegisterMissionChange (retryTimes : Z) : SM unit := when_ (retryTimes <? MAX_RETRY_TIMES) (post_ (TRetryRegister retryTimes)).
Definition run_retry_register (retryTimes : Z) : SM unit :=
  s ← get_sync;
  when_ (isRegMissionChange_ s)
    (ret ← Adapter_RegisterMissionListener (inited s); when_ (ret =? ERR_NULL_OBJECT) (RetryRegisterMissionChange (retryTimes + 1))).
Definition NotifyDmsProxyProcessDied : SM unit := s ← get_sync; when_ (isRegMissionChange_ s) (RetryRegisterMissionChange 0).
Definition OnDnetDied : SM unit := post_ TDnetDied.
(** The result of the call is not looked at. *)
Definition run_dnet_died : SM unit :=
  s ← get_sync;
  when_ (isRegMissionChange_ s)
    (_ ← modify (set_devices []);
     _ ← Adapter_UnRegisterMissionListener (inited s);
     modify (set_reg false)).

Definition Manager_DeviceOfflineNotify (networkId : string) : SM unit :=
  if String.eqb networkId "" then mret tt
  else
    _ ← Manager_StopSyncMissionsFromRemote networkId;
    _ ← CleanMissionResources networkId;
    s ← get_sync;
    match mfind networkId (remoteDmsMap_ s) with
    | None => mret tt
    | Some dms => _ ← call (CUnwatchDms dms); modify (set_dms (merase networkId (remoteDmsMap_ s)))
    end.

(** *** Changes of the database (distributed_data_change_listener.cpp) *)

Definition ParseInfo (strKey : string) : option (string * Z) :=
  match SplitStr strKey "_" with [uuid; id] => iValue ← StrToInt id; Some (uuid, iValue) | _ => None end.
(** A device that is not known ends the whole function ([false]). *)
Fixpoint on_entries (update : bool) (keys : list string) : SM bool :=
  match keys with
  | [] => mret true
  | key :: keys =>
      match ParseInfo key with
      | None => on_entries update keys
      | Some (uuid, missionId) =>
          let networkId := m_networkIdOf env uuid in
          if String.eqb networkId "" then mret false
          else
            _ ← when_ update (_ ← DequeueCachedSnapshotInfo uuid missionId; mret tt);
            _ ← NotifySnapshotChanged networkId missionId;
            on_entries update keys
      end
  end.
Definition on_deletes (keys : list string) : SM unit :=
  each (fun key => match ParseInfo key with Some (uuid, missionId) => _ ← DequeueCachedSnapshotInfo uuid missionId; mret tt | None => mret tt end) keys.
Definition OnChange (inserts deletes updates : list string) : SM unit :=
  ok ← on_entries false inserts;
  when_ ok (_ ← on_deletes deletes; _ ← on_entries true updates; mret tt).

(** ** Tasks *)

Definition run_task (t : SyncTask) : SM unit :=
  match t with
  | TDeleteDataStorage _ deviceId => run_delete deviceId
  | TRegisterMissionListener l => run_register l
  | TUnRegisterMissionListener => run_unregister
  | TMissionListenerDied listener => OnMissionListenerDied listener
  | TRemoteDmsDied remote => OnRemoteDmsDied remote
  | TNotifyChanged listeners devId => each (fun listener => NotifyMissionsChanged listener devId) listeners
  | TRetryStartSync dst local n => run_retry_sync dst local n
  | TRetryRegister n => run_retry_register n
  | TDnetDied => run_dnet_died
  | TLocalMissionsChanged => run_local_changed
  | TSnapshotChanged missionId => _ ← MissionSnapshotChanged missionId; mret tt
  | TSnapshotDestroyed missionId => _ ← MissionSnapshotDestroyed missionId; mret tt
  | TToRemote deviceId l callerInfo => NotifyMissionsChangedToRemoteInner deviceId l callerInfo
  end.
Definition RunSyncTask (n : nat) : SM unit :=
  s ← get_sync;
  match tasks_ s !! n with
  | None => mret tt
  | Some t => _ ← modify (set_tasks (delete n (tasks_ s))); run_task t
  end.
Definition RunWaitTask : SM unit :=
  s ← get_sync;
  match storage_ s with
  | Some (mkDataStorage h p l (S n)) => _ ← modify (set_storage (Some (mkDataStorage h p l n))); run_waitTask
  | _ => mret tt
  end.

(** ** The service *)

Definition foreground (callingUid : Z) (m : SM Z) : SM Z := if negb (m_IsCallerForeground env callingUid) then mret DMS_NOT_FOREGROUND_USER else m.
Definition Service_GetMissionInfos (deviceId : string) (numMissions : Z) (s : Sync) : option (Z * list MissionInfo) := Manager_GetMissionInfos deviceId numMissions s.
Definition Service_NotifyMissionsChangedFromRemote (missionInfos : list DstbMissionInfo) (callerInfo : CallerInfo) : SM Z := Manager_NotifyMissionsChangedFromRemote callerInfo missionInfos.
Definition Service_GetRemoteMissionSnapshotInfo (networkId : string) (missionId : Z) : SM (Z * option PixelMap) := Manager_GetRemoteMissionSnapshotInfo networkId missionId.
Definition Service_RegisterMissionListener (devId : string16) (obj : option Z) (callingUid : Z) : SM Z := foreground callingUid (Manager_RegisterMissionListener devId obj).
Definition Service_UnRegisterMissionListener (devId : string16) (obj : option Z) : SM Z := Manager_UnRegisterMissionListener devId obj.
Definition Service_StartSyncRemoteMissions (devId : string) (fixConflict : bool) (tag callingUid : Z) : SM Z := foreground callingUid (Manager_StartSyncRemoteMissions devId).
Definition Service_StopSyncRemoteMissions (devId : string) (callingUid : Z) : SM Z := foreground callingUid (Manager_StopSyncRemoteMissions devId false).
Definition Service_StartSyncMissionsFromRemote (callerInfo : CallerInfo) : SM (Z * list DstbMissionInfo) := Manager_StartSyncMissionsFromRemote callerInfo.
Definition Service_StopSyncMissionsFromRemote (callerInfo : CallerInfo) : SM Z := _ ← Manager_StopSyncMissionsFromRemote (caller_sourceDeviceId callerInfo); mret ERR_NONE.
End Manager.

(** ** Histories *)

Section History.
Context {T16 : Text16} {K16 : Text16Key} {IP : @IpcParcel T16} {IC : IpcCodes} {PB : ParcelBytes} {ME : Media} {PS : PictureStore} {W : WantApi} {VE : VersionApi}.

(** What other parts of the system do to the manager, and its tasks. *)
Inductive SyncOp :=
  | OpInit
  | OpInitDataStorage
  | OpStopDataStorage
  | OpKvDied
  | OpGetSnapshot (networkId : string) (missionId : Z)
  | OpEnqueue (deviceId : string) (missionId : Z) (snapshot : option Cached)
  | OpRegister (devId : string16) (obj : option Z) (callingUid : Z)
  | OpUnRegister (devId : string16) (obj : option Z)
  | OpStartSync (devId : string) (fixConflict : bool) (tag callingUid : Z)
  | OpStopSync (devId : string) (callingUid : Z)
  | OpStartSyncFromRemote (callerInfo : CallerInfo)
  | OpStopSyncFromRemote (callerInfo : CallerInfo)
  | OpMissionsChangedFromRemote (missionInfos : list DstbMissionInfo) (callerInfo : CallerInfo)
  | OpDeviceOnline (networkId : string)
  | OpDeviceOffline (networkId : string)
  | OpNetDisconnect
  | OpListenerDied (listener : option Z)
  | OpDmsDied (remote : option Z)
  | OpProxyDied
  | OpDnetDied
  | OpMissionCreated (missionId : Z)
  | OpMissionDestroyed (missionId : Z)
  | OpMissionSnapshotChanged (missionId : Z)
  | OpMissionMovedToFront (missionId : Z)
  | OpChange (inserts deletes updates : list string)
  | OpDeleteNow (deviceId : string)
  | OpTask (n : nat)
  | OpWaitTask.
Definition run {A} (m : SM A) (s : Sync) : Sync := snd (m s).
Definition sync_step (env : SyncEnv) (o : SyncOp) : Sync -> Sync :=
  match o with
  | OpInit => run Init
  | OpInitDataStorage => run (InitDataStorage env)
  | OpStopDataStorage => run StopDataStorage
  | OpKvDied => run (KvStore_OnRemoteDied env)
  | OpGetSnapshot networkId missionId => run (Service_GetRemoteMissionSnapshotInfo env networkId missionId)
  | OpEnqueue deviceId missionId snapshot => run (EnqueueCachedSnapshotInfo deviceId missionId snapshot)
  | OpRegister devId obj uid => run (Service_RegisterMissionListener env devId obj uid)
  | OpUnRegister devId obj => run (Service_UnRegisterMissionListener env devId obj)
  | OpStartSync devId f t uid => run (Service_StartSyncRemoteMissions env devId f t uid)
  | OpStopSync devId uid => run (Service_StopSyncRemoteMissions env devId uid)
  | OpStartSyncFromRemote c => run (Service_StartSyncMissionsFromRemote env c)
  | OpStopSyncFromRemote c => run (Service_StopSyncMissionsFromRemote env c)
  | OpMissionsChangedFromRemote l c => run (Service_NotifyMissionsChangedFromRemote env l c)
  | OpDeviceOnline networkId => run (DeviceOnlineNotify env networkId)
  | OpDeviceOffline networkId => run (Manager_DeviceOfflineNotify env networkId)
  | OpNetDisconnect => run NotifyNetDisconnectOffline
  | OpListenerDied listener => run (Manager_OnRemoteDied env listener)
  | OpDmsDied remote => run (OnRemoteDmsDied_notify env remote)
  | OpProxyDied => run (NotifyDmsProxyProcessDied env)
  | OpDnetDied => run (OnDnetDied env)
  | OpMissionCreated missionId => run (OnMissionCreated env missionId)
  | OpMissionDestroyed missionId => run (OnMissionDestroyed env missionId)
  | OpMissionSnapshotChanged missionId => run (OnMissionSnapshotChanged env missionId)
  | OpMissionMovedToFront missionId => run (OnMissionMovedToFront env missionId)
  | OpChange inserts deletes updates => run (OnChange env inserts deletes updates)
  | OpDeleteNow deviceId => run (DeleteDataStorage env deviceId false)
  | OpTask n => run (RunSyncTask env n)
  | OpWaitTask => run (RunWaitTask env)
  end.
(** The states of a history in which each step has surroundings of its own. *)
Inductive SyncReach (kv : PKv) : Sync -> Prop :=
  | reach_new : SyncReach kv (Sync_new kv)
  | reach_step env o s : SyncReach kv s -> SyncReach kv (sync_step env o s).
End History.
