(* ===== verification/MissionSyncProps.v ===== *)
(** What the manager of the missions of other devices keeps ([MissionSync]).

    - In every history the tables are maps in order, at most ten pictures are in memory,
      a device that is listened to has a listener, every observer of a death that was
      added and not removed belongs to one entry of a table, and no task tries more often
      than the limit.
    - Two devices: the missions that the first sees are those the second told it last.
    - A picture that is stored is read back. *)

From stdpp Require Import countable strings.
From S2P Require Import Prelude StdMap SchedUtils SchedErrors Json ContinueInfo IpcParcel RemoteAbility ContinueSession ContinueDemo SchedWire SchedIpc BundleStore SchedIpcProps MissionSync.
#[local] Open Scope string_scope.
#[local] Open Scope list_scope.
#[local] Open Scope Z_scope.

(** ** Entries of a map that satisfy a condition *)

Section Count.
Context {K V : Type} `{MapKeyLaws K}.
Implicit Types (k : K) (v : V) (m : list (K * V)) (p : V -> bool).
Definition mcount p m : Z := len (List.filter (fun e => p (snd e)) m).
Definition b2z (b : bool) : Z := if b then 1 else 0.
Definition ocount p (o : option V) : Z := match o with Some v => b2z (p v) | None => 0 end.

Lemma mcount_cons p e m : mcount p (e :: m) = b2z (p (snd e)) + mcount p m.
Proof. unfold mcount, len. cbn. destruct (p (snd e)); cbn [length b2z]; lia. Qed.
Lemma mcount_insert p k v m : mcount p (insert_sorted k v m) = b2z (p v) + mcount p m.
Proof. induction m as [|[k' v'] m IH]; cbn [insert_sorted]; [by rewrite mcount_cons|]. destruct (key_lt k k'); rewrite !mcount_cons; [done|]. rewrite IH. cbn [snd]. lia. Qed.
(** In a sorted map at most one entry has a key. *)
Lemma sorted_head k e m : msorted (e :: m) -> same_key k (fst e) = true -> mfind k m = None.
Proof.
  intros S E. inversion S as [|? ? _ F]; subst. destruct (mfind k m) as [v|] eqn:Ef; [|done]. apply mfind_In in Ef as (k' & Hin & E').
  rewrite List.Forall_forall in F. specialize (F _ Hin). cbn in F. rewrite (same_key_sym k) in E. pose proof (same_key_trans _ _ _ E E') as X.
  apply same_key_spec in X as [X _]. congruence.
Qed.
Lemma merase_absent k m : mfind k m = None -> merase k m = m.
Proof. induction m as [|e m IH]; [done|]. rewrite mfind_cons. unfold merase. cbn [List.filter]. destruct (same_key k (fst e)); [done|]. intros E. cbn. f_equal. by apply IH. Qed.
Lemma mupdate_not_found k f m : mfind k m = None -> mupdate k f m = m.
Proof. induction m as [|e m IH]; [done|]. rewrite mfind_cons. unfold mupdate. cbn [map]. destruct (same_key k (fst e)); [done|]. intros E. f_equal. by apply IH. Qed.
Lemma mcount_merase p k m : msorted m -> mcount p (merase k m) = mcount p m - ocount p (mfind k m).
Proof.
  intros S. induction m as [|e m IH]; [done|]. rewrite mfind_cons. unfold merase. cbn [List.filter]. fold (merase k m). destruct (same_key k (fst e)) eqn:E; cbn [negb].
  - rewrite merase_absent by exact (sorted_head _ _ _ S E). rewrite mcount_cons. cbn [ocount]. lia.
  - rewrite !mcount_cons, IH; [lia|]. by inversion S.
Qed.
Lemma mcount_mupdate p k f m : msorted m -> mcount p (mupdate k f m) = mcount p m - ocount p (mfind k m) + ocount p (f <$> mfind k m).
Proof.
  intros S. induction m as [|e m IH]; [done|]. rewrite mfind_cons. unfold mupdate. cbn [map]. fold (mupdate k f m). destruct (same_key k (fst e)) eqn:E.
  - rewrite mupdate_not_found by exact (sorted_head _ _ _ S E). rewrite !mcount_cons. cbn. lia.
  - rewrite !mcount_cons, IH; [lia|]. by inversion S.
Qed.
Lemma mcount_mset p k v m : msorted m -> mcount p (mset k v m) = mcount p m - ocount p (mfind k m) + b2z (p v).
Proof.
  intros S. unfold mset. destruct (mfind k m) as [w|] eqn:E; [rewrite mcount_mupdate, E by done; cbn; lia|]. rewrite mcount_insert. cbn. lia.
Qed.
Lemma mall_mset_any (P : K -> V -> Prop) k v m : (forall k', P k' v) -> mall P m -> mall P (mset k v m).
Proof. intros Hv Hm. unfold mset. destruct (mfind k m); [by apply mall_mupdate|]. by apply insert_sorted_Forall. Qed.
Lemma mupdate_sorted k f m : msorted m -> msorted (mupdate k f m).
Proof. apply keys_sorted, mupdate_keys. Qed.
(** The number of entries. *)
Lemma len_all m : len m = mcount (fun _ => true) m.
Proof. unfold mcount. f_equal. induction m as [|e m IH]; cbn; congruence. Qed.
Lemma len_mset k v m : msorted m -> len m <= len (mset k v m) <= len m + 1.
Proof. intros S. rewrite !len_all, mcount_mset by done. destruct (mfind k m); cbn; lia. Qed.
Lemma len_merase k v m : msorted m -> mfind k m = Some v -> len (merase k m) = len m - 1.
Proof. intros S E. rewrite !len_all, mcount_merase, E by done. done. Qed.
Lemma len_filter (q : K * V -> bool) m : len (List.filter q m) <= len m.
Proof. unfold len. pose proof (filter_length_le q m). lia. Qed.
End Count.

(** ** Steps that keep a property of the state *)

Section Keeps.
Context {T16 : Text16} {K16 : Text16Key} {IP : @IpcParcel T16} {IC : IpcCodes} {PB : ParcelBytes} {ME : Media} {PS : PictureStore} {W : WantApi} {VE : VersionApi}.
Implicit Types (s : Sync).

Definition keeps {A} (P : Sync -> Prop) (m : SM A) : Prop := forall s, P s -> P (run m s).
Lemma sync_keeps_ret {A} P (x : A) : keeps P (mret x).
Proof. by intros s. Qed.
Lemma sync_keeps_bind {A B} P (m : SM A) (k : A -> SM B) : keeps P m -> (forall x, keeps P (k x)) -> keeps P (m ≫= k).
Proof. intros Hm Hk s Hs. unfold run, mbind, SM_bind. specialize (Hm s Hs). unfold run in Hm. destruct (m s) as [x s1]. exact (Hk x s1 Hm). Qed.
Lemma sync_keeps_get {B} P (k : Sync -> SM B) : (forall s, P s -> keeps P (k s)) -> keeps P (get_sync ≫= k).
Proof. intros Hk s Hs. exact (Hk s Hs s Hs). Qed.
(** A step that starts in the state it has read. *)
Lemma keeps_here {B} P (k : Sync -> SM B) : (forall s, P s -> P (run (k s) s)) -> keeps P (get_sync ≫= k).
Proof. intros Hk s Hs. exact (Hk s Hs). Qed.
Lemma keeps_look {A} P (f : Sync -> A) : keeps P (get f).
Proof. by intros s. Qed.
Lemma sync_keeps_modify P f : (forall s, P s -> P (f s)) -> keeps P (modify f).
Proof. intros H s Hs. by apply H. Qed.
Lemma keeps_when P b m : keeps P m -> keeps P (when_ b m).
Proof. destruct b; [done|]. intros _. apply sync_keeps_ret. Qed.
Lemma keeps_each {A} P (f : A -> SM unit) l : (forall x, In x l -> keeps P (f x)) -> keeps P (each f l).
Proof. induction l as [|x l IH]; [intros; apply sync_keeps_ret|]. intros H. cbn [each]. apply sync_keeps_bind; [apply H; by left|intros _; apply IH; intros y Hy; apply H; by right]. Qed.
Lemma keeps_and {A} P Q (m : SM A) : keeps P m -> keeps Q m -> keeps (fun s => P s /\ Q s) m.
Proof. intros HP HQ s [Hp Hq]. split; [by apply HP|by apply HQ]. Qed.
Lemma keeps_pkv {A} P (f : PKv -> A * PKv) : (forall s k, P s -> P (set_pkv k s)) -> keeps P (run_pkv f).
Proof. intros H s Hs. unfold run, run_pkv. destruct (f (pkv_ s)). by apply H. Qed.
End Keeps.
Create HintDb keeping.
#[export] Hint Resolve sync_keeps_ret keeps_look keeps_when : keeping.

(** Steps through a function: sequences, reads, cases. *)
Ltac keep_cases :=
  match goal with
  | |- keeps _ (match ?x with _ => _ end) => destruct x eqn:?
  | |- keeps _ (let '_ := ?x in _) => destruct x eqn:?
  end.
Ltac keep_step :=
  match goal with
  | |- keeps _ (mret _) => apply sync_keeps_ret
  | |- keeps _ (get _) => apply keeps_look
  | |- keeps _ (mbind _ get_sync) => apply sync_keeps_get; intros ? ?
  | |- keeps _ (mbind _ _) => apply sync_keeps_bind; [|intros ?]
  | |- keeps _ (when_ _ _) => apply keeps_when
  | |- keeps _ (each _ _) => apply keeps_each; intros ? ?
  | _ => solve [eauto with keeping]
  | _ => keep_cases
  end.
Ltac keep := repeat keep_step.

(** ** The invariant *)

Section Invariant.
Context {T16 : Text16} {K16 : Text16Key} {IP : @IpcParcel T16} {IC : IpcCodes} {PB : ParcelBytes} {ME : Media} {PS : PictureStore} {W : WantApi} {VE : VersionApi}.
Implicit Types (s : Sync) (env : SyncEnv).

(** Observers that a call adds: of the death of a listener, of the service of a device. *)
Definition deaths (x : Z) (c : SyncCall) : Z := match c with CAddDeath l => b2z (x =? l) | CRemoveDeath l => - b2z (x =? l) | _ => 0 end.
Definition watches (x : Z) (c : SyncCall) : Z := match c with CWatchDms d => b2z (x =? d) | CUnwatchDms d => - b2z (x =? d) | _ => 0 end.
Definition total (f : SyncCall -> Z) (l : list SyncCall) : Z := fold_right (fun c n => f c + n) 0 l.
Definition listens (x : Z) (i : ListenerInfo) : bool := match zfind x (listenerSet i) with Some _ => true | None => false end.
Definition task_ok (t : SyncTask) : Prop := match t with TRetryStartSync _ _ n | TRetryRegister n => 0 <= n < MAX_RETRY_TIMES | _ => True end.

Record sync_ok s : Prop := mkSyncOk {
  ok_missions : msorted (deviceMissionInfos_ s);
  ok_devices : msorted (remoteSyncDeviceSet_ s);
  ok_handles : msorted (deviceHandle_ s);
  ok_cache : msorted (cachedSnapshotInfos_ s);
  ok_cached : len (cachedSnapshotInfos_ s) <= MAX_CACHED_ITEM;
  ok_listeners : msorted (listenDeviceMap_ s);
  ok_sets : mall (fun _ i => listenerSet i <> [] /\ zsorted (listenerSet i)) (listenDeviceMap_ s);
  ok_deaths : forall x, total (deaths x) (calls_ s) = mcount (listens x) (listenDeviceMap_ s);
  ok_dms : msorted (remoteDmsMap_ s);
  ok_watches : forall x, total (watches x) (calls_ s) = mcount (Z.eqb x) (remoteDmsMap_ s);
  ok_tasks : Forall task_ok (tasks_ s);
}.

Lemma total_app f l l' : total f (l ++ l') = total f l + total f l'.
Proof. induction l as [|c l IH]; [done|]. change (f c + total f (l ++ l') = f c + total f l + total f l'). lia. Qed.
Lemma total_one f c : total f [c] = f c.
Proof. cbn. lia. Qed.
Definition neutral (c : SyncCall) : Prop := (forall x, deaths x c = 0) /\ (forall x, watches x c = 0).

Lemma ok_new kv : sync_ok (Sync_new kv).
Proof. by split; try constructor. Qed.
Lemma call_ok c : neutral c -> keeps sync_ok (call c).
Proof.
  intros [Hd Hw]. apply sync_keeps_modify. intros s []. split; try done; intros x; cbn [add_call calls_ listenDeviceMap_ remoteDmsMap_]; rewrite total_app, total_one, ?Hd, ?Hw, Z.add_0_r; auto.
Qed.

Lemma set_inited_ok s : sync_ok s -> sync_ok (set_inited s).
Proof. by intros []; split. Qed.
Lemma set_storage_ok x s : sync_ok s -> sync_ok (set_storage x s).
Proof. by intros []; split. Qed.
Lemma set_pkv_ok s x : sync_ok s -> sync_ok (set_pkv x s).
Proof. by intros []; split. Qed.
Lemma set_reg_ok x s : sync_ok s -> sync_ok (set_reg x s).
Proof. by intros []; split. Qed.
Lemma set_tasks_ok x s : Forall task_ok x -> sync_ok s -> sync_ok (set_tasks x s).
Proof. by intros ? []; split. Qed.
Lemma set_missions_ok x s : msorted x -> sync_ok s -> sync_ok (set_missions x s).
Proof. by intros ? []; split. Qed.
Lemma set_devices_ok x s : msorted x -> sync_ok s -> sync_ok (set_devices x s).
Proof. by intros ? []; split. Qed.
Lemma set_handles_ok x s : msorted x -> sync_ok s -> sync_ok (set_handles x s).
Proof. by intros ? []; split. Qed.
Lemma set_cache_ok x s : msorted x -> len x <= MAX_CACHED_ITEM -> sync_ok s -> sync_ok (set_cache x s).
Proof. by intros ? ? []; split. Qed.
#[local] Hint Resolve set_inited_ok set_storage_ok set_pkv_ok set_reg_ok set_tasks_ok set_missions_ok set_devices_ok set_handles_ok : keeping.
#[local] Hint Resolve mset_sorted merase_sorted minsert_sorted mfilter_sorted ok_missions ok_devices ok_handles ok_cache ok_listeners ok_dms ok_tasks : keeping.
#[local] Hint Extern 0 (MapKeyLaws _) => typeclasses eauto : keeping.
#[local] Hint Extern 2 (keeps _ (modify _)) => (apply sync_keeps_modify; intros ? ?) : keeping.
#[local] Hint Extern 2 (keeps _ (run_pkv _)) => (apply keeps_pkv; intros ? ? ?) : keeping.
#[local] Hint Extern 2 (keeps _ (call _)) => (apply call_ok; by split) : keeping.

Section Steps.
Variable env : SyncEnv.

Lemma update_storage_ok f : keeps sync_ok (update_storage f).
Proof. unfold update_storage. keep. Qed.
#[local] Hint Resolve update_storage_ok : keeping.
Lemma post_ok t : task_ok t -> keeps sync_ok (post env t).
Proof. intros Ht. unfold post. keep. apply sync_keeps_modify. intros s' Hs'. apply set_tasks_ok; [|done]. apply Forall_app. auto using ok_tasks. Qed.
Lemma post__ok t : task_ok t -> keeps sync_ok (post_ env t).
Proof. intros Ht. unfold post_. keep. by apply post_ok. Qed.
#[local] Hint Extern 1 (keeps _ (post_ _ _)) => (apply post__ok; exact I) : keeping.
Lemma RemoveDeleteTask_ok uuid : keeps sync_ok (RemoveDeleteTask uuid).
Proof.
  unfold RemoveDeleteTask. keep. apply sync_keeps_modify. intros s' Hs'. apply set_tasks_ok; [|done]. apply List.Forall_forall. intros t [Ht _]%filter_In.
  pose proof (ok_tasks _ H) as F. rewrite List.Forall_forall in F. auto.
Qed.
#[local] Hint Resolve RemoveDeleteTask_ok : keeping.

(** *** The database *)
Lemma GetKvStore_ok : keeps sync_ok DataStorage_GetKvStore.
Proof. unfold DataStorage_GetKvStore. keep. Qed.
#[local] Hint Resolve GetKvStore_ok : keeping.
Lemma TryGetKvStore_ok n : keeps sync_ok (TryGetKvStore n).
Proof. induction n as [|n IH]; cbn [TryGetKvStore]; keep. Qed.
#[local] Hint Resolve TryGetKvStore_ok : keeping.
Lemma run_waitTask_ok : keeps sync_ok (run_waitTask env).
Proof. unfold run_waitTask, InitDistributedDataStorage, SubscribeDistributedDataStorage. keep. Qed.
Lemma RunWaitTask_ok : keeps sync_ok (RunWaitTask env).
Proof. unfold RunWaitTask. keep. apply run_waitTask_ok. Qed.
Lemma InitDataStorage_ok : keeps sync_ok (InitDataStorage env).
Proof. unfold InitDataStorage, DataStorage_Init, InitKvDataService. keep. Qed.
Lemma StopDataStorage_ok : keeps sync_ok StopDataStorage.
Proof. unfold StopDataStorage, with_storage, DataStorage_Stop, UninitDistributedDataStorage. keep. Qed.
Lemma change_entry_ok f networkId missionId : keeps sync_ok (change_entry env f networkId missionId).
Proof. unfold change_entry. keep. Qed.
#[local] Hint Resolve change_entry_ok InitDataStorage_ok : keeping.
Lemma StoreSnapshotInfo_ok d missionId l : keeps sync_ok (StoreSnapshotInfo env d missionId l).
Proof. unfold StoreSnapshotInfo, with_storage, Insert. keep. Qed.
Lemma RemoveSnapshotInfo_ok d missionId : keeps sync_ok (RemoveSnapshotInfo env d missionId).
Proof. unfold RemoveSnapshotInfo, with_storage, Delete. keep. Qed.
Lemma run_delete_ok d : keeps sync_ok (run_delete d).
Proof. unfold run_delete, FuzzyDelete. keep. Qed.
#[local] Hint Resolve StoreSnapshotInfo_ok RemoveSnapshotInfo_ok run_delete_ok : keeping.
Lemma Query_ok networkId missionId : keeps sync_ok (Query env networkId missionId).
Proof. unfold Query. keep. Qed.
Lemma KvDied_ok : keeps sync_ok (KvStore_OnRemoteDied env).
Proof. unfold KvStore_OnRemoteDied, Manager_NotifyRemoteDied. keep. Qed.
Lemma DeleteDataStorage_ok d b : keeps sync_ok (DeleteDataStorage env d b).
Proof. unfold DeleteDataStorage. keep. Qed.
#[local] Hint Resolve Query_ok DeleteDataStorage_ok : keeping.

(** *** Pictures in memory *)
Lemma find_oldest_key l o f k : find_oldest l o f = Some k -> f = Some k \/ In k (map fst l).
Proof.
  revert o f. induction l as [|[k' c] l IH]; cbn; intros o f E; [by left|]. destruct (_ || _); apply IH in E as [E|E]; auto. injection E as ->. auto.
Qed.
Lemma find_oldest_some l o k : is_Some (find_oldest l o (Some k)).
Proof. revert o k. induction l as [|[k' c] l IH]; cbn; intros o k; [eauto|]. destruct (_ || _); apply IH. Qed.
Lemma oldest_found l : l <> [] -> msorted l -> exists k c, find_oldest l (-1) None = Some k /\ mfind k l = Some c.
Proof.
  intros Hl S. assert (is_Some (find_oldest l (-1) None)) as [k E] by (destruct l as [|[k c] l]; [done|apply find_oldest_some]).
  destruct (find_oldest_key _ _ _ _ E) as [|Hin]; [done|]. apply in_map_iff in Hin as ([k' c] & <- & Hin). exists k', c. split; [done|]. by apply mfind_sorted.
Qed.
Lemma Enqueue_ok d missionId snapshot : keeps sync_ok (EnqueueCachedSnapshotInfo d missionId snapshot).
Proof.
  unfold EnqueueCachedSnapshotInfo. keep. apply sync_keeps_modify. intros s Hs. match goal with |- sync_ok (if ?b then _ else _) => destruct b; [done|] end. pose proof (ok_cache _ Hs) as S. pose proof (ok_cached _ Hs) as L.
  destruct (Z.eqb_spec (len (cachedSnapshotInfos_ s)) MAX_CACHED_ITEM) as [E|E].
  - destruct (oldest_found (cachedSnapshotInfos_ s)) as (k & c0 & -> & F); [by intros N; rewrite N in E|done|].
    pose proof (len_merase _ _ _ S F). pose proof (len_mset (GenerateKeyInfo d missionId) c _ (merase_sorted k _ S)). apply set_cache_ok; [apply mset_sorted, merase_sorted, S|lia|done].
  - pose proof (len_mset (GenerateKeyInfo d missionId) c _ S). apply set_cache_ok; [apply mset_sorted, S|lia|done].
Qed.
Lemma filter_cache_ok f s s' : sync_ok s -> sync_ok s' -> sync_ok (set_cache (List.filter f (cachedSnapshotInfos_ s)) s').
Proof. intros H H'. apply set_cache_ok; [eauto with keeping| |done]. pose proof (len_filter f (cachedSnapshotInfos_ s)). pose proof (ok_cached _ H). lia. Qed.
Lemma Dequeue_ok d missionId : keeps sync_ok (DequeueCachedSnapshotInfo env d missionId).
Proof. unfold DequeueCachedSnapshotInfo, merase. keep. apply sync_keeps_modify. intros. by apply filter_cache_ok. Qed.
#[local] Hint Resolve Dequeue_ok : keeping.
Lemma DeleteCached_ok d : keeps sync_ok (DeleteCachedSnapshotInfo env d).
Proof. unfold DeleteCachedSnapshotInfo. keep. apply sync_keeps_modify. intros. by apply filter_cache_ok. Qed.
Lemma GetSnapshot_ok d missionId : keeps sync_ok (Manager_GetRemoteMissionSnapshotInfo env d missionId).
Proof. unfold Manager_GetRemoteMissionSnapshotInfo. keep. Qed.
Lemma Reborn_ok d l : keeps sync_ok (RebornMissionCache env d l).
Proof. unfold RebornMissionCache. keep. Qed.
Lemma CleanMissionCache_ok d : keeps sync_ok (CleanMissionCache env d).
Proof. unfold CleanMissionCache. keep. Qed.
#[local] Hint Resolve DeleteCached_ok Reborn_ok CleanMissionCache_ok : keeping.

(** *** Messages to listeners, services of devices *)
Lemma send_listener_ok o c l : keeps sync_ok (send_listener o c l).
Proof. unfold send_listener. keep. Qed.
#[local] Hint Resolve send_listener_ok : keeping.
Lemma NotifyMissionsChanged_ok o d : keeps sync_ok (NotifyMissionsChanged o d).
Proof. apply send_listener_ok. Qed.
Lemma NotifySnapshotChanged_ok d missionId : keeps sync_ok (NotifySnapshotChanged d missionId).
Proof. unfold NotifySnapshotChanged, NotifySnapshot. keep. Qed.
Lemma NetDisconnect_ok : keeps sync_ok NotifyNetDisconnectOffline.
Proof. unfold NotifyNetDisconnectOffline, NotifyNetDisconnect. keep. Qed.
#[local] Hint Resolve NotifyMissionsChanged_ok NotifySnapshotChanged_ok : keeping.

(** The observer and the entry change together. *)
Lemma dms_ok c x s : sync_ok s -> msorted x -> (forall y, deaths y c = 0) -> (forall y, watches y c = mcount (Z.eqb y) x - mcount (Z.eqb y) (remoteDmsMap_ s)) ->
  sync_ok (set_dms x (add_call c s)).
Proof.
  intros [] Hx Hd Hw. split; try done; intros y; cbn [set_dms add_call calls_ listenDeviceMap_ remoteDmsMap_]; rewrite total_app, total_one, ?Hd, ?Hw; [rewrite Z.add_0_r; auto|].
  rewrite ok_watches0. lia.
Qed.
Lemma GetRemoteDms_ok d : keeps sync_ok (GetRemoteDms env d).
Proof.
  unfold GetRemoteDms. destruct (String.eqb d ""); [keep|]. apply keeps_here. intros s Hs. destruct (mfind d (remoteDmsMap_ s)) eqn:E; [done|]. destruct (negb _); [done|].
  destruct (m_CheckSystemAbility env d) as [o|]; [|done]. change (sync_ok (set_dms (mset d o (remoteDmsMap_ s)) (add_call (CWatchDms o) s))).
  apply dms_ok; [done|eauto with keeping|done|]. intros y. rewrite mcount_mset, E by eauto with keeping. cbn. lia.
Qed.
Lemma unwatch_ok d o s : sync_ok s -> mfind d (remoteDmsMap_ s) = Some o -> sync_ok (set_dms (merase d (remoteDmsMap_ s)) (add_call (CUnwatchDms o) s)).
Proof. intros Hs E. apply dms_ok; [done|eauto with keeping|done|]. intros y. rewrite mcount_merase, E by eauto with keeping. cbn. lia. Qed.
#[local] Hint Resolve GetRemoteDms_ok : keeping.

(** *** Listeners *)
Definition add_calls (l : list SyncCall) (s : Sync) : Sync :=
  mkSync (inited s) (deviceHandle_ s) (deviceMissionInfos_ s) (remoteSyncDeviceSet_ s) (cachedSnapshotInfos_ s) (listenDeviceMap_ s) (storage_ s) (pkv_ s) (isRegMissionChange_ s) (remoteDmsMap_ s) (tasks_ s) (calls_ s ++ l).
Lemma each_call {A} (f : A -> SyncCall) l s : each (fun x => call (f x)) l s = (tt, add_calls (map f l) s).
Proof.
  revert s. induction l as [|x l IH]; intros s; [cbn; unfold add_calls; rewrite app_nil_r; by destruct s|].
  change (each (fun x => call (f x)) l (add_call (f x) s) = (tt, add_calls (map f (x :: l)) s)). rewrite IH. unfold add_calls, add_call. cbn. by rewrite <- app_assoc.
Qed.
Lemma listeners_ok l x s : sync_ok s -> msorted x -> mall (fun _ i => listenerSet i <> [] /\ zsorted (listenerSet i)) x ->
  (forall y, total (deaths y) l = mcount (listens y) x - mcount (listens y) (listenDeviceMap_ s)) -> (forall y, total (watches y) l = 0) ->
  sync_ok (set_listeners x (add_calls l s)).
Proof.
  intros [] Hx Hm Hd Hw. split; try done; intros y; cbn [set_listeners add_calls calls_ listenDeviceMap_ remoteDmsMap_]; rewrite total_app, ?Hd, ?Hw.
  - rewrite ok_deaths0. lia.
  - rewrite Z.add_0_r. auto.
Qed.
(** The entry of a device in which the listeners may be missing. *)
Definition info_ok (i : ListenerInfo) : Prop := zsorted (listenerSet i).
Lemma found_ok s d i : sync_ok s -> mfind d (listenDeviceMap_ s) = Some i -> listenerSet i <> [] /\ info_ok i.
Proof. intros Hs F. by destruct (mall_find _ _ _ _ (ok_sets _ Hs) F) as (_ & H & _). Qed.
Lemma default_ok s d : sync_ok s -> info_ok (default (mkListenerInfo false []) (mfind d (listenDeviceMap_ s))).
Proof. intros Hs. destruct (mfind d (listenDeviceMap_ s)) as [i|] eqn:F; [by eapply found_ok|constructor]. Qed.
Lemma listens_zset x y b m : listens x (mkListenerInfo b (zset y tt m)) = (x =? y) || listens x (mkListenerInfo b m).
Proof. unfold listens. cbn. rewrite zfind_zset. by destruct (x =? y). Qed.
Lemma listens_zerase x y b m : zsorted m -> listens x (mkListenerInfo b (zerase y m)) = negb (x =? y) && listens x (mkListenerInfo b m).
Proof. intros S. unfold listens. cbn. rewrite zfind_zerase by done. by destruct (x =? y). Qed.
Lemma zset_cons {A} k (v : A) m : zset k v m <> [].
Proof. destruct m as [|[a b] m]; cbn; [done|]. by repeat case_match. Qed.
Lemma Register_ok d listener : keeps sync_ok (Manager_RegisterMissionListener env d listener).
Proof.
  unfold Manager_RegisterMissionListener. destruct (String.eqb _ _); [keep|]. apply sync_keeps_bind; [eauto with keeping|intros _]. destruct listener as [o|]; [|keep]. destruct (negb _); [keep|].
  apply keeps_here. intros s Hs. set (info := default _ _). assert (info_ok info) as Hi by by apply default_ok. destruct (zfind o (listenerSet info)) eqn:F; [done|].
  change (sync_ok (set_listeners (mset d (mkListenerInfo (called info) (zset o tt (listenerSet info))) (listenDeviceMap_ s)) (add_calls [CAddDeath o] s))).
  apply listeners_ok; [done|eauto with keeping| | |done].
  - apply mall_mset_any; [|apply ok_sets, Hs]. intros _. split; [apply zset_cons|by apply zset_sorted].
  - intros y. rewrite mcount_mset, total_one by eauto with keeping. cbn [deaths]. rewrite listens_zset.
    assert (ocount (listens y) (mfind d (listenDeviceMap_ s)) = b2z (listens y info)) as -> by (unfold info; by destruct (mfind d (listenDeviceMap_ s))).
    unfold listens in *. destruct (Z.eqb_spec y o) as [->|]; cbn [orb b2z listenerSet]; [rewrite F; cbn; lia|lia].
Qed.
(** A listener leaves the set of an entry. *)
Lemma listens_leave y o i : info_ok i -> listens o i = true -> b2z (listens y (mkListenerInfo (called i) (zerase o (listenerSet i)))) = b2z (listens y i) - b2z (y =? o).
Proof.
  intros Hi Ho. rewrite listens_zerase by done. destruct i as [b m]. cbn [called listenerSet] in *. destruct (Z.eqb_spec y o) as [->|]; cbn [negb andb]; [rewrite Ho; cbn; lia|cbn; lia].
Qed.
Lemma listens_none y b : listens y (mkListenerInfo b []) = false.
Proof. done. Qed.
Lemma UnRegister_ok d listener : keeps sync_ok (Manager_UnRegisterMissionListener env d listener).
Proof.
  unfold Manager_UnRegisterMissionListener. destruct listener as [o|]; [|keep]. destruct (negb _); [keep|]. destruct (negb _); [keep|].
  apply keeps_here. intros s Hs. destruct (mfind d (listenDeviceMap_ s)) as [i|] eqn:F; [|done]. destruct (zfind o (listenerSet i)) eqn:Fo; [|done].
  destruct (found_ok _ _ _ Hs F) as [_ Hi]. assert (listens o i = true) as Ho by (unfold listens; by rewrite Fo). pose proof (fun y => listens_leave y o i Hi Ho) as HL.
  destruct (zerase o (listenerSet i)) as [|e m] eqn:Ez.
  - change (sync_ok (set_listeners (merase d (listenDeviceMap_ s)) (add_calls [CRemoveDeath o] s))). apply listeners_ok; [done|eauto with keeping|apply mall_merase, ok_sets, Hs| |done].
    intros y. rewrite mcount_merase, F, total_one by eauto with keeping. specialize (HL y). rewrite listens_none in HL. cbn in *. lia.
  - change (sync_ok (set_listeners (mset d (mkListenerInfo (called i) (e :: m)) (listenDeviceMap_ s)) (add_calls [CRemoveDeath o] s))). apply listeners_ok; [done|eauto with keeping| | |done].
    + apply mall_mset_any; [|apply ok_sets, Hs]. intros _. split; [done|]. cbn. rewrite <- Ez. by apply zerase_sorted.
    + intros y. rewrite mcount_mset, F, total_one by eauto with keeping. specialize (HL y). cbn [ocount deaths] in *. lia.
Qed.
Lemma removed_deaths y m : zsorted m -> total (deaths y) (map CRemoveDeath (zkeys m)) = - b2z (match @zfind unit y m with Some _ => true | None => false end).
Proof.
  intros S. induction m as [|[k v] m IH]; [done|]. apply zsorted_cons in S as [S F]. change (- b2z (y =? k) + total (deaths y) (map CRemoveDeath (zkeys m)) = - b2z (match (if y =? k then Some v else zfind y m) with Some _ => true | None => false end)).
  rewrite (IH S). destruct (Z.eqb_spec y k) as [->|]; [|cbn; lia]. by rewrite (zfind_None_lt _ _ F).
Qed.
Lemma total_watches_removed {A} y (f : A -> Z) l : total (watches y) (map (fun x => CRemoveDeath (f x)) l) = 0.
Proof. induction l as [|x l IH]; [done|exact IH]. Qed.
Lemma total_map_removed y l : total (watches y) (map CRemoveDeath l) = 0.
Proof. exact (total_watches_removed y id l). Qed.

Lemma StopSync_ok d b : keeps sync_ok (Manager_StopSyncRemoteMissions env d b).
Proof. unfold Manager_StopSyncRemoteMissions. keep. Qed.
#[local] Hint Resolve StopSync_ok : keeping.
Lemma run_prefix {A} P (a b : SM unit) (k : SM A) s : P (run (_ ← a; b) s) -> keeps P k -> P (run (_ ← a; _ ← b; k) s).
Proof. intros Hab Hk. unfold run, mbind, SM_bind in *. destruct (a s) as [x1 s1]. destruct (b s1) as [x2 s2]. exact (Hk s2 Hab). Qed.
Lemma Clean_ok d : keeps sync_ok (CleanMissionResources env d).
Proof.
  unfold CleanMissionResources. apply keeps_here. intros s Hs. destruct (mfind _ _) as [i|] eqn:F; [|done]. apply run_prefix; [|keep].
  unfold run, mbind, SM_bind. rewrite each_call. cbn [modify snd add_calls listenDeviceMap_]. destruct (found_ok _ _ _ Hs F) as [_ Hi].
  apply (listeners_ok (map CRemoveDeath (zkeys (listenerSet i))) (merase (Str8ToStr16 d) (listenDeviceMap_ s)) s); [done|eauto with keeping|apply mall_merase, ok_sets, Hs| |].
  - intros y. rewrite mcount_merase, F, removed_deaths by eauto with keeping. cbn [ocount]. unfold listens. lia.
  - intros y. apply total_map_removed.
Qed.
#[local] Hint Resolve Clean_ok : keeping.
(** The listener that died leaves every entry. *)
Lemma without_listener_ok o l l' ds n : without_listener o l = (l', ds, n) -> msorted l -> mall (fun _ i => listenerSet i <> [] /\ zsorted (listenerSet i)) l ->
  msorted l' /\ mall (fun _ i => listenerSet i <> [] /\ zsorted (listenerSet i)) l' /\ Z.of_nat n = mcount (listens o) l /\
  (forall y, mcount (listens y) l' = if y =? o then 0 else mcount (listens y) l) /\ (forall P : string16 -> Prop, Forall P (map fst l) -> Forall P (map fst l')).
Proof.
  revert l' ds n. induction l as [|[d i] l IH]; cbn [without_listener]; intros l' ds n E S M.
  - injection E as <- <- <-. repeat split; try done. intros y. by destruct (y =? o).
  - destruct (without_listener o l) as [[l1 ds1] n1]. inversion S as [|? ? S' F]; subst. inversion M as [|? ? [Ne Hi] M']; subst. cbn [fst snd] in *.
    destruct (IH _ _ _ eq_refl S' M') as (S1 & M1 & N1 & C1 & K1). assert (forall i', msorted ((d, i') :: l1)) as Sc.
    { intros i'. constructor; [done|]. specialize (K1 (fun k => key_lt d k = true)). rewrite !List.Forall_map in K1. by apply K1. }
    destruct (zfind o (listenerSet i)) eqn:Fo.
    + assert (listens o i = true) as Ho by (unfold listens; by rewrite Fo). pose proof (fun y => listens_leave y o i Hi Ho) as HL.
      destruct (zerase o (listenerSet i)) as [|e m] eqn:Ez; injection E as <- <- <-; rewrite !mcount_cons; cbn [snd]; rewrite Ho, Nat2Z.inj_succ, N1.
      * repeat split; [done|done|cbn; lia| |]. -- intros y. rewrite mcount_cons, C1. cbn [snd]. specialize (HL y). rewrite listens_none in HL. destruct (y =? o); cbn in *; lia.
        -- intros P HP. inversion HP; subst. auto.
      * repeat split; [apply Sc| |cbn; lia| |]. -- constructor; [|done]. cbn. split; [done|]. rewrite <- Ez. by apply zerase_sorted.
        -- intros y. rewrite !mcount_cons, C1. cbn [snd]. specialize (HL y). destruct (Z.eqb_spec y o) as [Ey|]; [rewrite Ey, Ho in HL; rewrite Ey|]; cbn in *; lia.
        -- intros P HP. inversion HP; subst. constructor; auto.
    + injection E as <- <- <-. assert (listens o i = false) as Ho by (unfold listens; by rewrite Fo). rewrite mcount_cons. cbn [snd]. rewrite Ho.
      repeat split; [apply Sc|by constructor|cbn; lia| |]. -- intros y. rewrite !mcount_cons, C1. cbn [snd]. destruct (Z.eqb_spec y o) as [->|]; [by rewrite Ho|done].
      -- intros P HP. inversion HP; subst. constructor; auto.
Qed.
Lemma removed_times y o n : total (deaths y) (map (fun _ => CRemoveDeath o) (seq 0 n)) = - (if y =? o then Z.of_nat n else 0).
Proof.
  generalize 0%nat as a. induction n as [|n IH]; intros a; [by destruct (y =? o)|]. change (- b2z (y =? o) + total (deaths y) (map (fun _ => CRemoveDeath o) (seq (S a) n)) = - (if y =? o then Z.of_nat (S n) else 0)).
  rewrite IH. destruct (y =? o); cbn [b2z]; lia.
Qed.
Lemma ListenerDied_ok o : keeps sync_ok (OnMissionListenerDied env o).
Proof.
  unfold OnMissionListenerDied. apply keeps_here. intros s Hs. destruct (without_listener o (listenDeviceMap_ s)) as [[l ds] n] eqn:E.
  destruct (without_listener_ok _ _ _ _ _ E (ok_listeners _ Hs) (ok_sets _ Hs)) as (S & M & N & C & _). apply run_prefix; [|keep].
  unfold run, mbind, SM_bind. rewrite (each_call (fun _ => CRemoveDeath o)). cbn [modify snd]. apply listeners_ok; [done|done|done| |].
  - intros y. rewrite removed_times, C. destruct (Z.eqb_spec y o) as [->|]; lia.
  - intros y. apply (total_watches_removed y (fun _ => o)).
Qed.
#[local] Hint Resolve ListenerDied_ok : keeping.

(** *** Asking other devices, giving to other devices *)
Lemma StartSync_dms_ok d o : keeps sync_ok (StartSyncRemoteMissions_dms env d o).
Proof. unfold StartSyncRemoteMissions_dms. keep. Qed.
#[local] Hint Resolve StartSync_dms_ok : keeping.
Lemma RetryStart_ok d l n : 0 <= n -> keeps sync_ok (RetryStartSyncRemoteMissions env d l n).
Proof. intros Hn. unfold RetryStartSyncRemoteMissions, when_. destruct (Z.ltb_spec n MAX_RETRY_TIMES); [|keep]. apply post__ok. cbn. lia. Qed.
Lemma RetryRegister_ok n : 0 <= n -> keeps sync_ok (RetryRegisterMissionChange env n).
Proof. intros Hn. unfold RetryRegisterMissionChange, when_. destruct (Z.ltb_spec n MAX_RETRY_TIMES); [|keep]. apply post__ok. cbn. lia. Qed.
#[local] Hint Extern 1 (keeps _ (RetryStartSyncRemoteMissions _ _ _ _)) => (apply RetryStart_ok; lia) : keeping.
#[local] Hint Extern 1 (keeps _ (RetryRegisterMissionChange _ _)) => (apply RetryRegister_ok; lia) : keeping.
Lemma set_called_ok d s : sync_ok s -> sync_ok (set_listeners (mupdate d set_called (listenDeviceMap_ s)) s).
Proof.
  intros Hs. pose proof Hs as []. split; try done; cbn [set_listeners listenDeviceMap_ calls_].
  - by apply mupdate_sorted.
  - apply mall_mupdate; [|done]. by intros _ [b m].
  - intros x. rewrite mcount_mupdate, ok_deaths0 by done. destruct (mfind d (listenDeviceMap_ s)) as [[b m]|]; cbn; unfold listens; cbn; lia.
Qed.
Lemma StartSync_ok d : keeps sync_ok (Manager_StartSyncRemoteMissions env d).
Proof.
  unfold Manager_StartSyncRemoteMissions, StartSyncRemoteMissions_local. keep. apply sync_keeps_modify. intros s' Hs'. by apply set_called_ok.
Qed.
Lemma DmsDied_ok o : keeps sync_ok (OnRemoteDmsDied env o).
Proof.
  unfold OnRemoteDmsDied. apply keeps_here. intros s Hs. destruct (find _ _) as [[d o']|] eqn:F; [|done]. apply find_some in F as [Hin Eo]. apply Z.eqb_eq in Eo. cbn in Eo. subst o'.
  apply run_prefix; [|keep]. apply (unwatch_ok d o s Hs). apply mfind_sorted; [apply ok_dms, Hs|done].
Qed.
#[local] Hint Resolve DmsDied_ok : keeping.
Lemma SnapshotChanged_ok missionId : keeps sync_ok (MissionSnapshotChanged env missionId).
Proof. unfold MissionSnapshotChanged. keep. Qed.
Lemma SnapshotDestroyed_ok missionId : keeps sync_ok (MissionSnapshotDestroyed env missionId).
Proof. unfold MissionSnapshotDestroyed. keep. Qed.
#[local] Hint Resolve SnapshotChanged_ok SnapshotDestroyed_ok : keeping.
Lemma StartFromRemote_ok c : keeps sync_ok (Manager_StartSyncMissionsFromRemote env c).
Proof. unfold Manager_StartSyncMissionsFromRemote. keep. Qed.
Lemma StopFromRemote_ok d : keeps sync_ok (Manager_StopSyncMissionsFromRemote env d).
Proof. unfold Manager_StopSyncMissionsFromRemote. keep. Qed.
#[local] Hint Resolve StopFromRemote_ok : keeping.
Lemma AdapterRegister_ok b : keeps sync_ok (Adapter_RegisterMissionListener env b).
Proof. unfold Adapter_RegisterMissionListener. keep. Qed.
Lemma AdapterUnRegister_ok b : keeps sync_ok (Adapter_UnRegisterMissionListener env b).
Proof. unfold Adapter_UnRegisterMissionListener. keep. Qed.
#[local] Hint Resolve AdapterRegister_ok AdapterUnRegister_ok : keeping.
Lemma run_register_ok l : keeps sync_ok (run_register env l).
Proof. unfold run_register, InitAllSnapshots. keep. Qed.
Lemma run_unregister_ok : keeps sync_ok (run_unregister env).
Proof. unfold run_unregister. keep. Qed.
Lemma FetchDeviceHandler_ok d : keeps sync_ok (FetchDeviceHandler env d).
Proof. unfold FetchDeviceHandler. keep. Qed.
Lemma post_device_ok d l c : keeps sync_ok (post_device env (TToRemote d l c)).
Proof. unfold post_device. keep. apply sync_keeps_modify. intros s Hs. apply set_tasks_ok; [|done]. apply Forall_app. split; [apply ok_tasks, Hs|by repeat constructor]. Qed.
#[local] Hint Resolve run_register_ok run_unregister_ok FetchDeviceHandler_ok post_device_ok : keeping.
Lemma notify_devices_ok l c ds : keeps sync_ok (notify_devices env l c ds).
Proof. induction ds as [|[d []] ds IH]; cbn [notify_devices]; keep. Qed.
#[local] Hint Resolve notify_devices_ok : keeping.
Lemma ChangedFromRemote_ok c l : keeps sync_ok (Manager_NotifyMissionsChangedFromRemote env c l).
Proof. unfold Manager_NotifyMissionsChangedFromRemote. keep. Qed.
Lemma ToRemoteInner_ok d l c : keeps sync_ok (NotifyMissionsChangedToRemoteInner env d l c).
Proof. unfold NotifyMissionsChangedToRemoteInner. keep. Qed.
#[local] Hint Resolve ToRemoteInner_ok : keeping.
Lemma local_changed_ok : keeps sync_ok (run_local_changed env).
Proof. unfold run_local_changed, NotifyMissionsChangedToRemote. keep. Qed.
#[local] Hint Resolve local_changed_ok : keeping.
Lemma Offline_ok d : keeps sync_ok (Manager_DeviceOfflineNotify env d).
Proof.
  unfold Manager_DeviceOfflineNotify. destruct (String.eqb d ""); [keep|]. do 2 (apply sync_keeps_bind; [eauto with keeping|intros _]). apply keeps_here. intros s Hs.
  destruct (mfind d (remoteDmsMap_ s)) as [o|] eqn:F; [|done]. by apply (unwatch_ok d o s).
Qed.
Lemma on_entries_ok u keys : keeps sync_ok (on_entries env u keys).
Proof. induction keys as [|k keys IH]; cbn [on_entries]; keep. Qed.
#[local] Hint Resolve on_entries_ok : keeping.
Lemma OnChange_ok a b c : keeps sync_ok (OnChange env a b c).
Proof. unfold OnChange, on_deletes. keep. Qed.

Lemma run_dnet_died_ok : keeps sync_ok (run_dnet_died env).
Proof. unfold run_dnet_died. keep. apply sync_keeps_modify. intros. apply set_devices_ok; [constructor|done]. Qed.
Lemma run_task_ok t : task_ok t -> keeps sync_ok (run_task env t).
Proof.
  intros Ht. destruct t; cbn [run_task task_ok] in *; try (solve [keep]); [unfold run_retry_sync|unfold run_retry_register|apply run_dnet_died_ok]; keep.
Qed.
Lemma RunSyncTask_ok n : keeps sync_ok (RunSyncTask env n).
Proof.
  unfold RunSyncTask. apply sync_keeps_get. intros s Hs. destruct (tasks_ s !! n) as [t|] eqn:E; [|keep]. pose proof (ok_tasks _ Hs) as F. apply sync_keeps_bind.
  - apply sync_keeps_modify. intros s' Hs'. apply set_tasks_ok; [by apply Forall_delete|done].
  - intros _. apply run_task_ok. by eapply Forall_lookup_1.
Qed.
End Steps.

#[local] Hint Resolve InitDataStorage_ok StopDataStorage_ok KvDied_ok GetSnapshot_ok Enqueue_ok Register_ok UnRegister_ok StartSync_ok StopSync_ok StartFromRemote_ok StopFromRemote_ok
  ChangedFromRemote_ok RemoveDeleteTask_ok Offline_ok NetDisconnect_ok OnChange_ok DeleteDataStorage_ok RunSyncTask_ok RunWaitTask_ok : keeping.
#[local] Hint Extern 1 (keeps _ (post_ _ _)) => (apply post__ok; exact I) : keeping.
#[local] Hint Extern 1 (keeps _ (RetryRegisterMissionChange _ _)) => (apply RetryRegister_ok; lia) : keeping.
Lemma sync_step_ok env o s : sync_ok s -> sync_ok (sync_step env o s).
Proof.
  revert s. destruct o; cbn [sync_step]; match goal with |- forall s, sync_ok s -> sync_ok (run ?m s) => change (keeps sync_ok m) end;
    unfold Init, Service_GetRemoteMissionSnapshotInfo, Service_RegisterMissionListener, Service_UnRegisterMissionListener, Service_StartSyncRemoteMissions, Service_StopSyncRemoteMissions,
      Service_StartSyncMissionsFromRemote, Service_StopSyncMissionsFromRemote, Service_NotifyMissionsChangedFromRemote, foreground, DeviceOnlineNotify, Manager_OnRemoteDied, OnRemoteDmsDied_notify,
      NotifyDmsProxyProcessDied, OnDnetDied, OnMissionCreated, OnMissionDestroyed, OnMissionSnapshotChanged, OnMissionMovedToFront, NotifyLocalMissionsChanged, NotifyMissionSnapshotCreated,
      NotifyMissionSnapshotChanged, NotifyMissionSnapshotDestroyed; keep.
Qed.

(** C25: in every state that a history of requests, of events of devices and services, and of tasks in any order gives: the tables are maps
    in the order of their keys, at most ten pictures are kept in memory, a device that is listened to has a listener, each observer
    of a death that was added to a listener (or to the service of a device) and not removed belongs to exactly one
    entry that holds that listener (or service), and no task has been tried more often than the limit. *)
Theorem manager_tables_consistent kv s : SyncReach kv s -> sync_ok s.
Proof. induction 1 as [|env o s _ IH]; [apply ok_new|by apply sync_step_ok]. Qed.
End Invariant.

(** ** Two devices *)

Section Follow.
Context {T16 : Text16} {K16 : Text16Key} {IP : @IpcParcel T16} {IC : IpcCodes} {PB : ParcelBytes} {ME : Media} {PS : PictureStore} {W : WantApi} {VE : VersionApi}.
Implicit Types (s : Sync) (env : SyncEnv).

Lemma runs_bind {A B} (m : SM A) (k : A -> SM B) s x s1 : m s = (x, s1) -> (m ≫= k) s = k x s1.
Proof. intros E. unfold mbind, SM_bind. by rewrite E. Qed.
Lemma runs_modify {B} f (k : unit -> SM B) s : (modify f ≫= k) s = k tt (f s).
Proof. done. Qed.
Lemma runs_get {B} (k : Sync -> SM B) s : (get_sync ≫= k) s = k s s.
Proof. done. Qed.
Lemma post_eq env t s : post_ env t s = (tt, if inited s && m_PostTask env then set_tasks (tasks_ s ++ [t]) s else s).
Proof. unfold post_, post, mbind, SM_bind. cbn [get_sync]. by destruct (inited s && m_PostTask env). Qed.
(** The look-up of a service changes the table of the services only. *)
Lemma GetRemoteDms_frame env d s r s' : GetRemoteDms env d s = (r, s') -> s' = set_dms (remoteDmsMap_ s') (add_calls (drop (length (calls_ s)) (calls_ s')) s).
Proof.
  assert (s = set_dms (remoteDmsMap_ s) (add_calls (drop (length (calls_ s)) (calls_ s)) s)) as R by (rewrite drop_ge by done; destruct s; unfold add_calls; cbn; by rewrite app_nil_r).
  unfold GetRemoteDms. destruct (String.eqb d ""); [by intros [= _ <-]|]. unfold mbind, SM_bind. cbn [get_sync]. destruct (mfind d (remoteDmsMap_ s)); [by intros [= _ <-]|].
  destruct (negb (m_samgr env)); [by intros [= _ <-]|]. destruct (m_CheckSystemAbility env d) as [o|]; [|by intros [= _ <-]]. cbn -[drop]. intros [= _ <-]. cbn -[drop]. rewrite drop_app_length. reflexivity.
Qed.
(** The missions that are shown are those in the table. *)
Lemma missions_shown env d n s l : d <> "" -> m_known env d = true -> m_uuidOf env d <> "" -> 0 < n -> len l <= GET_MAX_MISSIONS ->
  mfind (m_uuidOf env d) (deviceMissionInfos_ s) = Some (ConvertToDstbMissionInfos l []) -> Service_GetMissionInfos env d n s = Some (ERR_OK, firstn (Z.to_nat n) l).
Proof.
  intros Hd Hk Hu Hn Hl F. unfold Service_GetMissionInfos, Manager_GetMissionInfos, IsDeviceIdValidated, FetchCachedRemoteMissions. apply String.eqb_neq in Hd, Hu. rewrite Hd, Hk, Hu, F. cbn [negb andb].
  destruct (Z.leb_spec n 0); [lia|]. assert (len (ConvertToDstbMissionInfos l []) = len l) as -> by (unfold ConvertToDstbMissionInfos, len; cbn [app]; by rewrite length_map).
  rewrite i32_id by (unfold is_i32, GET_MAX_MISSIONS, len in *; lia). destruct (Z.ltb_spec (len l) 0); [unfold len in *; lia|].
  assert (firstn (Z.to_nat n) (ConvertToDstbMissionInfos l []) = ConvertToDstbMissionInfos (firstn (Z.to_nat n) l) []) as E by (unfold ConvertToDstbMissionInfos; cbn [app]; by rewrite firstn_map).
  destruct (Z.ltb_spec n (len l)); [by rewrite E, missions_converted|]. rewrite missions_converted. cbn. by rewrite firstn_all2 by (unfold len in *; lia).
Qed.

(** What the other device answers: its missions; it will tell the changes, and listens to them. *)
Lemma sync_answer env c s l : m_Connect env = ERR_OK -> m_GetMissionInfos env GET_MAX_MISSIONS = (ERR_OK, l) -> caller_sourceDeviceId c <> "" ->
  fst (Service_StartSyncMissionsFromRemote env c s) = (ERR_OK, ConvertToDstbMissionInfos l []) /\ NeedSyncDevice (caller_sourceDeviceId c) (run (Service_StartSyncMissionsFromRemote env c) s) = true.
Proof.
  intros Hc Hm Ha. apply String.eqb_neq in Ha. unfold Service_StartSyncMissionsFromRemote, Manager_StartSyncMissionsFromRemote, GetLocalMissionInfos. rewrite Hc, Hm. cbn [negb Z.eqb ERR_OK].
  unfold run, NeedSyncDevice. rewrite runs_modify, (runs_bind _ _ _ _ _ (post_eq env _ _)). split; [done|]. rewrite Ha. unfold mret, SM_ret.
  cbn [snd set_devices inited tasks_]. destruct (inited s && m_PostTask env); cbn [set_tasks set_devices remoteSyncDeviceSet_]; rewrite mfind_minsert;
    destruct (mfind (caller_sourceDeviceId c) (remoteSyncDeviceSet_ s)); rewrite ?same_key_refl; done.
Qed.
(** A service that answers with missions: they are stored under the device. *)
Lemma StartSync_dms_stores env d o c l s : GenerateCallerInfo env = Some c -> m_StartSync env o c = (ERR_OK, l) -> m_uuidOf env d <> "" ->
  StartSyncRemoteMissions_dms env d o s = (ERR_NONE, set_missions (mset (m_uuidOf env d) l (deviceMissionInfos_ s)) (add_call (CStartSync o c) s)).
Proof.
  intros Hc Hs Hu. apply String.eqb_neq in Hu. unfold StartSyncRemoteMissions_dms. rewrite Hc, Hs. unfold call. rewrite runs_modify. unfold RebornMissionCache. rewrite Hu. reflexivity.
Qed.

(** C27: a program in the foreground of the first device that listens to the second one, which is known and whose service is
    reached, asks for its missions. If the device is not marked as followed yet and the ability manager of the second device
    gives its missions (at most as many as are asked for): the request succeeds, from then on the first device shows the
    first [n] missions of the second for every [n], knows that it follows that device, and the second device has noted the
    first one as one that it has to tell about changes. If it is marked as followed, the request succeeds and nothing is
    done: the second device is not asked. The mark outlives the end of the synchronisation (see [restart_shows_nothing]). *)
Theorem sync_shows_missions envA envB sA sB a b dB info l fixConflict tag uid :
  m_IsCallerForeground envA uid = true -> m_known envA b = true -> m_uuidOf envA b <> "" -> b <> "" ->
  m_GetLocalDeviceId envA = Some a -> a <> "" -> a <> b ->
  mfind (Str8ToStr16 b) (listenDeviceMap_ sA) = Some info ->
  fst (GetRemoteDms envA b sA) = Some dB ->
  (forall c, m_StartSync envA dB c = fst (Service_StartSyncMissionsFromRemote envB c sB)) ->
  m_Connect envB = ERR_OK -> m_GetMissionInfos envB GET_MAX_MISSIONS = (ERR_OK, l) -> len l <= GET_MAX_MISSIONS ->
  if called info then Service_StartSyncRemoteMissions envA b fixConflict tag uid sA = (ERR_NONE, sA)
  else exists caller sA', Service_StartSyncRemoteMissions envA b fixConflict tag uid sA = (ERR_NONE, sA') /\
    caller_sourceDeviceId caller = a /\ In (CStartSync dB caller) (calls_ sA') /\ HasSyncListener b sA' = true /\
    (forall n, 0 < n -> Service_GetMissionInfos envA b n sA' = Some (ERR_OK, firstn (Z.to_nat n) l)) /\
    NeedSyncDevice a (run (Service_StartSyncMissionsFromRemote envB caller) sB) = true.
Proof.
  intros Hf Hk Hu Hb Ha Ha0 Hab F Hd Hans Hc Hm Hl. destruct (GetRemoteDms envA b sA) as [r s1] eqn:E. cbn in Hd. subst r. pose proof (GetRemoteDms_frame _ _ _ _ _ E) as Es.
  unfold Service_StartSyncRemoteMissions, foreground, Manager_StartSyncRemoteMissions, IsDeviceIdValidated. rewrite Hf, Hk, Ha. pose proof (proj2 (String.eqb_neq b "") Hb) as Hb'. rewrite Hb'. cbn [negb andb].
  rewrite (proj2 (String.eqb_neq b a)) by congruence. unfold StartSyncRemoteMissions_local. rewrite runs_get, F. destruct (called info); [done|].
  set (caller := mkCallerInfo (m_callingUid envA) (m_callingPid envA) CALLER_TYPE_HARMONY a (-1) "" [] VERSION 0 JNull).
  assert (GenerateCallerInfo envA = Some caller) as Ec by (unfold GenerateCallerInfo; by rewrite Ha).
  destruct (sync_answer envB caller sB l Hc Hm Ha0) as [Ans Need]. rewrite <- Hans in Ans.
  pose proof (StartSync_dms_stores envA b dB caller _ s1 Ec Ans Hu) as E1.
  exists caller. eexists. split; [|repeat split; [| |intros n Hn'|exact Need]].
  - rewrite (runs_bind _ _ _ _ _ E), (runs_bind _ _ _ _ _ E1). reflexivity.
  - cbn. apply in_or_app. right. by left.
  - unfold HasSyncListener. cbn -[mfind mupdate]. rewrite mfind_mupdate, same_key_refl. rewrite Es. cbn -[mfind]. by rewrite F.
  - apply missions_shown; try done. cbn -[mfind mset ConvertToDstbMissionInfos]. by rewrite mfind_mset, same_key_refl.
Qed.

(** Every device of the set that is known gets a task. *)
Lemma FetchDeviceHandler_eq env d s : exists x, FetchDeviceHandler env d s = (IsDeviceIdValidated env d && negb (String.eqb (m_uuidOf env d) ""), set_handles x s).
Proof.
  unfold FetchDeviceHandler. assert (s = set_handles (deviceHandle_ s) s) as Es by by destruct s. destruct (IsDeviceIdValidated env d); cbn [negb andb]; [|by exists (deviceHandle_ s); rewrite <- Es].
  destruct (String.eqb (m_uuidOf env d) ""); cbn [negb]; [by exists (deviceHandle_ s); rewrite <- Es|]. eexists. reflexivity.
Qed.
Lemma notify_devices_tasks env l c ds s : m_PostTask env = true -> exists h,
  notify_devices env l c ds s =
    (ERR_NONE, set_handles h (set_tasks (tasks_ s ++ map (fun d => TToRemote d l c) (List.filter (fun d => IsDeviceIdValidated env d && negb (String.eqb (m_uuidOf env d) "")) (map fst ds))) s)).
Proof.
  intros Hp. revert s. induction ds as [|[d []] ds IH]; intros s; cbn [notify_devices].
  - exists (deviceHandle_ s). cbn. rewrite app_nil_r. by destruct s.
  - destruct (FetchDeviceHandler_eq env d s) as [x Ex]. rewrite (runs_bind _ _ _ _ _ Ex). cbn [map List.filter fst]. destruct (_ && _); cbn [negb map].
    + unfold post_device. rewrite Hp. destruct (IH (set_tasks (tasks_ s ++ [TToRemote d l c]) (set_handles x s))) as [h Eh]. exists h. refine (eq_trans Eh _). cbn. by rewrite <- app_assoc.
    + destruct (IH (set_handles x s)) as [h Eh]. exists h. exact Eh.
Qed.
Lemma each_sends (f : Z -> SM unit) g l s : (forall o s, f o s = (tt, add_call (g o) s)) -> calls_ (run (each f l) s) = calls_ s ++ map g l.
Proof.
  intros Hf. revert s. induction l as [|o l IH]; intros s; cbn [each map]; [by rewrite app_nil_r|]. unfold run. rewrite (runs_bind _ _ _ _ _ (Hf o s)). fold (run (each f l) (add_call (g o) s)).
  rewrite IH. cbn. by rewrite <- app_assoc.
Qed.
Lemma need_in d s : NeedSyncDevice d s = true -> d <> "" /\ In d (map fst (remoteSyncDeviceSet_ s)).
Proof.
  unfold NeedSyncDevice. destruct (String.eqb_spec d ""); [done|]. destruct (mfind d (remoteSyncDeviceSet_ s)) as [[]|] eqn:F; [|done]. intros _. split; [done|].
  apply mfind_In in F as (k & Hin & E). rewrite same_string in E. apply String.eqb_eq in E. subst k. by apply (in_map fst) in Hin.
Qed.
Lemma filter_keeps {A} (p : A -> bool) x l : In x l -> p x = true -> In x (List.filter p l).
Proof. intros. by apply filter_In. Qed.
Lemma change_posted env s a b l : NeedSyncDevice a s = true -> m_known env a = true -> m_uuidOf env a <> "" -> m_GetLocalDeviceId env = Some b -> m_PostTask env = true ->
  m_Connect env = ERR_OK -> m_GetMissionInfos env GET_MAX_MISSIONS = (ERR_OK, l) ->
  exists c, GenerateCallerInfo env = Some c /\ caller_sourceDeviceId c = b /\ In (TToRemote a (ConvertToDstbMissionInfos l []) c) (tasks_ (run (run_task env TLocalMissionsChanged) s)).
Proof.
  intros [Ha Hin]%need_in Hk Hu Hl Hp Hc Hm. eexists. split; [unfold GenerateCallerInfo; rewrite Hl; reflexivity|split; [reflexivity|]]. set (c := mkCallerInfo _ _ _ _ _ _ _ _ _ _).
  cbn [run_task]. unfold run_local_changed, GetLocalMissionInfos, NotifyMissionsChangedToRemote, GenerateCallerInfo. rewrite Hc, Hm, Hl. cbn [negb Z.eqb ERR_OK when_ mbind option_bind]. fold c.
  destruct (notify_devices_tasks env (ConvertToDstbMissionInfos l []) c (remoteSyncDeviceSet_ s) s Hp) as [h Eh]. unfold run. rewrite (runs_bind _ _ _ _ _ (eq_trans (runs_get _ s) Eh)).
  cbn [mret SM_ret snd set_handles set_tasks tasks_]. apply in_or_app. right. apply (in_map (fun d => TToRemote d (ConvertToDstbMissionInfos l []) c)), filter_keeps; [done|].
  unfold IsDeviceIdValidated. apply String.eqb_neq in Ha, Hu. by rewrite Ha, Hk, Hu.
Qed.
Lemma change_sent env s a l c d : fst (GetRemoteDms env a s) = Some d -> In (CNotifyDms d l c) (calls_ (run (run_task env (TToRemote a l c)) s)).
Proof.
  cbn [run_task]. unfold NotifyMissionsChangedToRemoteInner, run. destruct (GetRemoteDms env a s) as [r s1] eqn:E. cbn. intros ->. rewrite (runs_bind _ _ _ _ _ E). cbn. apply in_or_app. right. by left.
Qed.

(** C26: a change of the missions of the second device, while the first follows it: the second device makes a task that calls the
    service of the first one with its present missions in its own name; when the first device gets that call it shows these
    missions and makes a task that sends one message to each of its listeners for that device, none left out. *)
Theorem change_reaches_listeners envA envB sA sB a b l info m :
  NeedSyncDevice a sB = true -> m_known envB a = true -> m_uuidOf envB a <> "" -> m_GetLocalDeviceId envB = Some b -> m_PostTask envB = true ->
  m_Connect envB = ERR_OK -> m_GetMissionInfos envB GET_MAX_MISSIONS = (ERR_OK, l) -> len l <= GET_MAX_MISSIONS ->
  m_known envA b = true -> m_uuidOf envA b <> "" -> b <> "" -> m_PostTask envA = true -> inited sA = true ->
  mfind (Str8ToStr16 b) (listenDeviceMap_ sA) = Some info -> listener_message [IStr (Str16ToStr8 (Str8ToStr16 b))] = Some m ->
  exists caller sA', let missions := ConvertToDstbMissionInfos l [] in let notify := TNotifyChanged (zkeys (listenerSet info)) (Str8ToStr16 b) in
    caller_sourceDeviceId caller = b /\ In (TToRemote a missions caller) (tasks_ (run (run_task envB TLocalMissionsChanged) sB)) /\
    (forall s dA, fst (GetRemoteDms envB a s) = Some dA -> In (CNotifyDms dA missions caller) (calls_ (run (run_task envB (TToRemote a missions caller)) s))) /\
    Service_NotifyMissionsChangedFromRemote envA missions caller sA = (ERR_NONE, sA') /\
    (forall n, 0 < n -> Service_GetMissionInfos envA b n sA' = Some (ERR_OK, firstn (Z.to_nat n) l)) /\
    tasks_ sA' = tasks_ sA ++ [notify] /\
    (forall s, calls_ (run (run_task envA notify) s) = calls_ s ++ map (fun o => CSend o CODE_NOTIFY_MISSION m) (zkeys (listenerSet info))).
Proof.
  intros Hn Hka Hua HlB Hp Hc Hm Hl Hkb Hub Hb HpA Hi F Em. destruct (change_posted _ _ _ _ _ Hn Hka Hua HlB Hp Hc Hm) as (c & Ec & Eb & Hin). subst b.
  exists c, (set_tasks (tasks_ sA ++ [TNotifyChanged (zkeys (listenerSet info)) (Str8ToStr16 (caller_sourceDeviceId c))])
    (set_missions (mset (m_uuidOf envA (caller_sourceDeviceId c)) (ConvertToDstbMissionInfos l []) (deviceMissionInfos_ sA)) sA)).
  split; [done|]. split; [done|]. split; [intros; by apply change_sent|]. split; [|split; [|split]].
  - unfold Service_NotifyMissionsChangedFromRemote, Manager_NotifyMissionsChangedFromRemote, RebornMissionCache. apply String.eqb_neq in Hub. rewrite Hub. cbn [negb when_].
    rewrite runs_modify, runs_get. cbn [set_missions listenDeviceMap_ inited]. rewrite F, Hi. rewrite (runs_bind _ _ _ _ _ (post_eq envA _ _)). cbn [set_missions inited]. by rewrite Hi, HpA.
  - intros n Hn'. apply missions_shown; try done. cbn -[mfind mset ConvertToDstbMissionInfos]. by rewrite mfind_mset, same_key_refl.
  - done.
  - intros s. cbn [run_task]. apply each_sends. intros o s'. unfold NotifyMissionsChanged, send_listener. by rewrite Em.
Qed.

(** ** Behaviour that is easy to overlook *)

(** The task that tries a failed request again does nothing: it looks whether the device is
    followed already, which only a request that succeeded notes. *)
Lemma failed_request_not_retried env d local n s : HasSyncListener d s = false -> run (run_task env (TRetryStartSync d local n)) s = s.
Proof. intros H. cbn [run_task]. unfold run_retry_sync, run. rewrite runs_get, H. done. Qed.
Lemma failed_request env d local info s : mfind (Str8ToStr16 d) (listenDeviceMap_ s) = Some info -> called info = false -> fst (GetRemoteDms env d s) = None -> inited s = true -> m_PostTask env = true ->
  exists s', StartSyncRemoteMissions_local env d local s = (GET_REMOTE_DMS_FAIL, s') /\ HasSyncListener d s' = false /\ In (TRetryStartSync d local 0) (tasks_ s').
Proof.
  intros F Hc Hd Hi Hp. destruct (GetRemoteDms env d s) as [r s1] eqn:E. cbn in Hd. subst r. pose proof (GetRemoteDms_frame _ _ _ _ _ E) as Es. unfold StartSyncRemoteMissions_local, RetryStartSyncRemoteMissions.
  rewrite runs_get, F, Hc, (runs_bind _ _ _ _ _ E). cbn [when_ Z.ltb Z.compare MAX_RETRY_TIMES]. rewrite (runs_bind _ _ _ _ _ (post_eq env _ _)). eexists. split; [reflexivity|].
  assert (inited s1 && m_PostTask env = true) as -> by (rewrite Es; cbn; by rewrite Hi, Hp). split; [unfold HasSyncListener; rewrite Es; cbn -[mfind]; by rewrite F|]. cbn. apply in_or_app. right. by left.
Qed.
(** A change of an entry of a device that is not known: the changes after it, deletions
    among them, are not handled. *)
Lemma unknown_device_ends_change env key uuid missionId keys deletes updates s : ParseInfo key = Some (uuid, missionId) -> m_networkIdOf env uuid = "" -> run (OnChange env (key :: keys) deletes updates) s = s.
Proof. intros E En. unfold OnChange, run. cbn [on_entries]. rewrite E, En. done. Qed.
(** The last listener for a device leaves: the other device is not asked to stop and its
    missions stay; when the device goes off line nothing is left that removes them. *)
Lemma last_listener_leaves env d o s r s' : Service_UnRegisterMissionListener env d (Some o) s = (r, s') ->
  deviceMissionInfos_ s' = deviceMissionInfos_ s /\ (forall dms c, In (CStopSync dms c) (calls_ s') <-> In (CStopSync dms c) (calls_ s)).
Proof.
  unfold Service_UnRegisterMissionListener, Manager_UnRegisterMissionListener. destruct (negb _); [by intros [= _ <-]|]. destruct (negb _); [by intros [= _ <-]|]. rewrite runs_get.
  destruct (mfind d (listenDeviceMap_ s)) as [i|]; [|by intros [= _ <-]]. destruct (zfind o (listenerSet i)); [|by intros [= _ <-]]. unfold call. rewrite !runs_modify. intros [= _ <-]. split; [done|].
  intros dms c. cbn. rewrite in_app_iff. cbn. intuition discriminate.
Qed.
Lemma offline_without_listener env d s : mfind (Str8ToStr16 d) (listenDeviceMap_ s) = None -> deviceMissionInfos_ (run (Manager_DeviceOfflineNotify env d) s) = deviceMissionInfos_ s.
Proof.
  intros F. unfold Manager_DeviceOfflineNotify. destruct (String.eqb d ""); [done|]. unfold run.
  assert (exists s1, Manager_StopSyncMissionsFromRemote env d s = (tt, s1) /\ deviceMissionInfos_ s1 = deviceMissionInfos_ s /\ listenDeviceMap_ s1 = listenDeviceMap_ s) as (s1 & E1 & Em & El).
  { unfold Manager_StopSyncMissionsFromRemote. rewrite runs_modify, runs_get. destruct (remoteSyncDeviceSet_ _); [rewrite post_eq|]; eexists; (split; [reflexivity|]); [by destruct (_ && _)|done]. }
  rewrite (runs_bind _ _ _ _ _ E1). assert (CleanMissionResources env d s1 = (tt, s1)) as E2 by (unfold CleanMissionResources; rewrite runs_get, El, F; done).
  rewrite (runs_bind _ _ _ _ _ E2), runs_get. destruct (mfind d (remoteDmsMap_ s1)); done.
Qed.
(** The listener of the database is given away when it is subscribed, so that a database
    that was subscribed to is closed without the subscription being taken back. *)
Lemma subscribed_no_listener s s' : SubscribeDistributedDataStorage s = (tt, s') -> has_ptr s' && has_listener s' = false.
Proof.
  unfold SubscribeDistributedDataStorage. rewrite runs_get. destruct (has_ptr s && has_listener s) eqn:E; cbn [when_]; [|by intros [= <-]]. unfold update_storage. rewrite runs_modify. unfold run_pkv.
  cbn. unfold mbind, SM_bind. cbn. destruct (pk_Subscribe (pkv_ s)) as [st k]. intros [= <-]. unfold has_ptr, has_listener. cbn. destruct (storage_ s); cbn; [by rewrite andb_false_r|done].
Qed.
Lemma closed_without_unsubscribe s r s' : has_ptr s && has_listener s = false -> UninitDistributedDataStorage s = (r, s') -> calls_ s' = calls_ s.
Proof.
  intros H. unfold UninitDistributedDataStorage. rewrite runs_get, andb_comm, H. unfold run_pkv, update_storage, modify, mbind, SM_bind, mret, SM_ret. cbn [negb]. destruct (has_ptr s).
  - destruct (pk_Close (pkv_ s)) as [st k]. destruct (decide (st = SUCCESS)); cbn [negb]; [|by intros [= _ <-]]. cbn. destruct (pk_DeleteStore k). by intros [= _ <-].
  - cbn [negb]. destruct (pk_DeleteStore (pkv_ s)). by intros [= _ <-].
Qed.
End Follow.

(** ** Pictures *)

(** What the documentation of the parcel says about its bytes: numbers of 32 bits take four
    bytes, the first one the lowest; buffers are filled up to four bytes; a parcel made from
    the bytes of another one is read like that one, if there are only numbers and texts in it
    ([reads_like]: the same bytes are left to be read). *)
Definition plain {T16 : Text16} (x : Item) : Prop := match x with IObject _ | IFd _ | IBytes _ => False | IInt z => is_i32 z | _ => True end.
Class ParcelBytesLaws {T16 : Text16} {IP : @IpcParcel T16} {IPL : IpcParcelLaws} {PB : ParcelBytes} := {
  pb_empty : parcel_bytes Parcel_empty = [];
  pb_int : forall z p p', Write (IInt z) p = Some p' -> parcel_bytes p' = parcel_bytes p ++ le_bytes 4 (u32 z);
  pb_buffer : forall l p p', Write (IBytes l) p = Some p' -> exists pad, parcel_bytes p' = parcel_bytes p ++ l ++ pad /\ len pad < INT_BYTE /\ (len l + len pad) mod INT_BYTE = 0;
  pb_aligned : forall p, len (parcel_bytes p) mod INT_BYTE = 0;
  pb_readable : forall p, GetReadableBytes p = len (parcel_bytes p);
  pb_read : forall p l, ReadBuffer p = Some l -> l = parcel_bytes p;
  pb_capacity : forall n p p', SetDataCapacity n p = Some p' -> parcel_bytes p' = parcel_bytes p;
  reads_like : Parcel -> Parcel -> Prop;
  reads_like_read : forall p q k x p', reads_like p q -> Read k p = Some (x, p') -> exists q', Read k q = Some (x, q') /\ reads_like p' q';
  pb_copy : forall p, Forall plain (items p) -> exists q, parcel_from (parcel_bytes p) = Some q /\ reads_like p q;
}.

Section Snapshots.
Context {T16 : Text16} {IP : @IpcParcel T16} {IPL : IpcParcelLaws} {IC : IpcCodes} {PB : ParcelBytes} {PBL : ParcelBytesLaws} {ME : Media}.
Notation Snapshot := (Snapshot PixelMap).

(** A parcel from which the values [l] can be read. *)
Definition view (q : Parcel) (l : list Item) : Prop := exists p, items p = l /\ reads_like p q.
Lemma view_read q x l : view q (x :: l) -> exists q', Read (kind x) q = Some (x, q') /\ view q' l.
Proof. intros (p & Hp & R). destruct (items_read _ _ _ Hp) as (p' & E & Hp'). destruct (reads_like_read _ _ _ _ _ R E) as (q' & Eq & R'). exists q'. split; [done|]. by exists p'. Qed.

Definition rect_items (r : option Rect) : list Item := match r with Some (a, b, c, d) => [IMark; IInt a; IInt b; IInt c; IInt d] | None => [INull] end.
Definition snapshot_items (s : Snapshot) : list Item :=
  [IInt (version_ _ s); IInt (orientation_ _ s)] ++ rect_items (rect_ _ s) ++
  [bool_item (reducedResolution_ _ s); INum WFloat (scale_ _ s); bool_item (isRealSnapshot_ _ s); IInt (windowingMode_ _ s); IInt (systemUiVisibility_ _ s); bool_item (isTranslucent_ _ s)] ++
  rect_items (windowBounds_ _ s) ++
  [IStr16 (appLabel_ _ s); IStr16 (abilityLabel_ _ s); INums W8 (icon_ _ s); IStr16 (secAppLabel_ _ s); IStr16 (secAbilityLabel_ _ s); INums W8 (secIcon_ _ s); IStr16 (sourceDeviceTips_ _ s)].
(** The numbers of a snapshot are 32 bits wide. *)
Definition rect_fits (r : option Rect) : Prop := match r with Some (a, b, c, d) => is_i32 a /\ is_i32 b /\ is_i32 c /\ is_i32 d | None => True end.
Definition snapshot_fits (s : Snapshot) : Prop :=
  is_i32 (version_ _ s) /\ is_i32 (orientation_ _ s) /\ is_i32 (windowingMode_ _ s) /\ is_i32 (systemUiVisibility_ _ s) /\ rect_fits (rect_ _ s) /\ rect_fits (windowBounds_ _ s).
Lemma bool_plain b : plain (bool_item b).
Proof. destruct b; unfold plain, bool_item, is_i32; lia. Qed.
Lemma rect_plain r : rect_fits r -> Forall plain (rect_items r).
Proof. destruct r as [[[[a b] c] d]|]; [intros (? & ? & ? & ?)|intros _]; repeat first [apply List.Forall_nil|apply List.Forall_cons]; done. Qed.
Lemma snapshot_plain s : snapshot_fits s -> Forall plain (snapshot_items s).
Proof.
  intros (H1 & H2 & H3 & H4 & H5 & H6). unfold snapshot_items. rewrite !Forall_app. repeat split; try (by apply rect_plain); repeat first [apply List.Forall_nil|apply List.Forall_cons]; try done; apply bool_plain.
Qed.

Ltac written E := apply bind_Some in E as (? & ?%items_write & E).
Lemma rect_written r p p' : WriteParcelable_maybe r p = Some p' -> items p' = items p ++ rect_items r.
Proof.
  unfold WriteParcelable_maybe, WriteParcelable. destruct r as [[[[a b] c] d]|]; [|by intros ->%items_write]. intros E. written E. cbn in E. do 3 written E. apply items_write in E.
  rewrite E, H2, H1, H0, H, <- !app_assoc. done.
Qed.
Lemma info_written s p p' : snapshot_info s p = Some p' -> items p' = items p ++ snapshot_items s.
Proof.
  unfold snapshot_info. intros E. do 2 written E. apply bind_Some in E as (? & ?%rect_written & E). do 6 written E. apply bind_Some in E as (? & ?%rect_written & E). do 6 written E. apply items_write in E.
  unfold snapshot_items. repeat match goal with H : items _ = _ |- _ => rewrite H; clear H end. rewrite <- !app_assoc. done.
Qed.

(** Reading the values back. *)
Ltac viewed H := let E := fresh "Er" in apply view_read in H as (? & E & H); cbn [kind] in E.
Lemma rect_read r l q : view q (rect_items r ++ l) -> exists q', ReadParcelable q = (r, q') /\ view q' l.
Proof.
  unfold ReadParcelable. destruct r as [[[[a b] c] d]|]; cbn [rect_items app]; intros V; viewed V; rewrite Er; [|by exists x].
  do 4 viewed V. cbn. unfold Rect_Unmarshalling, ReadInt32_or0, ReadInt32. rewrite Er0. cbn. rewrite Er1. cbn. rewrite Er2. cbn. rewrite Er3. cbn. by exists x3.
Qed.
Lemma view_int q z l : view q (IInt z :: l) -> exists q', ReadInt32 q = Some (z, q') /\ view q' l.
Proof. intros V. viewed V. exists x. unfold ReadInt32. by rewrite Er. Qed.
Lemma view_bool q b l : view q (bool_item b :: l) -> exists q', ReadBool q = Some (b, q') /\ view q' l.
Proof. unfold bool_item. intros V. viewed V. exists x. unfold ReadBool, ReadInt32. rewrite Er. by destruct b. Qed.
Lemma view_num q w z l : view q (INum w z :: l) -> exists q', ReadNum w q = Some (z, q') /\ view q' l.
Proof. intros V. viewed V. exists x. unfold ReadNum. by rewrite Er. Qed.
Lemma view_nums q w z l : view q (INums w z :: l) -> exists q', ReadNums w q = Some (z, q') /\ view q' l.
Proof. intros V. viewed V. exists x. unfold ReadNums. by rewrite Er. Qed.
Lemma view_str16 q z l : view q (IStr16 z :: l) -> exists q', ReadString16_or_empty q = (z, q') /\ view q' l.
Proof. intros V. viewed V. exists x. unfold ReadString16_or_empty, ReadString16. by rewrite Er. Qed.
Ltac field lem V := let E := fresh "Ef" in apply lem in V as (? & E & V); rewrite E; cbn [mbind option_bind].
Lemma snapshot_info_read s q l : view q (snapshot_items s ++ l) -> FillSnapshot q = Some (set_pixels no_pixels s).
Proof.
  unfold snapshot_items. rewrite <- !app_assoc. cbn [app]. intros V. unfold FillSnapshot, ReadUInt8Vector.
  field view_int V. field view_int V. field rect_read V. cbn [app] in V. field view_bool V. field view_num V. field view_bool V. field view_int V. field view_int V. field view_bool V. field rect_read V. cbn [app] in V.
  field view_str16 V. field view_str16 V. field view_nums V. field view_str16 V. field view_str16 V. field view_nums V. field view_str16 V. reflexivity.
Qed.

(** The bytes: a length and the information, a length and the picture, and what fills up. *)
Lemma u32_u32 z : u32 (i32 (u32 z)) = u32 z.
Proof. apply u32_i32. unfold is_u32, u32. pose proof (Z.mod_pos_bound z 4294967296). lia. Qed.
Lemma sequence_bytes s p : MissionSnapshotSequence s Parcel_empty = inr p -> exists info pad,
  snapshot_info s Parcel_empty = Some info /\
  parcel_bytes p = le_bytes 4 (u32 (len (parcel_bytes info))) ++ parcel_bytes info ++ le_bytes 4 (u32 (len (pack_jpeg (pixelMap_ _ s)))) ++ pack_jpeg (pixelMap_ _ s) ++ pad.
Proof.
  unfold MissionSnapshotSequence. destruct (WriteSnapshotInfo s Parcel_empty) as [d|] eqn:Ei; [|done]. destruct (WritePixelMap s d) as [d'|] eqn:Ep; [|done]. intros [= <-].
  apply bind_Some in Ei as (info & Hi & Ei). apply bind_Some in Ei as (b & ->%pb_read & Ei). apply bind_Some in Ei as (d1 & H1%pb_int & H2). apply pb_buffer in H2 as (pad1 & H2 & L1 & A1).
  assert (pad1 = []) as -> by (pose proof (pb_aligned info); destruct pad1 as [|x pad1]; [done|]; unfold INT_BYTE, len in *; cbn [length] in *; Z.to_euclidean_division_equations; lia).
  rewrite app_nil_r, H1, pb_empty, pb_readable, u32_u32 in H2. cbn [app] in H2. unfold WritePixelMap in Ep. destruct (PIXEL_MAP_MAX_BUFFER_SIZE <? _); [done|].
  apply bind_Some in Ep as (d2 & Hd2 & Ep). assert (parcel_bytes d2 = parcel_bytes d) as E2 by (destruct (_ <? _) in Hd2; [by apply pb_capacity in Hd2|by injection Hd2 as ->]).
  apply bind_Some in Ep as (d3 & H3%pb_int & H4). apply pb_buffer in H4 as (pad & H4 & _). exists info, pad. split; [done|]. rewrite H4, H3, E2, H2, u32_u32, <- !app_assoc. done.
Qed.
Lemma u32_at_app a v rest : 0 <= v < 4294967296 -> u32_at (a ++ le_bytes 4 v ++ rest) (len a) = v.
Proof.
  intros Hv. unfold u32_at. replace INT_BYTE with (len (le_bytes 4 v)) by (by rewrite len_le_bytes). rewrite slice_app_exact. apply le_val_bytes. change (256 ^ Z.of_nat 4) with 4294967296. lia.
Qed.
(** A well formed text: both lengths are found, and both parts. *)
Lemma Create_parts info pixels pad q s : len (le_bytes 4 (u32 (len info)) ++ info ++ le_bytes 4 (u32 (len pixels)) ++ pixels ++ pad) < 4294967296 -> parcel_from info = Some q -> FillSnapshot q = Some s ->
  Create (le_bytes 4 (u32 (len info)) ++ info ++ le_bytes 4 (u32 (len pixels)) ++ pixels ++ pad) = Some (match CreatePixelMap pixels with Some x => set_pixels x s | None => s end).
Proof.
  set (data := le_bytes 4 (u32 (len info)) ++ _). intros Hlen Hq Hs. assert (len data = 4 + len info + 4 + len pixels + len pad) as HL by (unfold data; rewrite !len_app, !len_le_bytes; lia).
  assert (0 <= len info /\ 0 <= len pixels /\ 0 <= len pad) as (I0 & P0 & D0) by (unfold len; lia).
  assert (u32 (len info) = len info) as Ei by (apply u32_id; unfold is_u32; lia). assert (u32 (len pixels) = len pixels) as Ep by (apply u32_id; unfold is_u32; lia).
  assert (u32_at data 0 = len info) as E0 by (unfold data; rewrite Ei; apply (u32_at_app []); lia).
  assert (slice data INT_BYTE (len info) = info) as E1 by (unfold data; change INT_BYTE with (Z.of_nat 4); rewrite <- (len_le_bytes 4 (u32 (len info))); apply slice_app_exact).
  assert (u32_at data (INT_BYTE + len info) = len pixels) as E2.
  { unfold data. rewrite Ep, app_assoc. replace (INT_BYTE + len info) with (len (le_bytes 4 (u32 (len info)) ++ info)) by (rewrite len_app, len_le_bytes; done). apply u32_at_app. lia. }
  assert (slice data (INT_BYTE + len info + INT_BYTE) (len pixels) = pixels) as E3.
  { unfold data. rewrite !app_assoc, <- (app_assoc _ pixels pad), <- app_assoc, app_assoc. replace (INT_BYTE + len info + INT_BYTE) with (len ((le_bytes 4 (u32 (len info)) ++ info) ++ le_bytes 4 (u32 (len pixels)))) by (rewrite !len_app, !len_le_bytes; done).
    rewrite <- !app_assoc. rewrite !(app_assoc (le_bytes 4 (u32 (len info)))), (app_assoc (_ ++ info)). apply slice_app_exact. }
  assert (u32 (len data - len info - INT_BYTE) = 4 + len pixels + len pad) as Er by (unfold INT_BYTE; rewrite u32_id by (unfold is_u32; lia); lia).
  unfold Create. rewrite E0, E1, Hq. cbn [mbind option_bind]. rewrite Hs. cbn [mbind option_bind]. rewrite Er, E2, E3. unfold INT_BYTE in *.
  repeat (match goal with |- context [if ?b then _ else _] => assert (b = false) as -> by (rewrite ?orb_false_iff, ?Z.ltb_ge, ?Z.leb_gt; lia) end). done.
Qed.

(** C28: a snapshot of a mission that was turned into the bytes that are stored is read from these bytes: every member comes back, and the picture is
    what decoding the JPEG gives, or none if it cannot be decoded. *)
Theorem snapshot_read_back s p bytes : snapshot_fits s -> MissionSnapshotSequence s Parcel_empty = inr p -> ReadBuffer p = Some bytes -> len bytes < 4294967296 ->
  Create bytes = Some (set_pixels (default no_pixels (CreatePixelMap (pack_jpeg (pixelMap_ _ s)))) s).
Proof.
  intros Hs Hp Hb Hlen. apply pb_read in Hb. destruct (sequence_bytes s p Hp) as (info & pad & Hi & Eb). pose proof (info_written _ _ _ Hi) as It. rewrite items_empty in It. cbn [app] in It.
  destruct (pb_copy info) as (q & Hq & R); [rewrite It; by apply snapshot_plain|]. assert (FillSnapshot q = Some (set_pixels no_pixels s)) as Hf.
  { apply (snapshot_info_read s q []). exists info. split; [by rewrite It, app_nil_r|done]. }
  rewrite Hb, Eb in *. rewrite (Create_parts _ _ _ q _ Hlen Hq Hf). f_equal. by destruct (CreatePixelMap _).
Qed.
End Snapshots.

(** ** Witnesses *)

#[local] Existing Instances demo_text demo_text_laws.
#[local] Instance demo_ipc_codes : IpcCodes := {| ERR_FLATTEN_OBJECT := 5; ERR_NULL_OBJECT := 7; ERR_INVALID_VALUE := 22 |}.

(** A parcel with bytes: numbers of 32 bits and buffers as they are, other values as one
    number outside of the bytes that stands for the value. *)
Definition width_num (w : Width) : nat := match w with W8 => 0 | W16 => 1 | W64 => 2 | WFloat => 3 | WDouble => 4 end.
Definition num_width (n : nat) : Width := match n with 0%nat => W8 | 1%nat => W16 | 2%nat => W64 | 3%nat => WFloat | _ => WDouble end.
#[local] Instance width_countable : Countable Width.
Proof. apply (inj_countable' width_num num_width). by intros []. Defined.
Definition item_code (x : Item) : (Z * Z + (string + string)) + ((list string + (string + nat)) + (list string + ((Width * Z) + ((Width * list Z) + (nat * list Z))))) :=
  match x with
  | IInt z => inl (inl (0, z)) | IObject z => inl (inl (1, z)) | IFd z => inl (inl (2, z)) | IStr s => inl (inr (inl s)) | IStr16 s => inl (inr (inr s))
  | IStr16Vec l => inr (inl (inl l)) | IToken s => inr (inl (inr (inl s))) | IMark => inr (inl (inr (inr 0%nat))) | INull => inr (inl (inr (inr 1%nat)))
  | IStrVec l => inr (inr (inl l)) | INum w z => inr (inr (inr (inl (w, z)))) | INums w l => inr (inr (inr (inr (inl (w, l)))))
  | IInts l => inr (inr (inr (inr (inr (0%nat, l))))) | IBytes l => inr (inr (inr (inr (inr (1%nat, l)))))
  end.
Definition code_item (c : (Z * Z + (string + string)) + ((list string + (string + nat)) + (list string + ((Width * Z) + ((Width * list Z) + (nat * list Z)))))) : Item :=
  match c with
  | inl (inl (k, z)) => if k =? 0 then IInt z else if k =? 1 then IObject z else IFd z
  | inl (inr (inl s)) => IStr s | inl (inr (inr s)) => IStr16 s | inr (inl (inl l)) => IStr16Vec l | inr (inl (inr (inl s))) => IToken s
  | inr (inl (inr (inr n))) => match n with O => IMark | _ => INull end
  | inr (inr (inl l)) => IStrVec l | inr (inr (inr (inl (w, z)))) => INum w z | inr (inr (inr (inr (inl (w, l))))) => INums w l
  | inr (inr (inr (inr (inr (n, l))))) => match n with O => IInts l | _ => IBytes l end
  end.
#[local] Instance item_eq : EqDecision Item.
Proof. solve_decision. Defined.
#[local] Instance item_countable : Countable Item.
Proof. apply (inj_countable' item_code code_item). by intros []. Defined.

Definition fill (l : list Z) : list Z := replicate (Z.to_nat ((- len l) mod 4)) 0.
Definition item_bytes (x : Item) : list Z :=
  match x with IInt z => le_bytes 4 (u32 z) | IBytes l => l ++ fill l | _ => [256 + Z.pos (encode x); 0; 0; 0] end.
Definition all_bytes (l : list Item) : list Z := flat_map item_bytes l.
Fixpoint bytes_items (l : list Z) : list Item :=
  match l with
  | a :: b :: c :: d :: l => (if 256 <? a then default INull (decode (Z.to_pos (a - 256))) else IInt (i32 (le_val [a; b; c; d]))) :: bytes_items l
  | _ => []
  end.
Lemma items_bytes_back l : Forall plain l -> bytes_items (all_bytes l) = l.
Proof.
  induction 1 as [|x l Hx Hl IH]; [done|]. unfold all_bytes. cbn [flat_map]. fold (all_bytes l).
  assert (forall y, bytes_items ([256 + Z.pos (encode y); 0; 0; 0] ++ all_bytes l) = y :: l) as C.
  { intros y. cbn [app bytes_items]. destruct (Z.ltb_spec 256 (256 + Z.pos (encode y))); [|lia]. replace (256 + Z.pos (encode y) - 256) with (Z.pos (encode y)) by lia.
    cbn [Z.to_pos]. rewrite decode_encode. cbn. by rewrite IH. }
  destruct x; try apply C; [|done]. cbn [plain] in Hx. cbn [item_bytes le_bytes app bytes_items].
  assert (u32 z mod 256 < 256) by (apply Z.mod_pos_bound; lia). destruct (Z.ltb_spec 256 (u32 z mod 256)); [lia|]. rewrite IH. f_equal. f_equal.
  change ([_; _; _; _]) with (le_bytes 4 (u32 z)). rewrite le_val_bytes by (unfold u32; pose proof (Z.mod_pos_bound z 4294967296); change (256 ^ Z.of_nat 4) with 4294967296; lia). by apply i32_u32.
Qed.
Lemma fill_len l : (len l + len (fill l)) mod 4 = 0 /\ len (fill l) < 4.
Proof.
  unfold fill. assert (len (replicate (Z.to_nat (- len l mod 4)) 0) = (- len l) mod 4) as -> by (unfold len; rewrite length_replicate, Z2Nat.id; [done|]; apply Z.mod_pos_bound; lia).
  split; [Z.to_euclidean_division_equations; lia|apply Z.mod_pos_bound; lia].
Qed.
Lemma item_bytes_len x : len (item_bytes x) mod 4 = 0.
Proof. destruct x; try done. cbn [item_bytes]. rewrite len_app. apply fill_len. Qed.
Lemma all_bytes_len l : len (all_bytes l) mod 4 = 0.
Proof. induction l as [|x l IH]; [done|]. unfold all_bytes. cbn [flat_map]. fold (all_bytes l). rewrite len_app, Zplus_mod, IH, item_bytes_len. done. Qed.
(** Buffers with nothing in them are refused. *)
Definition nothing (x : Item) : bool := match x with IBytes [] => true | _ => false end.
Lemma item_bytes_some x : nothing x = false -> 1 <= len (item_bytes x).
Proof. destruct x as [| | | | | | | | | | | | |[|a l]]; try done. intros _. cbn [item_bytes]. unfold len. rewrite length_app. cbn [length]. lia. Qed.
Definition full (l : list Item) : Prop := forallb (fun x => negb (nothing x)) l = true.
Lemma full_bytes l : full l -> len l <= len (all_bytes l).
Proof.
  unfold full. induction l as [|x l IH]; [done|]. cbn [forallb]. intros [Hx%negb_true_iff Hl]%andb_prop. unfold all_bytes. cbn [flat_map]. fold (all_bytes l). rewrite len_app, len_cons.
  pose proof (item_bytes_some x Hx). specialize (IH Hl). lia.
Qed.
Definition keep_full (l : list Item) : list Item := List.filter (fun x => negb (nothing x)) l.
Lemma keep_full_full l : full (keep_full l).
Proof. unfold full, keep_full. apply forallb_forall. by intros x [_ H]%filter_In. Qed.
Lemma keep_full_app l l' : keep_full (l ++ l') = keep_full l ++ keep_full l'.
Proof. apply List.filter_app. Qed.
Lemma keep_full_plain l : Forall plain l -> keep_full l = l.
Proof. induction 1 as [|x l Hx Hl IH]; [done|]. unfold keep_full. cbn [List.filter]. destruct x; cbn; try done; f_equal; exact IH. Qed.

(** The values that were read and those that are still to be read. *)
#[local] Instance byte_parcel : IpcParcel := {|
  Parcel := list Item * list Item;
  Parcel_empty := ([], []);
  Write := fun x p => if nothing x then None else Some (fst p, snd p ++ [x]);
  Read := fun k p => match keep_full (snd p) with x :: l => if same_kind k (kind x) then Some (x, (fst p ++ [x], l)) else None | [] => None end;
  GetReadableBytes := fun p => len (all_bytes (keep_full (snd p)));
  GetDataSize := fun p => len (all_bytes (keep_full (fst p))) + len (all_bytes (keep_full (snd p)));
|}.
Lemma all_bytes_app l l' : all_bytes (l ++ l') = all_bytes l ++ all_bytes l'.
Proof. apply flat_map_app. Qed.
Lemma keep_full_idem l x r : keep_full l = x :: r -> keep_full r = r /\ keep_full [x] = [x].
Proof.
  intros E. pose proof (keep_full_full l) as F. rewrite E in F. unfold full in F. cbn [forallb] in F. apply andb_prop in F as [Fx Fr]. unfold keep_full at 2. cbn [List.filter]. rewrite Fx. split; [|done].
  clear E. induction r as [|y r IH]; [done|]. cbn [forallb] in Fr. apply andb_prop in Fr as [Fy Fr]. unfold keep_full. cbn [List.filter]. rewrite Fy. f_equal. by apply IH.
Qed.
#[local] Instance byte_parcel_laws : IpcParcelLaws.
Proof.
  refine {| items := fun p => keep_full (snd p) |}; [done| | | | | |].
  - intros x p p'. cbn [Write byte_parcel]. destruct (nothing x) eqn:E; [done|]. intros [= <-]. cbn [snd]. rewrite keep_full_app. unfold keep_full at 2. cbn [List.filter]. by rewrite E.
  - intros x l [a b]. cbn [snd]. intros E. exists (a ++ [x], l). cbn [Read byte_parcel snd fst]. rewrite E, same_kind_refl. split; [done|]. by destruct (keep_full_idem _ _ _ E).
  - intros k [a b]. cbn [Read byte_parcel snd]. by intros ->.
  - intros p. apply full_bytes, keep_full_full.
  - intros p. cbn. unfold len. lia.
  - intros k [a b] x p'. cbn [Read GetDataSize byte_parcel fst snd]. destruct (keep_full b) as [|y r] eqn:E; [done|]. destruct (same_kind k (kind y)); [|done]. intros [= <- <-]. cbn [fst snd].
    destruct (keep_full_idem _ _ _ E) as [-> Ex]. rewrite keep_full_app, Ex, all_bytes_app. change (y :: r) with ([y] ++ r). rewrite all_bytes_app, !len_app. lia.
Defined.
#[local] Instance demo_bytes : ParcelBytes := {|
  parcel_bytes := fun p => all_bytes (keep_full (snd p));
  ReadBuffer := fun p => Some (all_bytes (keep_full (snd p)));
  parcel_from := fun l => Some ([], bytes_items l);
  GetDataCapacity := fun _ => 0;
  SetDataCapacity := fun _ p => Some p |}.
#[local] Instance demo_bytes_laws : ParcelBytesLaws.
Proof.
  refine {| reads_like := fun p q => keep_full (snd p) = keep_full (snd q) |}.
  - done.
  - intros z p p'. cbn [Write byte_parcel nothing]. intros [= <-]. cbn [parcel_bytes demo_bytes snd]. by rewrite keep_full_app, all_bytes_app.
  - intros l p p'. cbn [Write byte_parcel]. destruct (nothing (IBytes l)) eqn:E; [done|]. intros [= <-]. exists (fill l). cbn [parcel_bytes demo_bytes snd]. rewrite keep_full_app, all_bytes_app.
    unfold keep_full at 2. cbn [List.filter]. rewrite E. cbn [negb all_bytes flat_map item_bytes]. rewrite app_nil_r. split; [done|]. destruct (fill_len l). by unfold INT_BYTE.
  - intros p. apply all_bytes_len.
  - done.
  - by intros p l [= <-].
  - by intros n p p' [= <-].
  - intros p q k x p' R. cbn [Read byte_parcel]. rewrite R. destruct (keep_full (snd q)) as [|y r]; [done|]. destruct (same_kind k (kind y)); [|done]. intros [= <- <-]. eexists. split; [reflexivity|done].
  - intros p Hp. eexists. split; [reflexivity|]. cbn [parcel_bytes demo_bytes snd]. cbn in Hp. rewrite items_bytes_back by done. by rewrite (keep_full_plain _ Hp).
Defined.

#[local] Instance demo_key16 : Text16Key.
Proof. refine {| key16 := string_key; key16_laws := string_laws |}. intros a b E. by apply String.eqb_eq; rewrite <- same_string. Defined.
#[local] Instance demo_media : Media := {| PixelMap := list Z; no_pixels := []; is_null := fun l => match l with [] => true | _ => false end; pack_jpeg := fun l => l; decode_jpeg := Some |}.
#[local] Instance demo_pictures : PictureStore := {|
  PKv := list (string * list Z);
  pk_GetSingleKvStore := fun k => (SUCCESS, true, k); pk_Subscribe := fun k => (SUCCESS, k); pk_UnSubscribe := fun k => (SUCCESS, k); pk_Close := fun k => (SUCCESS, k); pk_DeleteStore := fun _ => (SUCCESS, []);
  pk_Put := fun key v k => (SUCCESS, (key, v) :: k);
  pk_Delete := fun key k => (SUCCESS, List.filter (fun e => negb (String.eqb key (fst e))) k);
  pk_RemoveDeviceData := fun _ _ => (SUCCESS, []);
  pk_Get := fun key _ k => match find (fun e => String.eqb key (fst e)) k with Some e => Some (SUCCESS, snd e) | None => None end |}.
#[local] Instance demo_sync_versions : VersionApi := {| SplitStr := fun s _ => [s]; StrToInt := fun _ => None; GetAppInfoFromDP := fun _ => inl 1 |}.
Definition demo_kv : PKv := [].
Definition demo_new : Sync := Sync_new demo_kv.
Definition demo_missions : list MissionInfo := [mkMissionInfo 1 0 false "notes" "" Want_new false; mkMissionInfo 2 0 false "mail" "" Want_new true].
(** The device [local], whose ability manager has the missions; the other device answers with [answer]. *)
Definition demo_sync_env (local other : string) (dms : Z) (answer : CallerInfo -> Z * list DstbMissionInfo) : SyncEnv := {|
  m_uuidOf := fun d => "uuid-" +:+ d; m_networkIdOf := fun d => d; m_known := String.eqb other; m_GetLocalDeviceId := Some local; m_callingUid := 5; m_callingPid := 6; m_now := 100;
  m_PostTask := true; m_IsCallerForeground := fun _ => true; m_CheckSystemAbility := fun d => if String.eqb d other then Some dms else None;
  m_StartSync := fun _ => answer; m_StopSync := fun _ _ => 0; m_NotifyMissionsChanged := fun _ _ _ => 0; m_Connect := 0;
  m_GetMissionInfos := fun _ => (ERR_OK, demo_missions); m_GetMissionSnapshot := fun _ _ => (ERR_OK, [1; 2; 3]);
  m_RegisterListener := 0; m_UnRegisterListener := 0; m_samgr := true; m_kvService := fun _ => true |}.
Definition demo_B : SyncEnv := demo_sync_env "b" "a" 20 (fun _ => (1, [])).
Definition demo_A (sB : Sync) : SyncEnv := demo_sync_env "a" "b" 30 (fun c => fst (Service_StartSyncMissionsFromRemote demo_B c sB)).
(** The first device listens with two listeners to the second one. *)
Definition demo_sA : Sync := fold_left (fun s o => sync_step (demo_A demo_new) o s) [OpInit; OpRegister "b" (Some 4) 5; OpRegister "b" (Some 9) 5] demo_new.
Definition demo_sB : Sync := set_devices [("a", tt)] demo_new.
Lemma fold_reach kv env ops s : SyncReach kv s -> SyncReach kv (fold_left (fun s o => sync_step env o s) ops s).
Proof. revert s. induction ops as [|o ops IH]; intros s R; [done|]. cbn. apply IH. by constructor. Qed.
Lemma manager_tables_consistent_witness : map (fun e => zkeys (listenerSet (snd e))) (listenDeviceMap_ demo_sA) = [[4; 9]] /\ sync_ok demo_sA.
Proof. split; [reflexivity|]. apply (manager_tables_consistent demo_kv). apply fold_reach. constructor. Defined.
Lemma sync_shows_missions_witness : exists caller sA', Service_StartSyncRemoteMissions (demo_A demo_new) "b" false 0 5 demo_sA = (ERR_NONE, sA') /\
  caller_sourceDeviceId caller = "a" /\ In (CStartSync 30 caller) (calls_ sA') /\ HasSyncListener "b" sA' = true /\
  (forall n, 0 < n -> Service_GetMissionInfos (demo_A demo_new) "b" n sA' = Some (ERR_OK, firstn (Z.to_nat n) demo_missions)) /\
  NeedSyncDevice "a" (run (Service_StartSyncMissionsFromRemote demo_B caller) demo_new) = true.
Proof.
  pose proof (sync_shows_missions (demo_A demo_new) demo_B demo_sA demo_new "a" "b" 30 (mkListenerInfo false [(4, tt); (9, tt)]) demo_missions false 0 5) as H.
  cbn [called] in H. apply H; try reflexivity; try discriminate.
Defined.
(** The synchronisation with a device is started, stopped and started again: the second start succeeds without asking the
    device, because the mark that it is followed is never taken away, and no missions are shown. *)
Lemma restart_shows_nothing :
  let env := demo_A demo_new in
  let s1 := run (Service_StartSyncRemoteMissions env "b" false 0 5) demo_sA in
  let s2 := run (Service_StopSyncRemoteMissions env "b" 5) s1 in
  Service_GetMissionInfos env "b" 5 s1 = Some (ERR_OK, demo_missions) /\ fst (Service_StopSyncRemoteMissions env "b" 5 s1) = ERR_OK /\
  Service_StartSyncRemoteMissions env "b" false 0 5 s2 = (ERR_NONE, s2) /\ Service_GetMissionInfos env "b" 5 s2 = Some (ERR_NULL_OBJECT, []).
Proof.
  intros env s1 s2. split; [reflexivity|]. split; [reflexivity|]. split; [|reflexivity].
  assert (mfind (Str8ToStr16 "b") (listenDeviceMap_ s2) = Some (mkListenerInfo true [(4, tt); (9, tt)])) as F by reflexivity. clearbody s2.
  change (StartSyncRemoteMissions_local env "b" "a" s2 = (ERR_NONE, s2)). unfold StartSyncRemoteMissions_local. rewrite runs_get.
  match goal with |- context [mfind ?k ?l] => replace (mfind k l) with (Some (mkListenerInfo true [(4, tt); (9, tt)])) by exact (eq_sym F) end.
  reflexivity.
Qed.
Lemma change_reaches_listeners_witness : exists m caller sA', caller_sourceDeviceId caller = "b" /\
  Service_NotifyMissionsChangedFromRemote (demo_A demo_new) (ConvertToDstbMissionInfos demo_missions []) caller demo_sA = (ERR_NONE, sA') /\
  Service_GetMissionInfos (demo_A demo_new) "b" 1 sA' = Some (ERR_OK, firstn 1 demo_missions) /\ tasks_ sA' = [TNotifyChanged [4; 9] "b"] /\
  calls_ (run (run_task (demo_A demo_new) (TNotifyChanged [4; 9] "b")) demo_new) = [CSend 4 CODE_NOTIFY_MISSION m; CSend 9 CODE_NOTIFY_MISSION m].
Proof.
  destruct (change_reaches_listeners (demo_A demo_new) demo_B demo_sA demo_sB "a" "b" demo_missions (mkListenerInfo false [(4, tt); (9, tt)]) ([], [IToken DESCRIPTOR; IStr "b"])) as (c & s & Hb & _ & _ & E & G & T & S);
    try reflexivity; try discriminate.
  exists ([], [IToken DESCRIPTOR; IStr "b"]), c, s. split; [exact Hb|]. split; [exact E|]. split; [exact (G 1 ltac:(lia))|]. split; [exact T|exact (S demo_new)].
Defined.
Definition demo_snapshot : Snapshot PixelMap := @ConvertToSnapshot demo_text (list Z) [7; 8; 9].
Definition demo_stored : Parcel := match MissionSnapshotSequence demo_snapshot Parcel_empty with inr p => p | inl _ => Parcel_empty end.
Lemma snapshot_read_back_witness : exists bytes, MissionSnapshotSequence demo_snapshot Parcel_empty = inr demo_stored /\ ReadBuffer demo_stored = Some bytes /\ Create bytes = Some demo_snapshot.
Proof.
  exists (parcel_bytes demo_stored). assert (MissionSnapshotSequence demo_snapshot Parcel_empty = inr demo_stored) as E by (vm_compute; reflexivity). split; [exact E|]. split; [exact eq_refl|].
  refine (snapshot_read_back demo_snapshot demo_stored _ _ E eq_refl _); [unfold snapshot_fits, rect_fits, is_i32; cbn; lia|vm_compute; reflexivity].
Defined.
